(* ===== verification/_CoqProject ===== *)
-Q . S2P
Prelude.v
Store.v
Dates.v
Text.v
Health.v
Schema.v
RowUpdates.v
Crypto.v
Totp.v
AuditLog.v
Catalogue.v
Authz.v
Settings.v
Auth.v
Directory.v
Pipeline.v
Devices.v
Gate.v
Account.v
Oidc.v
BackupPolicy.v
Workers.v
Backups.v
Wallboards.v
Monitors.v
Agents.v
Control.v
AgentBuilds.v
Mib.v
Probes.v
SnmpProfiles.v
Snmp.v
SnmpPoll.v
Ticker.v
Retention.v
PublicStatus.v
Regex.v
Smb.v
Scans.v
Reports.v
Live.v
Session.v
ReportExport.v
MonitorForm.v
Telemetry.v
Http.v
Admin.v
Screens.v
Series.v
Checks.v
Walls.v
Console.v
Operations.v
Copies.v
Ingest.v
