(* ===== verification/Prelude.v ===== *)
(** * Argus monitoring platform: a verification library

    Argus watches hosts, services, databases, shares and network devices. Agents push what they see
    to a backend, which derives events from it, keeps the live state and the history, and serves
    operators, wallboard displays and a public status page. This library models the TypeScript of
    the platform (under src/): the shared packages, the backend, the worker and the parts of the
    frontend that decide something, and proves what they promise. Every definition is executable;
    the main theorems that have a hypothesis are applied at a concrete input (the lemmas whose name
    ends in [_witness]).

    ** Parts, and the files that model them

    Groundwork. [Prelude] (results, JSON values, lists, options, tactics, the hint database
    [argus]), [Store] (the relational store as a class with laws, and two implementations), [Dates]
    and [Text] (what the sources use of JavaScript's dates, strings, numbers and buffers), [Regex]
    (its regular expressions), [Schema] and [RowUpdates] (packages/db: one record per table).

    Health and history. [Health] is packages/core/src/state.ts, uptime.ts and diff.ts: statuses,
    rollup, uptime and the events between two snapshots. [Pipeline] is services/pipeline.ts and
    ingest.ts: what a push does to the telemetry database. [Retention], [Reports], [PublicStatus],
    [Telemetry] read it or prune it: data retention, reports, the public page, the paged lists with
    the hook that turns their pages; [Series] is the history behind the graphs of a monitor (buckets,
    the forecast of a share, the chart's helpers); [ReportExport] is lib/reportExport.ts of the
    frontend.

    Access. [Crypto] and [Totp] (packages/core: secret envelopes, password hashes, one-time
    passwords), [Catalogue], [Authz] (permissions, the policy, the subject of a user, the route
    guard), [Settings], [Auth] (login, lockout, refresh tokens, sessions, second factor), [Directory]
    (users, groups, roles, the seed), [Gate] (the check of every request), [Account] (what a signed-in
    user does to the own account), [Oidc] (single sign-on), [AuditLog] (redaction and the audit row),
    [Http] (what every route has around its work), [Admin] (the routes of users, roles, groups,
    sessions, settings and permissions), [Session] (the browser's tokens and their refresh).

    Agents and monitors. [Agents] (registration, approval, connection keys), [Control] (the control
    channel: hub, commands, socket), [AgentBuilds] (builds, images and downloads), [Monitors]
    (monitors, their credentials, the configuration an agent pulls), [MonitorForm] (the form of a
    monitor), [Probes] (the scheduler of server-side checks), [Checks] (the checks it runs: HTTP,
    TCP, DNS, ping, and the DHCP leases of a FortiGate), [Mib], [SnmpProfiles], [Snmp], [SnmpPoll] (names,
    profiles, collector and scheduler of SNMP), [Smb] and [Scans] (reading shares, scanning folders).

    [Ingest] is the whole push of an agent (routes/agent-ingest.routes.ts): gate, leases, pipeline, prune,
    histories, messages. [Operations] is the routes of agents, connection keys and builds.

    Screens. [Devices] (pairing and tokens of displays), [Wallboards] (boards), [Ticker] (messages),
    [Screens] (their routes, and the page a display shows), [Walls] (the boards as operators build
    and edit them, what their widgets show), [Live] (the operators' live view, from the commit of a
    push to the browser). [Console] is the routes of SNMP profiles, retention, the public
    page, telemetry and the annotations of agents.

    Copies. [BackupPolicy] (names, schedules, retention), [Workers] (the scheduler), [Backups] (dump
    and restore), [Copies] (the routes of copies and reports, with the service around them).

    Each file opens with the sources it models. A definition has the name of its source where Rocq
    allows it. A handler is a function from the state and the parsed request to the new state and the
    reply; a database is a record of tables.

    ** How they interact

    A request goes through [Gate.authenticate] and [Authz.requirePermission] ([Http.guarded]) to its
    handler, which calls services on the tables and writes its audit row. A push of an agent goes
    through [Agents] and [Pipeline] and is published by [Live]; [Probes], [SnmpPoll] and [Scans] feed
    the same pipeline from the server. [Monitors] says what agents and schedulers do; [Control]
    carries commands. A client is proved against the interface of what it calls: [Store] with
    [StoreLaws] for every service; the classes [Sha256], [Scrypt], [Gcm], [Jwt] of node:crypto and the
    JWT plugin; [Idp] of identity providers, [Tools] of the compiler and archivers, [Locale] of the
    browser's texts, [PgTime] of the instants PostgreSQL reads, [Ties] of the order it gives rows that a
    query leaves unordered. Their laws are what is documented of them; witnesses instantiate them with
    concrete functions.

    ** What the theorems show

    Refinement and equivalence: derived events replay to the stored state ([Health.diffStates_replay],
    [Pipeline.processUnits_refines]); the guard implements the access policy ([Authz.authorize_spec]);
    the browser's live state mirrors the database ([Live.live_mirror]); SNMP polls refine their
    two-speed contract ([SnmpPoll.two_speeds]); symbol resolution and the uptime report equal their
    references ([Mib.resolution_complete], [Reports.uptime_report]).

    Safety: revocation is immediate ([Gate.revocation_immediate]), edits of access take effect at
    the next request and are accounted for ([Admin.access_edit_effective], [Admin.admin_accounted]),
    refresh tokens and sign-on states are used once ([Auth.rotate_single_use],
    [Oidc.sso_state_single_use]), audit rows show no secret ([AuditLog.redact_noninterference]), the
    public page no internal ([PublicStatus.status_private]), commands go to their agent
    ([Control.control_safety]), an agent needs an approval ([Agents.approval_needs_operator]), a push
    touches only its agent's own ([Ingest.ingest_own]), what is revoked opens nothing
    ([Operations.access_withdrawn]).

    Invariants and types: credentials of displays, profiles, schedulers that never overlap
    ([Devices.device_credentials], [SnmpProfiles.profiles_ok], [Probes.no_overlap]). Round trips:
    backup and restore (also through the routes, [Copies.restored_as_copied]), credentials, CSV of the
    texts RFC 4180 has ([ReportExport.csv_round_trip]), the form. Liveness and termination: pending commands are delivered, scans are never stuck, a display
    comes back or gives up ([Screens.screen_converges]), parsing ends. Bounds and errors: the
    forecast of a share ([Series.forecast_fits]), a check that is rejected before it starts never
    marks its monitor down ([Checks.rejected_never_down]), a wall shows what was saved
    ([Walls.wall_as_set]). Where the code does not do what it means to, a lemma states what it does
    ([Series.slow_growth_throws], [MonitorForm.legacy_oids_lost] and the like).

    ** State, concurrency, bounds and fuel

    Sequential services pass the state on. What is asynchronous ([Control], [Probes], [SnmpPoll],
    [Scans], [Live], [Session] with its page loads, [Telemetry]'s hook) is a machine: a task is what is left of a
    function at an [await], a step runs any task or takes a new event, and theorems hold of every
    interleaving, under the conditions it states; where one is needed, a lemma shows what happens
    without it ([Session.reload_loses_session], [Live.ghost_tile], [Scans.agent_report_hides_run]).
    Requests may fail ([Session], and [Screens], where each has its [fate]). Numbers of JavaScript are integers ([Z]) where the code keeps them whole and below
    2^53, rationals ([Q]) otherwise, and 32-bit where it uses the bit operators ([Totp], [Text]).
    Loops have the bound of the source where it has one (the walk's budget, the rounds of the MIB
    resolution, which are shown to end within one per definition and one). Otherwise they take fuel:
    a theorem shows that some fuel is enough ([Mib.parseMib_total], [Workers.isDue_terminates]), or
    that none is where the code diverges.

    ** Not modelled

    Third-party code: Drizzle and PostgreSQL beyond [Store], Fastify's routing and parsing, zod (a
    body is given as parsed, or rejected), net-snmp, smbclient, sockets, React's rendering. The
    transactions and isolation of the database: a service call is one step unless its file says
    otherwise. The Go agent. Markup, styles and the pages and components of the frontend that only
    show what hooks and routes give them; hooks that fetch one endpoint into a state; start-up,
    environment, registration and migrations, which are calls of libraries. In [Checks] a socket is
    the list of its events; the network, the name servers and ping are parameters. *)
From Stdlib Require Export Ascii String ZArith Lia QArith Qround Lqa Permutation Bool.
From stdpp Require Export base decidable list strings gmap sorting.
#[global] Open Scope Z_scope.
#[global] Open Scope list_scope.
#[global] Set Default Goal Selector "!".

Declare Scope argus_scope.
Delimit Scope argus_scope with argus.
#[global] Open Scope argus_scope.

Create HintDb argus.

(** ** Results of fallible code *)

(** A call that may throw: the value it returns or the exception it raises. *)
Inductive result (E A : Type) : Type :=
| Ok (a : A)
| Err (e : E).
Arguments Ok {E A} a.
Arguments Err {E A} e.

Notation "'let?' x ':=' c 'in' k" :=
  (match c with Ok x => k | Err e => Err e end)
  (at level 10, x pattern, c at level 100, k at level 200) : argus_scope.

Notation "'let!' x ':=' c 'otherwise' d 'in' k" :=
  (match c with Some x => k | None => d end)
  (at level 10, x pattern, c at level 100, d at level 100, k at level 200) : argus_scope.

Definition is_ok {E A} (r : result E A) : bool :=
  match r with Ok _ => true | Err _ => false end.

(** ** JSON values *)

(** A value of TypeScript type [unknown] that came from JSON. [undefined] is the
    [None] of an [option json]. A finite JS number is the rational it denotes. *)
Inductive json : Type :=
| JNull
| JBool (b : bool)
| JNum (q : Q)
| JStr (s : string)
| JArr (l : list json)
| JObj (m : list (string * json)).

Section json_ind.
Variable P : json -> Prop.
Hypothesis HNull : P JNull.
Hypothesis HBool : forall b, P (JBool b).
Hypothesis HNum : forall q, P (JNum q).
Hypothesis HStr : forall s, P (JStr s).
Hypothesis HArr : forall l, Forall P l -> P (JArr l).
Hypothesis HObj : forall m, Forall (fun kv => P (snd kv)) m -> P (JObj m).

Fixpoint json_rect_strong (j : json) : P j :=
  match j with
  | JNull => HNull
  | JBool b => HBool b
  | JNum q => HNum q
  | JStr s => HStr s
  | JArr l =>
      HArr l ((fix go l : Forall P l := match l with
                           | [] => Forall_nil_2 _
                           | x :: xs => Forall_cons_2 _ x xs (json_rect_strong x) (go xs)
                           end) l)
  | JObj m =>
      HObj m ((fix go m : Forall (fun kv => P (snd kv)) m := match m with
                           | [] => Forall_nil_2 _
                           | kv :: xs =>
                               Forall_cons_2 _ kv xs (json_rect_strong (snd kv)) (go xs)
                           end) m)
  end.
End json_ind.

(** [Math.round]: to the nearest integer, halves upwards. *)
Definition js_round (q : Q) : Z := Qfloor (q + (1 # 2)).

(** ** JavaScript collections *)

(** [Array.prototype.includes] on an array of strings. *)
Definition includes (xs : list string) (x : string) : bool :=
  existsb (String.eqb x) xs.

Section collections.
Context {A : Type} `{!EqDecision A}.

Definition mem (x : A) (l : list A) : bool := bool_decide (x ∈ l).

(** Adding to a JS [Set]: a present element keeps its place. *)
Definition set_add (x : A) (s : list A) : list A :=
  if mem x s then s else s ++ [x].

(** [new Set(xs)], iterated in insertion order. *)
Definition js_set (xs : list A) : list A := fold_left (fun s x => set_add x s) xs [].

Context {V : Type}.

(** A JS [Map] as its entries in insertion order. *)
Fixpoint map_get (k : A) (m : list (A * V)) : option V :=
  match m with
  | [] => None
  | (k', v) :: m' => if decide (k = k') then Some v else map_get k m'
  end.

(** [Map.prototype.set]: overwrite in place, or append. *)
Fixpoint map_set (k : A) (v : V) (m : list (A * V)) : list (A * V) :=
  match m with
  | [] => [(k, v)]
  | (k', v') :: m' => if decide (k = k') then (k', v) :: m' else (k', v') :: map_set k v m'
  end.
End collections.

(** [new Map(l.map((r) => [key(r), value(r)]))] *)
Definition js_map {R A V} `{!EqDecision A} (key : R -> A) (value : R -> V) (l : list R)
  : list (A * V) := fold_left (fun m r => map_set (key r) (value r) m) l [].

(** ** [Array.prototype.sort] with a comparator

    The standard requires the sort to be stable. [gt a b] is [cmp(a, b) > 0]. *)
Section sorting.
Context {A : Type} (gt : A -> A -> bool).

Fixpoint sort_insert (x : A) (l : list A) : list A :=
  match l with
  | [] => [x]
  | y :: l' => if gt x y then y :: sort_insert x l' else x :: y :: l'
  end.

Definition js_sort (l : list A) : list A := foldr sort_insert [] l.
End sorting.

(** ** Lemmas shared by the components *)

Lemma app_cons_string c (s1 s2 : string) : String c s1 +:+ s2 = String c (s1 +:+ s2).
Proof. done. Qed.

Lemma app_nil_string (s : string) : "" +:+ s = s.
Proof. done. Qed.

Lemma str_app_assoc (s1 s2 s3 : string) : (s1 +:+ s2) +:+ s3 = s1 +:+ (s2 +:+ s3).
Proof. induction s1 as [|c s1 IH]; [done|]. rewrite !app_cons_string. by rewrite IH. Qed.

Lemma str_app_nil_r (s : string) : s +:+ "" = s.
Proof. induction s as [|c s IH]; [done|]. by rewrite app_cons_string, IH. Qed.

Lemma str_length_app (s1 s2 : string) :
  String.length (s1 +:+ s2) = (String.length s1 + String.length s2)%nat.
Proof. induction s1 as [|c s1 IH]; [done|]. rewrite app_cons_string. simpl. by rewrite IH. Qed.

Lemma str_app_inj_length (s1 s2 t1 t2 : string) :
  String.length s1 = String.length t1 -> s1 +:+ s2 = t1 +:+ t2 -> s1 = t1 /\ s2 = t2.
Proof.
  revert t1. induction s1 as [|c s1 IH]; intros [|d t1]; try done.
  rewrite !app_cons_string. simpl. intros Hl He. injection He as -> He. destruct (IH t1) as [-> ->]; [lia|done|done].
Qed.

Lemma substring_skip p s n : substring (String.length p) n (p +:+ s) = substring 0 n s.
Proof.
  induction p as [|c p IH]; [by rewrite app_nil_string|]. by rewrite app_cons_string.
Qed.

Lemma substring_all n s : (String.length s <= n)%nat -> substring 0 n s = s.
Proof.
  revert s. induction n as [|n IH]; intros [|c s] Hn; simpl in *; try done; [lia|].
  by rewrite IH by lia.
Qed.

Lemma js_round_mono p q : (p <= q)%Q -> js_round p <= js_round q.
Proof. intros H. apply Qfloor_resp_le. lra. Qed.

Lemma js_round_inject_Z n : js_round (inject_Z n) = n.
Proof.
  unfold js_round. pose proof (Qfloor_le (inject_Z n + (1 # 2))) as H1.
  pose proof (Qlt_floor (inject_Z n + (1 # 2))) as H2.
  set (f := Qfloor _) in *. clearbody f. rewrite inject_Z_plus in H2. change (inject_Z 1) with 1%Q in H2.
  assert (inject_Z f < inject_Z (n + 1))%Q as Ha
    by (rewrite inject_Z_plus; change (inject_Z 1) with 1%Q; lra).
  assert (inject_Z (n - 1) < inject_Z f)%Q as Hb
    by (replace (n - 1) with (n + -1) by lia; rewrite inject_Z_plus;
        change (inject_Z (-1)) with (-1)%Q; lra).
  rewrite <- Zlt_Qlt in Ha, Hb. lia.
Qed.

Lemma is_ok_true {E A} (r : result E A) : is_ok r = true <-> exists a, r = Ok a.
Proof. destruct r; naive_solver. Qed.

Lemma includes_true xs x : includes xs x = true <-> x ∈ xs.
Proof.
  unfold includes. rewrite existsb_exists. split.
  - intros (y & Hy & ->%String.eqb_eq). by apply list_elem_of_In.
  - intros Hx%list_elem_of_In. exists x. by rewrite String.eqb_refl.
Qed.

Lemma includes_false xs x : includes xs x = false <-> x ∉ xs.
Proof. rewrite <- includes_true. by destruct (includes xs x). Qed.

Lemma existsb_true {A} (p : A -> bool) l :
  existsb p l = true <-> exists x, x ∈ l /\ p x = true.
Proof.
  rewrite existsb_exists. split; intros (x & Hx & Hp); exists x; split; auto;
    by apply list_elem_of_In.
Qed.

Lemma existsb_false {A} (p : A -> bool) l :
  existsb p l = false <-> forall x, x ∈ l -> p x = false.
Proof.
  rewrite <- not_true_iff_false, existsb_true. split.
  - intros H x Hx. apply not_true_iff_false. naive_solver.
  - intros H (x & Hx & Hp). rewrite H in Hp; done.
Qed.

Lemma forallb_true {A} (p : A -> bool) l :
  forallb p l = true <-> forall x, x ∈ l -> p x = true.
Proof.
  rewrite forallb_forall. by setoid_rewrite <- list_elem_of_In.
Qed.

Lemma elem_of_filterb {A} (p : A -> bool) l x :
  x ∈ List.filter p l <-> x ∈ l /\ p x = true.
Proof. by rewrite !list_elem_of_In, filter_In. Qed.

Lemma elem_of_map {A B} (f : A -> B) l y :
  y ∈ map f l <-> exists x, y = f x /\ x ∈ l.
Proof.
  rewrite list_elem_of_In, in_map_iff. setoid_rewrite <- list_elem_of_In. naive_solver.
Qed.

#[export] Instance filterb_perm {A} (p : A -> bool) : Proper ((≡ₚ) ==> (≡ₚ)) (List.filter p).
Proof.
  intros l1 l2 H. induction H as [|x l1 l2 H IH|x y l|l1 l2 l3 H1 IH1 H2 IH2]; simpl; [done|..].
  - destruct (p x); by rewrite IH.
  - destruct (p x), (p y); try done. constructor.
  - by rewrite IH1.
Qed.

Lemma NoDup_filterb {A} (p : A -> bool) l : NoDup l -> NoDup (List.filter p l).
Proof.
  induction 1 as [|x l Hx Hl IH]; simpl; [constructor|].
  destruct (p x); [|done]. constructor; [|done]. rewrite elem_of_filterb. tauto.
Qed.

Lemma filterb_nil {A} (p : A -> bool) l :
  List.filter p l = [] <-> forall x, x ∈ l -> p x = false.
Proof.
  split.
  - intros Hf x Hx. destruct (p x) eqn:Hp; [|done].
    assert (x ∈ List.filter p l) by by apply elem_of_filterb. rewrite Hf in *. set_solver.
  - intros H. destruct (List.filter p l) as [|x l'] eqn:Hf; [done|].
    assert (x ∈ List.filter p l) as [Hx Hp]%elem_of_filterb by (rewrite Hf; set_solver).
    by rewrite H in Hp.
Qed.

#[export] Hint Rewrite @includes_true @includes_false @existsb_true @existsb_false
  @forallb_true @elem_of_filterb @elem_of_map andb_true_iff orb_true_iff negb_true_iff
  andb_false_iff orb_false_iff negb_false_iff String.eqb_eq String.eqb_neq
  Z.eqb_eq Z.ltb_lt Z.leb_le Z.eqb_neq Z.ltb_ge Z.leb_gt bool_decide_eq_true
  bool_decide_eq_false : argus.

(** Membership in a literal list. *)
Ltac in_list := repeat first [apply list_elem_of_here | apply list_elem_of_further].

(** Reflect every boolean test of the context and the goal into a proposition. *)
Ltac reflect := autorewrite with argus in *.

(** Case analysis on an integer variable known to lie in [0, k). *)
Ltac each_value_from x lo k :=
  lazymatch k with
  | O => exfalso; lia
  | S ?k' =>
      let hi := eval vm_compute in (lo + 1) in
      destruct (Z.eq_dec x lo); [subst x | each_value_from x hi k']
  end.
Ltac each_value x k := let n := eval vm_compute in (Z.to_nat k) in each_value_from x 0 n.

(** Case analysis on the scrutinee of a [match] or [if] of the goal. *)
Ltac case_match_goal :=
  match goal with
  | |- context [match ?x with _ => _ end] =>
      lazymatch x with
      | context [match _ with _ => _ end] => fail
      | _ => destruct x eqn:?
      end
  end.

Section collection_lemmas.
Context {A : Type} `{!EqDecision A}.

Lemma mem_true (x : A) l : mem x l = true <-> x ∈ l.
Proof. apply bool_decide_eq_true. Qed.

Lemma elem_of_set_add (x y : A) s : y ∈ set_add x s <-> y = x \/ y ∈ s.
Proof. unfold set_add, mem. case_bool_decide; set_solver. Qed.

Lemma NoDup_set_add (x : A) s : NoDup s -> NoDup (set_add x s).
Proof.
  unfold set_add, mem. case_bool_decide; [done|]. intros Hs.
  apply NoDup_app. split; [done|]. split; [set_solver|].
  apply NoDup_singleton.
Qed.

Lemma elem_of_fold_set_add (xs : list A) s y :
  y ∈ fold_left (fun s x => set_add x s) xs s <-> y ∈ xs \/ y ∈ s.
Proof.
  revert s. induction xs as [|x xs IH]; intros s; simpl; [set_solver|].
  rewrite IH, elem_of_set_add. set_solver.
Qed.

Lemma elem_of_js_set (xs : list A) y : y ∈ js_set xs <-> y ∈ xs.
Proof. unfold js_set. rewrite elem_of_fold_set_add. set_solver. Qed.

Lemma NoDup_fold_set_add (xs : list A) s :
  NoDup s -> NoDup (fold_left (fun s x => set_add x s) xs s).
Proof.
  revert s. induction xs as [|x xs IH]; intros s Hs; simpl; [done|].
  by apply IH, NoDup_set_add.
Qed.

Lemma NoDup_js_set (xs : list A) : NoDup (js_set xs).
Proof. apply NoDup_fold_set_add. constructor. Qed.

Context {V : Type}.
Implicit Types m : list (A * V).

Lemma map_get_set_eq k v m : map_get k (map_set k v m) = Some v.
Proof.
  induction m as [|[k' v'] m IH]; simpl.
  - by rewrite decide_True.
  - destruct (decide (k = k')) as [->|]; simpl; [by rewrite decide_True|].
    by rewrite decide_False.
Qed.

Lemma map_get_set_ne k k' v m : k <> k' -> map_get k' (map_set k v m) = map_get k' m.
Proof.
  intros Hne. induction m as [|[k1 v1] m IH]; simpl.
  - by rewrite decide_False by done.
  - destruct (decide (k = k1)) as [<-|]; simpl; [by rewrite !decide_False by done|].
    by rewrite IH.
Qed.

Lemma map_get_Some k v m : map_get k m = Some v -> (k, v) ∈ m.
Proof.
  induction m as [|[k1 v1] m IH]; simpl; [done|].
  destruct (decide (k = k1)) as [->|]; set_solver.
Qed.

Lemma map_get_None k m : map_get k m = None <-> k ∉ map fst m.
Proof.
  induction m as [|[k1 v1] m IH]; simpl; [set_solver|].
  destruct (decide (k = k1)) as [->|]; [set_solver|]. rewrite IH. set_solver.
Qed.

Lemma keys_map_set k v m : map fst (map_set k v m) = set_add k (map fst m).
Proof.
  unfold set_add.
  induction m as [|[k1 v1] m IH]; [done|]. simpl map_set.
  destruct (decide (k = k1)) as [->|Hne]; simpl map.
  - by rewrite (proj2 (mem_true k1 _)) by set_solver.
  - rewrite IH. destruct (mem k (map fst m)) eqn:Hm.
    + apply mem_true in Hm. by rewrite (proj2 (mem_true k _)) by set_solver.
    + destruct (mem k (k1 :: map fst m)) eqn:Hm'; [|done].
      apply mem_true, elem_of_cons in Hm' as [?|Hm'%mem_true]; congruence.
Qed.
End collection_lemmas.

Section js_map_lemmas.
Context {R A V : Type} `{!EqDecision A} (key : R -> A) (value : R -> V).

Lemma map_get_fold_other k l m :
  (forall r, r ∈ l -> key r <> k) ->
  map_get k (fold_left (fun m r => map_set (key r) (value r) m) l m) = map_get k m.
Proof.
  revert m. induction l as [|r l IH]; intros m Hl; [done|]. simpl.
  rewrite IH by set_solver. apply map_get_set_ne. set_solver.
Qed.

(** With distinct keys every row is found under its key. *)
Lemma map_get_js_map l r :
  NoDup (map key l) -> r ∈ l -> map_get (key r) (js_map key value l) = Some (value r).
Proof.
  unfold js_map. generalize (@nil (A * V)). induction l as [|x l IH]; intros m Hnd Hr; [set_solver|].
  simpl in *. apply NoDup_cons in Hnd as [Hx Hnd].
  apply elem_of_cons in Hr as [->|Hr]; [|by apply IH].
  rewrite map_get_fold_other; [apply map_get_set_eq|].
  intros y Hy He. apply Hx. apply elem_of_map. by exists y.
Qed.

Lemma map_get_js_map_Some l k v :
  map_get k (js_map key value l) = Some v -> exists r, r ∈ l /\ key r = k /\ value r = v.
Proof.
  unfold js_map. enough (forall m, map_get k (fold_left (fun m r => map_set (key r) (value r) m) l m)
    = Some v -> (exists r, r ∈ l /\ key r = k /\ value r = v) \/ map_get k m = Some v) as He.
  { intros H. destruct (He [] H) as [|]; [done|simplify_eq/=]. }
  induction l as [|x l IH]; intros m H; [by right|]. simpl in H.
  destruct (IH _ H) as [(r & Hr & Hk)|Hm]; [left; exists r; set_solver|].
  destruct (decide (key x = k)) as [<-|Hne].
  - rewrite map_get_set_eq in Hm. left. exists x. split; [set_solver|]. naive_solver.
  - rewrite map_get_set_ne in Hm by done. by right.
Qed.
End js_map_lemmas.

Lemma map_get_filter_key {V} (p : string -> bool) k (m : list (string * V)) :
  map_get k (List.filter (fun x => p (fst x)) m) = if p k then map_get k m else None.
Proof.
  induction m as [|[k' v] m IH]; simpl; [by destruct (p k)|].
  destruct (p k') eqn:Hp; simpl; destruct (decide (k = k')) as [->|]; try done; by rewrite ?IH, ?Hp.
Qed.

Lemma StronglySorted_mono {A} (R S : A -> A -> Prop) l :
  (forall a b, R a b -> S a b) -> StronglySorted R l -> StronglySorted S l.
Proof. intros H. induction 1 as [|a l _ IH Ha]; constructor; [done|]. eapply Forall_impl; eauto. Qed.

Section sort_lemmas.
Context {A : Type} (gt : A -> A -> bool).

Lemma sort_insert_perm x l : sort_insert gt x l ≡ₚ x :: l.
Proof.
  induction l as [|y l IH]; simpl; [done|].
  destruct (gt x y); [|done]. rewrite IH. constructor.
Qed.

Lemma js_sort_perm l : js_sort gt l ≡ₚ l.
Proof.
  induction l as [|x l IH]; simpl; [done|]. by rewrite sort_insert_perm, IH.
Qed.

Lemma elem_of_js_sort x l : x ∈ js_sort gt l <-> x ∈ l.
Proof. by rewrite js_sort_perm. Qed.

(** The comparator orders: [a] may stand before [b]. *)
Let le a b := gt a b = false.

Lemma js_sort_sorted l :
  (forall a b, gt a b = true -> gt b a = false) ->
  (forall a b c, le a b -> le b c -> le a c) ->
  StronglySorted le (js_sort gt l).
Proof.
  intros Hasym Htrans.
  assert (Hins : forall x s, StronglySorted le s -> StronglySorted le (sort_insert gt x s)).
  { intros x s Hs. induction Hs as [|y s Hs IH Hy]; simpl; [repeat constructor|].
    destruct (gt x y) eqn:Hxy.
    - constructor; [done|]. rewrite sort_insert_perm. constructor; [|done].
      by apply Hasym.
    - repeat (constructor; auto). eapply Forall_impl; [exact Hy|]. eauto. }
  induction l; simpl; [constructor|]. auto.
Qed.

Lemma sort_insert_stable (p : A -> bool) x l :
  (forall a b, p a = true -> p b = true -> gt a b = false) ->
  List.filter p (sort_insert gt x l) = List.filter p (x :: l).
Proof.
  intros Hp. induction l as [|y l IH]; simpl; [done|].
  destruct (gt x y) eqn:Hxy; simpl; [|done].
  rewrite IH; simpl.
  destruct (p x) eqn:Hx, (p y) eqn:Hy; try done.
  by rewrite Hp in Hxy.
Qed.

(** Elements the comparator does not separate keep their input order. *)
Lemma js_sort_stable (p : A -> bool) l :
  (forall a b, p a = true -> p b = true -> gt a b = false) ->
  List.filter p (js_sort gt l) = List.filter p l.
Proof.
  intros Hp. induction l as [|x l IH]; [done|].
  unfold js_sort in *; simpl foldr. rewrite sort_insert_stable by done.
  simpl. by rewrite IH.
Qed.
End sort_lemmas.
