(* ===== verification/Store.v ===== *)
(** * The relational store

    Argus reaches PostgreSQL through Drizzle; neither is part of the repository.
    This file states, as a type class, what the services rely on: a table is a
    multiset of rows that [select], [insert], [update ... where] and
    [delete ... where] read and change. [select] without [order by] returns the
    rows in an order the database chooses. Services are proved against the class;
    [list_store] is one implementation, used to evaluate them. *)
From S2P Require Import Prelude.

(** The operations of a table store; [T R] is the type of tables of rows [R]. *)
Class Store (T : Type -> Type) : Type := {
  empty_table : forall {R}, T R;
  rows : forall {R}, T R -> list R;
  insert_row : forall {R}, R -> T R -> T R;
  update_where : forall {R}, (R -> bool) -> (R -> R) -> T R -> T R;
  delete_where : forall {R}, (R -> bool) -> T R -> T R
}.

(** What SQL documents about them. *)
Class StoreLaws (T : Type -> Type) `{!Store T} : Prop := {
  rows_empty : forall R, rows (empty_table : T R) = [];
  rows_insert : forall R (r : R) (t : T R), rows (insert_row r t) ≡ₚ r :: rows t;
  rows_update : forall R p (f : R -> R) (t : T R),
    rows (update_where p f t) ≡ₚ map (fun r => if p r then f r else r) (rows t);
  rows_delete : forall R p (t : T R),
    rows (delete_where p t) ≡ₚ List.filter (fun r => negb (p r)) (rows t)
}.

(** A heap kept as a list; an update rewrites rows in place. *)
#[export] Instance list_store : Store list := {|
  empty_table R := [];
  rows R t := t;
  insert_row R r t := t ++ [r];
  update_where R p f t := map (fun r => if p r then f r else r) t;
  delete_where R p t := List.filter (fun r => negb (p r)) t
|}.

#[export] Instance list_store_laws : StoreLaws list.
Proof. split; try done. intros R r t. apply Permutation_sym, Permutation_cons_append. Qed.

(** A heap that moves every updated row to its end, as a multi-version store
    does: a lawful store need not keep the row order. *)
Record mvcc (R : Type) : Type := Mvcc { heap : list R }.
Arguments Mvcc {R} heap.
Arguments heap {R} m.

#[export] Instance mvcc_store : Store mvcc := {|
  empty_table R := Mvcc [];
  rows R t := heap t;
  insert_row R r t := Mvcc (heap t ++ [r]);
  update_where R p f t :=
    Mvcc (List.filter (fun r => negb (p r)) (heap t) ++ map f (List.filter p (heap t)));
  delete_where R p t := Mvcc (List.filter (fun r => negb (p r)) (heap t))
|}.

Section queries.
Context {T : Type -> Type} `{!Store T} {R : Type}.
Implicit Types (t : T R) (r : R) (p : R -> bool).

(** [db.select().from(t).where(p)] *)
Definition select p t : list R := List.filter p (rows t).

(** [const [row] = await db.select().from(t).where(p).limit(1)] *)
Definition select_first p t : option R := head (select p t).

(** [insert ... values (r)] into a table with unique columns; [conflict] is
    equality on them. [None] is the unique-violation error. *)
Definition insert_unique (conflict : R -> R -> bool) r t : option (T R) :=
  if existsb (conflict r) (rows t) then None else Some (insert_row r t).

(** [insert ... on conflict do nothing] *)
Definition insert_ignore (conflict : R -> R -> bool) r t : T R :=
  if existsb (conflict r) (rows t) then t else insert_row r t.

(** [insert ... on conflict do update set] *)
Definition upsert (conflict : R -> R -> bool) r (set : R -> R) t : T R :=
  if existsb (conflict r) (rows t) then update_where (conflict r) set t
  else insert_row r t.

(** [insert ... values (rs)] into a table without unique columns. *)
Definition insert_all (rs : list R) t : T R := fold_left (fun t r => insert_row r t) rs t.

(** [insert ... values (rs) on conflict do nothing]: a row also yields to an earlier one of
    the same statement. *)
Definition insert_all_ignore (conflict : R -> R -> bool) (rs : list R) t : T R :=
  fold_left (fun t r => insert_ignore conflict r t) rs t.

(** Two tables hold the same rows. *)
Definition same_rows (t1 t2 : T R) : Prop := rows t1 ≡ₚ rows t2.

(** The column(s) [key] identify a row. *)
Definition unique_key {K} (key : R -> K) t : Prop := NoDup (map key (rows t)).
End queries.

#[export] Instance mvcc_store_laws : StoreLaws mvcc.
Proof.
  split; try done.
  - intros R r t. apply Permutation_sym, Permutation_cons_append.
  - intros R p f [l]; simpl. induction l as [|x l IH]; simpl; [done|].
    destruct (p x); simpl; rewrite <- IH; simpl; by rewrite <- ?Permutation_middle.
Qed.

Section store_lemmas.
Context {T : Type -> Type} `{!Store T, !StoreLaws T} {R : Type}.
Implicit Types (t : T R) (r : R) (p : R -> bool).

#[export] Instance same_rows_equivalence : Equivalence (same_rows (T := T) (R := R)).
Proof.
  split.
  - intros t. apply Permutation_refl.
  - intros t1 t2. apply Permutation_sym.
  - intros t1 t2 t3. apply Permutation_trans.
Qed.

#[export] Instance insert_row_proper r :
  Proper (same_rows ==> same_rows) (insert_row (T := T) r).
Proof. intros t1 t2 H. unfold same_rows in *. by rewrite !rows_insert, H. Qed.

#[export] Instance update_where_proper p f :
  Proper (same_rows ==> same_rows) (update_where (T := T) p f).
Proof. intros t1 t2 H. unfold same_rows in *. by rewrite !rows_update, H. Qed.

#[export] Instance delete_where_proper p :
  Proper (same_rows ==> same_rows) (delete_where (T := T) p).
Proof.
  intros t1 t2 H. unfold same_rows in *. rewrite !rows_delete. clear -H.
  induction H as [|x l1 l2 H IH|x y l|l1 l2 l3 H1 IH1 H2 IH2]; simpl; [done|..].
  - by destruct (p x); simpl; rewrite IH.
  - destruct (p x), (p y); simpl; try done. constructor.
  - by rewrite IH1.
Qed.

Lemma elem_of_empty r : r ∈ rows (empty_table : T R) <-> False.
Proof. rewrite rows_empty. set_solver. Qed.

Lemma elem_of_insert r x t : x ∈ rows (insert_row r t) <-> x = r \/ x ∈ rows t.
Proof. rewrite rows_insert. set_solver. Qed.

Lemma elem_of_update p f x t :
  x ∈ rows (update_where p f t) <->
  exists r, r ∈ rows t /\ x = if p r then f r else r.
Proof. rewrite rows_update, elem_of_map. naive_solver. Qed.

Lemma elem_of_delete p x t : x ∈ rows (delete_where p t) <-> x ∈ rows t /\ p x = false.
Proof. rewrite rows_delete, elem_of_filterb, negb_true_iff. done. Qed.

Lemma elem_of_select p x t : x ∈ select p t <-> x ∈ rows t /\ p x = true.
Proof. apply elem_of_filterb. Qed.

Lemma elem_of_insert_all rs x t : x ∈ rows (insert_all rs t) <-> x ∈ rs \/ x ∈ rows t.
Proof.
  revert t. induction rs as [|r rs IH]; intros t; simpl; [set_solver|].
  unfold insert_all in *. rewrite IH, elem_of_insert. set_solver.
Qed.

Lemma elem_of_insert_ignore conflict r x t :
  (forall a b, conflict a b = true <-> a = b) ->
  x ∈ rows (insert_ignore conflict r t) <-> x = r \/ x ∈ rows t.
Proof.
  intros Hc. unfold insert_ignore. destruct (existsb _ _) eqn:He.
  - apply existsb_true in He as (y & Hy & <-%Hc). naive_solver.
  - apply elem_of_insert.
Qed.

Lemma elem_of_insert_all_ignore conflict rs x t :
  (forall a b, conflict a b = true <-> a = b) ->
  x ∈ rows (insert_all_ignore conflict rs t) <-> x ∈ rs \/ x ∈ rows t.
Proof.
  intros Hc. revert t. induction rs as [|r rs IH]; intros t; simpl; [set_solver|].
  unfold insert_all_ignore in *. rewrite IH, elem_of_insert_ignore by done. set_solver.
Qed.

Lemma rows_insert_all rs t : rows (insert_all rs t) ≡ₚ rs ++ rows t.
Proof.
  revert t. induction rs as [|r rs IH]; intros t; simpl; [done|].
  unfold insert_all in *. rewrite IH, rows_insert. by rewrite Permutation_middle.
Qed.

Lemma select_first_Some p r t : select_first p t = Some r -> r ∈ rows t /\ p r = true.
Proof.
  unfold select_first. intros H. apply elem_of_select.
  destruct (select p t); simplify_eq/=. set_solver.
Qed.

Lemma select_first_None p t :
  select_first p t = None <-> forall r, r ∈ rows t -> p r = false.
Proof.
  unfold select_first. split.
  - intros H r Hr. destruct (p r) eqn:Hp; [|done].
    assert (Hs : r ∈ select p t) by by apply elem_of_select.
    destruct (select p t); set_solver.
  - intros H. destruct (select p t) as [|r l] eqn:Hs; [done|].
    assert (r ∈ select p t) as [Hr Hp]%elem_of_select by (rewrite Hs; set_solver).
    by rewrite H in Hp.
Qed.

Lemma unique_key_inj {K} (key : R -> K) t r1 r2 :
  unique_key key t -> r1 ∈ rows t -> r2 ∈ rows t -> key r1 = key r2 -> r1 = r2.
Proof.
  unfold unique_key. intros Hnd H1 H2 Hk.
  apply list_elem_of_lookup in H1 as [i Hi]. apply list_elem_of_lookup in H2 as [j Hj].
  assert (i = j) as ->; [|congruence].
  eapply NoDup_lookup; [exact Hnd|..]; rewrite list_lookup_fmap;
    [by rewrite Hi | by rewrite Hj; simpl; rewrite Hk].
Qed.

(** With a unique key, [limit 1] finds the row whatever order the rows have. *)
Lemma select_first_key {K} (key : R -> K) p t r :
  unique_key key t -> r ∈ rows t ->
  p r = true -> (forall r', p r' = true -> key r' = key r) ->
  select_first p t = Some r.
Proof.
  intros Hu Hr Hp Hk. destruct (select_first p t) as [r'|] eqn:Hs.
  - apply select_first_Some in Hs as [Hr' Hp']. f_equal.
    eapply unique_key_inj; eauto.
  - rewrite select_first_None in Hs. rewrite Hs in Hp; done.
Qed.

Lemma unique_key_insert {K} (key : R -> K) r t :
  unique_key key t -> (forall r', r' ∈ rows t -> key r' <> key r) ->
  unique_key key (insert_row r t).
Proof.
  unfold unique_key. intros Hu Hne. rewrite rows_insert; simpl. constructor; [|done].
  rewrite elem_of_map. intros (r' & He & Hr'). by eapply Hne.
Qed.

Lemma unique_key_update {K} (key : R -> K) p f t :
  (forall r, key (f r) = key r) -> unique_key key t -> unique_key key (update_where p f t).
Proof.
  unfold unique_key. intros Hk Hu. rewrite rows_update, map_map.
  erewrite map_ext; [exact Hu|]. intros r; simpl. by destruct (p r).
Qed.

Lemma unique_key_delete {K} (key : R -> K) p t :
  unique_key key t -> unique_key key (delete_where p t).
Proof.
  unfold unique_key. intros Hu. rewrite rows_delete. revert Hu.
  induction (rows t) as [|r l IH]; simpl; [done|].
  intros [Hn Hu]%NoDup_cons. destruct (p r); simpl; [auto|].
  constructor; [|auto]. rewrite elem_of_map in *. setoid_rewrite elem_of_filterb.
  naive_solver.
Qed.

(** A loop that updates each row it has read, by its key, is one map over the table. *)
Lemma rows_update_loop {K} (key : R -> K) (same : R -> R -> bool) (f : R -> option (R -> R)) t :
  unique_key key t -> (forall a b, same a b = true <-> key b = key a) ->
  (forall r g, f r = Some g -> key (g r) = key r) ->
  rows (fold_left (fun t row => match f row with
                                | Some g => update_where (same row) g t | None => t end) (rows t) t)
  ≡ₚ map (fun r => match f r with Some g => g r | None => r end) (rows t).
Proof.
  intros Hu Hs Hf.
  assert (Hloop : forall l rest t', NoDup (map key (l ++ rest)) -> rows t' ≡ₚ l ++ rest ->
    rows (fold_left (fun t row => match f row with
                                  | Some g => update_where (same row) g t | None => t end) l t')
    ≡ₚ map (fun r => match f r with Some g => g r | None => r end) l ++ rest).
  { induction l as [|x l IH]; intros rest t' Hnd Ht; simpl; [done|].
    set (y := match f x with Some g => g x | None => x end).
    assert (Hy : key y = key x) by (unfold y; destruct (f x) eqn:He; [by apply Hf|done]).
    simpl in Hnd. pose proof Hnd as [Hn Hnd']%NoDup_cons.
    rewrite (IH (y :: rest)); [by rewrite <- Permutation_middle|..].
    - rewrite map_app in *. simpl. rewrite <- Permutation_middle, Hy. done.
    - rewrite <- Permutation_middle. unfold y. destruct (f x) as [g|] eqn:He; [|exact Ht].
      rewrite rows_update, Ht. simpl. rewrite (proj2 (Hs x x) eq_refl). f_equiv.
      erewrite map_ext_in; [by rewrite map_id|]. intros z Hz%list_elem_of_In. simpl.
      destruct (same x z) eqn:Hxz; [|done]. apply Hs in Hxz. destruct Hn. apply elem_of_map.
      exists z. split; [congruence|done]. }
  rewrite (Hloop (rows t) [] t); [by rewrite app_nil_r|by rewrite app_nil_r|by rewrite app_nil_r].
Qed.

Lemma unique_key_upsert {K} (key : R -> K) conflict f r t :
  (forall x, key (f x) = key x) ->
  (forall x, key x = key r -> conflict r x = true) ->
  unique_key key t -> unique_key key (upsert conflict r f t).
Proof.
  intros Hf Hc Hu. unfold upsert. destruct (existsb _ _) eqn:He.
  - by apply unique_key_update.
  - apply unique_key_insert; [done|]. rewrite existsb_false in He.
    intros r' Hr' Hk. specialize (He r' Hr'). rewrite Hc in He; done.
Qed.

(** Under a unique key, a row is found by its key exactly when it is in the table. *)
Lemma select_first_iff {K} (key : R -> K) k p t r :
  unique_key key t -> (forall x, p x = true <-> key x = k) ->
  select_first p t = Some r <-> r ∈ rows t /\ key r = k.
Proof.
  intros Hu Hp. split.
  - intros [Hr Hpr]%select_first_Some. by rewrite <- Hp.
  - intros [Hr Hk]. apply (select_first_key key); [done|done|by apply Hp|].
    intros r' Hr'%Hp. congruence.
Qed.

(** Reading by key after the row was updated. *)
Lemma select_first_update {K} (key : R -> K) k p f t x :
  unique_key key t -> (forall x, p x = true <-> key x = k) -> (forall x, key (f x) = key x) ->
  select_first p t = Some x -> select_first p (update_where p f t) = Some (f x).
Proof.
  intros Hu Hp Hf Hs. pose proof (select_first_Some _ _ _ Hs) as [Hx Hpx].
  apply (select_first_iff key k); [by apply unique_key_update|done|].
  split; [|rewrite Hf; by apply Hp]. apply elem_of_update. exists x. by rewrite Hpx.
Qed.

(** Reading by key after an upsert. *)
Lemma select_first_upsert {K} `{!EqDecision K} (key : R -> K) k p conflict f r t :
  unique_key key t -> (forall x, p x = true <-> key x = k) ->
  (forall x, conflict r x = true <-> key x = key r) -> (forall x, key (f x) = key x) ->
  select_first p (upsert conflict r f t) =
  if decide (k = key r)
  then Some (match select_first p t with Some x => f x | None => r end)
  else select_first p t.
Proof.
  intros Hu Hp Hc Hf.
  assert (Hu' : unique_key key (upsert conflict r f t))
    by (apply unique_key_upsert; [done| |done]; intros x Hx; by apply Hc).
  destruct (decide (k = key r)) as [->|Hne].
  - destruct (select_first p t) as [x|] eqn:Hs;
      apply (select_first_iff key (key r) p _ _ Hu' Hp); unfold upsert.
    + apply (select_first_iff key (key r)) in Hs as [Hx Hk]; [|done|done].
      assert (existsb (conflict r) (rows t) = true) as -> by
        (apply existsb_true; exists x; split; [done|by apply Hc]).
      split; [|by rewrite Hf]. apply elem_of_update. exists x. split; [done|].
      by rewrite (proj2 (Hc x) Hk).
    + rewrite select_first_None in Hs. assert (existsb (conflict r) (rows t) = false) as ->.
      { apply existsb_false. intros x Hx. apply not_true_iff_false. rewrite Hc.
        specialize (Hs x Hx). rewrite <- not_true_iff_false, Hp in Hs. done. }
      split; [|done]. apply elem_of_insert. by left.
  - assert (Hin : forall x, key x = k -> x ∈ rows (upsert conflict r f t) <-> x ∈ rows t).
    { intros x Hx. unfold upsert. destruct (existsb _ _).
      - rewrite elem_of_update. split.
        + intros (y & Hy & ->). destruct (conflict r y) eqn:E; [|done].
          apply Hc in E. rewrite Hf in Hx. congruence.
        + intros Hx'. exists x. split; [done|]. destruct (conflict r x) eqn:E; [|done].
          apply Hc in E. congruence.
      - rewrite elem_of_insert. split; [|by right]. intros [->|]; [congruence|done]. }
    destruct (select_first p t) as [x|] eqn:Hs.
    + apply (select_first_iff key k) in Hs as [Hx Hk]; [|done|done].
      apply (select_first_iff key k); [done|done|]. split; [by apply Hin|done].
    + rewrite select_first_None in *. intros x Hx. apply not_true_iff_false. rewrite Hp.
      intros Hk. apply Hin in Hx; [|done]. specialize (Hs x Hx).
      rewrite <- not_true_iff_false, Hp in Hs. done.
Qed.

(** Under a unique key an upsert inserts one row or rewrites exactly one. *)
Lemma rows_upsert {K} (key : R -> K) conflict f r t :
  unique_key key t -> (forall x, conflict r x = true <-> key x = key r) ->
  (rows (upsert conflict r f t) ≡ₚ r :: rows t /\ forall x, x ∈ rows t -> key x <> key r) \/
  (exists r0 rest, rows t ≡ₚ r0 :: rest /\ key r0 = key r /\
     (forall x, x ∈ rest -> key x <> key r) /\ rows (upsert conflict r f t) ≡ₚ f r0 :: rest).
Proof.
  intros Hu Hc. unfold upsert. destruct (existsb _ _) eqn:He.
  - right. apply existsb_true in He as (r0 & Hr0 & Hc0%Hc).
    apply list_elem_of_split in Hr0 as (l1 & l2 & Hl).
    assert (Hp : rows t ≡ₚ r0 :: l1 ++ l2) by (rewrite Hl; by rewrite Permutation_middle).
    assert (Hrest : forall x, x ∈ l1 ++ l2 -> key x <> key r).
    { unfold unique_key in Hu. rewrite Hp in Hu. simpl in Hu. apply NoDup_cons in Hu as [Hn _].
      intros x Hx Hk. apply Hn. apply elem_of_map. exists x. split; [congruence|done]. }
    exists r0, (l1 ++ l2). split; [done|]. split; [done|]. split; [done|].
    rewrite rows_update, Hp. simpl. rewrite (proj2 (Hc r0) Hc0). f_equiv.
    erewrite map_ext_in; [by rewrite map_id|]. intros x Hx%list_elem_of_In. simpl.
    destruct (conflict r x) eqn:E; [|done]. apply Hc in E. by destruct (Hrest x Hx).
  - left. split; [apply rows_insert|]. intros x Hx Hk. rewrite existsb_false in He.
    specialize (He x Hx). rewrite (proj2 (Hc x) Hk) in He. done.
Qed.

(** The keys of a table after an insertion that may meet a conflict. *)
Lemma keys_upsert {K} (key : R -> K) k conflict f r t :
  (forall x, conflict r x = true <-> key x = key r) -> (forall x, key (f x) = key x) ->
  (exists x, x ∈ rows (upsert conflict r f t) /\ key x = k) <->
  k = key r \/ exists x, x ∈ rows t /\ key x = k.
Proof.
  intros Hc Hf. unfold upsert. destruct (existsb _ _) eqn:He.
  - apply existsb_true in He as (y & Hy & Hcy%Hc). split.
    + intros (x & Hx & <-). apply elem_of_update in Hx as (z & Hz & ->). right. exists z.
      split; [done|]. destruct (conflict r z); [by rewrite Hf|done].
    + assert (Hup : forall z, z ∈ rows t -> exists x, x ∈ rows (update_where (conflict r) f t) /\ key x = key z).
      { intros z Hz. eexists. split; [apply elem_of_update; by exists z|].
        destruct (conflict r z); [by rewrite Hf|done]. }
      intros [->|(z & Hz & <-)]; [rewrite <- Hcy|]; auto.
  - setoid_rewrite elem_of_insert. naive_solver.
Qed.

Lemma keys_insert_ignore {K} (key : R -> K) k conflict r t :
  (forall x, conflict r x = true <-> key x = key r) ->
  (exists x, x ∈ rows (insert_ignore conflict r t) /\ key x = k) <->
  k = key r \/ exists x, x ∈ rows t /\ key x = k.
Proof.
  intros Hc. unfold insert_ignore. destruct (existsb _ _) eqn:He.
  - apply existsb_true in He as (y & Hy & Hcy%Hc). naive_solver.
  - setoid_rewrite elem_of_insert. naive_solver.
Qed.

Lemma unique_key_insert_ignore {K} (key : R -> K) conflict r t :
  (forall x, key x = key r -> conflict r x = true) ->
  unique_key key t -> unique_key key (insert_ignore conflict r t).
Proof.
  intros Hc Hu. unfold insert_ignore. destruct (existsb _ _) eqn:He; [done|].
  apply unique_key_insert; [done|]. rewrite existsb_false in He.
  intros x Hx Hk. specialize (He x Hx). by rewrite Hc in He.
Qed.

(** A statement that inserts several rows, the conflicting ones left out. *)
Lemma insert_all_ignore_keys {K} (key : R -> K) conflict rs t :
  (forall a b, conflict a b = true <-> key b = key a) -> unique_key key t ->
  unique_key key (insert_all_ignore conflict rs t) /\
  (forall k, (exists x, x ∈ rows (insert_all_ignore conflict rs t) /\ key x = k) <->
     k ∈ map key rs \/ exists x, x ∈ rows t /\ key x = k) /\
  (forall x, x ∈ rows (insert_all_ignore conflict rs t) -> x ∈ rs \/ x ∈ rows t).
Proof.
  intros Hc. revert t. induction rs as [|r rs IH]; intros t Hu; simpl; [split; [done|]; set_solver|].
  destruct (IH (insert_ignore conflict r t)) as (H1 & H2 & H3).
  { apply unique_key_insert_ignore; [|done]. intros x. apply Hc. }
  split; [done|]. split.
  - intros k. rewrite H2, (keys_insert_ignore key) by (intros; apply Hc). set_solver.
  - intros x [Hx|Hx]%H3; [set_solver|]. unfold insert_ignore in Hx.
    destruct (existsb _ _); [set_solver|]. apply elem_of_insert in Hx. set_solver.
Qed.

Lemma elem_of_upsert conflict f r x t :
  x ∈ rows (upsert conflict r f t) ->
  x = r \/ x ∈ rows t \/ exists r', r' ∈ rows t /\ conflict r r' = true /\ x = f r'.
Proof.
  unfold upsert. destruct (existsb _ _).
  - rewrite elem_of_update. intros (r' & Hr' & ->). destruct (conflict r r') eqn:?; [|by auto].
    right; right. by exists r'.
  - rewrite elem_of_insert. naive_solver.
Qed.
(** What is not found is not changed. *)
Lemma update_nothing p (f : R -> R) t :
  select_first p t = None -> same_rows t (update_where p f t).
Proof.
  intros H. unfold same_rows. rewrite rows_update. rewrite select_first_None in H.
  rewrite <- (map_id (rows t)) at 1. erewrite map_ext_in; [done|]. intros r Hr. simpl. rewrite H; [done|].
  by apply list_elem_of_In.
Qed.

Lemma delete_nothing p t : existsb p (rows t) = false -> same_rows t (delete_where p t).
Proof.
  intros H. unfold same_rows. rewrite rows_delete. pose proof (proj1 (existsb_false p (rows t)) H) as Hx. clear H.
  clear -Hx. induction (rows t) as [|r l IH]; simpl; [done|].
  rewrite (Hx r) by (by left). simpl. constructor. apply IH. intros x Hin. apply Hx. by right.
Qed.
End store_lemmas.

#[export] Hint Rewrite @elem_of_insert @elem_of_update @elem_of_delete @elem_of_select
  @elem_of_insert_all using (typeclasses eauto) : argus.
