(* ===== verification/Dates.v ===== *)
(** * Date: the parts of the JavaScript [Date] object the sources use

    A time value is a [Z] of milliseconds since 1970-01-01T00:00:00Z. The calendar
    follows the ECMAScript definitions (DayFromYear, YearFromTime, MonthFromTime,
    MakeDay). Texts are printed and parsed in the ISO 8601 form of
    [Date.prototype.toISOString]; [Date_parse] also reads the date-only form and
    the text of a PostgreSQL [timestamptz]. A text without an offset is read in
    the server's zone by JavaScript, which is outside the model. *)
From S2P Require Import Prelude.

Definition MS_DAY : Z := 86400000.

Definition day_of (t : Z) : Z := t / MS_DAY.

Definition day_from_year (y : Z) : Z :=
  365 * (y - 1970) + (y - 1969) / 4 - (y - 1901) / 100 + (y - 1601) / 400.

Definition leap (y : Z) : bool :=
  (y mod 4 =? 0) && (negb (y mod 100 =? 0) || (y mod 400 =? 0)).

(** The year with [day_from_year y <= d < day_from_year (y + 1)]: an estimate of
    the mean Gregorian year, corrected by one. *)
Definition year_from_day (d : Z) : Z :=
  let y := 1970 + d * 400 / 146097 in
  if day_from_year (y + 1) <=? d then y + 1
  else if d <? day_from_year y then y - 1 else y.

(** Days of the year before month [m] (0 = January; 12 = the whole year). *)
Definition days_before_month (lp : bool) (m : Z) : Z :=
  let b := if lp then 1 else 0 in
  if m <=? 0 then 0 else if m =? 1 then 31 else if m =? 2 then 59 + b
  else if m =? 3 then 90 + b else if m =? 4 then 120 + b else if m =? 5 then 151 + b
  else if m =? 6 then 181 + b else if m =? 7 then 212 + b else if m =? 8 then 243 + b
  else if m =? 9 then 273 + b else if m =? 10 then 304 + b else if m =? 11 then 334 + b
  else 365 + b.

Definition month_from_yday (lp : bool) (n : Z) : Z :=
  let b := if lp then 1 else 0 in
  if n <? 31 then 0 else if n <? 59 + b then 1 else if n <? 90 + b then 2
  else if n <? 120 + b then 3 else if n <? 151 + b then 4 else if n <? 181 + b then 5
  else if n <? 212 + b then 6 else if n <? 243 + b then 7 else if n <? 273 + b then 8
  else if n <? 304 + b then 9 else if n <? 334 + b then 10 else 11.

Definition getUTCFullYear (t : Z) : Z := year_from_day (day_of t).
Definition yday (d : Z) : Z := d - day_from_year (year_from_day d).
Definition month_of_day (d : Z) : Z := month_from_yday (leap (year_from_day d)) (yday d).
Definition getUTCMonth (t : Z) : Z := month_of_day (day_of t).
Definition date_of_day (d : Z) : Z :=
  yday d - days_before_month (leap (year_from_day d)) (month_of_day d) + 1.
Definition getUTCDate (t : Z) : Z := date_of_day (day_of t).
(** 0 = Sunday. *)
Definition getUTCDay (t : Z) : Z := (day_of t + 4) mod 7.

(** [Date.UTC(y, m, d)] for a month in 0..11 and a year from 100 on. *)
Definition make_day (y m d : Z) : Z := day_from_year y + days_before_month (leap y) m + d - 1.
Definition Date_UTC (y m d : Z) : Z := make_day y m d * MS_DAY.

(** [d.setUTCHours(0, 0, 0, 0)] *)
Definition utc_midnight (t : Z) : Z := day_of t * MS_DAY.

(** ** Text *)

Definition digit (n : Z) : ascii := Ascii.ascii_of_N (48 + Z.to_N n).

Definition digit_val (c : ascii) : option Z :=
  let n := Z.of_N (Ascii.N_of_ascii c) - 48 in
  if (0 <=? n) && (n <=? 9) then Some n else None.

(** [String(n).padStart(w, "0")] for a number of at most [w] digits. *)
Fixpoint pad (w : nat) (n : Z) : string :=
  match w with
  | O => ""
  | S w' => pad w' (n / 10) +:+ String (digit (n mod 10)) ""
  end.

Definition iso_year (y : Z) : string :=
  if (0 <=? y) && (y <=? 9999) then pad 4 y
  else if y <? 0 then "-" +:+ pad 6 (- y) else "+" +:+ pad 6 y.

Definition iso_date (d : Z) : string :=
  iso_year (year_from_day d) +:+ "-" +:+ pad 2 (month_of_day d + 1) +:+ "-"
  +:+ pad 2 (date_of_day d).

Definition iso_time (ms : Z) : string :=
  pad 2 (ms / 3600000) +:+ ":" +:+ pad 2 (ms / 60000 mod 60) +:+ ":"
  +:+ pad 2 (ms / 1000 mod 60) +:+ "." +:+ pad 3 (ms mod 1000) +:+ "Z".

Definition toISOString (t : Z) : string :=
  iso_date (day_of t) +:+ "T" +:+ iso_time (t mod MS_DAY).

(** ** Parsing *)

Fixpoint take_digits (w : nat) (acc : Z) (s : string) : option (Z * string) :=
  match w with
  | O => Some (acc, s)
  | S w' =>
      match s with
      | EmptyString => None
      | String c s' =>
          match digit_val c with
          | Some n => take_digits w' (acc * 10 + n) s'
          | None => None
          end
      end
  end.

Definition expect (c : ascii) (s : string) : option string :=
  match s with
  | String c' s' => if Ascii.eqb c c' then Some s' else None
  | EmptyString => None
  end.

(** The digits of a fraction of a second, kept to milliseconds. *)
Fixpoint take_fraction (w : nat) (acc : Z) (s : string) : Z * string :=
  match s with
  | String c s' =>
      match digit_val c, w with
      | Some n, S w' => take_fraction w' (acc + n * 10 ^ Z.of_nat w') s'
      | Some _, O => take_fraction O acc s'
      | None, _ => (acc, s)
      end
  | EmptyString => (acc, s)
  end.

(** The offset from UTC, in minutes. *)
Definition parse_offset (s : string) : option Z :=
  match s with
  | String "Z" "" => Some 0
  | String c s' =>
      if Ascii.eqb c "+"%char || Ascii.eqb c "-"%char then
        let sign := if Ascii.eqb c "-"%char then -1 else 1 in
        let! (h, s1) := take_digits 2 0 s' otherwise None in
        match s1 with
        | "" => Some (sign * (h * 60))
        | _ =>
            let! s2 := expect ":" s1 otherwise None in
            let! (m, s3) := take_digits 2 0 s2 otherwise None in
            match s3 with "" => Some (sign * (h * 60 + m)) | _ => None end
        end
      else None
  | "" => None
  end.

Definition in_range (lo x hi : Z) : bool := (lo <=? x) && (x <=? hi).

Definition parse_time (s : string) : option (Z * string) :=
  let! (h, s1) := take_digits 2 0 s otherwise None in
  let! s2 := expect ":" s1 otherwise None in
  let! (mi, s3) := take_digits 2 0 s2 otherwise None in
  let! s4 := expect ":" s3 otherwise None in
  let! (sec, s5) := take_digits 2 0 s4 otherwise None in
  let '(ms, s6) :=
    match expect "." s5 with Some s' => take_fraction 3 0 s' | None => (0, s5) end in
  if in_range 0 h 23 && in_range 0 mi 59 && in_range 0 sec 59
  then Some (h * 3600000 + mi * 60000 + sec * 1000 + ms, s6)
  else None.

(** [Date.parse]; [None] is [NaN]. *)
Definition Date_parse (s : string) : option Z :=
  let! (y, s1) := take_digits 4 0 s otherwise None in
  let! s2 := expect "-" s1 otherwise None in
  let! (m, s3) := take_digits 2 0 s2 otherwise None in
  let! s4 := expect "-" s3 otherwise None in
  let! (d, s5) := take_digits 2 0 s4 otherwise None in
  if in_range 1 m 12 && in_range 1 d 31 then
    let day := Date_UTC y (m - 1) d in
    match s5 with
    | "" => Some day
    | String c s6 =>
        if Ascii.eqb c "T"%char || Ascii.eqb c " "%char then
          let! (ms, s7) := parse_time s6 otherwise None in
          let! off := parse_offset s7 otherwise None in
          Some (day + ms - off * 60000)
        else None
    end
  else None.

(** [s.slice(0, n)] *)
Definition slice0 (n : nat) (s : string) : string := substring 0 n s.

(** [s.slice(-n)] *)
Definition slice_last (n : nat) (s : string) : string :=
  substring (String.length s - n) n s.

Example iso_epoch : toISOString 0 = "1970-01-01T00:00:00.000Z".
Proof. vm_compute. reflexivity. Qed.
Example iso_leap : toISOString 1709210096789 = "2024-02-29T12:34:56.789Z".
Proof. vm_compute. reflexivity. Qed.
Example parse_pg : Date_parse "2026-06-24 05:52:57.123456+00" = Some 1782280377123.
Proof. vm_compute. reflexivity. Qed.

(** ** The calendar *)

#[local] Ltac Zify.zify_post_hook ::= Z.to_euclidean_division_equations.

Lemma day_from_year_step y :
  day_from_year (y + 1) = day_from_year y + 365 + (if leap y then 1 else 0).
Proof.
  unfold day_from_year, leap.
  destruct (y mod 4 =? 0) eqn:E4, (y mod 100 =? 0) eqn:E100, (y mod 400 =? 0) eqn:E400;
    reflect; simpl; lia.
Qed.

Lemma day_from_year_mono y1 y2 : y1 <= y2 -> day_from_year y1 + 365 * (y2 - y1) <= day_from_year y2.
Proof. unfold day_from_year. lia. Qed.

Lemma year_from_day_bounds d :
  day_from_year (year_from_day d) <= d < day_from_year (year_from_day d + 1).
Proof.
  unfold year_from_day. set (y := 1970 + d * 400 / 146097).
  assert (H1 : day_from_year (y - 1) <= d) by (subst y; unfold day_from_year; lia).
  assert (H2 : d < day_from_year (y + 2)) by (subst y; unfold day_from_year; lia).
  destruct (day_from_year (y + 1) <=? d) eqn:E1; [|destruct (d <? day_from_year y) eqn:E2];
    reflect; split; try lia.
  - by replace (y + 1 + 1) with (y + 2) by lia.
  - by replace (y - 1 + 1) with y by lia.
Qed.

(** The year of a day is the only one whose days contain it. *)
Lemma year_from_day_unique d y :
  day_from_year y <= d < day_from_year (y + 1) -> year_from_day d = y.
Proof.
  intros Hy. pose proof (year_from_day_bounds d) as Hd.
  destruct (Z.lt_trichotomy (year_from_day d) y) as [Hlt|[Heq|Hgt]]; [|done|].
  - pose proof (day_from_year_mono (year_from_day d + 1) y). lia.
  - pose proof (day_from_year_mono (y + 1) (year_from_day d)). lia.
Qed.

Lemma yday_range d : 0 <= yday d < 365 + (if leap (year_from_day d) then 1 else 0).
Proof.
  unfold yday. pose proof (year_from_day_bounds d) as H.
  rewrite day_from_year_step in H. lia.
Qed.

(** Split every comparison the goal tests, then decide by arithmetic. *)
Ltac split_tests :=
  repeat match goal with
  | |- context [if Z.ltb ?a ?b then _ else _] => destruct (Z.ltb_spec a b)
  | |- context [if Z.leb ?a ?b then _ else _] => destruct (Z.leb_spec a b)
  | |- context [if Z.eqb ?a ?b then _ else _] => destruct (Z.eqb_spec a b)
  end; try lia.

Lemma month_from_yday_spec (lp : bool) n :
  0 <= n < 365 + (if lp then 1 else 0) ->
  0 <= month_from_yday lp n <= 11 /\
  days_before_month lp (month_from_yday lp n) <= n
    < days_before_month lp (month_from_yday lp n + 1).
Proof.
  intros Hn. unfold month_from_yday.
  destruct lp; split_tests; cbv [days_before_month]; simpl; lia.
Qed.

Lemma month_from_yday_unique (lp : bool) n m :
  0 <= m <= 11 -> days_before_month lp m <= n < days_before_month lp (m + 1) ->
  month_from_yday lp n = m.
Proof.
  intros Hm. unfold month_from_yday.
  each_value m 12; destruct lp; cbv [days_before_month]; simpl; intros; split_tests.
Qed.

Lemma month_of_day_range d : 0 <= month_of_day d <= 11.
Proof. apply month_from_yday_spec, yday_range. Qed.

Lemma date_of_day_range d : 1 <= date_of_day d <= 31.
Proof.
  unfold date_of_day. fold (month_of_day d).
  destruct (month_from_yday_spec _ _ (yday_range d)) as [Hm Hd]. fold (month_of_day d) in *.
  set (m := month_of_day d) in *. set (lp := leap _) in *. clearbody m lp.
  assert (days_before_month lp (m + 1) <= days_before_month lp m + 31); [|lia].
  each_value m 12; destruct lp; cbv; done.
Qed.

(** MakeDay inverts the calendar fields of a day. *)
Lemma make_day_fields d : make_day (year_from_day d) (month_of_day d) (date_of_day d) = d.
Proof. unfold make_day, date_of_day, yday. lia. Qed.

Lemma make_day_year y m n :
  0 <= m <= 11 -> 1 <= n ->
  days_before_month (leap y) m + n <= 365 + (if leap y then 1 else 0) ->
  year_from_day (make_day y m n) = y.
Proof.
  intros Hm Hn Hb. apply year_from_day_unique. rewrite day_from_year_step. unfold make_day.
  assert (0 <= days_before_month (leap y) m); [|lia].
  unfold days_before_month. destruct (leap y); split_tests.
Qed.

(** ** Printing and parsing *)

Lemma digit_val_digit n : 0 <= n <= 9 -> digit_val (digit n) = Some n.
Proof.
  intros Hn. each_value n 10; done.
Qed.

Lemma take_digits_snoc w acc s :
  take_digits (S w) acc s =
  match take_digits w acc s with Some (a, s') => take_digits 1 a s' | None => None end.
Proof.
  revert acc s. induction w as [|w IH]; intros acc s; [done|].
  destruct s as [|c s]; [done|]. simpl. destruct (digit_val c); [|done]. apply IH.
Qed.

Lemma take_digits_pad w acc n s :
  0 <= n < 10 ^ Z.of_nat w ->
  take_digits w acc (pad w n +:+ s) = Some (acc * 10 ^ Z.of_nat w + n, s).
Proof.
  revert acc n s. induction w as [|w IH]; intros acc n s Hn.
  - change (10 ^ Z.of_nat 0) with 1 in *. simpl. do 2 f_equal. lia.
  - rewrite Nat2Z.inj_succ, Z.pow_succ_r in * by lia.
    rewrite take_digits_snoc. simpl pad. rewrite str_app_assoc, IH by lia.
    rewrite app_cons_string. simpl take_digits. rewrite digit_val_digit by lia.
    do 2 f_equal. lia.
Qed.

Lemma take_digits_pad0 w n s :
  0 <= n < 10 ^ Z.of_nat w -> take_digits w 0 (pad w n +:+ s) = Some (n, s).
Proof. intros Hn. rewrite take_digits_pad by done. by rewrite Z.mul_0_l, Z.add_0_l. Qed.

Lemma pad_length w n : String.length (pad w n) = w.
Proof.
  revert n. induction w as [|w IH]; intros n; simpl; [done|].
  rewrite str_length_app, IH. simpl. lia.
Qed.

Lemma pad_inj w m n :
  0 <= m < 10 ^ Z.of_nat w -> 0 <= n < 10 ^ Z.of_nat w -> pad w m = pad w n -> m = n.
Proof.
  intros Hm Hn He. pose proof (take_digits_pad w 0 m "" Hm) as H1.
  rewrite He, take_digits_pad in H1 by done. injection H1 as H1. lia.
Qed.

Lemma substring_prefix s1 s2 : substring 0 (String.length s1) (s1 +:+ s2) = s1.
Proof.
  induction s1 as [|c s1 IH]; [by destruct s2|].
  rewrite app_cons_string. simpl. by rewrite IH.
Qed.

Lemma slice0_app n s1 s2 : String.length s1 = n -> slice0 n (s1 +:+ s2) = s1.
Proof. intros <-. apply substring_prefix. Qed.

(** The instants whose ISO text has a four-digit year. *)
Definition iso_range (t : Z) : Prop := -62167219200000 <= t < 253402300800000.

Lemma iso_range_year t : iso_range t -> 0 <= getUTCFullYear t <= 9999.
Proof.
  unfold iso_range, getUTCFullYear, day_of, MS_DAY. intros Ht.
  set (d := t / 86400000). assert (Hd : -719528 <= d < 2932897) by lia.
  pose proof (year_from_day_bounds d) as [H1 H2].
  destruct (Z.lt_ge_cases (year_from_day d) 0).
  - pose proof (day_from_year_mono (year_from_day d + 1) 0) as Hm.
    change (day_from_year 0) with (-719528) in Hm. lia.
  - destruct (Z.lt_ge_cases 9999 (year_from_day d)); [|lia].
    pose proof (day_from_year_mono 10000 (year_from_day d)) as Hm.
    change (day_from_year 10000) with 2932897 in Hm. lia.
Qed.

Lemma iso_date_eq t : iso_range t ->
  iso_date (day_of t) =
  pad 4 (getUTCFullYear t) +:+ "-" +:+ pad 2 (getUTCMonth t + 1) +:+ "-" +:+ pad 2 (getUTCDate t).
Proof.
  intros Ht%iso_range_year. unfold iso_date, iso_year, getUTCFullYear, getUTCMonth, getUTCDate in *.
  by rewrite (proj2 (Z.leb_le _ _)), (proj2 (Z.leb_le _ _)) by lia.
Qed.

Lemma iso_date_length t : iso_range t -> String.length (iso_date (day_of t)) = 10%nat.
Proof.
  intros Ht. rewrite iso_date_eq by done. rewrite !str_length_app, !pad_length. done.
Qed.

Lemma expect_app c s : expect c (String c "" +:+ s) = Some s.
Proof. rewrite app_cons_string. simpl. by rewrite Ascii.eqb_refl. Qed.

Arguments pad : simpl never.
Arguments take_digits : simpl never.

(** Run the parser over the printed fields. *)
Ltac run_parser :=
  repeat first
    [ rewrite take_digits_pad0
        by (change (10 ^ Z.of_nat 2) with 100; change (10 ^ Z.of_nat 4) with 10000; lia)
    | rewrite expect_app ];
  unfold in_range; rewrite ?(proj2 (Z.leb_le _ _)) by lia; simpl.

Lemma take_fraction_pad n s : 0 <= n < 1000 -> take_fraction 3 0 (pad 3 n +:+ "Z" +:+ s) = (n, "Z" +:+ s).
Proof.
  intros Hn. unfold pad. rewrite !str_app_assoc, !app_cons_string, !app_nil_string.
  cbn [take_fraction].
  rewrite !digit_val_digit by lia.
  change (10 ^ Z.of_nat 2) with 100. change (10 ^ Z.of_nat 1) with 10. change (10 ^ Z.of_nat 0) with 1.
  change (digit_val "Z") with (@None Z). f_equal. lia.
Qed.

Arguments take_fraction : simpl never.

Lemma parse_time_iso ms s : 0 <= ms < MS_DAY -> parse_time (iso_time ms +:+ s) = Some (ms, "Z" +:+ s).
Proof.
  unfold MS_DAY. intros Hms. unfold parse_time, iso_time. rewrite !str_app_assoc.
  run_parser. rewrite take_fraction_pad by lia. run_parser. do 2 f_equal. lia.
Qed.

(** The fields a printed day is read back from. *)
Lemma iso_day_fields t (Ht : iso_range t) s :
  Date_parse (iso_date (day_of t) +:+ s) =
  match s with
  | "" => Some (utc_midnight t)
  | String c s6 =>
      if Ascii.eqb c "T"%char || Ascii.eqb c " "%char then
        let! (ms, s7) := parse_time s6 otherwise None in
        let! off := parse_offset s7 otherwise None in
        Some (utc_midnight t + ms - off * 60000)
      else None
  end.
Proof.
  pose proof (iso_range_year t Ht) as Hy.
  pose proof (month_of_day_range (day_of t)) as Hm. pose proof (date_of_day_range (day_of t)) as Hd.
  rewrite iso_date_eq by done. unfold getUTCFullYear, getUTCMonth, getUTCDate in *.
  unfold Date_parse. rewrite !str_app_assoc. run_parser.
  replace (month_of_day (day_of t) + 1 - 1) with (month_of_day (day_of t)) by lia.
  unfold Date_UTC. by rewrite make_day_fields.
Qed.

Lemma Date_parse_toISOString t : iso_range t -> Date_parse (toISOString t) = Some t.
Proof.
  intros Ht. unfold toISOString. rewrite iso_day_fields by done.
  change ("T" +:+ ?x) with (String "T" x). simpl.
  rewrite <- (str_app_nil_r (iso_time _)), parse_time_iso by (unfold MS_DAY; lia). simpl.
  unfold utc_midnight, day_of, MS_DAY. f_equal. lia.
Qed.

(** The text of a day determines it. *)
Lemma iso_date_inj t1 t2 :
  iso_range t1 -> iso_range t2 -> iso_date (day_of t1) = iso_date (day_of t2) -> day_of t1 = day_of t2.
Proof.
  intros H1 H2 He. pose proof (iso_day_fields t1 H1 "") as P1.
  rewrite He, (iso_day_fields t2 H2 "") in P1.
  unfold utc_midnight, MS_DAY in P1. injection P1. lia.
Qed.
