(* ===== verification/Text.v ===== *)
(** * Strings and numbers of JavaScript

    What the source uses of the language's strings, buffers and numbers: splitting
    and joining, trimming, [String(n)], [Number(s)], [Number.isInteger], Node's
    base64 codec and the 32-bit integer operators. A string is its UTF-8 bytes, a
    [Buffer] the list of its bytes; case mapping and white space are those of ASCII. *)
From S2P Require Import Prelude Dates.

(** ** Bytes *)

Definition code (c : ascii) : Z := Z.of_N (N_of_ascii c).
Definition chr (n : Z) : ascii := ascii_of_N (Z.to_N n).

(** [Buffer.from(s, "utf8")] and [buf.toString("utf8")]. *)
Fixpoint bytes_of (s : string) : list Z :=
  match s with EmptyString => [] | String c s' => code c :: bytes_of s' end.
Fixpoint string_of (bs : list Z) : string :=
  match bs with [] => EmptyString | b :: bs' => String (chr b) (string_of bs') end.

Definition is_byte (b : Z) : Prop := 0 <= b < 256.

(** ** Splitting and joining *)

(** [s.split(sep)] for a separator of one character. *)
Fixpoint split_on (sep : ascii) (s : string) : list string :=
  match s with
  | EmptyString => [""]
  | String c s' =>
      if Ascii.eqb c sep then "" :: split_on sep s'
      else match split_on sep s' with
           | x :: xs => String c x :: xs
           | [] => [String c ""]
           end
  end.

(** [parts.join(sep)] *)
Fixpoint join (sep : string) (parts : list string) : string :=
  match parts with
  | [] => ""
  | [x] => x
  | x :: xs => x +:+ sep +:+ join sep xs
  end.

Fixpoint has_char (c : ascii) (s : string) : bool :=
  match s with EmptyString => false | String d s' => Ascii.eqb d c || has_char c s' end.

(** [s.startsWith(p)] *)
Definition startsWith (p s : string) : bool := String.prefix p s.

(** What follows [p], when the text starts with it. *)
Fixpoint after (p s : string) : option string :=
  match p, s with
  | EmptyString, _ => Some s
  | String c p', String d s' => if Ascii.eqb c d then after p' s' else None
  | String _ _, EmptyString => None
  end.

(** [s.includes(p)] *)
Fixpoint contains (p s : string) : bool :=
  String.prefix p s || match s with EmptyString => false | String _ s' => contains p s' end.

Definition is_space (c : ascii) : bool :=
  let n := code c in (n =? 32) || ((9 <=? n) && (n <=? 13)).

Fixpoint trimStart (s : string) : string :=
  match s with
  | EmptyString => ""
  | String c s' => if is_space c then trimStart s' else s
  end.
Fixpoint trimEnd (s : string) : string :=
  match s with
  | EmptyString => ""
  | String c s' =>
      match trimEnd s' with
      | EmptyString => if is_space c then "" else String c ""
      | t => String c t
      end
  end.
Definition trim (s : string) : string := trimEnd (trimStart s).

Definition lower (c : ascii) : ascii :=
  if (65 <=? code c) && (code c <=? 90) then chr (code c + 32) else c.
Definition upper (c : ascii) : ascii :=
  if (97 <=? code c) && (code c <=? 122) then chr (code c - 32) else c.
Fixpoint map_string (f : ascii -> ascii) (s : string) : string :=
  match s with EmptyString => "" | String c s' => String (f c) (map_string f s') end.
Definition toLowerCase : string -> string := map_string lower.
Definition toUpperCase : string -> string := map_string upper.

(** A JS string is false exactly when it is empty. *)
Definition truthy (s : string) : bool := negb (String.eqb s "").

(** ** Numbers *)

(** A JS number, without the sign of zero and the rounding of doubles. *)
Inductive number := NaN | PosInf | NegInf | Fin (q : Q).

Fixpoint width_fuel (fuel : nat) (n : Z) : nat :=
  match fuel with
  | O => 1
  | S f => if n <? 10 then 1 else S (width_fuel f (n / 10))
  end.
(** The number of decimal digits of [n]. *)
Definition width (n : Z) : nat := width_fuel (Z.to_nat (Z.log2 n)) n.

(** [String(n)] for an integer below 10^21. *)
Definition String_of_int (n : Z) : string :=
  if n <? 0 then "-" +:+ pad (width (- n)) (- n) else pad (width n) n.

(** The longest run of decimal digits: its value, its length and the rest. *)
Fixpoint digits (acc : Z) (len : Z) (s : string) : Z * Z * string :=
  match s with
  | EmptyString => (acc, len, s)
  | String c s' =>
      match digit_val c with
      | Some d => digits (acc * 10 + d) (len + 1) s'
      | None => (acc, len, s)
      end
  end.

Definition Q10 (e : Z) : Q := Qpower (10 # 1) e.

(** [ExponentPart_opt] and the end of the literal. *)
Definition parse_exponent (s : string) : option Z :=
  match s with
  | EmptyString => Some 0
  | String c s' =>
      if Ascii.eqb (lower c) "e" then
        let '(sg, t) := match s' with
                        | String "+" t => (1, t) | String "-" t => (-1, t) | _ => (1, s') end in
        let '(v, n, rest) := digits 0 0 t in
        if (0 <? n) && String.eqb rest "" then Some (sg * v) else None
      else None
  end.

(** [StrUnsignedDecimalLiteral] *)
Definition parse_decimal (s : string) : number :=
  if String.eqb s "Infinity" then PosInf else
  let '(i, ni, s1) := digits 0 0 s in
  let '(f, nf, s2) :=
    match s1 with String "." t => digits 0 0 t | _ => (0, 0, s1) end in
  if (ni =? 0) && (nf =? 0) then NaN else
  match parse_exponent s2 with
  | Some e => Fin ((inject_Z i + inject_Z f * Q10 (- nf)) * Q10 e)
  | None => NaN
  end.

Definition hex_val (c : ascii) : option Z :=
  match digit_val c with
  | Some d => Some d
  | None => let n := code (lower c) in if (97 <=? n) && (n <=? 102) then Some (n - 87) else None
  end.
Fixpoint radix_digits (radix acc : Z) (s : string) : option Z :=
  match s with
  | EmptyString => Some acc
  | String c s' =>
      let! d := hex_val c otherwise None in
      if d <? radix then radix_digits radix (acc * radix + d) s' else None
  end.
Definition parse_radix (radix : Z) (s : string) : number :=
  match s, radix_digits radix 0 s with
  | String _ _, Some v => Fin (inject_Z v)
  | _, _ => NaN
  end.

(** [Number(s)] *)
Definition Number_of_string (s : string) : number :=
  match trim s with
  | EmptyString => Fin 0
  | String "0" (String "x" t) | String "0" (String "X" t) => parse_radix 16 t
  | String "0" (String "o" t) | String "0" (String "O" t) => parse_radix 8 t
  | String "0" (String "b" t) | String "0" (String "B" t) => parse_radix 2 t
  | String "+" t => parse_decimal t
  | String "-" t =>
      match parse_decimal t with
      | Fin q => Fin (- q) | PosInf => NegInf | NegInf => PosInf | NaN => NaN
      end
  | t => parse_decimal t
  end.

(** [Number.isInteger] *)
Definition isInteger (n : number) : option Z :=
  match n with
  | Fin q => let r := Qred q in if Pos.eqb (Qden r) 1 then Some (Qnum r) else None
  | _ => None
  end.

(** The 32-bit integer of a JS bitwise operator, signed and unsigned ([>>> 0]). *)
Definition wrap32 (n : Z) : Z := (n + 2 ^ 31) mod 2 ^ 32 - 2 ^ 31.
Definition uint32 (n : Z) : Z := n mod 2 ^ 32.

(** ** base64 as Node encodes and decodes it *)

Definition BASE64 : string :=
  "ABCDEFGHIJKLMNOPQRSTUVWXYZabcdefghijklmnopqrstuvwxyz0123456789+/".

Fixpoint nth_char (n : nat) (s : string) : ascii :=
  match n, s with
  | O, String c _ => c
  | S n', String _ s' => nth_char n' s'
  | _, EmptyString => "000"%char
  end.

(** [s.indexOf(c)] for one character, [None] for -1. *)
Fixpoint index_char (c : ascii) (s : string) : option Z :=
  match s with
  | EmptyString => None
  | String d s' => if Ascii.eqb c d then Some 0 else option_map Z.succ (index_char c s')
  end.

Definition b64_char (n : Z) : ascii := nth_char (Z.to_nat n) BASE64.

(** The decoder takes the URL alphabet too. *)
Definition b64_val (c : ascii) : option Z :=
  if Ascii.eqb c "-" then Some 62 else if Ascii.eqb c "_" then Some 63
  else index_char c BASE64.

(** [buf.toString("base64")] *)
Fixpoint base64_encode (bs : list Z) : string :=
  match bs with
  | a :: b :: c :: rest =>
      String (b64_char (a / 4)) (String (b64_char (a mod 4 * 16 + b / 16))
        (String (b64_char (b mod 16 * 4 + c / 64)) (String (b64_char (c mod 64))
          (base64_encode rest))))
  | [a; b] =>
      String (b64_char (a / 4)) (String (b64_char (a mod 4 * 16 + b / 16))
        (String (b64_char (b mod 16 * 4)) "="))
  | [a] => String (b64_char (a / 4)) (String (b64_char (a mod 4 * 16)) "==")
  | [] => ""
  end.

(** The characters outside the alphabet are skipped, never refused. *)
Fixpoint sextets (s : string) : list Z :=
  match s with
  | EmptyString => []
  | String c s' =>
      match b64_val c with Some v => v :: sextets s' | None => sextets s' end
  end.

Fixpoint unpack (vs : list Z) : list Z :=
  match vs with
  | p :: q :: r :: s :: rest =>
      (p * 4 + q / 16) :: (q mod 16 * 16 + r / 4) :: (r mod 4 * 64 + s) :: unpack rest
  | [p; q; r] => [p * 4 + q / 16; q mod 16 * 16 + r / 4]
  | [p; q] => [p * 4 + q / 16]
  | _ => []
  end.

(** [Buffer.from(s, "base64")] *)
Definition base64_decode (s : string) : list Z := unpack (sextets s).

Example base64_ex : base64_encode (bytes_of "Argus!!") = "QXJndXMhIQ==".
Proof. vm_compute. reflexivity. Qed.
Example base64_dec_ex : string_of (base64_decode "QXJn dXM*hIQ") = "Argus!!".
Proof. vm_compute. reflexivity. Qed.
Example number_ex :
  map (fun s => isInteger (Number_of_string s)) [" 12 "; ""; "0x1F"; "1e3"; "1.5"; "2,5"; "-7"]
  = [Some 12; Some 0; Some 31; Some 1000; None; None; Some (-7)].
Proof. vm_compute. reflexivity. Qed.

(** ** Lemmas *)

Lemma code_range c : is_byte (code c).
Proof. unfold is_byte, code. pose proof (N_ascii_bounded c). lia. Qed.

Lemma chr_code c : chr (code c) = c.
Proof. unfold chr, code. by rewrite N2Z.id, ascii_N_embedding. Qed.

Lemma bytes_of_range s : Forall is_byte (bytes_of s).
Proof. induction s; simpl; constructor; auto using code_range. Qed.

Lemma string_of_bytes_of s : string_of (bytes_of s) = s.
Proof. induction s as [|c s IH]; simpl; [done|]. by rewrite chr_code, IH. Qed.

Lemma length_bytes_of s : List.length (bytes_of s) = String.length s.
Proof. induction s; simpl; auto. Qed.

Lemma has_char_app c s1 s2 : has_char c (s1 +:+ s2) = has_char c s1 || has_char c s2.
Proof.
  induction s1 as [|d s1 IH]; [done|]. rewrite app_cons_string. simpl.
  by rewrite IH, orb_assoc.
Qed.

Lemma startsWith_app p s : startsWith p (p +:+ s) = true.
Proof.
  unfold startsWith. induction p as [|c p IH]; [by destruct s|]. rewrite app_cons_string. simpl.
  by destruct (ascii_dec c c).
Qed.

Lemma trim_no_space s : (forall c, is_space c = true -> has_char c s = false) -> trim s = s.
Proof.
  intros Hs. unfold trim. assert (trimStart s = s) as ->.
  { destruct s as [|c s]; [done|]. cbn [trimStart]. destruct (is_space c) eqn:Hc; [|done].
    specialize (Hs c Hc). cbn [has_char] in Hs. by rewrite Ascii.eqb_refl in Hs. }
  induction s as [|c s IH]; [done|]. cbn [trimEnd]. rewrite IH.
  - destruct s as [|d s]; [|done]. destruct (is_space c) eqn:Hc; [|done].
    specialize (Hs c Hc). cbn [has_char] in Hs. by rewrite Ascii.eqb_refl in Hs.
  - intros d Hd. specialize (Hs d Hd). cbn [has_char] in Hs. by apply orb_false_iff in Hs as [_ ?].
Qed.

Lemma split_on_none sep s : has_char sep s = false -> split_on sep s = [s].
Proof.
  induction s as [|c s IH]; simpl; [done|]. intros [Hc Hs]%orb_false_iff.
  by rewrite Hc, IH.
Qed.

Lemma split_on_app sep s rest :
  has_char sep s = false -> split_on sep (s +:+ String sep rest) = s :: split_on sep rest.
Proof.
  induction s as [|c s IH]; simpl.
  - intros _. by rewrite Ascii.eqb_refl.
  - intros [Hc Hs]%orb_false_iff. by rewrite Hc, IH.
Qed.

(** Splitting undoes joining when no part contains the separator. *)
Lemma split_join sep parts :
  parts <> [] -> Forall (fun p => has_char sep p = false) parts ->
  split_on sep (join (String sep "") parts) = parts.
Proof.
  intros Hne Hall. induction Hall as [|p ps Hp Hall IH]; [done|].
  destruct ps as [|p' ps]; [by apply split_on_none|].
  change (join (String sep "") (p :: p' :: ps))
    with (p +:+ String sep "" +:+ join (String sep "") (p' :: ps)).
  rewrite app_cons_string, app_nil_string, split_on_app by done. by rewrite IH.
Qed.

Lemma split_on_length_pos sep s : split_on sep s <> [].
Proof.
  destruct s as [|c s]; simpl; [done|]. destruct (Ascii.eqb c sep); [done|].
  by destruct (split_on sep s).
Qed.

(** Joining undoes splitting. *)
Lemma join_split sep s : join (String sep "") (split_on sep s) = s.
Proof.
  induction s as [|c s IH]; [done|]. simpl.
  pose proof (split_on_length_pos sep s) as Hne.
  destruct (split_on sep s) as [|x xs]; [done|].
  destruct (Ascii.eqb c sep) eqn:E.
  - apply Ascii.eqb_eq in E as ->. simpl join in *. by rewrite <- IH.
  - destruct xs as [|y ys]; simpl join in *; by rewrite <- IH.
Qed.

Lemma split_on_no_sep sep s : Forall (fun p => has_char sep p = false) (split_on sep s).
Proof.
  induction s as [|c s IH]; simpl; [by repeat constructor|].
  destruct (Ascii.eqb c sep) eqn:E; [by constructor|].
  destruct (split_on sep s) as [|x xs]; inversion IH; subst; constructor; auto;
    simpl; rewrite E; auto.
Qed.

(** *** Decimal numerals *)

#[local] Ltac Zify.zify_post_hook ::= Z.to_euclidean_division_equations.

Lemma width_fuel_bound fuel n :
  0 <= n < 2 ^ Z.of_nat (S fuel) -> n < 10 ^ Z.of_nat (width_fuel fuel n).
Proof.
  revert n. induction fuel as [|fuel IH]; intros n Hn; simpl width_fuel.
  - change (10 ^ Z.of_nat 1) with 10. change (2 ^ Z.of_nat 1) with 2 in Hn. lia.
  - destruct (Z.ltb_spec n 10); [change (10 ^ Z.of_nat 1) with 10; lia|].
    rewrite Nat2Z.inj_succ, Z.pow_succ_r by lia.
    rewrite Nat2Z.inj_succ, Z.pow_succ_r in Hn by lia.
    specialize (IH (n / 10)). lia.
Qed.

Lemma width_bound n : 0 <= n -> n < 10 ^ Z.of_nat (width n).
Proof.
  intros Hn. apply width_fuel_bound. split; [done|].
  destruct (Z.eq_dec n 0) as [->|]; [done|].
  rewrite Nat2Z.inj_succ, Z2Nat.id by apply Z.log2_nonneg. apply Z.log2_spec. lia.
Qed.

Lemma width_pos n : (0 < width n)%nat.
Proof. unfold width. destruct (Z.to_nat (Z.log2 n)); simpl; [lia|]. case_match; lia. Qed.

Lemma digits_snoc w acc len n s :
  0 <= n < 10 ^ Z.of_nat w ->
  digits acc len (pad w n +:+ s) = digits (acc * 10 ^ Z.of_nat w + n) (len + Z.of_nat w) s.
Proof.
  revert acc len n s. induction w as [|w IH]; intros acc len n s Hn.
  - change (10 ^ Z.of_nat 0) with 1 in *. change (pad 0 n) with "". rewrite app_nil_string.
    f_equal; lia.
  - rewrite Nat2Z.inj_succ, Z.pow_succ_r in * by lia.
    change (pad (S w) n) with (pad w (n / 10) +:+ String (digit (n mod 10)) "").
    rewrite str_app_assoc, IH, app_cons_string, app_nil_string by lia.
    simpl digits. rewrite digit_val_digit by lia. f_equal; lia.
Qed.

Definition digit_string (s : string) : Prop := Forall (fun b => 48 <= b < 58) (bytes_of s).

Lemma bytes_of_app s1 s2 : bytes_of (s1 +:+ s2) = bytes_of s1 ++ bytes_of s2.
Proof.
  induction s1 as [|c s IH]; [done|]. rewrite app_cons_string. simpl. by rewrite IH.
Qed.

Lemma pad_digits w n : 0 <= n -> digit_string (pad w n).
Proof.
  unfold digit_string. revert n. induction w as [|w IH]; intros n Hn; [constructor|].
  change (pad (S w) n) with (pad w (n / 10) +:+ String (digit (n mod 10)) "").
  rewrite bytes_of_app. apply Forall_app. split; [apply IH; lia|].
  repeat constructor; simpl; assert (H : 0 <= n mod 10 < 10) by lia;
    set (d := n mod 10) in *; clearbody d; each_value d 10; vm_compute; done.
Qed.

(** A digit string holds no character that is not a digit. *)
Lemma digit_string_char s c :
  digit_string s -> ~ 48 <= code c < 58 -> has_char c s = false.
Proof.
  unfold digit_string. induction s as [|d s IH]; simpl; [done|].
  intros Hd Hc. apply Forall_cons in Hd as [Hd Hs]. rewrite IH by done.
  destruct (Ascii.eqb_spec d c) as [->|]; [lia|done].
Qed.

(** No white space, sign, prefix or exponent rule applies to a digit string. *)
Lemma Number_of_digits s v n :
  digit_string s -> digits 0 0 s = (v, n, "") -> 0 < n ->
  exists q, Number_of_string s = Fin q /\ (q == inject_Z v)%Q.
Proof.
  intros Hd Hdig Hn.
  assert (Htrim : trim s = s).
  { unfold trim. assert (forall u, digit_string u -> trimStart u = u /\ trimEnd u = u) as Hu.
    { unfold digit_string. induction u as [|c u IH]; simpl; [done|]. intros Hc.
      apply Forall_cons in Hc as [Hc Hu]. destruct (IH Hu) as [_ ->].
      assert (is_space c = false) as ->; [unfold is_space; reflect; lia|].
      split; [done|]. by destruct u. }
    destruct (Hu s Hd) as [-> ->]. done. }
  assert (Hp : parse_decimal s = Fin ((inject_Z v + inject_Z 0 * Q10 (- 0)) * Q10 0)).
  { unfold parse_decimal. destruct (String.eqb_spec s "Infinity") as [->|_].
    { apply Forall_cons in Hd as [Hd _]. change (48 <= 73 < 58) in Hd. lia. }
    rewrite Hdig. assert (n =? 0 = false) as -> by lia. done. }
  exists ((inject_Z v + inject_Z 0 * Q10 (- 0)) * Q10 0)%Q. split; [|unfold Q10; simpl; ring].
  unfold Number_of_string. rewrite Htrim.
  destruct s as [|c t]; [simplify_eq/=; lia|].
  unfold digit_string in Hd. simpl in Hd. apply Forall_cons in Hd as [Hc Ht].
  destruct c as [b0 b1 b2 b3 b4 b5 b6 b7].
  destruct b0, b1, b2, b3, b4, b5, b6, b7; try (vm_compute in Hc; naive_solver); try exact Hp.
  destruct t as [|c t]; [exact Hp|]. apply Forall_cons in Ht as [H0 _].
  destruct c as [b0 b1 b2 b3 b4 b5 b6 b7].
  destruct b0, b1, b2, b3, b4, b5, b6, b7; try (vm_compute in H0; naive_solver); exact Hp.
Qed.

Lemma width_digits n : 0 <= n -> digits 0 0 (pad (width n) n) = (n, Z.of_nat (width n), "").
Proof.
  intros Hn. pose proof (width_bound n Hn). rewrite <- (str_app_nil_r (pad _ _)), digits_snoc by lia.
  simpl. repeat f_equal; lia.
Qed.

(** [Number(String(n))] is [n]. *)
Lemma Number_of_String_of_int n :
  0 <= n -> isInteger (Number_of_string (String_of_int n)) = Some n.
Proof.
  intros Hn. unfold String_of_int. assert (n <? 0 = false) as -> by lia.
  destruct (Number_of_digits (pad (width n) n) n (Z.of_nat (width n))) as (q & -> & Hq).
  - by apply pad_digits.
  - by apply width_digits.
  - pose proof (width_pos n). lia.
  - unfold isInteger. rewrite (Qred_complete _ _ Hq).
    assert (Qred (inject_Z n) = inject_Z n) as ->; [|done].
    unfold Qred, inject_Z. pose proof (Z.ggcd_gcd n 1) as Hg.
    pose proof (Z.ggcd_correct_divisors n 1) as Hc. rewrite Z.gcd_1_r in Hg.
    destruct (Z.ggcd n 1) as [g [a b]]. simpl in *. subst g.
    rewrite !Z.mul_1_l in Hc. destruct Hc as [<- <-]. done.
Qed.

Lemma String_of_int_char n c :
  0 <= n -> ~ 48 <= code c < 58 -> has_char c (String_of_int n) = false.
Proof.
  intros Hn Hc. unfold String_of_int. assert (n <? 0 = false) as -> by lia.
  apply digit_string_char; [by apply pad_digits|done].
Qed.

Lemma String_of_int_inj m n : 0 <= m -> 0 <= n -> String_of_int m = String_of_int n -> m = n.
Proof.
  intros Hm Hn He. pose proof (Number_of_String_of_int m Hm) as H1.
  rewrite He, Number_of_String_of_int in H1 by done. congruence.
Qed.

(** *** base64 *)

(** The [n]-th characters of an alphabet, decided by evaluation for every [n < k]. *)
Lemma forall_below (k : nat) (P : Z -> bool) :
  forallb P (map Z.of_nat (List.seq 0 k)) = true -> forall n, 0 <= n < Z.of_nat k -> P n = true.
Proof.
  intros H n Hn. rewrite forallb_forall in H. apply H, in_map_iff. exists (Z.to_nat n).
  split; [lia|]. apply in_seq. lia.
Qed.

Lemma b64_val_char n : 0 <= n < 64 -> b64_val (b64_char n) = Some n.
Proof.
  intros Hn. apply (bool_decide_unpack _), Is_true_true.
  exact (forall_below 64 (fun n => bool_decide (b64_val (b64_char n) = Some n)) eq_refl n Hn).
Qed.

Lemma b64_char_plain n :
  0 <= n < 64 -> Ascii.eqb (b64_char n) "." = false /\ Ascii.eqb (b64_char n) "$" = false.
Proof.
  intros Hn. rewrite <- !negb_true_iff, <- andb_true_iff.
  exact (forall_below 64 (fun n => negb (Ascii.eqb (b64_char n) ".")
    && negb (Ascii.eqb (b64_char n) "$")) eq_refl n Hn).
Qed.

(** Induction over a byte list three at a time. *)
Lemma triples_ind (P : list Z -> Prop) :
  P [] -> (forall a, P [a]) -> (forall a b, P [a; b]) ->
  (forall a b c rest, P rest -> P (a :: b :: c :: rest)) -> forall l, P l.
Proof.
  intros H0 H1 H2 H3 l. enough (P l /\ (forall a, P (a :: l)) /\ forall a b, P (a :: b :: l)) by tauto.
  induction l as [|x l (IH0 & IH1 & IH2)]; auto.
Qed.

(** The tail of an encoding: its sextets follow those of the characters before it. *)
Lemma base64_round_trip bs : Forall is_byte bs -> base64_decode (base64_encode bs) = bs.
Proof.
  unfold base64_decode, is_byte. induction bs as [|a|a b|a b c rest IH] using triples_ind;
    intros H; repeat (apply Forall_cons in H as [? H]); simpl; [done|..];
    rewrite ?b64_val_char by lia; simpl.
  - f_equal. lia.
  - repeat f_equal; lia.
  - rewrite IH by done. repeat f_equal; lia.
Qed.

Lemma base64_no_sep bs :
  Forall is_byte bs ->
  has_char "." (base64_encode bs) = false /\ has_char "$" (base64_encode bs) = false.
Proof.
  unfold is_byte. induction bs as [|a|a b|a b c rest IH] using triples_ind;
    intros H; repeat (apply Forall_cons in H as [? H]); cbn [base64_encode has_char]; [done|..];
    repeat match goal with
    | |- context [Ascii.eqb (b64_char ?n) _] =>
        destruct (b64_char_plain n) as [-> ->]; [lia|]
    end; auto.
Qed.

(** ** Integers among the numbers *)

Lemma Qred_int n : Qred (inject_Z n) = inject_Z n.
Proof.
  unfold Qred, inject_Z. pose proof (Z.ggcd_gcd n 1) as Hg. pose proof (Z.ggcd_correct_divisors n 1) as Hd.
  destruct (Z.ggcd n 1) as [g [a b]]. simpl in *. rewrite Z.gcd_1_r in Hg. subst. destruct Hd as [Ha Hb].
  rewrite Z.mul_1_l in Ha, Hb. by subst.
Qed.

Lemma isInteger_int n : isInteger (Fin (inject_Z n)) = Some n.
Proof. unfold isInteger. rewrite Qred_int. done. Qed.
