(* ===== verification/Health.v ===== *)
(** * Health: statuses, rollup, uptime and event derivation

    Models packages/core/src/state.ts, uptime.ts and diff.ts with the statuses of
    packages/shared/src/common.ts: pure functions over samples of monitored units. *)
From S2P Require Import Prelude Dates.

Inductive HealthStatus : Set := UP | DEGRADED | HANG | DOWN | UNKNOWN.

#[export] Instance HealthStatus_eq_dec : EqDecision HealthStatus.
Proof. solve_decision. Defined.

Definition HEALTH_STATUSES : list HealthStatus := [UP; DEGRADED; HANG; DOWN; UNKNOWN].

Definition status_eqb (a b : HealthStatus) : bool := bool_decide (a = b).

(** The text the status is stored and shown as. *)
Definition status_text (s : HealthStatus) : string :=
  match s with
  | UP => "UP" | DEGRADED => "DEGRADED" | HANG => "HANG" | DOWN => "DOWN" | UNKNOWN => "UNKNOWN"
  end.

(** ** Rollup (state.ts) *)

Record Unit_ := { u_status : HealthStatus; critical : bool }.

Definition isBad (s : HealthStatus) : bool := status_eqb s DOWN || status_eqb s HANG.

Definition rollup (units : list Unit_) : HealthStatus :=
  match units with
  | [] => UNKNOWN
  | _ =>
      if existsb (fun u => critical u && isBad (u_status u)) units then DOWN
      else if existsb (fun u => negb (critical u) && isBad (u_status u)) units then DEGRADED
      else if forallb (fun u => status_eqb (u_status u) UP) units then UP
      else UNKNOWN
  end.

(** ** Uptime (uptime.ts) *)

Record UptimeBucket := { upSec : Z; totalSec : Z }.

Definition emptyBucket : UptimeBucket := {| upSec := 0; totalSec := 0 |}.

Definition accumulate (b : UptimeBucket) (status : HealthStatus) (deltaSec : Z) : UptimeBucket :=
  let delta := Z.max 0 deltaSec in
  {| upSec := upSec b + (if status_eqb status UP then delta else 0);
     totalSec := totalSec b + delta |}.

(** The percentage, with two decimals. The division is exact here; JavaScript
    rounds it to a double before [Math.round]. *)
Definition uptimePct (b : UptimeBucket) : Q :=
  if totalSec b =? 0 then 0%Q
  else Qmake (js_round (inject_Z (upSec b) / inject_Z (totalSec b) * 100 * 100)) 100.

(** ** Event derivation (diff.ts) *)

Record UnitSample := { entity : string; status : HealthStatus; pid : option Z }.

Inductive DerivedEvent : Set :=
| STATUS_CHANGE (entity : string) (oldStatus : option HealthStatus) (newStatus : HealthStatus)
| SERVICE_RESTART (entity : string) (oldPid newPid : Z).

Definition event_entity (e : DerivedEvent) : string :=
  match e with STATUS_CHANGE n _ _ => n | SERVICE_RESTART n _ _ => n end.

Definition status_events (old : option UnitSample) (sample : UnitSample) : list DerivedEvent :=
  match old with
  | None => [STATUS_CHANGE (entity sample) None (status sample)]
  | Some o =>
      if status_eqb (status o) (status sample) then []
      else [STATUS_CHANGE (entity sample) (Some (status o)) (status sample)]
  end.

Definition restart_events (old : option UnitSample) (sample : UnitSample) : list DerivedEvent :=
  match old ≫= pid, pid sample with
  | Some oldPid, Some newPid =>
      if (0 <? oldPid) && (0 <? newPid) && negb (oldPid =? newPid)
      then [SERVICE_RESTART (entity sample) oldPid newPid] else []
  | _, _ => []
  end.

(** [prev] is the JS [Map] from an entity to its previous sample. *)
Definition diffStates (prev : gmap string UnitSample) (current : list UnitSample)
  : list DerivedEvent :=
  flat_map (fun sample =>
    let old := prev !! entity sample in
    status_events old sample ++ restart_events old sample) current.

Inductive ClientEvent : Set := CLIENT_CONNECT (client : string) | CLIENT_DISCONNECT (client : string).

(** The two JS [Set]s are lists without duplicates, in insertion order. *)
Definition diffClients (prev current : list string) : list ClientEvent :=
  map CLIENT_CONNECT (List.filter (fun c => negb (includes prev c)) current) ++
  map CLIENT_DISCONNECT (List.filter (fun c => negb (includes current c)) prev).

Definition isStale (lastSeenIso : string) (now thresholdSec : Z) : bool :=
  match Date_parse lastSeenIso with
  | None => true
  | Some lastSeenMs => thresholdSec * 1000 <? now - lastSeenMs
  end.

(** ** Replaying the event log *)

(** The live view of entity statuses after one durable event. *)
Definition apply_event (view : gmap string HealthStatus) (e : DerivedEvent) : gmap string HealthStatus :=
  match e with
  | STATUS_CHANGE n _ new => <[n := new]> view
  | SERVICE_RESTART _ _ _ => view
  end.

Definition replay (view : gmap string HealthStatus) (es : list DerivedEvent) : gmap string HealthStatus :=
  fold_left apply_event es view.

(** The baseline after storing every current sample over the previous ones. *)
Definition refresh (prev : gmap string UnitSample) (current : list UnitSample) : gmap string UnitSample :=
  fold_left (fun m s => <[entity s := s]> m) current prev.

Definition apply_client (view : gset string) (e : ClientEvent) : gset string :=
  match e with
  | CLIENT_CONNECT c => {[c]} ∪ view
  | CLIENT_DISCONNECT c => view ∖ {[c]}
  end.

(** ** Lemmas *)

Lemma status_eqb_true a b : status_eqb a b = true <-> a = b.
Proof. apply bool_decide_eq_true. Qed.

Lemma status_eqb_false a b : status_eqb a b = false <-> a <> b.
Proof. apply bool_decide_eq_false. Qed.

#[export] Hint Rewrite status_eqb_true status_eqb_false : argus.

Lemma isBad_true s : isBad s = true <-> s = DOWN \/ s = HANG.
Proof. unfold isBad. by reflect. Qed.

#[export] Hint Rewrite isBad_true : argus.

Lemma rollup_unfold units :
  rollup units =
  if existsb (fun u => critical u && isBad (u_status u)) units then DOWN
  else if existsb (fun u => negb (critical u) && isBad (u_status u)) units then DEGRADED
  else if negb (bool_decide (units = [])) && forallb (fun u => status_eqb (u_status u) UP) units
  then UP else UNKNOWN.
Proof. by destruct units. Qed.

(** The tests of [rollup], as propositions over the units. *)
Lemma bad_unit_iff (c : bool) units :
  existsb (fun u => (if c then critical u else negb (critical u)) && isBad (u_status u)) units = true
  <-> exists u, u ∈ units /\ critical u = c /\ (u_status u = DOWN \/ u_status u = HANG).
Proof.
  rewrite existsb_true. f_equiv; intros u. rewrite andb_true_iff, isBad_true.
  destruct c; [done|]. by rewrite negb_true_iff.
Qed.

(** Uptime of a list of intervals. *)
Definition total_of (ivs : list (HealthStatus * Z)) : Z :=
  foldr (fun iv acc => Z.max 0 (snd iv) + acc) 0 ivs.

Definition up_of (ivs : list (HealthStatus * Z)) : Z :=
  total_of (List.filter (fun iv => status_eqb (fst iv) UP) ivs).

Lemma accumulate_fold ivs b :
  let b' := fold_left (fun b iv => accumulate b (fst iv) (snd iv)) ivs b in
  upSec b' = upSec b + up_of ivs /\ totalSec b' = totalSec b + total_of ivs.
Proof.
  revert b. induction ivs as [|[st d] ivs IH]; intros b; simpl; [unfold up_of; simpl; lia|].
  destruct (IH (accumulate b st d)) as [-> ->]. unfold up_of, accumulate; simpl.
  destruct (status_eqb st UP); simpl; lia.
Qed.

Lemma up_of_bounds ivs : 0 <= up_of ivs <= total_of ivs.
Proof.
  unfold up_of. induction ivs as [|[st d] ivs IH]; simpl; [lia|].
  destruct (status_eqb st UP); simpl; lia.
Qed.

Lemma uptimePct_bounds b :
  0 <= upSec b <= totalSec b -> (0 <= uptimePct b <= 100)%Q.
Proof.
  intros [H0 H1]. unfold uptimePct. destruct (Z.eqb_spec (totalSec b) 0); [split; lra|].
  set (q := (inject_Z (upSec b) / inject_Z (totalSec b) * 100 * 100)%Q).
  assert (Hq : (inject_Z 0 <= q <= inject_Z 10000)%Q).
  { assert (0 < inject_Z (totalSec b))%Q as Ht
      by (change 0%Q with (inject_Z 0); rewrite <- Zlt_Qlt; lia).
    assert (0 <= inject_Z (upSec b) / inject_Z (totalSec b) <= 1)%Q as [Ha Hb].
    { split.
      - apply Qle_shift_div_l; [done|]. rewrite Qmult_0_l.
        change 0%Q with (inject_Z 0). rewrite <- Zle_Qle. lia.
      - apply Qle_shift_div_r; [done|]. rewrite Qmult_1_l. rewrite <- Zle_Qle. lia. }
    subst q. change (inject_Z 0) with 0%Q. change (inject_Z 10000) with 10000%Q. lra. }
  destruct Hq as [Hq1%js_round_mono Hq2%js_round_mono]. rewrite js_round_inject_Z in Hq1, Hq2.
  unfold Qle; simpl. lia.
Qed.

Lemma status_replay prev cur view :
  NoDup (map entity cur) ->
  (forall s, s ∈ cur -> view !! entity s = status <$> prev !! entity s) ->
  replay view (diffStates prev cur) = fold_left (fun m s => <[entity s := status s]> m) cur view.
Proof.
  revert view. induction cur as [|s cur IH]; intros view Hnd Hv; [done|].
  apply NoDup_cons in Hnd as [Hs Hnd]. simpl map in Hs.
  unfold diffStates, replay in *. cbn [flat_map fold_left].
  rewrite fold_left_app, fold_left_app.
  assert (Hr : forall v, fold_left apply_event (restart_events (prev !! entity s) s) v = v).
  { intros v. unfold restart_events. repeat case_match; done. }
  rewrite Hr.
  assert (Hse : fold_left apply_event (status_events (prev !! entity s) s) view
                = <[entity s := status s]> view).
  { specialize (Hv s ltac:(set_solver)). unfold status_events.
    destruct (prev !! entity s) as [o|]; simpl; [|done].
    destruct (status_eqb (status o) (status s)) eqn:He; simpl; [|done].
    apply status_eqb_true in He. symmetry. apply insert_id. rewrite Hv. simpl. by rewrite He. }
  rewrite Hse.
  apply IH; [done|]. intros s' Hs'. rewrite lookup_insert_ne.
  - apply Hv. set_solver.
  - intros He. apply Hs. rewrite He. apply elem_of_map. eauto.
Qed.

Lemma refresh_status prev cur :
  status <$> refresh prev cur = fold_left (fun m s => <[entity s := status s]> m) cur (status <$> prev).
Proof.
  unfold refresh. revert prev. induction cur as [|s cur IH]; intros prev; simpl; [done|].
  by rewrite IH, fmap_insert.
Qed.

Lemma refresh_lookup prev cur s :
  NoDup (map entity cur) -> s ∈ cur -> refresh prev cur !! entity s = Some s.
Proof.
  unfold refresh. revert prev. induction cur as [|s' cur IH]; intros prev Hnd Hs; [set_solver|].
  apply NoDup_cons in Hnd as [Hn Hnd]. simpl. apply elem_of_cons in Hs as [<-|Hs]; [|auto].
  assert (Hother : forall (m : gmap string UnitSample), entity s ∉ map entity cur ->
    fold_left (fun m s => <[entity s := s]> m) cur m !! entity s = m !! entity s).
  { clear. induction cur as [|x cur IH]; intros m Hn; simpl in *; [done|].
    rewrite IH by set_solver. apply lookup_insert_ne. set_solver. }
  rewrite Hother by done. apply lookup_insert_eq.
Qed.

Lemma elem_of_diffStates prev cur e :
  e ∈ diffStates prev cur <->
  exists s, s ∈ cur /\
    (e ∈ status_events (prev !! entity s) s \/ e ∈ restart_events (prev !! entity s) s).
Proof.
  unfold diffStates. rewrite list_elem_of_In, in_flat_map.
  setoid_rewrite <- list_elem_of_In. by setoid_rewrite elem_of_app.
Qed.

Lemma elem_of_status_events old s e :
  e ∈ status_events old s <->
  e = STATUS_CHANGE (entity s) (status <$> old) (status s) /\ status <$> old <> Some (status s).
Proof.
  unfold status_events. destruct old as [o|]; simpl.
  - destruct (status_eqb (status o) (status s)) eqn:He.
    + apply status_eqb_true in He. rewrite elem_of_nil, He. naive_solver.
    + apply status_eqb_false in He. rewrite list_elem_of_singleton. naive_solver.
  - rewrite list_elem_of_singleton. naive_solver.
Qed.

Lemma elem_of_restart_events old s e :
  e ∈ restart_events old s <->
  exists o p q, old = Some o /\ pid o = Some p /\ pid s = Some q /\ 0 < p /\ 0 < q /\ p <> q /\
    e = SERVICE_RESTART (entity s) p q.
Proof.
  unfold restart_events. destruct old as [o|]; simpl; [|rewrite elem_of_nil; naive_solver].
  destruct (pid o) as [p|] eqn:Hp; [|rewrite elem_of_nil; naive_solver].
  destruct (pid s) as [q|] eqn:Hq; [|rewrite elem_of_nil; naive_solver].
  destruct ((0 <? p) && (0 <? q) && negb (p =? q)) eqn:Hb.
  - rewrite !andb_true_iff, negb_true_iff, !Z.ltb_lt, Z.eqb_neq in Hb.
    rewrite list_elem_of_singleton. naive_solver.
  - rewrite elem_of_nil. split; [done|]. intros (o' & p' & q' & Ho & Hp' & Hq' & H0 & H1 & Hne & _).
    simplify_eq. rewrite !(proj2 (Z.ltb_lt _ _)), (proj2 (Z.eqb_neq _ _)) in Hb by done. done.
Qed.

Lemma unchanged_no_events s : status_events (Some s) s ++ restart_events (Some s) s = [].
Proof.
  unfold status_events, restart_events. rewrite (proj2 (status_eqb_true _ _)) by done. simpl.
  destruct (pid s) as [p|]; [|done]. rewrite Z.eqb_refl, andb_false_r. done.
Qed.

(** ** Properties *)

(** The rollup of any units: DOWN exactly when a critical unit is DOWN or HANG;
    DEGRADED exactly when none is, but a non-critical unit is DOWN or HANG; UP
    exactly when there is a unit and every unit is UP; UNKNOWN otherwise (so never
    HANG). The order of the units is irrelevant. *)
Theorem rollup_spec (units : list Unit_) :
  let bad c := exists u, u ∈ units /\ critical u = c /\ (u_status u = DOWN \/ u_status u = HANG) in
  (rollup units = DOWN <-> bad true) /\
  (rollup units = DEGRADED <-> ~ bad true /\ bad false) /\
  (rollup units = UP <-> units <> [] /\ forall u, u ∈ units -> u_status u = UP) /\
  rollup units <> HANG.
Proof.
  intros bad. rewrite rollup_unfold.
  pose proof (bad_unit_iff true units) as Ht. pose proof (bad_unit_iff false units) as Hf.
  simpl in Ht, Hf. fold (bad true) in Ht. fold (bad false) in Hf.
  assert (Hall : forall c, (forall u, u ∈ units -> u_status u = UP) -> ~ bad c).
  { intros c Hup (u & Hu & _ & [Hs|Hs]); rewrite Hup in Hs; done. }
  assert (Hup : forallb (fun u => status_eqb (u_status u) UP) units = true <->
    forall u, u ∈ units -> u_status u = UP) by (rewrite forallb_true; by setoid_rewrite status_eqb_true).
  assert (Hnil : negb (bool_decide (units = [])) = true <-> units <> [])
    by (rewrite negb_true_iff; apply bool_decide_eq_false).
  pose proof (Hall true). pose proof (Hall false). clear Hall. clearbody bad.
  destruct (existsb (fun u => critical u && _) units),
    (existsb (fun u => negb (critical u) && _) units), (negb (bool_decide _)), (forallb _ _);
    simpl; intuition congruence.
Qed.

(** Accumulating any sequence of (status, seconds) intervals from the empty
    bucket counts every non-negative second once in [totalSec] and the UP ones in
    [upSec], so [0 <= upSec <= totalSec] and the percentage lies in 0..100. A
    negative interval (clock skew) counts for nothing. *)
Theorem accumulate_uptime (ivs : list (HealthStatus * Z)) :
  let b := fold_left (fun b iv => accumulate b (fst iv) (snd iv)) ivs emptyBucket in
  upSec b = up_of ivs /\ totalSec b = total_of ivs /\
  0 <= upSec b <= totalSec b /\ (0 <= uptimePct b <= 100)%Q.
Proof.
  intros b. pose proof (accumulate_fold ivs emptyBucket) as [Hu Ht]. fold b in Hu, Ht.
  simpl in Hu, Ht. pose proof (up_of_bounds ivs).
  repeat split; try lia; apply uptimePct_bounds; lia.
Qed.

(** Which events a diff derives: a STATUS_CHANGE exactly for a sample whose
    entity is new (old status null) or had another status; a SERVICE_RESTART exactly
    for a sample whose old and new pids are both positive and differ. *)
Theorem diffStates_events (prev : gmap string UnitSample) (cur : list UnitSample) :
  (forall n old new, STATUS_CHANGE n old new ∈ diffStates prev cur <->
    exists s, s ∈ cur /\ entity s = n /\ status s = new /\
      old = status <$> prev !! n /\ old <> Some new) /\
  (forall n p q, SERVICE_RESTART n p q ∈ diffStates prev cur <->
    exists s o, s ∈ cur /\ entity s = n /\ prev !! n = Some o /\
      pid o = Some p /\ pid s = Some q /\ 0 < p /\ 0 < q /\ p <> q).
Proof.
  split; intros; rewrite elem_of_diffStates; setoid_rewrite elem_of_status_events;
    setoid_rewrite elem_of_restart_events.
  - f_equiv; intros s. naive_solver.
  - naive_solver.
Qed.

(** The event log is the system of record: replaying the events derived from a
    batch (whose entities are distinct) over the previous live view yields exactly
    the statuses of the refreshed baseline, for every entity. *)
Theorem diffStates_replay (prev : gmap string UnitSample) (cur : list UnitSample)
  (Hdistinct : NoDup (map entity cur)) :
  replay (status <$> prev) (diffStates prev cur) = status <$> refresh prev cur.
Proof.
  rewrite refresh_status. apply status_replay; [done|]. intros s _. by rewrite lookup_fmap.
Qed.

Example diffStates_replay_witness :
  let prev := {["web" := {| entity := "web"; status := UP; pid := Some 7 |}]} : gmap string UnitSample in
  let cur := [{| entity := "web"; status := DOWN; pid := None |};
              {| entity := "db"; status := UP; pid := Some 3 |}] in
  NoDup (map entity cur) /\
  replay (status <$> prev) (diffStates prev cur) = status <$> refresh prev cur.
Proof.
  split; [vm_compute; repeat constructor; set_solver|].
  apply diffStates_replay. vm_compute. repeat constructor; set_solver.
Defined.

(** Pushing the same batch (of distinct entities) again derives no event: a
    unit that did not change leaves no trace in the event log. *)
Theorem diffStates_idempotent (prev : gmap string UnitSample) (cur : list UnitSample)
  (Hdistinct : NoDup (map entity cur)) :
  diffStates (refresh prev cur) cur = [].
Proof.
  assert (H : forall s, s ∈ cur -> refresh prev cur !! entity s = Some s)
    by (intros; by apply refresh_lookup).
  unfold diffStates. revert H. generalize (refresh prev cur) as m. clear Hdistinct prev.
  induction cur as [|s cur IH]; intros m H; [done|]. cbn [flat_map].
  rewrite H by set_solver. rewrite unchanged_no_events. apply IH. set_solver.
Qed.

Example diffStates_idempotent_witness :
  let cur := [{| entity := "web"; status := DOWN; pid := Some 4 |};
              {| entity := "db"; status := UP; pid := Some 3 |}] in
  NoDup (map entity cur) /\ diffStates (refresh ∅ cur) cur = [].
Proof.
  split; [vm_compute; repeat constructor; set_solver|].
  apply (diffStates_idempotent ∅). vm_compute. repeat constructor; set_solver.
Defined.

(** A batch that samples one entity twice breaks the correspondence: the diff
    compares both samples with the previous baseline, so the log ends in DOWN while
    the baseline ends in UP. (Nothing makes the monitor names of an agent distinct.) *)
Theorem diffStates_duplicate_entity_diverges :
  let prev := {["web" := {| entity := "web"; status := UP; pid := None |}]} : gmap string UnitSample in
  let cur := [{| entity := "web"; status := DOWN; pid := None |};
              {| entity := "web"; status := UP; pid := None |}] in
  replay (status <$> prev) (diffStates prev cur) !! "web" = Some DOWN /\
  (status <$> refresh prev cur) !! "web" = Some UP.
Proof. split; vm_compute; reflexivity. Qed.

(** The client diff explains the change of the connected set: applying its
    connects and disconnects to the previous clients gives the current ones, no
    client occurs twice among the events, and equal sets give no event. *)
Theorem diffClients_replay (prev current : list string)
  (Hprev : NoDup prev) (Hcur : NoDup current) :
  fold_left apply_client (diffClients prev current) (list_to_set prev) = list_to_set current /\
  NoDup (diffClients prev current) /\
  (prev ≡ₚ current -> diffClients prev current = []).
Proof.
  assert (Hcon : forall l (v : gset string),
    fold_left apply_client (map CLIENT_CONNECT l) v = list_to_set l ∪ v).
  { induction l as [|c l IH]; intros v; simpl; [set_solver|]. rewrite IH. set_solver. }
  assert (Hdis : forall l (v : gset string),
    fold_left apply_client (map CLIENT_DISCONNECT l) v = v ∖ list_to_set l).
  { induction l as [|c l IH]; intros v; simpl; [set_solver|]. rewrite IH. set_solver. }
  unfold diffClients. split; [|split].
  - rewrite fold_left_app, Hcon, Hdis. apply set_eq. intros c.
    rewrite elem_of_difference, elem_of_union, !elem_of_list_to_set, !elem_of_filterb,
      !negb_true_iff, !includes_false.
    destruct (decide (c ∈ prev)), (decide (c ∈ current)); tauto.
  - apply NoDup_app. split; [|split].
    + apply NoDup_fmap_2; [by intros ?? [=]|]. by apply NoDup_filterb.
    + intros e (c & -> & _)%elem_of_map (c' & ? & _)%elem_of_map. done.
    + apply NoDup_fmap_2; [by intros ?? [=]|]. by apply NoDup_filterb.
  - intros Hp.
    assert (Hnil : forall l1 l2, l1 ≡ₚ l2 -> List.filter (fun c => negb (includes l2 c)) l1 = []).
    { intros l1 l2 H12. apply filterb_nil. intros c Hc.
      by apply negb_false_iff, includes_true; rewrite <- H12. }
    by rewrite !Hnil by (done || by symmetry).
Qed.

Example diffClients_replay_witness :
  NoDup ["a"; "b"] /\ NoDup ["b"; "c"] /\
  fold_left apply_client (diffClients ["a"; "b"] ["b"; "c"]) (list_to_set ["a"; "b"])
    = list_to_set ["b"; "c"].
Proof.
  assert (NoDup ["a"; "b"]) by (repeat constructor; set_solver).
  assert (NoDup ["b"; "c"]) by (repeat constructor; set_solver).
  split; [done|]. split; [done|]. by apply (diffClients_replay ["a"; "b"] ["b"; "c"]).
Defined.
