(* ===== verification/Schema.v ===== *)
(** * The two database schemas

    Models packages/db/src/master/schema.ts and packages/db/src/telemetry/schema.ts:
    one record per table, one field per column, in the order of the sources. A
    [timestamptz] column is the instant in milliseconds; a nullable column is an
    [option]; a [jsonb] object is its list of entries. The [_conflict] relations
    are the primary keys and unique columns; [MASTER_FKS] are the foreign keys. *)
From S2P Require Import Prelude.

(** An item of the public status page (packages/shared/src/public.ts). *)
Record PublicItem := { item_kind : string; item_refId : string; item_label : string; item_group : option string }.

(** A discoverable service or process. *)
Record InvItem := { inv_name : string; inv_detail : option string }.

(** A scalar OID of a device profile. *)
Record SnmpProfileOid := {
  po_label : string; po_oid : string; po_unit : option string; po_group : option string
}.

(** A column of a table of a device profile; the entries map raw values to labels. *)
Record SnmpProfileTableCol := {
  pc_label : string; pc_col : Z; pc_unit : option string; pc_enum : option (list (string * string))
}.

(** A table of a device profile. *)
Record SnmpProfileTable := { pt_name : string; pt_oid : string; pt_columns : list SnmpProfileTableCol }.

(** Core identity record. A null password hash is an OIDC-federated user. *)
Record UserRow := {
  user_id : string; user_username : string; user_displayName : string;
  user_email : option string; user_passwordHash : option string; user_authProvider : string;
  user_disabled : bool; user_isOwner : bool; user_isSystem : bool; user_totpEnabled : bool;
  user_totpSecret : option string; user_totpRecovery : option (list string);
  user_tokenVersion : Z; user_failedLoginCount : Z; user_lockedUntil : option Z;
  user_lastLoginAt : option Z; user_createdAt : Z; user_updatedAt : Z
}.

(** A collection of users. *)
Record GroupRow := {
  group_id : string; group_name : string; group_description : string; group_isSystem : bool;
  group_createdAt : Z; group_updatedAt : Z
}.

(** A named set of permissions. *)
Record RoleRow := {
  role_id : string; role_name : string; role_description : string; role_isSystem : bool;
  role_createdAt : Z; role_updatedAt : Z
}.

(** An atomic capability "resource:action". *)
Record PermissionRow := {
  perm_id : string; perm_key : string; perm_description : string; perm_createdAt : Z;
  perm_updatedAt : Z
}.

(** Which permissions a role grants. *)
Record RolePermissionRow := {
  rp_roleId : string; rp_permissionId : string
}.

(** Which roles a group holds. *)
Record GroupRoleRow := {
  gr_groupId : string; gr_roleId : string
}.

(** Which groups a user is in. *)
Record UserGroupRow := {
  ug_userId : string; ug_groupId : string
}.

(** An ABAC attribute of a user. *)
Record UserAttributeRow := {
  attr_id : string; attr_userId : string; attr_key : string; attr_value : string;
  attr_createdAt : Z; attr_updatedAt : Z
}.

(** A registered monitoring agent or agentless device. *)
Record AgentRow := {
  agent_id : string; agent_name : string; agent_kind : string;
  agent_hostname : option string; agent_platform : option string;
  agent_address : option string; agent_status : string; agent_version : option string;
  agent_lastSeenAt : option Z; agent_approvedAt : option Z;
  agent_pushIntervalSec : option Z; agent_metadata : option (list (string * json));
  agent_createdAt : Z; agent_updatedAt : Z
}.

(** A connection key, stored as its hash. *)
Record AgentKeyRow := {
  akey_id : string; akey_agentId : option string; akey_label : string;
  akey_keyHash : string; akey_secretRef : option string; akey_disabled : bool;
  akey_lastUsedAt : option Z; akey_createdAt : Z; akey_updatedAt : Z
}.

(** An encrypted envelope under a logical name. *)
Record SecretRow := {
  secret_id : string; secret_ref : string; secret_ciphertext : string;
  secret_keyVersion : Z; secret_createdAt : Z; secret_updatedAt : Z
}.

(** A platform setting. *)
Record SettingRow := {
  setting_key : string; setting_value : json; setting_createdAt : Z; setting_updatedAt : Z
}.

(** An external OpenID Connect provider. *)
Record OidcProviderRow := {
  oidc_id : string; oidc_name : string; oidc_issuer : string; oidc_clientId : string;
  oidc_clientSecretRef : option string; oidc_enabled : bool; oidc_brand : string;
  oidc_createdAt : Z; oidc_updatedAt : Z
}.

(** A monitoring target of an agent. *)
Record MonitorRow := {
  mon_id : string; mon_agentId : string; mon_type : string; mon_name : string;
  mon_enabled : bool; mon_config : list (string * json); mon_createdAt : Z;
  mon_updatedAt : Z
}.

(** A reusable device profile. *)
Record SnmpProfileRow := {
  snmp_id : string; snmp_name : string; snmp_vendor : string; snmp_deviceType : string;
  snmp_model : string; snmp_standard : bool; snmp_oids : list SnmpProfileOid;
  snmp_tables : list SnmpProfileTable; snmp_isSystem : bool; snmp_createdAt : Z;
  snmp_updatedAt : Z
}.

(** An OID of an uploaded MIB. *)
Record MibObjectRow := {
  mib_oid : string; mib_name : string; mib_unit : option string;
  mib_description : option string; mib_module : string; mib_createdAt : Z; mib_updatedAt : Z
}.

(** How long a data type is kept; null is for ever. *)
Record RetentionRow := {
  ret_dataType : string; ret_days : option Z; ret_createdAt : option Z;
  ret_updatedAt : option Z
}.

(** An issued refresh token (a session), stored as its hash. *)
Record RefreshTokenRow := {
  rt_id : string; rt_userId : string; rt_tokenHash : string; rt_expiresAt : Z;
  rt_revokedAt : option Z; rt_userAgent : option string; rt_ip : option string;
  rt_lastUsedAt : option Z; rt_createdAt : Z; rt_updatedAt : Z
}.

(** A queued server-to-agent command. *)
Record AgentCommandRow := {
  cmd_id : string; cmd_agentId : string; cmd_type : string;
  cmd_payload : option (list (string * json)); cmd_status : string; cmd_sentAt : option Z;
  cmd_ackedAt : option Z; cmd_createdAt : Z; cmd_updatedAt : Z
}.

(** A wallboard layout. *)
Record WallLayoutRow := {
  layout_id : string; layout_name : string; layout_description : string;
  layout_isDefault : bool; layout_isSystem : bool; layout_content : list (string * json);
  layout_rotateSec : Z; layout_template : string; layout_panelConfig : list (string * json);
  layout_createdAt : Z; layout_updatedAt : Z
}.

(** Displays that share a board. *)
Record WallDeviceGroupRow := {
  dgroup_id : string; dgroup_name : string; dgroup_layoutId : option string;
  dgroup_createdAt : Z; dgroup_updatedAt : Z
}.

(** A registered display; pairs by a one-time code. *)
Record WallDeviceRow := {
  dev_id : string; dev_name : string; dev_status : string; dev_pairingCode : string;
  dev_tokenHash : option string; dev_fingerprint : option string;
  dev_layoutId : option string; dev_groupId : option string; dev_ipBound : option string;
  dev_lastSeenAt : option Z; dev_approvedAt : option Z; dev_createdAt : Z; dev_updatedAt : Z
}.

(** A scrolling ticker message. *)
Record TickerRow := {
  tick_id : string; tick_text : string; tick_enabled : bool; tick_severity : string;
  tick_priority : Z; tick_startsAt : option Z; tick_endsAt : option Z;
  tick_recurrence : option json; tick_deviceGroupIds : option (list string);
  tick_userGroupIds : option (list string); tick_createdAt : Z; tick_updatedAt : Z
}.

(** The singleton public status configuration. *)
Record PublicConfigRow := {
  pub_id : string; pub_enabled : bool; pub_title : string; pub_description : option string;
  pub_showUptime : bool; pub_showHistory : bool; pub_historyDays : Z;
  pub_noticeLevel : option string; pub_noticeMessage : option string;
  pub_items : list PublicItem; pub_createdAt : Z; pub_updatedAt : Z
}.

(** An operator annotation of a client address. *)
Record ClientMetaRow := {
  cm_ip : string; cm_hostname : option string; cm_description : option string;
  cm_updatedBy : option string; cm_createdAt : Z; cm_updatedAt : Z
}.

(** A durable status change or restart. *)
Record StatusEventRow := {
  ev_id : string; ev_sourceId : string; ev_entity : string; ev_type : string;
  ev_oldStatus : option string; ev_newStatus : option string; ev_oldPid : option Z;
  ev_newPid : option Z; ev_detail : option json; ev_ts : Z
}.

(** A client connect or disconnect. *)
Record ClientEventRow := {
  cev_id : string; cev_sourceId : string; cev_service : string; cev_remoteIp : string;
  cev_remotePort : option Z; cev_type : string; cev_durationSec : option Z; cev_ts : Z
}.

(** A CPU / memory point of an agent. *)
Record HostMetricRow := {
  hm_id : string; hm_agentId : string; hm_cpuPct : option Q; hm_memPct : option Q;
  hm_memUsedMb : option Z; hm_extra : option json; hm_ts : Z
}.

(** A server-side reachability probe. *)
Record PingSampleRow := {
  ps_id : string; ps_monitorId : string; ps_sourceId : string; ps_up : bool;
  ps_latencyMs : option Q; ps_ts : Z
}.

(** The latest discoverable services and processes of an agent. *)
Record HostInventoryRow := {
  inv_agentId : string; inv_services : option (list InvItem);
  inv_processes : option (list InvItem); inv_collectedAt : Z
}.

(** A database snapshot. *)
Record DbMetricRow := {
  dbm_id : string; dbm_monitorId : string; dbm_metrics : json; dbm_ts : Z
}.

(** A share capacity point. *)
Record StorageMetricRow := {
  sm_id : string; sm_storageId : string; sm_share : option string; sm_usedPct : option Q;
  sm_usedBytes : option Z; sm_totalBytes : option Z; sm_metrics : option json; sm_ts : Z
}.

(** A folder size point. *)
Record FolderMetricRow := {
  fm_id : string; fm_storageId : string; fm_folder : string; fm_sizeBytes : option Z;
  fm_fileCount : option Z; fm_folderCount : option Z; fm_ts : Z
}.

(** A CPU / memory point of a unit. *)
Record ProcessMetricRow := {
  pm_id : string; pm_sourceId : string; pm_entity : string; pm_cpuPct : option Q;
  pm_memMb : option Q; pm_ts : Z
}.

(** Numeric readings of a device. *)
Record SnmpMetricRow := {
  snm_id : string; snm_monitorId : string; snm_metrics : list (string * Q); snm_ts : Z
}.

(** A categorised log line. *)
Record LogRow := {
  log_id : string; log_category : string; log_level : string; log_sourceId : option string;
  log_message : string; log_context : option json; log_ts : Z
}.

(** A before/after record of a mutation. *)
Record AuditRow := {
  audit_id : string; audit_actor : option string; audit_actorRole : option string;
  audit_action : string; audit_category : string; audit_target : option string;
  audit_before : option json; audit_after : option json; audit_ip : option string;
  audit_ts : Z
}.

(** Up and total seconds of an entity in one hour. *)
Record UptimeBucketRow := {
  ub_id : string; ub_sourceId : string; ub_entity : string; ub_bucketStart : Z;
  ub_upSec : Z; ub_totalSec : Z; ub_statusSummary : option json
}.

(** A severity-tagged alert. *)
Record NotificationRow := {
  note_id : string; note_severity : string; note_sourceId : option string;
  note_title : string; note_message : string; note_plainLanguage : option string;
  note_acknowledged : bool; note_ts : Z
}.

(** The last-known status of a unit; the diff baseline. *)
Record UnitStateRow := {
  us_sourceId : string; us_entity : string; us_status : string; us_pid : option Z;
  us_critical : bool; us_sample : option json; us_updatedAt : Z
}.

(** ** Primary keys and unique columns *)

Definition users_conflict (a b : UserRow) : bool :=
  String.eqb (user_id a) (user_id b) || String.eqb (user_username a) (user_username b).
Definition groups_conflict (a b : GroupRow) : bool :=
  String.eqb (group_id a) (group_id b) || String.eqb (group_name a) (group_name b).
Definition roles_conflict (a b : RoleRow) : bool :=
  String.eqb (role_id a) (role_id b) || String.eqb (role_name a) (role_name b).
Definition rolePermissions_conflict (a b : RolePermissionRow) : bool :=
  String.eqb (rp_roleId a) (rp_roleId b) && String.eqb (rp_permissionId a) (rp_permissionId b).
Definition groupRoles_conflict (a b : GroupRoleRow) : bool :=
  String.eqb (gr_groupId a) (gr_groupId b) && String.eqb (gr_roleId a) (gr_roleId b).
Definition userGroups_conflict (a b : UserGroupRow) : bool :=
  String.eqb (ug_userId a) (ug_userId b) && String.eqb (ug_groupId a) (ug_groupId b).
Definition secrets_conflict (a b : SecretRow) : bool := String.eqb (secret_ref a) (secret_ref b).
Definition settings_conflict (a b : SettingRow) : bool := String.eqb (setting_key a) (setting_key b).
Definition retentionConfig_conflict (a b : RetentionRow) : bool :=
  String.eqb (ret_dataType a) (ret_dataType b).
Definition wallDevices_conflict (a b : WallDeviceRow) : bool :=
  String.eqb (dev_id a) (dev_id b) || String.eqb (dev_pairingCode a) (dev_pairingCode b).
Definition publicConfig_conflict (a b : PublicConfigRow) : bool := String.eqb (pub_id a) (pub_id b).
Definition clientMeta_conflict (a b : ClientMetaRow) : bool := String.eqb (cm_ip a) (cm_ip b).
Definition hostInventory_conflict (a b : HostInventoryRow) : bool :=
  String.eqb (inv_agentId a) (inv_agentId b).
Definition uptimeBuckets_conflict (a b : UptimeBucketRow) : bool :=
  String.eqb (ub_sourceId a) (ub_sourceId b) && String.eqb (ub_entity a) (ub_entity b)
  && (ub_bucketStart a =? ub_bucketStart b).
Definition unitStates_conflict (a b : UnitStateRow) : bool :=
  String.eqb (us_sourceId a) (us_sourceId b) && String.eqb (us_entity a) (us_entity b).

(** ** Tables and foreign keys *)

(** The tables [pgTable] declares, by export name. *)
Definition MASTER_TABLES : list string :=
  ["users"; "groups"; "roles"; "permissions"; "rolePermissions"; "groupRoles"; "userGroups";
   "userAttributes"; "agents"; "agentKeys"; "secrets"; "settings"; "oidcProviders"; "monitors";
   "snmpProfiles"; "mibObjects"; "retentionConfig"; "refreshTokens"; "agentCommands";
   "wallLayouts"; "wallDeviceGroups"; "wallDevices"; "tickerMessages"; "publicConfig"; "clientMeta"].

Definition TELEMETRY_TABLES : list string :=
  ["statusEvents"; "clientEvents"; "hostMetrics"; "pingSamples"; "hostInventory"; "dbMetrics";
   "storageMetrics"; "folderMetrics"; "processMetrics"; "snmpMetrics"; "logs"; "auditLog";
   "uptimeBuckets"; "notifications"; "unitStates"].

(** [(child, parent)] for every [.references(() => parent.id)]. *)
Definition MASTER_FKS : list (string * string) :=
  [("rolePermissions", "roles"); ("rolePermissions", "permissions");
   ("groupRoles", "groups"); ("groupRoles", "roles");
   ("userGroups", "users"); ("userGroups", "groups");
   ("userAttributes", "users"); ("agentKeys", "agents"); ("monitors", "agents");
   ("refreshTokens", "users"); ("agentCommands", "agents");
   ("wallDeviceGroups", "wallLayouts"); ("wallDevices", "wallLayouts");
   ("wallDevices", "wallDeviceGroups")].
