(* ===== verification/RowUpdates.v ===== *)
(** * Row updates

    [row with field := value] for the columns the services set: what
    [db.update(table).set({ field: value })] does to a matching row. *)
From S2P Require Import Prelude Schema.

(** ** [UserRow] *)

Definition set_user_displayName v r := {|
  user_id := user_id r; user_username := user_username r; user_displayName := v;
  user_email := user_email r; user_passwordHash := user_passwordHash r;
  user_authProvider := user_authProvider r; user_disabled := user_disabled r;
  user_isOwner := user_isOwner r; user_isSystem := user_isSystem r;
  user_totpEnabled := user_totpEnabled r; user_totpSecret := user_totpSecret r;
  user_totpRecovery := user_totpRecovery r; user_tokenVersion := user_tokenVersion r;
  user_failedLoginCount := user_failedLoginCount r; user_lockedUntil := user_lockedUntil r;
  user_lastLoginAt := user_lastLoginAt r; user_createdAt := user_createdAt r;
  user_updatedAt := user_updatedAt r
|}.
Definition set_user_email v r := {|
  user_id := user_id r; user_username := user_username r; user_displayName := user_displayName r;
  user_email := v; user_passwordHash := user_passwordHash r;
  user_authProvider := user_authProvider r; user_disabled := user_disabled r;
  user_isOwner := user_isOwner r; user_isSystem := user_isSystem r;
  user_totpEnabled := user_totpEnabled r; user_totpSecret := user_totpSecret r;
  user_totpRecovery := user_totpRecovery r; user_tokenVersion := user_tokenVersion r;
  user_failedLoginCount := user_failedLoginCount r; user_lockedUntil := user_lockedUntil r;
  user_lastLoginAt := user_lastLoginAt r; user_createdAt := user_createdAt r;
  user_updatedAt := user_updatedAt r
|}.
Definition set_user_passwordHash v r := {|
  user_id := user_id r; user_username := user_username r; user_displayName := user_displayName r;
  user_email := user_email r; user_passwordHash := v; user_authProvider := user_authProvider r;
  user_disabled := user_disabled r; user_isOwner := user_isOwner r;
  user_isSystem := user_isSystem r; user_totpEnabled := user_totpEnabled r;
  user_totpSecret := user_totpSecret r; user_totpRecovery := user_totpRecovery r;
  user_tokenVersion := user_tokenVersion r; user_failedLoginCount := user_failedLoginCount r;
  user_lockedUntil := user_lockedUntil r; user_lastLoginAt := user_lastLoginAt r;
  user_createdAt := user_createdAt r; user_updatedAt := user_updatedAt r
|}.
Definition set_user_disabled v r := {|
  user_id := user_id r; user_username := user_username r; user_displayName := user_displayName r;
  user_email := user_email r; user_passwordHash := user_passwordHash r;
  user_authProvider := user_authProvider r; user_disabled := v; user_isOwner := user_isOwner r;
  user_isSystem := user_isSystem r; user_totpEnabled := user_totpEnabled r;
  user_totpSecret := user_totpSecret r; user_totpRecovery := user_totpRecovery r;
  user_tokenVersion := user_tokenVersion r; user_failedLoginCount := user_failedLoginCount r;
  user_lockedUntil := user_lockedUntil r; user_lastLoginAt := user_lastLoginAt r;
  user_createdAt := user_createdAt r; user_updatedAt := user_updatedAt r
|}.
Definition set_user_totpEnabled v r := {|
  user_id := user_id r; user_username := user_username r; user_displayName := user_displayName r;
  user_email := user_email r; user_passwordHash := user_passwordHash r;
  user_authProvider := user_authProvider r; user_disabled := user_disabled r;
  user_isOwner := user_isOwner r; user_isSystem := user_isSystem r; user_totpEnabled := v;
  user_totpSecret := user_totpSecret r; user_totpRecovery := user_totpRecovery r;
  user_tokenVersion := user_tokenVersion r; user_failedLoginCount := user_failedLoginCount r;
  user_lockedUntil := user_lockedUntil r; user_lastLoginAt := user_lastLoginAt r;
  user_createdAt := user_createdAt r; user_updatedAt := user_updatedAt r
|}.
Definition set_user_totpSecret v r := {|
  user_id := user_id r; user_username := user_username r; user_displayName := user_displayName r;
  user_email := user_email r; user_passwordHash := user_passwordHash r;
  user_authProvider := user_authProvider r; user_disabled := user_disabled r;
  user_isOwner := user_isOwner r; user_isSystem := user_isSystem r;
  user_totpEnabled := user_totpEnabled r; user_totpSecret := v;
  user_totpRecovery := user_totpRecovery r; user_tokenVersion := user_tokenVersion r;
  user_failedLoginCount := user_failedLoginCount r; user_lockedUntil := user_lockedUntil r;
  user_lastLoginAt := user_lastLoginAt r; user_createdAt := user_createdAt r;
  user_updatedAt := user_updatedAt r
|}.
Definition set_user_totpRecovery v r := {|
  user_id := user_id r; user_username := user_username r; user_displayName := user_displayName r;
  user_email := user_email r; user_passwordHash := user_passwordHash r;
  user_authProvider := user_authProvider r; user_disabled := user_disabled r;
  user_isOwner := user_isOwner r; user_isSystem := user_isSystem r;
  user_totpEnabled := user_totpEnabled r; user_totpSecret := user_totpSecret r;
  user_totpRecovery := v; user_tokenVersion := user_tokenVersion r;
  user_failedLoginCount := user_failedLoginCount r; user_lockedUntil := user_lockedUntil r;
  user_lastLoginAt := user_lastLoginAt r; user_createdAt := user_createdAt r;
  user_updatedAt := user_updatedAt r
|}.
Definition set_user_tokenVersion v r := {|
  user_id := user_id r; user_username := user_username r; user_displayName := user_displayName r;
  user_email := user_email r; user_passwordHash := user_passwordHash r;
  user_authProvider := user_authProvider r; user_disabled := user_disabled r;
  user_isOwner := user_isOwner r; user_isSystem := user_isSystem r;
  user_totpEnabled := user_totpEnabled r; user_totpSecret := user_totpSecret r;
  user_totpRecovery := user_totpRecovery r; user_tokenVersion := v;
  user_failedLoginCount := user_failedLoginCount r; user_lockedUntil := user_lockedUntil r;
  user_lastLoginAt := user_lastLoginAt r; user_createdAt := user_createdAt r;
  user_updatedAt := user_updatedAt r
|}.
Definition set_user_failedLoginCount v r := {|
  user_id := user_id r; user_username := user_username r; user_displayName := user_displayName r;
  user_email := user_email r; user_passwordHash := user_passwordHash r;
  user_authProvider := user_authProvider r; user_disabled := user_disabled r;
  user_isOwner := user_isOwner r; user_isSystem := user_isSystem r;
  user_totpEnabled := user_totpEnabled r; user_totpSecret := user_totpSecret r;
  user_totpRecovery := user_totpRecovery r; user_tokenVersion := user_tokenVersion r;
  user_failedLoginCount := v; user_lockedUntil := user_lockedUntil r;
  user_lastLoginAt := user_lastLoginAt r; user_createdAt := user_createdAt r;
  user_updatedAt := user_updatedAt r
|}.
Definition set_user_lockedUntil v r := {|
  user_id := user_id r; user_username := user_username r; user_displayName := user_displayName r;
  user_email := user_email r; user_passwordHash := user_passwordHash r;
  user_authProvider := user_authProvider r; user_disabled := user_disabled r;
  user_isOwner := user_isOwner r; user_isSystem := user_isSystem r;
  user_totpEnabled := user_totpEnabled r; user_totpSecret := user_totpSecret r;
  user_totpRecovery := user_totpRecovery r; user_tokenVersion := user_tokenVersion r;
  user_failedLoginCount := user_failedLoginCount r; user_lockedUntil := v;
  user_lastLoginAt := user_lastLoginAt r; user_createdAt := user_createdAt r;
  user_updatedAt := user_updatedAt r
|}.
Definition set_user_lastLoginAt v r := {|
  user_id := user_id r; user_username := user_username r; user_displayName := user_displayName r;
  user_email := user_email r; user_passwordHash := user_passwordHash r;
  user_authProvider := user_authProvider r; user_disabled := user_disabled r;
  user_isOwner := user_isOwner r; user_isSystem := user_isSystem r;
  user_totpEnabled := user_totpEnabled r; user_totpSecret := user_totpSecret r;
  user_totpRecovery := user_totpRecovery r; user_tokenVersion := user_tokenVersion r;
  user_failedLoginCount := user_failedLoginCount r; user_lockedUntil := user_lockedUntil r;
  user_lastLoginAt := v; user_createdAt := user_createdAt r; user_updatedAt := user_updatedAt r
|}.
Definition set_user_updatedAt v r := {|
  user_id := user_id r; user_username := user_username r; user_displayName := user_displayName r;
  user_email := user_email r; user_passwordHash := user_passwordHash r;
  user_authProvider := user_authProvider r; user_disabled := user_disabled r;
  user_isOwner := user_isOwner r; user_isSystem := user_isSystem r;
  user_totpEnabled := user_totpEnabled r; user_totpSecret := user_totpSecret r;
  user_totpRecovery := user_totpRecovery r; user_tokenVersion := user_tokenVersion r;
  user_failedLoginCount := user_failedLoginCount r; user_lockedUntil := user_lockedUntil r;
  user_lastLoginAt := user_lastLoginAt r; user_createdAt := user_createdAt r; user_updatedAt := v
|}.

(** ** [GroupRow] *)

Definition set_group_name v r := {|
  group_id := group_id r; group_name := v; group_description := group_description r;
  group_isSystem := group_isSystem r; group_createdAt := group_createdAt r;
  group_updatedAt := group_updatedAt r
|}.
Definition set_group_description v r := {|
  group_id := group_id r; group_name := group_name r; group_description := v;
  group_isSystem := group_isSystem r; group_createdAt := group_createdAt r;
  group_updatedAt := group_updatedAt r
|}.
Definition set_group_updatedAt v r := {|
  group_id := group_id r; group_name := group_name r; group_description := group_description r;
  group_isSystem := group_isSystem r; group_createdAt := group_createdAt r; group_updatedAt := v
|}.

(** ** [RoleRow] *)

Definition set_role_name v r := {|
  role_id := role_id r; role_name := v; role_description := role_description r;
  role_isSystem := role_isSystem r; role_createdAt := role_createdAt r;
  role_updatedAt := role_updatedAt r
|}.
Definition set_role_description v r := {|
  role_id := role_id r; role_name := role_name r; role_description := v;
  role_isSystem := role_isSystem r; role_createdAt := role_createdAt r;
  role_updatedAt := role_updatedAt r
|}.
Definition set_role_updatedAt v r := {|
  role_id := role_id r; role_name := role_name r; role_description := role_description r;
  role_isSystem := role_isSystem r; role_createdAt := role_createdAt r; role_updatedAt := v
|}.

(** ** [PermissionRow] *)

Definition set_perm_description v r := {|
  perm_id := perm_id r; perm_key := perm_key r; perm_description := v;
  perm_createdAt := perm_createdAt r; perm_updatedAt := perm_updatedAt r
|}.

(** ** [AgentRow] *)

Definition set_agent_name v r := {|
  agent_id := agent_id r; agent_name := v; agent_kind := agent_kind r;
  agent_hostname := agent_hostname r; agent_platform := agent_platform r;
  agent_address := agent_address r; agent_status := agent_status r;
  agent_version := agent_version r; agent_lastSeenAt := agent_lastSeenAt r;
  agent_approvedAt := agent_approvedAt r; agent_pushIntervalSec := agent_pushIntervalSec r;
  agent_metadata := agent_metadata r; agent_createdAt := agent_createdAt r;
  agent_updatedAt := agent_updatedAt r
|}.
Definition set_agent_hostname v r := {|
  agent_id := agent_id r; agent_name := agent_name r; agent_kind := agent_kind r;
  agent_hostname := v; agent_platform := agent_platform r; agent_address := agent_address r;
  agent_status := agent_status r; agent_version := agent_version r;
  agent_lastSeenAt := agent_lastSeenAt r; agent_approvedAt := agent_approvedAt r;
  agent_pushIntervalSec := agent_pushIntervalSec r; agent_metadata := agent_metadata r;
  agent_createdAt := agent_createdAt r; agent_updatedAt := agent_updatedAt r
|}.
Definition set_agent_platform v r := {|
  agent_id := agent_id r; agent_name := agent_name r; agent_kind := agent_kind r;
  agent_hostname := agent_hostname r; agent_platform := v; agent_address := agent_address r;
  agent_status := agent_status r; agent_version := agent_version r;
  agent_lastSeenAt := agent_lastSeenAt r; agent_approvedAt := agent_approvedAt r;
  agent_pushIntervalSec := agent_pushIntervalSec r; agent_metadata := agent_metadata r;
  agent_createdAt := agent_createdAt r; agent_updatedAt := agent_updatedAt r
|}.
Definition set_agent_address v r := {|
  agent_id := agent_id r; agent_name := agent_name r; agent_kind := agent_kind r;
  agent_hostname := agent_hostname r; agent_platform := agent_platform r; agent_address := v;
  agent_status := agent_status r; agent_version := agent_version r;
  agent_lastSeenAt := agent_lastSeenAt r; agent_approvedAt := agent_approvedAt r;
  agent_pushIntervalSec := agent_pushIntervalSec r; agent_metadata := agent_metadata r;
  agent_createdAt := agent_createdAt r; agent_updatedAt := agent_updatedAt r
|}.
Definition set_agent_status v r := {|
  agent_id := agent_id r; agent_name := agent_name r; agent_kind := agent_kind r;
  agent_hostname := agent_hostname r; agent_platform := agent_platform r;
  agent_address := agent_address r; agent_status := v; agent_version := agent_version r;
  agent_lastSeenAt := agent_lastSeenAt r; agent_approvedAt := agent_approvedAt r;
  agent_pushIntervalSec := agent_pushIntervalSec r; agent_metadata := agent_metadata r;
  agent_createdAt := agent_createdAt r; agent_updatedAt := agent_updatedAt r
|}.
Definition set_agent_version v r := {|
  agent_id := agent_id r; agent_name := agent_name r; agent_kind := agent_kind r;
  agent_hostname := agent_hostname r; agent_platform := agent_platform r;
  agent_address := agent_address r; agent_status := agent_status r; agent_version := v;
  agent_lastSeenAt := agent_lastSeenAt r; agent_approvedAt := agent_approvedAt r;
  agent_pushIntervalSec := agent_pushIntervalSec r; agent_metadata := agent_metadata r;
  agent_createdAt := agent_createdAt r; agent_updatedAt := agent_updatedAt r
|}.
Definition set_agent_lastSeenAt v r := {|
  agent_id := agent_id r; agent_name := agent_name r; agent_kind := agent_kind r;
  agent_hostname := agent_hostname r; agent_platform := agent_platform r;
  agent_address := agent_address r; agent_status := agent_status r;
  agent_version := agent_version r; agent_lastSeenAt := v;
  agent_approvedAt := agent_approvedAt r; agent_pushIntervalSec := agent_pushIntervalSec r;
  agent_metadata := agent_metadata r; agent_createdAt := agent_createdAt r;
  agent_updatedAt := agent_updatedAt r
|}.
Definition set_agent_approvedAt v r := {|
  agent_id := agent_id r; agent_name := agent_name r; agent_kind := agent_kind r;
  agent_hostname := agent_hostname r; agent_platform := agent_platform r;
  agent_address := agent_address r; agent_status := agent_status r;
  agent_version := agent_version r; agent_lastSeenAt := agent_lastSeenAt r;
  agent_approvedAt := v; agent_pushIntervalSec := agent_pushIntervalSec r;
  agent_metadata := agent_metadata r; agent_createdAt := agent_createdAt r;
  agent_updatedAt := agent_updatedAt r
|}.
Definition set_agent_pushIntervalSec v r := {|
  agent_id := agent_id r; agent_name := agent_name r; agent_kind := agent_kind r;
  agent_hostname := agent_hostname r; agent_platform := agent_platform r;
  agent_address := agent_address r; agent_status := agent_status r;
  agent_version := agent_version r; agent_lastSeenAt := agent_lastSeenAt r;
  agent_approvedAt := agent_approvedAt r; agent_pushIntervalSec := v;
  agent_metadata := agent_metadata r; agent_createdAt := agent_createdAt r;
  agent_updatedAt := agent_updatedAt r
|}.
Definition set_agent_metadata v r := {|
  agent_id := agent_id r; agent_name := agent_name r; agent_kind := agent_kind r;
  agent_hostname := agent_hostname r; agent_platform := agent_platform r;
  agent_address := agent_address r; agent_status := agent_status r;
  agent_version := agent_version r; agent_lastSeenAt := agent_lastSeenAt r;
  agent_approvedAt := agent_approvedAt r; agent_pushIntervalSec := agent_pushIntervalSec r;
  agent_metadata := v; agent_createdAt := agent_createdAt r; agent_updatedAt := agent_updatedAt r
|}.
Definition set_agent_updatedAt v r := {|
  agent_id := agent_id r; agent_name := agent_name r; agent_kind := agent_kind r;
  agent_hostname := agent_hostname r; agent_platform := agent_platform r;
  agent_address := agent_address r; agent_status := agent_status r;
  agent_version := agent_version r; agent_lastSeenAt := agent_lastSeenAt r;
  agent_approvedAt := agent_approvedAt r; agent_pushIntervalSec := agent_pushIntervalSec r;
  agent_metadata := agent_metadata r; agent_createdAt := agent_createdAt r; agent_updatedAt := v
|}.

(** ** [AgentKeyRow] *)

Definition set_akey_agentId v r := {|
  akey_id := akey_id r; akey_agentId := v; akey_label := akey_label r;
  akey_keyHash := akey_keyHash r; akey_secretRef := akey_secretRef r;
  akey_disabled := akey_disabled r; akey_lastUsedAt := akey_lastUsedAt r;
  akey_createdAt := akey_createdAt r; akey_updatedAt := akey_updatedAt r
|}.
Definition set_akey_secretRef v r := {|
  akey_id := akey_id r; akey_agentId := akey_agentId r; akey_label := akey_label r;
  akey_keyHash := akey_keyHash r; akey_secretRef := v; akey_disabled := akey_disabled r;
  akey_lastUsedAt := akey_lastUsedAt r; akey_createdAt := akey_createdAt r;
  akey_updatedAt := akey_updatedAt r
|}.
Definition set_akey_label v r := {|
  akey_id := akey_id r; akey_agentId := akey_agentId r; akey_label := v;
  akey_keyHash := akey_keyHash r; akey_secretRef := akey_secretRef r;
  akey_disabled := akey_disabled r; akey_lastUsedAt := akey_lastUsedAt r;
  akey_createdAt := akey_createdAt r; akey_updatedAt := akey_updatedAt r
|}.
Definition set_akey_keyHash v r := {|
  akey_id := akey_id r; akey_agentId := akey_agentId r; akey_label := akey_label r;
  akey_keyHash := v; akey_secretRef := akey_secretRef r; akey_disabled := akey_disabled r;
  akey_lastUsedAt := akey_lastUsedAt r; akey_createdAt := akey_createdAt r;
  akey_updatedAt := akey_updatedAt r
|}.
Definition set_akey_disabled v r := {|
  akey_id := akey_id r; akey_agentId := akey_agentId r; akey_label := akey_label r;
  akey_keyHash := akey_keyHash r; akey_secretRef := akey_secretRef r; akey_disabled := v;
  akey_lastUsedAt := akey_lastUsedAt r; akey_createdAt := akey_createdAt r;
  akey_updatedAt := akey_updatedAt r
|}.
Definition set_akey_lastUsedAt v r := {|
  akey_id := akey_id r; akey_agentId := akey_agentId r; akey_label := akey_label r;
  akey_keyHash := akey_keyHash r; akey_secretRef := akey_secretRef r;
  akey_disabled := akey_disabled r; akey_lastUsedAt := v; akey_createdAt := akey_createdAt r;
  akey_updatedAt := akey_updatedAt r
|}.
Definition set_akey_updatedAt v r := {|
  akey_id := akey_id r; akey_agentId := akey_agentId r; akey_label := akey_label r;
  akey_keyHash := akey_keyHash r; akey_secretRef := akey_secretRef r;
  akey_disabled := akey_disabled r; akey_lastUsedAt := akey_lastUsedAt r;
  akey_createdAt := akey_createdAt r; akey_updatedAt := v
|}.

(** ** [SecretRow] *)

Definition set_secret_ciphertext v r := {|
  secret_id := secret_id r; secret_ref := secret_ref r; secret_ciphertext := v;
  secret_keyVersion := secret_keyVersion r; secret_createdAt := secret_createdAt r;
  secret_updatedAt := secret_updatedAt r
|}.
Definition set_secret_keyVersion v r := {|
  secret_id := secret_id r; secret_ref := secret_ref r; secret_ciphertext := secret_ciphertext r;
  secret_keyVersion := v; secret_createdAt := secret_createdAt r;
  secret_updatedAt := secret_updatedAt r
|}.
Definition set_secret_updatedAt v r := {|
  secret_id := secret_id r; secret_ref := secret_ref r; secret_ciphertext := secret_ciphertext r;
  secret_keyVersion := secret_keyVersion r; secret_createdAt := secret_createdAt r;
  secret_updatedAt := v
|}.

(** ** [SettingRow] *)

Definition set_setting_value v r := {|
  setting_key := setting_key r; setting_value := v; setting_createdAt := setting_createdAt r;
  setting_updatedAt := setting_updatedAt r
|}.
Definition set_setting_updatedAt v r := {|
  setting_key := setting_key r; setting_value := setting_value r;
  setting_createdAt := setting_createdAt r; setting_updatedAt := v
|}.

(** ** [OidcProviderRow] *)

Definition set_oidc_name v r := {|
  oidc_id := oidc_id r; oidc_name := v; oidc_issuer := oidc_issuer r;
  oidc_clientId := oidc_clientId r; oidc_clientSecretRef := oidc_clientSecretRef r;
  oidc_enabled := oidc_enabled r; oidc_brand := oidc_brand r; oidc_createdAt := oidc_createdAt r;
  oidc_updatedAt := oidc_updatedAt r
|}.
Definition set_oidc_issuer v r := {|
  oidc_id := oidc_id r; oidc_name := oidc_name r; oidc_issuer := v;
  oidc_clientId := oidc_clientId r; oidc_clientSecretRef := oidc_clientSecretRef r;
  oidc_enabled := oidc_enabled r; oidc_brand := oidc_brand r; oidc_createdAt := oidc_createdAt r;
  oidc_updatedAt := oidc_updatedAt r
|}.
Definition set_oidc_clientId v r := {|
  oidc_id := oidc_id r; oidc_name := oidc_name r; oidc_issuer := oidc_issuer r;
  oidc_clientId := v; oidc_clientSecretRef := oidc_clientSecretRef r;
  oidc_enabled := oidc_enabled r; oidc_brand := oidc_brand r; oidc_createdAt := oidc_createdAt r;
  oidc_updatedAt := oidc_updatedAt r
|}.
Definition set_oidc_clientSecretRef v r := {|
  oidc_id := oidc_id r; oidc_name := oidc_name r; oidc_issuer := oidc_issuer r;
  oidc_clientId := oidc_clientId r; oidc_clientSecretRef := v; oidc_enabled := oidc_enabled r;
  oidc_brand := oidc_brand r; oidc_createdAt := oidc_createdAt r;
  oidc_updatedAt := oidc_updatedAt r
|}.
Definition set_oidc_enabled v r := {|
  oidc_id := oidc_id r; oidc_name := oidc_name r; oidc_issuer := oidc_issuer r;
  oidc_clientId := oidc_clientId r; oidc_clientSecretRef := oidc_clientSecretRef r;
  oidc_enabled := v; oidc_brand := oidc_brand r; oidc_createdAt := oidc_createdAt r;
  oidc_updatedAt := oidc_updatedAt r
|}.
Definition set_oidc_brand v r := {|
  oidc_id := oidc_id r; oidc_name := oidc_name r; oidc_issuer := oidc_issuer r;
  oidc_clientId := oidc_clientId r; oidc_clientSecretRef := oidc_clientSecretRef r;
  oidc_enabled := oidc_enabled r; oidc_brand := v; oidc_createdAt := oidc_createdAt r;
  oidc_updatedAt := oidc_updatedAt r
|}.
Definition set_oidc_updatedAt v r := {|
  oidc_id := oidc_id r; oidc_name := oidc_name r; oidc_issuer := oidc_issuer r;
  oidc_clientId := oidc_clientId r; oidc_clientSecretRef := oidc_clientSecretRef r;
  oidc_enabled := oidc_enabled r; oidc_brand := oidc_brand r; oidc_createdAt := oidc_createdAt r;
  oidc_updatedAt := v
|}.

(** ** [MonitorRow] *)

Definition set_mon_agentId v r := {|
  mon_id := mon_id r; mon_agentId := v; mon_type := mon_type r; mon_name := mon_name r;
  mon_enabled := mon_enabled r; mon_config := mon_config r; mon_createdAt := mon_createdAt r;
  mon_updatedAt := mon_updatedAt r
|}.
Definition set_mon_name v r := {|
  mon_id := mon_id r; mon_agentId := mon_agentId r; mon_type := mon_type r; mon_name := v;
  mon_enabled := mon_enabled r; mon_config := mon_config r; mon_createdAt := mon_createdAt r;
  mon_updatedAt := mon_updatedAt r
|}.
Definition set_mon_enabled v r := {|
  mon_id := mon_id r; mon_agentId := mon_agentId r; mon_type := mon_type r;
  mon_name := mon_name r; mon_enabled := v; mon_config := mon_config r;
  mon_createdAt := mon_createdAt r; mon_updatedAt := mon_updatedAt r
|}.
Definition set_mon_config v r := {|
  mon_id := mon_id r; mon_agentId := mon_agentId r; mon_type := mon_type r;
  mon_name := mon_name r; mon_enabled := mon_enabled r; mon_config := v;
  mon_createdAt := mon_createdAt r; mon_updatedAt := mon_updatedAt r
|}.
Definition set_mon_updatedAt v r := {|
  mon_id := mon_id r; mon_agentId := mon_agentId r; mon_type := mon_type r;
  mon_name := mon_name r; mon_enabled := mon_enabled r; mon_config := mon_config r;
  mon_createdAt := mon_createdAt r; mon_updatedAt := v
|}.

(** ** [SnmpProfileRow] *)

Definition set_snmp_name v r := {|
  snmp_id := snmp_id r; snmp_name := v; snmp_vendor := snmp_vendor r;
  snmp_deviceType := snmp_deviceType r; snmp_model := snmp_model r;
  snmp_standard := snmp_standard r; snmp_oids := snmp_oids r; snmp_tables := snmp_tables r;
  snmp_isSystem := snmp_isSystem r; snmp_createdAt := snmp_createdAt r;
  snmp_updatedAt := snmp_updatedAt r
|}.
Definition set_snmp_vendor v r := {|
  snmp_id := snmp_id r; snmp_name := snmp_name r; snmp_vendor := v;
  snmp_deviceType := snmp_deviceType r; snmp_model := snmp_model r;
  snmp_standard := snmp_standard r; snmp_oids := snmp_oids r; snmp_tables := snmp_tables r;
  snmp_isSystem := snmp_isSystem r; snmp_createdAt := snmp_createdAt r;
  snmp_updatedAt := snmp_updatedAt r
|}.
Definition set_snmp_deviceType v r := {|
  snmp_id := snmp_id r; snmp_name := snmp_name r; snmp_vendor := snmp_vendor r;
  snmp_deviceType := v; snmp_model := snmp_model r; snmp_standard := snmp_standard r;
  snmp_oids := snmp_oids r; snmp_tables := snmp_tables r; snmp_isSystem := snmp_isSystem r;
  snmp_createdAt := snmp_createdAt r; snmp_updatedAt := snmp_updatedAt r
|}.
Definition set_snmp_model v r := {|
  snmp_id := snmp_id r; snmp_name := snmp_name r; snmp_vendor := snmp_vendor r;
  snmp_deviceType := snmp_deviceType r; snmp_model := v; snmp_standard := snmp_standard r;
  snmp_oids := snmp_oids r; snmp_tables := snmp_tables r; snmp_isSystem := snmp_isSystem r;
  snmp_createdAt := snmp_createdAt r; snmp_updatedAt := snmp_updatedAt r
|}.
Definition set_snmp_standard v r := {|
  snmp_id := snmp_id r; snmp_name := snmp_name r; snmp_vendor := snmp_vendor r;
  snmp_deviceType := snmp_deviceType r; snmp_model := snmp_model r; snmp_standard := v;
  snmp_oids := snmp_oids r; snmp_tables := snmp_tables r; snmp_isSystem := snmp_isSystem r;
  snmp_createdAt := snmp_createdAt r; snmp_updatedAt := snmp_updatedAt r
|}.
Definition set_snmp_oids v r := {|
  snmp_id := snmp_id r; snmp_name := snmp_name r; snmp_vendor := snmp_vendor r;
  snmp_deviceType := snmp_deviceType r; snmp_model := snmp_model r;
  snmp_standard := snmp_standard r; snmp_oids := v; snmp_tables := snmp_tables r;
  snmp_isSystem := snmp_isSystem r; snmp_createdAt := snmp_createdAt r;
  snmp_updatedAt := snmp_updatedAt r
|}.
Definition set_snmp_tables v r := {|
  snmp_id := snmp_id r; snmp_name := snmp_name r; snmp_vendor := snmp_vendor r;
  snmp_deviceType := snmp_deviceType r; snmp_model := snmp_model r;
  snmp_standard := snmp_standard r; snmp_oids := snmp_oids r; snmp_tables := v;
  snmp_isSystem := snmp_isSystem r; snmp_createdAt := snmp_createdAt r;
  snmp_updatedAt := snmp_updatedAt r
|}.
Definition set_snmp_updatedAt v r := {|
  snmp_id := snmp_id r; snmp_name := snmp_name r; snmp_vendor := snmp_vendor r;
  snmp_deviceType := snmp_deviceType r; snmp_model := snmp_model r;
  snmp_standard := snmp_standard r; snmp_oids := snmp_oids r; snmp_tables := snmp_tables r;
  snmp_isSystem := snmp_isSystem r; snmp_createdAt := snmp_createdAt r; snmp_updatedAt := v
|}.

(** ** [RetentionRow] *)

Definition set_ret_days v r := {|
  ret_dataType := ret_dataType r; ret_days := v; ret_createdAt := ret_createdAt r;
  ret_updatedAt := ret_updatedAt r
|}.
Definition set_ret_updatedAt v r := {|
  ret_dataType := ret_dataType r; ret_days := ret_days r; ret_createdAt := ret_createdAt r;
  ret_updatedAt := v
|}.

(** ** [RefreshTokenRow] *)

Definition set_rt_revokedAt v r := {|
  rt_id := rt_id r; rt_userId := rt_userId r; rt_tokenHash := rt_tokenHash r;
  rt_expiresAt := rt_expiresAt r; rt_revokedAt := v; rt_userAgent := rt_userAgent r;
  rt_ip := rt_ip r; rt_lastUsedAt := rt_lastUsedAt r; rt_createdAt := rt_createdAt r;
  rt_updatedAt := rt_updatedAt r
|}.
Definition set_rt_lastUsedAt v r := {|
  rt_id := rt_id r; rt_userId := rt_userId r; rt_tokenHash := rt_tokenHash r;
  rt_expiresAt := rt_expiresAt r; rt_revokedAt := rt_revokedAt r; rt_userAgent := rt_userAgent r;
  rt_ip := rt_ip r; rt_lastUsedAt := v; rt_createdAt := rt_createdAt r;
  rt_updatedAt := rt_updatedAt r
|}.

(** ** [AgentCommandRow] *)

Definition set_cmd_status v r := {|
  cmd_id := cmd_id r; cmd_agentId := cmd_agentId r; cmd_type := cmd_type r;
  cmd_payload := cmd_payload r; cmd_status := v; cmd_sentAt := cmd_sentAt r;
  cmd_ackedAt := cmd_ackedAt r; cmd_createdAt := cmd_createdAt r;
  cmd_updatedAt := cmd_updatedAt r
|}.
Definition set_cmd_sentAt v r := {|
  cmd_id := cmd_id r; cmd_agentId := cmd_agentId r; cmd_type := cmd_type r;
  cmd_payload := cmd_payload r; cmd_status := cmd_status r; cmd_sentAt := v;
  cmd_ackedAt := cmd_ackedAt r; cmd_createdAt := cmd_createdAt r;
  cmd_updatedAt := cmd_updatedAt r
|}.
Definition set_cmd_ackedAt v r := {|
  cmd_id := cmd_id r; cmd_agentId := cmd_agentId r; cmd_type := cmd_type r;
  cmd_payload := cmd_payload r; cmd_status := cmd_status r; cmd_sentAt := cmd_sentAt r;
  cmd_ackedAt := v; cmd_createdAt := cmd_createdAt r; cmd_updatedAt := cmd_updatedAt r
|}.
Definition set_cmd_updatedAt v r := {|
  cmd_id := cmd_id r; cmd_agentId := cmd_agentId r; cmd_type := cmd_type r;
  cmd_payload := cmd_payload r; cmd_status := cmd_status r; cmd_sentAt := cmd_sentAt r;
  cmd_ackedAt := cmd_ackedAt r; cmd_createdAt := cmd_createdAt r; cmd_updatedAt := v
|}.

(** ** [WallLayoutRow] *)

Definition set_layout_name v r := {|
  layout_id := layout_id r; layout_name := v; layout_description := layout_description r;
  layout_isDefault := layout_isDefault r; layout_isSystem := layout_isSystem r;
  layout_content := layout_content r; layout_rotateSec := layout_rotateSec r;
  layout_template := layout_template r; layout_panelConfig := layout_panelConfig r;
  layout_createdAt := layout_createdAt r; layout_updatedAt := layout_updatedAt r
|}.
Definition set_layout_description v r := {|
  layout_id := layout_id r; layout_name := layout_name r; layout_description := v;
  layout_isDefault := layout_isDefault r; layout_isSystem := layout_isSystem r;
  layout_content := layout_content r; layout_rotateSec := layout_rotateSec r;
  layout_template := layout_template r; layout_panelConfig := layout_panelConfig r;
  layout_createdAt := layout_createdAt r; layout_updatedAt := layout_updatedAt r
|}.
Definition set_layout_isDefault v r := {|
  layout_id := layout_id r; layout_name := layout_name r;
  layout_description := layout_description r; layout_isDefault := v;
  layout_isSystem := layout_isSystem r; layout_content := layout_content r;
  layout_rotateSec := layout_rotateSec r; layout_template := layout_template r;
  layout_panelConfig := layout_panelConfig r; layout_createdAt := layout_createdAt r;
  layout_updatedAt := layout_updatedAt r
|}.
Definition set_layout_content v r := {|
  layout_id := layout_id r; layout_name := layout_name r;
  layout_description := layout_description r; layout_isDefault := layout_isDefault r;
  layout_isSystem := layout_isSystem r; layout_content := v;
  layout_rotateSec := layout_rotateSec r; layout_template := layout_template r;
  layout_panelConfig := layout_panelConfig r; layout_createdAt := layout_createdAt r;
  layout_updatedAt := layout_updatedAt r
|}.
Definition set_layout_rotateSec v r := {|
  layout_id := layout_id r; layout_name := layout_name r;
  layout_description := layout_description r; layout_isDefault := layout_isDefault r;
  layout_isSystem := layout_isSystem r; layout_content := layout_content r;
  layout_rotateSec := v; layout_template := layout_template r;
  layout_panelConfig := layout_panelConfig r; layout_createdAt := layout_createdAt r;
  layout_updatedAt := layout_updatedAt r
|}.
Definition set_layout_template v r := {|
  layout_id := layout_id r; layout_name := layout_name r;
  layout_description := layout_description r; layout_isDefault := layout_isDefault r;
  layout_isSystem := layout_isSystem r; layout_content := layout_content r;
  layout_rotateSec := layout_rotateSec r; layout_template := v;
  layout_panelConfig := layout_panelConfig r; layout_createdAt := layout_createdAt r;
  layout_updatedAt := layout_updatedAt r
|}.
Definition set_layout_panelConfig v r := {|
  layout_id := layout_id r; layout_name := layout_name r;
  layout_description := layout_description r; layout_isDefault := layout_isDefault r;
  layout_isSystem := layout_isSystem r; layout_content := layout_content r;
  layout_rotateSec := layout_rotateSec r; layout_template := layout_template r;
  layout_panelConfig := v; layout_createdAt := layout_createdAt r;
  layout_updatedAt := layout_updatedAt r
|}.
Definition set_layout_updatedAt v r := {|
  layout_id := layout_id r; layout_name := layout_name r;
  layout_description := layout_description r; layout_isDefault := layout_isDefault r;
  layout_isSystem := layout_isSystem r; layout_content := layout_content r;
  layout_rotateSec := layout_rotateSec r; layout_template := layout_template r;
  layout_panelConfig := layout_panelConfig r; layout_createdAt := layout_createdAt r;
  layout_updatedAt := v
|}.

(** ** [WallDeviceGroupRow] *)

Definition set_dgroup_name v r := {|
  dgroup_id := dgroup_id r; dgroup_name := v; dgroup_layoutId := dgroup_layoutId r;
  dgroup_createdAt := dgroup_createdAt r; dgroup_updatedAt := dgroup_updatedAt r
|}.
Definition set_dgroup_layoutId v r := {|
  dgroup_id := dgroup_id r; dgroup_name := dgroup_name r; dgroup_layoutId := v;
  dgroup_createdAt := dgroup_createdAt r; dgroup_updatedAt := dgroup_updatedAt r
|}.
Definition set_dgroup_updatedAt v r := {|
  dgroup_id := dgroup_id r; dgroup_name := dgroup_name r; dgroup_layoutId := dgroup_layoutId r;
  dgroup_createdAt := dgroup_createdAt r; dgroup_updatedAt := v
|}.

(** ** [WallDeviceRow] *)

Definition set_dev_name v r := {|
  dev_id := dev_id r; dev_name := v; dev_status := dev_status r;
  dev_pairingCode := dev_pairingCode r; dev_tokenHash := dev_tokenHash r;
  dev_fingerprint := dev_fingerprint r; dev_layoutId := dev_layoutId r;
  dev_groupId := dev_groupId r; dev_ipBound := dev_ipBound r; dev_lastSeenAt := dev_lastSeenAt r;
  dev_approvedAt := dev_approvedAt r; dev_createdAt := dev_createdAt r;
  dev_updatedAt := dev_updatedAt r
|}.
Definition set_dev_status v r := {|
  dev_id := dev_id r; dev_name := dev_name r; dev_status := v;
  dev_pairingCode := dev_pairingCode r; dev_tokenHash := dev_tokenHash r;
  dev_fingerprint := dev_fingerprint r; dev_layoutId := dev_layoutId r;
  dev_groupId := dev_groupId r; dev_ipBound := dev_ipBound r; dev_lastSeenAt := dev_lastSeenAt r;
  dev_approvedAt := dev_approvedAt r; dev_createdAt := dev_createdAt r;
  dev_updatedAt := dev_updatedAt r
|}.
Definition set_dev_pairingCode v r := {|
  dev_id := dev_id r; dev_name := dev_name r; dev_status := dev_status r; dev_pairingCode := v;
  dev_tokenHash := dev_tokenHash r; dev_fingerprint := dev_fingerprint r;
  dev_layoutId := dev_layoutId r; dev_groupId := dev_groupId r; dev_ipBound := dev_ipBound r;
  dev_lastSeenAt := dev_lastSeenAt r; dev_approvedAt := dev_approvedAt r;
  dev_createdAt := dev_createdAt r; dev_updatedAt := dev_updatedAt r
|}.
Definition set_dev_tokenHash v r := {|
  dev_id := dev_id r; dev_name := dev_name r; dev_status := dev_status r;
  dev_pairingCode := dev_pairingCode r; dev_tokenHash := v; dev_fingerprint := dev_fingerprint r;
  dev_layoutId := dev_layoutId r; dev_groupId := dev_groupId r; dev_ipBound := dev_ipBound r;
  dev_lastSeenAt := dev_lastSeenAt r; dev_approvedAt := dev_approvedAt r;
  dev_createdAt := dev_createdAt r; dev_updatedAt := dev_updatedAt r
|}.
Definition set_dev_fingerprint v r := {|
  dev_id := dev_id r; dev_name := dev_name r; dev_status := dev_status r;
  dev_pairingCode := dev_pairingCode r; dev_tokenHash := dev_tokenHash r; dev_fingerprint := v;
  dev_layoutId := dev_layoutId r; dev_groupId := dev_groupId r; dev_ipBound := dev_ipBound r;
  dev_lastSeenAt := dev_lastSeenAt r; dev_approvedAt := dev_approvedAt r;
  dev_createdAt := dev_createdAt r; dev_updatedAt := dev_updatedAt r
|}.
Definition set_dev_layoutId v r := {|
  dev_id := dev_id r; dev_name := dev_name r; dev_status := dev_status r;
  dev_pairingCode := dev_pairingCode r; dev_tokenHash := dev_tokenHash r;
  dev_fingerprint := dev_fingerprint r; dev_layoutId := v; dev_groupId := dev_groupId r;
  dev_ipBound := dev_ipBound r; dev_lastSeenAt := dev_lastSeenAt r;
  dev_approvedAt := dev_approvedAt r; dev_createdAt := dev_createdAt r;
  dev_updatedAt := dev_updatedAt r
|}.
Definition set_dev_groupId v r := {|
  dev_id := dev_id r; dev_name := dev_name r; dev_status := dev_status r;
  dev_pairingCode := dev_pairingCode r; dev_tokenHash := dev_tokenHash r;
  dev_fingerprint := dev_fingerprint r; dev_layoutId := dev_layoutId r; dev_groupId := v;
  dev_ipBound := dev_ipBound r; dev_lastSeenAt := dev_lastSeenAt r;
  dev_approvedAt := dev_approvedAt r; dev_createdAt := dev_createdAt r;
  dev_updatedAt := dev_updatedAt r
|}.
Definition set_dev_ipBound v r := {|
  dev_id := dev_id r; dev_name := dev_name r; dev_status := dev_status r;
  dev_pairingCode := dev_pairingCode r; dev_tokenHash := dev_tokenHash r;
  dev_fingerprint := dev_fingerprint r; dev_layoutId := dev_layoutId r;
  dev_groupId := dev_groupId r; dev_ipBound := v; dev_lastSeenAt := dev_lastSeenAt r;
  dev_approvedAt := dev_approvedAt r; dev_createdAt := dev_createdAt r;
  dev_updatedAt := dev_updatedAt r
|}.
Definition set_dev_lastSeenAt v r := {|
  dev_id := dev_id r; dev_name := dev_name r; dev_status := dev_status r;
  dev_pairingCode := dev_pairingCode r; dev_tokenHash := dev_tokenHash r;
  dev_fingerprint := dev_fingerprint r; dev_layoutId := dev_layoutId r;
  dev_groupId := dev_groupId r; dev_ipBound := dev_ipBound r; dev_lastSeenAt := v;
  dev_approvedAt := dev_approvedAt r; dev_createdAt := dev_createdAt r;
  dev_updatedAt := dev_updatedAt r
|}.
Definition set_dev_approvedAt v r := {|
  dev_id := dev_id r; dev_name := dev_name r; dev_status := dev_status r;
  dev_pairingCode := dev_pairingCode r; dev_tokenHash := dev_tokenHash r;
  dev_fingerprint := dev_fingerprint r; dev_layoutId := dev_layoutId r;
  dev_groupId := dev_groupId r; dev_ipBound := dev_ipBound r; dev_lastSeenAt := dev_lastSeenAt r;
  dev_approvedAt := v; dev_createdAt := dev_createdAt r; dev_updatedAt := dev_updatedAt r
|}.
Definition set_dev_updatedAt v r := {|
  dev_id := dev_id r; dev_name := dev_name r; dev_status := dev_status r;
  dev_pairingCode := dev_pairingCode r; dev_tokenHash := dev_tokenHash r;
  dev_fingerprint := dev_fingerprint r; dev_layoutId := dev_layoutId r;
  dev_groupId := dev_groupId r; dev_ipBound := dev_ipBound r; dev_lastSeenAt := dev_lastSeenAt r;
  dev_approvedAt := dev_approvedAt r; dev_createdAt := dev_createdAt r; dev_updatedAt := v
|}.

(** ** [TickerRow] *)

Definition set_tick_text v r := {|
  tick_id := tick_id r; tick_text := v; tick_enabled := tick_enabled r;
  tick_severity := tick_severity r; tick_priority := tick_priority r;
  tick_startsAt := tick_startsAt r; tick_endsAt := tick_endsAt r;
  tick_recurrence := tick_recurrence r; tick_deviceGroupIds := tick_deviceGroupIds r;
  tick_userGroupIds := tick_userGroupIds r; tick_createdAt := tick_createdAt r;
  tick_updatedAt := tick_updatedAt r
|}.
Definition set_tick_enabled v r := {|
  tick_id := tick_id r; tick_text := tick_text r; tick_enabled := v;
  tick_severity := tick_severity r; tick_priority := tick_priority r;
  tick_startsAt := tick_startsAt r; tick_endsAt := tick_endsAt r;
  tick_recurrence := tick_recurrence r; tick_deviceGroupIds := tick_deviceGroupIds r;
  tick_userGroupIds := tick_userGroupIds r; tick_createdAt := tick_createdAt r;
  tick_updatedAt := tick_updatedAt r
|}.
Definition set_tick_severity v r := {|
  tick_id := tick_id r; tick_text := tick_text r; tick_enabled := tick_enabled r;
  tick_severity := v; tick_priority := tick_priority r; tick_startsAt := tick_startsAt r;
  tick_endsAt := tick_endsAt r; tick_recurrence := tick_recurrence r;
  tick_deviceGroupIds := tick_deviceGroupIds r; tick_userGroupIds := tick_userGroupIds r;
  tick_createdAt := tick_createdAt r; tick_updatedAt := tick_updatedAt r
|}.
Definition set_tick_priority v r := {|
  tick_id := tick_id r; tick_text := tick_text r; tick_enabled := tick_enabled r;
  tick_severity := tick_severity r; tick_priority := v; tick_startsAt := tick_startsAt r;
  tick_endsAt := tick_endsAt r; tick_recurrence := tick_recurrence r;
  tick_deviceGroupIds := tick_deviceGroupIds r; tick_userGroupIds := tick_userGroupIds r;
  tick_createdAt := tick_createdAt r; tick_updatedAt := tick_updatedAt r
|}.
Definition set_tick_startsAt v r := {|
  tick_id := tick_id r; tick_text := tick_text r; tick_enabled := tick_enabled r;
  tick_severity := tick_severity r; tick_priority := tick_priority r; tick_startsAt := v;
  tick_endsAt := tick_endsAt r; tick_recurrence := tick_recurrence r;
  tick_deviceGroupIds := tick_deviceGroupIds r; tick_userGroupIds := tick_userGroupIds r;
  tick_createdAt := tick_createdAt r; tick_updatedAt := tick_updatedAt r
|}.
Definition set_tick_endsAt v r := {|
  tick_id := tick_id r; tick_text := tick_text r; tick_enabled := tick_enabled r;
  tick_severity := tick_severity r; tick_priority := tick_priority r;
  tick_startsAt := tick_startsAt r; tick_endsAt := v; tick_recurrence := tick_recurrence r;
  tick_deviceGroupIds := tick_deviceGroupIds r; tick_userGroupIds := tick_userGroupIds r;
  tick_createdAt := tick_createdAt r; tick_updatedAt := tick_updatedAt r
|}.
Definition set_tick_recurrence v r := {|
  tick_id := tick_id r; tick_text := tick_text r; tick_enabled := tick_enabled r;
  tick_severity := tick_severity r; tick_priority := tick_priority r;
  tick_startsAt := tick_startsAt r; tick_endsAt := tick_endsAt r; tick_recurrence := v;
  tick_deviceGroupIds := tick_deviceGroupIds r; tick_userGroupIds := tick_userGroupIds r;
  tick_createdAt := tick_createdAt r; tick_updatedAt := tick_updatedAt r
|}.
Definition set_tick_deviceGroupIds v r := {|
  tick_id := tick_id r; tick_text := tick_text r; tick_enabled := tick_enabled r;
  tick_severity := tick_severity r; tick_priority := tick_priority r;
  tick_startsAt := tick_startsAt r; tick_endsAt := tick_endsAt r;
  tick_recurrence := tick_recurrence r; tick_deviceGroupIds := v;
  tick_userGroupIds := tick_userGroupIds r; tick_createdAt := tick_createdAt r;
  tick_updatedAt := tick_updatedAt r
|}.
Definition set_tick_userGroupIds v r := {|
  tick_id := tick_id r; tick_text := tick_text r; tick_enabled := tick_enabled r;
  tick_severity := tick_severity r; tick_priority := tick_priority r;
  tick_startsAt := tick_startsAt r; tick_endsAt := tick_endsAt r;
  tick_recurrence := tick_recurrence r; tick_deviceGroupIds := tick_deviceGroupIds r;
  tick_userGroupIds := v; tick_createdAt := tick_createdAt r; tick_updatedAt := tick_updatedAt r
|}.
Definition set_tick_updatedAt v r := {|
  tick_id := tick_id r; tick_text := tick_text r; tick_enabled := tick_enabled r;
  tick_severity := tick_severity r; tick_priority := tick_priority r;
  tick_startsAt := tick_startsAt r; tick_endsAt := tick_endsAt r;
  tick_recurrence := tick_recurrence r; tick_deviceGroupIds := tick_deviceGroupIds r;
  tick_userGroupIds := tick_userGroupIds r; tick_createdAt := tick_createdAt r;
  tick_updatedAt := v
|}.

(** ** [PublicConfigRow] *)

Definition set_pub_enabled v r := {|
  pub_id := pub_id r; pub_enabled := v; pub_title := pub_title r;
  pub_description := pub_description r; pub_showUptime := pub_showUptime r;
  pub_showHistory := pub_showHistory r; pub_historyDays := pub_historyDays r;
  pub_noticeLevel := pub_noticeLevel r; pub_noticeMessage := pub_noticeMessage r;
  pub_items := pub_items r; pub_createdAt := pub_createdAt r; pub_updatedAt := pub_updatedAt r
|}.
Definition set_pub_title v r := {|
  pub_id := pub_id r; pub_enabled := pub_enabled r; pub_title := v;
  pub_description := pub_description r; pub_showUptime := pub_showUptime r;
  pub_showHistory := pub_showHistory r; pub_historyDays := pub_historyDays r;
  pub_noticeLevel := pub_noticeLevel r; pub_noticeMessage := pub_noticeMessage r;
  pub_items := pub_items r; pub_createdAt := pub_createdAt r; pub_updatedAt := pub_updatedAt r
|}.
Definition set_pub_description v r := {|
  pub_id := pub_id r; pub_enabled := pub_enabled r; pub_title := pub_title r;
  pub_description := v; pub_showUptime := pub_showUptime r; pub_showHistory := pub_showHistory r;
  pub_historyDays := pub_historyDays r; pub_noticeLevel := pub_noticeLevel r;
  pub_noticeMessage := pub_noticeMessage r; pub_items := pub_items r;
  pub_createdAt := pub_createdAt r; pub_updatedAt := pub_updatedAt r
|}.
Definition set_pub_showUptime v r := {|
  pub_id := pub_id r; pub_enabled := pub_enabled r; pub_title := pub_title r;
  pub_description := pub_description r; pub_showUptime := v;
  pub_showHistory := pub_showHistory r; pub_historyDays := pub_historyDays r;
  pub_noticeLevel := pub_noticeLevel r; pub_noticeMessage := pub_noticeMessage r;
  pub_items := pub_items r; pub_createdAt := pub_createdAt r; pub_updatedAt := pub_updatedAt r
|}.
Definition set_pub_showHistory v r := {|
  pub_id := pub_id r; pub_enabled := pub_enabled r; pub_title := pub_title r;
  pub_description := pub_description r; pub_showUptime := pub_showUptime r; pub_showHistory := v;
  pub_historyDays := pub_historyDays r; pub_noticeLevel := pub_noticeLevel r;
  pub_noticeMessage := pub_noticeMessage r; pub_items := pub_items r;
  pub_createdAt := pub_createdAt r; pub_updatedAt := pub_updatedAt r
|}.
Definition set_pub_historyDays v r := {|
  pub_id := pub_id r; pub_enabled := pub_enabled r; pub_title := pub_title r;
  pub_description := pub_description r; pub_showUptime := pub_showUptime r;
  pub_showHistory := pub_showHistory r; pub_historyDays := v;
  pub_noticeLevel := pub_noticeLevel r; pub_noticeMessage := pub_noticeMessage r;
  pub_items := pub_items r; pub_createdAt := pub_createdAt r; pub_updatedAt := pub_updatedAt r
|}.
Definition set_pub_noticeLevel v r := {|
  pub_id := pub_id r; pub_enabled := pub_enabled r; pub_title := pub_title r;
  pub_description := pub_description r; pub_showUptime := pub_showUptime r;
  pub_showHistory := pub_showHistory r; pub_historyDays := pub_historyDays r;
  pub_noticeLevel := v; pub_noticeMessage := pub_noticeMessage r; pub_items := pub_items r;
  pub_createdAt := pub_createdAt r; pub_updatedAt := pub_updatedAt r
|}.
Definition set_pub_noticeMessage v r := {|
  pub_id := pub_id r; pub_enabled := pub_enabled r; pub_title := pub_title r;
  pub_description := pub_description r; pub_showUptime := pub_showUptime r;
  pub_showHistory := pub_showHistory r; pub_historyDays := pub_historyDays r;
  pub_noticeLevel := pub_noticeLevel r; pub_noticeMessage := v; pub_items := pub_items r;
  pub_createdAt := pub_createdAt r; pub_updatedAt := pub_updatedAt r
|}.
Definition set_pub_items v r := {|
  pub_id := pub_id r; pub_enabled := pub_enabled r; pub_title := pub_title r;
  pub_description := pub_description r; pub_showUptime := pub_showUptime r;
  pub_showHistory := pub_showHistory r; pub_historyDays := pub_historyDays r;
  pub_noticeLevel := pub_noticeLevel r; pub_noticeMessage := pub_noticeMessage r; pub_items := v;
  pub_createdAt := pub_createdAt r; pub_updatedAt := pub_updatedAt r
|}.
Definition set_pub_updatedAt v r := {|
  pub_id := pub_id r; pub_enabled := pub_enabled r; pub_title := pub_title r;
  pub_description := pub_description r; pub_showUptime := pub_showUptime r;
  pub_showHistory := pub_showHistory r; pub_historyDays := pub_historyDays r;
  pub_noticeLevel := pub_noticeLevel r; pub_noticeMessage := pub_noticeMessage r;
  pub_items := pub_items r; pub_createdAt := pub_createdAt r; pub_updatedAt := v
|}.

(** ** [ClientMetaRow] *)

Definition set_cm_hostname v r := {|
  cm_ip := cm_ip r; cm_hostname := v; cm_description := cm_description r;
  cm_updatedBy := cm_updatedBy r; cm_createdAt := cm_createdAt r; cm_updatedAt := cm_updatedAt r
|}.
Definition set_cm_description v r := {|
  cm_ip := cm_ip r; cm_hostname := cm_hostname r; cm_description := v;
  cm_updatedBy := cm_updatedBy r; cm_createdAt := cm_createdAt r; cm_updatedAt := cm_updatedAt r
|}.
Definition set_cm_updatedBy v r := {|
  cm_ip := cm_ip r; cm_hostname := cm_hostname r; cm_description := cm_description r;
  cm_updatedBy := v; cm_createdAt := cm_createdAt r; cm_updatedAt := cm_updatedAt r
|}.
Definition set_cm_updatedAt v r := {|
  cm_ip := cm_ip r; cm_hostname := cm_hostname r; cm_description := cm_description r;
  cm_updatedBy := cm_updatedBy r; cm_createdAt := cm_createdAt r; cm_updatedAt := v
|}.

(** ** [HostInventoryRow] *)

Definition set_inv_services v r := {|
  inv_agentId := inv_agentId r; inv_services := v; inv_processes := inv_processes r;
  inv_collectedAt := inv_collectedAt r
|}.
Definition set_inv_processes v r := {|
  inv_agentId := inv_agentId r; inv_services := inv_services r; inv_processes := v;
  inv_collectedAt := inv_collectedAt r
|}.
Definition set_inv_collectedAt v r := {|
  inv_agentId := inv_agentId r; inv_services := inv_services r; inv_processes := inv_processes r;
  inv_collectedAt := v
|}.

(** ** [UptimeBucketRow] *)

Definition set_ub_upSec v r := {|
  ub_id := ub_id r; ub_sourceId := ub_sourceId r; ub_entity := ub_entity r;
  ub_bucketStart := ub_bucketStart r; ub_upSec := v; ub_totalSec := ub_totalSec r;
  ub_statusSummary := ub_statusSummary r
|}.
Definition set_ub_totalSec v r := {|
  ub_id := ub_id r; ub_sourceId := ub_sourceId r; ub_entity := ub_entity r;
  ub_bucketStart := ub_bucketStart r; ub_upSec := ub_upSec r; ub_totalSec := v;
  ub_statusSummary := ub_statusSummary r
|}.

(** ** [NotificationRow] *)

Definition set_note_acknowledged v r := {|
  note_id := note_id r; note_severity := note_severity r; note_sourceId := note_sourceId r;
  note_title := note_title r; note_message := note_message r;
  note_plainLanguage := note_plainLanguage r; note_acknowledged := v; note_ts := note_ts r
|}.

(** ** [UnitStateRow] *)

Definition set_us_status v r := {|
  us_sourceId := us_sourceId r; us_entity := us_entity r; us_status := v; us_pid := us_pid r;
  us_critical := us_critical r; us_sample := us_sample r; us_updatedAt := us_updatedAt r
|}.
Definition set_us_pid v r := {|
  us_sourceId := us_sourceId r; us_entity := us_entity r; us_status := us_status r; us_pid := v;
  us_critical := us_critical r; us_sample := us_sample r; us_updatedAt := us_updatedAt r
|}.
Definition set_us_critical v r := {|
  us_sourceId := us_sourceId r; us_entity := us_entity r; us_status := us_status r;
  us_pid := us_pid r; us_critical := v; us_sample := us_sample r; us_updatedAt := us_updatedAt r
|}.
Definition set_us_sample v r := {|
  us_sourceId := us_sourceId r; us_entity := us_entity r; us_status := us_status r;
  us_pid := us_pid r; us_critical := us_critical r; us_sample := v;
  us_updatedAt := us_updatedAt r
|}.
Definition set_us_updatedAt v r := {|
  us_sourceId := us_sourceId r; us_entity := us_entity r; us_status := us_status r;
  us_pid := us_pid r; us_critical := us_critical r; us_sample := us_sample r; us_updatedAt := v
|}.
