(* ===== verification/Crypto.v ===== *)
(** * Secrets and passwords

    Models packages/core/src/crypto.ts (the versioned AES-256-GCM envelope) and
    packages/core/src/password.ts (scrypt hashes). The primitives of node:crypto are
    parameters; the hypotheses on them are what their documentation promises. Random
    bytes are arguments. A thrown [Error] is an [Err] naming the failing check. *)
From S2P Require Import Prelude Dates Text.

(** The errors crypto.ts throws. *)
Inductive CryptoError : Type :=
| KeyLength (n : nat)
| PartCount (n : nat)
| Version (v : string)
| IvLength (n : nat)
| TagLength (n : nat)
| TagMismatch
| KeyVersionSegment (s : string).

Definition ENVELOPE_VERSION : string := "v1".
Definition SEPARATOR : ascii := ".".
Definition IV_BYTES : nat := 12.
Definition TAG_BYTES : nat := 16.
Definition KEY_BYTES : nat := 32.
Definition ENVELOPE_PARTS : nat := 5.

(** AES-256-GCM of node:crypto: [createCipheriv]/[getAuthTag] and
    [createDecipheriv]/[setAuthTag]; [None] is a failed tag verification. *)
Class Gcm : Type := {
  gcm_seal : list Z -> list Z -> list Z -> list Z * list Z;
  gcm_open : list Z -> list Z -> list Z -> list Z -> option (list Z)
}.

(** The documented behaviour: the tag has 16 bytes, the outputs are byte strings, and
    a box opens exactly to the text whose sealing it is. *)
Class GcmLaws `{!Gcm} : Prop := {
  gcm_tag_length : forall k iv m, List.length (gcm_seal k iv m).2 = TAG_BYTES;
  gcm_bytes : forall k iv m,
    Forall is_byte (gcm_seal k iv m).1 /\ Forall is_byte (gcm_seal k iv m).2;
  gcm_correct : forall k iv m c t,
    Forall is_byte m -> gcm_open k iv c t = Some m <-> gcm_seal k iv m = (c, t);
  gcm_open_bytes : forall k iv c t m, gcm_open k iv c t = Some m -> Forall is_byte m
}.

(** [scryptSync(plaintext, salt, len, {N, r, p})]; [None] is an exception. *)
Class Scrypt : Type :=
  scrypt : string -> list Z -> nat -> Z -> Z -> Z -> option (list Z).

Section envelope.
Context `{!Gcm}.
Implicit Types (key iv : list Z) (envelope : string).

(** An undecodable input gives fewer bytes; [Buffer.from] does not throw. *)
Definition loadKey (base64 : string) : result CryptoError (list Z) :=
  let buf := base64_decode base64 in
  if negb (Nat.eqb (List.length buf) KEY_BYTES) then Err (KeyLength (List.length buf))
  else Ok buf.

(** The dot-separated parts of an envelope. *)
Definition envelope_string (keyVersion iv64 tag64 ct64 : string) : string :=
  join (String SEPARATOR "") [ENVELOPE_VERSION; keyVersion; iv64; tag64; ct64].

(** [iv] is [randomBytes(IV_BYTES)]. *)
Definition encryptSecret iv (plaintext : string) key (keyVersion : Z) : result CryptoError string :=
  if negb (Nat.eqb (List.length key) KEY_BYTES) then Err (KeyLength (List.length key)) else
  let '(encrypted, authTag) := gcm_seal key iv (bytes_of plaintext) in
  Ok (envelope_string (String_of_int keyVersion) (base64_encode iv)
        (base64_encode authTag) (base64_encode encrypted)).

Definition decryptSecret envelope key : result CryptoError string :=
  if negb (Nat.eqb (List.length key) KEY_BYTES) then Err (KeyLength (List.length key)) else
  match split_on SEPARATOR envelope with
  | [version; _; ivB64; tagB64; ciphertextB64] =>
      if negb (String.eqb version ENVELOPE_VERSION) then Err (Version version) else
      let iv := base64_decode ivB64 in
      let authTag := base64_decode tagB64 in
      let ciphertext := base64_decode ciphertextB64 in
      if negb (Nat.eqb (List.length iv) IV_BYTES) then Err (IvLength (List.length iv)) else
      if negb (Nat.eqb (List.length authTag) TAG_BYTES)
      then Err (TagLength (List.length authTag)) else
      let! decrypted := gcm_open key iv ciphertext authTag otherwise Err TagMismatch in
      Ok (string_of decrypted)
  | parts => Err (PartCount (List.length parts))
  end.

Definition getEnvelopeKeyVersion envelope : result CryptoError Z :=
  match split_on SEPARATOR envelope with
  | [version; keyVersionStr; _; _; _] =>
      if negb (String.eqb version ENVELOPE_VERSION) then Err (Version version) else
      match isInteger (Number_of_string keyVersionStr) with
      | Some v => if v <? 1 then Err (KeyVersionSegment keyVersionStr) else Ok v
      | None => Err (KeyVersionSegment keyVersionStr)
      end
  | parts => Err (PartCount (List.length parts))
  end.

Definition rewrap iv envelope oldKey newKey (newKeyVersion : Z) : result CryptoError string :=
  let? plaintext := decryptSecret envelope oldKey in
  encryptSecret iv plaintext newKey newKeyVersion.
End envelope.

Section passwords.
Context `{!Scrypt}.

Record ScryptParams : Type := { scrypt_N : Z; scrypt_r : Z; scrypt_p : Z }.
Definition DEFAULT_SCRYPT_PARAMS : ScryptParams := {| scrypt_N := 16384; scrypt_r := 8; scrypt_p := 1 |}.
Definition KEY_LEN : nat := 64.

(** [salt] is [randomBytes(16)]. *)
Definition hashPassword (salt : list Z) (plaintext : string) (params : ScryptParams) : option string :=
  let! hash := scrypt plaintext salt KEY_LEN (scrypt_N params) (scrypt_r params) (scrypt_p params)
    otherwise None in
  Some (join "$" ["scrypt"; String_of_int (scrypt_N params); String_of_int (scrypt_r params);
                  String_of_int (scrypt_p params); base64_encode salt; base64_encode hash]).

(** [None] is an exception of [scryptSync]. *)
Definition verifyPassword (plaintext stored : string) : option bool :=
  match split_on "$" stored with
  | [tag; nStr; rStr; pStr; saltB64; hashB64] =>
      if negb (String.eqb tag "scrypt") then Some false else
      match isInteger (Number_of_string nStr), isInteger (Number_of_string rStr),
            isInteger (Number_of_string pStr) with
      | Some N, Some r, Some p =>
          let salt := base64_decode saltB64 in
          let expected := base64_decode hashB64 in
          let! actual := scrypt plaintext salt (List.length expected) N r p otherwise None in
          Some (Nat.eqb (List.length expected) (List.length actual)
                && bool_decide (expected = actual))
      | _, _, _ => Some false
      end
  | _ => Some false
  end.
End passwords.

(** ** Concrete primitives, for evaluation only *)

(** A one-key stream: the text xored with a key byte, tagged with its length. *)
Definition toy_xor (k : list Z) (m : list Z) : list Z :=
  map (fun b => (hd 0 k + b) mod 256) m.
Definition toy_unxor (k : list Z) (m : list Z) : list Z :=
  map (fun b => (b - hd 0 k) mod 256) m.
Definition toy_tag (m : list Z) : list Z := Z.of_nat (List.length m) mod 256 :: repeat 7 15.
Definition toy_gcm : Gcm := {|
  gcm_seal k iv m := (toy_xor k m, toy_tag m);
  gcm_open k iv c t :=
    if bool_decide (t = toy_tag c) && forallb (fun b => (0 <=? b) && (b <? 256)) c
    then Some (toy_unxor k c) else None
|}.

Definition toy_scrypt : Scrypt := fun plaintext salt len N r p =>
  if N <=? 1 then None else Some (map (fun b => b mod 256) (firstn len (bytes_of plaintext ++ salt ++ repeat 0 len))).

#[local] Ltac Zify.zify_post_hook ::= Z.to_euclidean_division_equations.

Lemma toy_xor_unxor k c : Forall is_byte c -> toy_xor k (toy_unxor k c) = c.
Proof.
  unfold is_byte, toy_xor, toy_unxor. induction 1 as [|b c Hb Hc IH]; simpl; [done|].
  rewrite IH. f_equal. lia.
Qed.

Lemma toy_unxor_xor k m : Forall is_byte m -> toy_unxor k (toy_xor k m) = m.
Proof.
  unfold is_byte, toy_xor, toy_unxor. induction 1 as [|b c Hb Hc IH]; simpl; [done|].
  rewrite IH. f_equal. lia.
Qed.

Lemma map_mod_bytes (f : Z -> Z) m : Forall is_byte (map (fun b => f b mod 256) m).
Proof. unfold is_byte. induction m; simpl; constructor; auto. lia. Qed.

Lemma toy_gcm_laws : @GcmLaws toy_gcm.
Proof.
  split; simpl.
  - done.
  - intros k _ m. split; [apply map_mod_bytes|]. unfold toy_tag, is_byte.
    constructor; [lia|]. by repeat constructor.
  - intros k _ m c t Hm. split.
    + intros H. case_bool_decide as Ht; simpl in H; [|done]. destruct (forallb _ c) eqn:Hc; [|done].
      assert (Forall is_byte c) as Hb.
      { apply Forall_forall. intros x Hx. reflect. specialize (Hc x Hx). reflect. unfold is_byte. lia. }
      simplify_eq. rewrite toy_xor_unxor by done. f_equal. unfold toy_tag, toy_unxor.
      by rewrite length_map.
    + intros [= <- <-]. assert (toy_tag m = toy_tag (toy_xor k m)) as ->
        by (unfold toy_tag, toy_xor; by rewrite length_map).
      rewrite bool_decide_true by done. simpl.
      rewrite (proj2 (forallb_true _ _)), toy_unxor_xor; [done..|].
      intros x Hx. assert (Forall is_byte (toy_xor k m)) as Hb by apply map_mod_bytes.
      rewrite Forall_forall in Hb. specialize (Hb x Hx). unfold is_byte in Hb. reflect. lia.
  - intros k _ c t m H. destruct (_ && _); [|done]. simplify_eq. apply map_mod_bytes.
Qed.

(** ** Theorems *)

Section envelope_theorems.
Context `{!Gcm, !GcmLaws}.
Implicit Types (key iv : list Z) (envelope : string).

(** What opening an envelope amounts to. *)
Definition opens_to envelope key (text : string) : Prop :=
  List.length key = KEY_BYTES /\
  exists kv ivB tagB ctB m,
    envelope = envelope_string kv ivB tagB ctB /\
    Forall (fun s => has_char SEPARATOR s = false) [kv; ivB; tagB; ctB] /\
    List.length (base64_decode ivB) = IV_BYTES /\
    List.length (base64_decode tagB) = TAG_BYTES /\
    gcm_open key (base64_decode ivB) (base64_decode ctB) (base64_decode tagB) = Some m /\
    text = string_of m.

Lemma split_envelope kv ivB tagB ctB :
  Forall (fun s => has_char SEPARATOR s = false) [kv; ivB; tagB; ctB] ->
  split_on SEPARATOR (envelope_string kv ivB tagB ctB) = [ENVELOPE_VERSION; kv; ivB; tagB; ctB].
Proof. intros Hp. apply split_join; [done|]. by constructor. Qed.

Lemma sealed_parts iv key (kv : Z) m :
  0 <= kv -> Forall is_byte iv ->
  Forall (fun s => has_char SEPARATOR s = false)
    [String_of_int kv; base64_encode iv; base64_encode (gcm_seal key iv m).2;
     base64_encode (gcm_seal key iv m).1].
Proof.
  intros Hkv Hiv. destruct (gcm_bytes key iv m) as [Hc Ht].
  constructor; [apply String_of_int_char; [done|]; change (code SEPARATOR) with 46; lia|].
  repeat constructor; by apply base64_no_sep.
Qed.

(** [decryptSecret] succeeds exactly on a five-part "v1" envelope whose box the
    cipher opens, and returns the opened text; every other input is refused. *)
Lemma decryptSecret_iff envelope key text :
  decryptSecret envelope key = Ok text <-> opens_to envelope key text.
Proof.
  unfold opens_to. split.
  - unfold decryptSecret. destruct (Nat.eqb_spec (List.length key) KEY_BYTES); [|done]. simpl negb.
    pose proof (join_split SEPARATOR envelope) as Hj.
    pose proof (split_on_no_sep SEPARATOR envelope) as Hn.
    destruct (split_on SEPARATOR envelope) as [|v [|kv [|ivB [|tagB [|ctB [|]]]]]]; try done.
    destruct (String.eqb_spec v ENVELOPE_VERSION) as [->|]; [|done]. simpl negb.
    destruct (Nat.eqb_spec (List.length (base64_decode ivB)) IV_BYTES); [|done].
    destruct (Nat.eqb_spec (List.length (base64_decode tagB)) TAG_BYTES); [|done]. simpl negb.
    destruct (gcm_open _ _ _ _) as [m|] eqn:Hm; [|done]. intros [= <-].
    split; [done|]. exists kv, ivB, tagB, ctB, m. inversion Hn. by subst.
  - intros (Hk & kv & ivB & tagB & ctB & m & -> & Hs & Hiv & Htag & Hm & ->).
    unfold decryptSecret. rewrite split_envelope by done.
    by rewrite Hk, Hiv, Htag, Hm.
Qed.

(** A sealed envelope opens to its text and shows its version. *)
Lemma sealed_opens iv text key kv :
  List.length key = KEY_BYTES -> List.length iv = IV_BYTES -> Forall is_byte iv -> 1 <= kv ->
  exists envelope, encryptSecret iv text key kv = Ok envelope /\
    decryptSecret envelope key = Ok text /\ getEnvelopeKeyVersion envelope = Ok kv.
Proof.
  intros Hkey Hiv Hb Hkv.
  pose proof (sealed_parts iv key kv (bytes_of text) ltac:(lia) Hb) as Hp.
  pose proof (gcm_bytes key iv (bytes_of text)) as [Hc Ht].
  pose proof (gcm_tag_length key iv (bytes_of text)) as Hl.
  unfold encryptSecret. rewrite Hkey. simpl.
  destruct (gcm_seal key iv (bytes_of text)) as [c t] eqn:Hs. simpl in *.
  eexists. split; [done|]. split.
  - unfold decryptSecret. rewrite Hkey, split_envelope by done. simpl.
    rewrite !base64_round_trip by done. rewrite Hiv, Hl. simpl.
    assert (gcm_open key iv c t = Some (bytes_of text)) as ->
      by (apply gcm_correct; [apply bytes_of_range|done]).
    by rewrite string_of_bytes_of.
  - unfold getEnvelopeKeyVersion. rewrite split_envelope by done. simpl.
    rewrite Number_of_String_of_int by lia. by assert (kv <? 1 = false) as -> by lia.
Qed.

(** What [encryptSecret] seals, [decryptSecret] opens, and [getEnvelopeKeyVersion]
    reads the stamped version without the key; rotating an envelope keeps its text and only its text: the result opens under
    the new key, carries the new version, and no text is produced for an envelope the
    old key does not open. *)
Theorem rewrap_round_trip iv iv' text oldKey newKey old new
    (Hok : List.length oldKey = KEY_BYTES) (Hnk : List.length newKey = KEY_BYTES)
    (Hiv : List.length iv = IV_BYTES /\ Forall is_byte iv)
    (Hiv' : List.length iv' = IV_BYTES /\ Forall is_byte iv')
    (Hold : 1 <= old) (Hnew : 1 <= new) :
  exists e e', encryptSecret iv text oldKey old = Ok e /\
    decryptSecret e oldKey = Ok text /\ getEnvelopeKeyVersion e = Ok old /\
    rewrap iv' e oldKey newKey new = Ok e' /\
    decryptSecret e' newKey = Ok text /\ getEnvelopeKeyVersion e' = Ok new.
Proof.
  destruct Hiv, Hiv'.
  destruct (sealed_opens iv text oldKey old) as (e & He & Hd & Hv); [done..|].
  destruct (sealed_opens iv' text newKey new) as (e' & He' & Hd' & Hv'); [done..|].
  exists e, e'. unfold rewrap. by rewrite Hd.
Qed.

(** Base64 segments are read leniently: a character outside the alphabet appended
    to an envelope changes nothing, so the documented error for segments that are not
    base64 is never raised. *)
Theorem decryptSecret_skips_foreign envelope key text c
    (Hd : decryptSecret envelope key = Ok text)
    (Hc : b64_val c = None) (Hs : c <> SEPARATOR) :
  decryptSecret (envelope +:+ String c "") key = Ok text.
Proof.
  apply decryptSecret_iff in Hd as (Hk & kv & ivB & tagB & ctB & m & -> & Hns & Hr).
  apply decryptSecret_iff. split; [done|].
  exists kv, ivB, tagB, (ctB +:+ String c ""), m. split.
  { unfold envelope_string. simpl join. by rewrite !str_app_assoc. }
  split.
  { repeat apply Forall_cons in Hns as [? Hns]. repeat constructor; [done..|].
    rewrite has_char_app. apply orb_false_iff. split; [done|]. simpl.
    destruct (Ascii.eqb_spec c SEPARATOR); done. }
  assert (base64_decode (ctB +:+ String c "") = base64_decode ctB) as ->; [|done].
  unfold base64_decode. f_equal. clear -Hc. induction ctB as [|d s IH].
  - simpl. by rewrite Hc.
  - rewrite app_cons_string. simpl. by rewrite IH.
Qed.
End envelope_theorems.

Section password_theorems.
Context `{!Scrypt}.

(** A stored hash accepts the password it was made from and accepts another
    password only if scrypt maps both to the same key. *)
Theorem verifyPassword_hash salt plaintext other params stored
    (Hs : Forall is_byte salt)
    (Hp : 0 <= scrypt_N params /\ 0 <= scrypt_r params /\ 0 <= scrypt_p params)
    (Hlen : forall x s n N r p k, scrypt x s n N r p = Some k ->
       List.length k = n /\ Forall is_byte k)
    (Hh : hashPassword salt plaintext params = Some stored) :
  let key x := scrypt x salt KEY_LEN (scrypt_N params) (scrypt_r params) (scrypt_p params) in
  verifyPassword plaintext stored = Some true /\
  (verifyPassword other stored = Some true <-> key other = key plaintext).
Proof.
  intros key. unfold hashPassword in Hh. fold (key plaintext) in Hh.
  destruct (key plaintext) as [h|] eqn:Hk; [|done]. simplify_eq.
  destruct (Hlen _ _ _ _ _ _ _ Hk) as [Hl Hb]. destruct Hp as (H1 & H2 & H3).
  assert (Hv : forall x, verifyPassword x (join "$" ["scrypt"; String_of_int (scrypt_N params);
      String_of_int (scrypt_r params); String_of_int (scrypt_p params);
      base64_encode salt; base64_encode h])
    = match key x with Some a => Some (Nat.eqb 64 (List.length a) && bool_decide (h = a))
      | None => None end).
  { intros x. unfold verifyPassword. rewrite split_join; [|done|].
    - simpl negb. rewrite !Number_of_String_of_int, !base64_round_trip by done.
      rewrite Hl. done.
    - repeat constructor; try (apply String_of_int_char; [done|]; change (code "$") with 36; lia);
        by apply base64_no_sep. }
  rewrite !Hv, Hk. rewrite Hl, bool_decide_true by done. split; [done|].
  destruct (key other) as [k|] eqn:Ho; [|done].
  destruct (Hlen _ _ _ _ _ _ _ Ho) as [Hl' _]. rewrite Hl'. simpl.
  split; [intros [= Heq]; reflect; congruence|].
  intros [= ->]. by rewrite bool_decide_true.
Qed.
End password_theorems.

(** ** The theorems at concrete inputs *)

Section witnesses.
#[local] Existing Instance toy_gcm.
#[local] Existing Instance toy_gcm_laws.
#[local] Existing Instance toy_scrypt.

Definition key_a : list Z := repeat 2 32.
Definition key_b : list Z := repeat 9 32.
Definition iv_a : list Z := repeat 1 12.

Lemma rewrap_round_trip_witness :
  exists e e', encryptSecret iv_a "s3cret" key_a 1 = Ok e /\
    decryptSecret e key_a = Ok "s3cret" /\ getEnvelopeKeyVersion e = Ok 1 /\
    rewrap iv_a e key_a key_b 2 = Ok e' /\
    decryptSecret e' key_b = Ok "s3cret" /\ getEnvelopeKeyVersion e' = Ok 2.
Proof.
  apply (rewrap_round_trip iv_a iv_a "s3cret" key_a key_b 1 2); [done|done|..|lia|lia];
    split; try done; unfold iv_a, is_byte; repeat constructor; lia.
Defined.

Lemma decryptSecret_skips_foreign_witness :
  exists e, encryptSecret iv_a "s3cret" key_a 1 = Ok e /\
    decryptSecret (e +:+ String "*" "") key_a = Ok "s3cret".
Proof.
  exists "v1.1.AQEBAQEBAQEBAQEB.BgcHBwcHBwcHBwcHBwcHBw==.dTVldGd2". split; [vm_compute; reflexivity|].
  apply (decryptSecret_skips_foreign _ key_a "s3cret" "*"%char); [vm_compute; reflexivity..|done].
Defined.

Lemma verifyPassword_hash_witness :
  match hashPassword (repeat 5 16) "hunter22" DEFAULT_SCRYPT_PARAMS with
  | Some stored => verifyPassword "hunter22" stored = Some true /\
      verifyPassword "hunter23" stored <> Some true
  | None => False
  end.
Proof.
  destruct (hashPassword (repeat 5 16) "hunter22" DEFAULT_SCRYPT_PARAMS) as [st|] eqn:H; [|vm_compute in H; done].
  destruct (verifyPassword_hash (repeat 5 16) "hunter22" "hunter23" DEFAULT_SCRYPT_PARAMS st) as [H1 H2].
  - unfold is_byte. repeat constructor; lia.
  - simpl. lia.
  - intros x s n N r p k Hk. unfold scrypt, toy_scrypt in Hk. destruct (N <=? 1); [done|].
    simplify_eq. split; [|apply map_mod_bytes].
    rewrite length_map, length_firstn, !length_app, repeat_length. lia.
  - done.
  - split; [done|]. rewrite H2. vm_compute. done.
Defined.
End witnesses.
