(* ===== verification/Totp.v ===== *)
(** * Time-based one-time passwords

    Models packages/core/src/totp.ts: base32 over JavaScript's 32-bit accumulators,
    HOTP/TOTP codes, their verification within a window and the recovery codes.
    HMAC-SHA1 is node:crypto's and a parameter; random bytes are arguments. *)
From S2P Require Import Prelude Dates Text.

Definition BASE32_ALPHABET : string := "ABCDEFGHIJKLMNOPQRSTUVWXYZ234567".

Definition b32_char (n : Z) : ascii := nth_char (Z.to_nat n) BASE32_ALPHABET.

(** [(value >>> k) & mask] *)
Definition bits_at (value k mask : Z) : Z := Z.land (Z.shiftr (uint32 value) k) mask.

(** [while (bits >= 5)]: the characters emitted and the bits left. *)
Fixpoint flush5 (fuel : nat) (bits value : Z) : string * Z :=
  match fuel with
  | O => ("", bits)
  | S f =>
      if 5 <=? bits then
        let '(out, left_) := flush5 f (bits - 5) value in
        (String (b32_char (bits_at value (bits - 5) 31)) out, left_)
      else ("", bits)
  end.

(** The body of the loop over the bytes; [value] is an int32. Fewer than 5 bits are
    pending before a byte, so the inner loop runs at most twice. *)
Fixpoint encode_loop (bits value : Z) (bs : list Z) : string :=
  match bs with
  | [] =>
      if 0 <? bits
      then String (b32_char (Z.land (wrap32 (Z.shiftl value (5 - bits))) 31)) ""
      else ""
  | byte :: bs' =>
      let value' := Z.lor (wrap32 (Z.shiftl value 8)) byte in
      let '(out, bits') := flush5 3 (bits + 8) value' in
      out +:+ encode_loop bits' value' bs'
  end.

Definition base32Encode (buf : list Z) : string := encode_loop 0 0 buf.

(** [None] is the error for a character outside the alphabet. *)
Fixpoint decode_loop (bits value : Z) (s : string) : option (list Z) :=
  match s with
  | EmptyString => Some []
  | String c s' =>
      let! idx := index_char c BASE32_ALPHABET otherwise None in
      let value' := Z.lor (wrap32 (Z.shiftl value 5)) idx in
      if 8 <=? bits + 5 then
        let! rest := decode_loop (bits + 5 - 8) value' s' otherwise None in
        Some (bits_at value' (bits + 5 - 8) 255 :: rest)
      else decode_loop (bits + 5) value' s'
  end.

(** [s.replace(/=+$/g, "")] *)
Fixpoint strip_padding (s : string) : string :=
  match s with
  | EmptyString => ""
  | String c s' =>
      match strip_padding s' with
      | EmptyString => if Ascii.eqb c "=" then "" else String c ""
      | t => String c t
      end
  end.

(** [s.replace(/\s+/g, "")] *)
Fixpoint strip_spaces (s : string) : string :=
  match s with
  | EmptyString => ""
  | String c s' => if is_space c then strip_spaces s' else String c (strip_spaces s')
  end.

Definition base32Decode (s : string) : option (list Z) :=
  decode_loop 0 0 (strip_spaces (strip_padding (toUpperCase s))).

(** The argument is [randomBytes(20)]. *)
Definition generateTotpSecret (random : list Z) : string := base32Encode random.

(** [s.padStart(w, "0")] *)
Fixpoint zeros (n : nat) : string :=
  match n with O => "" | S n' => String "0" (zeros n') end.
Definition padStart0 (w : nat) (s : string) : string := zeros (w - String.length s) +:+ s.

Definition byte_at (bs : list Z) (i : Z) : Z := nth (Z.to_nat i) bs 0.

(** [buf.writeUInt32BE(v)]; [None] is the RangeError. *)
Definition writeUInt32BE (v : Z) : option (list Z) :=
  if (0 <=? v) && (v <=? 4294967295)
  then Some [v / 16777216; v / 65536 mod 256; v / 256 mod 256; v mod 256] else None.

Section hotp.
(** [createHmac("sha1", key).update(message).digest()] *)
Context (hmac_sha1 : list Z -> list Z -> list Z).

(** [None] is the RangeError of a counter outside 64 bits. *)
Definition hotp (key : list Z) (counter : Z) (ndigits : nat) : option string :=
  let! high := writeUInt32BE (counter / 4294967296) otherwise None in
  let! low := writeUInt32BE (uint32 counter) otherwise None in
  let hmac := hmac_sha1 key (high ++ low) in
  let offset := Z.land (byte_at hmac (Z.of_nat (List.length hmac) - 1)) 15 in
  let binary :=
    Z.lor (Z.lor (Z.lor
      (wrap32 (Z.shiftl (Z.land (byte_at hmac offset) 127) 24))
      (Z.shiftl (Z.land (byte_at hmac (offset + 1)) 255) 16))
      (Z.shiftl (Z.land (byte_at hmac (offset + 2)) 255) 8))
      (Z.land (byte_at hmac (offset + 3)) 255) in
  Some (padStart0 ndigits (String_of_int (binary mod 10 ^ Z.of_nat ndigits))).

(** The step a time in milliseconds falls in. *)
Definition step_of (time stepSec : Z) : Z := time / (1000 * stepSec).

Definition totpCode (secret : string) (forTime stepSec : Z) (ndigits : nat) : option string :=
  let! key := base32Decode secret otherwise None in
  hotp key (step_of forTime stepSec) ndigits.

(** [/^\d+$/.test(s)] *)
Definition all_digits (s : string) : bool :=
  negb (String.eqb s "") && forallb (fun b => (48 <=? b) && (b <=? 57)) (bytes_of s).

(** The loop over the steps of the window, every one of which is computed. *)
Fixpoint any_step (key : list Z) (submitted : string) (ndigits : nat) (counters : list Z)
    (matched : bool) : option bool :=
  match counters with
  | [] => Some matched
  | c :: cs =>
      let! candidate := hotp key c ndigits otherwise None in
      any_step key submitted ndigits cs (if String.eqb candidate submitted then true else matched)
  end.

(** The counters [counter - window .. counter + window]. *)
Definition window_counters (counter : Z) (window : nat) : list Z :=
  map (fun i => counter - Z.of_nat window + Z.of_nat i) (List.seq 0 (2 * window + 1)).

(** [None] is a thrown error (a malformed secret or a counter before the epoch). *)
Definition verifyTotp (secret token : string) (atTime : Z) (window : nat) (stepSec : Z)
    (ndigits : nat) : option bool :=
  let trimmed := trim token in
  if negb (Nat.eqb (String.length trimmed) ndigits) || negb (all_digits trimmed) then Some false
  else
    let! key := base32Decode secret otherwise None in
    any_step key trimmed ndigits (window_counters (step_of atTime stepSec) window) false.
End hotp.

Definition RECOVERY_ALPHABET : string := "abcdefghjkmnpqrstuvwxyz23456789".

Fixpoint recovery_chars (j : nat) (bytes : list Z) : string :=
  match bytes with
  | [] => ""
  | b :: bs =>
      let c := nth_char (Z.to_nat (b mod Z.of_nat (String.length RECOVERY_ALPHABET))) RECOVERY_ALPHABET in
      String c ((if Nat.eqb j 3 then "-" else "") +:+ recovery_chars (S j) bs)
  end.

(** One code per draw of [randomBytes(8)]. *)
Definition generateRecoveryCodes (draws : list (list Z)) : list string :=
  map (recovery_chars 0) draws.

(** RFC 4648's test vectors. *)
Example base32_vectors :
  map (fun s => base32Encode (bytes_of s)) ["f"; "fo"; "foo"; "foob"; "fooba"; "foobar"]
  = ["MY"; "MZXQ"; "MZXW6"; "MZXW6YQ"; "MZXW6YTB"; "MZXW6YTBOI"].
Proof. vm_compute. reflexivity. Qed.
Example base32_tolerant : option_map string_of (base32Decode "mzxw 6ytb oi======") = Some "foobar".
Proof. vm_compute. reflexivity. Qed.
Example recovery_ex : generateRecoveryCodes [[0; 1; 30; 31; 62; 255; 7; 8]] = ["ab9a-ahhj"].
Proof. vm_compute. reflexivity. Qed.

(** ** Base32 over 32-bit accumulators *)

#[local] Ltac Zify.zify_post_hook ::= Z.to_euclidean_division_equations.

Lemma lor_shifted m k b : 0 <= k -> 0 <= b < 2 ^ k -> Z.lor (m * 2 ^ k) b = m * 2 ^ k + b.
Proof.
  intros Hk Hb.
  assert (Hl : Z.land (m * 2 ^ k) b = 0).
  { apply Z.bits_inj'. intros n Hn. rewrite Z.land_spec, Z.bits_0.
    destruct (Z.ltb_spec n k) as [Hlt|Hge]; [by rewrite Z.mul_pow2_bits_low|].
    assert (Z.testbit b n = false) as ->; [|by rewrite andb_false_r].
    destruct (Z.eq_dec b 0) as [->|Hne]; [apply Z.bits_0|].
    apply Z.bits_above_log2; [lia|]. apply Z.log2_lt_pow2; [lia|].
    pose proof (Z.pow_le_mono_r 2 k n). lia. }
  by rewrite Z.add_nocarry_lxor, Z.lxor_lor.
Qed.

(** [(value << k) | b]: the new digit below the old accumulator, whose high bits may
    have been lost to the 32-bit wrap. *)
Lemma accumulate_digit value k b :
  0 <= k <= 22 -> 0 <= b < 2 ^ k ->
  exists u, Z.lor (wrap32 (Z.shiftl value k)) b = u * 2 ^ k + b /\ u mod 1024 = value mod 1024.
Proof.
  intros Hk Hb. rewrite Z.shiftl_mul_pow2 by lia.
  assert (Hq : exists q, wrap32 (value * 2 ^ k) = (value + q * 2 ^ (32 - k)) * 2 ^ k).
  { exists (- ((value * 2 ^ k + 2 ^ 31) / 2 ^ 32)). unfold wrap32.
    rewrite Z.mul_add_distr_r, <- Z.mul_assoc, <- Z.pow_add_r by lia.
    replace (32 - k + k) with 32 by lia. rewrite Z.mod_eq by done. lia. }
  destruct Hq as [q ->]. exists (value + q * 2 ^ (32 - k)).
  split; [by apply lor_shifted; lia|].
  replace (32 - k) with (22 - k + 10) by lia. rewrite Z.pow_add_r by lia.
  change (2 ^ 10) with 1024. rewrite Z.mul_assoc. apply Z.mod_add. done.
Qed.

Lemma bits_at_spec value k j :
  0 <= k -> 0 <= j -> k + j <= 32 -> bits_at value k (Z.ones j) = value / 2 ^ k mod 2 ^ j.
Proof.
  intros Hk Hj Hkj. unfold bits_at, uint32.
  rewrite Z.land_ones, Z.shiftr_div_pow2 by lia.
  rewrite (Z.div_mod value (2 ^ 32)) at 2 by done.
  replace (2 ^ 32 * (value / 2 ^ 32)) with (value / 2 ^ 32 * 2 ^ (32 - k - j) * 2 ^ j * 2 ^ k).
  - rewrite Z.div_add_l, (Z.add_comm (_ * _)), Z.mod_add by (apply Z.pow_nonzero; lia). done.
  - rewrite <- !Z.mul_assoc, <- !Z.pow_add_r by lia.
    replace (32 - k - j + (j + k)) with 32 by lia. lia.
Qed.

Lemma index_b32_char n : 0 <= n < 32 -> index_char (b32_char n) BASE32_ALPHABET = Some n.
Proof.
  intros Hn. apply (bool_decide_unpack _), Is_true_true.
  exact (forall_below 32 (fun n => bool_decide (index_char (b32_char n) BASE32_ALPHABET = Some n))
           eq_refl n Hn).
Qed.

(** The quintets of a byte string, without accumulators: the reference encoder. A last
    group is extended with zero bits. *)
Fixpoint quintets (bs : list Z) : list Z :=
  match bs with
  | a :: b :: c :: d :: e :: rest =>
      [a / 8; a mod 8 * 4 + b / 64; b / 2 mod 32; b mod 2 * 16 + c / 16;
       c mod 16 * 2 + d / 128; d / 4 mod 32; d mod 4 * 8 + e / 32; e mod 32] ++ quintets rest
  | [a; b; c; d] =>
      [a / 8; a mod 8 * 4 + b / 64; b / 2 mod 32; b mod 2 * 16 + c / 16;
       c mod 16 * 2 + d / 128; d / 4 mod 32; d mod 4 * 8 + 0 / 32]
  | [a; b; c] =>
      [a / 8; a mod 8 * 4 + b / 64; b / 2 mod 32; b mod 2 * 16 + c / 16; c mod 16 * 2 + 0 / 128]
  | [a; b] => [a / 8; a mod 8 * 4 + b / 64; b / 2 mod 32; b mod 2 * 16 + 0 / 16]
  | [a] => [a / 8; a mod 8 * 4 + 0 / 64]
  | [] => []
  end.

Fixpoint b32_string (qs : list Z) : string :=
  match qs with [] => "" | q :: qs' => String (b32_char q) (b32_string qs') end.

Lemma b32_string_app xs ys : b32_string (xs ++ ys) = b32_string xs +:+ b32_string ys.
Proof. induction xs as [|x xs IH]; [done|]. rewrite <- app_comm_cons. simpl. by rewrite IH. Qed.

(** Take one digit into the accumulator of the goal. *)
Ltac take_digit v k b :=
  let u := fresh "u" in let Hu := fresh "Hu" in let Hm := fresh "Hm" in
  let w := fresh "w" in
  destruct (accumulate_digit v k b) as (u & Hu & Hm); [lia|lia|];
  set (w := Z.lor (wrap32 (Z.shiftl v k)) b) in *; clearbody w.

Lemma flush_byte p w :
  0 <= p < 5 ->
  flush5 3 (p + 8) w =
  if 2 <=? p
  then (String (b32_char (bits_at w (p + 3) (Z.ones 5)))
          (String (b32_char (bits_at w (p - 2) (Z.ones 5))) ""), p - 2)
  else (String (b32_char (bits_at w (p + 3) (Z.ones 5))) "", p + 3).
Proof. intros Hp. each_value p 5; reflexivity. Qed.

(** One byte with [p < 5] pending bits: the reference quintets. *)
Lemma encode_byte p v u b rest :
  0 <= p < 5 -> 0 <= b < 256 -> u mod 32 = v mod 32 ->
  exists w, encode_loop p v (b :: rest) =
    (if 2 <=? p
     then String (b32_char ((u * 256 + b) / 2 ^ (p + 3) mod 32))
            (String (b32_char (b / 2 ^ (p - 2) mod 32)) (encode_loop (p - 2) w rest))
     else String (b32_char ((u * 256 + b) / 2 ^ (p + 3) mod 32)) (encode_loop (p + 3) w rest))
    /\ w mod 256 = b.
Proof.
  intros Hp Hb Hu. cbn [encode_loop].
  destruct (accumulate_digit v 8 b) as (u' & Hw & Hm); [lia|lia|].
  set (w := Z.lor (wrap32 (Z.shiftl v 8)) b) in *. clearbody w. exists w.
  change (2 ^ 8) with 256 in Hw. split; [|lia].
  assert (Hq : forall k, 0 <= k <= 7 -> bits_at w k (Z.ones 5) = (u * 256 + b) / 2 ^ k mod 32).
  { intros k Hk. rewrite bits_at_spec by lia. change (2 ^ 5) with 32. each_value k 8;
      repeat match goal with |- context [2 ^ ?x] => let y := eval vm_compute in (2 ^ x) in change (2 ^ x) with y end;
      lia. }
  rewrite flush_byte by done. destruct (Z.leb_spec 2 p); rewrite !Hq by lia; [|done].
  assert ((u * 256 + b) / 2 ^ (p - 2) mod 32 = b / 2 ^ (p - 2) mod 32) as ->; [|done].
  assert (Hp' : 0 <= p - 2 < 3) by lia. set (k := p - 2) in *. clearbody k.
  each_value k 3;
    match goal with |- context [2 ^ ?x] =>
      let y := eval vm_compute in (2 ^ x) in change (2 ^ x) with y end; lia.
Qed.

(** The character of the [p < 5] bits left at the end. *)
Lemma encode_last p v b :
  0 < p < 5 -> v mod 256 = b ->
  encode_loop p v [] = String (b32_char (b * 2 ^ (5 - p) mod 32)) "".
Proof.
  intros Hp Hv. cbn [encode_loop]. assert (0 <? p = true) as -> by lia. do 2 f_equal.
  change 31 with (Z.ones 5). rewrite Z.land_ones, Z.shiftl_mul_pow2 by lia.
  assert (Hk : 1 <= 5 - p < 5) by lia. set (k := 5 - p) in *. clearbody k. unfold wrap32.
  each_value k 5; [lia|..];
    match goal with |- context [v * 2 ^ ?x] =>
      let y := eval vm_compute in (2 ^ x) in change (2 ^ x) with y end;
    change (2 ^ 5) with 32; lia.
Qed.

(** Induction over a byte list five at a time. *)
Lemma fives_ind (P : list Z -> Prop) :
  P [] -> (forall a, P [a]) -> (forall a b, P [a; b]) -> (forall a b c, P [a; b; c]) ->
  (forall a b c d, P [a; b; c; d]) ->
  (forall a b c d e rest, P rest -> P (a :: b :: c :: d :: e :: rest)) -> forall l, P l.
Proof.
  intros H0 H1 H2 H3 H4 H5 l.
  enough (P l /\ (forall a, P (a :: l)) /\ (forall a b, P (a :: b :: l)) /\
    (forall a b c, P (a :: b :: c :: l)) /\ forall a b c d, P (a :: b :: c :: d :: l)) by tauto.
  induction l as [|x l (I0 & I1 & I2 & I3 & I4)]; auto 10.
Qed.

(** Encode the next byte of the goal, [p] bits pending below the last byte [u]. *)
Ltac next_byte p u :=
  match goal with
  | |- context [encode_loop ?p' ?v (?b :: ?rest)] =>
      let w := fresh "w" in let Hw := fresh "Hw" in
      change (encode_loop p' v (b :: rest)) with (encode_loop p v (b :: rest));
      destruct (encode_byte p v u b rest) as (w & -> & Hw); [lia|lia|lia|];
      simpl Z.leb; cbv iota
  end.

Ltac eval_pow2 :=
  repeat match goal with |- context [2 ^ ?x] =>
    let y := eval vm_compute in (2 ^ x) in change (2 ^ x) with y end.

(** The 32-bit encoder computes the reference encoding. *)
Lemma encode_loop_quintets bs :
  Forall is_byte bs -> forall v, encode_loop 0 v bs = b32_string (quintets bs).
Proof.
  unfold is_byte.
  induction bs as [|a|a b|a b c|a b c d|a b c d e rest IH] using fives_ind; intros H v;
    repeat (apply Forall_cons in H as [? H]); [done|..]; next_byte 0 v.
  - rewrite (encode_last (0 + 3) _ a) by lia. simpl b32_string. eval_pow2. repeat (f_equal; try lia).
  - next_byte 3 a. rewrite (encode_last (3 - 2) _ b) by lia. simpl b32_string. eval_pow2.
    repeat (f_equal; try lia).
  - next_byte 3 a. next_byte 1 b. rewrite (encode_last (1 + 3) _ c) by lia. simpl b32_string.
    eval_pow2. repeat (f_equal; try lia).
  - next_byte 3 a. next_byte 1 b. next_byte 4 c. rewrite (encode_last (4 - 2) _ d) by lia.
    simpl b32_string. eval_pow2. repeat (f_equal; try lia).
  - next_byte 3 a. next_byte 1 b. next_byte 4 c. next_byte 2 d. change (2 - 2) with 0. rewrite IH by done.
    simpl b32_string. eval_pow2. repeat (f_equal; try lia).
Qed.

(** The byte that ends [k] bits before the end of three quintets. *)
Definition octet (h g q k : Z) : Z := (h * 1024 + g * 32 + q) / 2 ^ k mod 256.

Definition is_quintet (q : Z) : Prop := 0 <= q < 32.

(** One quintet [q] with [p < 8] pending bits, after the quintets [h] and [g]. *)
Lemma decode_quintet p p' h g v q s :
  0 <= p < 8 -> p' = (if 3 <=? p then p - 3 else p + 5) ->
  is_quintet h -> is_quintet g -> is_quintet q -> v mod 1024 = h * 32 + g ->
  exists w, w mod 1024 = g * 32 + q /\
    decode_loop p v (String (b32_char q) s) =
    if 3 <=? p
    then let! rest := decode_loop p' w s otherwise None in Some (octet h g q p' :: rest)
    else decode_loop p' w s.
Proof.
  unfold is_quintet, octet. intros Hp -> Hh Hg Hq Hv. cbn [decode_loop]. rewrite index_b32_char by done.
  destruct (accumulate_digit v 5 q) as (u & Hu & Hm); [lia|done|].
  set (w := Z.lor (wrap32 (Z.shiftl v 5)) q) in *. clearbody w. exists w.
  change (2 ^ 5) with 32 in Hu. split; [lia|].
  destruct (Z.leb_spec 3 p) as [Hp3|Hp3]; destruct (Z.leb_spec 8 (p + 5)); try lia; [|done].
  replace (p + 5 - 8) with (p - 3) by lia. destruct (decode_loop (p - 3) w s); [|done].
  do 2 f_equal. change 255 with (Z.ones 8). rewrite bits_at_spec by lia. change (2 ^ 8) with 256.
  assert (Hk : 0 <= p - 3 < 5) by lia. set (k := p - 3) in *. clearbody k. rewrite Hv in Hm.
  clear Hv Hp Hp3 H. each_value k 5; eval_pow2; lia.
Qed.

Ltac next_quintet p p' h g Hg :=
  match goal with
  | |- context [decode_loop p ?v (String (b32_char ?q) ?s)] =>
      let w := fresh "w" in let Hw := fresh "Hw" in
      destruct (decode_quintet p p' h g v q s ltac:(done) eq_refl ltac:(done) ltac:(done)
        ltac:(done) Hg) as (w & Hw & ->); clear Hg; rename Hw into Hg; simpl Z.leb; cbv iota
  end.

Section decode_group.
Context (v h g q0 q1 q2 q3 q4 q5 q6 q7 : Z) (s : string).
Context (Hh : is_quintet h) (Hg : is_quintet g) (H0 : is_quintet q0) (H1 : is_quintet q1)
  (H2 : is_quintet q2) (H3 : is_quintet q3) (H4 : is_quintet q4) (H5 : is_quintet q5)
  (H6 : is_quintet q6) (H7 : is_quintet q7) (Hv : v mod 1024 = h * 32 + g).

(** Two quintets give one byte, four two, five three, seven four and eight five. *)
Lemma decode_group :
  decode_loop 0 v (b32_string [q0; q1]) = Some [octet g q0 q1 2] /\
  decode_loop 0 v (b32_string [q0; q1; q2; q3]) = Some [octet g q0 q1 2; octet q1 q2 q3 4] /\
  decode_loop 0 v (b32_string [q0; q1; q2; q3; q4]) =
    Some [octet g q0 q1 2; octet q1 q2 q3 4; octet q2 q3 q4 1] /\
  decode_loop 0 v (b32_string [q0; q1; q2; q3; q4; q5; q6]) =
    Some [octet g q0 q1 2; octet q1 q2 q3 4; octet q2 q3 q4 1; octet q4 q5 q6 3] /\
  exists w, decode_loop 0 v (b32_string [q0; q1; q2; q3; q4; q5; q6; q7] +:+ s) =
    let! rest := decode_loop 0 w s otherwise None in
    Some ([octet g q0 q1 2; octet q1 q2 q3 4; octet q2 q3 q4 1; octet q4 q5 q6 3;
           octet q5 q6 q7 0] ++ rest).
Proof.
  cbn [b32_string]. rewrite !app_cons_string, app_nil_string.
  split; [|split; [|split; [|split]]]; pose proof Hv as Hw;
    next_quintet 0 5 h g Hw; next_quintet 5 2 g q0 Hw; [done| | | |];
    next_quintet 2 7 q0 q1 Hw; next_quintet 7 4 q1 q2 Hw; [done| | |];
    next_quintet 4 1 q2 q3 Hw; [done| |];
    next_quintet 1 6 q3 q4 Hw; next_quintet 6 3 q4 q5 Hw; [done|].
  next_quintet 3 0 q5 q6 Hw. exists w6.
  destruct (decode_loop 0 w6 s); done.
Qed.
End decode_group.

Lemma quintets_range bs : Forall is_byte bs -> Forall is_quintet (quintets bs).
Proof.
  unfold is_byte, is_quintet.
  induction bs as [|a|a b|a b c|a b c d|a b c d e rest IH] using fives_ind; intros H;
    repeat (apply Forall_cons in H as [? H]); cbn [quintets app];
    repeat (constructor; [lia|]); auto.
Qed.

(** The octets of the quintets of five bytes are the bytes. *)
Lemma octet_quintets a b c d e g :
  is_byte a -> is_byte b -> is_byte c -> is_byte d -> is_byte e ->
  octet g (a / 8) (a mod 8 * 4 + b / 64) 2 = a /\
  octet (a mod 8 * 4 + b / 64) (b / 2 mod 32) (b mod 2 * 16 + c / 16) 4 = b /\
  octet (b / 2 mod 32) (b mod 2 * 16 + c / 16) (c mod 16 * 2 + d / 128) 1 = c /\
  octet (c mod 16 * 2 + d / 128) (d / 4 mod 32) (d mod 4 * 8 + e / 32) 3 = d /\
  octet (d / 4 mod 32) (d mod 4 * 8 + e / 32) (e mod 32) 0 = e.
Proof.
  unfold is_byte, octet. intros Ha Hb Hc Hd He. eval_pow2.
  split; [lia|]. split; [lia|]. split; [lia|]. split; lia.
Qed.

Lemma decode_bytes v a b c d e s :
  is_byte a -> is_byte b -> is_byte c -> is_byte d -> is_byte e ->
  decode_loop 0 v (b32_string [a / 8; a mod 8 * 4 + b / 64]) = Some [a] /\
  decode_loop 0 v (b32_string [a / 8; a mod 8 * 4 + b / 64; b / 2 mod 32;
    b mod 2 * 16 + c / 16]) = Some [a; b] /\
  decode_loop 0 v (b32_string [a / 8; a mod 8 * 4 + b / 64; b / 2 mod 32;
    b mod 2 * 16 + c / 16; c mod 16 * 2 + d / 128]) = Some [a; b; c] /\
  decode_loop 0 v (b32_string [a / 8; a mod 8 * 4 + b / 64; b / 2 mod 32;
    b mod 2 * 16 + c / 16; c mod 16 * 2 + d / 128; d / 4 mod 32; d mod 4 * 8 + e / 32])
    = Some [a; b; c; d] /\
  exists w, decode_loop 0 v (b32_string (quintets [a; b; c; d; e]) +:+ s) =
    let! rest := decode_loop 0 w s otherwise None in Some ([a; b; c; d; e] ++ rest).
Proof.
  intros Ha Hb Hc Hd He.
  destruct (octet_quintets a b c d e (v mod 32)) as (Ea & Eb & Ec & Ed & Ee); [done..|].
  assert (Hq : Forall is_quintet (quintets [a; b; c; d; e])) by (apply quintets_range; repeat (constructor; [done|]); constructor).
  cbn [quintets app] in *. repeat (apply Forall_cons in Hq as [? Hq]).
  assert (Hg : is_quintet (v mod 32)) by (unfold is_quintet; lia).
  assert (Hh : is_quintet (v mod 1024 / 32)) by (unfold is_quintet; lia).
  assert (Hv : v mod 1024 = v mod 1024 / 32 * 32 + v mod 32) by lia.
  pose proof (decode_group v _ _ _ _ _ _ _ _ _ _ s Hh Hg H H0 H1 H2 H3 H4 H5 H6 Hv) as Hdec.
  by rewrite Ea, Eb, Ec, Ed, Ee in Hdec.
Qed.

(** The 32-bit decoder inverts the reference encoding. *)
Lemma decode_loop_quintets bs :
  Forall is_byte bs -> forall v, decode_loop 0 v (b32_string (quintets bs)) = Some bs.
Proof.
  assert (Hz : is_byte 0) by (unfold is_byte; lia).
  induction bs as [|a|a b|a b c|a b c d|a b c d e rest IH] using fives_ind; intros H v;
    [done|..];
    repeat match goal with
    | H : Forall _ (_ :: _) |- _ => apply Forall_cons in H as [? H]
    end.
  - by apply (decode_bytes v a 0 0 0 0 "").
  - by apply (decode_bytes v a b 0 0 0 "").
  - by apply (decode_bytes v a b c 0 0 "").
  - by apply (decode_bytes v a b c d 0 "").
  - change (quintets (a :: b :: c :: d :: e :: rest)) with (quintets [a; b; c; d; e] ++ quintets rest).
    rewrite b32_string_app.
    destruct (decode_bytes v a b c d e (b32_string (quintets rest))) as (_ & _ & _ & _ & w & ->);
      [done..|]. by rewrite IH.
Qed.

(** Every character of an encoding is a letter or a digit of the alphabet. *)
Lemma b32_plain qs :
  Forall is_quintet qs ->
  let s := b32_string qs in
  toUpperCase s = s /\ strip_padding s = s /\ strip_spaces s = s.
Proof.
  unfold is_quintet. cbv zeta. induction 1 as [|q qs Hq Hqs (IH1 & IH2 & IH3)]; [done|].
  assert (Hc : (Ascii.eqb (upper (b32_char q)) (b32_char q) && negb (is_space (b32_char q))
    && negb (Ascii.eqb (b32_char q) "=")) = true).
  { exact (forall_below 32 (fun q => Ascii.eqb (upper (b32_char q)) (b32_char q)
      && negb (is_space (b32_char q)) && negb (Ascii.eqb (b32_char q) "=")) eq_refl q Hq). }
  apply andb_true_iff in Hc as [[Hu Hs]%andb_true_iff He].
  apply Ascii.eqb_eq in Hu. apply negb_true_iff in Hs, He.
  unfold toUpperCase in *. simpl. rewrite Hu, IH1, IH2, IH3, Hs, He. split; [done|].
  by destruct (b32_string qs).
Qed.

(** The base32 secret decodes to the bytes it encodes: neither loop loses a bit to the
    32-bit accumulator that JavaScript shifts without masking. *)
Theorem base32_round_trip bs (Hb : Forall is_byte bs) : base32Decode (base32Encode bs) = Some bs.
Proof.
  unfold base32Encode, base32Decode. rewrite encode_loop_quintets by done.
  destruct (b32_plain (quintets bs)) as (-> & -> & ->); [by apply quintets_range|].
  by apply decode_loop_quintets.
Qed.

Lemma base32_round_trip_witness :
  base32Decode (base32Encode [255; 0; 17; 250; 3; 128; 9]) = Some [255; 0; 17; 250; 3; 128; 9].
Proof. apply base32_round_trip. unfold is_byte. repeat constructor; lia. Defined.

(** ** Codes and their verification *)

Lemma width_fuel_le fuel n w :
  0 <= n < 10 ^ Z.of_nat w -> (0 < w)%nat -> (width_fuel fuel n <= w)%nat.
Proof.
  revert n w. induction fuel as [|fuel IH]; intros n w Hn Hw; simpl; [lia|].
  destruct (Z.ltb_spec n 10) as [|Hge]; [lia|].
  destruct w as [|[|w]]; [lia|change (10 ^ Z.of_nat 1) with 10 in Hn; lia|].
  apply le_n_S, IH; [|lia]. rewrite Nat2Z.inj_succ, Z.pow_succ_r in Hn by lia. lia.
Qed.

Lemma zeros_length n : String.length (zeros n) = n.
Proof. induction n; simpl; auto. Qed.

Lemma zeros_digits n : digit_string (zeros n).
Proof. unfold digit_string. induction n; simpl; constructor; auto. change (code "0") with 48. lia. Qed.

(** A number below [10 ^ w] padded to [w] digits. *)
Lemma padStart0_digits w n :
  0 <= n < 10 ^ Z.of_nat w -> (0 < w)%nat ->
  String.length (padStart0 w (String_of_int n)) = w /\
  digit_string (padStart0 w (String_of_int n)).
Proof.
  intros Hn Hw. unfold padStart0, String_of_int. assert (n <? 0 = false) as -> by lia.
  rewrite str_length_app, zeros_length, pad_length.
  pose proof (width_fuel_le (Z.to_nat (Z.log2 n)) n w Hn Hw) as Hl. fold (width n) in Hl.
  split; [lia|]. unfold digit_string. rewrite bytes_of_app. apply Forall_app.
  split; [apply zeros_digits|apply pad_digits; lia].
Qed.

Lemma digit_string_trim s : digit_string s -> trim s = s.
Proof.
  intros Hd. unfold trim.
  enough (Hu : forall u, digit_string u -> trimStart u = u /\ trimEnd u = u)
    by (destruct (Hu s Hd) as [-> ->]; done).
  unfold digit_string. induction u as [|c u IH]; simpl; [done|]. intros Hc.
  apply Forall_cons in Hc as [Hc Hu]. destruct (IH Hu) as [_ ->].
  assert (is_space c = false) as ->; [unfold is_space; reflect; lia|].
  split; [done|]. by destruct u.
Qed.

Lemma digit_string_all_digits s : digit_string s -> s <> "" -> all_digits s = true.
Proof.
  intros Hd Hs. unfold all_digits. apply andb_true_iff. split.
  - apply negb_true_iff. by apply String.eqb_neq.
  - apply forallb_true. intros b Hb. unfold digit_string in Hd. rewrite Forall_forall in Hd.
    specialize (Hd b Hb). simpl in Hd. reflect. lia.
Qed.

Section verification.
Context (hmac_sha1 : list Z -> list Z -> list Z).

Lemma hotp_total key c d :
  0 <= c < 2 ^ 64 -> (0 < d)%nat ->
  exists s, hotp hmac_sha1 key c d = Some s /\ String.length s = d /\ digit_string s.
Proof.
  intros Hc Hd. change (2 ^ 64) with 18446744073709551616 in Hc. unfold hotp, writeUInt32BE.
  assert ((0 <=? c / 4294967296) && (c / 4294967296 <=? 4294967295) = true) as -> by lia.
  unfold uint32. change (2 ^ 32) with 4294967296.
  assert ((0 <=? c mod 4294967296) && (c mod 4294967296 <=? 4294967295) = true) as -> by lia.
  set (binary := Z.lor _ _). clearbody binary. eexists. split; [done|].
  apply padStart0_digits; [|done]. apply Z.mod_pos_bound, Z.pow_pos_nonneg; lia.
Qed.

Lemma any_step_spec key submitted d cs m :
  Forall (fun c => 0 <= c < 2 ^ 64) cs -> (0 < d)%nat ->
  exists b, any_step hmac_sha1 key submitted d cs m = Some b /\
    (b = true <-> m = true \/ exists c, c ∈ cs /\ hotp hmac_sha1 key c d = Some submitted).
Proof.
  intros Hcs Hd. revert m. induction Hcs as [|c cs Hc Hcs IH]; intros m; simpl.
  - exists m. split; [done|]. split; [by left|]. intros [|(c & Hc & _)]; [done|set_solver].
  - destruct (hotp_total key c d Hc Hd) as (s & Hs & _). rewrite Hs.
    destruct (IH (if String.eqb s submitted then true else m)) as (b & -> & Hb).
    exists b. split; [done|]. rewrite Hb. destruct (String.eqb_spec s submitted) as [->|Hne].
    + split; [|by left]. intros _. right. exists c. split; [set_solver|done].
    + split; (intros [|(c' & Hc' & Hh)]; [by left|right; exists c'; split; [|done]]).
      * set_solver.
      * apply elem_of_cons in Hc' as [->|]; [congruence|done].
Qed.

Lemma elem_of_window c counter w :
  c ∈ window_counters counter w <-> counter - Z.of_nat w <= c <= counter + Z.of_nat w.
Proof.
  unfold window_counters. rewrite elem_of_map. split.
  - intros (i & -> & Hi%list_elem_of_In%in_seq). lia.
  - intros Hc. exists (Z.to_nat (c - counter + Z.of_nat w)). split; [lia|].
    apply list_elem_of_In, in_seq. lia.
Qed.

(** [verifyTotp] accepts a token exactly when, stripped of surrounding white space, it
    is the code of one of the [2 window + 1] steps around the given time; on a well-formed
    secret it never throws as long as the window stays within the 64-bit counter. *)
Theorem verifyTotp_spec secret key token atTime window stepSec d
    (Hkey : base32Decode secret = Some key) (Hd : (0 < d)%nat)
    (Hlo : Z.of_nat window <= step_of atTime stepSec)
    (Hhi : step_of atTime stepSec + Z.of_nat window < 2 ^ 64) :
  exists b, verifyTotp hmac_sha1 secret token atTime window stepSec d = Some b /\
    (b = true <-> exists c,
       step_of atTime stepSec - Z.of_nat window <= c <= step_of atTime stepSec + Z.of_nat window /\
       hotp hmac_sha1 key c d = Some (trim token)).
Proof.
  unfold verifyTotp. set (n := step_of atTime stepSec) in *. clearbody n.
  assert (Hcs : Forall (fun c => 0 <= c < 2 ^ 64) (window_counters n window)).
  { apply Forall_forall. intros c Hc%elem_of_window. lia. }
  destruct (negb _ || negb _) eqn:Hf.
  - exists false. split; [done|]. split; [done|]. intros (c & Hc & Hh).
    rewrite <- elem_of_window in Hc. rewrite Forall_forall in Hcs.
    destruct (hotp_total key c d (Hcs c Hc) Hd) as (s & Hs & Hl & Hds).
    rewrite Hh in Hs. injection Hs as <-.
    rewrite Hl, Nat.eqb_refl, digit_string_all_digits in Hf; [done|done|].
    intros He. rewrite He in Hl. simpl in Hl. lia.
  - rewrite Hkey.
    destruct (any_step_spec key (trim token) d _ false Hcs Hd) as (b & Hb & Hiff).
    exists b. split; [done|]. rewrite Hiff. setoid_rewrite elem_of_window. naive_solver.
Qed.

(** The code an authenticator shows is accepted while its clock is at most [window]
    steps away from the server's. *)
Theorem totpCode_verifies secret key shownAt atTime window stepSec d
    (Hkey : base32Decode secret = Some key) (Hd : (0 < d)%nat)
    (Hlo : Z.of_nat window <= step_of atTime stepSec)
    (Hhi : step_of atTime stepSec + Z.of_nat window < 2 ^ 64)
    (Hskew : Z.abs (step_of shownAt stepSec - step_of atTime stepSec) <= Z.of_nat window) :
  exists code, totpCode hmac_sha1 secret shownAt stepSec d = Some code /\
    verifyTotp hmac_sha1 secret code atTime window stepSec d = Some true.
Proof.
  unfold totpCode. rewrite Hkey.
  destruct (hotp_total key (step_of shownAt stepSec) d) as (s & Hs & Hl & Hds); [lia|done|].
  exists s. split; [done|]. unfold verifyTotp. rewrite digit_string_trim by done.
  assert (s <> "") by (intros ->; simpl in Hl; lia).
  rewrite Hl, Nat.eqb_refl, digit_string_all_digits, Hkey by done. simpl.
  destruct (any_step_spec key s d (window_counters (step_of atTime stepSec) window) false)
    as (b & -> & Hb); [|done|].
  - apply Forall_forall. intros c Hc%elem_of_window. lia.
  - f_equal. apply Hb. right. exists (step_of shownAt stepSec). rewrite elem_of_window.
    split; [lia|done].
Qed.
End verification.

(** An HMAC that is not one, to evaluate the theorems. *)
Definition toy_hmac (key message : list Z) : list Z :=
  map (fun i => (Z.of_nat i * 37 + fold_left Z.add (key ++ message) 0) mod 256) (List.seq 0 20).

Lemma verifyTotp_spec_witness :
  exists b, verifyTotp toy_hmac "MZXW6YTB" " 123456 " 1700000000000 1 30 6 = Some b /\
    (b = true <-> exists c, 56666665 <= c <= 56666667 /\
       hotp toy_hmac (bytes_of "fooba") c 6 = Some "123456").
Proof.
  apply (verifyTotp_spec toy_hmac "MZXW6YTB" (bytes_of "fooba") " 123456 " 1700000000000 1 30 6);
    [vm_compute; reflexivity|lia|vm_compute; discriminate|vm_compute; reflexivity].
Defined.

Lemma totpCode_verifies_witness :
  exists code, totpCode toy_hmac "MZXW6YTB" 1700000025000 30 6 = Some code /\
    verifyTotp toy_hmac "MZXW6YTB" code 1700000000000 1 30 6 = Some true.
Proof.
  apply (totpCode_verifies toy_hmac "MZXW6YTB" (bytes_of "fooba") 1700000025000 1700000000000 1 30 6);
    [vm_compute; reflexivity|lia|vm_compute; discriminate|vm_compute; reflexivity|vm_compute; discriminate].
Defined.
