(* ===== verification/AuditLog.v ===== *)
(** * The audit trail

    Models packages/core/src/audit.ts and apps/backend/src/plugins/audit.ts: the deep
    redaction of secrets and the entry written for every mutation. *)
From S2P Require Import Prelude Dates Text Store Schema.

(** The alternatives of the pattern; [pass(word)?] matches exactly where [pass] does. *)
Definition SECRET_WORDS : list string :=
  ["pass"; "secret"; "token"; "key"; "cipher"; "credential"; "authorization"].

(** [SECRET_KEY_PATTERN.test(key)]: some alternative occurs, ignoring case. *)
Definition SECRET_KEY_PATTERN (key : string) : bool :=
  existsb (fun w => contains w (toLowerCase key)) SECRET_WORDS.

Definition REDACTED : string := "[REDACTED]".

Definition is_null (v : json) : bool := match v with JNull => true | _ => false end.

(** [redact] on a present value; [undefined] is handled by the caller. *)
Fixpoint redact (value : json) : json :=
  match value with
  | JArr l => JArr (map redact l)
  | JObj source =>
      JObj (map (fun '(key, val) =>
        if SECRET_KEY_PATTERN key && negb (is_null val) then (key, JStr REDACTED)
        else (key, redact val)) source)
  | JNull | JBool _ | JNum _ | JStr _ => value
  end.

(** [None] is an absent field. *)
Record AuditEntryInput : Type := {
  in_actor : option string; in_actorRole : option string; in_action : string;
  in_category : string; in_target : option string; in_before : option json;
  in_after : option json; in_ip : option string
}.

Record AuditEntry : Type := {
  entry_actor : option string; entry_actorRole : option string; entry_action : string;
  entry_category : string; entry_target : option string; entry_before : json;
  entry_after : json; entry_ip : option string
}.

Definition redact_opt (v : option json) : json :=
  match v with Some j => redact j | None => JNull end.

Definition buildAuditEntry (input : AuditEntryInput) : AuditEntry := {|
  entry_actor := in_actor input; entry_actorRole := in_actorRole input;
  entry_action := in_action input; entry_category := in_category input;
  entry_target := in_target input; entry_before := redact_opt (in_before input);
  entry_after := redact_opt (in_after input); entry_ip := in_ip input
|}.

(** A nullable [jsonb] column holds SQL's null for a null value. *)
Definition jsonb_column (v : json) : option json := if is_null v then None else Some v.

(** [app.audit(req, input)]: the actor and the address default to the request's, and the
    entry is inserted as a row with a fresh id. *)
Definition audit `{!Store T} (id : string) (now : Z) (req_user req_ip : option string)
    (input : AuditEntryInput) (auditLog : T AuditRow) : T AuditRow :=
  let entry := buildAuditEntry {|
    in_actor := match in_actor input with Some a => Some a | None => req_user end;
    in_actorRole := in_actorRole input; in_action := in_action input;
    in_category := in_category input; in_target := in_target input;
    in_before := in_before input; in_after := in_after input;
    in_ip := match in_ip input with Some a => Some a | None => req_ip end |} in
  insert_row {|
    audit_id := id; audit_actor := entry_actor entry; audit_actorRole := entry_actorRole entry;
    audit_action := entry_action entry; audit_category := entry_category entry;
    audit_target := entry_target entry; audit_before := jsonb_column (entry_before entry);
    audit_after := jsonb_column (entry_after entry); audit_ip := entry_ip entry; audit_ts := now |} auditLog.

(** ** Theorems *)

(** Two values that differ at most in what stands under a secret key, where both are
    null or both are not. *)
Inductive public_eq : json -> json -> Prop :=
| pe_null : public_eq JNull JNull
| pe_bool b : public_eq (JBool b) (JBool b)
| pe_num q : public_eq (JNum q) (JNum q)
| pe_str s : public_eq (JStr s) (JStr s)
| pe_arr l1 l2 : Forall2 public_eq l1 l2 -> public_eq (JArr l1) (JArr l2)
| pe_obj m1 m2 : Forall2 public_field m1 m2 -> public_eq (JObj m1) (JObj m2)
with public_field : string * json -> string * json -> Prop :=
| pf_secret k v1 v2 : SECRET_KEY_PATTERN k = true ->
    is_null v1 = false -> is_null v2 = false -> public_field (k, v1) (k, v2)
| pf_public k v1 v2 : public_eq v1 v2 -> public_field (k, v1) (k, v2).

Lemma redact_null v : is_null (redact v) = is_null v.
Proof. by destruct v. Qed.

(** Equality of mapped lists, element by element. *)
Lemma map_eq_Forall2 {A B} (f : A -> B) l1 l2 :
  map f l1 = map f l2 <-> Forall2 (fun x y => f x = f y) l1 l2.
Proof.
  split; [|by induction 1; simpl; congruence].
  revert l2. induction l1 as [|x l1 IH]; intros [|y l2]; simpl; try done.
  intros [= Hxy Hl]. constructor; auto.
Qed.

(** C12: an audit row shows exactly the public part of a value: two values are redacted to
    the same row if and only if they differ only in what stands under secret keys. *)
Theorem redact_noninterference v1 v2 : redact v1 = redact v2 <-> public_eq v1 v2.
Proof.
  revert v2. induction v1 as [| | | |l IH|m IH] using json_rect_strong; intros v2.
  1-4: split; [by destruct v2; intros [=]; subst; constructor|by inversion 1].
  - split.
    + destruct v2 as [| | | |l2|]; try done. simpl. intros [= Hl%map_eq_Forall2]. constructor.
      clear -IH Hl. induction Hl; constructor; inversion IH; subst; naive_solver.
    + inversion 1 as [| | | |l1 l2 Hl|]; subst. simpl. f_equal. apply map_eq_Forall2.
      clear -IH Hl. induction Hl; constructor; inversion IH; subst; naive_solver.
  - split.
    + destruct v2 as [| | | | |m2]; try done. simpl. intros [= Hm%map_eq_Forall2]. constructor.
      clear -IH Hm. induction Hm as [|[k1 w1] [k2 w2] m m2 Hk Hm IHm]; constructor;
        apply Forall_cons in IH as [Hw IH]; auto. simpl in Hw.
      destruct (SECRET_KEY_PATTERN k1 && negb (is_null w1)) eqn:E1,
        (SECRET_KEY_PATTERN k2 && negb (is_null w2)) eqn:E2; simplify_eq.
      * apply andb_true_iff in E1 as [? ?%negb_true_iff], E2 as [? ?%negb_true_iff].
        by apply pf_secret.
      * exfalso. pose proof (redact_null w2) as Hn. rewrite <- H0 in Hn. simpl in Hn.
        rewrite <- Hn in E2. apply andb_true_iff in E1 as [E1 _]. by rewrite E1 in E2.
      * exfalso. pose proof (redact_null w1) as Hn. rewrite H0 in Hn. simpl in Hn.
        rewrite <- Hn in E1. apply andb_true_iff in E2 as [E2 _]. by rewrite E2 in E1.
      * by apply pf_public, Hw.
    + inversion 1 as [| | | | |m1 m2 Hm]; subst. simpl. f_equal. apply map_eq_Forall2.
      clear -IH Hm. induction Hm as [|x y m m2 Hk Hm IHm]; constructor;
        apply Forall_cons in IH as [Hw IH]; auto.
      destruct Hk as [k w1 w2 Hs H1 H2|k w1 w2 Hp]; simpl in Hw.
      * by rewrite Hs, H1, H2.
      * apply Hw in Hp. rewrite <- (redact_null w1), Hp, (redact_null w2). by case_match.
Qed.

(** What stands under a secret key is null or the marker, at any depth. *)
Inductive no_secret : json -> Prop :=
| ns_atom v : (forall l, v <> JArr l) -> (forall m, v <> JObj m) -> no_secret v
| ns_arr l : Forall no_secret l -> no_secret (JArr l)
| ns_obj m :
    Forall (fun kv => SECRET_KEY_PATTERN kv.1 = true -> kv.2 = JNull \/ kv.2 = JStr REDACTED) m ->
    Forall (fun kv => no_secret kv.2) m -> no_secret (JObj m).

(** No row holds a value under a secret key other than null or the marker, however
    deep, and redacting a redacted value changes nothing. *)
Theorem redact_no_secret v : no_secret (redact v) /\ redact (redact v) = redact v.
Proof.
  induction v as [| | | |l IH|m IH] using json_rect_strong;
    simpl; split; try done; try (constructor; done).
  - apply ns_arr, Forall_map. eapply Forall_impl; [exact IH|]. naive_solver.
  - f_equal. rewrite map_map. apply map_ext_Forall. eapply Forall_impl; [exact IH|]. naive_solver.
  - apply ns_obj; apply Forall_map; (eapply Forall_impl; [exact IH|]); intros [k w] [Hn Hi];
      simpl in *; destruct (SECRET_KEY_PATTERN k && negb (is_null w)) eqn:E; simpl; auto.
    + intros Hk. rewrite Hk in E. destruct w; try done. by left.
    + by apply ns_atom.
  - f_equal. rewrite map_map. apply map_ext_Forall. eapply Forall_impl; [exact IH|].
    intros [k w] [Hn Hi]. simpl in *.
    destruct (SECRET_KEY_PATTERN k && negb (is_null w)) eqn:E.
    + apply andb_true_iff in E as [-> _]. done.
    + by rewrite redact_null, E, Hi.
Qed.

Example redact_ex :
  redact (JObj [("username", JStr "ada"); ("passwordHash", JStr "x"); ("apiKey", JNull);
                ("config", JArr [JObj [("Authorization", JNum 3)]])])
  = JObj [("username", JStr "ada"); ("passwordHash", JStr REDACTED); ("apiKey", JNull);
          ("config", JArr [JObj [("Authorization", JStr REDACTED)]])].
Proof. vm_compute. reflexivity. Qed.
