(* ===== verification/Catalogue.v ===== *)
(** * The permission catalogue

    Models packages/shared/src/rbac.ts: the built-in permissions, their metadata, and the
    permissions of the seeded roles and groups. *)
From S2P Require Import Prelude Text.

Definition PERMISSION_CATALOGUE : list (string * list string) :=
  [("dashboard", ["dashboard:read"]);
   ("monitors", ["monitors:read"; "monitors:write"; "monitors:delete"]);
   ("agents", ["agents:read"; "agents:write"; "agents:restart"; "agents:update"; "agents:delete"]);
   ("events", ["events:read"]);
   ("logs", ["logs:read"]);
   ("uptime", ["uptime:read"]);
   ("audit", ["audit:read"]);
   ("reports", ["reports:read"; "reports:generate"]);
   ("notifications", ["notifications:read"; "notifications:ack"]);
   ("users", ["users:read"; "users:write"; "users:delete"]);
   ("groups", ["groups:read"; "groups:write"; "groups:delete"]);
   ("roles", ["roles:read"; "roles:write"; "roles:delete"]);
   ("settings", ["settings:read"; "settings:write"]);
   ("public", ["public:read"; "public:write"]);
   ("wallboards", ["wallboards:read"; "wallboards:write"; "wallboards:delete"]);
   ("devices", ["devices:read"; "devices:write"; "devices:delete"]);
   ("ticker", ["ticker:read"; "ticker:write"]);
   ("retention", ["retention:read"; "retention:write"]);
   ("backups", ["backups:read"; "backups:run"; "backups:restore"]);
   ("developer", ["developer:read"])].

Definition ALL_PERMISSIONS : list string := List.concat (map snd PERMISSION_CATALOGUE).

Inductive SystemRole := superadmin | admin | operator | viewer.

Definition SYSTEM_ROLES : list SystemRole := [superadmin; admin; operator; viewer].

Definition role_label (r : SystemRole) : string :=
  match r with
  | superadmin => "superadmin" | admin => "admin" | operator => "operator" | viewer => "viewer"
  end.

(** [None] is the wildcard: every permission. *)
Definition SYSTEM_ROLE_PERMISSIONS (r : SystemRole) : option (list string) :=
  match r with
  | superadmin => None
  | admin => Some
      ["dashboard:read";
       "monitors:read"; "monitors:write"; "monitors:delete";
       "agents:read"; "agents:write"; "agents:approve"; "agents:restart"; "agents:update";
       "events:read"; "logs:read"; "uptime:read"; "audit:read";
       "reports:read"; "reports:generate";
       "notifications:read"; "notifications:ack";
       "wallboards:read"; "wallboards:write"; "wallboards:delete";
       "devices:read"; "devices:write"; "devices:delete";
       "ticker:read"; "ticker:write";
       "backups:read"; "backups:run";
       "developer:read"]
  | operator => Some
      ["dashboard:read"; "monitors:read"; "agents:read"; "agents:restart";
       "events:read"; "logs:read"; "uptime:read";
       "reports:read"; "reports:generate";
       "notifications:read"; "notifications:ack";
       "wallboards:read"; "public:read"]
  | viewer => Some
      ["dashboard:read"; "monitors:read"; "agents:read"; "events:read";
       "logs:read"; "uptime:read"; "reports:read"; "notifications:read";
       "wallboards:read"; "public:read"]
  end.

Record SystemGroup : Type := { sg_name : string; sg_description : string; sg_role : SystemRole }.

Definition SYSTEM_GROUPS : list SystemGroup :=
  [{| sg_name := "Owners"; sg_description := "Protected superadmins (holds the owner account).";
      sg_role := superadmin |};
   {| sg_name := "Administrators"; sg_description := "Full operational administration.";
      sg_role := admin |};
   {| sg_name := "Operators"; sg_description := "Day-to-day operations and reporting.";
      sg_role := operator |};
   {| sg_name := "Viewers"; sg_description := "Read-only access."; sg_role := viewer |}].

(** Label and description of every permission resource. *)
Definition RESOURCE_META : list (string * (string * string)) :=
  [("dashboard", ("Dashboard", "The live operations dashboard."));
   ("monitors", ("Monitors", "Monitored services, hosts, databases, NAS and SNMP."));
   ("agents", ("Agents", "Host agents, connection keys and remote commands."));
   ("events", ("Events", "The durable status / client event history."));
   ("logs", ("Logs", "Collected and categorised log streams."));
   ("uptime", ("Uptime", "Uptime history and SLA reporting."));
   ("audit", ("Audit", "The audit trail of every mutation."));
   ("reports", ("Reports", "Operational reports — viewing and generation."));
   ("notifications", ("Notifications", "Alerts and their acknowledgement."));
   ("users", ("Users", "User accounts and their group membership."));
   ("groups", ("Groups", "Groups — the only bridge from users to roles."));
   ("roles", ("Roles", "Roles and the permissions they grant."));
   ("settings", ("Settings", "Platform settings, OIDC / SSO providers."));
   ("public", ("Public status", "The public, unauthenticated status page."));
   ("wallboards", ("Wallboards", "NOC wallboards and their layouts."));
   ("devices", ("Display devices", "Paired wall displays and device groups."));
   ("ticker", ("Ticker", "Scrolling ticker announcements."));
   ("retention", ("Retention", "Data retention windows and pruning."));
   ("backups", ("Backups", "Backups — running, restoring and scheduling."));
   ("developer", ("Developer", "The in-app developer documentation (/developers)."))].

(** One line per permission, for tooltips and the seed. *)
Definition PERMISSION_DESCRIPTIONS : list (string * string) :=
  [("dashboard:read", "View the live dashboard.");
   ("monitors:read", "View monitors and their configuration.");
   ("monitors:write", "Create and edit monitors (incl. scans, SNMP profiles).");
   ("monitors:delete", "Delete monitors.");
   ("agents:read", "View agents and connection keys.");
   ("agents:write", "Configure agents (incl. debug mode, multi-host, keys).");
   ("agents:restart", "Send a restart command to an agent.");
   ("agents:update", "Trigger an agent self-update.");
   ("agents:delete", "Remove an agent.");
   ("events:read", "View the event history.");
   ("logs:read", "View collected logs.");
   ("uptime:read", "View uptime and SLA data.");
   ("audit:read", "View the audit trail.");
   ("reports:read", "View reports.");
   ("reports:generate", "Generate / export reports.");
   ("notifications:read", "View notifications.");
   ("notifications:ack", "Acknowledge notifications.");
   ("users:read", "View users and their sessions.");
   ("users:write", "Create and edit users, manage their groups and sessions.");
   ("users:delete", "Delete users.");
   ("groups:read", "View groups.");
   ("groups:write", "Create and edit groups and their roles.");
   ("groups:delete", "Delete groups.");
   ("roles:read", "View roles and permissions.");
   ("roles:write", "Create and edit roles and their permissions.");
   ("roles:delete", "Delete roles.");
   ("settings:read", "View platform settings and SSO providers.");
   ("settings:write", "Change platform settings and SSO providers.");
   ("public:read", "View the public status configuration.");
   ("public:write", "Edit the public status page.");
   ("wallboards:read", "View wallboards.");
   ("wallboards:write", "Create and edit wallboards.");
   ("wallboards:delete", "Delete wallboards.");
   ("devices:read", "View paired display devices.");
   ("devices:write", "Pair, configure and group display devices.");
   ("devices:delete", "Remove display devices.");
   ("ticker:read", "View ticker messages.");
   ("ticker:write", "Create, edit and tune ticker messages.");
   ("retention:read", "View retention settings.");
   ("retention:write", "Change retention settings.");
   ("backups:read", "View backups and schedules.");
   ("backups:run", "Run, delete, prune and schedule backups.");
   ("backups:restore", "Restore from a backup.");
   ("developer:read", "View the developer documentation (/developers).")].

(** ** The catalogue is consistent *)

(** The resource part of a permission key. *)
Definition resource_of (key : string) : string := hd "" (split_on ":" key).

Definition holds (r : SystemRole) (key : string) : bool :=
  match SYSTEM_ROLE_PERMISSIONS r with Some keys => includes keys key | None => true end.

(** The catalogue has no duplicate, every key stands under its resource and has a
    description, every resource has its metadata and nothing else is described; every key a
    role lists is in the catalogue, but for "agents:approve" of the administrators. *)
Theorem catalogue_consistent :
  NoDup ALL_PERMISSIONS /\
  (forall resource keys key, (resource, keys) ∈ PERMISSION_CATALOGUE -> key ∈ keys ->
     resource_of key = resource) /\
  (map fst PERMISSION_DESCRIPTIONS ≡ₚ ALL_PERMISSIONS) /\
  (map fst RESOURCE_META = map fst PERMISSION_CATALOGUE) /\
  (forall r keys key, SYSTEM_ROLE_PERMISSIONS r = Some keys -> key ∈ keys ->
     key ∈ ALL_PERMISSIONS \/ (r = admin /\ key = "agents:approve")) /\
  "agents:approve" ∉ ALL_PERMISSIONS.
Proof.
  repeat split.
  - apply (bool_decide_unpack _). vm_compute. exact I.
  - intros resource keys key Hr Hk.
    assert (H : forallb (fun '(r, ks) => forallb (fun k => String.eqb (resource_of k) r) ks)
      PERMISSION_CATALOGUE = true) by (vm_compute; reflexivity).
    rewrite forallb_true in H. specialize (H _ Hr). simpl in H. rewrite forallb_true in H.
    by apply String.eqb_eq, H.
  - vm_compute. reflexivity.
  - intros r keys key Hr Hk.
    assert (H : forallb (fun r => match SYSTEM_ROLE_PERMISSIONS r with
        | Some keys => forallb (fun k => includes ALL_PERMISSIONS k
            || match r with admin => String.eqb k "agents:approve" | _ => false end) keys
        | None => true end) SYSTEM_ROLES = true) by (vm_compute; reflexivity).
    rewrite forallb_true in H. assert (Hin : r ∈ SYSTEM_ROLES) by (destruct r; set_solver).
    specialize (H r Hin). simpl in H. rewrite Hr, forallb_true in H. specialize (H key Hk).
    apply orb_true_iff in H as [H|H]; [left; by apply includes_true|right].
    destruct r; try done. by apply String.eqb_eq in H.
  - rewrite <- includes_false. vm_compute. reflexivity.
Qed.

(** The seeded roles are not a chain: operators hold "public:read", administrators do not. *)
Example operator_not_below_admin :
  holds operator "public:read" = true /\ holds admin "public:read" = false.
Proof. by vm_compute. Qed.
