(* ===== verification/Authz.v ===== *)
(** * Authorization

    Models packages/core/src/authorize.ts, packages/core/src/protection.ts,
    apps/backend/src/services/subject.ts and the guard of
    apps/backend/src/plugins/rbac.ts: who may do what, and how the effective permissions
    of a user are computed from groups and roles. *)
From S2P Require Import Prelude Text Store Schema Catalogue.

(** ** The evaluator *)

Record Attribute : Type := { attribute_key : string; attribute_value : string }.

Record AuthSubject : Type := {
  sub_userId : string; sub_isOwner : bool; sub_permissions : list string;
  sub_attributes : list Attribute
}.

(** A required attribute: one value or any of several. *)
Inductive Constraint := Exactly (v : string) | OneOf (vs : list string).

(** The entries of [requiredAttributes] in key order; [None] is an undefined value. *)
Definition RequiredAttributes : Type := list (string * option Constraint).

Record ResourceContext : Type := {
  requiredAttributes : option RequiredAttributes; ownerUserId : option string
}.

Inductive AuthzReason := owner_bypass | granted | missing_permission | attribute_mismatch.

Record AuthzResult : Type := { allowed : bool; reason : AuthzReason }.

Definition hasPermission (subject : AuthSubject) (action : string) : bool :=
  includes (sub_permissions subject) action.

(** [attr] meets the constraint on [key]. *)
Definition meets (key : string) (constraint : Constraint) (attr : Attribute) : bool :=
  if negb (String.eqb (attribute_key attr) key) then false else
  match constraint with
  | OneOf vs => includes vs (attribute_value attr)
  | Exactly v => String.eqb (attribute_value attr) v
  end.

Definition satisfiesAttributes (subject : AuthSubject) (required : option RequiredAttributes) : bool :=
  match required with
  | None => true
  | Some entries =>
      forallb (fun key =>
        match map_get key entries with
        | Some (Some constraint) => existsb (meets key constraint) (sub_attributes subject)
        | _ => true
        end) (map fst entries)
  end.

Definition authorize (subject : AuthSubject) (action : string) (resource : option ResourceContext)
  : AuthzResult :=
  if sub_isOwner subject then {| allowed := true; reason := owner_bypass |} else
  if negb (hasPermission subject action) then {| allowed := false; reason := missing_permission |} else
  let required := match resource with Some r => requiredAttributes r | None => None end in
  if match required with Some _ => negb (satisfiesAttributes subject required) | None => false end
  then {| allowed := false; reason := attribute_mismatch |}
  else {| allowed := true; reason := granted |}.

Definition can subject action resource : bool := allowed (authorize subject action resource).

(** ** Protected entities *)

(** [assertMutable] throws exactly when this holds. *)
Definition isProtected (isSystem isOwner : bool) : bool := isSystem || isOwner.

(** ** Subjects *)

Definition STATIC_ADMIN_SUBJECT : AuthSubject := {|
  sub_userId := "static-admin"; sub_isOwner := true; sub_permissions := []; sub_attributes := []
|}.

Definition DEVICE_READ_PERMS : list string :=
  ["dashboard:read"; "wallboards:read"; "agents:read"; "monitors:read"; "notifications:read";
   "ticker:read"].

Definition isDeviceSubject (subject : AuthSubject) : bool :=
  startsWith "device:" (sub_userId subject).

Definition deviceSubject (deviceId : string) : AuthSubject := {|
  sub_userId := "device:" +:+ deviceId; sub_isOwner := false;
  sub_permissions := DEVICE_READ_PERMS; sub_attributes := []
|}.

(** The tables of the master database that identity and access are kept in. *)
Record AccessDb (T : Type -> Type) : Type := {
  users : T UserRow; groups : T GroupRow; roles : T RoleRow; permissions : T PermissionRow;
  rolePermissions : T RolePermissionRow; groupRoles : T GroupRoleRow;
  userGroups : T UserGroupRow; userAttributes : T UserAttributeRow;
  refreshTokens : T RefreshTokenRow; settings : T SettingRow
}.
Arguments users {T} _. Arguments groups {T} _. Arguments roles {T} _.
Arguments permissions {T} _. Arguments rolePermissions {T} _. Arguments groupRoles {T} _.
Arguments userGroups {T} _. Arguments userAttributes {T} _. Arguments refreshTokens {T} _.
Arguments settings {T} _.

(** The database with one table replaced. *)
Definition with_users {T : Type -> Type} (t : T UserRow) (db : AccessDb T) : AccessDb T := {|
  users := t; groups := groups db; roles := roles db; permissions := permissions db;
  rolePermissions := rolePermissions db; groupRoles := groupRoles db;
  userGroups := userGroups db; userAttributes := userAttributes db;
  refreshTokens := refreshTokens db; settings := settings db
|}.
Definition with_groups {T : Type -> Type} (t : T GroupRow) (db : AccessDb T) : AccessDb T := {|
  users := users db; groups := t; roles := roles db; permissions := permissions db;
  rolePermissions := rolePermissions db; groupRoles := groupRoles db;
  userGroups := userGroups db; userAttributes := userAttributes db;
  refreshTokens := refreshTokens db; settings := settings db
|}.
Definition with_roles {T : Type -> Type} (t : T RoleRow) (db : AccessDb T) : AccessDb T := {|
  users := users db; groups := groups db; roles := t; permissions := permissions db;
  rolePermissions := rolePermissions db; groupRoles := groupRoles db;
  userGroups := userGroups db; userAttributes := userAttributes db;
  refreshTokens := refreshTokens db; settings := settings db
|}.
Definition with_permissions {T : Type -> Type} (t : T PermissionRow) (db : AccessDb T) : AccessDb T := {|
  users := users db; groups := groups db; roles := roles db; permissions := t;
  rolePermissions := rolePermissions db; groupRoles := groupRoles db;
  userGroups := userGroups db; userAttributes := userAttributes db;
  refreshTokens := refreshTokens db; settings := settings db
|}.
Definition with_rolePermissions {T : Type -> Type} (t : T RolePermissionRow) (db : AccessDb T) : AccessDb T := {|
  users := users db; groups := groups db; roles := roles db; permissions := permissions db;
  rolePermissions := t; groupRoles := groupRoles db; userGroups := userGroups db;
  userAttributes := userAttributes db; refreshTokens := refreshTokens db;
  settings := settings db
|}.
Definition with_groupRoles {T : Type -> Type} (t : T GroupRoleRow) (db : AccessDb T) : AccessDb T := {|
  users := users db; groups := groups db; roles := roles db; permissions := permissions db;
  rolePermissions := rolePermissions db; groupRoles := t; userGroups := userGroups db;
  userAttributes := userAttributes db; refreshTokens := refreshTokens db;
  settings := settings db
|}.
Definition with_userGroups {T : Type -> Type} (t : T UserGroupRow) (db : AccessDb T) : AccessDb T := {|
  users := users db; groups := groups db; roles := roles db; permissions := permissions db;
  rolePermissions := rolePermissions db; groupRoles := groupRoles db; userGroups := t;
  userAttributes := userAttributes db; refreshTokens := refreshTokens db;
  settings := settings db
|}.
Definition with_userAttributes {T : Type -> Type} (t : T UserAttributeRow) (db : AccessDb T) : AccessDb T := {|
  users := users db; groups := groups db; roles := roles db; permissions := permissions db;
  rolePermissions := rolePermissions db; groupRoles := groupRoles db;
  userGroups := userGroups db; userAttributes := t; refreshTokens := refreshTokens db;
  settings := settings db
|}.
Definition with_refreshTokens {T : Type -> Type} (t : T RefreshTokenRow) (db : AccessDb T) : AccessDb T := {|
  users := users db; groups := groups db; roles := roles db; permissions := permissions db;
  rolePermissions := rolePermissions db; groupRoles := groupRoles db;
  userGroups := userGroups db; userAttributes := userAttributes db; refreshTokens := t;
  settings := settings db
|}.

Section subject.
Context {T : Type -> Type} `{!Store T}.
Implicit Types db : AccessDb T.

(** The inner joins from the user's groups to the permission keys. *)
Definition permission_rows db (userId : string) : list string :=
  ug ← select (fun ug => String.eqb (ug_userId ug) userId) (userGroups db);
  gr ← select (fun gr => String.eqb (gr_groupId gr) (ug_groupId ug)) (groupRoles db);
  rp ← select (fun rp => String.eqb (rp_roleId rp) (gr_roleId gr)) (rolePermissions db);
  map perm_key (select (fun p => String.eqb (perm_id p) (rp_permissionId rp)) (permissions db)).

Definition attribute_rows db (userId : string) : list Attribute :=
  map (fun a => {| attribute_key := attr_key a; attribute_value := attr_value a |})
    (select (fun a => String.eqb (attr_userId a) userId) (userAttributes db)).

Definition resolveSubject db (userId : string) : option AuthSubject :=
  let! user := select_first (fun u => String.eqb (user_id u) userId) (users db) otherwise None in
  if user_disabled user then None
  else Some {|
    sub_userId := user_id user; sub_isOwner := user_isOwner user;
    sub_permissions := js_set (permission_rows db userId);
    sub_attributes := attribute_rows db userId |}.
End subject.

(** ** The route guard *)

(** The outcome of a [preHandler]: the request goes on, or a reply is sent. *)
Inductive guard_outcome : Type :=
| Proceed
| Reply (code : Z) (error : string) (why : string).

Definition reason_label (r : AuthzReason) : string :=
  match r with
  | owner_bypass => "owner_bypass" | granted => "granted"
  | missing_permission => "missing_permission" | attribute_mismatch => "attribute_mismatch"
  end.

(** [resource] is what [o.resource] computes from the request. *)
Definition requirePermission (action : string) (allowDevice : bool)
    (resource : option ResourceContext) (subject : option AuthSubject) : guard_outcome :=
  match subject with
  | None => Reply 401 "unauthorized" ""
  | Some subject =>
      if negb allowDevice && isDeviceSubject subject
      then Reply 403 "forbidden" "device_not_allowed"
      else
        let result := authorize subject action resource in
        if negb (allowed result) then Reply 403 "forbidden" (reason_label (reason result))
        else Proceed
  end.

(** ** Theorems *)

(** The attribute [attr] meets constraint [c]. *)
Definition attribute_matches (c : Constraint) (v : string) : Prop :=
  match c with Exactly w => v = w | OneOf ws => v ∈ ws end.

(** Every constraint that is present is met by some attribute of the subject. *)
Definition attributes_met (attrs : list Attribute) (required : RequiredAttributes) : Prop :=
  forall key c, map_get key required = Some (Some c) ->
    exists a, a ∈ attrs /\ attribute_key a = key /\ attribute_matches c (attribute_value a).

Lemma meets_true key c a :
  meets key c a = true <-> attribute_key a = key /\ attribute_matches c (attribute_value a).
Proof.
  unfold meets, attribute_matches. destruct (String.eqb_spec (attribute_key a) key); simpl.
  - destruct c; reflect; naive_solver.
  - naive_solver.
Qed.

Lemma satisfiesAttributes_true subject required :
  satisfiesAttributes subject (Some required) = true <->
  attributes_met (sub_attributes subject) required.
Proof.
  unfold satisfiesAttributes, attributes_met. rewrite forallb_true. split.
  - intros H key c Hk. assert (Hin : key ∈ map fst required).
    { apply elem_of_map. exists (key, Some c). split; [done|]. by apply map_get_Some. }
    specialize (H key Hin). simpl in H. rewrite Hk, existsb_true in H.
    destruct H as (a & Ha & Hm%meets_true). naive_solver.
  - intros H key Hkey. destruct (map_get key required) as [[c|]|] eqn:Hk; [|done|done].
    apply existsb_true. destruct (H key c Hk) as (a & Ha & Hm). exists a.
    split; [done|]. by apply meets_true.
Qed.

(** The abstract policy: what a subject may do to a resource. *)
Definition may (subject : AuthSubject) (action : string) (resource : option ResourceContext) : Prop :=
  sub_isOwner subject = true \/
  (action ∈ sub_permissions subject /\
   forall r required, resource = Some r -> requiredAttributes r = Some required ->
     attributes_met (sub_attributes subject) required).

Lemma authorize_allows subject action resource :
  allowed (authorize subject action resource) = true <-> may subject action resource.
Proof.
  unfold may, authorize, hasPermission.
  destruct (sub_isOwner subject) eqn:Ho; simpl; [naive_solver|].
  destruct (includes _ action) eqn:Hp; simpl; reflect; [|naive_solver].
  destruct resource as [r|]; [|naive_solver].
  destruct (requiredAttributes r) as [required|] eqn:Hr; [|naive_solver].
  pose proof (satisfiesAttributes_true subject required) as Hs.
  destruct (satisfiesAttributes subject (Some required)); simpl; naive_solver.
Qed.

(** C2: [authorize] implements the policy: it allows exactly the owner and the holders of
    the permission whose attributes meet every constraint, and the reason it gives names
    the first failing check. *)
Theorem authorize_spec subject action resource :
  (allowed (authorize subject action resource) = true <-> may subject action resource) /\
  match reason (authorize subject action resource) with
  | owner_bypass => sub_isOwner subject = true
  | missing_permission => sub_isOwner subject = false /\ action ∉ sub_permissions subject
  | attribute_mismatch =>
      sub_isOwner subject = false /\ action ∈ sub_permissions subject /\
      exists r required, resource = Some r /\ requiredAttributes r = Some required /\
        ~ attributes_met (sub_attributes subject) required
  | granted => sub_isOwner subject = false /\ may subject action resource
  end.
Proof.
  split; [apply authorize_allows|].
  pose proof (authorize_allows subject action resource) as Ha. revert Ha.
  unfold authorize, hasPermission. destruct (sub_isOwner subject) eqn:Ho; simpl; [done|].
  destruct (includes _ action) eqn:Hp; simpl; reflect; [|naive_solver].
  destruct resource as [r|]; [|naive_solver].
  destruct (requiredAttributes r) as [required|] eqn:Hr; [|naive_solver].
  pose proof (satisfiesAttributes_true subject required) as Hs.
  destruct (satisfiesAttributes subject (Some required)); simpl.
  { intros Ha. split; [done|by apply Ha]. }
  intros _. repeat split; try done. exists r, required. repeat split; [done|]. by intros ?%Hs.
Qed.

Section subject_theorems.
Context {T : Type -> Type} `{!Store T, !StoreLaws T}.
Implicit Types db : AccessDb T.

(** The only path to a permission: user, group, role, permission. *)
Definition grants db (userId key : string) : Prop :=
  exists ug gr rp p,
    ug ∈ rows (userGroups db) /\ gr ∈ rows (groupRoles db) /\
    rp ∈ rows (rolePermissions db) /\ p ∈ rows (permissions db) /\
    ug_userId ug = userId /\ gr_groupId gr = ug_groupId ug /\ rp_roleId rp = gr_roleId gr /\
    perm_id p = rp_permissionId rp /\ perm_key p = key.

Lemma elem_of_permission_rows db userId key :
  key ∈ permission_rows db userId <-> grants db userId key.
Proof.
  unfold permission_rows, grants. split.
  - intros (ug & H & Hug)%list_elem_of_bind. apply list_elem_of_bind in H as (gr & H & Hgr).
    apply list_elem_of_bind in H as (rp & H & Hrp). apply elem_of_map in H as (p & -> & Hp).
    reflect. naive_solver.
  - intros (ug & gr & rp & p & Hug & Hgr & Hrp & Hp & H1 & H2 & H3 & H4 & H5).
    apply list_elem_of_bind. exists ug. split; [|reflect; naive_solver].
    apply list_elem_of_bind. exists gr. split; [|reflect; naive_solver].
    apply list_elem_of_bind. exists rp. split; [|reflect; naive_solver].
    apply elem_of_map. exists p. split; [done|]. reflect. naive_solver.
Qed.

(** C3: a subject is resolved exactly for an id that has a row of an enabled user, and its
    permissions are, each once, the keys reachable through groups and roles: there is no other
    path to access. An id without a row, as of a deleted user, resolves to nobody. *)
Theorem resolveSubject_spec db userId (Hkey : unique_key user_id (users db)) :
  match resolveSubject db userId with
  | Some s => exists user, user ∈ rows (users db) /\ user_id user = userId /\
      user_disabled user = false /\ sub_userId s = userId /\
      sub_isOwner s = user_isOwner user /\ NoDup (sub_permissions s) /\
      (forall key, key ∈ sub_permissions s <-> grants db userId key) /\
      (forall a, a ∈ sub_attributes s <-> exists row, row ∈ rows (userAttributes db) /\
         attr_userId row = userId /\ attr_key row = attribute_key a /\
         attr_value row = attribute_value a)
  | None => forall user, user ∈ rows (users db) -> user_id user = userId -> user_disabled user = true
  end.
Proof.
  unfold resolveSubject. destruct (select_first _ _) as [user|] eqn:Hs.
  2: { intros user Hu He. rewrite (select_first_key user_id _ (users db) user) in Hs;
       [done|done|done|by apply String.eqb_eq|]. intros r' ?%String.eqb_eq. congruence. }
  apply select_first_Some in Hs as [Hu He%String.eqb_eq]. subst userId.
  destruct (user_disabled user) eqn:Hd.
  { intros u Hin He. by rewrite (unique_key_inj user_id (users db) u user). }
  exists user. simpl. do 5 (split; [done|]). split; [apply NoDup_js_set|]. split.
  - intros key. by rewrite elem_of_js_set, elem_of_permission_rows.
  - intros a. unfold attribute_rows. rewrite elem_of_map. setoid_rewrite elem_of_select. split.
    + intros (row & -> & Hrow & He%String.eqb_eq). by exists row.
    + intros (row & Hrow & He & Hk & Hv). exists row. rewrite He, String.eqb_refl.
      split; [|done]. destruct a; simpl in *. congruence.
Qed.
End subject_theorems.

(** A paired display passes the guard of exactly those routes that admit devices, ask for
    one of the six display permissions and require no attribute. *)
Theorem device_guard action allowDevice resource deviceId :
  requirePermission action allowDevice resource (Some (deviceSubject deviceId)) = Proceed <->
  allowDevice = true /\ action ∈ DEVICE_READ_PERMS /\
  forall r required key c, resource = Some r -> requiredAttributes r = Some required ->
    map_get key required <> Some (Some c).
Proof.
  unfold requirePermission.
  assert (Hd : isDeviceSubject (deviceSubject deviceId) = true).
  { unfold isDeviceSubject, startsWith. simpl. by destruct deviceId. }
  rewrite Hd. destruct allowDevice; simpl; [|naive_solver].
  pose proof (authorize_allows (deviceSubject deviceId) action resource) as Hs.
  unfold may in Hs. simpl in Hs.
  destruct (allowed (authorize (deviceSubject deviceId) action resource)); simpl.
  - split; [|done]. intros _. assert (Ht : true = true) by done. apply Hs in Ht as [Ht|[Ha Hr]]; [done|].
    split; [done|]. split; [done|]. intros r required key c Hr1 Hr2 Hk.
    destruct (Hr r required Hr1 Hr2 key c Hk) as (a & Hin & _). set_solver.
  - split; [done|]. intros (_ & Ha & Hr). exfalso. enough (false = true) by done. apply Hs.
    right. split; [done|]. intros r required Hr1 Hr2 key c Hk. by destruct (Hr r required key c).
Qed.

Definition w_person : UserRow := {|
  user_id := "u1"; user_username := "ada"; user_displayName := "Ada";
  user_email := None; user_passwordHash := None; user_authProvider := "oidc";
  user_disabled := false; user_isOwner := false; user_isSystem := false;
  user_totpEnabled := false; user_totpSecret := None; user_totpRecovery := None;
  user_tokenVersion := 0; user_failedLoginCount := 0; user_lockedUntil := None;
  user_lastLoginAt := None; user_createdAt := 0; user_updatedAt := 0
|}.

(** A user in one group whose role holds one permission. *)
Definition w_access : AccessDb list := {|
  users := [w_person];
  groups := []; roles := [];
  permissions := [{| perm_id := "p1"; perm_key := "logs:read"; perm_description := "";
    perm_createdAt := 0; perm_updatedAt := 0 |}];
  rolePermissions := [{| rp_roleId := "r1"; rp_permissionId := "p1" |}];
  groupRoles := [{| gr_groupId := "g1"; gr_roleId := "r1" |}];
  userGroups := [{| ug_userId := "u1"; ug_groupId := "g1" |}];
  userAttributes := []; refreshTokens := []; settings := [] |}.

Lemma resolveSubject_spec_witness :
  "logs:read" ∈ match resolveSubject w_access "u1" with
                | Some s => sub_permissions s | None => [] end
  <-> grants w_access "u1" "logs:read".
Proof.
  destruct (resolveSubject_spec (Store0 := list_store) w_access "u1" (NoDup_singleton (user_id w_person))) as (u & _ & _ & _ & _ & _ & _ & H & _).
  exact (H "logs:read").
Defined.
