(* ===== verification/Settings.v ===== *)
(** * Runtime settings

    Models apps/backend/src/services/settings.ts: JSON values under a key. *)
From S2P Require Import Prelude Store Schema RowUpdates.

Section settings.
Context {T : Type -> Type} `{!Store T}.
Implicit Types settings : T SettingRow.

(** [Object.fromEntries]: a later row overwrites an earlier one of the same key. *)
Definition getAllSettings settings : list (string * json) :=
  fold_left (fun m r => map_set (setting_key r) (setting_value r) m) (rows settings) [].

Definition getSetting settings (key : string) : option json :=
  option_map setting_value
    (select_first (fun r => String.eqb (setting_key r) key) settings).

Definition setSetting (now : Z) settings (key : string) (value : json) : T SettingRow :=
  upsert settings_conflict
    {| setting_key := key; setting_value := value; setting_createdAt := now;
       setting_updatedAt := now |}
    (fun r => set_setting_value value (set_setting_updatedAt now r)) settings.
End settings.

(** A setting that must be a positive number, or the default. *)
Definition positive_or (v : option json) (default : Q) : Q :=
  match v with Some (JNum q) => if negb (Qle_bool q 0) then q else default | _ => default end.

(** The value of [key] in a JSON object. *)
Definition field (key : string) (v : json) : option json :=
  match v with JObj m => map_get key m | _ => None end.

Section lemmas.
Context {T : Type -> Type} `{!Store T, !StoreLaws T}.
Implicit Types settings : T SettingRow.

(** Reading a key after a write to any key. *)
Lemma getSetting_set now settings key value key' :
  unique_key setting_key settings ->
  getSetting (setSetting now settings key value) key' =
  (if String.eqb key' key then Some value else getSetting settings key').
Proof.
  intros Hu. unfold getSetting, setSetting.
  rewrite (select_first_upsert setting_key key'); [|done| | |done].
  2: { intros x. apply String.eqb_eq. }
  2: { intros x. unfold settings_conflict. rewrite String.eqb_eq. simpl. split; congruence. }
  simpl. destruct (String.eqb_spec key' key), (decide (key' = key)); try done.
  by destruct (select_first _ settings).
Qed.
End lemmas.
