(* ===== verification/Auth.v ===== *)
(** * Authentication

    Models apps/backend/src/services/auth.ts (local login, rotating refresh tokens),
    sessions.ts, lockout.ts and twofa.ts, and the login, refresh, logout and two-factor
    handlers of apps/backend/src/routes/auth.routes.ts. SHA-256, scrypt, AES-GCM, HMAC and
    JWT signing are parameters; fresh ids, tokens and random bytes are arguments. *)
From S2P Require Import Prelude Dates Text Store Schema RowUpdates Settings Crypto Totp AuditLog Authz.

(** [createHash("sha256").update(v).digest("hex")] *)
Class Sha256 : Type := sha256 : string -> string.

(** The claims of an access token; [tv] is the user's token version at issue. *)
Record Claims : Type := { cl_sub : string; cl_sid : option string; cl_tv : option Z }.

(** @fastify/jwt: a signed token with an expiry, and its verification at a time. *)
Class Jwt : Type := {
  jwtSign : Claims -> Z -> string;
  jwtVerify : string -> Z -> option Claims
}.

(** A verified token carries the claims it was signed with, until it expires. *)
Class JwtLaws `{!Jwt} : Prop := {
  jwt_verify_sign : forall c expiresAt now,
    jwtVerify (jwtSign c expiresAt) now = if now <? expiresAt then Some c else None
}.

(** ** Lockout *)

Record LockoutPolicy : Type := { maxAttempts : Q; windowMinutes : Q }.
Definition LOCKOUT_SETTING_KEY : string := "security.lockout".
Definition DEFAULT_POLICY : LockoutPolicy := {| maxAttempts := 5; windowMinutes := 15 |}.

Section lockout.
Context {T : Type -> Type} `{!Store T}.
Implicit Types (users : T UserRow) (user : UserRow).

Definition getLockoutPolicy (settings : T SettingRow) : LockoutPolicy :=
  match getSetting settings LOCKOUT_SETTING_KEY with
  | Some (JObj m) => {|
      maxAttempts := positive_or (map_get "maxAttempts" m) (maxAttempts DEFAULT_POLICY);
      windowMinutes := positive_or (map_get "windowMinutes" m) (windowMinutes DEFAULT_POLICY) |}
  | _ => DEFAULT_POLICY
  end.

Definition isLocked (now : Z) user : bool :=
  match user_lockedUntil user with Some until => now <? until | None => false end.

(** [db.update(users).set(f).where(eq(users.id, id))] *)
Definition update_user (id : string) (f : UserRow -> UserRow) users : T UserRow :=
  update_where (fun u => String.eqb (user_id u) id) f users.

Record LockState : Type := {
  ls_locked : bool; ls_lockedUntil : option Z; ls_failedLoginCount : Z
}.

(** [new Date(x)] drops the fraction of a millisecond. *)
Definition lock_end (now : Z) (policy : LockoutPolicy) : Z :=
  now + Qfloor (windowMinutes policy * 60000).

(** [user] is the row the handler read before. *)
Definition recordFailure (now : Z) users user (policy : LockoutPolicy) : T UserRow * LockState :=
  let nextCount := user_failedLoginCount user + 1 in
  if Qle_bool (maxAttempts policy) (inject_Z nextCount) then
    let lockedUntil := lock_end now policy in
    (update_user (user_id user) (fun u =>
       set_user_failedLoginCount 0 (set_user_lockedUntil (Some lockedUntil)
         (set_user_updatedAt now u))) users,
     {| ls_locked := true; ls_lockedUntil := Some lockedUntil; ls_failedLoginCount := 0 |})
  else
    (update_user (user_id user) (fun u =>
       set_user_failedLoginCount nextCount (set_user_updatedAt now u)) users,
     {| ls_locked := false; ls_lockedUntil := None; ls_failedLoginCount := nextCount |}).

Definition recordSuccess (now : Z) users (userId : string) : T UserRow :=
  update_user userId (fun u =>
    set_user_failedLoginCount 0 (set_user_lockedUntil None (set_user_updatedAt now u))) users.

Definition clearLock (now : Z) users (userId : string) : T UserRow :=
  recordSuccess now users userId.
End lockout.

(** ** Credentials and refresh tokens *)

(** [toPublicUser]: the row without its credentials. *)
Record PublicUser : Type := {
  pu_id : string; pu_username : string; pu_displayName : string; pu_email : option string;
  pu_authProvider : string; pu_disabled : bool; pu_isOwner : bool; pu_isSystem : bool;
  pu_totpEnabled : bool; pu_tokenVersion : Z; pu_failedLoginCount : Z;
  pu_lockedUntil : option Z; pu_lastLoginAt : option Z; pu_createdAt : Z; pu_updatedAt : Z
}.
Definition toPublicUser (u : UserRow) : PublicUser := {|
  pu_id := user_id u; pu_username := user_username u; pu_displayName := user_displayName u;
  pu_email := user_email u; pu_authProvider := user_authProvider u;
  pu_disabled := user_disabled u; pu_isOwner := user_isOwner u; pu_isSystem := user_isSystem u;
  pu_totpEnabled := user_totpEnabled u; pu_tokenVersion := user_tokenVersion u;
  pu_failedLoginCount := user_failedLoginCount u; pu_lockedUntil := user_lockedUntil u;
  pu_lastLoginAt := user_lastLoginAt u; pu_createdAt := user_createdAt u;
  pu_updatedAt := user_updatedAt u
|}.

Record TokenMeta : Type := { meta_userAgent : option string; meta_ip : option string }.

Section tokens.
Context {T : Type -> Type} `{!Store T, !Sha256, !Scrypt}.
Implicit Types (users : T UserRow) (tokens : T RefreshTokenRow).

(** A nullable text that is neither null nor empty. *)
Definition present (s : option string) : bool :=
  match s with Some v => truthy v | None => false end.

Definition findLocalUser users (username : string) : option UserRow :=
  let! user := select_first (fun u => String.eqb (user_username u) username) users
    otherwise None in
  if user_disabled user || negb (String.eqb (user_authProvider user) "local")
     || negb (present (user_passwordHash user))
  then None else Some user.

(** [None] is an exception of scrypt. *)
Definition checkPassword (user : UserRow) (password : string) : option bool :=
  match user_passwordHash user with
  | Some h => if truthy h then verifyPassword password h else Some false
  | None => Some false
  end.

Definition markLoggedIn (now : Z) users (userId : string) : T UserRow :=
  update_user userId (set_user_lastLoginAt (Some now)) users.

(** The outer [None] is an exception of scrypt. *)
Definition verifyLocalLogin (now : Z) users (username password : string)
  : option (T UserRow * option UserRow) :=
  match findLocalUser users username with
  | Some user =>
      let! ok := checkPassword user password otherwise None in
      Some (if (ok : bool) then (markLoggedIn now users (user_id user), Some user) else (users, None))
  | None => Some (users, None)
  end.

(** The row is not revoked and not expired. *)
Definition live (now : Z) (r : RefreshTokenRow) : bool :=
  negb (bool_decide (is_Some (rt_revokedAt r))) && (now <? rt_expiresAt r).

(** [raw] and [id] are the fresh token and row id. *)
Definition issueRefreshToken (now : Z) (raw id : string) tokens (userId : string) (ttlSec : Z)
    (meta : TokenMeta) : T RefreshTokenRow :=
  insert_row {|
    rt_id := id; rt_userId := userId; rt_tokenHash := sha256 raw;
    rt_expiresAt := now + ttlSec * 1000; rt_revokedAt := None;
    rt_userAgent := meta_userAgent meta; rt_ip := meta_ip meta; rt_lastUsedAt := Some now;
    rt_createdAt := now; rt_updatedAt := now |} tokens.

(** The statement that looks a presented token up. *)
Definition find_live (now : Z) tokens (rawToken : string) : option RefreshTokenRow :=
  select_first (fun r => String.eqb (rt_tokenHash r) (sha256 rawToken) && live now r) tokens.

Definition revoke_row (now : Z) tokens (id : string) : T RefreshTokenRow :=
  update_where (fun r => String.eqb (rt_id r) id)
    (fun r => set_rt_revokedAt (Some now) (set_rt_lastUsedAt (Some now) r)) tokens.

(** The statements after the lookup found [row]. *)
Definition rotate_found (now : Z) (raw id : string) tokens (row : RefreshTokenRow) (ttlSec : Z)
  : T RefreshTokenRow :=
  issueRefreshToken now raw id (revoke_row now tokens (rt_id row)) (rt_userId row) ttlSec
    {| meta_userAgent := rt_userAgent row; meta_ip := rt_ip row |}.

(** The user, the new raw token and the new session id. *)
Definition rotateRefreshToken (now : Z) (raw id : string) tokens (rawToken : string) (ttlSec : Z)
  : T RefreshTokenRow * option (string * string * string) :=
  match find_live now tokens rawToken with
  | None => (tokens, None)
  | Some row => (rotate_found now raw id tokens row ttlSec, Some (rt_userId row, raw, id))
  end.

Definition userIdForRefreshToken tokens (rawToken : string) : option string :=
  option_map rt_userId (select_first (fun r => String.eqb (rt_tokenHash r) (sha256 rawToken)) tokens).

Definition revokeRefreshToken (now : Z) tokens (rawToken : string) : T RefreshTokenRow :=
  update_where (fun r => String.eqb (rt_tokenHash r) (sha256 rawToken)
                         && negb (bool_decide (is_Some (rt_revokedAt r))))
    (set_rt_revokedAt (Some now)) tokens.

Definition bumpTokenVersion users (userId : string) : T UserRow :=
  update_user userId (fun u => set_user_tokenVersion (user_tokenVersion u + 1) u) users.

Definition getTokenVersion users (userId : string) : option Z :=
  option_map user_tokenVersion (select_first (fun u => String.eqb (user_id u) userId) users).

Definition isSessionLive (now : Z) tokens (sessionId : string) : bool :=
  match select_first (fun r => String.eqb (rt_id r) sessionId && live now r) tokens with
  | Some _ => true | None => false end.
End tokens.

(** ** Sessions *)

Record SessionDTO : Type := {
  ses_id : string; ses_userId : string; ses_ip : option string; ses_userAgent : option string;
  ses_createdAt : Z; ses_lastUsedAt : option Z; ses_current : bool
}.

Section sessions.
Context {T : Type -> Type} `{!Store T}.
Implicit Types tokens : T RefreshTokenRow.

(** The live rows of a user. *)
Definition live_of (now : Z) (userId : string) (r : RefreshTokenRow) : bool :=
  String.eqb (rt_userId r) userId && live now r.

Definition listSessions (now : Z) tokens (userId : string) (currentTokenHash : option string)
  : list SessionDTO :=
  js_sort (fun a b => ses_createdAt a <? ses_createdAt b)
    (map (fun row => {|
       ses_id := rt_id row; ses_userId := rt_userId row; ses_ip := rt_ip row;
       ses_userAgent := rt_userAgent row; ses_createdAt := rt_createdAt row;
       ses_lastUsedAt := rt_lastUsedAt row;
       ses_current := match currentTokenHash with
                      | Some h => String.eqb (rt_tokenHash row) h | None => false end |})
       (select (live_of now userId) tokens)).

Definition terminateSession (now : Z) tokens (id : string) : T RefreshTokenRow * bool :=
  match select_first (fun r => String.eqb (rt_id r) id) tokens with
  | None => (tokens, false)
  | Some _ =>
      (update_where (fun r => String.eqb (rt_id r) id) (set_rt_revokedAt (Some now)) tokens, true)
  end.

(** [update ... set revokedAt ... where c returning]: the table and the number of rows. *)
Definition revoke_where (now : Z) tokens (c : RefreshTokenRow -> bool) : T RefreshTokenRow * nat :=
  (update_where c (set_rt_revokedAt (Some now)) tokens, List.length (select c tokens)).

Definition terminateAllForUser (now : Z) tokens (userId : string) (exceptTokenHash : option string)
  : T RefreshTokenRow * nat :=
  revoke_where now tokens (fun r => live_of now userId r &&
    match exceptTokenHash with Some h => negb (String.eqb (rt_tokenHash r) h) | None => true end).

Definition terminateOtherSessions (now : Z) tokens (userId exceptSessionId : string)
  : T RefreshTokenRow * nat :=
  revoke_where now tokens (fun r =>
    live_of now userId r && negb (String.eqb (rt_id r) exceptSessionId)).
End sessions.

(** ** Two-factor authentication *)

Inductive TwoFAError : Type :=
| TwoFAConfigError
| TwoFAVerifyError (message : string)
| SealError (e : CryptoError)
| CodeError.

Definition REQUIRE_2FA_KEY : string := "security.require2fa".

Section twofa.
Context {T : Type -> Type} `{!Store T, !Sha256, !Gcm}.
Context (hmac_sha1 : list Z -> list Z -> list Z).
Implicit Types users : T UserRow.

(** [ENCRYPTION_KEY] is the environment variable. *)
Definition masterKey (ENCRYPTION_KEY : option string) : result TwoFAError (list Z) :=
  match ENCRYPTION_KEY with
  | Some raw => if truthy raw
      then match loadKey raw with Ok k => Ok k | Err e => Err (SealError e) end
      else Err TwoFAConfigError
  | None => Err TwoFAConfigError
  end.

(** [iv] and [random] are the random bytes; returns the secret (its otpauth URI is a
    function of it). *)
Definition beginSetup (env : option string) (now : Z) (iv random : list Z) users (userId : string)
  : T UserRow * result TwoFAError string :=
  match masterKey env with
  | Err e => (users, Err e)
  | Ok key =>
      let secret := generateTotpSecret random in
      match encryptSecret iv secret key 1 with
      | Err e => (users, Err (SealError e))
      | Ok sealed =>
          (update_user userId (fun u => set_user_totpSecret (Some sealed)
             (set_user_totpEnabled false (set_user_updatedAt now u))) users, Ok secret)
      end
  end.

(** [verifyTotp(secret, code)] of the sealed secret, with the default window. *)
Definition check_code (now : Z) (key : list Z) (sealed code : string) : result TwoFAError bool :=
  match decryptSecret sealed key with
  | Err e => Err (SealError e)
  | Ok secret =>
      match verifyTotp hmac_sha1 secret code now 1 30 6 with
      | Some b => Ok b | None => Err CodeError end
  end.

Definition enable (env : option string) (now : Z) (draws : list (list Z)) users
    (userId code : string) : T UserRow * result TwoFAError (list string) :=
  match masterKey env with
  | Err e => (users, Err e)
  | Ok key =>
      let user := select_first (fun u => String.eqb (user_id u) userId) users in
      match user with
      | Some u =>
          match user_totpSecret u with
          | Some sealed =>
              if negb (truthy sealed) then (users, Err (TwoFAVerifyError "no_pending_setup")) else
              match check_code now key sealed code with
              | Err e => (users, Err e)
              | Ok false => (users, Err (TwoFAVerifyError "invalid_2fa"))
              | Ok true =>
                  let recoveryCodes := generateRecoveryCodes draws in
                  (update_user userId (fun u => set_user_totpEnabled true
                     (set_user_totpRecovery (Some (map sha256 recoveryCodes))
                        (set_user_updatedAt now u))) users, Ok recoveryCodes)
              end
          | None => (users, Err (TwoFAVerifyError "no_pending_setup"))
          end
      | None => (users, Err (TwoFAVerifyError "no_pending_setup"))
      end
  end.

Record SecondFactor : Type := { sf_ok : bool; sf_usedRecovery : bool }.

(** [user] is the row the handler read before. *)
Definition verifyForLogin (env : option string) (now : Z) users (user : UserRow) (code : string)
  : T UserRow * result TwoFAError SecondFactor :=
  match (if user_totpEnabled user then user_totpSecret user else None) with
  | Some sealed =>
      if negb (truthy sealed) then (users, Ok {| sf_ok := false; sf_usedRecovery := false |}) else
      match masterKey env with
      | Err e => (users, Err e)
      | Ok key =>
          match check_code now key sealed code with
          | Err e => (users, Err e)
          | Ok true => (users, Ok {| sf_ok := true; sf_usedRecovery := false |})
          | Ok false =>
              let hashes := default [] (user_totpRecovery user) in
              let submittedHash := sha256 (toLowerCase (trim code)) in
              if includes hashes submittedHash then
                let remaining := List.filter (fun h => negb (String.eqb h submittedHash)) hashes in
                (update_user (user_id user) (fun u => set_user_totpRecovery (Some remaining)
                   (set_user_updatedAt now u)) users,
                 Ok {| sf_ok := true; sf_usedRecovery := true |})
              else (users, Ok {| sf_ok := false; sf_usedRecovery := false |})
          end
      end
  | None => (users, Ok {| sf_ok := false; sf_usedRecovery := false |})
  end.

Definition disable (now : Z) users (userId : string) : T UserRow :=
  update_user userId (fun u => set_user_totpEnabled false (set_user_totpSecret None
    (set_user_totpRecovery None (set_user_updatedAt now u)))) users.

Definition resetFor (now : Z) users (userId : string) : T UserRow := disable now users userId.

Definition isRequired (settings : T SettingRow) : bool :=
  match getSetting settings REQUIRE_2FA_KEY with Some (JBool b) => b | _ => false end.
End twofa.

(** ** The handlers of auth.routes.ts *)

(** What the handlers change: the master database and the audit log. *)
Record AuthState (T : Type -> Type) : Type := { master : AccessDb T; auditLog : T AuditRow }.
Arguments master {T} _. Arguments auditLog {T} _.

(** The parts of the server configuration and of the request the handlers read. *)
Record AuthConfig : Type := {
  cfg_encryptionKey : option string; cfg_refreshTtlSec : Z; cfg_accessTtlMs : Z
}.
Record RequestInfo : Type := { req_ip : string; req_userAgent : option string }.

(** A parsed login body; [None] where zod rejects it. *)
Record Credentials : Type := {
  cred_username : string; cred_password : string; cred_code : option string
}.

(** The fresh values one login may draw. *)
Record Fresh : Type := {
  fresh_token : string; fresh_session : string; fresh_audit1 : string; fresh_audit2 : string
}.

Inductive LoginReply : Type :=
| LoginError (code : Z) (error : string) (until : option Z)
| LoggedIn (accessToken refreshToken : string) (user : PublicUser)
| LoginThrown.

Section handlers.
Context {T : Type -> Type} `{!Store T, !Sha256, !Scrypt, !Gcm, !Jwt}.
Context (hmac_sha1 : list Z -> list Z -> list Z) (config : AuthConfig).
Implicit Types st : AuthState T.

Definition set_master st (db : AccessDb T) : AuthState T := {| master := db; auditLog := auditLog st |}.
Definition set_users st (t : T UserRow) : AuthState T := set_master st (with_users t (master st)).
Definition set_tokens st (t : T RefreshTokenRow) : AuthState T :=
  set_master st (with_refreshTokens t (master st)).

(** An audit entry whose actor is its target, as every handler here writes it. *)
Definition audit_self (now : Z) (id action userId : string) (req : RequestInfo) st : AuthState T := {|
  master := master st;
  auditLog := audit id now None (Some (req_ip req)) {|
    in_actor := Some userId; in_actorRole := None; in_action := action; in_category := "auth";
    in_target := Some userId; in_before := None; in_after := None; in_ip := None |} (auditLog st)
|}.

(** The second factor of a login: the state after it and the reply that ends the
    handler, if one does. *)
Definition second_factor (now : Z) (fresh : Fresh) (req : RequestInfo) st (user : UserRow)
    (code : option string) : AuthState T * option LoginReply :=
  if user_totpEnabled user then
    match code with
    | Some c =>
        if negb (truthy c) then (st, Some (LoginError 401 "2fa_required" None)) else
        match verifyForLogin hmac_sha1 (cfg_encryptionKey config) now (users (master st)) user c with
        | (users', Ok result) =>
            let st' := set_users st users' in
            if negb (sf_ok result) then (st', Some (LoginError 401 "invalid_2fa" None))
            else if sf_usedRecovery result
            then (audit_self now (fresh_audit1 fresh) "2fa.recovery_used" (user_id user) req st', None)
            else (st', None)
        | (users', Err TwoFAConfigError) =>
            (set_users st users', Some (LoginError 500 "server_misconfigured" None))
        | (users', Err _) => (set_users st users', Some LoginThrown)
        end
    | None => (st, Some (LoginError 401 "2fa_required" None))
    end
  else (st, None).

(** The end of a login whose password and second factor have verified. *)
Definition complete_login (now : Z) (fresh : Fresh) (req : RequestInfo) st (user : UserRow)
  : AuthState T * LoginReply :=
  let st1 := set_users st (recordSuccess now (users (master st)) (user_id user)) in
  let st2 := set_users st1 (markLoggedIn now (users (master st1)) (user_id user)) in
  let st3 := set_tokens st2
    (issueRefreshToken now (fresh_token fresh) (fresh_session fresh) (refreshTokens (master st2))
       (user_id user) (cfg_refreshTtlSec config)
       {| meta_userAgent := req_userAgent req; meta_ip := Some (req_ip req) |}) in
  let accessToken :=
    jwtSign {| cl_sub := user_id user; cl_sid := Some (fresh_session fresh);
               cl_tv := Some (user_tokenVersion user) |} (now + cfg_accessTtlMs config) in
  (audit_self now (fresh_audit2 fresh) "auth.login" (user_id user) req st3,
   LoggedIn accessToken (fresh_token fresh) (toPublicUser user)).

(** POST /api/auth/login *)
Definition login (now : Z) (fresh : Fresh) (req : RequestInfo) st (body : option Credentials)
  : AuthState T * LoginReply :=
  match body with
  | None => (st, LoginError 400 "invalid_request" None)
  | Some data =>
      match findLocalUser (users (master st)) (cred_username data) with
      | None => (st, LoginError 401 "invalid_credentials" None)
      | Some user =>
          if isLocked now user then (st, LoginError 423 "account_locked" (user_lockedUntil user))
          else
            match checkPassword user (cred_password data) with
            | None => (st, LoginThrown)
            | Some false =>
                let policy := getLockoutPolicy (settings (master st)) in
                (set_users st (fst (recordFailure now (users (master st)) user policy)),
                 LoginError 401 "invalid_credentials" None)
            | Some true =>
                match second_factor now fresh req st user (cred_code data) with
                | (st', Some reply) => (st', reply)
                | (st', None) => complete_login now fresh req st' user
                end
            end
      end
  end.

(** POST /api/auth/refresh: the access token and the refresh token, or 401. *)
Definition refresh (now : Z) (fresh : Fresh) st (rawToken : string)
  : AuthState T * option (string * string) :=
  match rotateRefreshToken now (fresh_token fresh) (fresh_session fresh)
          (refreshTokens (master st)) rawToken (cfg_refreshTtlSec config) with
  | (tokens, None) => (set_tokens st tokens, None)
  | (tokens, Some (userId, refreshToken, sessionId)) =>
      let tv := default 0 (getTokenVersion (users (master st)) userId) in
      (set_tokens st tokens,
       Some (jwtSign {| cl_sub := userId; cl_sid := Some sessionId; cl_tv := Some tv |}
               (now + cfg_accessTtlMs config), refreshToken))
  end.

(** POST /api/auth/logout *)
Definition logout (now : Z) (fresh : Fresh) (req : RequestInfo) st (rawToken : string) : AuthState T :=
  let userId := userIdForRefreshToken (refreshTokens (master st)) rawToken in
  let st' := set_tokens st (revokeRefreshToken now (refreshTokens (master st)) rawToken) in
  match userId with
  | Some u => if truthy u then audit_self now (fresh_audit1 fresh) "auth.logout" u req st' else st'
  | None => st'
  end.

(** POST /api/users/:id/2fa/reset (users.routes.ts), without its audit row. *)
Definition reset_2fa (now : Z) st (userId : string) : AuthState T * bool :=
  match select_first (fun u => String.eqb (user_id u) userId) (users (master st)) with
  | None => (st, false)
  | Some _ =>
      let users1 := resetFor now (users (master st)) userId in
      let users2 := bumpTokenVersion users1 userId in
      (set_users st (clearLock now users2 userId), true)
  end.
End handlers.

(** ** Refresh tokens: theorems *)

Section token_theorems.
Context {T : Type -> Type} `{!Store T, !StoreLaws T, !Sha256}.
Implicit Types tokens : T RefreshTokenRow.

Lemma live_true now r :
  live now r = true <-> rt_revokedAt r = None /\ now < rt_expiresAt r.
Proof.
  unfold live. rewrite andb_true_iff, negb_true_iff, bool_decide_eq_false, Z.ltb_lt.
  rewrite <- eq_None_not_Some. done.
Qed.

Lemma isSessionLive_true now tokens sid :
  isSessionLive now tokens sid = true <->
  exists r, r ∈ rows tokens /\ rt_id r = sid /\ rt_revokedAt r = None /\ now < rt_expiresAt r.
Proof.
  unfold isSessionLive. destruct (select_first _ tokens) as [r|] eqn:Hs.
  - apply select_first_Some in Hs as [Hr Hp]. apply andb_true_iff in Hp as [Hid Hl].
    apply String.eqb_eq in Hid. apply live_true in Hl. split; [|done]. intros _. by exists r.
  - split; [done|]. intros (r & Hr & Hid & Hl). rewrite select_first_None in Hs.
    specialize (Hs r Hr). simpl in Hs. rewrite (proj2 (String.eqb_eq _ _) Hid) in Hs.
    rewrite (proj2 (live_true now r) Hl) in Hs. done.
Qed.

Lemma find_live_Some now tokens raw r :
  find_live now tokens raw = Some r ->
  r ∈ rows tokens /\ rt_tokenHash r = sha256 raw /\ rt_revokedAt r = None /\ now < rt_expiresAt r.
Proof.
  intros [Hr Hp]%select_first_Some. apply andb_true_iff in Hp as [Hh Hl].
  apply String.eqb_eq in Hh. apply live_true in Hl. done.
Qed.

Lemma elem_of_rotate_found now raw id tokens row ttl r :
  r ∈ rows (rotate_found now raw id tokens row ttl) <->
  (rt_id r = id /\ rt_tokenHash r = sha256 raw /\ rt_revokedAt r = None /\
   rt_expiresAt r = now + ttl * 1000 /\ r ∈ rows (rotate_found now raw id tokens row ttl)) \/
  (exists r0, r0 ∈ rows tokens /\ r = if String.eqb (rt_id r0) (rt_id row)
     then set_rt_revokedAt (Some now) (set_rt_lastUsedAt (Some now) r0) else r0).
Proof.
  unfold rotate_found, issueRefreshToken, revoke_row.
  rewrite elem_of_insert, elem_of_update. split.
  - intros [->|Hx]; [left|by right]. simpl. do 4 (split; [done|]). by left.
  - intros [(_ & _ & _ & _ & Hx)|Hx]; [done|by right].
Qed.

(** C14: rotation is single-use when requests do not overlap: once a token has been
    rotated into one of another hash and a fresh id, with a lifetime above zero, presenting it
    again is refused and changes nothing, its session is dead and the new session is alive. *)
Theorem rotate_single_use now now' raw id tokens old ttl userId tokens' raw2 id2
    (Hid : unique_key rt_id tokens) (Hhash : unique_key rt_tokenHash tokens)
    (Hfresh : sha256 raw <> sha256 old) (Hidf : forall r, r ∈ rows tokens -> rt_id r <> id)
    (Httl : 0 < ttl)
    (Hrot : rotateRefreshToken now raw id tokens old ttl = (tokens', Some (userId, raw, id))) :
  rotateRefreshToken now' raw2 id2 tokens' old ttl = (tokens', None) /\
  isSessionLive now tokens' id = true /\
  (forall row, row ∈ rows tokens -> rt_tokenHash row = sha256 old ->
     isSessionLive now' tokens' (rt_id row) = false).
Proof.
  unfold rotateRefreshToken in Hrot.
  destruct (find_live now tokens old) as [row|] eqn:Hf; [|done]. simplify_eq.
  apply find_live_Some in Hf as (Hrow & Hh & Hrev & Hexp).
  split; [|split].
  - unfold rotateRefreshToken. destruct (find_live now' _ old) as [r|] eqn:Hf; [|done]. exfalso.
    apply find_live_Some in Hf as (Hr & Hh' & Hrev' & _).
    apply elem_of_rotate_found in Hr as [(_ & Hh2 & _)|(r0 & Hr0 & ->)].
    + by rewrite Hh2 in Hh'.
    + destruct (String.eqb_spec (rt_id r0) (rt_id row)) as [He|Hne]; [done|].
      apply Hne. f_equal. apply (unique_key_inj rt_tokenHash tokens); [done..|congruence].
  - apply isSessionLive_true. eexists. split.
    { unfold rotate_found, issueRefreshToken. apply elem_of_insert. by left. }
    simpl. split; [done|]. split; [done|]. lia.
  - intros row' Hrow' Hh'.
    assert (row' = row) as -> by (apply (unique_key_inj rt_tokenHash tokens); congruence).
    apply not_true_iff_false. rewrite isSessionLive_true. intros (r & Hr & Hrid & Hrrev & _).
    apply elem_of_rotate_found in Hr as [(Hi & _)|(r0 & Hr0 & ->)].
    + apply (Hidf row Hrow). congruence.
    + destruct (String.eqb_spec (rt_id r0) (rt_id row)); done.
Qed.

(** Rotation is not atomic: when two requests that present the same live token both
    look it up before either writes, both are served and two sessions live on. *)
Theorem rotate_race now raw1 id1 raw2 id2 tokens old ttl row
    (Hf : find_live now tokens old = Some row) (Httl : 0 < ttl)
    (Hfresh : id1 <> id2 /\ rt_id row <> id1 /\ rt_id row <> id2) :
  let after1 := rotate_found now raw1 id1 tokens row ttl in
  let after2 := rotate_found now raw2 id2 after1 row ttl in
  rotateRefreshToken now raw1 id1 tokens old ttl = (after1, Some (rt_userId row, raw1, id1)) /\
  isSessionLive now after2 id1 = true /\ isSessionLive now after2 id2 = true.
Proof.
  intros after1 after2. split; [unfold rotateRefreshToken; by rewrite Hf|].
  rewrite !isSessionLive_true. destruct Hfresh as (H12 & Hr1 & Hr2).
  set (new raw id := {|
    rt_id := id; rt_userId := rt_userId row; rt_tokenHash := sha256 raw;
    rt_expiresAt := now + ttl * 1000; rt_revokedAt := None; rt_userAgent := rt_userAgent row;
    rt_ip := rt_ip row; rt_lastUsedAt := Some now; rt_createdAt := now; rt_updatedAt := now |}).
  split.
  - exists (new raw1 id1). split; [|simpl; do 2 (split; [done|]); lia].
    unfold after2, after1. apply elem_of_rotate_found. right. exists (new raw1 id1).
    simpl. split; [apply elem_of_insert; by left|].
    destruct (String.eqb_spec id1 (rt_id row)); congruence.
  - exists (new raw2 id2). split; [|simpl; do 2 (split; [done|]); lia].
    apply elem_of_insert. by left.
Qed.
End token_theorems.

(** ** Login: theorems *)

Section login_theorems.
Context {T : Type -> Type} {ST : Store T} {LT : StoreLaws T} {HS : Sha256} {HC : Scrypt}
  {HG : Gcm} {HJ : Jwt}.
Context (hmac_sha1 : list Z -> list Z -> list Z) (config : AuthConfig).
Implicit Types (st : AuthState T) (users : T UserRow) (user : UserRow).

Notation login := (login hmac_sha1 config).

Lemma set_users_same st : set_users st (Authz.users (master st)) = st.
Proof. by destruct st as [[] ?]. Qed.

(** The fields that decide whether a row may log in with a password. *)
Definition local_user user : Prop :=
  user_disabled user = false /\ user_authProvider user = "local" /\
  present (user_passwordHash user) = true.

Lemma findLocalUser_Some users name user :
  findLocalUser users name = Some user ->
  user ∈ rows users /\ user_username user = name /\ local_user user.
Proof.
  unfold findLocalUser, local_user.
  destruct (select_first _ users) as [u|] eqn:Hs; [|done].
  apply select_first_Some in Hs as [Hu Hn%String.eqb_eq].
  destruct (user_disabled u || _ || _) eqn:E; [done|]. intros [= <-].
  reflect. destruct E as [[Hd Hp] Hh]. naive_solver.
Qed.

Lemma findLocalUser_iff users name user :
  unique_key user_username users ->
  findLocalUser users name = Some user <->
  user ∈ rows users /\ user_username user = name /\ local_user user.
Proof.
  intros Hu. split; [apply findLocalUser_Some|].
  intros (Hin & Hn & Hd & Hp & Hh). unfold findLocalUser.
  rewrite (proj2 (select_first_iff user_username name _ users user Hu
    (fun x => String.eqb_eq (user_username x) name)) (conj Hin Hn)).
  by rewrite Hd, Hp, Hh.
Qed.

(** What a login must have proved before any token is issued. *)
Definition second_factor_passed (now : Z) users user (code : option string) : Prop :=
  user_totpEnabled user = true -> exists c users' result,
    code = Some c /\ truthy c = true /\
    verifyForLogin hmac_sha1 (cfg_encryptionKey config) now users user c = (users', Ok result) /\
    sf_ok result = true.

(** C4: a login issues tokens exactly when the username names an enabled local account that
    is not locked, the password verifies and, where two-factor authentication is on, the
    code does too; the session it then opens is live and the counter is cleared. *)
Theorem login_spec now fresh req st data :
  (exists a r u, snd (login now fresh req st (Some data)) = LoggedIn a r u) <->
  exists user, findLocalUser (Authz.users (master st)) (cred_username data) = Some user /\
    isLocked now user = false /\ checkPassword user (cred_password data) = Some true /\
    second_factor_passed now (Authz.users (master st)) user (cred_code data).
Proof.
  unfold Auth.login, second_factor_passed, second_factor.
  destruct (findLocalUser _ _) as [user|];
    [|split; [by intros (? & ? & ? & ?)|by intros (? & ? & _)]].
  destruct (isLocked now user) eqn:El;
    [split; [by intros (? & ? & ? & ?)|intros (u & [= <-] & ? & _); congruence]|].
  destruct (checkPassword user (cred_password data)) as [[|]|] eqn:Ep;
    [|split; [by intros (? & ? & ? & ?)|intros (u & [= <-] & _ & ? & _); congruence]..].
  destruct (user_totpEnabled user) eqn:Et.
  2: { split; [intros _; exists user; by rewrite Et|intros _; simpl; eauto]. }
  assert (Hno : forall r, (forall a b c, r <> LoggedIn a b c) ->
    ~ (exists c us res, cred_code data = Some c /\ truthy c = true /\
        verifyForLogin hmac_sha1 (cfg_encryptionKey config) now (Authz.users (master st)) user c
          = (us, Ok res) /\ sf_ok res = true) ->
    (exists a b c, r = LoggedIn a b c) <-> exists user0, Some user = Some user0 /\
      isLocked now user0 = false /\ checkPassword user0 (cred_password data) = Some true /\
      (user_totpEnabled user0 = true -> exists c us res, cred_code data = Some c /\
        truthy c = true /\ verifyForLogin hmac_sha1 (cfg_encryptionKey config) now
          (Authz.users (master st)) user0 c = (us, Ok res) /\ sf_ok res = true)).
  { intros r Hr Hn. split; [intros (a & b & c & Hx); by destruct (Hr a b c)|].
    intros (u & [= <-] & _ & _ & Hs). exfalso. apply Hn. auto. }
  destruct (cred_code data) as [c|]; [|apply Hno; [done|by intros (? & ? & ? & ? & _)]].
  destruct (truthy c) eqn:Ec; simpl negb;
    [|apply Hno; [done|intros (? & ? & ? & [= <-] & ? & _); congruence]].
  destruct (verifyForLogin _ _ _ _ user c) as [us [res|e]] eqn:Ev.
  2: { destruct e; (apply Hno; [done|intros (? & ? & ? & [= <-] & _ & ? & _); congruence]). }
  destruct (sf_ok res) eqn:Eo; simpl negb.
  - split; [intros _; exists user|by destruct (sf_usedRecovery res); simpl; eauto].
    do 3 (split; [done|]). intros _. by exists c, us, res.
  - apply Hno; [done|]. intros (? & ? & ? & [= <-] & _ & ? & ?). congruence.
Qed.

(** Only the use of a recovery code changes the users table. *)
Lemma verifyForLogin_users now users user c :
  match verifyForLogin hmac_sha1 (cfg_encryptionKey config) now users user c with
  | (users', Ok r) => sf_usedRecovery r = false -> users' = users
  | (users', Err _) => users' = users
  end.
Proof.
  unfold verifyForLogin. destruct (if user_totpEnabled user then _ else None) as [sealed|]; [|done].
  destruct (negb (truthy sealed)); [done|].
  destruct (masterKey _) as [key|e]; [|done].
  destruct (check_code _ _ _ _ _) as [[|]|e]; [done| |done].
  by destruct (includes _ _).
Qed.

(** A wrong second factor is not a failed login: the reply is 401 and no state changes,
    so an attacker who has the password may try codes without ever locking the account. *)
Theorem wrong_code_uncounted now fresh req st data user c users'
    (Hf : findLocalUser (Authz.users (master st)) (cred_username data) = Some user)
    (Hl : isLocked now user = false)
    (Hp : checkPassword user (cred_password data) = Some true)
    (Ht : user_totpEnabled user = true) (Hc : cred_code data = Some c) (Hn : truthy c = true)
    (Hv : verifyForLogin hmac_sha1 (cfg_encryptionKey config) now (Authz.users (master st)) user c
          = (users', Ok {| sf_ok := false; sf_usedRecovery := false |})) :
  login now fresh req st (Some data) = (st, LoginError 401 "invalid_2fa" None).
Proof.
  assert (users' = Authz.users (master st)) as ->.
  { pose proof (verifyForLogin_users now (Authz.users (master st)) user c) as Hu.
    rewrite Hv in Hu. by apply Hu. }
  unfold Auth.login, second_factor. rewrite Hf, Hl, Hp, Ht, Hc, Hn. simpl. rewrite Hv. simpl.
  by rewrite set_users_same.
Qed.

(** *** Lockout *)

(** The row of [u] after [k] counted failures. *)
Definition failed_row (k : Z) (until : option Z) (u v : UserRow) : Prop :=
  user_id v = user_id u /\ user_username v = user_username u /\
  user_passwordHash v = user_passwordHash u /\ local_user v /\
  user_failedLoginCount v = k /\ user_lockedUntil v = until.

(** Rows are identified by id and by username. *)
Definition users_keyed st : Prop :=
  unique_key user_id (Authz.users (master st)) /\ unique_key user_username (Authz.users (master st)).

Lemma find_after_update users name u f :
  unique_key user_username users -> findLocalUser users name = Some u ->
  (forall x, user_username (f x) = user_username x) -> local_user (f u) ->
  findLocalUser (update_user (user_id u) f users) name = Some (f u).
Proof.
  intros Hu Hf Hn Hl. apply findLocalUser_iff; [by apply unique_key_update|].
  apply findLocalUser_Some in Hf as (Hin & Hname & _).
  split; [|by rewrite Hn]. apply elem_of_update. exists u. by rewrite String.eqb_refl.
Qed.

(** The state after one wrong password. *)
Definition after_failure (now : Z) st u : AuthState T :=
  set_users st (fst (recordFailure now (Authz.users (master st)) u
    (getLockoutPolicy (settings (master st))))).

Lemma login_failure now fresh req st data u :
  findLocalUser (Authz.users (master st)) (cred_username data) = Some u ->
  isLocked now u = false -> checkPassword u (cred_password data) = Some false ->
  login now fresh req st (Some data) = (after_failure now st u, LoginError 401 "invalid_credentials" None).
Proof. intros Hf Hl Hp. unfold Auth.login. by rewrite Hf, Hl, Hp. Qed.

Lemma after_failure_spec now st u v name k :
  let policy := getLockoutPolicy (settings (master st)) in
  users_keyed st -> findLocalUser (Authz.users (master st)) name = Some v ->
  failed_row k None u v ->
  let st' := after_failure now st v in
  users_keyed st' /\ settings (master st') = settings (master st) /\
  exists v', findLocalUser (Authz.users (master st')) name = Some v' /\
    if Qle_bool (maxAttempts policy) (inject_Z (k + 1))
    then failed_row 0 (Some (lock_end now policy)) u v'
    else failed_row (k + 1) None u v'.
Proof.
  intros policy [Hid Hname] Hf (H1 & H2 & H3 & H4 & H5 & H6) st'.
  unfold st', after_failure, recordFailure. rewrite H5. fold policy.
  destruct (Qle_bool (maxAttempts policy) (inject_Z (k + 1))); simpl.
  - split; [split; by apply unique_key_update|]. split; [done|].
    eexists. split; [by apply find_after_update|]. done.
  - split; [split; by apply unique_key_update|]. split; [done|].
    eexists. split; [by apply find_after_update|]. done.
Qed.

(** Wrong passwords for one username, at the times [ts]. *)
Definition failing_logins (fresh : Fresh) (req : RequestInfo) (data : Credentials)
    (ts : list Z) st : AuthState T :=
  fold_left (fun st now => fst (login now fresh req st (Some data))) ts st.

Lemma failing_logins_counted fresh req data u ts st v k :
  let policy := getLockoutPolicy (settings (master st)) in
  users_keyed st -> findLocalUser (Authz.users (master st)) (cred_username data) = Some v ->
  failed_row k None u v -> checkPassword u (cred_password data) = Some false ->
  (inject_Z (k + Z.of_nat (List.length ts)) < maxAttempts policy)%Q ->
  let st' := failing_logins fresh req data ts st in
  users_keyed st' /\ settings (master st') = settings (master st) /\
  exists v', findLocalUser (Authz.users (master st')) (cred_username data) = Some v' /\
    failed_row (k + Z.of_nat (List.length ts)) None u v'.
Proof.
  intros policy. revert st v k policy. induction ts as [|now ts IH]; intros st v k policy Hk Hf Hr Hp Hlt.
  - simpl. rewrite Z.add_0_r. eauto.
  - simpl List.length in *. rewrite Nat2Z.inj_succ in *.
    change (failing_logins fresh req data (now :: ts) st)
      with (failing_logins fresh req data ts (fst (login now fresh req st (Some data)))).
    assert (Hfail : login now fresh req st (Some data) =
      (after_failure now st v, LoginError 401 "invalid_credentials" None)).
    { apply login_failure; [done| |].
      - unfold isLocked. by destruct Hr as (_ & _ & _ & _ & _ & ->).
      - unfold checkPassword. destruct Hr as (_ & _ & -> & _). exact Hp. }
    destruct (after_failure_spec now st u v (cred_username data) k Hk Hf Hr)
      as (Hk' & Hset & v' & Hf' & Hr'). fold policy in Hr'.
    assert (Qle_bool (maxAttempts policy) (inject_Z (k + 1)) = false) as Hq.
    { apply not_true_iff_false. rewrite Qle_bool_iff. intros Hle.
      assert (inject_Z (k + 1) <= inject_Z (k + Z.succ (Z.of_nat (List.length ts))))%Q
        by (rewrite <- Zle_Qle; lia). lra. }
    rewrite Hq in Hr'. rewrite Hfail. simpl fst.
    destruct (IH (after_failure now st v) v' (k + 1)) as (Hk2 & Hset2 & v2 & Hf2 & Hr2);
      [done..| |].
    + rewrite Hset. fold policy.
      replace (k + 1 + Z.of_nat (List.length ts)) with (k + Z.succ (Z.of_nat (List.length ts))) by lia.
      done.
    + split; [done|]. split; [congruence|].
      exists v2. split; [done|].
      by replace (k + Z.succ (Z.of_nat (List.length ts))) with (k + 1 + Z.of_nat (List.length ts)) by lia.
Qed.

Lemma failing_logins_snoc fresh req data ts t st :
  failing_logins fresh req data (ts ++ [t]) st =
  fst (login t fresh req (failing_logins fresh req data ts st) (Some data)).
Proof. unfold failing_logins. by rewrite fold_left_app. Qed.

(** C13: the lockout counts exactly the consecutive wrong passwords: fewer than
    [maxAttempts] leave the account open; the one that reaches the limit closes it, and
    until the end of the window every login with that username, even with the right
    password, is answered 423 and changes nothing. *)
Theorem lockout_after_max fresh req data u ts last st
    (Hk : users_keyed st)
    (Hf : findLocalUser (Authz.users (master st)) (cred_username data) = Some u)
    (Hc : user_failedLoginCount u = 0 /\ user_lockedUntil u = None)
    (Hp : checkPassword u (cred_password data) = Some false)
    (policy := getLockoutPolicy (settings (master st)))
    (Hlt : (inject_Z (Z.of_nat (List.length ts)) < maxAttempts policy)%Q)
    (Hge : (maxAttempts policy <= inject_Z (Z.of_nat (List.length ts) + 1))%Q) :
  let st1 := failing_logins fresh req data ts st in
  let st2 := failing_logins fresh req data (ts ++ [last]) st in
  (exists v, findLocalUser (Authz.users (master st1)) (cred_username data) = Some v /\
     forall now, isLocked now v = false) /\
  (forall now fresh' req' data', cred_username data' = cred_username data ->
     now < lock_end last policy ->
     login now fresh' req' st2 (Some data') =
       (st2, LoginError 423 "account_locked" (Some (lock_end last policy)))).
Proof.
  intros st1 st2. destruct Hc as [Hc Hu].
  assert (Hr : failed_row 0 None u u).
  { destruct (findLocalUser_Some _ _ _ Hf) as (_ & _ & Hl). by repeat (split; [done|]). }
  destruct (failing_logins_counted fresh req data u ts st u 0 Hk Hf Hr Hp) as (Hk1 & Hset & v & Hf1 & Hr1);
    [done|]. fold st1 in Hk1, Hset, Hf1. rewrite Z.add_0_l in Hr1. split.
  - exists v. split; [done|]. intros now. unfold isLocked. by destruct Hr1 as (_ & _ & _ & _ & _ & ->).
  - intros now fresh' req' data' Hn Hnow.
    assert (Hst2 : st2 = after_failure last st1 v).
    { unfold st2. rewrite failing_logins_snoc. fold st1. rewrite (login_failure last fresh req st1 data v Hf1); [done| |].
      - unfold isLocked. by destruct Hr1 as (_ & _ & _ & _ & _ & ->).
      - unfold checkPassword. destruct Hr1 as (_ & _ & -> & _). exact Hp. }
    destruct (after_failure_spec last st1 u v (cred_username data) _ Hk1 Hf1 Hr1)
      as (_ & _ & v' & Hf2 & Hr2).
    rewrite Hset in Hr2. fold policy in Hr2. rewrite (proj2 (Qle_bool_iff _ _) Hge) in Hr2.
    destruct Hr2 as (_ & _ & _ & _ & _ & Hlock).
    unfold Auth.login. rewrite Hn, Hst2, Hf2. unfold isLocked. rewrite Hlock.
    by rewrite (proj2 (Z.ltb_lt _ _) Hnow).
Qed.

(** Beginning an enrolment needs no code and clears the enabled flag: an account with
    two-factor authentication on can log in afterwards with the password alone. *)
Theorem setup_drops_second_factor now iv random st user secret users'
    (Hk : users_keyed st)
    (Hf : findLocalUser (Authz.users (master st)) (user_username user) = Some user)
    (Hs : beginSetup (cfg_encryptionKey config) now iv random (Authz.users (master st)) (user_id user)
          = (users', Ok secret)) :
  forall now' fresh req pw, isLocked now' user = false -> checkPassword user pw = Some true ->
  exists a r u, snd (login now' fresh req (set_users st users')
    (Some {| cred_username := user_username user; cred_password := pw; cred_code := None |}))
    = LoggedIn a r u.
Proof.
  intros now' fresh req pw Hl Hp. unfold beginSetup in Hs.
  destruct (masterKey _) as [key|]; [|done].
  destruct (encryptSecret iv _ key 1) as [sealed|]; [|done]. simplify_eq.
  destruct (findLocalUser_Some _ _ _ Hf) as (_ & _ & Hloc).
  unfold Auth.login. simpl cred_username. simpl Authz.users.
  erewrite find_after_update; [|apply Hk|exact Hf|done|done].
  unfold isLocked in *. simpl user_lockedUntil. rewrite Hl.
  unfold checkPassword in *. simpl user_passwordHash. simpl cred_password. rewrite Hp.
  unfold second_factor, complete_login. simpl. eauto.
Qed.

Lemma update_user_in users user f :
  unique_key user_id users -> user ∈ rows users -> (forall x, user_id (f x) = user_id x) ->
  unique_key user_id (update_user (user_id user) f users) /\
  f user ∈ rows (update_user (user_id user) f users).
Proof.
  intros Hk Hu Hf. split; [by apply unique_key_update|].
  apply elem_of_update. exists user. by rewrite String.eqb_refl.
Qed.

Lemma getTokenVersion_in users user :
  unique_key user_id users -> user ∈ rows users ->
  getTokenVersion users (user_id user) = Some (user_tokenVersion user).
Proof.
  intros Hk Hu. unfold getTokenVersion.
  by rewrite (select_first_key user_id _ users user) by (auto using String.eqb_refl;
    by intros r' ?%String.eqb_eq).
Qed.

(** An administrator's two-factor reset revokes the access tokens but no session: every
    refresh token that was live still buys a fresh access token with the new version. *)
Theorem reset_2fa_keeps_sessions now st user raw row fresh
    (Hu : user ∈ rows (Authz.users (master st))) (Hk : unique_key user_id (Authz.users (master st)))
    (Hf : find_live now (refreshTokens (master st)) raw = Some row)
    (Hown : rt_userId row = user_id user) :
  let st' := fst (reset_2fa now st (user_id user)) in
  snd (reset_2fa now st (user_id user)) = true /\
  getTokenVersion (Authz.users (master st')) (user_id user) = Some (user_tokenVersion user + 1) /\
  snd (refresh config now fresh st' raw) =
    Some (jwtSign {| cl_sub := user_id user; cl_sid := Some (fresh_session fresh);
                     cl_tv := Some (user_tokenVersion user + 1) |} (now + cfg_accessTtlMs config),
          fresh_token fresh).
Proof.
  intros st'. set (us := Authz.users (master st)) in *.
  destruct (update_user_in us user (fun u => set_user_totpEnabled false (set_user_totpSecret None
    (set_user_totpRecovery None (set_user_updatedAt now u)))) Hk Hu ltac:(done)) as [Hk1 Hu1].
  match type of Hu1 with ?u1 ∈ rows ?us1 =>
    destruct (update_user_in us1 u1 (fun u => set_user_tokenVersion (user_tokenVersion u + 1) u)
      Hk1 Hu1 ltac:(done)) as [Hk2 Hu2] end.
  match type of Hu2 with ?u2 ∈ rows ?us2 =>
    destruct (update_user_in us2 u2 (fun u => set_user_failedLoginCount 0
      (set_user_lockedUntil None (set_user_updatedAt now u))) Hk2 Hu2 ltac:(done)) as [Hk3 Hu3] end.
  apply getTokenVersion_in in Hu3; [|done].
  assert (Hr : reset_2fa now st (user_id user) =
    (set_users st (clearLock now (bumpTokenVersion (resetFor now us (user_id user))
       (user_id user)) (user_id user)), true)).
  { unfold reset_2fa. fold us. by rewrite (select_first_key user_id _ us user) by
      (auto using String.eqb_refl; by intros r' ?%String.eqb_eq). }
  subst st'. rewrite Hr. set (us' := clearLock now _ _) in *.
  assert (Hv : getTokenVersion us' (user_id user) = Some (user_tokenVersion user + 1)) by exact Hu3.
  split; [done|]. split; [exact Hv|].
  unfold refresh, rotateRefreshToken. simpl. rewrite Hf. simpl. by rewrite Hown, Hv.
Qed.
End login_theorems.

(** ** The theorems at concrete inputs *)

Section witnesses.
#[local] Instance id_sha256 : Sha256 := fun s => s.
#[local] Existing Instance toy_gcm.
#[local] Existing Instance toy_scrypt.
#[local] Instance toy_jwt : Jwt := {|
  jwtSign c e := cl_sub c +:+ "/" +:+ default "" (cl_sid c);
  jwtVerify s now := None
|}.

Definition w_token : RefreshTokenRow := {|
  rt_id := "s1"; rt_userId := "u1"; rt_tokenHash := "old"; rt_expiresAt := 1000000;
  rt_revokedAt := None; rt_userAgent := None; rt_ip := Some "10.0.0.1"; rt_lastUsedAt := None;
  rt_createdAt := 0; rt_updatedAt := 0 |}.

Definition w_config : AuthConfig := {|
  cfg_encryptionKey := Some (base64_encode key_a); cfg_refreshTtlSec := 86400;
  cfg_accessTtlMs := 900000 |}.

Definition w_user : UserRow := {|
  user_id := "u1"; user_username := "ada"; user_displayName := "Ada"; user_email := None;
  user_passwordHash := hashPassword (repeat 5 16) "hunter22" DEFAULT_SCRYPT_PARAMS;
  user_authProvider := "local"; user_disabled := false; user_isOwner := false;
  user_isSystem := false; user_totpEnabled := true;
  user_totpSecret := match encryptSecret iv_a "MZXW6YTB" key_a 1 with Ok s => Some s | Err _ => None end;
  user_totpRecovery := None; user_tokenVersion := 3; user_failedLoginCount := 0;
  user_lockedUntil := None; user_lastLoginAt := None; user_createdAt := 0; user_updatedAt := 0 |}.

Definition w_state : AuthState list := {|
  master := {| users := [w_user]; groups := []; roles := []; permissions := [];
    rolePermissions := []; groupRoles := []; userGroups := []; userAttributes := [];
    refreshTokens := [w_token]; settings := [] |};
  auditLog := [] |}.

Definition w_fresh : Fresh := {|
  fresh_token := "t2"; fresh_session := "s2"; fresh_audit1 := "a1"; fresh_audit2 := "a2" |}.
Definition w_req : RequestInfo := {| req_ip := "10.0.0.1"; req_userAgent := None |}.
Definition w_body (pw : string) (code : option string) : Credentials := {|
  cred_username := "ada"; cred_password := pw; cred_code := code |}.

Lemma unique_singleton {R K} (key : R -> K) (r : R) : unique_key (T := list) key [r].
Proof. apply NoDup_singleton. Qed.

Lemma rotate_single_use_witness :
  let t1 := fst (rotateRefreshToken 10 "new" "s2" [w_token] "old" 60) in
  rotateRefreshToken 20 "x" "s3" t1 "old" 60 = (t1, None) /\ isSessionLive 10 t1 "s2" = true /\
  isSessionLive 20 t1 "s1" = false.
Proof.
  destruct (rotate_single_use 10 20 "new" "s2" [w_token] "old" 60 "u1"
    (fst (rotateRefreshToken 10 "new" "s2" [w_token] "old" 60)) "x" "s3") as (H1 & H2 & H3).
  - apply unique_singleton.
  - apply unique_singleton.
  - done.
  - intros r ->%list_elem_of_singleton. done.
  - lia.
  - vm_compute. reflexivity.
  - split; [exact H1|]. split; [exact H2|]. apply (H3 w_token); [|reflexivity].
    by apply list_elem_of_singleton.
Defined.

Lemma rotate_race_witness :
  let t1 := rotate_found 10 "n1" "s2" [w_token] w_token 60 in
  let t2 := rotate_found 10 "n2" "s3" t1 w_token 60 in
  isSessionLive 10 t2 "s2" = true /\ isSessionLive 10 t2 "s3" = true.
Proof.
  apply (rotate_race 10 "n1" "s2" "n2" "s3" [w_token] "old" 60 w_token);
    [vm_compute; reflexivity|lia|done].
Defined.

Lemma wrong_code_uncounted_witness :
  login toy_hmac w_config 1700000000000 w_fresh w_req w_state
    (Some (w_body "hunter22" (Some "000000"))) = (w_state, LoginError 401 "invalid_2fa" None).
Proof.
  apply (wrong_code_uncounted toy_hmac w_config 1700000000000 w_fresh w_req w_state
    (w_body "hunter22" (Some "000000")) w_user "000000" [w_user]);
    vm_compute; reflexivity.
Defined.

Lemma lockout_after_max_witness :
  snd (login toy_hmac w_config 1000 w_fresh w_req
    (failing_logins toy_hmac w_config w_fresh w_req (w_body "guess" None) [1; 2; 3; 4; 5] w_state)
    (Some (w_body "hunter22" None))) = LoginError 423 "account_locked" (Some 900005).
Proof.
  destruct (lockout_after_max toy_hmac w_config w_fresh w_req (w_body "guess" None) w_user
    [1; 2; 3; 4] 5 w_state) as [_ H].
  - split; apply unique_singleton.
  - vm_compute. reflexivity.
  - done.
  - vm_compute. reflexivity.
  - vm_compute. reflexivity.
  - vm_compute. discriminate.
  - specialize (H 1000 w_fresh w_req (w_body "hunter22" None) eq_refl ltac:(vm_compute; reflexivity)).
    change ([1; 2; 3; 4] ++ [5]) with [1; 2; 3; 4; 5] in H. by rewrite H.
Defined.

Lemma setup_drops_second_factor_witness :
  exists a r u, snd (login toy_hmac w_config 2000 w_fresh w_req
    (set_users w_state (fst (beginSetup (cfg_encryptionKey w_config) 1000 iv_a (repeat 3 20) [w_user] "u1")))
    (Some (w_body "hunter22" None))) = LoggedIn a r u.
Proof.
  apply (setup_drops_second_factor toy_hmac w_config 1000 iv_a (repeat 3 20) w_state w_user
    (generateTotpSecret (repeat 3 20))).
  - split; apply unique_singleton.
  - vm_compute. reflexivity.
  - vm_compute. reflexivity.
  - vm_compute. reflexivity.
  - vm_compute. reflexivity.
Defined.

Lemma reset_2fa_keeps_sessions_witness :
  snd (refresh w_config 1000 w_fresh (fst (reset_2fa 1000 w_state "u1")) "old")
  = Some ("u1/s2", "t2").
Proof.
  destruct (reset_2fa_keeps_sessions w_config 1000 w_state w_user "old" w_token w_fresh)
    as (_ & _ & H).
  - by apply list_elem_of_singleton.
  - apply unique_singleton.
  - vm_compute. reflexivity.
  - reflexivity.
  - exact H.
Defined.
End witnesses.
