(* ===== verification/Directory.v ===== *)
(** * Users, groups and roles

    Models the services that administer access: apps/backend/src/services/users.ts,
    groups.ts, roles.ts and permissions.ts, and the seed packages/db/src/seed/rbac.ts. A
    failing statement is an [Err] next to the state the earlier statements left. *)
From S2P Require Import Prelude Text Store Schema RowUpdates Settings Crypto Catalogue Authz Auth.

Inductive ServiceError : Type :=
| ProtectedEntity
| ForeignKeyViolation
| UniqueViolation
| HashFailure.

(** An update of an optional field: [None] leaves it. *)
Definition opt_set {V R} (set : V -> R -> R) (v : option V) (r : R) : R :=
  match v with Some x => set x r | None => r end.

Section directory.
Context {T : Type -> Type} {ST : Store T} {HC : Scrypt}.
Implicit Types db : AccessDb T.

(** The state after a service call and what it returned or threw. *)
Definition outcome (A : Type) : Type := (AccessDb T * result ServiceError A)%type.

Definition exists_row {R} (p : R -> bool) (t : T R) : bool := existsb p (rows t).

(** ** Membership edges *)

Definition setUserGroups db (userId : string) (groupIds : list string) : outcome unit :=
  let db1 := with_userGroups
    (delete_where (fun ug => String.eqb (ug_userId ug) userId) (userGroups db)) db in
  if Nat.eqb (List.length groupIds) 0 then (db1, Ok tt)
  else if exists_row (fun u => String.eqb (user_id u) userId) (users db)
       && forallb (fun g => exists_row (fun r => String.eqb (group_id r) g) (groups db)) groupIds
  then (with_userGroups (insert_all_ignore userGroups_conflict
          (map (fun g => {| ug_userId := userId; ug_groupId := g |}) groupIds) (userGroups db1)) db1,
        Ok tt)
  else (db1, Err ForeignKeyViolation).

(** Blank keys are dropped and the last value of a key wins. *)
Definition clean_attributes (attributes : list Attribute) : list (string * string) :=
  fold_left (fun m a => let key := trim (attribute_key a) in
    if truthy key then map_set key (trim (attribute_value a)) m else m) attributes [].

(** [newId i] is the id of the [i]-th inserted row. *)
Definition setUserAttributes (now : Z) (newId : nat -> string) db (userId : string)
    (attributes : list Attribute) : outcome unit :=
  let cleaned := clean_attributes attributes in
  let db1 := with_userAttributes
    (delete_where (fun a => String.eqb (attr_userId a) userId) (userAttributes db)) db in
  if Nat.eqb (List.length cleaned) 0 then (db1, Ok tt)
  else if exists_row (fun u => String.eqb (user_id u) userId) (users db)
  then (with_userAttributes (insert_all
          (imap (fun i kv => {| attr_id := newId i; attr_userId := userId; attr_key := kv.1;
                                attr_value := kv.2; attr_createdAt := now; attr_updatedAt := now |})
             cleaned) (userAttributes db1)) db1, Ok tt)
  else (db1, Err ForeignKeyViolation).

Definition setGroupRoles db (groupId : string) (roleIds : list string) : outcome unit :=
  let db1 := with_groupRoles
    (delete_where (fun gr => String.eqb (gr_groupId gr) groupId) (groupRoles db)) db in
  if Nat.eqb (List.length roleIds) 0 then (db1, Ok tt)
  else if exists_row (fun g => String.eqb (group_id g) groupId) (groups db)
       && forallb (fun r => exists_row (fun x => String.eqb (role_id x) r) (roles db)) roleIds
  then (with_groupRoles (insert_all_ignore groupRoles_conflict
          (map (fun r => {| gr_groupId := groupId; gr_roleId := r |}) roleIds) (groupRoles db1)) db1,
        Ok tt)
  else (db1, Err ForeignKeyViolation).

(** Unknown keys resolve to no id. *)
Definition setRolePermissions db (roleId : string) (permissionKeys : list string) : outcome unit :=
  let resolved := map perm_id (select (fun p => includes permissionKeys (perm_key p)) (permissions db)) in
  let db1 := with_rolePermissions
    (delete_where (fun rp => String.eqb (rp_roleId rp) roleId) (rolePermissions db)) db in
  if Nat.eqb (List.length resolved) 0 then (db1, Ok tt)
  else if exists_row (fun r => String.eqb (role_id r) roleId) (roles db)
  then (with_rolePermissions (insert_all_ignore rolePermissions_conflict
          (map (fun p => {| rp_roleId := roleId; rp_permissionId := p |}) resolved)
          (rolePermissions db1)) db1, Ok tt)
  else (db1, Err ForeignKeyViolation).

(** ** Users *)

Definition getUser db (id : string) : option UserRow :=
  select_first (fun u => String.eqb (user_id u) id) (users db).

Record ListedUser : Type := {
  lu_user : PublicUser; lu_locked : bool; lu_groupIds : list string; lu_attributes : list Attribute
}.

(** Append [v] to the bucket of [k]. *)
Definition push {V} (k : string) (v : V) (m : list (string * list V)) : list (string * list V) :=
  map_set k (default [] (map_get k m) ++ [v]) m.

Definition listUsers (now : Z) db : list ListedUser :=
  let byUser := fold_left (fun m ug => push (ug_userId ug) (ug_groupId ug) m) (rows (userGroups db)) [] in
  let attrsByUser := fold_left (fun m a => push (attr_userId a)
    {| attribute_key := attr_key a; attribute_value := attr_value a |} m)
    (rows (userAttributes db)) [] in
  map (fun row => {|
    lu_user := toPublicUser row; lu_locked := isLocked now row;
    lu_groupIds := default [] (map_get (user_id row) byUser);
    lu_attributes := default [] (map_get (user_id row) attrsByUser) |}) (rows (users db)).

Record CreateUserInput : Type := {
  cu_username : string; cu_displayName : option string; cu_email : option string;
  cu_password : string; cu_groupIds : option (list string);
  cu_attributes : option (list Attribute)
}.

(** [if (xs?.length) await f(xs)] *)
Definition unless_empty {X} (xs : option (list X)) (f : list X -> outcome unit) db : outcome unit :=
  if Nat.eqb (List.length (default [] xs)) 0 then (db, Ok tt) else f (default [] xs).

(** [id] and [newId] are fresh row ids, [salt] random bytes. *)
Definition createUser (now : Z) (id : string) (newId : nat -> string) (salt : list Z) db
    (input : CreateUserInput) : outcome PublicUser :=
  match hashPassword salt (cu_password input) DEFAULT_SCRYPT_PARAMS with
  | None => (db, Err HashFailure)
  | Some h =>
      let row := {|
        user_id := id; user_username := cu_username input;
        user_displayName := default (cu_username input) (cu_displayName input);
        user_email := cu_email input; user_passwordHash := Some h; user_authProvider := "local";
        user_disabled := false; user_isOwner := false; user_isSystem := false;
        user_totpEnabled := false; user_totpSecret := None; user_totpRecovery := None;
        user_tokenVersion := 0; user_failedLoginCount := 0; user_lockedUntil := None;
        user_lastLoginAt := None; user_createdAt := now; user_updatedAt := now |} in
      match insert_unique users_conflict row (users db) with
      | None => (db, Err UniqueViolation)
      | Some users' =>
          let db1 := with_users users' db in
          match unless_empty (cu_groupIds input) (setUserGroups db1 id) db1 with
          | (db2, Err e) => (db2, Err e)
          | (db2, Ok _) =>
              match unless_empty (cu_attributes input) (setUserAttributes now newId db2 id) db2 with
              | (db3, Err e) => (db3, Err e)
              | (db3, Ok _) => (db3, Ok (toPublicUser row))
              end
          end
      end
  end.

Record UpdateUserInput : Type := {
  uu_displayName : option string; uu_email : option (option string);
  uu_disabled : option bool; uu_password : option string
}.

Definition updateUser (now : Z) (salt : list Z) db (id : string) (patch : UpdateUserInput)
  : outcome (option PublicUser) :=
  match getUser db id with
  | None => (db, Ok None)
  | Some existing =>
      if isProtected (user_isSystem existing) (user_isOwner existing) then (db, Err ProtectedEntity)
      else
        let newHash : option (option string) :=
          if present (uu_password patch)
          then option_map Some
                 (hashPassword salt (default "" (uu_password patch)) DEFAULT_SCRYPT_PARAMS)
          else Some None in
        match newHash with
        | None => (db, Err HashFailure)
        | Some h =>
            let update (u : UserRow) : UserRow :=
              opt_set (fun h => set_user_passwordHash (Some h)) h
                (opt_set set_user_disabled (uu_disabled patch)
                  (opt_set set_user_email (uu_email patch)
                    (opt_set set_user_displayName (uu_displayName patch)
                      (set_user_updatedAt now u)))) in
            (with_users (update_where (fun u => String.eqb (user_id u) id) update (users db)) db,
             Ok (Some (toPublicUser (update existing))))
        end
  end.

(** Deleting a user cascades to its memberships, attributes and refresh tokens. *)
Definition delete_user_cascade db (id : string) : AccessDb T :=
  with_users (delete_where (fun u => String.eqb (user_id u) id) (users db))
  (with_userGroups (delete_where (fun ug => String.eqb (ug_userId ug) id) (userGroups db))
  (with_userAttributes (delete_where (fun a => String.eqb (attr_userId a) id) (userAttributes db))
  (with_refreshTokens (delete_where (fun t => String.eqb (rt_userId t) id) (refreshTokens db)) db))).

Definition deleteUser db (id : string) : outcome bool :=
  match getUser db id with
  | None => (db, Ok false)
  | Some existing =>
      if isProtected (user_isSystem existing) (user_isOwner existing) then (db, Err ProtectedEntity)
      else (delete_user_cascade db id, Ok true)
  end.

(** ** Roles *)

Definition getRole db (id : string) : option RoleRow :=
  select_first (fun r => String.eqb (role_id r) id) (roles db).

(** The role rows with the keys they grant. *)
Definition listRoles db : list (RoleRow * list string) :=
  let edges := rows (rolePermissions db) in
  let permById := js_map perm_id perm_key
    (select (fun p => includes (map rp_permissionId edges) (perm_id p)) (permissions db)) in
  map (fun role => (role,
    omap (fun rp => map_get (rp_permissionId rp) permById)
      (List.filter (fun rp => String.eqb (rp_roleId rp) (role_id role)) edges))) (rows (roles db)).

(** Sorted, for the audit diff. *)
Definition getRolePermissionKeys db (roleId : string) : list string :=
  js_sort (fun a b => String.ltb b a) (rp ← select (fun rp => String.eqb (rp_roleId rp) roleId) (rolePermissions db);
    map perm_key (select (fun p => String.eqb (perm_id p) (rp_permissionId rp)) (permissions db))).

Definition createRole (now : Z) (id name : string) (description : option string)
    (permissionKeys : option (list string)) db : outcome RoleRow :=
  let row := {| role_id := id; role_name := name; role_description := default "" description;
                role_isSystem := false; role_createdAt := now; role_updatedAt := now |} in
  match insert_unique roles_conflict row (roles db) with
  | None => (db, Err UniqueViolation)
  | Some roles' =>
      let db1 := with_roles roles' db in
      match unless_empty permissionKeys (setRolePermissions db1 id) db1 with
      | (db2, Ok _) => (db2, Ok row) | (db2, Err e) => (db2, Err e) end
  end.

(** Whether a new name would collide with another row. *)
Definition taken {R} (id name : R -> string) (self : string) (new : option string) (t : T R) : bool :=
  match new with
  | Some n => exists_row (fun r => String.eqb (name r) n && negb (String.eqb (id r) self)) t
  | None => false
  end.

Definition updateRole (now : Z) db (id : string) (name description : option string)
  : outcome (option RoleRow) :=
  match getRole db id with
  | None => (db, Ok None)
  | Some existing =>
      if isProtected (role_isSystem existing) false then (db, Err ProtectedEntity)
      else if taken role_id role_name id name (roles db) then (db, Err UniqueViolation)
      else
        let update r := opt_set set_role_description description
          (opt_set set_role_name name (set_role_updatedAt now r)) in
        (with_roles (update_where (fun r => String.eqb (role_id r) id) update (roles db)) db,
         Ok (Some (update existing)))
  end.

(** Deleting a role cascades to its grants and its groups' edges. *)
Definition deleteRole db (id : string) : outcome bool :=
  match getRole db id with
  | None => (db, Ok false)
  | Some existing =>
      if isProtected (role_isSystem existing) false then (db, Err ProtectedEntity)
      else (with_roles (delete_where (fun r => String.eqb (role_id r) id) (roles db))
           (with_rolePermissions (delete_where (fun rp => String.eqb (rp_roleId rp) id) (rolePermissions db))
           (with_groupRoles (delete_where (fun gr => String.eqb (gr_roleId gr) id) (groupRoles db)) db)),
            Ok true)
  end.

(** ** Groups *)

Definition getGroup db (id : string) : option GroupRow :=
  select_first (fun g => String.eqb (group_id g) id) (groups db).

Definition listGroups db : list (GroupRow * list string) :=
  map (fun g => (g, map gr_roleId
    (List.filter (fun gr => String.eqb (gr_groupId gr) (group_id g)) (rows (groupRoles db)))))
    (rows (groups db)).

Definition createGroup (now : Z) (id name : string) (description : option string)
    (roleIds : option (list string)) db : outcome GroupRow :=
  let row := {| group_id := id; group_name := name; group_description := default "" description;
                group_isSystem := false; group_createdAt := now; group_updatedAt := now |} in
  match insert_unique groups_conflict row (groups db) with
  | None => (db, Err UniqueViolation)
  | Some groups' =>
      let db1 := with_groups groups' db in
      match unless_empty roleIds (setGroupRoles db1 id) db1 with
      | (db2, Ok _) => (db2, Ok row) | (db2, Err e) => (db2, Err e) end
  end.

Definition updateGroup (now : Z) db (id : string) (name description : option string)
  : outcome (option GroupRow) :=
  match getGroup db id with
  | None => (db, Ok None)
  | Some existing =>
      if isProtected (group_isSystem existing) false then (db, Err ProtectedEntity)
      else if taken group_id group_name id name (groups db) then (db, Err UniqueViolation)
      else
        let update g := opt_set set_group_description description
          (opt_set set_group_name name (set_group_updatedAt now g)) in
        (with_groups (update_where (fun g => String.eqb (group_id g) id) update (groups db)) db,
         Ok (Some (update existing)))
  end.

(** Deleting a group cascades to its memberships and roles' edges. *)
Definition deleteGroup db (id : string) : outcome bool :=
  match getGroup db id with
  | None => (db, Ok false)
  | Some existing =>
      if isProtected (group_isSystem existing) false then (db, Err ProtectedEntity)
      else (with_groups (delete_where (fun g => String.eqb (group_id g) id) (groups db))
           (with_userGroups (delete_where (fun ug => String.eqb (ug_groupId ug) id) (userGroups db))
           (with_groupRoles (delete_where (fun gr => String.eqb (gr_groupId gr) id) (groupRoles db)) db)),
            Ok true)
  end.

(** ** The seed *)

Definition permission_key_conflict (a b : PermissionRow) : bool := String.eqb (perm_key a) (perm_key b).
Definition role_name_conflict (a b : RoleRow) : bool := String.eqb (role_name a) (role_name b).
Definition group_name_conflict (a b : GroupRow) : bool := String.eqb (group_name a) (group_name b).

Section seed.
(** The id the database draws for the row of a permission, role or group name. *)
Context (now : Z) (fresh : string -> string).

Definition seed_permission (key : string) : PermissionRow := {|
  perm_id := fresh key; perm_key := key;
  perm_description := default "" (map_get key PERMISSION_DESCRIPTIONS);
  perm_createdAt := now; perm_updatedAt := now |}.

(** Upsert the catalogue, then prune what is not in it; the foreign key cascades. *)
Definition seed_permissions db : AccessDb T :=
  let upserted := fold_left (fun t key => let row := seed_permission key in
    upsert permission_key_conflict row (set_perm_description (perm_description row)) t)
    ALL_PERMISSIONS (permissions db) in
  let stale p := negb (includes ALL_PERMISSIONS (perm_key p)) in
  let stale_ids := map perm_id (select stale upserted) in
  with_permissions (delete_where stale upserted)
    (with_rolePermissions (delete_where (fun rp => includes stale_ids (rp_permissionId rp))
       (rolePermissions db)) db).

Definition seed_roles db : AccessDb T :=
  with_roles (insert_all_ignore role_name_conflict
    (map (fun r => {| role_id := fresh (role_label r); role_name := role_label r;
                      role_description := role_label r +:+ " (system role)"; role_isSystem := true;
                      role_createdAt := now; role_updatedAt := now |}) SYSTEM_ROLES) (roles db)) db.

Definition seed_groups db : AccessDb T :=
  with_groups (insert_all_ignore group_name_conflict
    (map (fun g => {| group_id := fresh (sg_name g); group_name := sg_name g;
                      group_description := sg_description g; group_isSystem := true;
                      group_createdAt := now; group_updatedAt := now |}) SYSTEM_GROUPS) (groups db)) db.

(** A looked-up id, unless it is missing or empty. *)
Definition known (k : string) (ids : list (string * string)) : option string :=
  match map_get k ids with Some v => if truthy v then Some v else None | None => None end.

Definition seed_grants db : list RolePermissionRow :=
  let permId := js_map perm_key perm_id (rows (permissions db)) in
  let roleId := js_map role_name role_id (rows (roles db)) in
  role ← SYSTEM_ROLES;
  match known (role_label role) roleId with
  | None => []
  | Some rid =>
      omap (fun key => option_map (fun pid => {| rp_roleId := rid; rp_permissionId := pid |})
                         (known key permId))
        (default ALL_PERMISSIONS (SYSTEM_ROLE_PERMISSIONS role))
  end.

Definition seed_group_roles db : list GroupRoleRow :=
  let roleId := js_map role_name role_id (rows (roles db)) in
  let groupId := js_map group_name group_id (rows (groups db)) in
  omap (fun g => match known (sg_name g) groupId, known (role_label (sg_role g)) roleId with
                 | Some gid, Some rid => Some {| gr_groupId := gid; gr_roleId := rid |}
                 | _, _ => None end) SYSTEM_GROUPS.

Definition seedRbac db : AccessDb T :=
  let db1 := seed_groups (seed_roles (seed_permissions db)) in
  let db2 := with_rolePermissions
    (insert_all_ignore rolePermissions_conflict (seed_grants db1) (rolePermissions db1)) db1 in
  with_groupRoles (insert_all_ignore groupRoles_conflict (seed_group_roles db1) (groupRoles db2)) db2.
End seed.
End directory.

(** ** Theorems *)

Section theorems.
Context {T : Type -> Type} {ST : Store T} {LT : StoreLaws T}.
Implicit Types db : AccessDb T.

(** The permissions a role and a group give. *)
Definition role_grants db (roleId key : string) : Prop :=
  exists rp p, rp ∈ rows (rolePermissions db) /\ p ∈ rows (permissions db) /\
    rp_roleId rp = roleId /\ perm_id p = rp_permissionId rp /\ perm_key p = key.
Definition group_grants db (groupId key : string) : Prop :=
  exists gr, gr ∈ rows (groupRoles db) /\ gr_groupId gr = groupId /\ role_grants db (gr_roleId gr) key.

Lemma grants_groups db userId key :
  grants db userId key <->
  exists ug, ug ∈ rows (userGroups db) /\ ug_userId ug = userId /\ group_grants db (ug_groupId ug) key.
Proof. unfold grants, group_grants, role_grants. naive_solver. Qed.

Lemma exists_row_true {R} (p : R -> bool) (t : T R) :
  exists_row p t = true <-> exists r, r ∈ rows t /\ p r = true.
Proof. apply existsb_true. Qed.

Lemma userGroups_conflict_eq a b : userGroups_conflict a b = true <-> a = b.
Proof.
  unfold userGroups_conflict. rewrite andb_true_iff, !String.eqb_eq.
  destruct a, b; simpl. naive_solver.
Qed.
Lemma groupRoles_conflict_eq a b : groupRoles_conflict a b = true <-> a = b.
Proof.
  unfold groupRoles_conflict. rewrite andb_true_iff, !String.eqb_eq.
  destruct a, b; simpl. naive_solver.
Qed.
Lemma rolePermissions_conflict_eq a b : rolePermissions_conflict a b = true <-> a = b.
Proof.
  unfold rolePermissions_conflict. rewrite andb_true_iff, !String.eqb_eq.
  destruct a, b; simpl. naive_solver.
Qed.

(** The membership rows [setUserGroups] leaves, on each of its branches. *)
Lemma setUserGroups_rows db userId groupIds ug :
  let '(db', r) := setUserGroups db userId groupIds in
  ug ∈ rows (userGroups db') <->
  (ug ∈ rows (userGroups db) /\ ug_userId ug <> userId) \/
  (r = Ok tt /\ ug_userId ug = userId /\ ug_groupId ug ∈ groupIds).
Proof.
  unfold setUserGroups.
  set (t1 := delete_where _ (userGroups db)).
  assert (H1 : forall x, x ∈ rows t1 <-> x ∈ rows (userGroups db) /\ ug_userId x <> userId).
  { intros x. unfold t1. rewrite elem_of_delete, String.eqb_neq. done. }
  destruct (Nat.eqb_spec (List.length groupIds) 0) as [Hl|Hl].
  { destruct groupIds; [|done]. simpl. rewrite H1. set_solver. }
  destruct (_ && _) eqn:E; simpl.
  - rewrite elem_of_insert_all_ignore by apply userGroups_conflict_eq. rewrite H1, elem_of_map.
    split.
    + intros [(g & -> & Hg)|H]; [right|by left]. done.
    + intros [H|(_ & <- & Hg)]; [by right|left]. exists (ug_groupId ug). by destruct ug.
  - rewrite H1. naive_solver.
Qed.

(** Everything else stays. *)
Lemma setUserGroups_frame db userId groupIds :
  let db' := fst (setUserGroups db userId groupIds) in
  groupRoles db' = groupRoles db /\ rolePermissions db' = rolePermissions db /\
  permissions db' = permissions db /\ users db' = users db.
Proof.
  unfold setUserGroups. destruct (Nat.eqb _ 0); [done|]. by destruct (_ && _).
Qed.

(** Replacing a user's groups is the whole of granting and revoking: on success the user
    holds exactly what the new groups give and nobody else is affected. The two statements
    are not one transaction: a group id that does not exist is reported after the old
    memberships are gone, and the user is left without any permission. *)
Theorem setUserGroups_grants db userId groupIds :
  let '(db', r) := setUserGroups db userId groupIds in
  (forall u key, u <> userId -> grants db' u key <-> grants db u key) /\
  match r with
  | Ok _ => forall key, grants db' userId key <-> exists g, g ∈ groupIds /\ group_grants db g key
  | Err e => e = ForeignKeyViolation /\ forall key, ~ grants db' userId key
  end.
Proof.
  pose proof (setUserGroups_rows db userId groupIds) as Hrows.
  pose proof (setUserGroups_frame db userId groupIds) as (Hgr & Hrp & Hp & _).
  assert (He : forall e, snd (setUserGroups db userId groupIds) = Err e -> e = ForeignKeyViolation).
  { unfold setUserGroups. destruct (Nat.eqb _ 0); [done|]. destruct (_ && _); naive_solver. }
  destruct (setUserGroups db userId groupIds) as [db' r]. simpl in *.
  assert (Hg : forall g key, group_grants db' g key <-> group_grants db g key)
    by (intros; unfold group_grants, role_grants; by rewrite Hgr, Hrp, Hp).
  split.
  - intros u key Hu. rewrite !grants_groups. setoid_rewrite Hg. setoid_rewrite Hrows.
    split; intros (ug & Hin & Hid & Hgg); exists ug; naive_solver.
  - destruct r as [[]|e].
    + intros key. rewrite grants_groups. setoid_rewrite Hg. setoid_rewrite Hrows. split.
      * intros (ug & [[_ Hne]|(_ & _ & Hin)] & Hid & Hgg); [done|eauto].
      * intros (g & Hin & Hgg). exists {| ug_userId := userId; ug_groupId := g |}. naive_solver.
    + split; [by apply He|]. intros key. rewrite grants_groups. setoid_rewrite Hrows.
      intros (ug & [[_ Hne]|(Hok & _)] & Hid & _); done.
Qed.

(** The permissions of a role are replaced by the requested keys that exist, unknown
    keys are dropped without an error, and whether the role is a system role makes no
    difference: the set of the seeded superadmin role can be emptied. *)
Theorem setRolePermissions_spec db role permissionKeys
    (Hrole : role ∈ rows (roles db)) (Hid : unique_key perm_id (permissions db)) :
  exists db', setRolePermissions db (role_id role) permissionKeys = (db', Ok tt) /\
    (forall key, role_grants db' (role_id role) key <->
       key ∈ permissionKeys /\ exists p, p ∈ rows (permissions db) /\ perm_key p = key) /\
    (forall r key, r <> role_id role -> role_grants db' r key <-> role_grants db r key).
Proof.
  unfold setRolePermissions. set (resolved := map perm_id _).
  assert (Hres : forall i, i ∈ resolved <-> exists p, p ∈ rows (permissions db) /\
    perm_key p ∈ permissionKeys /\ perm_id p = i).
  { intros i. unfold resolved. rewrite elem_of_map. setoid_rewrite elem_of_select.
    setoid_rewrite includes_true. naive_solver. }
  clearbody resolved. set (t1 := delete_where _ (rolePermissions db)).
  assert (H1 : forall x, x ∈ rows t1 <-> x ∈ rows (rolePermissions db) /\ rp_roleId x <> role_id role).
  { intros x. unfold t1. rewrite elem_of_delete, String.eqb_neq. done. }
  clearbody t1.
  assert (Hex : exists_row (fun r => String.eqb (role_id r) (role_id role)) (roles db) = true).
  { apply exists_row_true. exists role. by rewrite String.eqb_refl. }
  assert (Hall : forall t2 : T RolePermissionRow,
    (forall x, x ∈ rows t2 <-> x ∈ rows t1 \/ (rp_roleId x = role_id role /\ rp_permissionId x ∈ resolved)) ->
    let db' := with_rolePermissions t2 db in
    (forall key, role_grants db' (role_id role) key <->
       key ∈ permissionKeys /\ exists p, p ∈ rows (permissions db) /\ perm_key p = key) /\
    (forall r key, r <> role_id role -> role_grants db' r key <-> role_grants db r key)).
  { intros t2 H2 db'. unfold role_grants. simpl. setoid_rewrite H2. setoid_rewrite H1. split.
    - intros key. split.
      + intros (rp & p & [[_ Hne]|[_ Hin]] & Hp & Hr & Hpid & Hk); [done|].
        apply Hres in Hin as (p' & Hp' & Hk' & Hid').
        assert (p' = p) as -> by (apply (unique_key_inj perm_id (permissions db)); congruence).
        subst key. eauto.
      + intros (Hk & p & Hp & <-).
        exists {| rp_roleId := role_id role; rp_permissionId := perm_id p |}, p. simpl.
        split; [right; split; [done|]; apply Hres; eauto|done].
    - intros r key Hr. split; intros (rp & p & Hin & Hrest); exists rp, p; naive_solver. }
  destruct (Nat.eqb_spec (List.length resolved) 0) as [Hl|Hl].
  - eexists. split; [done|]. apply Hall. destruct resolved; [|done]. set_solver.
  - rewrite Hex. eexists. split; [done|]. apply Hall. intros x. simpl.
    rewrite elem_of_insert_all_ignore by apply rolePermissions_conflict_eq. rewrite elem_of_map.
    split.
    + intros [(i & -> & Hi)|Hx]; [right|by left]. done.
    + intros [Hx|[Hr Hi]]; [by right|left]. exists (rp_permissionId x). destruct x; simpl in *. by subst.
Qed.

(** *** The seed *)

Section seed_theorems.
Context (now : Z) (fresh : string -> string).

(** No stored or drawn id is the empty string. *)
Definition ids_present db : Prop :=
  (forall k, fresh k <> "") /\
  (forall p, p ∈ rows (permissions db) -> perm_id p <> "") /\
  (forall r, r ∈ rows (roles db) -> role_id r <> "") /\
  (forall g, g ∈ rows (groups db) -> group_id g <> "").

Definition names_unique db : Prop :=
  unique_key perm_key (permissions db) /\ unique_key role_name (roles db) /\
  unique_key group_name (groups db).

(** Upserting a list of catalogue keys. *)
Lemma upsert_permissions keys (t : T PermissionRow) :
  (forall k, fresh k <> "") -> (forall p, p ∈ rows t -> perm_id p <> "") ->
  unique_key perm_key t ->
  let t' := fold_left (fun t key => let row := seed_permission now fresh key in
    upsert permission_key_conflict row (set_perm_description (perm_description row)) t) keys t in
  unique_key perm_key t' /\ (forall p, p ∈ rows t' -> perm_id p <> "") /\
  (forall k, k ∈ keys \/ (exists p, p ∈ rows t /\ perm_key p = k) ->
     exists p, p ∈ rows t' /\ perm_key p = k).
Proof.
  intros Hf. revert t. induction keys as [|key keys IH]; intros t Hne Hu; [split; [done|]; set_solver|].
  simpl. set (row := seed_permission now fresh key).
  assert (Hc : forall x, permission_key_conflict row x = true <-> perm_key x = perm_key row).
  { intros x. unfold permission_key_conflict. rewrite String.eqb_eq. done. }
  destruct (IH (upsert permission_key_conflict row (set_perm_description (perm_description row)) t))
    as (H1 & H2 & H3).
  - intros p Hp. apply elem_of_upsert in Hp as [->|[Hp|(r' & Hr' & _ & ->)]];
      [apply Hf|by apply Hne|exact (Hne r' Hr')].
  - apply unique_key_upsert; [done| |done]. intros x. apply Hc.
  - split; [done|]. split; [done|]. intros k Hk. apply H3.
    rewrite (keys_upsert perm_key) by done. change (perm_key row) with key.
    destruct Hk as [[->|Hk]%elem_of_cons|Hk]; auto.
Qed.

Lemma seed_permissions_spec db :
  ids_present db -> names_unique db ->
  let db' := seed_permissions now fresh db in
  unique_key perm_key (permissions db') /\ (forall p, p ∈ rows (permissions db') -> perm_id p <> "") /\
  (forall key, key ∈ ALL_PERMISSIONS <-> exists p, p ∈ rows (permissions db') /\ perm_key p = key).
Proof.
  intros (Hf & Hp & _) (Hu & _) db'.
  destruct (upsert_permissions ALL_PERMISSIONS (permissions db) Hf Hp Hu) as (H1 & H2 & H3).
  unfold db', seed_permissions. simpl. split; [by apply unique_key_delete|].
  assert (Hd : forall t (x : PermissionRow),
    x ∈ rows (delete_where (fun p => negb (includes ALL_PERMISSIONS (perm_key p))) (t : T _)) <->
    x ∈ rows t /\ perm_key x ∈ ALL_PERMISSIONS)
    by (intros t x; by rewrite elem_of_delete, negb_false_iff, includes_true).
  clearbody db'. setoid_rewrite Hd. split; [intros p [Hin _]; by apply H2|]. intros key. split.
  - intros Hk. destruct (H3 key (or_introl Hk)) as (p & Hin & <-). by exists p.
  - by intros (p & [_ Hk] & <-).
Qed.

(** The id a name is known by is that of its row. *)
Lemma known_row {R} (name id : R -> string) (t : T R) r :
  unique_key name t -> r ∈ rows t -> id r <> "" -> known (name r) (js_map name id (rows t)) = Some (id r).
Proof.
  intros Hu Hr Hne. unfold known. rewrite map_get_js_map by done. unfold truthy.
  by destruct (String.eqb_spec (id r) "").
Qed.

Lemma names_inserted {R} (name : R -> string) conflict rs (t : T R) n :
  (forall a b, conflict a b = true <-> name b = name a) -> unique_key name t ->
  n ∈ map name rs -> exists r, r ∈ rows (insert_all_ignore conflict rs t) /\ name r = n.
Proof.
  intros Hc Hu Hn. destruct (insert_all_ignore_keys name conflict rs t Hc Hu) as (_ & H & _).
  apply H. by left.
Qed.

(** The seeded role of the owners. *)
Lemma superadmin_row db :
  ids_present db -> names_unique db ->
  let roles' := roles (seed_roles now fresh (seed_permissions now fresh db)) in
  unique_key role_name roles' /\
  exists r, r ∈ rows roles' /\ role_name r = "superadmin" /\ role_id r <> "".
Proof.
  intros (Hf & _ & Hrn & _) (_ & Hru & _) roles'.
  set (rs := map (fun r => {| role_id := fresh (role_label r); role_name := role_label r;
    role_description := role_label r +:+ " (system role)"; role_isSystem := true;
    role_createdAt := now; role_updatedAt := now |}) SYSTEM_ROLES).
  destruct (insert_all_ignore_keys role_name role_name_conflict rs (roles db))
    as (Hru' & Hrk & Hrin);
    [intros a b; unfold role_name_conflict; rewrite String.eqb_eq; split; congruence|done|].
  split; [exact Hru'|].
  destruct (proj2 (Hrk "superadmin")) as (r & Hr & Hrname);
    [left; apply elem_of_map; eexists; split; [|apply list_elem_of_here]; done|].
  exists r. split; [exact Hr|]. split; [done|]. apply Hrin in Hr as [Hr|Hr]; [|by apply Hrn].
  apply elem_of_map in Hr as (x & -> & _). apply Hf.
Qed.

(** After the seed the permission table is the catalogue, and whoever is in the "Owners"
    group may do everything in it, whatever the tables held before. *)
Theorem seedRbac_owners db userId
    (Hids : ids_present db) (Hnames : names_unique db) :
  let db' := seedRbac now fresh db in
  (forall key, key ∈ ALL_PERMISSIONS <-> exists p, p ∈ rows (permissions db') /\ perm_key p = key) /\
  (forall ug g key, ug ∈ rows (userGroups db') -> ug_userId ug = userId ->
     g ∈ rows (groups db') -> group_name g = "Owners" -> group_id g = ug_groupId ug ->
     key ∈ ALL_PERMISSIONS -> grants db' userId key).
Proof.
  intros db'. destruct (seed_permissions_spec db Hids Hnames) as (Hpu & Hpn & Hpk).
  pose proof Hids as (Hf & _ & _ & Hgn). pose proof Hnames as (_ & _ & Hgu).
  split; [exact Hpk|]. intros ug g key Hug <- Hg Hname Hgid Hkey.
  apply Hpk in Hkey as (p & Hp & Hpkey).
  destruct (superadmin_row db Hids Hnames) as (Hru' & r & Hr & Hrname & Hrne).
  destruct (insert_all_ignore_keys group_name group_name_conflict
    (map (fun g => {| group_id := fresh (sg_name g); group_name := sg_name g;
       group_description := sg_description g; group_isSystem := true;
       group_createdAt := now; group_updatedAt := now |}) SYSTEM_GROUPS) (groups db))
    as (Hgu' & _ & Hgin);
    [intros a b; unfold group_name_conflict; rewrite String.eqb_eq; split; congruence|done|].
  assert (Hgne : group_id g <> "").
  { apply Hgin in Hg as [Hg'|Hg']; [|by apply Hgn]. apply elem_of_map in Hg' as (x & -> & _). apply Hf. }
  set (db1 := seed_groups now fresh (seed_roles now fresh (seed_permissions now fresh db))).
  assert (Kg : known "Owners" (js_map group_name group_id (rows (groups db1))) = Some (group_id g))
    by (rewrite <- Hname; apply known_row; [exact Hgu'|exact Hg|done]).
  assert (Kr : known "superadmin" (js_map role_name role_id (rows (roles db1))) = Some (role_id r))
    by (rewrite <- Hrname; apply known_row; [exact Hru'|exact Hr|done]).
  assert (Kp : known (perm_key p) (js_map perm_key perm_id (rows (permissions db1))) = Some (perm_id p))
    by (apply known_row; [exact Hpu|exact Hp|by apply Hpn]).
  exists ug, {| gr_groupId := group_id g; gr_roleId := role_id r |},
    {| rp_roleId := role_id r; rp_permissionId := perm_id p |}, p.
  split; [done|]. split; [|split; [|split; [done|done]]].
  - apply elem_of_insert_all_ignore; [apply groupRoles_conflict_eq|]. left.
    apply list_elem_of_omap.
    exists {| sg_name := "Owners"; sg_description := "Protected superadmins (holds the owner account).";
              sg_role := superadmin |}. split; [in_list|].
    cbn [sg_name sg_role role_label]. fold db1. by rewrite Kg, Kr.
  - apply elem_of_insert_all_ignore; [apply rolePermissions_conflict_eq|]. left.
    apply list_elem_of_bind. exists superadmin. split; [|in_list].
    cbn [role_label SYSTEM_ROLE_PERMISSIONS]. fold db1. rewrite Kr.
    apply list_elem_of_omap. exists (perm_key p). split; [apply Hpk; eauto|]. by rewrite Kp.
Qed.
End seed_theorems.

(** *** Protected entities *)

(** No update or deletion touches a protected user, role or group: the call throws and
    the database is unchanged. *)
Theorem protected_unchanged now db `{!Scrypt} salt id :
  (forall patch, match getUser db id with
     | Some u => user_isSystem u = true \/ user_isOwner u = true ->
         updateUser now salt db id patch = (db, Err ProtectedEntity) /\
         deleteUser db id = (db, Err ProtectedEntity)
     | None => updateUser now salt db id patch = (db, Ok None) /\ deleteUser db id = (db, Ok false)
     end) /\
  (forall name description, match getRole db id with
     | Some r => role_isSystem r = true ->
         updateRole now db id name description = (db, Err ProtectedEntity) /\
         deleteRole db id = (db, Err ProtectedEntity)
     | None => updateRole now db id name description = (db, Ok None) /\ deleteRole db id = (db, Ok false)
     end) /\
  (forall name description, match getGroup db id with
     | Some g => group_isSystem g = true ->
         updateGroup now db id name description = (db, Err ProtectedEntity) /\
         deleteGroup db id = (db, Err ProtectedEntity)
     | None => updateGroup now db id name description = (db, Ok None) /\ deleteGroup db id = (db, Ok false)
     end).
Proof.
  unfold updateUser, deleteUser, updateRole, deleteRole, updateGroup, deleteGroup, isProtected.
  split; [|split].
  - intros patch. destruct (getUser db id) as [u|]; [|done]. intros [-> | ->]; [done|].
    by rewrite orb_true_r.
  - intros n d. destruct (getRole db id) as [r|]; [|done]. by intros ->.
  - intros n d. destruct (getGroup db id) as [g|]; [|done]. by intros ->.
Qed.
End theorems.

(** ** The theorems at concrete inputs *)

Definition w_blank : AccessDb list := {|
  users := []; groups := []; roles := []; permissions := []; rolePermissions := [];
  groupRoles := []; userGroups := [{| ug_userId := "u1"; ug_groupId := "id-Owners" |}];
  userAttributes := []; refreshTokens := []; settings := [] |}.

Definition w_fresh_id (name : string) : string := "id-" +:+ name.

Definition w_seeded : AccessDb list := seedRbac 0 w_fresh_id w_blank.

Lemma seedRbac_owners_witness : grants w_seeded "u1" "backups:restore".
Proof.
  destruct (seedRbac_owners 0 w_fresh_id w_blank "u1") as [_ H].
  - split; [intros k; discriminate|]. split; [|split]; intros x Hx; inversion Hx.
  - split; [|split]; apply NoDup_nil_2.
  - apply (H {| ug_userId := "u1"; ug_groupId := "id-Owners" |}
      {| group_id := "id-Owners"; group_name := "Owners";
         group_description := "Protected superadmins (holds the owner account)."; group_isSystem := true;
         group_createdAt := 0; group_updatedAt := 0 |}); try reflexivity.
    + by apply list_elem_of_singleton.
    + apply list_elem_of_here.
    + apply includes_true. vm_compute. reflexivity.
Defined.

Lemma setRolePermissions_spec_witness :
  exists db', setRolePermissions w_seeded "id-superadmin" [] = (db', Ok tt) /\
    forall key, ~ role_grants db' "id-superadmin" key.
Proof.
  destruct (setRolePermissions_spec w_seeded
    {| role_id := "id-superadmin"; role_name := "superadmin";
       role_description := "superadmin (system role)"; role_isSystem := true;
       role_createdAt := 0; role_updatedAt := 0 |} []) as (db' & H1 & H2 & _).
  - apply list_elem_of_here.
  - apply (bool_decide_unpack _). vm_compute. exact I.
  - exists db'. split; [exact H1|]. intros key Hk. apply H2 in Hk as [Hk _]. inversion Hk.
Defined.

Lemma setUserGroups_grants_witness :
  snd (setUserGroups w_seeded "u1" ["nope"]) = Err ForeignKeyViolation /\
  ~ grants (fst (setUserGroups w_seeded "u1" ["nope"])) "u1" "backups:restore".
Proof.
  pose proof (setUserGroups_grants w_seeded "u1" ["nope"]) as H.
  assert (Hr : snd (setUserGroups w_seeded "u1" ["nope"]) = Err ForeignKeyViolation)
    by (vm_compute; reflexivity).
  destruct (setUserGroups w_seeded "u1" ["nope"]) as [db' r].
  destruct H as [_ H]. simpl in Hr. subst r. split; [reflexivity|]. exact (proj2 H _).
Defined.
