(* ===== verification/Pipeline.v ===== *)
(** * The ingest pipeline

    Models apps/backend/src/services/pipeline.ts and ingest.ts: what a pushed batch of
    unit samples does to the telemetry database. [now] is the instant of the batch, also
    where the database defaults a timestamp; [newId table i] is the id the database draws
    for the [i]-th row of a statement. Timestamps are read as UTC text. *)
From S2P Require Import Prelude Dates Store Schema RowUpdates Health.

(** The tables of the telemetry database the pipeline touches. *)
Record TelemetryDb (T : Type -> Type) : Type := {
  statusEvents : T StatusEventRow; logs : T LogRow; notifications : T NotificationRow;
  uptimeBuckets : T UptimeBucketRow; unitStates : T UnitStateRow;
  processMetrics : T ProcessMetricRow; hostMetrics : T HostMetricRow
}.
Arguments statusEvents {T} _. Arguments logs {T} _. Arguments notifications {T} _.
Arguments uptimeBuckets {T} _. Arguments unitStates {T} _. Arguments processMetrics {T} _.
Arguments hostMetrics {T} _.

(** A pushed sample ([UnitSample] of packages/shared/src/agent.ts). *)
Record UnitPush : Type := {
  push_entity : string; push_status : HealthStatus; push_pid : option Z;
  push_critical : option bool; push_meta : option (list (string * json))
}.

Definition BAD : list HealthStatus := [DOWN; HANG; DEGRADED].
Definition MAX_INTERVAL_SEC : Z := 3600.

Definition hourBucket (iso : string) : string := slice0 13 iso +:+ ":00:00.000Z".

(** The status a row holds; the column only ever receives [status_text]. *)
Definition parse_status (s : string) : HealthStatus :=
  if String.eqb s "UP" then UP else if String.eqb s "DEGRADED" then DEGRADED
  else if String.eqb s "HANG" then HANG else if String.eqb s "DOWN" then DOWN else UNKNOWN.

(** What is remembered of an entity. *)
Record PrevState : Type := {
  prev_entity : string; prev_status : HealthStatus; prev_pid : option Z; prev_updatedAt : Z
}.
Definition prev_of_row (r : UnitStateRow) : PrevState := {|
  prev_entity := us_entity r; prev_status := parse_status (us_status r); prev_pid := us_pid r;
  prev_updatedAt := us_updatedAt r |}.

Definition core_of_prev (p : PrevState) : UnitSample :=
  {| entity := prev_entity p; status := prev_status p; pid := prev_pid p |}.
Definition core_of_push (u : UnitPush) : UnitSample :=
  {| entity := push_entity u; status := push_status u; pid := push_pid u |}.

(** The interval attributed to the previous status. *)
Definition deltaSec (now : Z) (p : PrevState) : Z :=
  Z.min MAX_INTERVAL_SEC (Z.max 0 ((now - prev_updatedAt p) / 1000)).

(** The instant the bucket text denotes. *)
Definition bucket_start (updatedAt : Z) : Z :=
  default 0 (Date_parse (hourBucket (toISOString updatedAt))).

Record Notification : Type := {
  n_severity : string; n_title : string; n_message : string; n_plainLanguage : string
}.

Definition buildNotification (entity : string) (status : HealthStatus) : option Notification :=
  if status_eqb status UP then Some {|
    n_severity := "info"; n_title := entity +:+ " recovered";
    n_message := entity +:+ " is back UP.";
    n_plainLanguage := entity +:+ " is healthy again — no action needed." |}
  else if negb (mem status BAD) then None
  else
    let severity := if status_eqb status DEGRADED then "warning" else "critical" in
    let what := if status_eqb status DEGRADED then "is degraded"
                else if status_eqb status HANG then "appears hung" else "is down" in
    Some {|
      n_severity := severity; n_title := entity +:+ " " +:+ what;
      n_message := entity +:+ " changed to " +:+ status_text status +:+ ".";
      n_plainLanguage := entity +:+ " " +:+ what +:+
        ". Check the host and the service, then restart it if needed." |}.

Section pipeline.
Context {T : Type -> Type} {ST : Store T}.
Context (newId : string -> nat -> string) (now : Z) (sourceId : string).
Implicit Types (db : TelemetryDb T) (units : list UnitPush).

Definition event_row (i : nat) (e : DerivedEvent) : StatusEventRow :=
  match e with
  | STATUS_CHANGE n old new => {|
      ev_id := newId "statusEvents" i; ev_sourceId := sourceId; ev_entity := n;
      ev_type := "STATUS_CHANGE"; ev_oldStatus := status_text <$> old;
      ev_newStatus := Some (status_text new); ev_oldPid := None; ev_newPid := None;
      ev_detail := None; ev_ts := now |}
  | SERVICE_RESTART n p q => {|
      ev_id := newId "statusEvents" i; ev_sourceId := sourceId; ev_entity := n;
      ev_type := "SERVICE_RESTART"; ev_oldStatus := None; ev_newStatus := None;
      ev_oldPid := Some p; ev_newPid := Some q; ev_detail := None; ev_ts := now |}
  end.

(** The status changes among the derived events. *)
Definition status_changes (events : list DerivedEvent)
  : list (string * option HealthStatus * HealthStatus) :=
  omap (fun e => match e with STATUS_CHANGE n old new => Some (n, old, new) | _ => None end) events.

Definition log_row (i : nat) (c : string * option HealthStatus * HealthStatus) : LogRow :=
  let '(n, old, new) := c in {|
    log_id := newId "logs" i; log_category := "status";
    log_level := if status_eqb new UP then "info"
                 else if status_eqb new DEGRADED then "warn" else "error";
    log_sourceId := Some sourceId;
    log_message := n +:+ ": " +:+ default "—" (status_text <$> old) +:+ " → " +:+ status_text new;
    log_context := Some (JObj [("entity", JStr n);
      ("oldStatus", match old with Some s => JStr (status_text s) | None => JNull end);
      ("newStatus", JStr (status_text new))]);
    log_ts := now |}.

Definition note_row (i : nat) (n : Notification) : NotificationRow := {|
  note_id := newId "notifications" i; note_severity := n_severity n;
  note_sourceId := Some sourceId; note_title := n_title n; note_message := n_message n;
  note_plainLanguage := Some (n_plainLanguage n); note_acknowledged := false; note_ts := now |}.

(** [prev]: the rows of the source, by entity; a later row overwrites. *)
Definition prev_map (t : T UnitStateRow) : gmap string PrevState :=
  fold_left (fun m r => <[us_entity r := prev_of_row r]> m)
    (select (fun r => String.eqb (us_sourceId r) sourceId) t) ∅.

(** The baseline the core diffs against. *)
Definition baseline (t : T UnitStateRow) : gmap string UnitSample := core_of_prev <$> prev_map t.

Definition uptime_step (prev : gmap string PrevState) (t : T UptimeBucketRow) (u : UnitPush)
  : T UptimeBucketRow :=
  match prev !! push_entity u with
  | None => t
  | Some p =>
      let delta := deltaSec now p in
      if delta <=? 0 then t else
      let addUp := if status_eqb (prev_status p) UP then delta else 0 in
      let row := {|
        ub_id := newId "uptimeBuckets" 0; ub_sourceId := sourceId; ub_entity := push_entity u;
        ub_bucketStart := bucket_start (prev_updatedAt p); ub_upSec := addUp;
        ub_totalSec := delta; ub_statusSummary := None |} in
      upsert uptimeBuckets_conflict row
        (fun r => set_ub_upSec (ub_upSec r + addUp) (set_ub_totalSec (ub_totalSec r + delta) r)) t
  end.

(** The baseline row of a sample. *)
Definition state_row (u : UnitPush) : UnitStateRow := {|
  us_sourceId := sourceId; us_entity := push_entity u; us_status := status_text (push_status u);
  us_pid := push_pid u; us_critical := default false (push_critical u);
  us_sample := JObj <$> push_meta u; us_updatedAt := now |}.

Definition baseline_step (t : T UnitStateRow) (u : UnitPush) : T UnitStateRow :=
  upsert unitStates_conflict (state_row u)
    (fun r => set_us_status (status_text (push_status u)) (set_us_pid (push_pid u)
       (set_us_critical (default false (push_critical u)) (set_us_sample (JObj <$> push_meta u)
          (set_us_updatedAt now r))))) t.

Definition derived_events db units : list DerivedEvent :=
  diffStates (baseline (unitStates db)) (map core_of_push units).

Definition processUnits db units : TelemetryDb T :=
  if Nat.eqb (List.length units) 0 then db else
  let prev := prev_map (unitStates db) in
  let events := derived_events db units in
  let changes := status_changes events in
  let notes := omap (fun '(n, _, new) => buildNotification n new) changes in
  {| statusEvents := insert_all (imap event_row events) (statusEvents db);
     logs := insert_all (imap log_row changes) (logs db);
     notifications := insert_all (imap note_row notes) (notifications db);
     uptimeBuckets := fold_left (uptime_step prev) units (uptimeBuckets db);
     unitStates := fold_left baseline_step units (unitStates db);
     processMetrics := processMetrics db; hostMetrics := hostMetrics db |}.

(** ** The HTTP push (ingest.ts) *)

Record HostPush : Type := {
  hp_cpuPct : option Q; hp_memPct : option Q; hp_memUsedMb : option Z; hp_extra : option json
}.
Record EventPush : Type := {
  ep_entity : string; ep_type : string; ep_oldStatus : option string;
  ep_newStatus : option string; ep_detail : option json
}.
Record LogPush : Type := {
  lp_category : string; lp_level : string; lp_message : string; lp_context : option json
}.

(** An absent list is [None]. *)
Record AgentIngestRequest : Type := {
  ing_units : option (list UnitPush); ing_metrics : option HostPush;
  ing_events : option (list EventPush); ing_logs : option (list LogPush)
}.

(** A numeric field of the detail. *)
Definition meta_number (key : string) (meta : list (string * json)) : option Q :=
  match map_get key meta with Some (JNum q) => Some q | _ => None end.

(** The units that report a CPU or memory figure. *)
Definition metric_points (units : list UnitPush) : list (string * option Q * option Q) :=
  omap (fun u =>
    let! meta := push_meta u otherwise None in
    let cpu := meta_number "cpuPercent" meta in
    let mem := meta_number "memMB" meta in
    match cpu, mem with None, None => None | _, _ => Some (push_entity u, cpu, mem) end) units.

Definition ingest db (payload : AgentIngestRequest) : TelemetryDb T :=
  let units := default [] (ing_units payload) in
  let db1 := processUnits db units in
  let points := imap (fun i '(n, cpu, mem) => {|
    pm_id := newId "processMetrics" i; pm_sourceId := sourceId; pm_entity := n; pm_cpuPct := cpu;
    pm_memMb := mem; pm_ts := now |}) (metric_points units) in
  {| statusEvents := insert_all (imap (fun i e => {|
         ev_id := newId "statusEvents" (List.length units + i); ev_sourceId := sourceId; ev_entity := ep_entity e;
         ev_type := ep_type e; ev_oldStatus := ep_oldStatus e; ev_newStatus := ep_newStatus e;
         ev_oldPid := None; ev_newPid := None; ev_detail := ep_detail e; ev_ts := now |})
       (default [] (ing_events payload))) (statusEvents db1);
     logs := insert_all (imap (fun i l => {|
         log_id := newId "logs" (List.length units + i); log_category := lp_category l; log_level := lp_level l;
         log_sourceId := Some sourceId; log_message := lp_message l; log_context := lp_context l;
         log_ts := now |}) (default [] (ing_logs payload))) (logs db1);
     notifications := notifications db1; uptimeBuckets := uptimeBuckets db1;
     unitStates := unitStates db1;
     processMetrics := insert_all points (processMetrics db1);
     hostMetrics := match ing_metrics payload with
       | Some m => insert_row {|
           hm_id := newId "hostMetrics" 0; hm_agentId := sourceId; hm_cpuPct := hp_cpuPct m;
           hm_memPct := hp_memPct m; hm_memUsedMb := hp_memUsedMb m; hm_extra := hp_extra m;
           hm_ts := now |} (hostMetrics db1)
       | None => hostMetrics db1 end |}.
End pipeline.

(** ** Theorems *)

#[local] Ltac Zify.zify_post_hook ::= Z.to_euclidean_division_equations.

Lemma parse_status_text s : parse_status (status_text s) = s.
Proof. by destruct s. Qed.

Lemma deltaSec_bounds now p : 0 <= deltaSec now p <= 3600.
Proof. unfold deltaSec, MAX_INTERVAL_SEC. lia. Qed.

(** The bucket of an instant starts at the hour that contains it. *)
Lemma bucket_start_hour t : iso_range t -> bucket_start t = t - t mod 3600000.
Proof.
  intros Ht. unfold bucket_start, hourBucket.
  set (h := t - t mod 3600000).
  assert (Hh : iso_range h) by (unfold h, iso_range in *; lia).
  assert (Hd : day_of h = day_of t) by (unfold h, day_of, MS_DAY; lia).
  assert (Hs : slice0 13 (toISOString t) +:+ ":00:00.000Z" = toISOString h).
  { unfold toISOString. rewrite Hd. unfold iso_time.
    assert (Hm : h mod MS_DAY / 3600000 = t mod MS_DAY / 3600000) by (unfold h, MS_DAY; lia).
    assert (H1 : h mod MS_DAY / 60000 mod 60 = 0) by (unfold h, MS_DAY; lia).
    assert (H2 : h mod MS_DAY / 1000 mod 60 = 0) by (unfold h, MS_DAY; lia).
    assert (H3 : h mod MS_DAY mod 1000 = 0) by (unfold h, MS_DAY; lia).
    rewrite Hm, H1, H2, H3.
    rewrite <- (str_app_assoc (iso_date (day_of t)) "T" _).
    rewrite <- (str_app_assoc (iso_date (day_of t) +:+ "T") (pad 2 _) _) at 1.
    rewrite slice0_app.
    - by rewrite !str_app_assoc.
    - rewrite !str_length_app, pad_length, iso_date_length by done. done. }
  by rewrite Hs, Date_parse_toISOString.
Qed.

Section theorems.
Context {T : Type -> Type} {ST : Store T} {LT : StoreLaws T}.
Context (newId : string -> nat -> string) (now : Z) (sourceId : string).
Implicit Types (db : TelemetryDb T) (units : list UnitPush).

Notation processUnits := (processUnits newId now sourceId).
Notation baseline_step := (baseline_step now sourceId).
Notation uptime_step := (uptime_step newId now sourceId).

Definition state_key (r : UnitStateRow) : string * string := (us_sourceId r, us_entity r).
Definition bucket_key (r : UptimeBucketRow) : string * string * Z :=
  (ub_sourceId r, ub_entity r, ub_bucketStart r).

(** The primary keys hold. *)
Definition keyed db : Prop :=
  unique_key state_key (unitStates db) /\ unique_key bucket_key (uptimeBuckets db).

Lemma unitStates_conflict_key a b : unitStates_conflict a b = true <-> state_key b = state_key a.
Proof.
  unfold unitStates_conflict, state_key. rewrite andb_true_iff, !String.eqb_eq.
  split; [by intros [-> ->]|by intros [= -> ->]].
Qed.
Lemma uptimeBuckets_conflict_key a b : uptimeBuckets_conflict a b = true <-> bucket_key b = bucket_key a.
Proof.
  unfold uptimeBuckets_conflict, bucket_key.
  rewrite !andb_true_iff, !String.eqb_eq, Z.eqb_eq.
  split; [by intros [[-> ->] ->]|by intros [= -> -> ->]].
Qed.

(** Filling a map from rows with distinct keys. *)
Lemma lookup_fold_insert {R V} (key : R -> string) (val : R -> V) l (m : gmap string V) k :
  NoDup (map key l) ->
  fold_left (fun m r => <[key r := val r]> m) l m !! k =
  match List.find (fun r => String.eqb (key r) k) l with Some r => Some (val r) | None => m !! k end.
Proof.
  revert m. induction l as [|r l IH]; intros m Hnd; [done|]. simpl in *.
  apply NoDup_cons in Hnd as [Hr Hnd]. rewrite IH by done.
  destruct (String.eqb_spec (key r) k) as [<-|Hne].
  - destruct (List.find _ l) as [r'|] eqn:Hf; [|by rewrite lookup_insert_eq].
    apply find_some in Hf as [Hin He%String.eqb_eq]. exfalso. apply Hr.
    apply elem_of_map. exists r'. split; [done|]. by apply list_elem_of_In.
  - by rewrite lookup_insert_ne.
Qed.

Lemma entities_of_source (t : T UnitStateRow) :
  unique_key state_key t ->
  NoDup (map us_entity (select (fun r => String.eqb (us_sourceId r) sourceId) t)).
Proof.
  unfold unique_key, select. induction (rows t) as [|r l IH]; simpl; [constructor|].
  intros [Hn Hnd]%NoDup_cons. destruct (String.eqb_spec (us_sourceId r) sourceId) as [He|]; [|auto].
  simpl. constructor; [|auto]. rewrite elem_of_map. intros (r' & Hent & Hin).
  apply elem_of_filterb in Hin as [Hin Hs%String.eqb_eq]. apply Hn.
  apply elem_of_map. exists r'. unfold state_key. split; [congruence|done].
Qed.

(** The remembered state of an entity is that of its row. *)
Lemma prev_map_lookup (t : T UnitStateRow) n p :
  unique_key state_key t ->
  prev_map sourceId t !! n = Some p <->
  exists r, r ∈ rows t /\ state_key r = (sourceId, n) /\ p = prev_of_row r.
Proof.
  intros Hu. unfold prev_map.
  rewrite (lookup_fold_insert us_entity prev_of_row) by by apply entities_of_source.
  destruct (List.find _ _) as [r|] eqn:Hf.
  - apply find_some in Hf as [Hin He%String.eqb_eq]. apply list_elem_of_In, elem_of_select in Hin.
    destruct Hin as [Hin Hs%String.eqb_eq]. split.
    + intros [= <-]. exists r. unfold state_key. by subst.
    + intros (r' & Hin' & Hk & ->). f_equal. f_equal.
      apply (unique_key_inj state_key t); [done..|]. rewrite Hk. unfold state_key. by subst.
  - split; [done|]. intros (r & Hin & Hk & _). unfold state_key in Hk. simplify_eq.
    pose proof (find_none _ _ Hf r) as Hn. simpl in Hn. rewrite String.eqb_refl in Hn.
    discriminate Hn. apply list_elem_of_In, elem_of_select. split; [done|]. by rewrite String.eqb_refl.
Qed.

Lemma prev_map_lookup_None (t : T UnitStateRow) n :
  unique_key state_key t ->
  prev_map sourceId t !! n = None <-> forall r, r ∈ rows t -> state_key r <> (sourceId, n).
Proof.
  intros Hu. destruct (prev_map sourceId t !! n) as [p|] eqn:Hp.
  - apply prev_map_lookup in Hp as (r & Hr & Hk & _); [|done]. naive_solver.
  - split; [|done]. intros _ r Hr Hk.
    assert (prev_map sourceId t !! n = Some (prev_of_row r)) by (apply prev_map_lookup; eauto).
    congruence.
Qed.

(** One baseline upsert, seen through the map and through the other sources. *)
Lemma baseline_step_spec (t : T UnitStateRow) u :
  unique_key state_key t ->
  unique_key state_key (baseline_step t u) /\
  baseline sourceId (baseline_step t u) = <[push_entity u := core_of_push u]> (baseline sourceId t) /\
  (forall r, state_key r <> (sourceId, push_entity u) -> r ∈ rows (baseline_step t u) <-> r ∈ rows t) /\
  (forall r, r ∈ rows (baseline_step t u) -> state_key r = (sourceId, push_entity u) ->
     us_updatedAt r = now).
Proof.
  intros Hu.
  assert (Hu' : unique_key state_key (baseline_step t u)).
  { apply unique_key_upsert; [done| |done]. intros x. apply unitStates_conflict_key. }
  split; [done|].
  set (f := fun r => set_us_status (status_text (push_status u)) (set_us_pid (push_pid u)
       (set_us_critical (default false (push_critical u)) (set_us_sample (JObj <$> push_meta u)
          (set_us_updatedAt now r))))).
  set (new := prev_of_row (state_row now sourceId u)).
  assert (Hm : exists r0 rest, rows (baseline_step t u) ≡ₚ r0 :: rest /\
    state_key r0 = (sourceId, push_entity u) /\ prev_of_row r0 = new /\
    (forall r, r ∈ rest -> state_key r <> (sourceId, push_entity u)) /\
    (forall r, state_key r <> (sourceId, push_entity u) -> r ∈ rest <-> r ∈ rows t)).
  { destruct (rows_upsert state_key unitStates_conflict f (state_row now sourceId u) t Hu)
      as [[Hr Hne]|(r0 & rest & Ht & Hk & Hne & Hr)]; [by intros; apply unitStates_conflict_key|..].
    - exists (state_row now sourceId u), (rows t). done.
    - exists (f r0), rest. split; [done|]. split; [done|]. split.
      { unfold new, prev_of_row. unfold state_key in Hk. simpl in *. f_equal. congruence. }
      split; [done|]. intros r Hrk. rewrite Ht, elem_of_cons. split; [by right|].
      intros [->|]; [by destruct (Hrk Hk)|done]. }
  destruct Hm as (r0 & rest & Hr & Hk0 & Hp0 & Hne & Hrest). split; [|split].
  - apply map_eq. intros n. unfold baseline. rewrite lookup_fmap.
    destruct (decide (n = push_entity u)) as [->|Hn].
    + rewrite lookup_insert_eq.
      assert (prev_map sourceId (baseline_step t u) !! push_entity u = Some new) as ->.
      { apply prev_map_lookup; [done|]. exists r0. split; [rewrite Hr; set_solver|done]. }
      simpl. unfold new, core_of_prev, core_of_push. simpl. by rewrite parse_status_text.
    + rewrite lookup_insert_ne, lookup_fmap by done. f_equal. apply option_eq. intros p.
      rewrite !prev_map_lookup by done. f_equiv. intros r. rewrite Hr.
      split; intros (Hin & Hk & ->).
      * apply elem_of_cons in Hin as [->|Hin]; [congruence|].
        split; [|done]. apply Hrest; [congruence|done].
      * split; [|done]. apply elem_of_cons. right. apply Hrest; [congruence|done].
  - intros r Hs. rewrite Hr, elem_of_cons, Hrest by done.
    split; [intros [->|]; [congruence|done]|by right].
  - intros r Hin Hk. rewrite Hr in Hin. apply elem_of_cons in Hin as [->|Hin]; [|by destruct (Hne r Hin)].
    change now with (prev_updatedAt new). by rewrite <- Hp0.
Qed.

(** The whole loop stores every sample over the previous baseline. *)
Lemma baseline_loop units (t : T UnitStateRow) :
  unique_key state_key t ->
  let t' := fold_left baseline_step units t in
  unique_key state_key t' /\
  baseline sourceId t' = Health.refresh (baseline sourceId t) (map core_of_push units) /\
  (forall r, us_sourceId r <> sourceId -> r ∈ rows t' <-> r ∈ rows t) /\
  (forall r, r ∈ rows t' -> us_sourceId r = sourceId -> us_entity r ∈ map push_entity units ->
     us_updatedAt r = now).
Proof.
  enough (He : forall t, unique_key state_key t -> let t' := fold_left baseline_step units t in
    unique_key state_key t' /\
    baseline sourceId t' = Health.refresh (baseline sourceId t) (map core_of_push units) /\
    (forall r, us_sourceId r <> sourceId \/ us_entity r ∉ map push_entity units ->
       r ∈ rows t' <-> r ∈ rows t) /\
    (forall r, r ∈ rows t' -> us_sourceId r = sourceId -> us_entity r ∈ map push_entity units ->
       us_updatedAt r = now)).
  { intros Hu. destruct (He t Hu) as (H1 & H2 & H3 & H4). eauto 10. }
  clear t. induction units as [|u units IH]; intros t Hu.
  { do 3 (split; [done|]). intros r _ _ Hin. by apply elem_of_nil in Hin. }
  destruct (baseline_step_spec t u Hu) as (Hu1 & Hb1 & Hs1 & Hn1).
  destruct (IH _ Hu1) as (Hu2 & Hb2 & Hs2 & Hn2). cbn [fold_left map].
  split; [done|]. split; [by rewrite Hb2, Hb1|]. split.
  - intros r Hr. rewrite not_elem_of_cons in Hr. rewrite Hs2, Hs1 by (unfold state_key; naive_solver).
    done.
  - intros r Hr Hsrc Hin. destruct (decide (us_entity r ∈ map push_entity units)) as [Hl|Hl]; [by apply Hn2|].
    apply Hs2 in Hr; [|by right]. apply Hn1; [done|].
    apply elem_of_cons in Hin as [He|]; [unfold state_key; congruence|done].
Qed.

(** C1: any push leaves exactly the durable trace of its diff: the event table gains one row per
    derived event and nothing else, the log one line per status change, and every other source keeps
    its state. Where no two units of the push have the same entity, the events also replay: over the
    old statuses of the source they give the new ones. (A push that names an entity twice does not
    replay: [Health.diffStates_duplicate_entity_diverges].) *)
Theorem processUnits_refines db units (Hk : keyed db) :
  let db' := processUnits db units in
  let events := derived_events sourceId db units in
  unique_key state_key (unitStates db') /\
  rows (statusEvents db') ≡ₚ imap (event_row newId now sourceId) events ++ rows (statusEvents db) /\
  rows (logs db') ≡ₚ imap (log_row newId now sourceId) (status_changes events) ++ rows (logs db) /\
  (NoDup (map push_entity units) ->
   replay (status <$> baseline sourceId (unitStates db)) events =
     status <$> baseline sourceId (unitStates db')) /\
  (forall r, us_sourceId r <> sourceId -> r ∈ rows (unitStates db') <-> r ∈ rows (unitStates db)).
Proof.
  intros db' events.
  destruct (baseline_loop units (unitStates db) (proj1 Hk)) as (Hu & Hb & Hs & _).
  assert (Hr : NoDup (map push_entity units) -> replay (status <$> baseline sourceId (unitStates db)) events =
    status <$> Health.refresh (baseline sourceId (unitStates db)) (map core_of_push units)).
  { intros Hd. rewrite refresh_status. apply status_replay.
    - rewrite map_map. exact Hd.
    - intros s _. by rewrite lookup_fmap. }
  unfold db', Pipeline.processUnits. destruct (Nat.eqb_spec (List.length units) 0) as [Hl|Hl].
  - destruct units; [|done]. split; [apply Hk|]. split; [done|]. split; [done|]. done.
  - simpl. split; [done|]. split; [apply rows_insert_all|]. split; [apply rows_insert_all|].
    split; [intros Hd; by rewrite Hb, <- (Hr Hd)|done].
Qed.

(** *** Uptime *)

Definition sum_map {R} (g : R -> Z) (l : list R) : Z := foldr (fun r acc => g r + acc) 0 l.

Lemma sum_map_perm {R} (g : R -> Z) l1 l2 : l1 ≡ₚ l2 -> sum_map g l1 = sum_map g l2.
Proof. unfold sum_map. induction 1; simpl; lia. Qed.

(** The value [f] of the buckets of one entity of one source, added up. *)
Definition of_entity (f : UptimeBucketRow -> Z) (src n : string) (r : UptimeBucketRow) : Z :=
  if String.eqb (ub_sourceId r) src && String.eqb (ub_entity r) n then f r else 0.
Definition secs (f : UptimeBucketRow -> Z) (src n : string) (t : T UptimeBucketRow) : Z :=
  sum_map (of_entity f src n) (rows t).

Definition bucket_ok (t : T UptimeBucketRow) : Prop :=
  forall r, r ∈ rows t -> 0 <= ub_upSec r <= ub_totalSec r.

(** What one sample adds for its entity: seconds up and seconds in all. *)
Definition contribution (prev : gmap string PrevState) (n : string) : Z * Z :=
  match prev !! n with
  | Some p => (if status_eqb (prev_status p) UP then deltaSec now p else 0, deltaSec now p)
  | None => (0, 0)
  end.

Definition when (b : bool) (z : Z) : Z := if b then z else 0.

Lemma uptime_step_spec prev (t : T UptimeBucketRow) u :
  unique_key bucket_key t ->
  let t' := uptime_step prev t u in
  let mine src n := String.eqb sourceId src && String.eqb (push_entity u) n in
  unique_key bucket_key t' /\ (bucket_ok t -> bucket_ok t') /\
  forall src n,
    secs ub_upSec src n t' = secs ub_upSec src n t + when (mine src n) (contribution prev (push_entity u)).1 /\
    secs ub_totalSec src n t' = secs ub_totalSec src n t + when (mine src n) (contribution prev (push_entity u)).2.
Proof.
  intros Hu t' mine. unfold t', Pipeline.uptime_step, contribution.
  destruct (prev !! push_entity u) as [p|]; [|by unfold when; do 2 (split; [done|]);
    intros src n; destruct (mine src n); simpl; lia].
  pose proof (deltaSec_bounds now p) as Hb. simpl.
  set (addUp := if status_eqb (prev_status p) UP then deltaSec now p else 0).
  assert (Ha : 0 <= addUp <= deltaSec now p) by (unfold addUp; destruct (status_eqb _ _); lia).
  clearbody addUp. destruct (Z.leb_spec (deltaSec now p) 0) as [Hz|Hpos].
  { split; [done|]. split; [done|]. intros src n. unfold when. destruct (mine src n); lia. }
  set (f := fun r => set_ub_upSec (ub_upSec r + addUp) (set_ub_totalSec (ub_totalSec r + deltaSec now p) r)).
  set (row := Build_UptimeBucketRow _ _ _ _ _ _ _).
  split; [apply unique_key_upsert; [done| |done]; intros x; apply uptimeBuckets_conflict_key|].
  destruct (rows_upsert bucket_key uptimeBuckets_conflict f row t Hu)
    as [[Hr _]|(r0 & rest & Ht & Hk & _ & Hr)]; [by intros; apply uptimeBuckets_conflict_key|..].
  - split.
    + intros Hok r Hin. rewrite Hr in Hin. apply elem_of_cons in Hin as [->|Hin]; [simpl; lia|by apply Hok].
    + intros src n. unfold secs. rewrite !(sum_map_perm _ _ _ Hr). cbn [sum_map foldr].
      fold (sum_map (of_entity ub_upSec src n) (rows t)) (sum_map (of_entity ub_totalSec src n) (rows t)).
      generalize (sum_map (of_entity ub_upSec src n) (rows t)), (sum_map (of_entity ub_totalSec src n) (rows t)).
      intros s1 s2. unfold of_entity, when, mine. simpl. destruct (_ && _); lia.
  - assert (Hsame : String.eqb (ub_sourceId r0) = String.eqb sourceId /\
      String.eqb (ub_entity r0) = String.eqb (push_entity u))
      by (unfold bucket_key, row in Hk; simpl in Hk; by injection Hk as -> -> _).
    split.
    + intros Hok r Hin. rewrite Hr in Hin. apply elem_of_cons in Hin as [->|Hin].
      * specialize (Hok r0). rewrite Ht in Hok. specialize (Hok (list_elem_of_here _ _)). simpl. lia.
      * apply Hok. rewrite Ht. by apply elem_of_cons; right.
    + intros src n. unfold secs. rewrite !(sum_map_perm _ _ _ Hr), !(sum_map_perm _ _ _ Ht). cbn [sum_map foldr].
      fold (sum_map (of_entity ub_upSec src n) rest) (sum_map (of_entity ub_totalSec src n) rest).
      generalize (sum_map (of_entity ub_upSec src n) rest), (sum_map (of_entity ub_totalSec src n) rest).
      intros s1 s2. unfold of_entity, when, mine. simpl. destruct Hsame as [-> ->].
      destruct (_ && _); lia.
Qed.

(** How often a batch samples an entity. *)
Definition occurrences (n : string) (units : list UnitPush) : Z :=
  sum_map (fun u => if String.eqb (push_entity u) n then 1 else 0) units.

Lemma uptime_loop prev units (t : T UptimeBucketRow) :
  unique_key bucket_key t ->
  let t' := fold_left (uptime_step prev) units t in
  unique_key bucket_key t' /\ (bucket_ok t -> bucket_ok t') /\
  forall src n,
    secs ub_upSec src n t' = secs ub_upSec src n t +
      when (String.eqb sourceId src) (occurrences n units * (contribution prev n).1) /\
    secs ub_totalSec src n t' = secs ub_totalSec src n t +
      when (String.eqb sourceId src) (occurrences n units * (contribution prev n).2).
Proof.
  revert t. induction units as [|u units IH]; intros t Hu.
  - simpl. do 2 (split; [done|]). intros src n. unfold when. simpl. destruct (String.eqb _ _); lia.
  - destruct (uptime_step_spec prev t u Hu) as (Hu1 & Hok1 & Hs1).
    destruct (IH _ Hu1) as (Hu2 & Hok2 & Hs2). simpl fold_left.
    split; [done|]. split; [tauto|]. intros src n.
    destruct (Hs1 src n) as [H1 H2], (Hs2 src n) as [H3 H4]. rewrite H3, H4, H1, H2.
    unfold when, occurrences. simpl sum_map.
    destruct (String.eqb sourceId src); simpl; [|lia].
    destruct (String.eqb_spec (push_entity u) n) as [->|]; lia.
Qed.

(** C11: uptime is conserved: a push adds to the buckets of each sampled entity, once per
    sample, the whole seconds since the entity was last stored, at most an hour, and to
    the up-seconds the same amount exactly if it was UP; nothing else changes and every
    bucket keeps 0 <= upSec <= totalSec. *)
Theorem uptime_conserved db units (Hk : keyed db) :
  let db' := processUnits db units in
  let prev := prev_map sourceId (unitStates db) in
  unique_key bucket_key (uptimeBuckets db') /\
  (bucket_ok (uptimeBuckets db) -> bucket_ok (uptimeBuckets db')) /\
  forall src n,
    let held := match prev !! n with
      | Some p => Z.min 3600 (Z.max 0 ((now - prev_updatedAt p) / 1000)) | None => 0 end in
    let up := match prev !! n with Some p => status_eqb (prev_status p) UP | None => false end in
    secs ub_totalSec src n (uptimeBuckets db') = secs ub_totalSec src n (uptimeBuckets db) +
      when (String.eqb sourceId src) (occurrences n units * held) /\
    secs ub_upSec src n (uptimeBuckets db') = secs ub_upSec src n (uptimeBuckets db) +
      when (String.eqb sourceId src) (occurrences n units * when up held).
Proof.
  intros db' prev.
  destruct (uptime_loop prev units (uptimeBuckets db) (proj2 Hk)) as (Hu & Hok & Hs).
  assert (Hb : uptimeBuckets db' = fold_left (uptime_step prev) units (uptimeBuckets db)).
  { unfold db', Pipeline.processUnits. destruct (Nat.eqb_spec (List.length units) 0); [|done].
    by destruct units. }
  rewrite Hb. split; [done|]. split; [done|]. intros src n. cbv zeta.
  destruct (Hs src n) as [H1 H2]. rewrite H1, H2. unfold contribution, deltaSec, MAX_INTERVAL_SEC, when.
  destruct (prev !! n) as [p|]; simpl; [|done]. by destruct (status_eqb (prev_status p) UP).
Qed.

(** Storing samples that are stored already changes nothing. *)
Lemma refresh_fixed (m : gmap string UnitSample) cur :
  (forall s, s ∈ cur -> m !! entity s = Some s) -> Health.refresh m cur = m.
Proof.
  unfold Health.refresh. induction cur as [|s cur IH]; intros Hl; [done|]. simpl.
  rewrite insert_id by apply Hl, list_elem_of_here. apply IH. intros s' Hs'. apply Hl.
  by apply elem_of_cons; right.
Qed.

Lemma unchanged_diff (m : gmap string UnitSample) cur :
  (forall s, s ∈ cur -> m !! entity s = Some s) -> diffStates m cur = [].
Proof.
  unfold diffStates. induction cur as [|s l IH]; intros Hl; [done|]. cbn [flat_map].
  rewrite Hl by apply list_elem_of_here. rewrite unchanged_no_events. apply IH.
  intros s' Hs'. apply Hl. by apply elem_of_cons; right.
Qed.

Lemma no_elapsed_time prev units (t : T UptimeBucketRow) :
  (forall u p, u ∈ units -> prev !! push_entity u = Some p -> prev_updatedAt p = now) ->
  fold_left (uptime_step prev) units t = t.
Proof.
  revert t. induction units as [|u units IH]; intros t Hnow; [done|]. cbn [fold_left].
  assert (uptime_step prev t u = t) as ->.
  - unfold Pipeline.uptime_step. destruct (prev !! push_entity u) as [p|] eqn:Hp; [|done].
    unfold deltaSec. rewrite (Hnow u p (list_elem_of_here _ _) Hp). by rewrite Z.sub_diag.
  - apply IH. intros u' p Hu'. apply Hnow. by apply elem_of_cons; right.
Qed.

(** Pushing the same batch of distinct entities again at the same instant records
    nothing: no event, log line, notification or uptime, and the baseline stays. *)
Theorem processUnits_idempotent db units (Hk : keyed db) (Hd : NoDup (map push_entity units)) :
  let db' := processUnits db units in
  let db'' := processUnits db' units in
  statusEvents db'' = statusEvents db' /\ logs db'' = logs db' /\
  notifications db'' = notifications db' /\ uptimeBuckets db'' = uptimeBuckets db' /\
  baseline sourceId (unitStates db'') = baseline sourceId (unitStates db').
Proof.
  intros db' db''. unfold db'', db'. destruct units as [|u0 units0] eqn:Hunits; [done|].
  rewrite <- Hunits in *. assert (Hn : Nat.eqb (List.length units) 0 = false) by (by subst).
  destruct (baseline_loop units (unitStates db) (proj1 Hk)) as (Hu & Hb & _ & Hnow).
  set (st' := fold_left baseline_step units (unitStates db)) in *.
  set (cur := map core_of_push units) in *.
  assert (Hcur : NoDup (map entity cur)) by (unfold cur; rewrite map_map; exact Hd).
  assert (Hlk : forall s, s ∈ cur -> baseline sourceId st' !! entity s = Some s)
    by (intros; rewrite Hb; by apply refresh_lookup).
  assert (Hun : unitStates (processUnits db units) = st') by (unfold Pipeline.processUnits; by rewrite Hn).
  set (db1 := processUnits db units) in *. unfold Pipeline.processUnits. rewrite Hn.
  unfold derived_events. rewrite Hun. fold cur. rewrite (unchanged_diff _ _ Hlk). simpl.
  split; [done|]. split; [done|]. split; [done|]. split.
  - apply no_elapsed_time. intros u p Hin Hp. apply prev_map_lookup in Hp as (r & Hr & Hkey & ->); [|done].
    unfold state_key in Hkey. injection Hkey as Hsrc Hent. apply (Hnow r Hr Hsrc).
    apply elem_of_map. by exists u.
  - destruct (baseline_loop units st' Hu) as (_ & Hb2 & _). rewrite Hb2. fold cur. by apply refresh_fixed.
Qed.
End theorems.

(** ** The theorems at concrete inputs *)

Definition w_id (table : string) (i : nat) : string := table.

Definition w_db : TelemetryDb list := {|
  statusEvents := []; logs := []; notifications := []; uptimeBuckets := [];
  unitStates := [{| us_sourceId := "a1"; us_entity := "web"; us_status := "UP"; us_pid := Some 7;
    us_critical := true; us_sample := None; us_updatedAt := 1782280377123 |}];
  processMetrics := []; hostMetrics := [] |}.

Definition w_units : list UnitPush :=
  [{| push_entity := "web"; push_status := DOWN; push_pid := None; push_critical := Some true;
      push_meta := None |};
   {| push_entity := "db"; push_status := UP; push_pid := Some 3; push_critical := None;
      push_meta := None |}].

Definition w_now : Z := 1782280407123.

Lemma w_keyed : keyed w_db.
Proof. split; [apply NoDup_singleton|apply NoDup_nil_2]. Qed.

Lemma w_distinct : NoDup (map push_entity w_units).
Proof. apply (bool_decide_unpack _). vm_compute. exact I. Qed.

Lemma processUnits_refines_witness :
  replay (status <$> baseline "a1" (unitStates w_db)) (derived_events "a1" w_db w_units) =
    status <$> baseline "a1" (unitStates (processUnits w_id w_now "a1" w_db w_units)).
Proof.
  destruct (processUnits_refines w_id w_now "a1" w_db w_units w_keyed) as (_ & _ & _ & H & _).
  exact (H w_distinct).
Defined.

Lemma uptime_conserved_witness :
  secs ub_upSec "a1" "web" (uptimeBuckets (processUnits w_id w_now "a1" w_db w_units)) = 30.
Proof.
  destruct (uptime_conserved w_id w_now "a1" w_db w_units w_keyed) as (_ & _ & H).
  destruct (H "a1" "web") as [_ Hup]. etransitivity; [exact Hup|]. vm_compute. reflexivity.
Defined.

Lemma processUnits_idempotent_witness :
  let db1 := processUnits w_id w_now "a1" w_db w_units in
  List.length (statusEvents db1) = 2%nat /\
  statusEvents (processUnits w_id w_now "a1" db1 w_units) = statusEvents db1.
Proof.
  split; [vm_compute; reflexivity|].
  apply (processUnits_idempotent w_id w_now "a1" w_db w_units w_keyed w_distinct).
Defined.

(** A bucket can hold more than the hour it is named after: the interval is credited to
    the hour it began in. *)
Example bucket_over_an_hour :
  let push now db := processUnits w_id now "a1" db
    [{| push_entity := "web"; push_status := UP; push_pid := Some 7; push_critical := None;
        push_meta := None |}] in
  map (fun r => (ub_bucketStart r, ub_totalSec r))
    (uptimeBuckets (push (1782280377123 + 3900000) (push (1782280377123 + 400000) w_db)))
  = [(1782277200000, 3900)].
Proof. vm_compute. reflexivity. Qed.
