(* ===== verification/Devices.v ===== *)
(** * Wallboard displays

    Models apps/backend/src/services/devices.ts: a display is created with a one-time pairing
    code, claims it for a device token of which only the SHA-256 is stored, reconnects by its
    fingerprint, and is revoked or deleted by an operator. Times, random numbers, tokens and
    row ids are arguments. *)
From S2P Require Import Prelude Dates Text Store Schema RowUpdates Settings Auth Directory.

Definition DEVICE_SESSION_TTL_KEY : string := "deviceSessionTtlSec".
Definition DEVICE_SESSION_TTL_DEFAULT : Q := 2592000.
Definition ONLINE_WINDOW_MS : Z := 90000.

(** [a ?? b] of two nullable values. *)
Definition or_else {A} (a b : option A) : option A :=
  match a with Some _ => a | None => b end.

(** A nullable id that is neither null nor empty. *)
Definition nonempty (s : option string) : option string :=
  match s with Some v => if truthy v then Some v else None | None => None end.

Record WallDeviceDTO : Type := {
  wd_id : string; wd_name : string; wd_status : string; wd_pairingCode : option string;
  wd_layoutId : option string; wd_groupId : option string; wd_effectiveLayoutId : option string;
  wd_online : bool; wd_lastSeenAt : option Z; wd_approvedAt : option Z; wd_createdAt : Z
}.

Record WallDeviceGroupDTO : Type := {
  wg_id : string; wg_name : string; wg_layoutId : option string; wg_createdAt : Z
}.

Record ClaimInput : Type := {
  ci_code : string; ci_fingerprint : option string; ci_name : option string
}.

(** The tables the service works on. *)
Record WallDb (T : Type -> Type) : Type := {
  wallLayouts : T WallLayoutRow; wallDeviceGroups : T WallDeviceGroupRow;
  wallDevices : T WallDeviceRow
}.
Arguments wallLayouts {T} _. Arguments wallDeviceGroups {T} _. Arguments wallDevices {T} _.

Definition with_devices {T : Type -> Type} (t : T WallDeviceRow) (db : WallDb T) : WallDb T := {|
  wallLayouts := wallLayouts db; wallDeviceGroups := wallDeviceGroups db; wallDevices := t |}.
Definition with_deviceGroups {T : Type -> Type} (t : T WallDeviceGroupRow) (db : WallDb T)
  : WallDb T := {|
  wallLayouts := wallLayouts db; wallDeviceGroups := t; wallDevices := wallDevices db |}.

(** The code of one random number in [[0, 1)]. *)
Definition pairing_code (random : Q) : string :=
  String_of_int (Qfloor (100000 + random * 900000)).

Definition toDTO (now : Z) (r : WallDeviceRow) (groupLayoutId : option string) : WallDeviceDTO := {|
  wd_id := dev_id r; wd_name := dev_name r; wd_status := dev_status r;
  wd_pairingCode := if String.eqb (dev_status r) "pending" then Some (dev_pairingCode r) else None;
  wd_layoutId := dev_layoutId r; wd_groupId := dev_groupId r;
  wd_effectiveLayoutId := or_else (dev_layoutId r) groupLayoutId;
  wd_online := String.eqb (dev_status r) "approved" &&
    match dev_lastSeenAt r with Some t => now - t <? ONLINE_WINDOW_MS | None => false end;
  wd_lastSeenAt := dev_lastSeenAt r; wd_approvedAt := dev_approvedAt r;
  wd_createdAt := dev_createdAt r
|}.

Definition groupToDTO (r : WallDeviceGroupRow) : WallDeviceGroupDTO := {|
  wg_id := dgroup_id r; wg_name := dgroup_name r; wg_layoutId := dgroup_layoutId r;
  wg_createdAt := dgroup_createdAt r |}.

Section devices.
Context {T : Type -> Type} {ST : Store T} {HS : Sha256}.
Implicit Types db : WallDb T.

Definition by_id (id : string) (d : WallDeviceRow) : bool := String.eqb (dev_id d) id.
Definition has_code (code : string) (d : WallDeviceRow) : bool :=
  String.eqb (dev_pairingCode d) code.
Definition has_fingerprint (fingerprint : string) (d : WallDeviceRow) : bool :=
  bool_decide (dev_fingerprint d = Some fingerprint).
Definition has_token (rawToken : string) (d : WallDeviceRow) : bool :=
  bool_decide (dev_tokenHash d = Some (sha256 rawToken)).

(** [update ... set f where p returning] *)
Definition update_returning {R} (p : R -> bool) (f : R -> R) (t : T R) : T R * option R :=
  (update_where p f t, option_map f (select_first p t)).

Fixpoint first_free_code (draws : list Q) db : option string :=
  match draws with
  | [] => None
  | random :: draws =>
      let code := pairing_code random in
      match select_first (has_code code) (wallDevices db) with
      | None => Some code
      | Some _ => first_free_code draws db
      end
  end.

(** [draw i] is the [i]-th result of [Math.random()]. *)
Definition genPairingCode (now : Z) (draw : nat -> Q) db : string :=
  match first_free_code (map draw (seq 0 12)) db with
  | Some code => code
  | None => slice_last 6 (String_of_int now)
  end.

Definition sessionTtlSec (settings : T SettingRow) : Q :=
  positive_or (getSetting settings DEVICE_SESSION_TTL_KEY) DEVICE_SESSION_TTL_DEFAULT.

Definition group_layout db (groupId : string) : option string :=
  match select_first (fun g => String.eqb (dgroup_id g) groupId) (wallDeviceGroups db) with
  | Some g => dgroup_layoutId g
  | None => None
  end.

Definition hydrate (now : Z) db (row : WallDeviceRow) : WallDeviceDTO :=
  match nonempty (dev_groupId row) with
  | None => toDTO now row None
  | Some groupId => toDTO now row (group_layout db groupId)
  end.

Definition new_device (now : Z) (id name pairingCode : string) : WallDeviceRow := {|
  dev_id := id; dev_name := name; dev_status := "pending"; dev_pairingCode := pairingCode;
  dev_tokenHash := None; dev_fingerprint := None; dev_layoutId := None; dev_groupId := None;
  dev_ipBound := None; dev_lastSeenAt := None; dev_approvedAt := None;
  dev_createdAt := now; dev_updatedAt := now |}.

Definition createDevice (now : Z) (draw : nat -> Q) (id : string) db (name : string)
  : WallDb T * result ServiceError WallDeviceDTO :=
  let row := new_device now id name (genPairingCode now draw db) in
  match insert_unique wallDevices_conflict row (wallDevices db) with
  | None => (db, Err UniqueViolation)
  | Some devices => (with_devices devices db, Ok (hydrate now db row))
  end.

(** What both branches of a claim set. *)
Definition approve (now : Z) (token : string) (d : WallDeviceRow) : WallDeviceRow :=
  set_dev_status "approved" (set_dev_approvedAt (Some now) (set_dev_lastSeenAt (Some now)
    (set_dev_tokenHash (Some (sha256 token)) d))).

(** The row of an earlier pairing of the same screen, if it is another one. *)
Definition earlier_pairing db (fingerprint : option string) (pending : WallDeviceRow)
  : option WallDeviceRow :=
  match nonempty fingerprint with
  | Some f =>
      match select_first (has_fingerprint f) (wallDevices db) with
      | Some existing => if negb (by_id (dev_id pending) existing) then Some existing else None
      | None => None
      end
  | None => None
  end.

(** Returns the device id and the token. *)
Definition claimDevice (now : Z) (token : string) db (input : ClaimInput)
  : WallDb T * option (string * string) :=
  match select_first (has_code (ci_code input)) (wallDevices db) with
  | None => (db, None)
  | Some pending =>
      if negb (String.eqb (dev_status pending) "pending") then (db, None) else
      match earlier_pairing db (ci_fingerprint input) pending with
      | Some existing =>
          let devices := delete_where (by_id (dev_id pending)) (wallDevices db) in
          (with_devices (update_where (by_id (dev_id existing))
             (fun d => set_dev_name (default (dev_name existing) (ci_name input))
                         (approve now token d)) devices) db,
           Some (dev_id existing, token))
      | None =>
          (with_devices (update_where (by_id (dev_id pending))
             (fun d => set_dev_fingerprint (ci_fingerprint input) (approve now token d))
             (wallDevices db)) db,
           Some (dev_id pending, token))
      end
  end.

(** The board of each group, by id. *)
Definition listDevices (now : Z) db : list WallDeviceDTO :=
  let groupLayout := js_map dgroup_id dgroup_layoutId (rows (wallDeviceGroups db)) in
  map (fun r => toDTO now r
         match nonempty (dev_groupId r) with
         | Some g => default None (map_get g groupLayout)
         | None => None
         end) (rows (wallDevices db)).

Definition listGroups db : list WallDeviceGroupDTO :=
  map groupToDTO (rows (wallDeviceGroups db)).

Definition createGroup (now : Z) (id : string) db (name : string) : WallDb T * WallDeviceGroupDTO :=
  let row := {| dgroup_id := id; dgroup_name := name; dgroup_layoutId := None;
                dgroup_createdAt := now; dgroup_updatedAt := now |} in
  (with_deviceGroups (insert_row row (wallDeviceGroups db)) db, groupToDTO row).

(** The foreign key holds of the new value: it is null or the id of a row. *)
Definition fk_ok {R} (key : R -> string) (t : T R) (v : option string) : bool :=
  match v with Some id => exists_row (fun r => String.eqb (key r) id) t | None => true end.

(** In [layoutId], [Some None] sets the column to null. *)
Definition updateGroup (now : Z) db (id : string) (name : option string)
    (layoutId : option (option string)) : WallDb T * result ServiceError (option WallDeviceGroupDTO) :=
  let set r := opt_set set_dgroup_layoutId layoutId
    (opt_set set_dgroup_name name (set_dgroup_updatedAt now r)) in
  let '(groups, row) :=
    update_returning (fun g => String.eqb (dgroup_id g) id) set (wallDeviceGroups db) in
  match row with
  | None => (db, Ok None)
  | Some row =>
      if fk_ok layout_id (wallLayouts db) (default None layoutId)
      then (with_deviceGroups groups db, Ok (Some (groupToDTO row)))
      else (db, Err ForeignKeyViolation)
  end.

Definition in_group (id : string) (d : WallDeviceRow) : bool :=
  bool_decide (dev_groupId d = Some id).

Definition deleteGroup db (id : string) : WallDb T * bool :=
  let same g := String.eqb (dgroup_id g) id in
  (with_devices (update_where (in_group id) (set_dev_groupId None) (wallDevices db))
     (with_deviceGroups (delete_where same (wallDeviceGroups db)) db),
   exists_row same (wallDeviceGroups db)).

(** One row by id, re-read with its group's board. *)
Definition update_device (now : Z) (f : WallDeviceRow -> WallDeviceRow) db (id : string)
  : WallDb T * option WallDeviceDTO :=
  let '(devices, row) := update_returning (by_id id) f (wallDevices db) in
  let db' := with_devices devices db in
  (db', option_map (hydrate now db') row).

(** The same, where the statement also sets a foreign key. *)
Definition update_device_fk (fk : bool) (now : Z) (f : WallDeviceRow -> WallDeviceRow) db (id : string)
  : WallDb T * result ServiceError (option WallDeviceDTO) :=
  if negb fk && exists_row (by_id id) (wallDevices db) then (db, Err ForeignKeyViolation)
  else let '(db', dto) := update_device now f db id in (db', Ok dto).

Definition assignGroup (now : Z) db (id : string) (groupId : option string) :=
  update_device_fk (fk_ok dgroup_id (wallDeviceGroups db) groupId) now
    (fun d => set_dev_groupId groupId (set_dev_updatedAt now d)) db id.

Definition assignLayout (now : Z) db (id : string) (layoutId : option string) :=
  update_device_fk (fk_ok layout_id (wallLayouts db) layoutId) now
    (fun d => set_dev_layoutId layoutId (set_dev_updatedAt now d)) db id.

Definition revokeDevice (now : Z) db (id : string) : WallDb T * option WallDeviceDTO :=
  update_device now (fun d => set_dev_status "revoked" (set_dev_tokenHash None d)) db id.

Definition deleteDevice db (id : string) : WallDb T * bool :=
  (with_devices (delete_where (by_id id) (wallDevices db)) db,
   exists_row (by_id id) (wallDevices db)).

(** No check-in within the session lifetime. *)
Definition expired (now : Z) (settings : T SettingRow) (row : WallDeviceRow) : bool :=
  match or_else (dev_lastSeenAt row) (dev_approvedAt row) with
  | Some base => negb (Qle_bool (inject_Z (now - base)) (sessionTtlSec settings * 1000))
  | None => false
  end.

Definition reconnectDevice (now : Z) (token : string) (settings : T SettingRow) db
    (fingerprint : string) : WallDb T * option (string * string) :=
  match select_first (has_fingerprint fingerprint) (wallDevices db) with
  | None => (db, None)
  | Some row =>
      if negb (String.eqb (dev_status row) "approved") then (db, None)
      else if expired now settings row then (db, None)
      else
        (with_devices (update_where (by_id (dev_id row))
           (fun d => set_dev_tokenHash (Some (sha256 token)) (set_dev_lastSeenAt (Some now) d))
           (wallDevices db)) db,
         Some (dev_id row, token))
  end.

Definition resolveDeviceToken (now : Z) (settings : T SettingRow) (devices : T WallDeviceRow)
    (rawToken : string) : option WallDeviceRow :=
  match select_first (has_token rawToken) devices with
  | None => None
  | Some row =>
      if negb (String.eqb (dev_status row) "approved") then None
      else if expired now settings row then None
      else Some row
  end.

Definition touchDevice (now : Z) db (id : string) : WallDb T :=
  with_devices (update_where (by_id id) (set_dev_lastSeenAt (Some now)) (wallDevices db)) db.

Definition getDeviceBundle db (deviceId : string) : option (string * option string) :=
  match select_first (by_id deviceId) (wallDevices db) with
  | None => None
  | Some row =>
      let groupLayoutId := match nonempty (dev_groupId row) with
                           | Some g => group_layout db g | None => None end in
      Some (dev_name row, or_else (dev_layoutId row) groupLayoutId)
  end.

(** Every call that changes the tables, as a step; a fresh token's hash is in no row. *)
Definition fresh_token (token : string) db : Prop :=
  forall d, d ∈ rows (wallDevices db) -> dev_tokenHash d <> Some (sha256 token).

Inductive wall_step : WallDb T -> WallDb T -> Prop :=
| step_create now draw id name db : wall_step db (createDevice now draw id db name).1
| step_claim now token input db :
    fresh_token token db -> wall_step db (claimDevice now token db input).1
| step_reconnect now token settings f db :
    truthy f = true -> fresh_token token db ->
    wall_step db (reconnectDevice now token settings db f).1
| step_revoke now id db : wall_step db (revokeDevice now db id).1
| step_delete id db : wall_step db (deleteDevice db id).1
| step_touch now id db : wall_step db (touchDevice now db id)
| step_assign_group now id g db : wall_step db (assignGroup now db id g).1
| step_assign_layout now id l db : wall_step db (assignLayout now db id l).1
| step_create_group now id name db : wall_step db (createGroup now id db name).1
| step_update_group now id name l db : wall_step db (updateGroup now db id name l).1
| step_delete_group id db : wall_step db (deleteGroup db id).1.

(** The states reached from one without displays. *)
Inductive reachable : WallDb T -> Prop :=
| reach_init db : rows (wallDevices db) = [] -> reachable db
| reach_step db db' : reachable db -> wall_step db db' -> reachable db'.
End devices.

(** ** Invariant *)

(** The three states of a display. *)
Definition row_ok (d : WallDeviceRow) : Prop :=
  (dev_status d = "pending" /\ dev_tokenHash d = None /\ dev_fingerprint d = None) \/
  (dev_status d = "approved" /\ is_Some (dev_tokenHash d) /\ is_Some (dev_approvedAt d)) \/
  (dev_status d = "revoked" /\ dev_tokenHash d = None).

Definition screen (d : WallDeviceRow) : option string := nonempty (dev_fingerprint d).

Section theorems.
Context {T : Type -> Type} {ST : Store T} {LT : StoreLaws T} {HS : Sha256}.
Implicit Types (db : WallDb T) (t : T WallDeviceRow).

(** An update that returns no row changed none. *)
Lemma returning_nothing {R} p (f : R -> R) (t t' : T R) : update_returning p f t = (t', None) -> same_rows t t'.
Proof.
  unfold update_returning. intros [= <- H]. apply update_nothing. by destruct (select_first p t).
Qed.


(** At most one display has a given value of [key]. *)
Definition distinct (key : WallDeviceRow -> option string) t : Prop :=
  forall d d' v, d ∈ rows t -> d' ∈ rows t -> key d = Some v -> key d' = Some v ->
    dev_id d = dev_id d'.

Record device_inv t : Prop := {
  inv_ids : unique_key dev_id t;
  inv_codes : unique_key dev_pairingCode t;
  inv_rows : forall d, d ∈ rows t -> row_ok d;
  inv_screens : distinct screen t;
  inv_tokens : distinct dev_tokenHash t
}.

Lemma by_id_iff id d : by_id id d = true <-> dev_id d = id.
Proof. apply String.eqb_eq. Qed.

Lemma by_id_neq id d : by_id id d = false <-> dev_id d <> id.
Proof. apply String.eqb_neq. Qed.

Lemma distinct_update_id key i f t :
  (forall d, dev_id (f d) = dev_id d) ->
  (forall d d' v, d ∈ rows t -> d' ∈ rows t -> dev_id d = i -> dev_id d' <> i ->
     key (f d) = Some v -> key d' <> Some v) ->
  distinct key t -> distinct key (update_where (by_id i) f t).
Proof.
  intros Hid Hk Hd x x' v (d & Hx & ->)%elem_of_update (d' & Hx' & ->)%elem_of_update.
  destruct (by_id i d) eqn:E, (by_id i d') eqn:E';
    rewrite ?by_id_iff, ?by_id_neq in *; rewrite ?Hid; intros H1 H2.
  - congruence.
  - by destruct (Hk d d' v).
  - by destruct (Hk d' d v).
  - by eapply Hd.
Qed.

Lemma device_inv_update i f t :
  (forall d, dev_id (f d) = dev_id d) -> (forall d, dev_pairingCode (f d) = dev_pairingCode d) ->
  (forall d, d ∈ rows t -> dev_id d = i -> row_ok (f d)) ->
  (forall d d' v, d ∈ rows t -> d' ∈ rows t -> dev_id d = i -> dev_id d' <> i ->
     screen (f d) = Some v -> screen d' <> Some v) ->
  (forall d d' v, d ∈ rows t -> d' ∈ rows t -> dev_id d = i -> dev_id d' <> i ->
     dev_tokenHash (f d) = Some v -> dev_tokenHash d' <> Some v) ->
  device_inv t -> device_inv (update_where (by_id i) f t).
Proof.
  intros Hid Hcode Hok Hs Ht [H1 H2 H3 H4 H5]. split.
  - by apply unique_key_update.
  - by apply unique_key_update.
  - intros x (d & Hd & ->)%elem_of_update. destruct (by_id i d) eqn:E; [|auto].
    apply Hok; [done|]. by apply by_id_iff.
  - by apply distinct_update_id.
  - by apply distinct_update_id.
Qed.

(** An update that touches neither state nor credentials. *)
Lemma device_inv_same p f t :
  (forall d, dev_id (f d) = dev_id d /\ dev_pairingCode (f d) = dev_pairingCode d /\
     dev_status (f d) = dev_status d /\ dev_tokenHash (f d) = dev_tokenHash d /\
     dev_fingerprint (f d) = dev_fingerprint d /\ dev_approvedAt (f d) = dev_approvedAt d) ->
  device_inv t -> device_inv (update_where p f t).
Proof.
  intros Hf [H1 H2 H3 H4 H5].
  assert (Hd : forall key, (forall d, key (f d) = key d) -> distinct key t ->
    distinct key (update_where p f t)).
  { intros key Hk Hd x x' v (d & Hx & ->)%elem_of_update (d' & Hx' & ->)%elem_of_update.
    specialize (Hd d d' v Hx Hx'). destruct (Hf d) as [Hd1 _], (Hf d') as [Hd2 _].
    destruct (p d), (p d'); by rewrite ?Hk, ?Hd1, ?Hd2. }
  split.
  - apply unique_key_update; [|done]. apply Hf.
  - apply unique_key_update; [|done]. apply Hf.
  - intros x (d & Hx & ->)%elem_of_update. destruct (p d); [|auto].
    destruct (Hf d) as (_ & _ & E1 & E2 & E3 & E4). unfold row_ok. rewrite E1, E2, E3, E4.
    by apply H3.
  - apply Hd; [|done]. intros d. unfold screen. by destruct (Hf d) as (_ & _ & _ & _ & -> & _).
  - apply Hd; [|done]. apply Hf.
Qed.

Lemma device_inv_delete p t : device_inv t -> device_inv (delete_where p t).
Proof.
  intros [H1 H2 H3 H4 H5]. split.
  - by apply unique_key_delete.
  - by apply unique_key_delete.
  - intros x [Hx _]%elem_of_delete. auto.
  - intros x x' v [Hx _]%elem_of_delete [Hx' _]%elem_of_delete. by apply H4.
  - intros x x' v [Hx _]%elem_of_delete [Hx' _]%elem_of_delete. by apply H5.
Qed.

Lemma device_inv_insert now id name code t :
  (forall d, d ∈ rows t -> dev_id d <> id /\ dev_pairingCode d <> code) ->
  device_inv t -> device_inv (insert_row (new_device now id name code) t).
Proof.
  intros Hn [H1 H2 H3 H4 H5].
  assert (Hd : forall key, key (new_device now id name code) = None -> distinct key t ->
    distinct key (insert_row (new_device now id name code) t)).
  { intros key Hk Hd x x' v [->|Hx]%elem_of_insert [->|Hx']%elem_of_insert; try congruence.
    by apply Hd. }
  split.
  - apply unique_key_insert; [done|]. apply Hn.
  - apply unique_key_insert; [done|]. apply Hn.
  - intros x [->|Hx]%elem_of_insert; [|auto]. by left.
  - by apply Hd.
  - by apply Hd.
Qed.

(** [earlier_pairing] finds the row of the screen unless it is the placeholder. *)
Lemma earlier_pairing_Some db fingerprint pending existing :
  earlier_pairing db fingerprint pending = Some existing ->
  existing ∈ rows (wallDevices db) /\ dev_id existing <> dev_id pending /\
  exists f, nonempty fingerprint = Some f /\ dev_fingerprint existing = Some f.
Proof.
  unfold earlier_pairing. destruct (nonempty fingerprint) as [f|]; [|done].
  destruct (select_first _ _) as [e|] eqn:Hs; [|done].
  apply select_first_Some in Hs as [He Hf%bool_decide_eq_true].
  destruct (by_id (dev_id pending) e) eqn:Hid; simpl; [done|]. apply by_id_neq in Hid.
  intros [= <-]. eauto.
Qed.

Lemma earlier_pairing_None db fingerprint pending d v :
  device_inv (wallDevices db) -> pending ∈ rows (wallDevices db) ->
  dev_status pending = "pending" -> earlier_pairing db fingerprint pending = None ->
  d ∈ rows (wallDevices db) -> nonempty fingerprint = Some v -> screen d <> Some v.
Proof.
  intros HI Hp Hst. unfold earlier_pairing. intros He Hd Hv. rewrite Hv in He. unfold screen.
  intros Hs.
  assert (Hfp : dev_fingerprint d = Some v).
  { unfold nonempty in *. repeat case_match; by simplify_eq. }
  destruct (select_first _ _) as [e|] eqn:Hsel.
  - apply select_first_Some in Hsel as [Hin Hf%bool_decide_eq_true].
    destruct (by_id (dev_id pending) e) eqn:Hid; [|done]. apply by_id_iff in Hid.
    assert (e = pending) as -> by (eapply (unique_key_inj dev_id); eauto; apply HI).
    destruct (inv_rows _ HI pending Hp) as [(_ & _ & Hn)|[[? _]|[? _]]]; congruence.
  - rewrite select_first_None in Hsel. specialize (Hsel d Hd).
    by apply bool_decide_eq_false in Hsel.
Qed.

Lemma claim_inv now token input db :
  fresh_token token db -> device_inv (wallDevices db) ->
  device_inv (wallDevices (claimDevice now token db input).1).
Proof.
  intros Hfresh HI. unfold claimDevice.
  destruct (select_first _ _) as [pending|] eqn:Hsel; [|done].
  apply select_first_Some in Hsel as [Hp _].
  destruct (String.eqb_spec (dev_status pending) "pending") as [Hst|]; [|done]. simpl.
  destruct (earlier_pairing _ _ _) as [existing|] eqn:He; simpl.
  - apply earlier_pairing_Some in He as (Hin & Hne & f & Hf & Hef).
    apply device_inv_update; try done.
    + intros d _ _. right; left. simpl. split; [done|]. split; by eexists.
    + intros d d' v [Hd _]%elem_of_delete [Hd' _]%elem_of_delete Hi Hni Hs Hs'.
      apply Hni. rewrite <- Hi. symmetry. by apply (inv_screens _ HI d d' v).
    + intros d d' v _ [Hd' _]%elem_of_delete _ _ [= <-]. by apply Hfresh.
    + by apply device_inv_delete.
  - apply device_inv_update; try done.
    + intros d _ _. right; left. simpl. split; [done|]. split; by eexists.
    + intros d d' v _ Hd' _ _ Hs. by apply (earlier_pairing_None db (ci_fingerprint input) pending).
    + intros d d' v _ Hd' _ _ [= <-]. by apply Hfresh.
Qed.

Lemma reconnect_inv now token settings f db :
  fresh_token token db -> device_inv (wallDevices db) ->
  device_inv (wallDevices (reconnectDevice now token settings db f).1).
Proof.
  intros Hfresh HI. unfold reconnectDevice.
  destruct (select_first _ _) as [row|] eqn:Hsel; [|done].
  apply select_first_Some in Hsel as [Hr _].
  destruct (String.eqb_spec (dev_status row) "approved") as [Hst|]; [|done]. simpl.
  destruct (expired _ _ _); [done|]. simpl. apply device_inv_update; try done.
  - intros d Hd Hi. assert (d = row) as -> by (eapply (unique_key_inj dev_id); eauto; apply HI).
    destruct (inv_rows _ HI row Hr) as [(? & _)|[(_ & _ & ?)|(? & _)]]; [congruence| |congruence].
    right; left. simpl. split; [done|]. by split; [eexists|].
  - intros d d' v Hd Hd' Hi Hni Hs Hs'. apply Hni. rewrite <- Hi. symmetry.
    by apply (inv_screens _ HI d d' v).
  - intros d d' v _ Hd' _ _ [= <-]. by apply Hfresh.
Qed.

Lemma revoke_inv now id db :
  device_inv (wallDevices db) -> device_inv (wallDevices (revokeDevice now db id).1).
Proof.
  intros HI. unfold revokeDevice, update_device. simpl. apply device_inv_update; try done.
  - intros d _ _. right; right. done.
  - intros d d' v Hd Hd' Hi Hni Hs Hs'. apply Hni. rewrite <- Hi. symmetry.
    by apply (inv_screens _ HI d d' v).
Qed.

Lemma create_inv now draw id name db :
  device_inv (wallDevices db) -> device_inv (wallDevices (createDevice now draw id db name).1).
Proof.
  intros HI. unfold createDevice, insert_unique. destruct (existsb _ _) eqn:He; [done|].
  simpl. apply device_inv_insert; [|done]. intros d Hd.
  rewrite existsb_false in He. specialize (He d Hd). unfold wallDevices_conflict in He. simpl in He.
  apply orb_false_iff in He as [H1%String.eqb_neq H2%String.eqb_neq]. split; congruence.
Qed.

Lemma step_inv db db' :
  wall_step db db' -> device_inv (wallDevices db) -> device_inv (wallDevices db').
Proof.
  intros Hstep HI. destruct Hstep; try done.
  - by apply create_inv.
  - by apply claim_inv.
  - by apply reconnect_inv.
  - by apply revoke_inv.
  - by apply device_inv_delete.
  - by apply device_inv_same.
  - unfold assignGroup, update_device_fk. destruct (_ && _); [done|]. by apply device_inv_same.
  - unfold assignLayout, update_device_fk. destruct (_ && _); [done|]. by apply device_inv_same.
  - unfold updateGroup. destruct (update_returning _ _ _) as [g [r|]]; [|done]. by destruct (fk_ok _ _ _).
  - by apply device_inv_same.
Qed.

Lemma reachable_device_inv db : reachable db -> device_inv (wallDevices db).
Proof.
  induction 1 as [db Hd|db db' _ IH Hstep]; [|by eapply step_inv].
  split; unfold unique_key, distinct; rewrite Hd; simpl; try constructor; set_solver.
Qed.
End theorems.

(** ** What a claim and a token give *)

Section credentials.
Context {T : Type -> Type} {ST : Store T} {LT : StoreLaws T} {HS : Sha256}.
Implicit Types (db : WallDb T) (t : T WallDeviceRow).

Lemma resolve_iff now settings t rawToken d :
  device_inv t ->
  resolveDeviceToken now settings t rawToken = Some d <->
  d ∈ rows t /\ dev_tokenHash d = Some (sha256 rawToken) /\ dev_status d = "approved" /\
  expired now settings d = false.
Proof.
  intros HI. unfold resolveDeviceToken. split.
  - destruct (select_first _ _) as [row|] eqn:Hs; [|done].
    apply select_first_Some in Hs as [Hr Hh%bool_decide_eq_true].
    destruct (String.eqb_spec (dev_status row) "approved"); [|done]. simpl.
    destruct (expired _ _ _) eqn:He; [done|]. by intros [= <-].
  - intros (Hd & Hh & Hst & He).
    destruct (select_first _ _) as [row|] eqn:Hs.
    + apply select_first_Some in Hs as [Hr Hh'%bool_decide_eq_true].
      assert (row = d) as ->; [|by rewrite Hst, He].
      apply (unique_key_inj dev_id t); [apply HI|done|done|].
      by apply (inv_tokens _ HI row d (sha256 rawToken)).
    + rewrite select_first_None in Hs. specialize (Hs d Hd). by apply bool_decide_eq_false in Hs.
Qed.

(** What a successful claim did: [g] approves the display [id], the placeholder is gone when
    the screen was known, and every other row is as it was. *)
Lemma claim_rows now token input db db' id raw :
  claimDevice now token db input = (db', Some (id, raw)) ->
  exists p g, raw = token /\
    (p ∈ rows (wallDevices db) /\ dev_pairingCode p = ci_code input /\ dev_status p = "pending") /\
    (forall d, dev_id (g d) = dev_id d /\ dev_status (g d) = "approved" /\
       dev_lastSeenAt (g d) = Some now /\ dev_tokenHash (g d) = Some (sha256 token)) /\
    (id = dev_id p \/ exists e f, e ∈ rows (wallDevices db) /\ dev_id e = id /\
       nonempty (ci_fingerprint input) = Some f /\ dev_fingerprint e = Some f) /\
    (forall x, x ∈ rows (wallDevices db') <->
       (exists d, d ∈ rows (wallDevices db) /\ dev_id d = id /\ x = g d) \/
       (x ∈ rows (wallDevices db) /\ dev_id x <> id /\ dev_id x <> dev_id p)).
Proof.
  unfold claimDevice. destruct (select_first _ _) as [p|] eqn:Hsel; [|done].
  apply select_first_Some in Hsel as [Hp Hc%String.eqb_eq].
  destruct (String.eqb_spec (dev_status p) "pending") as [Hst|]; [|done]. simpl.
  destruct (earlier_pairing _ _ _) as [e|] eqn:He; intros [= <- <- <-].
  - apply earlier_pairing_Some in He as (Hin & Hne & f & Hf & Hef).
    exists p, (fun d => set_dev_name (default (dev_name e) (ci_name input)) (approve now token d)).
    do 3 (split; [done|]). split; [right; by exists e, f|]. intros x. simpl. rewrite elem_of_update. setoid_rewrite elem_of_delete. split.
    + intros (d & [Hd Hpd%by_id_neq] & ->). destruct (by_id (dev_id e) d) eqn:E;
        rewrite ?by_id_iff, ?by_id_neq in E; [left; by exists d|by right].
    + intros [(d & Hd & Hi & ->)|(Hx & Hi & Hj)].
      * exists d. rewrite by_id_neq, (proj2 (by_id_iff _ d) Hi). split; [|done].
        split; [done|]. by rewrite Hi.
      * exists x. by rewrite by_id_neq, (proj2 (by_id_neq _ x) Hi).
  - exists p, (fun d => set_dev_fingerprint (ci_fingerprint input) (approve now token d)).
    do 3 (split; [done|]). split; [by left|]. intros x. simpl. rewrite elem_of_update. split.
    + intros (d & Hd & ->). destruct (by_id (dev_id p) d) eqn:E;
        rewrite ?by_id_iff, ?by_id_neq in E; [left; by exists d|by right].
    + intros [(d & Hd & Hi & ->)|(Hx & Hi & Hj)].
      * exists d. by rewrite (proj2 (by_id_iff _ d) Hi).
      * exists x. by rewrite (proj2 (by_id_neq _ x) Hi).
Qed.

Lemma claim_none now token input db db' :
  device_inv (wallDevices db) -> claimDevice now token db input = (db', None) ->
  db' = db /\ forall d, d ∈ rows (wallDevices db) ->
    dev_pairingCode d = ci_code input -> dev_status d <> "pending".
Proof.
  intros HI Hc. unfold claimDevice in Hc. destruct (select_first _ _) as [p|] eqn:Hsel.
  - pose proof (select_first_Some _ _ _ Hsel) as [Hp Hpc%String.eqb_eq].
    destruct (String.eqb_spec (dev_status p) "pending"); simpl in Hc;
      [by destruct (earlier_pairing _ _ _)|]. injection Hc as <-. split; [done|].
    intros d Hd Hdc. assert (d = p) as ->; [|done].
    eapply (unique_key_inj dev_pairingCode); eauto; [apply HI|]. congruence.
  - injection Hc as <-. split; [done|]. rewrite select_first_None in Hsel. intros d Hd Hdc.
    specialize (Hsel d Hd). by apply String.eqb_neq in Hsel.
Qed.

(** C30: in every reachable state each display is pending without credentials, approved with a
    token, or revoked without one; ids, codes, screens and tokens identify at most one display;
    so a token opens exactly the approved display it was issued for, within its lifetime. *)
Theorem device_credentials db now settings rawToken d (Hr : reachable db) :
  device_inv (wallDevices db) /\
  (resolveDeviceToken now settings (wallDevices db) rawToken = Some d <->
   d ∈ rows (wallDevices db) /\ dev_tokenHash d = Some (sha256 rawToken) /\
   dev_status d = "approved" /\ expired now settings d = false).
Proof. split; [|apply resolve_iff]; by apply reachable_device_inv. Qed.

(** A code pairs once. A claim either changes nothing, or its fresh token opens exactly one
    display (the one that showed the code or, for a known screen, its earlier one) until the
    session lifetime passes, that display's previous token stops working, every other token
    works as before, and no pending display has the code any more. *)
Theorem claimDevice_spec db now token input (Hr : reachable db) (Hf : fresh_token token db) :
  match claimDevice now token db input with
  | (db', None) => db' = db /\ forall d, d ∈ rows (wallDevices db) ->
      dev_pairingCode d = ci_code input -> dev_status d <> "pending"
  | (db', Some (id, raw)) => raw = token /\
      (exists p, p ∈ rows (wallDevices db) /\ dev_pairingCode p = ci_code input /\
         dev_status p = "pending" /\
         (id = dev_id p \/ exists e f, e ∈ rows (wallDevices db) /\ dev_id e = id /\
            nonempty (ci_fingerprint input) = Some f /\ dev_fingerprint e = Some f)) /\
      (forall d, d ∈ rows (wallDevices db') ->
         dev_pairingCode d = ci_code input -> dev_status d <> "pending") /\
      (forall later settings raw' d,
         resolveDeviceToken later settings (wallDevices db') raw' = Some d <->
         (sha256 raw' = sha256 token /\ d ∈ rows (wallDevices db') /\ dev_id d = id /\
          Qle_bool (inject_Z (later - now)) (sessionTtlSec settings * 1000) = true) \/
         (resolveDeviceToken later settings (wallDevices db) raw' = Some d /\ dev_id d <> id))
  end.
Proof.
  pose proof (reachable_device_inv db Hr) as HI.
  pose proof (claim_inv now token input db Hf HI) as HI'.
  destruct (claimDevice now token db input) as [db' [[id raw]|]] eqn:Hc; simpl in HI'.
  - apply claim_rows in Hc as (p & g & -> & (Hp & Hpc & Hps) & Hg & Hid & Hrows).
    split; [done|]. split; [by exists p|]. split.
    + intros d [(d0 & _ & _ & ->)|(Hd & _ & Hne)]%Hrows Hdc.
      * by destruct (Hg d0) as (_ & -> & _).
      * intros _. apply Hne. f_equal. eapply (unique_key_inj dev_pairingCode); eauto; [apply HI|].
        congruence.
    + intros later settings raw' d. rewrite !resolve_iff by done. rewrite Hrows. split.
      * intros ([(d0 & Hd0 & Hi & ->)|(Hd & Hi & Hne)] & Hh & Hs & He); [left|right; done].
        destruct (Hg d0) as (G1 & G2 & G3 & G4). rewrite G4 in Hh. split; [congruence|].
        split; [left; by exists d0|]. split; [congruence|].
        unfold expired in He. rewrite G3 in He. simpl in He. by apply negb_false_iff in He.
      * intros [(Hsh & [(d0 & Hd0 & Hi & ->)|(_ & Hi & _)] & Hidd & Hq)|((Hd & Hh & Hs & He) & Hi)];
          [|done|].
        -- destruct (Hg d0) as (G1 & G2 & G3 & G4). split; [left; by exists d0|].
           rewrite G4, Hsh. split; [done|]. split; [done|]. unfold expired. rewrite G3. simpl.
           by apply negb_false_iff.
        -- split; [|done]. right. split; [done|]. split; [done|]. intros Hip.
           assert (d = p) as -> by (eapply (unique_key_inj dev_id); eauto; apply HI). congruence.
  - by apply claim_none in Hc.
Qed.
End credentials.

(** ** Witnesses *)

Definition toy_sha : Sha256 := fun s => "#" +:+ s.

(** No display yet. *)
Definition w_walls : WallDb list := {|
  wallLayouts := []; wallDeviceGroups := []; wallDevices := [] |}.

(** One display with the code 550000. *)
Definition w_paired : WallDb list := (createDevice 0 (fun _ => 1 # 2) "d1" w_walls "Lobby").1.

Lemma w_paired_reachable : @reachable list _ toy_sha w_paired.
Proof.
  apply (reach_step w_walls); [by apply reach_init|].
  apply (step_create 0 (fun _ => 1 # 2) "d1" "Lobby").
Qed.

Definition w_claim : ClaimInput := {|
  ci_code := "550000"; ci_fingerprint := Some "screen-1"; ci_name := None |}.

Lemma device_credentials_witness : device_inv (wallDevices w_paired).
Proof.
  exact (proj1 (device_credentials (HS := toy_sha) w_paired 0 [] "wd_a"
    (new_device 0 "d1" "Lobby" "550000") w_paired_reachable)).
Defined.

Lemma claimDevice_spec_witness :
  snd (@claimDevice list _ toy_sha 60000 "wd_a" w_paired w_claim) = Some ("d1", "wd_a") /\
  "wd_a" = "wd_a".
Proof.
  pose proof (claimDevice_spec (HS := toy_sha) w_paired 60000 "wd_a" w_claim w_paired_reachable)
    as H.
  split; [vm_compute; reflexivity|]. refine (proj1 (H _)).
  intros d Hd. assert (d = new_device 0 "d1" "Lobby" "550000") as ->
    by (by apply list_elem_of_singleton in Hd). discriminate.
Defined.
