(* ===== verification/Gate.v ===== *)
(** * The authentication gate

    Models the [authenticate] preHandler of apps/backend/src/plugins/auth.ts and the admission
    of live sockets in apps/backend/src/plugins/operator-ws.ts. *)
From S2P Require Import Prelude Text Store Schema RowUpdates Settings Authz Auth Devices.

(** What [authenticate] does to a request: it sets the subject, and the device id of a
    display, or replies 401. *)
Inductive auth_outcome : Type :=
| Authenticated (subject : AuthSubject) (deviceId : option string)
| Denied (error : string).

(** [s.slice("Bearer ".length)] *)
Definition after_bearer (header : string) : string :=
  String.substring 7 (String.length header - 7) header.

Section gate.
Context {T : Type -> Type} {ST : Store T} {HS : Sha256} {HJ : Jwt}.
Implicit Types (db : AccessDb T) (devices : T WallDeviceRow).

(** The revocation checks on a verified token: [None] when both pass. *)
Definition revoked (now : Z) db (user : Claims) : option string :=
  let stale := match cl_tv user with
               | Some tv =>
                   match getTokenVersion (users db) (cl_sub user) with
                   | None => true
                   | Some current => negb (current =? tv)
                   end
               | None => false
               end in
  if stale then Some "token_revoked" else
  let dead := match cl_sid user with
              | Some sid => negb (isSessionLive now (refreshTokens db) sid)
              | None => false
              end in
  if dead then Some "session_revoked" else None.

(** After [req.jwtVerify()] gave the claims. *)
Definition admit_claims (now : Z) db (user : Claims) : auth_outcome :=
  match revoked now db user with
  | Some error => Denied error
  | None =>
      match resolveSubject db (cl_sub user) with
      | None => Denied "unauthorized"
      | Some subject => Authenticated subject None
      end
  end.

(** [request_jwt] is [req.jwtVerify()] on the authorization header, at the time of the call. *)
Definition authenticate (request_jwt : option string -> Z -> option Claims)
    (adminToken : option string) (now : Z) db devices (header : option string) : auth_outcome :=
  if match adminToken with
     | Some t => truthy t && bool_decide (header = Some ("Bearer " +:+ t))
     | None => false
     end
  then Authenticated STATIC_ADMIN_SUBJECT None
  else if match header with Some h => startsWith "Bearer wd_" h | None => false end
  then match resolveDeviceToken now (settings db) devices (after_bearer (default "" header)) with
       | None => Denied "unauthorized"
       | Some device => Authenticated (deviceSubject (dev_id device)) (Some (dev_id device))
       end
  else match request_jwt header now with
       | None => Denied "unauthorized"
       | Some user => admit_claims now db user
       end.

(** Whether [/ws?token=] keeps the socket open. *)
Definition operator_ws (now : Z) db devices (token : option string) : bool :=
  match nonempty token with
  | None => false
  | Some token =>
      if startsWith "wd_" token
      then match resolveDeviceToken now (settings db) devices token with
           | Some _ => true | None => false end
      else match jwtVerify token now with
           | None => false
           | Some payload =>
               match resolveSubject db (cl_sub payload) with
               | None => false
               | Some subject =>
                   sub_isOwner subject || includes (sub_permissions subject) "dashboard:read"
               end
           end
  end.
End gate.

(** ** Theorems *)

Section theorems.
Context {T : Type -> Type} {ST : Store T} {LT : StoreLaws T} {HS : Sha256} {HJ : Jwt}.
Implicit Types (db : AccessDb T) (devices : T WallDeviceRow).

(** The header carries neither the static token nor a display token. *)
Definition is_jwt (adminToken header : option string) : Prop :=
  (forall t, adminToken = Some t -> truthy t = true -> header <> Some ("Bearer " +:+ t)) /\
  (forall h, header = Some h -> startsWith "Bearer wd_" h = false).

Lemma authenticate_jwt rj adminToken now db devices header c :
  is_jwt adminToken header -> rj header now = Some c ->
  authenticate rj adminToken now db devices header = admit_claims now db c.
Proof.
  intros [Ha Hw] Hc. unfold authenticate.
  assert ((match adminToken with
    | Some t => truthy t && bool_decide (header = Some ("Bearer " +:+ t))
    | None => false end) = false) as ->.
  { destruct adminToken as [t|]; [|done]. destruct (truthy t) eqn:Ht; [|done]. simpl.
    apply bool_decide_eq_false. by apply Ha. }
  assert (match header with Some h => startsWith "Bearer wd_" h | None => false end = false) as ->.
  { destruct header; [by apply Hw|done]. }
  by rewrite Hc.
Qed.

Lemma getTokenVersion_bump (us : T UserRow) id v :
  unique_key user_id us -> getTokenVersion us id = Some v ->
  unique_key user_id (bumpTokenVersion us id) /\
  getTokenVersion (bumpTokenVersion us id) id = Some (v + 1).
Proof.
  intros Hk Hv. split; [by apply unique_key_update|]. unfold getTokenVersion in *.
  destruct (select_first _ us) as [u|] eqn:Hs; [|done]. injection Hv as <-.
  apply select_first_Some in Hs as [Hu Hid]. pose proof Hid as He. apply String.eqb_eq in He.
  rewrite (select_first_key user_id _ _ (set_user_tokenVersion (user_tokenVersion u + 1) u)); try done.
  - by apply unique_key_update.
  - apply elem_of_update. exists u. by rewrite Hid.
  - intros r' ->%String.eqb_eq. done.
Qed.

Lemma getTokenVersion_bumps (us : T UserRow) id v k :
  unique_key user_id us -> getTokenVersion us id = Some v ->
  unique_key user_id (Nat.iter k (fun t => bumpTokenVersion t id) us) /\
  getTokenVersion (Nat.iter k (fun t => bumpTokenVersion t id) us) id = Some (v + Z.of_nat k).
Proof.
  intros Hk Hv. induction k as [|k [IH1 IH2]]; [split; [done|]; simpl; by rewrite Z.add_0_r|].
  destruct (getTokenVersion_bump _ _ _ IH1 IH2) as [H1 H2]. split; [exact H1|].
  replace (v + Z.of_nat (S k)) with (v + Z.of_nat k + 1) by lia. exact H2.
Qed.

(** An update that revokes every row with the session's id ends it. *)
Lemma session_dead now t (tokens : T RefreshTokenRow) p sid :
  (forall r, r ∈ rows tokens -> rt_id r = sid -> live now r = true -> p r = true) ->
  isSessionLive now (update_where p (set_rt_revokedAt (Some t)) tokens) sid = false.
Proof.
  intros Hp. apply not_true_iff_false. rewrite isSessionLive_true.
  intros (r & Hr & Hid & Hrev & Hexp). apply elem_of_update in Hr as (r0 & Hr0 & ->).
  destruct (p r0) eqn:E; [done|]. rewrite Hp in E; [done|done|done|].
  by apply live_true.
Qed.

(** C5: an access token is checked against the database at every request. One that names a
    user's version and session passes exactly while its session is live and its user enabled,
    and is refused at once, and for good, after the user's token version was raised, after its
    session was terminated alone or with the user's others, after a logout with its refresh
    token, and while the user is disabled. *)
Theorem revocation_immediate rj adminToken now db devices header c tv sid
    (Hj : is_jwt adminToken header) (Hc : rj header now = Some c)
    (Htv : cl_tv c = Some tv) (Hsid : cl_sid c = Some sid)
    (Hk : unique_key user_id (users db))
    (Hv : getTokenVersion (users db) (cl_sub c) = Some tv) :
  let auth db' := authenticate rj adminToken now db' devices header in
  let tokens := refreshTokens db in
  (forall s dev, auth db = Authenticated s dev <->
     dev = None /\ isSessionLive now tokens sid = true /\ resolveSubject db (cl_sub c) = Some s) /\
  (forall k, auth (with_users (Nat.iter (S k) (fun t => bumpTokenVersion t (cl_sub c)) (users db)) db)
     = Denied "token_revoked") /\
  (forall t, auth (with_refreshTokens (terminateSession t tokens sid).1 db)
     = Denied "session_revoked") /\
  (forall t, t <= now -> (forall r, r ∈ rows tokens -> rt_id r = sid -> rt_userId r = cl_sub c) ->
     auth (with_refreshTokens (terminateAllForUser t tokens (cl_sub c) None).1 db)
     = Denied "session_revoked") /\
  (forall t raw, (forall r, r ∈ rows tokens -> rt_id r = sid -> rt_tokenHash r = sha256 raw) ->
     auth (with_refreshTokens (revokeRefreshToken t tokens raw) db) = Denied "session_revoked") /\
  ((forall u, u ∈ rows (users db) -> user_id u = cl_sub c -> user_disabled u = true) ->
     exists e, auth db = Denied e).
Proof.
  intros auth tokens.
  assert (Ha : forall db', auth db' = admit_claims now db' c)
    by (intros db'; by apply authenticate_jwt).
  assert (Hdead : forall tokens', isSessionLive now tokens' sid = false ->
    auth (with_refreshTokens tokens' db) = Denied "session_revoked").
  { intros tokens' Hl. rewrite Ha. unfold admit_claims, revoked. rewrite Htv, Hsid. simpl.
    by rewrite Hv, Z.eqb_refl, Hl. }
  split; [|split; [|split; [|split; [|split]]]].
  - intros s dev. rewrite Ha. unfold admit_claims, revoked. rewrite Htv, Hsid, Hv, Z.eqb_refl.
    simpl. fold tokens. destruct (isSessionLive now tokens sid); simpl; [|naive_solver].
    destruct (resolveSubject db (cl_sub c)); naive_solver.
  - intros k. rewrite Ha. unfold admit_claims, revoked. rewrite Htv. cbn [users with_users].
    rewrite (proj2 (getTokenVersion_bumps _ _ _ (S k) Hk Hv)).
    rewrite (proj2 (Z.eqb_neq _ _)) by lia. done.
  - intros t. apply Hdead. unfold terminateSession. destruct (select_first _ _) as [r0|] eqn:Hs; simpl.
    + apply session_dead. intros r _ <- _. apply String.eqb_refl.
    + apply not_true_iff_false. rewrite isSessionLive_true. intros (r & Hr & <- & _).
      rewrite select_first_None in Hs. specialize (Hs r Hr). by rewrite String.eqb_refl in Hs.
  - intros t Ht Hu. apply Hdead, session_dead. intros r Hr Hid [Hrev Hexp]%live_true.
    unfold live_of. rewrite (Hu r Hr Hid), String.eqb_refl. simpl. rewrite andb_true_r.
    apply live_true. split; [done|lia].
  - intros t raw Hh. apply Hdead, session_dead. intros r Hr Hid [Hrev _]%live_true.
    by rewrite (Hh r Hr Hid), String.eqb_refl, Hrev.
  - intros Hd. rewrite Ha. unfold admit_claims. destruct (revoked now db c); [by eexists|].
    unfold resolveSubject. destruct (select_first _ _) as [u|] eqn:Hs; [|by eexists].
    apply select_first_Some in Hs as [Hu Hid%String.eqb_eq]. rewrite (Hd u Hu Hid). by eexists.
Qed.

(** The live socket consults neither sessions nor versions: terminating sessions leaves its
    admission as it was. *)
Lemma operator_ws_ignores_sessions now db devices token tokens' :
  operator_ws now (with_refreshTokens tokens' db) devices token = operator_ws now db devices token.
Proof. done. Qed.
End theorems.

Section witnesses.
#[local] Existing Instance toy_sha.

Definition w_claims : Claims := {| cl_sub := "u1"; cl_sid := Some "s1"; cl_tv := Some 3 |}.

Definition w_db : AccessDb list := with_users [w_user] (with_refreshTokens [w_token] w_access).

Lemma revocation_immediate_witness :
  authenticate (fun _ _ => Some w_claims) None 10
    (with_users (bumpTokenVersion [w_user] "u1") w_db) ([] : list WallDeviceRow)
    (Some "Bearer x") = Denied "token_revoked" /\
  authenticate (fun _ _ => Some w_claims) None 10 w_db ([] : list WallDeviceRow)
    (Some "Bearer x") <> Denied "session_revoked".
Proof.
  split; [|vm_compute; discriminate].
  refine (proj1 (proj2 (revocation_immediate (fun _ _ => Some w_claims) None 10 w_db []
    (Some "Bearer x") w_claims 3 "s1" _ eq_refl eq_refl eq_refl _ _)) 0%nat).
  - split; [done|]. by intros h [= <-].
  - apply unique_singleton.
  - vm_compute. reflexivity.
Defined.
End witnesses.
