(* ===== verification/Account.v ===== *)
(** * Self-service

    Models the handlers of apps/backend/src/routes/auth.routes.ts by which a signed-in user manages
    the own account: [/api/me], sessions, profile, password and second factor. Every one runs after
    the gate (Gate.v): [subject] is whom it let in and [user] the claims of the verified token, if
    there was one. A parsed body is [None] where zod rejects it. [req] is the address and the
    fresh audit id of the request. *)
From S2P Require Import Prelude Dates Text Store Schema RowUpdates Settings Crypto Totp AuditLog Authz Auth Devices Gate.

Definition STATIC_ADMIN_ID : string := "static-admin".

Record ProfileBody : Type := { pb_displayName : option string; pb_email : option (option string) }.
Record PasswordBody : Type := { pw_currentPassword : string; pw_newPassword : string }.
Record AuditMeta : Type := { am_id : string; am_ip : string }.

(** A refusal: the status and the error of the reply. *)
Definition Refused : Type := (Z * string)%type.

Record Me : Type := {
  m_user : option PublicUser; m_admin : bool; m_permissions : list string; m_attributes : list Attribute;
  m_isOwner : bool; m_mustSetup2fa : bool; m_isDevice : bool
}.

(** The [user] of an audit entry. *)
Definition public_user_json (u : PublicUser) : json :=
  let text o := match o with Some s => JStr s | None => JNull end in
  let time o := match o with Some t => JStr (toISOString t) | None => JNull end in
  JObj [("id", JStr (pu_id u)); ("username", JStr (pu_username u)); ("displayName", JStr (pu_displayName u));
    ("email", text (pu_email u)); ("authProvider", JStr (pu_authProvider u)); ("disabled", JBool (pu_disabled u));
    ("isOwner", JBool (pu_isOwner u)); ("isSystem", JBool (pu_isSystem u)); ("totpEnabled", JBool (pu_totpEnabled u));
    ("tokenVersion", JNum (inject_Z (pu_tokenVersion u))); ("failedLoginCount", JNum (inject_Z (pu_failedLoginCount u)));
    ("lockedUntil", time (pu_lockedUntil u)); ("lastLoginAt", time (pu_lastLoginAt u));
    ("createdAt", time (Some (pu_createdAt u))); ("updatedAt", time (Some (pu_updatedAt u)))].

Section handlers.
Context {T : Type -> Type} {ST : Store T} {HS : Sha256} {HC : Scrypt} {HG : Gcm} {HJ : Jwt}.
Context (hmac_sha1 : list Z -> list Z -> list Z) (config : AuthConfig).
Implicit Types (st : AuthState T) (subject : AuthSubject).

Definition find_user st (id : string) : option UserRow :=
  select_first (fun u => String.eqb (user_id u) id) (users (master st)).

(** [app.audit(req, { action, category: "auth", target, actor: userId, after })] *)
Definition audit_auth (now : Z) (req : AuditMeta) (action target userId : string) (after : option json) st
  : AuthState T := {|
  master := master st;
  auditLog := audit (am_id req) now (Some userId) (Some (am_ip req)) {|
    in_actor := Some userId; in_actorRole := None; in_action := action; in_category := "auth";
    in_target := Some target; in_before := None; in_after := after; in_ip := None |} (auditLog st) |}.

(** GET /api/me *)
Definition get_me st subject (deviceId : option string) : Me :=
  if String.eqb (sub_userId subject) STATIC_ADMIN_ID then {|
    m_user := None; m_admin := true; m_permissions := []; m_attributes := []; m_isOwner := true;
    m_mustSetup2fa := false; m_isDevice := false |}
  else if present deviceId then {|
    m_user := None; m_admin := false; m_permissions := sub_permissions subject; m_attributes := [];
    m_isOwner := false; m_mustSetup2fa := false; m_isDevice := true |}
  else
    let user := find_user st (sub_userId subject) in
    let required := isRequired (settings (master st)) in {|
      m_user := option_map toPublicUser user; m_admin := false; m_permissions := sub_permissions subject;
      m_attributes := sub_attributes subject; m_isOwner := sub_isOwner subject;
      m_mustSetup2fa := required && match user with Some u => negb (user_totpEnabled u) | None => false end;
      m_isDevice := false |}.

(** GET /api/me/sessions *)
Definition get_sessions (now : Z) st subject (sid : option string) : list SessionDTO :=
  map (fun r => {| ses_id := ses_id r; ses_userId := ses_userId r; ses_ip := ses_ip r;
         ses_userAgent := ses_userAgent r; ses_createdAt := ses_createdAt r; ses_lastUsedAt := ses_lastUsedAt r;
         ses_current := match sid with Some s => String.eqb (ses_id r) s | None => false end |})
    (listSessions now (refreshTokens (master st)) (sub_userId subject) None).

(** DELETE /api/me/sessions/:id *)
Definition delete_session (now : Z) (req : AuditMeta) st subject (id : string)
  : AuthState T * result Refused unit :=
  let userId := sub_userId subject in
  let own := existsb (fun s => String.eqb (ses_id s) id) (listSessions now (refreshTokens (master st)) userId None) in
  if negb own then (st, Err (404, "not_found")) else
  let st := set_tokens st (fst (terminateSession now (refreshTokens (master st)) id)) in
  (audit_auth now req "session.terminate" id userId None st, Ok tt).

(** PATCH /api/me/profile *)
Definition patch_profile (now : Z) (req : AuditMeta) st subject (body : option ProfileBody)
  : AuthState T * result Refused PublicUser :=
  match body with
  | None => (st, Err (400, "invalid_request"))
  | Some data =>
      let userId := sub_userId subject in
      let f u :=
        let u := set_user_updatedAt now u in
        let u := match pb_displayName data with Some n => set_user_displayName n u | None => u end in
        match pb_email data with Some e => set_user_email e u | None => u end in
      let st' := set_users st (update_user userId f (users (master st))) in
      match find_user st userId with
      | None => (st', Err (404, "not_found"))
      | Some u =>
          let user := toPublicUser (f u) in
          (audit_auth now req "profile.update" userId userId (Some (public_user_json user)) st', Ok user)
      end
  end.

(** What a change of password replies: the new access token, where a session is bound. *)
Definition password_reply : Type := result Refused (option string).

(** POST /api/me/password; [None] is an exception of scrypt. *)
Definition post_password (now : Z) (salt : list Z) (req : AuditMeta) st subject (sid : option string)
    (body : option PasswordBody) : AuthState T * option password_reply :=
  match body with
  | None => (st, Some (Err (400, "invalid_request")))
  | Some data =>
      let userId := sub_userId subject in
      match find_user st userId with
      | None => (st, Some (Err (404, "not_found")))
      | Some user =>
          if negb (present (user_passwordHash user)) then (st, Some (Err (400, "oidc_user"))) else
          match verifyPassword (pw_currentPassword data) (default "" (user_passwordHash user)) with
          | None => (st, None)
          | Some false => (st, Some (Err (400, "invalid_current")))
          | Some true =>
              match hashPassword salt (pw_newPassword data) DEFAULT_SCRYPT_PARAMS with
              | None => (st, None)
              | Some hash =>
                  let st := set_users st (update_user userId
                    (fun u => set_user_passwordHash (Some hash) (set_user_updatedAt now u)) (users (master st))) in
                  let st := set_users st (clearLock now (users (master st)) userId) in
                  let st := audit_auth now req "password.change" userId userId None st in
                  match nonempty sid with
                  | Some sid =>
                      let st := set_tokens st (fst (terminateOtherSessions now (refreshTokens (master st)) userId sid)) in
                      let st := set_users st (bumpTokenVersion (users (master st)) userId) in
                      let tv := default 0 (getTokenVersion (users (master st)) userId) in
                      (st, Some (Ok (Some (jwtSign {| cl_sub := userId; cl_sid := Some sid; cl_tv := Some tv |}
                                             (now + cfg_accessTtlMs config)))))
                  | None =>
                      let st := set_tokens st (fst (terminateAllForUser now (refreshTokens (master st)) userId None)) in
                      (set_users st (bumpTokenVersion (users (master st)) userId), Some (Ok None))
                  end
              end
          end
      end
  end.

(** *** The second factor *)

(** GET /api/me/2fa: enabled, required *)
Definition get_2fa st subject : bool * bool :=
  (match find_user st (sub_userId subject) with Some u => user_totpEnabled u | None => false end,
   isRequired (settings (master st))).

(** An error of the two-factor service as a reply; other exceptions are a 500. *)
Definition twofa_error (e : TwoFAError) : Refused :=
  match e with
  | TwoFAConfigError => (500, "server_misconfigured")
  | TwoFAVerifyError _ => (400, "invalid_2fa")
  | _ => (500, "internal") end.

(** POST /api/me/2fa/setup *)
Definition post_2fa_setup (now : Z) (iv random : list Z) st subject : AuthState T * result Refused string :=
  let userId := sub_userId subject in
  match find_user st userId with
  | None => (st, Err (404, "not_found"))
  | Some _ =>
      match beginSetup (cfg_encryptionKey config) now iv random (users (master st)) userId with
      | (t, Ok secret) => (set_users st t, Ok secret)
      | (t, Err e) => (set_users st t, Err (twofa_error e)) end
  end.

(** POST /api/me/2fa/enable *)
Definition post_2fa_enable (now : Z) (draws : list (list Z)) (req : AuditMeta) st subject (code : option string)
  : AuthState T * result Refused (list string) :=
  let userId := sub_userId subject in
  match code with
  | None => (st, Err (400, "invalid_request"))
  | Some code =>
      match enable hmac_sha1 (cfg_encryptionKey config) now draws (users (master st)) userId code with
      | (t, Ok codes) => (audit_auth now req "2fa.enable" userId userId None (set_users st t), Ok codes)
      | (t, Err e) => (set_users st t, Err (twofa_error e)) end
  end.

(** POST /api/me/2fa/disable *)
Definition post_2fa_disable (now : Z) (req : AuditMeta) st subject (code : option string)
  : AuthState T * result Refused unit :=
  let userId := sub_userId subject in
  match code with
  | None => (st, Err (400, "invalid_request"))
  | Some code =>
      match find_user st userId with
      | None => (st, Err (404, "not_found"))
      | Some user =>
          if negb (user_totpEnabled user) then (st, Err (404, "not_found")) else
          match verifyForLogin hmac_sha1 (cfg_encryptionKey config) now (users (master st)) user code with
          | (t, Err e) => (set_users st t, Err (twofa_error e))
          | (t, Ok r) =>
              if negb (sf_ok r) then (set_users st t, Err (400, "invalid_2fa"))
              else (audit_auth now req "2fa.disable" userId userId None (set_users st (disable now t userId)), Ok tt)
          end
      end
  end.
End handlers.

(** ** A change of password *)

Section password.
Context {T : Type -> Type} {ST : Store T} {LT : StoreLaws T} {HS : Sha256} {HC : Scrypt} {HJ : Jwt}.
Context (config : AuthConfig).
Implicit Types (st : AuthState T) (u : UserRow).

Lemma find_user_in st u : unique_key user_id (users (master st)) -> u ∈ rows (users (master st)) ->
  find_user st (user_id u) = Some u.
Proof.
  intros Hk Hu. apply (select_first_key user_id); [done|done|apply String.eqb_refl|].
  by intros r ?%String.eqb_eq.
Qed.

(** The user's row once the password has changed. *)
Definition with_password (now : Z) (hash : string) u : UserRow :=
  set_user_tokenVersion (user_tokenVersion u + 1)
    (set_user_failedLoginCount 0 (set_user_lockedUntil None (set_user_updatedAt now
      (set_user_passwordHash (Some hash) (set_user_updatedAt now u))))).

Lemma password_rows now hash (t : T UserRow) u : unique_key user_id t -> u ∈ rows t ->
  let t' := bumpTokenVersion (clearLock now (update_user (user_id u)
              (fun u => set_user_passwordHash (Some hash) (set_user_updatedAt now u)) t) (user_id u)) (user_id u) in
  unique_key user_id t' /\ with_password now hash u ∈ rows t'.
Proof.
  intros Hk Hu.
  destruct (update_user_in t u (fun u => set_user_passwordHash (Some hash) (set_user_updatedAt now u)) Hk Hu ltac:(done))
    as [Hk1 Hu1].
  match type of Hu1 with ?u1 ∈ rows ?t1 => destruct (update_user_in t1 u1 (fun u => set_user_failedLoginCount 0
    (set_user_lockedUntil None (set_user_updatedAt now u))) Hk1 Hu1 ltac:(done)) as [Hk2 Hu2] end.
  match type of Hu2 with ?u2 ∈ rows ?t2 => destruct (update_user_in t2 u2 (fun u =>
    set_user_tokenVersion (user_tokenVersion u + 1) u) Hk2 Hu2 ltac:(done)) as [Hk3 Hu3] end.
  split; [exact Hk3|exact Hu3].
Qed.

(** The reply and the state after an accepted change from a bound session. *)
Lemma post_password_ok now salt req st subject sid body u hash :
  unique_key user_id (users (master st)) -> u ∈ rows (users (master st)) ->
  sub_userId subject = user_id u -> present (user_passwordHash u) = true ->
  verifyPassword (pw_currentPassword body) (default "" (user_passwordHash u)) = Some true ->
  hashPassword salt (pw_newPassword body) DEFAULT_SCRYPT_PARAMS = Some hash -> truthy sid = true ->
  let '(st', reply) := post_password config now salt req st subject (Some sid) (Some body) in
  reply = Some (Ok (Some (jwtSign {| cl_sub := user_id u; cl_sid := Some sid; cl_tv := Some (user_tokenVersion u + 1) |}
                            (now + cfg_accessTtlMs config)))) /\
  unique_key user_id (users (master st')) /\ with_password now hash u ∈ rows (users (master st')) /\
  refreshTokens (master st') = fst (terminateOtherSessions now (refreshTokens (master st)) (user_id u) sid).
Proof.
  intros Hk Hu Hs Hp Hv Hh Hsid. unfold post_password. rewrite Hs, (find_user_in st u Hk Hu), Hp. simpl.
  rewrite Hv, Hh. unfold nonempty. rewrite Hsid. simpl.
  destruct (password_rows now hash (users (master st)) u Hk Hu) as [Hk' Hu'].
  set (t' := bumpTokenVersion _ _) in *. clearbody t'.
  pose proof (getTokenVersion_in t' _ Hk' Hu') as Hg. unfold with_password in Hg at 1. simpl in Hg. rewrite Hg. simpl. done.
Qed.
(** The sessions after the user's others were ended. *)
Lemma other_sessions now (tokens : T RefreshTokenRow) userId sid :
  unique_key rt_id tokens ->
  let tokens' := fst (terminateOtherSessions now tokens userId sid) in
  (forall t, isSessionLive t tokens' sid = isSessionLive t tokens sid) /\
  (forall r t, r ∈ rows tokens -> rt_userId r = userId -> rt_id r <> sid -> now <= t ->
     isSessionLive t tokens' (rt_id r) = false) /\
  (forall r raw t, r ∈ rows tokens -> rt_userId r = userId -> rt_id r <> sid -> now <= t ->
     unique_key rt_tokenHash tokens -> rt_tokenHash r = sha256 raw -> find_live t tokens' raw = None).
Proof.
  intros Hk tokens'.
  assert (Hin : forall r', r' ∈ rows tokens' <-> exists r0, r0 ∈ rows tokens /\
    r' = if live_of now userId r0 && negb (String.eqb (rt_id r0) sid) then set_rt_revokedAt (Some now) r0 else r0)
    by (intros r'; apply elem_of_update).
  assert (Hdead : forall r r' t, r ∈ rows tokens -> rt_userId r = userId -> rt_id r <> sid -> now <= t ->
    r' ∈ rows tokens' -> rt_id r' = rt_id r -> live t r' = false).
  { intros r r' t Hr Hu Hne Ht (r0 & Hr0 & ->)%Hin Hid.
    assert (r0 = r) as -> by (apply (unique_key_inj rt_id tokens); try done; by destruct (_ && _)).
    apply not_true_iff_false. unfold live_of. rewrite Hu, String.eqb_refl, (proj2 (String.eqb_neq _ _) Hne). simpl.
    rewrite andb_true_r. destruct (live now r) eqn:Hl; intros [Hv He]%live_true; [done|].
    apply not_true_iff_false in Hl. apply Hl, live_true. split; [done|lia]. }
  split; [|split].
  - intros t. apply eq_true_iff_eq. rewrite !isSessionLive_true. split.
    + intros (r' & (r0 & Hr0 & ->)%Hin & Hid & Hv & He). exists r0. by destruct (_ && _).
    + intros (r0 & Hr0 & Hid & Hv & He). exists r0. split; [|done]. apply Hin. exists r0. split; [done|].
      by rewrite Hid, String.eqb_refl, andb_false_r.
  - intros r t Hr Hu Hne Ht. apply not_true_iff_false. rewrite isSessionLive_true.
    intros (r' & Hr' & Hid & Hv & He). pose proof (Hdead r r' t Hr Hu Hne Ht Hr' Hid) as Hd.
    apply not_true_iff_false in Hd. by apply Hd, live_true.
  - intros r raw t Hr Hu Hne Ht Hkh Hh. destruct (find_live t tokens' raw) as [r'|] eqn:Hf; [|done].
    apply find_live_Some in Hf as (Hr' & Hh' & Hv & He). pose proof Hr' as (r0 & Hr0 & Hr0')%Hin.
    assert (r0 = r) as ->.
    { apply (unique_key_inj rt_tokenHash tokens); [done..|]. rewrite Hh, <- Hh', Hr0'. by destruct (_ && _). }
    assert (Hd : live t r' = false)
      by (apply (Hdead r r' t Hr Hu Hne Ht Hr'); rewrite Hr0'; by destruct (_ && _)).
    apply not_true_iff_false in Hd. destruct Hd. by apply live_true.
Qed.

(** C28: a change of password from a session ends everything issued before but that session: the
    user's row holds the hash of the new password, unlocked, one version up; the session lives
    on exactly as before; the user's other sessions are dead from then on and their refresh
    tokens refused; an access token of the old version is refused at the gate, and the one the
    reply carries is admitted whenever the session lives and the user is enabled. *)
Theorem password_change_safe now salt req st subject sid body u hash
  (Hk : unique_key user_id (users (master st))) (Hu : u ∈ rows (users (master st)))
  (Hs : sub_userId subject = user_id u) (Hp : present (user_passwordHash u) = true)
  (Hv : verifyPassword (pw_currentPassword body) (default "" (user_passwordHash u)) = Some true)
  (Hh : hashPassword salt (pw_newPassword body) DEFAULT_SCRYPT_PARAMS = Some hash) (Hsid : truthy sid = true)
  (Hid : unique_key rt_id (refreshTokens (master st))) (Hth : unique_key rt_tokenHash (refreshTokens (master st))) :
  let '(st', reply) := post_password config now salt req st subject (Some sid) (Some body) in
  let claims := {| cl_sub := user_id u; cl_sid := Some sid; cl_tv := Some (user_tokenVersion u + 1) |} in
  let tokens := refreshTokens (master st) in
  let tokens' := refreshTokens (master st') in
  reply = Some (Ok (Some (jwtSign claims (now + cfg_accessTtlMs config)))) /\
  find_user st' (user_id u) = Some (with_password now hash u) /\
  (forall t, isSessionLive t tokens' sid = isSessionLive t tokens sid) /\
  (forall r t, r ∈ rows tokens -> rt_userId r = user_id u -> rt_id r <> sid -> now <= t ->
     isSessionLive t tokens' (rt_id r) = false /\
     forall raw new id ttl, rt_tokenHash r = sha256 raw -> rotateRefreshToken t new id tokens' raw ttl = (tokens', None)) /\
  (forall rj adminToken t devices header c, is_jwt adminToken header -> rj header t = Some c ->
     cl_sub c = user_id u ->
     (cl_tv c = Some (user_tokenVersion u) ->
        authenticate rj adminToken t (master st') devices header = Denied "token_revoked") /\
     (c = claims -> isSessionLive t tokens sid = true ->
        forall s, resolveSubject (master st') (user_id u) = Some s ->
        authenticate rj adminToken t (master st') devices header = Authenticated s None)).
Proof.
  pose proof (post_password_ok now salt req st subject sid body u hash Hk Hu Hs Hp Hv Hh Hsid) as Hok.
  destruct (post_password config now salt req st subject (Some sid) (Some body)) as [st' reply].
  destruct Hok as (Hr & Hk' & Hu' & Ht). cbv zeta. rewrite Ht.
  destruct (other_sessions now (refreshTokens (master st)) (user_id u) sid Hid) as (H1 & H2 & H3).
  split; [done|]. split; [by apply (find_user_in st' (with_password now hash u))|]. split; [done|]. split.
  - intros r t Hrow Hown Hne Hle. split; [by apply H2|]. intros raw new id ttl Hraw. unfold rotateRefreshToken.
    by rewrite (H3 r raw t).
  - intros rj adminToken t devices header c Hj Hc Hsub.
    pose proof (getTokenVersion_in _ _ Hk' Hu') as Hg. change (user_id (with_password now hash u)) with (user_id u) in Hg.
    rewrite (authenticate_jwt rj adminToken t (master st') devices header c Hj Hc). unfold admit_claims, revoked. split.
    + intros ->. rewrite Hsub, Hg. unfold with_password. simpl. by rewrite (proj2 (Z.eqb_neq _ _)) by lia.
    + intros -> Hl s Hres. simpl. rewrite Hg, Ht. unfold with_password. simpl. rewrite Z.eqb_refl. simpl.
      by rewrite H1, Hl, Hres.
Qed.
End password.

Section witnesses.
#[local] Instance id_sha : Sha256 := fun s => s.
#[local] Existing Instance toy_scrypt.
#[local] Instance w_jwt : Jwt := {|
  jwtSign c e := cl_sub c +:+ "/" +:+ default "" (cl_sid c); jwtVerify s now := None |}.

Definition w_other : RefreshTokenRow := {|
  rt_id := "s9"; rt_userId := "u1"; rt_tokenHash := "phone"; rt_expiresAt := 1000000; rt_revokedAt := None;
  rt_userAgent := None; rt_ip := None; rt_lastUsedAt := None; rt_createdAt := 0; rt_updatedAt := 0 |}.

Definition w_two : AuthState list := set_tokens w_state [w_token; w_other].
Definition w_subject : AuthSubject := {|
  sub_userId := "u1"; sub_isOwner := false; sub_permissions := []; sub_attributes := [] |}.

Lemma unique_pair {R K} (key : R -> K) (a b : R) : key a <> key b -> unique_key (T := list) key [a; b].
Proof. intros Hne. apply NoDup_cons. split; [by intros ?%list_elem_of_singleton|apply NoDup_singleton]. Qed.

Lemma password_change_safe_witness :
  let '(st', reply) := post_password (ST := list_store) w_config 10 (repeat 6 16) {| am_id := "x"; am_ip := "::1" |}
    w_two w_subject (Some "s1") (Some {| pw_currentPassword := "hunter22"; pw_newPassword := "correct-horse" |}) in
  reply = Some (Ok (Some "u1/s1")) /\
  isSessionLive 20 (refreshTokens (master st')) "s1" = true /\
  isSessionLive 20 (refreshTokens (master st')) "s9" = false.
Proof.
  destruct (hashPassword (repeat 6 16) "correct-horse" DEFAULT_SCRYPT_PARAMS) as [h|] eqn:Hh;
    [|vm_compute in Hh; discriminate].
  pose proof (password_change_safe (ST := list_store) (LT := list_store_laws) w_config 10 (repeat 6 16)
    {| am_id := "x"; am_ip := "::1" |} w_two w_subject "s1"
    {| pw_currentPassword := "hunter22"; pw_newPassword := "correct-horse" |} w_user h) as H.
  destruct (post_password w_config 10 (repeat 6 16) {| am_id := "x"; am_ip := "::1" |} w_two w_subject (Some "s1")
    (Some {| pw_currentPassword := "hunter22"; pw_newPassword := "correct-horse" |})) as [st' reply] eqn:Hrun.
  destruct H as (H1 & _ & H3 & H4 & _).
  - apply NoDup_singleton.
  - by apply list_elem_of_singleton.
  - done.
  - vm_compute. reflexivity.
  - vm_compute. reflexivity.
  - exact Hh.
  - done.
  - by apply unique_pair.
  - by apply unique_pair.
  - split; [exact H1|]. split; [rewrite H3; vm_compute; reflexivity|].
    apply (H4 w_other 20); [apply list_elem_of_further, list_elem_of_here|done|done|lia].
Defined.
End witnesses.
