(* ===== verification/Oidc.v ===== *)
(** * Single sign-on

    Models apps/backend/src/services/oidc-providers.ts and oidc.ts and the login flow and provider
    administration of routes/oidc.routes.ts. The identity providers are parameters: what their
    discovery document, token endpoint and userinfo endpoint answer. Random states and verifiers,
    fresh ids and initialisation vectors are arguments. A redirect is kept as the URL's base and
    the parameters set on it, before their percent-encoding. *)
From S2P Require Import Prelude Dates Text Store Schema RowUpdates Settings Crypto Totp AuditLog Authz Auth Devices Account.

(** ** Providers (oidc-providers.ts) *)

Definition OIDC_BRANDS : list string :=
  ["generic"; "google"; "microsoft"; "authentik"; "auth0"; "clerk"; "okta"; "keycloak"; "github"; "gitlab"].

(** [u.replace(/\/$/, "")] *)
Definition trimSlash (u : string) : string :=
  if String.eqb (slice_last 1 u) "/" then slice0 (String.length u - 1) u else u.

Definition redirectUriFor (publicUrl id : string) : string :=
  trimSlash publicUrl +:+ "/api/auth/oidc/" +:+ id +:+ "/callback".

Definition asBrand (v : string) : string := if includes OIDC_BRANDS v then v else "generic".

Record OidcProviderDTO : Type := {
  od_id : string; od_name : string; od_issuer : string; od_clientId : string; od_enabled : bool;
  od_brand : string; od_hasSecret : bool; od_redirectUri : string; od_createdAt : Z
}.

Definition toDTO (r : OidcProviderRow) (publicUrl : string) : OidcProviderDTO := {|
  od_id := oidc_id r; od_name := oidc_name r; od_issuer := oidc_issuer r; od_clientId := oidc_clientId r;
  od_enabled := oidc_enabled r; od_brand := asBrand (oidc_brand r);
  od_hasSecret := present (oidc_clientSecretRef r); od_redirectUri := redirectUriFor publicUrl (oidc_id r);
  od_createdAt := oidc_createdAt r |}.

Definition secretRef (id : string) : string := "oidc:" +:+ id +:+ ":secret".

(** A create or an update, parsed; [None] is an absent member. *)
Record OidcInput : Type := {
  oi_name : string; oi_issuer : string; oi_clientId : string; oi_clientSecret : option string;
  oi_enabled : option bool; oi_brand : option string
}.
Record OidcPatch : Type := {
  op_name : option string; op_issuer : option string; op_clientId : option string;
  op_clientSecret : option string; op_enabled : option bool; op_brand : option string
}.
Record PublicOidcProvider : Type := {
  pp_id : string; pp_name : string; pp_brand : string; pp_loginUrl : string
}.
Record OidcConfig : Type := {
  oc_issuer : string; oc_clientId : string; oc_clientSecret : string; oc_redirectUri : string
}.

Record OidcDb (T : Type -> Type) : Type := { providers : T OidcProviderRow; secrets : T SecretRow }.
Arguments providers {T} _. Arguments secrets {T} _.

Section providers.
Context {T : Type -> Type} {ST : Store T} {HG : Gcm}.
Implicit Types (db : OidcDb T).

Definition with_providers (t : T OidcProviderRow) db : OidcDb T := {| providers := t; secrets := secrets db |}.
Definition with_secrets (t : T SecretRow) db : OidcDb T := {| providers := providers db; secrets := t |}.

Definition is_provider (id : string) (r : OidcProviderRow) : bool := String.eqb (oidc_id r) id.

Definition storeSecret (now : Z) (iv : list Z) (secretId : string) db (id plaintext encKeyB64 : string)
  : OidcDb T * result CryptoError string :=
  let ref := secretRef id in
  match loadKey encKeyB64 with
  | Err e => (db, Err e)
  | Ok key =>
      match encryptSecret iv plaintext key 1 with
      | Err e => (db, Err e)
      | Ok ciphertext =>
          (with_secrets (upsert secrets_conflict
             {| secret_id := secretId; secret_ref := ref; secret_ciphertext := ciphertext;
                secret_keyVersion := 1; secret_createdAt := now; secret_updatedAt := now |}
             (fun r => set_secret_ciphertext ciphertext (set_secret_updatedAt now r)) (secrets db)) db, Ok ref)
      end
  end.

Definition listOidcProviders db (publicUrl : string) : list OidcProviderDTO :=
  map (fun r => toDTO r publicUrl) (rows (providers db)).

Definition createOidcProvider (now : Z) (id secretId : string) (iv : list Z) db (input : OidcInput)
    (encKeyB64 publicUrl : string) : OidcDb T * result CryptoError OidcProviderDTO :=
  let created := {|
    oidc_id := id; oidc_name := oi_name input; oidc_issuer := oi_issuer input;
    oidc_clientId := oi_clientId input; oidc_clientSecretRef := None;
    oidc_enabled := default false (oi_enabled input);
    oidc_brand := asBrand (default "generic" (oi_brand input)); oidc_createdAt := now; oidc_updatedAt := now |} in
  let db := with_providers (insert_row created (providers db)) db in
  match nonempty (oi_clientSecret input) with
  | None => (db, Ok (toDTO created publicUrl))
  | Some secret =>
      match storeSecret now iv secretId db id secret encKeyB64 with
      | (db, Err e) => (db, Err e)
      | (db, Ok ref) =>
          let '(t, updated) := update_returning (is_provider id) (set_oidc_clientSecretRef (Some ref)) (providers db) in
          (with_providers t db, Ok (toDTO (default created updated) publicUrl))
      end
  end.

Definition updateOidcProvider (now : Z) (secretId : string) (iv : list Z) db (id : string) (patch : OidcPatch)
    (encKeyB64 publicUrl : string) : OidcDb T * result CryptoError (option OidcProviderDTO) :=
  let opt {V} (o : option V) (f : V -> OidcProviderRow -> OidcProviderRow) r := match o with Some v => f v r | None => r end in
  let set r :=
    opt (op_brand patch) (fun v => set_oidc_brand (asBrand v))
      (opt (op_enabled patch) set_oidc_enabled (opt (op_clientId patch) set_oidc_clientId
        (opt (op_issuer patch) set_oidc_issuer (opt (op_name patch) set_oidc_name (set_oidc_updatedAt now r))))) in
  let finish db f :=
    let '(t, row) := update_returning (is_provider id) f (providers db) in
    (with_providers t db, Ok (option_map (fun r => toDTO r publicUrl) row)) in
  match nonempty (op_clientSecret patch) with
  | None => finish db set
  | Some secret =>
      match storeSecret now iv secretId db id secret encKeyB64 with
      | (db, Err e) => (db, Err e)
      | (db, Ok ref) => finish db (fun r => set_oidc_clientSecretRef (Some ref) (set r))
      end
  end.

Definition deleteOidcProvider db (id : string) : OidcDb T * bool :=
  let row := select_first (is_provider id) (providers db) in
  let db := with_providers (delete_where (is_provider id) (providers db)) db in
  match nonempty (row ≫= oidc_clientSecretRef) with
  | Some ref => (with_secrets (delete_where (fun s => String.eqb (secret_ref s) ref) (secrets db)) db, true)
  | None => (db, bool_decide (is_Some row))
  end.

Definition listEnabledPublicProviders db : list PublicOidcProvider :=
  map (fun r => {| pp_id := oidc_id r; pp_name := oidc_name r; pp_brand := asBrand (oidc_brand r);
                   pp_loginUrl := "/api/auth/oidc/" +:+ oidc_id r +:+ "/login" |})
    (List.filter (fun r => present (oidc_clientSecretRef r)) (select oidc_enabled (providers db))).

Definition getProviderConfig db (id encKeyB64 publicUrl : string) : result CryptoError (option OidcConfig) :=
  match select_first (fun r => is_provider id r && oidc_enabled r) (providers db) with
  | None => Ok None
  | Some provider =>
      match nonempty (oidc_clientSecretRef provider) with
      | None => Ok None
      | Some ref =>
          match select_first (fun s => String.eqb (secret_ref s) ref) (secrets db) with
          | None => Ok None
          | Some secret =>
              let? key := loadKey encKeyB64 in
              let? clientSecret := decryptSecret (secret_ciphertext secret) key in
              Ok (Some {| oc_issuer := oidc_issuer provider; oc_clientId := oidc_clientId provider;
                          oc_clientSecret := clientSecret; oc_redirectUri := redirectUriFor publicUrl id |})
          end
      end
  end.
End providers.

(** ** The authorization-code flow (oidc.ts, oidc.routes.ts) *)

Record Discovery : Type := {
  authorization_endpoint : string; token_endpoint : string; userinfo_endpoint : string
}.
Record OidcProfile : Type := { prof_sub : string; prof_email : option string; prof_name : string }.
Record UserInfo : Type := {
  ui_sub : string; ui_email : option string; ui_name : option string; ui_preferred_username : option string
}.

(** What the providers and the hash answer: the discovery document of an issuer, the access token
    an endpoint gives for a form, the user it describes ([None] where the status is not ok), and
    the base64url SHA-256 of a verifier. *)
Class Idp : Type := {
  idp_discovery : string -> option Discovery;
  idp_token : string -> list (string * string) -> option string;
  idp_userinfo : string -> string -> option UserInfo;
  s256 : string -> string
}.

Record PendingState : Type := { pend_verifier : string; pend_expiresAt : Z }.
Definition STATE_TTL_MS : Z := 10 * 60 * 1000.

(** A reply: a redirect (base and parameters) or an error; [Threw] is a 500. *)
Inductive oidc_reply : Type :=
| ToProvider (endpoint : string) (params : list (string * string))
| ToApp (publicUrl accessToken refreshToken : string)
| Refuses (code : Z) (error : string)
| Threw (error : string).

Definition pkce_params (cfg : OidcConfig) (state challenge : string) : list (string * string) :=
  [("response_type", "code"); ("client_id", oc_clientId cfg); ("redirect_uri", oc_redirectUri cfg);
   ("scope", "openid email profile"); ("state", state); ("code_challenge", challenge);
   ("code_challenge_method", "S256")].

Section flow.
Context {T : Type -> Type} {ST : Store T} {HS : Sha256} {HG : Gcm} {HJ : Jwt} {HI : Idp}.
Context (config : AuthConfig) (publicUrl : string).

(** The process's state: the tables, the flows under way, a JS [Map], and the discovery cache. *)
Record Sso : Type := {
  so_auth : AuthState T; so_oidc : OidcDb T; so_pending : list (string * PendingState);
  so_cache : list (string * Discovery)
}.
Implicit Types s : Sso.

Definition with_auth a s : Sso := {|
  so_auth := a; so_oidc := so_oidc s; so_pending := so_pending s; so_cache := so_cache s |}.
Definition with_pending p s : Sso := {|
  so_auth := so_auth s; so_oidc := so_oidc s; so_pending := p; so_cache := so_cache s |}.

(** [discover(issuer)] *)
Definition discover (issuer : string) s : Sso * option Discovery :=
  match map_get issuer (so_cache s) with
  | Some d => (s, Some d)
  | None =>
      match idp_discovery (trimSlash issuer +:+ "/.well-known/openid-configuration") with
      | None => (s, None)
      | Some d => ({| so_auth := so_auth s; so_oidc := so_oidc s; so_pending := so_pending s;
                      so_cache := map_set issuer d (so_cache s) |}, Some d)
      end
  end.

(** [exchangeCode]: [None] where a request fails. *)
Definition exchangeCode (d : Discovery) (cfg : OidcConfig) (code verifier : string) : option OidcProfile :=
  let! access := idp_token (token_endpoint d)
    [("grant_type", "authorization_code"); ("code", code); ("redirect_uri", oc_redirectUri cfg);
     ("client_id", oc_clientId cfg); ("client_secret", oc_clientSecret cfg); ("code_verifier", verifier)]
    otherwise None in
  let! info := idp_userinfo (userinfo_endpoint d) access otherwise None in
  Some {| prof_sub := ui_sub info; prof_email := ui_email info;
          prof_name := match ui_name info, ui_preferred_username info, ui_email info with
                       | Some n, _, _ | None, Some n, _ | None, None, Some n => n
                       | None, None, None => ui_sub info end |}.

Definition oidc_username (sub : string) : string := "oidc:" +:+ sub.

(** A user provisioned at the first login; the outer [None] is a unique violation. *)
Definition provisioned (now : Z) (id : string) (p : OidcProfile) : UserRow := {|
  user_id := id; user_username := oidc_username (prof_sub p); user_displayName := prof_name p;
  user_email := prof_email p; user_passwordHash := None; user_authProvider := "oidc";
  user_disabled := false; user_isOwner := false; user_isSystem := false; user_totpEnabled := false;
  user_totpSecret := None; user_totpRecovery := None; user_tokenVersion := 0;
  user_failedLoginCount := 0; user_lockedUntil := None; user_lastLoginAt := None;
  user_createdAt := now; user_updatedAt := now |}.

Definition findOrProvisionUser (now : Z) (id : string) (us : T UserRow) (p : OidcProfile)
  : option (T UserRow * UserRow) :=
  match select_first (fun u => String.eqb (user_username u) (oidc_username (prof_sub p))) us with
  | Some existing => Some (us, existing)
  | None =>
      let created := provisioned now id p in
      match insert_unique users_conflict created us with
      | Some us' => Some (us', created)
      | None => None end
  end.

(** [startFlow] *)
Definition startFlow (now : Z) (state verifier : string) (cfg : OidcConfig) s : Sso * oidc_reply :=
  match discover (oc_issuer cfg) s with
  | (s, None) => (s, Threw "oidc_discovery_failed")
  | (s, Some d) =>
      (with_pending (map_set state {| pend_verifier := verifier; pend_expiresAt := now + STATE_TTL_MS |} (so_pending s)) s,
       ToProvider (authorization_endpoint d) (pkce_params cfg state (s256 verifier)))
  end.

(** The fresh values of a completion. *)
Record SsoFresh : Type := { sf_userId : string; sf_fresh : Fresh }.

(** The end of a flow, once the user is known. *)
Definition complete_sso (now : Z) (fresh : Fresh) (req : RequestInfo) (user : UserRow) s : Sso * oidc_reply :=
  let tokens := issueRefreshToken now (Auth.fresh_token fresh) (fresh_session fresh)
    (refreshTokens (master (so_auth s))) (user_id user) (cfg_refreshTtlSec config)
    {| meta_userAgent := req_userAgent req; meta_ip := Some (req_ip req) |} in
  let st := set_tokens (so_auth s) tokens in
  let access := jwtSign {| cl_sub := user_id user; cl_sid := Some (fresh_session fresh);
                           cl_tv := Some (user_tokenVersion user) |} (now + cfg_accessTtlMs config) in
  (with_auth (audit_self now (fresh_audit1 fresh) "auth.oidc_login" (user_id user) req st) s,
   ToApp publicUrl access (Auth.fresh_token fresh)).

(** The map without a key: [pending.delete(state)] *)
Definition pending_delete (state : string) (m : list (string * PendingState)) : list (string * PendingState) :=
  List.filter (fun x => negb (String.eqb (fst x) state)) m.

(** [completeFlow]: first the check and the removal of the state ... *)
Definition take_state (now : Z) (code state : option string) s : option (string * string * Sso) :=
  match nonempty code, nonempty state with
  | Some code, Some state =>
      match map_get state (so_pending s) with
      | Some entry =>
          if pend_expiresAt entry <? now then None
          else Some (code, pend_verifier entry, with_pending (pending_delete state (so_pending s)) s)
      | None => None end
  | _, _ => None end.

(** ... then the exchange. *)
Definition completeFlow (now : Z) (fresh : SsoFresh) (req : RequestInfo) (cfg : OidcConfig)
    (code state : option string) s : Sso * oidc_reply :=
  match take_state now code state s with
  | None => (s, Refuses 400 "invalid_state")
  | Some (code, verifier, s) =>
      match discover (oc_issuer cfg) s with
      | (s, None) => (s, Threw "oidc_discovery_failed")
      | (s, Some d) =>
          match exchangeCode d cfg code verifier with
          | None => (s, Threw "oidc_exchange_failed")
          | Some profile =>
              match findOrProvisionUser now (sf_userId fresh) (users (master (so_auth s))) profile with
              | None => (s, Threw "unique_violation")
              | Some (us, user) =>
                  let s := with_auth (set_users (so_auth s) us) s in
                  if user_disabled user then (s, Refuses 403 "user_disabled")
                  else complete_sso now (sf_fresh fresh) req user s
              end
          end
      end
  end.

(** The configuration of the provider a route names; an exception of the envelope is a 500. *)
Definition provider_of (id : string) s : result CryptoError (option OidcConfig) :=
  match nonempty (cfg_encryptionKey config) with
  | Some encKey => getProviderConfig (so_oidc s) id encKey publicUrl
  | None => Ok None end.

(** A request of a flow. *)
Inductive sso_event : Type :=
| Login (now : Z) (provider state verifier : string)                 (** GET /api/auth/oidc/:id/login *)
| Callback (now : Z) (fresh : SsoFresh) (req : RequestInfo) (provider : string)
    (code state : option string)                                     (** GET /api/auth/oidc/:id/callback *)
| Administers (db : OidcDb T)                                        (** the administration of providers *)
| Elsewhere (st : AuthState T).                                      (** anything else the server does *)

Definition sso_step (e : sso_event) s : Sso * oidc_reply :=
  match e with
  | Login now id state verifier =>
      match provider_of id s with
      | Ok (Some cfg) => startFlow now state verifier cfg s
      | Ok None => (s, Refuses 404 "oidc_disabled")
      | Err _ => (s, Threw "secret") end
  | Callback now fresh req id code state =>
      match provider_of id s with
      | Ok (Some cfg) => completeFlow now fresh req cfg code state s
      | Ok None => (s, Refuses 404 "oidc_disabled")
      | Err _ => (s, Threw "secret") end
  | Administers db => ({| so_auth := so_auth s; so_oidc := db; so_pending := so_pending s; so_cache := so_cache s |}, Refuses 200 "")
  | Elsewhere st => (with_auth st s, Refuses 200 "")
  end.

Fixpoint sso_run (es : list sso_event) s : Sso * list oidc_reply :=
  match es with
  | [] => (s, [])
  | e :: es => let '(s, r) := sso_step e s in let '(s, rs) := sso_run es s in (s, r :: rs) end.
End flow.
Arguments Sso T : clear implicits.
Arguments sso_event T : clear implicits.

(** ** A state is used once, with the verifier drawn for it *)

Section state_theorems.
Context {T : Type -> Type} {ST : Store T} {HS : Sha256} {HG : Gcm} {HJ : Jwt} {HI : Idp}.
Context (config : AuthConfig) (publicUrl : string).
Implicit Types (s : Sso T) (es : list (sso_event T)).

Notation sso_step := (sso_step config publicUrl).
Notation sso_run := (sso_run config publicUrl).

Definition is_redirect (r : oidc_reply) : bool := match r with ToProvider _ _ => true | _ => false end.

(** The event starts a flow under the state; the event takes the state. *)
Definition issues (state : string) (e : sso_event T) s : bool :=
  match e with Login _ _ st _ => String.eqb st state && is_redirect (sso_step e s).2 | _ => false end.
Definition takes (state : string) (e : sso_event T) s : bool :=
  match e with
  | Callback now _ _ id code (Some st) =>
      String.eqb st state && bool_decide (is_Some (take_state now code (Some st) s))
      && match provider_of config publicUrl id s with Ok (Some _) => true | _ => false end
  | _ => false end.

Fixpoint count (p : sso_event T -> Sso T -> bool) es s : nat :=
  match es with
  | [] => 0
  | e :: es => (if p e s then 1 else 0) + count p es (sso_step e s).1 end.

Definition pending_for (state : string) s : nat :=
  if bool_decide (is_Some (map_get state (so_pending s))) then 1 else 0.

Lemma pending_get_delete state state' m :
  map_get state (pending_delete state' m) = if String.eqb state state' then None else map_get state m.
Proof.
  unfold pending_delete. rewrite (map_get_filter_key (fun k => negb (String.eqb k state'))).
  by destruct (String.eqb state state').
Qed.

Lemma take_state_spec now code state s c v s' : take_state now code state s = Some (c, v, s') ->
  exists st entry, state = Some st /\ map_get st (so_pending s) = Some entry /\ v = pend_verifier entry /\
    now <= pend_expiresAt entry /\ s' = with_pending (pending_delete st (so_pending s)) s.
Proof.
  unfold take_state, nonempty. destruct code as [c0|]; [|done]. destruct (truthy c0); [|done].
  destruct state as [st|]; [|done]. destruct (truthy st); [|done].
  destruct (map_get st (so_pending s)) as [entry|] eqn:He; [|done].
  destruct (Z.ltb_spec (pend_expiresAt entry) now); [done|]. intros [= <- <- <-]. exists st, entry. done.
Qed.

Lemma discover_pending issuer s : so_pending (discover issuer s).1 = so_pending s.
Proof.
  unfold discover. destruct (map_get issuer (so_cache s)); [done|].
  by destruct (idp_discovery _).
Qed.

(** After its check a completion leaves the flows under way alone. *)
Lemma completeFlow_pending now fresh req cfg code state s :
  so_pending (completeFlow config publicUrl now fresh req cfg code state s).1 =
  match take_state now code state s with Some (_, _, s') => so_pending s' | None => so_pending s end.
Proof.
  unfold completeFlow. destruct (take_state now code state s) as [[[c v] s']|]; [|done].
  pose proof (discover_pending (oc_issuer cfg) s') as Hd.
  destruct (discover (oc_issuer cfg) s') as [s2 [d|]]; [|exact Hd]. simpl in Hd.
  destruct (exchangeCode d cfg c v) as [p|]; [|exact Hd].
  destruct (findOrProvisionUser _ _ _ _) as [[us u]|]; [|exact Hd].
  by destruct (user_disabled u).
Qed.

(** One step: a state is under way after it at most where it was, or was issued, and not taken. *)
Lemma step_pending state e s :
  ((if takes state e s then 1 else 0) + pending_for state (sso_step e s).1 <=
   (if issues state e s then 1 else 0) + pending_for state s)%nat.
Proof.
  destruct e as [now id st v|now fresh req id code st|db|a]; unfold takes, issues, Oidc.sso_step; try done; simpl.
  - destruct (provider_of config publicUrl id s) as [[cfg|]|]; simpl; try lia.
    unfold startFlow. pose proof (discover_pending (oc_issuer cfg) s) as Hd.
    destruct (discover (oc_issuer cfg) s) as [s2 [d|]]; simpl in *; unfold pending_for; simpl; rewrite Hd.
    + rewrite andb_true_r. destruct (String.eqb_spec st state) as [->|Hne].
      * rewrite map_get_set_eq. simpl. lia.
      * rewrite map_get_set_ne by done. lia.
    + lia.
  - destruct (provider_of config publicUrl id s) as [[cfg|]|]; simpl; [|destruct st; rewrite ?andb_false_r; lia..].
    unfold pending_for at 1. rewrite completeFlow_pending.
    destruct (take_state now code st s) as [[[c v] s']|] eqn:Ht.
    + pose proof Ht as (st0 & entry & -> & Hg & -> & Hle & ->)%take_state_spec.
      rewrite Ht, bool_decide_true by (by eexists). simpl. rewrite pending_get_delete, !andb_true_r, (String.eqb_sym state).
      unfold pending_for. destruct (String.eqb_spec st0 state) as [->|Hne]; [|lia]. rewrite Hg. simpl. lia.
    + assert ((match st with
        | Some st0 => String.eqb st0 state && bool_decide (is_Some (take_state now code (Some st0) s)) && true
        | None => false end) = false) as ->.
      { destruct st as [st0|]; [|done]. rewrite Ht, bool_decide_false by (by intros []). by rewrite andb_false_r. }
      unfold pending_for. lia.
Qed.

Lemma run_pending state es s :
  (count (takes state) es s + pending_for state (sso_run es s).1 <= count (issues state) es s + pending_for state s)%nat.
Proof.
  revert s. induction es as [|e es IH]; intros s; simpl; [lia|].
  pose proof (step_pending state e s) as Hs. specialize (IH (sso_step e s).1).
  destruct (Oidc.sso_step config publicUrl e s) as [s1 r]. simpl in *.
  destruct (Oidc.sso_run config publicUrl es s1) as [s2 rs]. simpl in *. lia.
Qed.

(** Where a flow under way comes from. *)
Definition drawn (es : list (sso_event T)) (rs : list oidc_reply) (state : string) (entry : PendingState) : Prop :=
  exists i t0 id endpoint params,
    es !! i = Some (Login t0 id state (pend_verifier entry)) /\ pend_expiresAt entry = t0 + STATE_TTL_MS /\
    rs !! i = Some (ToProvider endpoint params) /\ map_get "state" params = Some state /\
    map_get "code_challenge" params = Some (s256 (pend_verifier entry)).
Lemma drawn_app es rs e r state entry : drawn es rs state entry -> drawn (es ++ [e]) (rs ++ [r]) state entry.
Proof.
  intros (i & t0 & id & ep & ps & He & Hx & Hr & H). exists i, t0, id, ep, ps.
  split; [by apply lookup_app_l_Some|]. split; [done|]. split; [by apply lookup_app_l_Some|done].
Qed.

Lemma step_drawn e s es rs :
  List.length es = List.length rs ->
  (forall state entry, map_get state (so_pending s) = Some entry -> drawn es rs state entry) ->
  forall state entry, map_get state (so_pending (sso_step e s).1) = Some entry ->
  drawn (es ++ [e]) (rs ++ [(sso_step e s).2]) state entry.
Proof.
  intros Hl Hd state entry.
  destruct e as [now id st v|now fresh req id code st|db|a]; unfold Oidc.sso_step.
  - destruct (provider_of config publicUrl id s) as [[cfg|]|]; [|intros H; by apply drawn_app, Hd..].
    unfold startFlow. pose proof (discover_pending (oc_issuer cfg) s) as Hp.
    destruct (discover (oc_issuer cfg) s) as [s2 [d|]]; cbn [fst snd] in *; [|rewrite Hp; intros H; by apply drawn_app, Hd].
    unfold with_pending. cbn [so_pending]. rewrite Hp. destruct (decide (st = state)) as [->|Hne].
    + rewrite map_get_set_eq. intros [= <-].
      exists (List.length es), now, id, (authorization_endpoint d), (pkce_params cfg state (s256 v)). cbn [pend_verifier pend_expiresAt].
      split; [by apply list_lookup_middle|]. split; [done|]. split; [by apply list_lookup_middle|]. done.
    + rewrite map_get_set_ne by done. intros H. by apply drawn_app, Hd.
  - destruct (provider_of config publicUrl id s) as [[cfg|]|]; [|intros H; by apply drawn_app, Hd..].
    rewrite completeFlow_pending. destruct (take_state now code st s) as [[[c v] s']|] eqn:Ht; [|intros H; by apply drawn_app, Hd].
    apply take_state_spec in Ht as (st0 & en & -> & Hg & -> & Hle & ->). unfold with_pending. cbn [so_pending].
    rewrite pending_get_delete. destruct (String.eqb_spec state st0); [done|]. intros H. by apply drawn_app, Hd.
  - intros H. by apply drawn_app, Hd.
  - intros H. by apply drawn_app, Hd.
Qed.

Lemma run_drawn es s es0 rs0 s' rs :
  sso_run es s = (s', rs) -> List.length es0 = List.length rs0 ->
  (forall state entry, map_get state (so_pending s) = Some entry -> drawn es0 rs0 state entry) ->
  forall state entry, map_get state (so_pending s') = Some entry -> drawn (es0 ++ es) (rs0 ++ rs) state entry.
Proof.
  revert s es0 rs0 rs. induction es as [|e es IH]; intros s es0 rs0 rs Hr Hl Hd; simpl in Hr.
  { simplify_eq. by rewrite !app_nil_r. }
  pose proof (step_drawn e s es0 rs0 Hl Hd) as Hs. destruct (Oidc.sso_step config publicUrl e s) as [s1 r].
  destruct (Oidc.sso_run config publicUrl es s1) as [s2 rs2] eqn:Hrun. simplify_eq. simpl in Hs.
  rewrite (cons_middle e es0 es), (cons_middle r rs0 rs2), !app_assoc.
  eapply (IH s1); [done|rewrite !length_app; simpl; lia|exact Hs].
Qed.

(** C35: a sign-on completes once per state, for the browser's verifier, and in time. Whatever the
    providers answer and whatever else happens, the callbacks that get past the check with a
    state are at most the logins that were redirected with it; one that gets past it does so
    within ten minutes of such a login, presents to the provider the code with the verifier
    whose challenge that redirect carried, and leaves the state unusable. *)
Theorem sso_state_single_use es s0 s rs now code state c verifier s'
  (H0 : so_pending s0 = []) (Hrun : sso_run es s0 = (s, rs))
  (Ht : take_state now code state s = Some (c, verifier, s')) :
  (forall st, (count (takes st) es s0 <= count (issues st) es s0)%nat) /\
  exists st i t0 id endpoint params,
    state = Some st /\ es !! i = Some (Login t0 id st verifier) /\ now <= t0 + 10 * 60 * 1000 /\
    rs !! i = Some (ToProvider endpoint params) /\ map_get "state" params = Some st /\
    map_get "code_challenge" params = Some (s256 verifier) /\
    forall later code2, take_state later code2 (Some st) s' = None.
Proof.
  split.
  - intros st. pose proof (run_pending st es s0) as H. unfold pending_for at 2 in H. rewrite H0 in H.
    rewrite bool_decide_false in H by (by intros []). lia.
  - apply take_state_spec in Ht as (st & entry & -> & Hg & -> & Hle & ->).
    destruct (run_drawn es s0 [] [] s rs Hrun eq_refl) with (state := st) (entry := entry)
      as (i & t0 & id & ep & ps & He & Hx & Hr & Hst & Hc); [rewrite H0; done|done|].
    exists st, i, t0, id, ep, ps. split; [done|]. split; [done|]. split; [unfold STATE_TTL_MS in Hx; lia|].
    do 3 (split; [done|]). intros later code2. unfold take_state. destruct (nonempty code2); [|done].
    destruct (nonempty (Some st)) as [st'|] eqn:Hn; [|done]. unfold nonempty in Hn. destruct (truthy st); [|done].
    injection Hn as <-. unfold with_pending. cbn [so_pending]. by rewrite pending_get_delete, String.eqb_refl.
Qed.
End state_theorems.

(** ** Who signs on for the first time *)

Section provisioning.
Context {T : Type -> Type} {ST : Store T} {LT : StoreLaws T} {HS : Sha256} {HG : Gcm} {HJ : Jwt} {HI : Idp}.
Context (config : AuthConfig) (publicUrl : string).
Implicit Types (s : Sso T).

Lemma permission_rows_nobody (db : AccessDb T) id :
  (forall r, r ∈ rows (userGroups db) -> ug_userId r <> id) -> permission_rows db id = [].
Proof.
  intros H. destruct (permission_rows db id) as [|k l] eqn:He; [done|].
  assert (Hk : k ∈ permission_rows db id) by (rewrite He; by left).
  apply elem_of_permission_rows in Hk as (ug & _ & _ & _ & Hug & _ & _ & _ & Hu & _). by destruct (H ug Hug).
Qed.

Lemma attribute_rows_nobody (db : AccessDb T) id :
  (forall r, r ∈ rows (userAttributes db) -> attr_userId r <> id) -> attribute_rows db id = [].
Proof.
  intros H. unfold attribute_rows, select. rewrite (proj2 (filterb_nil _ _)); [done|].
  intros r Hr. apply String.eqb_neq. by apply H.
Qed.

(** Whoever a provider vouches for the first time gets an account with nothing: the flow
    signs the browser in to a new session of a new enabled user, who resolves to a subject
    without permissions, attributes or ownership, so that every action is refused, and who is
    found again, not provisioned anew, at the next sign-on with the same subject. *)
Theorem provisioned_powerless now fresh req cfg code state s c v s1 s2 d p
  (Ht : take_state now code state s = Some (c, v, s1)) (Hd : discover (oc_issuer cfg) s1 = (s2, Some d))
  (Hx : exchangeCode d cfg c v = Some p)
  (Hname : forall u, u ∈ rows (users (master (so_auth s))) -> user_username u <> oidc_username (prof_sub p))
  (Hid : forall u, u ∈ rows (users (master (so_auth s))) -> user_id u <> sf_userId fresh)
  (Hg : forall r, r ∈ rows (userGroups (master (so_auth s))) -> ug_userId r <> sf_userId fresh)
  (Ha : forall r, r ∈ rows (userAttributes (master (so_auth s))) -> attr_userId r <> sf_userId fresh)
  (Httl : 0 < cfg_refreshTtlSec config) :
  let uid := sf_userId fresh in
  let '(s', reply) := completeFlow config publicUrl now fresh req cfg code state s in
  let db := master (so_auth s') in
  reply = ToApp publicUrl (jwtSign {| cl_sub := uid; cl_sid := Some (fresh_session (sf_fresh fresh)); cl_tv := Some 0 |}
                             (now + cfg_accessTtlMs config)) (Auth.fresh_token (sf_fresh fresh)) /\
  isSessionLive now (refreshTokens db) (fresh_session (sf_fresh fresh)) = true /\
  (exists subject, resolveSubject db uid = Some subject /\ sub_isOwner subject = false /\
     sub_permissions subject = [] /\ sub_attributes subject = [] /\
     forall action resource, allowed (authorize subject action resource) = false) /\
  forall later id' p', prof_sub p' = prof_sub p ->
    findOrProvisionUser later id' (users db) p' = Some (users db, provisioned now uid p).
Proof.
  intros uid. unfold completeFlow. rewrite Ht, Hd, Hx.
  assert (Hm : so_auth s2 = so_auth s).
  { apply take_state_spec in Ht as (st & en & _ & _ & _ & _ & ->). unfold discover in Hd.
    destruct (map_get _ _); [by injection Hd as <- _|]. destruct (idp_discovery _); [|done]. by injection Hd as <- _. }
  rewrite Hm. set (us := users (master (so_auth s))) in *. set (u := provisioned now uid p).
  assert (Hnone : select_first (fun x => String.eqb (user_username x) (oidc_username (prof_sub p))) us = None).
  { apply select_first_None. intros x Hxin. apply String.eqb_neq. by apply Hname. }
  assert (Hins : insert_unique users_conflict u us = Some (insert_row u us)).
  { unfold insert_unique. assert (existsb (users_conflict u) (rows us) = false) as ->; [|done].
    apply existsb_false. intros x Hxin. unfold users_conflict. apply orb_false_iff.
    split; apply String.eqb_neq; [intros He; by apply (Hid x Hxin)|intros He; by apply (Hname x Hxin)]. }
  unfold findOrProvisionUser at 1. rewrite Hnone. fold uid. fold u. rewrite Hins. cbn [user_disabled u provisioned].
  unfold complete_sso. cbv zeta.
  assert (Hfind : forall q : UserRow -> bool, q u = true -> (forall x, x ∈ rows us -> q x = false) ->
    select_first q (insert_row u us) = Some u).
  { intros q Hq Hqo. destruct (select_first q (insert_row u us)) as [x|] eqn:Hsel.
    - apply select_first_Some in Hsel as [[->|Hin]%elem_of_insert Hqx]; [done|]. by rewrite Hqo in Hqx.
    - rewrite select_first_None in Hsel. rewrite Hsel in Hq; [done|]. apply elem_of_insert. by left. }
  split; [done|]. split; [|split].
  - apply isSessionLive_true. eexists. split.
    { simpl. unfold issueRefreshToken. apply elem_of_insert. by left. }
    simpl. split; [done|]. split; [done|]. lia.
  - simpl. unfold resolveSubject. simpl. change (users (master (set_users (so_auth s2) (insert_row u us)))) with (insert_row u us).
    rewrite (Hfind (fun x => String.eqb (user_id x) uid)); [|apply String.eqb_refl|intros x Hxin; apply String.eqb_neq; by apply Hid].
    simpl. eexists. split; [reflexivity|]. split; [done|]. unfold sub_permissions, sub_attributes.
    rewrite permission_rows_nobody, attribute_rows_nobody by (simpl; rewrite ?Hm; done). split; [done|]. split; [done|].
    by intros action resource.
  - intros later id' p' Hp. simpl. unfold findOrProvisionUser. rewrite Hp.
    by rewrite Hfind; [|apply String.eqb_refl|intros x Hxin; apply String.eqb_neq; by apply Hname].
Qed.
End provisioning.

(** ** A provider's secret *)

Section secrets.
Context {T : Type -> Type} {ST : Store T} {LT : StoreLaws T} {HG : Gcm} {GL : GcmLaws}.
Implicit Types (db : OidcDb T).

Lemma secretRef_inj a b : secretRef a = secretRef b -> a = b.
Proof.
  unfold secretRef. intros He. assert (Hl : String.length a = String.length b).
  { apply (f_equal String.length) in He. rewrite !str_length_app in He. lia. }
  destruct (str_app_inj_length "oidc:" (a +:+ ":secret") "oidc:" (b +:+ ":secret") eq_refl He) as [_ H].
  by destruct (str_app_inj_length a ":secret" b ":secret" Hl H).
Qed.

Lemma provider_selected (id : string) (q : OidcProviderRow -> bool) (t : T OidcProviderRow) r :
  unique_key oidc_id t -> r ∈ rows t -> oidc_id r = id ->
  select_first (fun x => is_provider id x && q x) t = if q r then Some r else None.
Proof.
  intros Hk Hr He. destruct (q r) eqn:Hq.
  - apply (select_first_key oidc_id); [done|done| |].
    + unfold is_provider. by rewrite He, String.eqb_refl.
    + intros r' [Hi _]%andb_true_iff. unfold is_provider in Hi. apply String.eqb_eq in Hi. congruence.
  - apply select_first_None. intros x Hx. apply andb_false_iff. unfold is_provider.
    destruct (String.eqb_spec (oidc_id x) id) as [Hi|]; [right|by left].
    by rewrite (unique_key_inj oidc_id t x r Hk Hx Hr) by congruence.
Qed.
Lemma select_provider_iff (id : string) (q : OidcProviderRow -> bool) (t : T OidcProviderRow) r :
  unique_key oidc_id t ->
  select_first (fun x => is_provider id x && q x) t = Some r <-> r ∈ rows t /\ is_provider id r && q r = true.
Proof.
  intros Hk. split; [intros H; by apply select_first_Some in H|]. intros [Hr [Hi Hq]%andb_true_iff]. unfold is_provider in Hi.
  apply String.eqb_eq in Hi. pose proof (provider_selected id q t r Hk Hr Hi) as Hs. by rewrite Hq in Hs.
Qed.

(** Reading a reference after a secret was stored. *)
Lemma select_secret row f (t : T SecretRow) ref :
  unique_key secret_ref t -> (forall r, secret_ref (f r) = secret_ref r) ->
  select_first (fun x => String.eqb (secret_ref x) ref) (upsert secrets_conflict row f t) =
  if decide (ref = secret_ref row)
  then Some (match select_first (fun x => String.eqb (secret_ref x) ref) t with Some r => f r | None => row end)
  else select_first (fun x => String.eqb (secret_ref x) ref) t.
Proof.
  intros Hu Hf. apply (select_first_upsert secret_ref); [done|intros; apply String.eqb_eq| |done].
  intros x. unfold secrets_conflict. rewrite String.eqb_eq. split; congruence.
Qed.

(** Every provider's reference is its own. *)
Definition own_refs db : Prop := forall r ref, r ∈ rows (providers db) ->
  oidc_clientSecretRef r = Some ref -> ref = secretRef (oidc_id r).

(** A deleted provider leaves neither a configuration nor its secret. *)
Lemma deleted_nothing db id r encKey publicUrl
  (Hk : unique_key oidc_id (providers db)) (Hr : r ∈ rows (providers db)) (Hi : oidc_id r = id)
  (Hs : oidc_clientSecretRef r = Some (secretRef id)) :
  (deleteOidcProvider db id).2 = true /\
  getProviderConfig (deleteOidcProvider db id).1 id encKey publicUrl = Ok None /\
  (forall x, x ∈ rows (secrets (deleteOidcProvider db id).1) -> secret_ref x <> secretRef id).
Proof.
  assert (Hsel : select_first (is_provider id) (providers db) = Some r).
  { apply (select_first_key oidc_id); [done|done|unfold is_provider; by rewrite Hi, String.eqb_refl|].
    intros r' ?%String.eqb_eq. congruence. }
  unfold deleteOidcProvider. rewrite Hsel. cbn [mbind option_bind]. rewrite Hs.
  change (nonempty (Some (secretRef id))) with (Some (secretRef id)). cbn [fst snd]. split; [done|]. split.
  - unfold getProviderConfig. cbn [providers secrets with_providers with_secrets].
    clear Hsel. destruct (select_first _ _) as [x|] eqn:Hx; [|done]. apply select_first_Some in Hx as [[_ Hx]%elem_of_delete Hq].
    apply andb_true_iff in Hq as [Hq _]. by rewrite Hq in Hx.
  - intros x [_ Hx]%elem_of_delete. by apply String.eqb_neq.
Qed.

(** A provider created with a secret signs on with that secret as long as it is enabled, says only
    that it has one, changes no other provider's sign-on, and leaves nothing when deleted. *)
Theorem provider_secret_round_trip now id sid iv db input encKey key publicUrl v
  (Hp : unique_key oidc_id (providers db)) (Hs : unique_key secret_ref (secrets db)) (Ho : own_refs db)
  (Hid : forall r, r ∈ rows (providers db) -> oidc_id r <> id) (Hk : loadKey encKey = Ok key)
  (Hiv : List.length iv = IV_BYTES /\ Forall is_byte iv)
  (Hv : oi_clientSecret input = Some v) (Htv : truthy v = true) :
  exists db' dto, createOidcProvider now id sid iv db input encKey publicUrl = (db', Ok dto) /\
    od_hasSecret dto = true /\
    getProviderConfig db' id encKey publicUrl = Ok (if default false (oi_enabled input) then Some {|
      oc_issuer := oi_issuer input; oc_clientId := oi_clientId input; oc_clientSecret := v;
      oc_redirectUri := redirectUriFor publicUrl id |} else None) /\
    (forall id2, id2 <> id -> getProviderConfig db' id2 encKey publicUrl = getProviderConfig db id2 encKey publicUrl) /\
    (deleteOidcProvider db' id).2 = true /\
    getProviderConfig (deleteOidcProvider db' id).1 id encKey publicUrl = Ok None /\
    (forall x, x ∈ rows (secrets (deleteOidcProvider db' id).1) -> secret_ref x <> secretRef id).
Proof.
  destruct Hiv as [Hl Hb]. assert (Hlen : List.length key = KEY_BYTES).
  { unfold loadKey in Hk. destruct (Nat.eqb_spec (List.length (base64_decode encKey)) KEY_BYTES); [|done].
    by injection Hk as <-. }
  destruct (sealed_opens iv v key 1 Hlen Hl Hb) as (env & He & Hdec & _); [lia|].
  unfold createOidcProvider, nonempty. rewrite Hv, Htv. unfold storeSecret. rewrite Hk, He.
  set (created := {| oidc_id := id |}). set (row := {| secret_id := sid |}).
  set (f := fun r => set_secret_ciphertext env (set_secret_updatedAt now r)).
  unfold update_returning. cbn [providers secrets with_providers with_secrets].
  set (t0 := insert_row created (providers db)). set (g := set_oidc_clientSecretRef (Some (secretRef id))).
  assert (Hk0 : unique_key oidc_id t0) by by apply unique_key_insert.
  assert (Hin0 : created ∈ rows t0) by (apply elem_of_insert; by left).
  assert (Hsel0 : select_first (is_provider id) t0 = Some created).
  { apply (select_first_key oidc_id); [done|done|apply String.eqb_refl|by intros r' ?%String.eqb_eq]. }
  set (t1 := update_where (is_provider id) g t0). assert (Hk1 : unique_key oidc_id t1) by by apply unique_key_update.
  assert (Hin1 : forall r, r ∈ rows t1 <-> r = g created \/ r ∈ rows (providers db)).
  { intros r. unfold t1, t0. rewrite elem_of_update. setoid_rewrite elem_of_insert. split.
    - intros (x & [->|Hx] & ->); [left; unfold is_provider; simpl; by rewrite String.eqb_refl|right].
      unfold is_provider. rewrite (proj2 (String.eqb_neq _ _)); [done|by apply Hid].
    - intros [->|Hr]; [exists created; unfold is_provider; simpl; rewrite String.eqb_refl; auto|].
      exists r. unfold is_provider. rewrite (proj2 (String.eqb_neq _ _)) by by apply Hid. auto. }
  assert (Hread : forall ref, select_first (fun x => String.eqb (secret_ref x) ref)
      (upsert secrets_conflict row f (secrets db)) = if decide (ref = secretRef id)
      then Some (match select_first (fun x => String.eqb (secret_ref x) ref) (secrets db) with Some r => f r | None => row end)
      else select_first (fun x => String.eqb (secret_ref x) ref) (secrets db)) by (intros ref; by apply select_secret).
  rewrite Hsel0. eexists _, _. split; [reflexivity|]. split; [done|].
  split; [|split; [|apply (deleted_nothing _ id (g created))]].
  - unfold getProviderConfig. cbn [providers secrets with_providers with_secrets]. fold t1.
    rewrite (provider_selected id oidc_enabled t1 (g created) Hk1 (proj2 (Hin1 _) (or_introl eq_refl)) eq_refl).
    cbn [oidc_enabled g set_oidc_clientSecretRef created]. destruct (default false (oi_enabled input)); [|done].
    change (nonempty (oidc_clientSecretRef (g created))) with (Some (secretRef id)).
    cbv iota. rewrite Hread, decide_True by done. rewrite Hk.
    destruct (select_first _ (secrets db)); cbn [secret_ciphertext f set_secret_ciphertext row]; by rewrite Hdec.
  - intros id2 Hne. unfold getProviderConfig. cbn [providers secrets with_providers with_secrets]. fold t1.
    assert (Hsel : select_first (fun r => is_provider id2 r && oidc_enabled r) t1 =
                   select_first (fun r => is_provider id2 r && oidc_enabled r) (providers db)).
    { apply option_eq. intros r. rewrite !select_provider_iff by done. rewrite Hin1.
      split; [|tauto]. intros [[->|Hr] Hq]; [|done]. apply andb_true_iff in Hq as [Hq _].
      apply String.eqb_eq in Hq. by destruct Hne. }
    rewrite Hsel. destruct (select_first _ (providers db)) as [r|] eqn:Hr; [|done].
    apply select_first_Some in Hr as [Hr Hq]. apply andb_true_iff in Hq as [Hq _]. apply String.eqb_eq in Hq.
    destruct (oidc_clientSecretRef r) as [ref|] eqn:Href; [|done]. unfold nonempty. destruct (truthy ref); [|done].
    rewrite Hread, decide_False; [done|]. rewrite (Ho r ref Hr Href), Hq. by intros ?%secretRef_inj.
  - done.
  - apply Hin1. by left.
  - done.
  - done.
Qed.
End secrets.


Section witnesses.
#[local] Instance id_sha : Sha256 := fun s => s.
#[local] Existing Instance toy_gcm.
#[local] Existing Instance toy_gcm_laws.
#[local] Instance w_jwt : Jwt := {|
  jwtSign c e := cl_sub c +:+ "/" +:+ default "" (cl_sid c); jwtVerify s now := None |}.
(** Two providers that answer every code, each knowing its own visitor as number 42. *)
#[local] Instance w_idp : Idp := {|
  idp_discovery url := Some {| authorization_endpoint := url; token_endpoint := url; userinfo_endpoint := url |};
  idp_token endpoint form := map_get "code" form;
  idp_userinfo endpoint access := Some {|
    ui_sub := "42"; ui_email := Some (access +:+ "@example.org"); ui_name := None; ui_preferred_username := None |};
  s256 v := "S256:" +:+ v |}.

Definition w_provider (id : string) : OidcProviderRow := {|
  oidc_id := id; oidc_name := id; oidc_issuer := "https://" +:+ id; oidc_clientId := "argus";
  oidc_clientSecretRef := Some (secretRef id); oidc_enabled := true; oidc_brand := "generic";
  oidc_createdAt := 0; oidc_updatedAt := 0 |}.
Definition w_secret (id : string) : SecretRow := {|
  secret_id := id; secret_ref := secretRef id;
  secret_ciphertext := match encryptSecret iv_a "hush" key_a 1 with Ok s => s | Err _ => "" end;
  secret_keyVersion := 1; secret_createdAt := 0; secret_updatedAt := 0 |}.
Definition w_sso : Sso list := {|
  so_auth := w_state; so_oidc := {| providers := [w_provider "corp"; w_provider "club"];
                                    secrets := [w_secret "corp"; w_secret "club"] |};
  so_pending := []; so_cache := [] |}.
Definition w_sso_fresh (u : string) : SsoFresh := {|
  sf_userId := u; sf_fresh := {| Auth.fresh_token := "t" +:+ u; fresh_session := "s" +:+ u; fresh_audit1 := "a"; fresh_audit2 := "b" |} |}.
Definition w_corp : OidcConfig := {|
  oc_issuer := "https://corp"; oc_clientId := "argus"; oc_clientSecret := "hush";
  oc_redirectUri := redirectUriFor "https://argus" "corp" |}.
Notation run := (sso_run (ST := list_store) w_config "https://argus").
Definition callback (u provider state : string) : sso_event list :=
  Callback 50 (w_sso_fresh u) w_req provider (Some ("code-" +:+ u)) (Some state).

Example both_sign_on :
  (run [Login 10 "corp" "st1" "v1"; callback "n1" "corp" "st1"; callback "n1" "corp" "st1"] w_sso).2 =
  [ToProvider "https://corp/.well-known/openid-configuration" (pkce_params w_corp "st1" "S256:v1");
   ToApp "https://argus" "n1/sn1" "tn1"; Refuses 400 "invalid_state"].
Proof. vm_compute. reflexivity. Qed.

(** The account is named by the subject alone: number 42 of one provider signs on as number 42 of
    the other. *)
Example subject_not_scoped :
  let '(s, rs) := run [Login 10 "corp" "st1" "v1"; callback "n1" "corp" "st1";
                       Login 20 "club" "st2" "v2"; callback "n2" "club" "st2"] w_sso in
  (rs !! 1%nat, rs !! 3%nat, map user_id (users (master (so_auth s)))) =
  (Some (ToApp "https://argus" "n1/sn1" "tn1"), Some (ToApp "https://argus" "n1/sn2" "tn2"), ["u1"; "n1"]).
Proof. vm_compute. reflexivity. Qed.

(** A flow started at one provider completes at the callback of another. *)
Example state_not_bound_to_provider :
  (run [Login 10 "corp" "st1" "v1"; callback "n1" "club" "st1"] w_sso).2 !! 1%nat =
  Some (ToApp "https://argus" "n1/sn1" "tn1").
Proof. vm_compute. reflexivity. Qed.

(** A flow nobody comes back from stays. *)
Example abandoned_flow_stays :
  map fst (so_pending (run [Login 10 "corp" "st1" "v1"; Login (10 + 3600000) "corp" "st2" "v2";
                            callback "n1" "corp" "st2"] w_sso).1) = ["st1"].
Proof. vm_compute. reflexivity. Qed.

(** An update of a provider that does not exist leaves its secret behind. *)
Example orphan_secret :
  let '(db, reply) := updateOidcProvider (ST := list_store) 5 "x" iv_a (so_oidc w_sso) "gone"
    {| op_name := None; op_issuer := None; op_clientId := None; op_clientSecret := Some "hush";
       op_enabled := None; op_brand := None |} (base64_encode key_a) "https://argus" in
  (reply, map secret_ref (secrets db)) = (Ok None, ["oidc:corp:secret"; "oidc:club:secret"; "oidc:gone:secret"]).
Proof. vm_compute. reflexivity. Qed.

Lemma sso_state_single_use_witness :
  let s := (run [Login 10 "corp" "st1" "v1"] w_sso).1 in
  exists s', take_state 50 (Some "c") (Some "st1") s = Some ("c", "v1", s') /\
  forall later code2, take_state later code2 (Some "st1") s' = None.
Proof.
  simpl. eexists. split; [vm_compute; reflexivity|].
  destruct (sso_state_single_use (ST := list_store) w_config "https://argus" [Login 10 "corp" "st1" "v1"] w_sso
    (run [Login 10 "corp" "st1" "v1"] w_sso).1 (run [Login 10 "corp" "st1" "v1"] w_sso).2 50 (Some "c") (Some "st1") "c" "v1"
    {| so_auth := w_state; so_oidc := so_oidc w_sso; so_pending := []; so_cache :=
         [("https://corp", {| authorization_endpoint := "https://corp/.well-known/openid-configuration";
             token_endpoint := "https://corp/.well-known/openid-configuration";
             userinfo_endpoint := "https://corp/.well-known/openid-configuration" |})] |})
    as (_ & st & i & t0 & id & ep & ps & Hst & _ & _ & _ & _ & _ & H).
  - reflexivity.
  - vm_compute. reflexivity.
  - vm_compute. reflexivity.
  - injection Hst as <-. exact H.
Defined.

Lemma provisioned_powerless_witness :
  let s := (run [Login 10 "corp" "st1" "v1"] w_sso).1 in
  (completeFlow (ST := list_store) w_config "https://argus" 50 (w_sso_fresh "n1") w_req w_corp (Some "c") (Some "st1") s).2 =
  ToApp "https://argus" "n1/sn1" "tn1".
Proof.
  cbv zeta. set (s := (run [Login 10 "corp" "st1" "v1"] w_sso).1). vm_compute in s.
  assert (Hnew : forall (f : UserRow -> string) v, f w_user <> v -> forall u, u ∈ rows (users (master (so_auth s))) -> f u <> v).
  { intros f v Hv u ->%list_elem_of_singleton. exact Hv. }
  destruct (take_state 50 (Some "c") (Some "st1") s) as [[[c v] s1]|] eqn:Ht; [|vm_compute in Ht; discriminate].
  destruct (discover (oc_issuer w_corp) s1) as [s2 d] eqn:Hd.
  pose proof (provisioned_powerless (ST := list_store) (LT := list_store_laws) w_config "https://argus" 50
    (w_sso_fresh "n1") w_req w_corp (Some "c") (Some "st1") s c v s1 s2) as H.
  vm_compute in Ht. injection Ht as <- <- <-. vm_compute in Hd. injection Hd as <- <-.
  specialize (H _ {| prof_sub := "42"; prof_email := Some "c@example.org"; prof_name := "c@example.org" |} eq_refl eq_refl eq_refl).
  destruct (completeFlow w_config "https://argus" 50 (w_sso_fresh "n1") w_req w_corp (Some "c") (Some "st1") s) as [s' reply].
  destruct H as [-> _]; [|by apply Hnew..|by intros r ?%not_elem_of_nil|by intros r ?%not_elem_of_nil|done|done].
  by apply (Hnew user_username).
Defined.
End witnesses.
