(* ===== verification/BackupPolicy.v ===== *)
(** * Backup copies: names, schedules and retention

    Models packages/shared/src/backup.ts and the parts of apps/backend/src/services/backup.ts
    that decide: file names and scopes, the path guard, the schedules and the retention policy
    read back from settings, and which copies a policy deletes. A directory is the list of its
    files; the ISO time of a file is the instant it denotes. *)
From S2P Require Import Prelude Dates Text Store Schema RowUpdates Settings.

Inductive BackupScope : Type := ScopeAll | ScopeConfig | ScopeData.
#[export] Instance BackupScope_eq_dec : EqDecision BackupScope.
Proof. solve_decision. Defined.

Definition scope_name (s : BackupScope) : string :=
  match s with ScopeAll => "all" | ScopeConfig => "config" | ScopeData => "data" end.
Definition BACKUP_SCOPES : list BackupScope := [ScopeAll; ScopeConfig; ScopeData].

(** The scope a text names. *)
Definition as_scope (s : string) : option BackupScope :=
  List.find (fun x => String.eqb (scope_name x) s) BACKUP_SCOPES.

Definition backupScopeLabel (scope : BackupScope) : string :=
  match scope with
  | ScopeConfig => "Config only" | ScopeData => "Data only" | ScopeAll => "Config + data"
  end.

Record BackupMeta : Type := {
  bk_name : string; bk_size : Z; bk_createdAt : Z; bk_scope : BackupScope
}.

Record BackupSchedule : Type := {
  bs_id : string; bs_name : string; bs_enabled : bool; bs_scope : BackupScope;
  bs_frequency : string; bs_intervalHours : number; bs_time : string;
  bs_weekday : number; bs_dayOfMonth : number
}.

Definition BACKUP_FREQUENCIES : list string := ["interval"; "daily"; "weekly"; "monthly"].
Definition BACKUP_SCHEDULES_KEY : string := "backups.schedules".
Definition BACKUP_RETENTION_KEY : string := "backups.retention".
Definition BACKUP_SCHEDULE_KEY : string := "backups.schedule".

Definition newBackupSchedule (id : string) : BackupSchedule := {|
  bs_id := id; bs_name := "New schedule"; bs_enabled := false; bs_scope := ScopeAll;
  bs_frequency := "daily"; bs_intervalHours := Fin 24; bs_time := "02:00";
  bs_weekday := Fin 0; bs_dayOfMonth := Fin 1 |}.

Record BackupRetention : Type := {
  keepAll : Z; keepConfig : Z; keepData : Z; daily : Z; weekly : Z; monthly : Z
}.
Definition DEFAULT_BACKUP_RETENTION : BackupRetention := {|
  keepAll := 3; keepConfig := 3; keepData := 3; daily := 10; weekly := 5; monthly := 3 |}.

(** ** Which copies are deleted *)

Definition dayKey (t : Z) : string := slice0 10 (toISOString t).

(** The Thursday of the week of [t], at midnight UTC ([setUTCDate] carries into other months). *)
Definition week_thursday (t : Z) : Z :=
  let midnight := Date_UTC (getUTCFullYear t) (getUTCMonth t) (getUTCDate t) in
  let day := (getUTCDay midnight + 6) mod 7 in
  make_day (getUTCFullYear midnight) (getUTCMonth midnight) (getUTCDate midnight - day + 3)
  * MS_DAY.

(** [firstThursday] is the name in the source; it is the 4th of January. *)
Definition week_number (t : Z) : Z :=
  let thursday := week_thursday t in
  let firstThursday := Date_UTC (getUTCFullYear thursday) 0 4 in
  1 + js_round (inject_Z (thursday - firstThursday) / inject_Z (7 * 86400000)).

(** [s.padStart(2, "0")] *)
Definition padStart2 (s : string) : string :=
  match s with
  | String c1 (String c2 s') => s
  | String c1 "" => "0" +:+ s
  | EmptyString => "00"
  end.

Definition weekKey (t : Z) : string :=
  String_of_int (getUTCFullYear (week_thursday t)) +:+ "-W" +:+ padStart2 (String_of_int (week_number t)).

Definition monthKey (t : Z) : string := slice0 7 (toISOString t).

(** The first name of each bucket, in the order the buckets are met. *)
Definition newestPerBucket (keyOf : Z -> string) (sortedDesc : list BackupMeta)
  : list (string * string) :=
  fold_left (fun m b =>
    let k := keyOf (bk_createdAt b) in
    match map_get k m with Some _ => m | None => map_set k (bk_name b) m end) sortedDesc [].

Definition protectBuckets (sortedDesc : list BackupMeta) (count : Z) (keyOf : Z -> string)
    (keep : list string) : list string :=
  if count <=? 0 then keep
  else fold_left (fun s n => set_add n s)
         (firstn (Z.to_nat count) (map snd (newestPerBucket keyOf sortedDesc))) keep.

Definition keepLatest (policy : BackupRetention) (scope : BackupScope) : Z :=
  match scope with
  | ScopeAll => keepAll policy | ScopeConfig => keepConfig policy | ScopeData => keepData policy
  end.

(** The copies of a scope, newest first. *)
Definition newest_first (backups : list BackupMeta) (scope : BackupScope) : list BackupMeta :=
  js_sort (fun a b => bk_createdAt a <? bk_createdAt b)
    (List.filter (fun b => bool_decide (bk_scope b = scope)) backups).

(** One round of the loop over the scopes. *)
Definition protect_scope (backups : list BackupMeta) (policy : BackupRetention)
    (keep : list string) (scope : BackupScope) : list string :=
  let l := newest_first backups scope in
  let keep := fold_left (fun s n => set_add n s)
    (map bk_name (firstn (Z.to_nat (Z.max 0 (keepLatest policy scope))) l)) keep in
  let keep := protectBuckets l (daily policy) dayKey keep in
  let keep := protectBuckets l (weekly policy) weekKey keep in
  protectBuckets l (monthly policy) monthKey keep.

Definition backupsToPrune (backups : list BackupMeta) (policy : BackupRetention) : list string :=
  let keep := fold_left (protect_scope backups policy) BACKUP_SCOPES [] in
  map bk_name (List.filter (fun b => negb (includes keep (bk_name b))) backups).

(** ** Settings *)

(** [Number(v)] of a JSON value; an array converts through its text, so only an empty or a
    one-element array is a number. *)
Fixpoint Number_of_element (v : json) : number :=
  match v with
  | JNull => Fin 0
  | JNum q => Fin q
  | JStr s => Number_of_string s
  | JArr [] => Fin 0
  | JArr [x] => Number_of_element x
  | _ => NaN
  end.
Definition Number_of_json (v : json) : number :=
  match v with JBool b => Fin (if b then 1 else 0) | _ => Number_of_element v end.

(** [Math.max(lo, n)] and [Math.min(hi, n)] for a finite bound. *)
Definition max_with (lo : Q) (n : number) : number :=
  match n with
  | Fin q => Fin (if Qle_bool lo q then q else lo) | NegInf => Fin lo | PosInf => PosInf | NaN => NaN
  end.
Definition min_with (hi : Q) (n : number) : number :=
  match n with
  | Fin q => Fin (if Qle_bool q hi then q else hi) | PosInf => Fin hi | NegInf => NegInf | NaN => NaN
  end.

(** [Boolean(v)] *)
Definition truthy_json (v : option json) : bool :=
  match v with
  | None | Some JNull => false
  | Some (JBool b) => b
  | Some (JNum q) => negb (Qeq_bool q 0)
  | Some (JStr s) => truthy s
  | Some (JArr _) | Some (JObj _) => true
  end.

(** [raw.key ?? d] as a number. *)
Definition number_field (key : string) (raw : json) (d : Q) : number :=
  match field key raw with
  | None | Some JNull => Fin d
  | Some v => Number_of_json v
  end.

(** A non-empty text of [raw], or a default. *)
Definition text_field (key : string) (raw : json) (d : string) : string :=
  match field key raw with
  | Some (JStr s) => if truthy s then s else d
  | _ => d
  end.

(** The pattern [^([01]\d|2[0-3]):[0-5]\d$]. *)
Definition is_time (s : string) : bool :=
  match s with
  | String a (String b (String ":" (String c (String d "")))) =>
      match digit_val a, digit_val b, digit_val c, digit_val d with
      | Some a, Some b, Some c, Some _ =>
          ((a <=? 1) || ((a =? 2) && (b <=? 3))) && (c <=? 5)
      | _, _, _, _ => false
      end
  | _ => false
  end.

(** [None] is the exception of reading a property of null. *)
Definition normalizeSchedule (now : Z) (idx : nat) (raw : json) : option BackupSchedule :=
  match raw with
  | JNull => None
  | _ => Some {|
      bs_id := text_field "id" raw
        ("sched-" +:+ String_of_int (Z.of_nat idx) +:+ "-" +:+ String_of_int now);
      bs_name := text_field "name" raw "Backup schedule";
      bs_enabled := truthy_json (field "enabled" raw);
      bs_scope := match field "scope" raw with
                  | Some (JStr s) => default ScopeAll (as_scope s) | _ => ScopeAll end;
      bs_frequency := match field "frequency" raw with
                      | Some (JStr s) => if includes BACKUP_FREQUENCIES s then s else "daily"
                      | _ => "daily" end;
      bs_intervalHours := max_with 1 (number_field "intervalHours" raw 24);
      bs_time := match field "time" raw with
                 | Some (JStr s) => if is_time s then s else "02:00" | _ => "02:00" end;
      bs_weekday := min_with 6 (max_with 0 (number_field "weekday" raw 0));
      bs_dayOfMonth := min_with 31 (max_with 1 (number_field "dayOfMonth" raw 1)) |}
  end.

(** A map that stops at the first exception. *)
Fixpoint map_throwing {A B} (f : nat -> A -> option B) (i : nat) (l : list A) : option (list B) :=
  match l with
  | [] => Some []
  | x :: l =>
      let! y := f i x otherwise None in
      let! ys := map_throwing f (S i) l otherwise None in
      Some (y :: ys)
  end.

(** [Math.floor(Number(v))] when it is finite and not negative, else the default. *)
Definition policy_field (key : string) (raw : option json) (d : Z) : Z :=
  match raw with
  | Some (JObj m) =>
      match map_get key m with
      | Some v => match Number_of_json v with
                  | Fin q => if Qle_bool 0 q then Qfloor q else d | _ => d end
      | None => d
      end
  | _ => d
  end.

Section settings.
Context {T : Type -> Type} {ST : Store T}.
Implicit Types settings : T SettingRow.

Definition readSchedules (now : Z) settings : option (list BackupSchedule) :=
  match getSetting settings BACKUP_SCHEDULES_KEY with
  | Some (JArr l) => map_throwing (normalizeSchedule now) 0 l
  | _ =>
      match getSetting settings BACKUP_SCHEDULE_KEY with
      | Some (JObj m) =>
          option_map (fun s => [s])
            (normalizeSchedule now 0 (JObj (map_set "name" (JStr "Migrated schedule") m)))
      | Some (JArr _) =>
          option_map (fun s => [s])
            (normalizeSchedule now 0 (JObj [("name", JStr "Migrated schedule")]))
      | _ => Some []
      end
  end.

Definition readRetention settings : BackupRetention :=
  let raw := getSetting settings BACKUP_RETENTION_KEY in
  let d := DEFAULT_BACKUP_RETENTION in {|
    keepAll := policy_field "keepAll" raw (keepAll d);
    keepConfig := policy_field "keepConfig" raw (keepConfig d);
    keepData := policy_field "keepData" raw (keepData d);
    daily := policy_field "daily" raw (daily d);
    weekly := policy_field "weekly" raw (weekly d);
    monthly := policy_field "monthly" raw (monthly d) |}.

Definition writeRetention (now : Z) settings (policy : BackupRetention) : T SettingRow :=
  let n x := JNum (inject_Z x) in
  setSetting now settings BACKUP_RETENTION_KEY (JObj
    [("keepAll", n (keepAll policy)); ("keepConfig", n (keepConfig policy));
     ("keepData", n (keepData policy)); ("daily", n (daily policy));
     ("weekly", n (weekly policy)); ("monthly", n (monthly policy))]).
End settings.

(** ** Files *)

Definition FILE_PREFIX : string := "argus-backup-".

(** [createdAt.replace(/:/g, "-")] *)
Definition colons_to_dashes : string -> string :=
  map_string (fun c => if Ascii.eqb c ":" then "-"%char else c).

Definition backupFileName (createdAt : string) (scope : BackupScope) : string :=
  FILE_PREFIX +:+ scope_name scope +:+ "-" +:+ colons_to_dashes createdAt +:+ ".json".

Definition scopeFromName (name : string) : BackupScope :=
  let rest := substring (String.length FILE_PREFIX) (String.length name) name in
  default ScopeAll (as_scope (default "" (head (split_on "-" rest)))).

(** [name.endsWith(suffix)] *)
Definition endsWith (suffix s : string) : bool :=
  Nat.leb (String.length suffix) (String.length s)
  && String.eqb (slice_last (String.length suffix) s) suffix.

(** [resolve(dir, name)] for a name without separators. *)
Definition resolve_in (dir name : string) : string :=
  if String.eqb name "" || String.eqb name "." then dir else dir +:+ "/" +:+ name.

(** [basename(name)] is the name: the first check leaves no separator. *)
Definition safeBackupPath (BACKUP_DIR name : string) : result string string :=
  if has_char "/" name || has_char "\" name || contains ".." name
  then Err "invalid backup name"
  else
    let full := resolve_in BACKUP_DIR name in
    if negb (startsWith (BACKUP_DIR +:+ "/") full) then Err "path traversal rejected" else Ok full.

(** A file of the backup directory. *)
Record BackupFile : Type := { file_name : string; file_size : Z; file_mtime : Z }.

(** [None] is a directory that was not created yet. *)
Definition listBackups (dir : option (list BackupFile)) : list BackupMeta :=
  match dir with
  | None => []
  | Some entries =>
      js_sort (fun a b => bk_createdAt a <? bk_createdAt b)
        (map (fun f => {| bk_name := file_name f; bk_size := file_size f;
                          bk_createdAt := file_mtime f; bk_scope := scopeFromName (file_name f) |})
           (List.filter (fun f => endsWith ".json" (file_name f)) entries))
  end.

(** The files left and the names deleted. *)
Definition pruneByPolicy {T : Type -> Type} {ST : Store T} (settings : T SettingRow)
    (dir : list BackupFile) : list BackupFile * list string :=
  let toDelete := backupsToPrune (listBackups (Some dir)) (readRetention settings) in
  (List.filter (fun f => negb (includes toDelete (file_name f))) dir, toDelete).

(** [size] is what the export wrote and [created] the time in the bundle; the rename replaces
    a file of the same name. *)
Definition runBackup {T : Type -> Type} {ST : Store T} (createdAt created mtime size : Z)
    (settings : T SettingRow) (dir : list BackupFile) (scope : BackupScope)
  : list BackupFile * BackupMeta :=
  let name := backupFileName (toISOString createdAt) scope in
  let dir := List.filter (fun f => negb (String.eqb (file_name f) name)) dir
             ++ [{| file_name := name; file_size := size; file_mtime := mtime |}] in
  ((pruneByPolicy settings dir).1,
   {| bk_name := name; bk_size := size; bk_createdAt := created; bk_scope := scope |}).

Definition deleteBackup (BACKUP_DIR name : string) (dir : list BackupFile)
  : result string (list BackupFile * bool) :=
  let? _ := safeBackupPath BACKUP_DIR name in
  Ok (List.filter (fun f => negb (String.eqb (file_name f) name)) dir,
      existsb (fun f => String.eqb (file_name f) name) dir).

(** ** Lemmas on buckets *)

Lemma endsWith_app suffix s : endsWith suffix (s +:+ suffix) = true.
Proof.
  unfold endsWith, slice_last. rewrite str_length_app. apply andb_true_iff. split.
  - apply Nat.leb_le. lia.
  - replace (String.length s + String.length suffix - String.length suffix)%nat
      with (String.length s) by lia.
    rewrite substring_skip, substring_all by lia. apply String.eqb_refl.
Qed.

Lemma snoc_split {A} (l l1 l2 : list A) x b :
  l ++ [x] = l1 ++ b :: l2 <->
  (l1 = l /\ b = x /\ l2 = []) \/ (exists l2', l2 = l2' ++ [x] /\ l = l1 ++ b :: l2').
Proof.
  split.
  - destruct l2 as [|y l2 _] using rev_ind.
    + intros [-> [= ->]]%app_inj_tail. by left.
    + intros He. right. exists l2. rewrite app_comm_cons, app_assoc in He.
      by apply app_inj_tail in He as [-> ->].
  - intros [(-> & -> & ->)|(l2' & -> & ->)]; [done|]. by rewrite <- app_assoc.
Qed.

Section buckets.
Variable keyOf : Z -> string.
Implicit Types (l : list BackupMeta) (b : BackupMeta).
Let key b := keyOf (bk_createdAt b).

(** The buckets of the copies in [l], without repetition. *)
Definition buckets l : list string := js_set (map (fun b => keyOf (bk_createdAt b)) l).

Lemma js_set_snoc (xs : list string) x : js_set (xs ++ [x]) = set_add x (js_set xs).
Proof. unfold js_set. by rewrite fold_left_app. Qed.

Lemma newest_snoc l b :
  newestPerBucket keyOf (l ++ [b]) =
  match map_get (key b) (newestPerBucket keyOf l) with
  | Some _ => newestPerBucket keyOf l
  | None => newestPerBucket keyOf l ++ [(key b, bk_name b)]
  end.
Proof.
  unfold newestPerBucket. rewrite fold_left_app. simpl. fold (key b).
  destruct (map_get _ _) eqn:Hg; [done|]. revert Hg.
  generalize (fold_left (fun m b0 => match map_get (keyOf (bk_createdAt b0)) m with
    | Some _ => m | None => map_set (keyOf (bk_createdAt b0)) (bk_name b0) m end) l []).
  intros m. induction m as [|[k v] m IH]; simpl; [done|].
  destruct (decide (key b = k)); [done|]. intros Hg. by rewrite IH.
Qed.

Lemma newest_keys l : map fst (newestPerBucket keyOf l) = buckets l.
Proof.
  induction l as [|b l IH] using rev_ind; [done|]. unfold buckets.
  rewrite map_app, newest_snoc. simpl. rewrite js_set_snoc. fold (buckets l). rewrite <- IH.
  unfold set_add. destruct (map_get _ _) eqn:Hg.
  - apply map_get_Some in Hg. rewrite (proj2 (mem_true _ _)); [done|].
    apply elem_of_map. eexists. split; [|exact Hg]. done.
  - apply map_get_None in Hg. fold (key b). destruct (mem _ _) eqn:Hm.
    + by apply mem_true in Hm.
    + by rewrite map_app.
Qed.

(** A copy is protected by [count] buckets when it opens one of the first [count]. *)
Definition opens (count : Z) l1 b : Prop :=
  keyOf (bk_createdAt b) ∉ map (fun x => keyOf (bk_createdAt x)) l1 /\
  Z.of_nat (List.length (buckets l1)) < count.

Lemma elem_of_firstn_newest count l n :
  n ∈ firstn count (map snd (newestPerBucket keyOf l)) <->
  exists l1 b l2, l = l1 ++ b :: l2 /\ n = bk_name b /\ opens (Z.of_nat count) l1 b.
Proof.
  induction l as [|x l IH] using rev_ind.
  { simpl. rewrite firstn_nil. split; [set_solver|]. intros ([|y l1] & b & l2 & He & _); done. }
  assert (Hlen : List.length (map snd (newestPerBucket keyOf l)) = List.length (buckets l))
    by by rewrite <- newest_keys, !length_map.
  setoid_rewrite snoc_split. rewrite newest_snoc.
  assert (Hx : map_get (key x) (newestPerBucket keyOf l) = None <->
    key x ∉ map key l) by by rewrite map_get_None, newest_keys; unfold buckets; rewrite elem_of_js_set.
  destruct (map_get (key x) _) as [v|] eqn:Hg.
  - rewrite IH. split.
    + intros (l1 & b & l2 & -> & Hn). exists l1, b, (l2 ++ [x]). split; [right; by exists l2|done].
    + intros (l1 & b & l2 & [(-> & -> & ->)|(l2' & -> & ->)] & Hn & Ho); [|by exists l1, b, l2'].
      destruct Ho as [Ho _]. by apply Hx in Ho.
  - rewrite map_app, firstn_app, elem_of_app, IH, Hlen. split.
    + intros [(l1 & b & l2 & -> & Hn)|Hn].
      * exists l1, b, (l2 ++ [x]). split; [right; by exists l2|done].
      * exists l, x, []. split; [by left|].
        destruct (count - _)%nat eqn:E; simpl in Hn; [set_solver|]. rewrite firstn_nil in Hn.
        split; [set_solver|]. split; [by apply Hx|lia].
    + intros (l1 & b & l2 & [(-> & -> & ->)|(l2' & -> & ->)] & Hn & Ho); [right|left; by exists l1, b, l2'].
      destruct Ho as [_ Ho]. destruct (count - _)%nat eqn:E; [lia|]. simpl. set_solver.
Qed.

Lemma elem_of_protectBuckets l count keep n :
  n ∈ protectBuckets l count keyOf keep <->
  n ∈ keep \/ exists l1 b l2, l = l1 ++ b :: l2 /\ n = bk_name b /\ opens count l1 b.
Proof.
  unfold protectBuckets. destruct (Z.leb_spec count 0).
  - split; [by left|]. intros [|(l1 & b & l2 & _ & _ & _ & Ho)]; [done|]. lia.
  - rewrite elem_of_fold_set_add, elem_of_firstn_newest, Z2Nat.id by lia. tauto.
Qed.
End buckets.

(** ** Retention *)

(** Copy [b], preceded by [l1] among the copies of its scope, is protected by a rule. *)
Definition protected (policy : BackupRetention) (l1 : list BackupMeta) (b : BackupMeta) : Prop :=
  Z.of_nat (List.length l1) < keepLatest policy (bk_scope b) \/
  opens dayKey (daily policy) l1 b \/ opens weekKey (weekly policy) l1 b \/
  opens monthKey (monthly policy) l1 b.

Lemma elem_of_firstn {A} k (l : list A) x :
  x ∈ firstn k l <-> exists l1 l2, l = l1 ++ x :: l2 /\ (List.length l1 < k)%nat.
Proof.
  split.
  - intros (l1 & l2 & He)%list_elem_of_split. exists l1, (l2 ++ skipn k l).
    rewrite <- (firstn_skipn k l) at 1. rewrite He, <- app_assoc. split; [done|].
    pose proof (firstn_le_length k l) as Hl. rewrite He, length_app in Hl. simpl in Hl. lia.
  - intros (l1 & l2 & -> & Hk). rewrite firstn_app, elem_of_app. right.
    destruct (k - List.length l1)%nat eqn:E; [lia|]. simpl. set_solver.
Qed.

Lemma elem_of_protect_scope backups policy keep scope n :
  n ∈ protect_scope backups policy keep scope <->
  n ∈ keep \/ exists l1 b l2, newest_first backups scope = l1 ++ b :: l2 /\ n = bk_name b /\
    (Z.of_nat (List.length l1) < keepLatest policy scope \/
     opens dayKey (daily policy) l1 b \/ opens weekKey (weekly policy) l1 b \/
     opens monthKey (monthly policy) l1 b).
Proof.
  unfold protect_scope. rewrite !elem_of_protectBuckets, elem_of_fold_set_add, elem_of_map.
  setoid_rewrite elem_of_firstn. split.
  - intros [[[[(b & -> & l1 & l2 & He & Hk)|Hk]|(l1 & b & l2 & He & Hn & Ho)]|(l1 & b & l2 & He & Hn & Ho)]
      |(l1 & b & l2 & He & Hn & Ho)]; [right|by left|right..]; exists l1, b, l2; (split; [done|]);
      (split; [done|]); [left; lia|tauto..].
  - intros [Hk|(l1 & b & l2 & He & Hn & [Hr|[Hr|[Hr|Hr]]])]; [naive_solver| |naive_solver..].
    do 3 left. left. exists b. split; [done|]. exists l1, l2. split; [done|lia].
Qed.

Lemma newest_first_elem backups scope b :
  b ∈ newest_first backups scope <-> b ∈ backups /\ bk_scope b = scope.
Proof.
  unfold newest_first. rewrite elem_of_js_sort, elem_of_filterb. by rewrite bool_decide_eq_true.
Qed.

Lemma elem_of_keep backups policy scopes keep n :
  n ∈ fold_left (protect_scope backups policy) scopes keep <->
  n ∈ keep \/ exists scope l1 b l2, scope ∈ scopes /\ newest_first backups scope = l1 ++ b :: l2 /\
    n = bk_name b /\ protected policy l1 b.
Proof.
  revert keep. induction scopes as [|s scopes IH]; intros keep; simpl.
  { split; [by left|]. intros [|(s & l1 & b & l2 & Hs & _)]; [done|set_solver]. }
  assert (Hsc : forall scope l1 b l2, newest_first backups scope = l1 ++ b :: l2 -> bk_scope b = scope).
  { intros scope l1 b l2 He. apply (newest_first_elem backups scope). rewrite He. set_solver. }
  rewrite IH, elem_of_protect_scope. split.
  - intros [[Hk|(l1 & b & l2 & He & Hn & Hp)]|(scope & l1 & b & l2 & Hs & Hr)]; [by left| |].
    + right. exists s, l1, b, l2. split; [set_solver|]. split; [done|]. split; [done|].
      unfold protected. by rewrite (Hsc s l1 b l2 He).
    + right. exists scope, l1, b, l2. split; [set_solver|done].
  - intros [Hk|(scope & l1 & b & l2 & [->|Hs]%elem_of_cons & He & Hn & Hp)]; [tauto| |].
    + left; right. exists l1, b, l2. split; [done|]. split; [done|].
      unfold protected in Hp. by rewrite (Hsc s l1 b l2 He) in Hp.
    + right. exists scope, l1, b, l2. done.
Qed.

Lemma newest_first_sorted backups scope :
  StronglySorted (fun a b => bk_createdAt b <= bk_createdAt a) (newest_first backups scope).
Proof.
  assert (Hs : StronglySorted (fun a b => (bk_createdAt a <? bk_createdAt b) = false)
    (newest_first backups scope)).
  { apply js_sort_sorted; [intros a b|intros a b c]; rewrite ?Z.ltb_lt, !Z.ltb_ge; lia. }
  induction Hs as [|x l Hs IH Hx]; constructor; [done|].
  eapply Forall_impl; [exact Hx|]. intros y Hy%Z.ltb_ge. done.
Qed.

(** In a list without repeated names, a name has one position. *)
Lemma name_position (backups l1 l2 l1' l2' : list BackupMeta) scope b b' :
  NoDup (map bk_name backups) -> newest_first backups scope = l1 ++ b :: l2 ->
  newest_first backups scope = l1' ++ b' :: l2' -> bk_name b = bk_name b' -> l1 = l1' /\ b = b'.
Proof.
  intros Hnd He He' Hn.
  assert (Hd : NoDup (map bk_name (newest_first backups scope))).
  { unfold newest_first. rewrite js_sort_perm. clear -Hnd. induction backups as [|x l IH]; [done|].
    simpl in *. apply NoDup_cons in Hnd as [Hx Hnd]. destruct (bool_decide _); simpl; [|auto].
    constructor; [|auto]. rewrite elem_of_map in *. setoid_rewrite elem_of_filterb. naive_solver. }
  assert (Hl : List.length l1 = List.length l1').
  { eapply (NoDup_lookup _ _ _ (bk_name b)); [exact Hd|..].
    - rewrite He, map_app, lookup_app_r, length_map, Nat.sub_diag by (rewrite length_map; done). done.
    - rewrite He', map_app, lookup_app_r, length_map, Nat.sub_diag by (rewrite length_map; done).
      by rewrite Hn. }
  rewrite He in He'. apply app_inj_1 in He' as [-> [= -> ->]]; done.
Qed.

Lemma elem_of_prune backups policy b :
  NoDup (map bk_name backups) -> b ∈ backups ->
  bk_name b ∈ backupsToPrune backups policy <->
  bk_name b ∉ fold_left (protect_scope backups policy) BACKUP_SCOPES [].
Proof.
  intros Hnd Hb. unfold backupsToPrune. rewrite elem_of_map. setoid_rewrite elem_of_filterb.
  setoid_rewrite negb_true_iff. setoid_rewrite includes_false. split.
  - intros (x & -> & _ & Hx). done.
  - intros Hx. by exists b.
Qed.

(** C10: among copies with distinct names, a copy survives the retention policy exactly when it
    is one of the newest N of its own scope, or the newest of one of the last N days, ISO weeks
    or months in which that scope has copies; copies of other scopes do not matter. *)
Theorem backupsToPrune_spec backups policy b
    (Hnd : NoDup (map bk_name backups)) (Hb : b ∈ backups) :
  exists l1 l2, newest_first backups (bk_scope b) = l1 ++ b :: l2 /\
    (forall x, x ∈ l1 -> bk_createdAt b <= bk_createdAt x) /\
    (forall x, x ∈ l2 -> bk_createdAt x <= bk_createdAt b) /\
    (bk_name b ∉ backupsToPrune backups policy <-> protected policy l1 b).
Proof.
  assert (Hin : b ∈ newest_first backups (bk_scope b)) by by apply newest_first_elem.
  apply list_elem_of_split in Hin as (l1 & l2 & He). exists l1, l2. split; [done|].
  pose proof (newest_first_sorted backups (bk_scope b)) as Hs. rewrite He in Hs.
  apply StronglySorted_app in Hs as (H12 & _ & Hs). apply StronglySorted_cons in Hs as [Hs _].
  split; [intros x Hx; apply H12; set_solver|]. split; [by apply Forall_forall|].
  rewrite elem_of_prune by done. rewrite elem_of_keep. split.
  - intros Hk. destruct (decide (protected policy l1 b)) as [|Hp]; [done|]. exfalso.
    apply Hk. intros [Hn|(scope & l1' & b' & l2' & _ & He' & Hn & Hp')]; [set_solver|].
    assert (Hsc : bk_scope b' = scope).
    { apply (newest_first_elem backups). rewrite He'. set_solver. }
    assert (b' = b) as ->.
    { assert (Hb' : b' ∈ backups) by (apply (newest_first_elem backups scope); rewrite He'; set_solver).
      eapply (unique_key_inj (T := list) bk_name backups); eauto. }
    subst scope. destruct (name_position backups l1 l2 l1' l2' (bk_scope b) b b) as [-> _]; done.
  - intros Hp Hn. apply Hn. right. exists (bk_scope b), l1, b, l2.
    split; [destruct (bk_scope b); set_solver|]. done.
Qed.

(** ** ISO weeks *)

#[local] Ltac Zify.zify_post_hook ::= Z.to_euclidean_division_equations.

Lemma week_thursday_eq t : week_thursday t = 7 * ((day_of t + 3) / 7) * MS_DAY.
Proof.
  unfold week_thursday, Date_UTC, getUTCFullYear, getUTCMonth, getUTCDate, getUTCDay.
  rewrite make_day_fields.
  assert (Hd : day_of (day_of t * MS_DAY) = day_of t)
    by (unfold day_of at 1; apply Z.div_mul; unfold MS_DAY; lia).
  rewrite Hd. f_equal.
  set (k := ((day_of t + 4) mod 7 + 6) mod 7).
  transitivity (make_day (year_from_day (day_of t)) (month_of_day (day_of t)) (date_of_day (day_of t))
    - k + 3); [unfold make_day; lia|].
  rewrite make_day_fields. 
  assert (Hk : k = (day_of t + 3) mod 7);
    [|clearbody k; lia].
  unfold k. rewrite Zplus_mod_idemp_l. replace (day_of t + 4 + 6) with (day_of t + 3 + 1 * 7) by lia.
  apply Z.mod_add. lia.
Qed.

Lemma thursday_year t : 0 <= t < 253402300800000 ->
  1970 <= getUTCFullYear (week_thursday t) <= 9999.
Proof.
  intros Ht. rewrite week_thursday_eq. unfold getUTCFullYear.
  assert (Hd : day_of (7 * ((day_of t + 3) / 7) * MS_DAY) = 7 * ((day_of t + 3) / 7))
    by (unfold day_of at 1; apply Z.div_mul; unfold MS_DAY; lia).
  rewrite Hd. assert (0 <= day_of t < 2932897) by (unfold day_of, MS_DAY; lia).
  set (d := 7 * ((day_of t + 3) / 7)) in *. assert (0 <= d < 2932897) by (unfold d; lia).
  pose proof (year_from_day_bounds d) as Hb. unfold day_from_year in Hb. lia.
Qed.

(** The week number, from the index of the week and the year of its Thursday. *)
Lemma week_number_eq t :
  let w := (day_of t + 3) / 7 in
  let y := getUTCFullYear (week_thursday t) in
  week_number t = 1 + w + (1 - 2 * day_from_year y) / 14 /\ 1 <= week_number t <= 53.
Proof.
  intros w y. unfold week_number. fold y. unfold Date_UTC, make_day.
  replace (days_before_month (leap y) 0) with 0 by done.
  rewrite week_thursday_eq. fold w.
  set (f := day_from_year y).
  assert (Hr : js_round (inject_Z (7 * w * MS_DAY - (f + 0 + 4 - 1) * MS_DAY) / inject_Z (7 * 86400000))
    = (14 * w - 2 * (f + 3) + 7) / 14).
  { unfold js_round.
    assert (He : (inject_Z (7 * w * MS_DAY - (f + 0 + 4 - 1) * MS_DAY) / inject_Z (7 * 86400000)
      + (1 # 2) == (14 * w - 2 * (f + 3) + 7) # 14)%Q).
    { replace (7 * w * MS_DAY - (f + 0 + 4 - 1) * MS_DAY) with ((7 * w - (f + 3)) * MS_DAY) by lia.
      unfold MS_DAY, Qdiv, Qinv, Qmult, Qplus, inject_Z, Qeq; simpl. lia. }
    by rewrite (Qfloor_comp _ _ He). }
  rewrite Hr.
  pose proof (year_from_day_bounds (7 * w)) as Hb.
  assert (Hy : year_from_day (7 * w) = y).
  { unfold y, getUTCFullYear. rewrite week_thursday_eq. f_equal. unfold day_of at 1.
    symmetry. apply Z.div_mul. unfold MS_DAY; lia. }
  rewrite Hy, day_from_year_step in Hb. fold f in Hb.
  assert (0 <= (if leap y then 1 else 0) <= 1) by (destruct (leap y); lia).
  split; lia.
Qed.

Lemma year_text y : 1000 <= y <= 9999 -> String_of_int y = pad 4 y.
Proof.
  intros Hy. unfold String_of_int. rewrite (proj2 (Z.ltb_ge y 0)) by lia. f_equal. unfold width.
  assert (Hl : 4 <= Z.log2 y) by (apply Z.log2_le_pow2; lia).
  replace (Z.to_nat (Z.log2 y)) with (4 + (Z.to_nat (Z.log2 y) - 4))%nat by lia.
  simpl. rewrite !(proj2 (Z.ltb_ge _ 10)) by lia. by rewrite (proj2 (Z.ltb_lt _ 10)) by lia.
Qed.

Lemma week_text n : 1 <= n <= 53 -> padStart2 (String_of_int n) = pad 2 n.
Proof.
  intros Hn. apply (bool_decide_unpack _), Is_true_true.
  exact (forall_below 54 (fun n => bool_decide (padStart2 (String_of_int n) = pad 2 n)) eq_refl n
    ltac:(lia)).
Qed.

(** Two instants from 1970 to 9999 have the same week key exactly when they fall in the
    same Monday-to-Sunday week, also across a year's end, and weeks are numbered 1 to 53. *)
Theorem weekKey_iso t1 t2
    (H1 : 0 <= t1 < 253402300800000) (H2 : 0 <= t2 < 253402300800000) :
  (weekKey t1 = weekKey t2 <-> (day_of t1 + 3) / 7 = (day_of t2 + 3) / 7) /\
  1 <= week_number t1 <= 53 /\ getUTCDay (week_thursday t1) = 4.
Proof.
  pose proof (thursday_year t1 H1) as Hy1. pose proof (thursday_year t2 H2) as Hy2.
  destruct (week_number_eq t1) as [Hw1 Hr1]. destruct (week_number_eq t2) as [Hw2 Hr2].
  split; [|split; [done|]].
  - unfold weekKey. rewrite (year_text (getUTCFullYear (week_thursday t1))),
      (year_text (getUTCFullYear (week_thursday t2))), !week_text by lia. split.
    + intros He. apply str_app_inj_length in He as [Hy He]; [|by rewrite !pad_length].
      apply str_app_inj_length in He as [_ Hw]; [|done].
      apply pad_inj in Hy; [|lia..]. apply pad_inj in Hw; [|lia..].
      rewrite Hw1, Hw2, Hy in Hw. lia.
    + intros He. assert (Ht : week_thursday t1 = week_thursday t2) by by rewrite !week_thursday_eq, He.
      unfold week_number. by rewrite Ht.
  - rewrite week_thursday_eq. unfold getUTCDay. unfold day_of at 1.
    rewrite Z.div_mul by (unfold MS_DAY; lia). lia.
Qed.

(** ** File names and settings *)

(** A copy keeps its scope through its file name. *)
Lemma scopeFromName_backupFileName createdAt scope :
  scopeFromName (backupFileName createdAt scope) = scope.
Proof.
  unfold scopeFromName, backupFileName. generalize (colons_to_dashes createdAt +:+ ".json").
  intros s. rewrite substring_skip, substring_all by (rewrite (str_length_app FILE_PREFIX); lia).
  change ("-" +:+ s) with (String "-" s).
  rewrite split_on_app by (by destruct scope). by destruct scope.
Qed.

(** ** Witnesses *)

Definition w_copy (n : string) (t : Z) : BackupMeta := {|
  bk_name := n; bk_size := 1; bk_createdAt := t; bk_scope := ScopeConfig |}.
Definition w_copies : list BackupMeta :=
  [w_copy "a" 0; w_copy "b" 1000; w_copy "c" 86400000; w_copy "d" 172800000].
Definition w_policy : BackupRetention := {|
  keepAll := 0; keepConfig := 1; keepData := 0; daily := 3; weekly := 0; monthly := 0 |}.

Example w_pruned : backupsToPrune w_copies w_policy = ["a"].
Proof. vm_compute. reflexivity. Qed.

Lemma backupsToPrune_spec_witness :
  exists l1 l2, newest_first w_copies ScopeConfig = l1 ++ w_copy "a" 0 :: l2 /\
    ("a" ∉ backupsToPrune w_copies w_policy <-> protected w_policy l1 (w_copy "a" 0)).
Proof.
  destruct (backupsToPrune_spec w_copies w_policy (w_copy "a" 0)) as (l1 & l2 & H1 & _ & _ & H4).
  - apply (bool_decide_unpack _). vm_compute. exact I.
  - apply list_elem_of_here.
  - exists l1, l2. split; [exact H1|exact H4].
Defined.

(** 2026-12-31 and 2027-01-01 are in one week. *)
Lemma weekKey_iso_witness :
  weekKey 1798675200000 = "2026-W53" /\ weekKey 1798675200000 = weekKey 1798761600000.
Proof.
  split; [vm_compute; reflexivity|].
  apply (proj1 (weekKey_iso 1798675200000 1798761600000 ltac:(lia) ltac:(lia))).
  vm_compute. reflexivity.
Defined.
