(* ===== verification/Workers.v ===== *)
(** * The backup scheduler

    Models apps/workers/src/index.ts: which schedules are due, and a tick that writes the due
    copies and prunes. The process's time zone is a constant offset [tz]. Schedules are JSON
    values as the settings hold them: the worker does not validate them. A loop that the code
    does not bound takes fuel; running out of it at every fuel is divergence. *)
From S2P Require Import Prelude Dates Text Store Schema RowUpdates Settings BackupPolicy.

(** What a call does: a value, or a thrown exception. *)
Inductive due_result : Type :=
| Due (due : bool)
| DueThrown.

(** ToIntegerOrInfinity of a finite number. *)
Definition to_integer (n : number) : option Z :=
  match n with Fin q => Some (Z.quot (Qnum q) (Zpos (Qden q))) | _ => None end.

(** [d.setHours(h, m, 0, 0)] on a local time; [None] is an invalid date. *)
Definition setHours (h m : number) (d : Z) : option Z :=
  match to_integer h, to_integer m with
  | Some h, Some m => Some (day_of d * MS_DAY + h * 3600000 + m * 60000)
  | _, _ => None
  end.

(** [sched.time.split(":").map(Number)], a missing part being 0. *)
Definition parse_hhmm (time : string) : number * number :=
  match map Number_of_string (split_on ":" time) with
  | hh :: mm :: _ => (hh, mm)
  | [hh] => (hh, Fin 0)
  | [] => (Fin 0, Fin 0)
  end.

(** [target.getDay() === sched.weekday] *)
Definition weekday_is (weekday : option json) (target : option Z) : bool :=
  match weekday, target with
  | Some (JNum q), Some t => Qeq_bool (inject_Z (getUTCDay t)) q
  | _, _ => false
  end.

(** The days in the month of [t]: [new Date(y, m + 1, 0).getDate()]. *)
Definition days_in_month (t : Z) : Z :=
  date_of_day (make_day (getUTCFullYear t) (getUTCMonth t + 1) 0).

(** ToNumber of a property. *)
Definition to_number (v : option json) : number :=
  match v with Some v => Number_of_json v | None => NaN end.

(** [target.getDate() === Math.min(sched.dayOfMonth, dim)] *)
Definition date_is (dayOfMonth : option json) (target : option Z) : bool :=
  match target with
  | Some t =>
      match min_with (inject_Z (days_in_month t)) (to_number dayOfMonth) with
      | Fin q => Qeq_bool (inject_Z (getUTCDate t)) q
      | _ => false
      end
  | None => false
  end.

(** [target.setDate(target.getDate() - 1)] *)
Definition previous_day (target : option Z) : option Z := option_map (fun t => t - MS_DAY) target.

(** [while (target.getDay() !== weekday) ...]: [None] when the fuel runs out. *)
Fixpoint back_to_weekday (fuel : nat) (weekday : option json) (target : option Z)
  : option (option Z) :=
  match fuel with
  | O => None
  | S fuel =>
      if weekday_is weekday target then Some target
      else back_to_weekday fuel weekday (previous_day target)
  end.

(** The [for] loop of at most [n] steps. *)
Fixpoint back_to_date (n : nat) (dayOfMonth : option json) (target : option Z) : option Z :=
  match n with
  | O => target
  | S n =>
      if date_is dayOfMonth target then target
      else back_to_date n dayOfMonth (previous_day target)
  end.

Definition is_text (v : option json) (s : string) : bool :=
  match v with Some (JStr t) => String.eqb t s | _ => false end.

Section due.
Variable tz : Z.

(** The schedule's time of day, today or, before it, yesterday. *)
Definition todays_target (time : string) (now : Z) : option Z :=
  let '(hh, mm) := parse_hhmm time in
  let target := setHours hh mm (now + tz) in
  match target with
  | Some t => if now + tz <? t then previous_day target else target
  | None => None
  end.

(** [lastMs + sched.intervalHours * 3600000 <= now] *)
Definition interval_due (intervalHours : option json) (lastMs now : Z) : bool :=
  match to_number intervalHours with
  | Fin q => Qle_bool (inject_Z lastMs + q * 3600000) (inject_Z now)
  | NegInf => true
  | _ => false
  end.

(** [None] when the weekday loop did not end within [fuel] steps. *)
Definition isDue (fuel : nat) (sched : json) (lastMs now : Z) : option due_result :=
  if lastMs =? 0 then Some (Due true) else
  if is_text (field "frequency" sched) "interval"
  then Some (Due (interval_due (field "intervalHours" sched) lastMs now)) else
  match field "time" sched with
  | Some (JStr time) =>
      let target := todays_target time now in
      let target :=
        if is_text (field "frequency" sched) "weekly"
        then back_to_weekday fuel (field "weekday" sched) target
        else if is_text (field "frequency" sched) "monthly"
        then Some (back_to_date 40 (field "dayOfMonth" sched) target)
        else Some target in
      match target with
      | None => None
      | Some target =>
          Some (Due match target with Some t => lastMs <? t - tz | None => false end)
      end
  | _ => Some DueThrown
  end.

(** ** Ticks *)

Context {T : Type -> Type} {ST : Store T}.
Implicit Types settings : T SettingRow.

(** [rows.find((r) => r.key === key)?.value] *)
Definition readSetting settings (key : string) : option json :=
  option_map setting_value (List.find (fun r => String.eqb (setting_key r) key) (rows settings)).

Definition readSchedules settings : list json :=
  match readSetting settings BACKUP_SCHEDULES_KEY with
  | Some (JArr l) => l
  | _ =>
      match readSetting settings BACKUP_SCHEDULE_KEY with
      | Some (JObj m) => [JObj m]
      | Some (JArr l) => [JArr l]
      | _ => []
      end
  end.

(** The newest copy of a scope, as a time; 0 when there is none. *)
Definition newestBackupMtime (dir : list BackupFile) (scope : option json) : Z :=
  match List.find (fun b => is_text scope (scope_name (bk_scope b))) (listBackups (Some dir)) with
  | Some newest => bk_createdAt newest
  | None => 0
  end.

(** The text of a scope in a file name; [other] is the text of a value that is not a string. *)
Variable other : option json -> string.
Definition scope_text (scope : option json) : string :=
  match scope with Some (JStr s) => s | _ => other scope end.

(** A new file made at [at_], which also takes the place of one of its name. *)
Definition writeBackup (at_ size : Z) (dir : list BackupFile) (scope : option json) : list BackupFile :=
  let name := FILE_PREFIX +:+ scope_text scope +:+ "-" +:+ colons_to_dashes (toISOString at_)
              +:+ ".json" in
  List.filter (fun f => negb (String.eqb (file_name f) name)) dir
  ++ [{| file_name := name; file_size := size; file_mtime := at_ |}].

(** How the loop over the schedules ends. *)
Inductive loop_end : Type :=
| Finished (dir : list BackupFile) (wrote : bool)
| Crashed
| Hung.

(** [clock i] is when the [i]-th schedule's copy is written, [sizes i] its size, [works i]
    whether its export succeeds; a failure is logged and the loop goes on. A null schedule throws outside the
    loop's handler. *)
Fixpoint run_schedules (fuel : nat) (clock sizes : nat -> Z) (works : nat -> bool) (now : Z) (i : nat)
    (schedules : list json) (dir : list BackupFile) (wrote : bool) : loop_end :=
  match schedules with
  | [] => Finished dir wrote
  | JNull :: _ => Crashed
  | sched :: rest =>
      if negb (truthy_json (field "enabled" sched))
      then run_schedules fuel clock sizes works now (S i) rest dir wrote else
      let scope := field "scope" sched in
      match isDue fuel sched (newestBackupMtime dir scope) now with
      | None => Hung
      | Some (Due true) =>
          if works i
          then run_schedules fuel clock sizes works now (S i) rest
                 (writeBackup (clock i) (sizes i) dir scope) true
          else run_schedules fuel clock sizes works now (S i) rest dir wrote
      | Some (Due false) | Some DueThrown =>
          run_schedules fuel clock sizes works now (S i) rest dir wrote
      end
  end.

(** One field of [{ ...DEFAULT_BACKUP_RETENTION, ...raw }]; [None] is a value that is no whole number, which this
    model leaves out. *)
Definition whole_field (key : string) (raw : option json) (d : Z) : option Z :=
  match raw with
  | Some (JObj m) => match map_get key m with
                     | Some (JNum q) => if Qeq_bool q (inject_Z (Qfloor q)) then Some (Qfloor q) else None
                     | Some _ => None | None => Some d end
  | _ => Some d
  end.

Definition readRetention settings : option BackupRetention :=
  let raw := readSetting settings BACKUP_RETENTION_KEY in
  let d := DEFAULT_BACKUP_RETENTION in
  let! a := whole_field "keepAll" raw (keepAll d) otherwise None in
  let! c := whole_field "keepConfig" raw (keepConfig d) otherwise None in
  let! k := whole_field "keepData" raw (keepData d) otherwise None in
  let! da := whole_field "daily" raw (daily d) otherwise None in
  let! w := whole_field "weekly" raw (weekly d) otherwise None in
  let! m := whole_field "monthly" raw (monthly d) otherwise None in
  Some {| keepAll := a; keepConfig := c; keepData := k; daily := da; weekly := w; monthly := m |}.

(** The files that the policy leaves. *)
Definition pruneByPolicy (policy : BackupRetention) (dir : list BackupFile) : list BackupFile :=
  let toDelete := backupsToPrune (listBackups (Some dir)) policy in
  List.filter (fun f => negb (includes toDelete (file_name f))) dir.

(** One tick: every schedule that is on and due, then, if a copy was written, the policy. [None] when the stored policy
    is left out. *)
Definition tick (fuel : nat) (clock sizes : nat -> Z) (works : nat -> bool) (now : Z) settings (dir : list BackupFile)
  : option loop_end :=
  match run_schedules fuel clock sizes works now 0 (readSchedules settings) dir false with
  | Finished dir true => option_map (fun policy => Finished (pruneByPolicy policy dir) true) (readRetention settings)
  | r => Some r
  end.
End due.

(** ** Calendar *)

#[local] Ltac Zify.zify_post_hook ::= Z.to_euclidean_division_equations.

(** The length of month [m] of year [y]. *)
Definition month_length (y m : Z) : Z :=
  days_before_month (leap y) (m + 1) - days_before_month (leap y) m.

Lemma month_length_range y m : 0 <= m <= 11 -> 28 <= month_length y m <= 31.
Proof.
  intros Hm. unfold month_length. generalize (leap y). intros lp.
  each_value m 12; destruct lp; cbv; split; done.
Qed.

Lemma month_within_year y m : 0 <= m <= 11 ->
  0 <= days_before_month (leap y) m /\
  days_before_month (leap y) m + month_length y m <= 365 + (if leap y then 1 else 0).
Proof.
  intros Hm. unfold month_length. generalize (leap y). intros lp.
  each_value m 12; destruct lp; cbv; split; done.
Qed.

(** The calendar fields of a day given by year, month and date. *)
Lemma make_day_date y m n :
  0 <= m <= 11 -> 1 <= n <= month_length y m ->
  year_from_day (make_day y m n) = y /\ month_of_day (make_day y m n) = m /\
  date_of_day (make_day y m n) = n.
Proof.
  intros Hm Hn. pose proof (month_within_year y m Hm) as Hw.
  assert (Hy : year_from_day (make_day y m n) = y) by (apply make_day_year; lia).
  assert (Hmo : month_of_day (make_day y m n) = m).
  { unfold month_of_day, yday. rewrite Hy. apply month_from_yday_unique; [done|].
    unfold make_day, month_length in *. lia. }
  split; [done|]. split; [done|]. unfold date_of_day, yday. rewrite Hy, Hmo. unfold make_day. lia.
Qed.

Definition length_at (d : Z) : Z := month_length (year_from_day d) (month_of_day d).

Lemma date_within d : 1 <= date_of_day d <= length_at d.
Proof.
  split; [apply date_of_day_range|]. unfold length_at, month_length, date_of_day.
  destruct (month_from_yday_spec _ _ (yday_range d)) as [_ Hd]. fold (month_of_day d) in Hd. lia.
Qed.

Lemma length_at_range d : 28 <= length_at d <= 31.
Proof. apply month_length_range, month_of_day_range. Qed.

(** Going back within the month. *)
Lemma earlier_in_month d k : 0 <= k < date_of_day d ->
  date_of_day (d - k) = date_of_day d - k /\ length_at (d - k) = length_at d.
Proof.
  intros Hk. pose proof (date_within d) as Hd. unfold length_at in *.
  destruct (make_day_date (year_from_day d) (month_of_day d) (date_of_day d - k)) as (H1 & H2 & H3);
    [apply month_of_day_range|lia|].
  assert (He : make_day (year_from_day d) (month_of_day d) (date_of_day d - k) = d - k).
  { pose proof (make_day_fields d) as Hf. unfold make_day in *. clear -Hf. lia. }
  rewrite He in H1, H2, H3. by rewrite H1, H2, H3.
Qed.

(** The day before the first of a month is the last of the month before. *)
Lemma last_of_previous d : date_of_day (d - date_of_day d) = length_at (d - date_of_day d).
Proof.
  set (y := year_from_day d). set (m := month_of_day d).
  assert (He : d - date_of_day d = make_day y m 0).
  { pose proof (make_day_fields d) as Hf. fold y m in Hf. unfold make_day in *. clear -Hf. lia. }
  pose proof (month_of_day_range d) as Hm. fold m in Hm.
  destruct (Z.eq_dec m 0) as [H0|H0].
  - assert (Hp : make_day y m 0 = make_day (y - 1) 11 (month_length (y - 1) 11)).
    { pose proof (day_from_year_step (y - 1)) as Hs. replace (y - 1 + 1) with y in Hs by lia.
      rewrite H0. unfold make_day, month_length. rewrite Hs.
      destruct (leap (y - 1)), (leap y); cbv [days_before_month]; simpl; lia. }
    rewrite He, Hp. pose proof (month_length_range (y - 1) 11 ltac:(lia)).
    destruct (make_day_date (y - 1) 11 (month_length (y - 1) 11)) as (H1 & H2 & H3); [lia|lia|].
    unfold length_at. by rewrite H1, H2, H3.
  - assert (Hp : make_day y m 0 = make_day y (m - 1) (month_length y (m - 1))).
    { unfold make_day, month_length. replace (m - 1 + 1) with m by lia. lia. }
    rewrite He, Hp. pose proof (month_length_range y (m - 1) ltac:(lia)).
    destruct (make_day_date y (m - 1) (month_length y (m - 1))) as (H1 & H2 & H3); [lia|lia|].
    unfold length_at. by rewrite H1, H2, H3.
Qed.

Lemma days_in_month_eq t : days_in_month t = length_at (day_of t).
Proof.
  unfold days_in_month, getUTCFullYear, getUTCMonth, length_at.
  set (y := year_from_day _). set (m := month_of_day _).
  assert (Hm : 0 <= m <= 11) by apply month_of_day_range.
  assert (He : make_day y (m + 1) 0 = make_day y m (month_length y m))
    by (unfold make_day, month_length; lia).
  rewrite He. pose proof (month_length_range y m Hm).
  destruct (make_day_date y m (month_length y m)) as (_ & _ & ->); lia.
Qed.

(** Among any 31 consecutive days, one has the wanted date or is the last of a shorter month. *)
Lemma date_in_window d dom : 1 <= dom <= 31 ->
  exists j, 0 <= j < 31 /\ date_of_day (d - j) = Z.min dom (length_at (d - j)).
Proof.
  intros Hdom. pose proof (date_within d) as Hd. pose proof (length_at_range d) as Hl.
  destruct (Z.le_gt_cases (Z.min dom (length_at d)) (date_of_day d)) as [Hle|Hgt].
  - exists (date_of_day d - Z.min dom (length_at d)). split; [lia|].
    destruct (earlier_in_month d (date_of_day d - Z.min dom (length_at d))) as [-> ->]; lia.
  - set (e := d - date_of_day d). pose proof (last_of_previous d) as He. fold e in He.
    pose proof (length_at_range e) as Hle.
    set (k := length_at e - Z.min dom (length_at e)).
    exists (date_of_day d + k). split; [unfold k; lia|].
    replace (d - (date_of_day d + k)) with (e - k) by (unfold e; lia).
    destruct (earlier_in_month e k) as [-> ->]; unfold k; lia.
Qed.

(** ** The loops *)

Lemma least_index (P : nat -> bool) j :
  P j = true -> exists i, (i <= j)%nat /\ P i = true /\ forall k, (k < i)%nat -> P k = false.
Proof.
  induction j as [j IH] using lt_wf_ind. intros Hj.
  destruct (List.find P (seq 0 j)) as [i|] eqn:Hf.
  - apply find_some in Hf as [Hi Hp]. apply in_seq in Hi.
    destruct (IH i ltac:(lia) Hp) as (i' & Hi' & H). exists i'. split; [lia|done].
  - exists j. split; [lia|]. split; [done|]. intros k Hk. apply (find_none _ _ Hf), in_seq. lia.
Qed.

(** The target [j] days earlier. *)
Definition days_back (t : Z) (j : nat) : Z := t - Z.of_nat j * MS_DAY.

Lemma days_back_S t j : days_back (t - MS_DAY) j = days_back t (S j).
Proof. unfold days_back. lia. Qed.

Lemma day_of_back t j : day_of (days_back t j) = day_of t - Z.of_nat j.
Proof. unfold days_back, day_of, MS_DAY. lia. Qed.

Lemma weekday_loop wd t j fuel :
  weekday_is wd (Some (days_back t j)) = true ->
  (forall k, (k < j)%nat -> weekday_is wd (Some (days_back t k)) = false) ->
  (j < fuel)%nat -> back_to_weekday fuel wd (Some t) = Some (Some (days_back t j)).
Proof.
  revert t fuel. induction j as [|j IH]; intros t [|fuel] Hj Hk Hf; try lia; simpl.
  - replace (days_back t 0) with t in * by (unfold days_back; lia). by rewrite Hj.
  - pose proof (Hk 0%nat ltac:(lia)) as H0. replace (days_back t 0) with t in H0 by (unfold days_back; lia).
    rewrite H0, <- days_back_S. apply IH; [by rewrite days_back_S| |lia].
    intros k Hlt. rewrite days_back_S. apply Hk. lia.
Qed.

Lemma date_loop dom t j n :
  date_is dom (Some (days_back t j)) = true ->
  (forall k, (k < j)%nat -> date_is dom (Some (days_back t k)) = false) ->
  (j < n)%nat -> back_to_date n dom (Some t) = Some (days_back t j).
Proof.
  revert t n. induction j as [|j IH]; intros t [|n] Hj Hk Hf; try lia; cbn [back_to_date].
  - replace (days_back t 0) with t in * by (unfold days_back; lia). by rewrite Hj.
  - pose proof (Hk 0%nat ltac:(lia)) as H0. replace (days_back t 0) with t in H0 by (unfold days_back; lia).
    rewrite H0, <- days_back_S. apply IH; [by rewrite days_back_S| |lia].
    intros k Hlt. rewrite days_back_S. apply Hk. lia.
Qed.

(** No weekday ever matches: the loop does not end. *)
Lemma weekday_diverges wd t fuel :
  (forall d, 0 <= d <= 6 -> match wd with Some (JNum q) => Qeq_bool (inject_Z d) q = false
                            | _ => True end) ->
  back_to_weekday fuel wd t = None.
Proof.
  intros Hw. revert t. induction fuel as [|fuel IH]; intros t; [done|]. simpl.
  assert (weekday_is wd t = false) as ->; [|apply IH]. unfold weekday_is.
  destruct wd as [[]|]; try done. destruct t; [|done]. apply Hw. unfold getUTCDay. lia.
Qed.

Lemma weekday_is_Z wd t :
  weekday_is (Some (JNum (inject_Z wd))) (Some t) = (getUTCDay t =? wd).
Proof.
  simpl. destruct (Z.eqb_spec (getUTCDay t) wd) as [->|Hne]; [by apply Qeq_bool_iff|].
  apply not_true_iff_false. by rewrite Qeq_bool_iff, inject_Z_injective.
Qed.

Lemma date_is_Z dom t :
  date_is (Some (JNum (inject_Z dom))) (Some t) = (getUTCDate t =? Z.min dom (days_in_month t)).
Proof.
  unfold date_is. simpl.
  assert (Hm : (if Qle_bool (inject_Z dom) (inject_Z (days_in_month t)) then inject_Z dom
    else inject_Z (days_in_month t)) = inject_Z (Z.min dom (days_in_month t))).
  { destruct (Qle_bool _ _) eqn:E; f_equal.
    - apply Qle_bool_iff in E. rewrite <- Zle_Qle in E. lia.
    - apply not_true_iff_false in E. rewrite Qle_bool_iff, <- Zle_Qle in E. lia. }
  rewrite Hm. destruct (Z.eqb_spec (getUTCDate t) (Z.min dom (days_in_month t))) as [->|Hne];
    [by apply Qeq_bool_iff|].
  apply not_true_iff_false. by rewrite Qeq_bool_iff, inject_Z_injective.
Qed.

(** ** When a schedule is due *)

(** A cadence with a time of day. *)
Inductive cadence : Type :=
| Daily
| Weekly (weekday : Z)
| Monthly (dayOfMonth : Z).

Definition hhmm (h m : Z) : string := pad 2 h +:+ String ":" (pad 2 m).

(** [sched] is what the schedule form stores for a cadence at [h]:[m]. *)
Record anchored (sched : json) (h m : Z) (c : cadence) : Prop := {
  anchored_hour : 0 <= h < 24;
  anchored_minute : 0 <= m < 60;
  anchored_time : field "time" sched = Some (JStr (hhmm h m));
  anchored_cadence :
    match c with
    | Daily => field "frequency" sched = Some (JStr "daily")
    | Weekly wd => field "frequency" sched = Some (JStr "weekly") /\ 0 <= wd <= 6 /\
        field "weekday" sched = Some (JNum (inject_Z wd))
    | Monthly dom => field "frequency" sched = Some (JStr "monthly") /\ 1 <= dom <= 31 /\
        field "dayOfMonth" sched = Some (JNum (inject_Z dom))
    end
}.

(** The local days on which a cadence runs. *)
Definition runs_on (c : cadence) (t : Z) : bool :=
  match c with
  | Daily => true
  | Weekly wd => getUTCDay t =? wd
  | Monthly dom => getUTCDate t =? Z.min dom (days_in_month t)
  end.

(** Instant [a] is a scheduled one: the right local day, at [h]:[m] sharp. *)
Definition is_anchor (tz h m : Z) (c : cadence) (a : Z) : Prop :=
  (a + tz) mod MS_DAY = h * 3600000 + m * 60000 /\ runs_on c (a + tz) = true.

(** The longest time between two runs, in days. *)
Definition period (c : cadence) : Z :=
  match c with Daily => 1 | Weekly _ => 7 | Monthly _ => 31 end.

Lemma parse_two n : 0 <= n < 60 -> to_integer (Number_of_string (pad 2 n)) = Some n.
Proof.
  intros Hn. apply (bool_decide_unpack _), Is_true_true.
  exact (forall_below 60 (fun n => bool_decide (to_integer (Number_of_string (pad 2 n)) = Some n))
    eq_refl n Hn).
Qed.

Lemma pad2_no_colon n : 0 <= n < 60 -> has_char ":" (pad 2 n) = false.
Proof.
  intros Hn. apply negb_true_iff.
  exact (forall_below 60 (fun n => negb (has_char ":" (pad 2 n))) eq_refl n Hn).
Qed.

Lemma parse_hhmm_ok h m : 0 <= h < 24 -> 0 <= m < 60 ->
  parse_hhmm (hhmm h m) = (Number_of_string (pad 2 h), Number_of_string (pad 2 m)).
Proof.
  intros Hh Hm. unfold parse_hhmm, hhmm.
  rewrite split_on_app by (apply pad2_no_colon; lia).
  by rewrite split_on_none by (apply pad2_no_colon; lia).
Qed.

Section isDue.
Variable tz : Z.

(** The latest local time [h]:[m] not after now. *)
Lemma todays_target_ok h m now : 0 <= h < 24 -> 0 <= m < 60 ->
  exists t, todays_target tz (hhmm h m) now = Some t /\
    t mod MS_DAY = h * 3600000 + m * 60000 /\ t <= now + tz < t + MS_DAY.
Proof.
  intros Hh Hm. unfold todays_target. rewrite parse_hhmm_ok by done. unfold setHours.
  rewrite !parse_two by lia. set (t := day_of (now + tz) * MS_DAY + h * 3600000 + m * 60000).
  assert (Ht : t mod MS_DAY = h * 3600000 + m * 60000)
    by (unfold t, day_of, MS_DAY; lia).
  destruct (Z.ltb_spec (now + tz) t).
  - exists (t - MS_DAY). split; [done|]. unfold t, day_of, MS_DAY in *. lia.
  - exists t. split; [done|]. unfold t, day_of, MS_DAY in *. lia.
Qed.

(** Some day of the last [period] runs. *)
Lemma runs_soon h m c sched t : anchored sched h m c ->
  exists j, (Z.of_nat j < period c) /\ runs_on c (days_back t j) = true.
Proof.
  intros Ha. pose proof (anchored_cadence _ _ _ _ Ha) as Hc. destruct c as [|wd|dom]; simpl.
  - exists 0%nat. split; [lia|done].
  - destruct Hc as (_ & Hw & _). exists (Z.to_nat ((getUTCDay t - wd) mod 7)).
    split; [lia|]. apply Z.eqb_eq. unfold getUTCDay. rewrite day_of_back, Z2Nat.id by lia.
    set (x := day_of t + 4). replace (day_of t) with (x - 4) by (unfold x; lia). clearbody x.
    replace (x - 4 + 4) with x by lia. lia.
  - destruct (date_in_window (day_of t) dom) as (j & Hj & Hd); [tauto|].
    exists (Z.to_nat j). split; [lia|]. apply Z.eqb_eq.
    rewrite days_in_month_eq. unfold getUTCDate. by rewrite day_of_back, Z2Nat.id by lia.
Qed.

(** The code's target is the latest scheduled instant, within the period. *)
Lemma isDue_target sched h m c lastMs now : anchored sched h m c -> lastMs <> 0 ->
  exists a, is_anchor tz h m c a /\ a <= now < a + period c * MS_DAY /\
    (forall a', is_anchor tz h m c a' -> a' <= now -> a' <= a) /\
    isDue tz 7 sched lastMs now = Some (Due (lastMs <? a)).
Proof.
  intros Ha Hl. destruct (todays_target_ok h m now) as (t & Ht & Hm & Hn); [apply Ha..|].
  destruct (runs_soon h m c sched t Ha) as (j0 & Hj0 & Hr0).
  destruct (least_index (fun j => runs_on c (days_back t j)) j0 Hr0) as (j & Hj & Hr & Hk).
  assert (Hb : forall k, days_back t k mod MS_DAY = t mod MS_DAY).
  { intros k. unfold days_back. replace (t - Z.of_nat k * MS_DAY) with (t + - Z.of_nat k * MS_DAY) by lia.
    apply Z.mod_add. done. }
  exists (days_back t j - tz). split; [|split; [|split]].
  - unfold is_anchor. rewrite Z.sub_add. rewrite Hb. done.
  - unfold days_back, MS_DAY in *. lia.
  - intros a' [Hm' Hr'] Hle. destruct (Z.le_gt_cases a' (days_back t j - tz)) as [|Hgt]; [done|].
    exfalso. set (k := Z.to_nat ((t - (a' + tz)) / MS_DAY)).
    assert (He : a' + tz = days_back t k) by (unfold days_back, k, MS_DAY in *; lia).
    rewrite He in Hr'. rewrite Hk in Hr'; [done|].
    unfold days_back, MS_DAY in *. lia.
  - unfold isDue. rewrite (proj2 (Z.eqb_neq _ _) Hl), (anchored_time _ _ _ _ Ha), Ht.
    pose proof (anchored_cadence _ _ _ _ Ha) as Hc. destruct c as [|wd|dom].
    + rewrite Hc. simpl. destruct j as [|j]; [|by specialize (Hk 0%nat ltac:(lia))].
      unfold days_back. by rewrite Z.sub_0_r.
    + destruct Hc as (Hf & Hw & ->). rewrite Hf. simpl is_text. cbv iota.
      simpl in Hj0. rewrite (weekday_loop _ _ j);
        [done|by rewrite weekday_is_Z|intros k ?; rewrite weekday_is_Z; by apply Hk|lia].
    + destruct Hc as (Hf & Hw & ->). rewrite Hf. simpl is_text. cbv iota.
      simpl in Hj0. rewrite (date_loop _ _ j);
        [done|by rewrite date_is_Z|intros k ?; rewrite date_is_Z; by apply Hk|lia].
Qed.
End isDue.

(** There is a verdict, and what is not due has a copy since the last scheduled instant. *)
Lemma isDue_answers tz sched h m c lastMs now : anchored sched h m c ->
  exists b, isDue tz 7 sched lastMs now = Some (Due b) /\
    (b = false -> lastMs <> 0 /\ forall a, is_anchor tz h m c a -> a <= now -> a <= lastMs).
Proof.
  intros Ha. destruct (Z.eq_dec lastMs 0) as [->|Hl]; [by exists true|].
  destruct (isDue_target tz sched h m c lastMs now Ha Hl) as (a & _ & _ & Hmax & Hdue).
  exists (lastMs <? a). split; [done|]. intros Hlt%Z.ltb_ge. split; [done|].
  intros a' Ha' Hle. specialize (Hmax a' Ha' Hle). lia.
Qed.

(** For a schedule as the form stores it, the worker's verdict is that of its calendar: due
    when there is no copy yet or a scheduled instant lies after the last copy and not after
    now; hence due, at the latest, once a day, a week or 31 days went by without a copy. *)
Theorem isDue_spec tz sched h m c lastMs now (Ha : anchored sched h m c) :
  exists b, isDue tz 7 sched lastMs now = Some (Due b) /\
    (b = true <-> lastMs = 0 \/ exists a, is_anchor tz h m c a /\ lastMs < a <= now) /\
    (lastMs + period c * MS_DAY <= now -> b = true).
Proof.
  destruct (Z.eq_dec lastMs 0) as [->|Hl].
  - exists true. split; [done|]. split; [|done]. split; [by left|done].
  - destruct (isDue_target tz sched h m c lastMs now Ha Hl) as (a & Han & Hle & Hmax & Hdue).
    exists (lastMs <? a). split; [done|]. split.
    + rewrite Z.ltb_lt. split; [right; exists a; split; [done|lia]|].
      intros [?|(a' & Ha' & Hlt)]; [done|]. specialize (Hmax a' Ha' ltac:(lia)). lia.
    + intros Hp. apply Z.ltb_lt. lia.
Qed.

(** A weekday no day has. *)
Definition no_weekday (v : option json) : Prop :=
  forall q d, v = Some (JNum q) -> 0 <= d <= 6 -> Qeq_bool (inject_Z d) q = false.

Lemma weekday_cases v :
  no_weekday v \/ exists q d, v = Some (JNum q) /\ 0 <= d <= 6 /\ Qeq_bool (inject_Z d) q = true.
Proof.
  destruct v as [[| |q| | |]|]; try (left; intros ? ? ?; discriminate).
  destruct (existsb (fun d => Qeq_bool (inject_Z d) q) [0; 1; 2; 3; 4; 5; 6]) eqn:He.
  - right. apply existsb_true in He as (d & Hd & He). exists q, d. split; [done|]. split; [|done].
    repeat (apply elem_of_cons in Hd as [->|Hd]; [lia|]). by apply not_elem_of_nil in Hd.
  - left. rewrite existsb_false in He. intros q' d [= <-] Hd. apply He.
    each_value d 7; do 7 (try apply list_elem_of_here; apply list_elem_of_further).
Qed.

Lemma weekday_terminates q d t : 0 <= d <= 6 -> Qeq_bool (inject_Z d) q = true ->
  back_to_weekday 7 (Some (JNum q)) (Some t) <> None.
Proof.
  intros Hd Hq. set (j0 := Z.to_nat ((getUTCDay t - d) mod 7)).
  assert (Hj : weekday_is (Some (JNum q)) (Some (days_back t j0)) = true).
  { simpl. assert (Hg : getUTCDay (days_back t j0) = d); [|by rewrite Hg].
    unfold getUTCDay. rewrite day_of_back. unfold j0. rewrite Z2Nat.id by lia. unfold getUTCDay.
    set (x := day_of t + 4). replace (day_of t) with (x - 4) by (unfold x; lia). clearbody x.
    replace (x - 4 + 4) with x by lia. lia. }
  destruct (least_index (fun j => weekday_is (Some (JNum q)) (Some (days_back t j))) j0 Hj)
    as (j & Hle & Hm & Hk).
  rewrite (weekday_loop _ t j); [done|done|done|]. unfold j0 in Hle. lia.
Qed.

(** The search for the last scheduled instant ends within seven steps, except for a weekly
    schedule whose weekday is not a whole number from 0 to 6: then it never ends, and the
    worker, which does not validate what the settings hold, hangs. *)
Theorem isDue_terminates tz sched h m lastMs now
    (Hh : 0 <= h < 24) (Hm : 0 <= m < 60) (Hl : lastMs <> 0)
    (Ht : field "time" sched = Some (JStr (hhmm h m))) :
  ((forall fuel, isDue tz fuel sched lastMs now = None) <->
   is_text (field "frequency" sched) "weekly" = true /\ no_weekday (field "weekday" sched)) /\
  ((exists fuel, isDue tz fuel sched lastMs now <> None) -> isDue tz 7 sched lastMs now <> None).
Proof.
  destruct (todays_target_ok tz h m now Hh Hm) as (t & Htt & _).
  assert (Hdue : forall fuel, isDue tz fuel sched lastMs now =
    if is_text (field "frequency" sched) "weekly"
    then option_map (fun x => Due match x with Some t => lastMs <? t - tz | None => false end)
      (back_to_weekday fuel (field "weekday" sched) (Some t))
    else isDue tz 0 sched lastMs now).
  { intros fuel. unfold isDue. rewrite (proj2 (Z.eqb_neq _ _) Hl), Ht, Htt.
    destruct (field "frequency" sched) as [[| | |f| |]|]; try done. simpl.
    destruct (String.eqb_spec f "weekly") as [->|]; simpl.
    - by destruct (back_to_weekday _ _ _).
    - by destruct (String.eqb f "interval"), (String.eqb f "monthly"). }
  destruct (is_text (field "frequency" sched) "weekly") eqn:Hw.
  - destruct (weekday_cases (field "weekday" sched)) as [Hn|(q & d & Hq & Hd & He)].
    + assert (Hnone : forall fuel, isDue tz fuel sched lastMs now = None).
      { intros fuel. rewrite Hdue, weekday_diverges; [done|]. intros d Hd.
        destruct (field "weekday" sched) as [[]|]; try done. by apply Hn. }
      split; [done|]. intros [fuel Hf]. by rewrite Hnone in Hf.
    + assert (H7 : isDue tz 7 sched lastMs now <> None).
      { rewrite Hdue, Hq. pose proof (weekday_terminates q d t Hd He).
        by destruct (back_to_weekday _ _ _). }
      split; [|done]. split; [intros Hall; by rewrite Hall in H7|].
      intros [_ Hno]. by rewrite (Hno q d Hq Hd) in He.
  - assert (H0 : isDue tz 0 sched lastMs now <> None).
    { unfold isDue. rewrite (proj2 (Z.eqb_neq _ _) Hl), Ht, Hw.
      destruct (is_text (field "frequency" sched) "interval"), (is_text (field "frequency" sched) "monthly");
        done. }
    split; [|intros _; by rewrite Hdue]. split; [|by intros [? _]].
    intros Hall. by rewrite Hall in H0.
Qed.

(** ** A tick catches up *)

(** The directory has a copy of scope [sc] from [b] or later. *)
Definition has_copy (dir : list BackupFile) (sc : BackupScope) (b : Z) : Prop :=
  exists f, f ∈ dir /\ endsWith ".json" (file_name f) = true /\
    scopeFromName (file_name f) = sc /\ b <= file_mtime f.

Definition scope_json (sc : BackupScope) : option json := Some (JStr (scope_name sc)).

Lemma is_text_scope sc sc' : is_text (scope_json sc) (scope_name sc') = true <-> sc' = sc.
Proof. destruct sc, sc'; simpl; split; done. Qed.

Lemma listBackups_elem dir x :
  x ∈ listBackups (Some dir) <-> exists f, f ∈ dir /\ endsWith ".json" (file_name f) = true /\
    x = {| bk_name := file_name f; bk_size := file_size f; bk_createdAt := file_mtime f;
           bk_scope := scopeFromName (file_name f) |}.
Proof.
  unfold listBackups. rewrite elem_of_js_sort, elem_of_map. setoid_rewrite elem_of_filterb.
  split; intros (f & H); exists f; tauto.
Qed.

Lemma listBackups_sorted dir :
  StronglySorted (fun a b => bk_createdAt b <= bk_createdAt a) (listBackups (Some dir)).
Proof.
  unfold listBackups. set (l := map _ _).
  assert (Hs : StronglySorted (fun a b => (bk_createdAt a <? bk_createdAt b) = false)
    (js_sort (fun a b => bk_createdAt a <? bk_createdAt b) l)).
  { apply js_sort_sorted; [intros a b|intros a b c]; rewrite ?Z.ltb_lt, !Z.ltb_ge; lia. }
  induction Hs as [|x k Hs IH Hx]; constructor; [done|].
  eapply Forall_impl; [exact Hx|]. intros y Hy%Z.ltb_ge. done.
Qed.

(** [find] on a list sorted newest first gives the newest. *)
Lemma find_newest (p : BackupMeta -> bool) l :
  StronglySorted (fun a b => bk_createdAt b <= bk_createdAt a) l ->
  match List.find p l with
  | Some x => x ∈ l /\ p x = true /\ forall y, y ∈ l -> p y = true -> bk_createdAt y <= bk_createdAt x
  | None => forall y, y ∈ l -> p y = false
  end.
Proof.
  induction l as [|x l IH]; intros Hs; simpl; [by intros y ?%not_elem_of_nil|].
  apply StronglySorted_cons in Hs as [Hx Hs]. rewrite Forall_forall in Hx. destruct (p x) eqn:Hp.
  - split; [apply list_elem_of_here|]. split; [done|].
    intros y [->|Hy]%elem_of_cons _; [done|by apply Hx].
  - specialize (IH Hs). destruct (List.find p l) as [z|].
    + destruct IH as (Hz & Hpz & Hmax). split; [by apply list_elem_of_further|]. split; [done|].
      intros y [->|Hy]%elem_of_cons Hpy; [congruence|auto].
    + intros y [->|Hy]%elem_of_cons; auto.
Qed.

Lemma newest_spec dir sc b : 0 < b ->
  b <= newestBackupMtime dir (scope_json sc) <-> has_copy dir sc b.
Proof.
  intros Hb. unfold newestBackupMtime.
  pose proof (find_newest (fun b => is_text (scope_json sc) (scope_name (bk_scope b)))
    _ (listBackups_sorted dir)) as Hf.
  destruct (List.find _ _) as [x|].
  - destruct Hf as (Hx & Hp & Hmax). split.
    + intros Hle. apply listBackups_elem in Hx as (f & Hf & He & ->). exists f.
      apply is_text_scope in Hp. done.
    + intros (f & Hf & He & Hsc & Hle). etrans; [exact Hle|].
      apply (Hmax {| bk_name := file_name f; bk_size := file_size f; bk_createdAt := file_mtime f;
                     bk_scope := scopeFromName (file_name f) |}).
      * apply listBackups_elem. by exists f.
      * by apply is_text_scope.
  - split; [lia|]. intros (f & Hf0 & He & Hsc & Hle).
    assert (Hin : {| bk_name := file_name f; bk_size := file_size f; bk_createdAt := file_mtime f;
      bk_scope := scopeFromName (file_name f) |} ∈ listBackups (Some dir))
      by (apply listBackups_elem; by exists f).
    apply Hf in Hin. cbn [bk_scope] in Hin. pose proof (proj2 (is_text_scope sc _) Hsc) as Hp. congruence.
Qed.

Section ticks.
Context (tz : Z) (other : option json -> string).

(** A write never loses a scope: what it replaces had the same name. *)
Lemma has_copy_write dir sc b at_ size scope :
  has_copy dir sc b -> b <= at_ -> has_copy (writeBackup other at_ size dir scope) sc b.
Proof.
  intros (f & Hf & He & Hsc & Hle) Hb. unfold writeBackup. set (name := FILE_PREFIX +:+ _).
  destruct (String.eqb_spec (file_name f) name) as [Hn|Hn].
  - exists {| file_name := name; file_size := size; file_mtime := at_ |}. simpl. rewrite <- Hn.
    split; [|done]. apply elem_of_app. right. apply list_elem_of_here.
  - exists f. split; [|done]. apply elem_of_app. left. apply elem_of_filterb. split; [done|].
    by apply negb_true_iff, String.eqb_neq.
Qed.

Lemma has_copy_written dir sc at_ size b : b <= at_ ->
  has_copy (writeBackup other at_ size dir (scope_json sc)) sc b.
Proof.
  intros Hb. unfold writeBackup. eexists. split; [apply elem_of_app; right; apply list_elem_of_here|].
  simpl. split; [|split; [|done]].
  - rewrite <- !str_app_assoc. apply endsWith_app.
  - apply (scopeFromName_backupFileName (toISOString at_) sc).
Qed.

(** What is a valid list of schedules: each is off, or anchored. *)
Definition valid_schedule (s : json) : Prop :=
  s <> JNull /\ (truthy_json (field "enabled" s) = false \/ exists h m c, anchored s h m c).

Variables (clock sizes : nat -> Z) (now : Z).
Hypothesis Hclock : forall i, now <= clock i.

(** A copy as recent as the time it is asked for is not lost by the rest of the loop. *)
Lemma run_keeps i schedules dir w sc b dir' w' : b <= now -> has_copy dir sc b ->
  run_schedules tz other 7 clock sizes (fun _ => true) now i schedules dir w = Finished dir' w' ->
  has_copy dir' sc b.
Proof.
  intros Hb. revert i dir w. induction schedules as [|s rest IH]; intros i dir w Hc Hr; simpl in Hr.
  { by injection Hr as <- <-. }
  destruct s; try done; (destruct (negb _); [by eapply IH|]);
    (destruct (isDue _ _ _ _ _) as [[[]|]|]; [|by eapply IH|by eapply IH|done]);
    (eapply IH; [|exact Hr]); (apply has_copy_write; [done|]); specialize (Hclock i); lia.
Qed.

(** One turn of the loop on a schedule that is on. *)
Lemma run_cons i s rest dir w h m c : anchored s h m c -> truthy_json (field "enabled" s) = true ->
  exists b, isDue tz 7 s (newestBackupMtime dir (field "scope" s)) now = Some (Due b) /\
    run_schedules tz other 7 clock sizes (fun _ => true) now i (s :: rest) dir w =
    run_schedules tz other 7 clock sizes (fun _ => true) now (S i) rest
      (if b then writeBackup other (clock i) (sizes i) dir (field "scope" s) else dir)
      (if b then true else w).
Proof.
  intros Ha He.
  destruct (isDue_answers tz s h m c (newestBackupMtime dir (field "scope" s)) now Ha) as (b & Hd & _).
  exists b. split; [done|]. destruct s; try (by pose proof (anchored_time _ _ _ _ Ha));
    cbn [run_schedules]; rewrite He; cbn [negb]; rewrite Hd; by destruct b.
Qed.

Lemma run_finishes i schedules dir w :
  Forall valid_schedule schedules ->
  exists dir' w', run_schedules tz other 7 clock sizes (fun _ => true) now i schedules dir w
    = Finished dir' w'.
Proof.
  intros Hv. revert i dir w. induction Hv as [|s rest [Hn Hs] Hv IH]; intros i dir w.
  { by exists dir, w. }
  destruct (truthy_json (field "enabled" s)) eqn:He.
  - destruct Hs as [?|(h & m & c & Ha)]; [done|].
    destruct (run_cons i s rest dir w h m c Ha He) as (b & _ & ->). apply IH.
  - destruct s; try done; cbn [run_schedules]; rewrite He; apply IH.
Qed.

(** The turn of a schedule leaves a copy as recent as its last scheduled instant. *)
Lemma run_copies schedules i dir w s h m c sc a dir' w' : Forall valid_schedule schedules ->
  s ∈ schedules -> anchored s h m c -> truthy_json (field "enabled" s) = true ->
  field "scope" s = scope_json sc -> is_anchor tz h m c a -> 0 < a <= now ->
  run_schedules tz other 7 clock sizes (fun _ => true) now i schedules dir w = Finished dir' w' ->
  has_copy dir' sc a.
Proof.
  intros Hv Hs Ha He Hsc Han Hle. revert i dir w.
  induction Hv as [|s1 rest [Hn1 Hs1] Hv IH]; intros i dir w Hr; [by apply not_elem_of_nil in Hs|].
  apply elem_of_cons in Hs as [<-|Hs].
  - destruct (run_cons i s rest dir w h m c Ha He) as (b & Hd & Hrun). rewrite Hrun in Hr.
    eapply run_keeps; [|  |exact Hr]; [lia|]. rewrite Hsc in *.
    destruct b; [apply has_copy_written; specialize (Hclock i); lia|].
    destruct (isDue_answers tz s h m c (newestBackupMtime dir (scope_json sc)) now Ha)
      as (b & Hd' & Hb). rewrite Hd in Hd'. injection Hd' as <-.
    apply newest_spec; [lia|]. destruct (Hb eq_refl) as [_ Hl]. apply Hl; [done|lia].
  - specialize (IH Hs). destruct (truthy_json (field "enabled" s1)) eqn:He1.
    + destruct Hs1 as [?|(h1 & m1 & c1 & Ha1)]; [congruence|].
      destruct (run_cons i s1 rest dir w h1 m1 c1 Ha1 He1) as (b & _ & Hrun).
      rewrite Hrun in Hr. by eapply IH.
    + destruct s1; try done; cbn [run_schedules] in Hr; rewrite He1 in Hr;
        exact (IH _ _ _ Hr).
Qed.

(** With a copy as recent as the last scheduled instant nothing is due. *)
Lemma settled s h m c sc dir : anchored s h m c -> period c * MS_DAY <= now ->
  (forall a, is_anchor tz h m c a -> 0 < a <= now -> has_copy dir sc a) ->
  isDue tz 7 s (newestBackupMtime dir (scope_json sc)) now = Some (Due false).
Proof.
  intros Ha Hp Hc. assert (Hl1 : 1 <> 0) by done.
  destruct (isDue_target tz s h m c 1 now Ha Hl1) as (a & Han & Hle & Hmax & _).
  assert (Hcopy : has_copy dir sc a) by (apply Hc; [done|lia]). apply newest_spec in Hcopy; [|lia].
  destruct (isDue_target tz s h m c (newestBackupMtime dir (scope_json sc)) now Ha ltac:(lia))
    as (a' & Han' & Hle' & _ & ->). do 2 f_equal. apply Z.ltb_ge. specialize (Hmax a' Han' ltac:(lia)). lia.
Qed.

(** A tick over valid schedules whose exports succeed neither crashes nor hangs, and leaves
    for every schedule that is on a copy of its scope younger than the schedule's period, so
    that nothing is due any more: however long the worker was down, one tick catches up. *)
Theorem tick_catches_up schedules dir (Hv : Forall valid_schedule schedules) :
  exists dir' wrote,
    run_schedules tz other 7 clock sizes (fun _ => true) now 0 schedules dir false = Finished dir' wrote /\
    forall s h m c sc, s ∈ schedules -> anchored s h m c -> truthy_json (field "enabled" s) = true ->
      field "scope" s = scope_json sc -> period c * MS_DAY <= now ->
      has_copy dir' sc (now - period c * MS_DAY + 1) /\
      isDue tz 7 s (newestBackupMtime dir' (scope_json sc)) now = Some (Due false).
Proof.
  destruct (run_finishes 0 schedules dir false Hv) as (dir' & w' & Hr). exists dir', w'.
  split; [done|]. intros s h m c sc Hs Ha He Hsc Hp.
  assert (Hl1 : 1 <> 0) by done.
  destruct (isDue_target tz s h m c 1 now Ha Hl1) as (a & Han & Hle & Hmax & _).
  assert (Hcopy : has_copy dir' sc a) by (eapply run_copies; [..|exact Hr]; try done; lia).
  split.
  - destruct Hcopy as (f & Hf & Hj & Hfs & Hm'). exists f. repeat split; try done. lia.
  - apply (settled s h m c sc); [done|done|]. intros b Hb Hbn. by eapply run_copies.
Qed.

(** Pruning keeps the newest copy of a scope of which the policy keeps any. *)
Lemma prune_keeps policy dir sc b : 1 <= keepLatest policy sc -> has_copy dir sc b -> has_copy (pruneByPolicy policy dir) sc b.
Proof.
  intros Hp (f & Hf & He & Hsc & Hb). set (backups := listBackups (Some dir)).
  set (x := {| bk_name := file_name f; bk_size := file_size f; bk_createdAt := file_mtime f; bk_scope := scopeFromName (file_name f) |}).
  assert (Hx : x ∈ newest_first backups sc). { apply newest_first_elem. split; [|done]. apply listBackups_elem. by exists f. }
  destruct (newest_first backups sc) as [|y l] eqn:En; [by apply not_elem_of_nil in Hx|].
  assert (Hy : y ∈ backups /\ bk_scope y = sc) by (apply (newest_first_elem backups sc); rewrite En; left).
  destruct Hy as [Hy Hys]. apply listBackups_elem in Hy as (g & Hg & Hge & ->). cbn [bk_scope] in Hys.
  assert (Hle : bk_createdAt x <= file_mtime g).
  { pose proof (newest_first_sorted backups sc) as Hs. rewrite En in Hs. apply StronglySorted_cons in Hs as [Hs _].
    rewrite Forall_forall in Hs. apply elem_of_cons in Hx as [->|Hx]; [cbn [bk_createdAt]; lia|by apply Hs]. }
  exists g. split; [|split; [done|split; [done|cbn [bk_createdAt x] in Hle; lia]]].
  unfold pruneByPolicy. apply elem_of_filterb. split; [done|]. apply negb_true_iff, includes_false.
  unfold backupsToPrune. intros (z & Hz & Hn)%elem_of_map. apply elem_of_filterb in Hn as [_ Hn].
  apply negb_true_iff, includes_false in Hn. apply Hn. rewrite <- Hz. apply elem_of_keep. right.
  eexists sc, [], _, l. split; [destruct sc; set_solver|]. split; [exact En|]. split; [done|].
  left. cbn [bk_scope List.length]. rewrite Hys. lia.
Qed.

(** With a policy that keeps some copy of each scope, the whole tick leaves nothing due. *)
Theorem tick_settles {T : Type -> Type} {ST : Store T} (settings : T SettingRow) policy dir :
  Forall valid_schedule (readSchedules settings) -> readRetention settings = Some policy ->
  (forall sc, 1 <= keepLatest policy sc) ->
  exists dir' wrote, tick tz other 7 clock sizes (fun _ => true) now settings dir = Some (Finished dir' wrote) /\
    forall s h m c sc, s ∈ readSchedules settings -> anchored s h m c -> truthy_json (field "enabled" s) = true ->
      field "scope" s = scope_json sc -> period c * MS_DAY <= now ->
      isDue tz 7 s (newestBackupMtime dir' (scope_json sc)) now = Some (Due false).
Proof.
  intros Hv Hp Hk. unfold tick.
  destruct (run_finishes 0 (readSchedules settings) dir false Hv) as (dir1 & wrote & Hr). rewrite Hr.
  assert (Hc : forall s h m c sc a, s ∈ readSchedules settings -> anchored s h m c -> truthy_json (field "enabled" s) = true ->
    field "scope" s = scope_json sc -> is_anchor tz h m c a -> 0 < a <= now -> has_copy dir1 sc a).
  { intros s h m c sc a Hs Ha He Hsc Han Hle. by eapply run_copies. }
  exists (if wrote then pruneByPolicy policy dir1 else dir1), wrote. split; [destruct wrote; [by rewrite Hp|done]|].
  intros s h m c sc Hs Ha He Hsc Hper. apply (settled s h m c sc); [done|done|]. intros a Han Hle.
  assert (has_copy dir1 sc a) by (by eapply Hc). destruct wrote; [by apply prune_keeps|done].
Qed.
End ticks.

(** ** Witnesses *)

Definition w_weekly (weekday : Q) : json := JObj
  [("enabled", JBool true); ("scope", JStr "config"); ("frequency", JStr "weekly");
   ("time", JStr "02:30"); ("weekday", JNum weekday)].

Lemma w_weekly_anchored : anchored (w_weekly 1) 2 30 (Weekly 1).
Proof. split; [lia|lia|vm_compute; reflexivity|]. split; [reflexivity|]. split; [lia|reflexivity]. Qed.

(** 2026-06-24 is a Wednesday; the Monday before it is the 22nd. *)
Definition w_wednesday : Z := 1782280407123.

Lemma isDue_spec_witness :
  exists b, isDue 0 7 (w_weekly 1) 1782000000000 w_wednesday = Some (Due b) /\ b = true.
Proof.
  destruct (isDue_spec 0 (w_weekly 1) 2 30 (Weekly 1) 1782000000000 w_wednesday w_weekly_anchored)
    as (b & H1 & H2 & _).
  exists b. split; [exact H1|]. apply H2. right. exists 1782095400000. split; [|vm_compute; done].
  split; vm_compute; reflexivity.
Defined.

Lemma isDue_terminates_witness :
  isDue 0 1000 (w_weekly (5 # 2)) 1 w_wednesday = None /\
  no_weekday (field "weekday" (w_weekly (5 # 2))).
Proof.
  assert (Hn : no_weekday (field "weekday" (w_weekly (5 # 2)))).
  { intros q d [= <-] Hd. apply not_true_iff_false. rewrite Qeq_bool_iff. unfold Qeq. simpl. lia. }
  split; [|exact Hn].
  apply (proj2 (proj1 (isDue_terminates 0 (w_weekly (5 # 2)) 2 30 1 w_wednesday ltac:(lia) ltac:(lia)
    ltac:(lia) eq_refl))).
  split; [reflexivity|exact Hn].
Defined.

Lemma tick_catches_up_witness :
  exists dir' w, run_schedules 0 (fun _ => "undefined") 7 (fun _ => w_wednesday) (fun _ => 10)
      (fun _ => true) w_wednesday 0 [w_weekly 1] [] false = Finished dir' w /\
    isDue 0 7 (w_weekly 1) (newestBackupMtime dir' (scope_json ScopeConfig)) w_wednesday
      = Some (Due false).
Proof.
  destruct (tick_catches_up 0 (fun _ => "undefined") (fun _ => w_wednesday) (fun _ => 10) w_wednesday
    (fun _ => Z.le_refl _) [w_weekly 1] []) as (dir' & w & H1 & H2).
  - constructor; [|constructor]. split; [discriminate|]. right. exists 2, 30, (Weekly 1).
    exact w_weekly_anchored.
  - exists dir', w. split; [exact H1|].
    apply (H2 (w_weekly 1) 2 30 (Weekly 1) ScopeConfig (list_elem_of_here _ _) w_weekly_anchored
      eq_refl eq_refl). vm_compute. discriminate.
Defined.

(** A policy that keeps nothing of a scope: each tick writes a copy and deletes it again, so the next one is due too. *)
Example zero_policy_never_settles :
  let row key value : SettingRow := {| setting_key := key; setting_value := value; setting_createdAt := 0; setting_updatedAt := 0 |} in
  let zeros := JObj (map (fun k => (k, JNum 0)) ["keepAll"; "keepConfig"; "keepData"; "daily"; "weekly"; "monthly"]) in
  let settings := [row BACKUP_SCHEDULES_KEY (JArr [w_weekly 1]); row BACKUP_RETENTION_KEY zeros] in
  let at_tick now := tick (T := list) 0 (fun _ => "") 7 (fun _ => now) (fun _ => 1) (fun _ => true) now settings [] in
  at_tick w_wednesday = Some (Finished [] true) /\ at_tick (w_wednesday + 300000) = Some (Finished [] true).
Proof. split; vm_compute; reflexivity. Qed.
