(* ===== verification/Backups.v ===== *)
(** * Backup and restore

    Models packages/db/src/backup.ts: the dump of both databases, its streamed form, and the
    restore by deleting children first and inserting parents first. The rows of a database are
    of one type [R]; what the schema says of a row (its key, the rows it references, the rows
    it conflicts with) and its JSON text are parameters. The table orders are the source's and
    the foreign keys the schema's. A refused statement stops the restore and leaves what the
    earlier ones did; no statement relies on a cascade: deleting a row that is still referenced
    is refused here. *)
From S2P Require Import Prelude Text Store Schema RowUpdates BackupPolicy.

(** The names in [MASTER_TABLE_ORDER]. *)
Definition MASTER_TABLE_ORDER : list string :=
  ["users"; "groups"; "roles"; "permissions"; "rolePermissions"; "groupRoles"; "userGroups";
   "userAttributes"; "agents"; "agentKeys"; "secrets"; "settings"; "oidcProviders"; "monitors";
   "retentionConfig"; "refreshTokens"; "agentCommands"; "wallLayouts"; "wallDeviceGroups";
   "wallDevices"; "tickerMessages"; "publicConfig"].

(** The names in [TELEMETRY_TABLE_ORDER]. *)
Definition TELEMETRY_TABLE_ORDER : list string :=
  ["unitStates"; "statusEvents"; "clientEvents"; "hostMetrics"; "dbMetrics"; "storageMetrics";
   "logs"; "auditLog"; "uptimeBuckets"; "notifications"].

Record BackupBundle (R : Type) : Type := {
  bundle_version : Z; bundle_createdAt : string; bundle_scope : BackupScope;
  bundle_master : option (list (string * list R));
  bundle_telemetry : option (list (string * list R))
}.
Arguments bundle_version {R} _. Arguments bundle_createdAt {R} _. Arguments bundle_scope {R} _.
Arguments bundle_master {R} _. Arguments bundle_telemetry {R} _.

Definition INSERT_CHUNK : nat := 500.

(** The slices [rows.slice(i, i + n)] for [i = 0, n, 2n, ...]; [fuel] is the number of rows. *)
Fixpoint chunks_fuel {A} (fuel n : nat) (l : list A) : list (list A) :=
  match fuel, l with
  | S fuel, _ :: _ => firstn n l :: chunks_fuel fuel n (skipn n l)
  | _, _ => []
  end.
Definition chunks {A} (n : nat) (l : list A) : list (list A) := chunks_fuel (List.length l) n l.

(** ** JSON text *)

Definition DQUOTE : string := String (Ascii.ascii_of_nat 34) "".

Definition hex_digit (n : Z) : ascii := if n <? 10 then chr (48 + n) else chr (87 + n).

(** One character of a quoted string. *)
Definition quote_char (c : ascii) : string :=
  let n := code c in
  if n =? 34 then "\" +:+ DQUOTE
  else if n =? 92 then "\\" else if n =? 8 then "\b" else if n =? 12 then "\f"
  else if n =? 10 then "\n" else if n =? 13 then "\r" else if n =? 9 then "\t"
  else if n <? 32 then "\u00" +:+ String (hex_digit (n / 16)) (String (hex_digit (n mod 16)) "")
  else String c "".

Fixpoint quote_chars (s : string) : string :=
  match s with EmptyString => "" | String c s' => quote_char c +:+ quote_chars s' end.

(** [JSON.stringify] of a string. *)
Definition quote (s : string) : string := DQUOTE +:+ quote_chars s +:+ DQUOTE.

(** [JSON.stringify] of an array and of an object, from the texts of their parts. *)
Definition array_text (items : list string) : string := "[" +:+ join "," items +:+ "]".
Definition object_text (fields : list (string * string)) : string :=
  "{" +:+ join "," (map (fun kv => quote kv.1 +:+ ":" +:+ kv.2) fields) +:+ "}".

Section backup.
Context {T : Type -> Type} {ST : Store T} {R : Type}.
(** A database: its tables by export name. *)
Definition Db : Type := string -> T R.
Implicit Types db : Db.

(** The key of a row; the table and key of each row it references; equality on unique columns. *)
Variable ident : string -> R -> string.
Variable refs : string -> R -> list (string * string).
Variable conflict : string -> R -> R -> bool.
(** [JSON.stringify(row)] *)
Variable stringify : R -> string.

Definition set_table (name : string) (t : T R) db : Db :=
  fun n => if String.eqb n name then t else db n.

(** ** Export *)

Definition dumpTables db (order : list string) : list (string * list R) :=
  js_map (fun name => name) (fun name => rows (db name)) order.

Definition exportDatabases (now : string) (master telemetry : Db) (scope : BackupScope)
  : BackupBundle R := {|
  bundle_version := 1; bundle_createdAt := now; bundle_scope := scope;
  bundle_master := if decide (scope = ScopeData) then None
                   else Some (dumpTables master MASTER_TABLE_ORDER);
  bundle_telemetry := if decide (scope = ScopeConfig) then None
                      else Some (dumpTables telemetry TELEMETRY_TABLE_ORDER) |}.

(** [i ? "," : ""] *)
Definition comma (i : nat) : string := match i with O => "" | S _ => "," end.

(** What a loop over [l] writes, from index [i]. *)
Fixpoint write_each {A} (f : nat -> A -> string) (i : nat) (l : list A) : string :=
  match l with [] => "" | x :: l => f i x +:+ write_each f (S i) l end.

Definition writeDb db (order : list string) : string :=
  "{" +:+ write_each (fun i name =>
     comma i +:+ quote name +:+ ":[" +:+
     write_each (fun j row => comma j +:+ stringify row) 0 (rows (db name)) +:+ "]") 0 order +:+ "}".

(** The file's text; [bytes] is its length. *)
Definition exportDatabasesToFile (now : string) (master telemetry : Db) (scope : BackupScope)
  : string :=
  "{" +:+ DQUOTE +:+ "version" +:+ DQUOTE +:+ ":1," +:+ DQUOTE +:+ "createdAt" +:+ DQUOTE +:+ ":"
  +:+ quote now +:+ "," +:+ DQUOTE +:+ "scope" +:+ DQUOTE +:+ ":" +:+ quote (scope_name scope)
  +:+ (if decide (scope = ScopeData) then ""
       else "," +:+ DQUOTE +:+ "master" +:+ DQUOTE +:+ ":" +:+ writeDb master MASTER_TABLE_ORDER)
  +:+ (if decide (scope = ScopeConfig) then ""
       else "," +:+ DQUOTE +:+ "telemetry" +:+ DQUOTE +:+ ":" +:+ writeDb telemetry TELEMETRY_TABLE_ORDER)
  +:+ "}".

(** [JSON.stringify] of a bundle. *)
Definition tables_text (tables : list (string * list R)) : string :=
  object_text (map (fun t => (t.1, array_text (map stringify t.2))) tables).
Definition optional_field (name : string) (v : option (list (string * list R)))
  : list (string * string) :=
  match v with Some tables => [(name, tables_text tables)] | None => [] end.
Definition bundle_text (b : BackupBundle R) : string :=
  object_text ([("version", String_of_int (bundle_version b));
                ("createdAt", quote (bundle_createdAt b));
                ("scope", quote (scope_name (bundle_scope b)))]
    ++ optional_field "master" (bundle_master b)
    ++ optional_field "telemetry" (bundle_telemetry b)).

(** ** Restore *)

(** Some row of the database references row [r] of table [name]. *)
Definition referenced (tables : list string) db (name : string) (r : R) : bool :=
  existsb (fun t => existsb (fun c =>
    existsb (fun p => String.eqb p.1 name && String.eqb p.2 (ident name r)) (refs t c))
    (rows (db t))) tables.

(** A statement: the new database, or [None] when it is refused. *)
Definition statement : Type := Db -> option Db.

Definition delete_table (tables : list string) (name : string) : statement := fun db =>
  if existsb (referenced tables db name) (rows (db name)) then None
  else Some (set_table name (delete_where (fun _ => true) (db name)) db).

(** Every row that [r] references is there. *)
Definition parents_present db (name : string) (r : R) : bool :=
  forallb (fun p => existsb (fun x => String.eqb (ident p.1 x) p.2) (rows (db p.1))) (refs name r).

Fixpoint insert_chunk (name : string) (chunk : list R) db : option Db :=
  match chunk with
  | [] => Some db
  | r :: chunk =>
      if parents_present db name r then
        match insert_unique (conflict name) r (db name) with
        | Some t => insert_chunk name chunk (set_table name t db)
        | None => None
        end
      else None
  end.

(** Statements in sequence, up to the first refusal; whether all passed. *)
Fixpoint run_statements (ss : list statement) db : Db * bool :=
  match ss with
  | [] => (db, true)
  | s :: ss => match s db with Some db' => run_statements ss db' | None => (db, false) end
  end.

Definition insert_table (data : list (string * list R)) (name : string) : list statement :=
  match map_get name data with
  | None => []
  | Some rows => map (insert_chunk name) (chunks INSERT_CHUNK rows)
  end.

(** [tables] are all tables of the database. *)
Definition restoreOne (tables order : list string) (data : list (string * list R)) db : Db * bool :=
  run_statements (map (delete_table tables) (rev order) ++ flat_map (insert_table data) order) db.

(** The databases afterwards and the error, if any. *)
Definition importDatabases (master telemetry : Db) (bundle : BackupBundle R)
  : Db * Db * result string unit :=
  let '(master', ok) :=
    match bundle_master bundle with
    | Some data => restoreOne MASTER_TABLES MASTER_TABLE_ORDER data master
    | None => (master, true)
    end in
  if negb ok then (master', telemetry, Err "master restore failed")
  else
    let '(telemetry', ok) :=
      match bundle_telemetry bundle with
      | Some data => restoreOne TELEMETRY_TABLES TELEMETRY_TABLE_ORDER data telemetry
      | None => (telemetry, true)
      end in
    if negb ok then (master', telemetry', Err "telemetry restore failed")
    else (master', telemetry', Ok tt).
End backup.

(** ** The restore passes *)

(** Walking the order, with the tables [before] already seen: a table's children come after it
    and its parents before. *)
Fixpoint order_ok (fks : list (string * string)) (before order : list string) : bool :=
  match order with
  | [] => true
  | x :: after =>
      negb (includes before x) && negb (includes after x) &&
      forallb (fun fk => (negb (String.eqb fk.2 x) || includes after fk.1)
                         && (negb (String.eqb fk.1 x) || includes before fk.2)) fks
      && order_ok fks (x :: before) after
  end.

Lemma concat_chunks {A} n (l : list A) : (0 < n)%nat -> concat (chunks n l) = l.
Proof.
  intros Hn. unfold chunks. assert (Hf : (List.length l <= List.length l)%nat) by lia. revert Hf.
  generalize (List.length l) at 2 3. intros fuel. revert l.
  induction fuel as [|fuel IH]; intros [|x l] Hl; simpl in *; try done; [lia|].
  destruct n as [|n]; [lia|]. simpl. rewrite IH by (rewrite length_skipn; lia).
  by rewrite firstn_skipn.
Qed.

Section restore.
Context {T : Type -> Type} {ST : Store T} {LT : StoreLaws T} {R : Type}.
Variable ident : string -> R -> string.
Variable refs : string -> R -> list (string * string).
Variable conflict : string -> R -> R -> bool.
Implicit Types db : string -> T R.

Lemma run_app ss1 ss2 db :
  run_statements (ss1 ++ ss2) db =
  let '(db', ok) := run_statements ss1 db in
  if ok then run_statements ss2 db' else (db', false).
Proof.
  revert db. induction ss1 as [|s ss1 IH]; intros db; simpl; [done|]. by destruct (s db).
Qed.

Lemma set_table_eq name (t : T R) db : set_table name t db name = t.
Proof. unfold set_table. by rewrite String.eqb_refl. Qed.

Lemma set_table_ne name name' (t : T R) db : name' <> name -> set_table name t db name' = db name'.
Proof. unfold set_table. by intros ?%String.eqb_neq; destruct String.eqb. Qed.

(** Every reference of every row is along a declared foreign key. *)
Definition declared (fks : list (string * string)) db : Prop :=
  forall name r p, r ∈ rows (db name) -> p ∈ refs name r -> (name, p.1) ∈ fks.

(** Inserted one after the other, the rows do not conflict. *)
Definition conflict_free (c : R -> R -> bool) (l : list R) : Prop :=
  forall l1 r l2, l = l1 ++ r :: l2 -> existsb (c r) l1 = false.

(** What holds of a database between statements: keys, foreign keys and unique columns. *)
Record consistent (fks : list (string * string)) db : Prop := {
  refs_declared : declared fks db;
  refs_present : forall name r, r ∈ rows (db name) -> parents_present ident refs db name r = true;
  no_conflict : forall name, conflict_free (conflict name) (rows (db name))
}.

(** A table whose children are empty can be emptied. *)
Lemma delete_table_ok fks tables name db :
  declared fks db -> (forall c, (c, name) ∈ fks -> rows (db c) = []) ->
  delete_table ident refs tables name db =
  Some (set_table name (delete_where (fun _ => true) (db name)) db).
Proof.
  intros Hd Hc. unfold delete_table. destruct (existsb _ _) eqn:He; [|done].
  apply existsb_true in He as (r & Hr & He). unfold referenced in He.
  apply existsb_true in He as (t & Ht & He). apply existsb_true in He as (c & Hcr & He).
  apply existsb_true in He as (p & Hp & He). apply andb_true_iff in He as [Hn%String.eqb_eq _].
  assert (Ht0 : rows (db t) = []) by (apply Hc; rewrite <- Hn; by eapply Hd).
  rewrite Ht0 in Hcr. by apply not_elem_of_nil in Hcr.
Qed.

Lemma rows_delete_all (t : T R) : rows (delete_where (fun _ => true) t) = [].
Proof.
  apply Permutation_nil. symmetry. rewrite rows_delete. induction (rows t); [done|]. simpl. done.
Qed.

Lemma delete_phase fks tables before order db :
  order_ok fks before order = true -> declared fks db ->
  exists db', run_statements (map (delete_table ident refs tables) (rev order)) db = (db', true) /\
    declared fks db' /\ (forall name, name ∈ order -> rows (db' name) = []) /\
    (forall name, name ∉ order -> db' name = db name).
Proof.
  revert before. induction order as [|x order IH]; intros before Ho Hd.
  { exists db. split; [done|]. split; [done|]. split; [set_solver|done]. }
  simpl in Ho. apply andb_true_iff in Ho as [Ho1 Ho]. apply andb_true_iff in Ho1 as [_ Hf].
  destruct (IH _ Ho Hd) as (db1 & Hrun & Hd1 & He1 & Hn1).
  exists (set_table x (delete_where (fun _ => true) (db1 x)) db1).
  simpl. rewrite map_app, run_app, Hrun. simpl. rewrite (delete_table_ok fks); [|done|].
  - split; [done|]. split; [|split].
    + intros name r p Hr. destruct (decide (name = x)) as [->|Hne].
      * rewrite set_table_eq, rows_delete_all in Hr. by apply not_elem_of_nil in Hr.
      * rewrite set_table_ne in Hr by done. by apply Hd1.
    + intros name Hin. destruct (decide (name = x)) as [->|Hne].
      * by rewrite set_table_eq, rows_delete_all.
      * rewrite set_table_ne by done. apply He1. set_solver.
    + intros name Hin. rewrite set_table_ne by set_solver. apply Hn1. set_solver.
  - intros c Hc. apply He1. rewrite forallb_true in Hf. specialize (Hf _ Hc). simpl in Hf.
    rewrite String.eqb_refl in Hf. apply andb_true_iff in Hf as [Hf _]. by apply includes_true in Hf.
Qed.

(** Every reference of [r] is a row of [src] in one of the tables [before]. *)
Definition parents_in (src : string -> T R) (before : list string) (name : string) (r : R) : Prop :=
  parents_present ident refs src name r = true /\
  forall p, p ∈ refs name r -> p.1 ∈ before.

Lemma parents_present_mono src db before name r :
  parents_in src before name r -> (forall p, p ∈ before -> rows (db p) ≡ₚ rows (src p)) ->
  parents_present ident refs db name r = true.
Proof.
  unfold parents_in, parents_present. rewrite !forallb_true. intros [Hp Hb] Hs p Hin.
  specialize (Hp p Hin). apply existsb_true in Hp as (x & Hx & He). apply existsb_true.
  exists x. split; [|done]. rewrite Hs by auto. done.
Qed.

(** Statements that append the chunks [cs] to table [name]. *)
Lemma insert_chunk_ok src before name done_ chunk rest db :
  name ∉ before -> (forall p, p ∈ before -> rows (db p) ≡ₚ rows (src p)) ->
  rows (db name) ≡ₚ done_ -> rows (src name) = done_ ++ chunk ++ rest ->
  conflict_free (conflict name) (rows (src name)) ->
  (forall r, r ∈ rows (src name) -> parents_in src before name r) ->
  exists db', insert_chunk ident refs conflict name chunk db = Some db' /\
    rows (db' name) ≡ₚ done_ ++ chunk /\ (forall n, n <> name -> db' n = db n).
Proof.
  intros Hnb. revert done_ db. induction chunk as [|r chunk IH]; intros done_ db Hb Hd Hs Hc Hp; simpl.
  { exists db. by rewrite app_nil_r. }
  rewrite (parents_present_mono src db before) by (try done; apply Hp; rewrite Hs; set_solver).
  unfold insert_unique.
  assert (existsb (conflict name r) (rows (db name)) = false) as ->.
  { apply existsb_false. intros x Hx. rewrite Hd in Hx.
    specialize (Hc done_ r (chunk ++ rest) Hs). rewrite existsb_false in Hc. auto. }
  assert (Hne : forall p, p ∈ before -> p <> name) by (intros p ? ->; done).
  destruct (IH (done_ ++ [r]) (set_table name (insert_row r (db name)) db)) as (db' & Hi & Hr & Ho).
  - intros p Hin. rewrite set_table_ne by auto. auto.
  - rewrite set_table_eq, rows_insert, Hd. by rewrite Permutation_cons_append.
  - rewrite Hs, <- app_assoc. done.
  - done.
  - done.
  - exists db'. split; [done|]. split; [by rewrite Hr, <- app_assoc|].
    intros n Hn. rewrite Ho by done. by apply set_table_ne.
Qed.

Lemma insert_chunks_ok src before name cs done_ db :
  name ∉ before -> (forall p, p ∈ before -> rows (db p) ≡ₚ rows (src p)) ->
  rows (db name) ≡ₚ done_ -> rows (src name) = done_ ++ concat cs ->
  conflict_free (conflict name) (rows (src name)) ->
  (forall r, r ∈ rows (src name) -> parents_in src before name r) ->
  exists db', run_statements (map (insert_chunk ident refs conflict name) cs) db = (db', true) /\
    rows (db' name) ≡ₚ rows (src name) /\ (forall n, n <> name -> db' n = db n).
Proof.
  intros Hnb. revert done_ db. induction cs as [|c cs IH]; intros done_ db Hb Hd Hs Hc Hp; simpl.
  { exists db. split; [done|]. split; [|done]. rewrite Hd, Hs. simpl. by rewrite app_nil_r. }
  destruct (insert_chunk_ok src before name done_ c (concat cs) db) as (db1 & -> & Hr & Ho); try done.
  destruct (IH (done_ ++ c) db1) as (db2 & -> & Hr2 & Ho2); try done.
  - intros p Hin. rewrite Ho; [auto|]. by intros ->.
  - by rewrite Hs, <- app_assoc.
  - exists db2. split; [done|]. split; [done|]. intros n Hn. by rewrite Ho2, Ho.
Qed.

Lemma insert_phase fks src before order db :
  order_ok fks before order = true -> consistent fks src ->
  (forall p, p ∈ before -> rows (db p) ≡ₚ rows (src p)) ->
  (forall p, p ∈ order -> rows (db p) = []) ->
  exists db', run_statements (flat_map (fun name =>
      map (insert_chunk ident refs conflict name) (chunks INSERT_CHUNK (rows (src name)))) order) db
    = (db', true) /\
    (forall p, p ∈ before \/ p ∈ order -> rows (db' p) ≡ₚ rows (src p)) /\
    (forall p, p ∉ order -> db' p = db p).
Proof.
  revert before db. induction order as [|x order IH]; intros before db Ho Hc Hb He.
  { exists db. split; [done|]. split; [set_solver|done]. }
  simpl in Ho. rewrite !andb_true_iff, !negb_true_iff, !includes_false in Ho.
  destruct Ho as [[[Hxb Hxo] Hf] Ho]. rewrite forallb_true in Hf.
  destruct (insert_chunks_ok src before x (chunks INSERT_CHUNK (rows (src x))) [] db)
    as (db1 & Hrun & Hr & Hn); try done.
  - by rewrite He by set_solver.
  - rewrite concat_chunks; [done|]. unfold INSERT_CHUNK. lia.
  - apply (no_conflict _ _ Hc).
  - intros r Hr. split; [by apply (refs_present _ _ Hc)|]. intros p Hp.
    specialize (Hf _ (refs_declared _ _ Hc _ _ _ Hr Hp)). simpl in Hf.
    rewrite String.eqb_refl in Hf. apply andb_true_iff in Hf as [_ Hf]. by apply includes_true in Hf.
  - destruct (IH (x :: before) db1 Ho Hc) as (db2 & Hrun2 & Hr2 & Hn2).
    + intros p [->|Hp]%elem_of_cons; [done|]. rewrite Hn; [auto|]. by intros ->.
    + intros p Hp. rewrite Hn; [apply He; set_solver|]. by intros ->.
    + exists db2. simpl. rewrite run_app, Hrun. split; [done|]. split.
      * intros p Hp. apply Hr2. set_solver.
      * intros p Hp. rewrite Hn2 by set_solver. apply Hn. set_solver.
Qed.

Lemma map_get_dump db order name :
  NoDup order -> map_get name (dumpTables db order) =
  if decide (name ∈ order) then Some (rows (db name)) else None.
Proof.
  intros Hnd. unfold dumpTables. destruct (decide _) as [Hin|Hin].
  - by rewrite (map_get_js_map (fun n => n) (fun n => rows (db n)) order name) by (rewrite ?map_id; done).
  - unfold js_map. rewrite map_get_fold_other; [done|]. by intros r Hr ->.
Qed.

Lemma restore_dump fks tables order src db :
  NoDup order -> order_ok fks [] order = true -> consistent fks src -> declared fks db ->
  exists db', restoreOne ident refs conflict tables order (dumpTables src order) db = (db', true) /\
    (forall name, name ∈ order -> rows (db' name) ≡ₚ rows (src name)) /\
    (forall name, name ∉ order -> db' name = db name).
Proof.
  intros Hnd Ho Hc Hd. unfold restoreOne. rewrite run_app.
  destruct (delete_phase fks tables [] order db Ho Hd) as (db1 & -> & _ & He & Hn).
  destruct (insert_phase fks src [] order db1 Ho Hc) as (db2 & Hrun & Hr & Hn2); [set_solver|done|].
  exists db2. split; [|split].
  - rewrite <- Hrun. f_equal. rewrite !flat_map_concat_map. f_equal. apply map_ext_in.
    intros name Hin%list_elem_of_In. unfold insert_table. rewrite map_get_dump by done.
    by destruct (decide _).
  - intros name Hin. apply Hr. by right.
  - intros name Hin. rewrite Hn2 by done. auto.
Qed.

(** What an export in the scope, and one outside it, leave of a table. *)
Lemma kept_or_restored (P : Prop) `{!Decision P} (d d0 d1 : string -> T R) (order : list string) :
  P -> (forall n, n ∈ order -> rows (d0 n) ≡ₚ rows (d n)) -> (forall n, n ∉ order -> d0 n = d1 n) ->
  forall n, if decide (P /\ n ∈ order) then rows (d0 n) ≡ₚ rows (d n) else d0 n = d1 n.
Proof.
  intros HP H1 H2 n. destruct (decide (P /\ n ∈ order)) as [[_ Hin]|Hs]; [by apply H1|].
  apply H2. intros Hin. by apply Hs.
Qed.

Lemma untouched (A : Prop) (s : BackupScope) (d0 : string -> T R) (order : list string) n :
  if decide (s <> s /\ n ∈ order) then A else d0 n = d0 n.
Proof. by destruct (decide (s <> s /\ n ∈ order)) as [[Hs _]|_]. Qed.

(** Each database by itself. *)
Lemma restore_master m m' : consistent MASTER_FKS m -> declared MASTER_FKS m' ->
  exists m2, restoreOne ident refs conflict MASTER_TABLES MASTER_TABLE_ORDER (dumpTables m MASTER_TABLE_ORDER) m' = (m2, true) /\
    (forall name, name ∈ MASTER_TABLE_ORDER -> rows (m2 name) ≡ₚ rows (m name)) /\
    (forall name, name ∉ MASTER_TABLE_ORDER -> m2 name = m' name).
Proof.
  intros Hm Hm'. apply (restore_dump MASTER_FKS); [|vm_compute; reflexivity|done|done].
  apply (bool_decide_unpack _). vm_compute. exact I.
Qed.

Lemma restore_telemetry t t' : consistent [] t -> declared [] t' ->
  exists t2, restoreOne ident refs conflict TELEMETRY_TABLES TELEMETRY_TABLE_ORDER (dumpTables t TELEMETRY_TABLE_ORDER) t' = (t2, true) /\
    (forall name, name ∈ TELEMETRY_TABLE_ORDER -> rows (t2 name) ≡ₚ rows (t name)) /\
    (forall name, name ∉ TELEMETRY_TABLE_ORDER -> t2 name = t' name).
Proof.
  intros Ht Ht'. apply (restore_dump []); [|vm_compute; reflexivity|done|done].
  apply (bool_decide_unpack _). vm_compute. exact I.
Qed.

(** C9: restoring an export into any databases of the same schema succeeds, no statement being
    refused, and gives every table in the backup order the exported rows; a database the scope
    left out, and every table outside the order, is untouched. *)
Theorem backup_round_trip now scope m t m' t'
    (Hm : consistent MASTER_FKS m) (Ht : consistent [] t)
    (Hm' : declared MASTER_FKS m') (Ht' : declared [] t') :
  exists m2 t2, importDatabases ident refs conflict m' t' (exportDatabases now m t scope)
    = (m2, t2, Ok tt) /\
    (forall name, if decide (scope <> ScopeData /\ name ∈ MASTER_TABLE_ORDER)
       then rows (m2 name) ≡ₚ rows (m name) else m2 name = m' name) /\
    (forall name, if decide (scope <> ScopeConfig /\ name ∈ TELEMETRY_TABLE_ORDER)
       then rows (t2 name) ≡ₚ rows (t name) else t2 name = t' name).
Proof.
  destruct (restore_master m m' Hm Hm') as (m2 & Hrm & Hm1 & Hm2).
  destruct (restore_telemetry t t' Ht Ht') as (t2 & Hrt & Ht1 & Ht2).
  unfold importDatabases, exportDatabases. cbn [bundle_master bundle_telemetry].
  destruct (decide (scope = ScopeData)) as [E1|E1], (decide (scope = ScopeConfig)) as [E2|E2];
    try congruence; rewrite ?Hrm; cbn [negb]; rewrite ?Hrt; cbn [negb];
    eexists _, _; (split; [reflexivity|]); try subst scope; split;
    first [apply kept_or_restored; [congruence|assumption|assumption]
          | intros name; apply untouched].
Qed.
End restore.

(** ** The streamed export *)

Section stream.
Context {T : Type -> Type} {ST : Store T} {R : Type}.
Variable stringify : R -> string.
Implicit Types db : string -> T R.

(** A loop that writes a comma before all but the first element writes the joined texts. *)
Lemma write_each_join {A} (f : A -> string) i l :
  write_each (fun i x => comma i +:+ f x) i l =
  (match i, l with O, _ | _, [] => "" | _, _ => "," end) +:+ join "," (map f l).
Proof.
  revert i. induction l as [|x l IH]; intros i; [by destruct i|].
  cbn [write_each]. rewrite IH. destruct l as [|y l].
  - simpl. rewrite !app_nil_string, str_app_nil_r. by destruct i; rewrite ?app_nil_string.
  - change (join "," (map f (x :: y :: l))) with (f x +:+ "," +:+ join "," (map f (y :: l))).
    destruct i; simpl comma; by rewrite ?app_nil_string, ?str_app_assoc.
Qed.

Lemma writeDb_text db order :
  NoDup order -> writeDb stringify db order = tables_text stringify (dumpTables db order).
Proof.
  intros Hnd. unfold writeDb, tables_text, object_text.
  assert (Hd : dumpTables db order = map (fun n => (n, rows (db n))) order).
  { unfold dumpTables, js_map. enough (forall m, NoDup (map fst m ++ order) ->
      fold_left (fun m r => map_set r (rows (db r)) m) order m
      = m ++ map (fun n => (n, rows (db n))) order) as H by by apply (H []).
    clear Hnd. induction order as [|x order IH]; intros m Hm; simpl; [by rewrite app_nil_r|].
    assert (Hx : map_get x m = None).
    { apply map_get_None. apply NoDup_app in Hm as (_ & Hm & _). intros Hin.
      apply (Hm x Hin). set_solver. }
    assert (Hset : map_set x (rows (db x)) m = m ++ [(x, rows (db x))]).
    { clear -Hx. induction m as [|[k v] m IH]; simpl in *; [done|].
      destruct (decide (x = k)); [done|]. by rewrite IH. }
    rewrite Hset, IH; [by rewrite <- app_assoc|]. by rewrite map_app, <- app_assoc. }
  rewrite Hd, !map_map. simpl. f_equal. f_equal.
  rewrite (write_each_join (fun name => quote name +:+ ":[" +:+
    write_each (fun j row => comma j +:+ stringify row) 0 (rows (db name)) +:+ "]")).
  rewrite app_nil_string. f_equal. apply map_ext. intros n. simpl.
  rewrite write_each_join, app_nil_string. unfold array_text. by rewrite ?str_app_assoc.
Qed.

(** The streamed file, written row by row, is exactly the JSON text of the bundle built in
    memory, whatever the scope and however rows are printed. *)
Theorem stream_is_stringify now m t scope :
  exportDatabasesToFile stringify now m t scope
  = bundle_text stringify (exportDatabases now m t scope).
Proof.
  unfold exportDatabasesToFile, bundle_text, exportDatabases. cbn [bundle_version bundle_createdAt
    bundle_scope bundle_master bundle_telemetry].
  rewrite (writeDb_text m), (writeDb_text t) by (apply (bool_decide_unpack _); vm_compute; exact I).
  unfold object_text.
  destruct scope; simpl map; cbn [join app]; simpl optional_field; simpl map; cbn [join fst snd];
    rewrite ?str_app_assoc, ?app_nil_string, ?str_app_nil_r; reflexivity.
Qed.
End stream.

(** Tables of the schema that no backup contains. *)
Example tables_not_backed_up :
  List.filter (fun t => negb (includes MASTER_TABLE_ORDER t)) MASTER_TABLES
    = ["snmpProfiles"; "mibObjects"; "clientMeta"] /\
  List.filter (fun t => negb (includes TELEMETRY_TABLE_ORDER t)) TELEMETRY_TABLES
    = ["pingSamples"; "hostInventory"; "folderMetrics"; "processMetrics"; "snmpMetrics"].
Proof. split; vm_compute; reflexivity. Qed.

(** A table absent from the bundle is emptied all the same. *)
Example absent_table_emptied :
  let db n := if String.eqb n "settings" then ["row"] else ([] : list string) in
  (restoreOne (T := list) (fun _ r => r) (fun _ _ => []) (fun _ => String.eqb)
     MASTER_TABLES MASTER_TABLE_ORDER [] db).1 "settings" = [].
Proof. vm_compute. reflexivity. Qed.

(** ** Witness: a user and their group membership *)

Definition w_refs (table row : string) : list (string * string) :=
  if String.eqb table "userGroups" then [("users", "ada"); ("groups", "staff")] else [].
Definition w_source (table : string) : list string :=
  if String.eqb table "users" then ["ada"] else
  if String.eqb table "groups" then ["staff"] else
  if String.eqb table "userGroups" then ["edge"] else [].

Lemma w_declared : declared (T := list) w_refs MASTER_FKS w_source.
Proof.
  intros name r p _ Hp. unfold w_refs in Hp. destruct (String.eqb_spec name "userGroups") as [->|].
  - apply elem_of_cons in Hp as [->|Hp%list_elem_of_singleton]; [|subst p];
      apply (bool_decide_unpack _); vm_compute; exact I.
  - by apply not_elem_of_nil in Hp.
Qed.

Lemma w_consistent :
  consistent (T := list) (fun _ r => r) w_refs (fun _ => String.eqb) MASTER_FKS w_source.
Proof.
  split.
  - exact w_declared.
  - intros name r _. unfold parents_present, w_refs. by destruct (String.eqb name "userGroups").
  - intros name [|x l1] r l2 Hl; [done|]. simpl in Hl. unfold w_source in Hl.
    repeat case_match; simplify_eq/=; by destruct l1.
Qed.


Lemma backup_round_trip_witness :
  exists m2 t2 : string -> list string,
    importDatabases (fun _ r => r) w_refs (fun _ => String.eqb) (fun _ => []) (fun _ => [])
      (exportDatabases "2026-01-01T00:00:00.000Z" w_source (fun _ => []) ScopeAll)
    = (m2, t2, Ok tt) /\ m2 "userGroups" ≡ₚ ["edge"].
Proof.
  destruct (backup_round_trip (T := list) (fun _ r => r) w_refs (fun _ => String.eqb)
    "2026-01-01T00:00:00.000Z" ScopeAll w_source (fun _ => []) (fun _ => []) (fun _ => []))
    as (m2 & t2 & H1 & H2 & _).
  - exact w_consistent.
  - split; [by intros name r p Hr%not_elem_of_nil|by intros name r Hr%not_elem_of_nil|].
    by intros name [|x l1] r l2.
  - by intros name r p Hr%not_elem_of_nil.
  - by intros name r p Hr%not_elem_of_nil.
  - exists m2, t2. split; [exact H1|]. exact (H2 "userGroups").
Defined.
