(* ===== verification/Wallboards.v ===== *)
(** * Wallboard layouts

    Models apps/backend/src/services/wallboards.ts and the seed
    packages/db/src/seed/wallboard.ts: saved boards, of which the seeded one is protected and
    one is the default. Ids and times are arguments. *)
From S2P Require Import Prelude Text Store Schema RowUpdates Authz Directory Devices.

Definition WALL_TEMPLATES : list string := ["flex"; "cols2"; "cols3"; "rows2"; "single"].

Record WallLayoutDTO : Type := {
  wl_id : string; wl_name : string; wl_description : string; wl_isDefault : bool;
  wl_isSystem : bool; wl_layout : list (string * json); wl_rotateSec : Z; wl_template : string;
  wl_panelConfig : list (string * json); wl_createdAt : Z; wl_updatedAt : Z
}.

Definition layout_toDTO (r : WallLayoutRow) : WallLayoutDTO := {|
  wl_id := layout_id r; wl_name := layout_name r; wl_description := layout_description r;
  wl_isDefault := layout_isDefault r; wl_isSystem := layout_isSystem r;
  wl_layout := layout_content r; wl_rotateSec := layout_rotateSec r;
  wl_template := if includes WALL_TEMPLATES (layout_template r) then layout_template r else "flex";
  wl_panelConfig := layout_panelConfig r; wl_createdAt := layout_createdAt r;
  wl_updatedAt := layout_updatedAt r
|}.

(** A row with the columns an insert leaves to their defaults. *)
Definition new_layout (now : Z) (id name description : string) (isDefault isSystem : bool)
    (content : list (string * json)) : WallLayoutRow := {|
  layout_id := id; layout_name := name; layout_description := description;
  layout_isDefault := isDefault; layout_isSystem := isSystem; layout_content := content;
  layout_rotateSec := 0; layout_template := "flex"; layout_panelConfig := [];
  layout_createdAt := now; layout_updatedAt := now |}.

(** A widget of one of the deleted entities. *)
Definition refers (refIds : list string) (w : json) : bool :=
  match w with
  | JObj m => match map_get "refId" m with Some (JStr ref) => includes refIds ref | _ => false end
  | _ => false
  end.

(** The board without those widgets; [None] when nothing changes. *)
Definition prune_layout (refIds : list string) (row : WallLayoutRow) : option (list (string * json)) :=
  if layout_isSystem row || layout_isDefault row then None else
  match map_get "widgets" (layout_content row) with
  | Some (JArr widgets) =>
      let kept := List.filter (fun w => negb (refers refIds w)) widgets in
      if Nat.eqb (List.length kept) (List.length widgets) then None
      else Some (map_set "widgets" (JArr kept) (layout_content row))
  | _ => None
  end.

Section wallboards.
Context {T : Type -> Type} {ST : Store T}.
Implicit Types (layouts : T WallLayoutRow) (db : WallDb T).

Definition is_layout (id : string) (r : WallLayoutRow) : bool := String.eqb (layout_id r) id.

Definition with_layouts (t : T WallLayoutRow) db : WallDb T := {|
  wallLayouts := t; wallDeviceGroups := wallDeviceGroups db; wallDevices := wallDevices db |}.

Definition listLayouts layouts : list WallLayoutDTO := map layout_toDTO (rows layouts).

Definition getLayout layouts (id : string) : option WallLayoutDTO :=
  option_map layout_toDTO (select_first (is_layout id) layouts).

Definition createLayout (now : Z) (id : string) layouts (name : string) (description : option string)
    (layout : option (list (string * json))) : T WallLayoutRow * option WallLayoutDTO :=
  let row := new_layout now id name (default "" description) false false (default [] layout) in
  (insert_row row layouts, Some (layout_toDTO row)).

Definition updateLayout (now : Z) layouts (id : string) (name description : option string)
    (layout : option (list (string * json)))
  : T WallLayoutRow * result ServiceError (option WallLayoutDTO) :=
  match select_first (is_layout id) layouts with
  | None => (layouts, Ok None)
  | Some existing =>
      if isProtected (layout_isSystem existing) false then (layouts, Err ProtectedEntity) else
      let set r := opt_set set_layout_content layout (opt_set set_layout_description description
        (opt_set set_layout_name name (set_layout_updatedAt now r))) in
      let '(layouts, row) := update_returning (is_layout id) set layouts in
      (layouts, Ok (option_map layout_toDTO row))
  end.

(** One row by id, and its new value. *)
Definition update_layout (f : WallLayoutRow -> WallLayoutRow) layouts (id : string)
  : T WallLayoutRow * option WallLayoutDTO :=
  let '(layouts, row) := update_returning (is_layout id) f layouts in
  (layouts, option_map layout_toDTO row).

Definition setRotateSec (now : Z) layouts (id : string) (sec : Q) :=
  let clamped := Z.max 0 (Z.min 3600 (Qfloor sec)) in
  update_layout (fun r => set_layout_rotateSec clamped (set_layout_updatedAt now r)) layouts id.

Definition setTemplate (now : Z) layouts (id template : string) :=
  update_layout (fun r => set_layout_template template (set_layout_updatedAt now r)) layouts id.

Definition setPanelConfig (now : Z) layouts (id : string) (panelConfig : list (string * json)) :=
  update_layout (fun r => set_layout_panelConfig panelConfig (set_layout_updatedAt now r)) layouts id.

Definition setDefaultLayout (now : Z) layouts (id : string) : T WallLayoutRow * option WallLayoutDTO :=
  match select_first (is_layout id) layouts with
  | None => (layouts, None)
  | Some _ =>
      update_layout (fun r => set_layout_isDefault true (set_layout_updatedAt now r))
        (update_where layout_isDefault (set_layout_isDefault false) layouts) id
  end.

(** A screen or a group shows the board: its foreign key refuses the delete. *)
Definition layout_in_use db (id : string) : bool :=
  exists_row (fun g => bool_decide (dgroup_layoutId g = Some id)) (wallDeviceGroups db)
  || exists_row (fun d => bool_decide (dev_layoutId d = Some id)) (wallDevices db).

Definition deleteLayout db (id : string) : WallDb T * result ServiceError bool :=
  match select_first (is_layout id) (wallLayouts db) with
  | None => (db, Ok false)
  | Some existing =>
      if isProtected (layout_isSystem existing) false then (db, Err ProtectedEntity)
      else if layout_isDefault existing then (db, Err ProtectedEntity)
      else if layout_in_use db id then (db, Err ForeignKeyViolation)
      else (with_layouts (delete_where (is_layout id) (wallLayouts db)) db, Ok true)
  end.

(** One row of the loop. *)
Definition prune_step (now : Z) (refIds : list string) layouts (row : WallLayoutRow)
  : T WallLayoutRow :=
  match prune_layout refIds row with
  | None => layouts
  | Some content =>
      update_where (is_layout (layout_id row))
        (fun r => set_layout_content content (set_layout_updatedAt now r)) layouts
  end.

Definition pruneEntityRefs (now : Z) layouts (refIds : list string) : T WallLayoutRow :=
  if Nat.eqb (List.length refIds) 0 then layouts
  else fold_left (prune_step now refIds) (rows layouts) layouts.

Definition cloneLayout (now : Z) (newId : string) layouts (id name : string)
  : T WallLayoutRow * option WallLayoutDTO :=
  match select_first (is_layout id) layouts with
  | None => (layouts, None)
  | Some src =>
      let row := new_layout now newId name (layout_description src) false false
        (layout_content src) in
      (insert_row row layouts, Some (layout_toDTO row))
  end.

Definition seedDefaultWallboard (now : Z) (id : string) layouts : T WallLayoutRow :=
  if exists_row layout_isDefault layouts then layouts
  else insert_row (new_layout now id "Overview" "Default wallboard — clone to customize." true true
         [("widgets", JArr [])]) layouts.

(** ** Steps *)

(** Every call that changes the boards; a new id is in no row. *)
Inductive board_step : WallDb T -> WallDb T -> Prop :=
| board_create now id name d l db : select_first (is_layout id) (wallLayouts db) = None ->
    board_step db (with_layouts (createLayout now id (wallLayouts db) name d l).1 db)
| board_update now id name d l db :
    board_step db (with_layouts (updateLayout now (wallLayouts db) id name d l).1 db)
| board_rotate now id sec db : board_step db (with_layouts (setRotateSec now (wallLayouts db) id sec).1 db)
| board_template now id t db : board_step db (with_layouts (setTemplate now (wallLayouts db) id t).1 db)
| board_panel now id p db : board_step db (with_layouts (setPanelConfig now (wallLayouts db) id p).1 db)
| board_default now id db : board_step db (with_layouts (setDefaultLayout now (wallLayouts db) id).1 db)
| board_delete id db : board_step db (deleteLayout db id).1
| board_prune now refs db : board_step db (with_layouts (pruneEntityRefs now (wallLayouts db) refs) db)
| board_clone now newId id name db : select_first (is_layout newId) (wallLayouts db) = None ->
    board_step db (with_layouts (cloneLayout now newId (wallLayouts db) id name).1 db)
| board_seed now id db : select_first (is_layout id) (wallLayouts db) = None ->
    board_step db (with_layouts (seedDefaultWallboard now id (wallLayouts db)) db).
End wallboards.

(** ** One default, and protected boards *)

(** What no call may change of a system board. *)
Definition locked (r : WallLayoutRow) : option (string * string * string * list (string * json)) :=
  if layout_isSystem r
  then Some (layout_id r, layout_name r, layout_description r, layout_content r) else None.

Definition flags (r : WallLayoutRow) := (layout_id r, layout_isDefault r, locked r).

Section lemmas.
Context {T : Type -> Type} {ST : Store T} {LT : StoreLaws T}.
Implicit Types (layouts : T WallLayoutRow) (db : WallDb T) (id : string).

Lemma is_layout_iff id r : is_layout id r = true <-> layout_id r = id.
Proof. apply String.eqb_eq. Qed.

(** How many boards are the default. *)
Definition defaults layouts : nat := List.length (List.filter layout_isDefault (rows layouts)).

Record boards_ok layouts : Prop := {
  boards_ids : unique_key layout_id layouts;
  boards_default : defaults layouts = 1%nat
}.

(** Every system board of the first table is in the second, as it was. *)
Definition keeps_locked layouts layouts' : Prop :=
  forall r, r ∈ rows layouts -> layout_isSystem r = true ->
    exists r', r' ∈ rows layouts' /\ locked r' = locked r.

Lemma filter_length_map {A B} (p : B -> bool) (f : A -> B) l :
  List.length (List.filter p (map f l)) = List.length (List.filter (fun x => p (f x)) l).
Proof. induction l as [|x l IH]; simpl; [done|]. destruct (p (f x)); simpl; by rewrite IH. Qed.

#[local] Instance filter_length_perm {A} (p : A -> bool) :
  Proper ((≡ₚ) ==> (=)) (fun l => List.length (List.filter p l)).
Proof.
  intros l1 l2 H. induction H as [|x l1 l2 H IH|x y l|l1 l2 l3 H1 IH1 H2 IH2]; simpl in *.
  - done.
  - destruct (p x); simpl; by rewrite IH.
  - by destruct (p x), (p y).
  - by rewrite IH1.
Qed.

(** A table that keeps the flags of its rows keeps all three. *)
Lemma flags_keep layouts layouts' :
  map flags (rows layouts') ≡ₚ map flags (rows layouts) ->
  (boards_ok layouts -> boards_ok layouts') /\ keeps_locked layouts layouts'.
Proof.
  intros H. split.
  - intros [Hi Hd]. unfold unique_key, defaults in *.
    assert (Hids : map layout_id (rows layouts') ≡ₚ map layout_id (rows layouts)).
    { apply (Permutation_map (fun x => fst (fst x))) in H. by rewrite !map_map in H. }
    split; unfold unique_key, defaults; [by rewrite Hids|]. rewrite <- Hd.
    pose proof (filter_length_perm (fun x : string * bool * _ => snd (fst x)) _ _ H) as Hl.
    cbv beta in Hl. by rewrite !filter_length_map in Hl.
  - intros r Hr Hs.
    assert (Hin : flags r ∈ map flags (rows layouts')) by (rewrite H; apply elem_of_map; by exists r).
    apply elem_of_map in Hin as (r' & Hf & Hr'). exists r'. split; [done|]. by injection Hf.
Qed.

Lemma flags_update p f layouts :
  (forall r, r ∈ rows layouts -> p r = true -> flags (f r) = flags r) ->
  map flags (rows (update_where p f layouts)) ≡ₚ map flags (rows layouts).
Proof.
  intros H. rewrite rows_update, map_map. erewrite map_ext_in; [done|].
  intros r Hr%list_elem_of_In. simpl. destruct (p r) eqn:Hp; [by apply H|done].
Qed.

(** A row of the table with this id is the one found. *)
Lemma found_unique layouts id existing r :
  unique_key layout_id layouts -> select_first (is_layout id) layouts = Some existing ->
  r ∈ rows layouts -> is_layout id r = true -> r = existing.
Proof.
  intros Hu [He Hid%is_layout_iff]%select_first_Some Hr Hrid%is_layout_iff.
  eapply unique_key_inj; [exact Hu|done|done|congruence].
Qed.

Lemma keeps_locked_refl layouts : keeps_locked layouts layouts.
Proof. intros r Hr _. by exists r. Qed.

Lemma locked_system r r' : locked r' = locked r -> layout_isSystem r = true -> layout_isSystem r' = true.
Proof. unfold locked. intros H Hs. rewrite Hs in H. by destruct (layout_isSystem r'). Qed.

Lemma keeps_locked_trans l1 l2 l3 :
  keeps_locked l1 l2 -> keeps_locked l2 l3 -> keeps_locked l1 l3.
Proof.
  intros H1 H2 r Hr Hs. destruct (H1 r Hr Hs) as (r2 & Hr2 & He2).
  destruct (H2 r2 Hr2) as (r3 & Hr3 & He3); [by eapply locked_system|].
  exists r3. split; [done|congruence].
Qed.

Lemma insert_keeps r layouts : select_first (is_layout (layout_id r)) layouts = None ->
  layout_isDefault r = false -> boards_ok layouts ->
  boards_ok (insert_row r layouts) /\ keeps_locked layouts (insert_row r layouts).
Proof.
  intros Hn Hd [Hi Hc]. split.
  - split.
    + apply unique_key_insert; [done|]. intros r' Hr' Hid. rewrite select_first_None in Hn.
      specialize (Hn r' Hr'). unfold is_layout in Hn. rewrite Hid, String.eqb_refl in Hn. done.
    + unfold defaults in *. rewrite <- Hc.
      rewrite (filter_length_perm layout_isDefault _ _ (rows_insert _ r layouts)). simpl.
      by rewrite Hd.
  - intros x Hx _. exists x. split; [|done]. apply elem_of_insert. by right.
Qed.

(** The flags of the boards along the loop of [pruneEntityRefs]. *)
Lemma prune_flags now refs layouts :
  unique_key layout_id layouts ->
  map flags (rows (pruneEntityRefs now layouts refs)) ≡ₚ map flags (rows layouts).
Proof.
  intros Hu. unfold pruneEntityRefs. destruct (Nat.eqb _ _); [done|].
  assert (Hl : forall l t, (forall r, r ∈ l -> r ∈ rows layouts) ->
    map flags (rows t) ≡ₚ map flags (rows layouts) ->
    map flags (rows (fold_left (prune_step now refs) l t)) ≡ₚ map flags (rows layouts));
    [|by apply Hl].
  induction l as [|row l IH]; intros t Hin Ht; simpl; [done|]. apply IH.
  { intros r Hr. apply Hin. by apply list_elem_of_further. }
  unfold prune_step. destruct (prune_layout refs row) as [content|] eqn:Hp; [|done].
  rewrite flags_update; [done|]. intros r Hr Hid%is_layout_iff.
  assert (Hrow : row ∈ rows layouts) by (apply Hin, list_elem_of_here).
  unfold flags, locked. simpl. destruct (layout_isSystem r) eqn:Hs; [|done].
  assert (Hf : flags r ∈ map flags (rows layouts)) by (rewrite <- Ht; apply elem_of_map; by exists r).
  apply elem_of_map in Hf as (r0 & Hf0 & Hr0). unfold flags in Hf0. injection Hf0 as Hi0 _ Hk0.
  assert (r0 = row) as -> by (eapply unique_key_inj; [exact Hu|done|done|congruence]).
  symmetry in Hk0. apply locked_system in Hk0; [|done].
  unfold prune_layout in Hp. by rewrite Hk0 in Hp.
Qed.

Lemma filter_key_length (key : WallLayoutRow -> string) (l : list WallLayoutRow) k :
  NoDup (map key l) -> (exists r, r ∈ l /\ key r = k) ->
  List.length (List.filter (fun r => String.eqb (key r) k) l) = 1%nat.
Proof.
  induction l as [|x l IH]; simpl; intros Hnd (r & Hr & Hk); [by apply not_elem_of_nil in Hr|].
  apply NoDup_cons in Hnd as [Hn Hnd]. destruct (String.eqb_spec (key x) k) as [He|He].
  - simpl. f_equal. assert (Hz : List.filter (fun r => String.eqb (key r) k) l = []); [|by rewrite Hz].
    apply filterb_nil. intros y Hy. apply String.eqb_neq. intros Hky. apply Hn.
    apply elem_of_map. exists y. split; [congruence|done].
  - apply IH; [done|]. exists r. split; [|done]. apply elem_of_cons in Hr as [->|Hr]; [done|done].
Qed.

Lemma setDefault_keeps now layouts id :
  boards_ok layouts -> boards_ok (setDefaultLayout now layouts id).1 /\
  keeps_locked layouts (setDefaultLayout now layouts id).1.
Proof.
  intros [Hu Hd]. unfold setDefaultLayout.
  destruct (select_first _ _) as [x|] eqn:Hs; [|split; [done|apply keeps_locked_refl]].
  apply select_first_Some in Hs as [Hx Hid%is_layout_iff]. unfold update_layout, update_returning.
  set (t1 := update_where layout_isDefault _ layouts). simpl. split.
  - split.
    + do 2 (apply unique_key_update; [done|]). exact Hu.
    + unfold defaults.
      rewrite (filter_length_perm layout_isDefault _ _ (rows_update _ _ _ _)), filter_length_map.
      unfold t1. rewrite (filter_length_perm _ _ _ (rows_update _ _ _ _)), filter_length_map.
      erewrite filter_ext; [apply (filter_key_length layout_id); [exact Hu|]; exists x; split;
        [done|exact Hid]|].
      intros r. simpl. unfold is_layout. destruct (layout_isDefault r) eqn:Hr; simpl;
        destruct (String.eqb _ _); simpl; done.
  - intros r Hr Hsys. set (r1 := if layout_isDefault r then set_layout_isDefault false r else r).
    exists (if is_layout id r1 then set_layout_isDefault true (set_layout_updatedAt now r1) else r1).
    split.
    + apply elem_of_update. exists r1. split; [|done]. apply elem_of_update. by exists r.
    + unfold locked, r1. by destruct (layout_isDefault r), (is_layout id _).
Qed.

Lemma delete_keeps db id :
  boards_ok (wallLayouts db) -> boards_ok (wallLayouts (deleteLayout db id).1) /\
  keeps_locked (wallLayouts db) (wallLayouts (deleteLayout db id).1).
Proof.
  intros [Hu Hd]. unfold deleteLayout.
  destruct (select_first _ _) as [x|] eqn:Hs; [|split; [done|apply keeps_locked_refl]].
  destruct (isProtected _ _) eqn:Hp; [split; [done|apply keeps_locked_refl]|].
  destruct (layout_isDefault x) eqn:Hx; [split; [done|apply keeps_locked_refl]|].
  destruct (layout_in_use _ _); [split; [done|apply keeps_locked_refl]|].
  assert (Hother : forall r, r ∈ rows (wallLayouts db) -> is_layout id r = true -> r = x)
    by (intros r; by apply found_unique). cbn [fst with_layouts wallLayouts].
  apply orb_false_iff in Hp as [Hp _]. split.
  - split; [by apply unique_key_delete|]. unfold defaults in *. rewrite <- Hd.
    rewrite (filter_length_perm layout_isDefault _ _ (rows_delete _ _ _)).
    assert (Hf : forall l, (forall r, r ∈ l -> is_layout id r = true -> layout_isDefault r = false) ->
      List.length (List.filter layout_isDefault (List.filter (fun r => negb (is_layout id r)) l)) =
      List.length (List.filter layout_isDefault l)); [|apply Hf; intros r Hr Hi; by rewrite (Hother r Hr Hi)].
    induction l as [|r l IH]; intros Hl; simpl; [done|].
    assert (IH' := IH (fun r Hr => Hl r (list_elem_of_further _ _ _ Hr))).
    destruct (is_layout id r) eqn:Hi; simpl; [rewrite (Hl r (list_elem_of_here _ _) Hi); done|].
    destruct (layout_isDefault r); simpl; by rewrite IH'.
  - intros r Hr Hsys. exists r. split; [|done]. apply elem_of_delete. split; [done|].
    destruct (is_layout id r) eqn:Hi; [|done]. by rewrite (Hother r Hr Hi), Hp in Hsys.
Qed.

Lemma step_keeps db db' : board_step db db' -> boards_ok (wallLayouts db) ->
  boards_ok (wallLayouts db') /\ keeps_locked (wallLayouts db) (wallLayouts db').
Proof.
  intros Hstep Hok.
  assert (Hone : forall f id, (forall r, r ∈ rows (wallLayouts db) -> is_layout id r = true -> flags (f r) = flags r) ->
    boards_ok (update_layout f (wallLayouts db) id).1 /\
    keeps_locked (wallLayouts db) (update_layout f (wallLayouts db) id).1).
  { intros f i Hf. destruct (flags_keep (wallLayouts db) (update_where (is_layout i) f (wallLayouts db)))
      as [H1 H2]; [by apply flags_update|]. split; [by apply H1|exact H2]. }
  destruct Hstep as [now id name d l db Hn|now id name d l db|now id sec db|now id t db|now id p db
    |now id db|id db|now refs db|now nid id name db Hn|now id db Hn]; cbn [with_layouts wallLayouts].
  - by apply insert_keeps.
  - unfold updateLayout. destruct (select_first _ _) as [x|] eqn:Hs; [|split; [done|apply keeps_locked_refl]].
    destruct (isProtected _ _) eqn:Hp; [split; [done|apply keeps_locked_refl]|].
    apply orb_false_iff in Hp as [Hp _]. cbn [fst update_returning].
    apply Hone. intros r Hr Hi. rewrite (found_unique _ _ _ _ (boards_ids _ Hok) Hs Hr Hi).
    unfold flags, locked. destruct l, d, name; simpl; by rewrite Hp.
  - by apply Hone.
  - by apply Hone.
  - by apply Hone.
  - by apply setDefault_keeps.
  - by apply delete_keeps.
  - destruct (flags_keep (wallLayouts db) (pruneEntityRefs now (wallLayouts db) refs)) as [H1 H2];
      [apply prune_flags, Hok|]. split; [by apply H1|exact H2].
  - unfold cloneLayout. destruct (select_first (is_layout id) _) as [x|]; [by apply insert_keeps|].
    split; [done|apply keeps_locked_refl].
  - unfold seedDefaultWallboard. destruct (exists_row _ _) eqn:He; [split; [done|apply keeps_locked_refl]|].
    exfalso. destruct Hok as [_ Hd]. unfold exists_row in He. rewrite existsb_false in He.
    unfold defaults in Hd. by rewrite (proj2 (filterb_nil _ _) He) in Hd.
Qed.

(** Whatever sequence of wallboard calls is made, there is exactly one default board, ids
    stay unique, and every system board keeps its name, description and widgets. *)
Theorem boards_reachable db db' (Hr : rtc board_step db db') (Hok : boards_ok (wallLayouts db)) :
  boards_ok (wallLayouts db') /\ keeps_locked (wallLayouts db) (wallLayouts db').
Proof.
  induction Hr as [db|db1 db2 db3 Hs Hr IH]; [split; [done|apply keeps_locked_refl]|].
  destruct (step_keeps _ _ Hs Hok) as [Hok2 Hk]. destruct (IH Hok2) as [Hok3 Hk3].
  split; [done|]. by eapply keeps_locked_trans.
Qed.

(** A board after its widgets were pruned. *)
Definition pruned (now : Z) (refs : list string) (r : WallLayoutRow) : WallLayoutRow :=
  match prune_layout refs r with
  | Some content => set_layout_content content (set_layout_updatedAt now r)
  | None => r
  end.

Lemma prune_rows now refs layouts : unique_key layout_id layouts ->
  rows (pruneEntityRefs now layouts refs) ≡ₚ map (pruned now refs) (rows layouts).
Proof.
  intros Hu. unfold pruneEntityRefs. destruct (Nat.eqb_spec (List.length refs) 0) as [He|_].
  - apply length_zero_iff_nil in He as ->. erewrite map_ext; [by rewrite map_id|].
    intros r. unfold pruned, prune_layout. destruct (_ || _); [done|].
    destruct (map_get _ _) as [[| | | |ws|]|]; try done.
    assert (Hall : forall l, List.filter (fun w => negb (refers [] w)) l = l).
    { induction l as [|[| | | | |m] l IH]; simpl; rewrite ?IH; try done.
      by destruct (map_get "refId" m) as [[]|]. }
    by rewrite Hall, Nat.eqb_refl.
  - set (f r := option_map (fun c x => set_layout_content c (set_layout_updatedAt now x)) (prune_layout refs r)).
    transitivity (map (fun r => match f r with Some g => g r | None => r end) (rows layouts)).
    + rewrite <- (rows_update_loop layout_id (fun row => is_layout (layout_id row)) f layouts Hu).
      * assert (Hext : forall l t, fold_left (prune_step now refs) l t = fold_left (fun t row =>
          match f row with Some g => update_where (is_layout (layout_id row)) g t | None => t end) l t);
          [|by rewrite Hext].
        induction l as [|x l IH]; intros t; simpl; [done|]. rewrite IH. unfold prune_step, f.
        by destruct (prune_layout refs x).
      * intros a b. apply is_layout_iff.
      * intros r g. unfold f. destruct (prune_layout refs r); [by intros [= <-]|done].
    + erewrite map_ext; [done|]. intros r. unfold f, pruned. by destruct (prune_layout refs r).
Qed.

(** The widgets of an editable board after pruning. *)
Lemma pruned_widgets now refs r ws : layout_isSystem r = false -> layout_isDefault r = false ->
  map_get "widgets" (layout_content r) = Some (JArr ws) ->
  map_get "widgets" (layout_content (pruned now refs r)) =
    Some (JArr (List.filter (fun w => negb (refers refs w)) ws)).
Proof.
  unfold pruned, prune_layout. intros -> ->. simpl. intros Hw. rewrite Hw. destruct (Nat.eqb_spec
    (List.length (List.filter (fun w => negb (refers refs w)) ws)) (List.length ws)) as [He|_].
  - rewrite Hw. do 2 f_equal. symmetry. clear Hw. induction ws as [|w ws IH]; simpl in *; [done|].
    pose proof (List.filter_length_le (fun w => negb (refers refs w)) ws).
    destruct (negb (refers refs w)); simpl in *; [by rewrite IH by lia|lia].
  - simpl. apply map_get_set_eq.
Qed.

(** A pruned board keeps its flags, and its list of widgets when it had none. *)
Lemma pruned_inv now refs r ws :
  layout_isSystem (pruned now refs r) = layout_isSystem r /\
  layout_isDefault (pruned now refs r) = layout_isDefault r /\
  (map_get "widgets" (layout_content (pruned now refs r)) = Some (JArr ws) ->
   exists ws0, map_get "widgets" (layout_content r) = Some (JArr ws0)).
Proof.
  unfold pruned, prune_layout. destruct (_ || _); [by eauto|].
  destruct (map_get "widgets" (layout_content r)) as [[| | | |ws0|]|] eqn:Hw; try (rewrite ?Hw; by eauto).
  destruct (Nat.eqb _ _); rewrite ?Hw; by eauto.
Qed.

(** No editable board of the pruned table shows a deleted entity. *)
Lemma pruned_free now refs layouts b ws w : b ∈ map (pruned now refs) (rows layouts) ->
  layout_isSystem b = false -> layout_isDefault b = false ->
  map_get "widgets" (layout_content b) = Some (JArr ws) -> w ∈ ws -> refers refs w = false.
Proof.
  intros (r & -> & Hr)%elem_of_map Hs Hd Hw Hin. destruct (pruned_inv now refs r ws) as (Es & Ed & Ew).
  rewrite Es in Hs. rewrite Ed in Hd. destruct (Ew Hw) as (ws0 & Hw0).
  rewrite (pruned_widgets now refs r ws0) in Hw by done. injection Hw as <-.
  apply elem_of_filterb in Hin as [_ Hn]. by apply negb_true_iff.
Qed.

(** Pruning rewrites each editable board to the board without the widgets of the deleted
    entities, its other widgets in their order, and leaves every protected board alone; after
    it no editable board refers to a deleted entity. *)
Theorem pruneEntityRefs_spec now refs layouts (Hu : unique_key layout_id layouts) :
  rows (pruneEntityRefs now layouts refs) ≡ₚ map (pruned now refs) (rows layouts) /\
  (forall r, layout_isSystem r = true \/ layout_isDefault r = true -> pruned now refs r = r) /\
  (forall r ws, layout_isSystem r = false -> layout_isDefault r = false ->
     map_get "widgets" (layout_content r) = Some (JArr ws) ->
     map_get "widgets" (layout_content (pruned now refs r)) =
       Some (JArr (List.filter (fun w => negb (refers refs w)) ws))).
Proof.
  split; [by apply prune_rows|]. split; [|apply pruned_widgets].
  unfold pruned, prune_layout. intros r [->| ->]; [done|]. by rewrite orb_true_r.
Qed.
End lemmas.

(** ** Witnesses *)

Definition w_seeded : list WallLayoutRow := seedDefaultWallboard 1 "w0" ([] : list WallLayoutRow).

Definition w_wall : WallDb list :=
  {| wallLayouts := w_seeded; wallDeviceGroups := []; wallDevices := [] |}.

Definition w_tile (id : string) : json := JObj [("kind", JStr "monitor"); ("refId", JStr id)].

(** A clone becomes the default, and the seeded board stays. *)
Definition w_cloned : WallDb list :=
  with_layouts (cloneLayout 2 "w1" w_seeded "w0" "Floor").1 w_wall.
Definition w_defaulted : WallDb list :=
  with_layouts (setDefaultLayout 3 (wallLayouts w_cloned) "w1").1 w_cloned.

Lemma boards_reachable_witness :
  boards_ok (wallLayouts w_defaulted) /\
  map layout_isDefault (wallLayouts w_defaulted) = [false; true].
Proof.
  split; [|reflexivity]. apply (boards_reachable (T := list) w_wall w_defaulted).
  - apply (rtc_l _ _ w_cloned); [exact (board_clone 2 "w1" "w0" "Floor" w_wall eq_refl)|].
    apply (rtc_l _ _ w_defaulted); [exact (board_default 3 "w1" w_cloned)|apply rtc_refl].
  - split; [|reflexivity]. apply NoDup_singleton.
Defined.

Lemma pruneEntityRefs_spec_witness :
  rows (pruneEntityRefs 9 [new_layout 1 "b" "Floor" "" false false
          [("widgets", JArr [w_tile "m1"; w_tile "m2"])]] ["m1"])
  ≡ₚ [set_layout_updatedAt 9 (new_layout 1 "b" "Floor" "" false false [("widgets", JArr [w_tile "m2"])])].
Proof.
  set (t := [_]). destruct (pruneEntityRefs_spec (T := list) 9 ["m1"] t) as [H _].
  - apply NoDup_singleton.
  - exact H.
Defined.
