(* ===== verification/Monitors.v ===== *)
(** * Monitors

    Models apps/backend/src/services/monitors.ts, monitor-cred.ts, units.ts and inventory.ts,
    the write handlers of routes/monitors.routes.ts and the monitor part of the agent's config
    pull. Ids, times and initialisation vectors are arguments. A [MonitorDTO] has the row's
    columns, so rows stand for them. *)
From S2P Require Import Prelude Text Store Schema RowUpdates Settings Crypto Directory Devices.
From S2P Require Import Wallboards.

(** The master tables of the monitored fleet. *)
Record FleetDb (T : Type -> Type) : Type := {
  agents : T AgentRow; agentKeys : T AgentKeyRow; agentCommands : T AgentCommandRow;
  monitors : T MonitorRow; secrets : T SecretRow
}.
Arguments agents {T} _. Arguments agentKeys {T} _. Arguments agentCommands {T} _.
Arguments monitors {T} _. Arguments secrets {T} _.

Definition with_agents {T : Type -> Type} (t : T AgentRow) (db : FleetDb T) : FleetDb T := {|
  agents := t; agentKeys := agentKeys db; agentCommands := agentCommands db;
  monitors := monitors db; secrets := secrets db |}.
Definition with_agentKeys {T : Type -> Type} (t : T AgentKeyRow) (db : FleetDb T) : FleetDb T := {|
  agents := agents db; agentKeys := t; agentCommands := agentCommands db;
  monitors := monitors db; secrets := secrets db |}.
Definition with_agentCommands {T : Type -> Type} (t : T AgentCommandRow) (db : FleetDb T)
  : FleetDb T := {|
  agents := agents db; agentKeys := agentKeys db; agentCommands := t;
  monitors := monitors db; secrets := secrets db |}.
Definition with_monitors {T : Type -> Type} (t : T MonitorRow) (db : FleetDb T) : FleetDb T := {|
  agents := agents db; agentKeys := agentKeys db; agentCommands := agentCommands db;
  monitors := t; secrets := secrets db |}.
Definition with_secrets {T : Type -> Type} (t : T SecretRow) (db : FleetDb T) : FleetDb T := {|
  agents := agents db; agentKeys := agentKeys db; agentCommands := agentCommands db;
  monitors := monitors db; secrets := t |}.

(** ** JSON configuration objects *)

(** [config.key === true] *)
Definition flag (key : string) (config : list (string * json)) : bool :=
  match map_get key config with Some (JBool b) => b | _ => false end.

(** [{ [key]: _, ...rest } = config] *)
Definition omit (key : string) (config : list (string * json)) : list (string * json) :=
  List.filter (fun kv => negb (String.eqb (fst kv) key)) config.

(** [typeof config.key === 'string'] *)
Definition text_at (key : string) (config : list (string * json)) : option string :=
  match map_get key config with Some (JStr s) => Some s | _ => None end.

(** ** UNC paths *)

Definition BACKSLASH : ascii := "\".

Definition slash (c : ascii) : bool := Ascii.eqb c BACKSLASH || Ascii.eqb c "/".

Fixpoint skip_backslashes (s : string) : string :=
  match s with
  | String c s' => if Ascii.eqb c BACKSLASH then skip_backslashes s' else s
  | EmptyString => s
  end.

Fixpoint until_slash (s : string) : string :=
  match s with
  | String c s' => if slash c then "" else String c (until_slash s')
  | EmptyString => ""
  end.

(** [^\\\\+([^\\/]+)]: a backslash, one more at least, and what follows up to a slash. *)
Definition uncHost (path : string) : string :=
  match path with
  | String c (String d rest) =>
      if Ascii.eqb c BACKSLASH && Ascii.eqb d BACKSLASH then until_slash (skip_backslashes rest)
      else ""
  | _ => ""
  end.

(** ** What is delivered to an agent *)

Record AgentMonitorConfig : Type := {
  amc_id : string; amc_type : string; amc_name : string; amc_config : list (string * json)
}.

(** Probed by the backend itself: never sent to the agent. *)
Definition server_side (r : MonitorRow) : bool :=
  String.eqb (mon_type r) "snmp"
  || (String.eqb (mon_type r) "ping" || String.eqb (mon_type r) "storage")
     && flag "server" (mon_config r).

Definition to_config (r : MonitorRow) : AgentMonitorConfig := {|
  amc_id := mon_id r; amc_type := mon_type r; amc_name := mon_name r; amc_config := mon_config r |}.

(** ** Credentials *)

Definition SECRET_FIELDS : list string := ["connectionString"; "password"; "community"].

Definition cred_ref (monitorId : string) : string := "monitor:" +:+ monitorId +:+ ":cred".
Definition legacy_ref (monitorId : string) : string := "monitor:" +:+ monitorId +:+ ":db".

Definition credFieldFor (config : list (string * json)) : option string :=
  match text_at "credField" config with
  | Some f => Some f
  | None =>
      match text_at "connection" config with
      | Some s => if String.eqb s "set" then Some "connectionString" else None
      | None => None
      end
  end.

(** The first secret field that is a non-empty string. *)
Fixpoint extract_from (fields : list string) (config : list (string * json))
  : option string * list (string * json) :=
  match fields with
  | [] => (None, config)
  | f :: fields =>
      match nonempty (text_at f config) with
      | Some v => (Some v, map_set "credField" (JStr f) (omit f config))
      | None => extract_from fields config
      end
  end.

Definition extractCred (config : option (list (string * json)))
  : option string * option (list (string * json)) :=
  match config with
  | None => (None, None)
  | Some config => let '(cred, config) := extract_from SECRET_FIELDS config in (cred, Some config)
  end.

(** What a failing call raises. *)
Inductive FleetError : Type :=
| DbError (e : ServiceError)
| SecretError (e : CryptoError).

(** A validated request body. *)
Record MonitorBody : Type := {
  mb_agentId : string; mb_type : string; mb_name : string; mb_enabled : option bool;
  mb_config : option (list (string * json))
}.

Record MonitorPatch : Type := {
  mp_name : option string; mp_enabled : option bool; mp_config : option (list (string * json));
  mp_agentId : option string
}.

Section monitors.
Context {T : Type -> Type} {ST : Store T} {HG : Gcm}.
Implicit Types db : FleetDb T.

Definition is_monitor (id : string) (r : MonitorRow) : bool := String.eqb (mon_id r) id.
Definition is_agent (id : string) (r : AgentRow) : bool := String.eqb (agent_id r) id.
Definition of_agent (agentId : string) (r : MonitorRow) : bool := String.eqb (mon_agentId r) agentId.
Definition has_ref (ref : string) (r : SecretRow) : bool := String.eqb (secret_ref r) ref.

Definition listMonitors db (agentId : option string) : list MonitorRow :=
  match nonempty agentId with
  | Some a => select (of_agent a) (monitors db)
  | None => rows (monitors db)
  end.

Definition listAgentMonitorConfig db (agentId : string) : list AgentMonitorConfig :=
  map to_config (List.filter (fun r => negb (server_side r))
    (select (fun r => of_agent agentId r && mon_enabled r) (monitors db))).

Definition enabled_of (types : list string) db : list MonitorRow :=
  select (fun r => includes types (mon_type r) && mon_enabled r) (monitors db).
Definition listEnabledPingMonitors := enabled_of ["ping"].
Definition listEnabledSnmpMonitors := enabled_of ["snmp"].
Definition listEnabledChecks := enabled_of ["http"; "tcp"; "dns"].
Definition listEnabledServerStorageMonitors db : list MonitorRow :=
  List.filter (fun r => flag "server" (mon_config r)) (enabled_of ["storage"] db).

Definition getMonitor db (id : string) : option MonitorRow :=
  select_first (is_monitor id) (monitors db).

(** The agent must exist: the foreign key. *)
Definition createMonitor (now : Z) (id : string) db (agentId type name : string)
    (enabled : option bool) (config : option (list (string * json)))
  : FleetDb T * result FleetError MonitorRow :=
  let row := {| mon_id := id; mon_agentId := agentId; mon_type := type; mon_name := name;
                mon_enabled := default true enabled; mon_config := default [] config;
                mon_createdAt := now; mon_updatedAt := now |} in
  if exists_row (is_agent agentId) (agents db)
  then (with_monitors (insert_row row (monitors db)) db, Ok row)
  else (db, Err (DbError ForeignKeyViolation)).

Definition is_default_ping (r : MonitorRow) : bool :=
  String.eqb (mon_type r) "ping" && flag "default" (mon_config r).

Definition ensureDefaultPingMonitor (now : Z) (id : string) db (agentId : string)
    (address : option string) : FleetDb T * result FleetError unit :=
  match nonempty address with
  | None => (db, Ok tt)
  | Some address =>
      if existsb is_default_ping (select (of_agent agentId) (monitors db)) then (db, Ok tt) else
      let '(db, r) := createMonitor now id db agentId "ping" "Host reachability" (Some true)
        (Some [("host", JStr address); ("server", JBool true); ("default", JBool true)]) in
      (db, let? _ := r in Ok tt)
  end.

Definition ensureStoragePing (now : Z) (id : string) db (agentId storageName path : string)
  : FleetDb T * result FleetError unit :=
  let host := uncHost path in
  if negb (truthy host) then (db, Ok tt) else
  let name := storageName +:+ " · reachability" in
  if existsb (fun m => String.eqb (mon_name m) name) (select (of_agent agentId) (monitors db))
  then (db, Ok tt) else
  let '(db, r) := createMonitor now id db agentId "ping" name None
    (Some [("host", JStr host); ("server", JBool true)]) in
  (db, let? _ := r in Ok tt).

Definition updateMonitor (now : Z) db (id : string) (patch : MonitorPatch)
  : FleetDb T * result FleetError (option MonitorRow) :=
  let set r := opt_set set_mon_agentId (mp_agentId patch) (opt_set set_mon_config (mp_config patch)
    (opt_set set_mon_enabled (mp_enabled patch) (opt_set set_mon_name (mp_name patch)
      (set_mon_updatedAt now r)))) in
  let '(t, row) := update_returning (is_monitor id) set (monitors db) in
  match row with
  | None => (db, Ok None)
  | Some row =>
      if fk_ok agent_id (agents db) (mp_agentId patch) then (with_monitors t db, Ok (Some row))
      else (db, Err (DbError ForeignKeyViolation))
  end.

Definition deleteMonitor db (id : string) : FleetDb T * bool :=
  (with_monitors (delete_where (is_monitor id) (monitors db)) db,
   exists_row (is_monitor id) (monitors db)).

(** ** Credentials of monitors *)

Definition setMonitorCred (now : Z) (iv : list Z) (id : string) db (monitorId value encKey : string)
  : FleetDb T * result FleetError unit :=
  match loadKey encKey with
  | Err e => (db, Err (SecretError e))
  | Ok key =>
      match encryptSecret iv value key 1 with
      | Err e => (db, Err (SecretError e))
      | Ok ciphertext =>
          (with_secrets (upsert secrets_conflict
             {| secret_id := id; secret_ref := cred_ref monitorId; secret_ciphertext := ciphertext;
                secret_keyVersion := 1; secret_createdAt := now; secret_updatedAt := now |}
             (fun r => set_secret_ciphertext ciphertext (set_secret_updatedAt now r))
             (secrets db)) db, Ok tt)
      end
  end.

Fixpoint first_secret (refs : list string) db : option SecretRow :=
  match refs with
  | [] => None
  | ref :: refs =>
      match select_first (has_ref ref) (secrets db) with
      | Some row => Some row
      | None => first_secret refs db
      end
  end.

Definition getMonitorCred db (monitorId encKey : string) : result FleetError (option string) :=
  match first_secret [cred_ref monitorId; legacy_ref monitorId] db with
  | None => Ok None
  | Some row =>
      match loadKey encKey with
      | Err e => Err (SecretError e)
      | Ok key =>
          match decryptSecret (secret_ciphertext row) key with
          | Err e => Err (SecretError e)
          | Ok text => Ok (Some text)
          end
      end
  end.

Definition deleteMonitorCred db (monitorId : string) : FleetDb T :=
  with_secrets (delete_where (fun r => includes [cred_ref monitorId; legacy_ref monitorId]
    (secret_ref r)) (secrets db)) db.

(** The credential put into the field the config names. *)
Definition inject db (encKey : string) (m : AgentMonitorConfig) : result FleetError AgentMonitorConfig :=
  match nonempty (credFieldFor (amc_config m)) with
  | None => Ok m
  | Some f =>
      let? cred := getMonitorCred db (amc_id m) encKey in
      match nonempty cred with
      | None => Ok m
      | Some v => Ok {| amc_id := amc_id m; amc_type := amc_type m; amc_name := amc_name m;
                        amc_config := map_set f (JStr v) (amc_config m) |}
      end
  end.

Fixpoint inject_all db (encKey : string) (ms : list AgentMonitorConfig)
  : result FleetError (list AgentMonitorConfig) :=
  match ms with
  | [] => Ok []
  | m :: ms =>
      let? m := inject db encKey m in
      let? ms := inject_all db encKey ms in
      Ok (m :: ms)
  end.

(** The monitors of [GET /api/agent/config]. *)
Definition deliver (encKey : option string) db (agentId : string)
  : result FleetError (list AgentMonitorConfig) :=
  let ms := listAgentMonitorConfig db agentId in
  match nonempty encKey with
  | None => Ok ms
  | Some k => inject_all db k ms
  end.

(** ** Handlers *)

(** [String(v ?? '')]; [other] is the text of a value that is not a string. *)
Variable other : json -> string.
Definition path_text (config : option (list (string * json))) : string :=
  match map_get "path" (default [] config) with
  | None | Some JNull => ""
  | Some (JStr s) => s
  | Some v => other v
  end.

(** The credential, when there is one and a key to seal it with. *)
Definition store_cred (now : Z) (iv : list Z) (id : string) (encKey : option string) db
    (monitorId : string) (cred : option string) : FleetDb T * result FleetError unit :=
  match nonempty cred, nonempty encKey with
  | Some v, Some k => setMonitorCred now iv id db monitorId v k
  | _, _ => (db, Ok tt)
  end.

(** [POST /api/monitors] *)
Definition post_monitor (now : Z) (iv : list Z) (id secretId pingId : string) (encKey : option string)
    db (body : MonitorBody) : FleetDb T * result FleetError MonitorRow :=
  let '(cred, config) := extractCred (mb_config body) in
  let '(db, r) := createMonitor now id db (mb_agentId body) (mb_type body) (mb_name body)
    (mb_enabled body) config in
  match r with
  | Err e => (db, Err e)
  | Ok monitor =>
      let '(db, r) := store_cred now iv secretId encKey db (mon_id monitor) cred in
      match r with
      | Err e => (db, Err e)
      | Ok _ =>
          if String.eqb (mon_type monitor) "storage" then
            let '(db, r) := ensureStoragePing now pingId db (mon_agentId monitor) (mon_name monitor)
              (path_text config) in
            (db, let? _ := r in Ok monitor)
          else (db, Ok monitor)
      end
  end.

Inductive patch_reply : Type :=
| InvalidAgent
| MonitorNotFound
| Patched (m : MonitorRow).

Definition pruneOrphanUnits db (units : T UnitStateRow) (agentId : string) : T UnitStateRow :=
  let names := map mon_name (select (of_agent agentId) (monitors db)) in
  if Nat.eqb (List.length names) 0 then units
  else delete_where (fun u => String.eqb (us_sourceId u) agentId
         && negb (includes names (us_entity u))) units.

(** [PATCH /api/monitors/:id] *)
Definition patch_monitor (now : Z) (iv : list Z) (secretId : string) (encKey : option string)
    (db : FleetDb T) (units : T UnitStateRow) (id : string) (patch : MonitorPatch)
  : FleetDb T * T UnitStateRow * result FleetError patch_reply :=
  let prev := getMonitor db id in
  let target := nonempty (mp_agentId patch) in
  let moved :=
    match target, prev with
    | Some a, Some p => negb (String.eqb a (mon_agentId p))
    | Some _, None => true
    | None, _ => false
    end in
  if moved && negb (fk_ok agent_id (agents db) target) then (db, units, Ok InvalidAgent) else
  let '(cred, config) := extractCred (mp_config patch) in
  let '(db, r) := updateMonitor now db id {| mp_name := mp_name patch; mp_enabled := mp_enabled patch;
    mp_config := config; mp_agentId := mp_agentId patch |} in
  match r with
  | Err e => (db, units, Err e)
  | Ok None => (db, units, Ok MonitorNotFound)
  | Ok (Some monitor) =>
      let units := match prev with
                   | Some p => if moved then pruneOrphanUnits db units (mon_agentId p) else units
                   | None => units end in
      let '(db, r) := store_cred now iv secretId encKey db id cred in
      (db, units, let? _ := r in Ok (Patched monitor))
  end.

(** [DELETE /api/monitors/:id] *)
Definition delete_monitor (now : Z) db (boards : T WallLayoutRow) (id : string)
  : FleetDb T * T WallLayoutRow * bool :=
  let '(db, ok) := deleteMonitor db id in
  if ok then (deleteMonitorCred db id, pruneEntityRefs now boards [id], true)
  else (db, boards, false).

(** ** Inventory *)

Definition saveInventory (now : Z) (t : T HostInventoryRow) (agentId : string)
    (services processes : list InvItem) : T HostInventoryRow :=
  upsert hostInventory_conflict
    {| inv_agentId := agentId; inv_services := Some services; inv_processes := Some processes;
       inv_collectedAt := now |}
    (fun r => set_inv_services (Some services) (set_inv_processes (Some processes)
       (set_inv_collectedAt now r))) t.

(** Services, processes and when they were collected. *)
Definition getInventory (t : T HostInventoryRow) (agentId : string)
  : list InvItem * list InvItem * option Z :=
  match select_first (fun r => String.eqb (inv_agentId r) agentId) t with
  | Some r => (default [] (inv_services r), default [] (inv_processes r), Some (inv_collectedAt r))
  | None => ([], [], None)
  end.

Definition deleteInventory (t : T HostInventoryRow) (agentId : string) : T HostInventoryRow :=
  delete_where (fun r => String.eqb (inv_agentId r) agentId) t.
End monitors.

(** ** The history of an agent *)

(** The telemetry tables that refer to agents or monitors. *)
Record HistoryDb (T : Type -> Type) : Type := {
  h_unitStates : T UnitStateRow; h_statusEvents : T StatusEventRow;
  h_clientEvents : T ClientEventRow; h_uptimeBuckets : T UptimeBucketRow;
  h_hostMetrics : T HostMetricRow; h_pingSamples : T PingSampleRow; h_logs : T LogRow;
  h_notifications : T NotificationRow; h_dbMetrics : T DbMetricRow; h_snmpMetrics : T SnmpMetricRow;
  h_storageMetrics : T StorageMetricRow; h_folderMetrics : T FolderMetricRow;
  h_processMetrics : T ProcessMetricRow; h_hostInventory : T HostInventoryRow
}.
Arguments h_unitStates {T} _. Arguments h_statusEvents {T} _. Arguments h_clientEvents {T} _.
Arguments h_uptimeBuckets {T} _. Arguments h_hostMetrics {T} _. Arguments h_pingSamples {T} _.
Arguments h_logs {T} _. Arguments h_notifications {T} _. Arguments h_dbMetrics {T} _.
Arguments h_snmpMetrics {T} _. Arguments h_storageMetrics {T} _. Arguments h_folderMetrics {T} _.
Arguments h_processMetrics {T} _. Arguments h_hostInventory {T} _.

(** With no monitor the four deletes by monitor are skipped; by an empty list they are void. *)
Definition purgeAgentTelemetry {T : Type -> Type} {ST : Store T} (h : HistoryDb T)
    (agentId : string) (monitorIds : list string) : HistoryDb T :=
  let is_source s := String.eqb s agentId in
  let by_monitor {R} (key : R -> string) (t : T R) :=
    if Nat.eqb (List.length monitorIds) 0 then t
    else delete_where (fun r => includes monitorIds (key r)) t in
  {| h_unitStates := delete_where (fun r => is_source (us_sourceId r)) (h_unitStates h);
     h_statusEvents := delete_where (fun r => is_source (ev_sourceId r)) (h_statusEvents h);
     h_clientEvents := delete_where (fun r => is_source (cev_sourceId r)) (h_clientEvents h);
     h_uptimeBuckets := delete_where (fun r => is_source (ub_sourceId r)) (h_uptimeBuckets h);
     h_hostMetrics := delete_where (fun r => is_source (hm_agentId r)) (h_hostMetrics h);
     h_pingSamples := delete_where (fun r => is_source (ps_sourceId r)) (h_pingSamples h);
     h_logs := delete_where (fun r => bool_decide (log_sourceId r = Some agentId)) (h_logs h);
     h_notifications :=
       delete_where (fun r => bool_decide (note_sourceId r = Some agentId)) (h_notifications h);
     h_dbMetrics := by_monitor dbm_monitorId (h_dbMetrics h);
     h_snmpMetrics := by_monitor snm_monitorId (h_snmpMetrics h);
     h_storageMetrics := by_monitor sm_storageId (h_storageMetrics h);
     h_folderMetrics := by_monitor fm_storageId (h_folderMetrics h);
     h_processMetrics := h_processMetrics h; h_hostInventory := h_hostInventory h |}.

(** ** Credentials round trip *)

Lemma cred_ref_inj a b : cred_ref a = cred_ref b -> a = b.
Proof.
  intros H. injection H as H. apply (str_app_inj_length a ":cred" b ":cred"); [|exact H].
  apply (f_equal String.length) in H. rewrite !str_length_app in H. lia.
Qed.

Lemma legacy_not_cred a b : legacy_ref a <> cred_ref b.
Proof.
  intros H. injection H as H. apply (f_equal bytes_of) in H. rewrite !bytes_of_app in H.
  apply (f_equal last) in H. change (bytes_of ":db") with ([58; 100] ++ [98]) in H.
  change (bytes_of ":cred") with ([58; 99; 114; 101] ++ [100]) in H.
  rewrite !app_assoc, !last_snoc in H. done.
Qed.

Lemma map_get_omit k f c : k <> f -> map_get k (omit f c) = map_get k c.
Proof.
  intros Hk. induction c as [|[j v] c IH]; simpl; [done|].
  destruct (String.eqb_spec j f) as [->|Hj]; simpl; rewrite IH; [|done].
  by rewrite decide_False.
Qed.

Lemma map_get_omitted f c : map_get f (omit f c) = None.
Proof.
  apply map_get_None. unfold omit. rewrite elem_of_map. intros ([k v] & -> & Hk).
  apply elem_of_filterb in Hk as [_ Hk]. by rewrite String.eqb_refl in Hk.
Qed.

Lemma secret_field_ne f : f ∈ SECRET_FIELDS -> f <> "credField" /\ f <> "server" /\ f <> "".
Proof.
  intros Hf. repeat (apply elem_of_cons in Hf as [->|Hf]; [done|]). by apply not_elem_of_nil in Hf.
Qed.

(** [f] is the one secret field of the configuration [c], holding [v]. *)
Definition sole_secret (f v : string) (c : list (string * json)) : Prop :=
  f ∈ SECRET_FIELDS /\ map_get f c = Some (JStr v) /\ v <> "" /\
  forall g, g ∈ SECRET_FIELDS -> g <> f -> nonempty (text_at g c) = None.

Lemma extract_sole f v c : sole_secret f v c ->
  extractCred (Some c) = (Some v, Some (map_set "credField" (JStr f) (omit f c))).
Proof.
  intros (Hf & Hget & Hv & Hrest). unfold extractCred.
  assert (Hx : forall fields, f ∈ fields -> (forall g, g ∈ fields -> g ∈ SECRET_FIELDS) ->
    extract_from fields c = (Some v, map_set "credField" (JStr f) (omit f c))).
  { induction fields as [|g fields IH]; intros Hin Hsub; [by apply not_elem_of_nil in Hin|]. simpl.
    destruct (decide (g = f)) as [->|Hne].
    - unfold text_at. rewrite Hget. simpl. unfold truthy. by destruct (String.eqb_spec v "").
    - rewrite Hrest; [|apply Hsub, list_elem_of_here|done].
      apply elem_of_cons in Hin as [->|Hin]; [done|]. apply IH; [done|].
      intros h Hh. by apply Hsub, list_elem_of_further. }
  by rewrite (Hx SECRET_FIELDS).
Qed.

Section cred_lemmas.
Context {T : Type -> Type} {ST : Store T} {LT : StoreLaws T} {HG : Gcm} {GL : GcmLaws}.
Implicit Types (db : FleetDb T) (t : T SecretRow).

Lemma has_ref_iff ref r : has_ref ref r = true <-> secret_ref r = ref.
Proof. apply String.eqb_eq. Qed.

(** Reading a reference after a credential was stored. *)
Lemma select_cred row f t ref :
  unique_key secret_ref t -> (forall r, secret_ref (f r) = secret_ref r) ->
  select_first (has_ref ref) (upsert secrets_conflict row f t) =
  if decide (ref = secret_ref row)
  then Some (match select_first (has_ref ref) t with Some r => f r | None => row end)
  else select_first (has_ref ref) t.
Proof.
  intros Hu Hf. apply (select_first_upsert secret_ref); [done|intros; apply has_ref_iff| |done].
  intros x. unfold secrets_conflict. rewrite String.eqb_eq. split; congruence.
Qed.

(** Storing a credential works, and is read back from its own slot only. *)
Lemma setMonitorCred_get now iv sid db mid v encKey key :
  unique_key secret_ref (secrets db) -> loadKey encKey = Ok key ->
  List.length iv = IV_BYTES -> Forall is_byte iv ->
  exists db', setMonitorCred now iv sid db mid v encKey = (db', Ok tt) /\
    agents db' = agents db /\ monitors db' = monitors db /\
    getMonitorCred db' mid encKey = Ok (Some v) /\
    forall m, m <> mid -> getMonitorCred db' m encKey = getMonitorCred db m encKey.
Proof.
  intros Hu Hk Hl Hb. assert (Hlen : List.length key = KEY_BYTES).
  { unfold loadKey in Hk. destruct (Nat.eqb_spec (List.length (base64_decode encKey)) KEY_BYTES); [|done].
    by injection Hk as <-. }
  destruct (sealed_opens iv v key 1 Hlen Hl Hb) as (env & He & Hd & _); [lia|].
  unfold setMonitorCred. rewrite Hk, He. eexists. split; [reflexivity|]. split; [done|]. split; [done|].
  unfold getMonitorCred, first_secret. cbn [with_secrets secrets]. split.
  - rewrite select_cred by done. cbn [secret_ref]. rewrite decide_True by done. rewrite Hk.
    by destruct (select_first _ _); simpl; rewrite Hd.
  - intros m Hm. rewrite !select_cred by done. cbn [secret_ref]. rewrite !decide_False; [done|..].
    + apply legacy_not_cred.
    + intros ?%cred_ref_inj. done.
Qed.

(** What the loop over the monitors gives. *)
Lemma inject_all_iff db k ms l :
  inject_all db k ms = Ok l <-> Forall2 (fun m m' => inject db k m = Ok m') ms l.
Proof.
  revert l. induction ms as [|m ms IH]; intros l; simpl.
  - split; [by intros [= <-]|by intros ->%Forall2_nil_inv_l].
  - destruct (inject db k m) as [m'|e] eqn:Hm.
    + destruct (inject_all db k ms) as [ms'|e] eqn:Hms.
      * split.
        -- intros [= <-]. constructor; [done|by apply IH].
        -- intros (y & l' & Hy & Hl%IH & ->)%Forall2_cons_inv_l. congruence.
      * split; [done|]. intros (y & l' & Hy & Hl%IH & ->)%Forall2_cons_inv_l. congruence.
    + split; [done|]. intros (y & l' & Hy & _ & ->)%Forall2_cons_inv_l. congruence.
Qed.

Lemma listed_iff db a m : m ∈ listAgentMonitorConfig db a <-> exists r, r ∈ rows (monitors db) /\
  mon_agentId r = a /\ mon_enabled r = true /\ server_side r = false /\ m = to_config r.
Proof.
  unfold listAgentMonitorConfig, of_agent. rewrite elem_of_map. setoid_rewrite elem_of_filterb.
  setoid_rewrite elem_of_select. setoid_rewrite andb_true_iff. setoid_rewrite negb_true_iff.
  setoid_rewrite String.eqb_eq. split; intros (r & H); exists r; tauto.
Qed.

(** The delivered list after a monitor was added. *)
Lemma listed_insert db a r :
  listAgentMonitorConfig (with_monitors (insert_row r (monitors db)) db) a ≡ₚ
  if String.eqb (mon_agentId r) a && mon_enabled r && negb (server_side r)
  then to_config r :: listAgentMonitorConfig db a else listAgentMonitorConfig db a.
Proof.
  unfold listAgentMonitorConfig, select, of_agent. cbn [with_monitors monitors]. rewrite rows_insert.
  simpl. destruct (_ && mon_enabled r); simpl; [|done]. by destruct (negb (server_side r)).
Qed.

Lemma exists_agent db a r : r ∈ rows (agents db) -> agent_id r = a ->
  exists_row (is_agent a) (agents db) = true.
Proof.
  intros Hr Ha. apply existsb_true. exists r. split; [done|]. by apply String.eqb_eq.
Qed.

(** The companion ping is the backend's own: it delivers nothing. *)
Lemma storagePing_listed now pid db a name path g :
  (exists_row (is_agent a) (agents db) = true) ->
  exists db', ensureStoragePing now pid db a name path = (db', Ok tt) /\ secrets db' = secrets db /\
    listAgentMonitorConfig db' g ≡ₚ listAgentMonitorConfig db g.
Proof.
  intros Ha. unfold ensureStoragePing. destruct (negb _); [by exists db|].
  destruct (existsb _ _); [by exists db|]. unfold createMonitor. rewrite Ha. eexists.
  split; [reflexivity|]. split; [done|]. rewrite listed_insert. simpl. by rewrite andb_false_r.
Qed.
End cred_lemmas.

Section cred_theorem.
Context {T : Type -> Type} {ST : Store T} {LT : StoreLaws T} {HG : Gcm} {GL : GcmLaws}.
Variable other : json -> string.
Implicit Types db : FleetDb T.

Lemma loadKey_truthy encKey key : loadKey encKey = Ok key -> nonempty (Some encKey) = Some encKey.
Proof. unfold loadKey, nonempty, truthy. by destruct (String.eqb_spec encKey "") as [->|]. Qed.

Lemma inject_all_same db db' k ms :
  (forall x, x ∈ ms -> getMonitorCred db' (amc_id x) k = getMonitorCred db (amc_id x) k) ->
  inject_all db' k ms = inject_all db k ms.
Proof.
  induction ms as [|m ms IH]; intros H; simpl; [done|].
  rewrite IH by (intros; by apply H, list_elem_of_further). unfold inject.
  by rewrite (H m) by apply list_elem_of_here.
Qed.

(** Deliveries depend on the delivered monitors and their credentials only. *)
Lemma deliver_cons db db' encKey key a m m' l :
  loadKey encKey = Ok key ->
  listAgentMonitorConfig db' a ≡ₚ m :: listAgentMonitorConfig db a ->
  (forall x, x ∈ listAgentMonitorConfig db a ->
     getMonitorCred db' (amc_id x) encKey = getMonitorCred db (amc_id x) encKey) ->
  inject db' encKey m = Ok m' -> deliver (Some encKey) db a = Ok l ->
  exists l', deliver (Some encKey) db' a = Ok l' /\ l' ≡ₚ m' :: l.
Proof.
  intros Hk Hp Hsame Hm. unfold deliver. rewrite (loadKey_truthy _ _ Hk). intros Hl%inject_all_iff.
  assert (HF : Forall2 (fun m m' => inject db' encKey m = Ok m') (m :: listAgentMonitorConfig db a)
    (m' :: l)).
  { constructor; [done|]. apply inject_all_iff. rewrite (inject_all_same db) by done.
    by apply inject_all_iff. }
  destruct (Permutation_Forall2 (Permutation_sym Hp) HF) as (l' & Hp' & Hl').
  exists l'. split; [by apply inject_all_iff|by symmetry].
Qed.

Lemma inject_set db encKey m f v : credFieldFor (amc_config m) = Some f -> f <> "" -> v <> "" ->
  getMonitorCred db (amc_id m) encKey = Ok (Some v) ->
  inject db encKey m = Ok {| amc_id := amc_id m; amc_type := amc_type m; amc_name := amc_name m;
    amc_config := map_set f (JStr v) (amc_config m) |}.
Proof.
  intros Hc Hf Hv Hg. unfold inject. rewrite Hc. unfold nonempty, truthy.
  rewrite (proj2 (String.eqb_neq f "") Hf). simpl. rewrite Hg. simpl.
  by rewrite (proj2 (String.eqb_neq v "") Hv).
Qed.

(** The handler, step by step, on a body with a credential. *)
Lemma post_monitor_runs now iv id sid pid encKey key db body c f v :
  mb_config body = Some c -> sole_secret f v c ->
  exists_row (is_agent (mb_agentId body)) (agents db) = true ->
  unique_key secret_ref (secrets db) -> loadKey encKey = Ok key ->
  List.length iv = IV_BYTES -> Forall is_byte iv ->
  let row := {| mon_id := id; mon_agentId := mb_agentId body; mon_type := mb_type body;
    mon_name := mb_name body; mon_enabled := default true (mb_enabled body);
    mon_config := map_set "credField" (JStr f) (omit f c); mon_createdAt := now; mon_updatedAt := now |} in
  let db1 := with_monitors (insert_row row (monitors db)) db in
  exists db', post_monitor other now iv id sid pid (Some encKey) db body = (db', Ok row) /\
    listAgentMonitorConfig db' (mb_agentId body) ≡ₚ listAgentMonitorConfig db1 (mb_agentId body) /\
    getMonitorCred db' id encKey = Ok (Some v) /\
    forall m, m <> id -> getMonitorCred db' m encKey = getMonitorCred db m encKey.
Proof.
  intros Hb Hs Ha Hu Hk Hl Hiv row db1. pose proof Hs as (Hf & Hget & Hv & Hrest).
  pose proof (extract_sole f v c Hs) as Hx. unfold post_monitor. rewrite Hb, Hx.
  assert (Hc : createMonitor now id db (mb_agentId body) (mb_type body) (mb_name body) (mb_enabled body)
    (Some (map_set "credField" (JStr f) (omit f c))) = (db1, Ok row))
    by (unfold createMonitor; by rewrite Ha).
  rewrite Hc. cbv iota beta. change (mon_id row) with id. change (mon_type row) with (mb_type body).
  change (mon_agentId row) with (mb_agentId body). change (mon_name row) with (mb_name body).
  destruct (setMonitorCred_get now iv sid db1 id v encKey key Hu Hk Hl Hiv)
    as (db2 & Hset & Hag & Hmon & Hself & Hother).
  unfold store_cred. rewrite (loadKey_truthy _ _ Hk).
  assert (Hnv : nonempty (Some v) = Some v) by (unfold nonempty, truthy; by destruct (String.eqb_spec v "")).
  rewrite Hnv, Hset. assert (Hlist : forall g, listAgentMonitorConfig db2 g = listAgentMonitorConfig db1 g)
    by (intros g; unfold listAgentMonitorConfig; by rewrite Hmon).
  destruct (String.eqb_spec (mb_type body) "storage") as [Ht|Ht].
  - destruct (storagePing_listed now pid db2 (mb_agentId body) (mb_name body)
      (path_text other (Some (map_set "credField" (JStr f) (omit f c)))) (mb_agentId body))
      as (db3 & Hp & Hsec & Hpl); [by rewrite Hag|].
    rewrite Hp. exists db3. split; [done|].
    split; [by rewrite Hpl, Hlist|]. unfold getMonitorCred, first_secret in *. by rewrite Hsec.
  - exists db2. split; [done|]. split; [by rewrite Hlist|done].
Qed.

(** C19: take an enabled monitor that its agent checks (neither of SNMP nor marked for the server),
    created on a backend that has an encryption key, with one secret field in its configuration, for
    an agent whose configuration could be delivered before. Its credential is kept out of the stored
    configuration, and the agent is delivered the configuration with the credential back in its
    field; what the agent was delivered before stays as it was. (A second secret field stays in
    clear, and without a key the secret is lost: the cases below.) *)
Theorem credential_round_trip now iv id sid pid encKey key db body c f v l
    (Hb : mb_config body = Some c) (Hs : sole_secret f v c)
    (Hdel : mb_type body <> "snmp" /\ flag "server" c = false /\ mb_enabled body <> Some false)
    (Ha : exists r, r ∈ rows (agents db) /\ agent_id r = mb_agentId body)
    (Hu : unique_key secret_ref (secrets db))
    (Hn : forall r, r ∈ rows (monitors db) -> mon_id r <> id)
    (Hk : loadKey encKey = Ok key) (Hiv : List.length iv = IV_BYTES /\ Forall is_byte iv)
    (Hold : deliver (Some encKey) db (mb_agentId body) = Ok l) :
  exists db' m m' l',
    post_monitor other now iv id sid pid (Some encKey) db body = (db', Ok m) /\
    mon_id m = id /\ map_get f (mon_config m) = None /\
    deliver (Some encKey) db' (mb_agentId body) = Ok l' /\ l' ≡ₚ m' :: l /\
    amc_id m' = id /\ map_get f (amc_config m') = Some (JStr v) /\
    forall k, k <> f -> k <> "credField" -> map_get k (amc_config m') = map_get k c.
Proof.
  destruct Ha as (r & Hr & Har). destruct Hiv as [Hl Hiv]. pose proof Hs as (Hf & _ & Hv & _).
  destruct (secret_field_ne f Hf) as (Hf1 & Hf2 & Hf3). destruct Hdel as (Ht & Hserver & Hen).
  destruct (post_monitor_runs now iv id sid pid encKey key db body c f v Hb Hs
    (exists_agent db _ r Hr Har) Hu Hk Hl Hiv) as (db' & Hpost & Hlist & Hcred & Hother).
  set (c' := map_set "credField" (JStr f) (omit f c)) in *.
  set (row := {| mon_id := id |}) in *. rewrite listed_insert in Hlist.
  assert (Hss : server_side row = false).
  { unfold server_side, flag, row, c'. cbn [mon_type mon_config].
    rewrite map_get_set_ne, map_get_omit by done. unfold flag in Hserver.
    rewrite (proj2 (String.eqb_neq _ _) Ht). destruct (map_get "server" c) as [[]|]; try by rewrite andb_false_r.
    subst b. by rewrite andb_false_r. }
  assert (Hon : mon_enabled row = true) by (cbn; by destruct (mb_enabled body) as [[]|]).
  rewrite Hss, Hon in Hlist. cbn [mon_agentId row] in Hlist. rewrite String.eqb_refl in Hlist. simpl in Hlist.
  assert (Hfield : credFieldFor (amc_config (to_config row)) = Some f)
    by (unfold credFieldFor, text_at; cbn [to_config row amc_config mon_config]; unfold c';
        by rewrite map_get_set_eq).
  pose proof (inject_set db' encKey (to_config row) f v Hfield Hf3 Hv Hcred) as Hinj.
  destruct (deliver_cons db db' encKey key (mb_agentId body) (to_config row) _ l Hk Hlist
    ltac:(intros x (y & Hy & _ & _ & _ & ->)%listed_iff; apply Hother; by apply Hn) Hinj Hold)
    as (l' & Hdel & Hp).
  exists db', row. eexists _, l'. split; [exact Hpost|]. split; [done|]. split;
    [|split; [exact Hdel|split; [exact Hp|split; [done|split]]]].
  - cbn [row mon_config]. unfold c'. rewrite map_get_set_ne by done. apply map_get_omitted.
  - cbn [amc_config]. apply map_get_set_eq.
  - intros k Hkf Hkc. cbn [amc_config to_config row mon_config]. unfold c'.
    rewrite !map_get_set_ne by done. by apply map_get_omit.
Qed.
End cred_theorem.

(** ** Witnesses *)

Definition w_agent (id status : string) : AgentRow := {|
  agent_id := id; agent_name := "host"; agent_kind := "agent"; agent_hostname := None;
  agent_platform := None; agent_address := Some "10.0.0.5"; agent_status := status;
  agent_version := None; agent_lastSeenAt := None; agent_approvedAt := None;
  agent_pushIntervalSec := None; agent_metadata := None; agent_createdAt := 1; agent_updatedAt := 1 |}.

Definition w_fleet : FleetDb list := {|
  agents := [w_agent "a1" "approved"]; agentKeys := []; agentCommands := []; monitors := [];
  secrets := [] |}.

Definition w_config : list (string * json) := [("path", JStr "\\nas\share"); ("password", JStr "hunter22")].

Definition w_body : MonitorBody := {|
  mb_agentId := "a1"; mb_type := "storage"; mb_name := "NAS"; mb_enabled := None;
  mb_config := Some w_config |}.

Lemma credential_round_trip_witness :
  let enc := base64_encode key_a in
  exists db' m m' l',
    post_monitor (HG := toy_gcm) (fun _ => "") 5 iv_a "m1" "s1" "p1" (Some enc) w_fleet w_body = (db', Ok m) /\
    map_get "password" (mon_config m) = None /\
    deliver (HG := toy_gcm) (Some enc) db' "a1" = Ok l' /\ l' ≡ₚ [m'] /\
    map_get "password" (amc_config m') = Some (JStr "hunter22").
Proof.
  intros enc.
  destruct (credential_round_trip (T := list) (HG := toy_gcm) (GL := toy_gcm_laws) (fun _ => "") 5 iv_a
    "m1" "s1" "p1" enc key_a w_fleet w_body w_config "password" "hunter22" [])
    as (db' & m & m' & l' & H1 & _ & H3 & H4 & H5 & _ & H7 & _).
  - reflexivity.
  - split; [apply list_elem_of_further, list_elem_of_here|]. split; [reflexivity|]. split; [done|].
    intros g Hg Hne. repeat (apply elem_of_cons in Hg as [->|Hg]; [first [reflexivity|done]|]).
    by apply not_elem_of_nil in Hg.
  - split; [discriminate|]. split; [reflexivity|discriminate].
  - exists (w_agent "a1" "approved"). split; [apply list_elem_of_here|reflexivity].
  - constructor.
  - intros r Hr. by apply not_elem_of_nil in Hr.
  - vm_compute. reflexivity.
  - split; [reflexivity|]. vm_compute. repeat constructor; discriminate.
  - reflexivity.
  - exists db', m, m', l'. auto.
Defined.
