(* ===== verification/Agents.v ===== *)
(** * Agents and their connection keys

    Models apps/backend/src/services/agents.ts and agent-keys.ts, the gate of
    routes/agent-ingest.routes.ts and the approval and deletion handlers of
    routes/agents.routes.ts. Ids, times, random keys and initialisation vectors are arguments,
    and so is what the process environment holds. *)
From S2P Require Import Prelude Text Store Schema RowUpdates Settings Crypto Auth Directory.
From S2P Require Import Devices Wallboards Monitors.

Definition ONLINE_STALENESS_MS : Z := 60000.

Definition AGENT_PUSH_INTERVAL_KEY : string := "agent.pushIntervalSec".
Definition AGENT_PUSH_INTERVAL_DEFAULT : Q := 30.
Definition AGENT_PUSH_INTERVAL_MIN : Z := 5.
Definition AGENT_PUSH_INTERVAL_MAX : Z := 3600.
Definition AGENT_INGEST_HOSTS_KEY : string := "agent.ingestHosts".
Definition AGENT_TIMEZONE_KEY : string := "agent.timezone".

Definition clampPushInterval (sec : Q) : Z :=
  Z.min (Z.max (js_round sec) AGENT_PUSH_INTERVAL_MIN) AGENT_PUSH_INTERVAL_MAX.

Definition isAgentOnline (now : Z) (connected : bool) (lastSeenAt : option Z) : bool :=
  match connected, lastSeenAt with
  | true, Some t => now - t <? ONLINE_STALENESS_MS
  | _, _ => false
  end.

(** A member of a nullable JSON object. *)
Definition member (key : string) (metadata : option (list (string * json))) : option json :=
  match metadata with Some m => map_get key m | None => None end.

Definition debug_flag (metadata : option (list (string * json))) : bool :=
  match metadata with Some m => flag "debug" m | None => false end.

Record AgentDTO : Type := {
  ag_id : string; ag_name : string; ag_kind : string; ag_hostname : option string;
  ag_platform : option string; ag_address : option string; ag_status : string;
  ag_version : option string; ag_lastSeenAt : option Z; ag_approvedAt : option Z;
  ag_createdAt : Z; ag_buildTime : option json; ag_online : bool;
  ag_pushIntervalSec : option Z; ag_debug : bool
}.

Definition agent_toDTO (a : AgentRow) (online : bool) : AgentDTO := {|
  ag_id := agent_id a; ag_name := agent_name a;
  ag_kind := if String.eqb (agent_kind a) "device" then "device" else "agent";
  ag_hostname := agent_hostname a; ag_platform := agent_platform a; ag_address := agent_address a;
  ag_status := agent_status a; ag_version := agent_version a; ag_lastSeenAt := agent_lastSeenAt a;
  ag_approvedAt := agent_approvedAt a; ag_createdAt := agent_createdAt a;
  ag_buildTime := match member "buildTime" (agent_metadata a) with Some JNull => None | v => v end;
  ag_online := online; ag_pushIntervalSec := agent_pushIntervalSec a;
  ag_debug := debug_flag (agent_metadata a) |}.

(** What an agent reports of itself when it registers. *)
Record AgentRegisterRequest : Type := {
  rr_name : option string; rr_hostname : option string; rr_platform : option string;
  rr_version : option string; rr_address : option string; rr_buildTime : option string
}.

Record AgentPatch : Type := {
  ap_name : option string; ap_pushIntervalSec : option (option Q); ap_debug : option bool
}.

Record ConnectionKeyDTO : Type := {
  ck_id : string; ck_label : string; ck_agentId : option string; ck_disabled : bool;
  ck_lastUsedAt : option Z; ck_createdAt : Z
}.

Definition key_toDTO (r : AgentKeyRow) : ConnectionKeyDTO := {|
  ck_id := akey_id r; ck_label := akey_label r; ck_agentId := akey_agentId r;
  ck_disabled := akey_disabled r; ck_lastUsedAt := akey_lastUsedAt r; ck_createdAt := akey_createdAt r |}.

(** ** Base URLs *)

(** [s.replace(/\/+$/, '')] *)
Fixpoint strip_slashes (s : string) : string :=
  match s with
  | EmptyString => ""
  | String c s' =>
      match strip_slashes s' with
      | EmptyString => if Ascii.eqb c "/" then "" else String c ""
      | t => String c t
      end
  end.

(** A character [.] matches comes first: none of the four line terminators. *)
Definition dot (s : string) : bool :=
  match s with
  | EmptyString => false
  | String c s' =>
      negb ((code c =? 10) || (code c =? 13)
            || (code c =? 226) && match s' with
                                  | String d (String e _) =>
                                      (code d =? 128) && ((code e =? 168) || (code e =? 169))
                                  | _ => false
                                  end)
  end.

(** [/^https?:\/\/.+/i] *)
Definition is_base_url (url : string) : bool :=
  match after "http" (toLowerCase url) with
  | None => false
  | Some rest =>
      let rest := match after "s" rest with Some r => r | None => rest end in
      match after "://" rest with Some r => dot r | None => false end
  end.

Definition clean_url (v : json) : option string :=
  match v with
  | JStr s => let url := strip_slashes (trim s) in if is_base_url url then Some url else None
  | _ => None
  end.

Section agents.
Context {T : Type -> Type} {ST : Store T} {HG : Gcm} {HS : Sha256}.
Implicit Types (db : FleetDb T) (settings : T SettingRow).

(** Is the control socket of the agent connected? *)
Variable isConnected : option (string -> bool).

Definition onlineFor (now : Z) (a : AgentRow) : bool :=
  match isConnected with
  | Some f => isAgentOnline now (f (agent_id a)) (agent_lastSeenAt a)
  | None => false
  end.

Definition listAgents (now : Z) db : list AgentDTO :=
  map (fun a => agent_toDTO a (onlineFor now a)) (rows (agents db)).

Definition getAgent (now : Z) db (id : string) : option AgentDTO :=
  option_map (fun a => agent_toDTO a (onlineFor now a)) (select_first (is_agent id) (agents db)).

(** One row by id, and its new value. *)
Definition update_agent (now : Z) (f : AgentRow -> AgentRow) db (id : string)
  : FleetDb T * option AgentDTO :=
  let '(t, row) := update_returning (is_agent id) f (agents db) in
  (with_agents t db, option_map (fun a => agent_toDTO a (onlineFor now a)) row).

(** A row with the columns an insert leaves to their defaults. *)
Definition new_agent (now : Z) (id name kind status : string) : AgentRow := {|
  agent_id := id; agent_name := name; agent_kind := kind; agent_hostname := None;
  agent_platform := None; agent_address := None; agent_status := status; agent_version := None;
  agent_lastSeenAt := None; agent_approvedAt := None; agent_pushIntervalSec := None;
  agent_metadata := None; agent_createdAt := now; agent_updatedAt := now |}.

Definition createDevice (now : Z) (id pingId : string) db (name : string) (address : option string)
  : FleetDb T * result FleetError AgentDTO :=
  let row := set_agent_approvedAt (Some now) (set_agent_address address
    (new_agent now id name "device" "approved")) in
  let db := with_agents (insert_row row (agents db)) db in
  let '(db, r) := match nonempty address with
                  | Some a => ensureDefaultPingMonitor now pingId db id (Some a)
                  | None => (db, Ok tt) end in
  (db, let? _ := r in Ok (agent_toDTO row false)).

(** What a registration writes. *)
Definition register_fields (now : Z) (req : AgentRegisterRequest) (r : AgentRow) : AgentRow :=
  let r := set_agent_hostname (rr_hostname req) (set_agent_platform (rr_platform req)
    (set_agent_version (rr_version req) (set_agent_address (rr_address req)
      (set_agent_lastSeenAt (Some now) r)))) in
  match nonempty (rr_buildTime req) with
  | Some b => set_agent_metadata (Some [("buildTime", JStr b)]) r
  | None => r
  end.

Definition is_key (id : string) (r : AgentKeyRow) : bool := String.eqb (akey_id r) id.

(** Returns the agent's id and status. *)
Definition registerAgent (now : Z) (id : string) db (keyRow : AgentKeyRow) (req : AgentRegisterRequest)
  : FleetDb T * (string * string) :=
  let bound := match nonempty (akey_agentId keyRow) with
    | Some a =>
        let '(t, row) := update_returning (is_agent a) (register_fields now req) (agents db) in
        option_map (fun r => (with_agents t db, r)) row
    | None => None end in
  match bound with
  | Some (db, row) => (db, (agent_id row, agent_status row))
  | None =>
      let name := default (default "agent" (rr_hostname req)) (rr_name req) in
      let created := register_fields now req (new_agent now id name "agent" "pending") in
      let db := with_agents (insert_row created (agents db)) db in
      (with_agentKeys (update_where (is_key (akey_id keyRow)) (set_akey_agentId (Some id))
         (agentKeys db)) db,
       (agent_id created, agent_status created))
  end.

Definition approveAgent (now : Z) db (id : string) : FleetDb T * option AgentDTO :=
  update_agent now (fun a => set_agent_status "approved" (set_agent_approvedAt (Some now) a)) db id.

Definition revokeAgent (now : Z) db (id : string) : FleetDb T * option AgentDTO :=
  update_agent now (set_agent_status "revoked") db id.

Definition updateAgent (now : Z) db (id : string) (patch : AgentPatch) : FleetDb T * option AgentDTO :=
  let metadata := option_map (fun debug =>
    let cur := match select_first (is_agent id) (agents db) with
               | Some a => default [] (agent_metadata a) | None => [] end in
    Some (map_set "debug" (JBool debug) cur)) (ap_debug patch) in
  update_agent now (fun a => opt_set set_agent_metadata metadata
    (opt_set set_agent_pushIntervalSec (option_map (option_map clampPushInterval) (ap_pushIntervalSec patch))
      (opt_set set_agent_name (ap_name patch) (set_agent_updatedAt now a)))) db id.

Definition agentDebugEnabled db (agentId : string) : bool :=
  match select_first (is_agent agentId) (agents db) with
  | Some a => debug_flag (agent_metadata a) | None => false end.

Definition effectivePushInterval settings db (agentId : string) : Z :=
  let override := match select_first (is_agent agentId) (agents db) with
                  | Some a => agent_pushIntervalSec a | None => None end in
  match override with
  | Some sec => clampPushInterval (inject_Z sec)
  | None => clampPushInterval match getSetting settings AGENT_PUSH_INTERVAL_KEY with
                              | Some (JNum q) => q | _ => AGENT_PUSH_INTERVAL_DEFAULT end
  end.

(** [TZ] is the environment variable. *)
Definition effectiveTimezone settings (TZ : option string) : string :=
  match getSetting settings AGENT_TIMEZONE_KEY with
  | Some (JStr raw) => if truthy (trim raw) then trim raw else default "UTC" (nonempty (option_map trim TZ))
  | _ => default "UTC" (nonempty (option_map trim TZ))
  end.

Definition effectiveIngestHosts settings : list string :=
  match getSetting settings AGENT_INGEST_HOSTS_KEY with
  | Some (JArr raw) => js_set (omap clean_url raw)
  | _ => []
  end.

(** The foreign keys cascade: keys, monitors and commands of the agent go with it. *)
Definition deleteAgent db (id : string) : FleetDb T * bool :=
  ({| agents := delete_where (is_agent id) (agents db);
      agentKeys := delete_where (fun k => bool_decide (akey_agentId k = Some id)) (agentKeys db);
      agentCommands := delete_where (fun c => String.eqb (cmd_agentId c) id) (agentCommands db);
      monitors := delete_where (of_agent id) (monitors db); secrets := secrets db |},
   exists_row (is_agent id) (agents db)).

Definition touchAgent (now : Z) db (id : string) : FleetDb T :=
  with_agents (update_where (is_agent id) (set_agent_lastSeenAt (Some now)) (agents db)) db.

Definition isApproved db (id : string) : bool :=
  match select_first (is_agent id) (agents db) with
  | Some a => String.eqb (agent_status a) "approved" | None => false end.

(** ** Connection keys *)

Definition key_ref (id : string) : string := "agentkey:" +:+ id.

(** [key] is the text around 24 random bytes. *)
Definition mintConnectionKey (now : Z) (key : string) (iv : list Z) (id secretId : string) db
    (label encKey : string) : FleetDb T * result FleetError (string * string) :=
  let row := {| akey_id := id; akey_agentId := None; akey_label := label; akey_keyHash := sha256 key;
    akey_secretRef := None; akey_disabled := false; akey_lastUsedAt := None;
    akey_createdAt := now; akey_updatedAt := now |} in
  let db := with_agentKeys (insert_row row (agentKeys db)) db in
  match (let? k := loadKey encKey in encryptSecret iv key k 1) with
  | Err e => (db, Err (SecretError e))
  | Ok envelope =>
      let ref := key_ref id in
      let db := with_secrets (insert_ignore secrets_conflict
        {| secret_id := secretId; secret_ref := ref; secret_ciphertext := envelope;
           secret_keyVersion := 1; secret_createdAt := now; secret_updatedAt := now |}
        (secrets db)) db in
      (with_agentKeys (update_where (is_key id) (set_akey_secretRef (Some ref)) (agentKeys db)) db,
       Ok (id, key))
  end.

Definition listConnectionKeys db : list ConnectionKeyDTO := map key_toDTO (rows (agentKeys db)).

Definition revokeConnectionKey db (keyId : string) : FleetDb T * bool :=
  let '(t, row) := update_returning (is_key keyId) (set_akey_disabled true) (agentKeys db) in
  (with_agentKeys t db, bool_decide (is_Some row)).

Definition resolveAgentKey db (rawKey : string) : option AgentKeyRow :=
  match select_first (fun k => String.eqb (akey_keyHash k) (sha256 rawKey)) (agentKeys db) with
  | Some row => if akey_disabled row then None else Some row
  | None => None
  end.

Definition touchKeyUsage (now : Z) db (keyId : string) : FleetDb T :=
  with_agentKeys (update_where (is_key keyId) (set_akey_lastUsedAt (Some now)) (agentKeys db)) db.

(** ** The gate of the agent's endpoints *)

Inductive refusal : Type := MissingKey | InvalidKey | NotApproved.

(** The pre-handler: the row of the presented key. *)
Definition requireKey (now : Z) db (header : option string) : FleetDb T * result refusal AgentKeyRow :=
  match nonempty header with
  | None => (db, Err MissingKey)
  | Some key =>
      match resolveAgentKey db key with
      | None => (db, Err InvalidKey)
      | Some row => (touchKeyUsage now db (akey_id row), Ok row)
      end
  end.

(** The guard every endpoint but the registration starts with: the agent it works for. *)
Definition requireApproved (now : Z) db (header : option string) : FleetDb T * result refusal string :=
  let '(db, r) := requireKey now db header in
  (db, let? row := r in
       match nonempty (akey_agentId row) with
       | Some agentId => if isApproved db agentId then Ok agentId else Err NotApproved
       | None => Err NotApproved
       end).

(** [POST /api/agent/register] *)
Definition post_register (now : Z) (id pingId : string) db (header : option string)
    (body : AgentRegisterRequest) : FleetDb T * result refusal (result FleetError (string * string)) :=
  let '(db, r) := requireKey now db header in
  match r with
  | Err e => (db, Err e)
  | Ok row =>
      let '(db, res) := registerAgent now id db row body in
      if String.eqb (snd res) "approved" then
        let '(db, r) := ensureDefaultPingMonitor now pingId db (fst res) (rr_address body) in
        (db, Ok (let? _ := r in Ok res))
      else (db, Ok (Ok res))
  end.

Record AgentConfigResponse : Type := {
  cfg_monitors : list AgentMonitorConfig; cfg_pushIntervalSec : Z; cfg_timezone : string;
  cfg_ingestHosts : list string; cfg_debug : bool
}.

(** [GET /api/agent/config] *)
Definition get_config (now : Z) (TZ encKey : option string) settings db (header : option string)
  : FleetDb T * result refusal (result FleetError AgentConfigResponse) :=
  let '(db, r) := requireApproved now db header in
  (db, let? agentId := r in
       Ok (let? ms := deliver encKey db agentId in
           Ok {| cfg_monitors := ms; cfg_pushIntervalSec := effectivePushInterval settings db agentId;
                 cfg_timezone := effectiveTimezone settings TZ;
                 cfg_ingestHosts := effectiveIngestHosts settings;
                 cfg_debug := agentDebugEnabled db agentId |})).

(** [POST /api/agent/inventory]: lists that are not arrays count as empty. *)
Definition post_inventory (now : Z) db (inventory : T HostInventoryRow) (header : option string)
    (services processes : option (list InvItem))
  : FleetDb T * T HostInventoryRow * result refusal unit :=
  let '(db, r) := requireApproved now db header in
  match r with
  | Err e => (db, inventory, Err e)
  | Ok agentId =>
      (db, saveInventory now inventory agentId (default [] services) (default [] processes), Ok tt)
  end.

(** ** Handlers of the operator *)

(** [POST /api/agents/:id/approve] *)
Definition post_approve (now : Z) (pingId : string) db (id : string)
  : FleetDb T * result FleetError (option AgentDTO) :=
  let '(db, agent) := approveAgent now db id in
  match agent with
  | None => (db, Ok None)
  | Some agent =>
      let '(db, r) := ensureDefaultPingMonitor now pingId db id (ag_address agent) in
      (db, let? _ := r in Ok (Some agent))
  end.

(** [DELETE /api/agents/:id] *)
Definition delete_agent (now : Z) db (boards : T WallLayoutRow) (h : HistoryDb T) (id : string)
  : FleetDb T * T WallLayoutRow * HistoryDb T * bool :=
  let monitorIds := map mon_id (listMonitors db (Some id)) in
  let db := fold_left deleteMonitorCred monitorIds db in
  let '(db, ok) := deleteAgent db id in
  if negb ok then (db, boards, h, false) else
  let boards := pruneEntityRefs now boards (id :: monitorIds) in
  let h := {| h_unitStates := h_unitStates h; h_statusEvents := h_statusEvents h;
    h_clientEvents := h_clientEvents h; h_uptimeBuckets := h_uptimeBuckets h;
    h_hostMetrics := h_hostMetrics h; h_pingSamples := h_pingSamples h; h_logs := h_logs h;
    h_notifications := h_notifications h; h_dbMetrics := h_dbMetrics h;
    h_snmpMetrics := h_snmpMetrics h; h_storageMetrics := h_storageMetrics h;
    h_folderMetrics := h_folderMetrics h; h_processMetrics := h_processMetrics h;
    h_hostInventory := deleteInventory (h_hostInventory h) id |} in
  (db, boards, purgeAgentTelemetry h id monitorIds, true).

(** What agents do to the tables, with whatever keys they hold. *)
Inductive agent_step : FleetDb T -> FleetDb T -> Prop :=
| agent_register now id pingId header body db :
    select_first (is_agent id) (agents db) = None ->
    agent_step db (post_register now id pingId db header body).1
| agent_pull now TZ encKey settings header db :
    agent_step db (get_config now TZ encKey settings db header).1
| agent_inventory now inventory header services processes db :
    agent_step db (post_inventory now db inventory header services processes).1.1
| agent_heartbeat now id db : agent_step db (touchAgent now db id).
End agents.

(** ** Theorems *)

Section theorems.
Context {T : Type -> Type} {ST : Store T} {LT : StoreLaws T} {HG : Gcm} {HS : Sha256}.
Implicit Types (db : FleetDb T) (settings : T SettingRow).

Lemma is_agent_iff id r : is_agent id r = true <-> agent_id r = id.
Proof. apply String.eqb_eq. Qed.

Lemma is_key_iff id r : is_key id r = true <-> akey_id r = id.
Proof. apply String.eqb_eq. Qed.

Lemma nonempty_Some v s : nonempty v = Some s <-> v = Some s /\ s <> "".
Proof.
  unfold nonempty, truthy. destruct v as [t|]; [|naive_solver].
  destruct (String.eqb_spec t ""); simpl; naive_solver.
Qed.

Lemma isApproved_true db id : isApproved db id = true ->
  exists r, r ∈ rows (agents db) /\ agent_id r = id /\ agent_status r = "approved".
Proof.
  unfold isApproved. destruct (select_first _ _) as [r|] eqn:Hs; [|done].
  apply select_first_Some in Hs as [Hr Hid%is_agent_iff]. intros ?%String.eqb_eq. by exists r.
Qed.

(** The row of a raw key, when hashes identify keys. *)
Lemma resolveAgentKey_iff db raw row : unique_key akey_keyHash (agentKeys db) ->
  resolveAgentKey db raw = Some row <->
  row ∈ rows (agentKeys db) /\ akey_keyHash row = sha256 raw /\ akey_disabled row = false.
Proof.
  intros Hu. unfold resolveAgentKey. destruct (select_first _ _) as [k|] eqn:Hs.
  - apply (select_first_iff akey_keyHash (sha256 raw)) in Hs as [Hk Hh];
      [|done|intros; apply String.eqb_eq].
    destruct (akey_disabled k) eqn:Hd; split; try done.
    + intros (Hr & Hrh & Hrd). assert (row = k) as -> by (eapply (unique_key_inj akey_keyHash); [exact Hu|done|done|congruence]).
      congruence.
    + by intros [= <-].
    + intros (Hr & Hrh & Hrd). f_equal. eapply (unique_key_inj akey_keyHash); [exact Hu|done|done|congruence].
  - split; [done|]. intros (Hr & Hh & _). rewrite select_first_None in Hs. specialize (Hs row Hr).
    simpl in Hs. by rewrite Hh, String.eqb_refl in Hs.
Qed.

Lemma isApproved_iff db id : unique_key agent_id (agents db) ->
  isApproved db id = true <->
  exists r, r ∈ rows (agents db) /\ agent_id r = id /\ agent_status r = "approved".
Proof.
  intros Hu. split; [apply isApproved_true|]. intros (r & Hr & Hid & Hst). unfold isApproved.
  assert (Hs : select_first (is_agent id) (agents db) = Some r) by
    (apply (select_first_iff agent_id id); [done|intros; apply is_agent_iff|done]).
  rewrite Hs. by apply String.eqb_eq.
Qed.

(** The agent's endpoints work for agent [a] exactly when the presented key is that of a row
    that is not disabled and is bound to [a], and [a] is approved; the check itself changes
    nothing but when the key was last used. *)
Theorem requireApproved_spec now db header a
    (Hk : unique_key akey_keyHash (agentKeys db)) (Ha : unique_key agent_id (agents db)) :
  let '(db', r) := requireApproved now db header in
  (r = Ok a <-> exists raw row ag, header = Some raw /\ raw <> "" /\
     row ∈ rows (agentKeys db) /\ akey_keyHash row = sha256 raw /\ akey_disabled row = false /\
     akey_agentId row = Some a /\ a <> "" /\
     ag ∈ rows (agents db) /\ agent_id ag = a /\ agent_status ag = "approved") /\
  agents db' = agents db /\ monitors db' = monitors db /\ secrets db' = secrets db /\
  agentCommands db' = agentCommands db /\
  map akey_agentId (rows (agentKeys db')) ≡ₚ map akey_agentId (rows (agentKeys db)) /\
  map akey_disabled (rows (agentKeys db')) ≡ₚ map akey_disabled (rows (agentKeys db)).
Proof.
  unfold requireApproved, requireKey. destruct (nonempty header) as [raw|] eqn:Hn.
  2: { split; [|done]. split; [done|]. intros (raw & row & ag & -> & Hne & _).
       assert (nonempty (Some raw) = Some raw) by by apply nonempty_Some. congruence. }
  apply nonempty_Some in Hn as [-> Hne]. destruct (resolveAgentKey db raw) as [row|] eqn:Hr.
  2: { split; [|done]. split; [done|]. intros (raw' & row & ag & [= <-] & _ & Hrow & Hh & Hd & _).
       assert (resolveAgentKey db raw = Some row) by by apply resolveAgentKey_iff. congruence. }
  split; [|do 4 (split; [done|]); split;
    (cbn [touchKeyUsage with_agentKeys agentKeys]; rewrite rows_update, map_map;
     erewrite map_ext; [done|]; intros k; by destruct (is_key _ k))].
  change (isApproved (touchKeyUsage now db (akey_id row))) with (isApproved db).
  apply resolveAgentKey_iff in Hr as (Hrow & Hh & Hd); [|done]. split.
  - destruct (nonempty (akey_agentId row)) as [b|] eqn:Hb; [|done].
    destruct (isApproved db b) eqn:Hap; [|done]. intros [= ->]. apply nonempty_Some in Hb as [Hb Hbe].
    apply isApproved_true in Hap as (ag & Hag & Hid & Hst). exists raw, row, ag. tauto.
  - intros (raw' & row' & ag & [= <-] & _ & Hrow' & Hh' & Hd' & Hb & Hbe & Hag & Hid & Hst).
    assert (row' = row) as -> by (eapply (unique_key_inj akey_keyHash); [exact Hk|done|done|congruence]).
    rewrite (proj2 (nonempty_Some _ a)) by done. rewrite (proj2 (isApproved_iff db a Ha)); [done|].
    by exists ag.
Qed.

(** ** Approval is the operator's *)

(** Whoever is approved in the second state was in the first. *)
Definition no_new_approval db db' : Prop :=
  forall r', r' ∈ rows (agents db') -> agent_status r' = "approved" ->
    exists r, r ∈ rows (agents db) /\ agent_id r = agent_id r' /\ agent_status r = "approved".

Lemma no_new_same db db' : agents db' = agents db -> no_new_approval db db'.
Proof. intros He r Hr Hs. rewrite He in Hr. by exists r. Qed.

Lemma no_new_trans db1 db2 db3 :
  no_new_approval db1 db2 -> no_new_approval db2 db3 -> no_new_approval db1 db3.
Proof.
  intros H1 H2 r3 Hr3 Hs3. destruct (H2 r3 Hr3 Hs3) as (r2 & Hr2 & Hi2 & Hs2).
  destruct (H1 r2 Hr2 Hs2) as (r1 & Hr1 & Hi1 & Hs1). exists r1. split; [done|]. by rewrite Hi1.
Qed.

Lemma no_new_update p f db :
  (forall r, agent_id (f r) = agent_id r /\ agent_status (f r) = agent_status r) ->
  no_new_approval db (with_agents (update_where p f (agents db)) db).
Proof.
  intros Hf r' (r & Hr & ->)%elem_of_update Hs. exists r. split; [done|].
  destruct (Hf r) as [Hi Hst]. revert Hs. destruct (p r); [|done]. by rewrite Hi, Hst.
Qed.

Lemma register_fields_keep now req r :
  agent_id (register_fields now req r) = agent_id r /\
  agent_status (register_fields now req r) = agent_status r.
Proof. unfold register_fields. by destruct (nonempty _). Qed.

Lemma ensureDefaultPing_agents now pid db a addr :
  agents (ensureDefaultPingMonitor now pid db a addr).1 = agents db.
Proof.
  unfold ensureDefaultPingMonitor. destruct (nonempty addr); [|done].
  destruct (existsb _ _); [done|]. unfold createMonitor. by destruct (exists_row _ _).
Qed.

Lemma registerAgent_keeps now id db k req : no_new_approval db (registerAgent now id db k req).1.
Proof.
  unfold registerAgent. set (bound := match nonempty (akey_agentId k) with Some _ => _ | None => _ end).
  assert (Hb : forall db' row, bound = Some (db', row) -> no_new_approval db db').
  { intros db' row. unfold bound. destruct (nonempty _) as [a|]; [|done]. unfold update_returning.
    destruct (select_first _ _) as [x|]; simpl; [|done]. intros [= <- _].
    apply no_new_update. intros r. apply register_fields_keep. }
  destruct bound as [[db' row]|]; [by apply (Hb db' row)|].
  intros r' Hr' Hs. cbn in Hr'. apply elem_of_insert in Hr' as [->|Hr']; [|by exists r'].
  by rewrite (proj2 (register_fields_keep _ _ _)) in Hs.
Qed.

Lemma requireKey_agents now db header : agents (requireKey now db header).1 = agents db.
Proof.
  unfold requireKey. destruct (nonempty header); [|done]. by destruct (resolveAgentKey _ _).
Qed.

Lemma agent_step_keeps db db' : agent_step db db' -> no_new_approval db db'.
Proof.
  intros H.
  destruct H as [now id pid hd body db Hfresh|now TZ enc settings hd db|now inv hd sv pr db|now id db].
  - unfold post_register. pose proof (requireKey_agents now db hd) as Hk.
    destruct (requireKey now db hd) as [db1 [row|e]]; [|by apply no_new_same].
    pose proof (registerAgent_keeps now id db1 row body) as Hr.
    destruct (registerAgent now id db1 row body) as [db2 res]. simpl in Hk, Hr.
    apply (no_new_trans db db1); [by apply no_new_same|]. apply (no_new_trans db1 db2); [done|].
    destruct (String.eqb (snd res) "approved"); [|by apply no_new_same].
    pose proof (ensureDefaultPing_agents now pid db2 (fst res) (rr_address body)) as Hp.
    destruct (ensureDefaultPingMonitor _ _ _ _ _) as [db3 r3]. by apply no_new_same.
  - apply no_new_same. unfold get_config, requireApproved. pose proof (requireKey_agents now db hd).
    by destruct (requireKey now db hd).
  - apply no_new_same. unfold post_inventory, requireApproved. pose proof (requireKey_agents now db hd).
    destruct (requireKey now db hd) as [db1 r]. simpl in *. by destruct (let? row := r in _).
  - apply no_new_update. done.
Qed.

(** C20: an agent that is pending or revoked cannot get in by itself: whatever agents send, with
    whatever keys, no key opens its endpoints until an operator approves it. *)
Theorem approval_needs_operator db db' id
    (Hr : rtc agent_step db db')
    (Hid : forall r, r ∈ rows (agents db) -> agent_id r = id -> agent_status r <> "approved") :
  forall now header, (requireApproved now db' header).2 <> Ok id.
Proof.
  assert (Hk : no_new_approval db db').
  { induction Hr as [|d1 d2 d3 Hs Hr IH]; [by apply no_new_same|].
    apply (no_new_trans d1 d2); [by apply agent_step_keeps|]. apply IH.
    intros r Hin Hi Hst. destruct (agent_step_keeps d1 d2 Hs r Hin Hst) as (r1 & Hr1 & Hi1 & Hs1).
    apply (Hid r1 Hr1); congruence. }
  intros now header H. unfold requireApproved in H. pose proof (requireKey_agents now db' header) as Hag.
  destruct (requireKey now db' header) as [db1 [row|e]]; simpl in H, Hag; [|done].
  destruct (nonempty _) as [a|]; [|done]. destruct (isApproved db1 a) eqn:Hap; [|done].
  injection H as ->. apply isApproved_true in Hap as (r' & Hr' & Hi' & Hs'). rewrite Hag in Hr'.
  destruct (Hk r' Hr' Hs') as (r & Hrr & Hri & Hrs). apply (Hid r Hrr); congruence.
Qed.

(** ** Registration *)

(** A registration with a bound key refreshes the agent's row. *)
Lemma register_bound now id db k req a x :
  akey_agentId k = Some a -> a <> "" -> select_first (is_agent a) (agents db) = Some x ->
  registerAgent now id db k req =
    (with_agents (update_where (is_agent a) (register_fields now req) (agents db)) db,
     (agent_id x, agent_status x)).
Proof.
  intros Hb Hne Hs. unfold registerAgent, update_returning.
  rewrite (proj2 (nonempty_Some (akey_agentId k) a)), Hs by done. simpl.
  by destruct (register_fields_keep now req x) as [-> ->].
Qed.

(** One with an unbound key makes a pending agent and binds the key to it. *)
Lemma register_unbound now id db k req : nonempty (akey_agentId k) = None ->
  registerAgent now id db k req =
    (with_agentKeys (update_where (is_key (akey_id k)) (set_akey_agentId (Some id)) (agentKeys db))
       (with_agents (insert_row (register_fields now req (new_agent now id
          (default (default "agent" (rr_hostname req)) (rr_name req)) "agent" "pending")) (agents db)) db),
     (id, "pending")).
Proof.
  intros Hb. unfold registerAgent. rewrite Hb. cbv beta iota zeta.
  by destruct (register_fields_keep now req (new_agent now id
    (default (default "agent" (rr_hostname req)) (rr_name req)) "agent" "pending")) as [-> ->].
Qed.

(** Registering is idempotent: whatever the key was bound to before, a second registration
    with the same key gives the same agent and status, binds no key and adds no agent. *)
Theorem register_idempotent now id now' id' raw row req req' db
    (Hk : unique_key akey_keyHash (agentKeys db)) (Hi : unique_key akey_id (agentKeys db))
    (Ha : unique_key agent_id (agents db)) (Hr : resolveAgentKey db raw = Some row)
    (Hne : id <> "") (Hfresh : forall r, r ∈ rows (agents db) -> agent_id r <> id)
    (Hfk : forall a, akey_agentId row = Some a -> exists_row (is_agent a) (agents db) = true) :
  let '(db1, res) := registerAgent now id db row req in
  exists row1, resolveAgentKey db1 raw = Some row1 /\ akey_agentId row1 = Some (fst res) /\
    let '(db2, res') := registerAgent now' id' db1 row1 req' in
    res' = res /\ agentKeys db2 = agentKeys db1 /\
    map agent_id (rows (agents db2)) ≡ₚ map agent_id (rows (agents db1)).
Proof.
  assert (Hids : forall t a rq n, map agent_id (rows (update_where (is_agent a) (register_fields n rq) t))
    ≡ₚ map agent_id (rows (t : T AgentRow))).
  { intros t a rq n. rewrite rows_update, map_map. erewrite map_ext; [done|]. intros r.
    destruct (is_agent a r); [apply register_fields_keep|done]. }
  pose proof Hr as Hrow. apply resolveAgentKey_iff in Hrow as (Hrow & Hh & Hd); [|done].
  destruct (nonempty (akey_agentId row)) as [a|] eqn:Hb.
  - apply nonempty_Some in Hb as [Hb Hae]. pose proof (Hfk a Hb) as He.
    destruct (select_first (is_agent a) (agents db)) as [x|] eqn:Hx.
    2: { rewrite select_first_None in Hx. apply existsb_true in He as (y & Hy & Hya). by rewrite Hx in Hya. }
    rewrite (register_bound now id db row req a x Hb Hae Hx). exists row. split; [exact Hr|].
    pose proof (select_first_update agent_id a (is_agent a) (register_fields now req) (agents db) x Ha
      (is_agent_iff a) (fun r => proj1 (register_fields_keep now req r)) Hx) as Hx1.
    apply select_first_Some in Hx as [_ Hxa%is_agent_iff]. cbn [fst]. rewrite Hxa. split; [done|].
    rewrite (register_bound now' id' (with_agents (update_where (is_agent a) (register_fields now req)
      (agents db)) db) row req' a _ Hb Hae Hx1). cbn [with_agents agents agentKeys].
    destruct (register_fields_keep now req x) as [-> ->]. rewrite Hxa. auto.
  - rewrite (register_unbound now id db row req Hb). set (created := register_fields now req _).
    set (row1 := set_akey_agentId (Some id) row).
    exists row1. set (db1 := with_agentKeys _ _).
    assert (Hid : agent_id created = id) by apply register_fields_keep.
    assert (Hst : agent_status created = "pending") by apply register_fields_keep.
    assert (Hu1 : unique_key agent_id (agents db1)).
    { apply unique_key_insert; [done|]. intros r Hin. rewrite Hid. by apply Hfresh. }
    assert (Hc : select_first (is_agent id) (agents db1) = Some created).
    { apply (select_first_iff agent_id id); [done|intros; apply is_agent_iff|].
      split; [apply elem_of_insert; by left|done]. }
    split.
    { apply resolveAgentKey_iff; [by apply unique_key_update|]. split; [|done].
      apply elem_of_update. exists row. split; [done|].
      by rewrite (proj2 (is_key_iff (akey_id row) row) eq_refl). }
    split; [done|]. rewrite (register_bound now' id' db1 row1 req' id created eq_refl Hne Hc).
    cbn [with_agents agents agentKeys]. rewrite Hid, Hst. auto.
Qed.

(** ** Configuration *)

Lemma strip_slashes_end s t : strip_slashes s <> t +:+ "/".
Proof.
  revert t. induction s as [|c s IH]; intros t; simpl.
  - intros H. apply (f_equal String.length) in H. rewrite str_length_app in H. simpl in H. lia.
  - destruct (strip_slashes s) as [|d u] eqn:Hs.
    + destruct (Ascii.eqb_spec c "/") as [->|Hc]; intros H.
      * apply (f_equal String.length) in H. rewrite str_length_app in H. simpl in H. lia.
      * destruct t as [|e t]; [by injection H|]. injection H as _ H.
        apply (f_equal String.length) in H. rewrite str_length_app in H. simpl in H. lia.
    + intros H. destruct t as [|e t]; [by injection H|]. rewrite app_cons_string in H.
      injection H as _ H. by apply (IH t).
Qed.

(** Whatever the settings and the override hold, an agent is told to push every 5 to 3600
    seconds, and to push also to distinct http(s) base URLs without a trailing slash. *)
Theorem agent_config_bounds settings db agentId :
  AGENT_PUSH_INTERVAL_MIN <= effectivePushInterval settings db agentId <= AGENT_PUSH_INTERVAL_MAX /\
  NoDup (effectiveIngestHosts settings) /\
  forall url, url ∈ effectiveIngestHosts settings ->
    is_base_url url = true /\ forall t, url <> t +:+ "/".
Proof.
  split; [|split].
  - assert (Hc : forall q, AGENT_PUSH_INTERVAL_MIN <= clampPushInterval q <= AGENT_PUSH_INTERVAL_MAX)
      by (intros q; unfold clampPushInterval, AGENT_PUSH_INTERVAL_MIN, AGENT_PUSH_INTERVAL_MAX; lia).
    unfold effectivePushInterval. destruct (match select_first _ _ with Some a => _ | None => _ end); apply Hc.
  - unfold effectiveIngestHosts. destruct (getSetting _ _) as [[]|]; try apply NoDup_nil_2.
    apply NoDup_js_set.
  - intros url Hu. unfold effectiveIngestHosts in Hu.
    destruct (getSetting _ _) as [[| | | |l|]|]; try (by apply not_elem_of_nil in Hu).
    apply elem_of_js_set, list_elem_of_omap in Hu as (v & _ & Hv). unfold clean_url in Hv.
    destruct v; try done. destruct (is_base_url _) eqn:Hb; [|done]. injection Hv as <-.
    split; [done|]. intros t. apply strip_slashes_end.
Qed.

(** ** Deletion *)

(** The loop that drops the credentials. *)
Lemma elem_of_creds ids db s :
  s ∈ rows (secrets (fold_left deleteMonitorCred ids db)) <->
  s ∈ rows (secrets db) /\ forall m, m ∈ ids -> secret_ref s <> cred_ref m /\ secret_ref s <> legacy_ref m.
Proof.
  revert db. induction ids as [|i ids IH]; intros db; simpl.
  - split; [|tauto]. intros H. split; [done|]. by intros m ?%not_elem_of_nil.
  - rewrite IH. cbn [deleteMonitorCred with_secrets secrets]. rewrite elem_of_delete, includes_false.
    split.
    + intros [[Hs Hn] Hm]. split; [done|]. intros m [->|Hin]%elem_of_cons; [|by apply Hm].
      split; intros He; apply Hn; rewrite He; [apply list_elem_of_here|].
      apply list_elem_of_further, list_elem_of_here.
    + intros [Hs Hm]. split; [split; [done|]|].
      * destruct (Hm i (list_elem_of_here _ _)) as [H1 H2].
        by intros [He|[He|?%not_elem_of_nil]%elem_of_cons]%elem_of_cons.
      * intros m Hin. apply Hm. by apply list_elem_of_further.
Qed.

Lemma fold_creds_other ids db :
  let db' := fold_left deleteMonitorCred ids db in
  agents db' = agents db /\ agentKeys db' = agentKeys db /\ agentCommands db' = agentCommands db /\
  monitors db' = monitors db.
Proof. revert db. induction ids as [|i ids IH]; intros db; simpl; [done|]. apply (IH (deleteMonitorCred db i)). Qed.

(** The rows of no table of the history, but the per-process samples, name the agent or one of
    the monitors. *)
Definition history_free (id : string) (mids : list string) (h : HistoryDb T) : Prop :=
  (forall r, r ∈ rows (h_unitStates h) -> us_sourceId r <> id) /\
  (forall r, r ∈ rows (h_statusEvents h) -> ev_sourceId r <> id) /\
  (forall r, r ∈ rows (h_clientEvents h) -> cev_sourceId r <> id) /\
  (forall r, r ∈ rows (h_uptimeBuckets h) -> ub_sourceId r <> id) /\
  (forall r, r ∈ rows (h_hostMetrics h) -> hm_agentId r <> id) /\
  (forall r, r ∈ rows (h_pingSamples h) -> ps_sourceId r <> id) /\
  (forall r, r ∈ rows (h_logs h) -> log_sourceId r <> Some id) /\
  (forall r, r ∈ rows (h_notifications h) -> note_sourceId r <> Some id) /\
  (forall r, r ∈ rows (h_dbMetrics h) -> dbm_monitorId r ∉ mids) /\
  (forall r, r ∈ rows (h_snmpMetrics h) -> snm_monitorId r ∉ mids) /\
  (forall r, r ∈ rows (h_storageMetrics h) -> sm_storageId r ∉ mids) /\
  (forall r, r ∈ rows (h_folderMetrics h) -> fm_storageId r ∉ mids) /\
  (forall r, r ∈ rows (h_hostInventory h) -> inv_agentId r <> id).

Lemma purge_free id mids h : (forall r, r ∈ rows (h_hostInventory h) -> inv_agentId r <> id) ->
  history_free id mids (purgeAgentTelemetry h id mids).
Proof.
  intros Hinv. unfold history_free, purgeAgentTelemetry.
  assert (Hm : forall R (key : R -> string) (t : T R) r,
    r ∈ rows (if Nat.eqb (List.length mids) 0 then t else delete_where (fun r => includes mids (key r)) t) ->
    key r ∉ mids).
  { intros R key t r. destruct (Nat.eqb_spec (List.length mids) 0) as [He|_].
    - apply length_zero_iff_nil in He as ->. intros _. apply not_elem_of_nil.
    - by intros [_ Hn%includes_false]%elem_of_delete. }
  repeat split; cbn; try (by intros r [_ Hn%String.eqb_neq]%elem_of_delete);
    try (by intros r [_ Hn%bool_decide_eq_false]%elem_of_delete); try (by intros r; apply Hm).
  exact Hinv.
Qed.

(** Deleting an agent leaves nothing of it: no row, key, command or monitor of it, no
    credential of its monitors, no tile of either on an editable board, and no history but its
    per-process samples; other agents' rows stay. *)
Theorem delete_agent_clean now db boards h id
    (Hid : exists_row (is_agent id) (agents db) = true) (Hb : unique_key layout_id boards) :
  let mids := map mon_id (listMonitors db (Some id)) in
  let '(db', boards', h', ok) := delete_agent now db boards h id in
  id <> "" ->
  ok = true /\
  (forall r, r ∈ rows (agents db') <-> r ∈ rows (agents db) /\ agent_id r <> id) /\
  (forall k, k ∈ rows (agentKeys db') <-> k ∈ rows (agentKeys db) /\ akey_agentId k <> Some id) /\
  (forall c, c ∈ rows (agentCommands db') <-> c ∈ rows (agentCommands db) /\ cmd_agentId c <> id) /\
  (forall m, m ∈ rows (monitors db') <-> m ∈ rows (monitors db) /\ mon_agentId m <> id) /\
  (forall m s, m ∈ rows (monitors db) -> mon_agentId m = id -> s ∈ rows (secrets db') ->
     secret_ref s <> cred_ref (mon_id m) /\ secret_ref s <> legacy_ref (mon_id m)) /\
  (forall b ws w, b ∈ rows boards' -> layout_isSystem b = false -> layout_isDefault b = false ->
     map_get "widgets" (layout_content b) = Some (JArr ws) -> w ∈ ws -> refers (id :: mids) w = false) /\
  history_free id mids h'.
Proof.
  intros mids. unfold delete_agent. fold mids. unfold deleteAgent.
  destruct (fold_creds_other mids db) as (Hag & Hkeys & Hcmd & Hmon). rewrite Hag, Hid.
  cbn [negb]. intros Hne. split; [done|]. cbn [agents agentKeys agentCommands monitors secrets].
  rewrite Hkeys, Hcmd, Hmon. setoid_rewrite elem_of_delete. split; [|split; [|split; [|split]]].
  - intros r. unfold is_agent. by rewrite String.eqb_neq.
  - intros k. by rewrite bool_decide_eq_false.
  - intros c. by rewrite String.eqb_neq.
  - intros m. unfold of_agent. by rewrite String.eqb_neq.
  - split; [|split].
    + intros m s Hm Hma Hs. apply elem_of_creds in Hs as [_ Hs]. apply Hs. unfold mids.
      apply elem_of_map. exists m. split; [done|]. unfold listMonitors.
      rewrite (proj2 (nonempty_Some (Some id) id)) by done. apply elem_of_select. split; [done|].
      by apply String.eqb_eq.
    + intros b ws w Hbb Hsys Hdef Hw Hin. rewrite (prune_rows now (id :: mids) boards Hb) in Hbb.
      by apply (pruned_free now (id :: mids) boards b ws w).
    + apply purge_free. cbn. by intros r [_ Hn%String.eqb_neq]%elem_of_delete.
Qed.
End theorems.

(** ** Witnesses *)

Definition w_key (id raw : string) (agentId : option string) : AgentKeyRow := {|
  akey_id := id; akey_agentId := agentId; akey_label := ""; akey_keyHash := toy_sha raw;
  akey_secretRef := None; akey_disabled := false; akey_lastUsedAt := None; akey_createdAt := 1;
  akey_updatedAt := 1 |}.

Definition w_keyed : FleetDb list := {|
  agents := [w_agent "a1" "approved"; w_agent "a2" "revoked"];
  agentKeys := [w_key "k1" "argus_one" (Some "a1"); w_key "k2" "argus_two" (Some "a2");
                w_key "k3" "argus_new" None];
  agentCommands := []; monitors := []; secrets := [] |}.

Lemma nodup_check (l : list string) : bool_decide (NoDup l) = true -> NoDup l.
Proof. apply bool_decide_eq_true. Qed.

Lemma requireApproved_spec_witness :
  (requireApproved (HS := toy_sha) 7 w_keyed (Some "argus_one")).2 = Ok "a1" /\
  (requireApproved (HS := toy_sha) 7 w_keyed (Some "argus_two")).2 <> Ok "a2".
Proof.
  assert (Hk : unique_key akey_keyHash (agentKeys w_keyed)) by (apply nodup_check; reflexivity).
  assert (Ha : unique_key agent_id (agents w_keyed)) by (apply nodup_check; reflexivity).
  split.
  - apply (proj1 (requireApproved_spec (T := list) (HS := toy_sha) 7 w_keyed (Some "argus_one") "a1" Hk Ha)).
    exists "argus_one", (w_key "k1" "argus_one" (Some "a1")), (w_agent "a1" "approved").
    repeat (split; [first [reflexivity|discriminate|apply list_elem_of_here]|]). reflexivity.
  - intros H. apply (proj1 (requireApproved_spec (T := list) (HS := toy_sha) 7 w_keyed (Some "argus_two")
      "a2" Hk Ha)) in H.
    destruct H as (raw & row & ag & _ & _ & _ & _ & _ & _ & _ & Hag & Hid & Hst).
    apply elem_of_cons in Hag as [->|[->|Hn%not_elem_of_nil]%elem_of_cons]; [discriminate|discriminate|done].
Defined.

Lemma approval_needs_operator_witness :
  (requireApproved (HS := toy_sha) 9
     (post_register (HS := toy_sha) 8 "a9" "p9" w_keyed (Some "argus_two")
        {| rr_name := Some "back"; rr_hostname := None; rr_platform := None; rr_version := None;
           rr_address := None; rr_buildTime := None |}).1 (Some "argus_two")).2 <> Ok "a2".
Proof.
  apply (approval_needs_operator (T := list) (HG := toy_gcm) (HS := toy_sha) w_keyed).
  - apply rtc_once. apply agent_register. reflexivity.
  - intros r Hr Hid.
    apply elem_of_cons in Hr as [->|[->|Hn%not_elem_of_nil]%elem_of_cons]; [discriminate|discriminate|done].
Defined.

Definition w_request : AgentRegisterRequest := {|
  rr_name := None; rr_hostname := Some "srv"; rr_platform := None; rr_version := None;
  rr_address := None; rr_buildTime := None |}.

Lemma register_idempotent_witness :
  let '(db1, res) := registerAgent 7 "a3" w_keyed (w_key "k3" "argus_new" None) w_request in
  exists row1, resolveAgentKey (HS := toy_sha) db1 "argus_new" = Some row1 /\
    snd (registerAgent 8 "a4" db1 row1 w_request) = res /\ res = ("a3", "pending").
Proof.
  pose proof (register_idempotent (T := list) (HS := toy_sha) 7 "a3" 8 "a4" "argus_new"
    (w_key "k3" "argus_new" None) w_request w_request w_keyed) as H.
  destruct (registerAgent 7 "a3" _ _ _) as [db1 res] eqn:Hr.
  destruct H as (row1 & H1 & _ & H2).
  - apply nodup_check; reflexivity.
  - apply nodup_check; reflexivity.
  - apply nodup_check; reflexivity.
  - reflexivity.
  - discriminate.
  - intros r Hin Hid.
    apply elem_of_cons in Hin as [->|[->|Hn%not_elem_of_nil]%elem_of_cons]; [discriminate|discriminate|done].
  - discriminate.
  - exists row1. split; [exact H1|]. destruct (registerAgent 8 "a4" _ _ _) as [db2 res'].
    split; [exact (proj1 H2)|]. by injection Hr.
Defined.

Definition w_history : HistoryDb list := {|
  h_unitStates := [{| us_sourceId := "a1"; us_entity := "db"; us_status := "UP"; us_pid := None;
                      us_critical := true; us_sample := None; us_updatedAt := 1 |}];
  h_statusEvents := []; h_clientEvents := []; h_uptimeBuckets := []; h_hostMetrics := [];
  h_pingSamples := []; h_logs := []; h_notifications := []; h_dbMetrics := []; h_snmpMetrics := [];
  h_storageMetrics := []; h_folderMetrics := []; h_processMetrics := []; h_hostInventory := [] |}.

Lemma delete_agent_clean_witness :
  let '(db', _, h', ok) := delete_agent 9 w_keyed w_seeded w_history "a1" in
  ok = true /\ (forall k, k ∈ agentKeys db' -> akey_agentId k <> Some "a1") /\
  (forall u, u ∈ h_unitStates h' -> us_sourceId u <> "a1").
Proof.
  pose proof (delete_agent_clean (T := list) 9 w_keyed w_seeded w_history "a1" eq_refl
    ltac:(apply nodup_check; reflexivity)) as H.
  destruct (delete_agent 9 w_keyed w_seeded w_history "a1") as [[[db' b'] h'] ok].
  destruct H as (H1 & _ & H2 & _ & _ & _ & _ & H3); [discriminate|].
  split; [exact H1|]. split; [|exact (proj1 H3)]. intros k Hk. exact (proj2 (proj1 (H2 k) Hk)).
Defined.
