(* ===== verification/Control.v ===== *)
(** * The agent control channel

    Models apps/backend/src/services/agent-commands.ts and agent-hub.ts, the socket handler
    plugins/agent-ws.ts and the command handlers of routes/agents.routes.ts. The handlers are
    asynchronous: a [task] is what is left of one at an [await], [run_task] runs it to the next,
    and a [step] runs any task or takes a new event, so that handlers interleave as they do in
    the process. The sockets are those of the ws package: a send on a socket that is not open is
    dropped. Broadcasts to operators and scan messages are not part of the model. *)
From S2P Require Import Prelude Text Store Schema RowUpdates Crypto Auth Directory Devices.
From S2P Require Import Monitors Agents.

Record AgentCommandDTO : Type := {
  cd_id : string; cd_agentId : string; cd_type : string;
  cd_payload : option (list (string * json)); cd_status : string; cd_createdAt : Z
}.

Definition command_toDTO (r : AgentCommandRow) : AgentCommandDTO := {|
  cd_id := cmd_id r; cd_agentId := cmd_agentId r; cd_type := cmd_type r; cd_payload := cmd_payload r;
  cd_status := cmd_status r; cd_createdAt := cmd_createdAt r |}.

Inductive ServerToAgent : Type :=
| Registered (agentId status : string)
| Command (command : AgentCommandDTO)
| PongMsg.

Inductive AgentToServer : Type :=
| RegisterMsg (body : AgentRegisterRequest)
| HeartbeatMsg
| AckMsg (commandId : string).

(** A connected socket: the key it presented, [readyState], what was sent on it, and the agents
    it registered, the latest first: the handler's variable [agentId] is the first. *)
Record Socket : Type := {
  sk_key : option string; sk_readyState : Z; sk_out : list ServerToAgent; sk_ids : list string
}.

Definition OPEN : Z := 1.
Definition CLOSING : Z := 2.
Definition CLOSED : Z := 3.

Definition no_socket : Socket := {|
  sk_key := None; sk_readyState := CLOSED; sk_out := []; sk_ids := [] |}.

Record World (T : Type -> Type) : Type := {
  w_db : FleetDb T; w_sockets : gmap nat Socket; w_hub : list (string * nat)
}.
Arguments w_db {T} _. Arguments w_sockets {T} _. Arguments w_hub {T} _.

Section control.
Context {T : Type -> Type} {ST : Store T} {HS : Sha256}.
Implicit Types (db : FleetDb T) (w : World T) (agentId : string) (s : nat).

Definition with_db db w : World T := {| w_db := db; w_sockets := w_sockets w; w_hub := w_hub w |}.
Definition with_hub hub w : World T := {| w_db := w_db w; w_sockets := w_sockets w; w_hub := hub |}.

Definition socket w s : Socket := default no_socket (w_sockets w !! s).
Definition set_socket s (k : Socket) w : World T :=
  {| w_db := w_db w; w_sockets := <[s := k]> (w_sockets w); w_hub := w_hub w |}.

(** [socket.send] *)
Definition sock_send s (msg : ServerToAgent) w : World T :=
  let k := socket w s in
  if sk_readyState k =? OPEN
  then set_socket s {| sk_key := sk_key k; sk_readyState := sk_readyState k;
                       sk_out := sk_out k ++ [msg]; sk_ids := sk_ids k |} w
  else w.

Definition sock_state s (state : Z) w : World T :=
  let k := socket w s in
  set_socket s {| sk_key := sk_key k; sk_readyState := state; sk_out := sk_out k;
                  sk_ids := sk_ids k |} w.

(** ** The hub *)

Definition hub_add agentId s w : World T := with_hub (map_set agentId s (w_hub w)) w.

Definition hub_remove agentId w : World T :=
  with_hub (List.filter (fun e => negb (String.eqb (fst e) agentId)) (w_hub w)) w.

Definition isOnline agentId w : bool := bool_decide (is_Some (map_get agentId (w_hub w))).

Definition hub_send agentId (msg : ServerToAgent) w : World T * bool :=
  match map_get agentId (w_hub w) with
  | None => (w, false)
  | Some s => if negb (sk_readyState (socket w s) =? OPEN) then (w, false)
              else (sock_send s msg w, true)
  end.

(** ** Commands *)

Definition is_command (id : string) (r : AgentCommandRow) : bool := String.eqb (cmd_id r) id.

(** The agent must exist: the foreign key. *)
Definition enqueueCommand (now : Z) (id : string) db agentId (type : string)
    (payload : option (list (string * json))) : FleetDb T * result FleetError AgentCommandDTO :=
  let row := {| cmd_id := id; cmd_agentId := agentId; cmd_type := type; cmd_payload := payload;
                cmd_status := "pending"; cmd_sentAt := None; cmd_ackedAt := None;
                cmd_createdAt := now; cmd_updatedAt := now |} in
  if exists_row (is_agent agentId) (agents db)
  then (with_agentCommands (insert_row row (agentCommands db)) db, Ok (command_toDTO row))
  else (db, Err (DbError ForeignKeyViolation)).

Definition markSent (now : Z) db (id : string) : FleetDb T :=
  with_agentCommands (update_where (is_command id)
    (fun r => set_cmd_status "sent" (set_cmd_sentAt (Some now) r)) (agentCommands db)) db.

Definition markAcked (now : Z) db (id : string) : FleetDb T :=
  with_agentCommands (update_where (is_command id)
    (fun r => set_cmd_status "acked" (set_cmd_ackedAt (Some now) r)) (agentCommands db)) db.

Definition listCommands db agentId : list AgentCommandDTO :=
  map command_toDTO (select (fun r => String.eqb (cmd_agentId r) agentId) (agentCommands db)).

Definition is_pending agentId (r : AgentCommandRow) : bool :=
  String.eqb (cmd_agentId r) agentId && String.eqb (cmd_status r) "pending".

Definition listUndelivered db agentId : list AgentCommandDTO :=
  map command_toDTO (select (is_pending agentId) (agentCommands db)).

(** Sent when the hub takes it; the state when nothing comes in between. *)
Definition push_command (now : Z) agentId (command : AgentCommandDTO) w : World T :=
  let '(w, sent) := hub_send agentId (Command command) w in
  if sent then with_db (markSent now (w_db w) (cd_id command)) w else w.

Definition dispatchCommand (now : Z) (id : string) w agentId (type : string)
    (payload : option (list (string * json))) : World T * result FleetError AgentCommandDTO :=
  let '(db, r) := enqueueCommand now id (w_db w) agentId type payload in
  match r with
  | Err e => (with_db db w, Err e)
  | Ok command => (push_command now agentId command (with_db db w), Ok command)
  end.

Definition flushPending (now : Z) w agentId : World T :=
  fold_left (fun w command => push_command now agentId command w) (listUndelivered (w_db w) agentId) w.

(** ** Command handlers of the operator *)

(** [POST /api/agents/:id/restart]: the command and whether it was delivered. *)
Definition post_restart (now : Z) (id : string) w agentId
  : World T * result FleetError (option (AgentCommandDTO * bool)) :=
  if negb (exists_row (is_agent agentId) (agents (w_db w))) then (w, Ok None) else
  let '(w, r) := dispatchCommand now id w agentId "restart" None in
  (w, let? command := r in Ok (Some (command, String.eqb (cd_status command) "sent"))).

(** [POST /api/agents/sync-config]: [intervals] gives each agent's cadence, [ids] the new ids. *)
Fixpoint sync_config (now : Z) (ids : nat -> string) (interval : string -> Z) w
    (all : list AgentDTO) : World T * result FleetError nat :=
  match all with
  | [] => (w, Ok 0%nat)
  | a :: all =>
      if negb (String.eqb (ag_kind a) "agent") || negb (String.eqb (ag_status a) "approved")
      then sync_config now ids interval w all else
      let '(w, r) := dispatchCommand now (ids (List.length all)) w (ag_id a) "config"
        (Some [("intervalSec", JNum (inject_Z (interval (ag_id a))))]) in
      match r with
      | Err e => (w, Err e)
      | Ok _ =>
          let '(w, r) := sync_config now ids interval w all in
          (w, let? n := r in Ok (S n))
      end
  end.

(** ** Tasks *)

(** What is left of a handler at an [await]; [res] is what the registration answered, [addr] the
    address the agent reported. *)
Inductive task : Type :=
| Receive (s : nat) (m : AgentToServer)
| Handle (s : nat) (row : AgentKeyRow) (m : AgentToServer)
| Join (s : nat) (row : AgentKeyRow) (res : string * string) (addr : option string)
| Touch (s : nat) (row : AgentKeyRow) (res : string * string) (addr : option string)
| Announce (s : nat) (res : string * string) (addr : option string)
| Flush (s : nat) (res : string * string) (addr : option string)
| Deliver (s : nat) (res : string * string) (addr : option string) (commands : list AgentCommandDTO)
| Mark (s : nat) (res : string * string) (addr : option string) (id : string)
    (commands : list AgentCommandDTO)
| Dispatch (agentId : string) (command : AgentCommandDTO)
| MarkOne (id : string)
| Pong (s : nat).

(** The variable [agentId] of the handlers of a socket, set since a registration. *)
Definition current s (res : string * string) w : string :=
  default (fst res) (head (sk_ids (socket w s))).

(** One task up to its next [await]; [id] is the id of a row it inserts. *)
Definition run_task (now : Z) (id : string) (t : task) w : World T * list task :=
  match t with
  | Receive s m =>
      match nonempty (sk_key (socket w s)) with
      | None => (sock_state s CLOSING w, [])
      | Some raw =>
          match resolveAgentKey (w_db w) raw with
          | None => (sock_state s CLOSING w, [])
          | Some row => (w, [Handle s row m])
          end
      end
  | Handle s row (RegisterMsg body) =>
      let '(db, res) := registerAgent now id (w_db w) row body in
      (with_db db w, [Join s row res (rr_address body)])
  | Handle s row HeartbeatMsg =>
      match head (sk_ids (socket w s)) with
      | Some a => (with_db (touchAgent now (w_db w) a) w, [Pong s])
      | None => (w, [Pong s])
      end
  | Handle s row (AckMsg commandId) => (with_db (markAcked now (w_db w) commandId) w, [])
  | Join s row res addr =>
      let k := socket w s in
      (hub_add (fst res) s (set_socket s {| sk_key := sk_key k; sk_readyState := sk_readyState k;
         sk_out := sk_out k; sk_ids := fst res :: sk_ids k |} w), [Touch s row res addr])
  | Touch s row res addr =>
      (with_db (touchKeyUsage now (w_db w) (akey_id row)) w, [Announce s res addr])
  | Announce s res addr =>
      (sock_send s (Registered (fst res) (snd res)) w, [Flush s (current s res w, snd res) addr])
  | Flush s res addr => (w, [Deliver s res addr (listUndelivered (w_db w) (fst res))])
  | Deliver s res addr [] =>
      if String.eqb (snd res) "approved"
      then (with_db (ensureDefaultPingMonitor now id (w_db w) (current s res w) addr).1 w, [])
      else (w, [])
  | Deliver s res addr (command :: commands) =>
      let '(w, sent) := hub_send (fst res) (Command command) w in
      (w, [if sent then Mark s res addr (cd_id command) commands else Deliver s res addr commands])
  | Mark s res addr id commands =>
      (with_db (markSent now (w_db w) id) w, [Deliver s res addr commands])
  | Dispatch agentId command =>
      let '(w, sent) := hub_send agentId (Command command) w in
      (w, if sent then [MarkOne (cd_id command)] else [])
  | MarkOne id => (with_db (markSent now (w_db w) id) w, [])
  | Pong s => (sock_send s PongMsg w, [])
  end.

(** [socket.on('close')] *)
Definition on_close s w : World T :=
  let w := sock_state s CLOSED w in
  match head (sk_ids (socket w s)) with
  | Some agentId => hub_remove agentId w
  | None => w
  end.

(** The process: the state and the handlers under way. *)
Definition Sys : Type := (World T * list task)%type.

Inductive step : Sys -> Sys -> Prop :=
| step_run now id t l1 l2 w :
    step (w, l1 ++ t :: l2) ((run_task now id t w).1, l1 ++ (run_task now id t w).2 ++ l2)
| step_connect s key l w : w_sockets w !! s = None ->
    step (w, l) (set_socket s {| sk_key := key; sk_readyState := OPEN; sk_out := []; sk_ids := [] |} w, l)
| step_message s m l w : sk_readyState (socket w s) = OPEN -> step (w, l) (w, Receive s m :: l)
| step_close s l w : is_Some (w_sockets w !! s) -> step (w, l) (on_close s w, l)
| step_dispatch now id agentId type payload db command l w :
    enqueueCommand now id (w_db w) agentId type payload = (db, Ok command) ->
    step (w, l) (with_db db w, Dispatch agentId command :: l).
End control.
Arguments Sys : clear implicits.

(** ** What reaches which socket *)

Section theorems.
Context {T : Type -> Type} {ST : Store T} {LT : StoreLaws T} {HS : Sha256}.
Implicit Types (db : FleetDb T) (w : World T) (s : nat).

(** A command of this id was sent on some socket. *)
Definition pushed (id : string) w : Prop :=
  exists s c, Command c ∈ sk_out (socket w s) /\ cd_id c = id.

Record world_ok w : Prop := {
  ok_hub : forall a s, map_get a (w_hub w) = Some s -> a ∈ sk_ids (socket w s);
  ok_out : forall s c, Command c ∈ sk_out (socket w s) -> cd_agentId c ∈ sk_ids (socket w s);
  ok_sent : forall r, r ∈ rows (agentCommands (w_db w)) -> cmd_status r = "sent" ->
    pushed (cmd_id r) w
}.

(** What a task may rely on. *)
Definition task_ok w (t : task) : Prop :=
  match t with
  | Deliver _ res _ cs => forall c, c ∈ cs -> cd_agentId c = fst res
  | Mark _ res _ id cs => pushed id w /\ forall c, c ∈ cs -> cd_agentId c = fst res
  | Dispatch a c => cd_agentId c = a
  | MarkOne id => pushed id w
  | _ => True
  end.

(** Sockets only gain messages and registrations. *)
Definition extends w w' : Prop := forall s,
  (forall m, m ∈ sk_out (socket w s) -> m ∈ sk_out (socket w' s)) /\
  (forall a, a ∈ sk_ids (socket w s) -> a ∈ sk_ids (socket w' s)).

Lemma pushed_extends id w w' : extends w w' -> pushed id w -> pushed id w'.
Proof. intros He (s & c & Hc & Hi). exists s, c. split; [by apply He|done]. Qed.

Lemma task_ok_extends w w' t : extends w w' -> task_ok w t -> task_ok w' t.
Proof.
  intros He. destruct t; simpl; try done; [intros [Hp Hc]; split; [|done]|intros Hp];
    by eapply pushed_extends.
Qed.

Lemma socket_set s s' k w : socket (set_socket s k w) s' = if decide (s = s') then k else socket w s'.
Proof.
  unfold socket. cbn [set_socket w_sockets]. case_decide as Hs.
  - subst. by rewrite lookup_insert_eq.
  - by rewrite lookup_insert_ne.
Qed.

Lemma extends_same w w' : (forall s, sk_out (socket w' s) = sk_out (socket w s)) ->
  (forall s, sk_ids (socket w' s) = sk_ids (socket w s)) -> extends w w'.
Proof. intros Ho Hi s. by rewrite Ho, Hi. Qed.

(** A change that leaves the messages, the registrations and the commands alone. *)
Lemma world_ok_same w w' : world_ok w ->
  (forall s, sk_out (socket w' s) = sk_out (socket w s)) ->
  (forall s, sk_ids (socket w' s) = sk_ids (socket w s)) ->
  (forall a s, map_get a (w_hub w') = Some s -> map_get a (w_hub w) = Some s) ->
  (forall r, r ∈ rows (agentCommands (w_db w')) -> cmd_status r = "sent" ->
     pushed (cmd_id r) w \/ exists r0, r0 ∈ rows (agentCommands (w_db w)) /\ cmd_id r0 = cmd_id r /\
       cmd_status r0 = "sent") ->
  world_ok w'.
Proof.
  intros [H1 H2 H3] Ho Hi Hh Hc. split.
  - intros a s Ha. rewrite Hi. by apply H1, Hh.
  - intros s c. rewrite Ho, Hi. apply H2.
  - intros r Hr Hs. apply (pushed_extends _ w); [by apply extends_same|].
    destruct (Hc r Hr Hs) as [Hp|(r0 & Hr0 & Hi0 & Hs0)]; [done|]. rewrite <- Hi0. by apply H3.
Qed.

Lemma world_ok_db db w : world_ok w ->
  (forall r, r ∈ rows (agentCommands db) -> cmd_status r = "sent" ->
     pushed (cmd_id r) w \/ exists r0, r0 ∈ rows (agentCommands (w_db w)) /\ cmd_id r0 = cmd_id r /\
       cmd_status r0 = "sent") ->
  world_ok (with_db db w) /\ extends w (with_db db w).
Proof.
  intros Hok Hc. split; [apply (world_ok_same w); [done|done|done|done|exact Hc]|by apply extends_same].
Qed.

Lemma world_ok_same_commands db w : world_ok w -> agentCommands db = agentCommands (w_db w) ->
  world_ok (with_db db w) /\ extends w (with_db db w).
Proof. intros Hok He. apply world_ok_db; [done|]. intros r Hr Hs. right. exists r. by rewrite <- He. Qed.

(** A mark on a command that was pushed, or that is not "sent". *)
Lemma world_ok_mark db w id f : world_ok w ->
  agentCommands db = update_where (is_command id) f (agentCommands (w_db w)) ->
  (forall r, cmd_id (f r) = cmd_id r) -> (forall r, cmd_status (f r) = "sent" -> pushed id w) ->
  world_ok (with_db db w) /\ extends w (with_db db w).
Proof.
  intros Hok He Hid Hf. apply world_ok_db; [done|]. intros r Hr Hs. rewrite He in Hr.
  apply elem_of_update in Hr as (r0 & Hr0 & ->). destruct (is_command id r0) eqn:Hc.
  - left. rewrite Hid. apply String.eqb_eq in Hc. rewrite Hc. by apply (Hf r0).
  - right. by exists r0.
Qed.

Lemma registerAgent_commands now id db k req :
  agentCommands (registerAgent now id db k req).1 = agentCommands db.
Proof.
  unfold registerAgent. destruct (nonempty _) as [a|]; [|done].
  unfold update_returning. by destruct (select_first _ _).
Qed.

Lemma ensureDefaultPing_commands now pid db a addr :
  agentCommands (ensureDefaultPingMonitor now pid db a addr).1 = agentCommands db.
Proof.
  unfold ensureDefaultPingMonitor. destruct (nonempty addr); [|done].
  destruct (existsb _ _); [done|]. unfold createMonitor. by destruct (exists_row _ _).
Qed.

Lemma sock_state_ok s z w : world_ok w -> world_ok (sock_state s z w) /\ extends w (sock_state s z w).
Proof.
  intros Hok. unfold sock_state.
  assert (Ho : forall s', sk_out (socket (set_socket s {| sk_key := sk_key (socket w s); sk_readyState := z;
    sk_out := sk_out (socket w s); sk_ids := sk_ids (socket w s) |} w) s') = sk_out (socket w s'))
    by (intros s'; rewrite socket_set; case_decide; by subst).
  assert (Hi : forall s', sk_ids (socket (set_socket s {| sk_key := sk_key (socket w s); sk_readyState := z;
    sk_out := sk_out (socket w s); sk_ids := sk_ids (socket w s) |} w) s') = sk_ids (socket w s'))
    by (intros s'; rewrite socket_set; case_decide; by subst).
  split; [|by apply extends_same]. apply (world_ok_same w); try done. intros r Hr Hs. right. by exists r.
Qed.

(** Sending a message: only a command needs the socket to be its agent's. *)
Lemma sock_send_ok s m w : world_ok w ->
  (forall c, m = Command c -> cd_agentId c ∈ sk_ids (socket w s)) ->
  world_ok (sock_send s m w) /\ extends w (sock_send s m w).
Proof.
  intros [H1 H2 H3] Hm. unfold sock_send. destruct (_ =? OPEN); [|by split; [|apply extends_same]].
  set (k := {| sk_key := _ |}). assert (He : extends w (set_socket s k w)).
  { intros s'. rewrite socket_set. case_decide as Hs; [|done]. subst s'. simpl.
    split; [|done]. intros x Hx. apply elem_of_app. by left. }
  split; [|done]. split.
  - intros a s' Ha. apply He. by apply H1.
  - intros s' c. rewrite socket_set. case_decide as Hs; [|apply H2]. subst s'. simpl.
    intros [Hc|Hc]%elem_of_app; [by apply H2|].
    apply elem_of_cons in Hc as [Hc|Hc]; [by apply Hm|by apply not_elem_of_nil in Hc].
  - intros r Hr Hs. eapply pushed_extends; [exact He|]. by apply H3.
Qed.

Lemma sock_send_pushed s c w : sk_readyState (socket w s) = OPEN -> pushed (cd_id c) (sock_send s (Command c) w).
Proof.
  intros Ho. exists s, c. split; [|done]. unfold sock_send. rewrite Ho, Z.eqb_refl, socket_set.
  rewrite decide_True by done. simpl. apply elem_of_app. right. apply list_elem_of_here.
Qed.

Lemma hub_send_ok a c w : world_ok w -> cd_agentId c = a ->
  world_ok (hub_send a (Command c) w).1 /\ extends w (hub_send a (Command c) w).1 /\
  ((hub_send a (Command c) w).2 = true -> pushed (cd_id c) (hub_send a (Command c) w).1).
Proof.
  intros Hok Hc. unfold hub_send. destruct (map_get a (w_hub w)) as [s|] eqn:Ha;
    [|split; [done|]; split; [by apply extends_same|done]].
  destruct (Z.eqb_spec (sk_readyState (socket w s)) OPEN) as [Ho|Ho]; simpl;
    [|split; [done|]; split; [by apply extends_same|done]].
  destruct (sock_send_ok s (Command c) w Hok) as [H1 H2].
  { intros c' [= <-]. rewrite Hc. by apply (ok_hub _ Hok). }
  split; [done|]. split; [done|]. intros _. by apply sock_send_pushed.
Qed.

Lemma map_get_filtered a b (hub : list (string * nat)) s :
  map_get a (List.filter (fun e => negb (String.eqb (fst e) b)) hub) = Some s -> map_get a hub = Some s.
Proof.
  induction hub as [|[k v] hub IH]; simpl; [done|].
  destruct (String.eqb_spec k b) as [->|Hk]; simpl; intros H.
  - case_decide as Hab; [|by apply IH]. subst a. exfalso. clear IH.
    induction hub as [|[k' v'] hub IH]; simpl in H; [done|].
    destruct (String.eqb_spec k' b) as [->|Hk']; simpl in H; [by apply IH|].
    case_decide; [congruence|by apply IH].
  - case_decide; [done|by apply IH].
Qed.

Lemma listUndelivered_agent db a c : c ∈ listUndelivered db a -> cd_agentId c = a.
Proof.
  intros (r & -> & Hr)%elem_of_map. apply elem_of_select in Hr as [_ Hp].
  apply andb_true_iff in Hp as [Hp%String.eqb_eq _]. done.
Qed.

Lemma join_ok s a w : world_ok w ->
  let k := socket w s in
  let w' := hub_add a s (set_socket s {| sk_key := sk_key k; sk_readyState := sk_readyState k;
    sk_out := sk_out k; sk_ids := a :: sk_ids k |} w) in
  world_ok w' /\ extends w w'.
Proof.
  intros [H1 H2 H3] k w'.
  assert (He : extends w w').
  { intros s'. change (socket w' s') with (socket (set_socket s {| sk_key := sk_key k;
      sk_readyState := sk_readyState k; sk_out := sk_out k; sk_ids := a :: sk_ids k |} w) s').
    rewrite socket_set. case_decide as Hs; [|done]. subst s'. split; [done|].
    intros x Hx. by apply list_elem_of_further. }
  split; [|done]. split.
  - intros b s' Hb. cbn [w' hub_add with_hub w_hub set_socket] in Hb. destruct (decide (b = a)) as [->|Hne].
    + rewrite map_get_set_eq in Hb. injection Hb as <-.
      change (socket w' s) with (socket (set_socket s {| sk_key := sk_key k;
        sk_readyState := sk_readyState k; sk_out := sk_out k; sk_ids := a :: sk_ids k |} w) s).
      rewrite socket_set, decide_True by done. apply list_elem_of_here.
    + rewrite map_get_set_ne in Hb by congruence. apply He. by apply H1.
  - intros s' c. change (socket w' s') with (socket (set_socket s {| sk_key := sk_key k;
      sk_readyState := sk_readyState k; sk_out := sk_out k; sk_ids := a :: sk_ids k |} w) s').
    rewrite socket_set. case_decide as Hs; [|apply H2]. subst s'. simpl. intros Hc.
    apply list_elem_of_further. by apply H2.
  - intros r Hr Hs. eapply pushed_extends; [exact He|]. by apply H3.
Qed.

Definition tasks_ok w (l : list task) : Prop := forall t, t ∈ l -> task_ok w t.

(** A run keeps the invariant, and what it leaves may be relied on. *)
Lemma run_ok now id t w : world_ok w -> task_ok w t ->
  world_ok (run_task now id t w).1 /\ extends w (run_task now id t w).1 /\
  tasks_ok (run_task now id t w).1 (run_task now id t w).2.
Proof.
  assert (Hnil : forall w, tasks_ok w []) by (by intros w0 t0 ?%not_elem_of_nil).
  assert (Hone : forall w t, task_ok w t -> tasks_ok w [t])
    by (intros w0 t0 H0 t1 [->|?%not_elem_of_nil]%elem_of_cons; done).
  intros Hok Ht.
  destruct t as [s m|s row m|s row res addr|s row res addr|s res addr|s res addr|s res addr cs|s res addr i cs|a c|i|s];
    simpl in Ht |- *.
  - destruct (nonempty _) as [raw|]; [destruct (resolveAgentKey _ _) as [row|]|]; simpl.
    + split; [done|]. split; [by apply extends_same|by apply Hone].
    + destruct (sock_state_ok s CLOSING w Hok). auto.
    + destruct (sock_state_ok s CLOSING w Hok). auto.
  - destruct m as [body| |c].
    + pose proof (registerAgent_commands now id (w_db w) row body) as Hc.
      destruct (registerAgent now id (w_db w) row body) as [db res]. simpl in Hc |- *.
      destruct (world_ok_same_commands db w Hok Hc). auto.
    + destruct (head _) as [a|]; simpl.
      * destruct (world_ok_same_commands (touchAgent now (w_db w) a) w Hok eq_refl). auto.
      * split; [done|]. split; [by apply extends_same|by apply Hone].
    + destruct (world_ok_mark (markAcked now (w_db w) c) w c
        (fun r => set_cmd_status "acked" (set_cmd_ackedAt (Some now) r)) Hok eq_refl); auto; done.
  - destruct (join_ok s (fst res) w Hok). auto.
  - destruct (world_ok_same_commands (touchKeyUsage now (w_db w) (akey_id row)) w Hok eq_refl). auto.
  - destruct (sock_send_ok s (Registered (fst res) (snd res)) w Hok); [done|]. auto.
  - split; [done|]. split; [by apply extends_same|]. apply Hone. intros c. apply listUndelivered_agent.
  - destruct cs as [|c cs]; simpl.
    + destruct (String.eqb (snd res) "approved"); simpl.
      * destruct (world_ok_same_commands (ensureDefaultPingMonitor now id (w_db w) (current s res w) addr).1 w Hok
          (ensureDefaultPing_commands _ _ _ _ _)). auto.
      * split; [done|]. split; [by apply extends_same|done].
    + destruct (hub_send_ok (fst res) c w Hok (Ht c (list_elem_of_here _ _))) as (H1 & H2 & H3).
      destruct (hub_send (fst res) (Command c) w) as [w' sent]. simpl in *. split; [done|]. split; [done|].
      apply Hone. assert (Hcs : forall x, x ∈ cs -> cd_agentId x = fst res)
        by (intros x Hx; apply Ht; by apply list_elem_of_further).
      destruct sent; simpl; auto.
  - destruct Ht as [Hp Hcs].
    destruct (world_ok_mark (markSent now (w_db w) i) w i
      (fun r => set_cmd_status "sent" (set_cmd_sentAt (Some now) r)) Hok eq_refl); auto.
  - destruct (hub_send_ok a c w Hok Ht) as (H1 & H2 & H3).
    destruct (hub_send a (Command c) w) as [w' sent]. simpl in *. split; [done|]. split; [done|].
    destruct sent; [apply Hone; simpl; auto|apply Hnil].
  - destruct (world_ok_mark (markSent now (w_db w) i) w i
      (fun r => set_cmd_status "sent" (set_cmd_sentAt (Some now) r)) Hok eq_refl); auto.
  - destruct (sock_send_ok s PongMsg w Hok); [done|]. auto.
Qed.

Lemma close_ok s w : world_ok w -> world_ok (on_close s w) /\ extends w (on_close s w).
Proof.
  intros Hok. unfold on_close. destruct (sock_state_ok s CLOSED w Hok) as [H1 H2].
  destruct (head _) as [a|]; [|done]. split; [|exact H2].
  apply (world_ok_same (sock_state s CLOSED w)); try done.
  - intros b s' Hb. exact (map_get_filtered _ _ _ _ Hb).
  - intros r Hr Hs. right. by exists r.
Qed.

Definition sys_ok (x : Sys T) : Prop := world_ok (fst x) /\ tasks_ok (fst x) (snd x).

Lemma step_ok x y : step x y -> sys_ok x -> sys_ok y.
Proof.
  assert (Hkeep : forall w w' l, extends w w' -> tasks_ok w l -> tasks_ok w' l)
    by (intros w w' l He Hl t Ht; eapply task_ok_extends; [exact He|by apply Hl]).
  intros Hs [Hok Hl].
  destruct Hs as [now id t l1 l2 w|s key l w Hno|s m l w Ho|s l w Hs|now id a ty p db c l w He]; simpl in *.
  - destruct (run_ok now id t w Hok) as (H1 & H2 & H3); [apply Hl, elem_of_app; right; apply list_elem_of_here|].
    split; [done|]. simpl. intros t' [Ht|[Ht|Ht]%elem_of_app]%elem_of_app; [|by apply H3|];
      (eapply task_ok_extends; [exact H2|]; apply Hl, elem_of_app); [by left|right; by apply list_elem_of_further].
  - assert (Hout : forall s' m, m ∈ sk_out (socket w s') -> s' <> s)
      by (intros s' m Hm ->; unfold socket in Hm; rewrite Hno in Hm; by apply not_elem_of_nil in Hm).
    assert (Hids : forall s' m, m ∈ sk_ids (socket w s') -> s' <> s)
      by (intros s' m Hm ->; unfold socket in Hm; rewrite Hno in Hm; by apply not_elem_of_nil in Hm).
    set (k := {| sk_key := key |}). assert (Hx : extends w (set_socket s k w)).
    { intros s'. rewrite socket_set. case_decide as Heq; [|done]. subst s'.
      split; intros x Hx; [by destruct (Hout s x Hx)|by destruct (Hids s x Hx)]. }
    split; [|by eapply Hkeep]. destruct Hok as [H1 H2 H3]. split; simpl.
    + intros b s' Hb. apply Hx. by apply H1.
    + intros s' c. rewrite socket_set. case_decide; [|apply H2]. by intros ?%not_elem_of_nil.
    + intros r Hr Hst. eapply pushed_extends; [exact Hx|]. by apply H3.
  - split; [done|]. intros t [->|Ht]%elem_of_cons; [done|by apply Hl].
  - destruct (close_ok s w Hok). split; [done|]. by eapply Hkeep.
  - unfold enqueueCommand in He. destruct (exists_row _ _); [|done]. injection He as <- <-.
    destruct (world_ok_db (with_agentCommands (insert_row {| cmd_id := id; cmd_agentId := a; cmd_type := ty;
      cmd_payload := p; cmd_status := "pending"; cmd_sentAt := None; cmd_ackedAt := None;
      cmd_createdAt := now; cmd_updatedAt := now |} (agentCommands (w_db w))) (w_db w)) w Hok) as [H1 H2].
    { intros r Hr Hst. cbn in Hr. apply elem_of_insert in Hr as [->|Hr]; [done|]. right. by exists r. }
    split; [exact H1|]. intros t [->|Ht]%elem_of_cons; [done|]. eapply task_ok_extends; [exact H2|by apply Hl].
Qed.

(** The process at its start: no sockets, no handlers, no command recorded as sent. *)
Definition starts (x : Sys T) : Prop :=
  w_sockets (fst x) = ∅ /\ w_hub (fst x) = [] /\ snd x = [] /\
  forall r, r ∈ rows (agentCommands (w_db (fst x))) -> cmd_status r <> "sent".

(** C17: however messages, closes, dispatches and the database calls of the handlers interleave,
    a command only ever goes to a socket that registered the command's agent, and a command the
    table calls sent was sent on one. *)
Theorem control_safety x y (Hs : starts x) (Hr : rtc step x y) :
  (forall s c, Command c ∈ sk_out (socket (fst y) s) -> cd_agentId c ∈ sk_ids (socket (fst y) s)) /\
  (forall r, r ∈ rows (agentCommands (w_db (fst y))) -> cmd_status r = "sent" ->
     exists s c, Command c ∈ sk_out (socket (fst y) s) /\ cd_id c = cmd_id r).
Proof.
  assert (Hok : sys_ok x).
  { destruct x as [w l], Hs as (Hw & Hh & Hl & Hc); simpl in *. subst l.
    split; [|by intros t ?%not_elem_of_nil]. split; simpl.
    - intros a s. by rewrite Hh.
    - intros s c. unfold socket. rewrite Hw, lookup_empty. by intros ?%not_elem_of_nil.
    - intros r Hrr Hst. by destruct (Hc r Hrr). }
  clear Hs. induction Hr as [x|x y z Hs Hr IH]; [|by apply IH, (step_ok x)].
  destruct Hok as [[H1 H2 H3] _]. split; [exact H2|exact H3].
Qed.

(** ** Delivery on connect *)

Definition sent (now : Z) (r : AgentCommandRow) : AgentCommandRow :=
  set_cmd_status "sent" (set_cmd_sentAt (Some now) r).

(** A lone task of the process may run. *)
Lemma step_alone now id t w : step (w, [t]) ((run_task now id t w).1, (run_task now id t w).2).
Proof.
  pose proof (step_run now id t [] [] w) as H. rewrite app_nil_r in H. exact H.
Qed.

(** The loop of the flush, when nothing comes in between, is [push_command] on every command. *)
Lemma drain now s res addr cs w :
  rtc step (w, [Deliver s res addr cs])
    (fold_left (fun w c => push_command now (fst res) c w) cs w, [Deliver s res addr []]).
Proof.
  revert w. induction cs as [|c cs IH]; intros w; simpl; [apply rtc_refl|].
  eapply rtc_l; [apply (step_alone now "")|]. simpl. unfold push_command at 2.
  destruct (hub_send (fst res) (Command c) w) as [w1 []]; simpl; [|apply IH].
  eapply rtc_l; [apply (step_alone now "")|]. apply IH.
Qed.

Lemma push_open now a c w s : map_get a (w_hub w) = Some s -> sk_readyState (socket w s) = OPEN ->
  let w' := push_command now a c w in
  w_hub w' = w_hub w /\ sk_readyState (socket w' s) = OPEN /\
  sk_out (socket w' s) = sk_out (socket w s) ++ [Command c] /\
  agentCommands (w_db w') = update_where (is_command (cd_id c)) (sent now) (agentCommands (w_db w)).
Proof.
  intros Hh Ho. unfold push_command, hub_send. rewrite Hh. rewrite Ho. cbn [negb Z.eqb OPEN Pos.eqb].
  unfold sock_send. rewrite Ho. cbn [Z.eqb OPEN Pos.eqb]. simpl. split; [done|].
  set (k := {| sk_key := _ |}).
  change (socket (with_db _ (set_socket s k w)) s) with (socket (set_socket s k w) s).
  rewrite socket_set, decide_True by done. done.
Qed.

Lemma flush_loop now a s cs w : map_get a (w_hub w) = Some s -> sk_readyState (socket w s) = OPEN ->
  let w' := fold_left (fun w c => push_command now a c w) cs w in
  sk_out (socket w' s) = sk_out (socket w s) ++ map Command cs /\
  rows (agentCommands (w_db w')) ≡ₚ
    map (fun r => if includes (map cd_id cs) (cmd_id r) then sent now r else r)
      (rows (agentCommands (w_db w))).
Proof.
  revert w. induction cs as [|c cs IH]; intros w Hh Ho; simpl.
  - split; [by rewrite app_nil_r|]. by rewrite map_id.
  - destruct (push_open now a c w s Hh Ho) as (H1 & H2 & H3 & H4).
    destruct (IH (push_command now a c w)) as [H5 H6]; [by rewrite H1|done|].
    split; [rewrite H5, H3, <- app_assoc; done|]. rewrite H6, H4, rows_update, map_map.
    erewrite map_ext; [done|]. intros r. simpl. unfold is_command.
    destruct (String.eqb (cmd_id r) (cd_id c)); simpl; [|done].
    by destruct (includes _ _).
Qed.

(** C18: when an agent connects, everything pending for it goes out on its socket, in the order
    the database listed it, and is marked sent, and nothing of it is pending any more; other
    commands stay as they were. The asynchronous handler gets there by itself. *)
Theorem flush_delivers now w a status addr s
    (Hh : map_get a (w_hub w) = Some s) (Ho : sk_readyState (socket w s) = OPEN)
    (Hu : unique_key cmd_id (agentCommands (w_db w))) :
  let w' := flushPending now w a in
  rtc step (w, [Flush s (a, status) addr]) (w', [Deliver s (a, status) addr []]) /\
  sk_out (socket w' s) = sk_out (socket w s) ++ map Command (listUndelivered (w_db w) a) /\
  rows (agentCommands (w_db w')) ≡ₚ
    map (fun r => if is_pending a r then sent now r else r) (rows (agentCommands (w_db w))) /\
  listUndelivered (w_db w') a = [].
Proof.
  intros w'. destruct (flush_loop now a s (listUndelivered (w_db w) a) w Hh Ho) as [H1 H2].
  fold (flushPending now w a) in H1, H2. fold w' in H1, H2.
  assert (Hin : forall r, r ∈ rows (agentCommands (w_db w)) ->
    includes (map cd_id (listUndelivered (w_db w) a)) (cmd_id r) = is_pending a r).
  { intros r Hr. apply eq_true_iff_eq. rewrite includes_true, elem_of_map. split.
    - intros (c & Hc & Hin). apply elem_of_map in Hin as (r0 & -> & Hr0). simpl in Hc.
      apply elem_of_select in Hr0 as [Hr0 Hp]. assert (r = r0) as ->; [|done].
      by apply (unique_key_inj cmd_id (agentCommands (w_db w))).
    - intros Hp. exists (command_toDTO r). split; [done|]. apply elem_of_map. exists r.
      split; [done|]. by apply elem_of_select. }
  assert (Hrows : rows (agentCommands (w_db w')) ≡ₚ
    map (fun r => if is_pending a r then sent now r else r) (rows (agentCommands (w_db w)))).
  { rewrite H2. erewrite map_ext_in; [done|]. intros r Hr%list_elem_of_In. simpl. by rewrite Hin. }
  split; [|split; [exact H1|split; [exact Hrows|]]].
  - eapply rtc_l; [apply (step_alone now "")|]. apply (drain now s (a, status)).
  - unfold listUndelivered, select. assert (Hnil : List.filter (is_pending a) (rows (agentCommands (w_db w'))) = []);
      [|by rewrite Hnil]. apply filterb_nil. intros r Hr. rewrite Hrows in Hr.
    apply elem_of_map in Hr as (r0 & -> & _). destruct (is_pending a r0) eqn:Hp; [|done].
    unfold is_pending. simpl. by rewrite andb_false_r.
Qed.

(** The restart handler reports that the command was not delivered whenever it answers, also
    when the command went out on the agent's open socket and is marked sent: it looks at the
    copy made before the push. *)
Theorem restart_reports_undelivered now id w a s
    (Ha : exists_row (is_agent a) (agents (w_db w)) = true)
    (Hh : map_get a (w_hub w) = Some s) (Ho : sk_readyState (socket w s) = OPEN) :
  exists w' c, post_restart now id w a = (w', Ok (Some (c, false))) /\
    Command c ∈ sk_out (socket w' s) /\
    exists r, r ∈ rows (agentCommands (w_db w')) /\ cmd_id r = cd_id c /\ cmd_status r = "sent".
Proof.
  unfold post_restart. rewrite Ha. cbn [negb]. unfold dispatchCommand, enqueueCommand. rewrite Ha.
  set (row := {| cmd_id := id |}). set (db := with_agentCommands _ (w_db w)).
  destruct (push_open now a (command_toDTO row) (with_db db w) s Hh Ho) as (_ & _ & H1 & H2).
  eexists _, (command_toDTO row). split; [reflexivity|]. split.
  - rewrite H1. apply elem_of_app. right. apply list_elem_of_here.
  - exists (sent now row). split; [|done]. rewrite H2. apply elem_of_update. exists row.
    split; [apply elem_of_insert; by left|]. unfold is_command. simpl. by rewrite String.eqb_refl.
Qed.
End theorems.

(** ** Interleavings, at concrete inputs *)

Definition w_socket (out : list ServerToAgent) : Socket := {|
  sk_key := Some "argus_one"; sk_readyState := OPEN; sk_out := out; sk_ids := ["a1"] |}.

(** Agent a1 is on socket 1. *)
Definition w_online : World list := {|
  w_db := w_keyed; w_sockets := {[1%nat := w_socket []]}; w_hub := [("a1", 1%nat)] |}.

Definition w_command (status : string) : AgentCommandRow := {|
  cmd_id := "c1"; cmd_agentId := "a1"; cmd_type := "restart"; cmd_payload := None;
  cmd_status := status; cmd_sentAt := None; cmd_ackedAt := None; cmd_createdAt := 4;
  cmd_updatedAt := 4 |}.

Definition w_queued : World list :=
  with_db (with_agentCommands [w_command "pending"] w_keyed) w_online.

Lemma step_nth now id t l1 l2 (w : World list) w' ts :
  run_task (HS := toy_sha) now id t w = (w', ts) ->
  step (HS := toy_sha) (w, l1 ++ t :: l2) (w', l1 ++ ts ++ l2).
Proof. intros H. pose proof (step_run (HS := toy_sha) now id t l1 l2 w) as Hs. by rewrite H in Hs. Qed.

(** A command dispatched while the agent registers can go out twice: the flush lists it as
    pending before the dispatch marks it sent. *)
Lemma dispatched_twice : exists w,
  rtc (step (HS := toy_sha)) (w_queued, [Dispatch "a1" (command_toDTO (w_command "pending"));
    Flush 1 ("a1", "approved") None]) (w, []) /\
  sk_out (socket w 1) = [Command (command_toDTO (w_command "pending"));
    Command (command_toDTO (w_command "pending"))].
Proof.
  eexists. split.
  - eapply rtc_l; [apply (step_nth 5 "" (Flush 1 ("a1", "approved") None) [_] []); reflexivity|].
    eapply rtc_l; [apply (step_nth 5 "" (Dispatch "a1" _) [] [_]); reflexivity|].
    eapply rtc_l; [apply (step_nth 5 "" (Deliver _ _ _ _) [MarkOne "c1"] []); reflexivity|].
    eapply rtc_l; [apply (step_nth 5 "" (MarkOne "c1") [] [_]); reflexivity|].
    eapply rtc_l; [apply (step_nth 5 "" (Mark _ _ _ _ _) [] []); reflexivity|].
    eapply rtc_l; [apply (step_nth 5 "" (Deliver _ _ _ _) [] []); reflexivity|]. apply rtc_refl.
  - reflexivity.
Qed.

(** After a reconnect the close of the old socket takes the new one out of the hub. *)
Definition w_reconnected : World list := {|
  w_db := w_keyed; w_sockets := {[1%nat := w_socket []; 2%nat := w_socket []]};
  w_hub := [("a1", 2%nat)] |}.

Lemma stale_close_unregisters :
  isOnline "a1" w_reconnected = true /\ isOnline "a1" (on_close 1 w_reconnected) = false /\
  sk_readyState (socket (on_close 1 w_reconnected) 2) = OPEN.
Proof. repeat split. Qed.

(** ** Witnesses *)

(** An agent with a queued command connects and registers. *)
Definition w_start : World list := {|
  w_db := with_agentCommands [w_command "pending"] w_keyed; w_sockets := ∅; w_hub := [] |}.

Lemma w_trace : exists w, rtc (step (HS := toy_sha)) (w_start, []) (w, []) /\
  Command (command_toDTO (w_command "pending")) ∈ sk_out (socket w 1) /\
  map cmd_status (agentCommands (w_db w)) = ["sent"].
Proof.
  eexists. split.
  - eapply rtc_l; [apply (step_connect 1 (Some "argus_one")); reflexivity|].
    eapply rtc_l; [apply (step_message 1 (RegisterMsg w_request)); reflexivity|].
    do 9 (eapply rtc_l; [apply (step_nth 5 "" _ [] []); reflexivity|]). apply rtc_refl.
  - vm_compute. split; [|reflexivity]. apply list_elem_of_further, list_elem_of_here.
Qed.

Lemma control_safety_witness : exists w, rtc (step (HS := toy_sha)) (w_start, []) (w, []) /\
  map cmd_status (agentCommands (w_db w)) = ["sent"] /\ "a1" ∈ sk_ids (socket w 1).
Proof.
  destruct w_trace as (w & Hr & Hc & Hs). exists w. split; [exact Hr|]. split; [exact Hs|].
  destruct (control_safety (HS := toy_sha) (w_start, []) (w, [])) as [H _].
  - split; [reflexivity|]. split; [reflexivity|]. split; [reflexivity|].
    intros r [->|Hn%not_elem_of_nil]%elem_of_cons; [discriminate|done].
  - exact Hr.
  - exact (H 1%nat _ Hc).
Defined.

Lemma flush_delivers_witness :
  let w' := flushPending 5 w_queued "a1" in
  sk_out (socket w' 1) = [Command (command_toDTO (w_command "pending"))] /\
  listUndelivered (w_db w') "a1" = [].
Proof.
  destruct (flush_delivers (T := list) (HS := toy_sha) 5 w_queued "a1" "approved" None 1 eq_refl eq_refl
    ltac:(apply nodup_check; reflexivity)) as (_ & H1 & _ & H2).
  split; [exact H1|exact H2].
Defined.

Lemma restart_reports_undelivered_witness : exists w' c,
  post_restart 5 "c9" w_online "a1" = (w', Ok (Some (c, false))) /\ Command c ∈ sk_out (socket w' 1).
Proof.
  destruct (restart_reports_undelivered (T := list) (ST := list_store) (LT := list_store_laws) 5 "c9" w_online
    "a1" 1 eq_refl
    eq_refl eq_refl)
    as (w' & c & H1 & H2 & _).
  exists w', c. split; [exact H1|exact H2].
Defined.
