(* ===== verification/AgentBuilds.v ===== *)
(** * Agent builds

    Models apps/backend/src/services/agent-builds.ts: the comparison of versions, the folders of
    builds, the compilation of an agent and of its container image, their listing and download; and
    the handlers that use them: POST /api/agents/:id/update of routes/agents.routes.ts and
    GET /api/agent/download/:name of routes/agent-ingest.routes.ts.

    The file system is a finite map from absolute paths, as lists of names, to folders and files
    with their time of modification. The compiler, tar, gzip and SHA-256 are parameters; a
    compiler that fails writes nothing. The staging folder of an image, removed whatever happens,
    is the list of what is put in it. Texts are ASCII; a component of a version is below 2^53. *)
From S2P Require Import Prelude Dates Text Store Schema Auth Devices Monitors Agents Control Backups.

(** ** Comparing versions *)

(** [/[.\-+]/] *)
Definition is_version_sep (c : ascii) : bool :=
  Ascii.eqb c "." || Ascii.eqb c "-" || Ascii.eqb c "+".

(** [s.split(/[.\-+]/)] *)
Fixpoint split_seps (s : string) : list string :=
  match s with
  | EmptyString => [""]
  | String c s' =>
      if is_version_sep c then "" :: split_seps s'
      else match split_seps s' with x :: xs => String c x :: xs | [] => [String c ""] end
  end.

(** [Number.parseInt(p, 10) || 0]: no part holds a sign. *)
Definition parseInt_or_0 (p : string) : Z := let '(n, _, _) := digits 0 0 (trimStart p) in n.

Definition strip_v (v : string) : string := match after "v" v with Some rest => rest | None => v end.

Definition parse_version (v : string) : list Z := map parseInt_or_0 (split_seps (strip_v v)).

(** The loop from [i], [n] turns before its end. *)
Fixpoint compare_from (pa pb : list Z) (i n : nat) : Z :=
  match n with
  | O => 0
  | S n =>
      let d := default 0 (pa !! i) - default 0 (pb !! i) in
      if negb (d =? 0) then if d <? 0 then -1 else 1 else compare_from pa pb (S i) n
  end.

Definition compareSemver (a b : string) : Z :=
  let pa := parse_version a in
  let pb := parse_version b in
  compare_from pa pb 0 (Nat.max (List.length pa) (List.length pb)).

(** ** Files *)

Notation path := (list string).
Inductive Node : Type := Dir | File (content : string) (mtime : Z).
Notation Fs := (gmap (list string) Node).
Implicit Types (fs : Fs) (p q : path).

(** One folder after another: [resolve(base, s)] *)
Definition resolve_step (acc : path) (seg : string) : path :=
  if String.eqb seg "" || String.eqb seg "." then acc
  else if String.eqb seg ".." then removelast acc else acc ++ [seg].
Definition resolve (base : path) (s : string) : path :=
  fold_left resolve_step (split_on "/" s) (if startsWith "/" s then [] else base).

Definition abs_path p : string := "/" +:+ Text.join "/" p.

(** [fs.mkdir(base/rest, { recursive: true })], below a folder that exists *)
Fixpoint mkdirs (base rest : path) fs : option Fs :=
  match rest with
  | [] => Some fs
  | s :: rest =>
      let p := base ++ [s] in
      match fs !! p with
      | Some Dir => mkdirs p rest fs
      | Some (File _ _) => None
      | None => mkdirs p rest (<[p := Dir]> fs)
      end
  end.

Definition write_file p (content : string) (now : Z) fs : option Fs :=
  match fs !! p with
  | Some Dir => None
  | _ => match fs !! removelast p with Some Dir => Some (<[p := File content now]> fs) | _ => None end
  end.

Definition read_file p fs : option string :=
  match fs !! p with Some (File content _) => Some content | _ => None end.

(** The name of [q] in the folder [p]. *)
Definition name_in p q : option string :=
  match last q with Some x => if bool_decide (q = p ++ [x]) then Some x else None | None => None end.

Definition readdir p fs : option (list string) :=
  match fs !! p with Some Dir => Some (omap (name_in p) (map fst (map_to_list fs))) | _ => None end.

(** ** Builds *)

Definition ALLOWED_OS : list string := ["windows"; "linux"; "darwin"].
Definition ALLOWED_ARCH : list string := ["amd64"; "arm64"].
Definition NAS_FORMATS : list string := ["qnap"; "docker"].

Record BuildMeta : Type := {
  bm_version : string; bm_os : string; bm_arch : string; bm_size : Z; bm_builtAt : Z; bm_format : option string
}.

Definition binaryName (os : string) : string :=
  "argus-monitor" +:+ (if String.eqb os "windows" then ".exe" else "").

(** [/[A-Za-z0-9.+_-]/] *)
Definition is_safe_char (c : ascii) : bool :=
  let n := code c in
  ((65 <=? n) && (n <=? 90)) || ((97 <=? n) && (n <=? 122)) || ((48 <=? n) && (n <=? 57)) ||
  Ascii.eqb c "." || Ascii.eqb c "+" || Ascii.eqb c "_" || Ascii.eqb c "-".

Definition safeVersion (version : string) : result string string :=
  let v := map_string (fun c => if is_safe_char c then c else "_"%char) (trim version) in
  if negb (truthy v) || String.eqb v "." || String.eqb v ".." then Err "invalid version" else Ok v.

Definition assertTarget (os arch : string) : result string () :=
  if negb (includes ALLOWED_OS os) then Err ("invalid GOOS: " +:+ os)
  else if negb (includes ALLOWED_ARCH arch) then Err ("invalid GOARCH: " +:+ arch)
  else Ok ().

(** What the tools answer: whether [go version] runs; the binary [go build] makes for a system, an
    architecture and linker flags, or its stderr and the message of the error; the archive of a
    folder's entries; the compressed bytes. *)
Record GoError : Type := { ge_stderr : string; ge_message : string }.
Class Tools : Type := {
  go_available : bool;
  go_build : string -> string -> string -> result GoError string;
  tar : list (path * Node) -> string;
  gzip : string -> string
}.

Definition COLLECT_PKG : string := "github.com/brijeshdave/argus-monitor/agent/internal/collect".
Definition CA_CANDIDATES : list path :=
  [["etc"; "ssl"; "certs"; "ca-certificates.crt"]; ["etc"; "pki"; "tls"; "certs"; "ca-bundle.crt"]].

(** [stderr.split("\n").find((l) => l.trim().length > 0)?.trim()] *)
Definition first_line (stderr : string) : option string :=
  option_map trim (head (List.filter (fun l => truthy (trim l)) (split_on "010" stderr))).

Definition nasFormatFromFile (name : string) : option string :=
  head (List.filter (fun f => startsWith ("argus-agent-" +:+ f +:+ "-latest") name) NAS_FORMATS).

Definition nasImageFile (format arch : string) : string :=
  "argus-agent-" +:+ format +:+ "-latest" +:+ (if String.eqb arch "amd64" then "" else "-" +:+ arch) +:+ ".tar".

(** [[os, arch] = target.split("-")], both present and not empty *)
Definition target_of (name : string) : option (string * string) :=
  match split_on "-" name with
  | os :: arch :: _ => if truthy os && truthy arch then Some (os, arch) else None
  | _ => None end.

(** [JSON.stringify] of a document whose numbers are integers. *)
Fixpoint json_text (j : json) : string :=
  match j with
  | JNull => "null"
  | JBool b => if b then "true" else "false"
  | JNum q => String_of_int (Qfloor q)
  | JStr s => quote s
  | JArr l => array_text (map json_text l)
  | JObj m => object_text (map (fun kv => (kv.1, json_text kv.2)) m)
  end.

(** What names a blob: its media type, digest and size. *)
Record Descriptor : Type := { ds_media : string; ds_digest : string; ds_size : Z }.
Definition descriptor_fields (d : Descriptor) : list (string * json) :=
  [("mediaType", JStr (ds_media d)); ("digest", JStr (ds_digest d)); ("size", JNum (inject_Z (ds_size d)))].

Section builds.
Context {TL : Tools} {HS : Sha256}.
(** [BUILD_DIR] *)
Context (BUILD_DIR : path).

(** The folder of a version's target: [buildDir] for a system, [nasImageDir] for the images. *)
Definition versionDir (version target : string) : result string path :=
  let? v := safeVersion version in
  let dir := resolve (resolve BUILD_DIR v) target in
  if negb (bool_decide (dir = resolve [] (abs_path dir))) || negb (startsWith (abs_path BUILD_DIR +:+ "/") (abs_path dir))
  then Err "path traversal rejected" else Ok dir.

Definition buildDir (version os arch : string) : result string path := versionDir version (os +:+ "-" +:+ arch).
Definition nasImageDir (version arch : string) : result string path := versionDir version ("nas-" +:+ arch).

Definition ldflags (version : string) (builtAt : Z) : string :=
  "-s -w -X main.Version=" +:+ version +:+ " -X " +:+ COLLECT_PKG +:+ ".BuildTime=" +:+ toISOString builtAt.

Definition go_failed (e : GoError) : string :=
  "agent build failed: " +:+ default (ge_message e) (first_line (ge_stderr e)).

(** [buildAgent]: it starts at [now] and its output is written at [done_at]. *)
Definition buildAgent (now done_at : Z) fs (os arch version : string) : Fs * result string BuildMeta :=
  match assertTarget os arch with
  | Err e => (fs, Err e)
  | Ok _ =>
      match buildDir version os arch with
      | Err e => (fs, Err e)
      | Ok dir =>
          match mkdirs [] dir fs with
          | None => (fs, Err "EEXIST")
          | Some fs =>
              match go_build os arch (ldflags version now) with
              | Err e => (fs, Err (go_failed e))
              | Ok binary =>
                  match write_file (dir ++ [binaryName os]) binary done_at fs, safeVersion version with
                  | Some fs, Ok v => (fs, Ok {| bm_version := v; bm_os := os; bm_arch := arch;
                        bm_size := Z.of_nat (String.length binary); bm_builtAt := done_at; bm_format := None |})
                  | None, _ => (fs, Err "agent build failed: the output is a folder")
                  | _, Err e => (fs, Err e)
                  end
              end
          end
      end
  end.

(** The artifact at a path, when it is a file. *)
Definition meta_at fs (version os arch : string) (format : option string) p : list BuildMeta :=
  match fs !! p with
  | Some (File content mtime) => [{| bm_version := version; bm_os := os; bm_arch := arch;
      bm_size := Z.of_nat (String.length content); bm_builtAt := mtime; bm_format := format |}]
  | _ => [] end.

Definition target_metas fs (version target : string) : list BuildMeta :=
  let dir := BUILD_DIR ++ [version; target] in
  match target_of target with
  | None => []
  | Some (os, arch) =>
      if String.eqb os "nas" && includes ALLOWED_ARCH arch then
        concat (map (fun file => match nasFormatFromFile file with
                              | Some f => meta_at fs version "nas" arch (Some f) (dir ++ [file])
                              | None => [] end) (default [] (readdir dir fs)))
      else if negb (includes ALLOWED_OS os) || negb (includes ALLOWED_ARCH arch) then []
      else meta_at fs version os arch None (dir ++ [binaryName os])
  end.

Definition version_metas fs (version : string) : list BuildMeta :=
  concat (map (target_metas fs version) (default [] (readdir (BUILD_DIR ++ [version]) fs))).

(** [b.builtAt.localeCompare(a.builtAt) > 0] *)
Definition older (a b : BuildMeta) : bool := bm_builtAt a <? bm_builtAt b.

Definition listBuilds fs : list BuildMeta :=
  match readdir BUILD_DIR fs with
  | None => []
  | Some versions => js_sort older (concat (map (version_metas fs) versions))
  end.

Definition readBuildFile fs (version os arch : string) : result string (string * string) :=
  let? _ := assertTarget os arch in
  let? dir := buildDir version os arch in
  match read_file (dir ++ [binaryName os]) fs with
  | Some content => Ok (content, binaryName os)
  | None => Err "ENOENT" end.

Definition latestBuildFor fs (os arch : string) : option BuildMeta :=
  if negb (includes ALLOWED_OS os) || negb (includes ALLOWED_ARCH arch) then None
  else head (List.filter (fun b => String.eqb (bm_os b) os && String.eqb (bm_arch b) arch) (listBuilds fs)).

(** ** The container image *)

Definition text_size (content : string) : Z := Z.of_nat (String.length content).
Definition digest_of (content : string) : string := "sha256:" +:+ sha256 content.
Definition describe (media content : string) : Descriptor :=
  {| ds_media := media; ds_digest := digest_of content; ds_size := text_size content |}.

(** The first CA bundle of the host. *)
Definition ca_bundle fs : option string := head (omap (fun p => read_file p fs) CA_CANDIDATES).

(** The root of the image: the binary, a folder to spool to, and the CA bundle. *)
Definition rootfs (now : Z) fs (binary : string) : list (path * Node) :=
  [(["usr"], Dir); (["usr"; "local"], Dir); (["usr"; "local"; "bin"], Dir);
   (["var"], Dir); (["var"; "lib"], Dir); (["var"; "lib"; "argus"], Dir);
   (["usr"; "local"; "bin"; "argus-agent"], File binary now);
   (["etc"], Dir); (["etc"; "ssl"], Dir); (["etc"; "ssl"; "certs"], Dir)] ++
  match ca_bundle fs with
  | Some ca => [(["etc"; "ssl"; "certs"; "ca-certificates.crt"], File ca now)] | None => [] end.

Definition image_config (now : Z) (arch ver layerBytes : string) : json :=
  JObj [("architecture", JStr arch); ("os", JStr "linux"); ("created", JStr (toISOString now));
        ("config", JObj [("Env", JArr [JStr "PATH=/usr/local/sbin:/usr/local/bin:/usr/sbin:/usr/bin:/sbin:/bin";
                                      JStr "ARGUS_SPOOL_DIR=/var/lib/argus"]);
                         ("Entrypoint", JArr [JStr "argus-agent"; JStr "run"]); ("WorkingDir", JStr "/")]);
        ("rootfs", JObj [("type", JStr "layers"); ("diff_ids", JArr [JStr (digest_of layerBytes)])]);
        ("history", JArr [JObj [("created", JStr (toISOString now)); ("created_by", JStr ("argus-agent " +:+ ver))]])].

Definition layer_media (format : string) : string :=
  if String.eqb format "qnap" then "application/vnd.oci.image.layer.v1.tar"
  else "application/vnd.docker.image.rootfs.diff.tar.gzip".
Definition manifest_media (format : string) : string :=
  if String.eqb format "qnap" then "application/vnd.oci.image.manifest.v1+json"
  else "application/vnd.docker.distribution.manifest.v2+json".
Definition config_media (format : string) : string :=
  if String.eqb format "qnap" then "application/vnd.oci.image.config.v1+json"
  else "application/vnd.docker.container.image.v1+json".

Definition layer_blob (format layerBytes : string) : string :=
  if String.eqb format "qnap" then layerBytes else gzip layerBytes.

Definition image_manifest (format config layer : string) : json :=
  JObj [("schemaVersion", JNum 2); ("mediaType", JStr (manifest_media format));
        ("config", JObj (descriptor_fields (describe (config_media format) config)));
        ("layers", JArr [JObj (descriptor_fields (describe (layer_media format) layer))])].

Definition image_index (format manifest : string) : json :=
  JObj [("schemaVersion", JNum 2); ("mediaType", JStr "application/vnd.oci.image.index.v1+json");
        ("manifests", JArr [JObj (descriptor_fields (describe (manifest_media format) manifest) ++
           [("annotations", JObj [("io.containerd.image.name", JStr "docker.io/library/argus-agent:latest");
                                  ("org.opencontainers.image.ref.name", JStr "latest")])])])].

Definition docker_manifest (format ver config layer : string) : json :=
  JArr [JObj [("Config", JStr ("blobs/sha256/" +:+ sha256 config));
              ("RepoTags", JArr [JStr ("argus-agent:" +:+ ver); JStr "argus-agent:latest"]);
              ("Layers", JArr [JStr ("blobs/sha256/" +:+ sha256 layer)]);
              ("LayerSources", JObj [(digest_of layer, JObj
                 [("mediaType", JStr (layer_media format)); ("size", JNum (inject_Z (text_size layer)));
                  ("digest", JStr (digest_of layer))])])]].

(** What is put in the folder that is packed: each blob under its digest. *)
Definition entries (now : Z) (arch ver format layerBytes : string) : list (path * string) :=
  let config := json_text (image_config now arch ver layerBytes) in
  let layer := layer_blob format layerBytes in
  let manifest := json_text (image_manifest format config layer) in
  let blob content := (["blobs"; "sha256"; sha256 content], content) in
  [blob layer; blob config; blob manifest;
   (["index.json"], json_text (image_index format manifest));
   (["manifest.json"], json_text (docker_manifest format ver config layer));
   (["repositories"], json_text (JObj [("argus-agent", JObj [("latest", JStr (sha256 layer))])]));
   (["oci-layout"], json_text (JObj [("imageLayoutVersion", JStr "1.0.0")]))].

(** A file written later replaces one of its name. *)
Definition pack (now : Z) (arch ver format layerBytes : string) : list (path * string) :=
  js_map fst snd (entries now arch ver format layerBytes).

Definition image_text (now : Z) fs (binary arch ver format : string) : string :=
  tar (map (fun e => (e.1, File e.2 now)) (pack now arch ver format (tar (rootfs now fs binary)))).

Record ImageMeta : Type := { im_path : path; im_filename : string; im_size : Z }.

(** [buildNasImage]: the linux binary is compiled when it is not there. *)
Definition buildNasImage (now done_at : Z) fs (arch version format : string) : Fs * result string ImageMeta :=
  match assertTarget "linux" arch, safeVersion version, buildDir version "linux" arch, nasImageDir version arch with
  | Ok _, Ok ver, Ok bin_dir, Ok out_dir =>
      let bin := bin_dir ++ [binaryName "linux"] in
      let '(fs, compiled) := match fs !! bin with
        | Some _ => (fs, Ok ())
        | None => let '(fs, r) := buildAgent now done_at fs "linux" arch version in
                  (fs, match r with Ok _ => Ok () | Err e => Err e end) end in
      match compiled with
      | Err e => (fs, Err e)
      | Ok _ =>
          match mkdirs [] out_dir fs with
          | None => (fs, Err "EEXIST")
          | Some fs =>
              match read_file bin fs with
              | None => (fs, Err "EISDIR")
              | Some binary =>
                  let out := out_dir ++ [nasImageFile format arch] in
                  let text := image_text now fs binary arch ver format in
                  match write_file out text done_at fs with
                  | None => (fs, Err "tar failed")
                  | Some fs => (fs, Ok {| im_path := out; im_filename := nasImageFile format arch; im_size := text_size text |})
                  end
              end
          end
      end
  | Err e, _, _, _ | _, Err e, _, _ | _, _, Err e, _ | _, _, _, Err e => (fs, Err e)
  end.

Definition readNasImage (now done_at : Z) fs (arch version format : string) : Fs * result string (string * string) :=
  match assertTarget "linux" arch, nasImageDir version arch with
  | Ok _, Ok dir =>
      let p := dir ++ [nasImageFile format arch] in
      let read fs := match read_file p fs with
                     | Some content => Ok (content, nasImageFile format arch) | None => Err "ENOENT" end in
      match fs !! p with
      | Some _ => (fs, read fs)
      | None => match buildNasImage now done_at fs arch version format with
                | (fs, Ok _) => (fs, read fs)
                | (fs, Err e) => (fs, Err e) end
      end
  | Err e, _ | _, Err e => (fs, Err e)
  end.

(** ** Every target of a version *)

Record Ensured : Type := { en_built : list string; en_failed : list (string * string) }.

(** One turn: a target that is there is left; one that is not is built and put on a list. *)
Definition ensure_one {A} (target : string) (place : result string path) (build : Fs -> Fs * result string A)
    (st : Fs * Ensured) : Fs * Ensured :=
  let '(fs, e) := st in
  if match place with Ok p => bool_decide (is_Some (fs !! p)) | Err _ => false end then st
  else match build fs with
       | (fs, Ok _) => (fs, {| en_built := en_built e ++ [target]; en_failed := en_failed e |})
       | (fs, Err err) => (fs, {| en_built := en_built e; en_failed := en_failed e ++ [(target, err)] |}) end.

Definition at_file (dir : result string path) (name : string) : result string path :=
  match dir with Ok d => Ok (d ++ [name]) | Err e => Err e end.

Definition ensure_agent (now : string -> Z) (version : string) (st : Fs * Ensured) (t : string * string) : Fs * Ensured :=
  let target := t.1 +:+ "-" +:+ t.2 in
  ensure_one target (at_file (buildDir version t.1 t.2) (binaryName t.1))
    (fun fs => buildAgent (now target) (now target) fs t.1 t.2 version) st.

Definition ensure_image (now : string -> Z) (version : string) (st : Fs * Ensured) (t : string * string) : Fs * Ensured :=
  let target := "nas-" +:+ t.2 +:+ "-" +:+ t.1 in
  ensure_one target (at_file (nasImageDir version t.1) (nasImageFile t.2 t.1))
    (fun fs => buildNasImage (now target) (now target) fs t.1 version t.2) st.

Definition pairs (xs ys : list string) : list (string * string) := concat (map (fun x => map (pair x) ys) xs).

(** [now] is the time at which a target is built. *)
Definition ensureAllBuilds (now : string -> Z) fs (version : string) : Fs * Ensured :=
  fold_left (ensure_image now version) (pairs ALLOWED_ARCH NAS_FORMATS)
    (fold_left (ensure_agent now version) (pairs ALLOWED_OS ALLOWED_ARCH) (fs, {| en_built := []; en_failed := [] |})).
End builds.

(** ** Updating an agent *)

Record UpdateBody : Type := { ub_version : option string; ub_url : option string; ub_force : option bool }.
Inductive UpdateReply : Type :=
| UpdateNotFound
| AlreadyUpToDate (currentVersion latestVersion : string)
| UpdateSent (command : AgentCommandDTO) (delivered : bool) (currentVersion : option string) (latestVersion : string).

Section update.
Context {T : Type -> Type} {ST : Store T} {HS : Sha256} {TL : Tools}.
Context (BUILD_DIR : path) (AGENT_VERSION : string).

Definition body_fields (b : UpdateBody) : list (string * json) :=
  match ub_version b with Some v => [("version", JStr v)] | None => [] end ++
  match ub_url b with Some u => [("url", JStr u)] | None => [] end ++
  match ub_force b with Some f => [("force", JBool f)] | None => [] end.

Definition send_update (now : Z) (commandId : string) (w : World T) (id : string) (b : UpdateBody)
    (target : string) (current : option string) : World T * result FleetError UpdateReply :=
  let '(w, r) := dispatchCommand now commandId w id "update" (Some (map_set "version" (JStr target) (body_fields b))) in
  (w, let? c := r in Ok (UpdateSent c (String.eqb (cd_status c) "sent") current target)).

(** [POST /api/agents/:id/update], the body parsed *)
Definition post_update (now : Z) (commandId : string) (w : World T) (id : string) (b : UpdateBody)
  : World T * result FleetError UpdateReply :=
  match getAgent None now (w_db w) id with
  | None => (w, Ok UpdateNotFound)
  | Some agent =>
      let target := default AGENT_VERSION (ub_version b) in
      let unforced := negb (default false (option_map truthy (ub_url b))) && negb (default false (ub_force b)) in
      match nonempty (ag_version agent) with
      | Some v =>
          if unforced && (0 <=? compareSemver v target) then (w, Ok (AlreadyUpToDate v target))
          else send_update now commandId w id b target (ag_version agent)
      | None => send_update now commandId w id b target (ag_version agent)
      end
  end.

(** [/^argus-agent-([a-z0-9]+)-([a-z0-9]+)(?:\.exe)?$/] *)
Definition is_target_char (c : ascii) : bool :=
  let n := code c in ((97 <=? n) && (n <=? 122)) || ((48 <=? n) && (n <=? 57)).
Fixpoint all_target (s : string) : bool :=
  match s with EmptyString => true | String c s' => is_target_char c && all_target s' end.
Definition is_target_part (s : string) : bool := truthy s && all_target s.
Fixpoint without_exe (s : string) : string :=
  match s with
  | EmptyString => ""
  | String c s' => if String.eqb s ".exe" then "" else String c (without_exe s') end.
Definition agent_download_name (name : string) : option (string * string) :=
  match after "argus-agent-" name with
  | Some rest =>
      match split_on "-" (without_exe rest) with
      | [os; arch] => if is_target_part os && is_target_part arch then Some (os, arch) else None
      | _ => None end
  | None => None end.

(** [GET /api/agent/download/:name], by the agent of a connection key *)
Definition get_agent_download (db : FleetDb T) (fs : Fs) (agentId : option string) (name : string)
  : Z * option (string * string) :=
  match agentId with
  | Some id =>
      if negb (truthy id) || negb (isApproved db id) then (403, None) else
      match agent_download_name name with
      | None => (400, None)
      | Some (os, arch) =>
          match latestBuildFor BUILD_DIR fs os arch with
          | None => (404, None)
          | Some latest =>
              match readBuildFile BUILD_DIR fs (bm_version latest) (bm_os latest) (bm_arch latest) with
              | Ok file => (200, Some file)
              | Err _ => (404, None) end
          end
      end
  | None => (403, None)
  end.
End update.

(** ** The order of versions *)

(** The component at a place, zero after the last. *)
Definition component (v : string) (i : nat) : Z := default 0 (parse_version v !! i).

Section versions.
Implicit Types (f g h : nat -> Z).

Definition lex_lt f g : Prop := exists j, (forall k, (k < j)%nat -> f k = g k) /\ f j < g j.

Lemma lex_lt_trans f g h : lex_lt f g -> lex_lt g h -> lex_lt f h.
Proof.
  intros (j & Hj & Hlt) (k & Hk & Hlt'). destruct (Nat.lt_trichotomy j k) as [Hjk|[->|Hjk]].
  - exists j. split; [intros i Hi; rewrite Hj by done; apply Hk; lia|]. by rewrite <- (Hk j).
  - exists k. split; [intros i Hi; rewrite Hj by done; by apply Hk|lia].
  - exists k. split; [intros i Hi; rewrite Hj by lia; by apply Hk|]. by rewrite Hj by done.
Qed.

Lemma lex_lt_irrefl f : ~ lex_lt f f.
Proof. intros (j & _ & Hlt). lia. Qed.

Lemma lex_lt_ext f f' g g' : (forall i, f i = f' i) -> (forall i, g i = g' i) -> lex_lt f g -> lex_lt f' g'.
Proof.
  intros Hf Hg (j & Hj & Hlt). exists j. split; [intros k Hk; rewrite <- Hf, <- Hg; by apply Hj|].
  by rewrite <- Hf, <- Hg.
Qed.

(** What the loop returns from [i], when the components before [i] agree and those at its end and
    after it do. *)
Lemma compare_from_spec pa pb i n :
  let f k := default 0 (pa !! k) in
  let g k := default 0 (pb !! k) in
  (forall k, (k < i)%nat -> f k = g k) -> (forall k, (i + n <= k)%nat -> f k = g k) ->
  let c := compare_from pa pb i n in
  (c = 0 /\ forall k, f k = g k) \/ (c = -1 /\ lex_lt f g) \/ (c = 1 /\ lex_lt g f).
Proof.
  intros f g. revert i. induction n as [|n IH]; intros i Hlo Hhi; simpl.
  { left. split; [done|]. intros k. destruct (Nat.lt_ge_cases k i); [by apply Hlo|apply Hhi; lia]. }
  destruct (Z.eqb_spec (default 0 (pa !! i) - default 0 (pb !! i)) 0) as [He|Hne]; simpl.
  - apply IH; [|intros k Hk; apply Hhi; lia]. intros k Hk. destruct (decide (k = i)) as [->|]; [unfold f, g; lia|apply Hlo; lia].
  - right. destruct (Z.ltb_spec (default 0 (pa !! i) - default 0 (pb !! i)) 0).
    + left. split; [done|]. exists i. split; [done|unfold f, g; lia].
    + right. split; [done|]. exists i. split; [intros k Hk; symmetry; by apply Hlo|unfold f, g; lia].
Qed.

Lemma compareSemver_cases a b :
  (compareSemver a b = 0 /\ forall i, component a i = component b i) \/
  (compareSemver a b = -1 /\ lex_lt (component a) (component b)) \/
  (compareSemver a b = 1 /\ lex_lt (component b) (component a)).
Proof.
  apply compare_from_spec; [lia|]. intros k Hk. rewrite !lookup_ge_None_2 by lia. done.
Qed.

Lemma compareSemver_iff a b :
  (compareSemver a b = 0 <-> forall i, component a i = component b i) /\
  (compareSemver a b = -1 <-> lex_lt (component a) (component b)) /\
  (compareSemver a b = 1 <-> lex_lt (component b) (component a)).
Proof.
  assert (Hno : forall x y, lex_lt (component x) (component y) -> ~ (forall i, component x i = component y i)).
  { intros x y (j & _ & Hlt) Hall. specialize (Hall j). lia. }
  assert (Hanti : forall x y, lex_lt (component x) (component y) -> ~ lex_lt (component y) (component x)).
  { intros x y H1 H2. exact (lex_lt_irrefl _ (lex_lt_trans _ _ _ H1 H2)). }
  pose proof (Hno a b). pose proof (Hno b a). pose proof (Hanti a b).
  assert ((forall i, component a i = component b i) <-> (forall i, component b i = component a i)) by (split; intros He i; by rewrite He).
  destruct (compareSemver_cases a b) as [[-> ?]|[[-> ?]|[-> ?]]]; intuition lia.
Qed.

(** Versions are totally preordered, first difference first, absent components counting as
    zero: the comparison is zero exactly when every component agrees and minus one exactly when
    the first difference is an increase; it changes sign with its arguments, and it is
    transitive, strictly when either step is strict. *)
Theorem compareSemver_order a b c :
  (compareSemver a b = 0 <-> forall i, component a i = component b i) /\
  (compareSemver a b = -1 <-> lex_lt (component a) (component b)) /\
  compareSemver b a = - compareSemver a b /\
  (compareSemver a b <= 0 -> compareSemver b c <= 0 ->
   compareSemver a c = Z.min (compareSemver a b) (compareSemver b c)).
Proof.
  destruct (compareSemver_iff a b) as (Hab0 & Habl & Habg), (compareSemver_iff b c) as (Hbc0 & Hbcl & Hbcg).
  destruct (compareSemver_iff a c) as (Hac0 & Hacl & Hacg), (compareSemver_iff b a) as (Hba0 & Hbal & Hbag).
  split; [done|]. split; [done|]. split.
  - destruct (compareSemver_cases a b) as [[E H]|[[E H]|[E H]]]; rewrite E.
    + apply Hba0. intros i. by rewrite H.
    + by apply Hbag.
    + by apply Hbal.
  - destruct (compareSemver_cases a b) as [[E H]|[[E H]|[E H]]], (compareSemver_cases b c) as [[E' H']|[[E' H']|[E' H']]];
      rewrite E, E'; intros H1 H2; try lia.
    + apply Hac0. intros i. by rewrite H.
    + apply Hacl. by eapply lex_lt_ext; [intros i; symmetry; apply H|done|].
    + apply Hacl. by eapply lex_lt_ext; [done|apply H'|].
    + apply Hacl. by eapply lex_lt_trans.
Qed.
End versions.

(** ** Every build stays in its folder *)

(** A name of a folder or a file. *)
Definition plain (s : string) : bool :=
  truthy s && negb (String.eqb s ".") && negb (String.eqb s "..") && negb (has_char "/" s).
Definition normal (p : path) : Prop := Forall (fun s => plain s = true) p.

Lemma plain_spec s : plain s = true <-> s <> "" /\ s <> "." /\ s <> ".." /\ has_char "/" s = false.
Proof.
  unfold plain, truthy. rewrite !andb_true_iff, !negb_true_iff, !String.eqb_neq. tauto.
Qed.

Lemma resolve_step_plain acc s : plain s = true -> resolve_step acc s = acc ++ [s].
Proof.
  intros (Hn & Hd & Hdd & _)%plain_spec. unfold resolve_step. apply String.eqb_neq in Hn, Hd, Hdd. by rewrite Hn, Hd, Hdd.
Qed.

Lemma no_slash_relative s : has_char "/" s = false -> startsWith "/" s = false.
Proof.
  destruct s as [|c s]; [done|]. intros [Hc _]%orb_false_iff. unfold startsWith. cbn [String.prefix].
  destruct (ascii_dec "/" c) as [<-|]; [done|by destruct s].
Qed.

Lemma resolve_plain base s : plain s = true -> resolve base s = base ++ [s].
Proof.
  intros Hp. pose proof Hp as (_ & _ & _ & Hs)%plain_spec. unfold resolve.
  rewrite no_slash_relative, split_on_none by done. by apply resolve_step_plain.
Qed.

Lemma resolve_steps acc p : normal p -> fold_left resolve_step p acc = acc ++ p.
Proof.
  revert acc. induction p as [|s p IH]; intros acc Hn; simpl; [by rewrite app_nil_r|].
  apply Forall_cons in Hn as [Hs Hp]. by rewrite resolve_step_plain, IH, <- app_assoc.
Qed.

(** Resolving a path's text gives the path back. *)
Lemma resolve_text p : p <> [] -> normal p -> resolve [] (abs_path p) = p.
Proof.
  intros Hne Hn. unfold resolve, abs_path. change ("/" +:+ Text.join "/" p) with (String "/" (Text.join "/" p)).
  cbn [split_on]. change (Ascii.eqb "/" "/") with true. cbv iota. cbn [fold_left].
  change (Text.join "/" p) with (Text.join (String "/" "") p). rewrite split_join; [|done|].
  - destruct (startsWith _ _); by rewrite resolve_steps.
  - eapply Forall_impl; [exact Hn|]. by intros s (_ & _ & _ & ?)%plain_spec.
Qed.

Lemma join_app (p : path) s : p <> [] -> Text.join "/" (p ++ [s]) = Text.join "/" p +:+ "/" +:+ s.
Proof.
  induction p as [|x p IH]; [done|]. intros _. destruct p as [|y p]; [done|].
  change (x +:+ "/" +:+ Text.join "/" ((y :: p) ++ [s]) = (x +:+ "/" +:+ Text.join "/" (y :: p)) +:+ "/" +:+ s).
  rewrite IH by done. by rewrite !str_app_assoc.
Qed.

Lemma below_text p x y : p <> [] -> startsWith (abs_path p +:+ "/") (abs_path (p ++ [x; y])) = true.
Proof.
  intros Hne. change (p ++ [x; y]) with (p ++ [x] ++ [y]). rewrite app_assoc. unfold abs_path.
  rewrite !join_app by (done || by destruct p).
  replace ("/" +:+ ((Text.join "/" p +:+ "/" +:+ x) +:+ "/" +:+ y))
    with ((("/" +:+ Text.join "/" p) +:+ "/") +:+ (x +:+ "/" +:+ y)) by (by rewrite !str_app_assoc).
  apply startsWith_app.
Qed.

Lemma safe_char_no_slash s :
  has_char "/" (map_string (fun c => if is_safe_char c then c else "_"%char) s) = false.
Proof.
  induction s as [|c s IH]; [done|]. cbn [map_string has_char]. rewrite IH, orb_false_r.
  destruct (is_safe_char c) eqn:Hc; [|done]. apply Ascii.eqb_neq. by intros ->.
Qed.

Lemma safeVersion_plain version v : safeVersion version = Ok v -> plain v = true.
Proof.
  unfold safeVersion. destruct (_ || _) eqn:He; [done|]. intros [= <-].
  apply orb_false_iff in He as [[Ht Hd]%orb_false_iff Hdd].
  unfold plain. apply negb_false_iff in Ht. by rewrite Ht, Hd, Hdd, safe_char_no_slash.
Qed.

Lemma versionDir_spec B version target : B <> [] -> normal B -> plain target = true ->
  versionDir B version target = match safeVersion version with Ok v => Ok (B ++ [v; target]) | Err e => Err e end.
Proof.
  intros Hne Hn Ht. unfold versionDir. destruct (safeVersion version) as [v|e] eqn:Hv; [|done].
  apply safeVersion_plain in Hv. rewrite !resolve_plain, <- app_assoc by done. cbn [app].
  assert (Hd : normal (B ++ [v; target])) by (apply Forall_app; by repeat constructor).
  rewrite resolve_text by (done || by destruct B). rewrite bool_decide_true by done. by rewrite (below_text B v target Hne).
Qed.

(** *** Folders and files *)

Lemma mkdirs_made base rest fs fs' s1 s2 :
  mkdirs base rest fs = Some fs' -> rest = s1 ++ s2 -> s1 <> [] -> fs' !! (base ++ s1) = Some Dir.
Proof.
  revert base fs s1. induction rest as [|x rest IH]; intros base fs s1 Hm He Hne; [by destruct s1|].
  destruct s1 as [|y s1]; [done|]. injection He as <- He. simpl in Hm.
  assert (Hkeep : forall fs1, mkdirs (base ++ [x]) rest fs1 = Some fs' -> fs1 !! (base ++ [x]) = Some Dir ->
    fs' !! (base ++ [x]) = Some Dir).
  { clear. intros fs1. generalize (base ++ [x]) at 1 as b. revert fs1.
    induction rest as [|z rest IH]; simpl; intros fs1 b Hm Hd; [by simplify_eq|].
    destruct (fs1 !! (b ++ [z])) as [[|]|] eqn:Hz; [by eapply IH|done|].
    eapply IH; [exact Hm|]. destruct (decide (b ++ [z] = base ++ [x])) as [->|]; [by rewrite lookup_insert_eq|by rewrite lookup_insert_ne]. }
  change (base ++ x :: s1) with (base ++ [x] ++ s1). rewrite app_assoc.
  destruct (fs !! (base ++ [x])) as [[|]|] eqn:Hx; [|done|]; (destruct s1 as [|y s1];
    [rewrite app_nil_r; eapply Hkeep; [exact Hm|]; by rewrite ?lookup_insert_eq|by eapply IH]).
Qed.

Lemma mkdirs_frame base rest fs fs' p : mkdirs base rest fs = Some fs' ->
  fs' !! p = fs !! p \/
  (fs !! p = None /\ fs' !! p = Some Dir /\ exists s1 s2, rest = s1 ++ s2 /\ s1 <> [] /\ p = base ++ s1).
Proof.
  revert base fs. induction rest as [|x rest IH]; intros base fs Hm; simpl in Hm; [simplify_eq; by left|].
  assert (Hup : forall fs1, mkdirs (base ++ [x]) rest fs1 = Some fs' -> fs' !! p = fs1 !! p \/
    (fs1 !! p = None /\ fs' !! p = Some Dir /\ exists s1 s2, x :: rest = s1 ++ s2 /\ s1 <> [] /\ p = base ++ s1)).
  { intros fs1 Hm1. destruct (IH _ _ Hm1) as [|(Hn & Hd & s1 & s2 & -> & Hne & ->)]; [by left|right].
    split; [done|]. split; [done|]. exists (x :: s1), s2. by rewrite <- app_assoc. }
  destruct (fs !! (base ++ [x])) as [[|]|] eqn:Hx; [by apply Hup|done|].
  destruct (decide (p = base ++ [x])) as [->|Hne].
  - right. split; [done|]. split.
    + destruct (Hup _ Hm) as [->|(_ & -> & _)]; [by rewrite lookup_insert_eq|done].
    + by exists [x], rest.
  - destruct (Hup _ Hm) as [->|H]; [left; by rewrite lookup_insert_ne|right]. by rewrite lookup_insert_ne in H.
Qed.

Lemma name_in_spec p q x : name_in p q = Some x <-> q = p ++ [x].
Proof.
  unfold name_in. split.
  - destruct (last q) as [y|]; [|done]. case_bool_decide; [|done]. by intros [= <-].
  - intros ->. by rewrite last_snoc, bool_decide_true.
Qed.

Lemma elem_of_readdir p fs l x : readdir p fs = Some l -> x ∈ l <-> is_Some (fs !! (p ++ [x])).
Proof.
  unfold readdir. destruct (fs !! p) as [[|]|]; [|done..]. intros [= <-].
  rewrite list_elem_of_omap. setoid_rewrite list_elem_of_fmap. setoid_rewrite name_in_spec. split.
  - intros (q & ([q' n] & -> & Hq%elem_of_map_to_list) & Hx). simpl in Hx. subst. by eexists.
  - intros [n Hn]. exists (p ++ [x]). split; [|done]. exists (p ++ [x], n). split; [done|]. by apply elem_of_map_to_list.
Qed.

(** *** Builds *)

Lemma target_facts os arch u : assertTarget os arch = Ok u ->
  plain (os +:+ "-" +:+ arch) = true /\ target_of (os +:+ "-" +:+ arch) = Some (os, arch) /\
  String.eqb os "nas" = false /\ includes ALLOWED_OS os = true /\ includes ALLOWED_ARCH arch = true /\
  plain (binaryName os) = true.
Proof.
  unfold assertTarget. destruct (includes ALLOWED_OS os) eqn:Ho; [|done]. destruct (includes ALLOWED_ARCH arch) eqn:Ha; [|done].
  intros _. unfold includes in Ho, Ha. apply existsb_exists in Ho as (o & Ho & ->%String.eqb_eq), Ha as (a & Ha & ->%String.eqb_eq).
  simpl in Ho, Ha. by destruct Ho as [<-|[<-|[<-|[]]]], Ha as [<-|[<-|[]]].
Qed.

Notation safe c := (if is_safe_char c then c else "_"%char).

Lemma safe_char_safe c : is_safe_char (safe c) = true.
Proof. by destruct (is_safe_char c) eqn:Hc. Qed.

Lemma safe_char_not_space c d : is_space d = true -> Ascii.eqb (safe c) d = false.
Proof.
  intros Hd. apply Ascii.eqb_neq. intros <-. pose proof (safe_char_safe c) as Hs. revert Hd Hs. generalize (safe c).
  intros [[] [] [] [] [] [] [] []]; vm_compute; congruence.
Qed.

Lemma safe_no_space t d : is_space d = true -> has_char d (map_string (fun c => safe c) t) = false.
Proof.
  intros Hd. induction t as [|c t IH]; [done|]. cbn [map_string has_char]. by rewrite safe_char_not_space.
Qed.

Lemma map_safe_idem t : map_string (fun c => safe c) (map_string (fun c => safe c) t) = map_string (fun c => safe c) t.
Proof. induction t as [|c t IH]; [done|]. cbn [map_string]. by rewrite safe_char_safe, IH. Qed.

(** A version that was made safe is its own safe form. *)
Lemma safeVersion_idem version v : safeVersion version = Ok v -> safeVersion v = Ok v.
Proof.
  unfold safeVersion. destruct (_ || _) eqn:He; [done|]. intros [= <-].
  rewrite trim_no_space by (intros d; apply safe_no_space). by rewrite map_safe_idem, He.
Qed.

Section build_theorems.
Context {TL : Tools} (B : path) (HB : B <> []) (Hn : normal B).

Notation buildAgent := (buildAgent B).
Notation listBuilds := (listBuilds B).
Notation readBuildFile := (readBuildFile B).

Definition build_path (v os arch : string) : path := B ++ [v; os +:+ "-" +:+ arch; binaryName os].

(** What a build did. *)
Lemma buildAgent_inv now done_at fs os arch version fs' r :
  buildAgent now done_at fs os arch version = (fs', r) ->
  (exists v fs1 binary, assertTarget os arch = Ok () /\ safeVersion version = Ok v /\
     mkdirs [] (B ++ [v; os +:+ "-" +:+ arch]) fs = Some fs1 /\
     go_build os arch (ldflags version now) = Ok binary /\
     fs' = <[build_path v os arch := File binary done_at]> fs1 /\
     r = Ok {| bm_version := v; bm_os := os; bm_arch := arch; bm_size := Z.of_nat (String.length binary);
               bm_builtAt := done_at; bm_format := None |}) \/
  (exists e, r = Err e /\ (fs' = fs \/ exists v, assertTarget os arch = Ok () /\ safeVersion version = Ok v /\
     mkdirs [] (B ++ [v; os +:+ "-" +:+ arch]) fs = Some fs')).
Proof.
  unfold AgentBuilds.buildAgent. destruct (assertTarget os arch) as [[]|e] eqn:Ht; [|intros [= <- <-]; right; eauto].
  pose proof (target_facts os arch _ Ht) as (Hp & _). unfold buildDir. rewrite versionDir_spec by done.
  destruct (safeVersion version) as [v|e] eqn:Hv; [|intros [= <- <-]; right; eauto].
  destruct (mkdirs [] _ fs) as [fs1|] eqn:Hm; [|intros [= <- <-]; right; eauto].
  destruct (go_build os arch (ldflags version now)) as [binary|e] eqn:Hg; [|intros [= <- <-]; right; eexists; split; [done|right; eauto]].
  rewrite <- app_assoc. cbn [app]. fold (build_path v os arch).
  destruct (write_file _ binary done_at fs1) as [fs2|] eqn:Hw; [|intros [= <- <-]; right; eexists; split; [done|right; eauto]].
  intros [= <- <-]. left. exists v, fs1, binary. do 4 (split; [done|]). split; [|done].
  unfold write_file in Hw. destruct (fs1 !! build_path v os arch) as [[|]|]; [done|..]; destruct (fs1 !! removelast _) as [[|]|]; by simplify_eq.
Qed.

Lemma readBuildFile_spec fs version os arch :
  readBuildFile fs version os arch =
  match assertTarget os arch, safeVersion version with
  | Ok _, Ok v => match read_file (build_path v os arch) fs with Some c => Ok (c, binaryName os) | None => Err "ENOENT" end
  | Err e, _ | _, Err e => Err e end.
Proof.
  unfold AgentBuilds.readBuildFile. destruct (assertTarget os arch) as [u|e] eqn:Ht; [|done].
  pose proof (target_facts os arch _ Ht) as (Hp & _). unfold buildDir. rewrite versionDir_spec by done.
  destruct (safeVersion version) as [v|e]; [|done]. by rewrite <- app_assoc.
Qed.

Lemma read_file_mkdirs base rest fs fs' p : mkdirs base rest fs = Some fs' -> read_file p fs' = read_file p fs.
Proof.
  intros Hm. unfold read_file. destruct (mkdirs_frame _ _ _ _ p Hm) as [->|(-> & -> & _)]; done.
Qed.

Lemma elem_of_meta_at fs v os arch f p m : m ∈ meta_at fs v os arch f p <-> exists c t, fs !! p = Some (File c t) /\
  m = {| bm_version := v; bm_os := os; bm_arch := arch; bm_size := Z.of_nat (String.length c); bm_builtAt := t; bm_format := f |}.
Proof.
  unfold meta_at. destruct (fs !! p) as [[|c t]|].
  - split; [by intros ?%not_elem_of_nil|by intros (? & ? & ? & _)].
  - rewrite list_elem_of_singleton. split; [eauto|]. intros (? & ? & [= <- <-] & ->). done.
  - split; [by intros ?%not_elem_of_nil|by intros (? & ? & ? & _)].
Qed.

Lemma elem_of_readdir_default p fs x : x ∈ default [] (readdir p fs) <-> fs !! p = Some Dir /\ is_Some (fs !! (p ++ [x])).
Proof.
  destruct (readdir p fs) as [l|] eqn:Hr; simpl.
  - rewrite (elem_of_readdir p fs l x Hr). unfold readdir in Hr. destruct (fs !! p) as [[|]|]; [|done..]. naive_solver.
  - unfold readdir in Hr. split; [by intros ?%not_elem_of_nil|]. intros [Hd _]. by rewrite Hd in Hr.
Qed.

(** The artifacts of a target: what is listed. *)
Lemma elem_of_listBuilds fs m : m ∈ listBuilds fs <-> exists v t,
  fs !! B = Some Dir /\ fs !! (B ++ [v]) = Some Dir /\ is_Some (fs !! (B ++ [v; t])) /\ m ∈ target_metas B fs v t.
Proof.
  unfold AgentBuilds.listBuilds. transitivity (exists v, v ∈ default [] (readdir B fs) /\ m ∈ version_metas B fs v).
  { destruct (readdir B fs) as [l|]; simpl.
    - rewrite elem_of_js_sort, list_elem_of_In, in_concat. setoid_rewrite in_map_iff. setoid_rewrite list_elem_of_In. naive_solver.
    - split; [by intros ?%not_elem_of_nil|]. by intros (v & ?%not_elem_of_nil & _). }
  setoid_rewrite elem_of_readdir_default. unfold version_metas. split.
  - intros (v & [Hd Hv] & Hm). apply list_elem_of_In, in_concat in Hm as (l & Hl & Hm). apply in_map_iff in Hl as (t & <- & Ht).
    apply list_elem_of_In, elem_of_readdir_default in Ht as [Hvd Ht]. rewrite <- app_assoc in Ht.
    exists v, t. by rewrite list_elem_of_In.
  - intros (v & t & Hd & Hv & Ht & Hm). exists v. split; [by rewrite Hv|]. apply list_elem_of_In, in_concat.
    eexists. split; [apply in_map, list_elem_of_In, elem_of_readdir_default; split; [done|rewrite <- app_assoc; exact Ht]|].
    by apply list_elem_of_In.
Qed.

Lemma older_head (q : BuildMeta -> bool) l m :
  StronglySorted (fun a b => older a b = false) l -> m ∈ l -> q m = true ->
  exists h, head (List.filter q l) = Some h /\ h ∈ l /\ q h = true /\ bm_builtAt m <= bm_builtAt h.
Proof.
  intros Hs. induction Hs as [|a l Hs IH Ha]; [by intros ?%not_elem_of_nil|]. intros Hm Hq. cbn [List.filter].
  destruct (q a) eqn:Hqa.
  - exists a. split; [done|]. split; [by left|]. split; [done|]. apply elem_of_cons in Hm as [->|Hm]; [done|].
    rewrite Forall_forall in Ha. specialize (Ha m Hm). apply Z.ltb_ge in Ha. exact Ha.
  - apply elem_of_cons in Hm as [->|Hm]; [congruence|]. destruct IH as (h & Hh & Hin & H); [done..|]. exists h.
    split; [done|]. by split; [right|].
Qed.

Lemma latestBuildFor_newest fs os arch m :
  includes ALLOWED_OS os = true -> includes ALLOWED_ARCH arch = true -> m ∈ listBuilds fs -> bm_os m = os -> bm_arch m = arch ->
  exists h, latestBuildFor B fs os arch = Some h /\ h ∈ listBuilds fs /\ bm_os h = os /\ bm_arch h = arch /\ bm_builtAt m <= bm_builtAt h.
Proof.
  intros Ho Ha Hm Hos Harch. unfold latestBuildFor. rewrite Ho, Ha. cbn [negb orb].
  destruct (older_head (fun b => String.eqb (bm_os b) os && String.eqb (bm_arch b) arch) (listBuilds fs) m)
    as (h & Hh & Hin & [Hqo Hqa]%andb_true_iff & Hle).
  - unfold AgentBuilds.listBuilds. destruct (readdir B fs); [|constructor]. apply js_sort_sorted; unfold older; intros *; lia.
  - done.
  - by rewrite Hos, Harch, !String.eqb_refl.
  - apply String.eqb_eq in Hqo, Hqa. by exists h.
Qed.

Lemma read_build_eq fs fs' v os arch version :
  safeVersion version = Ok v -> read_file (build_path v os arch) fs' = read_file (build_path v os arch) fs ->
  readBuildFile fs' version os arch = readBuildFile fs version os arch.
Proof. intros Hv Hr. rewrite !readBuildFile_spec. destruct (assertTarget os arch); [|done]. by rewrite Hv, Hr. Qed.

Lemma build_path_not_above v t s1 s2 os arch : B ++ [v; t] = s1 ++ s2 -> s1 <> build_path v os arch.
Proof.
  intros He ->. apply (f_equal List.length) in He. unfold build_path in He. rewrite !length_app in He. simpl in He. lia.
Qed.

(** The artifact a build made is listed. *)
Lemma built_is_listed fs fs1 v os arch c t :
  assertTarget os arch = Ok () -> mkdirs [] (B ++ [v; os +:+ "-" +:+ arch]) fs = Some fs1 ->
  {| bm_version := v; bm_os := os; bm_arch := arch; bm_size := Z.of_nat (String.length c); bm_builtAt := t; bm_format := None |}
    ∈ listBuilds (<[build_path v os arch := File c t]> fs1).
Proof.
  intros Ht Hm. pose proof (target_facts os arch _ Ht) as (_ & Htg & Hnas & Ho & Ha & _).
  assert (Hdir : forall s1 s2, B ++ [v; os +:+ "-" +:+ arch] = s1 ++ s2 -> s1 <> [] ->
    <[build_path v os arch := File c t]> fs1 !! s1 = Some Dir).
  { intros s1 s2 He Hne. rewrite lookup_insert_ne by (symmetry; by eapply build_path_not_above).
    exact (mkdirs_made [] _ fs fs1 s1 s2 Hm He Hne). }
  apply elem_of_listBuilds. exists v, (os +:+ "-" +:+ arch). split; [by eapply Hdir|]. split.
  { eapply (Hdir _ [_]); [by rewrite <- app_assoc|by destruct B]. }
  split; [rewrite (Hdir _ []); [done|by rewrite app_nil_r|by destruct B]|].
  unfold target_metas. rewrite Htg, Hnas, Ho, Ha. cbn [andb negb orb]. rewrite <- app_assoc. cbn [app].
  apply elem_of_meta_at. exists c, t. split; [|done]. by rewrite lookup_insert_eq.
Qed.

(** C22: A build is confined, and what it made is what is listed, offered and served. Compiling an
    agent changes nothing but its own file in its own version and target folder, and creates
    that folder and those above it; a success is served for the version asked for and for the
    version reported, is listed, and the newest build of the platform is no older; a failure
    leaves every download as it was. *)
Theorem build_then_download now done_at fs os arch version :
  let '(fs', r) := buildAgent now done_at fs os arch version in
  (forall p, fs' !! p <> fs !! p -> exists v, safeVersion version = Ok v /\ plain v = true /\
     (p = build_path v os arch \/
      (fs !! p = None /\ fs' !! p = Some Dir /\ exists q, B ++ [v; os +:+ "-" +:+ arch] = p ++ q))) /\
  match r with
  | Ok m => exists binary,
      go_build os arch (ldflags version now) = Ok binary /\ bm_size m = Z.of_nat (String.length binary) /\
      readBuildFile fs' version os arch = Ok (binary, binaryName os) /\
      readBuildFile fs' (bm_version m) os arch = Ok (binary, binaryName os) /\ m ∈ listBuilds fs' /\
      exists latest, latestBuildFor B fs' os arch = Some latest /\ latest ∈ listBuilds fs' /\ done_at <= bm_builtAt latest
  | Err _ => forall version' os' arch', readBuildFile fs' version' os' arch' = readBuildFile fs version' os' arch'
  end.
Proof.
  destruct (buildAgent now done_at fs os arch version) as [fs' r] eqn:Hb.
  assert (Hup : forall fs1 v p, safeVersion version = Ok v -> mkdirs [] (B ++ [v; os +:+ "-" +:+ arch]) fs = Some fs1 -> fs1 !! p <> fs !! p ->
    fs !! p = None /\ fs1 !! p = Some Dir /\ exists q, B ++ [v; os +:+ "-" +:+ arch] = p ++ q).
  { intros fs1 v p Hv Hm Hp. destruct (mkdirs_frame _ _ _ _ p Hm) as [|(Hnone & Hd & s1 & s2 & -> & _ & ->)]; [done|eauto]. }
  destruct (buildAgent_inv _ _ _ _ _ _ _ _ Hb) as [(v & fs1 & binary & Ht & Hv & Hm & Hg & -> & ->)|(e & -> & Hfs)].
  - pose proof (target_facts os arch _ Ht) as (_ & _ & _ & Ho & Ha & _). split.
    + intros p Hp. exists v. split; [done|]. split; [by eapply safeVersion_plain|].
      destruct (decide (p = build_path v os arch)) as [->|Hne]; [by left|right].
      rewrite lookup_insert_ne in Hp |- * by done. by apply Hup.
    + exists binary. split; [done|]. split; [done|].
      assert (Hread : forall version', safeVersion version' = Ok v ->
        readBuildFile (<[build_path v os arch := File binary done_at]> fs1) version' os arch = Ok (binary, binaryName os)).
      { intros version' Hv'. rewrite readBuildFile_spec, Ht, Hv'. unfold read_file. by rewrite lookup_insert_eq. }
      split; [by apply Hread|]. split; [by apply Hread, (safeVersion_idem version)|].
      pose proof (built_is_listed fs fs1 v os arch binary done_at Ht Hm) as Hl. split; [done|].
      destruct (latestBuildFor_newest _ os arch _ Ho Ha Hl eq_refl eq_refl) as (h & Hh & Hin & _ & _ & Hle). by exists h.
  - destruct Hfs as [->|(v & Ht & Hv & Hm)].
    + by split.
    + split; [intros p Hp; exists v; split; [done|]; split; [by eapply safeVersion_plain|right; by apply Hup]|].
      intros version' os' arch'. rewrite !readBuildFile_spec. destruct (assertTarget os' arch'); [|done].
      destruct (safeVersion version'); [|done]. by rewrite (read_file_mkdirs _ _ _ _ _ Hm).
Qed.
End build_theorems.

(** ** Every target of a version is there or reported *)

Section ensure_theorems.
Context {TL : Tools} {HS : Sha256} (B : path).

Definition keeps fs fs' : Prop := forall p, is_Some (fs !! p) -> is_Some (fs' !! p).
Definition there fs (place : result string path) : Prop := exists p, place = Ok p /\ is_Some (fs !! p).

Lemma keeps_refl fs : keeps fs fs. Proof. by intros p. Qed.
Lemma keeps_trans fs1 fs2 fs3 : keeps fs1 fs2 -> keeps fs2 fs3 -> keeps fs1 fs3.
Proof. intros H1 H2 p Hp. by apply H2, H1. Qed.
Lemma there_keeps fs fs' place : keeps fs fs' -> there fs place -> there fs' place.
Proof. intros Hk (p & -> & Hp). exists p. split; [done|]. by apply Hk. Qed.

Lemma keeps_mkdirs base rest fs fs' : mkdirs base rest fs = Some fs' -> keeps fs fs'.
Proof. intros Hm p [n Hn]. destruct (mkdirs_frame _ _ _ _ p Hm) as [->|(He & _)]; [by eexists|congruence]. Qed.

Lemma write_file_spec p c t fs fs' : write_file p c t fs = Some fs' -> keeps fs fs' /\ is_Some (fs' !! p).
Proof.
  unfold write_file. intros Hw. assert (fs' = <[p := File c t]> fs) as ->.
  { destruct (fs !! p) as [[|]|]; [done|..]; destruct (fs !! removelast p) as [[|]|]; by simplify_eq. }
  split; [|rewrite lookup_insert_eq; by eexists]. intros q Hq.
  destruct (decide (q = p)) as [->|]; [rewrite lookup_insert_eq; by eexists|by rewrite lookup_insert_ne].
Qed.

(** A build adds, and a success is in its place. *)
Definition adds {A} (place : result string path) (build : Fs -> Fs * result string A) : Prop :=
  forall fs, let '(fs', r) := build fs in keeps fs fs' /\ (is_ok r = true -> there fs' place).

Lemma failure {A} fs fs' (e : string) (P : Prop) :
  keeps fs fs' -> keeps fs fs' /\ (is_ok (Err e : result string A) = true -> P).
Proof. by split. Qed.
#[local] Ltac fails := apply failure; first [assumption | apply keeps_refl].

Lemma buildAgent_adds now done_at os arch version :
  adds (at_file (buildDir B version os arch) (binaryName os)) (fun fs => buildAgent B now done_at fs os arch version).
Proof.
  intros fs. unfold buildAgent. destruct (assertTarget os arch); [|fails].
  destruct (buildDir B version os arch) as [dir|e]; [|fails].
  destruct (mkdirs [] dir fs) as [fs1|] eqn:Hm; [|fails]. apply keeps_mkdirs in Hm.
  destruct (go_build os arch _) as [binary|e]; [|fails].
  destruct (write_file _ binary done_at fs1) as [fs2|] eqn:Hw; [|fails].
  apply write_file_spec in Hw as [Hk Hp]. pose proof (keeps_trans _ _ _ Hm Hk).
  destruct (safeVersion version); [|fails]. split; [done|]. intros _. by eexists.
Qed.

Lemma buildNasImage_adds now done_at arch version format :
  adds (at_file (nasImageDir B version arch) (nasImageFile format arch)) (fun fs => buildNasImage B now done_at fs arch version format).
Proof.
  intros fs. unfold buildNasImage. destruct (assertTarget "linux" arch); [|fails].
  destruct (safeVersion version); [|fails]. destruct (buildDir B version "linux" arch) as [dir|]; [|fails].
  destruct (nasImageDir B version arch) as [out_dir|]; [|fails].
  set (step := match fs !! _ with Some _ => _ | None => _ end).
  assert (Hs : keeps fs step.1).
  { unfold step. destruct (fs !! _); [apply keeps_refl|].
    pose proof (buildAgent_adds now done_at "linux" arch version fs) as Ha. cbv beta in Ha.
    destruct (buildAgent B now done_at fs "linux" arch version) as [fs1 r]. by destruct Ha. }
  destruct step as [fs1 [u|e]]; [|fails]. simpl in Hs.
  destruct (mkdirs [] out_dir fs1) as [fs2|] eqn:Hm; [|fails]. apply keeps_mkdirs in Hm.
  pose proof (keeps_trans _ _ _ Hs Hm) as Hk2. destruct (read_file _ fs2) as [binary|]; [|fails].
  destruct (write_file _ _ done_at fs2) as [fs3|] eqn:Hw; [|fails].
  apply write_file_spec in Hw as [Hk3 Hp]. split; [by eapply keeps_trans|]. intros _. by eexists.
Qed.

(** The targets seen so far, by name and place: what is not reported as failed is there. *)
Definition accounted (fs0 : Fs) (seen : list (string * result string path)) (st : Fs * Ensured) : Prop :=
  keeps fs0 st.1 /\ (forall t, t ∈ seen -> t.1 ∈ map fst (en_failed st.2) \/ there st.1 t.2) /\
  exists left_alone, map fst seen ≡ₚ en_built st.2 ++ map fst (en_failed st.2) ++ left_alone.

Lemma ensure_one_accounted {A} fs0 (seen : list (string * result string path)) (target : string)
    (place : result string path) (build : Fs -> Fs * result string A) (st : Fs * Ensured) :
  adds place build -> accounted fs0 seen st -> accounted fs0 (seen ++ [(target, place)]) (ensure_one target place build st).
Proof.
  intros Hadd (Hk & Hall & la & Hperm). destruct st as [fs e]. unfold ensure_one. cbn [fst snd] in *.
  destruct (match place with Ok p => _ | Err _ => _ end) eqn:Hthere.
  - split; [done|]. split.
    + intros t [Ht| ->%list_elem_of_singleton]%elem_of_app; [by apply Hall|right]. cbn [snd].
      destruct place as [p|]; [|done]. exists p. split; [done|]. by apply bool_decide_eq_true in Hthere.
    + exists (la ++ [target]). rewrite map_app, Hperm. cbn [map fst snd]. by rewrite <- !app_assoc.
  - specialize (Hadd fs). destruct (build fs) as [fs' r]. destruct Hadd as [Hk' Hok].
    assert (Hkeep : forall t, t ∈ seen -> t.1 ∈ map fst (en_failed e) \/ there fs' t.2).
    { intros t Ht. destruct (Hall t Ht) as [|H]; [by left|right]. by eapply there_keeps. }
    destruct r as [a|err].
    + split; [by eapply keeps_trans|]. cbn [fst snd en_built en_failed]. split.
      * intros t [Ht| ->%list_elem_of_singleton]%elem_of_app; [by apply Hkeep|right; by apply Hok].
      * exists la. rewrite map_app, (Permutation_app_comm (map fst seen)), Hperm, <- app_assoc. exact (Permutation_middle _ _ target).
    + split; [by eapply keeps_trans|]. cbn [fst snd en_built en_failed]. rewrite map_app. cbn [map fst]. split.
      * intros t [Ht| ->%list_elem_of_singleton]%elem_of_app.
        -- destruct (Hkeep t Ht) as [|]; [left; apply elem_of_app; by left|by right].
        -- left. apply elem_of_app. right. by left.
      * exists la. rewrite map_app, (Permutation_app_comm (map fst seen)), Hperm, <- app_assoc, !(app_assoc (en_built e)).
        exact (Permutation_middle _ _ target).
Qed.

Lemma fold_accounted {X A} fs0 (target : X -> string) (place : X -> result string path)
    (build : X -> Fs -> Fs * result string A) (xs : list X) (seen : list (string * result string path)) (st : Fs * Ensured) :
  (forall x, adds (place x) (build x)) -> accounted fs0 seen st ->
  accounted fs0 (seen ++ map (fun x => (target x, place x)) xs)
    (fold_left (fun st x => ensure_one (target x) (place x) (build x) st) xs st).
Proof.
  intros Hadd. revert seen st. induction xs as [|x xs IH]; intros seen st Hs; simpl; [by rewrite app_nil_r|].
  rewrite cons_middle, app_assoc. by apply IH, ensure_one_accounted.
Qed.

Lemma all_there_same fs (e : Ensured) {X A} (target : X -> string) (place : X -> result string path)
    (build : X -> Fs -> Fs * result string A) (xs : list X) :
  (forall x, x ∈ xs -> there fs (place x)) ->
  fold_left (fun st x => ensure_one (target x) (place x) (build x) st) xs (fs, e) = (fs, e).
Proof.
  induction xs as [|x xs IH]; intros Hall; simpl; [done|].
  destruct (Hall x) as (p & -> & Hp); [by left|]. rewrite bool_decide_true by done. apply IH. intros y Hy. apply Hall. by right.
Qed.

(** The ten targets of a version, with the file that is their artifact. *)
Definition agent_place (version : string) (t : string * string) : string * result string path :=
  (t.1 +:+ "-" +:+ t.2, at_file (buildDir B version t.1 t.2) (binaryName t.1)).
Definition image_place (version : string) (t : string * string) : string * result string path :=
  ("nas-" +:+ t.2 +:+ "-" +:+ t.1, at_file (nasImageDir B version t.1) (nasImageFile t.2 t.1)).
Definition targets_of (version : string) : list (string * result string path) :=
  map (agent_place version) (pairs ALLOWED_OS ALLOWED_ARCH) ++ map (image_place version) (pairs ALLOWED_ARCH NAS_FORMATS).

(** After a run of the pre-build every installer and image of the version is in its place or
    reported as failed, with nothing that was there removed; the ten targets are split, each
    counted once, into those built, those failed and those left alone; and when nothing failed,
    running it again, at any time, does nothing. *)
Theorem ensure_all_targets now fs version :
  let '(fs', e) := ensureAllBuilds B now fs version in
  keeps fs fs' /\
  (forall t, t ∈ targets_of version -> t.1 ∈ map fst (en_failed e) \/ there fs' t.2) /\
  (exists left_alone, map fst (targets_of version) ≡ₚ en_built e ++ map fst (en_failed e) ++ left_alone) /\
  (en_failed e = [] -> forall later,
   ensureAllBuilds B later fs' version = (fs', {| en_built := []; en_failed := [] |})).
Proof.
  assert (Hacc : accounted fs (targets_of version) (ensureAllBuilds B now fs version)).
  { unfold ensureAllBuilds, targets_of. apply (fold_accounted fs _ (fun t => (image_place version t).2)).
    { intros t. apply buildNasImage_adds. }
    apply (fold_accounted fs _ (fun t => (agent_place version t).2) _ _ []).
    { intros t. apply buildAgent_adds. }
    split; [apply keeps_refl|]. split; [by intros t ?%not_elem_of_nil|]. by exists []. }
  destruct (ensureAllBuilds B now fs version) as [fs' e]. destruct Hacc as (Hk & Hall & Hperm).
  do 3 (split; [done|]). intros He later. cbn [fst snd] in Hall. rewrite He in Hall.
  assert (Hthere : forall t, t ∈ targets_of version -> there fs' t.2).
  { intros t Ht. destruct (Hall t Ht) as [H%not_elem_of_nil|]; done. }
  unfold ensureAllBuilds, ensure_agent, ensure_image.
  rewrite all_there_same; [apply all_there_same|]; intros t Ht.
  - apply (Hthere (image_place version t)), elem_of_app. right. by apply list_elem_of_fmap_2.
  - apply (Hthere (agent_place version t)), elem_of_app. left. by apply list_elem_of_fmap_2.
Qed.
End ensure_theorems.

(** ** An image holds together *)

Section image_theorems.
Context {TL : Tools} {HS : Sha256}.

Definition field_of (k : string) (j : json) : option json := match j with JObj m => map_get k m | _ => None end.
Definition elements (o : option json) : list json := match o with Some (JArr l) => l | _ => [] end.
Definition descriptor_of (j : json) : option Descriptor :=
  match field_of "mediaType" j, field_of "digest" j, field_of "size" j with
  | Some (JStr m), Some (JStr d), Some (JNum q) => Some {| ds_media := m; ds_digest := d; ds_size := Qfloor q |}
  | _, _, _ => None end.

(** The descriptor is that of the blob, which the archive holds under its digest. *)
Definition resolves (es : list (path * string)) (j : json) (content : string) : Prop :=
  exists media, descriptor_of j = Some (describe media content) /\
    map_get ["blobs"; "sha256"; sha256 content] es = Some content.

Lemma descriptor_describe media content rest :
  descriptor_of (JObj (descriptor_fields (describe media content) ++ rest)) = Some (describe media content).
Proof. unfold descriptor_of. simpl. unfold describe, inject_Z. simpl. unfold Qfloor. simpl. by rewrite Z.div_1_r. Qed.

(** An importer that follows the archive's documents finds what they name. The index names the
    manifest, the manifest its configuration and its one layer, each by the digest and size of a
    blob of the archive; the layer is the packed root file system, compressed for docker and as
    it is for qnap, whose digest the configuration gives; and docker's own manifest lists the
    paths of those blobs. *)
Theorem image_closed now arch ver format layerBytes :
  let es := pack now arch ver format layerBytes in
  let config := json_text (image_config now arch ver layerBytes) in
  let layer := layer_blob format layerBytes in
  let manifest := image_manifest format config layer in
  NoDup [sha256 layer; sha256 config; sha256 (json_text manifest)] ->
  exists index docker,
    map_get ["index.json"] es = Some (json_text index) /\ map_get ["manifest.json"] es = Some (json_text docker) /\
    (exists d, elements (field_of "manifests" index) = [d] /\ resolves es d (json_text manifest)) /\
    (exists d, field_of "config" manifest = Some d /\ resolves es d config) /\
    (exists d, elements (field_of "layers" manifest) = [d] /\ resolves es d layer) /\
    (elements (field_of "rootfs" (image_config now arch ver layerBytes) ≫= field_of "diff_ids") = [JStr (digest_of layerBytes)]) /\
    (exists d, elements (Some docker) = [d] /\ field_of "Config" d = Some (JStr ("blobs/sha256/" +:+ sha256 config)) /\
       elements (field_of "Layers" d) = [JStr ("blobs/sha256/" +:+ sha256 layer)]).
Proof.
  intros es config layer manifest Hnd. apply NoDup_cons in Hnd as [H1 Hnd]. apply NoDup_cons in Hnd as [H2 _].
  assert (Hget : forall e, e ∈ entries now arch ver format layerBytes -> map_get e.1 es = Some e.2).
  { intros e He. apply (map_get_js_map fst snd); [|done]. unfold entries. fold config layer manifest. cbn [map fst].
    assert (Hlc : sha256 layer <> sha256 config) by (intros Hx; apply H1; rewrite Hx; in_list).
    assert (Hlm : sha256 layer <> sha256 (json_text manifest)) by (intros Hx; apply H1; rewrite Hx; in_list).
    assert (Hcm : sha256 config <> sha256 (json_text manifest)) by (intros Hx; apply H2; rewrite Hx; in_list).
    repeat (apply NoDup_cons; split; [intros Hx; repeat (apply elem_of_cons in Hx as [Hx|Hx]; [congruence|]); by apply not_elem_of_nil in Hx|]).
    constructor. }
  assert (Hlayer : map_get ["blobs"; "sha256"; sha256 layer] es = Some layer) by (apply (Hget (_, _)); unfold entries; in_list).
  assert (Hconfig : map_get ["blobs"; "sha256"; sha256 config] es = Some config) by (apply (Hget (_, _)); unfold entries; in_list).
  assert (Hmanifest : map_get ["blobs"; "sha256"; sha256 (json_text manifest)] es = Some (json_text manifest))
    by (apply (Hget (_, _)); unfold entries; in_list).
  exists (image_index format (json_text manifest)), (docker_manifest format ver config layer).
  split; [by apply (Hget (["index.json"], _)); unfold entries; in_list|].
  split; [by apply (Hget (["manifest.json"], _)); unfold entries; in_list|].
  split; [eexists; split; [reflexivity|]; eexists; split; [apply descriptor_describe|done]|].
  split; [eexists; split; [reflexivity|]; eexists; split; [by rewrite <- (app_nil_r (descriptor_fields _)); apply descriptor_describe|done]|].
  split; [eexists; split; [reflexivity|]; eexists; split; [by rewrite <- (app_nil_r (descriptor_fields _)); apply descriptor_describe|done]|].
  split; [reflexivity|]. by eexists.
Qed.
End image_theorems.

(** ** What an agent is given *)

Section serving.
Context {T : Type -> Type} {ST : Store T} {HS : Sha256} {TL : Tools}.
Context (B : path) (HB : B <> []) (Hn : normal B).

(** Every folder of a target carries its name, below a version that is safe. *)
Definition tidy fs : Prop := forall v t os arch, is_Some (fs !! (B ++ [v; t])) -> target_of t = Some (os, arch) ->
  safeVersion v = Ok v /\ t = os +:+ "-" +:+ arch.

Lemma listed_file fs m os arch : tidy fs -> m ∈ listBuilds B fs -> bm_os m = os -> bm_arch m = arch ->
  includes ALLOWED_OS os = true ->
  exists content, fs !! build_path B (bm_version m) os arch = Some (File content (bm_builtAt m)) /\
    safeVersion (bm_version m) = Ok (bm_version m) /\ bm_size m = Z.of_nat (String.length content).
Proof.
  intros Htidy Hm Hos Harch Ho. apply elem_of_listBuilds in Hm as (v & t & _ & _ & Ht & Hm).
  unfold target_metas in Hm. destruct (target_of t) as [[o a]|] eqn:Htg; [|by apply not_elem_of_nil in Hm].
  destruct (Htidy v t o a Ht Htg) as [Hv ->]. destruct (String.eqb o "nas" && includes ALLOWED_ARCH a) eqn:Hnas.
  - exfalso. apply list_elem_of_In, in_concat in Hm as (l & Hl & Hm). apply in_map_iff in Hl as (file & <- & _).
    destruct (nasFormatFromFile file); [|done]. apply list_elem_of_In, elem_of_meta_at in Hm as (c & tm & _ & ->).
    cbn in Hos. by rewrite <- Hos in Ho.
  - destruct (negb _ || _); [by apply not_elem_of_nil in Hm|]. apply elem_of_meta_at in Hm as (c & tm & Hf & ->).
    cbn in Hos, Harch |- *. subst. exists c. rewrite <- app_assoc in Hf. done.
Qed.

(** Builds keep the folders tidy. *)
Lemma build_tidy now done_at fs os arch version : tidy fs -> tidy (buildAgent B now done_at fs os arch version).1.
Proof.
  intros Htidy. destruct (buildAgent B now done_at fs os arch version) as [fs' r] eqn:Hb. cbn [fst].
  assert (Hup : forall fs1 v, assertTarget os arch = Ok () -> safeVersion version = Ok v ->
    mkdirs [] (B ++ [v; os +:+ "-" +:+ arch]) fs = Some fs1 -> tidy fs1).
  { intros fs1 v Ha Hv Hm v2 t o a [n Hp] Htg. destruct (mkdirs_frame _ _ _ _ (B ++ [v2; t]) Hm) as [He|(_ & _ & s1 & s2 & He & _ & Hs)].
    - apply (Htidy v2 t o a); [|done]. rewrite <- He. by eexists.
    - simpl in Hs. subst s1. rewrite <- app_assoc in He. apply app_inv_head in He as He. injection He as <- <- _.
      destruct (target_facts os arch _ Ha) as (_ & Hto & _). rewrite Hto in Htg. injection Htg as <- <-.
      split; [by eapply safeVersion_idem|done]. }
  destruct (buildAgent_inv B HB Hn _ _ _ _ _ _ _ _ Hb) as [(v & fs1 & binary & Ha & Hv & Hm & _ & -> & _)|(e & _ & [->|(v & Ha & Hv & Hm)])];
    [|done|by eapply Hup]. intros v2 t o a Hp Htg. apply (Hup fs1 v Ha Hv Hm v2 t o a); [|done].
  rewrite lookup_insert_ne in Hp; [done|]. intros He%(f_equal List.length). unfold build_path in He. rewrite !length_app in He. simpl in He. lia.
Qed.

(** The name an agent asks for: its platform, with the extension of Windows or without. *)
Definition download_name (os arch : string) (exe : bool) : string :=
  "argus-agent-" +:+ os +:+ "-" +:+ arch +:+ (if exe then ".exe" else "").

(** An approved agent that asks for its platform is given the newest build of it, whole, and
    a platform without builds is not found; an agent that is not approved is refused whatever it
    asks for. *)
Theorem agent_download_newest (db : FleetDb T) fs id os arch exe (Htidy : tidy fs)
  (Ho : includes ALLOWED_OS os = true) (Ha : includes ALLOWED_ARCH arch = true) (Hid : truthy id = true) :
  match get_agent_download B db fs (Some id) (download_name os arch exe) with
  | (200, Some (content, filename)) =>
      isApproved db id = true /\ filename = binaryName os /\ exists v builtAt,
      fs !! build_path B v os arch = Some (File content builtAt) /\
      forall m, m ∈ listBuilds B fs -> bm_os m = os -> bm_arch m = arch -> bm_builtAt m <= builtAt
  | (404, None) => isApproved db id = true /\
      forall m, m ∈ listBuilds B fs -> ~ (bm_os m = os /\ bm_arch m = arch)
  | (403, None) => isApproved db id = false
  | _ => False
  end.
Proof.
  unfold get_agent_download. rewrite Hid. destruct (isApproved db id) eqn:Hap; [|done]. cbn [negb orb].
  assert (agent_download_name (download_name os arch exe) = Some (os, arch)) as ->.
  { unfold includes in Ho, Ha. apply existsb_exists in Ho as (o & Ho & ->%String.eqb_eq), Ha as (a & Ha & ->%String.eqb_eq).
    simpl in Ho, Ha. by destruct Ho as [<-|[<-|[<-|[]]]], Ha as [<-|[<-|[]]], exe. }
  destruct (latestBuildFor B fs os arch) as [h|] eqn:Hl.
  - assert (Hh : h ∈ listBuilds B fs /\ bm_os h = os /\ bm_arch h = arch).
    { unfold latestBuildFor in Hl. rewrite Ho, Ha in Hl. cbn [negb orb] in Hl.
      assert (Hin : h ∈ List.filter (fun b => String.eqb (bm_os b) os && String.eqb (bm_arch b) arch) (listBuilds B fs)).
      { destruct (List.filter _ _); [done|]. injection Hl as ->. by left. }
      apply elem_of_filterb in Hin as [Hin [Hq1%String.eqb_eq Hq2%String.eqb_eq]%andb_true_iff]. done. }
    destruct Hh as (Hin & Hos & Harch). destruct (listed_file fs h os arch Htidy Hin Hos Harch Ho) as (c & Hf & Hv & _).
    rewrite (readBuildFile_spec B HB Hn), Hos, Harch, Hv. unfold assertTarget. rewrite Ho, Ha. cbn [negb]. unfold read_file. rewrite Hf.
    split; [done|]. split; [done|]. exists (bm_version h), (bm_builtAt h). split; [done|]. intros m Hm Hmo Hma.
    destruct (latestBuildFor_newest B fs os arch m Ho Ha Hm Hmo Hma) as (h' & Hl' & _ & _ & _ & Hle). rewrite Hl in Hl'. by injection Hl' as <-.
  - split; [done|]. intros m Hm [Hmo Hma]. destruct (latestBuildFor_newest B fs os arch m Ho Ha Hm Hmo Hma) as (h & Hh & _). congruence.
Qed.

Section updates.
Context (AGENT_VERSION : string).

(** An update is shipped only to an agent that needs it: unless a location or force is given,
    an agent at or above the target gets no command, with nothing changed, and one that is sent
    a command has no version or one whose first difference from the target is lower. *)
Theorem update_only_when_needed now commandId (w : World T) id b w' reply :
  post_update AGENT_VERSION now commandId w id b = (w', Ok reply) ->
  let target := default AGENT_VERSION (ub_version b) in
  match reply with
  | UpdateNotFound => w' = w /\ getAgent None now (w_db w) id = None
  | AlreadyUpToDate v t => w' = w /\ t = target /\ ~ lex_lt (component v) (component target) /\
      exists a, getAgent None now (w_db w) id = Some a /\ ag_version a = Some v
  | UpdateSent _ _ current t => t = target /\
      (nonempty (ub_url b) = None -> ub_force b <> Some true ->
       forall v, nonempty current = Some v -> lex_lt (component v) (component target))
  end.
Proof.
  unfold post_update. destruct (getAgent None now (w_db w) id) as [a|] eqn:Ha; [|by intros [= <- <-]].
  set (target := default AGENT_VERSION (ub_version b)). cbv zeta.
  assert (Hsend : forall w2, send_update now commandId w id b target (ag_version a) = (w2, Ok reply) ->
    exists c d, reply = UpdateSent c d (ag_version a) target).
  { unfold send_update. intros w2. destruct (dispatchCommand _ _ _ _ _ _) as [w3 [c|]]; [|done]. intros [= <- <-]. eauto. }
  destruct (nonempty (ag_version a)) as [v|] eqn:Hv.
  - destruct (compareSemver_iff v target) as (_ & Hlt & _).
    destruct (negb _ && negb _ && (0 <=? _)) eqn:Hu.
    + intros [= <- <-]. split; [done|]. split; [done|]. apply andb_true_iff in Hu as [_ Hu]. apply Z.leb_le in Hu. split.
      * intros H%Hlt. lia.
      * exists a. split; [done|]. unfold nonempty in Hv. destruct (ag_version a) as [x|]; [|done]. destruct (truthy x); by simplify_eq.
    + intros (c & d & ->)%Hsend. split; [done|]. intros Hurl Hforce v' Hv'. rewrite Hv in Hv'. injection Hv' as <-. apply Hlt.
      assert (default false (option_map truthy (ub_url b)) = false /\ default false (ub_force b) = false) as [Hx Hy].
      { unfold nonempty in Hurl. destruct (ub_url b) as [u|]; simpl; [destruct (truthy u); [done|]|]; split; try done; by destruct (ub_force b) as [[]|]. }
      rewrite Hx, Hy in Hu. cbn [negb andb] in Hu. apply Z.leb_gt in Hu.
      destruct (compareSemver_cases v target) as [[E _]|[[E _]|[E _]]]; lia.
  - intros (c & d & ->)%Hsend. split; [done|]. intros _ _ v'. by rewrite Hv.
Qed.
End updates.
End serving.

Section witnesses.
#[local] Instance id_sha : Sha256 := fun s => s.
(** A compiler that stamps what it was told, and fails for Windows on arm64. *)
#[local] Instance w_tools : Tools := {|
  go_available := true;
  go_build os arch flags := if String.eqb os "windows" && String.eqb arch "arm64"
    then Err {| ge_stderr := String "010" (" no linker " +:+ String "010" "more"); ge_message := "exit 1" |} else Ok (os +:+ arch +:+ flags);
  tar es := "tar"; gzip s := "z" +:+ s |}.

Definition w_dir : path := ["data"; "agent-builds"].
Lemma w_normal : normal w_dir. Proof. by repeat constructor. Defined.

Example versions : (compareSemver "v2.10.0" "2.9.1", compareSemver "1.2" "1.2.0", compareSemver "1.2.0" "1.10") = (1, 0, -1).
Proof. vm_compute. reflexivity. Qed.

(** A numeric suffix counts: a pre-release with a number is above its release. *)
Example numeric_suffix_counts : (compareSemver "1.0.0-1" "1.0.0", compareSemver "1.0.0-rc1" "1.0.0") = (1, 0).
Proof. vm_compute. reflexivity. Qed.

Example traversal : (buildDir w_dir "../../etc" "linux" "amd64", buildDir w_dir " .. " "linux" "amd64",
    match buildAgent w_dir 0 0 ∅ "linux" "amd64" "1.0 beta" with (_, Ok m) => bm_version m | _ => "" end) =
  (Ok ["data"; "agent-builds"; ".._.._etc"; "linux-amd64"], Err "invalid version", "1.0_beta").
Proof. vm_compute. reflexivity. Qed.

(** The folder is named by the safe version, the flags by the version as given, spaces included. *)
Example flags_not_sanitised : ldflags "1.0 beta" 0 =
  "-s -w -X main.Version=1.0 beta -X github.com/brijeshdave/argus-monitor/agent/internal/collect.BuildTime=1970-01-01T00:00:00.000Z".
Proof. vm_compute. reflexivity. Qed.

(** A folder with more after its platform is listed as that platform, and served from another. *)
Example stray_folder_listed :
  let fs : Fs := <[["data"; "agent-builds"; "1.0"; "linux-amd64-old"; "argus-monitor"] := File "x" 5]>
    (<[["data"; "agent-builds"; "1.0"; "linux-amd64-old"] := Dir]> (<[["data"; "agent-builds"; "1.0"] := Dir]>
    (<[["data"; "agent-builds"] := Dir]> ∅))) in
  (map bm_os (listBuilds w_dir fs), readBuildFile w_dir fs "1.0" "linux" "amd64") = (["linux"], Err "ENOENT").
Proof. vm_compute. reflexivity. Qed.

Definition w_built : Fs := (buildAgent w_dir 10 20 ∅ "linux" "amd64" "1.2").1.

Example windows_arm_reported :
  let '(fs, e) := ensureAllBuilds w_dir (fun _ => 0) w_built "1.2" in
  (en_failed e, List.length (en_built e), List.length (listBuilds w_dir fs)) =
  ([("windows-arm64", "agent build failed: no linker")], 8%nat, 9%nat).
Proof. vm_compute. reflexivity. Qed.

Lemma build_then_download_witness : exists m binary,
  (buildAgent w_dir 10 20 ∅ "linux" "amd64" "1.2").2 = Ok m /\ m ∈ listBuilds w_dir w_built /\
  readBuildFile w_dir w_built "1.2" "linux" "amd64" = Ok (binary, "argus-monitor").
Proof.
  pose proof (build_then_download w_dir (fun H => match H in _ = x return match x with [] => False | _ => True end with eq_refl => I end)
    w_normal 10 20 ∅ "linux" "amd64" "1.2") as H. unfold w_built.
  destruct (buildAgent w_dir 10 20 ∅ "linux" "amd64" "1.2") as [fs' r] eqn:He. destruct H as [_ H].
  destruct r as [m|e].
  - destruct H as (binary & _ & _ & Hr & _ & Hl & _). by exists m, binary.
  - exfalso. clear H. apply (f_equal snd) in He. vm_compute in He. discriminate.
Defined.

Lemma empty_tidy : tidy w_dir ∅.
Proof. intros v t os arch Hs. rewrite lookup_empty in Hs. by apply is_Some_None in Hs. Defined.

Lemma agent_download_newest_witness :
  isApproved (ST := list_store) w_keyed "a1" = true /\ exists v builtAt content,
    w_built !! build_path w_dir v "linux" "amd64" = Some (File content builtAt) /\
    forall m, m ∈ listBuilds w_dir w_built -> bm_os m = "linux" -> bm_arch m = "amd64" -> bm_builtAt m <= builtAt.
Proof.
  assert (Hne : w_dir <> []) by discriminate.
  assert (Ht : tidy w_dir w_built).
  { unfold w_built. apply build_tidy; [exact Hne|exact w_normal|exact empty_tidy]. }
  pose proof (agent_download_newest (T := list) (ST := list_store) w_dir Hne w_normal w_keyed w_built "a1" "linux" "amd64" false
    Ht eq_refl eq_refl eq_refl) as H.
  destruct (get_agent_download w_dir w_keyed w_built (Some "a1") (download_name "linux" "amd64" false)) as [code reply] eqn:He.
  apply (f_equal fst) in He as Hc. vm_compute in Hc. clear He. subst code.
  destruct reply as [[content filename]|]; [|exact (False_ind _ H)].
  destruct H as (Ha & _ & v & t & Hf & Hm). split; [exact Ha|].
  exists v, t, content. split; [exact Hf|exact Hm].
Defined.

Lemma ensure_all_targets_witness :
  there ((ensureAllBuilds w_dir (fun _ => 0) ∅ "1.2").1) (Ok ["data"; "agent-builds"; "1.2"; "linux-amd64"; "argus-monitor"]).
Proof.
  pose proof (ensure_all_targets w_dir (fun _ => 0) ∅ "1.2") as H.
  destruct (ensureAllBuilds w_dir (fun _ => 0) ∅ "1.2") as [fs' e] eqn:He. destruct H as (_ & H & _).
  destruct (H ("linux-amd64", Ok ["data"; "agent-builds"; "1.2"; "linux-amd64"; "argus-monitor"])) as [Hf|Ht].
  - vm_compute. apply list_elem_of_further, list_elem_of_further, list_elem_of_here.
  - exfalso. assert (Hfl : map fst (en_failed (ensureAllBuilds w_dir (fun _ => 0) ∅ "1.2").2) = ["windows-arm64"])
      by (vm_compute; reflexivity).
    rewrite He in Hfl. cbn [snd] in Hfl. rewrite Hfl in Hf. by apply list_elem_of_singleton in Hf.
  - exact Ht.
Defined.

Lemma image_closed_witness : exists index,
  map_get ["index.json"] (pack 0 "amd64" "1.2" "docker" "layer") = Some (json_text index).
Proof.
  destruct (image_closed 0 "amd64" "1.2" "docker" "layer") as (index & docker & H & _); [|by exists index].
  vm_compute. repeat (apply NoDup_cons; split; [intros Hx; repeat (apply elem_of_cons in Hx as [Hx|Hx]; [discriminate|]); by apply not_elem_of_nil in Hx|]).
  constructor.
Defined.
End witnesses.
