(* ===== verification/Mib.v ===== *)
(** * MIB modules

    Models apps/backend/src/services/mib.ts: comments are stripped, the OID assignments of the
    module are found, their symbols resolved to a fixpoint from the well-known roots, and the
    objects stored; OIDs are then named by the longest known prefix. Text is a string of
    one-byte characters. Arcs are exact: those above 2^53, which a number of JavaScript rounds and which
    no OID has, and the engine's limit on the arguments a spread pushes are not modelled. *)
From S2P Require Import Prelude Text Dates Store Schema RowUpdates.

Record MibObject : Type := {
  mo_oid : string; mo_name : string; mo_unit : option string; mo_description : option string
}.

Definition BASE : list (string * list Z) :=
  [("iso", [1]); ("org", [1; 3]); ("dod", [1; 3; 6]); ("internet", [1; 3; 6; 1]);
   ("directory", [1; 3; 6; 1; 1]); ("mgmt", [1; 3; 6; 1; 2]); ("mib-2", [1; 3; 6; 1; 2; 1]);
   ("transmission", [1; 3; 6; 1; 2; 1; 10]); ("experimental", [1; 3; 6; 1; 3]);
   ("private", [1; 3; 6; 1; 4]); ("enterprises", [1; 3; 6; 1; 4; 1]);
   ("security", [1; 3; 6; 1; 5]); ("snmpV2", [1; 3; 6; 1; 6]); ("snmpModules", [1; 3; 6; 1; 6; 3]);
   ("host", [1; 3; 6; 1; 2; 1; 25])].

(** ** Characters *)

Definition QUOTE : ascii := "034".
Definition NEWLINE : ascii := "010".

Definition is_letter (c : ascii) : bool :=
  let n := code c in ((65 <=? n) && (n <=? 90)) || ((97 <=? n) && (n <=? 122)).
Definition is_digit (c : ascii) : bool := (48 <=? code c) && (code c <=? 57).
(** [\w] *)
Definition is_word (c : ascii) : bool := is_letter c || is_digit c || Ascii.eqb c "_".
(** [[\w-]] *)
Definition is_name (c : ascii) : bool := is_word c || Ascii.eqb c "-".

(** The longest prefix of characters of [p], and the rest: a greedy class under [*]. *)
Fixpoint span (p : ascii -> bool) (s : string) : string * string :=
  match s with
  | String c s' => if p c then let '(a, b) := span p s' in (String c a, b) else ("", s)
  | EmptyString => ("", "")
  end.

(** The class under [+]. *)
Definition span1 (p : ascii -> bool) (s : string) : option (string * string) :=
  let '(a, b) := span p s in if truthy a then Some (a, b) else None.

(** ** Comments *)

Inductive mode : Type := Plain | InString | InComment.

(** One pass over the text; the loops of the source are the modes. *)
Fixpoint strip (m : mode) (s : string) : string :=
  match s with
  | EmptyString => ""
  | String c s' =>
      match m with
      | InString => String c (strip (if Ascii.eqb c QUOTE then Plain else InString) s')
      | InComment =>
          if Ascii.eqb c NEWLINE then String c (strip Plain s') else
          match s' with
          | String d s'' =>
              if Ascii.eqb c "-" && Ascii.eqb d "-" then strip Plain s'' else strip InComment s'
          | EmptyString => ""
          end
      | Plain =>
          if Ascii.eqb c QUOTE then String c (strip InString s') else
          match s' with
          | String d s'' =>
              if Ascii.eqb c "-" && Ascii.eqb d "-" then strip InComment s''
              else String c (strip Plain s')
          | EmptyString => String c ""
          end
      end
  end.

Definition stripComments : string -> string := strip Plain.

(** ** Assignments *)

(** The alternatives of the keyword, and [\b] after it. *)
Definition keyword (s : string) : option string :=
  let two_words :=
    match after "OBJECT" s with
    | Some r => match span1 is_space r with Some (_, r) => after "IDENTIFIER" r | None => None end
    | None => None
    end in
  let first (a b : option string) := match a with Some _ => a | None => b end in
  match first (after "OBJECT-TYPE" s) (first two_words (first (after "MODULE-IDENTITY" s)
          (first (after "OBJECT-IDENTITY" s) (first (after "OBJECT-GROUP" s)
             (after "NOTIFICATION-TYPE" s))))) with
  | Some (String c r) => if is_word c then None else Some (String c r)
  | other => other
  end.

(** The last part of [ASSIGN_RE], from its [::=]: the text in braces and what follows. *)
Definition braces_here (s : string) : option (string * string) :=
  match after "::=" s with
  | None => None
  | Some r =>
      match snd (span is_space r) with
      | String "{" r =>
          let '(inside, r) := span (fun c => negb (Ascii.eqb c "}")) r in
          match r with String _ r => Some (inside, r) | EmptyString => None end
      | _ => None
      end
  end.

(** The lazy group up to the first such assignment: the text before it, in braces and after. *)
Fixpoint find_braces (s : string) : option (string * string * string) :=
  match braces_here s with
  | Some (inside, rest) => Some ("", inside, rest)
  | None =>
      match s with
      | EmptyString => None
      | String c s' =>
          match find_braces s' with
          | Some (body, inside, rest) => Some (String c body, inside, rest)
          | None => None
          end
      end
  end.

(** [ASSIGN_RE] at the start of a text: the three groups and what follows the match. *)
Definition assign_at (s : string) : option (string * string * string * string) :=
  match s with
  | EmptyString => None
  | String c _ =>
      if negb (is_letter c) then None else
      let '(name, r) := span is_name s in
      match span1 is_space r with
      | None => None
      | Some (_, r) =>
          match keyword r with
          | None => None
          | Some r =>
              match find_braces r with
              | Some (body, inside, rest) => Some (name, body, inside, rest)
              | None => None
              end
          end
      end
  end.

(** [clean.matchAll(ASSIGN_RE)]; the fuel is more than the length of the text. *)
Fixpoint matchAll (fuel : nat) (s : string) : option (list (string * string * string)) :=
  match fuel with
  | O => None
  | S fuel =>
      match assign_at s with
      | Some (name, body, inside, rest) => option_map (cons (name, body, inside)) (matchAll fuel rest)
      | None =>
          match s with
          | EmptyString => Some []
          | String _ s' => matchAll fuel s'
          end
      end
  end.

(** Splitting at white space, without empty parts. *)
Fixpoint words_from (cur : string) (s : string) : list string :=
  match s with
  | EmptyString => if truthy cur then [cur] else []
  | String c s' =>
      if is_space c then (if truthy cur then cur :: words_from "" s' else words_from "" s')
      else words_from (cur +:+ String c "") s'
  end.
Definition words : string -> list string := words_from "".

(** The text in double quotes after [key] and white space, at the first place there is one. *)
Fixpoint quoted_after (key s : string) : option string :=
  let here :=
    match after key s with
    | None => None
    | Some r =>
        match span1 is_space r with
        | Some (_, String q r) =>
            if Ascii.eqb q QUOTE then
              let '(t, r) := span (fun c => negb (Ascii.eqb c QUOTE)) r in
              match r with String _ _ => Some t | EmptyString => None end
            else None
        | _ => None
        end
    end in
  match here with
  | Some t => Some t
  | None => match s with EmptyString => None | String _ s' => quoted_after key s' end
  end.

(** Each run of white space becomes one space. *)
Fixpoint squeeze (in_space : bool) (s : string) : string :=
  match s with
  | EmptyString => ""
  | String c s' =>
      if is_space c then (if in_space then squeeze true s' else String " " (squeeze true s'))
      else String c (squeeze false s')
  end.

Record Raw : Type := {
  raw_name : string; raw_tokens : list string; raw_unit : option string;
  raw_description : option string
}.

Definition raw_of (m : string * string * string) : option Raw :=
  let '(name, body, inside) := m in
  let braces := trim inside in
  if negb (truthy braces) then None else
  Some {| raw_name := name; raw_tokens := words braces; raw_unit := quoted_after "UNITS" body;
          raw_description := option_map (fun d => slice0 300 (trim (squeeze false d)))
            (quoted_after "DESCRIPTION" body) |}.

(** ** Resolution *)

(** [Number] of a text of digits. *)
Fixpoint digits_value (acc : Z) (s : string) : Z :=
  match s with EmptyString => acc | String c s' => digits_value (acc * 10 + (code c - 48)) s' end.

Inductive token : Type :=
| Num (n : Z)
| Sym (name : string)
| Bad.

Definition token_of (tk : string) : token :=
  match span1 is_digit tk with
  | Some (d, EmptyString) => Num (digits_value 0 d)
  | _ =>
      match span1 is_name tk with
      | Some (w, EmptyString) =>
          match tk with String c _ => if is_letter c then Sym tk else Bad | EmptyString => Bad end
      | Some (w, String "(" r) =>
          match span1 is_digit r with
          | Some (d, String ")" EmptyString) => Num (digits_value 0 d)
          | _ => Bad
          end
      | _ => Bad
      end
  end.

Fixpoint resolve_from (out : list Z) (tokens : list string) (m : list (string * list Z))
  : option (list Z) :=
  match tokens with
  | [] => match out with [] => None | _ => Some out end
  | tk :: tokens =>
      match token_of tk with
      | Num n => resolve_from (out ++ [n]) tokens m
      | Sym name =>
          match map_get name m with
          | None => None
          | Some base => resolve_from (out ++ base) tokens m
          end
      | Bad => None
      end
  end.

Definition resolveTokens : list string -> list (string * list Z) -> option (list Z) := resolve_from [].

(** One round over the definitions, and whether it added one. *)
Definition round_step (st : list (string * list Z) * bool) (r : Raw) : list (string * list Z) * bool :=
  let '(m, changed) := st in
  match map_get (raw_name r) m with
  | Some _ => st
  | None =>
      match resolveTokens (raw_tokens r) m with
      | Some arr => (map_set (raw_name r) arr m, true)
      | None => st
      end
  end.

Definition round (raws : list Raw) (m : list (string * list Z)) : list (string * list Z) * bool :=
  fold_left round_step raws (m, false).

(** [while (changed)]; [None] when the fuel runs out. *)
Fixpoint resolve_all (fuel : nat) (raws : list Raw) (m : list (string * list Z))
  : option (list (string * list Z)) :=
  match fuel with
  | O => None
  | S fuel =>
      let '(m', changed) := round raws m in
      if changed then resolve_all fuel raws m' else Some m'
  end.

Definition oid_text (arr : list Z) : string := join "." (map String_of_int arr).

Record ParsedMib : Type := { pm_objects : list MibObject; pm_parsed : nat; pm_resolved : nat }.

(** The objects by OID, and how many definitions resolved. *)
Definition collect (m : list (string * list Z)) (raws : list Raw) : list (string * MibObject) * nat :=
  fold_left (fun '(byOid, resolved) r =>
    match map_get (raw_name r) m with
    | None => (byOid, resolved)
    | Some arr =>
        (map_set (oid_text arr) {| mo_oid := oid_text arr; mo_name := raw_name r;
           mo_unit := raw_unit r; mo_description := raw_description r |} byOid, S resolved)
    end) raws ([], 0%nat).

(** One round more than there are definitions is enough. *)
Definition parseMib (text : string) : option ParsedMib :=
  let clean := stripComments text in
  match matchAll (S (String.length clean)) clean with
  | None => None
  | Some matches =>
      let raws := omap raw_of matches in
      match resolve_all (S (List.length raws)) raws BASE with
      | None => None
      | Some m =>
          let '(byOid, resolved) := collect m raws in
          Some {| pm_objects := map snd byOid; pm_parsed := List.length raws; pm_resolved := resolved |}
      end
  end.

(** ** The store *)

Section mibs.
Context {T : Type -> Type} {ST : Store T}.
Implicit Types t : T MibObjectRow.

Definition of_module (mib : string) (r : MibObjectRow) : bool := String.eqb (mib_module r) mib.

Definition object_row (now : Z) (mib : string) (o : MibObject) : MibObjectRow := {|
  mib_oid := mo_oid o; mib_name := mo_name o; mib_unit := mo_unit o;
  mib_description := mo_description o; mib_module := mib; mib_createdAt := now;
  mib_updatedAt := now |}.

Definition mibObjects_conflict (a b : MibObjectRow) : bool := String.eqb (mib_oid a) (mib_oid b).

(** [set: { name: mibObjects.name, ... }] names the columns of the row that is there. *)
Definition conflict_set (r : MibObjectRow) : MibObjectRow := {|
  mib_oid := mib_oid r; mib_name := mib_name r; mib_unit := mib_unit r;
  mib_description := mib_description r; mib_module := mib_module r;
  mib_createdAt := mib_createdAt r; mib_updatedAt := mib_updatedAt r |}.

(** In chunks of 500 rows, which change nothing: each row is upserted in turn. *)
Definition importMib (now : Z) t (mibName text : string) : option (T MibObjectRow * (nat * nat)) :=
  match parseMib text with
  | None => None
  | Some p =>
      if Nat.eqb (List.length (pm_objects p)) 0 then Some (t, (0%nat, pm_parsed p)) else
      let t := delete_where (of_module mibName) t in
      let t := fold_left (fun t o => upsert mibObjects_conflict (object_row now mibName o) conflict_set t)
                 (pm_objects p) t in
      Some (t, (List.length (pm_objects p), pm_parsed p))
  end.

(** Module names and counts, in the order of [compare]. *)
Definition listMibs (gt : string * Z -> string * Z -> bool) t : list (string * Z) :=
  js_sort gt (fold_left (fun counts r =>
    map_set (mib_module r) (default 0 (map_get (mib_module r) counts) + 1) counts) (rows t) []).

Definition deleteMib t (mibName : string) : T MibObjectRow := delete_where (of_module mibName) t.

(** The text without a leading dot. *)
Definition undot (s : string) : string := match s with String "." s' => s' | _ => s end.

(** [o === k || o.startsWith(k + '.')] *)
Definition under (o k : string) : bool := String.eqb o k || startsWith (k +:+ ".") o.

(** The comparison of the sort by length, longest first. *)
Definition shorter (a b : string) : bool := (String.length a <? String.length b)%nat.

(** The name of one OID, if it gets one. *)
Definition resolve_name (all : list MibObjectRow) (oid : string) : option string :=
  let exact := js_map mib_oid mib_name all in
  let known := js_sort shorter (map mib_oid all) in
  let o := undot oid in
  match map_get o exact with
  | Some name => Some name
  | None =>
      match List.find (under o) known with
      | None => None
      | Some base =>
          if negb (truthy base) then None else
          let rest := undot (substring (String.length base) (String.length o - String.length base) o) in
          match map_get base exact with
          | None => None
          | Some name =>
              if negb (truthy rest) || String.eqb rest "0" then Some name
              else match span1 is_digit rest with
                   | Some (_, EmptyString) => Some (name +:+ " #" +:+ rest)
                   | _ => None
                   end
          end
      end
  end.

Definition resolveOidNames t (oids : list string) : list (string * string) :=
  if Nat.eqb (List.length oids) 0 then [] else
  let all := rows t in
  if Nat.eqb (List.length all) 0 then [] else
  fold_left (fun out oid => match resolve_name all oid with
                            | Some name => map_set oid name out
                            | None => out end) oids [].
End mibs.

(** ** Parsing ends *)

Lemma after_length p s r : after p s = Some r -> String.length s = (String.length p + String.length r)%nat.
Proof.
  revert s. induction p as [|c p IH]; intros [|d s]; simpl; try done; try by intros [= <-].
  destruct (Ascii.eqb c d); [|done]. intros H. by rewrite (IH s H).
Qed.

Lemma span_length p s : (String.length (snd (span p s)) <= String.length s)%nat.
Proof.
  induction s as [|c s IH]; simpl; [done|]. destruct (p c); simpl; [|lia].
  destruct (span p s); simpl in *. lia.
Qed.

Lemma braces_length s inside rest : braces_here s = Some (inside, rest) ->
  (String.length rest < String.length s)%nat.
Proof.
  unfold braces_here. destruct (after "::=" s) as [r|] eqn:Ha; [|done]. apply after_length in Ha.
  pose proof (span_length is_space r) as Hs. destruct (snd (span is_space r)) as [|c r']; [done|].
  destruct (ascii_dec c "{") as [->|Hc]; [|by destruct c as [[] [] [] [] [] [] [] []]].
  pose proof (span_length (fun c => negb (Ascii.eqb c "}")) r') as Hs'.
  destruct (span _ r') as [t [|d r'']]; [done|]. intros [= <- <-]. simpl in *. lia.
Qed.

Lemma find_braces_length s body inside rest : find_braces s = Some (body, inside, rest) ->
  (String.length rest < String.length s)%nat.
Proof.
  revert body. induction s as [|c s IH]; intros body; cbn [find_braces].
  - destruct (braces_here "") as [[i r]|] eqn:Hb; [|done]. intros [= <- <- <-]. by apply braces_length in Hb.
  - destruct (braces_here (String c s)) as [[i r]|] eqn:Hb.
    + intros [= <- <- <-]. by apply braces_length in Hb.
    + destruct (find_braces s) as [[[b i] r]|]; [|done]. intros [= <- <- <-].
      specialize (IH b eq_refl). simpl. lia.
Qed.

Lemma keyword_length s r : keyword s = Some r -> (String.length r <= String.length s)%nat.
Proof.
  unfold keyword. set (two := match after "OBJECT" s with Some _ => _ | None => _ end).
  assert (Htwo : forall x, two = Some x -> (String.length x <= String.length s)%nat).
  { intros x. unfold two. destruct (after "OBJECT" s) as [r1|] eqn:H1; [|done].
    apply after_length in H1. unfold span1. pose proof (span_length is_space r1) as Hs.
    destruct (span is_space r1) as [sp r2]. destruct (truthy sp); [|done].
    intros H2%after_length. simpl in *. lia. }
  assert (Hafter : forall p x, after p s = Some x -> (String.length x <= String.length s)%nat)
    by (intros p x H%after_length; lia).
  destruct (after "OBJECT-TYPE" s) as [x|] eqn:E1.
  { intros H. apply (Hafter "OBJECT-TYPE"). rewrite E1. destruct x; [done|]. by destruct (is_word a). }
  destruct two as [x|].
  { intros H. apply Htwo. destruct x; [done|]. by destruct (is_word a). }
  destruct (after "MODULE-IDENTITY" s) as [x|] eqn:E2.
  { intros H. apply (Hafter "MODULE-IDENTITY"). rewrite E2. destruct x; [done|]. by destruct (is_word a). }
  destruct (after "OBJECT-IDENTITY" s) as [x|] eqn:E3.
  { intros H. apply (Hafter "OBJECT-IDENTITY"). rewrite E3. destruct x; [done|]. by destruct (is_word a). }
  destruct (after "OBJECT-GROUP" s) as [x|] eqn:E4.
  { intros H. apply (Hafter "OBJECT-GROUP"). rewrite E4. destruct x; [done|]. by destruct (is_word a). }
  destruct (after "NOTIFICATION-TYPE" s) as [x|] eqn:E5; [|done].
  intros H. apply (Hafter "NOTIFICATION-TYPE"). rewrite E5. destruct x; [done|]. by destruct (is_word a).
Qed.

Lemma assign_length s name body inside rest : assign_at s = Some (name, body, inside, rest) ->
  (String.length rest < String.length s)%nat.
Proof.
  unfold assign_at. destruct s as [|c s]; [done|]. destruct (negb (is_letter c)); [done|].
  pose proof (span_length is_name (String c s)) as H1. destruct (span is_name _) as [n r1].
  unfold span1. pose proof (span_length is_space r1) as H2. destruct (span is_space r1) as [sp r2].
  destruct (truthy sp); [|done]. destruct (keyword r2) as [r3|] eqn:H3; [|done]. apply keyword_length in H3.
  destruct (find_braces r3) as [[[b i] r4]|] eqn:H4; [|done]. apply find_braces_length in H4.
  intros [= <- <- <- <-]. simpl in *. lia.
Qed.

Lemma matchAll_ends fuel s : (String.length s < fuel)%nat -> matchAll fuel s <> None.
Proof.
  revert s. induction fuel as [|fuel IH]; intros s Hl; [lia|]. simpl.
  destruct (assign_at s) as [[[[n b] i] rest]|] eqn:Ha.
  - apply assign_length in Ha. specialize (IH rest ltac:(lia)). by destruct (matchAll fuel rest).
  - destruct s as [|c s]; [done|]. apply IH. simpl in Hl. lia.
Qed.

(** ** Resolution *)

Definition extends (m m' : list (string * list Z)) : Prop :=
  forall n a, map_get n m = Some a -> map_get n m' = Some a.

(** Nothing is left to add. *)
Definition closed (raws : list Raw) (m : list (string * list Z)) : Prop :=
  forall r, r ∈ raws -> is_Some (map_get (raw_name r) m) \/ resolveTokens (raw_tokens r) m = None.

Definition missing (raws : list Raw) (m : list (string * list Z)) : nat :=
  List.length (List.filter (fun r => negb (bool_decide (is_Some (map_get (raw_name r) m)))) raws).

Lemma set_extends n a m : map_get n m = None -> extends m (map_set n a m).
Proof.
  intros Hn k b Hk. destruct (decide (k = n)) as [->|Hne]; [congruence|].
  by rewrite map_get_set_ne by congruence.
Qed.

Lemma resolve_extends m m' tks out a : extends m m' ->
  resolve_from out tks m = Some a -> resolve_from out tks m' = Some a.
Proof.
  intros He. revert out. induction tks as [|tk tks IH]; intros out; simpl; [done|].
  destruct (token_of tk); [apply IH| |done].
  destruct (map_get name m) as [b|] eqn:Hb; [|done]. rewrite (He _ _ Hb). apply IH.
Qed.

(** A round: what it keeps, and what it means that it changed nothing. *)
Lemma round_spec l m ch m' ch' : fold_left round_step l (m, ch) = (m', ch') ->
  extends m m' /\ (ch = true -> ch' = true) /\
  (ch' = true -> ch = true \/ exists r, r ∈ l /\ map_get (raw_name r) m = None /\
     is_Some (map_get (raw_name r) m')) /\
  (ch' = false -> m' = m /\ closed l m).
Proof.
  revert m ch. induction l as [|r l IH]; intros m ch; simpl.
  { intros [= <- <-]. split; [by intros n a|]. split; [done|]. split; [by left|]. intros _.
    split; [done|]. by intros x ?%not_elem_of_nil. }
  destruct (map_get (raw_name r) m) as [a|] eqn:Hr; [|destruct (resolveTokens (raw_tokens r) m) as [a|] eqn:Ha];
    intros (H1 & H0 & H2 & H3)%IH.
  - split; [done|]. split; [done|]. split.
    + intros [?|(x & Hx & H)]%H2; [by left|]. right. exists x. split; [by apply list_elem_of_further|done].
    + intros [-> Hc]%H3. split; [done|]. intros x [->|Hx]%elem_of_cons; [left; eauto|by apply Hc].
  - pose proof (set_extends _ a _ Hr) as He. split; [by intros n b Hb; apply H1, He|].
    rewrite H0 by done. split; [done|]. split; [|done]. intros _. right. exists r.
    split; [apply list_elem_of_here|]. split; [done|]. exists a. apply H1, map_get_set_eq.
  - split; [done|]. split; [done|]. split.
    + intros [?|(x & Hx & H)]%H2; [by left|]. right. exists x. split; [by apply list_elem_of_further|done].
    + intros [-> Hc]%H3. split; [done|]. intros x [->|Hx]%elem_of_cons; [by right|by apply Hc].
Qed.

Lemma missing_less raws m m' r : extends m m' -> r ∈ raws -> map_get (raw_name r) m = None ->
  is_Some (map_get (raw_name r) m') -> (missing raws m' < missing raws m)%nat.
Proof.
  intros He Hr Hn Hs. unfold missing.
  assert (Hle : forall l, (List.length (List.filter (fun r => negb (bool_decide (is_Some (map_get (raw_name r) m')))) l)
    <= List.length (List.filter (fun r => negb (bool_decide (is_Some (map_get (raw_name r) m)))) l))%nat).
  { induction l as [|x l IH]; simpl; [done|]. destruct (map_get (raw_name x) m) as [a|] eqn:Hx.
    - rewrite (He _ _ Hx). simpl. done.
    - rewrite (bool_decide_eq_false_2 (is_Some None)) by (by intros []). simpl.
      destruct (bool_decide (is_Some (map_get (raw_name x) m'))); simpl; lia. }
  apply list_elem_of_split in Hr as (l1 & l2 & ->). rewrite !List.filter_app, !length_app. simpl.
  rewrite Hn, (bool_decide_eq_false_2 (is_Some None)) by (by intros []).
  rewrite (bool_decide_eq_true_2 _ Hs). simpl. pose proof (Hle l1). pose proof (Hle l2). lia.
Qed.

(** The loop ends, at a map that extends the given one and is closed. *)
Lemma resolve_all_ends fuel raws m : (missing raws m < fuel)%nat ->
  exists m', resolve_all fuel raws m = Some m' /\ extends m m' /\ closed raws m'.
Proof.
  revert m. induction fuel as [|fuel IH]; intros m Hl; [lia|]. simpl. unfold round.
  destruct (fold_left round_step raws (m, false)) as [m1 ch] eqn:Hf.
  apply round_spec in Hf as (H1 & _ & H2 & H3). destruct ch.
  - destruct (H2 eq_refl) as [?|(r & Hr & Hn & Hs)]; [done|].
    pose proof (missing_less raws m m1 r H1 Hr Hn Hs) as Hm.
    destruct (IH m1 ltac:(lia)) as (m' & Hm' & He & Hc). exists m'. split; [done|]. split; [|done].
    intros n a Ha. by apply He, H1.
  - destruct (H3 eq_refl) as [-> Hc]. by exists m.
Qed.

Lemma missing_bound raws m : (missing raws m <= List.length raws)%nat.
Proof. apply List.filter_length_le. Qed.

(** C25: parsing ends on every text: the scan for assignments takes no more steps than the text
    has characters, and the rounds of the resolution no more than one per definition and one. *)
Theorem parseMib_total text : exists p, parseMib text = Some p.
Proof.
  unfold parseMib. set (clean := stripComments text).
  pose proof (matchAll_ends (S (String.length clean)) clean ltac:(lia)) as Hm.
  destruct (matchAll _ clean) as [ms|]; [|done]. set (raws := omap raw_of ms).
  pose proof (missing_bound raws BASE) as Hb.
  destruct (resolve_all_ends (S (List.length raws)) raws BASE ltac:(lia)) as (m & -> & _).
  destruct (collect m raws) as [o n]. eauto.
Qed.

(** ** What the definitions mean *)

Section meaning.
Variable raws : list Raw.

(** The OID of a symbol, by the roots and the definitions, in whatever order. *)
Inductive derives : string -> list Z -> Prop :=
| derives_base n a : map_get n BASE = Some a -> derives n a
| derives_raw r a : r ∈ raws -> map_get (raw_name r) BASE = None -> value (raw_tokens r) a ->
    a <> [] -> derives (raw_name r) a
with value : list string -> list Z -> Prop :=
| value_nil : value [] []
| value_num tk n tks a : token_of tk = Num n -> value tks a -> value (tk :: tks) (n :: a)
| value_sym tk s b tks a : token_of tk = Sym s -> derives s b -> value tks a ->
    value (tk :: tks) (b ++ a).

Scheme derives_mut := Induction for derives Sort Prop
  with value_mut := Induction for value Sort Prop.
Combined Scheme derives_value_ind from derives_mut, value_mut.

Lemma resolve_value m out tks a : (forall n b, map_get n m = Some b -> derives n b) ->
  resolve_from out tks m = Some a -> exists b, a = out ++ b /\ value tks b /\ a <> [].
Proof.
  intros Hg. revert out. induction tks as [|tk tks IH]; intros out; simpl.
  - destruct out; [done|]. intros [= <-]. exists []. rewrite app_nil_r. split; [done|].
    split; [constructor|done].
  - destruct (token_of tk) as [n|s|] eqn:Ht; [| |done].
    + intros (b & -> & Hv & Hne)%IH. exists (n :: b). rewrite <- app_assoc in *. split; [done|].
      split; [by apply value_num|done].
    + destruct (map_get s m) as [b0|] eqn:Hs; [|done]. intros (b & -> & Hv & Hne)%IH.
      exists (b0 ++ b). rewrite <- app_assoc in *. split; [done|].
      split; [|done]. apply (value_sym tk s); [done|by apply Hg|done].
Qed.

(** A map the rounds may reach: it extends the roots, what it has is derived, and by a definition
    whose symbols it has. *)
Record sound (m : list (string * list Z)) : Prop := {
  sound_base : extends BASE m;
  sound_derived : forall n b, map_get n m = Some b -> derives n b;
  sound_justified : forall n b, map_get n m = Some b -> map_get n BASE = Some b \/
    exists r, r ∈ raws /\ raw_name r = n /\ resolveTokens (raw_tokens r) m = Some b
}.

Lemma sound_set m r a : sound m -> r ∈ raws -> map_get (raw_name r) m = None ->
  resolveTokens (raw_tokens r) m = Some a -> sound (map_set (raw_name r) a m).
Proof.
  intros [Hb Hg Hj] Hr Hn Ha. pose proof (set_extends _ a _ Hn) as He. split.
  - intros n b Hnb. by apply He, Hb.
  - intros n b Hnb. destruct (decide (n = raw_name r)) as [->|Hne].
    + rewrite map_get_set_eq in Hnb. injection Hnb as <-.
      destruct (resolve_value m [] (raw_tokens r) a Hg Ha) as (b & -> & Hv & Hne).
      apply derives_raw; [done| |done|done].
      destruct (map_get (raw_name r) BASE) as [x|] eqn:Hx; [|done]. apply Hb in Hx. congruence.
    + rewrite map_get_set_ne in Hnb by congruence. by apply Hg.
  - intros n b Hnb. destruct (decide (n = raw_name r)) as [->|Hne].
    + rewrite map_get_set_eq in Hnb. injection Hnb as <-. right. exists r.
      split; [done|]. split; [done|]. by eapply resolve_extends.
    + rewrite map_get_set_ne in Hnb by congruence. destruct (Hj n b Hnb) as [?|(r' & Hr' & Hn' & Ha')];
        [by left|]. right. exists r'. split; [done|]. split; [done|]. by eapply resolve_extends.
Qed.

Lemma round_sound l m ch m' ch' : (forall r, r ∈ l -> r ∈ raws) -> sound m ->
  fold_left round_step l (m, ch) = (m', ch') -> sound m'.
Proof.
  revert m ch. induction l as [|r l IH]; intros m ch Hin Hm; simpl; [by intros [= <- _]|].
  assert (Hin' : forall x, x ∈ l -> x ∈ raws) by (intros x Hx; by apply Hin, list_elem_of_further).
  destruct (map_get (raw_name r) m) as [a|] eqn:Hr; [by apply IH|].
  destruct (resolveTokens (raw_tokens r) m) as [a|] eqn:Ha; apply IH; try done.
  apply sound_set; [done| |done|done]. apply Hin, list_elem_of_here.
Qed.

Lemma resolve_all_sound fuel m m' : sound m -> resolve_all fuel raws m = Some m' -> sound m'.
Proof.
  revert m. induction fuel as [|fuel IH]; intros m Hm; simpl; [done|]. unfold round.
  destruct (fold_left round_step raws (m, false)) as [m1 ch] eqn:Hf.
  apply round_sound in Hf; [|done|done]. destruct ch; [by apply IH|by intros [= <-]].
Qed.

Lemma base_sound : sound BASE.
Proof. split; [by intros n a| |by left]. intros n b Hn. by apply derives_base. Qed.

Lemma raw_unique r r' : NoDup (map raw_name raws) -> r ∈ raws -> r' ∈ raws ->
  raw_name r' = raw_name r -> r' = r.
Proof.
  intros Hnd Hr Hr' Hn. apply list_elem_of_lookup in Hr as [i Hi]. apply list_elem_of_lookup in Hr' as [j Hj].
  assert (i = j) as ->; [|congruence].
  eapply NoDup_lookup; [exact Hnd|..]; rewrite list_lookup_fmap; [by rewrite Hi|by rewrite Hj; simpl; rewrite Hn].
Qed.

(** A closed map has everything that is derived, when no name is defined twice. *)
Lemma closed_complete m : NoDup (map raw_name raws) -> closed raws m -> sound m ->
  (forall n a, derives n a -> map_get n m = Some a) /\
  (forall tks a, value tks a -> forall out, out ++ a <> [] -> resolve_from out tks m = Some (out ++ a)).
Proof.
  intros Hnd Hc [Hb _ Hj].
  apply (derives_value_ind (fun n a _ => map_get n m = Some a)
    (fun tks a _ => forall out, out ++ a <> [] -> resolve_from out tks m = Some (out ++ a))).
  - intros n a Ha. by apply Hb.
  - intros r a Hr Hbase Hv IHv Hne. specialize (IHv [] Hne). simpl in IHv.
    destruct (Hc r Hr) as [[x Hx]|Hn]; [|by unfold resolveTokens in Hn; rewrite Hn in IHv].
    destruct (Hj _ _ Hx) as [Hx'|(r' & Hr' & Hn' & Ha')]; [congruence|].
    rewrite (raw_unique r r' Hnd Hr Hr' Hn') in Ha'. unfold resolveTokens in Ha'. congruence.
  - intros out Hne. rewrite app_nil_r in *. simpl. by destruct out.
  - intros tk n tks a Ht Hv IH out Hne. simpl. rewrite Ht. replace (out ++ n :: a) with ((out ++ [n]) ++ a)
      by (by rewrite <- app_assoc). apply IH. rewrite <- app_assoc. exact Hne.
  - intros tk s b tks a Ht Hd IHd Hv IH out Hne. simpl. rewrite Ht, IHd, app_assoc. apply IH.
    by rewrite <- app_assoc.
Qed.
End meaning.

(** C24: the rounds end within one per definition and one, at the map of exactly the symbols that
    have an OID by the roots and the definitions, whatever the order they are declared in. *)
Theorem resolution_complete raws (Hnd : NoDup (map raw_name raws)) :
  exists m, resolve_all (S (List.length raws)) raws BASE = Some m /\
    forall n a, map_get n m = Some a <-> derives raws n a.
Proof.
  destruct (resolve_all_ends (S (List.length raws)) raws BASE) as (m & Hm & _ & Hc).
  { pose proof (missing_bound raws BASE). lia. }
  exists m. split; [exact Hm|]. pose proof (resolve_all_sound raws _ _ _ (base_sound raws) Hm) as Hs.
  intros n a. split; [apply (sound_derived raws m Hs)|]. by apply (closed_complete raws m).
Qed.

(** Two definitions one of which is declared before its parent. *)
Definition sample : string :=
  "b OBJECT IDENTIFIER ::= { a 2 }  -- later
a MODULE-IDENTITY DESCRIPTION 'x' ::= { enterprises 9 }".

Definition sample_raws : list Raw :=
  [{| raw_name := "b"; raw_tokens := ["a"; "2"]; raw_unit := None; raw_description := None |};
   {| raw_name := "a"; raw_tokens := ["enterprises"; "9"]; raw_unit := None; raw_description := None |}].

Lemma resolution_complete_witness :
  NoDup (map raw_name sample_raws) /\
  exists m, resolve_all 3 sample_raws BASE = Some m /\
    forall n a, map_get n m = Some a <-> derives sample_raws n a.
Proof.
  assert (Hnd : NoDup (map raw_name sample_raws)) by (apply (bool_decide_unpack _); vm_compute; exact I).
  split; [exact Hnd|]. exact (resolution_complete sample_raws Hnd).
Defined.

(** ** Comments *)

Definition head_is (c : ascii) (s : string) : bool :=
  match s with String d _ => Ascii.eqb d c | EmptyString => false end.

Definition tail (s : string) : string := match s with String _ s' => s' | EmptyString => "" end.

Lemma strip_plain c s : strip Plain (String c s) =
  if Ascii.eqb c QUOTE then String c (strip InString s) else
  if Ascii.eqb c "-" && head_is "-" s then strip InComment (tail s) else String c (strip Plain s).
Proof. destruct s; simpl; [by rewrite andb_false_r|done]. Qed.

Lemma strip_comment c s : strip InComment (String c s) =
  if Ascii.eqb c NEWLINE then String c (strip Plain s) else
  if Ascii.eqb c "-" && head_is "-" s then strip Plain (tail s) else strip InComment s.
Proof. destruct s; simpl; [by rewrite andb_false_r|done]. Qed.

(** A text that does not begin with a dash does not once stripped. *)
Lemma strip_head s : head_is "-" s = false -> head_is "-" (strip Plain s) = false.
Proof.
  destruct s as [|c s]; [done|]. rewrite strip_plain. simpl. intros Hc. rewrite Hc. simpl.
  by destruct (Ascii.eqb c QUOTE).
Qed.

Lemma strip_again n s : (String.length s <= n)%nat ->
  strip Plain (strip Plain s) = strip Plain s /\ strip InString (strip InString s) = strip InString s /\
  strip Plain (strip InComment s) = strip InComment s.
Proof.
  revert s. induction n as [|n IH]; intros [|c s] Hl; simpl in Hl; try lia; [done..|].
  destruct (IH s ltac:(lia)) as (H1 & H2 & H3).
  assert (Htail : (String.length (tail s) <= n)%nat) by (destruct s; simpl in *; lia).
  destruct (IH (tail s) Htail) as (H4 & _ & H6). split; [|split].
  - rewrite strip_plain. destruct (Ascii.eqb c QUOTE) eqn:Hq; [by rewrite strip_plain, Hq, H2|].
    destruct (Ascii.eqb c "-") eqn:Hc; cbn [andb].
    + destruct (head_is "-" s) eqn:Hs; [done|]. by rewrite strip_plain, Hq, Hc, strip_head, H1.
    + by rewrite strip_plain, Hq, Hc, H1.
  - change (strip InString (String c s)) with
      (String c (strip (if Ascii.eqb c QUOTE then Plain else InString) s)).
    destruct (Ascii.eqb c QUOTE) eqn:Hq; cbn [strip]; rewrite Hq; by rewrite ?H1, ?H2.
  - rewrite strip_comment. destruct (Ascii.eqb_spec c NEWLINE) as [->|].
    { cbn match. change (strip Plain (String NEWLINE (strip Plain s)) = String NEWLINE (strip Plain s)).
      rewrite strip_plain. simpl. by rewrite H1. }
    by destruct (Ascii.eqb c "-" && head_is "-" s).
Qed.

(** A text without comments has none left to strip. *)
Lemma stripComments_idempotent s : stripComments (stripComments s) = stripComments s.
Proof. by apply (strip_again (String.length s)). Qed.

(** ** The store *)

Section store.
Context {T : Type -> Type} {ST : Store T} {LT : StoreLaws T}.
Implicit Types t : T MibObjectRow.

Definition owned (l : list MibObjectRow) (o : MibObject) : bool :=
  existsb (fun r => String.eqb (mo_oid o) (mib_oid r)) l.

Lemma upsert_keep now mib o t :
  rows (upsert mibObjects_conflict (object_row now mib o) conflict_set t) ≡ₚ
  if owned (rows t) o then rows t else object_row now mib o :: rows t.
Proof.
  unfold upsert. change (existsb (mibObjects_conflict (object_row now mib o)) (rows t)) with (owned (rows t) o).
  destruct (owned (rows t) o); [|apply rows_insert]. rewrite rows_update.
  erewrite map_ext; [by rewrite map_id|]. intros r. destruct (mibObjects_conflict _ r), r; done.
Qed.

Lemma owned_perm l l' o : l ≡ₚ l' -> owned l o = owned l' o.
Proof.
  intros Hp. apply eq_iff_eq_true. unfold owned. rewrite !existsb_true. by setoid_rewrite Hp.
Qed.

Lemma filter_owned l l' os : l ≡ₚ l' ->
  List.filter (fun o => negb (owned l o)) os = List.filter (fun o => negb (owned l' o)) os.
Proof. intros Hp. apply List.filter_ext. intros o. by rewrite (owned_perm _ _ o Hp). Qed.

(** The loop of upserts, when no two of the objects have the same OID. *)
Lemma upserts_keep now mib os t : NoDup (map mo_oid os) ->
  rows (fold_left (fun t o => upsert mibObjects_conflict (object_row now mib o) conflict_set t) os t) ≡ₚ
  map (object_row now mib) (List.filter (fun o => negb (owned (rows t) o)) os) ++ rows t.
Proof.
  revert t. induction os as [|o os IH]; intros t Hnd; simpl; [done|].
  simpl in Hnd. apply NoDup_cons in Hnd as [Hn Hnd]. rewrite IH by done.
  pose proof (upsert_keep now mib o t) as Hu. rewrite Hu.
  assert (Hf : List.filter (fun x => negb (owned (rows (upsert mibObjects_conflict (object_row now mib o)
    conflict_set t)) x)) os = List.filter (fun x => negb (owned (rows t) x)) os).
  { apply List.filter_ext_in. intros x Hx%list_elem_of_In. f_equal. rewrite (owned_perm _ _ x Hu).
    destruct (owned (rows t) o); [done|]. unfold owned. simpl.
    destruct (String.eqb_spec (mo_oid x) (mo_oid o)) as [He|]; [|done].
    destruct Hn. rewrite <- He. apply elem_of_map. by exists x. }
  rewrite Hf. destruct (owned (rows t) o); simpl; [done|]. by rewrite <- Permutation_middle.
Qed.
End store.

Lemma collect_oids m raws st : map fst (fst st) = map (fun e => mo_oid (snd e)) (fst st) ->
  NoDup (map fst (fst st)) ->
  let st' := fold_left (fun '(byOid, resolved) r =>
    match map_get (raw_name r) m with
    | None => (byOid, resolved)
    | Some arr =>
        (map_set (oid_text arr) {| mo_oid := oid_text arr; mo_name := raw_name r;
           mo_unit := raw_unit r; mo_description := raw_description r |} byOid, S resolved)
    end) raws st in
  map fst (fst st') = map (fun e => mo_oid (snd e)) (fst st') /\ NoDup (map fst (fst st')).
Proof.
  revert st. induction raws as [|r raws IH]; intros [l n] He Hnd; simpl in *; [done|].
  destruct (map_get (raw_name r) m) as [a|]; [|by apply IH]. apply IH; simpl.
  - clear Hnd IH. revert He. generalize (oid_text a) as k.
    induction l as [|[k1 v1] l IHl]; intros k He; simpl in *; [done|]. injection He as He1 He.
    destruct (decide (k = k1)) as [->|Hk]; simpl; [by rewrite He|]. by rewrite IHl, He1.
  - rewrite keys_map_set. by apply NoDup_set_add.
Qed.

(** The objects of a module have an OID each. *)
Lemma parseMib_oids text p : parseMib text = Some p -> NoDup (map mo_oid (pm_objects p)).
Proof.
  unfold parseMib. destruct (matchAll _ _) as [ms|]; [|done]. destruct (resolve_all _ _ _) as [m|]; [|done].
  unfold collect. destruct (collect_oids m (omap raw_of ms) ([], 0%nat) eq_refl NoDup_nil_2) as [He Hn].
  simpl in *. destruct (fold_left _ _ _) as [o n]. intros [= <-]. simpl in *. by rewrite map_map, <- He.
Qed.

Section claims.
Context {T : Type -> Type} {ST : Store T} {LT : StoreLaws T}.
Implicit Types t : T MibObjectRow.

(** An import replaces the rows of its module by its objects, those excepted whose OID
    another module's row has: that row stays as it was. A text without objects changes nothing. *)
Theorem importMib_spec now mib t text p t' n parsed :
  parseMib text = Some p -> importMib now t mib text = Some (t', (n, parsed)) ->
  let kept := List.filter (fun r => negb (of_module mib r)) (rows t) in
  n = List.length (pm_objects p) /\ parsed = pm_parsed p /\
  (pm_objects p = [] -> t' = t) /\
  (pm_objects p <> [] -> rows t' ≡ₚ
     map (object_row now mib) (List.filter (fun o => negb (owned kept o)) (pm_objects p)) ++ kept).
Proof.
  intros Hp. unfold importMib. rewrite Hp. simpl. pose proof (parseMib_oids _ _ Hp) as Hnd.
  destruct (pm_objects p) as [|o os] eqn:Hos; intros [= <- <- <-].
  { by split_and!. }
  split; [done|]. split; [done|]. split; [done|]. intros _.
  pose proof (upserts_keep now mib (o :: os) (delete_where (of_module mib) t) Hnd) as H.
  erewrite filter_owned in H by apply rows_delete. rewrite H. f_equiv. apply rows_delete.
Qed.

(** One row for each OID, whatever is imported. *)
Lemma importMib_unique now mib t text t' c :
  unique_key mib_oid t -> importMib now t mib text = Some (t', c) -> unique_key mib_oid t'.
Proof.
  intros Hu. unfold importMib. destruct (parseMib text) as [p|]; [|done].
  destruct (Nat.eqb _ 0); intros [= <- _].
  { exact Hu. }
  pose proof (unique_key_delete mib_oid (of_module mib) t Hu) as Hd. revert Hd.
  generalize (delete_where (of_module mib) t) as t1.
  induction (pm_objects p) as [|o os IH]; intros t1 Hd; simpl; [done|]. apply IH.
  apply unique_key_upsert; [done| |done]. intros x Hx. unfold mibObjects_conflict. simpl.
  apply String.eqb_eq. by rewrite Hx.
Qed.
End claims.

(** ** Names *)

Lemma prefix_length p s : startsWith p s = true -> (String.length p <= String.length s)%nat.
Proof.
  revert s. induction p as [|c p IH]; intros [|d s]; simpl; try done; [lia|].
  destruct (ascii_dec c d); [|done]. intros H%IH. lia.
Qed.

Lemma under_length o k : under o k = true -> (String.length k <= String.length o)%nat.
Proof.
  unfold under. rewrite orb_true_iff. intros [->%String.eqb_eq|H%prefix_length]; [done|].
  rewrite str_length_app in H. simpl in H. lia.
Qed.

(** The first of a list sorted by length that is a prefix is a longest one. *)
Lemma find_longest (f : string -> bool) l k : List.find f (js_sort shorter l) = Some k ->
  k ∈ l /\ f k = true /\ forall x, x ∈ l -> f x = true -> (String.length x <= String.length k)%nat.
Proof.
  intros Hf. assert (Hs : StronglySorted (fun a b => shorter a b = false) (js_sort shorter l)).
  { apply js_sort_sorted; unfold shorter.
    - intros a b H%Nat.ltb_lt. apply Nat.ltb_ge. lia.
    - intros a b c H1%Nat.ltb_ge H2%Nat.ltb_ge. apply Nat.ltb_ge. lia. }
  setoid_rewrite <- (elem_of_js_sort shorter). revert Hf Hs. generalize (js_sort shorter l) as s.
  induction s as [|x s IH]; simpl; [done|]. destruct (f x) eqn:Hx; intros Hf Hs.
  - injection Hf as <-. split; [apply list_elem_of_here|]. split; [done|].
    intros y [->|Hy]%elem_of_cons _; [done|]. apply StronglySorted_inv in Hs as [_ Hs].
    rewrite Forall_forall in Hs. specialize (Hs y Hy). apply Nat.ltb_ge in Hs. lia.
  - apply StronglySorted_inv in Hs as [Hs _]. destruct (IH Hf Hs) as (Hk & Hfk & Hmax).
    split; [by apply list_elem_of_further|]. split; [done|].
    intros y [->|Hy]%elem_of_cons Hfy; [congruence|by apply Hmax].
Qed.

Lemma prefix_app p s : startsWith p s = true -> exists r, s = p +:+ r.
Proof.
  revert s. induction p as [|c p IH]; intros s H; [by exists s|].
  destruct s as [|d s]; simpl in H; [done|]. destruct (ascii_dec c d) as [->|]; [|done].
  destruct (IH s H) as [r ->]. by exists r.
Qed.

(** What follows the prefix, without its dot. *)
Lemma under_rest o k : under o k = true ->
  o = k \/ exists r, o = k +:+ "." +:+ r /\
    undot (substring (String.length k) (String.length o - String.length k) o) = r.
Proof.
  unfold under. rewrite orb_true_iff. intros [->%String.eqb_eq|[r ->]%prefix_app]; [by left|]. right.
  exists r. rewrite str_app_assoc. split; [done|]. rewrite str_length_app, Nat.add_comm, Nat.add_sub.
  by rewrite substring_skip, substring_all.
Qed.

Lemma exact_iff all k name : NoDup (map mib_oid all) ->
  map_get k (js_map mib_oid mib_name all) = Some name <-> exists r, r ∈ all /\ mib_oid r = k /\ mib_name r = name.
Proof.
  intros Hu. split; [apply map_get_js_map_Some|]. intros (r & Hr & <- & <-). by apply map_get_js_map.
Qed.

Lemma under_prefix o k : under o k = true -> exists r, o = k +:+ r.
Proof.
  intros [->|(r & -> & _)]%under_rest; [exists ""; by rewrite str_app_nil_r|by eexists].
Qed.

(** The longest OID that an OID lies under, among some. *)
Definition longest (all : list MibObjectRow) (o : string) (r : MibObjectRow) : Prop :=
  r ∈ all /\ under o (mib_oid r) = true /\
  forall r', r' ∈ all -> under o (mib_oid r') = true ->
    (String.length (mib_oid r') <= String.length (mib_oid r))%nat.

Lemma longest_find all o r : longest all o r ->
  List.find (under o) (js_sort shorter (map mib_oid all)) = Some (mib_oid r).
Proof.
  intros (Hr & Ho & Hmax). destruct (List.find _ _) as [k|] eqn:Hf.
  - apply find_longest in Hf as (Hk & Hok & Hlong). apply elem_of_map in Hk as (x & -> & Hx).
    specialize (Hmax x Hx Hok). specialize (Hlong (mib_oid r)). rewrite elem_of_map in Hlong.
    specialize (Hlong (ex_intro _ r (conj eq_refl Hr)) Ho).
    apply under_prefix in Ho as [a Ha], Hok as [b Hb]. rewrite Ha in Hb.
    f_equal. assert (Hl : String.length (mib_oid r) = String.length (mib_oid x)) by lia.
    by destruct (str_app_inj_length _ _ _ _ Hl Hb).
  - assert (Hin : mib_oid r ∈ js_sort shorter (map mib_oid all))
      by (apply elem_of_js_sort, elem_of_map; by exists r).
    apply list_elem_of_In in Hin. rewrite (List.find_none _ _ Hf _ Hin) in Ho. done.
Qed.

Lemma find_is_longest all o k :
  List.find (under o) (js_sort shorter (map mib_oid all)) = Some k ->
  exists r, longest all o r /\ k = mib_oid r.
Proof.
  intros (Hk & Ho & Hmax)%find_longest. apply elem_of_map in Hk as (r & -> & Hr). exists r.
  split; [|done]. split; [done|]. split; [done|]. intros r' Hr' Hu'. apply Hmax; [|done].
  apply elem_of_map. by exists r'.
Qed.

(** The end of a name: what is left of the OID. *)
Definition named (r : MibObjectRow) (rest name : string) : Prop :=
  (rest = "" \/ rest = "0") /\ name = mib_name r \/
  (rest <> "" /\ rest <> "0" /\ span is_digit rest = (rest, "")) /\ name = mib_name r +:+ " #" +:+ rest.

Lemma span_whole p s a : span p s = (a, "") -> a = s.
Proof.
  revert a. induction s as [|c s IH]; intros a; simpl; [by intros [= <-]|].
  destruct (p c); [|done]. destruct (span p s) as [x y]. intros [= <- ->]. by rewrite (IH x).
Qed.

Lemma named_iff r rest name :
  (if negb (truthy rest) || String.eqb rest "0" then Some (mib_name r)
   else match span1 is_digit rest with
        | Some (_, EmptyString) => Some (mib_name r +:+ " #" +:+ rest)
        | _ => None
        end) = Some name <-> named r rest name.
Proof.
  unfold named, truthy. rewrite negb_involutive.
  destruct (String.eqb_spec rest "") as [->|H1]; simpl; [naive_solver|].
  destruct (String.eqb_spec rest "0") as [->|H2]; simpl; [naive_solver|].
  unfold span1, truthy. destruct (span is_digit rest) as [a b] eqn:Hs. destruct b as [|c b].
  - pose proof (span_whole _ _ _ Hs) as ->. destruct (String.eqb_spec rest ""); [done|]. simpl. naive_solver.
  - destruct (negb _); naive_solver.
Qed.

(** An OID is named after the row with the longest OID it is or lies under, and only when
    what is left of it is nothing, [0], or one index, which the name then ends with; in every
    other case it has no name. *)
Theorem resolve_name_spec all oid name (Hu : NoDup (map mib_oid all)) :
  resolve_name all oid = Some name <->
  exists r rest, longest all (undot oid) r /\ named r rest name /\
    (undot oid = mib_oid r /\ rest = "" \/ mib_oid r <> "" /\ undot oid = mib_oid r +:+ "." +:+ rest).
Proof.
  unfold resolve_name. set (o := undot oid). split.
  - destruct (map_get o _) as [n|] eqn:He.
    { intros [= ->]. apply exact_iff in He as (r & Hr & Ho & Hn); [|done]. exists r, "". split.
      - split; [done|]. rewrite <- Ho. split; [unfold under; by rewrite String.eqb_refl|].
        intros r' _ H. by apply under_length.
      - split; [|by left]. left. split; [by left|done]. }
    destruct (List.find _ _) as [k|] eqn:Hf; [|done]. apply find_is_longest in Hf as (r & Hl & ->).
    pose proof Hl as (Hr & Ho & _). destruct (truthy (mib_oid r)) eqn:Ht; [|done].
    rewrite (proj2 (exact_iff all (mib_oid r) (mib_name r) Hu)) by (by exists r).
    apply under_rest in Ho as [Ho|(rest & Ho & ->)].
    { rewrite Ho, (proj2 (exact_iff all (mib_oid r) (mib_name r) Hu)) in He by (by exists r). done. }
    cbn [negb]. intros Hn%named_iff. exists r, rest. split; [done|]. split; [done|]. right.
    split; [|done]. intros He'. by rewrite He' in Ht.
  - intros (r & rest & Hl & Hn & Ho). pose proof Hl as (Hr & Hor & Hmax).
    destruct Ho as [[Ho ->]|[Hne Ho]].
    { rewrite (proj2 (exact_iff all o (mib_name r) Hu)) by (exists r; done).
      by destruct Hn as [[_ ->]|[[? _] _]]. }
    destruct (map_get o _) as [n|] eqn:He.
    { apply exact_iff in He as (x & Hx & Hxo & _); [|done].
      specialize (Hmax x Hx). rewrite Hxo in Hmax. unfold under in Hmax at 1. rewrite String.eqb_refl in Hmax.
      specialize (Hmax eq_refl). rewrite Ho, str_length_app in Hmax. simpl in Hmax. lia. }
    rewrite (longest_find _ _ _ Hl). apply String.eqb_neq in Hne. unfold truthy. rewrite Hne.
    rewrite (proj2 (exact_iff all (mib_oid r) (mib_name r) Hu)) by (by exists r). cbn [negb].
    apply under_rest in Hor as [Hor|(x & Hx & ->)].
    { exfalso. rewrite Ho in Hor. apply (f_equal String.length) in Hor.
      rewrite str_length_app in Hor. simpl in Hor. lia. }
    apply named_iff. rewrite Ho in Hx. apply str_app_inj_length in Hx as [_ He']; [|done].
    change (String "." rest = String "." x) in He'. injection He' as <-. exact Hn.
Qed.

(** ** Witnesses *)

Definition sample_text : string := "a MODULE-IDENTITY x ::= { enterprises 9 }
b OBJECT IDENTIFIER ::= { a 2 }".

Definition sample_row (oid name module : string) : MibObjectRow := {|
  mib_oid := oid; mib_name := name; mib_unit := None; mib_description := None;
  mib_module := module; mib_createdAt := 0; mib_updatedAt := 0 |}.

Definition sample_objects : list MibObject :=
  [{| mo_oid := "1.3.6.1.4.1.9"; mo_name := "a"; mo_unit := None; mo_description := None |};
   {| mo_oid := "1.3.6.1.4.1.9.2"; mo_name := "b"; mo_unit := None; mo_description := None |}].

Definition sample_table : list MibObjectRow :=
  [sample_row "1.3.6.1.4.1.9" "cisco" "OTHER"; sample_row "1.2" "old" "M"].

(** The row of the other module keeps its OID and its name. *)
Lemma importMib_spec_witness :
  exists t', importMib (T := list) (ST := list_store) 5 sample_table "M" sample_text = Some (t', (2%nat, 2%nat)) /\
    map mib_name t' ≡ₚ ["b"; "cisco"].
Proof.
  destruct (importMib (T := list) (ST := list_store) 5 sample_table "M" sample_text)
    as [[t' [n parsed]]|] eqn:Hi; [|vm_compute in Hi; discriminate Hi].
  set (p := {| pm_objects := sample_objects; pm_parsed := 2; pm_resolved := 2 |}).
  assert (Hp : parseMib sample_text = Some p) by (vm_compute; reflexivity).
  destruct (importMib_spec (T := list) (ST := list_store) 5 "M" sample_table sample_text p t' n parsed Hp Hi)
    as (-> & -> & _ & Hr).
  exists t'. split; [reflexivity|].
  change (map mib_name (rows t') ≡ₚ ["b"; "cisco"]). rewrite Hr by discriminate. reflexivity.
Defined.

Lemma resolve_name_spec_witness :
  NoDup (map mib_oid sample_table) /\
  exists r rest, longest sample_table "1.3.6.1.4.1.9.7" r /\ named r rest "cisco #7" /\
    ("1.3.6.1.4.1.9.7" = mib_oid r /\ rest = "" \/
     mib_oid r <> "" /\ "1.3.6.1.4.1.9.7" = mib_oid r +:+ "." +:+ rest).
Proof.
  assert (Hnd : NoDup (map mib_oid sample_table)) by (apply (bool_decide_unpack _); vm_compute; exact I).
  split; [exact Hnd|].
  exact (proj1 (resolve_name_spec sample_table ".1.3.6.1.4.1.9.7" "cisco #7" Hnd) eq_refl).
Defined.
