(* ===== verification/Probes.v ===== *)
(** * Server-side probes

    Models apps/backend/src/services/server-monitor-scheduler.ts and the schedules of
    packages/shared/src/monitor.ts: a base tick starts the monitors that are due, each probe is
    retried before it counts as down, and its result goes through the pipeline. The answers of
    the network are a parameter. The scheduler is asynchronous: its tick, its refresh and its
    probes are events that come in any order. *)
From S2P Require Import Prelude Text Store Schema Health Pipeline BackupPolicy Devices Monitors.

(** ** Schedules *)

Definition SERVER_MONITOR_TYPES : list string := ["ping"; "http"; "tcp"; "dns"].

Record MonitorSchedule : Type := {
  intervalSec : Z; retries : Z; retryIntervalSec : Z; count : Z
}.

Definition FALLBACK_SCHEDULE : MonitorSchedule :=
  {| intervalSec := 30; retries := 0; retryIntervalSec := 10; count := 1 |}.

Definition DEFAULT_SCHEDULE (type : string) : option MonitorSchedule :=
  if String.eqb type "ping"
  then Some {| intervalSec := 10; retries := 3; retryIntervalSec := 20; count := 3 |}
  else if includes ["http"; "tcp"; "dns"] type then Some FALLBACK_SCHEDULE else None.

(** [Number(undefined)] is not a number. *)
Definition posInt (v : option json) (def min max : Z) : Z :=
  match v with
  | None => def
  | Some v =>
      match Number_of_json v with
      | Fin n => if Qle_bool (inject_Z min) n then Z.min (Qfloor n) max else def
      | _ => def
      end
  end.

Definition monitorSchedule (type : string) (config : option (list (string * json))) : MonitorSchedule :=
  let d := default FALLBACK_SCHEDULE (DEFAULT_SCHEDULE type) in
  let c := default [] config in
  {| intervalSec := posInt (map_get "interval" c) (intervalSec d) 5 86400;
     retries := posInt (map_get "retries" c) (retries d) 0 10;
     retryIntervalSec := posInt (map_get "retryInterval" c) (retryIntervalSec d) 1 3600;
     count := posInt (map_get "count" c) (count d) 1 10 |}.

Definition schedule_of (m : MonitorRow) : MonitorSchedule := monitorSchedule (mon_type m) (Some (mon_config m)).

(** ** Probes *)

Record ProbeResult : Type := { up : bool; latencyMs : option Q }.

(** What is asked of the network: a call of [pingHost] or of a check. *)
Inductive Probe : Type :=
| PingHost (host : string) (port : option Q) (packets : Z)
| HttpCheck (config : list (string * json))
| TcpCheck (config : list (string * json))
| DnsCheck (config : list (string * json))
| NoProbe.

Definition number_at (key : string) (config : list (string * json)) : option Q :=
  match map_get key config with Some (JNum q) => Some q | _ => None end.

(** A text that is empty counts as absent, and so does the fallback. *)
Definition probeFor (m : MonitorRow) (fallbackHost : option string) (packets : Z) : Probe :=
  let cfg := mon_config m in
  if String.eqb (mon_type m) "ping" then
    match nonempty (match nonempty (text_at "host" cfg) with Some h => Some h | None => fallbackHost end) with
    | Some host => PingHost host (number_at "port" cfg) packets
    | None => NoProbe
    end
  else if String.eqb (mon_type m) "http" then HttpCheck cfg
  else if String.eqb (mon_type m) "tcp" then TcpCheck cfg
  else if String.eqb (mon_type m) "dns" then DnsCheck cfg
  else NoProbe.

(** The loop of [run]: the result and how many probes were sent; [answer i] is the [i]-th. *)
Fixpoint retry (answer : nat -> ProbeResult) (i more : nat) (result : ProbeResult)
  : ProbeResult * nat :=
  match more with
  | O => (result, i)
  | S more => if up result then (result, i) else retry answer (S i) more (answer i)
  end.

Definition attempts (answer : nat -> ProbeResult) (sched : MonitorSchedule) : ProbeResult * nat :=
  retry answer 1 (Z.to_nat (retries sched)) (answer 0%nat).

(** The live patch. *)
Record Patch : Type := {
  patch_agentId : string; patch_entity : string; patch_status : HealthStatus;
  patch_latencyMs : option Q
}.

Record ProbeDb (T : Type -> Type) : Type := {
  pd_telemetry : TelemetryDb T; pd_pings : T PingSampleRow; pd_patches : list Patch
}.
Arguments pd_telemetry {T} _. Arguments pd_pings {T} _. Arguments pd_patches {T} _.

Section run.
Context {T : Type -> Type} {ST : Store T}.
Context (newId : string -> nat -> string) (net : Probe -> nat -> ProbeResult).

(** The [i]-th answer to a probe; without one to send the monitor is down. *)
Definition reply (probe : Probe) (i : nat) : ProbeResult :=
  match probe with NoProbe => {| up := false; latencyMs := None |} | _ => net probe i end.

(** What [run] writes once it has a result. *)
Definition record_probe (now : Z) (m : MonitorRow) (result : ProbeResult) (db : ProbeDb T) : ProbeDb T :=
  let status := if up result then UP else DOWN in
  {| pd_telemetry := processUnits newId now (mon_agentId m) (pd_telemetry db)
       [{| push_entity := mon_name m; push_status := status; push_pid := None;
           push_critical := None; push_meta := None |}];
     pd_pings := insert_row {| ps_id := newId "pingSamples" 0; ps_monitorId := mon_id m;
       ps_sourceId := mon_agentId m; ps_up := up result; ps_latencyMs := latencyMs result;
       ps_ts := now |} (pd_pings db);
     pd_patches := pd_patches db ++ [{| patch_agentId := mon_agentId m; patch_entity := mon_name m;
       patch_status := status; patch_latencyMs := latencyMs result |}] |}.

Definition run (now : Z) (m : MonitorRow) (fallbackHost : option string) (db : ProbeDb T) : ProbeDb T :=
  let sched := schedule_of m in
  let probe := probeFor m fallbackHost (count sched) in
  let '(result, _) := attempts (reply probe) sched in
  record_probe now m result db.
End run.

(** ** The scheduler *)

Definition REFRESH_MS : Z := 15000.

Record RunState : Type := { nextDue : Z; inflight : bool }.

(** The map holds references to run states: a probe keeps the one it started with, also after
    the map has dropped it. [sc_running] are the probes under way, each with its monitor as it
    was at the start. *)
Record Sched : Type := {
  sc_objects : list RunState; sc_state : list (string * nat); sc_worklist : list MonitorRow;
  sc_address : list (string * option string); sc_lastRefresh : Z; sc_running : list (MonitorRow * nat)
}.

Definition started : Sched := {|
  sc_objects := []; sc_state := []; sc_worklist := []; sc_address := []; sc_lastRefresh := 0;
  sc_running := [] |}.

Definition object (s : Sched) (r : nat) : RunState :=
  default {| nextDue := 0; inflight := false |} (sc_objects s !! r).

Section scheduler.
Context {T : Type -> Type} {ST : Store T}.

(** The start of a tick: whether it awaits a refresh before it goes on. *)
Definition tick_begin (now : Z) (s : Sched) : Sched * bool :=
  if REFRESH_MS <=? now - sc_lastRefresh s
  then ({| sc_objects := sc_objects s; sc_state := sc_state s; sc_worklist := sc_worklist s;
           sc_address := sc_address s; sc_lastRefresh := now; sc_running := sc_running s |}, true)
  else (s, false).

(** The end of [refresh], with the lists the database answered. *)
Definition refresh (db : FleetDb T) (s : Sched) : Sched :=
  let worklist := List.filter (fun m => flag "server" (mon_config m)) (listEnabledPingMonitors db)
                  ++ listEnabledChecks db in
  let live := map mon_id worklist in
  {| sc_objects := sc_objects s;
     sc_state := List.filter (fun e => includes live (fst e)) (sc_state s);
     sc_worklist := worklist; sc_address := js_map agent_id agent_address (rows (agents db));
     sc_lastRefresh := sc_lastRefresh s; sc_running := sc_running s |}.
End scheduler.

(** [addressByAgent.get(m.agentId) ?? null] *)
Definition fallback (s : Sched) (m : MonitorRow) : option string :=
  default None (map_get (mon_agentId m) (sc_address s)).

(** One round of the loop of a tick. *)
Definition fire_one (now : Z) (s : Sched) (m : MonitorRow) : Sched :=
  let '(objects, r) :=
    match map_get (mon_id m) (sc_state s) with
    | Some r => (sc_objects s, r)
    | None => (sc_objects s ++ [{| nextDue := now; inflight := false |}], List.length (sc_objects s))
    end in
  let o := default {| nextDue := 0; inflight := false |} (objects !! r) in
  let starts := negb (inflight o || (now <? nextDue o)) in
  {| sc_objects := if starts then <[r := {| nextDue := nextDue o; inflight := true |}]> objects else objects;
     sc_state := map_set (mon_id m) r (sc_state s); sc_worklist := sc_worklist s;
     sc_address := sc_address s; sc_lastRefresh := sc_lastRefresh s;
     sc_running := if starts then sc_running s ++ [(m, r)] else sc_running s |}.

(** The rest of a tick, after the refresh; [now] is from its start. *)
Definition tick_fire (now : Z) (s : Sched) : Sched := fold_left (fire_one now) (sc_worklist s) s.

(** The [finally] of the [i]-th probe under way. *)
Definition finish (now : Z) (i : nat) (s : Sched) : Sched :=
  match sc_running s !! i with
  | None => s
  | Some (m, r) =>
      {| sc_objects := <[r := {| nextDue := now + intervalSec (schedule_of m) * 1000; inflight := false |}]>
           (sc_objects s);
         sc_state := sc_state s; sc_worklist := sc_worklist s; sc_address := sc_address s;
         sc_lastRefresh := sc_lastRefresh s; sc_running := delete i (sc_running s) |}
  end.

(** What may happen, in any order. *)
Inductive event (T : Type -> Type) : Type :=
| Begin (now : Z)
| Refresh (db : FleetDb T)
| Fire (now : Z)
| Finish (now : Z) (i : nat).
Arguments Begin {T} now. Arguments Refresh {T} db. Arguments Fire {T} now. Arguments Finish {T} now i.

Section trace.
Context {T : Type -> Type} {ST : Store T}.

Definition happen (s : Sched) (e : event T) : Sched :=
  match e with
  | Begin now => fst (tick_begin now s)
  | Refresh db => refresh db s
  | Fire now => tick_fire now s
  | Finish now i => finish now i s
  end.

Definition happens (s : Sched) (es : list (event T)) : Sched := fold_left happen es s.
End trace.

(** ** Bounds of a schedule *)

Lemma posInt_bounds v def min max : min <= def <= max -> min <= posInt v def min max <= max.
Proof.
  intros Hd. unfold posInt. destruct v as [v|]; [|done]. destruct (Number_of_json v) as [| | |n]; try done.
  destruct (Qle_bool (inject_Z min) n) eqn:Hn; [|done]. apply Qle_bool_iff in Hn.
  assert (min <= Qfloor n) by (rewrite <- (Qfloor_Z min); by apply Qfloor_resp_le). lia.
Qed.

Lemma posInt_integer n def min max : min <= n <= max ->
  posInt (Some (JNum (inject_Z n))) def min max = n.
Proof.
  intros Hn. unfold posInt. cbn [Number_of_json Number_of_element]. replace (Qle_bool (inject_Z min) (inject_Z n)) with true.
  - rewrite Qfloor_Z. lia.
  - symmetry. apply Qle_bool_iff. rewrite <- Zle_Qle. lia.
Qed.

Lemma default_bounds type : let d := default FALLBACK_SCHEDULE (DEFAULT_SCHEDULE type) in
  5 <= intervalSec d <= 86400 /\ 0 <= retries d <= 10 /\ 1 <= retryIntervalSec d <= 3600 /\
  1 <= count d <= 10.
Proof.
  unfold DEFAULT_SCHEDULE. destruct (String.eqb type "ping"); [simpl; lia|].
  destruct (includes _ type); simpl; lia.
Qed.

Lemma schedule_bounds type config : let s := monitorSchedule type config in
  5 <= intervalSec s <= 86400 /\ 0 <= retries s <= 10 /\ 1 <= retryIntervalSec s <= 3600 /\
  1 <= count s <= 10.
Proof. pose proof (default_bounds type) as (H1 & H2 & H3 & H4). simpl. by split_and!; apply posInt_bounds. Qed.

(** Whatever the configuration holds, the schedule is within its bounds, and integers that
    are within them are the schedule. *)
Theorem monitorSchedule_spec type config (i r ri c : Z) :
  (let s := monitorSchedule type config in
   5 <= intervalSec s <= 86400 /\ 0 <= retries s <= 10 /\ 1 <= retryIntervalSec s <= 3600 /\
   1 <= count s <= 10) /\
  (5 <= i <= 86400 -> 0 <= r <= 10 -> 1 <= ri <= 3600 -> 1 <= c <= 10 ->
   monitorSchedule type (Some [("interval", JNum (inject_Z i)); ("retries", JNum (inject_Z r));
     ("retryInterval", JNum (inject_Z ri)); ("count", JNum (inject_Z c))]) =
   {| intervalSec := i; retries := r; retryIntervalSec := ri; count := c |}).
Proof.
  split; [apply schedule_bounds|]. intros Hi Hr Hri Hc. unfold monitorSchedule.
  set (l := [_; _; _; _]). cbn [default].
  change (map_get "interval" (id l)) with (Some (JNum (inject_Z i))).
  change (map_get "retries" (id l)) with (Some (JNum (inject_Z r))).
  change (map_get "retryInterval" (id l)) with (Some (JNum (inject_Z ri))).
  change (map_get "count" (id l)) with (Some (JNum (inject_Z c))). by rewrite !posInt_integer.
Qed.

(** ** Retries *)

Lemma retry_spec answer i more result :
  let '(res, n) := retry answer i more result in
  (i <= n <= i + more)%nat /\
  (n = i -> res = result) /\ ((i < n)%nat -> res = answer (n - 1)%nat /\ up result = false /\
     forall k, (i <= k < n - 1)%nat -> up (answer k) = false) /\
  ((n < i + more)%nat -> up res = true).
Proof.
  revert i result. induction more as [|more IH]; intros i result; simpl.
  { split_and!; try done; lia. }
  destruct (up result) eqn:Hr.
  { split_and!; try done; lia. }
  specialize (IH (S i) (answer i)). destruct (retry answer (S i) more (answer i)) as [res n].
  destruct IH as (H1 & H2 & H3 & H4). split_and!; try lia.
  - intros _. destruct (decide (n = S i)) as [->|Hn].
    + rewrite H2 by done. split; [f_equal; lia|]. split; [done|]. lia.
    + destruct H3 as (-> & Hi & H3); [lia|]. split; [done|]. split; [done|].
      intros k Hk. destruct (decide (k = i)) as [->|]; [done|]. apply H3. lia.
  - intros. apply H4. lia.
Qed.

(** Between one and [retries + 1] probes are sent, the result is that of the last, every earlier one
    failed, and it is a failure only when all the [retries + 1] fail. *)
Lemma attempts_spec answer sched :
  let '(result, n) := attempts answer sched in
  (1 <= n <= Z.to_nat (retries sched) + 1)%nat /\ result = answer (n - 1)%nat /\
  (forall k, (k < n - 1)%nat -> up (answer k) = false) /\
  (up result = false <-> forall k, (k <= Z.to_nat (retries sched))%nat -> up (answer k) = false).
Proof.
  unfold attempts. set (l := Z.to_nat (retries sched)). clearbody l.
  pose proof (retry_spec answer 1 l (answer 0%nat)) as H.
  destruct (retry answer 1 l (answer 0%nat)) as [res n]. destruct H as (H1 & H2 & H3 & H4).
  assert (Hres : res = answer (n - 1)%nat).
  { destruct (decide (n = 1%nat)) as [->|]; [by apply H2|]. apply H3. lia. }
  assert (Hbefore : forall k, (k < n - 1)%nat -> up (answer k) = false).
  { intros k Hk. destruct H3 as (_ & H0 & H3); [lia|]. destruct k as [|k]; [done|]. apply H3. lia. }
  split; [lia|]. split; [done|]. split; [done|]. split.
  - intros Hd k Hk. destruct (decide (n < 1 + l)%nat) as [Hn|]; [by rewrite H4 in Hd|].
    destruct (decide (k = n - 1)%nat) as [->|]; [by rewrite <- Hres|]. apply Hbefore. lia.
  - intros Hall. rewrite Hres. apply Hall. lia.
Qed.

Lemma monitorSchedule_spec_witness :
  5 <= intervalSec (monitorSchedule "http" (Some [("interval", JStr "-3")])) /\
  monitorSchedule "tcp" (Some [("interval", JNum (inject_Z 60)); ("retries", JNum (inject_Z 2));
     ("retryInterval", JNum (inject_Z 5)); ("count", JNum (inject_Z 1))]) =
   {| intervalSec := 60; retries := 2; retryIntervalSec := 5; count := 1 |}.
Proof.
  split.
  - apply (monitorSchedule_spec "http" (Some [("interval", JStr "-3")]) 60 2 5 1).
  - apply (monitorSchedule_spec "tcp" None 60 2 5 1); lia.
Defined.

(** ** The scheduler *)

(** The map refers to distinct run states, and the probes under way to distinct run states that
    are in flight; a run state the map has for a monitor is not in use for another. *)
Record wf (s : Sched) : Prop := {
  wf_refs : forall id r, (id, r) ∈ sc_state s -> (r < List.length (sc_objects s))%nat;
  wf_inj : NoDup (map snd (sc_state s));
  wf_run : forall m r, (m, r) ∈ sc_running s ->
    (r < List.length (sc_objects s))%nat /\ inflight (object s r) = true;
  wf_run_inj : NoDup (map snd (sc_running s));
  wf_owner : forall m r id, (m, r) ∈ sc_running s -> (id, r) ∈ sc_state s -> id = mon_id m
}.

(** The probes under way for a monitor have the run state the map has for it. *)
Definition kept (id : string) (s : Sched) : Prop :=
  forall m r, (m, r) ∈ sc_running s -> mon_id m = id -> map_get id (sc_state s) = Some r.

Lemma map_set_same {V} k (v : V) (m : list (string * V)) : map_get k m = Some v -> map_set k v m = m.
Proof.
  induction m as [|[k' v'] m IH]; simpl; [done|]. destruct (decide (k = k')) as [->|]; [by intros [= ->]|].
  intros H. by rewrite IH.
Qed.

Lemma map_set_new {V} k (v : V) (m : list (string * V)) : map_get k m = None -> map_set k v m = m ++ [(k, v)].
Proof.
  induction m as [|[k' v'] m IH]; simpl; [done|]. destruct (decide (k = k')) as [->|]; [done|].
  intros H. by rewrite IH.
Qed.

Lemma object_lookup l r d : (r < List.length l)%nat -> exists o : RunState, l !! r = Some o /\ default d (l !! r) = o.
Proof. intros [o Ho]%lookup_lt_is_Some. exists o. by rewrite Ho. Qed.

(** The monitor is started: it has no run state, or one that is due and not in flight. *)
Definition ready (now : Z) (s : Sched) (m : MonitorRow) : bool :=
  match map_get (mon_id m) (sc_state s) with
  | None => true
  | Some r => negb (inflight (object s r)) && (nextDue (object s r) <=? now)
  end.

(** The run state a round uses. *)
Definition ref_of (s : Sched) (m : MonitorRow) : nat :=
  default (List.length (sc_objects s)) (map_get (mon_id m) (sc_state s)).

Lemma starts_ready o now : negb (inflight o || (now <? nextDue o)) = negb (inflight o) && (nextDue o <=? now).
Proof. rewrite negb_orb. f_equal. by rewrite Z.leb_antisym. Qed.

(** What a round does, by the three cases. *)
Lemma fire_one_cases now s m : wf s ->
  let s' := fire_one now s m in
  map_get (mon_id m) (sc_state s') = Some (ref_of s m) /\
  (forall id r, (id, r) ∈ sc_state s' <-> (id, r) ∈ sc_state s \/ id = mon_id m /\ r = ref_of s m) /\
  sc_running s' = sc_running s ++ (if ready now s m then [(m, ref_of s m)] else []) /\
  (List.length (sc_objects s) <= List.length (sc_objects s'))%nat /\
  (ref_of s m < List.length (sc_objects s'))%nat /\
  (forall r, (r < List.length (sc_objects s))%nat -> r <> ref_of s m -> object s' r = object s r) /\
  (ready now s m = true -> inflight (object s' (ref_of s m)) = true) /\
  (ready now s m = false -> object s' (ref_of s m) = object s (ref_of s m)).
Proof.
  intros Hw. unfold fire_one, ready, ref_of. destruct (map_get (mon_id m) (sc_state s)) as [r|] eqn:Hm; cbn [default].
  - pose proof (wf_refs s Hw _ _ (map_get_Some _ _ _ Hm)) as Hr. fold (object s r). rewrite starts_ready.
    rewrite (map_set_same _ _ _ Hm). simpl. split; [done|]. split.
    { intros id r'. split; [by left|]. intros [?|[-> ->]]; [done|]. by apply map_get_Some. }
    unfold object. cbn [sc_objects]. destruct (_ && _).
    + rewrite length_insert, list_lookup_insert_eq by done. split_and!; try done.
      intros r' Hr' Hne. by rewrite list_lookup_insert_ne by congruence.
    + rewrite app_nil_r. by split_and!.
  - rewrite list_lookup_middle by done. simpl. rewrite (proj2 (Z.ltb_ge now now)) by lia. simpl.
    split; [by rewrite map_get_set_eq|]. split.
    { intros id r'. rewrite (map_set_new _ _ _ Hm), elem_of_app, list_elem_of_singleton. naive_solver. }
    rewrite length_insert, length_app. simpl. split_and!; try done; try lia.
    + intros r' Hr' Hne. unfold object. cbn [sc_objects]. rewrite list_lookup_insert_ne by congruence.
      by rewrite lookup_app_l.
    + intros _. unfold object. cbn [sc_objects]. rewrite list_lookup_insert_eq; [done|].
      rewrite length_app. simpl. lia.
Qed.

Lemma snd_inj {A} (l : list (A * nat)) a b r : NoDup (map snd l) -> (a, r) ∈ l -> (b, r) ∈ l -> a = b.
Proof.
  intros Hnd Ha Hb. apply list_elem_of_lookup in Ha as [i Hi]. apply list_elem_of_lookup in Hb as [j Hj].
  assert (i = j) as ->; [|congruence].
  eapply NoDup_lookup; [exact Hnd|..]; rewrite list_lookup_fmap; [by rewrite Hi|by rewrite Hj].
Qed.

Lemma elem_of_delete_list {A} (x : A) i (l : list A) : x ∈ delete i l -> x ∈ l.
Proof.
  revert i. induction l as [|y l IH]; intros [|i]; simpl; try done; [by apply list_elem_of_further|].
  intros [->|Hx]%elem_of_cons; [apply list_elem_of_here|]. by apply list_elem_of_further, IH with i.
Qed.

Lemma NoDup_snoc {A} (l : list A) x : NoDup l -> x ∉ l -> NoDup (l ++ [x]).
Proof.
  intros Hl Hx. apply NoDup_app. split; [done|]. split; [|apply NoDup_singleton].
  intros y Hy ->%list_elem_of_singleton. done.
Qed.

(** A run state that may be used is in use by none. *)
Lemma ready_free now s m x r : wf s -> ready now s m = true -> (x, r) ∈ sc_running s -> r <> ref_of s m.
Proof.
  intros Hw Hr Hx ->. destruct (wf_run s Hw _ _ Hx) as [Hl Hi]. unfold ready, ref_of in *.
  destruct (map_get (mon_id m) (sc_state s)) as [r|]; simpl in *; [by rewrite Hi in Hr|lia].
Qed.

(** The run state of a round belongs to its monitor. *)
Lemma ref_owner s m id : wf s -> (id, ref_of s m) ∈ sc_state s ->
  id = mon_id m /\ map_get (mon_id m) (sc_state s) = Some (ref_of s m).
Proof.
  intros Hw Hid. unfold ref_of in *. destruct (map_get (mon_id m) (sc_state s)) as [r|] eqn:Hm; simpl in *.
  - split; [|done]. by apply (snd_inj _ _ _ _ (wf_inj s Hw) Hid), map_get_Some.
  - apply (wf_refs s Hw) in Hid. lia.
Qed.

Lemma refs_inj_fire now s m : wf s -> NoDup (map snd (sc_state (fire_one now s m))).
Proof.
  intros Hw. unfold fire_one. destruct (map_get (mon_id m) (sc_state s)) as [r|] eqn:Hm; cbn [sc_state].
  - rewrite (map_set_same _ _ _ Hm). apply (wf_inj s Hw).
  - rewrite (map_set_new _ _ _ Hm), map_app. apply NoDup_snoc; [apply (wf_inj s Hw)|].
    simpl. rewrite elem_of_map. intros ([id r] & He & Hid). apply (wf_refs s Hw) in Hid. simpl in He. lia.
Qed.

Lemma fire_one_wf now s m : wf s -> wf (fire_one now s m).
Proof.
  intros Hw. pose proof (fire_one_cases now s m Hw) as (Hget & Hst & Hrun & Hlen & Href & Hobj & Hup & Hsame).
  split.
  - intros id r [H|[-> ->]]%Hst; [|done]. apply (wf_refs s Hw) in H. lia.
  - by apply refs_inj_fire.
  - intros x r. rewrite Hrun, elem_of_app. intros [Hx|Hx].
    + destruct (wf_run s Hw _ _ Hx) as [Hl Hi]. split; [lia|].
      destruct (decide (r = ref_of s m)) as [->|]; [|by rewrite Hobj].
      destruct (ready now s m) eqn:Hr; [by apply Hup|by rewrite Hsame].
    + destruct (ready now s m) eqn:Hr; [|by apply not_elem_of_nil in Hx].
      apply list_elem_of_singleton in Hx as [= -> ->]. by split; [|apply Hup].
  - rewrite Hrun, map_app. destruct (ready now s m) eqn:Hr; simpl; [|by rewrite app_nil_r; apply (wf_run_inj s Hw)].
    apply NoDup_snoc; [apply (wf_run_inj s Hw)|]. rewrite elem_of_map. intros ([x r] & He & Hx).
    simpl in He. by apply (ready_free now s m x r).
  - intros x r id. rewrite Hrun, elem_of_app, Hst. intros Hx Hid.
    assert (Hnew : (x, r) ∈ (if ready now s m then [(m, ref_of s m)] else []) -> x = m /\ r = ref_of s m)
      by (destruct (ready now s m); [by intros [= -> ->]%list_elem_of_singleton|by intros ?%not_elem_of_nil]).
    destruct Hx as [Hx|[-> ->]%Hnew]; destruct Hid as [Hid|[-> Hr]]; [by apply (wf_owner s Hw x r)| | |done].
    + subst r. destruct (wf_run s Hw _ _ Hx) as [Hl _]. unfold ref_of in *.
      destruct (map_get (mon_id m) (sc_state s)) as [r|] eqn:Hm; simpl in *; [|lia].
      by apply (wf_owner s Hw x r), map_get_Some.
    + by apply (ref_owner s m id).
Qed.

Lemma fire_one_kept now s m id : wf s -> kept id s -> kept id (fire_one now s m).
Proof.
  intros Hw Hk x r. pose proof (fire_one_cases now s m Hw) as (Hget & Hst & Hrun & _).
  rewrite Hrun, elem_of_app. intros [Hx|Hx] Hid.
  - pose proof (Hk x r Hx Hid) as Hr. unfold fire_one.
    destruct (decide (mon_id m = id)) as [He|He].
    + rewrite He, Hr. cbn [sc_state]. by rewrite map_get_set_eq.
    + destruct (map_get (mon_id m) (sc_state s)); cbn [sc_state]; by rewrite map_get_set_ne.
  - destruct (ready now s m); [|by apply not_elem_of_nil in Hx].
    apply list_elem_of_singleton in Hx as [= -> ->]. by rewrite <- Hid.
Qed.

Lemma finish_wf now i s : wf s -> wf (finish now i s).
Proof.
  intros Hw. unfold finish. destruct (sc_running s !! i) as [[m r]|] eqn:Hi; [|done].
  pose proof (list_elem_of_lookup_2 _ _ _ Hi) as Hin. destruct (wf_run s Hw _ _ Hin) as [Hl _].
  pose proof (fun x => elem_of_delete_list x i (sc_running s)) as Hsub.
  assert (Hnd : NoDup (map snd (delete i (sc_running s))) /\ r ∉ map snd (delete i (sc_running s))).
  { pose proof (wf_run_inj s Hw) as Hnd. rewrite (delete_Permutation _ _ _ Hi) in Hnd. simpl in Hnd.
    by apply NoDup_cons in Hnd as [? ?]. }
  split; cbn [sc_objects sc_state sc_running].
  - intros id r'. rewrite length_insert. apply (wf_refs s Hw).
  - apply (wf_inj s Hw).
  - intros x r' Hx. rewrite length_insert. destruct (wf_run s Hw x r' (Hsub _ Hx)) as [Hl' Hi'].
    split; [done|]. unfold object. cbn [sc_objects]. rewrite list_lookup_insert_ne; [done|].
    intros ->. apply Hnd. apply elem_of_map. by exists (x, r').
  - apply Hnd.
  - intros x r' id Hx. apply (wf_owner s Hw), Hsub, Hx.
Qed.

Section invariants.
Context {T : Type -> Type} {ST : Store T}.
Implicit Types (s : Sched) (e : event T) (es : list (event T)).

Lemma refresh_wf (db : FleetDb T) s : wf s -> wf (refresh db s).
Proof.
  intros Hw. split; cbn [refresh sc_objects sc_state sc_running].
  - intros id r [H _]%elem_of_filterb. by apply (wf_refs s Hw id).
  - pose proof (wf_inj s Hw) as Hnd. induction (sc_state s) as [|[id r] l IH]; simpl; [constructor|].
    simpl in Hnd. apply NoDup_cons in Hnd as [Hn Hnd]. destruct (includes _ id); simpl; [|by apply IH].
    constructor; [|by apply IH]. rewrite elem_of_map in *. setoid_rewrite elem_of_filterb. naive_solver.
  - apply (wf_run s Hw).
  - apply (wf_run_inj s Hw).
  - intros x r id Hx [Hid _]%elem_of_filterb. by apply (wf_owner s Hw x r).
Qed.

Lemma tick_ind (P : Sched -> Prop) now s : (forall s m, P s -> P (fire_one now s m)) -> P s -> P (tick_fire now s).
Proof.
  intros Hstep Hs. unfold tick_fire. generalize (sc_worklist s) as l. intros l. revert s Hs.
  induction l as [|m l IH]; intros s Hs; simpl; [done|]. apply IH, Hstep, Hs.
Qed.

Lemma happen_wf s e : wf s -> wf (happen s e).
Proof.
  intros Hw. destruct e as [now|db|now|now i]; simpl.
  - unfold tick_begin. destruct (_ <=? _); [|done]. by destruct Hw.
  - by apply refresh_wf.
  - apply tick_ind; [|done]. intros s' m. apply fire_one_wf.
  - by apply finish_wf.
Qed.

Lemma started_wf : wf started.
Proof.
  split; simpl; try apply NoDup_nil_2; intros * H; by apply not_elem_of_nil in H.
Qed.

(** No refresh drops the monitor from the map: it is neither disabled nor removed. *)
Fixpoint never_dropped (id : string) s es : Prop :=
  match es with
  | [] => True
  | e :: es =>
      match e with
      | Refresh db => map_get id (sc_state s) <> None -> map_get id (sc_state (refresh db s)) <> None
      | _ => True
      end /\ never_dropped id (happen s e) es
  end.

(** A refresh that does not drop the monitor keeps its run state. *)
Lemma refresh_keeps (db : FleetDb T) s id r :
  (map_get id (sc_state s) <> None -> map_get id (sc_state (refresh db s)) <> None) ->
  map_get id (sc_state s) = Some r -> map_get id (sc_state (refresh db s)) = Some r.
Proof.
  intros Hd Hr. rewrite Hr in Hd. specialize (Hd ltac:(done)). cbn [refresh sc_state] in *.
  rewrite (map_get_filter_key (fun k => includes _ k)) in *. by destruct (includes _ id).
Qed.

Lemma happens_wf s es : wf s -> wf (happens s es).
Proof.
  revert s. induction es as [|e es IH]; intros s Hw; [done|]. unfold happens. simpl. by apply IH, happen_wf.
Qed.

Lemma happens_kept id s es : wf s -> kept id s -> never_dropped id s es -> kept id (happens s es).
Proof.
  revert s. induction es as [|e es IH]; intros s Hw Hk Hd; [done|]. destruct Hd as [Hd Hds].
  unfold happens. simpl. apply IH; [by apply happen_wf| |done].
  destruct e as [now|db|now|now i]; simpl.
  - unfold tick_begin. by destruct (_ <=? _).
  - intros m r Hm Hid. apply refresh_keeps; [done|]. by apply Hk with m.
  - assert (wf (tick_fire now s) /\ kept id (tick_fire now s)) as [_ H]; [|done].
    apply (tick_ind (fun s => wf s /\ kept id s)); [|done]. intros s' m [Hw' Hk'].
    split; [by apply fire_one_wf|by apply fire_one_kept].
  - unfold finish. destruct (sc_running s !! i) as [[m r]|]; [|done]. intros x r' Hx. by apply Hk, (elem_of_delete_list _ i).
Qed.

(** The probes under way for a monitor. *)
Definition probing (id : string) s : list (MonitorRow * nat) :=
  List.filter (fun x => String.eqb (mon_id (fst x)) id) (sc_running s).

Lemma kept_single id s : wf s -> kept id s -> (List.length (probing id s) <= 1)%nat.
Proof.
  intros Hw Hk. assert (Hnd : NoDup (map snd (probing id s))).
  { unfold probing. pose proof (wf_run_inj s Hw) as Hnd. induction (sc_running s) as [|[m r] l IH]; simpl; [constructor|].
    simpl in Hnd. apply NoDup_cons in Hnd as [Hn Hnd]. destruct (String.eqb _ id); simpl; [|by apply IH].
    constructor; [|by apply IH]. rewrite elem_of_map in *. setoid_rewrite elem_of_filterb. naive_solver. }
  assert (Hin : forall x, x ∈ probing id s -> map_get id (sc_state s) = Some (snd x)).
  { intros [m r] [Hx Hid]%elem_of_filterb. simpl in *. apply (Hk m); [done|by apply String.eqb_eq]. }
  destruct (probing id s) as [|x [|y l]]; simpl; [lia|lia|]. exfalso.
  pose proof (Hin x ltac:(in_list)) as Hx. pose proof (Hin y ltac:(in_list)) as Hy.
  simpl in Hnd. apply NoDup_cons in Hnd as [Hn _]. apply Hn. rewrite Hx in Hy. injection Hy as ->. apply list_elem_of_here.
Qed.

(** C21: however ticks, refreshes and ends of probes interleave, a monitor is never probed twice
    at a time, as long as no refresh drops it. *)
Theorem no_overlap id es : never_dropped id started es -> (List.length (probing id (happens started es)) <= 1)%nat.
Proof.
  intros Hd. apply kept_single.
  - apply happens_wf, started_wf.
  - apply happens_kept; [apply started_wf| |done]. intros m r Hm. by apply not_elem_of_nil in Hm.
Qed.
End invariants.

(** Rounds of other monitors change nothing for a monitor. *)
Lemma fire_one_other now s m x : wf s -> mon_id m <> mon_id x ->
  ready now (fire_one now s m) x = ready now s x.
Proof.
  intros Hw Hne. pose proof (fire_one_cases now s m Hw) as (_ & _ & _ & _ & _ & Hobj & _).
  assert (Hg : map_get (mon_id x) (sc_state (fire_one now s m)) = map_get (mon_id x) (sc_state s)).
  { unfold fire_one. destruct (map_get (mon_id m) (sc_state s)); cbn [sc_state]; by rewrite map_get_set_ne. }
  unfold ready at 1 2. rewrite Hg. destruct (map_get (mon_id x) (sc_state s)) as [r|] eqn:Hr; [|done].
  pose proof (map_get_Some _ _ _ Hr) as Hin. rewrite Hobj; [done|by apply (wf_refs s Hw (mon_id x))|].
  intros ->. by apply (ref_owner s m) in Hin as [He _].
Qed.

Lemma fires_spec now l s : wf s -> NoDup (map mon_id l) ->
  map fst (sc_running (fold_left (fire_one now) l s)) =
  map fst (sc_running s) ++ List.filter (ready now s) l.
Proof.
  revert s. induction l as [|m l IH]; intros s Hw Hnd; simpl; [by rewrite app_nil_r|].
  simpl in Hnd. apply NoDup_cons in Hnd as [Hn Hnd]. rewrite IH; [|by apply fire_one_wf|done].
  pose proof (fire_one_cases now s m Hw) as (_ & _ & -> & _).
  assert (Hf : List.filter (ready now (fire_one now s m)) l = List.filter (ready now s) l).
  { apply List.filter_ext_in. intros x Hx%list_elem_of_In. apply fire_one_other; [done|].
    intros He. apply Hn. rewrite He. apply elem_of_map. by exists x. }
  rewrite Hf, map_app, <- app_assoc. by destruct (ready now s m).
Qed.

(** In every reachable state a tick starts exactly the monitors of the worklist that are due
    and not under way, and leaves none of them behind: after it each is being probed or not due. *)
Theorem tick_spec {T : Type -> Type} {ST : Store T} now (es : list (event T)) :
  let s := happens started es in
  NoDup (map mon_id (sc_worklist s)) ->
  map fst (sc_running (tick_fire now s)) =
    map fst (sc_running s) ++ List.filter (ready now s) (sc_worklist s) /\
  forall m, m ∈ sc_worklist s -> ready now (tick_fire now s) m = false.
Proof.
  cbv zeta. pose proof (happens_wf started es started_wf) as Hw. revert Hw.
  generalize (happens started es) as s. intros s Hw Hnd. split; [by apply fires_spec|]. unfold tick_fire.
  assert (Hafter : forall l s, wf s -> (forall x, x ∈ l -> ready now (fold_left (fire_one now) l s) x = false) /\
    (forall x, ready now s x = false -> ready now (fold_left (fire_one now) l s) x = false)); [|by apply Hafter].
  assert (Hone : forall s m, wf s -> ready now (fire_one now s m) m = false).
  { intros s' m Hw'. pose proof (fire_one_cases now s' m Hw') as (Hget & _ & _ & _ & _ & _ & Hup & Hsame).
    unfold ready at 1. rewrite Hget. destruct (ready now s' m) eqn:Hr; [by rewrite Hup|].
    rewrite Hsame by done. clear -Hr. unfold ready, ref_of in *.
    destruct (map_get (mon_id m) (sc_state s')); [exact Hr|discriminate Hr]. }
  intros l. induction l as [|m l IH]; intros s' Hw'; simpl.
  { split; [by intros x ?%not_elem_of_nil|done]. }
  destruct (IH _ (fire_one_wf now s' m Hw')) as [H1 H2]. split.
  - intros x [->|Hx]%elem_of_cons; [by apply H2, Hone|by apply H1].
  - intros x Hx. apply H2. destruct (decide (mon_id m = mon_id x)) as [He|]; [|by rewrite fire_one_other].
    pose proof (Hone s' m Hw') as Ho. unfold ready in *. by rewrite <- He.
Qed.

(** ** Pace *)

(** A monitor at rest until [due]. *)
Definition resting (id : string) (due : Z) (s : Sched) : Prop :=
  probing id s = [] /\ exists r, map_get id (sc_state s) = Some r /\ due <= nextDue (object s r).

Lemma fire_one_resting now s m id due : wf s -> now < due -> resting id due s -> resting id due (fire_one now s m).
Proof.
  intros Hw Hnow (Hp & r & Hr & Hdue).
  pose proof (fire_one_cases now s m Hw) as (Hget & Hst & Hrun & _ & _ & Hobj & _ & Hsame).
  pose proof (wf_refs s Hw _ _ (map_get_Some _ _ _ Hr)) as Hl.
  destruct (decide (mon_id m = id)) as [He|He].
  - assert (Hready : ready now s m = false).
    { unfold ready. rewrite He, Hr. apply andb_false_iff. right. lia. }
    assert (Href : ref_of s m = r) by (unfold ref_of; by rewrite He, Hr).
    rewrite Hready in Hrun. rewrite app_nil_r in Hrun. split; [unfold probing; by rewrite Hrun|].
    exists r. rewrite <- Href, <- He. split; [done|]. rewrite Hsame by done. by rewrite Href.
  - split.
    + unfold probing in *. rewrite Hrun, List.filter_app, Hp. destruct (ready now s m); [|done].
      simpl. by rewrite (proj2 (String.eqb_neq _ _) He).
    + exists r. split.
      * unfold fire_one. destruct (map_get (mon_id m) (sc_state s)); cbn [sc_state]; by rewrite map_get_set_ne.
      * rewrite Hobj; [done|done|]. intros ->. pose proof (map_get_Some _ _ _ Hr) as Hin.
        apply (ref_owner s m) in Hin as [? _]; [done|done].
Qed.

Lemma finish_resting now i s id due : wf s -> resting id due s -> resting id due (finish now i s).
Proof.
  intros Hw (Hp & r & Hr & Hdue). unfold finish. destruct (sc_running s !! i) as [[m r']|] eqn:Hi; [|by split; [|exists r]].
  pose proof (list_elem_of_lookup_2 _ _ _ Hi) as Hin. split.
  - unfold probing in *. cbn [sc_running]. rewrite filterb_nil in *. intros x Hx. by apply Hp, (elem_of_delete_list _ i).
  - exists r. split; [done|]. unfold object in *. cbn [sc_objects]. rewrite list_lookup_insert_ne; [done|].
    intros ->. pose proof (wf_owner s Hw _ _ id Hin (map_get_Some _ _ _ Hr)) as Ho.
    pose proof (proj1 (filterb_nil _ _) Hp _ Hin) as Hn. simpl in Hn. by rewrite <- Ho, String.eqb_refl in Hn.
Qed.

(** A tick takes place before [due]. *)
Definition before {T : Type -> Type} (due : Z) (e : event T) : Prop :=
  match e with Fire now => now < due | _ => True end.

(** C23: once a probe of a monitor ends, the monitor stays at rest for its interval, at least five
    seconds, whatever else happens meanwhile, as long as no refresh drops it. *)
Theorem paced {T : Type -> Type} {ST : Store T} (es es' : list (event T)) now i m r :
  let s := happens started es in
  let id := mon_id m in
  never_dropped id started es -> sc_running s !! i = Some (m, r) ->
  let due := now + intervalSec (schedule_of m) * 1000 in
  never_dropped id (finish now i s) es' -> Forall (before due) es' ->
  now + 5000 <= due /\ probing id (happens (finish now i s) es') = [].
Proof.
  cbv zeta. intros Hd Hi Hd' Hall. set (due := now + intervalSec (schedule_of m) * 1000). set (id := mon_id m) in *. split.
  { pose proof (schedule_bounds (mon_type m) (Some (mon_config m))) as (H & _). unfold due, schedule_of. lia. }
  pose proof (happens_wf started es started_wf) as Hw.
  assert (Hk : kept id (happens started es))
    by (apply happens_kept; [apply started_wf| |done]; intros x y H; by apply not_elem_of_nil in H).
  pose proof (list_elem_of_lookup_2 _ _ _ Hi) as Hin. pose proof (Hk m r Hin eq_refl) as Hr.
  assert (Hrest : resting id due (finish now i (happens started es))).
  { unfold finish. rewrite Hi. split.
    - unfold probing. cbn [sc_running]. apply filterb_nil. intros [x y] Hx. apply String.eqb_neq. intros Hid.
      pose proof (Hk x y (elem_of_delete_list _ _ _ Hx) Hid) as Hy. rewrite Hr in Hy. injection Hy as <-.
      pose proof (wf_run_inj _ Hw) as Hnd. rewrite (delete_Permutation _ _ _ Hi) in Hnd. simpl in Hnd.
      apply NoDup_cons in Hnd as [Hn _]. apply Hn, elem_of_map. by exists (x, r).
    - exists r. split; [done|]. unfold object. cbn [sc_objects].
      rewrite list_lookup_insert_eq by (by apply (wf_run _ Hw m)). change (due <= due). lia. }
  pose proof (finish_wf now i _ Hw) as Hwf. revert Hwf Hrest Hd' Hall. clear.
  generalize (finish now i (happens started es)) as s. induction es' as [|e es' IH]; intros s Hw Hr Hd Hall; [apply Hr|].
  destruct Hd as [Hd Hds]. apply Forall_cons in Hall as [He Hall]. unfold happens. simpl.
  apply IH; [by apply happen_wf| |done|done]. destruct e as [now'|db|now'|now' i']; simpl in *.
  - unfold tick_begin. by destruct (_ <=? _).
  - destruct Hr as (Hp & r' & Hr' & Hdue). split; [exact Hp|]. exists r'. split; [by apply refresh_keeps|exact Hdue].
  - apply (tick_ind (fun s => wf s /\ resting id due s)); [|by split]. intros s' x [Hw' Hr'].
    split; [by apply fire_one_wf|by apply fire_one_resting].
  - by apply finish_resting.
Qed.

(** ** A run *)

Section runs.
Context {T : Type -> Type} {ST : Store T} {LT : StoreLaws T}.

(** A run sends at most [retries + 1] probes, at most eleven; the monitor is down exactly when
    each of [retries + 1] probes fails; and what is stored as its state, the sample and the patch
    all say what the last probe said. *)
Theorem run_spec newId net now m fallbackHost (db : ProbeDb T)
    (Hu : unique_key state_key (unitStates (pd_telemetry db))) :
  let sched := schedule_of m in
  let answer := reply net (probeFor m fallbackHost (count sched)) in
  let db' := run newId net now m fallbackHost db in
  exists n, let result := answer (n - 1)%nat in let status := if up result then UP else DOWN in
    (1 <= n <= Z.to_nat (retries sched) + 1)%nat /\ retries sched <= 10 /\
    (up result = false <-> forall k, (k <= Z.to_nat (retries sched))%nat -> up (answer k) = false) /\
    Health.status <$> baseline (mon_agentId m) (unitStates (pd_telemetry db')) !! mon_name m = Some status /\
    rows (pd_pings db') ≡ₚ {| ps_id := newId "pingSamples" 0%nat; ps_monitorId := mon_id m;
      ps_sourceId := mon_agentId m; ps_up := up result; ps_latencyMs := latencyMs result;
      ps_ts := now |} :: rows (pd_pings db) /\
    pd_patches db' = pd_patches db ++ [{| patch_agentId := mon_agentId m; patch_entity := mon_name m;
      patch_status := status; patch_latencyMs := latencyMs result |}].
Proof.
  cbv zeta. unfold run, record_probe. set (answer := reply net _).
  pose proof (attempts_spec answer (schedule_of m)) as H.
  destruct (attempts answer (schedule_of m)) as [result n]. destruct H as (H1 & -> & _ & H3).
  pose proof (schedule_bounds (mon_type m) (Some (mon_config m))) as (_ & Hb & _). fold (schedule_of m) in Hb.
  exists n. split; [exact H1|]. split; [lia|]. split; [exact H3|]. split; [|split; [apply rows_insert|done]].
  cbn [pd_telemetry processUnits List.length Nat.eqb unitStates fold_left].
  set (u := Build_UnitPush _ _ _ _ _).
  destruct (baseline_step_spec newId now (mon_agentId m) (unitStates (pd_telemetry db)) u Hu) as (_ & Hbase & _).
  rewrite Hbase. by rewrite lookup_insert_eq.
Qed.
End runs.

(** ** Overlaps *)

Definition w_monitor (enabled : bool) : MonitorRow := {|
  mon_id := "m1"; mon_agentId := "a1"; mon_type := "http"; mon_name := "site"; mon_enabled := enabled;
  mon_config := [("interval", JNum 5)]; mon_createdAt := 0; mon_updatedAt := 0 |}.

Definition w_fleet (enabled : bool) : FleetDb list := {|
  agents := []; agentKeys := []; agentCommands := []; monitors := [w_monitor enabled]; secrets := [] |}.

(** A monitor that is disabled and enabled again while it is probed is probed twice at a time:
    the refreshes of two ticks drop its run state and make a new one. *)
Definition w_toggle : list (event list) :=
  [Begin 20000; Refresh (w_fleet true); Fire 20000; Begin 35000; Refresh (w_fleet false); Fire 35000;
   Begin 50000; Refresh (w_fleet true); Fire 50000].

Lemma overlap_after_toggle : List.length (probing "m1" (happens (ST := list_store) started w_toggle)) = 2%nat.
Proof. reflexivity. Qed.

(** ** Witnesses *)

Definition w_trace : list (event list) :=
  [Begin 20000; Refresh (w_fleet true); Fire 20000; Fire 21000; Begin 35000; Refresh (w_fleet true); Fire 35000].

Lemma no_overlap_witness :
  never_dropped (ST := list_store) "m1" started w_trace /\
  (List.length (probing "m1" (happens (ST := list_store) started w_trace)) <= 1)%nat.
Proof.
  assert (Hd : never_dropped (ST := list_store) "m1" started w_trace) by (vm_compute; intuition discriminate).
  split; [exact Hd|]. exact (no_overlap (ST := list_store) "m1" w_trace Hd).
Defined.

Lemma tick_spec_witness :
  let s := happens (ST := list_store) started [Begin 20000; Refresh (w_fleet true)] in
  map fst (sc_running (tick_fire 20000 s)) = [w_monitor true].
Proof.
  assert (Hnd : NoDup (map mon_id (sc_worklist
    (happens (ST := list_store) started [Begin 20000; Refresh (w_fleet true)])))) by apply NoDup_singleton.
  exact (proj1 (tick_spec (ST := list_store) 20000 [Begin 20000; Refresh (w_fleet true)] Hnd)).
Defined.

Lemma paced_witness :
  probing "m1" (happens (ST := list_store)
    (finish 36000 0 (happens (ST := list_store) started w_trace)) [Fire 37000; Fire 40999]) = [].
Proof.
  assert (Hd : never_dropped (ST := list_store) "m1" started w_trace) by (vm_compute; intuition discriminate).
  refine (proj2 (paced (ST := list_store) w_trace [Fire 37000; Fire 40999] 36000 0 (w_monitor true) 0 Hd eq_refl _ _)).
  - vm_compute. intuition.
  - repeat constructor.
Defined.

Lemma run_spec_witness :
  let net (p : Probe) k := {| up := (1 <=? k)%nat; latencyMs := Some 12%Q |} in
  let m := {| mon_id := "m1"; mon_agentId := "a1"; mon_type := "ping"; mon_name := "host"; mon_enabled := true;
              mon_config := []; mon_createdAt := 0; mon_updatedAt := 0 |} in
  let db := {| pd_telemetry := w_db; pd_pings := []; pd_patches := [] |} in
  Health.status <$> baseline "a1" (unitStates (pd_telemetry (T := list) (run w_id net 5 m (Some "10.0.0.1") db)))
    !! "host" = Some UP.
Proof.
  cbv zeta. set (net := fun (_ : Probe) (k : nat) => _). set (m := Build_MonitorRow _ _ _ _ _ _ _ _).
  destruct (run_spec (T := list) (ST := list_store) w_id net 5 m (Some "10.0.0.1")
    {| pd_telemetry := w_db; pd_pings := []; pd_patches := [] |} (proj1 w_keyed)) as (n & _ & _ & Hiff & Hs & _).
  destruct (up (reply net (probeFor m (Some "10.0.0.1") (count (schedule_of m))) (n - 1)%nat)) eqn:Hup; [exact Hs|].
  exfalso. assert (Hle : (1 <= Z.to_nat (retries (schedule_of m)))%nat) by (vm_compute; lia).
  pose proof (proj1 Hiff eq_refl 1%nat Hle) as H. discriminate H.
Defined.
