(* ===== verification/SnmpProfiles.v ===== *)
(** * SNMP profiles

    Models apps/backend/src/services/snmp-profiles.ts and packages/db/src/seed/snmp.ts: the
    profiles that say what is collected from a device, their cleaning, the protection of the
    built-in ones, and the seed that installs and refreshes those by name. The clock, the new
    ids and the order of [localeCompare] are arguments. *)
From S2P Require Import Prelude Text Dates Store Schema RowUpdates Devices.

Record SnmpProfileInput : Type := {
  pi_name : string; pi_vendor : option string; pi_deviceType : option string;
  pi_model : option string; pi_standard : option bool; pi_oids : option (list SnmpProfileOid);
  pi_tables : option (list SnmpProfileTable)
}.

Record SnmpProfileDTO : Type := {
  pd_id : string; pd_name : string; pd_vendor : string; pd_deviceType : string; pd_model : string;
  pd_standard : bool; pd_oids : list SnmpProfileOid; pd_tables : list SnmpProfileTable;
  pd_isSystem : bool
}.

Definition profile_toDTO (r : SnmpProfileRow) : SnmpProfileDTO := {|
  pd_id := snmp_id r; pd_name := snmp_name r; pd_vendor := snmp_vendor r;
  pd_deviceType := snmp_deviceType r; pd_model := snmp_model r; pd_standard := snmp_standard r;
  pd_oids := snmp_oids r; pd_tables := snmp_tables r; pd_isSystem := snmp_isSystem r |}.

Fixpoint digits_only (s : string) : bool :=
  match s with
  | EmptyString => true
  | String c s' => bool_decide (is_Some (digit_val c)) && digits_only s'
  end.

(** [/^\.?\d+(\.\d+)*$/] *)
Definition is_oid (s : string) : bool :=
  forallb (fun part => truthy part && digits_only part)
    (split_on "." (match s with String "." s' => s' | _ => s end)).

Definition clean_oid (o : SnmpProfileOid) : SnmpProfileOid := {|
  po_label := po_label o; po_oid := po_oid o; po_unit := nonempty (po_unit o);
  po_group := nonempty (po_group o) |}.
Definition cleanOids (oids : option (list SnmpProfileOid)) : list SnmpProfileOid :=
  map clean_oid (List.filter (fun o => is_oid (po_oid o)) (default [] oids)).

Definition clean_column (c : SnmpProfileTableCol) : SnmpProfileTableCol := {|
  pc_label := pc_label c; pc_col := pc_col c; pc_unit := nonempty (pc_unit c); pc_enum := pc_enum c |}.
Definition cleanTables (tables : option (list SnmpProfileTable)) : list SnmpProfileTable :=
  map (fun t => {| pt_name := pt_name t; pt_oid := pt_oid t;
                   pt_columns := map clean_column (pt_columns t) |})
    (List.filter (fun t => is_oid (pt_oid t)) (default [] tables)).

(** [input.deviceType?.trim() || "generic"] *)
Definition device_type (input : SnmpProfileInput) : string :=
  default "generic" (nonempty (trim <$> pi_deviceType input)).

(** The exceptions of the service. *)
Inductive ProfileError : Type := ReadOnly | CannotDelete.

Section profiles.
Context {T : Type -> Type} {ST : Store T}.
Implicit Types t : T SnmpProfileRow.

Definition is_profile (id : string) (r : SnmpProfileRow) : bool := String.eqb (snmp_id r) id.

Definition listSnmpProfiles (gt : SnmpProfileDTO -> SnmpProfileDTO -> bool) t : list SnmpProfileDTO :=
  js_sort gt (map profile_toDTO (rows t)).

Definition getSnmpProfile t (id : string) : option SnmpProfileDTO :=
  profile_toDTO <$> select_first (is_profile id) t.

Definition createSnmpProfile (now : Z) (id : string) t (input : SnmpProfileInput)
  : T SnmpProfileRow * SnmpProfileDTO :=
  let row := {|
    snmp_id := id; snmp_name := trim (pi_name input);
    snmp_vendor := default "" (trim <$> pi_vendor input); snmp_deviceType := device_type input;
    snmp_model := default "" (trim <$> pi_model input); snmp_standard := default true (pi_standard input);
    snmp_oids := cleanOids (pi_oids input); snmp_tables := cleanTables (pi_tables input);
    snmp_isSystem := false; snmp_createdAt := now; snmp_updatedAt := now |} in
  (insert_row row t, profile_toDTO row).

Definition profile_set (now : Z) (input : SnmpProfileInput) (r : SnmpProfileRow) : SnmpProfileRow :=
  set_snmp_name (trim (pi_name input)) (set_snmp_vendor (default "" (trim <$> pi_vendor input))
    (set_snmp_deviceType (device_type input) (set_snmp_model (default "" (trim <$> pi_model input))
      (set_snmp_standard (default true (pi_standard input)) (set_snmp_oids (cleanOids (pi_oids input))
        (set_snmp_tables (cleanTables (pi_tables input)) (set_snmp_updatedAt now r))))))).

Definition updateSnmpProfile (now : Z) t (id : string) (input : SnmpProfileInput)
  : T SnmpProfileRow * result ProfileError (option SnmpProfileDTO) :=
  match getSnmpProfile t id with
  | None => (t, Ok None)
  | Some existing =>
      if pd_isSystem existing then (t, Err ReadOnly) else
      let '(t, row) := update_returning (is_profile id) (profile_set now input) t in
      (t, Ok (profile_toDTO <$> row))
  end.

Definition deleteSnmpProfile t (id : string) : T SnmpProfileRow * result ProfileError bool :=
  match getSnmpProfile t id with
  | None => (t, Ok false)
  | Some existing =>
      if pd_isSystem existing then (t, Err CannotDelete)
      else (delete_where (is_profile id) t, Ok true)
  end.
End profiles.

(** ** The built-in profiles *)

Record BuiltinProfile : Type := {
  bp_name : string; bp_vendor : string; bp_deviceType : string; bp_model : string;
  bp_standard : bool; bp_oids : list SnmpProfileOid; bp_tables : option (list SnmpProfileTable)
}.

Definition oid_in (group label oid unit : string) : SnmpProfileOid :=
  {| po_label := label; po_oid := oid; po_unit := nonempty (Some unit); po_group := Some group |}.
Definition column (label : string) (col : Z) : SnmpProfileTableCol :=
  {| pc_label := label; pc_col := col; pc_unit := None; pc_enum := None |}.
Definition column_in (unit label : string) (col : Z) : SnmpProfileTableCol :=
  {| pc_label := label; pc_col := col; pc_unit := Some unit; pc_enum := None |}.
Definition column_of (enum : list (string * string)) (label : string) (col : Z) : SnmpProfileTableCol :=
  {| pc_label := label; pc_col := col; pc_unit := None; pc_enum := Some enum |}.
Definition ON_OFF : list (string * string) := [("0", "off"); ("1", "on")].

Definition BUILTIN_SNMP_PROFILES : list BuiltinProfile :=
  [{| bp_name := "Standard (any device)"; bp_vendor := "Standard"; bp_deviceType := "generic";
      bp_model := ""; bp_standard := true;
      bp_oids := [];
      bp_tables := None |};
   {| bp_name := "QNAP NAS"; bp_vendor := "QNAP"; bp_deviceType := "nas";
      bp_model := ""; bp_standard := true;
      bp_oids := [oid_in "QNAP" "CPU usage" "1.3.6.1.4.1.24681.1.2.1.0" "";
        oid_in "QNAP" "CPU temperature" "1.3.6.1.4.1.24681.1.2.5.0" "°C";
        oid_in "QNAP" "System temperature" "1.3.6.1.4.1.24681.1.2.6.0" "°C";
        oid_in "QNAP" "Free memory" "1.3.6.1.4.1.24681.1.2.2.0" "MB";
        oid_in "QNAP" "Total memory" "1.3.6.1.4.1.24681.1.2.3.0" "MB";
        oid_in "QNAP" "System fan speed" "1.3.6.1.4.1.24681.1.2.15.0" "RPM"];
      bp_tables := None |};
   {| bp_name := "QNAP QuTS hero (QTS 5)"; bp_vendor := "QNAP"; bp_deviceType := "nas";
      bp_model := ""; bp_standard := true;
      bp_oids := [oid_in "System" "Load 1m" "1.3.6.1.4.1.2021.10.1.3.1" "";
        oid_in "System" "Load 5m" "1.3.6.1.4.1.2021.10.1.3.2" "";
        oid_in "System" "Load 15m" "1.3.6.1.4.1.2021.10.1.3.3" "";
        oid_in "Memory" "Total RAM" "1.3.6.1.4.1.2021.4.5.0" "KB";
        oid_in "Memory" "Available RAM" "1.3.6.1.4.1.2021.4.6.0" "KB"];
      bp_tables := Some
         [{| pt_name := "Disks"; pt_oid := "1.3.6.1.4.1.55062.2.10.2.1"; pt_columns :=
           [column "Slot" 1;
            column "Model" 4;
            column "Type" 6;
            column "Status" 7;
            column_in "°C" "Temp" 8;
            column_in "bytes" "Capacity" 9] |};
          {| pt_name := "RAID"; pt_oid := "1.3.6.1.4.1.55062.2.10.5.1"; pt_columns :=
           [column "Name" 3;
            column "Status" 4;
            column "Level" 7;
            column_in "bytes" "Capacity" 5] |};
          {| pt_name := "Storage pools"; pt_oid := "1.3.6.1.4.1.55062.2.10.7.1"; pt_columns :=
           [column "Pool" 2;
            column_of [("-3", "error"); ("-2", "notReady"); ("-1", "warning"); ("0", "ready")] "Status" 5;
            column_in "bytes" "Capacity" 3;
            column_in "bytes" "Free" 4] |};
          {| pt_name := "Shares"; pt_oid := "1.3.6.1.4.1.55062.2.10.9.1"; pt_columns :=
           [column "Name" 2;
            column "Status" 5;
            column_in "bytes" "Capacity" 3;
            column_in "bytes" "Free" 4;
            column_of ON_OFF "WORM" 7;
            column_of ON_OFF "Compression" 8;
            column_of ON_OFF "Dedup" 9;
            column_of ON_OFF "Encryption" 11] |}] |};
   {| bp_name := "TrueNAS / Unix (net-snmp)"; bp_vendor := "TrueNAS"; bp_deviceType := "nas";
      bp_model := ""; bp_standard := true;
      bp_oids := [];
      bp_tables := None |};
   {| bp_name := "Network switch (IF-MIB)"; bp_vendor := "Generic"; bp_deviceType := "switch";
      bp_model := ""; bp_standard := true;
      bp_oids := [];
      bp_tables := None |};
   {| bp_name := "UPS (UPS-MIB / RFC 1628)"; bp_vendor := "Generic"; bp_deviceType := "ups";
      bp_model := ""; bp_standard := false;
      bp_oids := [oid_in "Battery" "Battery status" "1.3.6.1.2.1.33.1.2.1.0" "";
        oid_in "Battery" "Seconds on battery" "1.3.6.1.2.1.33.1.2.2.0" "s";
        oid_in "Battery" "Minutes remaining" "1.3.6.1.2.1.33.1.2.3.0" "min";
        oid_in "Battery" "Battery charge" "1.3.6.1.2.1.33.1.2.4.0" "%";
        oid_in "Power" "Input voltage" "1.3.6.1.2.1.33.1.3.3.1.3.1" "V";
        oid_in "Power" "Output load" "1.3.6.1.2.1.33.1.4.4.1.5.1" "%"];
      bp_tables := None |}].

Section seed.
Context {T : Type -> Type} {ST : Store T}.
Implicit Types t : T SnmpProfileRow.

(** The fields the seed sets. *)
Definition builtin_set (p : BuiltinProfile) (r : SnmpProfileRow) : SnmpProfileRow :=
  set_snmp_vendor (bp_vendor p) (set_snmp_deviceType (bp_deviceType p) (set_snmp_model (bp_model p)
    (set_snmp_standard (bp_standard p) (set_snmp_oids (bp_oids p)
      (set_snmp_tables (default [] (bp_tables p)) r))))).

(** [existing]: the ids of the rows that have a built-in name, a later row overwriting. *)
Definition existing_ids t : list (string * string) :=
  js_map snmp_name snmp_id
    (select (fun r => includes (map bp_name BUILTIN_SNMP_PROFILES) (snmp_name r)) t).

Definition builtin_row (now : Z) (id : string) (p : BuiltinProfile) : SnmpProfileRow := {|
  snmp_id := id; snmp_name := bp_name p; snmp_vendor := bp_vendor p; snmp_deviceType := bp_deviceType p;
  snmp_model := bp_model p; snmp_standard := bp_standard p; snmp_oids := bp_oids p;
  snmp_tables := default [] (bp_tables p); snmp_isSystem := true; snmp_createdAt := now;
  snmp_updatedAt := now |}.

Definition seed_one (now : Z) (newId : string -> string) (existing : list (string * string)) t
    (p : BuiltinProfile) : T SnmpProfileRow :=
  match nonempty (map_get (bp_name p) existing) with
  | Some id => update_where (is_profile id) (builtin_set p) t
  | None => insert_row (builtin_row now (newId (bp_name p)) p) t
  end.

(** [newId] is the id the database draws for the row of a name. *)
Definition seedSnmpProfiles (now : Z) (newId : string -> string) t : T SnmpProfileRow :=
  fold_left (seed_one now newId (existing_ids t)) BUILTIN_SNMP_PROFILES t.
End seed.

(** ** What is stored *)

(** A profile has a device type, and every OID of it is numeric. *)
Definition profile_ok (r : SnmpProfileRow) : Prop :=
  snmp_deviceType r <> "" /\ Forall (fun o => is_oid (po_oid o) = true) (snmp_oids r) /\
  Forall (fun x => is_oid (pt_oid x) = true) (snmp_tables r).

Lemma cleanOids_ok oids : Forall (fun o => is_oid (po_oid o) = true) (cleanOids oids).
Proof.
  apply Forall_forall. intros o (x & -> & [_ Hx]%elem_of_filterb)%elem_of_map. exact Hx.
Qed.

Lemma cleanTables_ok tables : Forall (fun x => is_oid (pt_oid x) = true) (cleanTables tables).
Proof.
  apply Forall_forall. intros o (x & -> & [_ Hx]%elem_of_filterb)%elem_of_map. exact Hx.
Qed.

Lemma device_type_ok input : device_type input <> "".
Proof.
  unfold device_type, nonempty. destruct (trim <$> pi_deviceType input) as [s|]; [|done].
  unfold truthy. by destruct (String.eqb_spec s "").
Qed.

Lemma builtins_ok : Forall (fun p => bp_deviceType p <> "" /\
  Forall (fun o => is_oid (po_oid o) = true) (bp_oids p) /\
  Forall (fun x => is_oid (pt_oid x) = true) (default [] (bp_tables p))) BUILTIN_SNMP_PROFILES.
Proof. repeat (constructor; try done). Qed.

Lemma builtin_names_distinct : NoDup (map bp_name BUILTIN_SNMP_PROFILES).
Proof. apply (bool_decide_unpack _). vm_compute. exact I. Qed.

(** The operations of the service and the seed. *)
Inductive op : Type :=
| Create (now : Z) (id : string) (input : SnmpProfileInput)
| Update (now : Z) (id : string) (input : SnmpProfileInput)
| Delete (id : string)
| Seed (now : Z) (newId : string -> string).

Section store.
Context {T : Type -> Type} {ST : Store T} {LT : StoreLaws T}.
Implicit Types t : T SnmpProfileRow.

Definition perform t (o : op) : T SnmpProfileRow :=
  match o with
  | Create now id input => fst (createSnmpProfile now id t input)
  | Update now id input => fst (updateSnmpProfile now t id input)
  | Delete id => fst (deleteSnmpProfile t id)
  | Seed now newId => seedSnmpProfiles now newId t
  end.

Lemma fst_update_returning {R} (p : R -> bool) f (t : T R) : fst (update_returning p f t) = update_where p f t.
Proof. done. Qed.

Lemma update_cases now t id input :
  fst (updateSnmpProfile now t id input) = t \/
  (exists r, select_first (is_profile id) t = Some r /\ snmp_isSystem r = false /\
   fst (updateSnmpProfile now t id input) = update_where (is_profile id) (profile_set now input) t).
Proof.
  unfold updateSnmpProfile, getSnmpProfile. destruct (select_first _ t) as [r|] eqn:Hr; [|by left].
  simpl. destruct (snmp_isSystem r) eqn:Hs; [by left|]. right. by exists r.
Qed.

Lemma delete_cases t id :
  fst (deleteSnmpProfile t id) = t \/
  (exists r, select_first (is_profile id) t = Some r /\ snmp_isSystem r = false /\
   fst (deleteSnmpProfile t id) = delete_where (is_profile id) t).
Proof.
  unfold deleteSnmpProfile, getSnmpProfile. destruct (select_first _ t) as [r|] eqn:Hr; [|by left].
  simpl. destruct (snmp_isSystem r) eqn:Hs; [by left|]. right. by exists r.
Qed.

Definition all_ok t : Prop := forall r, r ∈ rows t -> profile_ok r.

Lemma seed_ok now newId t : all_ok t -> all_ok (seedSnmpProfiles now newId t).
Proof.
  unfold seedSnmpProfiles. generalize (existing_ids t) as ex. intros ex. pose proof builtins_ok as Hb.
  revert t. induction BUILTIN_SNMP_PROFILES as [|p ps IH]; intros t Ht; [done|]. simpl.
  apply Forall_cons in Hb as [(H1 & H2 & H3) Hb]. apply IH; [done|]. unfold seed_one.
  destruct (nonempty _) as [id|].
  - intros r (x & Hx & ->)%elem_of_update. destruct (is_profile id x); [|by apply Ht]. by split_and!.
  - intros r [->|Hr]%elem_of_insert; [|by apply Ht]. by split_and!.
Qed.

(** C29: from an empty table on, every profile has a device type and only numeric OIDs, whatever
    is created, updated, deleted and seeded. *)
Theorem profiles_ok (ops : list op) : all_ok (fold_left perform ops empty_table).
Proof.
  assert (H0 : all_ok empty_table) by (intros r Hr; by apply elem_of_empty in Hr).
  revert H0. generalize (empty_table : T SnmpProfileRow) as t.
  induction ops as [|o ops IH]; intros t Ht; [done|]. simpl. apply IH.
  destruct o as [now id input|now id input|id|now newId]; simpl.
  - intros r [->|Hr]%elem_of_insert; [|by apply Ht].
    split; [apply device_type_ok|]. split; [apply cleanOids_ok|apply cleanTables_ok].
  - destruct (update_cases now t id input) as [->|(_ & _ & _ & ->)]; [done|].
    intros r (x & Hx & ->)%elem_of_update. destruct (is_profile id x); [|by apply Ht].
    split; [apply device_type_ok|]. split; [apply cleanOids_ok|apply cleanTables_ok].
  - destruct (delete_cases t id) as [->|(_ & _ & _ & ->)]; [done|].
    intros r [Hr _]%elem_of_delete. by apply Ht.
  - by apply seed_ok.
Qed.

(** A built-in profile stays as it is under the operations of users: an update or deletion
    of it is refused and changes nothing, and those of others do not touch it. *)
Theorem builtin_protected t o r (Hu : unique_key snmp_id t) :
  r ∈ rows t -> snmp_isSystem r = true -> (forall now newId, o <> Seed now newId) ->
  r ∈ rows (perform t o) /\
  (forall now input, updateSnmpProfile now t (snmp_id r) input = (t, Err ReadOnly)) /\
  deleteSnmpProfile t (snmp_id r) = (t, Err CannotDelete).
Proof.
  intros Hr Hs Ho.
  assert (Hg : forall id x, select_first (is_profile id) t = Some x -> snmp_isSystem x = false -> is_profile id r = false).
  { intros id x [Hx Hi]%select_first_Some Hxs. apply not_true_iff_false. intros Hir.
    apply String.eqb_eq in Hi, Hir. assert (x = r); [|congruence].
    apply (unique_key_inj snmp_id t); [done|done|done|congruence]. }
  assert (Hget : select_first (is_profile (snmp_id r)) t = Some r).
  { apply (select_first_key snmp_id); [done|done|apply String.eqb_refl|]. by intros r' He%String.eqb_eq. }
  split.
  - destruct o as [now id input|now id input|id|now newId]; simpl; [| | |by destruct (Ho now newId)].
    + apply elem_of_insert. by right.
    + destruct (update_cases now t id input) as [->|(x & Hx & Hxs & ->)]; [done|].
      apply elem_of_update. exists r. by rewrite (Hg id x).
    + destruct (delete_cases t id) as [->|(x & Hx & Hxs & ->)]; [done|].
      apply elem_of_delete. by rewrite (Hg id x).
  - unfold updateSnmpProfile, deleteSnmpProfile, getSnmpProfile. rewrite Hget. simpl. by rewrite Hs.
Qed.
End store.

(** ** The seed *)

Section seeding.
Context {T : Type -> Type} {ST : Store T} {LT : StoreLaws T}.
Implicit Types (t : T SnmpProfileRow) (ex : list (string * string)) (ps : list BuiltinProfile).

(** The built-in profile, among some, that a row is refreshed from. *)
Definition source_of ex ps (r : SnmpProfileRow) : option BuiltinProfile :=
  List.find (fun p => bool_decide (map_get (bp_name p) ex = Some (snmp_id r))) ps.
Definition refreshed ex ps (r : SnmpProfileRow) : SnmpProfileRow :=
  match source_of ex ps r with Some p => builtin_set p r | None => r end.

Definition missing_from ex (p : BuiltinProfile) : bool := bool_decide (map_get (bp_name p) ex = None).

Lemma source_other ex ps r p :
  (forall q, q ∈ ps -> map_get (bp_name q) ex <> Some (snmp_id r)) -> source_of ex ps r = None /\
  refreshed ex ps (builtin_set p r) = builtin_set p r.
Proof.
  intros Hq. assert (Hs : source_of ex ps r = None).
  { unfold source_of. destruct (List.find _ ps) as [q|] eqn:Hf; [|done].
    apply List.find_some in Hf as [Hin Hb]. apply bool_decide_eq_true in Hb.
    apply list_elem_of_In in Hin. by destruct (Hq q Hin). }
  split; [done|]. unfold refreshed. change (source_of ex ps (builtin_set p r)) with (source_of ex ps r).
  by rewrite Hs.
Qed.

(** The loop: each row that has a place is refreshed, each profile that has none is added. *)
Lemma seed_loop now newId ex ps t :
  NoDup (map bp_name ps) ->
  (forall n1 n2 id, map_get n1 ex = Some id -> map_get n2 ex = Some id -> n1 = n2) ->
  (forall n, map_get n ex <> Some "") ->
  (forall n p, p ∈ ps -> map_get n ex <> Some (newId (bp_name p))) ->
  rows (fold_left (seed_one now newId ex) ps t) ≡ₚ
  map (refreshed ex ps) (rows t) ++
  map (fun p => builtin_row now (newId (bp_name p)) p) (List.filter (missing_from ex) ps).
Proof.
  intros Hnd Hinj Hne Hfresh. revert t Hnd Hfresh. induction ps as [|p ps IH]; intros t Hnd Hfresh.
  { simpl. unfold refreshed, source_of. simpl. by rewrite map_id, app_nil_r. }
  simpl in Hnd. apply NoDup_cons in Hnd as [Hn Hnd]. simpl fold_left.
  rewrite IH; [|done|by intros n q Hq; apply Hfresh, list_elem_of_further].
  assert (Hother : forall id, map_get (bp_name p) ex = Some id ->
    forall q, q ∈ ps -> map_get (bp_name q) ex <> Some id).
  { intros id Hid q Hq Hqid. apply Hn. apply elem_of_map. exists q. by split; [apply (Hinj _ _ id)|]. }
  unfold seed_one, missing_from at 2. cbn [List.filter]. destruct (map_get (bp_name p) ex) as [id|] eqn:Hid; simpl.
  - unfold truthy. destruct (String.eqb_spec id "") as [->|]; [by destruct (Hne (bp_name p))|]. simpl.
    apply Permutation_app; [|done]. rewrite rows_update, map_map. erewrite map_ext; [done|]. intros r. simpl.
    unfold is_profile. destruct (String.eqb_spec (snmp_id r) id) as [He|He].
    + subst id. destruct (source_other ex ps r p (Hother _ eq_refl)) as [_ ->].
      unfold refreshed, source_of. simpl. by rewrite bool_decide_eq_true_2.
    + unfold refreshed, source_of. simpl. by rewrite bool_decide_eq_false_2 by congruence.
  - rewrite rows_insert. simpl. set (new := builtin_row now (newId (bp_name p)) p).
    assert (Hnew : refreshed ex ps new = new).
    { unfold refreshed. destruct (source_other ex ps new p) as [-> _]; [|done].
      intros q Hq. apply Hfresh, list_elem_of_here. }
    rewrite Hnew, <- Permutation_middle. simpl. apply perm_skip, Permutation_app; [|done]. erewrite map_ext; [done|]. intros r.
    unfold refreshed, source_of. simpl. by rewrite bool_decide_eq_false_2 by congruence.
Qed.

Definition is_builtin (r : SnmpProfileRow) : bool :=
  includes (map bp_name BUILTIN_SNMP_PROFILES) (snmp_name r).

Lemma existing_get t n id : map_get n (existing_ids t) = Some id ->
  exists r, r ∈ rows t /\ snmp_name r = n /\ snmp_id r = id.
Proof.
  intros (r & Hr & Hn & Hi)%map_get_js_map_Some. exists r. apply elem_of_select in Hr as [Hr _]. done.
Qed.

Lemma js_map_has {R V} (key : R -> string) (value : R -> V) l r m :
  (r ∈ l \/ map_get (key r) m <> None) ->
  map_get (key r) (fold_left (fun m r => map_set (key r) (value r) m) l m) <> None.
Proof.
  revert m. induction l as [|x l IH]; intros m; simpl.
  - intros [?%not_elem_of_nil|?]; done.
  - intros Hr. apply IH. destruct Hr as [[->|Hr]%elem_of_cons|Hr].
    + right. by rewrite map_get_set_eq.
    + by left.
    + right. destruct (decide (key x = key r)) as [<-|]; [by rewrite map_get_set_eq|by rewrite map_get_set_ne].
Qed.

(** After the seed there is a row for each built-in profile with its fields; every row keeps
    its id and its name, and a row with another name is as it was; a built-in profile that has no
    row is added as a system one. *)
Theorem seed_spec now newId t
    (Hu : unique_key snmp_id t) (Hid : forall r, r ∈ rows t -> snmp_id r <> "")
    (Hfresh : forall r n, r ∈ rows t -> snmp_id r <> newId n) :
  let t' := seedSnmpProfiles now newId t in
  let ex := existing_ids t in
  rows t' ≡ₚ map (refreshed ex BUILTIN_SNMP_PROFILES) (rows t) ++
    map (fun p => builtin_row now (newId (bp_name p)) p) (List.filter (missing_from ex) BUILTIN_SNMP_PROFILES) /\
  (forall p, p ∈ BUILTIN_SNMP_PROFILES -> exists r, r ∈ rows t' /\ snmp_name r = bp_name p /\ builtin_set p r = r) /\
  (forall r, r ∈ rows t -> exists r', r' ∈ rows t' /\ snmp_id r' = snmp_id r /\ snmp_name r' = snmp_name r /\
     (is_builtin r = false -> r' = r)).
Proof.
  cbv zeta. set (ex := existing_ids t).
  assert (Hinj : forall n1 n2 id, map_get n1 ex = Some id -> map_get n2 ex = Some id -> n1 = n2).
  { intros n1 n2 id (r1 & H1 & <- & <-)%existing_get (r2 & H2 & <- & He)%existing_get.
    by rewrite (unique_key_inj snmp_id t r1 r2 Hu H1 H2). }
  pose proof (seed_loop now newId ex BUILTIN_SNMP_PROFILES t builtin_names_distinct Hinj) as Hrows.
  specialize (Hrows ltac:(intros n (r & Hr & _ & He)%existing_get; by apply Hid in Hr)).
  specialize (Hrows ltac:(intros n p _ (r & Hr & _ & He)%existing_get; by apply Hfresh in He)).
  split; [exact Hrows|]. split.
  - intros p Hp. unfold seedSnmpProfiles. fold ex. setoid_rewrite Hrows.
    destruct (map_get (bp_name p) ex) as [id|] eqn:He.
    + pose proof He as (r & Hr & Hn & Hi)%existing_get. exists (builtin_set p r). split.
      * apply elem_of_app. left. apply elem_of_map. exists r. split; [|done]. unfold refreshed.
        destruct (source_of ex BUILTIN_SNMP_PROFILES r) as [q|] eqn:Hs.
        -- apply List.find_some in Hs as [Hq Hb]. apply bool_decide_eq_true in Hb. apply list_elem_of_In in Hq.
           assert (bp_name p = bp_name q) as Hpq by (apply (Hinj _ _ id); congruence).
           f_equal. apply list_elem_of_lookup in Hp as [i Hp], Hq as [j Hq].
           assert (i = j) as ->; [|congruence]. eapply NoDup_lookup; [exact builtin_names_distinct|..];
             rewrite list_lookup_fmap; [by rewrite Hp|by rewrite Hq; simpl; rewrite Hpq].
        -- apply list_elem_of_In in Hp. pose proof (List.find_none _ _ Hs p Hp) as Hf. simpl in Hf.
           apply bool_decide_eq_false in Hf. congruence.
      * by rewrite <- Hn.
    + exists (builtin_row now (newId (bp_name p)) p). split; [|done]. apply elem_of_app. right.
      apply elem_of_map. exists p. split; [done|]. apply elem_of_filterb. split; [done|].
      by apply bool_decide_eq_true.
  - intros r Hr. unfold seedSnmpProfiles. fold ex. exists (refreshed ex BUILTIN_SNMP_PROFILES r). split.
    { rewrite Hrows. apply elem_of_app. left. apply elem_of_map. by exists r. }
    unfold refreshed. destruct (source_of ex BUILTIN_SNMP_PROFILES r) as [p|] eqn:Hs; [|done].
    split; [done|]. split; [done|]. intros Hb. exfalso.
    apply List.find_some in Hs as [Hp He]. apply bool_decide_eq_true in He. apply list_elem_of_In in Hp.
    apply existing_get in He as (x & Hx & Hn & Hi).
    rewrite (unique_key_inj snmp_id t x r Hu Hx Hr Hi) in Hn. unfold is_builtin in Hb.
    apply includes_false in Hb. apply Hb. rewrite Hn. apply elem_of_map. by exists p.
Qed.
End seeding.

(** ** Witnesses *)

Definition w_input : SnmpProfileInput := {|
  pi_name := " QNAP NAS "; pi_vendor := None; pi_deviceType := Some " "; pi_model := None;
  pi_standard := None; pi_oids := Some [oid_in "" "a" "1.3" ""; oid_in "" "b" "1..3" ""]; pi_tables := None |}.

Definition w_ids (name : string) : string := "new:" +:+ name.

Definition w_seeded : list SnmpProfileRow := seedSnmpProfiles (ST := list_store) 7 w_ids [].

(** A profile a user made with the name of a built-in one loses its own OIDs at the next seed. *)
Lemma seed_overwrites_custom :
  let t := fst (createSnmpProfile (T := list) (ST := list_store) 1 "u1" [] w_input) in
  map snmp_oids (select (is_profile "u1") t) = [[clean_oid (oid_in "" "a" "1.3" "")]] /\
  map (fun r => (snmp_isSystem r, List.length (snmp_oids r)))
    (select (is_profile "u1") (seedSnmpProfiles 2 w_ids t)) = [(false, 6%nat)].
Proof. by split. Qed.

Lemma profiles_ok_witness :
  all_ok (fold_left (perform (T := list) (ST := list_store)) [Seed 7 w_ids; Create 8 "u1" w_input] empty_table).
Proof. exact (profiles_ok (T := list) (ST := list_store) [Seed 7 w_ids; Create 8 "u1" w_input]). Defined.

Lemma w_seeded_unique : unique_key snmp_id w_seeded.
Proof. apply (bool_decide_unpack _). vm_compute. exact I. Qed.

Lemma builtin_protected_witness :
  exists r, r ∈ w_seeded /\ deleteSnmpProfile (T := list) w_seeded (snmp_id r) = (w_seeded, Err CannotDelete).
Proof.
  destruct w_seeded as [|r l] eqn:He; [discriminate He|]. exists r. split; [apply list_elem_of_here|].
  assert (Hu : unique_key (T := list) snmp_id (r :: l)) by (rewrite <- He; exact w_seeded_unique).
  assert (Hs : snmp_isSystem r = true) by (injection He as <- _; reflexivity).
  exact (proj2 (proj2 (builtin_protected (T := list) (ST := list_store) (r :: l) (Delete "x") r Hu
    (list_elem_of_here r l) Hs ltac:(discriminate)))).
Defined.

Lemma seed_spec_witness :
  let t := fst (createSnmpProfile (T := list) (ST := list_store) 1 "u1" [] w_input) in
  exists r, r ∈ rows (seedSnmpProfiles (ST := list_store) 2 w_ids t) /\ snmp_name r = "QNAP NAS".
Proof.
  cbv zeta. set (t := fst _).
  assert (Hu : unique_key (T := list) snmp_id t) by apply NoDup_singleton.
  assert (Hid : forall r, r ∈ rows t -> snmp_id r <> "") by (intros r ->%list_elem_of_singleton; discriminate).
  assert (Hf : forall r n, r ∈ rows t -> snmp_id r <> w_ids n) by (intros r n ->%list_elem_of_singleton; discriminate).
  destruct (seed_spec (T := list) (ST := list_store) 2 w_ids t Hu Hid Hf) as (_ & Hp & _).
  destruct (Hp _ (list_elem_of_further _ _ _ (list_elem_of_here _ _))) as (r & Hr & Hn & _). exists r. split; assumption.
Defined.
