(* ===== verification/Snmp.v ===== *)
(** * The SNMP collector

    Models apps/backend/src/services/snmp.ts: what a poll of a device makes of its answers. The
    device is a parameter, through the net-snmp session: the varbinds a GET or a walk returns,
    those in error left out. A poll runs in stages, and a timer may end it after any of them. A
    text is the bytes of the device; numbers are exact. *)
From S2P Require Import Prelude Text Dates Schema Devices SnmpProfiles.

(** A value of a varbind: a number, an octet string, or the text of an OID or address. *)
Inductive snmp_value : Type :=
| VNum (n : Z)
| VBuf (bytes : list Z)
| VText (s : string).

Record Varbind : Type := { vb_oid : string; vb_type : Z; vb_value : snmp_value }.

Record Device : Type := {
  dv_get : list string -> list Varbind;
  dv_subtree : string -> list Varbind
}.

Record SnmpProfileLite : Type := {
  pl_standard : bool; pl_oids : list SnmpProfileOid; pl_tables : option (list SnmpProfileTable);
  pl_vendor : option string
}.

Record SnmpVolume : Type := { vol_name : string; vol_usedPct : Q }.
Record SnmpNic : Type := {
  nic_name : string; nic_mac : option string; nic_ips : list string; nic_rxBps : option Q;
  nic_txBps : option Q
}.
Record SnmpDisk : Type := {
  disk_name : string; disk_status : option string; disk_tempC : option Q;
  disk_model : option string; disk_smart : option string
}.
Record SnmpItem : Type := {
  it_label : string; it_oid : string; it_value : string; it_unit : option string;
  it_group : option string
}.
Record SnmpTable : Type := { tb_name : string; tb_headers : list string; tb_rows : list (list string) }.

Record SnmpSample : Type := {
  ss_reachable : bool; ss_error : option string; ss_uptimeMin : option Q;
  ss_cpuPercent : option Q; ss_memUsedPct : option Q; ss_volumes : option (list SnmpVolume);
  ss_nics : option (list SnmpNic); ss_disks : option (list SnmpDisk);
  ss_items : option (list SnmpItem); ss_tables : option (list SnmpTable)
}.

Definition unreachable (error : option string) : SnmpSample := {|
  ss_reachable := false; ss_error := error; ss_uptimeMin := None; ss_cpuPercent := None;
  ss_memUsedPct := None; ss_volumes := None; ss_nics := None; ss_disks := None; ss_items := None;
  ss_tables := None |}.

(** ** Values *)

Definition OID_sysUpTime := "1.3.6.1.2.1.1.3.0".
Definition OID_hrProcLoad := "1.3.6.1.2.1.25.3.3.1.2".
Definition OID_hrStorageType := "1.3.6.1.2.1.25.2.3.1.2".
Definition OID_hrStorageDescr := "1.3.6.1.2.1.25.2.3.1.3".
Definition OID_hrStorageSize := "1.3.6.1.2.1.25.2.3.1.5".
Definition OID_hrStorageUsed := "1.3.6.1.2.1.25.2.3.1.6".
Definition OID_typeRAM := "1.3.6.1.2.1.25.2.1.2".
Definition OID_typeFixed := "1.3.6.1.2.1.25.2.1.4".
Definition OID_ifType := "1.3.6.1.2.1.2.2.1.3".
Definition OID_ifDescr := "1.3.6.1.2.1.2.2.1.2".
Definition OID_ifPhys := "1.3.6.1.2.1.2.2.1.6".
Definition OID_ifHCIn := "1.3.6.1.2.1.31.1.1.1.6".
Definition OID_ifHCOut := "1.3.6.1.2.1.31.1.1.1.10".
Definition OID_ifIn := "1.3.6.1.2.1.2.2.1.10".
Definition OID_ifOut := "1.3.6.1.2.1.2.2.1.16".
Definition OID_ipAdEntIf := "1.3.6.1.2.1.4.20.1.2".

(** [oid.replace(/^\./, "")] *)
Definition undot (s : string) : string := match s with String "." s' => s' | _ => s end.

Definition last_part (sep : ascii) (s : string) : string :=
  List.last (split_on sep s) "".
Definition lastIndex (oid : string) : Z :=
  default 0 (isInteger (Number_of_string (last_part "." oid))).

Fixpoint big_endian (acc : Z) (bs : list Z) : Z :=
  match bs with [] => acc | b :: bs => big_endian (acc * 256 + b) bs end.

Definition trunc (q : Q) : Z := if Qle_bool 0 q then Qfloor q else - Qfloor (- q).

(** [undefined] is [None]. *)
Definition toBigInt (v : option snmp_value) : Z :=
  match v with
  | Some (VNum n) => n
  | Some (VBuf bs) => big_endian 0 bs
  | Some (VText s) => match Number_of_string s with Fin q => trunc q | _ => 0 end
  | None => 0
  end.

Definition renderScalar (v : snmp_value) : string :=
  match v with VNum n => String_of_int n | VBuf bs => string_of bs | VText s => s end.

Definition hex_digit (n : Z) : ascii := if n <? 10 then chr (48 + n) else chr (87 + n).
Definition hex_byte (b : Z) : string := String (hex_digit (b / 16)) (String (hex_digit (b mod 16)) "").

Definition formatMac (v : option snmp_value) : string :=
  match v with
  | Some (VBuf bs) => if forallb (Z.eqb 0) bs then "" else join ":" (map hex_byte bs)
  | _ => ""
  end.

Definition isPseudoMount (n : string) : bool :=
  contains ".sock" n || contains ".lock" n || contains "/." n ||
  existsb (fun p => startsWith p n) ["/dev"; "/proc"; "/sys"].

Section device.
Variable device : Device.

(** [get]: the values by OID. *)
Definition get (oids : list string) : list (string * snmp_value) :=
  js_map vb_oid vb_value (dv_get device oids).

(** [walk]: the values by the last number of their OID. *)
Definition walk (base : string) : list (Z * snmp_value) :=
  js_map (fun vb => lastIndex (vb_oid vb)) vb_value (dv_subtree device base).

(** ** Standard health *)

Definition cpuPercent : option Q :=
  let loads := walk OID_hrProcLoad in
  match loads with
  | [] => None
  | _ =>
      let sum := foldr (fun e acc => toBigInt (Some (snd e)) + acc) 0 loads in
      Some (inject_Z sum / inject_Z (Z.of_nat (List.length loads)))%Q
  end.

(** One round of the loop over the storage types; the memory and the volumes so far. *)
Definition storage_step (st : option Q * list SnmpVolume) (e : Z * snmp_value)
  : option Q * list SnmpVolume :=
  let '(mem, volumes) := st in
  let '(idx, typ) := e in
  let size := toBigInt (map_get idx (walk OID_hrStorageSize)) in
  let u := toBigInt (map_get idx (walk OID_hrStorageUsed)) in
  if size <=? 0 then st else
  let pct := (inject_Z u / inject_Z size * 100)%Q in
  let t := undot (renderScalar typ) in
  if String.eqb t OID_typeRAM then (Some pct, volumes)
  else if String.eqb t OID_typeFixed then
    let descr := match map_get idx (walk OID_hrStorageDescr) with Some v => renderScalar v | None => "" end in
    let name := default ("vol" +:+ String_of_int idx) (nonempty (Some (trim descr))) in
    if isPseudoMount name then st
    else (mem, volumes ++ [{| vol_name := name; vol_usedPct := (inject_Z (js_round (pct * 10)) / 10)%Q |}])
  else st.

Definition storage : option Q * list SnmpVolume :=
  fold_left storage_step (walk OID_hrStorageType) (None, []).

Fixpoint replace_first (p s : string) : string :=
  match after p s with
  | Some r => r
  | None => match s with EmptyString => "" | String c s' => String c (replace_first p s') end
  end.

Definition dots (s : string) : nat := List.length (split_on "." s) - 1.

(** Addresses by interface. *)
Definition ipsByIf : list (Z * list string) :=
  fold_left (fun out vb =>
    let rest := replace_first (OID_ipAdEntIf +:+ ".") (undot (vb_oid vb)) in
    if negb (Nat.eqb (dots rest) 3) then out else
    let idx := toBigInt (Some (vb_value vb)) in
    map_set idx (default [] (map_get idx out) ++ [rest]) out) (dv_subtree device OID_ipAdEntIf) [].

Record NicCounter : Type := { nc_in : Z; nc_out : Z; nc_at : Z }.

(** The interfaces, sorted. *)
Definition ifIdx : list Z :=
  js_sort Z.gtb (js_set (map fst (walk OID_ifDescr) ++ map fst (walk OID_ifType) ++ map fst ipsByIf)).

Definition nic_key (host : string) (idx : Z) : string := host +:+ ":" +:+ String_of_int idx.

(** [hcIn.get(idx) ?? in32.get(idx) ?? 0] *)
Definition counter (hc low : string) (idx : Z) : Z :=
  toBigInt (match map_get idx (walk hc) with Some v => Some v | None => map_get idx (walk low) end).

Definition rate (now : Z) (prev : NicCounter) (cur old : Z) : option Q :=
  if old <=? cur then Some (inject_Z (cur - old) / (inject_Z (now - nc_at prev) / 1000))%Q else None.

(** One interface; [nicCache] is shared by the polls of all devices. *)
Definition nic_step (host : string) (now : Z)
    (st : list (string * NicCounter) * list SnmpNic) (idx : Z)
  : list (string * NicCounter) * list SnmpNic :=
  let '(nicCache, nics) := st in
  if toBigInt (map_get idx (walk OID_ifType)) =? 24 then st else
  let descr := match map_get idx (walk OID_ifDescr) with Some v => renderScalar v | None => "" end in
  let name := default ("if" +:+ String_of_int idx) (nonempty (Some (trim descr))) in
  let inB := counter OID_ifHCIn OID_ifIn idx in
  let outB := counter OID_ifHCOut OID_ifOut idx in
  let key := nic_key host idx in
  let prev := map_get key nicCache in
  let counts := (0 <? inB) || (0 <? outB) in
  let rates := match prev with
               | Some p => if (nc_at p <? now) && counts
                           then (rate now p inB (nc_in p), rate now p outB (nc_out p)) else (None, None)
               | None => (None, None)
               end in
  (if counts then map_set key {| nc_in := inB; nc_out := outB; nc_at := now |} nicCache else nicCache,
   nics ++ [{| nic_name := name; nic_mac := nonempty (Some (formatMac (map_get idx (walk OID_ifPhys))));
               nic_ips := default [] (map_get idx ipsByIf); nic_rxBps := fst rates;
               nic_txBps := snd rates |}]).

Definition nics (host : string) (now : Z) (nicCache : list (string * NicCounter))
  : list (string * NicCounter) * list SnmpNic :=
  fold_left (nic_step host now) ifIdx (nicCache, []).
End device.

(** ** Cells *)

Definition NUMERIC_TYPES : list Z := [2; 65; 66; 67; 70].

(** [v.toFixed(0)] and [v.toFixed(1)] of a number that is not negative. *)
Definition toFixed0 (v : Q) : string := String_of_int (js_round v).
Definition toFixed1 (v : Q) : string :=
  let n := js_round (v * 10) in String_of_int (n / 10) +:+ "." +:+ String (digit (n mod 10)) "".

(** The loop of [fmtBytes] over the units that are left. *)
Fixpoint scale (v : Q) (unit : string) (units : list string) : Q * string :=
  match units with
  | [] => (v, unit)
  | u :: units => if Qle_bool 1024 v then scale (v / 1024) u units else (v, unit)
  end.

Definition fmtBytes (n : Z) : string :=
  if n <=? 0 then "0" else
  let '(v, unit) := scale (inject_Z n) "B" ["KB"; "MB"; "GB"; "TB"; "PB"] in
  (if Qle_bool 10 v || String.eqb unit "B" then toFixed0 v else toFixed1 v) +:+ " " +:+ unit.

(** The label of a raw value; an empty one counts as none. *)
Definition mapped (enum : option (list (string * string))) (raw : string) : option string :=
  nonempty (match enum with Some m => map_get raw m | None => None end).

Definition with_unit (unit : option string) (s : string) : string :=
  match nonempty unit with
  | Some u => if negb (String.eqb u "bytes") && truthy s then s +:+ " " +:+ u else s
  | None => s
  end.

Definition renderCell (type : Z) (value : snmp_value) (unit : option string)
    (enum : option (list (string * string))) : string :=
  if existsb (Z.eqb type) NUMERIC_TYPES then
    let n := toBigInt (Some value) in
    match mapped enum (String_of_int n) with
    | Some label => label
    | None =>
        if bool_decide (unit = Some "bytes") then fmtBytes n else with_unit unit (String_of_int n)
    end
  else
    let s := renderScalar value in
    match mapped enum s with Some label => label | None => with_unit unit s end.

(** ** Disks *)

(** A number at the start of a text: an optional sign, digits, an optional fraction. *)
Definition number_here (s : string) : option Q :=
  let '(sg, t) := match s with String "-" t => (-1, t) | _ => (1, s) end in
  let '(i, ni, r) := digits 0 0 t in
  if ni =? 0 then None else
  let '(f, nf) := match r with String "." r => fst (digits 0 0 r) | _ => (0, 0) end in
  Some (inject_Z sg * (inject_Z i + inject_Z f * Q10 (- nf)))%Q.

(** The first one of a text. *)
Fixpoint first_number (s : string) : option Q :=
  match number_here s with
  | Some q => Some q
  | None => match s with EmptyString => None | String _ s' => first_number s' end
  end.

Definition HD_descr := "1.3.6.1.4.1.24681.1.2.11.1.2".
Definition HD_temp := "1.3.6.1.4.1.24681.1.2.11.1.3".
Definition HD_status := "1.3.6.1.4.1.24681.1.2.11.1.4".
Definition HD_model := "1.3.6.1.4.1.24681.1.2.11.1.5".
Definition HD_smart := "1.3.6.1.4.1.24681.1.2.11.1.7".

Definition collectQnapDisks (device : Device) : list SnmpDisk :=
  let text_of base idx :=
    match map_get idx (walk device base) with
    | Some v => nonempty (Some (trim (renderScalar v))) | None => None end in
  map (fun '(idx, d) => {|
    disk_name := default ("Disk " +:+ String_of_int idx) (nonempty (Some (trim (renderScalar d))));
    disk_status := text_of HD_status idx;
    disk_tempC := first_number
      (match map_get idx (walk device HD_temp) with Some v => renderScalar v | None => "" end);
    disk_model := text_of HD_model idx; disk_smart := text_of HD_smart idx |})
    (walk device HD_descr).

(** ** Tables *)

(** What is left of an OID under a base: its column and its row. *)
Fixpoint split_dot (s : string) : option (string * string) :=
  match s with
  | EmptyString => None
  | String c s' =>
      if Ascii.eqb c "." then Some ("", s')
      else match split_dot s' with Some (a, b) => Some (String c a, b) | None => None end
  end.

Definition cell_of (base oid : string) : option (string * string) :=
  match after (base +:+ ".") (undot oid) with Some rest => split_dot rest | None => None end.

Definition Rows : Type := list (string * list (Z * Varbind)).

(** One varbind of the walk of a table. *)
Definition bucket (base : string) (wantCols : list Z) (byRow : Rows) (vb : Varbind) : Rows :=
  match cell_of base (vb_oid vb) with
  | None => byRow
  | Some (col, row) =>
      match isInteger (Number_of_string col) with
      | None => byRow
      | Some col =>
          if negb (mem col wantCols) then byRow
          else map_set row (map_set col vb (default [] (map_get row byRow))) byRow
      end
  end.

Definition cell_oid (base : string) (col : Z) (row : string) : string :=
  base +:+ "." +:+ String_of_int col +:+ "." +:+ row.

(** [getTyped], in chunks of 20. *)
Fixpoint oid_chunks {A} (fuel n : nat) (l : list A) : list (list A) :=
  match fuel, l with
  | _, [] | O, _ => []
  | S fuel, _ => firstn n l :: oid_chunks fuel n (skipn n l)
  end.
Definition getTyped (device : Device) (oids : list string) : list (string * Varbind) :=
  js_map (fun vb => undot (vb_oid vb)) id
    (List.concat (map (dv_get device) (oid_chunks (List.length oids) 20 oids))).

Definition missing_cells (base : string) (cols : list Z) (byRow : Rows) : list string :=
  flat_map (fun e => flat_map (fun c =>
    match map_get c (snd e) with Some _ => [] | None => [cell_oid base c (fst e)] end) cols) byRow.

(** A cell that the walk left out is taken from the GET. *)
Definition fill_row (base : string) (cols : list Z) (got : list (string * Varbind))
    (row : string) (cells : list (Z * Varbind)) : list (Z * Varbind) :=
  fold_left (fun cells c =>
    match map_get c cells with
    | Some _ => cells
    | None => match map_get (cell_oid base c row) got with
              | Some vb => map_set c vb cells | None => cells end
    end) cols cells.

Definition render_row (cols : list SnmpProfileTableCol) (cells : list (Z * Varbind)) : list string :=
  map (fun c => match map_get (pc_col c) cells with
                | Some vb => renderCell (vb_type vb) (vb_value vb) (pc_unit c) (pc_enum c)
                | None => "" end) cols.

(** [gt] is the order of the rows: by number, then [localeCompare]. *)
Definition collectTable (gt : string -> string -> bool) (device : Device) (t : SnmpProfileTable)
  : SnmpTable :=
  let cols := List.filter (fun c => is_oid (pt_oid t +:+ "." +:+ String_of_int (pc_col c))) (pt_columns t) in
  let nums := map pc_col cols in
  let base := undot (pt_oid t) in
  let byRow := fold_left (bucket base nums) (dv_subtree device (pt_oid t)) [] in
  let missing := missing_cells base nums byRow in
  let got := match missing with [] => [] | _ => getTyped device missing end in
  let byRow := map (fun e => (fst e, fill_row base nums got (fst e) (snd e))) byRow in
  {| tb_name := pt_name t; tb_headers := map pc_label cols;
     tb_rows := map (fun row => render_row cols (default [] (map_get row byRow)))
                  (js_sort gt (map fst byRow)) |}.

(** ** A poll *)

Definition some_list {A} (l : list A) : option (list A) := match l with [] => None | _ => Some l end.

Definition custom_items (device : Device) (profile : SnmpProfileLite) : list SnmpItem :=
  let customOids := List.filter (fun o => is_oid (po_oid o)) (pl_oids profile) in
  let vals := get device (map po_oid customOids) in
  omap (fun o => match map_get (po_oid o) vals with
                 | Some v => Some {| it_label := po_label o; it_oid := po_oid o;
                     it_value := renderScalar v; it_unit := po_unit o; it_group := po_group o |}
                 | None => None end) customOids.

Definition HOST_char (c : ascii) : bool :=
  let n := code c in
  ((48 <=? n) && (n <=? 58)) || ((65 <=? n) && (n <=? 90)) || ((97 <=? n) && (n <=? 122)) ||
  Ascii.eqb c "." || Ascii.eqb c "-".
(** [HOST_RE] *)
Definition is_host (s : string) : bool :=
  (1 <=? String.length s)%nat && (String.length s <=? 253)%nat &&
  forallb (fun b => HOST_char (chr b)) (bytes_of s).

(** What the stages of a poll write into the sample, in their order. *)
Definition set_cpu v s := {| ss_reachable := ss_reachable s; ss_error := ss_error s;
  ss_uptimeMin := ss_uptimeMin s; ss_cpuPercent := v; ss_memUsedPct := ss_memUsedPct s;
  ss_volumes := ss_volumes s; ss_nics := ss_nics s; ss_disks := ss_disks s; ss_items := ss_items s;
  ss_tables := ss_tables s |}.
Definition set_storage mem volumes s := {| ss_reachable := ss_reachable s; ss_error := ss_error s;
  ss_uptimeMin := ss_uptimeMin s; ss_cpuPercent := ss_cpuPercent s; ss_memUsedPct := mem;
  ss_volumes := volumes; ss_nics := ss_nics s; ss_disks := ss_disks s; ss_items := ss_items s;
  ss_tables := ss_tables s |}.
Definition set_nics v s := {| ss_reachable := ss_reachable s; ss_error := ss_error s;
  ss_uptimeMin := ss_uptimeMin s; ss_cpuPercent := ss_cpuPercent s; ss_memUsedPct := ss_memUsedPct s;
  ss_volumes := ss_volumes s; ss_nics := v; ss_disks := ss_disks s; ss_items := ss_items s;
  ss_tables := ss_tables s |}.
Definition set_items v s := {| ss_reachable := ss_reachable s; ss_error := ss_error s;
  ss_uptimeMin := ss_uptimeMin s; ss_cpuPercent := ss_cpuPercent s; ss_memUsedPct := ss_memUsedPct s;
  ss_volumes := ss_volumes s; ss_nics := ss_nics s; ss_disks := ss_disks s; ss_items := v;
  ss_tables := ss_tables s |}.
Definition set_disks v s := {| ss_reachable := ss_reachable s; ss_error := ss_error s;
  ss_uptimeMin := ss_uptimeMin s; ss_cpuPercent := ss_cpuPercent s; ss_memUsedPct := ss_memUsedPct s;
  ss_volumes := ss_volumes s; ss_nics := ss_nics s; ss_disks := v; ss_items := ss_items s;
  ss_tables := ss_tables s |}.
Definition set_tables v s := {| ss_reachable := ss_reachable s; ss_error := ss_error s;
  ss_uptimeMin := ss_uptimeMin s; ss_cpuPercent := ss_cpuPercent s; ss_memUsedPct := ss_memUsedPct s;
  ss_volumes := ss_volumes s; ss_nics := ss_nics s; ss_disks := ss_disks s; ss_items := ss_items s;
  ss_tables := v |}.
Definition set_up ticks s := {| ss_reachable := true; ss_error := ss_error s;
  ss_uptimeMin := Some (inject_Z ticks / 100 / 60)%Q; ss_cpuPercent := ss_cpuPercent s;
  ss_memUsedPct := ss_memUsedPct s; ss_volumes := ss_volumes s; ss_nics := ss_nics s;
  ss_disks := ss_disks s; ss_items := ss_items s; ss_tables := ss_tables s |}.

Section collect.
Context (gt : string -> string -> bool) (device : Device) (host : string) (now : Z).

Definition Poll : Type := list (string * NicCounter) * SnmpSample.

(** The stages after the device has answered. *)
Definition stages (profile : SnmpProfileLite) (includeTables : bool) : list (Poll -> Poll) :=
  (if pl_standard profile then
     [fun '(cache, s) => (cache, set_cpu (cpuPercent device) s);
      fun '(cache, s) => (cache, set_storage (fst (storage device)) (some_list (snd (storage device))) s);
      fun '(cache, s) => let '(cache, l) := nics device host now cache in
                         (cache, set_nics (some_list l) s)]
   else []) ++
  [fun '(cache, s) => (cache, set_items (some_list (custom_items device profile)) s)] ++
  (if includeTables then
     let vendor := toUpperCase (default "" (pl_vendor profile)) in
     let tables := default [] (pl_tables profile) in
     (if String.eqb vendor "QNAP" && Nat.eqb (List.length tables) 0
      then [fun '(cache, s) => (cache, set_disks (some_list (collectQnapDisks device)) s)] else []) ++
     [fun '(cache, s) => (cache, set_tables (some_list
        (List.filter (fun tbl => negb (Nat.eqb (List.length (tb_rows tbl)) 0))
           (map (collectTable gt device) tables))) s)]
   else []).

(** [timer] is the number of stages that end before the overall timer, the answer about the
    uptime being the first; [None] is a poll that ends before it. *)
Definition snmpCollect (nicCache : list (string * NicCounter)) (profile : SnmpProfileLite)
    (includeTables : bool) (timer : option nat) : Poll :=
  if negb (is_host host) then (nicCache, unreachable (Some "invalid host")) else
  match timer with
  | Some O => (nicCache, unreachable (Some "timeout"))
  | _ =>
      match map_get OID_sysUpTime (get device [OID_sysUpTime]) with
      | None =>
          (nicCache, unreachable (Some "no response (check community / SNMP enabled / firewall)"))
      | Some ticks =>
          let l := stages profile includeTables in
          let l := match timer with Some k => firstn (k - 1) l | None => l end in
          fold_left (fun p stage => stage p) l
            (nicCache, set_up (toBigInt (Some ticks)) (unreachable None))
      end
  end.
End collect.

(** ** Names of the browse tool *)

Definition OID_NAMES : list (string * string) :=
  [("1.3.6.1.2.1.1.1", "sysDescr"); ("1.3.6.1.2.1.1.3", "sysUpTime"); ("1.3.6.1.2.1.1.5", "sysName");
   ("1.3.6.1.2.1.1.6", "sysLocation"); ("1.3.6.1.2.1.25.3.3.1.2", "CPU load (hrProcessorLoad)");
   ("1.3.6.1.2.1.25.2.3.1.3", "storage descr (hrStorageDescr)");
   ("1.3.6.1.2.1.25.2.3.1.5", "storage size (hrStorageSize)");
   ("1.3.6.1.2.1.25.2.3.1.6", "storage used (hrStorageUsed)");
   ("1.3.6.1.2.1.2.2.1.2", "interface name (ifDescr)");
   ("1.3.6.1.2.1.2.2.1.6", "interface MAC (ifPhysAddress)");
   ("1.3.6.1.2.1.2.2.1.8", "interface status (ifOperStatus)");
   ("1.3.6.1.2.1.31.1.1.1.6", "interface rx (ifHCInOctets)");
   ("1.3.6.1.2.1.31.1.1.1.10", "interface tx (ifHCOutOctets)");
   ("1.3.6.1.4.1.24681.1.2.1", "QNAP CPU usage"); ("1.3.6.1.4.1.24681.1.2.2", "QNAP total memory");
   ("1.3.6.1.4.1.24681.1.2.3", "QNAP free memory");
   ("1.3.6.1.4.1.24681.1.2.5", "QNAP CPU temperature");
   ("1.3.6.1.4.1.24681.1.2.6", "QNAP system temperature");
   ("1.3.6.1.4.1.24681.1.2.11.1.2", "QNAP disk descr");
   ("1.3.6.1.4.1.24681.1.2.11.1.3", "QNAP disk temperature");
   ("1.3.6.1.4.1.24681.1.2.11.1.4", "QNAP disk status");
   ("1.3.6.1.4.1.24681.1.2.11.1.5", "QNAP disk model");
   ("1.3.6.1.4.1.24681.1.2.15", "QNAP system fan speed")].

(** The best base and label so far. *)
Definition name_step (o : string) (best : string * string) (e : string * string) : string * string :=
  if (String.eqb o (fst e) || startsWith (fst e +:+ ".") o) &&
     (String.length (fst best) <? String.length (fst e))%nat
  then e else best.

Definition oidName (oid : string) : string :=
  let o := undot oid in
  let '(base, label) := fold_left (name_step o) OID_NAMES ("", "") in
  if negb (truthy label) then "" else
  let rest := undot (substring (String.length base) (String.length o - String.length base) o) in
  if truthy rest && negb (String.eqb rest "0") then label +:+ " #" +:+ rest else label.

Record WalkRow : Type := { wr_oid : string; wr_name : string; wr_value : string }.

(** The rows of a subtree, at most [max] of them, and the error. *)
Definition snmpWalk (device : Device) (host oid : string) (max : option Z)
  : list WalkRow * option string :=
  if negb (is_host host) then ([], Some "invalid host") else
  if negb (is_oid oid) then ([], Some "invalid base OID") else
  let max := Z.min (default 1000 max) 5000 in
  (map (fun vb => {| wr_oid := vb_oid vb; wr_name := oidName (vb_oid vb);
                     wr_value := slice0 200 (renderScalar (vb_value vb)) |})
     (firstn (Z.to_nat max) (dv_subtree device oid)), None).

(** ** A slow poll *)

(** A sample that has part of the readings of another. *)
Definition part_of {A} (a b : option A) : Prop := a = None \/ a = b.
Record partial (s full : SnmpSample) : Prop := {
  partial_reachable : ss_reachable s = ss_reachable full;
  partial_error : ss_error s = ss_error full;
  partial_uptime : ss_uptimeMin s = ss_uptimeMin full;
  partial_cpu : part_of (ss_cpuPercent s) (ss_cpuPercent full);
  partial_mem : part_of (ss_memUsedPct s) (ss_memUsedPct full);
  partial_volumes : part_of (ss_volumes s) (ss_volumes full);
  partial_nics : part_of (ss_nics s) (ss_nics full);
  partial_disks : part_of (ss_disks s) (ss_disks full);
  partial_items : part_of (ss_items s) (ss_items full);
  partial_tables : part_of (ss_tables s) (ss_tables full)
}.

Section slow.
Context (gt : string -> string -> bool) (device : Device) (host : string) (now : Z).

(** The stages of a poll write different fields, which nothing has written before. *)
Lemma stages_partial profile includeTables cache ticks k :
  let run l := fold_left (fun p stage => stage p) l (cache, set_up ticks (unreachable None)) in
  let l := stages gt device host now profile includeTables in
  partial (snd (run (firstn k l))) (snd (run l)).
Proof.
  cbv zeta. unfold stages.
  generalize (cpuPercent device) (fst (storage device)) (some_list (snd (storage device))).
  generalize (nics device host now) (custom_items device profile) (collectQnapDisks device).
  generalize (String.eqb (toUpperCase (default "" (pl_vendor profile))) "QNAP").
  generalize (Nat.eqb (List.length (default [] (pl_tables profile))) 0).
  generalize (some_list (List.filter (fun tbl => negb (Nat.eqb (List.length (tb_rows tbl)) 0))
    (map (collectTable gt device) (default [] (pl_tables profile))))).
  intros tables no_tables qnap f items disks cpu mem volumes. destruct (f cache) as [cache' n] eqn:Hn.
  destruct (pl_standard profile), includeTables, qnap, no_tables; cbn [app andb];
    do 6 (destruct k as [|k]; [cbn; rewrite ?Hn, ?take_nil; split; cbn;
      first [reflexivity|left; reflexivity|right; reflexivity]|]);
    cbn; rewrite ?Hn, ?take_nil; split; cbn; first [reflexivity|left; reflexivity|right; reflexivity].
Qed.

(** The timer never turns a device that answered down: unless it fires before the answer, the
    sample says what a poll without it says, less the readings that were not yet taken. *)
Theorem timer_partial cache profile includeTables k :
  let full := snd (snmpCollect gt device host now cache profile includeTables None) in
  partial (snd (snmpCollect gt device host now cache profile includeTables (Some (S k)))) full /\
  (ss_reachable full = true <-> is_host host = true /\ map_get OID_sysUpTime (get device [OID_sysUpTime]) <> None).
Proof.
  cbv zeta. unfold snmpCollect. destruct (is_host host); cbn [negb].
  2:{ split; [split; cbn; first [reflexivity|left; reflexivity|right; reflexivity]|]. simpl. split; [done|]. by intros []. }
  destruct (map_get OID_sysUpTime _) as [ticks|].
  2:{ split; [split; cbn; first [reflexivity|left; reflexivity|right; reflexivity]|]. simpl. split; [done|]. by intros []. }
  replace (S k - 1)%nat with k by lia.
  pose proof (stages_partial profile includeTables cache (toBigInt (Some ticks))) as H.
  split; [apply H|]. split; [done|]. intros _.
  pose proof (partial_reachable _ _ (H 0%nat)) as Hr. by symmetry.
Qed.
End slow.

(** ** Throughput *)

Lemma String_of_int_inj_all m n : String_of_int m = String_of_int n -> m = n.
Proof.
  assert (Hd : forall k, 0 <= k -> has_char "-" (String_of_int k) = false)
    by (intros k Hk; apply String_of_int_char; [done|change (code "-") with 45; lia]).
  assert (Hneg : forall k, k < 0 -> String_of_int k = "-" +:+ String_of_int (- k)).
  { intros k Hk. unfold String_of_int. rewrite (proj2 (Z.ltb_lt k 0)) by done.
    by rewrite (proj2 (Z.ltb_ge (- k) 0)) by lia. }
  intros He. destruct (decide (m < 0)) as [Hm|Hm], (decide (n < 0)) as [Hn|Hn].
  - rewrite (Hneg m), (Hneg n) in He by done. apply str_app_inj_length in He as [_ He]; [|done]. apply String_of_int_inj in He; lia.
  - rewrite Hneg in He by done. specialize (Hd n ltac:(lia)). rewrite <- He in Hd. discriminate Hd.
  - rewrite (Hneg n) in He by done. specialize (Hd m ltac:(lia)). rewrite He in Hd. discriminate Hd.
  - apply String_of_int_inj; [lia|lia|done].
Qed.

Lemma nic_key_inj host i j : nic_key host i = nic_key host j -> i = j.
Proof.
  unfold nic_key. intros He. apply str_app_inj_length in He as [_ He]; [|done].
  apply str_app_inj_length in He as [_ He]; [|done]. by apply String_of_int_inj_all.
Qed.

Section throughput.
Context (device : Device) (host : string) (now : Z).
Implicit Types (cache : list (string * NicCounter)).

Definition loopback (idx : Z) : bool := toBigInt (map_get idx (walk device OID_ifType)) =? 24.
Definition in_of (idx : Z) : Z := counter device OID_ifHCIn OID_ifIn idx.
Definition out_of (idx : Z) : Z := counter device OID_ifHCOut OID_ifOut idx.
Definition counts (idx : Z) : bool := (0 <? in_of idx) || (0 <? out_of idx).

(** The rate from a cached count to the one read now. *)
Definition expected cache (idx : Z) (cur : Z) (old : NicCounter -> Z) : option Q :=
  match map_get (nic_key host idx) cache with
  | Some p => if (nc_at p <? now) && counts idx then rate now p cur (old p) else None
  | None => None
  end.

(** What the loop does to the cache. *)
Definition cached cache (idx : Z) : list (string * NicCounter) :=
  if negb (loopback idx) && counts idx
  then map_set (nic_key host idx) {| nc_in := in_of idx; nc_out := out_of idx; nc_at := now |} cache
  else cache.

Lemma cached_other cache idx j : idx <> j -> map_get (nic_key host j) (cached cache idx) = map_get (nic_key host j) cache.
Proof.
  intros Hne. unfold cached. destruct (_ && _); [|done]. apply map_get_set_ne. by intros ?%nic_key_inj.
Qed.

Lemma nics_loop l cache acc : NoDup l ->
  let '(cache', out) := fold_left (nic_step device host now) l (cache, acc) in
  cache' = fold_left cached l cache /\
  map (fun n => (nic_rxBps n, nic_txBps n)) out =
  map (fun n => (nic_rxBps n, nic_txBps n)) acc ++
  map (fun idx => (expected cache idx (in_of idx) nc_in, expected cache idx (out_of idx) nc_out))
    (List.filter (fun idx => negb (loopback idx)) l).
Proof.
  revert cache acc. induction l as [|i l IH]; intros cache acc Hnd; cbn [fold_left].
  { split; [done|]. simpl. by rewrite app_nil_r. }
  apply NoDup_cons in Hnd as [Hi Hnd].
  assert (Hstep : exists nic, nic_step device host now (cache, acc) i =
    (cached cache i, if loopback i then acc else acc ++ [nic]) /\
    (nic_rxBps nic, nic_txBps nic) = (expected cache i (in_of i) nc_in, expected cache i (out_of i) nc_out)).
  { unfold nic_step, cached, expected. fold (loopback i). fold (in_of i). fold (out_of i). fold (counts i).
    destruct (loopback i); cbn [negb andb].
    - exists {| nic_name := ""; nic_mac := None; nic_ips := []; nic_rxBps := expected cache i (in_of i) nc_in;
                nic_txBps := expected cache i (out_of i) nc_out |}. done.
    - eexists. split; [reflexivity|]. cbn [nic_rxBps nic_txBps].
      destruct (map_get (nic_key host i) cache) as [p|]; [|done]. by destruct (_ && _). }
  destruct Hstep as (nic & -> & Hrates). specialize (IH (cached cache i) (if loopback i then acc else acc ++ [nic]) Hnd).
  destruct (fold_left (nic_step device host now) l _) as [cache' out]. destruct IH as [-> ->]. split; [done|].
  assert (Hexp : forall j cur old, j ∈ l -> expected (cached cache i) j cur old = expected cache j cur old).
  { intros j cur old Hj. unfold expected. rewrite cached_other; [done|]. by intros ->. }
  assert (Hmap : map (fun idx => (expected (cached cache i) idx (in_of idx) nc_in,
      expected (cached cache i) idx (out_of idx) nc_out)) (List.filter (fun idx => negb (loopback idx)) l) =
    map (fun idx => (expected cache idx (in_of idx) nc_in, expected cache idx (out_of idx) nc_out))
      (List.filter (fun idx => negb (loopback idx)) l)).
  { apply map_ext_in. intros j [Hj _]%list_elem_of_In%elem_of_filterb. by rewrite !Hexp. }
  rewrite Hmap. simpl. destruct (loopback i); simpl; [done|].
  rewrite map_app, <- app_assoc. simpl. by rewrite Hrates.
Qed.

Lemma ifIdx_NoDup : NoDup (ifIdx device).
Proof. unfold ifIdx. rewrite js_sort_perm. apply NoDup_js_set. Qed.

Lemma cached_get l cache j : NoDup l -> map_get (nic_key host j) (fold_left cached l cache) =
  if mem j l && negb (loopback j) && counts j
  then Some {| nc_in := in_of j; nc_out := out_of j; nc_at := now |} else map_get (nic_key host j) cache.
Proof.
  revert cache. induction l as [|i l IH]; intros cache Hnd; [done|]. apply NoDup_cons in Hnd as [Hi Hnd].
  simpl. rewrite IH by done. destruct (decide (i = j)) as [->|Hne].
  - assert (mem j l = false) as -> by (apply not_true_iff_false; by rewrite mem_true).
    rewrite (proj2 (mem_true j (j :: l))) by apply list_elem_of_here. simpl. unfold cached.
    destruct (negb (loopback j) && counts j); [by rewrite map_get_set_eq|done].
  - rewrite cached_other by done. replace (mem j (i :: l)) with (mem j l); [done|].
    apply eq_iff_eq_true. rewrite !mem_true, elem_of_cons. naive_solver.
Qed.

Lemma expected_nonneg cache idx cur old q : expected cache idx cur old = Some q -> (0 <= q)%Q.
Proof.
  unfold expected. destruct (map_get _ cache) as [p|]; [|done]. destruct (nc_at p <? now) eqn:Ht; [|done].
  destruct (counts idx); [|done]. unfold rate. cbn [andb]. destruct (old p <=? cur) eqn:Hc; [|done].
  intros [= <-]. apply Qle_shift_div_l; [|].
  - apply Qlt_shift_div_l; [done|]. rewrite Qmult_0_l. change 0%Q with (inject_Z 0). rewrite <- Zlt_Qlt. lia.
  - rewrite Qmult_0_l. change 0%Q with (inject_Z 0). rewrite <- Zle_Qle. lia.
Qed.

(** For the interfaces that are not loopback, in the order of their indices, the rate is the
    growth of the counter over the time since the last poll that read it, and unknown when there
    was none or the counter went back; it is never negative. The poll leaves the counts it read in
    the cache for the next one, and the counts of other interfaces alone. *)
Theorem nics_spec cache :
  let '(cache', out) := nics device host now cache in
  let idxs := List.filter (fun idx => negb (loopback idx)) (ifIdx device) in
  map (fun n => (nic_rxBps n, nic_txBps n)) out =
    map (fun idx => (expected cache idx (in_of idx) nc_in, expected cache idx (out_of idx) nc_out)) idxs /\
  (forall n q, n ∈ out -> nic_rxBps n = Some q \/ nic_txBps n = Some q -> (0 <= q)%Q) /\
  forall idx, map_get (nic_key host idx) cache' =
    if mem idx idxs && counts idx
    then Some {| nc_in := in_of idx; nc_out := out_of idx; nc_at := now |}
    else map_get (nic_key host idx) cache.
Proof.
  unfold nics. pose proof (nics_loop (ifIdx device) cache [] ifIdx_NoDup) as H.
  destruct (fold_left (nic_step device host now) (ifIdx device) (cache, [])) as [cache' out].
  destruct H as [-> H]. cbv zeta. split; [exact H|]. split.
  - intros n q Hn Hq. assert (Hin : (nic_rxBps n, nic_txBps n) ∈ map (fun n => (nic_rxBps n, nic_txBps n)) out)
      by (apply elem_of_map; by exists n).
    rewrite H in Hin. apply elem_of_map in Hin as (idx & [= Hrx Htx] & _).
    destruct Hq as [Hq|Hq]; [rewrite Hrx in Hq|rewrite Htx in Hq]; by apply expected_nonneg in Hq.
  - intros idx. rewrite cached_get by apply ifIdx_NoDup. f_equal.
    rewrite <- andb_assoc. replace (mem idx (List.filter _ _)) with (mem idx (ifIdx device) && negb (loopback idx));
      [by rewrite andb_assoc|].
    apply eq_iff_eq_true. rewrite andb_true_iff, !mem_true, elem_of_filterb. done.
Qed.
End throughput.

(** ** Tables *)

Section tables.
Context (base : string).
Implicit Types (vbs : list Varbind) (cols : list Z) (byRow : Rows) (cells : list (Z * Varbind)).

(** The column and the row of a varbind under the table, for a wanted column. *)
Definition place cols (vb : Varbind) : option (Z * string) :=
  match cell_of base (vb_oid vb) with
  | None => None
  | Some (col, row) =>
      match isInteger (Number_of_string col) with
      | Some col => if mem col cols then Some (col, row) else None
      | None => None
      end
  end.

(** The last varbind of a walk at a place, and the rows in the order of the walk. *)
Definition walked cols vbs (col : Z) (row : string) : option Varbind :=
  List.find (fun vb => bool_decide (place cols vb = Some (col, row))) (rev vbs).
Definition row_keys cols vbs : list string := js_set (omap (fun vb => snd <$> place cols vb) vbs).

Lemma bucket_place cols byRow vb : bucket base cols byRow vb =
  match place cols vb with
  | Some (col, row) => map_set row (map_set col vb (default [] (map_get row byRow))) byRow
  | None => byRow
  end.
Proof.
  unfold bucket, place. destruct (cell_of base (vb_oid vb)) as [[col row]|]; [|done].
  destruct (isInteger _) as [c|]; [|done]. by destruct (mem c cols).
Qed.

Lemma buckets_get cols vbs : let byRow := fold_left (bucket base cols) vbs [] in
  map fst byRow = row_keys cols vbs /\
  forall col row, match map_get row byRow with Some cells => map_get col cells | None => None end =
    walked cols vbs col row.
Proof.
  cbv zeta. induction vbs as [|vb vbs [IH1 IH2]] using rev_ind; [done|].
  rewrite fold_left_app. cbn [fold_left]. rewrite bucket_place. split.
  - unfold row_keys, js_set in *. rewrite omap_app, fold_left_app. cbn [omap list_omap].
    destruct (place cols vb) as [[col row]|]; cbn [fmap option_fmap option_map snd fold_left]; [|exact IH1].
    by rewrite keys_map_set, IH1.
  - intros col row. unfold walked. rewrite rev_app_distr. cbn [rev app List.find]. fold (walked cols vbs col row).
    rewrite <- IH2. destruct (place cols vb) as [[c r]|] eqn:Hp; [|by rewrite bool_decide_eq_false_2].
    destruct (decide (r = row)) as [->|Hr].
    + rewrite map_get_set_eq. destruct (decide (c = col)) as [->|Hc].
      * by rewrite map_get_set_eq, bool_decide_eq_true_2.
      * rewrite map_get_set_ne, bool_decide_eq_false_2 by congruence. by destruct (map_get row _).
    + by rewrite map_get_set_ne, bool_decide_eq_false_2 by congruence.
Qed.

Lemma fill_get cols got row cells col : col ∈ cols ->
  map_get col (fill_row base cols got row cells) =
  match map_get col cells with Some vb => Some vb | None => map_get (cell_oid base col row) got end.
Proof.
  unfold fill_row. intros Hin.
  assert (Hkeep : forall l cells vb, map_get col cells = Some vb ->
    map_get col (fold_left (fun cells c => match map_get c cells with Some _ => cells | None =>
      match map_get (cell_oid base c row) got with Some vb => map_set c vb cells | None => cells end end) l cells) = Some vb).
  { induction l as [|c l IH]; intros cs vb Hvb; [done|]. simpl. apply IH.
    destruct (map_get c cs) eqn:Hc; [done|]. destruct (map_get (cell_oid base c row) got); [|done].
    rewrite map_get_set_ne; [done|]. intros ->. congruence. }
  destruct (map_get col cells) as [vb|] eqn:Hvb; [by apply Hkeep|].
  revert cells Hvb. induction cols as [|c cols IH]; intros cells Hvb; [by apply not_elem_of_nil in Hin|].
  simpl. destruct (decide (c = col)) as [->|Hne].
  - rewrite Hvb. destruct (map_get (cell_oid base col row) got) as [vb|] eqn:Hg.
    + apply Hkeep. apply map_get_set_eq.
    + destruct (decide (col ∈ cols)) as [Hc|Hc]; [by rewrite IH|].
      clear IH Hin. revert cells Hvb. induction cols as [|c cols IH]; intros cells Hvb; [done|]. simpl.
      apply not_elem_of_cons in Hc as [Hc1 Hc]. apply IH; [done|]. destruct (map_get c cells); [done|].
      destruct (map_get (cell_oid base c row) got); [by rewrite map_get_set_ne by done|done].
  - apply elem_of_cons in Hin as [->|Hin]; [done|]. apply IH; [done|].
    destruct (map_get c cells); [done|].
    destruct (map_get (cell_oid base c row) got); [by rewrite map_get_set_ne|done].
Qed.
End tables.

Lemma oid_chunks_concat {A} fuel n (l : list A) : (0 < n)%nat -> (List.length l <= fuel)%nat ->
  List.concat (oid_chunks fuel n l) = l.
Proof.
  intros Hn. revert l. induction fuel as [|fuel IH]; intros [|x l] Hl; simpl in Hl; try done; [lia|].
  destruct n as [|n]; [lia|]. cbn [oid_chunks List.concat firstn skipn app]. f_equal.
  rewrite IH; [apply firstn_skipn|]. rewrite length_skipn. lia.
Qed.

(** A device that answers a GET of several OIDs as it answers each. *)
Definition answers (device : Device) (answer : string -> option Varbind) : Prop :=
  (forall oids, dv_get device oids = omap answer oids) /\
  forall o vb, answer o = Some vb -> undot (vb_oid vb) = o.

Lemma getTyped_get device answer oids o : answers device answer -> o ∈ oids ->
  map_get o (getTyped device oids) = answer o.
Proof.
  intros [Hget Hoid] Ho. unfold getTyped.
  assert (Hl : List.concat (map (dv_get device) (oid_chunks (List.length oids) 20 oids)) = omap answer oids).
  { rewrite <- (oid_chunks_concat (List.length oids) 20 oids) at 3 by lia.
    induction (oid_chunks (List.length oids) 20 oids) as [|c cs IH]; [done|]. cbn [map List.concat].
    rewrite IH, Hget. by rewrite omap_app. }
  rewrite Hl. destruct (map_get o _) as [vb|] eqn:Hm.
  - apply map_get_js_map_Some in Hm as (x & Hx & Hk & <-). apply list_elem_of_omap in Hx as (o' & _ & Ho').
    rewrite (Hoid _ _ Ho') in Hk. by rewrite <- Hk, Ho'.
  - destruct (answer o) as [vb|] eqn:Ha; [|done]. exfalso.
    pose proof (js_map_has (fun vb => undot (vb_oid vb)) id (omap answer oids) vb []) as Hhas.
    cbv beta in Hhas. rewrite (Hoid _ _ Ha) in Hhas. apply Hhas; [|exact Hm]. left.
    apply list_elem_of_omap. by exists o.
Qed.

(** What a cell shows: the varbind of the walk, else the answer to a GET, else nothing. *)
Definition cell (device : Device) (answer : string -> option Varbind) (t : SnmpProfileTable)
    (cols : list Z) (row : string) (c : SnmpProfileTableCol) : string :=
  let base := undot (pt_oid t) in
  match (match walked base cols (dv_subtree device (pt_oid t)) (pc_col c) row with
         | Some vb => Some vb | None => answer (cell_oid base (pc_col c) row) end) with
  | Some vb => renderCell (vb_type vb) (vb_value vb) (pc_unit c) (pc_enum c)
  | None => ""
  end.

Lemma map_get_map {A B} (f : string -> A -> B) k (m : list (string * A)) :
  map_get k (map (fun e => (fst e, f (fst e) (snd e))) m) = f k <$> map_get k m.
Proof.
  induction m as [|[k' v] m IH]; [done|]. simpl. destruct (decide (k = k')) as [->|]; [done|]. exact IH.
Qed.

(** A table has a row for each row index of the walk, in order, and in it a cell for each
    column: what the walk said last, else what a GET of the cell says, else nothing. *)
Theorem collectTable_cells gt device answer t (Ha : answers device answer) :
  let cols := List.filter (fun c => is_oid (pt_oid t +:+ "." +:+ String_of_int (pc_col c))) (pt_columns t) in
  let nums := map pc_col cols in
  collectTable gt device t = {|
    tb_name := pt_name t; tb_headers := map pc_label cols;
    tb_rows := map (fun row => map (cell device answer t nums row) cols)
      (js_sort gt (row_keys (undot (pt_oid t)) nums (dv_subtree device (pt_oid t)))) |}.
Proof.
  cbv zeta. unfold collectTable. set (cols := List.filter _ _). set (nums := map pc_col cols). set (base := undot _).
  pose proof (buckets_get base nums (dv_subtree device (pt_oid t))) as [Hkeys Hget].
  set (byRow := fold_left (bucket base nums) _ []) in *. f_equal.
  rewrite (map_map _ fst). cbn [fst]. change (map (fun x => x.1) byRow) with (map fst byRow).
  rewrite Hkeys. apply map_ext_in. intros row Hrow%list_elem_of_In%elem_of_js_sort.
  rewrite <- Hkeys in Hrow. unfold render_row. apply map_ext_in. intros c Hc%list_elem_of_In.
  set (got := match missing_cells base nums byRow with [] => _ | _ => _ end).
  rewrite (map_get_map (fun row cells => fill_row base nums got row cells)).
  specialize (Hget (pc_col c) row). unfold cell. fold base. rewrite <- Hget.
  destruct (map_get row byRow) as [cells|] eqn:Hcells; [|by apply map_get_None in Hcells].
  cbn [fmap option_fmap option_map default from_option]. unfold id.
  assert (Hin : pc_col c ∈ nums) by (apply elem_of_map; by exists c).
  rewrite fill_get by done. destruct (map_get (pc_col c) cells) as [vb|] eqn:Hvb; [done|].
  assert (Hgot : map_get (cell_oid base (pc_col c) row) got = answer (cell_oid base (pc_col c) row)); [|by rewrite Hgot].
  assert (Hmiss : cell_oid base (pc_col c) row ∈ missing_cells base nums byRow).
  { unfold missing_cells. apply list_elem_of_In, in_flat_map. exists (row, cells).
    split; [apply list_elem_of_In; by apply map_get_Some|]. apply in_flat_map. exists (pc_col c).
    split; [by apply list_elem_of_In|]. simpl. rewrite Hvb. by left. }
  unfold got. destruct (missing_cells base nums byRow) as [|x l] eqn:Hm; [by apply not_elem_of_nil in Hmiss|].
  by apply getTyped_get.
Qed.

(** ** Witnesses *)

Definition w_vb (oid : string) (type : Z) (v : snmp_value) : Varbind :=
  {| vb_oid := oid; vb_type := type; vb_value := v |}.

Definition w_answer (o : string) : option Varbind :=
  if String.eqb o "1.3.9.2.7" then Some (w_vb "1.3.9.2.7" 70 (VNum 2048)) else None.

(** One interface, and a table whose second column a walk leaves out. *)
Definition w_device : Device := {|
  dv_get := omap w_answer;
  dv_subtree base :=
    if String.eqb base OID_ifDescr then [w_vb (OID_ifDescr +:+ ".2") 4 (VText "eth0")]
    else if String.eqb base OID_ifHCIn then [w_vb (OID_ifHCIn +:+ ".2") 70 (VNum 5000)]
    else if String.eqb base "1.3.9" then [w_vb "1.3.9.1.7" 2 (VNum 1)] else [] |}.

Definition w_cache : list (string * NicCounter) := [("nas:2", {| nc_in := 2000; nc_out := 0; nc_at := 0 |})].

Lemma nics_spec_witness :
  map (fun n => (nic_rxBps n, nic_txBps n)) (snd (nics w_device "nas" 10000 w_cache)) =
    [(Some (3000 / (10000 / 1000))%Q, Some (0 / (10000 / 1000))%Q)] /\
  forall n q, n ∈ snd (nics w_device "nas" 10000 w_cache) -> nic_rxBps n = Some q \/ nic_txBps n = Some q -> (0 <= q)%Q.
Proof.
  pose proof (nics_spec w_device "nas" 10000 w_cache) as H.
  destruct (nics w_device "nas" 10000 w_cache) as [cache' out]. destruct H as (H1 & H2 & _).
  split; [|exact H2]. simpl snd. rewrite H1. reflexivity.
Defined.

Definition w_table : SnmpProfileTable := {|
  pt_name := "Pools"; pt_oid := "1.3.9";
  pt_columns := [column_of [("1", "ready")] "Status" 1; column_in "bytes" "Free" 2; column "Level" 3] |}.

Lemma w_answers : answers w_device w_answer.
Proof.
  split; [done|]. intros o vb. unfold w_answer. destruct (String.eqb_spec o "1.3.9.2.7") as [->|]; [|done].
  by intros [= <-].
Qed.

Lemma collectTable_cells_witness :
  answers w_device w_answer /\
  tb_rows (collectTable (fun _ _ => false) w_device w_table) = [["ready"; "2.0 KB"; ""]].
Proof.
  split; [exact w_answers|].
  rewrite (collectTable_cells (fun _ _ => false) w_device w_answer w_table w_answers). vm_compute. reflexivity.
Defined.
