(* ===== verification/SnmpPoll.v ===== *)
(** * The SNMP scheduler

    Models apps/backend/src/services/snmp-scheduler.ts: when a monitor is polled and how deep,
    what a poll that fails means, which readings are carried forward, and what is stored. The
    state is the module's maps, by monitor; a poll is its start, where it is decided what to
    collect, and its end, after the device has answered, as polls of other monitors come in
    between. The environment gives the periods. *)
From S2P Require Import Prelude Text Store Schema Crypto Health Pipeline BackupPolicy Devices Monitors.
From S2P Require Import Probes SnmpProfiles Snmp.

(** The periods, from the environment; an absent variable is [None]. *)
Record Timing : Type := {
  INTERVAL_MS : Z; FAIL_THRESHOLD : Z; TABLES_INTERVAL_MS : Z; HEAVY_COOLDOWN_MS : Z
}.
Definition timing (interval threshold tables cooldown : option Z) : Timing :=
  let i := default 60000 interval in
  {| INTERVAL_MS := i; FAIL_THRESHOLD := Z.max 1 (default 3 threshold);
     TABLES_INTERVAL_MS := Z.max i (default 300000 tables);
     HEAVY_COOLDOWN_MS := Z.max 0 (default i cooldown) |}.

Definition Readings : Type := (option (list SnmpTable) * option (list SnmpDisk))%type.

Record PollState : Type := {
  failures : list (string * Z); lastHeavyAt : list (string * Z); cooldownUntil : list (string * Z);
  heavyCache : list (string * Readings)
}.
Definition no_polls : PollState :=
  {| failures := []; lastHeavyAt := []; cooldownUntil := []; heavyCache := [] |}.

Definition map_delete {V} (k : string) (m : list (string * V)) : list (string * V) :=
  List.filter (fun e => negb (String.eqb (fst e) k)) m.

(** ** A poll *)

(** Whether a poll goes on, and whether it walks the tables too. *)
Inductive decision : Type := Cooling | Collect (heavy : bool).

Definition poll_start (tm : Timing) (now : Z) (id : string) (st : PollState) : decision :=
  let heavy := TABLES_INTERVAL_MS tm <=? now - default 0 (map_get id (lastHeavyAt st)) in
  if negb heavy && (now <? default 0 (map_get id (cooldownUntil st))) then Cooling
  else Collect heavy.

(** What a poll comes to: a miss that is tolerated, or a status and the sample to show. *)
Inductive poll_result : Type :=
| Tolerated (misses : Z)
| Recorded (status : HealthStatus) (display : SnmpSample).

Definition with_readings (r : Readings) (s : SnmpSample) : SnmpSample :=
  let s := match fst r with Some t => set_tables (Some t) s | None => s end in
  match snd r with Some d => set_disks (Some d) s | None => s end.

(** The rest of a poll up to its first write; [later] is the instant the device has answered. *)
Definition poll_end (tm : Timing) (later : Z) (id : string) (heavy : bool) (snmp : SnmpSample)
    (st : PollState) : PollState * poll_result :=
  if ss_reachable snmp then
    let st := {| failures := map_delete id (failures st); lastHeavyAt := lastHeavyAt st;
                 cooldownUntil := cooldownUntil st; heavyCache := heavyCache st |} in
    let st := if heavy then {|
        failures := failures st; lastHeavyAt := map_set id later (lastHeavyAt st);
        cooldownUntil := map_set id (later + HEAVY_COOLDOWN_MS tm) (cooldownUntil st);
        heavyCache := map_set id (ss_tables snmp, ss_disks snmp) (heavyCache st) |}
      else st in
    let display := match map_get id (heavyCache st) with
                   | Some cached => if heavy then snmp else with_readings cached snmp
                   | None => snmp end in
    (st, Recorded UP display)
  else
    let misses := default 0 (map_get id (failures st)) + 1 in
    let st := {| failures := map_set id misses (failures st); lastHeavyAt := lastHeavyAt st;
                 cooldownUntil := cooldownUntil st; heavyCache := heavyCache st |} in
    (st, if misses <? FAIL_THRESHOLD tm then Tolerated misses else Recorded DOWN snmp).

(** The start of a sweep: what is known of monitors that are gone is dropped. *)
Definition drop_gone (live : list string) (st : PollState) : PollState :=
  let keep {V} (m : list (string * V)) := List.filter (fun e => includes live (fst e)) m in
  {| failures := keep (failures st); lastHeavyAt := keep (lastHeavyAt st);
     cooldownUntil := keep (cooldownUntil st); heavyCache := keep (heavyCache st) |}.

(** ** What a poll stores *)

(** [parseFloat]: the number a text starts with, when it is finite. *)
Definition parseFloat (s : string) : option Q :=
  let '(sg, t) := match trimStart s with
                  | String "-" t => (-1, t) | String "+" t => (1, t) | t => (1, t) end in
  let '(i, ni, r) := digits 0 0 t in
  let '(f, nf, r) := match r with
                     | String "." r' => let '(f, nf, r'') := digits 0 0 r' in
                                        if (ni =? 0) && (nf =? 0) then (0, 0, r) else (f, nf, r'')
                     | _ => (0, 0, r) end in
  if (ni =? 0) && (nf =? 0) then None else
  let e := match r with
           | String c r' =>
               if Ascii.eqb (lower c) "e" then
                 let '(sg, t) := match r' with
                                 | String "-" t => (-1, t) | String "+" t => (1, t) | t => (1, t) end in
                 let '(v, n, _) := digits 0 0 t in if n =? 0 then 0 else sg * v
               else 0
           | EmptyString => 0 end in
  Some (inject_Z sg * (inject_Z i + inject_Z f * Q10 (- nf)) * Q10 e)%Q.

(** [/temp|°c|usage|percent|%/i] *)
Definition chart_worthy (header : string) : bool :=
  existsb (fun p => contains p (toLowerCase header)) ["temp"; "°c"; "usage"; "percent"; "%"].

Definition add_number (key : string) (text : string) (m : list (string * Q)) : list (string * Q) :=
  match parseFloat text with Some n => map_set key n m | None => m end.

Definition add_opt (key : string) (v : option Q) (m : list (string * Q)) : list (string * Q) :=
  match v with Some n => map_set key n m | None => m end.

(** The cells of a chart-worthy column, by the first cell of their row. *)
Definition add_column (rows : list (list string)) (m : list (string * Q)) (e : nat * string)
  : list (string * Q) :=
  let '(ci, h) := e in
  if negb (chart_worthy h) then m else
  fold_left (fun m row =>
    add_number (default "?" (nonempty (head row)) +:+ " " +:+ h) (default "" (nth_error row ci)) m) rows m.

Definition snmp_numbers (snmp : SnmpSample) : list (string * Q) :=
  let m := add_opt "mem" (ss_memUsedPct snmp) (add_opt "cpu" (ss_cpuPercent snmp) []) in
  let m := fold_left (fun m it => add_number (it_label it) (it_value it) m) (default [] (ss_items snmp)) m in
  fold_left (fun m tbl => fold_left (add_column (tb_rows tbl)) (imap pair (tb_headers tbl)) m)
    (default [] (ss_tables snmp)) m.

(** The sample as JSON: an absent field is left out, a null one is there. *)
Definition opt_entry {A} (key : string) (f : A -> json) (v : option A) : list (string * json) :=
  match v with Some x => [(key, f x)] | None => [] end.
Definition or_null {A} (f : A -> json) (v : option A) : json := match v with Some x => f x | None => JNull end.

Definition volume_json (v : SnmpVolume) : json :=
  JObj [("name", JStr (vol_name v)); ("usedPct", JNum (vol_usedPct v))].
Definition nic_json (n : SnmpNic) : json :=
  JObj [("name", JStr (nic_name n)); ("mac", or_null JStr (nic_mac n));
        ("ips", JArr (map JStr (nic_ips n))); ("rxBps", or_null JNum (nic_rxBps n));
        ("txBps", or_null JNum (nic_txBps n))].
Definition disk_json (d : SnmpDisk) : json :=
  JObj [("name", JStr (disk_name d)); ("status", or_null JStr (disk_status d));
        ("tempC", or_null JNum (disk_tempC d)); ("model", or_null JStr (disk_model d));
        ("smart", or_null JStr (disk_smart d))].
Definition item_json (i : SnmpItem) : json :=
  JObj ([("label", JStr (it_label i)); ("oid", JStr (it_oid i)); ("value", JStr (it_value i))] ++
        opt_entry "unit" JStr (it_unit i) ++ opt_entry "group" JStr (it_group i)).
Definition table_json (t : SnmpTable) : json :=
  JObj [("name", JStr (tb_name t)); ("headers", JArr (map JStr (tb_headers t)));
        ("rows", JArr (map (fun row => JArr (map JStr row)) (tb_rows t)))].

Definition sample_json (s : SnmpSample) : json :=
  JObj (("reachable", JBool (ss_reachable s)) ::
    opt_entry "error" JStr (ss_error s) ++ opt_entry "uptimeMin" JNum (ss_uptimeMin s) ++
    opt_entry "cpuPercent" JNum (ss_cpuPercent s) ++ opt_entry "memUsedPct" JNum (ss_memUsedPct s) ++
    opt_entry "volumes" (fun l => JArr (map volume_json l)) (ss_volumes s) ++
    opt_entry "nics" (fun l => JArr (map nic_json l)) (ss_nics s) ++
    opt_entry "disks" (fun l => JArr (map disk_json l)) (ss_disks s) ++
    opt_entry "items" (fun l => JArr (map item_json l)) (ss_items s) ++
    opt_entry "tables" (fun l => JArr (map table_json l)) (ss_tables s)).

Record PollDb (T : Type -> Type) : Type := {
  po_telemetry : TelemetryDb T; po_metrics : T SnmpMetricRow; po_patches : list (Patch * json)
}.
Arguments po_telemetry {T} _. Arguments po_metrics {T} _. Arguments po_patches {T} _.

Section store.
Context {T : Type -> Type} {ST : Store T}.
Context {HG : Gcm} (newId : string -> nat -> string).

(** The writes of a poll: none for a tolerated miss. *)
Definition record_poll (now : Z) (m : MonitorRow) (snmp : SnmpSample) (o : poll_result) (db : PollDb T)
  : PollDb T :=
  match o with
  | Tolerated _ => db
  | Recorded status display =>
      let numbers := snmp_numbers snmp in
      {| po_telemetry := processUnits newId now (mon_agentId m) (po_telemetry db)
           [{| push_entity := mon_name m; push_status := status; push_pid := None;
               push_critical := None; push_meta := Some [("snmp", sample_json display)] |}];
         po_metrics :=
           if ss_reachable snmp && negb (Nat.eqb (List.length numbers) 0)
           then insert_row {| snm_id := newId "snmpMetrics" 0%nat; snm_monitorId := mon_id m;
                              snm_metrics := numbers; snm_ts := now |} (po_metrics db)
           else po_metrics db;
         po_patches := po_patches db ++
           [({| patch_agentId := mon_agentId m; patch_entity := mon_name m; patch_status := status;
                patch_latencyMs := None |}, sample_json display)] |}
  end.

(** ** The whole poll of a monitor *)

(** A legacy list of OIDs; [other] is [String] of a value that is not a text. *)
Definition String_of (other : json -> string) (v : json) : string :=
  match v with JStr s => s | _ => other v end.
Definition not_nullish (v : option json) : option json :=
  match v with Some JNull => None | _ => v end.
Definition parseOids (other : json -> string) (raw : option json) : list SnmpProfileOid :=
  match raw with
  | Some (JArr l) =>
      List.filter (fun o => truthy (po_oid o))
        (omap (fun o =>
          match o with
          | JObj e =>
              let oid := not_nullish (map_get "oid" e) in
              let label := match not_nullish (map_get "label" e) with Some v => Some v | None => oid end in
              Some {| po_label := match label with Some v => String_of other v | None => "" end;
                      po_oid := match oid with Some v => String_of other v | None => "" end;
                      po_unit := None; po_group := None |}
          | _ => None
          end) l)
  | _ => []
  end.

(** The profile of a monitor: the one it names, or the standard one with its own OIDs. *)
Definition profile_of (other : json -> string) (profiles : T SnmpProfileRow) (m : MonitorRow)
  : SnmpProfileLite :=
  let named := match nonempty (text_at "profileId" (mon_config m)) with
               | Some id => getSnmpProfile profiles id | None => None end in
  match named with
  | Some dto => {| pl_standard := pd_standard dto; pl_oids := pd_oids dto;
                   pl_tables := Some (pd_tables dto); pl_vendor := Some (pd_vendor dto) |}
  | None => {| pl_standard := true; pl_oids := parseOids other (map_get "oids" (mon_config m));
               pl_tables := None; pl_vendor := None |}
  end.

(** The community: the stored credential, else the one of the configuration, else [public]. *)
Definition community_of (db : FleetDb T) (encKey : option string) (m : MonitorRow)
  : result FleetError string :=
  let? cred := match nonempty encKey with
               | Some k => getMonitorCred db (mon_id m) k | None => Ok None end in
  Ok (default (default "public" (text_at "community" (mon_config m))) cred).

Definition poll_host (m : MonitorRow) : string := default "" (text_at "host" (mon_config m)).
Definition poll_version (m : MonitorRow) : string := default "2c" (text_at "version" (mon_config m)).

Record PollWorld : Type := {
  pw_state : PollState; pw_nics : list (string * NicCounter); pw_db : PollDb T
}.

(** [devices host community version] is the device a session reaches. *)
Definition probe (gt : string -> string -> bool) (other : json -> string)
    (devices : string -> string -> string -> Device) (tm : Timing) (now later : Z)
    (timer : option nat) (db : FleetDb T) (profiles : T SnmpProfileRow) (encKey : option string)
    (m : MonitorRow) (w : PollWorld) : result FleetError PollWorld :=
  if negb (truthy (poll_host m)) then Ok w else
  let? community := community_of db encKey m in
  match poll_start tm now (mon_id m) (pw_state w) with
  | Cooling => Ok w
  | Collect heavy =>
      let '(cache, snmp) := snmpCollect gt (devices (poll_host m) community (poll_version m))
        (poll_host m) later (pw_nics w) (profile_of other profiles m) heavy timer in
      let '(st, o) := poll_end tm later (mon_id m) heavy snmp (pw_state w) in
      Ok {| pw_state := st; pw_nics := cache; pw_db := record_poll later m snmp o (pw_db w) |}
  end.
End store.

(** ** Traces *)

(** A sweep starts, or the poll of a monitor ends. *)
Inductive poll_event : Type :=
| Sweep (live : list string)
| Polled (id : string) (later : Z) (heavy : bool) (snmp : SnmpSample).

Definition poll_step (tm : Timing) (st : PollState) (e : poll_event) : PollState :=
  match e with
  | Sweep live => drop_gone live st
  | Polled id later heavy snmp => fst (poll_end tm later id heavy snmp st)
  end.
Definition polled (tm : Timing) (es : list poll_event) : PollState := fold_left (poll_step tm) es no_polls.

(** The polls of a monitor since it last was gone. *)
Definition poll_log (id : string) (log : list (Z * bool * SnmpSample)) (e : poll_event)
  : list (Z * bool * SnmpSample) :=
  match e with
  | Sweep live => if includes live id then log else []
  | Polled id' later heavy snmp => if String.eqb id' id then log ++ [(later, heavy, snmp)] else log
  end.
Definition polls (id : string) (es : list poll_event) : list (Z * bool * SnmpSample) :=
  fold_left (poll_log id) es [].

(** The length of the run of failed polls a list begins with. *)
Fixpoint failed_run (l : list (Z * bool * SnmpSample)) : nat :=
  match l with (_, _, s) :: l => if ss_reachable s then O else S (failed_run l) | [] => O end.

(** The last deep poll that succeeded. *)
Definition last_heavy (log : list (Z * bool * SnmpSample)) : option (Z * SnmpSample) :=
  match List.find (fun '(_, heavy, s) => heavy && ss_reachable s) (rev log) with
  | Some (later, _, s) => Some (later, s) | None => None end.

(** The last [n] polls all failed. *)
Definition last_failed (n : nat) (log : list (Z * bool * SnmpSample)) : Prop :=
  (n <= List.length log)%nat /\ forall later heavy s, (later, heavy, s) ∈ firstn n (rev log) -> ss_reachable s = false.

Lemma failed_run_spec n l : (n <= failed_run l)%nat <->
  (n <= List.length l)%nat /\ forall later heavy s, (later, heavy, s) ∈ firstn n l -> ss_reachable s = false.
Proof.
  revert l. induction n as [|n IH]; intros l.
  { split; [intros _; split; [lia|]; by intros ??? ?%not_elem_of_nil|lia]. }
  destruct l as [|[[later heavy] s] l]; simpl; [split; [lia|by intros [? _]; lia]|].
  destruct (ss_reachable s) eqn:Hs.
  - split; [lia|]. intros [_ H]. specialize (H later heavy s (list_elem_of_here _ _)). congruence.
  - split.
    + intros Hl. destruct (proj1 (IH l)) as [H1 H2]; [lia|]. split; [lia|].
      intros l' h' s' [[= -> -> ->]|Hin]%elem_of_cons; [done|by apply (H2 l' h')].
    + intros [H1 H2]. enough (n <= failed_run l)%nat by lia. apply IH. split; [lia|].
      intros l' h' s' Hin. apply (H2 l' h'). by apply list_elem_of_further.
Qed.

Lemma map_get_delete {V} k k' (m : list (string * V)) :
  map_get k (map_delete k' m) = if String.eqb k k' then None else map_get k m.
Proof.
  unfold map_delete. rewrite (map_get_filter_key (fun x => negb (String.eqb x k'))).
  by destruct (String.eqb k k').
Qed.

Lemma map_get_set {V} k k' (v : V) (m : list (string * V)) :
  map_get k (map_set k' v m) = if String.eqb k' k then Some v else map_get k m.
Proof.
  destruct (String.eqb_spec k' k) as [->|]; [apply map_get_set_eq|by apply map_get_set_ne].
Qed.

(** The maps hold, for each monitor, what its polls say. *)
Lemma polled_spec tm es id : let st := polled tm es in let log := polls id es in
  default 0 (map_get id (failures st)) = Z.of_nat (failed_run (rev log)) /\
  map_get id (lastHeavyAt st) = fst <$> last_heavy log /\
  map_get id (cooldownUntil st) = (fun h => fst h + HEAVY_COOLDOWN_MS tm) <$> last_heavy log /\
  map_get id (heavyCache st) = (fun h => (ss_tables (snd h), ss_disks (snd h))) <$> last_heavy log.
Proof.
  cbv zeta. induction es as [|e es (H1 & H2 & H3 & H4)] using rev_ind; [done|].
  unfold polled, polls in *. rewrite !fold_left_app. cbn [fold_left].
  set (st := fold_left (poll_step tm) es no_polls) in *. set (log := fold_left (poll_log id) es []) in *.
  destruct e as [live|id' later heavy snmp]; cbn [poll_step poll_log].
  - unfold drop_gone. cbn [failures lastHeavyAt cooldownUntil heavyCache].
    rewrite !(map_get_filter_key (includes live)). by destruct (includes live id).
  - unfold poll_end. destruct (ss_reachable snmp) eqn:Hs; cbn [fst].
    + destruct heavy; cbn [failures lastHeavyAt cooldownUntil heavyCache];
        rewrite ?map_get_delete, ?map_get_set, (String.eqb_sym id id');
        destruct (String.eqb id' id); try done; unfold last_heavy; rewrite rev_app_distr; simpl; by rewrite ?Hs.
    + cbn [failures lastHeavyAt cooldownUntil heavyCache]. rewrite map_get_set.
      destruct (String.eqb_spec id' id) as [->|]; [|done]. unfold last_heavy. rewrite rev_app_distr.
      simpl. rewrite Hs, andb_false_r. split; [|done]. simpl. unfold Datatypes.id in *. lia.
Qed.

(** Whatever sweeps and polls came before, a poll that succeeds says up; a monitor is declared
    down exactly when this and the polls before it make a run of failures as long as the
    threshold, since the monitor was last gone; and a failure short of that stores nothing. *)
Theorem flap_guard i n t c es id later heavy snmp :
  let tm := timing i n t c in
  let o := snd (poll_end tm later id heavy snmp (polled tm es)) in
  let log := polls id (es ++ [Polled id later heavy snmp]) in
  (ss_reachable snmp = true <-> exists display, o = Recorded UP display) /\
  (last_failed (Z.to_nat (FAIL_THRESHOLD tm)) log <-> exists display, o = Recorded DOWN display) /\
  (ss_reachable snmp = false /\ ~ last_failed (Z.to_nat (FAIL_THRESHOLD tm)) log <->
   exists misses, o = Tolerated misses).
Proof.
  cbv zeta. set (tm := timing i n t c).
  assert (Htm : 1 <= FAIL_THRESHOLD tm) by (simpl; lia).
  pose proof (polled_spec tm es id) as (H1 & _). unfold polls at 1 2. rewrite fold_left_app. cbn [fold_left poll_log].
  rewrite String.eqb_refl. fold (polls id es). set (log := polls id es) in *.
  assert (Hlast : last_failed (Z.to_nat (FAIL_THRESHOLD tm)) (log ++ [(later, heavy, snmp)]) <->
    ss_reachable snmp = false /\ FAIL_THRESHOLD tm <= Z.of_nat (failed_run (rev log)) + 1).
  { unfold last_failed. rewrite <- length_rev, <- failed_run_spec, rev_app_distr. simpl.
    destruct (ss_reachable snmp); [split; [lia|by intros []]|]. split; [intros; split; [done|lia]|intros []; lia]. }
  rewrite Hlast. unfold poll_end. destruct (ss_reachable snmp); cbn [snd].
  - split; [split; [by eexists|done]|]. split; split; try (by intros []).
  - rewrite H1. destruct (_ <? FAIL_THRESHOLD tm) eqn:Hm.
    + apply Z.ltb_lt in Hm. split; [split; [done|by intros []]|]. split; split; try (by intros []); try (intros []; lia).
      by eexists.
    + apply Z.ltb_ge in Hm. split; [split; [done|by intros []]|]. split; split; try (by intros []); try (intros []; lia).
      by eexists.
Qed.

(** C26: after a deep poll that succeeded, the next deep one starts no sooner than the period of
    tables, a shallow one no sooner than the cooldown, and until then a monitor rests; a shallow
    poll shows the tables and disks of that deep poll with its own readings. *)
Theorem two_speeds tm es id t deep (Hd : last_heavy (polls id es) = Some (t, deep)) :
  let st := polled tm es in
  (forall now, poll_start tm now id st =
     if TABLES_INTERVAL_MS tm <=? now - t then Collect true
     else if now <? t + HEAVY_COOLDOWN_MS tm then Cooling else Collect false) /\
  (forall later snmp, ss_reachable snmp = true -> exists display,
     snd (poll_end tm later id false snmp st) = Recorded UP display /\
     ss_tables display = (match ss_tables deep with Some x => Some x | None => ss_tables snmp end) /\
     ss_disks display = (match ss_disks deep with Some x => Some x | None => ss_disks snmp end) /\
     ss_items display = ss_items snmp /\ ss_cpuPercent display = ss_cpuPercent snmp /\
     ss_memUsedPct display = ss_memUsedPct snmp).
Proof.
  cbv zeta. pose proof (polled_spec tm es id) as (_ & H2 & H3 & H4). rewrite Hd in *. split.
  - intros now. unfold poll_start. rewrite H2, H3. cbn [fmap option_fmap option_map default from_option fst].
    unfold Datatypes.id. by destruct (TABLES_INTERVAL_MS tm <=? now - t).
  - intros later snmp Hs. unfold poll_end. rewrite Hs. cbn [heavyCache snd]. rewrite H4. simpl. eexists.
    split; [reflexivity|]. unfold with_readings. simpl. by destruct (ss_tables deep), (ss_disks deep).
Qed.

(** ** Witnesses *)

Definition w_down : SnmpSample := unreachable (Some "timeout").
Definition w_deep : SnmpSample :=
  set_tables (Some [{| tb_name := "Disks"; tb_headers := ["Slot"; "Temp"]; tb_rows := [["1"; "39 C"]] |}])
    (set_up 100 (unreachable None)).

Definition w_log : list poll_event :=
  [Polled "nas" 1000 true w_deep; Sweep ["nas"]; Polled "nas" 62000 false w_down; Sweep ["nas"];
   Polled "nas" 122000 false w_down].

Lemma flap_guard_witness :
  exists display, snd (poll_end (timing None None None None) 182000 "nas" false w_down
    (polled (timing None None None None) w_log)) = Recorded DOWN display.
Proof.
  apply (flap_guard None None None None w_log "nas" 182000 false w_down). split; [vm_compute; lia|].
  intros later heavy s Hin. vm_compute in Hin.
  repeat (apply elem_of_cons in Hin as [[= _ _ ->]|Hin]; [reflexivity|]). by apply not_elem_of_nil in Hin.
Defined.

Lemma two_speeds_witness :
  poll_start (timing None None None None) 181000 "nas" (polled (timing None None None None) w_log) = Collect false.
Proof.
  destruct (two_speeds (timing None None None None) w_log "nas" 1000 w_deep eq_refl) as [H _].
  rewrite (H 181000). reflexivity.
Defined.
