(* ===== verification/Ticker.v ===== *)
(** * Ticker messages

    Models packages/core/src/ticker.ts, apps/backend/src/services/ticker.ts and the handler of
    the active messages of routes/ticker.routes.ts: which messages show now, to whom, in which
    order and how fast. A bound of a window is stored as an instant and read back as its ISO
    text; the clock and the new ids are arguments. *)
From S2P Require Import Prelude Text Dates Store Schema RowUpdates Settings BackupPolicy Authz.
From S2P Require Import Directory Devices.

(** ** The core *)

Record TickerWindow : Type := {
  tw_enabled : bool; tw_startsAt : option string; tw_endsAt : option string; tw_priority : Z
}.

(** A text that is no date compares as false. *)
Definition isTickerActive (w : TickerWindow) (nowMs : Z) : bool :=
  if negb (tw_enabled w) then false else
  if match tw_startsAt w with
     | Some s => match Date_parse s with Some t => nowMs <? t | None => false end
     | None => false end then false else
  if match tw_endsAt w with
     | Some s => match Date_parse s with Some t => t <? nowMs | None => false end
     | None => false end then false
  else true.

Section active.
Context {A : Type} (window : A -> TickerWindow).

(** [sort((a, b) => b.priority - a.priority)] *)
Definition lower_priority (a b : A) : bool := tw_priority (window a) <? tw_priority (window b).

Definition activeTickers (list : list A) (nowMs : Z) : Datatypes.list A :=
  js_sort lower_priority (List.filter (fun w => isTickerActive (window w) nowMs) list).
End active.

(** ** The service *)

Record TickerMessageDTO : Type := {
  tm_id : string; tm_text : string; tm_enabled : bool; tm_severity : string; tm_priority : Z;
  tm_startsAt : option string; tm_endsAt : option string; tm_deviceGroupIds : list string;
  tm_userGroupIds : list string; tm_createdAt : string
}.

Definition window (t : TickerMessageDTO) : TickerWindow := {|
  tw_enabled := tm_enabled t; tw_startsAt := tm_startsAt t; tw_endsAt := tm_endsAt t;
  tw_priority := tm_priority t |}.

Definition ticker_toDTO (r : TickerRow) : TickerMessageDTO := {|
  tm_id := tick_id r; tm_text := tick_text r; tm_enabled := tick_enabled r;
  tm_severity := tick_severity r; tm_priority := tick_priority r;
  tm_startsAt := toISOString <$> tick_startsAt r; tm_endsAt := toISOString <$> tick_endsAt r;
  tm_deviceGroupIds := default [] (tick_deviceGroupIds r);
  tm_userGroupIds := default [] (tick_userGroupIds r); tm_createdAt := toISOString (tick_createdAt r) |}.

(** An absent bound and a null one create an open one. *)
Record CreateTickerInput : Type := {
  ct_text : string; ct_enabled : option bool; ct_severity : option string; ct_priority : option Z;
  ct_startsAt : option Z; ct_endsAt : option Z; ct_deviceGroupIds : option (list string);
  ct_userGroupIds : option (list string)
}.
Record UpdateTickerInput : Type := {
  ut_text : option string; ut_enabled : option bool; ut_severity : option string;
  ut_priority : option Z; ut_startsAt : option (option Z); ut_endsAt : option (option Z);
  ut_deviceGroupIds : option (list string); ut_userGroupIds : option (list string)
}.

Inductive TickerViewer : Type :=
| UserViewer (groupIds : list string)
| DeviceViewer (groupId : option string)
| EveryViewer.

Definition matchesViewer (t : TickerMessageDTO) (viewer : TickerViewer) : bool :=
  match viewer with
  | EveryViewer => true
  | UserViewer groupIds =>
      Nat.eqb (List.length (tm_userGroupIds t)) 0 || existsb (includes groupIds) (tm_userGroupIds t)
  | DeviceViewer groupId =>
      Nat.eqb (List.length (tm_deviceGroupIds t)) 0 ||
      match groupId with Some g => includes (tm_deviceGroupIds t) g | None => false end
  end.

Definition TICKER_SPEED_KEY : string := "ticker.speed".
Definition TICKER_SPEED_DEFAULT : Q := 90.
Definition TICKER_SPEED_MIN : Q := 20.
Definition TICKER_SPEED_MAX : Q := 400.

(** [Math.min(Math.max(n, MIN), MAX)] *)
Definition clamp_speed (n : Q) : Q :=
  let n := if Qle_bool n TICKER_SPEED_MIN then TICKER_SPEED_MIN else n in
  if Qle_bool TICKER_SPEED_MAX n then TICKER_SPEED_MAX else n.

Section ticker.
Context {T : Type -> Type} {ST : Store T}.
Implicit Types (t : T TickerRow).

Definition is_ticker (id : string) (r : TickerRow) : bool := String.eqb (tick_id r) id.

Definition listTicker t : list TickerMessageDTO := map ticker_toDTO (rows t).

Definition createTicker (now : Z) (id : string) t (input : CreateTickerInput)
  : T TickerRow * TickerMessageDTO :=
  let row := {|
    tick_id := id; tick_text := ct_text input; tick_enabled := default true (ct_enabled input);
    tick_severity := default "info" (ct_severity input); tick_priority := default 0 (ct_priority input);
    tick_startsAt := ct_startsAt input; tick_endsAt := ct_endsAt input; tick_recurrence := None;
    tick_deviceGroupIds := Some (default [] (ct_deviceGroupIds input));
    tick_userGroupIds := Some (default [] (ct_userGroupIds input)); tick_createdAt := now;
    tick_updatedAt := now |} in
  (insert_row row t, ticker_toDTO row).

Definition ticker_set (now : Z) (patch : UpdateTickerInput) (r : TickerRow) : TickerRow :=
  opt_set (fun v => set_tick_userGroupIds (Some v)) (ut_userGroupIds patch)
    (opt_set (fun v => set_tick_deviceGroupIds (Some v)) (ut_deviceGroupIds patch)
      (opt_set set_tick_endsAt (ut_endsAt patch) (opt_set set_tick_startsAt (ut_startsAt patch)
        (opt_set set_tick_priority (ut_priority patch) (opt_set set_tick_severity (ut_severity patch)
          (opt_set set_tick_enabled (ut_enabled patch) (opt_set set_tick_text (ut_text patch)
            (set_tick_updatedAt now r)))))))).

Definition updateTicker (now : Z) t (id : string) (patch : UpdateTickerInput)
  : T TickerRow * option TickerMessageDTO :=
  let '(t, row) := update_returning (is_ticker id) (ticker_set now patch) t in
  (t, ticker_toDTO <$> row).

Definition deleteTicker t (id : string) : T TickerRow * bool :=
  (delete_where (is_ticker id) t, exists_row (is_ticker id) t).

Definition getTickerSpeed (settings : T SettingRow) : Q :=
  match match getSetting settings TICKER_SPEED_KEY with
        | Some raw => Number_of_json raw | None => NaN end with
  | Fin n => clamp_speed n
  | _ => TICKER_SPEED_DEFAULT
  end.

Definition setTickerSpeed (now : Z) (settings : T SettingRow) (px : Q) : T SettingRow * Q :=
  let clamped := clamp_speed (inject_Z (js_round px)) in
  (setSetting now settings TICKER_SPEED_KEY (JNum clamped), clamped).

Definition userGroupIdsFor (ug : T UserGroupRow) (userId : string) : list string :=
  map ug_groupId (select (fun r => String.eqb (ug_userId r) userId) ug).

Definition deviceGroupIdFor (devices : T WallDeviceRow) (deviceId : string) : option string :=
  match select_first (fun d => String.eqb (dev_id d) deviceId) devices with
  | Some row => dev_groupId row | None => None end.

Definition listActiveTicker t (nowMs : Z) (viewer : TickerViewer) : list TickerMessageDTO :=
  activeTickers window
    (List.filter (fun m => matchesViewer m viewer) (map ticker_toDTO (select tick_enabled t))) nowMs.

(** [GET /api/ticker/active]: who asks, from the subject of the request. *)
Definition viewer_of (db : AccessDb T) (devices : T WallDeviceRow) (subject : AuthSubject) : TickerViewer :=
  match after "device:" (sub_userId subject) with
  | Some id => DeviceViewer (deviceGroupIdFor devices id)
  | None => if sub_isOwner subject then EveryViewer
            else UserViewer (userGroupIdsFor (userGroups db) (sub_userId subject))
  end.

Definition get_active (now : Z) (db : AccessDb T) (devices : T WallDeviceRow) t (subject : AuthSubject)
  : list TickerMessageDTO * Q :=
  (listActiveTicker t now (viewer_of db devices subject), getTickerSpeed (settings db)).
End ticker.

(** ** Theorems *)

Lemma clamp_speed_bounds n : (TICKER_SPEED_MIN <= clamp_speed n <= TICKER_SPEED_MAX)%Q.
Proof.
  unfold clamp_speed, TICKER_SPEED_MIN, TICKER_SPEED_MAX.
  destruct (Qle_bool n 20) eqn:H1; [simpl; lra|].
  apply not_true_iff_false in H1. rewrite Qle_bool_iff in H1.
  destruct (Qle_bool 400 n) eqn:H2; [lra|]. apply not_true_iff_false in H2. rewrite Qle_bool_iff in H2. lra.
Qed.

Section theorems.
Context {T : Type -> Type} {ST : Store T} {LT : StoreLaws T}.
Implicit Types (t : T TickerRow).

(** The window of a row holds the instant, its bounds included. *)
Definition in_window (nowMs : Z) (r : TickerRow) : Prop :=
  (forall s, tick_startsAt r = Some s -> s <= nowMs) /\ (forall e, tick_endsAt r = Some e -> nowMs <= e).

(** The row is for the viewer. *)
Definition meant_for (viewer : TickerViewer) (r : TickerRow) : Prop :=
  match viewer with
  | EveryViewer => True
  | UserViewer groupIds => default [] (tick_userGroupIds r) = [] \/
      exists g, g ∈ default [] (tick_userGroupIds r) /\ g ∈ groupIds
  | DeviceViewer groupId => default [] (tick_deviceGroupIds r) = [] \/
      exists g, groupId = Some g /\ g ∈ default [] (tick_deviceGroupIds r)
  end.

Lemma matches_meant viewer r : matchesViewer (ticker_toDTO r) viewer = true <-> meant_for viewer r.
Proof.
  assert (Hnil : forall l : list string, Nat.eqb (List.length l) 0 = true <-> l = [])
    by (intros [|? ?]; simpl; split; done).
  destruct viewer as [gs|g|]; cbn; [| |done]; rewrite orb_true_iff, Hnil; f_equiv.
  - rewrite existsb_true. f_equiv. intros g. by rewrite (includes_true gs g).
  - destruct g as [g|]; [|split; [done|by intros (? & ? & _)]].
    change (includes (default [] (tick_deviceGroupIds r)) g = true <->
      exists g', Some g = Some g' /\ g' ∈ default [] (tick_deviceGroupIds r)).
    rewrite includes_true. split; [by exists g|by intros (? & [= <-] & H)].
Qed.

Lemma active_window nowMs r :
  (forall s, tick_startsAt r = Some s \/ tick_endsAt r = Some s -> iso_range s) ->
  isTickerActive (window (ticker_toDTO r)) nowMs = true <-> tick_enabled r = true /\ in_window nowMs r.
Proof.
  intros Hr. unfold isTickerActive, in_window. cbn.
  assert (Hb : forall s, tick_startsAt r = Some s \/ tick_endsAt r = Some s -> Date_parse (toISOString s) = Some s)
    by (intros s Hs; by apply Date_parse_toISOString, Hr).
  destruct (tick_enabled r); cbn [negb]; [|naive_solver].
  destruct (tick_startsAt r) as [s|]; cbn [fmap option_fmap option_map];
    [rewrite Hb by (by left); destruct (nowMs <? s) eqn:Hs|];
    (destruct (tick_endsAt r) as [e|]; cbn [fmap option_fmap option_map];
     [try rewrite (Hb e) by (by right); destruct (e <? nowMs) eqn:He|]);
    split; try done; try (intros _; split; [done|]; split; intros ? [= <-]; lia);
    try (intros (_ & H1 & H2)); try (specialize (H1 _ eq_refl)); try (specialize (H2 _ eq_refl)); try lia.
Qed.

(** The messages shown are those of the rows that are enabled, in their window, and meant for
    the viewer; they come by falling priority, and in the order of the table within one. *)
Theorem listActiveTicker_spec t nowMs viewer
    (Hr : forall r s, r ∈ rows t -> tick_startsAt r = Some s \/ tick_endsAt r = Some s -> iso_range s) :
  let shown := listActiveTicker t nowMs viewer in
  (forall m, m ∈ shown <-> exists r, r ∈ rows t /\ m = ticker_toDTO r /\ tick_enabled r = true /\
     in_window nowMs r /\ meant_for viewer r) /\
  StronglySorted (fun a b => tm_priority b <= tm_priority a) shown /\
  forall p, List.filter (fun m => tm_priority m =? p) shown =
    List.filter (fun m => tm_priority m =? p)
      (List.filter (fun m => isTickerActive (window m) nowMs && matchesViewer m viewer) (listTicker t)).
Proof.
  cbv zeta. unfold listActiveTicker, activeTickers. split; [|split].
  - intros m. rewrite elem_of_js_sort, !elem_of_filterb, elem_of_map. split.
    + intros [[(r & -> & Hin) Hv] Ha]. apply elem_of_select in Hin as [Hin He]. exists r.
      apply active_window in Ha as [_ Hw]; [|by intros s; apply Hr]. by rewrite <- matches_meant.
    + intros (r & Hin & -> & He & Hw & Hv). split; [split|].
      * exists r. split; [done|]. by apply elem_of_select.
      * by apply matches_meant.
      * apply active_window; [by intros s; apply Hr|done].
  - eapply StronglySorted_mono; [|apply js_sort_sorted]; unfold lower_priority; cbn; lia.
  - intros p. rewrite js_sort_stable by (intros a b; unfold lower_priority; cbn; lia). f_equal.
    unfold listTicker, select. clear Hr. induction (rows t) as [|r l IH]; [done|]. cbn [List.filter map].
    destruct (tick_enabled r) eqn:He; cbn [List.filter map].
    + destruct (matchesViewer (ticker_toDTO r) viewer) eqn:Hv; cbn [List.filter];
        rewrite ?andb_true_r, ?andb_false_r; [|exact IH]. by destruct (isTickerActive _ nowMs); rewrite IH.
    + assert (isTickerActive (window (ticker_toDTO r)) nowMs = false) as ->; [|exact IH].
      unfold isTickerActive. cbn. by rewrite He.
Qed.

(** The speed is within its bounds whatever the setting holds, and a speed that is set is read
    back, rounded and clamped. *)
Theorem ticker_speed (settings : T SettingRow) now px (Hu : unique_key setting_key settings) :
  (TICKER_SPEED_MIN <= getTickerSpeed settings <= TICKER_SPEED_MAX)%Q /\
  let '(settings', speed) := setTickerSpeed now settings px in
  getTickerSpeed settings' = speed /\
  (20 <= js_round px <= 400 -> speed = inject_Z (js_round px)).
Proof.
  assert (Hidem : forall n, clamp_speed (clamp_speed n) = clamp_speed n).
  { intros n. unfold clamp_speed at 2 3. destruct (Qle_bool n TICKER_SPEED_MIN) eqn:H1; [reflexivity|].
    destruct (Qle_bool TICKER_SPEED_MAX n) eqn:H2; [reflexivity|]. unfold clamp_speed. by rewrite H1, H2. }
  split.
  - unfold getTickerSpeed. destruct (match getSetting settings TICKER_SPEED_KEY with Some _ => _ | None => _ end);
      try (unfold TICKER_SPEED_MIN, TICKER_SPEED_MAX, TICKER_SPEED_DEFAULT; lra). apply clamp_speed_bounds.
  - unfold setTickerSpeed. split.
    + unfold getTickerSpeed. rewrite getSetting_set by done. rewrite String.eqb_refl. simpl. apply Hidem.
    + intros Hpx. unfold clamp_speed, TICKER_SPEED_MIN, TICKER_SPEED_MAX.
      change 20%Q with (inject_Z 20). change 400%Q with (inject_Z 400).
      destruct (Qle_bool (inject_Z (js_round px)) (inject_Z 20)) eqn:H1.
      * apply Qle_bool_iff in H1. rewrite <- Zle_Qle in H1. replace (js_round px) with 20 by lia. reflexivity.
      * destruct (Qle_bool (inject_Z 400) (inject_Z (js_round px))) eqn:H2; [|done].
        apply Qle_bool_iff in H2. rewrite <- Zle_Qle in H2. by replace (js_round px) with 400 by lia.
Qed.
End theorems.

(** ** Witnesses *)

Definition w_message (id : string) (priority : Z) (groups : list string) : TickerRow := {|
  tick_id := id; tick_text := id; tick_enabled := true; tick_severity := "info";
  tick_priority := priority; tick_startsAt := Some 1000; tick_endsAt := None; tick_recurrence := None;
  tick_deviceGroupIds := None; tick_userGroupIds := Some groups; tick_createdAt := 0; tick_updatedAt := 0 |}.

Definition w_messages : list TickerRow :=
  [w_message "low" 1 []; w_message "ops" 5 ["ops"]; w_message "noc" 5 ["noc"; "all"]].

Lemma listActiveTicker_spec_witness :
  map tm_id (listActiveTicker (T := list) w_messages 1000 (UserViewer ["noc"])) = ["noc"; "low"] /\
  StronglySorted (fun a b => tm_priority b <= tm_priority a)
    (listActiveTicker (T := list) w_messages 1000 (UserViewer ["noc"])).
Proof.
  assert (Hr : forall r s, r ∈ rows (w_messages : list TickerRow) ->
    tick_startsAt r = Some s \/ tick_endsAt r = Some s -> iso_range s).
  { intros r s Hin Hs. unfold iso_range.
    repeat (apply elem_of_cons in Hin as [->|Hin]; [destruct Hs as [[= <-]|Hs]; [lia|discriminate Hs]|]).
    by apply not_elem_of_nil in Hin. }
  split; [reflexivity|].
  apply (listActiveTicker_spec (T := list) (ST := list_store) w_messages 1000 (UserViewer ["noc"]) Hr).
Defined.

Lemma ticker_speed_witness :
  getTickerSpeed (T := list) (fst (setTickerSpeed 5 ([] : list SettingRow) (60 # 1))) = 60%Q.
Proof.
  destruct (ticker_speed (T := list) (ST := list_store) [] 5 (60 # 1) (NoDup_nil_2)) as [_ H].
  cbn beta iota zeta delta [setTickerSpeed] in H. exact (proj1 H).
Defined.
