(* ===== verification/Retention.v ===== *)
(** * Data retention

    Models packages/db/src/retention.ts and seed/retention.ts, apps/backend/src/services/retention.ts
    and retention-sweeper.ts, and the checks of routes/retention.routes.ts: the policy of each data
    type, and the sweep that deletes what is older than its window. The telemetry tables are a family
    indexed by their name, so that one statement speaks of all of them. The clock, and the failure
    of a delete statement, are arguments. *)
From S2P Require Import Prelude Text Dates Store Schema RowUpdates.

(** ** The policies *)

Definition RETENTION_DATA_TYPES : list string :=
  ["status_events"; "client_events"; "host_metrics"; "ping_samples"; "db_metrics"; "storage_metrics";
   "snmp_metrics"; "folder_metrics"; "process_metrics"; "logs"; "audit_log"; "notifications";
   "uptime_buckets"].

Section policy.
Context {T : Type -> Type} {ST : Store T}.
Implicit Types (config : T RetentionRow).

Definition retention_row (now : Z) (dataType : string) (days : option Z) : RetentionRow := {|
  ret_dataType := dataType; ret_days := days; ret_createdAt := Some now; ret_updatedAt := Some now |}.

Definition seedRetentionDefaults (now : Z) config : T RetentionRow :=
  insert_all_ignore retentionConfig_conflict
    (map (fun dataType => retention_row now dataType None) RETENTION_DATA_TYPES) config.

Definition unset_retention (dataType : string) : RetentionRow := {|
  ret_dataType := dataType; ret_days := None; ret_createdAt := None; ret_updatedAt := None |}.

Definition listRetention config : list RetentionRow :=
  let stored := js_map ret_dataType Datatypes.id (rows config) in
  map (fun dataType => default (unset_retention dataType) (map_get dataType stored))
    RETENTION_DATA_TYPES.

Definition is_policy (dataType : string) (r : RetentionRow) : bool := String.eqb (ret_dataType r) dataType.

(** The row [returning()] gives is the one stored under the primary key. *)
Definition setRetention (now : Z) config (dataType : string) (days : option Z)
  : T RetentionRow * option RetentionRow :=
  let config := upsert retentionConfig_conflict (retention_row now dataType days)
    (fun r => {| ret_dataType := ret_dataType r; ret_days := days; ret_createdAt := ret_createdAt r;
                 ret_updatedAt := Some now |}) config in
  (config, select_first (is_policy dataType) config).

(** The body [{ days }]: a non-negative safe integer or null. *)
Definition putBody (body : json) : option (option Z) :=
  match body with
  | JObj m =>
      match map_get "days" m with
      | Some JNull => Some None
      | Some (JNum q) =>
          match isInteger (Fin q) with
          | Some n => if (0 <=? n) && (n <=? 9007199254740991) then Some (Some n) else None
          | None => None end
      | _ => None end
  | _ => None end.

Inductive RetentionReply : Type :=
| InvalidDataType | InvalidRequest | Updated (row : option RetentionRow).

(** [PUT /api/retention/:dataType] *)
Definition put_retention (now : Z) config (dataType : string) (body : json)
  : T RetentionRow * RetentionReply :=
  if negb (includes RETENTION_DATA_TYPES dataType) then (config, InvalidDataType)
  else match putBody body with
       | None => (config, InvalidRequest)
       | Some days => let '(config, row) := setRetention now config dataType days in
                      (config, Updated row)
       end.
End policy.

(** ** The sweep *)

(** The tables of packages/db/src/telemetry/schema.ts. *)
Inductive TableName : Type :=
| statusEvents | clientEvents | hostMetrics | pingSamples | hostInventory | dbMetrics | storageMetrics
| folderMetrics | processMetrics | snmpMetrics | logs | auditLog | uptimeBuckets | notifications
| unitStates.
#[export] Instance TableName_eq : EqDecision TableName.
Proof. solve_decision. Defined.

Definition row_of (n : TableName) : Type :=
  match n with
  | statusEvents => StatusEventRow | clientEvents => ClientEventRow | hostMetrics => HostMetricRow
  | pingSamples => PingSampleRow | hostInventory => HostInventoryRow | dbMetrics => DbMetricRow
  | storageMetrics => StorageMetricRow | folderMetrics => FolderMetricRow
  | processMetrics => ProcessMetricRow | snmpMetrics => SnmpMetricRow | logs => LogRow
  | auditLog => AuditRow | uptimeBuckets => UptimeBucketRow | notifications => NotificationRow
  | unitStates => UnitStateRow
  end.

Definition TelemetryTables (T : Type -> Type) : Type := forall n, T (row_of n).

Record Target : Type := { table : TableName; ts : row_of table -> Z }.

Definition TARGETS : list (string * Target) :=
  [("status_events", {| table := statusEvents; ts := ev_ts |});
   ("client_events", {| table := clientEvents; ts := cev_ts |});
   ("host_metrics", {| table := hostMetrics; ts := hm_ts |});
   ("ping_samples", {| table := pingSamples; ts := ps_ts |});
   ("db_metrics", {| table := dbMetrics; ts := dbm_ts |});
   ("storage_metrics", {| table := storageMetrics; ts := sm_ts |});
   ("snmp_metrics", {| table := snmpMetrics; ts := snm_ts |});
   ("folder_metrics", {| table := folderMetrics; ts := fm_ts |});
   ("process_metrics", {| table := processMetrics; ts := pm_ts |});
   ("logs", {| table := logs; ts := log_ts |});
   ("audit_log", {| table := auditLog; ts := audit_ts |});
   ("notifications", {| table := notifications; ts := note_ts |});
   ("uptime_buckets", {| table := uptimeBuckets; ts := ub_bucketStart |})].

Definition MS_PER_DAY : Z := 86400000.

(** [toISOString] throws outside the range of a [Date]. *)
Definition date_range (t : Z) : bool := (-8640000000000000 <=? t) && (t <=? 8640000000000000).

Section sweep.
Context {T : Type -> Type} {ST : Store T}.

(** Replaces one table of the database. *)
Definition on_table (n : TableName) (f : T (row_of n) -> T (row_of n)) (db : TelemetryTables T)
  : TelemetryTables T :=
  fun m => match decide (n = m) with
           | left e => match e in _ = m return T (row_of m) -> T (row_of m) with
                       | eq_refl => f end (db m)
           | right _ => db m end.

Inductive prune_result : Type := Skipped | Pruned (cutoff : Z) | Failed.

(** [fails] is the answer of the database to the delete with this bound. *)
Definition pruneOlderThan (fails : Z -> bool) (now : Z) (db : TelemetryTables T) (target : Target)
    (days : option Z) : TelemetryTables T * prune_result :=
  match days with
  | None => (db, Skipped)
  | Some days =>
      if days <=? 0 then (db, Skipped) else
      let cutoff := now - days * MS_PER_DAY in
      if negb (date_range cutoff) || fails cutoff then (db, Failed)
      else (on_table (table target) (delete_where (fun r => ts target r <? cutoff)) db, Pruned cutoff)
  end.

(** One turn of the loop; [now] and [fails] depend on the type, which each turn reads anew. *)
Definition sweep_one (fails : string -> Z -> bool) (now : string -> Z)
    (s : TelemetryTables T * list (string * string)) (row : RetentionRow)
  : TelemetryTables T * list (string * string) :=
  let '(db, pruned) := s in
  match map_get (ret_dataType row) TARGETS, ret_days row with
  | Some target, Some days =>
      if days <=? 0 then (db, pruned)
      else match pruneOlderThan (fails (ret_dataType row)) (now (ret_dataType row)) db target (Some days) with
           | (db, Pruned cutoff) => (db, map_set (ret_dataType row) (toISOString cutoff) pruned)
           | (db, _) => (db, pruned) end
  | _, _ => (db, pruned)
  end.

Definition runRetentionSweep (fails : string -> Z -> bool) (now : string -> Z) (config : T RetentionRow)
    (telemetry : TelemetryTables T) : TelemetryTables T * list (string * string) :=
  fold_left (sweep_one fails now) (listRetention config) (telemetry, []).
End sweep.

(** ** Theorems *)

Section policy_theorems.
Context {T : Type -> Type} {ST : Store T} {LT : StoreLaws T}.
Implicit Types (config : T RetentionRow).

(** The window that holds for a type: the stored one, or none. *)
Definition policy_days config (dataType : string) : option Z :=
  match select_first (is_policy dataType) config with Some r => ret_days r | None => None end.

Definition policy_of (r : RetentionRow) : string * option Z := (ret_dataType r, ret_days r).

Lemma listRetention_rows config : unique_key ret_dataType config ->
  listRetention config = map (fun dataType =>
    default (unset_retention dataType) (select_first (is_policy dataType) config)) RETENTION_DATA_TYPES.
Proof.
  intros Hu. unfold listRetention. cbv zeta. apply map_ext. intros d. f_equal.
  destruct (select_first (is_policy d) config) as [r|] eqn:Hs.
  - apply select_first_Some in Hs as [Hr Hd]. apply String.eqb_eq in Hd. subst d.
    by apply (map_get_js_map ret_dataType Datatypes.id).
  - destruct (map_get d _) as [r|] eqn:Hm; [|done].
    apply map_get_js_map_Some in Hm as (r' & Hr & Hk & _). rewrite select_first_None in Hs.
    specialize (Hs r' Hr). unfold is_policy in Hs. by rewrite Hk, String.eqb_refl in Hs.
Qed.

(** Every type is listed, in the canonical order, with its window. *)
Lemma listRetention_policies config : unique_key ret_dataType config ->
  map policy_of (listRetention config) = map (fun d => (d, policy_days config d)) RETENTION_DATA_TYPES.
Proof.
  intros Hu. rewrite listRetention_rows, map_map by done. apply map_ext. intros d. unfold policy_days.
  destruct (select_first (is_policy d) config) as [r|] eqn:Hs; [|done].
  apply select_first_Some in Hs as [_ Hd%String.eqb_eq]. change (policy_of r = (d, ret_days r)).
  unfold policy_of. by rewrite Hd.
Qed.

Lemma policy_days_set now config d days d' : unique_key ret_dataType config ->
  policy_days (fst (setRetention now config d days)) d' = (if String.eqb d' d then days else policy_days config d').
Proof.
  intros Hu. unfold policy_days, setRetention. cbn [fst].
  rewrite (select_first_upsert ret_dataType d'); [|done| | |done].
  2: { intros x. apply String.eqb_eq. }
  2: { intros x. unfold retentionConfig_conflict. rewrite String.eqb_eq. cbn. split; congruence. }
  cbn. destruct (String.eqb_spec d' d), (decide (d' = d)); try done. by destruct (select_first _ config).
Qed.

Lemma unique_key_set now config d days : unique_key ret_dataType config ->
  unique_key ret_dataType (fst (setRetention now config d days)).
Proof.
  intros Hu. apply unique_key_upsert; [done| |done].
  intros x Hx. unfold retentionConfig_conflict. cbn in *. by rewrite Hx, String.eqb_refl.
Qed.

Lemma seed_one_type now config d d' : unique_key ret_dataType config ->
  let config' := insert_ignore retentionConfig_conflict (retention_row now d None) config in
  unique_key ret_dataType config' /\ policy_days config' d' = policy_days config d' /\
  (forall r, r ∈ rows config -> r ∈ rows config') /\
  exists r, r ∈ rows config' /\ ret_dataType r = d.
Proof.
  intros Hu. cbv zeta. unfold insert_ignore. destruct (existsb _ _) eqn:He.
  - split; [done|]. split; [done|]. split; [done|].
    apply existsb_true in He as (r & Hr & Hd%String.eqb_eq). by exists r.
  - assert (Hnew : forall r, r ∈ rows config -> ret_dataType r <> d).
    { intros r Hr Hd. rewrite existsb_false in He. specialize (He r Hr).
      unfold retentionConfig_conflict in He. cbn in He. by rewrite Hd, String.eqb_refl in He. }
    assert (Hu' : unique_key ret_dataType (insert_row (retention_row now d None) config))
      by (by apply unique_key_insert).
    split; [done|]. split; [|split].
    + assert (Hp : forall x, is_policy d' x = true <-> ret_dataType x = d')
        by (intros x; apply String.eqb_eq). unfold policy_days.
      destruct (select_first (is_policy d') config) as [r|] eqn:Hs.
      * apply (select_first_iff ret_dataType d') in Hs as [Hr Hk]; [|done|done].
        assert (select_first (is_policy d') (insert_row (retention_row now d None) config) = Some r) as ->; [|done].
        apply (select_first_iff ret_dataType d'); [done|done|]. split; [|done]. apply elem_of_insert. by right.
      * destruct (select_first _ (insert_row _ _)) as [r|] eqn:Hs'; [|done].
        apply select_first_Some in Hs' as [[->|Hr]%elem_of_insert Hpr]; [done|].
        rewrite select_first_None in Hs. by rewrite Hs in Hpr.
    + intros r Hr. apply elem_of_insert. by right.
    + exists (retention_row now d None). split; [|done]. apply elem_of_insert. by left.
Qed.

Lemma seed_types now ds config : unique_key ret_dataType config ->
  let config' := insert_all_ignore retentionConfig_conflict (map (fun d => retention_row now d None) ds) config in
  unique_key ret_dataType config' /\ (forall d, policy_days config' d = policy_days config d) /\
  (forall r, r ∈ rows config -> r ∈ rows config') /\
  forall d, d ∈ ds -> exists r, r ∈ rows config' /\ ret_dataType r = d.
Proof.
  cbv zeta. revert config. unfold insert_all_ignore.
  induction ds as [|d0 ds IH]; intros config Hu; cbn [map fold_left].
  - split; [done|]. split; [done|]. split; [done|]. by intros d Hd%not_elem_of_nil.
  - destruct (seed_one_type now config d0 d0 Hu) as (Hu' & _ & Hkeep & r0 & Hr0 & Hd0).
    destruct (IH _ Hu') as (Hu'' & Hdays & Hkeep' & Hall). split; [done|]. split; [|split].
    + intros d. rewrite Hdays. apply (seed_one_type now config d0 d Hu).
    + intros r Hr. by apply Hkeep', Hkeep.
    + intros d [->|Hd]%elem_of_cons; [|by apply Hall]. exists r0. split; [by apply Hkeep'|done].
Qed.

(** The list gives every type once, in the canonical order, with its stored window or none;
    the seed stores a row for each type and changes no window and no row; a request on an unknown
    type or with a bad window is refused and changes nothing, and any other changes exactly the
    window of its type. *)
Theorem retention_policies now config dataType body (Hu : unique_key ret_dataType config) :
  let seeded := seedRetentionDefaults now config in
  let '(config', reply) := put_retention now config dataType body in
  map policy_of (listRetention config) = map (fun d => (d, policy_days config d)) RETENTION_DATA_TYPES /\
  map policy_of (listRetention seeded) = map policy_of (listRetention config) /\
  (forall r, r ∈ rows config -> r ∈ rows seeded) /\
  (forall d, d ∈ RETENTION_DATA_TYPES -> exists r, r ∈ rows seeded /\ ret_dataType r = d) /\
  match reply with
  | InvalidDataType => dataType ∉ RETENTION_DATA_TYPES /\ config' = config
  | InvalidRequest => putBody body = None /\ config' = config
  | Updated _ => exists days, putBody body = Some days /\ (forall n, days = Some n -> 0 <= n) /\
      map policy_of (listRetention config') =
      map (fun p => if String.eqb (fst p) dataType then (fst p, days) else p)
        (map policy_of (listRetention config))
  end.
Proof.
  cbv zeta. destruct (seed_types now RETENTION_DATA_TYPES config Hu) as (Hus & Hdays & Hkeep & Hall).
  destruct (put_retention now config dataType body) as [config' reply] eqn:Hput.
  split; [by apply listRetention_policies|]. split; [|split; [exact Hkeep|split; [exact Hall|]]].
  { rewrite !listRetention_policies by done. apply map_ext. intros d. f_equal. apply Hdays. }
  unfold put_retention in Hput. destruct (includes RETENTION_DATA_TYPES dataType) eqn:Hin; cbn [negb] in Hput.
  2: { simplify_eq. split; [by apply includes_false|done]. }
  destruct (putBody body) as [days|] eqn:Hbody; [|by simplify_eq].
  pose proof (policy_days_set now config dataType days) as Hset.
  pose proof (unique_key_set now config dataType days Hu) as Hu'.
  destruct (setRetention now config dataType days) as [c row]. simplify_eq. cbn [fst] in Hset, Hu'.
  exists days. split; [done|]. split.
  - intros n ->. unfold putBody in Hbody. destruct body; try done.
    destruct (map_get "days" m) as [[]|]; simplify_eq. destruct (isInteger _) as [k|]; [|done].
    destruct (0 <=? k) eqn:Hk; [|done]. cbn [andb] in Hbody. destruct (k <=? _); simplify_eq. lia.
  - rewrite !listRetention_policies, map_map by done. apply map_ext. intros d. rewrite Hset by done. cbn [fst].
    by destruct (String.eqb d dataType).
Qed.
End policy_theorems.

Section sweep_theorems.
Context {T : Type -> Type} {ST : Store T} {LT : StoreLaws T}.
Context (fails : string -> Z -> bool) (now : string -> Z).
Implicit Types (db : TelemetryTables T).

(** The bound of a type in this run: none without a window, when the bound is no date, or when the
    database refuses the statement. *)
Definition cutoff_of (dataType : string) (days : option Z) : option Z :=
  match days with
  | Some days =>
      let c := now dataType - days * MS_PER_DAY in
      if (0 <? days) && date_range c && negb (fails dataType c) then Some c else None
  | None => None end.

Lemma on_table_same n (f : T (row_of n) -> T (row_of n)) db : on_table n f db n = f (db n).
Proof.
  unfold on_table. destruct (decide (n = n)) as [e|]; [|done].
  by rewrite (Eqdep_dec.UIP_dec (fun a b => decide (a = b)) e eq_refl).
Qed.

Lemma on_table_other n m (f : T (row_of n) -> T (row_of n)) db : n <> m -> on_table n f db m = db m.
Proof. intros Hne. unfold on_table. by destruct (decide (n = m)). Qed.

(** One turn, by the bound of the type. *)
Lemma sweep_one_cutoff db pruned row target :
  map_get (ret_dataType row) TARGETS = Some target ->
  sweep_one fails now (db, pruned) row =
  match cutoff_of (ret_dataType row) (ret_days row) with
  | Some c => (on_table (table target) (delete_where (fun r => ts target r <? c)) db,
               map_set (ret_dataType row) (toISOString c) pruned)
  | None => (db, pruned) end.
Proof.
  intros Ht. unfold sweep_one, cutoff_of, pruneOlderThan. rewrite Ht.
  destruct (ret_days row) as [days|]; [|done]. cbv zeta.
  destruct (days <=? 0) eqn:H0; [by assert (0 <? days = false) as -> by lia|].
  assert (0 <? days = true) as -> by lia. cbn [andb]. destruct (date_range _); [|done].
  cbn [negb orb andb]. by destruct (fails _ _).
Qed.

Lemma targets_apart d1 t1 d2 t2 :
  map_get d1 TARGETS = Some t1 -> map_get d2 TARGETS = Some t2 -> table t1 = table t2 -> d1 = d2.
Proof.
  intros H1%map_get_Some H2%map_get_Some He.
  assert (Hinj : forall x y, x ∈ TARGETS -> y ∈ TARGETS -> table x.2 = table y.2 -> x = y).
  { intros x y Hx Hy Hxy. apply list_elem_of_lookup in Hx as [i Hi], Hy as [j Hj].
    assert (i = j) as ->; [|congruence].
    apply (NoDup_lookup (map (fun x => table x.2) TARGETS) i j (table x.2));
      [apply (bool_decide_unpack _); vm_compute; exact I|by rewrite list_lookup_fmap, Hi|].
    by rewrite list_lookup_fmap, Hj, Hxy. }
  by injection (Hinj _ _ H1 H2 He).
Qed.

Lemma target_known d t : map_get d TARGETS = Some t ->
  d ∈ RETENTION_DATA_TYPES /\ table t <> hostInventory /\ table t <> unitStates.
Proof.
  intros Ht%map_get_Some. split; [change RETENTION_DATA_TYPES with (map fst TARGETS); apply elem_of_map; by exists (d, t)|].
  assert (Hin : table t ∈ map (fun x => table x.2) TARGETS) by (apply elem_of_map; by exists (d, t)).
  assert (Hn : hostInventory ∉ map (fun x => table x.2) TARGETS /\ unitStates ∉ map (fun x => table x.2) TARGETS)
    by (apply (bool_decide_unpack _); vm_compute; exact I).
  split; intros He; rewrite He in Hin; by apply Hn in Hin.
Qed.

(** The turns for the types [ds]. *)
Lemma sweep_fold (days_of : string -> option Z) (row : string -> RetentionRow) ds s :
  (forall d, ret_dataType (row d) = d /\ ret_days (row d) = days_of d) ->
  (forall d, d ∈ ds -> exists target, map_get d TARGETS = Some target) -> NoDup ds ->
  let s' := fold_left (sweep_one fails now) (map row ds) s in
  (forall n, (forall d target, d ∈ ds -> map_get d TARGETS = Some target -> table target <> n) ->
     fst s' n = fst s n) /\
  (forall d target, d ∈ ds -> map_get d TARGETS = Some target ->
     fst s' (table target) =
       match cutoff_of d (days_of d) with
       | Some c => delete_where (fun r => ts target r <? c) (fst s (table target))
       | None => fst s (table target) end) /\
  (forall d, map_get d (snd s') =
     match (if includes ds d then cutoff_of d (days_of d) else None) with
     | Some c => Some (toISOString c) | None => map_get d (snd s) end).
Proof.
  intros Hrow. revert s. induction ds as [|d0 ds IH]; intros [db pruned] Hts Hnd; cbv zeta.
  { split; [done|]. split; [by intros ? ? []%not_elem_of_nil|done]. }
  apply NoDup_cons in Hnd as [Hd0 Hnd]. cbn [map fold_left].
  destruct (Hts d0) as [t0 Ht0]; [by left|].
  rewrite (sweep_one_cutoff db pruned (row d0) t0); destruct (Hrow d0) as [Hr1 Hr2]; rewrite Hr1, ?Hr2; [|done].
  set (s1 := match cutoff_of d0 (days_of d0) with Some _ => _ | None => _ end).
  assert (Hs1 : forall n, n <> table t0 -> fst s1 n = db n).
  { intros n Hn. unfold s1. destruct (cutoff_of _ _); [|done]. by apply on_table_other. }
  destruct (IH s1) as (Hother & Hin & Hmap); [by intros d Hd; apply Hts; right|done|]. cbv zeta in *.
  split; [|split].
  - intros n Hn. rewrite Hother by (intros d t Hd; apply Hn; by right). apply Hs1. cbn [fst].
    intros ->. by apply (Hn d0 t0); [left|..].
  - intros d t [->|Hd]%elem_of_cons Ht; cbn [fst].
    + rewrite Ht0 in Ht. injection Ht as <-. rewrite Hother.
      * unfold s1. destruct (cutoff_of _ _); [|done]. cbn [fst]. apply on_table_same.
      * intros d t Hd Ht He. apply Hd0. by rewrite <- (targets_apart _ _ _ _ Ht Ht0 He).
    + rewrite (Hin d t Hd Ht). rewrite Hs1; [done|]. intros He. apply Hd0.
      by rewrite <- (targets_apart _ _ _ _ Ht Ht0 He).
  - intros d. rewrite Hmap. cbn [includes existsb]. unfold includes. cbn [existsb]. cbn [snd].
    destruct (String.eqb_spec d d0) as [->|Hne]; cbn [orb].
    + fold (includes ds d0). rewrite (proj2 (includes_false ds d0) Hd0). unfold s1.
      destruct (cutoff_of d0 _); [apply map_get_set_eq|done].
    + fold (includes ds d). destruct (if includes ds d then _ else _); [done|]. unfold s1.
      destruct (cutoff_of d0 _); [|done]. by apply map_get_set_ne.
Qed.

(** A sweep leaves in each table of the policy exactly the rows that are not older than the
    window of its type, all of them when the type has no window or its statement fails; the other
    tables are untouched; the summary names the types that were pruned with their bound. *)
Theorem sweep_keeps_window (config : T RetentionRow) db (Hu : unique_key ret_dataType config) :
  let '(db', pruned) := runRetentionSweep fails now config db in
  (forall d target, map_get d TARGETS = Some target ->
     rows (db' (table target)) ≡ₚ
     match cutoff_of d (policy_days config d) with
     | Some c => List.filter (fun r => c <=? ts target r) (rows (db (table target)))
     | None => rows (db (table target)) end) /\
  db' hostInventory = db hostInventory /\ db' unitStates = db unitStates /\
  forall d, map_get d pruned =
    (if includes RETENTION_DATA_TYPES d
     then toISOString <$> cutoff_of d (policy_days config d) else None).
Proof.
  unfold runRetentionSweep. rewrite listRetention_rows by done.
  destruct (sweep_fold (policy_days config)
    (fun d => default (unset_retention d) (select_first (is_policy d) config))
    RETENTION_DATA_TYPES (db, [])) as (Hother & Hin & Hmap).
  - intros d. unfold policy_days. destruct (select_first (is_policy d) config) as [r|] eqn:Hs; [|done].
    by apply select_first_Some in Hs as [_ Hd%String.eqb_eq].
  - intros d Hd. apply list_elem_of_In in Hd. cbn in Hd.
    repeat (destruct Hd as [<-|Hd]; [eexists; reflexivity|]). done.
  - apply (bool_decide_unpack _). vm_compute. exact I.
  - destruct (fold_left _ _ _) as [db' pruned]. cbn [fst snd] in *. split; [|split; [|split]].
    + intros d t Ht. rewrite (Hin d t); [|by apply (target_known d t)|done].
      destruct (cutoff_of _ _) as [c|]; [|done]. rewrite rows_delete.
      erewrite filter_ext; [reflexivity|]. intros r. cbn. lia.
    + apply Hother. intros d t _ Ht. by apply (target_known d t).
    + apply Hother. intros d t _ Ht. by apply (target_known d t).
    + intros d. rewrite Hmap. destruct (includes _ d); [|done]. by destruct (cutoff_of _ _).
Qed.
End sweep_theorems.

(** ** Witnesses *)

Definition w_retention : list RetentionRow := [retention_row 0 "logs" (Some 1); retention_row 0 "audit_log" None].

Lemma w_retention_unique : unique_key (T := list) ret_dataType w_retention.
Proof. apply (bool_decide_unpack _). vm_compute. exact I. Qed.

Lemma retention_policies_witness :
  map policy_of (listRetention (T := list) w_retention) =
    map (fun d => (d, if String.eqb d "logs" then Some 1 else None)) RETENTION_DATA_TYPES /\
  map policy_of (listRetention (T := list) (fst (put_retention (T := list) 5 w_retention "logs"
    (JObj [("days", JNum 30)])))) =
    map (fun d => (d, if String.eqb d "logs" then Some 30 else None)) RETENTION_DATA_TYPES.
Proof.
  pose proof (retention_policies (T := list) (ST := list_store) 5 w_retention "logs"
    (JObj [("days", JNum 30)]) w_retention_unique) as H.
  cbv zeta in H. destruct (put_retention (T := list) (ST := list_store) 5 w_retention "logs" _)
    as [config' reply] eqn:Hput.
  destruct H as (Hlist & _ & _ & _ & Hreply).
  assert (reply = Updated (Some {| ret_dataType := "logs"; ret_days := Some 30; ret_createdAt := Some 0;
    ret_updatedAt := Some 5 |})) as -> by (change reply with (snd (config', reply)); rewrite <- Hput; reflexivity).
  destruct Hreply as (days & Hbody & _ & Hnew). injection Hbody as <-. cbn [fst].
  split; [rewrite Hlist; reflexivity|]. rewrite Hnew, Hlist. reflexivity.
Defined.

Definition w_log (id : string) (at_ : Z) : LogRow := {|
  log_id := id; log_category := "app"; log_level := "info"; log_sourceId := None; log_message := "";
  log_context := None; log_ts := at_ |}.

Definition w_telemetry : TelemetryTables list :=
  fun n => match n as n return list (row_of n) with
           | logs => [w_log "old" 100; w_log "edge" 1000; w_log "new" 2000] | _ => [] end.

Lemma sweep_keeps_window_witness :
  let '(db', pruned) := runRetentionSweep (T := list) (fun _ _ => false) (fun _ => 86401000) w_retention w_telemetry in
  map log_id (db' logs) = ["edge"; "new"] /\ pruned = [("logs", "1970-01-01T00:00:01.000Z")] /\
  db' logs ≡ₚ [w_log "edge" 1000; w_log "new" 2000].
Proof.
  pose proof (sweep_keeps_window (T := list) (ST := list_store) (fun _ _ => false) (fun _ => 86401000)
    w_retention w_telemetry w_retention_unique) as H.
  destruct (runRetentionSweep _ _ w_retention w_telemetry) as [db' pruned] eqn:Hrun.
  destruct H as (Hrows & _).
  split; [|split; [|exact (Hrows "logs" {| table := logs; ts := log_ts |} eq_refl)]].
  - change db' with (fst (db', pruned)). rewrite <- Hrun. reflexivity.
  - change pruned with (snd (db', pruned)). rewrite <- Hrun. vm_compute. reflexivity.
Defined.
