(* ===== verification/PublicStatus.v ===== *)
(** * The public status page

    Models apps/backend/src/services/public-status.ts: the stored configuration of the page and the
    snapshot served without authentication. The tables it reads are fields of one record; the clock
    is an argument, read once. A bucket is kept under its UTC day: the session of the database runs
    in UTC. *)
From S2P Require Import Prelude Text Dates Store Schema RowUpdates Health Pipeline.

(** ** The configuration *)

Definition SINGLETON_ID : string := "default".
Definition AGENT_STALE_MS : Z := 120000.

Record PublicNotice : Type := { notice_level : string; notice_message : string }.

Record PublicConfigDTO : Type := {
  pc_enabled : bool; pc_title : string; pc_description : option string; pc_showUptime : bool;
  pc_showHistory : bool; pc_historyDays : Z; pc_notice : option PublicNotice;
  pc_items : list PublicItem
}.

Definition DEFAULT_CONFIG : PublicConfigDTO := {|
  pc_enabled := false; pc_title := "System Status"; pc_description := Some ""; pc_showUptime := true;
  pc_showHistory := true; pc_historyDays := 90; pc_notice := None; pc_items := [] |}.

Definition normalizeNoticeLevel (v : option string) : string :=
  match v with
  | Some s => if String.eqb s "maintenance" || String.eqb s "incident" then s else "info"
  | None => "info" end.

(** The text without its surrounding spaces, when something is left. *)
Definition trimmed (s : option string) : option string :=
  match s with
  | Some s => if String.eqb (trim s) "" then None else Some (trim s)
  | None => None end.

Section config.
Context {T : Type -> Type} {ST : Store T}.
Implicit Types (db : T PublicConfigRow).

Definition is_singleton (r : PublicConfigRow) : bool := String.eqb (pub_id r) SINGLETON_ID.

Definition getPublicConfig db : PublicConfigDTO :=
  match select_first is_singleton db with
  | None => DEFAULT_CONFIG
  | Some row => {|
      pc_enabled := pub_enabled row; pc_title := pub_title row;
      pc_description := Some (default "" (pub_description row)); pc_showUptime := pub_showUptime row;
      pc_showHistory := pub_showHistory row; pc_historyDays := pub_historyDays row;
      pc_notice :=
        match trimmed (pub_noticeMessage row) with
        | Some message => Some {| notice_level := normalizeNoticeLevel (pub_noticeLevel row);
                                  notice_message := message |}
        | None => None end;
      pc_items := pub_items row |}
  end.

(** The values written, over a row of which the id and the creation time stay. *)
Definition public_values (now : Z) (dto : PublicConfigDTO) (id : string) (createdAt : Z)
  : PublicConfigRow :=
  let message := trimmed (notice_message <$> pc_notice dto) in {|
  pub_id := id; pub_enabled := pc_enabled dto; pub_title := pc_title dto;
  pub_description := Some (default "" (pc_description dto)); pub_showUptime := pc_showUptime dto;
  pub_showHistory := pc_showHistory dto; pub_historyDays := pc_historyDays dto;
  pub_noticeLevel := match message with
                     | Some _ => Some (normalizeNoticeLevel (notice_level <$> pc_notice dto))
                     | None => None end;
  pub_noticeMessage := message; pub_items := pc_items dto; pub_createdAt := createdAt;
  pub_updatedAt := now |}.

Definition updatePublicConfig (now : Z) db (dto : PublicConfigDTO) : T PublicConfigRow * PublicConfigDTO :=
  let db := upsert publicConfig_conflict (public_values now dto SINGLETON_ID now)
    (fun r => public_values now dto (pub_id r) (pub_createdAt r)) db in
  (db, getPublicConfig db).
End config.

(** ** The snapshot *)

(** The tables the snapshot reads. *)
Record StatusDb (T : Type -> Type) : Type := {
  sd_publicConfig : T PublicConfigRow; sd_agents : T AgentRow; sd_monitors : T MonitorRow;
  sd_unitStates : T UnitStateRow; sd_uptimeBuckets : T UptimeBucketRow
}.
Arguments sd_publicConfig {T} _. Arguments sd_agents {T} _. Arguments sd_monitors {T} _.
Arguments sd_unitStates {T} _. Arguments sd_uptimeBuckets {T} _.

Record PublicStatusItem : Type := {
  psi_label : string; psi_status : HealthStatus; psi_uptimePct : option Q;
  psi_history : option (list (option Z))
}.
Record PublicStatusGroup : Type := {
  psg_name : string; psg_status : HealthStatus; psg_items : list PublicStatusItem
}.
Record PublicStatusDTO : Type := {
  psd_title : string; psd_description : option string; psd_notice : option PublicNotice;
  psd_overall : HealthStatus; psd_groups : list PublicStatusGroup; psd_generatedAt : string
}.

(** [if (s)] on a text that may be absent. *)
Definition nonblank (s : option string) : option string :=
  match s with Some s => if String.eqb s "" then None else Some s | None => None end.

Section snapshot.
Context {T : Type -> Type} {ST : Store T}.
Implicit Types (db : StatusDb T) (buckets : T UptimeBucketRow).

Definition agentStatus (now : Z) (agents : T AgentRow) (refId : string) : HealthStatus :=
  match select_first (fun a => String.eqb (agent_id a) refId) agents with
  | None => UNKNOWN
  | Some agent =>
      if negb (String.eqb (agent_status agent) "approved") then UNKNOWN else
      match agent_lastSeenAt agent with
      | None => DOWN
      | Some lastSeen => if now - lastSeen <=? AGENT_STALE_MS then UP else DOWN
      end
  end.

Definition monitorStatus db (refId : string) : HealthStatus * option string * option string :=
  match select_first (fun m => String.eqb (mon_id m) refId) (sd_monitors db) with
  | None => (UNKNOWN, None, None)
  | Some monitor =>
      if negb (mon_enabled monitor) then (UNKNOWN, None, None) else
      let sourceId := mon_agentId monitor in
      let entity := mon_name monitor in
      let status :=
        match select_first (fun s => String.eqb (us_sourceId s) sourceId && String.eqb (us_entity s) entity)
                (sd_unitStates db) with
        | Some state => parse_status (us_status state) | None => UNKNOWN end in
      (status, Some sourceId, Some entity)
  end.

(** The buckets of a source, or of one of its entities. *)
Definition of_source (sourceId : string) (entity : option string) (b : UptimeBucketRow) : bool :=
  String.eqb (ub_sourceId b) sourceId &&
  match nonblank entity with Some e => String.eqb (ub_entity b) e | None => true end.

Definition add_bucket (acc : Z * Z) (r : UptimeBucketRow) : Z * Z :=
  (acc.1 + ub_upSec r, acc.2 + ub_totalSec r).

Definition uptimePctFor buckets (sourceId : string) (entity : option string) : option Q :=
  let rows := select (of_source sourceId entity) buckets in
  if Nat.eqb (List.length rows) 0 then None else
  let '(up, total) := fold_left add_bucket rows (0, 0) in
  if total <=? 0 then None
  else Some (Qmake (js_round (inject_Z up / inject_Z total * 100 * 100)) 100).

(** [s.slice(0, 10)] of an instant's text *)
Definition day_key (t : Z) : string := slice0 10 (toISOString t).

Definition add_to_day (byDay : list (string * (Z * Z))) (r : UptimeBucketRow) : list (string * (Z * Z)) :=
  let key := day_key (ub_bucketStart r) in
  map_set key (add_bucket (default (0, 0) (map_get key byDay)) r) byDay.

Definition day_pct (acc : option (Z * Z)) : option Z :=
  match acc with
  | Some (up, total) => if 0 <? total then Some (js_round (inject_Z up / inject_Z total * 100)) else None
  | None => None end.

Definition uptimeHistoryFor (now : Z) buckets (sourceId : string) (entity : option string) (days : Z)
  : list (option Z) :=
  let startDay := utc_midnight (now - (days - 1) * MS_DAY) in
  let rows := select (fun b => of_source sourceId entity b && (startDay <=? ub_bucketStart b)) buckets in
  let byDay := fold_left add_to_day rows [] in
  map (fun i => day_pct (map_get (day_key (startDay + Z.of_nat i * MS_DAY)) byDay)) (seq 0 (Z.to_nat days)).

Record ResolvedItem : Type := {
  ri_status : HealthStatus; ri_uptimePct : option Q; ri_history : option (list (option Z))
}.

Definition resolveItem (now : Z) db (config : PublicConfigDTO) (cfg : PublicItem) : ResolvedItem :=
  let '(status, sourceId, entity) :=
    if String.eqb (item_kind cfg) "agent"
    then (agentStatus now (sd_agents db) (item_refId cfg), Some (item_refId cfg), None)
    else monitorStatus db (item_refId cfg) in
  match nonblank sourceId with
  | None => {| ri_status := status; ri_uptimePct := None; ri_history := None |}
  | Some sourceId => {|
      ri_status := status;
      ri_uptimePct := if pc_showUptime config then uptimePctFor (sd_uptimeBuckets db) sourceId entity
                      else None;
      ri_history :=
        if pc_showHistory config then
          let history := uptimeHistoryFor now (sd_uptimeBuckets db) sourceId entity (pc_historyDays config) in
          if existsb (fun d => match d with Some _ => true | None => false end) history
          then Some history else None
        else None |}
  end.

Definition status_item (now : Z) db (config : PublicConfigDTO) (cfg : PublicItem) : PublicStatusItem :=
  let r := resolveItem now db config cfg in
  {| psi_label := item_label cfg; psi_status := ri_status r; psi_uptimePct := ri_uptimePct r;
     psi_history := ri_history r |}.

Definition group_name (cfg : PublicItem) : string :=
  match item_group cfg with Some g => trim g | None => "" end.

(** The groups under their names, the names by first use, and a unit per item. *)
Definition build_state : Type := list (string * list PublicStatusItem) * list string * list Unit_.

Definition add_item (now : Z) db (config : PublicConfigDTO) (s : build_state) (cfg : PublicItem)
  : build_state :=
  let '(groups, order, units) := s in
  let item := status_item now db config cfg in
  let groupName := group_name cfg in
  let '(groups, order) :=
    match map_get groupName groups with
    | None => (map_set groupName [] groups, order ++ [groupName])
    | Some _ => (groups, order) end in
  (map_set groupName (default [] (map_get groupName groups) ++ [item]) groups, order,
   units ++ [{| u_status := psi_status item; critical := false |}]).

Definition buildPublicStatus (now : Z) db : option PublicStatusDTO :=
  let config := getPublicConfig (sd_publicConfig db) in
  if negb (pc_enabled config) then None else
  let '(groups, order, units) := fold_left (add_item now db config) (pc_items config) ([], [], []) in
  Some {|
    psd_title := pc_title config; psd_overall := rollup units;
    psd_groups := map (fun name =>
      let groupItems := default [] (map_get name groups) in
      {| psg_name := name;
         psg_status := rollup (map (fun it => {| u_status := psi_status it; critical := false |}) groupItems);
         psg_items := groupItems |}) order;
    psd_generatedAt := toISOString now;
    psd_description := trimmed (pc_description config);
    psd_notice := match trimmed (notice_message <$> pc_notice config) with
                  | Some _ => pc_notice config | None => None end |}.
End snapshot.

(** ** Theorems *)

Lemma trim_idem s : trim (trim s) = trim s.
Proof.
  assert (He : forall s, trimEnd (trimEnd s) = trimEnd s).
  { clear s. intros s. induction s as [|c s IH]; [done|]. simpl. destruct (trimEnd s) as [|d t] eqn:Ht.
    - destruct (is_space c) eqn:Hc; simpl; by rewrite ?Hc.
    - cbn [trimEnd]. cbn [trimEnd] in IH. by rewrite IH. }
  assert (Hs : forall s, trimStart (trimEnd (trimStart s)) = trimEnd (trimStart s)).
  { clear s. intros s. induction s as [|c s IH]; [done|]. simpl. destruct (is_space c) eqn:Hc; [done|].
    simpl. destruct (trimEnd s) as [|d t]; rewrite ?Hc; simpl; by rewrite Hc. }
  unfold trim. by rewrite Hs, He.
Qed.

Lemma trimmed_idem s : trimmed (trimmed s) = trimmed s.
Proof.
  destruct s as [s|]; [|done]. cbn [trimmed]. destruct (String.eqb (trim s) "") eqn:He; [done|].
  cbn [trimmed]. by rewrite trim_idem, He.
Qed.

#[local] Arguments trim : simpl never.
#[local] Arguments normalizeNoticeLevel : simpl never.

Section config_theorems.
Context {T : Type -> Type} {ST : Store T} {LT : StoreLaws T}.

(** What is kept of a configuration: the description is there, the notice has a text without
    surrounding spaces and one of the three levels. *)
Definition normal_config (dto : PublicConfigDTO) : PublicConfigDTO := {|
  pc_enabled := pc_enabled dto; pc_title := pc_title dto;
  pc_description := Some (default "" (pc_description dto)); pc_showUptime := pc_showUptime dto;
  pc_showHistory := pc_showHistory dto; pc_historyDays := pc_historyDays dto;
  pc_notice :=
    match pc_notice dto with
    | Some n => if String.eqb (trim (notice_message n)) "" then None
                else Some {| notice_level := normalizeNoticeLevel (Some (notice_level n));
                             notice_message := trim (notice_message n) |}
    | None => None end;
  pc_items := pc_items dto |}.

Lemma normalizeNoticeLevel_idem v : normalizeNoticeLevel (Some (normalizeNoticeLevel v)) = normalizeNoticeLevel v.
Proof.
  destruct v as [s|]; [|done]. unfold normalizeNoticeLevel.
  by destruct (String.eqb s "maintenance" || String.eqb s "incident") eqn:He; [rewrite He|].
Qed.

Lemma getPublicConfig_update now (db : T PublicConfigRow) dto : unique_key pub_id db ->
  getPublicConfig (fst (updatePublicConfig now db dto)) = normal_config dto.
Proof.
  intros Hu. unfold updatePublicConfig. cbn [fst]. unfold getPublicConfig.
  assert (Hrow : exists createdAt, select_first is_singleton
    (upsert publicConfig_conflict (public_values now dto SINGLETON_ID now)
      (fun r => public_values now dto (pub_id r) (pub_createdAt r)) db)
    = Some (public_values now dto SINGLETON_ID createdAt)).
  { rewrite (select_first_upsert pub_id SINGLETON_ID); [|done| | |done].
    2: { intros x. apply String.eqb_eq. }
    2: { intros x. unfold publicConfig_conflict. rewrite String.eqb_eq. cbn. split; congruence. }
    rewrite decide_True by done. destruct (select_first is_singleton db) as [x|] eqn:Hs.
    - apply select_first_Some in Hs as [_ Hx%String.eqb_eq]. rewrite Hx. by eexists.
    - by eexists. }
  destruct Hrow as [createdAt ->]. unfold public_values, normal_config. cbn. f_equal.
  rewrite trimmed_idem. destruct (pc_notice dto) as [[level message]|]; [|done]. cbn.
  destruct (String.eqb (trim message) ""); [done|]. f_equal. f_equal.
  exact (normalizeNoticeLevel_idem (Some level)).
Qed.

(** A configuration written is the one read back, in the normal form of its description and
    notice, and a configuration that was read is written without change. *)
Theorem public_config_round_trip now now' (db : T PublicConfigRow) dto (Hu : unique_key pub_id db) :
  let '(db', stored) := updatePublicConfig now db dto in
  stored = normal_config dto /\ getPublicConfig db' = stored /\
  snd (updatePublicConfig now' db' (getPublicConfig db')) = getPublicConfig db'.
Proof.
  pose proof (getPublicConfig_update now db dto Hu) as H1.
  destruct (updatePublicConfig now db dto) as [db' stored] eqn:Hup. cbn [fst] in H1.
  assert (Hs : stored = getPublicConfig db') by (unfold updatePublicConfig in Hup; by simplify_eq).
  assert (Hu' : unique_key pub_id db').
  { unfold updatePublicConfig in Hup. simplify_eq. apply unique_key_upsert; [done| |done].
    intros x Hx. unfold publicConfig_conflict. cbn in *. by rewrite Hx. }
  rewrite Hs. split; [done|]. split; [done|].
  change (snd (updatePublicConfig now' db' (getPublicConfig db')))
    with (getPublicConfig (fst (updatePublicConfig now' db' (getPublicConfig db')))).
  rewrite getPublicConfig_update, H1 by done. unfold normal_config. cbn. f_equal.
  destruct (pc_notice dto) as [[level message]|]; [|done]. cbn.
  destruct (String.eqb (trim message) "") eqn:He; [done|]. cbn. rewrite trim_idem, He. f_equal. f_equal.
  exact (normalizeNoticeLevel_idem (Some level)).
Qed.
End config_theorems.

(** Ids of agents and monitors, and the names of the monitored entities, under other names. *)
Record Disguise : Type := { on_agent : string -> string; on_monitor : string -> string; on_entity : string -> string }.

Record faithful (d : Disguise) : Prop := {
  agent_inj : Inj (=) (=) (on_agent d); monitor_inj : Inj (=) (=) (on_monitor d);
  entity_inj : Inj (=) (=) (on_entity d);
  agent_empty : on_agent d "" = ""; entity_empty : on_entity d "" = ""
}.

Lemma eqb_inj (f : string -> string) a b : Inj (=) (=) f -> String.eqb (f a) (f b) = String.eqb a b.
Proof.
  intros Hf. destruct (String.eqb_spec a b) as [->|Hne]; [apply String.eqb_refl|].
  apply String.eqb_neq. by intros H%Hf.
Qed.

Section privacy.
Context {T : Type -> Type} {ST : Store T} (d : Disguise) (Hd : faithful d).

Definition disguise_item (i : PublicItem) : PublicItem := {|
  item_kind := item_kind i;
  item_refId := if String.eqb (item_kind i) "agent" then on_agent d (item_refId i)
                else on_monitor d (item_refId i);
  item_label := item_label i; item_group := item_group i |}.

(** The second state is the first under the disguise: ids and names are replaced throughout, and
    what the page does not show (host names, addresses, configurations, samples) is arbitrary. *)
Record disguised (db db' : StatusDb T) : Prop := {
  dis_config : rows (sd_publicConfig db') =
    map (fun r => set_pub_items (map disguise_item (pub_items r)) r) (rows (sd_publicConfig db));
  dis_agents : Forall2 (fun a a' => agent_id a' = on_agent d (agent_id a) /\
    agent_status a' = agent_status a /\ agent_lastSeenAt a' = agent_lastSeenAt a)
    (rows (sd_agents db)) (rows (sd_agents db'));
  dis_monitors : Forall2 (fun m m' => mon_id m' = on_monitor d (mon_id m) /\
    mon_agentId m' = on_agent d (mon_agentId m) /\ mon_name m' = on_entity d (mon_name m) /\
    mon_enabled m' = mon_enabled m) (rows (sd_monitors db)) (rows (sd_monitors db'));
  dis_states : Forall2 (fun s s' => us_sourceId s' = on_agent d (us_sourceId s) /\
    us_entity s' = on_entity d (us_entity s) /\ us_status s' = us_status s)
    (rows (sd_unitStates db)) (rows (sd_unitStates db'));
  dis_buckets : Forall2 (fun b b' => ub_sourceId b' = on_agent d (ub_sourceId b) /\
    ub_entity b' = on_entity d (ub_entity b) /\ ub_bucketStart b' = ub_bucketStart b /\
    ub_upSec b' = ub_upSec b /\ ub_totalSec b' = ub_totalSec b)
    (rows (sd_uptimeBuckets db)) (rows (sd_uptimeBuckets db'))
}.

Lemma filter_Forall2 {A} (R : A -> A -> Prop) (p p' : A -> bool) l l' :
  Forall2 R l l' -> (forall a a', R a a' -> p' a' = p a) ->
  Forall2 R (List.filter p l) (List.filter p' l').
Proof.
  intros Hl Hp. induction Hl as [|a a' l l' Ha _ IH]; [constructor|]. cbn [List.filter].
  rewrite (Hp _ _ Ha). by destruct (p a); [constructor|].
Qed.

Lemma select_first_Forall2 {A} (R : A -> A -> Prop) (p p' : A -> bool) (t t' : T A) :
  Forall2 R (rows t) (rows t') -> (forall a a', R a a' -> p' a' = p a) ->
  option_Forall2 R (select_first p t) (select_first p' t').
Proof.
  intros Hl Hp. unfold select_first, select. pose proof (filter_Forall2 R p p' _ _ Hl Hp) as Hf.
  destruct Hf; by constructor.
Qed.

Lemma nonblank_map (f : string -> string) s : Inj (=) (=) f -> f "" = "" -> nonblank (f <$> s) = f <$> nonblank s.
Proof.
  intros Hf H0. destruct s as [s|]; [|done]. cbn. rewrite <- H0 at 1. rewrite eqb_inj by done.
  by destruct (String.eqb s "").
Qed.

Context (db db' : StatusDb T) (Hdb : disguised db db').

Lemma agentStatus_disguised now refId :
  agentStatus now (sd_agents db') (on_agent d refId) = agentStatus now (sd_agents db) refId.
Proof.
  unfold agentStatus. destruct (select_first_Forall2 _
    (fun a => String.eqb (agent_id a) refId) (fun a => String.eqb (agent_id a) (on_agent d refId)) _ _
    (dis_agents _ _ Hdb)) as [a a' (_ & -> & ->)|]; [|done..].
  intros a a' (-> & _). apply eqb_inj, (agent_inj _ Hd).
Qed.

Lemma monitorStatus_disguised refId :
  monitorStatus db' (on_monitor d refId) =
  let '(status, sourceId, entity) := monitorStatus db refId in
  (status, on_agent d <$> sourceId, on_entity d <$> entity).
Proof.
  unfold monitorStatus. destruct (select_first_Forall2 _
    (fun a => String.eqb (mon_id a) refId) (fun a => String.eqb (mon_id a) (on_monitor d refId)) _ _
    (dis_monitors _ _ Hdb)) as [m m' (_ & -> & -> & ->)|]; [|..|done].
  { intros a a' (-> & _). apply eqb_inj, (monitor_inj _ Hd). }
  destruct (mon_enabled m); [|done]. cbn.
  destruct (select_first_Forall2 _
    (fun s => String.eqb (us_sourceId s) (mon_agentId m) && String.eqb (us_entity s) (mon_name m))
    (fun s => String.eqb (us_sourceId s) (on_agent d (mon_agentId m)) &&
              String.eqb (us_entity s) (on_entity d (mon_name m))) _ _
    (dis_states _ _ Hdb)) as [s s' (_ & _ & ->)|]; [|done..].
  intros a a' (-> & -> & _). by rewrite !eqb_inj by apply Hd.
Qed.

(** Buckets that agree on what the sums read. *)
Definition same_bucket (b b' : UptimeBucketRow) : Prop :=
  ub_bucketStart b' = ub_bucketStart b /\ ub_upSec b' = ub_upSec b /\ ub_totalSec b' = ub_totalSec b.

Lemma buckets_disguised (p : UptimeBucketRow -> bool) sourceId entity :
  (forall b b', same_bucket b b' -> p b' = p b) ->
  Forall2 same_bucket
    (select (fun b => of_source sourceId entity b && p b) (sd_uptimeBuckets db))
    (select (fun b => of_source (on_agent d sourceId) (on_entity d <$> entity) b && p b) (sd_uptimeBuckets db')).
Proof.
  intros Hp. eapply Forall2_impl; [eapply filter_Forall2; [exact (dis_buckets _ _ Hdb)|]|].
  - intros b b' (Hs & He & Hb). f_equal; [|by apply Hp]. unfold of_source. rewrite Hs, He.
    rewrite eqb_inj by apply Hd. f_equal.
    rewrite nonblank_map by (exact (entity_inj _ Hd) || exact (entity_empty _ Hd)). destruct (nonblank entity); [|done]. cbn. apply eqb_inj, Hd.
  - by intros b b' (_ & _ & Hb).
Qed.

Lemma fold_same {S} (f : S -> UptimeBucketRow -> S) l l' s :
  Forall2 same_bucket l l' -> (forall s b b', same_bucket b b' -> f s b' = f s b) ->
  fold_left f l' s = fold_left f l s.
Proof.
  intros Hl Hf. revert s. induction Hl as [|b b' l l' Hb _ IH]; intros s; [done|].
  cbn [fold_left]. by rewrite (Hf _ _ _ Hb), IH.
Qed.

Lemma select_true {A} (p : A -> bool) (t : T A) : select p t = select (fun a => p a && true) t.
Proof. unfold select. apply filter_ext. intros a. by rewrite andb_true_r. Qed.

Lemma uptimePctFor_disguised sourceId entity :
  uptimePctFor (sd_uptimeBuckets db') (on_agent d sourceId) (on_entity d <$> entity) =
  uptimePctFor (sd_uptimeBuckets db) sourceId entity.
Proof.
  unfold uptimePctFor. rewrite (select_true (of_source sourceId entity)),
    (select_true (of_source (on_agent d sourceId) _)).
  pose proof (buckets_disguised (fun _ => true) sourceId entity ltac:(done)) as Hl.
  rewrite (Forall2_length _ _ _ Hl). rewrite (fold_same add_bucket _ _ _ Hl); [done|].
  intros s b b' (_ & Hu & Ht). unfold add_bucket. by rewrite Hu, Ht.
Qed.

Lemma uptimeHistoryFor_disguised now sourceId entity days :
  uptimeHistoryFor now (sd_uptimeBuckets db') (on_agent d sourceId) (on_entity d <$> entity) days =
  uptimeHistoryFor now (sd_uptimeBuckets db) sourceId entity days.
Proof.
  unfold uptimeHistoryFor. cbv zeta. erewrite fold_same; [done|apply buckets_disguised|].
  - intros b b' (-> & _). done.
  - intros s b b' (Hs & Hu & Ht). unfold add_to_day, add_bucket. by rewrite Hs, Hu, Ht.
Qed.

Lemma resolveItem_disguised now config config' cfg :
  pc_showUptime config' = pc_showUptime config -> pc_showHistory config' = pc_showHistory config ->
  pc_historyDays config' = pc_historyDays config ->
  resolveItem now db' config' (disguise_item cfg) = resolveItem now db config cfg.
Proof.
  intros H1 H2 H3. unfold resolveItem. rewrite H1, H2, H3. cbn [item_kind item_refId disguise_item].
  set (who := if String.eqb (item_kind cfg) "agent" then (agentStatus now (sd_agents db) _, _, _) else _).
  assert (Hwho : (if String.eqb (item_kind cfg) "agent" then
      (agentStatus now (sd_agents db') (if String.eqb (item_kind cfg) "agent" then on_agent d (item_refId cfg)
         else on_monitor d (item_refId cfg)),
       Some (if String.eqb (item_kind cfg) "agent" then on_agent d (item_refId cfg)
         else on_monitor d (item_refId cfg)), None)
      else monitorStatus db' (if String.eqb (item_kind cfg) "agent" then on_agent d (item_refId cfg)
         else on_monitor d (item_refId cfg)))
    = let '(status, sourceId, entity) := who in (status, on_agent d <$> sourceId, on_entity d <$> entity)).
  { unfold who. destruct (String.eqb (item_kind cfg) "agent");
      [by rewrite agentStatus_disguised|apply monitorStatus_disguised]. }
  rewrite Hwho. destruct who as [[status sourceId] entity].
  rewrite nonblank_map by (exact (agent_inj _ Hd) || exact (agent_empty _ Hd)). destruct (nonblank sourceId) as [source|]; [|done].
  cbn [fmap option_fmap option_map]. by rewrite uptimePctFor_disguised, uptimeHistoryFor_disguised.
Qed.

Lemma getPublicConfig_disguised :
  let config := getPublicConfig (sd_publicConfig db) in
  getPublicConfig (sd_publicConfig db') = {|
    pc_enabled := pc_enabled config; pc_title := pc_title config; pc_description := pc_description config;
    pc_showUptime := pc_showUptime config; pc_showHistory := pc_showHistory config;
    pc_historyDays := pc_historyDays config; pc_notice := pc_notice config;
    pc_items := map disguise_item (pc_items config) |}.
Proof.
  cbv zeta. unfold getPublicConfig, select_first, select. rewrite (dis_config _ _ Hdb).
  induction (rows (sd_publicConfig db)) as [|r l IH]; [done|]. cbn [map List.filter].
  change (is_singleton (set_pub_items (map disguise_item (pub_items r)) r)) with (is_singleton r).
  destruct (is_singleton r); [done|exact IH].
Qed.

(** C37: the snapshot does not depend on the ids of agents and monitors, on the names of the
    monitored entities, nor on any column it does not show: two states that differ only in them
    serve the same page. *)
Theorem status_private now : buildPublicStatus now db' = buildPublicStatus now db.
Proof.
  unfold buildPublicStatus. rewrite getPublicConfig_disguised. cbv zeta.
  set (config := getPublicConfig (sd_publicConfig db)). cbn [pc_enabled pc_items pc_title pc_description pc_notice].
  destruct (pc_enabled config); [|done]. cbn [negb].
  enough (Hf : forall config' items s, pc_showUptime config' = pc_showUptime config ->
    pc_showHistory config' = pc_showHistory config -> pc_historyDays config' = pc_historyDays config ->
    fold_left (add_item now db' config') (map disguise_item items) s = fold_left (add_item now db config) items s)
    by (by rewrite Hf).
  intros config' items s H1 H2 H3. revert s. induction items as [|i items IH]; intros s; [done|].
  cbn [map fold_left]. rewrite IH. f_equal. unfold add_item, status_item.
  by rewrite (resolveItem_disguised now config config' i H1 H2 H3).
Qed.
End privacy.

Section groups.
Context {T : Type -> Type} {ST : Store T}.
Context (now : Z) (db : StatusDb T) (config : PublicConfigDTO).

Definition first_use (acc : list string) (name : string) : list string :=
  if includes acc name then acc else acc ++ [name].

(** The names in the order of their first use, each once. *)
Definition first_uses (names : list string) : list string := fold_left first_use names [].

Definition item_unit (it : PublicStatusItem) : Unit_ := {| u_status := psi_status it; critical := false |}.

(** The items of a group, in the order of the configuration. *)
Definition group_items (name : string) (items : list PublicItem) : list PublicStatusItem :=
  map (status_item now db config) (List.filter (fun i => String.eqb (group_name i) name) items).

Lemma first_use_spec acc name x :
  (x ∈ first_use acc name <-> x ∈ acc \/ x = name) /\ (NoDup acc -> NoDup (first_use acc name)).
Proof.
  unfold first_use. destruct (includes acc name) eqn:Hi.
  - apply includes_true in Hi. split; [|done]. split; [by left|]. by intros [?| ->].
  - apply includes_false in Hi. rewrite elem_of_app, list_elem_of_singleton. split; [done|].
    intros Hnd. apply NoDup_app. split; [done|]. split; [|apply NoDup_singleton].
    intros y Hy ->%list_elem_of_singleton. done.
Qed.

Lemma first_uses_snoc names name : first_uses (names ++ [name]) = first_use (first_uses names) name.
Proof. unfold first_uses. by rewrite fold_left_app. Qed.

Lemma first_uses_spec names : NoDup (first_uses names) /\ forall x, x ∈ first_uses names <-> x ∈ names.
Proof.
  induction names as [|name names IH] using rev_ind; [split; [constructor|done]|].
  rewrite first_uses_snoc. split; [by apply (proj2 (first_use_spec _ name name)), (proj1 IH)|].
  intros x. rewrite (proj1 (first_use_spec _ _ x)), elem_of_app, list_elem_of_singleton.
  by rewrite (proj2 IH).
Qed.

Lemma build_spec items :
  let '(groups, order, units) := fold_left (add_item now db config) items ([], [], []) in
  order = first_uses (map group_name items) /\
  units = map (fun i => item_unit (status_item now db config i)) items /\
  forall name, map_get name groups =
    if includes (map group_name items) name then Some (group_items name items) else None.
Proof.
  induction items as [|i items IH] using rev_ind; [done|].
  rewrite fold_left_app. cbn [fold_left].
  destruct (fold_left _ items _) as [[groups order] units]. destruct IH as (-> & -> & Hg).
  rewrite !map_app. cbn [map]. rewrite first_uses_snoc. unfold add_item. cbv zeta.
  assert (Hitems : forall name, group_items name (items ++ [i]) = group_items name items ++
    (if String.eqb (group_name i) name then [status_item now db config i] else [])).
  { intros name. unfold group_items. rewrite List.filter_app, map_app. cbn [List.filter].
    by destruct (String.eqb (group_name i) name). }
  assert (Hmem : forall name, includes (map group_name items ++ [group_name i]) name =
    includes (map group_name items) name || String.eqb name (group_name i)).
  { intros name. unfold includes. rewrite existsb_app. cbn [existsb]. by rewrite orb_false_r. }
  assert (Hnone : forall name, includes (map group_name items) name = false -> group_items name items = []).
  { intros name Hn%includes_false. unfold group_items.
    destruct (List.filter _ items) as [|j l] eqn:Hf; [done|]. destruct Hn.
    assert (Hj : j ∈ List.filter (fun i => String.eqb (group_name i) name) items) by (rewrite Hf; left).
    apply elem_of_filterb in Hj as [Hj <-%String.eqb_eq]. apply elem_of_map. by exists j. }
  assert (Hfu : includes (first_uses (map group_name items)) (group_name i) =
                includes (map group_name items) (group_name i)).
  { apply eq_true_iff_eq. by rewrite !includes_true, (proj2 (first_uses_spec _)). }
  unfold first_use. rewrite Hfu, (Hg (group_name i)).
  destruct (includes (map group_name items) (group_name i)) eqn:Hi; (split; [done|split; [done|]]);
    intros name; rewrite Hmem, Hitems; rewrite (String.eqb_sym name).
  - destruct (String.eqb_spec (group_name i) name) as [<-|Hne].
    + rewrite map_get_set_eq, Hg, Hi. done.
    + rewrite map_get_set_ne, Hg, orb_false_r, app_nil_r by done. done.
  - destruct (String.eqb_spec (group_name i) name) as [<-|Hne].
    + by rewrite map_get_set_eq, map_get_set_eq, orb_true_r, (Hnone _ Hi).
    + by rewrite map_get_set_ne, map_get_set_ne, Hg, orb_false_r, app_nil_r.
Qed.

(** Without critical units, the rollup is DEGRADED as soon as one is down, UP when all are up. *)
Lemma rollup_items its :
  let r := rollup (map item_unit its) in
  (r = DEGRADED <-> exists it, it ∈ its /\ isBad (psi_status it) = true) /\
  (r = UP <-> its <> [] /\ forall it, it ∈ its -> psi_status it = UP) /\
  (r = UP \/ r = DEGRADED \/ r = UNKNOWN).
Proof.
  cbv zeta. rewrite rollup_unfold.
  assert (existsb (fun u => critical u && isBad (u_status u)) (map item_unit its) = false) as ->.
  { apply existsb_false. by intros u (it & -> & _)%elem_of_map. }
  assert (Hb : existsb (fun u => negb (critical u) && isBad (u_status u)) (map item_unit its) = true <->
    exists it, it ∈ its /\ isBad (psi_status it) = true).
  { rewrite existsb_true. split.
    - intros (u & (it & -> & Hit)%elem_of_map & Hu). by exists it.
    - intros (it & Hit & Hu). exists (item_unit it). split; [apply elem_of_map; by exists it|done]. }
  assert (Hu : negb (bool_decide (map item_unit its = [])) && forallb (fun u => status_eqb (u_status u) UP)
      (map item_unit its) = true <-> its <> [] /\ forall it, it ∈ its -> psi_status it = UP).
  { rewrite andb_true_iff, negb_true_iff, bool_decide_eq_false, forallb_true. split; intros [Hne Hall];
      (split; [by destruct its|]).
    - intros it Hit. apply status_eqb_true, (Hall (item_unit it)). apply elem_of_map. by exists it.
    - intros u (it & -> & Hit)%elem_of_map. apply status_eqb_true. by apply Hall. }
  rewrite <- Hb, <- Hu. destruct (existsb _ _) eqn:He.
  - split; [done|]. split; [|by right; left]. split; [done|]. intros [_ Hall]%Hu.
    destruct (proj1 Hb eq_refl) as (it & Hit & Hbad). by rewrite (Hall it Hit) in Hbad.
  - destruct (_ && _); split; try done; split; try done; auto.
Qed.
End groups.

Section page.
Context {T : Type -> Type} {ST : Store T}.

Lemma elem_of_group_items now (db : StatusDb T) config name items it :
  it ∈ group_items now db config name items <->
  exists i, i ∈ items /\ group_name i = name /\ it = status_item now db config i.
Proof.
  unfold group_items. rewrite elem_of_map. split.
  - intros (i & -> & [Hi <-%String.eqb_eq]%elem_of_filterb). by exists i.
  - intros (i & Hi & <- & ->). exists i. split; [done|]. apply elem_of_filterb. by rewrite String.eqb_refl.
Qed.

(** The whole is as the groups are, when each item is in the group of its name. *)
Lemma rollup_groups now (db : StatusDb T) config items (mk : string -> PublicStatusGroup) names :
  (forall name, name ∈ names <-> name ∈ map group_name items) ->
  (forall name, name ∈ names -> psg_items (mk name) = group_items now db config name items /\
     psg_status (mk name) = rollup (map item_unit (psg_items (mk name)))) ->
  let overall := rollup (map item_unit (map (status_item now db config) items)) in
  (overall = DEGRADED <-> exists g, g ∈ map mk names /\ psg_status g = DEGRADED) /\
  (overall = UP <-> map mk names <> [] /\ forall g, g ∈ map mk names -> psg_status g = UP).
Proof.
  intros Hn Hmk. cbv zeta.
  destruct (rollup_items (map (status_item now db config) items)) as (Hd & Hu & _). rewrite Hd, Hu.
  assert (Hin : forall i, i ∈ items -> group_name i ∈ names)
    by (intros i Hi; apply Hn, elem_of_map; by exists i).
  split; split.
  - intros (it & (i & -> & Hi)%elem_of_map & Hbad). exists (mk (group_name i)).
    destruct (Hmk _ (Hin i Hi)) as [Hits ->]. split; [apply elem_of_map; eauto|].
    apply rollup_items. exists (status_item now db config i). split; [|done].
    rewrite Hits. apply elem_of_group_items. eauto.
  - intros (g & (name & -> & Hname)%elem_of_map & Hg). destruct (Hmk _ Hname) as [Hits Hst].
    rewrite Hst in Hg. apply rollup_items in Hg as (it & Hit & Hbad). exists it. split; [|done].
    rewrite Hits in Hit. apply elem_of_group_items in Hit as (i & Hi & _ & ->). apply elem_of_map. eauto.
  - intros [Hne Hall]. split.
    + destruct items as [|i items]; [done|]. intros He%map_eq_nil. rewrite He in Hin.
      specialize (Hin i ltac:(left)). by apply not_elem_of_nil in Hin.
    + intros g (name & -> & Hname)%elem_of_map. destruct (Hmk _ Hname) as [Hits ->].
      apply rollup_items. rewrite Hits. split.
      * apply Hn, elem_of_map in Hname as (i & -> & Hi). intros He.
        assert (Hit : status_item now db config i ∈ group_items now db config (group_name i) items)
          by (apply elem_of_group_items; eauto). rewrite He in Hit. by apply not_elem_of_nil in Hit.
      * intros it (i & Hi & _ & ->)%elem_of_group_items. apply Hall, elem_of_map. eauto.
  - intros [Hne Hall]. split.
    + intros He%map_eq_nil. destruct names as [|name names]; [done|].
      assert (Hname : name ∈ map group_name items) by (apply Hn; left). rewrite He in Hname.
      by apply not_elem_of_nil in Hname.
    + intros it (i & -> & Hi)%elem_of_map. specialize (Hall (mk (group_name i))).
      destruct (Hmk _ (Hin i Hi)) as [Hits Hst]. rewrite Hst in Hall.
      assert (Hup : rollup (map item_unit (psg_items (mk (group_name i)))) = UP)
        by (apply Hall, elem_of_map; eauto).
      apply rollup_items in Hup as [_ Hup]. apply Hup. rewrite Hits. apply elem_of_group_items. eauto.
Qed.

(** The page is served exactly when it is enabled. Its groups are the distinct group names in
    the order of their first use, each with the items of that name in the order of the
    configuration; every item is in one of them. A group, and the whole page, is UP when all its
    items are, DEGRADED when one is down or hangs, and never DOWN. *)
Theorem page_groups now (db : StatusDb T) :
  let config := getPublicConfig (sd_publicConfig db) in
  match buildPublicStatus now db with
  | None => pc_enabled config = false
  | Some page =>
      pc_enabled config = true /\
      map psg_name (psd_groups page) = first_uses (map group_name (pc_items config)) /\
      NoDup (map psg_name (psd_groups page)) /\
      (forall g, g ∈ psd_groups page ->
         psg_items g = group_items now db config (psg_name g) (pc_items config) /\ psg_items g <> [] /\
         (psg_status g = DEGRADED <-> exists it, it ∈ psg_items g /\ isBad (psi_status it) = true) /\
         (psg_status g = UP <-> forall it, it ∈ psg_items g -> psi_status it = UP)) /\
      (forall i, i ∈ pc_items config ->
         exists g, g ∈ psd_groups page /\ status_item now db config i ∈ psg_items g) /\
      (psd_overall page = DEGRADED <-> exists g, g ∈ psd_groups page /\ psg_status g = DEGRADED) /\
      (psd_overall page = UP <-> psd_groups page <> [] /\ forall g, g ∈ psd_groups page -> psg_status g = UP)
  end.
Proof.
  cbv zeta. unfold buildPublicStatus. cbv zeta. set (config := getPublicConfig (sd_publicConfig db)).
  destruct (pc_enabled config); [|done]. cbn [negb].
  pose proof (build_spec now db config (pc_items config)) as Hb. set (items := pc_items config) in *.
  destruct (fold_left _ items _) as [[groups order] units]. destruct Hb as (-> & -> & Hg).
  cbn [psd_groups psd_overall]. rewrite <- (map_map (status_item now db config) item_unit).
  set (mk := fun name => {| psg_name := name; psg_status := _; psg_items := _ |}).
  set (names := first_uses (map group_name items)).
  destruct (first_uses_spec (map group_name items)) as [Hnd Hn]. fold names in Hnd, Hn.
  assert (Hmk : forall name, name ∈ names -> psg_items (mk name) = group_items now db config name items /\
    psg_status (mk name) = rollup (map item_unit (psg_items (mk name)))).
  { intros name Hname%Hn. unfold mk. cbn. by rewrite Hg, (proj2 (includes_true _ _) Hname). }
  assert (Hnames : map psg_name (map mk names) = names) by (rewrite map_map; apply map_id).
  split; [done|]. split; [done|]. split; [by rewrite Hnames|]. split; [|split; [|by apply rollup_groups]].
  - intros g (name & -> & Hname)%elem_of_map. destruct (Hmk name Hname) as [Hits ->].
    apply Hn, elem_of_map in Hname as (i & -> & Hi). split; [done|].
    assert (Hne : psg_items (mk (group_name i)) <> []).
    { rewrite Hits. intros He. assert (Hit : status_item now db config i ∈ group_items now db config (group_name i) items)
        by (apply elem_of_group_items; eauto). rewrite He in Hit. by apply not_elem_of_nil in Hit. }
    split; [done|]. destruct (rollup_items (psg_items (mk (group_name i)))) as (Hd & Hu & _).
    split; [done|]. rewrite Hu. split; [by intros [_ ?]|by split].
  - intros i Hi. exists (mk (group_name i)). assert (Hin : group_name i ∈ names)
      by (apply Hn, elem_of_map; eauto).
    split; [apply elem_of_map; eauto|]. rewrite (proj1 (Hmk _ Hin)). apply elem_of_group_items. eauto.
Qed.
End page.

#[local] Ltac Zify.zify_post_hook ::= Z.to_euclidean_division_equations.

Section history.
Context {T : Type -> Type} {ST : Store T}.
Context (now : Z) (buckets : T UptimeBucketRow) (sourceId : string) (entity : option string) (days : Z).

Definition sum_of {A} (f : A -> Z) (l : list A) : Z := foldr (fun a n => f a + n) 0 l.

(** The buckets of a UTC day, given by its number. *)
Definition day_buckets (day : Z) : list UptimeBucketRow :=
  select (fun b => of_source sourceId entity b && (day_of (ub_bucketStart b) =? day)) buckets.

Lemma fold_add_bucket l acc :
  fold_left add_bucket l acc = (acc.1 + sum_of ub_upSec l, acc.2 + sum_of ub_totalSec l).
Proof.
  unfold sum_of. revert acc. induction l as [|b l IH]; intros [up total]; [cbn; f_equal; lia|].
  cbn [fold_left foldr]. rewrite IH. unfold add_bucket. cbn [fst snd]. f_equal; lia.
Qed.

Lemma map_get_add_to_day key l byDay :
  default (0, 0) (map_get key (fold_left add_to_day l byDay)) =
  fold_left add_bucket (List.filter (fun b => String.eqb (day_key (ub_bucketStart b)) key) l)
    (default (0, 0) (map_get key byDay)).
Proof.
  revert byDay. induction l as [|b l IH]; intros byDay; [done|]. cbn [fold_left List.filter].
  rewrite IH. unfold add_to_day at 1. cbv zeta.
  destruct (String.eqb_spec (day_key (ub_bucketStart b)) key) as [->|Hne].
  - rewrite map_get_set_eq. done.
  - by rewrite map_get_set_ne.
Qed.

Lemma filter_twice {A} (p q : A -> bool) l :
  List.filter q (List.filter p l) = List.filter (fun a => p a && q a) l.
Proof.
  induction l as [|a l IH]; [done|]. cbn [List.filter]. destruct (p a); cbn [List.filter andb]; by rewrite IH.
Qed.

Lemma day_pct_default acc : day_pct acc = day_pct (Some (default (0, 0) acc)).
Proof. by destruct acc. Qed.

Lemma day_key_inj t t' : iso_range t -> iso_range t' -> (day_key t = day_key t' <-> day_of t = day_of t').
Proof.
  intros Ht Ht'. unfold day_key, toISOString.
  rewrite !slice0_app by (by apply iso_date_length). split; [|by intros ->].
  intros He. pose proof (iso_day_fields t Ht "") as H. rewrite str_app_nil_r, He in H.
  pose proof (iso_day_fields t' Ht' "") as H'. rewrite str_app_nil_r, H in H'.
  injection H' as H'. unfold utc_midnight, MS_DAY in H'. lia.
Qed.

Lemma round_pct up total : 0 <= up <= total -> 0 < total ->
  0 <= js_round (inject_Z up / inject_Z total * 100) <= 100.
Proof.
  intros Hu Ht.
  assert (Hp : (0 < inject_Z total)%Q) by (change 0%Q with (inject_Z 0); by rewrite <- Zlt_Qlt).
  assert (H0 : (0 <= inject_Z up / inject_Z total)%Q)
    by (apply Qle_shift_div_l; [done|]; rewrite Qmult_0_l; change 0%Q with (inject_Z 0); rewrite <- Zle_Qle; lia).
  assert (H1 : (inject_Z up / inject_Z total <= 1)%Q)
    by (apply Qle_shift_div_r; [done|]; rewrite Qmult_1_l, <- Zle_Qle; lia).
  set (q := (inject_Z up / inject_Z total)%Q) in *.
  split; [apply (js_round_mono 0)|apply (js_round_mono _ 100)]; lra.
Qed.

(** The history has a cell per day of the window, the oldest first; the cell of a day is the
    rounded share of the up time over the buckets of that UTC day, null without a recorded second,
    and within 0 and 100 for buckets that count no more up time than time. *)
Theorem uptime_history_spec
    (Hnow : iso_range now) (Hstart : iso_range (now - (days - 1) * MS_DAY))
    (Hb : forall b, b ∈ rows buckets -> iso_range (ub_bucketStart b)) :
  let history := uptimeHistoryFor now buckets sourceId entity days in
  List.length history = Z.to_nat days /\
  forall i, (i < Z.to_nat days)%nat ->
    let bs := day_buckets (day_of now - (days - 1) + Z.of_nat i) in
    let up := sum_of ub_upSec bs in
    let total := sum_of ub_totalSec bs in
    history !! i = Some (if 0 <? total then Some (js_round (inject_Z up / inject_Z total * 100)) else None) /\
    ((forall b, b ∈ rows buckets -> 0 <= ub_upSec b <= ub_totalSec b) ->
     forall p, history !! i = Some (Some p) -> 0 <= p <= 100).
Proof.
  cbv zeta. unfold uptimeHistoryFor. cbv zeta. split; [by rewrite length_map, length_seq|].
  intros i Hi. set (day := day_of now - (days - 1) + Z.of_nat i).
  assert (Hday : utc_midnight (now - (days - 1) * MS_DAY) + Z.of_nat i * MS_DAY = day * MS_DAY)
    by (unfold day, utc_midnight, day_of, MS_DAY; lia).
  assert (Hiso : iso_range (day * MS_DAY)).
  { unfold iso_range, day, day_of, MS_DAY in *. lia. }
  rewrite list_lookup_fmap, lookup_seq_lt by done. cbn [fmap option_fmap option_map]. rewrite Nat.add_0_l, Hday.
  rewrite day_pct_default, map_get_add_to_day. cbn [map_get default].
  assert (Hf : List.filter (fun b => String.eqb (day_key (ub_bucketStart b)) (day_key (day * MS_DAY)))
      (select (fun b => of_source sourceId entity b && (utc_midnight (now - (days - 1) * MS_DAY) <=? ub_bucketStart b)) buckets)
    = day_buckets day).
  { unfold day_buckets, select. rewrite filter_twice. apply filter_ext_in. intros b Hin%list_elem_of_In.
    assert (Hk : String.eqb (day_key (ub_bucketStart b)) (day_key (day * MS_DAY)) = (day_of (ub_bucketStart b) =? day)).
    { apply eq_true_iff_eq. rewrite String.eqb_eq, Z.eqb_eq, day_key_inj by auto.
      unfold day_of at 2, MS_DAY. rewrite Z.div_mul by lia. done. }
    rewrite Hk. destruct (of_source sourceId entity b); [|done]. cbn [andb].
    destruct (day_of (ub_bucketStart b) =? day) eqn:He; [|apply andb_false_r].
    rewrite andb_true_r. apply Z.leb_le. unfold day, utc_midnight, day_of, MS_DAY in *. lia. }
  rewrite Hf, fold_add_bucket. cbn [fst snd]. rewrite !Z.add_0_l. split; [done|].
  intros Hle p. cbn [day_pct]. destruct (0 <? _) eqn:Ht; [|done]. intros [= <-]. apply round_pct; [|lia].
  assert (Hall : forall b, b ∈ day_buckets day -> 0 <= ub_upSec b <= ub_totalSec b)
    by (intros b [Hin _]%elem_of_select; by apply Hle).
  clear -Hall. unfold sum_of. induction (day_buckets day) as [|b l IH]; cbn [foldr]; [lia|].
  pose proof (Hall b ltac:(left)). specialize (IH ltac:(intros c Hc; apply Hall; by right)). lia.
Qed.
End history.

(** ** Witnesses *)

Definition w_page (refs : string * string) : PublicConfigRow := {|
  pub_id := "default"; pub_enabled := true; pub_title := "Status"; pub_description := None;
  pub_showUptime := true; pub_showHistory := true; pub_historyDays := 2; pub_noticeLevel := None;
  pub_noticeMessage := Some "  "; pub_createdAt := 0; pub_updatedAt := 0;
  pub_items := [
    {| item_kind := "agent"; item_refId := refs.1; item_label := "Web"; item_group := Some "Site " |};
    {| item_kind := "monitor"; item_refId := refs.2; item_label := "Mail"; item_group := None |};
    {| item_kind := "agent"; item_refId := refs.1; item_label := "API"; item_group := Some "Site" |}] |}.

Definition w_status_agent (id name : string) : AgentRow := {|
  agent_id := id; agent_name := name; agent_kind := "windows"; agent_hostname := Some name;
  agent_platform := None; agent_address := None; agent_status := "approved"; agent_version := None;
  agent_lastSeenAt := Some 86400000; agent_approvedAt := None; agent_pushIntervalSec := None;
  agent_metadata := None; agent_createdAt := 0; agent_updatedAt := 0 |}.

Definition w_status_monitor (id agentId name : string) : MonitorRow := {|
  mon_id := id; mon_agentId := agentId; mon_type := "service"; mon_name := name; mon_enabled := true;
  mon_config := []; mon_createdAt := 0; mon_updatedAt := 0 |}.

Definition w_status_state (sourceId entity : string) : UnitStateRow := {|
  us_sourceId := sourceId; us_entity := entity; us_status := "DOWN"; us_pid := None; us_critical := false;
  us_sample := None; us_updatedAt := 0 |}.

Definition w_status_bucket (sourceId entity : string) (start up : Z) : UptimeBucketRow := {|
  ub_id := "b"; ub_sourceId := sourceId; ub_entity := entity; ub_bucketStart := start; ub_upSec := up;
  ub_totalSec := 3600; ub_statusSummary := None |}.

Definition w_statusDb (agent host monitor entity : string) : StatusDb list := {|
  sd_publicConfig := [w_page (agent, monitor)]; sd_agents := [w_status_agent agent host];
  sd_monitors := [w_status_monitor monitor agent entity]; sd_unitStates := [w_status_state agent entity];
  sd_uptimeBuckets := [w_status_bucket agent entity 3600000 3600; w_status_bucket agent entity 90000000 1800] |}.

Definition w_disguise : Disguise :=
  let f s := if String.eqb s "" then "" else String "x" s in
  {| on_agent := f; on_monitor := f; on_entity := f |}.

Lemma w_faithful : faithful w_disguise.
Proof.
  assert (Hf : Inj (=) (=) (fun s => if String.eqb s "" then "" else String "x" s)).
  { intros a b. destruct (String.eqb_spec a "") as [->|], (String.eqb_spec b "") as [->|]; congruence. }
  by split.
Qed.

Lemma status_private_witness :
  buildPublicStatus (T := list) 90000000 (w_statusDb "xa1" "host-b" "xm1" "xspooler") =
  buildPublicStatus (T := list) 90000000 (w_statusDb "a1" "host-a" "m1" "spooler") /\
  psg_items <$> (psd_groups <$> buildPublicStatus (T := list) 90000000 (w_statusDb "a1" "host-a" "m1" "spooler")) ≫= head =
  Some [{| psi_label := "Web"; psi_status := DOWN; psi_uptimePct := Some (7500 # 100);
           psi_history := Some [Some 100; Some 50] |};
        {| psi_label := "API"; psi_status := DOWN; psi_uptimePct := Some (7500 # 100);
           psi_history := Some [Some 100; Some 50] |}].
Proof.
  split; [|vm_compute; reflexivity].
  apply (status_private (T := list) (ST := list_store) w_disguise w_faithful).
  split; [reflexivity|repeat constructor..].
Defined.

Lemma public_config_round_trip_witness :
  let dto := {| pc_enabled := true; pc_title := "T"; pc_description := None; pc_showUptime := true;
                pc_showHistory := false; pc_historyDays := 30; pc_items := [];
                pc_notice := Some {| notice_level := "outage"; notice_message := " Down " |} |} in
  pc_notice (getPublicConfig (fst (updatePublicConfig (T := list) 5 [] dto))) =
  Some {| notice_level := "info"; notice_message := "Down" |}.
Proof.
  intros dto.
  pose proof (public_config_round_trip (T := list) (ST := list_store) 5 6 [] dto (NoDup_nil_2)) as H.
  destruct (updatePublicConfig (T := list) (ST := list_store) 5 [] dto) as [db' stored].
  destruct H as (Hs & Hg & _). cbn [fst]. rewrite Hg, Hs. reflexivity.
Defined.

Lemma uptime_history_spec_witness :
  let buckets := [w_status_bucket "a" "e" 3600000 3600; w_status_bucket "a" "e" 90000000 1800;
                  w_status_bucket "a" "e" 93600000 0] in
  uptimeHistoryFor (T := list) 180000000 buckets "a" (Some "e") 3 = [Some 100; Some 25; None] /\
  uptimeHistoryFor (T := list) 180000000 buckets "a" (Some "e") 3 !! 1%nat = Some (Some 25).
Proof.
  intros buckets. split; [vm_compute; reflexivity|].
  destruct (uptime_history_spec (T := list) (ST := list_store) 180000000 buckets "a" (Some "e") 3) as [_ H].
  - unfold iso_range. lia.
  - unfold iso_range, MS_DAY. lia.
  - intros b Hb. unfold iso_range. apply list_elem_of_In in Hb.
    repeat (destruct Hb as [<-|Hb]; [cbn; lia|]). destruct Hb.
  - rewrite (proj1 (H 1%nat ltac:(cbn; lia))). vm_compute. reflexivity.
Defined.
