(* ===== verification/Regex.v ===== *)
(** * Regular expressions of JavaScript

    The backtracking matcher of the language, for the expressions the source uses: classes, their
    greedy and lazy repetition, sequences, alternatives, optional parts, groups, and the anchors.
    A pattern is tried in the order the language prescribes, so the groups hold what [exec] gives. *)
From S2P Require Import Prelude Text.

Inductive re : Type :=
| Empty
| Class (p : ascii -> bool)                                   (* [p] *)
| Rep (greedy : bool) (low : nat) (high : option nat) (p : ascii -> bool)  (* [p]{low,high} *)
| Cat (a b : re)
| Alt (a b : re)                                              (* a|b *)
| Opt (a : re)                                                (* (?:a)? *)
| Group (n : nat) (a : re)                                    (* (a) *)
| Start | End | Boundary.                                     (* ^ $ \b *)

(** The groups set so far. *)
Definition groups : Type := list (nat * string).

Definition is_word_char (c : ascii) : bool :=
  let n := code c in
  ((48 <=? n) && (n <=? 57)) || ((65 <=? n) && (n <=? 90)) || ((97 <=? n) && (n <=? 122)) || (n =? 95).

Definition word_at (c : option ascii) : bool := match c with Some c => is_word_char c | None => false end.
Definition first_char (s : string) : option ascii :=
  match s with String c _ => Some c | EmptyString => None end.

(** The part of [s] before its end [rest]. *)
Definition consumed (s rest : string) : string :=
  substring 0 (String.length s - String.length rest) s.

Section matcher.
Context {R : Type}.
(** What remains to be matched: the character before, the text ahead and the groups. *)
Definition cont : Type := option ascii -> string -> groups -> option R.

Definition orElse (a : option R) (b : unit -> option R) : option R :=
  match a with Some r => Some r | None => b tt end.

(** A class repeated: as many characters as possible first, or as few. *)
Fixpoint match_rep (greedy : bool) (low : nat) (high : option nat) (p : ascii -> bool) (k : cont)
    (prev : option ascii) (s : string) (g : groups) : option R :=
  let more (_ : unit) :=
    match s, high with
    | _, Some O => None
    | String c s', _ => if p c then match_rep greedy (pred low) (option_map pred high) p k (Some c) s' g else None
    | EmptyString, _ => None
    end in
  match low with
  | S _ => more tt
  | O => if greedy then orElse (more tt) (fun _ => k prev s g) else orElse (k prev s g) more
  end.

Fixpoint match_re (r : re) (k : cont) (prev : option ascii) (s : string) (g : groups) : option R :=
  match r with
  | Empty => k prev s g
  | Class p => match s with String c s' => if p c then k (Some c) s' g else None | EmptyString => None end
  | Rep greedy low high p => match_rep greedy low high p k prev s g
  | Cat a b => match_re a (match_re b k) prev s g
  | Alt a b => orElse (match_re a k prev s g) (fun _ => match_re b k prev s g)
  | Opt a => orElse (match_re a k prev s g) (fun _ => k prev s g)
  | Group n a => match_re a (fun prev' s' g' => k prev' s' ((n, consumed s s') :: g')) prev s g
  | Start => match prev with None => k prev s g | Some _ => None end
  | End => match s with EmptyString => k prev s g | String _ _ => None end
  | Boundary => if xorb (word_at prev) (word_at (first_char s)) then k prev s g else None
  end.
End matcher.

(** A match from one position on. *)
Definition match_at (r : re) (prev : option ascii) (s : string) : option (string * groups) :=
  match_re r (fun _ rest g => Some (consumed s rest, g)) prev s [].

(** [re.exec(s)]: the leftmost match and its groups. *)
Fixpoint exec_from (r : re) (prev : option ascii) (s : string) : option (string * groups) :=
  match match_at r prev s with
  | Some m => Some m
  | None => match s with String c s' => exec_from r (Some c) s' | EmptyString => None end
  end.
Definition exec (r : re) (s : string) : option (string * groups) := exec_from r None s.

(** [re.test(s)] *)
Definition test (r : re) (s : string) : bool := match exec r s with Some _ => true | None => false end.

(** The text of a group, when it took part in the match. *)
Definition group (n : nat) (m : string * groups) : option string :=
  option_map snd (List.find (fun x => Nat.eqb (fst x) n) (snd m)).

(** ** Notations for the patterns *)

Definition cats : list re -> re := fold_right Cat Empty.
Definition lit (w : string) : re :=
  cats (map (fun c => Class (Ascii.eqb c)) (list_ascii_of_string w)).
Definition plus (p : ascii -> bool) : re := Rep true 1 None p.
Definition star (p : ascii -> bool) : re := Rep true 0 None p.
Definition one_of (cs : string) (c : ascii) : bool := has_char c cs.
Definition none_of (cs : string) (c : ascii) : bool := negb (has_char c cs).
Definition digit_char (c : ascii) : bool := (48 <=? code c) && (code c <=? 57).
Definition alnum (c : ascii) : bool :=
  digit_char c || ((65 <=? code c) && (code c <=? 90)) || ((97 <=? code c) && (code c <=? 122)).
(** [.]: no line terminator *)
Definition any_char (c : ascii) : bool := negb (Ascii.eqb c "010") && negb (Ascii.eqb c "013").
Definition alts (ws : list string) : re :=
  match ws with
  | [] => Empty
  | w :: ws => fold_left (fun r w => Alt r (lit w)) ws (lit w)
  end.

(** ** The language of a pattern

    What [test] accepts, for a pattern without groups or boundaries: the reference the matcher is
    proved against for the whole-text checks, [^[p]{low,high}$]. *)

Definition whole (low high : nat) (p : ascii -> bool) : re := cats [Start; Rep true low (Some high) p; End].

Fixpoint forall_char (p : ascii -> bool) (s : string) : bool :=
  match s with EmptyString => true | String c s' => p c && forall_char p s' end.

Lemma match_rep_whole {R} low high p (k : cont (R := R)) prev s g :
  (forall prev s g, s <> "" -> k prev s g = None) ->
  (forall prev g, exists r, k prev "" g = Some r) ->
  (low <= high)%nat ->
  (exists r, match_rep true low (Some high) p k prev s g = Some r) <->
  forall_char p s = true /\ (low <= String.length s <= high)%nat.
Proof.
  intros Hk1 Hk2. revert low high prev. induction s as [|c s IH]; intros low high prev Hlh.
  - cbn [match_rep]. destruct low as [|low].
    + destruct high; cbn; (split; [intros _; split; [done|lia]|intros _; apply Hk2]).
    + destruct high; cbn; (split; [by intros [? ?]|intros [_ ?]; lia]).
  - cbn [match_rep forall_char String.length]. rewrite andb_true_iff.
    destruct high as [|high].
    + destruct low as [|low]; [|lia]. cbn [orElse]. rewrite Hk1 by done.
      split; [by intros [? ?]|intros [_ ?]; lia].
    + cbn [option_map Nat.pred]. destruct (p c).
      * assert (He : (exists r, match low with
            | O => orElse (match_rep true (Nat.pred low) (Some high) p k (Some c) s g) (fun _ => k prev (String c s) g)
            | S _ => match_rep true (Nat.pred low) (Some high) p k (Some c) s g end = Some r) <->
          exists r, match_rep true (Nat.pred low) (Some high) p k (Some c) s g = Some r).
        { destruct low as [|low]; [|done]. destruct (match_rep _ _ _ _ _ _ _ _); cbn; [done|].
          rewrite Hk1 by done. done. }
        rewrite (IH (Nat.pred low) high (Some c)) in He by lia.
        destruct low as [|low]; cbn [Nat.pred] in *; (etransitivity; [exact He|]); intuition lia.
      * destruct low as [|low]; cbn [orElse]; rewrite ?Hk1 by done;
          (split; [by intros [? ?]|intros [[? _] _]; done]).
Qed.

(** The check of a whole text against a class. *)
Lemma test_whole low high p s : (low <= high)%nat ->
  test (whole low high p) s = forall_char p s && (Nat.leb low (String.length s) && Nat.leb (String.length s) high).
Proof.
  intros Hlh. apply eq_true_iff_eq. unfold test, exec.
  assert (Hlater : forall c s, exec_from (whole low high p) (Some c) s = None).
  { intros c t. revert c. induction t as [|d t IH]; intros c; [done|]. cbn. apply IH. }
  assert (Hs : exec_from (whole low high p) None s = match_at (whole low high p) None s).
  { destruct s; cbn [exec_from]; destruct (match_at _ _ _); [done|done|done|apply Hlater]. }
  rewrite Hs. unfold match_at, whole, cats. cbn [fold_right match_re].
  set (k := fun (prev : option ascii) (t : string) (g : groups) => _ : option (string * groups)).
  pose proof (match_rep_whole low high p k None s []) as Hm.
  rewrite !andb_true_iff, !Nat.leb_le, <- Hm; [| |by intros prev g; eexists|done].
  - destruct (match_rep _ _ _ _ k None s []); split; try done; [by eexists|by intros [? ?]].
  - intros prev t g Ht. unfold k. by destruct t.
Qed.
