(* ===== verification/Smb.v ===== *)
(** * Reading a network share

    Models apps/backend/src/services/smb.ts: the parsing of what [smbclient] prints, the bounded walk
    of a folder tree and the probe of a share. [smbclient] itself is outside of the repository: the
    answer to a command, after the commands sent before it, is an argument, as are the clock and the
    cancellation, read once per turn of the walk, and [localeCompare]. *)
From S2P Require Import Prelude Dates Text Regex.

(** ** Patterns *)

Definition BACKSLASH : ascii := "\".
Definition backslash (c : ascii) : bool := Ascii.eqb BACKSLASH c.
Definition separator (c : ascii) : bool := one_of "\/" c.

Definition host_char (c : ascii) : bool := alnum c || one_of ".-" c.
Definition share_char (c : ascii) : bool := alnum c || one_of " ._$-" c.
Definition sub_char (c : ascii) : bool := alnum c || one_of " ._-/\" c.
Definition HOST_RE : re := whole 1 253 host_char.
Definition SHARE_RE : re := whole 1 80 share_char.
Definition SUB_RE : re := whole 0 255 sub_char.

Definition MAX_FOLDERS : nat := 3000.
Definition MAX_LS_CALLS : nat := 6000.
Definition WALK_BUDGET_MS : Z := 180000.
Definition MAX_SUBDIRS_PER_DIR : nat := 4000.

Definition UNC_RE : re :=
  cats [Start; Class backslash; plus backslash; Group 1 (plus (fun c => negb (separator c))); plus separator;
        Group 2 (plus (fun c => negb (separator c))); Opt (Cat (plus separator) (Group 3 (star any_char))); End].

Definition CAP_RE : re :=
  cats [Group 1 (plus digit_char); plus is_space; lit "blocks of size"; plus is_space;
        Group 2 (plus digit_char); lit "."; plus is_space; Group 3 (plus digit_char); plus is_space;
        lit "blocks available"].

Definition ENTRY_RE : re :=
  cats [Start; plus is_space; Group 1 (Rep false 1 None any_char); plus is_space;
        Group 2 (plus (one_of "DAHNRSET")); plus is_space; Group 3 (plus digit_char); plus is_space;
        alts ["Sun"; "Mon"; "Tue"; "Wed"; "Thu"; "Fri"; "Sat"]; Boundary].

Record Unc : Type := { host : string; share : string; base : string }.

(** [s.replace(/\//g, BACKSLASH)] *)
Definition backslashed : string -> string :=
  map_string (fun c => if Ascii.eqb c "/" then BACKSLASH else c).

Definition parseUnc (path : string) : option Unc :=
  let! m := exec UNC_RE (trim path) otherwise None in
  Some {| host := default "" (group 1 m); share := default "" (group 2 m);
          base := backslashed (default "" (group 3 m)) |}.

(** Leading and trailing separators removed. *)
Fixpoint strip_start (s : string) : string :=
  match s with String c s' => if backslash c then strip_start s' else s | EmptyString => "" end.
Fixpoint strip_end (s : string) : string :=
  match s with
  | EmptyString => ""
  | String c s' => match strip_end s' with
                   | EmptyString => if backslash c then "" else String c ""
                   | t => String c t end
  end.
Definition normSub (sub : string) : string :=
  let s := strip_end (strip_start (backslashed (trim sub))) in
  if String.eqb s "." then "" else s.

(** ** Listings *)

Definition isSystemFolder (name : string) : bool :=
  match name with
  | EmptyString => false
  | String c _ =>
      one_of "@." c || includes ["#recycle"; "$RECYCLE.BIN"; "System Volume Information"; "lost+found"] name
  end.

Record DirListing : Type := { dirs : list string; fileBytes : Z; fileCount : Z }.

(** [Number] of a run of digits. *)
Definition Number_digits (s : string) : Z := let '(v, _, _) := digits 0 0 s in v.

Definition add_line (l : DirListing) (line : string) : DirListing :=
  let! e := exec ENTRY_RE line otherwise l in
  let name := trim (default "" (group 1 e)) in
  if String.eqb name "." || String.eqb name ".." then l
  else if has_char "D" (default "" (group 2 e)) then
    if isSystemFolder name then l
    else {| dirs := dirs l ++ [name]; fileBytes := fileBytes l; fileCount := fileCount l |}
  else {| dirs := dirs l; fileBytes := fileBytes l + Number_digits (default "" (group 3 e));
          fileCount := fileCount l + 1 |}.

Definition parseDir (out : string) : DirListing :=
  fold_left add_line (split_on "010" out) {| dirs := []; fileBytes := 0; fileCount := 0 |}.

(** ** The walk *)

Record Node : Type := { rel : string; bytes : Z; files : Z; subdirs : Z; depth : Z }.
Record Totals : Type := { t_folders : Z; t_files : Z; t_bytes : Z }.
Record ScanProgress : Type := { sp_folders : Z; sp_files : Z; sp_bytes : Z; sp_current : string }.

(** How a command fails. *)
Record SmbError : Type := { stderr : option string; message : string }.

(** What a walk keeps and does: the nodes in the order of their creation, the totals shared by the
    walks of a probe, the commands sent, the progress reported and the turns made. *)
Record Walk : Type := {
  wk_nodes : list (string * Node); wk_totals : Totals; wk_sent : list string;
  wk_progress : list ScanProgress; wk_turns : nat; wk_partial : bool
}.

Definition join_path (a b : string) : string := a +:+ String BACKSLASH b.

(** [full(rel)] *)
Definition full (root rel : string) : string :=
  if String.eqb root "" then rel else if String.eqb rel "" then root else join_path root rel.

Definition QUOTE : string := String "034" "".
Definition ls_command (f : string) : string :=
  (if String.eqb f "" then "" else "cd " +:+ QUOTE +:+ f +:+ QUOTE +:+ "; ") +:+ "ls".

(** [p.lastIndexOf(BACKSLASH)] and the part before it, the empty text when there is none. *)
Fixpoint parent (p : string) : string :=
  match p with
  | EmptyString => ""
  | String c p' => if has_char BACKSLASH p' then String c (parent p') else ""
  end.

(** The loop from a directory to the root. *)
Fixpoint ancestors (fuel : nat) (p : string) : list string :=
  match fuel with
  | O => []
  | S fuel => p :: (if String.eqb p "" then [] else ancestors fuel (parent p))
  end.

Definition node_at (p : string) (d : Z) (nodes : list (string * Node)) : Node :=
  default {| rel := p; bytes := 0; files := 0; subdirs := 0; depth := d |} (map_get p nodes).

(** [node(rel, depth)] for its creation only *)
Definition ensure_node (p : string) (d : Z) (nodes : list (string * Node)) : list (string * Node) :=
  match map_get p nodes with Some _ => nodes | None => map_set p (node_at p d nodes) nodes end.

Definition depth_of (p : string) : Z :=
  if String.eqb p "" then 0 else Z.of_nat (List.length (split_on BACKSLASH p)).

Definition credit_one (l : DirListing) (nodes : list (string * Node)) (p : string) : list (string * Node) :=
  let n := node_at p (depth_of p) nodes in
  map_set p {| rel := rel n; bytes := bytes n + fileBytes l; files := files n + fileCount l;
               subdirs := subdirs n + Z.of_nat (List.length (dirs l)); depth := depth n |} nodes.

Definition credit (l : DirListing) (r : string) (nodes : list (string * Node)) : list (string * Node) :=
  fold_left (credit_one l) (ancestors (S (String.length r)) r) nodes.

(** The name of a directory below [r]. *)
Definition child (r d : string) : string := if String.eqb r "" then d else join_path r d.

Inductive walk_result : Type :=
| Walked (calls : nat) (w : Walk)
| ScanCancelled (w : Walk).

Section smb.
Context (answer : list string -> string -> result SmbError string) (clock : nat -> Z) (cancelled : nat -> bool).

Definition turn (w : Walk) : Walk := {|
  wk_nodes := wk_nodes w; wk_totals := wk_totals w; wk_sent := wk_sent w; wk_progress := wk_progress w;
  wk_turns := S (wk_turns w); wk_partial := wk_partial w |}.
Definition truncated (w : Walk) : Walk := {|
  wk_nodes := wk_nodes w; wk_totals := wk_totals w; wk_sent := wk_sent w; wk_progress := wk_progress w;
  wk_turns := wk_turns w; wk_partial := true |}.
Definition sent (cmd : string) (w : Walk) : Walk := {|
  wk_nodes := wk_nodes w; wk_totals := wk_totals w; wk_sent := wk_sent w ++ [cmd];
  wk_progress := wk_progress w; wk_turns := wk_turns w; wk_partial := wk_partial w |}.

(** The directories of a listing that are queued. *)
Definition children (maxDepth : Q) (r : string) (d : Z) (l : DirListing) : list (string * Z) :=
  if negb (Qle_bool maxDepth (inject_Z d))
  then map (fun name => (child r name, d + 1)) (firstn MAX_SUBDIRS_PER_DIR (dirs l)) else [].

(** What a listing that was read changes. *)
Definition listed (maxDepth : Q) (root r : string) (d : Z) (l : DirListing) (w : Walk) : Walk :=
  let t := wk_totals w in
  let t := {| t_folders := t_folders t + 1; t_files := t_files t + fileCount l;
              t_bytes := t_bytes t + fileBytes l |} in
  let f := full root r in
  let below := negb (Qle_bool maxDepth (inject_Z d)) in
  {| wk_nodes := fold_left (fun ns c => ensure_node (fst c) (snd c) ns) (children maxDepth r d l)
                   (credit l r (wk_nodes w));
     wk_totals := t; wk_sent := wk_sent w;
     wk_progress := wk_progress w ++ [{| sp_folders := t_folders t; sp_files := t_files t;
       sp_bytes := t_bytes t; sp_current := if String.eqb f "" then "/" else f |}];
     wk_turns := wk_turns w;
     wk_partial := wk_partial w || (below && Nat.ltb MAX_SUBDIRS_PER_DIR (List.length (dirs l))) |}.

(** [while (queue.length)]: the queue shrinks, or a call of the budget is used. *)
Fixpoint walk (maxDepth : Q) (deadline : Z) (root : string) (calls : nat)
  : list (string * Z) -> Walk -> walk_result :=
  fix go (queue : list (string * Z)) (w : Walk) {struct queue} : walk_result :=
  match queue with
  | [] => Walked calls w
  | (r, d) :: queue =>
      if deadline <? clock (wk_turns w) then Walked calls (truncated (turn w)) else
      match calls with
      | O => Walked O (truncated (turn w))
      | S calls' =>
          if cancelled (wk_turns w) then ScanCancelled (turn w) else
          let f := full root r in
          if negb (test SUB_RE f) then go queue (turn w) else
          let cmd := ls_command f in
          match answer (wk_sent w) cmd with
          | Err _ => walk maxDepth deadline root calls' queue (truncated (sent cmd (turn w)))
          | Ok out =>
              let l := parseDir out in
              walk maxDepth deadline root calls' (queue ++ children maxDepth r d l)
                (listed maxDepth root r d l (sent cmd (turn w)))
          end
      end
  end.

(** [walkRoot]: a walk starts from nodes of its own; the totals go on. *)
Definition walkRoot (root : string) (maxDepth : Q) (calls : nat) (deadline : Z) (w : Walk) : walk_result :=
  walk maxDepth deadline root calls [("", 0)] {|
    wk_nodes := []; wk_totals := wk_totals w; wk_sent := wk_sent w; wk_progress := wk_progress w;
    wk_turns := wk_turns w; wk_partial := false |}.

(** ** The probe *)

Record FolderNode : Type := { fn_name : string; fn_sizeBytes : Z; fn_fileCount : Z; fn_folderCount : option Z }.
Record StorageSample : Type := {
  ss_reachable : bool; ss_error : option string; ss_totalBytes : option Z; ss_freeBytes : option Z;
  ss_usedBytes : option Z; ss_usedPct : option Q; ss_folders : option (list FolderNode)
}.
Definition unreachable (error : string) : StorageSample := {|
  ss_reachable := false; ss_error := Some error; ss_totalBytes := None; ss_freeBytes := None;
  ss_usedBytes := None; ss_usedPct := None; ss_folders := None |}.

Record SmbWatch : Type := { watch_sub : string; watch_depth : number }.
Record Root : Type := { root_sub : string; root_depth : Q; root_label : string }.

(** [Math.max(1, Math.min(6, d || 1))] *)
Definition clamp_depth (d : number) : Q :=
  match d with
  | NaN | NegInf => 1
  | PosInf => 6
  | Fin q => if Qeq_bool q 0 then 1 else
             let m := if Qle_bool q 6 then q else 6%Q in if Qle_bool 1 m then m else 1
  end.

Definition watch_root (base : string) (w : SmbWatch) : option Root :=
  let sub := normSub (watch_sub w) in
  let f := if String.eqb base "" then sub else if String.eqb sub "" then base else join_path base sub in
  if test SUB_RE f then Some {| root_sub := f; root_depth := clamp_depth (watch_depth w); root_label := sub |}
  else None.

Definition probe_roots (base : string) (folders : bool) (watch : list SmbWatch) : list Root :=
  let roots := omap (watch_root base) watch in
  if folders && Nat.eqb (List.length roots) 0
  then [{| root_sub := base; root_depth := 1; root_label := "" |}] else roots.

(** The folder of the sample for a node of a walk; the root itself is left out of an unnamed tree. *)
Definition folder_of (label : string) (n : Node) : option FolderNode :=
  if String.eqb label "" && (depth n <? 1) then None else
  let relSlash := map_string (fun c => if backslash c then "/"%char else c) (rel n) in
  let name := if String.eqb label "" then relSlash
              else if String.eqb (rel n) "" then label else label +:+ "/" +:+ relSlash in
  Some {| fn_name := name; fn_sizeBytes := bytes n; fn_fileCount := files n; fn_folderCount := Some (subdirs n) |}.

(** Capacity as the listing of the share prints it. *)
Definition with_capacity (capOut : string) : StorageSample :=
  match exec CAP_RE capOut with
  | None => {| ss_reachable := true; ss_error := None; ss_totalBytes := None; ss_freeBytes := None;
               ss_usedBytes := None; ss_usedPct := None; ss_folders := None |}
  | Some cap =>
      let num n := Number_digits (default "" (group n cap)) in
      let total := num 1%nat * num 2%nat in
      let free := num 3%nat * num 2%nat in
      let used := Z.max 0 (total - free) in
      {| ss_reachable := true; ss_error := None; ss_totalBytes := Some total; ss_freeBytes := Some free;
         ss_usedBytes := Some used;
         ss_usedPct := if 0 <? total then Some (inject_Z used / inject_Z total * 100)%Q else None;
         ss_folders := None |}
  end.

(** The first line with text of what was printed, or the message; 200 characters at most. *)
Definition error_text (e : SmbError) : string :=
  let msg := default (message e)
    (match stderr e with
     | Some t => List.find (fun l => truthy (trim l)) (split_on "010" t) | None => None end) in
  slice0 200 (if String.eqb msg "" then "smb error" else msg).

Definition TRUNCATED : string :=
  "folder tree truncated — very large share; lower the depth or it will fill in over successive scans".

Inductive probe_result : Type :=
| Probed (sample : StorageSample) (w : Walk)
| ProbeCancelled (w : Walk).

Definition no_walk : Walk := {|
  wk_nodes := []; wk_totals := {| t_folders := 0; t_files := 0; t_bytes := 0 |}; wk_sent := [];
  wk_progress := []; wk_turns := 0; wk_partial := false |}.

(** The walks of the roots, one after the other on one budget; [None] when one was cancelled. *)
Fixpoint walk_roots (deadline : Z) (roots : list Root) (calls : nat) (w : Walk) (folders : list FolderNode)
    (partial : bool) : (list FolderNode * bool * Walk) + Walk :=
  match roots with
  | [] => inl (folders, partial, w)
  | r :: roots =>
      if negb (test SUB_RE (root_sub r)) then walk_roots deadline roots calls w folders partial else
      match walkRoot (root_sub r) (root_depth r) calls deadline w with
      | ScanCancelled w => inr w
      | Walked calls w =>
          walk_roots deadline roots calls w
            (folders ++ omap (folder_of (root_label r)) (map snd (wk_nodes w))) (partial || wk_partial w)
      end
  end.

Definition smbProbe (path_gt : string -> string -> bool) (start : Z) (path : string) (folders : bool)
    (watch : list SmbWatch) : probe_result :=
  match parseUnc path with
  | None => Probed (unreachable "invalid \\host\share path") no_walk
  | Some unc =>
      if negb (test HOST_RE (host unc) && test SHARE_RE (share unc))
      then Probed (unreachable "invalid \\host\share path") no_walk
      else match answer [] (ls_command "") with
      | Err e => Probed (unreachable (error_text e)) (sent (ls_command "") no_walk)
      | Ok capOut =>
          let sample := with_capacity capOut in
          match walk_roots (start + WALK_BUDGET_MS) (probe_roots (base unc) folders watch) MAX_LS_CALLS
                  (sent (ls_command "") no_walk) [] false with
          | inr w => ProbeCancelled w
          | inl (fs, partial, w) =>
              Probed {|
                ss_reachable := true; ss_error := if partial then Some TRUNCATED else ss_error sample;
                ss_totalBytes := ss_totalBytes sample; ss_freeBytes := ss_freeBytes sample;
                ss_usedBytes := ss_usedBytes sample; ss_usedPct := ss_usedPct sample;
                ss_folders := match fs with
                  | [] => None
                  | _ => Some (firstn MAX_FOLDERS (js_sort (fun a b => path_gt (fn_name a) (fn_name b)) fs))
                  end |} w
          end
      end
  end.
End smb.

(** ** Examples *)

Example unc_base : parseUnc " \\nas\data\a/b " = Some {| host := "nas"; share := "data"; base := "a\b" |}.
Proof. reflexivity. Qed.
Example unc_none : parseUnc "\nas\data" = None.
Proof. reflexivity. Qed.

Definition w_listing : string :=
  let nl := String "010" "" in
  "  .                    D        0  Mon Jan  1 10:00:00 2024" +:+ nl +:+
  "  Photos 2020          D        0  Mon Jan  1 10:00:00 2024" +:+ nl +:+
  "  @Recycle            DH        0  Mon Jan  1 10:00:00 2024" +:+ nl +:+
  "  a b.txt              A     1234  Tue Jan  2 10:00:00 2024" +:+ nl +:+
  "  z.bin                N       66  Tue Jan  2 10:00:00 2024" +:+ nl +:+
  "		1000 blocks of size 4096. 250 blocks available".

Example listing_parsed : parseDir w_listing = {| dirs := ["Photos 2020"]; fileBytes := 1300; fileCount := 2 |}.
Proof. vm_compute. reflexivity. Qed.

Example capacity_parsed :
  let s := with_capacity w_listing in
  (ss_totalBytes s, ss_usedBytes s, Qred <$> ss_usedPct s) = (Some 4096000, Some 3072000, Some 75%Q).
Proof. vm_compute. reflexivity. Qed.

(** ** Theorems *)

Lemma sub_re_spec f : test SUB_RE f = true <-> forall_char sub_char f = true /\ (String.length f <= 255)%nat.
Proof.
  unfold SUB_RE. rewrite test_whole by lia. rewrite !andb_true_iff, !Nat.leb_le. intuition lia.
Qed.

Lemma forall_char_absent p c s : forall_char p s = true -> p c = false -> has_char c s = false.
Proof.
  intros Hs Hc. induction s as [|d s IH]; [done|]. cbn in *. apply andb_true_iff in Hs as [Hd Hs].
  destruct (Ascii.eqb_spec d c) as [->|Hne]; [congruence|]. by apply IH.
Qed.

(** *** The ancestors of a directory *)

Lemma parent_split p : has_char BACKSLASH p = true ->
  exists t, p = join_path (parent p) t /\ has_char BACKSLASH t = false.
Proof.
  induction p as [|c p IH]; [done|]. cbn [has_char parent]. destruct (has_char BACKSLASH p) eqn:Hp.
  - intros _. destruct (IH eq_refl) as (t & He & Ht). exists t. split; [|done].
    unfold join_path in *. by rewrite app_cons_string, <- He.
  - rewrite orb_false_r. intros ->%Ascii.eqb_eq. by exists p.
Qed.

Lemma parent_none p : has_char BACKSLASH p = false -> parent p = "".
Proof. destruct p as [|c p]; [done|]. cbn. destruct (has_char BACKSLASH p); [by rewrite orb_true_r|done]. Qed.

Lemma parent_shorter p : p <> "" -> (String.length (parent p) < String.length p)%nat.
Proof.
  intros Hne. destruct (has_char BACKSLASH p) eqn:Hp.
  - destruct (parent_split p Hp) as (t & He & _). rewrite He at 2. unfold join_path.
    rewrite str_length_app. cbn. lia.
  - rewrite (parent_none p Hp). destruct p; [done|cbn; lia].
Qed.

(** [r] is [p] or below it. *)
Definition at_or_below (p r : string) : bool :=
  String.eqb p "" || String.eqb p r || startsWith (join_path p "") r.

Lemma starts_split p r : startsWith p r = true <-> exists t, r = p +:+ t.
Proof.
  unfold startsWith. revert r. induction p as [|c p IH]; intros r.
  - split; [by exists r|]. intros _. by destruct r.
  - destruct r as [|d r]; [split; [done|by intros [t ?]]|]. simpl.
    destruct (ascii_dec c d) as [->|Hne].
    + rewrite IH. split.
      * intros [t ->]. by exists t.
      * intros [t [= ->]]. by exists t.
    + split; [done|]. by intros [t [= ->]].
Qed.

Lemma join_path_prefix p q t : has_char BACKSLASH t = false ->
  startsWith (join_path p "") (join_path q t) = true <-> p = q \/ startsWith (join_path p "") q = true.
Proof.
  intros Ht. rewrite !starts_split. unfold join_path. split.
  - revert q. induction p as [|c p IH]; intros q [u Hu].
    + destruct q as [|d q]; [by left|]. right. cbn in Hu. injection Hu as <- Hu. by exists q.
    + destruct q as [|d q].
      * cbn in Hu. injection Hu as <- Hu. exfalso. rewrite Hu, !has_char_app in Ht.
        cbn in Ht. by destruct (has_char BACKSLASH p).
      * rewrite !app_cons_string in Hu. injection Hu as <- Hu.
        destruct (IH q) as [->|[v ->]]; [by exists u|by left|]. right. exists v. by rewrite !app_cons_string.
  - intros [->|[u ->]].
    + exists t. by rewrite str_app_assoc.
    + exists (u +:+ String BACKSLASH t). by rewrite !str_app_assoc.
Qed.

Lemma below_parent p r : r <> "" -> at_or_below p r = true <-> p = r \/ at_or_below p (parent r) = true.
Proof.
  intros Hne. unfold at_or_below. rewrite !orb_true_iff, !String.eqb_eq.
  destruct (has_char BACKSLASH r) eqn:Hr.
  - destruct (parent_split r Hr) as (t & He & Ht). set (q := parent r) in *.
    assert (Hp : startsWith (join_path p "") r = true <-> p = q \/ startsWith (join_path p "") q = true)
      by (rewrite He; by apply join_path_prefix). rewrite Hp. tauto.
  - rewrite (parent_none r Hr).
    assert (Hs : startsWith (join_path p "") r = true <-> False).
    { split; [|done]. rewrite starts_split. intros [u ->]. unfold join_path in Hr.
      rewrite !has_char_app in Hr. cbn in Hr. by rewrite orb_true_r in Hr. }
    assert (Hs' : startsWith (join_path p "") "" = true <-> False)
      by (split; [|done]; rewrite starts_split; intros [u Hu]; unfold join_path in Hu; by destruct p).
    rewrite Hs, Hs'. tauto.
Qed.

Lemma ancestors_spec fuel r : (String.length r < fuel)%nat ->
  (forall p, p ∈ ancestors fuel r <-> at_or_below p r = true) /\ NoDup (ancestors fuel r) /\
  forall p, p ∈ ancestors fuel r -> (String.length p <= String.length r)%nat.
Proof.
  revert r. induction fuel as [|fuel IH]; intros r Hf; [lia|]. cbn [ancestors].
  destruct (String.eqb_spec r "") as [->|Hne].
  - split; [|split; [apply NoDup_singleton|by intros p ->%list_elem_of_singleton]].
    intros p. rewrite list_elem_of_singleton. split; [by intros ->|].
    unfold at_or_below. rewrite !orb_true_iff, !String.eqb_eq, starts_split. intros [[?|?]|[u Hu]]; try done.
    unfold join_path in Hu. by destruct p.
  - pose proof (parent_shorter r Hne) as Hlt. destruct (IH (parent r)) as (Hs & Hnd & Hl); [lia|].
    split; [|split].
    + intros p. rewrite elem_of_cons, Hs, (below_parent p r Hne). done.
    + constructor; [|done]. intros Hin%Hl. lia.
    + intros p [->|Hp%Hl]%elem_of_cons; lia.
Qed.

(** *** The walk *)

Section walk_theorems.
Context (answer : list string -> string -> result SmbError string) (clock : nat -> Z) (cancelled : nat -> bool).
Context (maxDepth : Q) (deadline : Z) (root : string).

(** What holds of the queue and the state at each turn holds at the end. *)
Lemma walk_invariant (I : nat -> list (string * Z) -> Walk -> Prop) (P : walk_result -> Prop) :
  (forall calls w, I calls [] w -> P (Walked calls w)) ->
  (forall calls q w, I calls q w -> P (Walked calls (truncated (turn w)))) ->
  (forall calls q w, I calls q w -> P (ScanCancelled (turn w))) ->
  (forall calls r d q w, I calls ((r, d) :: q) w -> test SUB_RE (full root r) = false -> I calls q (turn w)) ->
  (forall calls r d q w, I (S calls) ((r, d) :: q) w -> test SUB_RE (full root r) = true ->
     I calls q (truncated (sent (ls_command (full root r)) (turn w)))) ->
  (forall calls r d q w out, I (S calls) ((r, d) :: q) w -> test SUB_RE (full root r) = true ->
     answer (wk_sent w) (ls_command (full root r)) = Ok out ->
     let l := parseDir out in
     I calls (q ++ children maxDepth r d l)
       (listed maxDepth root r d l (sent (ls_command (full root r)) (turn w)))) ->
  forall calls q w, I calls q w -> P (walk answer clock cancelled maxDepth deadline root calls q w).
Proof.
  intros Hdone Hstop Hcancel Hskip Herr Hok calls. induction calls as [|calls IH]; intros q.
  - induction q as [|[r d] q IHq]; intros w HI; cbn [walk]; [by apply Hdone|].
    destruct (deadline <? clock (wk_turns w)); by eapply Hstop.
  - induction q as [|[r d] q IHq]; intros w HI; cbn [walk]; [by apply Hdone|].
    destruct (deadline <? clock (wk_turns w)); [by eapply Hstop|].
    destruct (cancelled (wk_turns w)); [by eapply Hcancel|].
    destruct (test SUB_RE (full root r)) eqn:Ht; cbn [negb]; [|by apply IHq, (Hskip _ r d)].
    destruct (answer (wk_sent w) (ls_command (full root r))) as [out|e] eqn:Ha; apply IH.
    + by apply (Hok _ r d).
    + by apply (Herr _ r d).
Qed.

Definition result_walk (res : walk_result) : Walk := match res with Walked _ w | ScanCancelled w => w end.

(** The commands that may be sent: a listing of a path without quotes, semicolons or line ends. *)
Definition safe_command (cmd : string) : Prop :=
  exists f, cmd = ls_command f /\ forall_char sub_char f = true /\ (String.length f <= 255)%nat.

Lemma walk_safe calls q w :
  Forall safe_command (wk_sent w) ->
  match walk answer clock cancelled maxDepth deadline root calls q w with
  | Walked calls' w' => Forall safe_command (wk_sent w') /\
      (List.length (wk_sent w') + calls' = List.length (wk_sent w) + calls)%nat
  | ScanCancelled w' => Forall safe_command (wk_sent w') /\
      (List.length (wk_sent w') <= List.length (wk_sent w) + calls)%nat
  end.
Proof.
  intros Hs. set (total := (List.length (wk_sent w) + calls)%nat).
  apply (walk_invariant (fun calls q w => Forall safe_command (wk_sent w) /\
    (List.length (wk_sent w) + calls = total)%nat)); [done|done|cbn; intros; intuition lia|done| | |done];
    intros c r d q' w'; [intros [Hw Hc] Ht|intros out [Hw Hc] Ht _]; cbn;
    rewrite length_app; cbn [List.length]; (split; [|lia]); apply Forall_app; (split; [done|]);
    repeat constructor; exists (full root r); (split; [done|]); by apply sub_re_spec.
Qed.

(** *** What a node sums up *)

(** A directory that was read: its path, its depth and its listing. *)
Definition visit : Type := string * Z * DirListing.
Definition visit_path (v : visit) : string := v.1.1.
Definition visit_listing (v : visit) : DirListing := v.2.

Definition sum_over (f : DirListing -> Z) (p : string) (vs : list visit) : Z :=
  foldr (fun v n => (if at_or_below p (visit_path v) then f (visit_listing v) else 0) + n) 0 vs.

Definition dir_count (l : DirListing) : Z := Z.of_nat (List.length (dirs l)).

(** The node of [p] sums the directories read at or below it. *)
Definition node_sums (vs : list visit) (p : string) (n : Node) : Prop :=
  rel n = p /\ bytes n = sum_over fileBytes p vs /\ files n = sum_over fileCount p vs /\
  subdirs n = sum_over dir_count p vs.

Definition nodes_sum (vs : list visit) (nodes : list (string * Node)) : Prop :=
  (forall p n, map_get p nodes = Some n -> node_sums vs p n) /\
  (forall p v, v ∈ vs -> at_or_below p (visit_path v) = true -> map_get p nodes <> None).

Lemma sum_over_zero f p vs : (forall v, v ∈ vs -> at_or_below p (visit_path v) = false) -> sum_over f p vs = 0.
Proof.
  induction vs as [|v vs IH]; intros H; [done|]. unfold sum_over in *. cbn [foldr].
  rewrite H by left. rewrite IH; [done|]. intros u Hu. apply H. by right.
Qed.

(** A node that is missing sums nothing. *)
Lemma missing_node vs nodes p : nodes_sum vs nodes -> map_get p nodes = None ->
  forall f, sum_over f p vs = 0.
Proof.
  intros [_ Hall] Hn f. apply sum_over_zero. intros v Hv. apply not_true_iff_false. intros Hu.
  by apply (Hall p v Hv Hu).
Qed.

Lemma node_at_sums vs nodes p d : nodes_sum vs nodes -> node_sums vs p (node_at p d nodes).
Proof.
  intros Hs. unfold node_at. destruct (map_get p nodes) as [n|] eqn:Hn; [by apply Hs|].
  unfold node_sums. cbn. by rewrite !(missing_node vs nodes p).
Qed.

Lemma ensure_node_sums vs nodes p d : nodes_sum vs nodes -> nodes_sum vs (ensure_node p d nodes).
Proof.
  intros Hs. unfold ensure_node. destruct (map_get p nodes) eqn:Hn; [done|]. split.
  - intros p' n'. destruct (decide (p = p')) as [<-|Hne].
    + rewrite map_get_set_eq. intros [= <-]. by apply node_at_sums.
    + rewrite map_get_set_ne by done. apply Hs.
  - intros p' v Hv Hu. destruct (decide (p = p')) as [<-|Hne]; [by rewrite map_get_set_eq|].
    rewrite map_get_set_ne by done. by apply (proj2 Hs p' v).
Qed.

(** Crediting the directories [ps] one by one. *)
Lemma credit_fold l ps nodes q : NoDup ps ->
  map_get q (fold_left (credit_one l) ps nodes) =
  if includes ps q
  then let n := node_at q (depth_of q) nodes in
       Some {| rel := rel n; bytes := bytes n + fileBytes l; files := files n + fileCount l;
               subdirs := subdirs n + dir_count l; depth := depth n |}
  else map_get q nodes.
Proof.
  revert nodes. induction ps as [|p ps IH]; intros nodes Hnd; [done|].
  apply NoDup_cons in Hnd as [Hp Hnd]. cbn [fold_left]. rewrite IH by done.
  unfold includes. cbn [existsb]. fold (includes ps q). unfold node_at, credit_one.
  destruct (String.eqb_spec q p) as [->|Hne]; cbn [orb].
  - rewrite (proj2 (includes_false ps p) Hp), map_get_set_eq. done.
  - by rewrite !map_get_set_ne by done.
Qed.

Lemma credit_sums vs nodes r d l : nodes_sum vs nodes -> nodes_sum ((r, d, l) :: vs) (credit l r nodes).
Proof.
  intros Hs. unfold credit. destruct (ancestors_spec (S (String.length r)) r) as (Ha & Hnd & _); [lia|].
  assert (Hin : forall p, includes (ancestors (S (String.length r)) r) p = at_or_below p r)
    by (intros p; apply eq_true_iff_eq; by rewrite includes_true, Ha).
  split.
  - intros p n. rewrite credit_fold, Hin by done. cbv zeta.
    destruct (at_or_below p r) eqn:Hu; intros Hn.
    + destruct (node_at_sums vs nodes p (depth_of p) Hs) as (H1 & H2 & H3 & H4).
      injection Hn as <-. unfold node_sums, sum_over in *. cbn [foldr rel bytes files subdirs visit_path visit_listing fst snd].
      rewrite Hu, H2, H3, H4. split; [done|]. repeat split; lia.
    + destruct (proj1 Hs p n Hn) as (H1 & H2 & H3 & H4). unfold node_sums, sum_over in *.
      cbn [foldr visit_path visit_listing fst snd]. by rewrite Hu.
  - intros p v Hv Hu. rewrite credit_fold, Hin by done. destruct (at_or_below p r) eqn:Hp; [done|].
    apply elem_of_cons in Hv as [->|Hv]; [unfold visit_path in Hu; cbn in Hu; congruence|]. by apply (proj2 Hs p v).
Qed.

(** The listing of a visit is what the share answered for its path. *)
Definition visit_real (v : visit) : Prop :=
  exists before out, answer before (ls_command (full root (visit_path v))) = Ok out /\
    visit_listing v = parseDir out.

Definition totals_after (t : Totals) (vs : list visit) : Totals := {|
  t_folders := t_folders t + Z.of_nat (List.length vs); t_files := t_files t + sum_over fileCount "" vs;
  t_bytes := t_bytes t + sum_over fileBytes "" vs |}.

(** A directory waits in the queue, was read, or its path is not allowed. *)
Definition handled (q : list (string * Z)) (vs : list visit) (r : string) (d : Z) : Prop :=
  (r, d) ∈ q \/ test SUB_RE (full root r) = false \/ exists l, (r, d, l) ∈ vs.

Record walk_state (t0 : Totals) (calls0 calls : nat) (q : list (string * Z)) (w : Walk) (vs : list visit) : Prop := {
  st_real : forall v, v ∈ vs -> visit_real v;
  st_calls : (List.length vs + calls <= calls0)%nat;
  st_nodes : nodes_sum vs (wk_nodes w);
  st_totals : wk_totals w = totals_after t0 vs;
  st_closed : wk_partial w = false -> handled q vs "" 0 /\
    forall r d l name, (r, d, l) ∈ vs -> ~ (maxDepth <= inject_Z d)%Q -> name ∈ dirs l ->
      handled q vs (child r name) (d + 1)
}.

Lemma handled_pop r0 d0 q vs vs' q' r d :
  (test SUB_RE (full root r0) = false \/ exists l, (r0, d0, l) ∈ vs') ->
  (forall x, x ∈ q -> x ∈ q') -> (forall v, v ∈ vs -> v ∈ vs') ->
  handled ((r0, d0) :: q) vs r d -> handled q' vs' r d.
Proof.
  intros H0 Hq Hvs [[[= -> ->]|Hin]%elem_of_cons|[Ht|(l & Hl)]].
  - destruct H0 as [H0|H0]; [by right; left|by right; right].
  - left. by apply Hq.
  - by right; left.
  - right. right. exists l. by apply Hvs.
Qed.

Lemma state_skip t0 calls0 calls r d q w vs : test SUB_RE (full root r) = false ->
  walk_state t0 calls0 calls ((r, d) :: q) w vs -> walk_state t0 calls0 calls q (turn w) vs.
Proof.
  intros Ht [H1 H2 H3 H4 H5]. split; try done. intros Hp. destruct (H5 Hp) as [Hr Hc].
  assert (Hpop : forall r' d', handled ((r, d) :: q) vs r' d' -> handled q vs r' d')
    by (intros r' d'; apply handled_pop; [by left|done|done]).
  split; [by apply Hpop|]. intros r' d' l name Hv Hd Hn. by apply Hpop, (Hc r' d' l).
Qed.

Lemma elem_of_children r d l name : ~ (maxDepth <= inject_Z d)%Q -> name ∈ dirs l ->
  (List.length (dirs l) <= MAX_SUBDIRS_PER_DIR)%nat -> (child r name, d + 1) ∈ children maxDepth r d l.
Proof.
  intros Hd Hn Hl. unfold children. destruct (Qle_bool maxDepth (inject_Z d)) eqn:Hq.
  - by apply Qle_bool_iff in Hq.
  - cbn [negb]. rewrite take_ge by done. apply elem_of_map. by exists name.
Qed.

Lemma state_listed t0 calls0 calls r d q w vs out : test SUB_RE (full root r) = true ->
  answer (wk_sent w) (ls_command (full root r)) = Ok out ->
  walk_state t0 calls0 (S calls) ((r, d) :: q) w vs ->
  let l := parseDir out in
  walk_state t0 calls0 calls (q ++ children maxDepth r d l)
    (listed maxDepth root r d l (sent (ls_command (full root r)) (turn w))) ((r, d, l) :: vs).
Proof.
  intros Ht Ha [H1 H2 H3 H4 H5]. cbv zeta. set (l := parseDir out). split.
  - intros v [->|Hv]%elem_of_cons; [|by apply H1]. by exists (wk_sent w), out.
  - cbn [List.length]. lia.
  - unfold listed. cbn [wk_nodes]. cbv zeta. pose proof (credit_sums vs (wk_nodes w) r d l H3) as Hc.
    revert Hc. cbn [sent turn wk_nodes]. generalize (credit l r (wk_nodes w)).
    induction (children maxDepth r d l) as [|c cs IH]; intros ns Hns; [done|]. cbn [fold_left].
    by apply IH, ensure_node_sums.
  - unfold listed. cbn [wk_totals sent turn]. rewrite H4. unfold totals_after, sum_over. cbn [foldr List.length t_folders t_files t_bytes].
    f_equal; [lia|..]; unfold visit_listing; cbn [snd]; cbn; lia.
  - unfold listed. cbn [wk_partial sent turn]. intros [Hp Hm]%orb_false_iff. destruct (H5 Hp) as [Hr Hc].
    assert (Hpop : forall r' d', handled ((r, d) :: q) vs r' d' ->
      handled (q ++ children maxDepth r d l) ((r, d, l) :: vs) r' d').
    { intros r' d'. apply handled_pop; [right; exists l; left|intros x Hx; apply elem_of_app; by left|].
      intros v Hv. by right. }
    split; [by apply Hpop|]. intros r' d' l' name Hv Hd Hn.
    apply elem_of_cons in Hv as [[= -> -> ->]|Hv]; [|by apply Hpop, (Hc r' d' l')].
    left. apply elem_of_app. right. apply elem_of_children; [done|done|].
    apply andb_false_iff in Hm as [Hm|Hm]; [|by apply Nat.ltb_ge in Hm].
    apply negb_false_iff, Qle_bool_iff in Hm. done.
Qed.

Lemma full_root : full root "" = root.
Proof. unfold full. by destruct (String.eqb_spec root "") as [->|]. Qed.

(** C38: a walk that ends sums, in the node of each directory, the bytes, files and folders of the
    directories it read at or below it, and in the totals those of all it read; it reads at most one
    directory per call of the budget, each from an answer of the share. When the walk is not
    reported as partial, it read the root and every directory within the depth whose path is
    allowed. *)
Theorem walk_rolls_up calls w :
  match walkRoot answer clock cancelled root maxDepth calls deadline w with
  | ScanCancelled _ => True
  | Walked calls' w' => exists vs,
      (forall v, v ∈ vs -> visit_real v) /\ (List.length vs + calls' <= calls)%nat /\
      (forall p n, map_get p (wk_nodes w') = Some n -> node_sums vs p n) /\
      (forall p v, v ∈ vs -> at_or_below p (visit_path v) = true -> map_get p (wk_nodes w') <> None) /\
      wk_totals w' = totals_after (wk_totals w) vs /\
      (wk_partial w' = false -> test SUB_RE root = true ->
         (exists l, ("", 0, l) ∈ vs) /\
         forall r d l name, (r, d, l) ∈ vs -> ~ (maxDepth <= inject_Z d)%Q -> name ∈ dirs l ->
           test SUB_RE (full root (child r name)) = true -> exists l', (child r name, d + 1, l') ∈ vs)
  end.
Proof.
  unfold walkRoot. apply (walk_invariant
    (fun calls' q w' => exists vs, walk_state (wk_totals w) calls calls' q w' vs)).
  - intros calls' w' (vs & [H1 H2 H3 H4 H5]). exists vs. destruct H3 as [H3 H3'].
    repeat (split; [done|]). intros Hp Hroot. destruct (H5 Hp) as [Hr Hc]. split.
    + destruct Hr as [[]%not_elem_of_nil|[Ht|Hl]]; [|done]. rewrite full_root in Ht. congruence.
    + intros r d l name Hv Hd Hn Ht. destruct (Hc r d l name Hv Hd Hn) as [[]%not_elem_of_nil|[Hf|Hl]]; [|done].
      congruence.
  - intros calls' q w' (vs & [H1 H2 H3 H4 H5]). exists vs. destruct H3 as [H3 H3'].
    repeat (split; [done|]). done.
  - done.
  - intros c r d q w' (vs & Hst) Ht. exists vs. by apply (state_skip _ _ _ r d).
  - intros c r d q w' (vs & [H1 H2 H3 H4 H5]) Ht. exists vs. split; try done. lia.
  - intros c r d q w' out (vs & Hst) Ht Ha. eexists. by eapply state_listed.
  - exists []. split; [by intros v []%not_elem_of_nil|cbn; lia| | |].
    + split; [done|]. by intros p v []%not_elem_of_nil.
    + unfold totals_after. cbn. destruct (wk_totals w). cbn. f_equal; lia.
    + intros _. split; [left; left|]. by intros r d l name []%not_elem_of_nil.
Qed.
End walk_theorems.

(** *** The probe *)

Section probe_theorems.
Context (answer : list string -> string -> result SmbError string) (clock : nat -> Z) (cancelled : nat -> bool).

Lemma walk_roots_safe deadline roots calls w fs partial :
  Forall safe_command (wk_sent w) ->
  let w' := match walk_roots answer clock cancelled deadline roots calls w fs partial with
            | inl (_, _, w') | inr w' => w' end in
  Forall safe_command (wk_sent w') /\ (List.length (wk_sent w') <= List.length (wk_sent w) + calls)%nat.
Proof.
  revert calls w fs partial. induction roots as [|r roots IH]; intros calls w fs partial Hw; cbv zeta in *;
    cbn [walk_roots]; [split; [done|lia]|].
  destruct (test SUB_RE (root_sub r)); cbn [negb]; [|by apply IH].
  unfold walkRoot. set (w0 := {| wk_nodes := []; wk_totals := _; wk_sent := wk_sent w; wk_progress := _;
    wk_turns := _; wk_partial := _ |}).
  pose proof (walk_safe answer clock cancelled (root_depth r) deadline (root_sub r) calls [("", 0)] w0 Hw) as Hs.
  destruct (walk _ _ _ _ _ _ calls _ w0) as [calls' w1|w1]; [|exact Hs].
  destruct Hs as [Hs Hl]. change (wk_sent w0) with (wk_sent w) in Hl.
  destruct (IH calls' w1 (fs ++ omap (folder_of (root_label r)) (map snd (wk_nodes w1)))
    (partial || wk_partial w1) Hs) as [H1 H2]. split; [done|lia].
Qed.

Lemma safe_command_text cmd : safe_command cmd -> exists f, cmd = ls_command f /\
  has_char "034" f = false /\ has_char ";" f = false /\ has_char "010" f = false /\ (String.length f <= 255)%nat.
Proof.
  intros (f & -> & Hf & Hl). exists f. split; [done|].
  repeat (split; [by apply (forall_char_absent sub_char)|]). done.
Qed.

(** Whatever the path, the watched folders and the answers of the share, a probe only lists
    directories: each command is a change to a path without quotes, semicolons or line ends and a
    listing; it sends at most one command more than its budget, and none unless host and share are
    made of the characters allowed. *)
Theorem probe_commands path_gt start path folders watch :
  let w := match smbProbe answer clock cancelled path_gt start path folders watch with
           | Probed _ w | ProbeCancelled w => w end in
  (forall cmd, cmd ∈ wk_sent w -> exists f, cmd = ls_command f /\ has_char "034" f = false /\
     has_char ";" f = false /\ has_char "010" f = false /\ (String.length f <= 255)%nat) /\
  (List.length (wk_sent w) <= 1 + MAX_LS_CALLS)%nat /\
  (wk_sent w <> [] -> exists unc, parseUnc path = Some unc /\
     forall_char host_char (host unc) = true /\ forall_char share_char (share unc) = true).
Proof.
  cbv zeta. set (w := match smbProbe _ _ _ _ _ _ _ _ with Probed _ w => w | ProbeCancelled w => w end).
  enough (H : (Forall safe_command (wk_sent w) /\ (List.length (wk_sent w) <= 1 + MAX_LS_CALLS)%nat) /\
    (wk_sent w <> [] -> exists unc, parseUnc path = Some unc /\
     forall_char host_char (host unc) = true /\ forall_char share_char (share unc) = true)).
  { destruct H as ((H1 & H2) & H3). split; [|done]. intros cmd Hc. apply safe_command_text.
    rewrite Forall_forall in H1. by apply H1. }
  subst w. unfold smbProbe. destruct (parseUnc path) as [unc|]; [|split; [split; [constructor|cbn; lia]|done]].
  destruct (test HOST_RE (host unc) && test SHARE_RE (share unc)) eqn:Hhs; cbn [negb];
    [|split; [split; [constructor|cbn; lia]|done]].
  split.
  - assert (H0 : Forall safe_command (wk_sent (sent (ls_command "") no_walk)))
      by (repeat constructor; exists ""; split; [done|split; [done|cbn; lia]]).
    destruct (answer [] (ls_command "")) as [capOut|e].
    + pose proof (walk_roots_safe (start + WALK_BUDGET_MS) (probe_roots (base unc) folders watch) MAX_LS_CALLS
        (sent (ls_command "") no_walk) [] false H0) as Hw. cbv zeta in Hw.
      destruct (walk_roots _ _ _ _ _ _ _ _ _) as [[[fs partial] w]|w]; exact Hw.
    + split; [exact H0|cbn; lia].
  - intros _. exists unc. split; [done|]. apply andb_true_iff in Hhs as [Hh Hs].
    unfold HOST_RE, SHARE_RE in *. rewrite test_whole, andb_true_iff in Hh, Hs by lia. by destruct Hh, Hs.
Qed.
End probe_theorems.

(** A directory whose name has a character outside of those allowed is not read, and the walk is not
    reported as partial. *)
Lemma walk_skips_silently :
  let nl := String "010" "" in
  let answer (_ : list string) (cmd : string) : result SmbError string :=
    if String.eqb cmd "ls" then Ok ("  R&D    D        0  Mon Jan  1 10:00:00 2024" +:+ nl)
    else Ok ("  big.bin    A    5000  Mon Jan  1 10:00:00 2024" +:+ nl) in
  match walkRoot answer (fun _ => 0) (fun _ => false) "" 3 100 10 no_walk with
  | Walked _ w => (wk_partial w, bytes <$> map_get "R&D" (wk_nodes w), wk_sent w) = (false, Some 0, ["ls"])
  | ScanCancelled _ => False
  end.
Proof. vm_compute. reflexivity. Qed.
