(* ===== verification/Scans.v ===== *)
(** * Folder scans

    Models apps/backend/src/services/scan-manager.ts and storage-scheduler.ts: the scans of the shares
    that the server reads itself, at most one per monitor, with pause, resume and cancellation, the
    cache of their folders and the periodic check of a share. A run is an asynchronous function: its
    state is the point it waits at, and each of its steps an event among those of the API and of the
    reports agents stream (plugins/agent-ws.ts), which write the same state. The clock, the ids, the
    decrypted credential and the answers of the share are arguments. *)
From S2P Require Import Prelude Text Dates Store Schema RowUpdates Settings Health Pipeline BackupPolicy.
From S2P Require Import Monitors Regex Smb.

(** ** The state of a scan *)

Inductive ScanStatus : Type := Idle | Running | Paused | Done | Cancelled | Error_ | Other (s : string).
#[export] Instance ScanStatus_eq : EqDecision ScanStatus.
Proof. solve_decision. Defined.

Record ScanState : Type := {
  sc_status : ScanStatus; sc_progress : option ScanProgress; sc_startedAt : option Z;
  sc_finishedAt : option Z; sc_error : option string; sc_cachedAt : option Z
}.

(** Where a run is: it awaits its monitor, walks, waits to be resumed, has been woken but has not gone
    on, or applies its sample. *)
Inductive Phase : Type :=
| Loading
| Walking (m : MonitorRow)
| Waiting (m : MonitorRow)
| Woken (m : MonitorRow)
| Applying (m : MonitorRow) (storage : StorageSample).

(** The waiters are the runs blocked on a pause. *)
Record Entry : Type := {
  en_state : ScanState; en_paused : bool; en_cancelled : bool; en_waiters : nat;
  en_cachedAt : option Z; en_folders : option (list FolderNode); en_cacheError : option string;
  en_running : option Phase
}.

Definition idle_state : ScanState := {|
  sc_status := Idle; sc_progress := None; sc_startedAt := None; sc_finishedAt := None; sc_error := None;
  sc_cachedAt := None |}.
Definition new_entry : Entry := {|
  en_state := idle_state; en_paused := false; en_cancelled := false; en_waiters := 0;
  en_cachedAt := None; en_folders := None; en_cacheError := None; en_running := None |}.

Definition with_state (s : ScanState) (e : Entry) : Entry := {|
  en_state := s; en_paused := en_paused e; en_cancelled := en_cancelled e; en_waiters := en_waiters e;
  en_cachedAt := en_cachedAt e; en_folders := en_folders e; en_cacheError := en_cacheError e;
  en_running := en_running e |}.
Definition with_flags (paused cancelled : bool) (waiters : nat) (e : Entry) : Entry := {|
  en_state := en_state e; en_paused := paused; en_cancelled := cancelled; en_waiters := waiters;
  en_cachedAt := en_cachedAt e; en_folders := en_folders e; en_cacheError := en_cacheError e;
  en_running := en_running e |}.
Definition with_running (r : option Phase) (e : Entry) : Entry := {|
  en_state := en_state e; en_paused := en_paused e; en_cancelled := en_cancelled e;
  en_waiters := en_waiters e; en_cachedAt := en_cachedAt e; en_folders := en_folders e;
  en_cacheError := en_cacheError e; en_running := r |}.
Definition with_status (s : ScanStatus) (st : ScanState) : ScanState := {|
  sc_status := s; sc_progress := sc_progress st; sc_startedAt := sc_startedAt st;
  sc_finishedAt := sc_finishedAt st; sc_error := sc_error st; sc_cachedAt := sc_cachedAt st |}.
Definition with_error (s : ScanStatus) (err : option string) (st : ScanState) : ScanState := {|
  sc_status := s; sc_progress := sc_progress st; sc_startedAt := sc_startedAt st;
  sc_finishedAt := sc_finishedAt st; sc_error := err; sc_cachedAt := sc_cachedAt st |}.

Definition running (e : Entry) : bool := match en_running e with Some _ => true | None => false end.

(** ** The API *)

(** A blocked run goes on once its promise is resolved. *)
Definition wake (p : option Phase) : option Phase :=
  match p with Some (Waiting m) => Some (Woken m) | _ => p end.

Definition pauseScan (e : Entry) : Entry :=
  if running e then with_flags true (en_cancelled e) (en_waiters e) e else e.

Definition resumeScan (e : Entry) : Entry :=
  with_running (if Nat.eqb (en_waiters e) 0 then en_running e else wake (en_running e))
    (with_flags false (en_cancelled e) 0 e).

Definition cancelScan (e : Entry) : Entry :=
  if running e
  then with_running (if Nat.eqb (en_waiters e) 0 then en_running e else wake (en_running e))
         (with_flags false true 0 e)
  else e.

Definition no_progress : ScanProgress := {| sp_folders := 0; sp_files := 0; sp_bytes := 0; sp_current := "" |}.

(** [runScan]: joins the run under way, or starts one. *)
Definition runScan (now : Z) (e : Entry) : Entry :=
  if running e then e else
  with_running (Some Loading) (with_flags false false (en_waiters e) (with_state {|
    sc_status := Running; sc_progress := Some no_progress; sc_startedAt := Some now; sc_finishedAt := None;
    sc_error := None; sc_cachedAt := sc_cachedAt (en_state e) |} e)).

(** ** Logs and samples *)

Inductive LogLevel : Type := Info | Warn | ErrorLevel.
Record ScanLog : Type := { sl_agentId : string; sl_level : LogLevel; sl_message : string }.

(** [x.toFixed(d)] of a non-negative number. *)
Definition toFixed (d : nat) (x : Q) : string :=
  let scale := 10 ^ Z.of_nat d in
  let n := js_round (x * inject_Z scale) in
  String_of_int (n / scale) +:+ (if Nat.eqb d 0 then "" else "." +:+ pad d (n mod scale)).

Definition fmtBytes (n : Z) : string :=
  if n <? 1024 * 1024 then toFixed 0 (inject_Z n / 1024) +:+ " KB"
  else if n <? 1024 * 1024 * 1024 then toFixed 0 (inject_Z n / inject_Z (1024 * 1024)) +:+ " MB"
  else toFixed 2 (inject_Z n / inject_Z (1024 * 1024 * 1024)) +:+ " GB".

(** The watched folders of a configuration; [None] is the exception a [null] among them throws.
    [print] is [String] of a value that is no text. *)
Definition parseWatch (print : json -> string) (raw : option json) : option (list SmbWatch) :=
  match raw with
  | Some (JArr ws) =>
      if existsb (fun w => match w with JNull => true | _ => false end) ws then None else
      let parsed := map (fun w =>
        let '(path, d) := match w with
                          | JStr s => (Some (JStr s), Some (JNum 1))
                          | JObj m => (map_get "path" m, map_get "depth" m)
                          | _ => (None, None) end in
        {| watch_sub := trim (match path with
                              | None | Some JNull => "" | Some (JStr s) => s | Some v => print v end);
           watch_depth := match d with
                          | None => Fin 1
                          | Some v => match Number_of_json v with
                                      | NaN => Fin 1 | Fin q => if Qeq_bool q 0 then Fin 1 else Fin q | n => n end
                          end |}) ws in
      Some (List.filter (fun w => truthy (watch_sub w)) parsed)
  | _ => Some []
  end.

Definition DEGRADED_PCT : Q := 90.

Definition statusFor (s : StorageSample) : HealthStatus :=
  if negb (ss_reachable s) then DOWN
  else if Qle_bool DEGRADED_PCT (default 0%Q (ss_usedPct s)) then DEGRADED else UP.

Definition opt_field {A} (key : string) (f : A -> json) (v : option A) : list (string * json) :=
  match v with Some a => [(key, f a)] | None => [] end.
Definition int_json (n : Z) : json := JNum (inject_Z n).
Definition folder_json (f : FolderNode) : json :=
  JObj ([("name", JStr (fn_name f)); ("sizeBytes", int_json (fn_sizeBytes f));
         ("fileCount", int_json (fn_fileCount f))] ++ opt_field "folderCount" int_json (fn_folderCount f)).
Definition sample_json (s : StorageSample) : json :=
  JObj ([("reachable", JBool (ss_reachable s))] ++ opt_field "totalBytes" int_json (ss_totalBytes s) ++
        opt_field "freeBytes" int_json (ss_freeBytes s) ++ opt_field "usedBytes" int_json (ss_usedBytes s) ++
        opt_field "usedPct" JNum (ss_usedPct s) ++ opt_field "error" JStr (ss_error s) ++
        opt_field "folders" (fun fs => JArr (map folder_json fs)) (ss_folders s)).

(** The live patch of a share. *)
Record StoragePatch : Type := {
  sp_agentId : string; sp_entity : string; sp_status : HealthStatus; sp_meta : json; sp_ts : Z
}.

(** What scans write: the telemetry, the histories of shares and folders, the last snapshot of the
    folders of each share, the scan logs and the live patches. *)
Record ScanDb (T : Type -> Type) : Type := {
  sd_telemetry : TelemetryDb T; sd_storage : T StorageMetricRow; sd_folders : T FolderMetricRow;
  sd_lastFolderRecord : list (string * Z); sd_logs : list ScanLog; sd_patches : list StoragePatch
}.
Arguments sd_telemetry {T} _. Arguments sd_storage {T} _. Arguments sd_folders {T} _.
Arguments sd_lastFolderRecord {T} _. Arguments sd_logs {T} _. Arguments sd_patches {T} _.

Section samples.
Context {T : Type -> Type} {ST : Store T}.
Context (newId : string -> nat -> string) (FOLDER_HISTORY_MIN : Z).

Definition applyStorageSample (now : Z) (m : MonitorRow) (storage : StorageSample) (db : ScanDb T) : ScanDb T :=
  let status := statusFor storage in
  let meta := [("storage", sample_json storage)] in
  {| sd_telemetry := processUnits newId now (mon_agentId m) (sd_telemetry db)
       [{| push_entity := mon_name m; push_status := status; push_pid := None; push_critical := None;
           push_meta := Some meta |}];
     sd_storage :=
       if ss_reachable storage then insert_row {|
         sm_id := newId "storageMetrics" 0; sm_storageId := mon_id m; sm_share := None;
         sm_usedPct := ss_usedPct storage; sm_usedBytes := ss_usedBytes storage;
         sm_totalBytes := ss_totalBytes storage; sm_metrics := None; sm_ts := now |} (sd_storage db)
       else sd_storage db;
     sd_folders := sd_folders db; sd_lastFolderRecord := sd_lastFolderRecord db; sd_logs := sd_logs db;
     sd_patches := sd_patches db ++ [{| sp_agentId := mon_agentId m; sp_entity := mon_name m;
       sp_status := status; sp_meta := JObj meta; sp_ts := now |}] |}.

Definition folder_row (now : Z) (storageId : string) (i : nat) (f : FolderNode) : FolderMetricRow := {|
  fm_id := newId "folderMetrics" i; fm_storageId := storageId; fm_folder := fn_name f;
  fm_sizeBytes := Some (fn_sizeBytes f); fm_fileCount := Some (fn_fileCount f);
  fm_folderCount := fn_folderCount f; fm_ts := now |}.

Definition recordFolderMetrics (now : Z) (storageId : string) (folders : option (list FolderNode))
    (db : ScanDb T) : ScanDb T :=
  match folders with
  | None | Some [] => db
  | Some folders =>
      let last := default 0 (map_get storageId (sd_lastFolderRecord db)) in
      if now - last <? FOLDER_HISTORY_MIN * 60000 then db else {|
        sd_telemetry := sd_telemetry db; sd_storage := sd_storage db;
        sd_folders := insert_all (imap (folder_row now storageId) folders) (sd_folders db);
        sd_lastFolderRecord := map_set storageId now (sd_lastFolderRecord db); sd_logs := sd_logs db;
        sd_patches := sd_patches db |}
  end.

Definition logScan (agentId : string) (level : LogLevel) (message : string) (db : ScanDb T) : ScanDb T := {|
  sd_telemetry := sd_telemetry db; sd_storage := sd_storage db; sd_folders := sd_folders db;
  sd_lastFolderRecord := sd_lastFolderRecord db; sd_patches := sd_patches db;
  sd_logs := sd_logs db ++ [{| sl_agentId := agentId; sl_level := level; sl_message := message |}] |}.
End samples.

(** ** Scans an agent makes *)

(** The progress an agent streams. *)
Record AgentProgress : Type := {
  ap_status : string; ap_folders : Z; ap_files : Z; ap_bytes : Z; ap_current : string
}.

Definition status_of_text (s : string) : ScanStatus :=
  if String.eqb s "idle" then Idle else if String.eqb s "running" then Running
  else if String.eqb s "paused" then Paused else if String.eqb s "done" then Done
  else if String.eqb s "cancelled" then Cancelled else if String.eqb s "error" then Error_ else Other s.

(** The state, and the log of a transition; [m] is the monitor as the database has it. *)
Definition setAgentScanState (now : Z) (monitorId : string) (m : option MonitorRow) (p : AgentProgress)
    (e : Entry) : Entry * option ScanLog :=
  let prev := sc_status (en_state e) in
  let is_running := String.eqb (ap_status p) "running" in
  let was_running := bool_decide (prev = Running) in
  let started := is_running && negb was_running in
  let finished := negb is_running && was_running in
  let agentId := match m with Some m => mon_agentId m | None => "" end in
  let name := match m with Some m => mon_name m | None => monitorId end in
  (with_state {|
     sc_status := status_of_text (ap_status p);
     sc_progress := Some {| sp_folders := ap_folders p; sp_files := ap_files p; sp_bytes := ap_bytes p;
                            sp_current := ap_current p |};
     sc_startedAt := if started then Some now else sc_startedAt (en_state e);
     sc_finishedAt := if is_running then None else Some now; sc_error := None; sc_cachedAt := None |} e,
   if started then Some {| sl_agentId := agentId; sl_level := Info; sl_message := "Folder scan started: " +:+ name |}
   else if finished then Some {|
     sl_agentId := agentId;
     sl_level := if String.eqb (ap_status p) "done" then Info
                 else if String.eqb (ap_status p) "cancelled" then Warn else ErrorLevel;
     sl_message :=
       if String.eqb (ap_status p) "done"
       then "Folder scan complete: " +:+ name +:+ " — " +:+ String_of_int (ap_folders p) +:+ " folders · " +:+
            String_of_int (ap_files p) +:+ " files · " +:+ fmtBytes (ap_bytes p)
       else "Folder scan " +:+ ap_status p +:+ ": " +:+ name |}
   else None).

(** ** A run, step by step *)

Definition progress_of (e : Entry) : ScanProgress := default no_progress (sc_progress (en_state e)).

(** The [finally] of a run. *)
Definition end_run (now : Z) (e : Entry) : Entry :=
  let st := en_state e in
  with_running None (with_state {|
    sc_status := sc_status st; sc_progress := sc_progress st; sc_startedAt := sc_startedAt st;
    sc_finishedAt := Some now; sc_error := sc_error st; sc_cachedAt := sc_cachedAt st |} e).

(** What may happen to the scan of a monitor: a call of the API, a report an agent streams for this
    monitor (with the monitor as the database has it), or a step of the run. *)
Inductive ScanEvent : Type :=
| RunScan (now : Z) | PauseScan | ResumeScan | CancelScan
| AgentReports (now : Z) (m : option MonitorRow) (p : AgentProgress)
| Loaded (now : Z) (m : option MonitorRow)
| Turn (now : Z)
| GoesOn
| Reports (p : ScanProgress)
| ProbeEnds (now : Z) (storage : StorageSample)
| Applied (now : Z)
| Throws (now : Z) (message : string).

Section run.
Context {T : Type -> Type} {ST : Store T}.
Context (newId : string -> nat -> string) (FOLDER_HISTORY_MIN : Z) (monitorId : string).
Implicit Types (db : ScanDb T).

(** The agent and the name the logs of a run give. *)
Definition run_monitor (e : Entry) : string * string :=
  match en_running e with
  | Some (Walking m) | Some (Waiting m) | Some (Woken m) | Some (Applying m _) => (mon_agentId m, mon_name m)
  | _ => ("", monitorId)
  end.

(** The [catch] of a run, for an exception and for a cancellation. *)
Definition fail_run (now : Z) (who : string * string) (message : string) (e : Entry) db : Entry * ScanDb T :=
  (end_run now (with_state (with_error Error_ (Some message) (en_state e)) e),
   logScan (fst who) ErrorLevel ("Folder scan failed: " +:+ snd who +:+ " — " +:+ message) db).
Definition cancel_run (now : Z) (e : Entry) db : Entry * ScanDb T :=
  let who := run_monitor e in
  (end_run now (with_state (with_status Cancelled (en_state e)) e),
   logScan (fst who) Warn ("Folder scan cancelled: " +:+ snd who) db).

(** From the monitor to the walk. *)
Definition load_run (now : Z) (m : option MonitorRow) (e : Entry) db : Entry * ScanDb T :=
  match m with
  | None => fail_run now ("", monitorId) "not a storage monitor" e db
  | Some m =>
      if negb (String.eqb (mon_type m) "storage") then fail_run now ("", monitorId) "not a storage monitor" e db
      else match text_at "path" (mon_config m) with
      | Some path =>
          if String.eqb path "" then fail_run now (mon_agentId m, mon_name m) "monitor has no path" e db
          else (with_running (Some (Walking m)) e,
                logScan (mon_agentId m) Info ("Folder scan started: " +:+ mon_name m) db)
      | None => fail_run now (mon_agentId m, mon_name m) "monitor has no path" e db
      end
  end.

Definition complete_message (e : Entry) (m : MonitorRow) (storage : StorageSample) : string :=
  let p := progress_of e in
  "Folder scan complete: " +:+ mon_name m +:+ " — " +:+ String_of_int (sp_folders p) +:+ " folders · " +:+
  String_of_int (sp_files p) +:+ " files · " +:+ fmtBytes (sp_bytes p) +:+
  match ss_error storage with
  | Some err => if truthy err then " (" +:+ err +:+ ")" else "" | None => "" end.

(** The sample is applied, the folders recorded and the run is done. *)
Definition apply_run (now : Z) (m : MonitorRow) (storage : StorageSample) (e : Entry) db : Entry * ScanDb T :=
  let db := applyStorageSample newId now m storage db in
  let db := if ss_reachable storage
            then recordFolderMetrics newId FOLDER_HISTORY_MIN now (mon_id m) (ss_folders storage) db else db in
  (end_run now (with_state (with_error Done (ss_error storage) (en_state e)) e),
   logScan (mon_agentId m) (if ss_reachable storage then Info else Warn) (complete_message e m storage) db).

(** [waitIfPaused], after the check for a cancellation. *)
Definition turn_run (now : Z) (m : MonitorRow) (e : Entry) db : Entry * ScanDb T :=
  if en_cancelled e then cancel_run now e db
  else if en_paused e
  then (with_running (Some (Waiting m)) (with_flags (en_paused e) (en_cancelled e) (S (en_waiters e))
          (with_state (with_status Paused (en_state e)) e)), db)
  else (e, db).

Definition cache_run (now : Z) (storage : StorageSample) (e : Entry) : Entry :=
  if negb (ss_reachable storage) then e else
  let st := en_state e in {|
  en_state := {| sc_status := sc_status st; sc_progress := sc_progress st; sc_startedAt := sc_startedAt st;
                 sc_finishedAt := sc_finishedAt st; sc_error := sc_error st; sc_cachedAt := Some now |};
  en_paused := en_paused e; en_cancelled := en_cancelled e; en_waiters := en_waiters e;
  en_cachedAt := Some now; en_folders := ss_folders storage; en_cacheError := ss_error storage;
  en_running := en_running e |}.

(** An event that cannot happen at this point is [None]. *)
Definition scan_step (s : Entry * ScanDb T) (ev : ScanEvent) : option (Entry * ScanDb T) :=
  let '(e, db) := s in
  match ev, en_running e with
  | RunScan now, _ => Some (runScan now e, db)
  | PauseScan, _ => Some (pauseScan e, db)
  | ResumeScan, _ => Some (resumeScan e, db)
  | CancelScan, _ => Some (cancelScan e, db)
  | AgentReports now m p, _ =>
      let '(e, log) := setAgentScanState now monitorId m p e in
      Some (e, match log with Some l => logScan (sl_agentId l) (sl_level l) (sl_message l) db | None => db end)
  | Loaded now m, Some Loading => Some (load_run now m e db)
  | Turn now, Some (Walking m) => Some (turn_run now m e db)
  | GoesOn, Some (Woken m) =>
      let e := if en_cancelled e then e else with_state (with_status Running (en_state e)) e in
      Some (with_running (Some (Walking m)) e, db)
  | Reports p, Some (Walking m) =>
      let st := en_state e in
      Some (with_state {| sc_status := sc_status st; sc_progress := Some p; sc_startedAt := sc_startedAt st;
                          sc_finishedAt := sc_finishedAt st; sc_error := sc_error st;
                          sc_cachedAt := sc_cachedAt st |} e, db)
  | ProbeEnds now storage, Some (Walking m) => Some (with_running (Some (Applying m storage)) (cache_run now storage e), db)
  | Applied now, Some (Applying m storage) => Some (apply_run now m storage e db)
  | Throws now message, Some Loading | Throws now message, Some (Walking _)
  | Throws now message, Some (Applying _ _) => Some (fail_run now (run_monitor e) message e db)
  | _, _ => None
  end.

Fixpoint scan_steps (s : Entry * ScanDb T) (evs : list ScanEvent) : option (Entry * ScanDb T) :=
  match evs with
  | [] => Some s
  | ev :: evs => let! s := scan_step s ev otherwise None in scan_steps s evs
  end.
End run.

(** ** The periodic check of a share (storage-scheduler.ts) *)

Definition cachedFolders (now : Z) (e : Entry) (ttlMs : Q) : option (option (list FolderNode) * option string) :=
  match en_cachedAt e with
  | None => None
  | Some cachedAt =>
      if Qle_bool (inject_Z (now - cachedAt)) ttlMs then Some (en_folders e, en_cacheError e) else None
  end.

Definition DEFAULT_FOLDER_TTL_MIN : Q := 15.

Definition Qmin_list (q : Q) (qs : list Q) : Q := fold_left (fun a b => if Qle_bool a b then a else b) qs q.

Definition folderTtlMs (raw : option json) : Q :=
  let mins := match raw with
    | Some (JArr ws) => omap (fun w =>
        match w with
        | JObj m => match map_get "refreshMin" m with
                    | Some v => match Number_of_json v with
                                | Fin q => if Qle_bool q 0 then None else Some q | _ => None end
                    | None => None end
        | _ => None end) ws
    | _ => [] end in
  (match mins with [] => DEFAULT_FOLDER_TTL_MIN | q :: qs => Qmin_list q qs end * 60000)%Q.

Definition wantFolders (config : list (string * json)) : bool :=
  flag "folders" config ||
  match map_get "watchFolders" config with Some (JArr (_ :: _)) => true | _ => false end.

Section storage_scheduler.
Context {T : Type -> Type} {ST : Store T}.
Context (newId : string -> nat -> string).

(** One monitor of a sweep, with the answer of its share: the entry of its scan and what is written. *)
Definition storage_probe (now : Z) (m : MonitorRow) (storage : StorageSample) (e : Entry) (db : ScanDb T)
  : Entry * ScanDb T :=
  match text_at "path" (mon_config m) with
  | None => (e, db)
  | Some path =>
      if String.eqb path "" then (e, db) else
      let '(e, storage) :=
        if wantFolders (mon_config m) && ss_reachable storage then
          match cachedFolders now e (folderTtlMs (map_get "watchFolders" (mon_config m))) with
          | Some (folders, error) =>
              (e, {| ss_reachable := ss_reachable storage; ss_error := error;
                     ss_totalBytes := ss_totalBytes storage; ss_freeBytes := ss_freeBytes storage;
                     ss_usedBytes := ss_usedBytes storage; ss_usedPct := ss_usedPct storage;
                     ss_folders := folders |})
          | None =>
              if bool_decide (sc_status (en_state e) = Running) || bool_decide (sc_status (en_state e) = Paused)
              then (e, storage) else (runScan now e, storage)
          end
        else (e, storage) in
      (e, applyStorageSample newId now m storage db)
  end.
End storage_scheduler.

(** ** Theorems *)

Section scan_theorems.
Context {T : Type -> Type} {ST : Store T} {LT : StoreLaws T}.
Context (newId : string -> nat -> string) (FOLDER_HISTORY_MIN : Z) (monitorId : string).
Implicit Types (db : ScanDb T).
Notation scan_step := (scan_step newId FOLDER_HISTORY_MIN monitorId).
Notation scan_steps := (scan_steps newId FOLDER_HISTORY_MIN monitorId).

(** The waiters and the flags at each point of a run: only a run that waits has a waiter, and then it
    is paused and not cancelled. *)
Definition wait_inv (e : Entry) : Prop :=
  match en_running e with
  | Some (Waiting _) => en_waiters e = 1%nat /\ en_paused e = true /\ en_cancelled e = false
  | _ => en_waiters e = O
  end.

(** The status shown at each point of a run that no agent reports on: running, or paused and to be
    cancelled. *)
Definition status_inv (e : Entry) : Prop :=
  let s := sc_status (en_state e) in
  match en_running e with
  | None => s <> Running /\ s <> Paused
  | Some (Waiting _) | Some (Woken _) => s = Paused
  | Some _ => s = Running \/ s = Paused /\ en_cancelled e = true
  end.

Lemma api_wait_inv e : wait_inv e ->
  wait_inv (pauseScan e) /\ wait_inv (resumeScan e) /\ wait_inv (cancelScan e) /\ forall now, wait_inv (runScan now e).
Proof.
  destruct e as [st paused cancelled waiters cached folders err [[| m|m|m|m storage]|]]; unfold wait_inv; cbn;
    intros H; unfold resumeScan, cancelScan, pauseScan, runScan; cbn.
  all: try destruct H as (-> & -> & ->); try rewrite H; cbn; by repeat split.
Qed.

Lemma api_status_inv e : wait_inv e -> status_inv e ->
  status_inv (pauseScan e) /\ status_inv (resumeScan e) /\ status_inv (cancelScan e) /\
  forall now, status_inv (runScan now e).
Proof.
  destruct e as [st paused cancelled waiters cached folders err [[| m|m|m|m storage]|]];
    unfold wait_inv, status_inv; cbn; intros Hw H; unfold resumeScan, cancelScan, pauseScan, runScan; cbn.
  all: try destruct Hw as (-> & -> & ->); try rewrite Hw; cbn; repeat split; intuition auto.
Qed.

(** Splits a step of the machine by its event and the point of the run. *)
Local Ltac step_cases ev e :=
  destruct ev as [now| | | |now m p|now m|now| |p|now storage|now|now message]; cbn in *;
  destruct (en_running e) as [[| mm|mm|mm|mm storage0]|] eqn:Hr; simplify_eq; cbn [fst] in *.

Lemma load_run_ends now m e db : en_running e = Some Loading ->
  let e' := fst (load_run monitorId now m e db) in
  en_waiters e' = en_waiters e /\ en_cancelled e' = en_cancelled e /\
  ((exists m', en_running e' = Some (Walking m')) /\ sc_status (en_state e') = sc_status (en_state e) \/
   en_running e' = None /\ sc_status (en_state e') = Error_).
Proof.
  intros Hr. unfold load_run, fail_run. destruct m as [m|]; [|by auto]. destruct (negb _); [by auto|].
  destruct (text_at "path" (mon_config m)) as [path|]; [|by auto]. destruct (String.eqb path ""); cbn; eauto 6.
Qed.

Lemma scan_step_wait_inv s ev s' : scan_step s ev = Some s' -> wait_inv (fst s) -> wait_inv (fst s').
Proof.
  destruct s as [e db]. intros Hs He. cbn [fst] in He. pose proof (api_wait_inv e He) as (H1 & H2 & H3 & H4).
  step_cases ev e; try done; unfold wait_inv in *; rewrite Hr in He.
  all: try (cbn; by rewrite ?Hr).
  - destruct (load_run_ends now m e db Hr) as (Hw & _ & [[[m' ->] _]|[-> _]]); by rewrite Hw.
  - unfold turn_run. destruct (en_cancelled e) eqn:Hc; [done|].
    destruct (en_paused e) eqn:Hp; cbn; [by rewrite He|by rewrite Hr].
  - by destruct (en_cancelled e).
  - unfold cache_run. by destruct (ss_reachable storage).
Qed.

Lemma scan_step_status_inv s ev s' : (forall now m p, ev <> AgentReports now m p) ->
  scan_step s ev = Some s' -> wait_inv (fst s) -> status_inv (fst s) -> status_inv (fst s').
Proof.
  destruct s as [e db]. intros Hev Hs Hw He. cbn [fst] in *.
  pose proof (api_status_inv e Hw He) as (H1 & H2 & H3 & H4).
  step_cases ev e; try done; try (by destruct (Hev now m p)); unfold status_inv in *; rewrite Hr in He.
  all: try (cbn; by rewrite ?Hr).
  - destruct (load_run_ends now m e db Hr) as (_ & -> & [[[m' ->] ->]|[-> ->]]); [done|by split].
  - unfold turn_run. destruct (en_cancelled e) eqn:Hc; [done|].
    destruct (en_paused e) eqn:Hp; cbn; [done|]. rewrite Hr. left. by destruct He as [?|[_ ?]].
  - destruct (en_cancelled e) eqn:Hc; cbn; auto.
  - unfold cache_run. by destruct (ss_reachable storage).
Qed.

Definition is_report (ev : ScanEvent) : bool := match ev with AgentReports _ _ _ => true | _ => false end.

Lemma scan_steps_inv evs s s' : scan_steps s evs = Some s' -> wait_inv (fst s) ->
  wait_inv (fst s') /\ (existsb is_report evs = false -> status_inv (fst s) -> status_inv (fst s')).
Proof.
  revert s. induction evs as [|ev evs IH]; intros s Hs He; cbn [existsb]; [cbn in Hs; by simplify_eq|].
  cbn in Hs. destruct (scan_step s ev) as [s1|] eqn:H1; [|done].
  destruct (IH _ Hs (scan_step_wait_inv _ _ _ H1 He)) as [IH1 IH2]. split; [done|].
  intros [Hev Hevs]%orb_false_iff Hst. apply (IH2 Hevs).
  eapply scan_step_status_inv; [|exact H1|done..]. by intros now m p ->.
Qed.

(** C39: after any sequence of calls, agent reports and steps, a run that is blocked is so because the
    pause flag is set and no cancellation asked, and a call to resume or to cancel lets it go on: no
    wake-up is lost. Where no agent reported on the monitor, the status tells whether a run is under
    way; a report overwrites it ([agent_report_no_run], [agent_report_hides_run]). *)
Theorem scan_never_stuck db0 evs e db (Hs : scan_steps (new_entry, db0) evs = Some (e, db)) :
  (existsb is_report evs = false ->
   (running e = true <-> sc_status (en_state e) = Running \/ sc_status (en_state e) = Paused)) /\
  forall m, en_running e = Some (Waiting m) ->
    en_paused e = true /\ en_cancelled e = false /\
    en_running (resumeScan e) = Some (Woken m) /\ en_running (cancelScan e) = Some (Woken m) /\
    exists e', scan_steps (resumeScan e, db) [GoesOn] = Some (e', db) /\ en_running e' = Some (Walking m) /\
      sc_status (en_state e') = Running.
Proof.
  destruct (scan_steps_inv _ _ _ Hs) as [Hwait Hstatus]; [done|]. cbn [fst] in *. split.
  - intros Hevs. specialize (Hstatus Hevs). unfold status_inv in Hstatus. unfold running.
    cbn in Hstatus. destruct (en_running e) as [[| m|m|m|m storage]|]; intuition congruence.
  - intros m Hm. unfold wait_inv in Hwait. rewrite Hm in Hwait. destruct Hwait as (Hw & Hp & Hc).
    repeat (split; [done|]). unfold resumeScan, cancelScan, running. rewrite Hm, Hw. cbn.
    split; [done|]. split; [done|]. rewrite Hc. eexists. split; [reflexivity|]. done.
Qed.

(** The steps of a run that was cancelled, up to its next turn. *)
Definition to_turn (now : Z) (e : Entry) : list ScanEvent :=
  match en_running e with Some (Waiting _) | Some (Woken _) => [GoesOn; Turn now] | _ => [Turn now] end.

(** A walk that is cancelled, also while it is paused, ends at its next turn: the state says so,
    the time is noted and the agent's log has its line. *)
Theorem cancel_ends_at_turn db0 evs e db now m
    (Hs : scan_steps (new_entry, db0) evs = Some (e, db))
    (Hm : en_running e = Some (Walking m) \/ en_running e = Some (Waiting m) \/ en_running e = Some (Woken m)) :
  exists e' db', scan_steps (cancelScan e, db) (to_turn now e) = Some (e', db') /\
    en_running e' = None /\ sc_status (en_state e') = Cancelled /\ sc_finishedAt (en_state e') = Some now /\
    sd_logs db' = sd_logs db ++ [{| sl_agentId := mon_agentId m; sl_level := Warn;
                                    sl_message := "Folder scan cancelled: " +:+ mon_name m |}].
Proof.
  destruct (scan_steps_inv _ _ _ Hs) as [Hwait _]; [done|]. cbn [fst] in Hwait.
  unfold wait_inv in Hwait. unfold to_turn, cancelScan, running.
  destruct Hm as [Hm|[Hm|Hm]]; rewrite Hm in *; first [rewrite Hwait|destruct Hwait as [-> _]]; cbn;
    eexists _, _; (split; [reflexivity|]); unfold run_monitor; cbn; by rewrite ?Hm.
Qed.
End scan_theorems.

(** *** The history of folders *)

Section folder_history.
Context {T : Type -> Type} {ST : Store T} {LT : StoreLaws T}.
Context (newId : string -> nat -> string) (FOLDER_HISTORY_MIN : Z).

(** One call of [recordFolderMetrics]. *)
Record Snapshot : Type := { sn_now : Z; sn_storageId : string; sn_folders : option (list FolderNode) }.

Definition record_all (calls : list Snapshot) (db : ScanDb T) : ScanDb T :=
  fold_left (fun db c => recordFolderMetrics newId FOLDER_HISTORY_MIN (sn_now c) (sn_storageId c) (sn_folders c) db)
    calls db.

Definition spaced (db : ScanDb T) : Prop :=
  (forall r, r ∈ rows (sd_folders db) -> exists last,
     map_get (fm_storageId r) (sd_lastFolderRecord db) = Some last /\ fm_ts r <= last) /\
  forall r r', r ∈ rows (sd_folders db) -> r' ∈ rows (sd_folders db) -> fm_storageId r = fm_storageId r' ->
    fm_ts r = fm_ts r' \/ FOLDER_HISTORY_MIN * 60000 <= Z.abs (fm_ts r - fm_ts r').

Lemma record_spaced now storageId folders db : 0 <= FOLDER_HISTORY_MIN ->
  spaced db -> spaced (recordFolderMetrics newId FOLDER_HISTORY_MIN now storageId folders db).
Proof.
  intros HW [Hlast Hsp]. unfold recordFolderMetrics. destruct folders as [[|f fs]|]; [done| |done].
  set (last := default 0 (map_get storageId (sd_lastFolderRecord db))).
  destruct (now - last <? FOLDER_HISTORY_MIN * 60000) eqn:Hnow; [done|]. apply Z.ltb_ge in Hnow.
  assert (Hrow : forall r, r ∈ rows (insert_all (imap (folder_row newId now storageId) (f :: fs)) (sd_folders db)) ->
    fm_storageId r = storageId /\ fm_ts r = now \/ r ∈ rows (sd_folders db)).
  { intros r [(i & g & -> & _)%elem_of_lookup_imap_1|Hr]%elem_of_insert_all; [by left|by right]. }
  assert (Hold : forall r, r ∈ rows (sd_folders db) -> fm_storageId r = storageId ->
    FOLDER_HISTORY_MIN * 60000 <= now - fm_ts r).
  { intros r Hr Hid. destruct (Hlast r Hr) as (l & Hl & Hle). unfold last in Hnow.
    rewrite Hid in Hl. rewrite Hl in Hnow. cbn in Hnow. lia. }
  split; cbn [sd_folders sd_lastFolderRecord].
  - intros r [[Hid Ht]|Hr]%Hrow.
    + exists now. rewrite Hid, map_get_set_eq. split; [done|lia].
    + destruct (decide (storageId = fm_storageId r)) as [Hid|Hne].
      * exists now. rewrite Hid, map_get_set_eq. split; [done|]. specialize (Hold r Hr (eq_sym Hid)). lia.
      * rewrite map_get_set_ne by done. by apply Hlast.
  - intros r r' [[Hid Ht]|Hr]%Hrow [[Hid' Ht']|Hr']%Hrow He.
    + left. congruence.
    + right. specialize (Hold r' Hr' ltac:(congruence)). lia.
    + right. specialize (Hold r Hr ltac:(congruence)). lia.
    + by apply Hsp.
Qed.

(** Whatever the calls, two rows of the history of a share are of one snapshot or at least the
    configured minutes apart. *)
Theorem folder_history_spaced calls db0 (HW : 0 <= FOLDER_HISTORY_MIN) (H0 : rows (sd_folders db0) = []) :
  let db := record_all calls db0 in
  forall r r', r ∈ rows (sd_folders db) -> r' ∈ rows (sd_folders db) -> fm_storageId r = fm_storageId r' ->
    fm_ts r = fm_ts r' \/ FOLDER_HISTORY_MIN * 60000 <= Z.abs (fm_ts r - fm_ts r').
Proof.
  cbv zeta. enough (Hs : spaced (record_all calls db0)) by apply Hs. unfold record_all.
  assert (Hs : spaced db0) by (split; rewrite H0; [by intros r []%not_elem_of_nil|by intros r r' []%not_elem_of_nil]).
  clear H0. revert db0 Hs. induction calls as [|c calls IH]; intros db0 Hs; [done|].
  cbn [fold_left]. by apply IH, record_spaced.
Qed.
End folder_history.

(** ** Witnesses *)

Definition w_scanDb : ScanDb list := {|
  sd_telemetry := {| statusEvents := []; logs := []; notifications := []; uptimeBuckets := []; unitStates := [];
                     processMetrics := []; hostMetrics := [] |};
  sd_storage := []; sd_folders := []; sd_lastFolderRecord := []; sd_logs := []; sd_patches := [] |}.

Definition w_share : MonitorRow := {|
  mon_id := "m1"; mon_agentId := "a1"; mon_type := "storage"; mon_name := "nas"; mon_enabled := true;
  mon_config := [("path", JStr "\\nas\data")]; mon_createdAt := 0; mon_updatedAt := 0 |}.

Definition w_scanId (t : string) (i : nat) : string := t +:+ String_of_int (Z.of_nat i).

Definition w_paused : list ScanEvent := [RunScan 5; Loaded 6 (Some w_share); PauseScan; Turn 7].

Definition w_sample : StorageSample := {|
  ss_reachable := true; ss_error := None; ss_totalBytes := Some 100; ss_freeBytes := Some 40;
  ss_usedBytes := Some 60; ss_usedPct := Some 60%Q; ss_folders := None |}.

Lemma scan_never_stuck_witness :
  match scan_steps w_scanId 60 "m1" (new_entry, w_scanDb) w_paused with
  | Some (e, db) => en_running e = Some (Waiting w_share) /\ en_running (resumeScan e) = Some (Woken w_share)
  | None => False end.
Proof.
  destruct (scan_steps w_scanId 60 "m1" (new_entry, w_scanDb) w_paused) as [[e db]|] eqn:Hs; [|discriminate Hs].
  assert (Hr : en_running e = Some (Waiting w_share)) by (vm_compute in Hs; injection Hs as <- _; reflexivity).
  split; [exact Hr|].
  apply (scan_never_stuck (T := list) (ST := list_store) w_scanId 60 "m1" w_scanDb w_paused e db Hs); exact Hr.
Defined.

Lemma cancel_ends_at_turn_witness :
  match scan_steps w_scanId 60 "m1" (new_entry, w_scanDb) w_paused with
  | Some (e, db) => exists e' db', scan_steps w_scanId 60 "m1" (cancelScan e, db) [GoesOn; Turn 9] = Some (e', db') /\
      sc_status (en_state e') = Cancelled
  | None => False end.
Proof.
  destruct (scan_steps w_scanId 60 "m1" (new_entry, w_scanDb) w_paused) as [[e db]|] eqn:Hs; [|discriminate Hs].
  assert (Hr : en_running e = Some (Waiting w_share)) by (vm_compute in Hs; injection Hs as <- _; reflexivity).
  destruct (cancel_ends_at_turn (T := list) (ST := list_store) w_scanId 60 "m1" w_scanDb w_paused e db 9 w_share Hs
    (or_intror (or_introl Hr))) as (e' & db' & Hst & _ & Hc & _).
  exists e', db'. unfold to_turn in Hst. rewrite Hr in Hst. split; [exact Hst|exact Hc].
Defined.

(** An agent's report on a monitor that the server scans: the state says that a scan runs, or that
    it is over, whether or not one does. Nothing checks that the monitor is the agent's. *)
Definition w_report (status : string) : ScanEvent :=
  AgentReports 8 (Some w_share) {| ap_status := status; ap_folders := 0; ap_files := 0; ap_bytes := 0; ap_current := "" |}.

Lemma agent_report_no_run :
  match scan_steps w_scanId 60 "m1" (new_entry, w_scanDb) [w_report "running"] with
  | Some (e, _) => sc_status (en_state e) = Running /\ running e = false
  | None => False end.
Proof. vm_compute. split; reflexivity. Qed.

Lemma agent_report_hides_run :
  match scan_steps w_scanId 60 "m1" (new_entry, w_scanDb) (w_paused ++ [w_report "done"]) with
  | Some (e, _) => sc_status (en_state e) = Done /\ running e = true
  | None => False end.
Proof. vm_compute. split; reflexivity. Qed.

(** After such a report the periodic check starts no scan of the share. *)
Lemma agent_report_stops_sweep (e : Entry) (Hc : en_cachedAt e = None) (Hr : en_running e = None) now m storage
    (db : ScanDb list) (Hs : sc_status (en_state e) = Running) :
  en_running (fst (storage_probe w_scanId now m storage e db)) = None.
Proof.
  unfold storage_probe, cachedFolders. rewrite Hc, Hs.
  destruct (text_at "path" (mon_config m)) as [path|]; [|done]. destruct (String.eqb path ""); [done|].
  by destruct (wantFolders (mon_config m) && ss_reachable storage).
Qed.

(** A cancellation asked while the scan is paused is only seen at the next turn: when the directory
    read meanwhile was the last one, the scan is reported as done. *)
Lemma late_cancel_is_done :
  match scan_steps w_scanId 60 "m1" (new_entry, w_scanDb)
          (w_paused ++ [CancelScan; GoesOn; ProbeEnds 8 w_sample; Applied 9]) with
  | Some (e, _) => sc_status (en_state e) = Done /\ en_cancelled e = true
  | None => False end.
Proof. vm_compute. split; reflexivity. Qed.

Lemma folder_history_spaced_witness :
  let call now := {| sn_now := now; sn_storageId := "m1";
    sn_folders := Some [{| fn_name := "a"; fn_sizeBytes := 1; fn_fileCount := 1; fn_folderCount := Some 0 |}] |} in
  let db := record_all w_scanId 60 [call 3600000; call 3700000; call 7200000] w_scanDb in
  map fm_ts (sd_folders db) = [3600000; 7200000] /\
  (3600000 = 7200000 \/ 60 * 60000 <= Z.abs (3600000 - 7200000)).
Proof.
  intros call db. split; [vm_compute; reflexivity|].
  assert (H1 : folder_row w_scanId 3600000 "m1" 0
    {| fn_name := "a"; fn_sizeBytes := 1; fn_fileCount := 1; fn_folderCount := Some 0 |} ∈ rows (sd_folders db)).
  { apply list_elem_of_In. vm_compute. left. reflexivity. }
  assert (H2 : folder_row w_scanId 7200000 "m1" 0
    {| fn_name := "a"; fn_sizeBytes := 1; fn_fileCount := 1; fn_folderCount := Some 0 |} ∈ rows (sd_folders db)).
  { apply list_elem_of_In. vm_compute. right. left. reflexivity. }
  exact (folder_history_spaced (T := list) (ST := list_store) w_scanId 60
    [call 3600000; call 3700000; call 7200000] w_scanDb ltac:(lia) eq_refl _ _ H1 H2 eq_refl).
Defined.
