(* ===== verification/Reports.v ===== *)
(** * Reports

    Models apps/backend/src/services/reports.ts: the window and the scope of a report, the data of
    each type, and the files saved in the report directory. An instant stands for its ISO text, whose
    first ten characters are its UTC day; the texts compared by [localeCompare] are such dates, on
    which it is the order of their bytes. The clock and the size of a document are arguments; a rule
    [order by] leaves ties in the order of the table. *)
From S2P Require Import Prelude Text Dates Store Schema RowUpdates Health BackupPolicy PublicStatus.

(** ** Names and paths *)

Inductive ReportType : Type := Summary | Uptime | Incidents | Resource | Storage | StorageDetail | Inventory.
#[export] Instance ReportType_eq : EqDecision ReportType.
Proof. solve_decision. Defined.

Definition type_text (t : ReportType) : string :=
  match t with
  | Summary => "summary" | Uptime => "uptime" | Incidents => "incidents" | Resource => "resource"
  | Storage => "storage" | StorageDetail => "storage-detail" | Inventory => "inventory" end.

Definition REPORT_TYPES : list ReportType :=
  [Summary; Uptime; Incidents; Resource; Storage; StorageDetail; Inventory].

Definition REPORT_PREFIX : string := "argus-report-".
Definition DEFAULT_DAYS : Z := 30.
Definition INCIDENT_STATUSES : list string := ["DOWN"; "HANG"; "DEGRADED"].
Definition INCIDENT_CAP : nat := 2000.
Definition STORAGE_ALERT_PCT : Q := 75.

Definition reportFileName (type : ReportType) (generatedAt : string) : string :=
  REPORT_PREFIX +:+ type_text type +:+ "-" +:+ colons_to_dashes generatedAt +:+ ".json".

Definition typeFromName (name : string) : ReportType :=
  let rest := substring (String.length REPORT_PREFIX) (String.length name) name in
  default Uptime (List.find (fun t => startsWith (type_text t +:+ "-") rest) REPORT_TYPES).

(** [basename(name)] is the name: the first check leaves no separator. *)
Definition safeReportPath (REPORT_DIR name : string) : result string string :=
  if has_char "/" name || has_char "\" name || contains ".." name
  then Err "invalid report name"
  else
    let full := resolve_in REPORT_DIR name in
    if negb (startsWith (REPORT_DIR +:+ "/") full) then Err "path traversal rejected" else Ok full.

(** ** The request *)

Inductive ScopeKind : Type := AllMonitors | AgentScope | MonitorScope.
Record ReportScope : Type := { scope_kind : ScopeKind; scope_refId : option string }.
Record ReportRequest : Type := {
  rq_type : ReportType; rq_scope : ReportScope; rq_days : option Z; rq_from : option string;
  rq_to : option string
}.

(** A scope without the id of its subject covers everything. *)
Inductive Subject : Type := Everything | OfAgent (id : string) | OfMonitor (id : string).
Definition subject (s : ReportScope) : Subject :=
  match scope_kind s, nonblank (scope_refId s) with
  | AgentScope, Some id => OfAgent id
  | MonitorScope, Some id => OfMonitor id
  | _, _ => Everything end.

Record Window : Type := { win_from : Z; win_until : Z; win_days : Z; win_label : string }.

(** [None] is the exception of a text that is no date. *)
Definition toStartIso (s : string) : option Z :=
  if Nat.eqb (String.length s) 10 then Date_parse (s +:+ "T00:00:00.000Z") else Date_parse s.
Definition toEndIso (s : string) : option Z :=
  if Nat.eqb (String.length s) 10 then Date_parse (s +:+ "T23:59:59.999Z") else Date_parse s.

(** [Math.ceil(a / b)] *)
Definition ceil_div (a b : Z) : Z := - ((- a) / b).

Definition resolveWindow (now : Z) (req : ReportRequest) : option Window :=
  match nonblank (rq_from req) with
  | Some from_ =>
      let! from_ := toStartIso from_ otherwise None in
      let! until := match nonblank (rq_to req) with Some t => toEndIso t | None => Some now end otherwise None in
      Some {| win_from := from_; win_until := until;
              win_days := Z.max 1 (ceil_div (until - from_) 86400000);
              win_label := day_key from_ +:+ " → " +:+ day_key until |}
  | None =>
      let days := default DEFAULT_DAYS (rq_days req) in
      Some {| win_from := now - days * 86400000; win_until := now; win_days := days;
              win_label := "Last " +:+ String_of_int days +:+ " day" +:+ (if days =? 1 then "" else "s") |}
  end.

Definition in_win (win : Window) (ts : Z) : bool := (win_from win <=? ts) && (ts <=? win_until win).

(** ** Grouping *)

(** [const a = m.get(key(r)) ?? init; ...; m.set(key(r), a)] over a list. *)
Definition group_by {R A} (key : R -> string) (init : A) (add : A -> R -> A) (l : list R) : list (string * A) :=
  fold_left (fun m r => map_set (key r) (add (default init (map_get (key r) m)) r) m) l [].

(** [[...m.entries()].sort((a, b) => a[0].localeCompare(b[0]))] *)
Definition by_date {A} (m : list (string * A)) : list (string * A) :=
  js_sort (fun a b => String.ltb (fst b) (fst a)) m.

(** [Math.round(x * 10) / 10] and with two decimals *)
Definition round1 (x : Q) : Q := Qmake (js_round (x * 10)) 10.
Definition round2 (x : Q) : Q := Qmake (js_round (x * 10000)) 100.

(** ** The data *)

(** The tables a report reads. *)
Record ReportDb (T : Type -> Type) : Type := {
  rd_agents : T AgentRow; rd_monitors : T MonitorRow; rd_uptimeBuckets : T UptimeBucketRow;
  rd_statusEvents : T StatusEventRow; rd_storageMetrics : T StorageMetricRow;
  rd_folderMetrics : T FolderMetricRow; rd_hostMetrics : T HostMetricRow;
  rd_processMetrics : T ProcessMetricRow
}.
Arguments rd_agents {T} _. Arguments rd_monitors {T} _. Arguments rd_uptimeBuckets {T} _.
Arguments rd_statusEvents {T} _. Arguments rd_storageMetrics {T} _. Arguments rd_folderMetrics {T} _.
Arguments rd_hostMetrics {T} _. Arguments rd_processMetrics {T} _.

Record Target : Type := { t_sourceId : string; t_entity : string; t_label : string }.

Record UptimeRow : Type := { ur_label : string; ur_uptimePct : Q }.
Record UptimeData : Type := {
  ud_rows : list UptimeRow; ud_overallPct : Q; ud_trend : list (string * option Q)
}.

Record IncidentItem : Type := { ii_entity : string; ii_newStatus : option string; ii_ts : Z }.
Record DayCount : Type := { dc_total : Z; dc_DOWN : Z; dc_HANG : Z; dc_DEGRADED : Z }.
Record IncidentData : Type := {
  id_count : Z; id_items : list IncidentItem; id_perDay : list (string * DayCount)
}.

Record InventoryAgent : Type := {
  ia_name : string; ia_platform : option string; ia_status : string; ia_version : option string
}.
Record InventoryMonitor : Type := {
  im_name : string; im_type : string; im_enabled : bool; im_agentName : string
}.
Record InventoryData : Type := { inv_agents : list InventoryAgent; inv_monitors : list InventoryMonitor }.

Record Capacity : Type := { cap_usedPct : option Q; cap_usedBytes : option Z; cap_totalBytes : option Z }.
Record StorageItem : Type := { si_name : string; si_current : Capacity; si_days : list (string * Capacity) }.

Record TopFolder : Type := {
  tf_folder : string; tf_sizeBytes : option Z; tf_fileCount : option Z; tf_folderCount : option Z
}.
Record StorageDetailItem : Type := {
  sdi_name : string; sdi_current : Capacity; sdi_freeBytes : option Z; sdi_days : list (string * Capacity);
  sdi_topFolders : list TopFolder; sdi_capturedAt : option Z
}.

Record ResourceRow : Type := {
  rr_name : string; rr_host : bool; rr_avgCpu : option Q; rr_peakCpu : option Q; rr_avgMem : option Q
}.
(** A day of one or two series. *)
Record SeriesPoint : Type := { pt_date : string; pt_cpu : option Q; pt_mem : option Q }.
Record Series : Type := { se_name : string; se_points : list SeriesPoint }.
Record ResourceData : Type := { res_hosts : list Series; res_processes : list Series; res_rows : list ResourceRow }.

Definition TOP_FOLDERS : nat := 30.
Definition WALK_WINDOW_MS : Z := 6 * 60 * 60 * 1000.
Definition RESOURCE_SERIES_CAP : nat := 25.

Definition no_capacity : Capacity := {| cap_usedPct := None; cap_usedBytes := None; cap_totalBytes := None |}.

(** *** Averages *)

Definition sumQ (xs : list Q) : Q := fold_left Qplus xs 0%Q.
Definition lenQ {A} (xs : list A) : Q := inject_Z (Z.of_nat (List.length xs)).
Definition avgOf (xs : list Q) : option Q :=
  match xs with [] => None | _ => Some (round1 (sumQ xs / lenQ xs)) end.
Definition peakOf (xs : list Q) : option Q :=
  match xs with
  | [] => None
  | x :: xs => Some (round1 (fold_left (fun a b => if Qle_bool a b then b else a) xs x)) end.

(** The sum and the number of the values present. *)
Definition add_value (a : Q * Z) (v : option Q) : Q * Z :=
  match v with Some v => ((a.1 + v)%Q, a.2 + 1) | None => a end.
Definition mean1 (a : Q * Z) : option Q := if a.2 =? 0 then None else Some (round1 (a.1 / inject_Z a.2)).

(** [dailyAvg] of two series. *)
Definition dailyAvg (pts : list SeriesPoint) : list SeriesPoint :=
  map (fun '(date, (cpu, mem)) => {| pt_date := date; pt_cpu := mean1 cpu; pt_mem := mean1 mem |})
    (by_date (group_by pt_date ((0%Q, 0), (0%Q, 0))
       (fun a p => (add_value a.1 (pt_cpu p), add_value a.2 (pt_mem p))) pts)).

(** ** The builders *)

Section reports.
Context {T : Type -> Type} {ST : Store T}.
Implicit Types (db : ReportDb T) (scope : ReportScope) (win : Window).

Definition agent_by db (id : string) : option AgentRow :=
  select_first (fun a => String.eqb (agent_id a) id) (rd_agents db).
Definition monitor_by db (id : string) : option MonitorRow :=
  select_first (fun m => String.eqb (mon_id m) id) (rd_monitors db).

Definition resolveScopeLabel db scope : string :=
  match subject scope with
  | OfAgent id => "Agent: " +:+ match agent_by db id with Some a => agent_name a | None => "unknown" end
  | OfMonitor id => "Monitor: " +:+ match monitor_by db id with Some m => mon_name m | None => "unknown" end
  | Everything => "All monitors" end.

(** The monitors in scope. *)
Definition scope_monitors db scope : list MonitorRow :=
  match subject scope with
  | OfMonitor id => select (fun m => String.eqb (mon_id m) id) (rd_monitors db)
  | OfAgent id => select (fun m => String.eqb (mon_agentId m) id) (rd_monitors db)
  | Everything => rows (rd_monitors db) end.

Definition resolveTargets db scope : list Target :=
  map (fun m => {| t_sourceId := mon_agentId m; t_entity := mon_name m; t_label := mon_name m |})
    (scope_monitors db scope).

(** *** Uptime *)

Definition target_buckets db win (t : Target) : list UptimeBucketRow :=
  select (fun b => String.eqb (ub_sourceId b) (t_sourceId t) && String.eqb (ub_entity b) (t_entity t) &&
                   in_win win (ub_bucketStart b)) (rd_uptimeBuckets db).

Definition pct_of (acc : Z * Z) : Q := uptimePct {| upSec := acc.1; totalSec := acc.2 |}.

(** The buckets of one target: its sums, those per day and its row. *)
Definition add_target db win (s : list (string * (Z * Z)) * (Z * Z) * list UptimeRow) (t : Target)
  : list (string * (Z * Z)) * (Z * Z) * list UptimeRow :=
  let '(byDay, tot, rows) := s in
  let buckets := target_buckets db win t in
  let sums := fold_left add_bucket buckets (0, 0) in
  (fold_left add_to_day buckets byDay, (tot.1 + sums.1, tot.2 + sums.2),
   rows ++ [{| ur_label := t_label t; ur_uptimePct := pct_of sums |}]).

Definition buildUptimeData db scope win : UptimeData :=
  let '(byDay, tot, rows) := fold_left (add_target db win) (resolveTargets db scope) ([], (0, 0), []) in
  {| ud_rows := js_sort (fun a b => negb (Qle_bool (ur_uptimePct a) (ur_uptimePct b))) rows;
     ud_overallPct := pct_of tot;
     ud_trend := map (fun '(date, a) =>
       (date, if 0 <? a.2 then Some (round2 (inject_Z a.1 / inject_Z a.2)) else None)) (by_date byDay) |}.

(** *** Incidents *)

Definition incident_item (e : StatusEventRow) : IncidentItem :=
  {| ii_entity := ev_entity e; ii_newStatus := ev_newStatus e; ii_ts := ev_ts e |}.

Definition is_incident win (e : StatusEventRow) : bool :=
  in_win win (ev_ts e) && match ev_newStatus e with Some s => includes INCIDENT_STATUSES s | None => false end.

Definition has_status (s : string) (i : IncidentItem) : Z :=
  match ii_newStatus i with Some t => if String.eqb t s then 1 else 0 | None => 0 end.

Definition count_incident (a : DayCount) (i : IncidentItem) : DayCount :=
  {| dc_total := dc_total a + 1; dc_DOWN := dc_DOWN a + has_status "DOWN" i;
     dc_HANG := dc_HANG a + has_status "HANG" i; dc_DEGRADED := dc_DEGRADED a + has_status "DEGRADED" i |}.

(** [None] when the monitor of the scope is gone. *)
Definition incident_scope db scope : option (StatusEventRow -> bool) :=
  match subject scope with
  | Everything => Some (fun _ => true)
  | OfAgent id => Some (fun e => String.eqb (ev_sourceId e) id)
  | OfMonitor id =>
      let! m := monitor_by db id otherwise None in
      Some (fun e => String.eqb (ev_sourceId e) (mon_agentId m) && String.eqb (ev_entity e) (mon_name m)) end.

Definition buildIncidentData db scope win : IncidentData :=
  match incident_scope db scope with
  | None => {| id_count := 0; id_items := []; id_perDay := [] |}
  | Some mine =>
      let events := firstn INCIDENT_CAP (js_sort (fun a b => ii_ts a <? ii_ts b)
        (map incident_item (select (fun e => is_incident win e && mine e) (rd_statusEvents db)))) in
      {| id_count := Z.of_nat (List.length events); id_items := events;
         id_perDay := by_date (group_by (fun i => day_key (ii_ts i))
           {| dc_total := 0; dc_DOWN := 0; dc_HANG := 0; dc_DEGRADED := 0 |} count_incident events) |}
  end.

(** *** Inventory *)

Definition buildInventoryData db : InventoryData :=
  let agentNameById := js_map agent_id agent_name (rows (rd_agents db)) in
  {| inv_agents := map (fun a => {| ia_name := agent_name a; ia_platform := agent_platform a;
       ia_status := agent_status a; ia_version := agent_version a |}) (rows (rd_agents db));
     inv_monitors := map (fun m => {| im_name := mon_name m; im_type := mon_type m; im_enabled := mon_enabled m;
       im_agentName := default "" (map_get (mon_agentId m) agentNameById) |}) (rows (rd_monitors db)) |}.

(** *** Storage *)

Definition resolveStorageMonitors db scope : list MonitorRow :=
  List.filter (fun m => String.eqb (mon_type m) "storage") (scope_monitors db scope).

(** The sum and number of the percentages of a day, and its last sizes. *)
Record StorageDay : Type := { sy_pct : Q * Z; sy_used : option Z; sy_total : option Z }.
Definition keep_last {A} (a b : option A) : option A := match a with Some _ => a | None => b end.
Definition add_point (a : StorageDay) (p : StorageMetricRow) : StorageDay :=
  {| sy_pct := add_value (sy_pct a) (sm_usedPct p); sy_used := keep_last (sm_usedBytes p) (sy_used a);
     sy_total := keep_last (sm_totalBytes p) (sy_total a) |}.

Definition storage_points db win (m : MonitorRow) : list StorageMetricRow :=
  js_sort (fun a b => sm_ts b <? sm_ts a)
    (select (fun p => String.eqb (sm_storageId p) (mon_id m) && in_win win (sm_ts p)) (rd_storageMetrics db)).

Definition storage_item db win (m : MonitorRow) : StorageItem :=
  let points := storage_points db win m in
  let byDay := group_by (fun p => day_key (sm_ts p)) {| sy_pct := (0%Q, 0); sy_used := None; sy_total := None |}
    add_point points in
  {| si_name := mon_name m;
     si_current := match List.last (map Some points) None with
       | Some p => {| cap_usedPct := sm_usedPct p; cap_usedBytes := sm_usedBytes p; cap_totalBytes := sm_totalBytes p |}
       | None => no_capacity end;
     si_days := map (fun '(date, a) => (date, {| cap_usedPct := mean1 (sy_pct a); cap_usedBytes := sy_used a;
       cap_totalBytes := sy_total a |})) (by_date byDay) |}.

Definition buildStorageData db scope win : list StorageItem :=
  map (storage_item db win) (resolveStorageMonitors db scope).

(** A descending order has the nulls first. *)
Definition smaller_size (a b : FolderMetricRow) : bool :=
  match fm_sizeBytes a, fm_sizeBytes b with
  | Some x, Some y => x <? y | Some _, None => true | None, _ => false end.

(** The first row of each folder, 30 at most. *)
Definition add_folder (s : list string * list TopFolder) (r : FolderMetricRow) : list string * list TopFolder :=
  let '(seen, top) := s in
  if Nat.leb TOP_FOLDERS (List.length top) || includes seen (fm_folder r) then s
  else (seen ++ [fm_folder r], top ++ [{| tf_folder := fm_folder r; tf_sizeBytes := fm_sizeBytes r;
          tf_fileCount := fm_fileCount r; tf_folderCount := fm_folderCount r |}]).

Definition folder_rows db (m : MonitorRow) : list FolderMetricRow :=
  select (fun f => String.eqb (fm_storageId f) (mon_id m)) (rd_folderMetrics db).

Definition top_folders db (m : MonitorRow) (latest : Z) : list TopFolder :=
  let sinceWalk := latest - WALK_WINDOW_MS in
  let rows := firstn 200 (js_sort smaller_size
    (List.filter (fun f => sinceWalk <=? fm_ts f) (folder_rows db m))) in
  snd (fold_left add_folder rows ([], [])).

(** The item of a monitor is found again by its name. *)
Definition storage_detail db (base : list StorageItem) (m : MonitorRow) : StorageDetailItem :=
  let baseMon := List.find (fun b => String.eqb (si_name b) (mon_name m)) base in
  let cur := match baseMon with Some b => si_current b | None => no_capacity end in
  let latest := fm_ts <$> head (js_sort (fun a b => fm_ts a <? fm_ts b) (folder_rows db m)) in
  {| sdi_name := mon_name m; sdi_current := cur;
     sdi_freeBytes := match cap_totalBytes cur, cap_usedBytes cur with
                      | Some t, Some u => Some (t - u) | _, _ => None end;
     sdi_days := match baseMon with Some b => si_days b | None => [] end;
     sdi_topFolders := match latest with Some t => top_folders db m t | None => [] end;
     sdi_capturedAt := latest |}.

Definition buildStorageDetailData db scope win : list StorageDetailItem :=
  map (storage_detail db (buildStorageData db scope win)) (resolveStorageMonitors db scope).

(** *** Resources *)

Definition resource_agents db scope : list AgentRow * option string :=
  match subject scope with
  | OfAgent id => (select (fun a => String.eqb (agent_id a) id) (rd_agents db), None)
  | OfMonitor id =>
      match monitor_by db id with
      | None => ([], None)
      | Some m => (select (fun a => String.eqb (agent_id a) (mon_agentId m)) (rd_agents db), Some (mon_name m))
      end
  | Everything => (rows (rd_agents db), None) end.

(** The series and the row of a host, when it has points. *)
Definition host_series db win (a : AgentRow) : option (Series * ResourceRow) :=
  let pts := js_sort (fun p q => hm_ts q <? hm_ts p)
    (select (fun p => String.eqb (hm_agentId p) (agent_id a) && in_win win (hm_ts p)) (rd_hostMetrics db)) in
  if Nat.eqb (List.length pts) 0 then None else
  let cpu := omap hm_cpuPct pts in
  let mem := omap hm_memPct pts in
  Some ({| se_name := agent_name a;
           se_points := dailyAvg (map (fun p => {| pt_date := day_key (hm_ts p); pt_cpu := hm_cpuPct p;
                                                   pt_mem := hm_memPct p |}) pts) |},
        {| rr_name := agent_name a; rr_host := true; rr_avgCpu := avgOf cpu; rr_peakCpu := peakOf cpu;
           rr_avgMem := avgOf mem |}).

(** The points of each entity and its raw values, by the first point. *)
Definition add_process (l : list ProcessMetricRow) (r : ProcessMetricRow) : list ProcessMetricRow := l ++ [r].

Definition process_series (g : string * list ProcessMetricRow) : Series :=
  {| se_name := fst g; se_points := dailyAvg (map (fun r => {| pt_date := day_key (pm_ts r);
       pt_cpu := pm_cpuPct r; pt_mem := pm_memMb r |}) (snd g)) |}.
Definition process_row (g : string * list ProcessMetricRow) : ResourceRow :=
  {| rr_name := fst g; rr_host := false; rr_avgCpu := avgOf (omap pm_cpuPct (snd g));
     rr_peakCpu := peakOf (omap pm_cpuPct (snd g)); rr_avgMem := avgOf (omap pm_memMb (snd g)) |}.
Definition peak_of (g : string * list ProcessMetricRow) : Q :=
  default 0%Q (peakOf (omap pm_cpuPct (snd g))).

Definition buildResourceData db scope win : ResourceData :=
  let '(agentRows, onlyEntity) := resource_agents db scope in
  if Nat.eqb (List.length agentRows) 0 then {| res_hosts := []; res_processes := []; res_rows := [] |} else
  let hosts := match nonblank onlyEntity with
               | Some _ => [] | None => omap (host_series db win) agentRows end in
  let procRows := js_sort (fun p q => pm_ts q <? pm_ts p)
    (select (fun p => in_win win (pm_ts p) && includes (map agent_id agentRows) (pm_sourceId p) &&
       match nonblank onlyEntity with Some e => String.eqb (pm_entity p) e | None => true end)
       (rd_processMetrics db)) in
  let processes := js_sort (fun a b => negb (Qle_bool (peak_of b) (peak_of a)))
    (group_by pm_entity [] add_process procRows) in
  {| res_hosts := map fst hosts; res_rows := map snd hosts ++ map process_row processes;
     res_processes := firstn RESOURCE_SERIES_CAP (map process_series processes) |}.

(** *** Summary *)

Record SummaryData : Type := {
  su_overallUptimePct : Q; su_incidentCount : Z; su_agentsTotal : Z; su_monitorsTotal : Z;
  su_monitorsEnabled : Z; su_worstMonitors : list UptimeRow; su_topIncidentMonitors : list (string * Z);
  su_storageAlerts : list (string * Q); su_uptimeTrend : list (string * option Q);
  su_incidentsPerDay : list (string * DayCount)
}.

Definition buildSummaryData db scope win : SummaryData :=
  let uptime := buildUptimeData db scope win in
  let incidents := buildIncidentData db scope win in
  let storage := buildStorageData db scope win in
  let inventory := buildInventoryData db in
  let counts := group_by ii_entity 0 (fun n _ => n + 1) (id_items incidents) in
  {| su_overallUptimePct := ud_overallPct uptime; su_incidentCount := id_count incidents;
     su_agentsTotal := Z.of_nat (List.length (inv_agents inventory));
     su_monitorsTotal := Z.of_nat (List.length (inv_monitors inventory));
     su_monitorsEnabled := Z.of_nat (List.length (List.filter im_enabled (inv_monitors inventory)));
     su_worstMonitors := firstn 8 (ud_rows uptime);
     su_topIncidentMonitors := firstn 8 (js_sort (fun a b => snd a <? snd b) counts);
     su_storageAlerts := js_sort (fun a b => negb (Qle_bool (snd b) (snd a)))
       (omap (fun m => match cap_usedPct (si_current m) with
                       | Some p => if Qle_bool STORAGE_ALERT_PCT p then Some (si_name m, p) else None
                       | None => None end) storage);
     su_uptimeTrend := ud_trend uptime; su_incidentsPerDay := id_perDay incidents |}.

(** ** Documents and files *)

Inductive ReportData : Type :=
| SummaryReport (d : SummaryData) | UptimeReport (d : UptimeData) | IncidentsReport (d : IncidentData)
| ResourceReport (d : ResourceData) | InventoryReport (d : InventoryData)
| StorageReport (d : list StorageItem) | StorageDetailReport (d : list StorageDetailItem).

Record ReportDoc : Type := {
  rp_type : ReportType; rp_scope : ReportScope; rp_days : Z; rp_from : Z; rp_to : Z; rp_generatedAt : Z;
  rp_scopeLabel : string; rp_windowLabel : string; rp_data : ReportData
}.

Definition buildReport (now : Z) db (req : ReportRequest) : option ReportDoc :=
  let! span := resolveWindow now req otherwise None in
  let scope := rq_scope req in
  Some {|
    rp_type := rq_type req; rp_scope := scope; rp_days := win_days span; rp_from := win_from span;
    rp_to := win_until span; rp_generatedAt := now; rp_scopeLabel := resolveScopeLabel db scope;
    rp_windowLabel := win_label span;
    rp_data := match rq_type req with
      | Summary => SummaryReport (buildSummaryData db scope span)
      | Uptime => UptimeReport (buildUptimeData db scope span)
      | Incidents => IncidentsReport (buildIncidentData db scope span)
      | Resource => ResourceReport (buildResourceData db scope span)
      | Inventory => InventoryReport (buildInventoryData db)
      | Storage => StorageReport (buildStorageData db scope span)
      | StorageDetail => StorageDetailReport (buildStorageDetailData db scope span) end |}.
End reports.

(** A file of the report directory: its size and time, and the document when its text is one. *)
Record ReportFile : Type := { rf_size : Z; rf_mtime : Z; rf_doc : option ReportDoc }.

Record ReportMeta : Type := {
  rm_name : string; rm_type : ReportType; rm_createdAt : Z; rm_size : Z; rm_scopeLabel : option string;
  rm_windowLabel : option string
}.

Section files.
Context {T : Type -> Type} {ST : Store T}.
Context (REPORT_DIR : string) (byteLength : ReportDoc -> Z).

(** The directory, by file name; [None] before the first report. *)
Definition ReportDir : Type := option (list (string * ReportFile)).

Definition generateReport (now : Z) (db : ReportDb T) (req : ReportRequest) (dir : ReportDir)
  : option (ReportDir * ReportMeta) :=
  let! report := buildReport now db req otherwise None in
  let name := reportFileName (rq_type req) (toISOString (rp_generatedAt report)) in
  Some (Some (map_set name {| rf_size := byteLength report; rf_mtime := now; rf_doc := Some report |}
                (default [] dir)),
        {| rm_name := name; rm_type := rq_type req; rm_createdAt := rp_generatedAt report;
           rm_size := byteLength report; rm_scopeLabel := Some (rp_scopeLabel report);
           rm_windowLabel := Some (rp_windowLabel report) |}).

Definition report_meta (f : string * ReportFile) : ReportMeta :=
  let '(name, f) := f in
  match rf_doc f with
  | Some doc => {| rm_name := name; rm_type := rp_type doc; rm_createdAt := rp_generatedAt doc;
                   rm_size := rf_size f; rm_scopeLabel := Some (rp_scopeLabel doc);
                   rm_windowLabel := Some (rp_windowLabel doc) |}
  | None => {| rm_name := name; rm_type := typeFromName name; rm_createdAt := rf_mtime f;
               rm_size := rf_size f; rm_scopeLabel := None; rm_windowLabel := None |} end.

Definition listReports (dir : ReportDir) : list ReportMeta :=
  match dir with
  | None => []
  | Some entries =>
      js_sort (fun a b => rm_createdAt a <? rm_createdAt b)
        (map report_meta (List.filter (fun f => startsWith REPORT_PREFIX (fst f) && endsWith ".json" (fst f)) entries))
  end.

Inductive FileError : Type := Rejected (why : string) | NotFound.

(** The file system looks the path up; [safeReportPath] gives that of the name. *)
Definition readReportFile (name : string) (dir : ReportDir) : result FileError ReportFile :=
  match safeReportPath REPORT_DIR name with
  | Err why => Err (Rejected why)
  | Ok _ => match map_get name (default [] dir) with Some f => Ok f | None => Err NotFound end
  end.

Definition deleteReport (name : string) (dir : ReportDir) : ReportDir * result FileError unit :=
  match safeReportPath REPORT_DIR name with
  | Err why => (dir, Err (Rejected why))
  | Ok _ => match map_get name (default [] dir) with
            | Some _ => (Some (List.filter (fun f => negb (String.eqb (fst f) name)) (default [] dir)), Ok tt)
            | None => (dir, Err NotFound) end
  end.
End files.

(** ** Theorems *)

(** *** Grouping *)

Section grouping.
Context {R A : Type} (key : R -> string) (init : A) (add : A -> R -> A).

(** The entry of a key folds the elements of that key, in order. *)
Lemma map_get_group_by l k :
  map_get k (group_by key init add l) =
  (if existsb (fun r => String.eqb (key r) k) l
   then Some (fold_left add (List.filter (fun r => String.eqb (key r) k) l) init) else None).
Proof.
  unfold group_by. induction l as [|r l IH] using rev_ind; [done|].
  rewrite fold_left_app, existsb_app, List.filter_app. cbn [fold_left existsb List.filter].
  rewrite orb_false_r. set (m := fold_left _ l []) in *.
  destruct (String.eqb_spec (key r) k) as [->|Hne].
  - rewrite map_get_set_eq, orb_true_r, fold_left_app. cbn [fold_left]. rewrite IH. f_equal. f_equal.
    destruct (existsb _ l) eqn:He; [done|]. cbn [default].
    assert (List.filter (fun r' => String.eqb (key r') k) l = []) as ->; [|done].
    rewrite existsb_false in He. clear -He. induction l as [|x l IH]; [done|]. cbn [List.filter].
    rewrite He by left. apply IH. intros y Hy. apply He. by right.
  - by rewrite map_get_set_ne, orb_false_r, app_nil_r.
Qed.

Lemma map_set_keys {V} (k : string) (v : V) (m : list (string * V)) : NoDup (map fst m) -> NoDup (map fst (map_set k v m)) /\
  forall x, x ∈ map fst (map_set k v m) <-> x = k \/ x ∈ map fst m.
Proof.
  induction m as [|[k' v'] m IH]; intros Hnd; cbn.
  - split; [apply NoDup_singleton|]. intros x. rewrite list_elem_of_singleton, elem_of_nil. tauto.
  - apply NoDup_cons in Hnd as [Hn Hnd]. destruct (IH Hnd) as [H1 H2].
    destruct (decide (k = k')) as [<-|Hne]; cbn.
    + split; [by constructor|]. intros x. rewrite elem_of_cons. tauto.
    + split.
      * constructor; [|done]. rewrite H2. intros [->|?]; done.
      * intros x. rewrite !elem_of_cons, H2. tauto.
Qed.

Lemma group_by_keys l : NoDup (map fst (group_by key init add l)) /\
  forall k, k ∈ map fst (group_by key init add l) <-> k ∈ map key l.
Proof.
  unfold group_by. induction l as [|r l IH] using rev_ind; [split; [constructor|done]|].
  rewrite fold_left_app. cbn [fold_left]. destruct IH as [H1 H2].
  pose proof (map_set_keys (key r) (add (default init (map_get (key r) (fold_left (fun m r =>
    map_set (key r) (add (default init (map_get (key r) m)) r) m) l []))) r) _ H1) as [H3 H4].
  split; [exact H3|]. intros k. rewrite H4, H2, map_app, elem_of_app. cbn. rewrite list_elem_of_singleton. tauto.
Qed.

(** An entry is under a key that occurs, and folds its elements. *)
Lemma elem_of_group_by l k a : (k, a) ∈ group_by key init add l <->
  k ∈ map key l /\ a = fold_left add (List.filter (fun r => String.eqb (key r) k) l) init.
Proof.
  destruct (group_by_keys l) as [Hnd Hk]. pose proof (map_get_group_by l k) as Hg.
  assert (Hex : existsb (fun r => String.eqb (key r) k) l = true <-> k ∈ map key l).
  { rewrite existsb_true, elem_of_map. setoid_rewrite String.eqb_eq. split; intros (r & H1 & H2); exists r; done. }
  split.
  - intros Hin. assert (Hkey : k ∈ map key l) by (apply Hk, elem_of_map; by exists (k, a)).
    split; [done|]. rewrite (proj2 Hex Hkey) in Hg.
    apply map_get_Some in Hg. revert Hin Hg Hnd. clear. generalize (group_by key init add l). intros m.
    induction m as [|[k' a'] m IH]; [by intros []%not_elem_of_nil|]. cbn. intros Hin Hg [Hn Hnd]%NoDup_cons.
    apply elem_of_cons in Hin as [[= <- <-]|Hin]; apply elem_of_cons in Hg as [[= ->]|Hg]; [done|..].
    + exfalso. apply Hn, elem_of_map. by eexists (_, _).
    + exfalso. apply Hn, elem_of_map. by eexists (_, _).
    + by apply IH.
  - intros [Hkey ->]. rewrite (proj2 Hex Hkey) in Hg. by apply map_get_Some in Hg.
Qed.

(** What is counted per group adds up to what is counted over the list. *)
Lemma sum_groups (f : A -> Z) l : f init = 0 -> forall (g : R -> Z), (forall a r, f (add a r) = f a + g r) ->
  sum_of (fun e => f (snd e)) (group_by key init add l) = sum_of g l.
Proof.
  intros H0 g Hadd. unfold group_by.
  assert (Hset : forall (m : list (string * A)) k v, sum_of (fun e => f (snd e)) (map_set k v m) =
    sum_of (fun e => f (snd e)) m + f v - f (default init (map_get k m))).
  { unfold sum_of. induction m as [|[k' v'] m IH]; intros k v; cbn [map_set map_get foldr snd].
    - cbn. lia.
    - destruct (decide (k = k')) as [->|Hne]; cbn [foldr snd]; [cbn; lia|]. rewrite IH. lia. }
  induction l as [|r l IH] using rev_ind; [done|]. rewrite fold_left_app. cbn [fold_left].
  rewrite Hset, IH, Hadd. unfold sum_of. rewrite foldr_app. cbn [foldr].
  assert (Hacc : forall z, foldr (fun a n => g a + n) z l = foldr (fun a n => g a + n) 0 l + z).
  { intros z. clear. induction l as [|x l IH]; cbn [foldr]; [lia|]. rewrite IH. lia. }
  rewrite (Hacc (g r + 0)). lia.
Qed.
End grouping.

Lemma ltb_asym a b : String.ltb a b = true -> String.ltb b a = false.
Proof.
  unfold String.ltb. rewrite (String.compare_antisym a b). by destruct (String.compare b a).
Qed.

Lemma ltb_false_trans a b c : String.ltb b a = false -> String.ltb c b = false -> String.ltb c a = false.
Proof.
  unfold String.ltb. revert b c. induction a as [|x a IH]; intros [|y b] [|z c]; try done; simpl.
  unfold Ascii.compare.
  destruct (N.compare_spec (N_of_ascii y) (N_of_ascii x)), (N.compare_spec (N_of_ascii z) (N_of_ascii y)),
    (N.compare_spec (N_of_ascii z) (N_of_ascii x)); try done; try lia. apply IH.
Qed.

(** Two texts neither of which is before the other are the same. *)
Lemma ltb_total a b : String.ltb a b = false -> String.ltb b a = false -> a = b.
Proof.
  unfold String.ltb. rewrite (String.compare_antisym a b). intros H1 H2.
  apply String.compare_eq_iff. rewrite (String.compare_antisym a b). by destruct (String.compare b a).
Qed.

(** The dates of a report ascend. *)
Lemma by_date_sorted {A} (m : list (string * A)) : NoDup (map fst m) ->
  StronglySorted (fun a b => String.ltb (fst a) (fst b) = true) (by_date m).
Proof.
  intros Hnd. unfold by_date.
  assert (Hs : StronglySorted (fun a b => String.ltb (fst b) (fst a) = false)
    (js_sort (fun a b : string * A => String.ltb (fst b) (fst a)) m)).
  { apply js_sort_sorted; [intros a b; apply ltb_asym|intros a b c H1 H2; by eapply ltb_false_trans]. }
  assert (Hn : NoDup (map fst (js_sort (fun a b : string * A => String.ltb (fst b) (fst a)) m)))
    by (by rewrite js_sort_perm).
  induction Hs as [|a l Hs IH Ha]; constructor.
  - apply NoDup_cons in Hn as [_ Hn]. by apply IH.
  - apply NoDup_cons in Hn as [Hn _]. rewrite Forall_forall in *. intros b Hb. specialize (Ha b Hb).
    destruct (String.ltb (fst a) (fst b)) eqn:He; [done|]. exfalso. apply Hn.
    rewrite (ltb_total _ _ He Ha). apply elem_of_map. by exists b.
Qed.

Lemma sum_of_perm {A} (f : A -> Z) l1 l2 : l1 ≡ₚ l2 -> sum_of f l1 = sum_of f l2.
Proof. unfold sum_of. induction 1; cbn [foldr]; lia. Qed.

(** *** Uptime *)

Section report_theorems.
Context {T : Type -> Type} {ST : Store T}.
Implicit Types (db : ReportDb T) (scope : ReportScope) (win : Window).

Definition sums (bs : list UptimeBucketRow) : Z * Z := (sum_of ub_upSec bs, sum_of ub_totalSec bs).

Definition target_row db win (t : Target) : UptimeRow :=
  {| ur_label := t_label t; ur_uptimePct := pct_of (sums (target_buckets db win t)) |}.

(** The buckets of all targets, one target after the other. *)
Definition all_buckets db scope win : list UptimeBucketRow :=
  flat_map (target_buckets db win) (resolveTargets db scope).

Lemma sum_of_app {A} (f : A -> Z) l1 l2 : sum_of f (l1 ++ l2) = sum_of f l1 + sum_of f l2.
Proof. unfold sum_of. induction l1 as [|a l1 IH]; cbn [foldr app]; [done|]. rewrite IH. lia. Qed.

Lemma add_targets db win ts byDay tot rows :
  fold_left (add_target db win) ts (byDay, tot, rows) =
  let bs := flat_map (target_buckets db win) ts in
  (fold_left add_to_day bs byDay, (tot.1 + (sums bs).1, tot.2 + (sums bs).2), rows ++ map (target_row db win) ts).
Proof.
  cbv zeta. revert byDay tot rows. induction ts as [|t ts IH]; intros byDay tot rows; cbn [fold_left flat_map map].
  - rewrite app_nil_r. destruct tot. unfold sums, sum_of. cbn. do 3 f_equal; lia.
  - unfold add_target at 2. cbv zeta. rewrite IH. rewrite fold_left_app, fold_add_bucket. cbn [fst snd].
    rewrite !Z.add_0_l, <- app_assoc. unfold sums. rewrite !sum_of_app. cbn [fst snd].
    do 2 f_equal. f_equal; lia.
Qed.

(** C40: the uptime report has a row per target with the share of its buckets in the window, the worst
    first; the overall share is that of all these buckets; the trend has the days that have a bucket,
    in order, each with the share of its own buckets. *)
Theorem uptime_report db scope win :
  let d := buildUptimeData db scope win in
  let all := all_buckets db scope win in
  ud_rows d ≡ₚ map (target_row db win) (resolveTargets db scope) /\
  StronglySorted (fun a b => ur_uptimePct a <= ur_uptimePct b)%Q (ud_rows d) /\
  ud_overallPct d = pct_of (sums all) /\
  StronglySorted (fun a b => String.ltb (fst a) (fst b) = true) (ud_trend d) /\
  forall date v, (date, v) ∈ ud_trend d <->
    date ∈ map (fun b => day_key (ub_bucketStart b)) all /\
    let (up, total) := sums (List.filter (fun b => String.eqb (day_key (ub_bucketStart b)) date) all) in
    v = if 0 <? total then Some (round2 (inject_Z up / inject_Z total)) else None.
Proof.
  cbv zeta. unfold buildUptimeData. rewrite add_targets. cbv zeta. fold (all_buckets db scope win).
  set (all := all_buckets db scope win). cbn [ud_rows ud_overallPct ud_trend fst snd app].
  change (fold_left add_to_day all []) with (group_by (fun b => day_key (ub_bucketStart b)) (0, 0) add_bucket all).
  split; [apply js_sort_perm|]. split; [|split; [|split]].
  - assert (Hs : StronglySorted (fun a b => negb (Qle_bool (ur_uptimePct a) (ur_uptimePct b)) = false)
      (js_sort (fun a b => negb (Qle_bool (ur_uptimePct a) (ur_uptimePct b)))
        (map (target_row db win) (resolveTargets db scope)))).
    { apply js_sort_sorted; intros a b.
      - rewrite negb_true_iff, negb_false_iff, Qle_bool_iff, <- not_true_iff_false, Qle_bool_iff. lra.
      - intros c. rewrite !negb_false_iff, !Qle_bool_iff. lra. }
    eapply StronglySorted_mono; [|exact Hs]. intros a b Hb. by apply Qle_bool_iff, negb_false_iff.
  - done.
  - assert (Hs := by_date_sorted (group_by (fun b => day_key (ub_bucketStart b)) (0, 0) add_bucket all)
      (proj1 (group_by_keys _ _ _ _))).
    induction Hs as [|[k a] l _ IH Ha]; cbn [map]; constructor; [done|].
    rewrite Forall_forall in Ha. rewrite Forall_forall.
    intros x ([k' a'] & -> & Hx)%elem_of_map. by apply (Ha (k', a')).
  - intros date v. rewrite elem_of_map. split.
    + intros ([k a] & Hv & Hin). unfold by_date in Hin. rewrite elem_of_js_sort, elem_of_group_by in Hin.
      destruct Hin as [Hk ->]. injection Hv as -> ->. split; [done|]. by rewrite fold_add_bucket.
    + intros [Hk Hv]. exists (date, fold_left add_bucket
        (List.filter (fun b => String.eqb (day_key (ub_bucketStart b)) date) all) (0, 0)).
      split; [|unfold by_date; by rewrite elem_of_js_sort, elem_of_group_by].
      rewrite fold_add_bucket. cbn [fst snd]. rewrite !Z.add_0_l. by rewrite Hv.
Qed.

(** *** Incidents *)

Definition status_count (s : string) (day : string) (items : list IncidentItem) : Z :=
  sum_of (has_status s) (List.filter (fun i => String.eqb (day_key (ii_ts i)) day) items).

Lemma fold_count_incident l c :
  fold_left count_incident l c =
  {| dc_total := dc_total c + Z.of_nat (List.length l); dc_DOWN := dc_DOWN c + sum_of (has_status "DOWN") l;
     dc_HANG := dc_HANG c + sum_of (has_status "HANG") l;
     dc_DEGRADED := dc_DEGRADED c + sum_of (has_status "DEGRADED") l |}.
Proof.
  revert c. unfold sum_of. induction l as [|i l IH]; intros c; cbn [fold_left foldr List.length].
  - destruct c. cbn. f_equal; lia.
  - rewrite IH. cbn [count_incident dc_total dc_DOWN dc_HANG dc_DEGRADED]. f_equal; lia.
Qed.

Lemma incident_statuses i s : ii_newStatus i = Some s -> includes INCIDENT_STATUSES s = true ->
  has_status "DOWN" i + has_status "HANG" i + has_status "DEGRADED" i = 1.
Proof.
  intros Hi Hs. unfold has_status. rewrite Hi. apply includes_true, list_elem_of_In in Hs.
  by destruct Hs as [<-|[<-|[<-|[]]]].
Qed.

(** The incidents are the changes to DOWN, HANG or DEGRADED in the window and the scope, the
    newest first and at most the cap; the days are in order, each counts its incidents by status, and
    together they count every one. *)
Theorem incident_report db scope win :
  let d := buildIncidentData db scope win in
  match incident_scope db scope with
  | None => id_items d = [] /\ id_perDay d = []
  | Some mine =>
      let all := map incident_item (select (fun e => is_incident win e && mine e) (rd_statusEvents db)) in
      id_count d = Z.of_nat (List.length (id_items d)) /\
      (List.length (id_items d) = Nat.min INCIDENT_CAP (List.length all))%nat /\
      (exists rest, all ≡ₚ id_items d ++ rest /\
         forall i j, i ∈ id_items d -> j ∈ rest -> ii_ts j <= ii_ts i) /\
      StronglySorted (fun a b => ii_ts b <= ii_ts a) (id_items d) /\
      StronglySorted (fun a b => String.ltb (fst a) (fst b) = true) (id_perDay d) /\
      sum_of (fun e => dc_total (snd e)) (id_perDay d) = id_count d /\
      forall day c, (day, c) ∈ id_perDay d ->
        dc_total c = dc_DOWN c + dc_HANG c + dc_DEGRADED c /\ dc_DOWN c = status_count "DOWN" day (id_items d) /\
        dc_HANG c = status_count "HANG" day (id_items d) /\
        dc_DEGRADED c = status_count "DEGRADED" day (id_items d)
  end.
Proof.
  cbv zeta. unfold buildIncidentData. destruct (incident_scope db scope) as [mine|]; [|done]. cbv zeta.
  set (all := map incident_item _). set (sorted := js_sort _ all). set (items := firstn INCIDENT_CAP sorted).
  cbn [id_count id_items id_perDay].
  assert (Hsorted : StronglySorted (fun a b => ii_ts b <= ii_ts a) sorted).
  { eapply StronglySorted_mono; [|apply js_sort_sorted]; cbn; lia. }
  assert (Hsplit : sorted = items ++ skipn INCIDENT_CAP sorted) by (symmetry; apply firstn_skipn).
  pose proof Hsorted as Hs2. rewrite Hsplit in Hs2. apply StronglySorted_app in Hs2 as (Hs2 & Hi & _).
  split; [done|]. split; [by unfold items; rewrite length_firstn; unfold sorted; rewrite js_sort_perm|].
  split; [|split; [done|split; [|split]]].
  - exists (skipn INCIDENT_CAP sorted). rewrite <- Hsplit. split; [by unfold sorted; rewrite js_sort_perm|].
    intros i j. apply Hs2.
  - apply by_date_sorted, group_by_keys.
  - unfold by_date. rewrite (sum_of_perm _ _ _ (js_sort_perm _ _)).
    rewrite (sum_groups _ _ _ dc_total items) with (g := fun _ => 1) by done.
    clearbody items. clear. unfold sum_of. induction items as [|i l IH]; [done|]. cbn [foldr List.length].
    rewrite IH. lia.
  - intros day c. unfold by_date. rewrite elem_of_js_sort, elem_of_group_by, fold_count_incident.
    intros [_ ->]. cbn [dc_total dc_DOWN dc_HANG dc_DEGRADED]. rewrite !Z.add_0_l.
    split; [|done]. fold (status_count "DOWN" day items) (status_count "HANG" day items).
    assert (Hall : forall i, i ∈ items -> has_status "DOWN" i + has_status "HANG" i + has_status "DEGRADED" i = 1).
    { intros i Hin. assert (Hall : i ∈ all) by (apply (elem_of_js_sort (fun a b => ii_ts a <? ii_ts b));
        fold sorted; rewrite Hsplit; apply elem_of_app; by left).
      apply elem_of_map in Hall as (e & -> & [_ He]%elem_of_select). apply andb_true_iff in He as [He _].
      unfold is_incident in He. apply andb_true_iff in He as [_ He].
      destruct (ev_newStatus e) as [s|] eqn:Hs; [|done]. by apply (incident_statuses _ s). }
    unfold status_count, sum_of. revert Hall. generalize items. clear. intros l Hall.
    induction l as [|i l IH]; [done|]. cbn [List.filter]. specialize (IH ltac:(intros j Hj; apply Hall; by right)).
    pose proof (Hall i ltac:(left)). destruct (String.eqb _ day); [|done]. cbn [foldr List.length]. lia.
Qed.
End report_theorems.

(** *** Files *)

(** A text of the characters a report name is made of. *)
Definition name_char (c : ascii) : bool :=
  ((48 <=? code c) && (code c <=? 57)) || ((97 <=? code c) && (code c <=? 122)) ||
  Ascii.eqb c "-" || Ascii.eqb c "T" || Ascii.eqb c "Z".

Fixpoint name_text (s : string) : bool :=
  match s with EmptyString => true | String c s' => name_char c && name_text s' end.

Lemma name_text_app a b : name_text (a +:+ b) = name_text a && name_text b.
Proof. induction a as [|c a IH]; [done|]. rewrite app_cons_string. cbn. by rewrite IH, andb_assoc. Qed.

Lemma map_string_app f a b : map_string f (a +:+ b) = map_string f a +:+ map_string f b.
Proof. induction a as [|c a IH]; [done|]. rewrite app_cons_string. cbn. by rewrite IH, app_cons_string. Qed.

Lemma digits_named s : digit_string s -> map_string (fun c => if Ascii.eqb c ":" then "-"%char else c) s = s /\
  name_text s = true.
Proof.
  unfold digit_string. induction s as [|c s IH]; [done|]. intros [Hc Hs]%Forall_cons. cbn [map_string name_text].
  destruct (IH Hs) as [-> ->]. unfold name_char.
  assert (Ascii.eqb c ":" = false) as ->.
  { apply Ascii.eqb_neq. intros ->. vm_compute in Hc. destruct Hc as [_ Hc]. discriminate Hc. }
  split; [done|]. destruct Hc as [H1 H2]. by rewrite (proj2 (Z.leb_le _ _) H1), (proj2 (Z.leb_le (code c) 57)) by lia.
Qed.

Lemma pad_named w n : 0 <= n ->
  map_string (fun c => if Ascii.eqb c ":" then "-"%char else c) (pad w n) = pad w n /\ name_text (pad w n) = true.
Proof. intros Hn. by apply digits_named, pad_digits. Qed.

(** The name of a report: an allowed text, a dot, and one more. *)
Lemma stamp_text t : iso_range t -> exists a b,
  colons_to_dashes (toISOString t) = a +:+ "." +:+ b /\ name_text a = true /\ name_text b = true /\ b <> "".
Proof.
  intros Ht. unfold toISOString. rewrite iso_date_eq by done. unfold iso_time, colons_to_dashes.
  pose proof (iso_range_year t Ht) as Hy. unfold getUTCFullYear, getUTCMonth, getUTCDate in *.
  pose proof (month_of_day_range (day_of t)) as Hm. pose proof (date_of_day_range (day_of t)) as Hd.
  assert (Hms : 0 <= t mod MS_DAY) by (by apply Z.mod_pos_bound). set (ms := t mod MS_DAY) in *.
  destruct (pad_named 4 (year_from_day (day_of t))) as [E1 N1]; [lia|].
  destruct (pad_named 2 (month_of_day (day_of t) + 1)) as [E2 N2]; [lia|].
  destruct (pad_named 2 (date_of_day (day_of t))) as [E3 N3]; [lia|].
  destruct (pad_named 2 (ms / 3600000)) as [E4 N4]; [by apply Z.div_pos|].
  destruct (pad_named 2 (ms / 60000 mod 60)) as [E5 N5]; [by apply Z.mod_pos_bound|].
  destruct (pad_named 2 (ms / 1000 mod 60)) as [E6 N6]; [by apply Z.mod_pos_bound|].
  destruct (pad_named 3 (ms mod 1000)) as [E7 N7]; [by apply Z.mod_pos_bound|].
  rewrite !map_string_app, E1, E2, E3, E4, E5, E6, E7.
  set (f := fun c => if Ascii.eqb c ":" then "-"%char else c).
  change (map_string f "-") with "-". change (map_string f "T") with "T". change (map_string f ":") with "-".
  change (map_string f ".") with ".". change (map_string f "Z") with "Z".
  assert (Hl : String.length (pad 3 (ms mod 1000)) = 3%nat) by apply pad_length.
  clear E1 E2 E3 E4 E5 E6 E7. revert N1 N2 N3 N4 N5 N6 N7 Hl.
  generalize (pad 4 (year_from_day (day_of t))) (pad 2 (month_of_day (day_of t) + 1))
    (pad 2 (date_of_day (day_of t))) (pad 2 (ms / 3600000)) (pad 2 (ms / 60000 mod 60))
    (pad 2 (ms / 1000 mod 60)) (pad 3 (ms mod 1000)).
  intros y mo d h mi se frac N1 N2 N3 N4 N5 N6 N7 Hl.
  exists ((y +:+ "-" +:+ mo +:+ "-" +:+ d) +:+ "T" +:+ h +:+ "-" +:+ mi +:+ "-" +:+ se), (frac +:+ "Z").
  split; [by rewrite !str_app_assoc|].
  split; [|split].
  - by rewrite !name_text_app, N1, N2, N3, N4, N5, N6.
  - by rewrite name_text_app, N7.
  - intros He. apply (f_equal String.length) in He. rewrite str_length_app, Hl in He. discriminate He.
Qed.

Lemma prefix_other d p c s : c <> d -> String.prefix (String d p) (String c s) = false.
Proof. intros Hne. simpl. by destruct (ascii_dec d c). Qed.

Lemma prefix_same c p s : String.prefix (String c p) (String c s) = String.prefix p s.
Proof. simpl. by destruct (ascii_dec c c). Qed.

Lemma name_char_plain c : name_char c = true -> c <> "."%char /\ c <> "/"%char /\ c <> "\"%char.
Proof. intros H. repeat split; intros ->; vm_compute in H; discriminate H. Qed.

Lemma name_text_has c s : name_text s = true -> name_char c = false -> has_char c s = false.
Proof.
  intros Hs Hc. induction s as [|d s IH]; [done|]. cbn in *. apply andb_true_iff in Hs as [Hd Hs].
  destruct (Ascii.eqb_spec d c) as [->|Hne]; [congruence|]. by apply IH.
Qed.

Lemma contains_dots a s : name_text a = true -> contains ".." (a +:+ s) = contains ".." s.
Proof.
  induction a as [|c a IH]; [done|]. rewrite app_cons_string. cbn [name_text].
  intros [Hc Ha]%andb_true_iff. rewrite <- (IH Ha). cbn [contains].
  apply name_char_plain in Hc as [Hc _]. by rewrite prefix_other.
Qed.

(** A name that ends in a time stamp passes the path guards. *)
Lemma stamped_name pre now : iso_range now -> name_text pre = true ->
  let name := pre +:+ colons_to_dashes (toISOString now) +:+ ".json" in
  has_char "/" name = false /\ has_char "\" name = false /\ contains ".." name = false.
Proof.
  intros Ht Hp. cbv zeta. destruct (stamp_text now Ht) as (a & b & -> & Ha & Hb & Hne).
  assert (Hh : name_text (pre +:+ a) = true) by by rewrite name_text_app, Hp, Ha.
  replace (pre +:+ (a +:+ "." +:+ b) +:+ ".json") with ((pre +:+ a) +:+ "." +:+ b +:+ ".json") by by rewrite !str_app_assoc.
  rewrite !has_char_app, !(name_text_has _ pre), !(name_text_has _ a), !(name_text_has _ b) by done.
  split; [done|]. split; [done|].
  rewrite contains_dots by done. destruct b as [|d b]; [done|]. cbn in Hb. apply andb_true_iff in Hb as [Hd Hb].
  apply name_char_plain in Hd as [Hd _].
  change ("." +:+ String d b +:+ ".json") with (String "." (String d (b +:+ ".json"))).
  cbn [contains]. rewrite prefix_same, !prefix_other by done. cbn [orb]. by rewrite contains_dots.
Qed.

(** The name of a report, as the guards see it. *)
Lemma report_name_ok type now : iso_range now -> let name := reportFileName type (toISOString now) in
  startsWith REPORT_PREFIX name = true /\ endsWith ".json" name = true /\
  forall REPORT_DIR, safeReportPath REPORT_DIR name = Ok (REPORT_DIR +:+ "/" +:+ name).
Proof.
  intros Ht name. split; [by destruct type|]. split; [unfold name, reportFileName; rewrite <- !str_app_assoc; apply endsWith_app|].
  intros dir. destruct (stamped_name (REPORT_PREFIX +:+ type_text type +:+ "-") now Ht) as (H1 & H2 & H3); [by destruct type|].
  unfold safeReportPath.
  assert (He : (REPORT_PREFIX +:+ type_text type +:+ "-") +:+ colons_to_dashes (toISOString now) +:+ ".json" = name)
    by (unfold name, reportFileName; by rewrite !str_app_assoc).
  rewrite He in H1, H2, H3. rewrite H1, H2, H3. cbn [orb]. unfold resolve_in.
  assert (String.eqb name "" = false) as -> by done. assert (String.eqb name "." = false) as -> by done. cbn [orb].
  rewrite <- str_app_assoc, startsWith_app. done.
Qed.

Section file_theorems.
Context {T : Type -> Type} {ST : Store T}.
Context (REPORT_DIR : string) (byteLength : ReportDoc -> Z).
Notation readReportFile := (readReportFile REPORT_DIR).
Notation deleteReport := (deleteReport REPORT_DIR).

(** A report that was generated is in the list with the data returned, is read back as the
    document that was built, leaves the other files as they are, and is gone once deleted. *)
Theorem report_saved now (db : ReportDb T) req dir dir' meta
    (Ht : iso_range now) (Hg : generateReport byteLength now db req dir = Some (dir', meta)) :
  exists doc, buildReport now db req = Some doc /\
    meta ∈ listReports dir' /\ rf_doc <$> match readReportFile (rm_name meta) dir' with Ok f => Some f | Err _ => None end
      = Some (Some doc) /\
    (forall n, n <> rm_name meta -> readReportFile n dir' = readReportFile n dir) /\
    let '(dir'', r) := deleteReport (rm_name meta) dir' in
    r = Ok tt /\ readReportFile (rm_name meta) dir'' = Err NotFound /\
    forall n, n <> rm_name meta -> readReportFile n dir'' = readReportFile n dir.
Proof.
  unfold generateReport in Hg. destruct (buildReport now db req) as [doc|] eqn:Hdoc; [|done].
  exists doc. split; [done|]. cbv zeta in Hg. injection Hg as <- <-. cbn [rm_name].
  assert (Hnow : rp_generatedAt doc = now /\ rp_type doc = rq_type req).
  { unfold buildReport in Hdoc. destruct (resolveWindow now req); [|done]. by injection Hdoc as <-. }
  destruct Hnow as [Hgen Htype]. rewrite !Hgen.
  set (name := reportFileName (rq_type req) (toISOString now)).
  destruct (report_name_ok (rq_type req) now Ht) as (Hp & He & Hs). fold name in Hp, He, Hs.
  specialize (Hs REPORT_DIR). set (file := {| rf_size := byteLength doc; rf_mtime := now; rf_doc := Some doc |}).
  unfold Reports.readReportFile, Reports.deleteReport. rewrite !Hs. cbn [default from_option]. unfold Datatypes.id.
  rewrite map_get_set_eq. split; [|split; [done|split]].
  - unfold listReports. rewrite elem_of_js_sort, elem_of_map. exists (name, file).
    split; [unfold report_meta, file; cbn [rf_doc rf_size]; by rewrite Htype, Hgen|]. rewrite elem_of_filterb. cbn [fst].
    rewrite Hp, He. split; [|done]. apply map_get_Some, map_get_set_eq.
  - intros n Hn. destruct (safeReportPath REPORT_DIR n); [|done].
    by rewrite map_get_set_ne by congruence.
  - split; [done|].
    unfold Datatypes.id. cbn [from_option].
    rewrite (map_get_filter_key (fun k => negb (String.eqb k name))). cbn beta. rewrite String.eqb_refl. cbn [negb].
    split; [done|]. intros n Hn. destruct (safeReportPath REPORT_DIR n); [|done].
    rewrite (map_get_filter_key (fun k => negb (String.eqb k name))). cbn beta. rewrite (proj2 (String.eqb_neq n name) Hn). cbn [negb].
    by rewrite map_get_set_ne by congruence.
Qed.
End file_theorems.

(** The type is read back from the name of a file, but for the detailed storage report, which a
    shorter type name hides. *)
Lemma typeFromName_spec type generatedAt :
  typeFromName (reportFileName type generatedAt) =
  (if decide (type = StorageDetail) then Storage else type).
Proof.
  unfold typeFromName, reportFileName. generalize (colons_to_dashes generatedAt +:+ ".json"). intros s.
  rewrite substring_skip, substring_all by (rewrite (str_length_app REPORT_PREFIX); lia).
  by destruct type, s.
Qed.

(** ** Witnesses *)

Definition w_reportDb : ReportDb list := {|
  rd_agents := []; rd_uptimeBuckets := []; rd_statusEvents := []; rd_hostMetrics := []; rd_processMetrics := [];
  rd_monitors := [
    {| mon_id := "m1"; mon_agentId := "a1"; mon_type := "storage"; mon_name := "nas"; mon_enabled := true;
       mon_config := []; mon_createdAt := 0; mon_updatedAt := 0 |};
    {| mon_id := "m2"; mon_agentId := "a2"; mon_type := "storage"; mon_name := "nas"; mon_enabled := true;
       mon_config := []; mon_createdAt := 0; mon_updatedAt := 0 |}];
  rd_storageMetrics := [
    {| sm_id := "1"; sm_storageId := "m1"; sm_share := None; sm_usedPct := Some 10%Q; sm_usedBytes := Some 10;
       sm_totalBytes := Some 100; sm_metrics := None; sm_ts := 1000 |};
    {| sm_id := "2"; sm_storageId := "m2"; sm_share := None; sm_usedPct := Some 95%Q; sm_usedBytes := Some 950;
       sm_totalBytes := Some 1000; sm_metrics := None; sm_ts := 1000 |}];
  rd_folderMetrics := [
    {| fm_id := "1"; fm_storageId := "m1"; fm_folder := "a"; fm_sizeBytes := Some 90; fm_fileCount := None;
       fm_folderCount := None; fm_ts := 1000 |};
    {| fm_id := "2"; fm_storageId := "m1"; fm_folder := "a"; fm_sizeBytes := Some 5; fm_fileCount := None;
       fm_folderCount := None; fm_ts := 3601000 |}] |}.

Definition w_request (type : ReportType) : ReportRequest := {|
  rq_type := type; rq_scope := {| scope_kind := AllMonitors; scope_refId := None |}; rq_days := None;
  rq_from := None; rq_to := None |}.

Lemma report_saved_witness :
  match generateReport (T := list) (fun _ => 10) 86400000 w_reportDb (w_request Storage) None with
  | Some (dir', meta) =>
      rm_name meta = "argus-report-storage-1970-01-02T00-00-00.000Z.json" /\ meta ∈ listReports dir'
  | None => False end.
Proof.
  destruct (generateReport (T := list) (fun _ => 10) 86400000 w_reportDb (w_request Storage) None) as [[dir' meta]|] eqn:Hg;
    [|discriminate Hg].
  assert (Ht : iso_range 86400000) by (unfold iso_range; lia).
  destruct (report_saved (T := list) (ST := list_store) "/data/reports" (fun _ => 10) 86400000 w_reportDb
    (w_request Storage) None dir' meta Ht Hg) as (doc & _ & Hin & _).
  split; [|exact Hin]. vm_compute in Hg. injection Hg as <- <-. reflexivity.
Defined.

(** Two shares of one name: the detailed report gives the second the capacity of the first. *)
Lemma storage_detail_by_name :
  map (fun i => cap_usedBytes (sdi_current i))
    (buildStorageDetailData w_reportDb {| scope_kind := AllMonitors; scope_refId := None |}
       {| win_from := 0; win_until := 86400000; win_days := 1; win_label := "" |}) = [Some 10; Some 10] /\
  map (fun i => cap_usedBytes (si_current i))
    (buildStorageData w_reportDb {| scope_kind := AllMonitors; scope_refId := None |}
       {| win_from := 0; win_until := 86400000; win_days := 1; win_label := "" |}) = [Some 10; Some 950].
Proof. vm_compute. split; reflexivity. Qed.

(** A folder that shrank is listed with its largest size of the last hours, not the latest. *)
Lemma top_folder_is_largest :
  map (fun i => (map tf_sizeBytes (sdi_topFolders i), sdi_capturedAt i))
    (firstn 1 (buildStorageDetailData w_reportDb {| scope_kind := AllMonitors; scope_refId := None |}
       {| win_from := 0; win_until := 86400000; win_days := 1; win_label := "" |}))
  = [([Some 90], Some 3601000)].
Proof. vm_compute. reflexivity. Qed.
