(* ===== verification/Live.v ===== *)
(** * The operators' live view

    Models packages/shared/src/live.ts, apps/backend/src/services/live.ts and operator-hub.ts, the
    socket handler of plugins/operator-ws.ts after its admission check (Gate.v), what
    routes/agent-ingest.routes.ts, plugins/agent-ws.ts and the schedulers broadcast, and the
    client side, apps/frontend/src/hooks/useLiveState.ts. The handlers are asynchronous: a [task]
    is what is left of one at an [await] and a [step] runs any task or takes a new event, so that
    pushes, snapshots and deliveries interleave. A message is a value: it is serialised and parsed
    by JSON. A socket delivers in order; [cn_queue] is what the client has not received yet. *)
From S2P Require Import Prelude Dates Text Store Schema RowUpdates Health Pipeline Monitors Agents.

(** [LiveUnit]; an absent member and [null] read the same. *)
Record LiveUnit : Type := {
  lu_sourceId : string; lu_entity : string; lu_status : string; lu_pid : option Z;
  lu_latencyMs : option Q; lu_since : option Z; lu_meta : option json
}.

Record LiveAgent : Type := {
  la_id : string; la_name : string; la_status : string; la_online : bool;
  la_lastSeenAt : option Z; la_cpuPct : option Q; la_memPct : option Q
}.

(** [Partial<LiveAgent> & { id }]: [None] is an absent member. *)
Record LiveAgentPart : Type := {
  pa_id : string; pa_name : option string; pa_status : option string; pa_online : option bool;
  pa_lastSeenAt : option (option Z); pa_cpuPct : option (option Q); pa_memPct : option (option Q)
}.

Record LiveLogLine : Type := {
  ll_level : string; ll_message : string; ll_category : string; ll_ts : Z
}.

Inductive LiveMessage : Type :=
| LiveSnapshot (agents : list LiveAgent) (units : list LiveUnit) (ts : Z)
| LivePatch (agentId : string) (units : list LiveUnit) (ts : Z)
| LiveAgentPatch (agents : list LiveAgentPart) (ts : Z)
| LiveLog (agentId : string) (lines : list LiveLogLine) (ts : Z).

(** ** The client (useLiveState.ts) *)

Definition MAX_LOG_LINES : nat := 200.

Definition unitKey (sourceId entity : string) : string := sourceId +:+ ":" +:+ entity.
Definition key_of (u : LiveUnit) : string := unitKey (lu_sourceId u) (lu_entity u).

(** What the hook holds; the maps are JS [Map]s. *)
Record Client : Type := {
  cl_agents : list LiveAgent; cl_units : list (string * LiveUnit);
  cl_logs : list (string * list LiveLogLine)
}.
Definition no_state : Client := {| cl_agents := []; cl_units := []; cl_logs := [] |}.

Definition with_since (since : option Z) (u : LiveUnit) : LiveUnit := {|
  lu_sourceId := lu_sourceId u; lu_entity := lu_entity u; lu_status := lu_status u;
  lu_pid := lu_pid u; lu_latencyMs := lu_latencyMs u; lu_since := since; lu_meta := lu_meta u |}.

(** One unit of a patch, merged at the instant [now] of the browser. *)
Definition merge_unit (now : Z) (m : list (string * LiveUnit)) (u : LiveUnit) : list (string * LiveUnit) :=
  let since :=
    match map_get (key_of u) m with
    | Some existing => if String.eqb (lu_status existing) (lu_status u) then lu_since existing
                       else Some (default now (lu_since u))
    | None => Some (default now (lu_since u)) end in
  map_set (key_of u) (with_since since u) m.

Definition merge_agent (a : LiveAgent) (p : LiveAgentPart) : LiveAgent := {|
  la_id := la_id a; la_name := default (la_name a) (pa_name p);
  la_status := default (la_status a) (pa_status p); la_online := default (la_online a) (pa_online p);
  la_lastSeenAt := default (la_lastSeenAt a) (pa_lastSeenAt p);
  la_cpuPct := default (la_cpuPct a) (pa_cpuPct p); la_memPct := default (la_memPct a) (pa_memPct p) |}.

(** An agent first heard of in a patch. *)
Definition unknown_agent (id : string) : LiveAgent := {|
  la_id := id; la_name := id; la_status := "unknown"; la_online := false; la_lastSeenAt := None;
  la_cpuPct := None; la_memPct := None |}.

Definition add_agent (byId : list (string * LiveAgent)) (p : LiveAgentPart) : list (string * LiveAgent) :=
  map_set (pa_id p) (merge_agent (default (unknown_agent (pa_id p)) (map_get (pa_id p) byId)) p) byId.

(** [xs.slice(-n)], [n] positive *)
Definition slice_tail {A} (n : nat) (xs : list A) : list A := drop (List.length xs - n) xs.

Definition apply (now : Z) (msg : LiveMessage) (c : Client) : Client :=
  match msg with
  | LiveSnapshot agents units _ =>
      {| cl_agents := agents; cl_units := js_map key_of (fun u => u) units; cl_logs := cl_logs c |}
  | LivePatch _ units _ =>
      {| cl_agents := cl_agents c; cl_units := fold_left (merge_unit now) units (cl_units c);
         cl_logs := cl_logs c |}
  | LiveAgentPatch ps _ =>
      {| cl_agents := map snd (fold_left add_agent ps (js_map la_id (fun a => a) (cl_agents c)));
         cl_units := cl_units c; cl_logs := cl_logs c |}
  | LiveLog agentId lines _ =>
      let merged := default [] (map_get agentId (cl_logs c)) ++ lines in
      {| cl_agents := cl_agents c; cl_units := cl_units c;
         cl_logs := map_set agentId (slice_tail MAX_LOG_LINES merged) (cl_logs c) |}
  end.

Definition unitFor (c : Client) (sourceId entity : string) : option LiveUnit :=
  map_get (unitKey sourceId entity) (cl_units c).
Definition logsFor (c : Client) (agentId : string) : list LiveLogLine :=
  default [] (map_get agentId (cl_logs c)).

(** The messages a client has still to receive, applied. *)
Definition receive (now : Z) (queue : list LiveMessage) (c : Client) : Client :=
  fold_left (fun c msg => apply now msg c) queue c.

(** ** The server *)

(** A socket of [WS /ws], and the browser at its other end. *)
Record Conn : Type := { cn_open : bool; cn_queue : list LiveMessage; cn_client : Client }.

Record Live (T : Type -> Type) : Type := {
  lv_fleet : FleetDb T; lv_telemetry : TelemetryDb T; lv_hub : list nat; lv_conns : gmap nat Conn
}.
Arguments lv_fleet {T} _. Arguments lv_telemetry {T} _. Arguments lv_hub {T} _. Arguments lv_conns {T} _.

(** What an ingest or a scheduler has stored and is about to broadcast. *)
Record Publication : Type := {
  pub_agentId : string; pub_units : list LiveUnit; pub_metrics : option HostPush;
  pub_logs : list LogPush
}.

(** What is left of a handler at an [await]. *)
Inductive task : Type :=
| Admitting (c : nat) (ok : bool)     (** the token is being checked; [ok] is what Gate.v decides *)
| ReadingAgents (c : nat)
| ReadingUnits (c : nat) (agents : list AgentRow)
| ReadingMetrics (c : nat) (agents : list AgentRow) (units : list UnitStateRow)
| Pruning (p : Publication)           (** an ingest, after its commit *)
| Broadcasting (p : Publication)
| Connectivity (agentId : string).

Section server.
Context {T : Type -> Type} {ST : Store T}.
Implicit Types (w : Live T) (t : task).

Definition with_fleet fleet w : Live T := {|
  lv_fleet := fleet; lv_telemetry := lv_telemetry w; lv_hub := lv_hub w; lv_conns := lv_conns w |}.
Definition with_telemetry tm w : Live T := {|
  lv_fleet := lv_fleet w; lv_telemetry := tm; lv_hub := lv_hub w; lv_conns := lv_conns w |}.
Definition with_hub hub w : Live T := {|
  lv_fleet := lv_fleet w; lv_telemetry := lv_telemetry w; lv_hub := hub; lv_conns := lv_conns w |}.
Definition with_conns conns w : Live T := {|
  lv_fleet := lv_fleet w; lv_telemetry := lv_telemetry w; lv_hub := lv_hub w; lv_conns := conns |}.

(** [if (socket.readyState === 1) socket.send(...)] *)
Definition send_open (msg : LiveMessage) (k : Conn) : Conn :=
  if cn_open k then {| cn_open := true; cn_queue := cn_queue k ++ [msg]; cn_client := cn_client k |} else k.

Definition send_to (c : nat) (msg : LiveMessage) w : Live T :=
  with_conns (alter (send_open msg) c (lv_conns w)) w.

(** [OperatorHub]: a set of sockets *)
Definition hub_add (c : nat) w : Live T := with_hub (set_add c (lv_hub w)) w.
Definition hub_remove (c : nat) w : Live T :=
  with_hub (List.filter (fun c' => negb (Nat.eqb c c')) (lv_hub w)) w.
Definition broadcast (msg : LiveMessage) w : Live T :=
  fold_left (fun w c => send_to c msg w) (lv_hub w) w.

Definition unit_of_row (r : UnitStateRow) : LiveUnit := {|
  lu_sourceId := us_sourceId r; lu_entity := us_entity r; lu_status := us_status r;
  lu_pid := us_pid r; lu_latencyMs := None; lu_since := Some (us_updatedAt r);
  lu_meta := us_sample r |}.

(** [selectDistinctOn([agentId]).orderBy(agentId, ts desc)], the row of one agent *)
Definition latest_metric (agentId : string) (t : T HostMetricRow) : option HostMetricRow :=
  head (js_sort (fun a b => hm_ts a <? hm_ts b) (select (fun r => String.eqb (hm_agentId r) agentId) t)).

Definition live_agent (now : Z) (isConnected : option (string -> bool)) (t : T HostMetricRow)
    (a : AgentRow) : LiveAgent := {|
  la_id := agent_id a; la_name := agent_name a; la_status := agent_status a;
  la_online := match isConnected with
               | Some f => isAgentOnline now (f (agent_id a)) (agent_lastSeenAt a) | None => false end;
  la_lastSeenAt := agent_lastSeenAt a;
  la_cpuPct := latest_metric (agent_id a) t ≫= hm_cpuPct;
  la_memPct := latest_metric (agent_id a) t ≫= hm_memPct |}.

(** The last part of [getLiveSnapshot], once its three queries have answered. *)
Definition snapshot_of (now : Z) (isConnected : option (string -> bool)) (agents : list AgentRow)
    (units : list UnitStateRow) (t : T HostMetricRow) : LiveMessage :=
  LiveSnapshot (map (live_agent now isConnected t) agents) (map unit_of_row units) now.

(** *** What an ingest broadcasts *)

Definition unit_of_push (agentId : string) (latencyMs : option Q) (u : UnitPush) : LiveUnit := {|
  lu_sourceId := agentId; lu_entity := push_entity u; lu_status := status_text (push_status u);
  lu_pid := push_pid u; lu_latencyMs := latencyMs; lu_since := None;
  lu_meta := JObj <$> push_meta u |}.

Definition log_line (now : Z) (l : LogPush) : LiveLogLine := {|
  ll_level := lp_level l; ll_message := lp_message l; ll_category := lp_category l; ll_ts := now |}.

Definition metrics_part (agentId : string) (cpu mem : option Q) : LiveAgentPart := {|
  pa_id := agentId; pa_name := None; pa_status := None; pa_online := None; pa_lastSeenAt := None;
  pa_cpuPct := Some cpu; pa_memPct := Some mem |}.

Definition messages (now : Z) (p : Publication) : list LiveMessage :=
  match pub_units p with [] => [] | us => [LivePatch (pub_agentId p) us now] end ++
  match pub_metrics p with
  | Some m =>
      match hp_cpuPct m, hp_memPct m with
      | None, None => []
      | cpu, mem => [LiveAgentPatch [metrics_part (pub_agentId p) cpu mem] now] end
  | None => [] end ++
  match pub_logs p with
  | [] => [] | ls => [LiveLog (pub_agentId p) (map (log_line now) ls) now] end.

(** [broadcastConnectivity] *)
Definition connectivity_part (a : AgentDTO) : LiveAgentPart := {|
  pa_id := ag_id a; pa_name := Some (ag_name a); pa_status := Some (ag_status a);
  pa_online := Some (ag_online a); pa_lastSeenAt := Some (ag_lastSeenAt a);
  pa_cpuPct := None; pa_memPct := None |}.

(** *** The handlers, from one [await] to the next *)

(** [pruneOrphanUnits(app.master, app.telemetry, agentId)] *)
Definition prune_units (agentId : string) w : Live T :=
  let tm := lv_telemetry w in
  with_telemetry {|
    statusEvents := statusEvents tm; logs := logs tm; notifications := notifications tm;
    uptimeBuckets := uptimeBuckets tm;
    unitStates := pruneOrphanUnits (lv_fleet w) (unitStates tm) agentId;
    processMetrics := processMetrics tm; hostMetrics := hostMetrics tm |} w.

Definition close_conn (k : Conn) : Conn := {| cn_open := false; cn_queue := []; cn_client := cn_client k |}.

Definition run_task (now : Z) (isConnected : string -> bool) t w : Live T * list task :=
  match t with
  | Admitting c true =>
      (* operatorHub.add(socket), then the first query of the snapshot *)
      (hub_add c w, [ReadingAgents c])
  | Admitting c false => (with_conns (alter close_conn c (lv_conns w)) w, [])
  | ReadingAgents c => (w, [ReadingUnits c (rows (agents (lv_fleet w)))])
  | ReadingUnits c ags => (w, [ReadingMetrics c ags (rows (unitStates (lv_telemetry w)))])
  | ReadingMetrics c ags us =>
      (send_to c (snapshot_of now (Some isConnected) ags us (hostMetrics (lv_telemetry w))) w, [])
  | Pruning p => (prune_units (pub_agentId p) w, [Broadcasting p])
  | Broadcasting p => (fold_left (fun w msg => broadcast msg w) (messages now p) w, [])
  | Connectivity agentId =>
      match getAgent (Some isConnected) now (lv_fleet w) agentId with
      | Some a => (broadcast (LiveAgentPatch [connectivity_part a] now) w, [])
      | None => (w, []) end
  end.

(** [POST /api/agent/ingest] of an approved agent, up to the commit of its data. *)
Definition ingest_run (newId : string -> nat -> string) (now : Z) (agentId : string)
    (payload : AgentIngestRequest) w : Live T * list task :=
  let units := default [] (ing_units payload) in
  let p := {| pub_agentId := agentId; pub_units := map (unit_of_push agentId None) units;
              pub_metrics := ing_metrics payload; pub_logs := default [] (ing_logs payload) |} in
  (with_telemetry (ingest newId now agentId (lv_telemetry w) payload) w,
   [if Nat.eqb (List.length units) 0 then Broadcasting p else Pruning p]).

(** A result of a scheduler: server-monitor-scheduler.ts, snmp-scheduler.ts, scan-manager.ts. *)
Definition monitor_push (entity : string) (status : HealthStatus) (meta : option (list (string * json))) : UnitPush := {|
  push_entity := entity; push_status := status; push_pid := None; push_critical := None;
  push_meta := meta |}.
Definition monitor_run (newId : string -> nat -> string) (now : Z) (agentId entity : string)
    (status : HealthStatus) (meta : option (list (string * json))) (latencyMs : option Q) w
  : Live T * list task :=
  let u := monitor_push entity status meta in
  (with_telemetry (processUnits newId now agentId (lv_telemetry w) [u]) w,
   [Broadcasting {| pub_agentId := agentId; pub_units := [unit_of_push agentId latencyMs u];
                    pub_metrics := None; pub_logs := [] |}]).

Definition Sys : Type := (Live T * list task)%type.

(** What happens next. *)
Inductive event : Type :=
| IngestCommits (newId : string -> nat -> string) (now : Z) (agentId : string) (payload : AgentIngestRequest)
| MonitorCommits (newId : string -> nat -> string) (now : Z) (agentId entity : string)
    (status : HealthStatus) (meta : option (list (string * json))) (latencyMs : option Q)
| FleetChanges (fleet : FleetDb T)
| MonitorMoves (agentId : string)         (** [PATCH /api/monitors/:id] away from an agent *)
| AgentFlips (agentId : string)
| Connects (c : nat) (ok : bool) (state : Client)
| Runs (now : Z) (isConnected : string -> bool) (i : nat)
| Delivers (now : Z) (c : nat)
| Closes (c : nat).

(** The socket is registered with the hub once its token has been checked; its [close] event is
    only listened to from then on. *)
Definition admitting (c : nat) t : bool := match t with Admitting c' _ => Nat.eqb c c' | _ => false end.

Definition deliver_conn (now : Z) (k : Conn) : Conn :=
  match cn_queue k with
  | [] => k
  | msg :: q => {| cn_open := cn_open k; cn_queue := q; cn_client := apply now msg (cn_client k) |} end.

Definition step (e : event) (x : Sys) : option Sys :=
  let '(w, ts) := x in
  match e with
  | IngestCommits newId now agentId payload =>
      if isApproved (lv_fleet w) agentId then
        let '(w, ts') := ingest_run newId now agentId payload w in Some (w, ts ++ ts')
      else None
  | MonitorCommits newId now agentId entity status meta latencyMs =>
      let '(w, ts') := monitor_run newId now agentId entity status meta latencyMs w in Some (w, ts ++ ts')
  | FleetChanges fleet => Some (with_fleet fleet w, ts)
  | MonitorMoves agentId => Some (prune_units agentId w, ts)
  | AgentFlips agentId => Some (w, ts ++ [Connectivity agentId])
  | Connects c ok state =>
      match lv_conns w !! c with
      | Some _ => None
      | None => Some (with_conns (<[c := {| cn_open := true; cn_queue := []; cn_client := state |}]> (lv_conns w)) w,
                      ts ++ [Admitting c ok]) end
  | Runs now isConnected i =>
      match ts !! i with
      | Some t => let '(w, ts') := run_task now isConnected t w in Some (w, delete i ts ++ ts')
      | None => None end
  | Delivers now c => Some (with_conns (alter (deliver_conn now) c (lv_conns w)) w, ts)
  | Closes c =>
      Some ((if existsb (admitting c) ts then fun w => w else hub_remove c)
              (with_conns (alter close_conn c (lv_conns w)) w), ts)
  end.

Fixpoint run (es : list event) (x : Sys) : option Sys :=
  match es with [] => Some x | e :: es' => match step e x with Some y => run es' y | None => None end end.
End server.
Arguments event T : clear implicits.
Arguments Sys T : clear implicits.

(** ** One unit, as stored, as published and as shown *)

Section mirror.
Context {T : Type -> Type} {ST : Store T}.
Variables (src ent : string) (c : nat).
Implicit Types (w : Live T) (t : task) (x : Sys T).

(** The face of a unit: its status, process id and detail. *)
Definition Face : Type := (string * option Z * option json)%type.
Definition face (u : LiveUnit) : Face := (lu_status u, lu_pid u, lu_meta u).
Definition row_face (r : UnitStateRow) : Face := (us_status r, us_pid r, us_sample r).

Definition is_unit (r : UnitStateRow) : bool := String.eqb (us_sourceId r) src && String.eqb (us_entity r) ent.
Definition stored w : option Face := row_face <$> select_first is_unit (unitStates (lv_telemetry w)).
Definition shown (k : Client) : option Face := face <$> unitFor k src ent.

(** What a list of units says of ours, the last one winning. *)
Definition last_face (us : list LiveUnit) (prior : option Face) : option Face :=
  fold_left (fun f u => if String.eqb (key_of u) (unitKey src ent) then Some (face u) else f) us prior.

Definition effect (f : option Face) (msg : LiveMessage) : option Face :=
  match msg with
  | LiveSnapshot _ us _ => last_face us None
  | LivePatch _ us _ => last_face us f
  | _ => f end.

(** A push about our unit, on its way to the operators. *)
Definition publication t : option Publication :=
  match t with Pruning p | Broadcasting p => Some p | _ => None end.
Definition says t : option Face := publication t ≫= fun p => last_face (pub_units p) None.

(** A snapshot being built for our socket; [read] once the units have been read. *)
Definition snapshot_pending t : bool :=
  match t with
  | Admitting c' _ | ReadingAgents c' | ReadingUnits c' _ | ReadingMetrics c' _ _ => Nat.eqb c c'
  | _ => false end.
Definition snapshot_read t : bool :=
  match t with ReadingMetrics c' _ _ => Nat.eqb c c' | _ => false end.

(** Does the fleet keep our unit through a prune? *)
Definition keeps (fleet : FleetDb T) : bool :=
  let names := map mon_name (select (of_agent src) (monitors fleet)) in
  Nat.eqb (List.length names) 0 || includes names ent.

(** What is asked of the writers of our unit: one push at a time, none between the read of a
    snapshot's units and its send. *)
Definition undisturbed (ts : list task) : bool :=
  negb (existsb (fun t => bool_decide (is_Some (says t)) || snapshot_read t) ts).

Definition orderly (e : event T) x : bool :=
  match e with
  | IngestCommits _ _ agentId payload =>
      negb (has_char ":" agentId)
      && (negb (String.eqb agentId src && mem ent (map push_entity (default [] (ing_units payload))))
          || undisturbed (snd x))
  | MonitorCommits _ _ agentId entity _ _ _ =>
      negb (has_char ":" agentId)
      && (negb (String.eqb agentId src && String.eqb entity ent) || undisturbed (snd x))
  | FleetChanges fleet => keeps fleet
  | Connects c' ok _ => negb (Nat.eqb c c') || ok
  | Closes c' => negb (Nat.eqb c c')
  | _ => true
  end.

Fixpoint orderly_run (es : list (event T)) x : option (Sys T) :=
  match es with
  | [] => Some x
  | e :: es' =>
      if orderly e x then match step e x with Some y => orderly_run es' y | None => None end else None
  end.
End mirror.

(** ** Lemmas *)

(** An id without a colon is the part of the key before its first one. *)
Lemma unitKey_inj s1 e1 s2 e2 : has_char ":" s1 = false -> has_char ":" s2 = false ->
  unitKey s1 e1 = unitKey s2 e2 -> s1 = s2 /\ e1 = e2.
Proof.
  intros H1 H2 He. pose proof (f_equal (split_on ":") He) as Hs. unfold unitKey in Hs.
  change (s1 +:+ ":" +:+ e1) with (s1 +:+ String ":" e1) in Hs.
  change (s2 +:+ ":" +:+ e2) with (s2 +:+ String ":" e2) in Hs.
  rewrite !split_on_app in Hs by done. injection Hs as -> _. split; [done|].
  destruct (str_app_inj_length s2 (":" +:+ e1) s2 (":" +:+ e2)) as [_ Hc]; [done|exact He|].
  rewrite !app_cons_string in Hc. by injection Hc.
Qed.

Section lemmas.
Context {T : Type -> Type} {ST : Store T} {LT : StoreLaws T}.
Variables (src ent : string) (c : nat).
Hypothesis Hsrc : has_char ":" src = false.
Implicit Types (w : Live T) (t : task) (x : Sys T).

Notation last_face := (last_face src ent).
Notation effect := (effect src ent).
Notation shown := (shown src ent).
Notation stored := (stored src ent).
Notation is_unit := (is_unit src ent).
Notation says := (says src ent).

Lemma last_face_prior us f : last_face us f = match last_face us None with Some g => Some g | None => f end.
Proof.
  unfold Live.last_face. revert f. induction us as [|u us IH]; intros f; simpl; [done|].
  destruct (String.eqb _ _); [|apply IH]. rewrite IH. by destruct (fold_left _ us None).
Qed.

Lemma shown_merge now us (m : list (string * LiveUnit)) :
  face <$> map_get (unitKey src ent) (fold_left (merge_unit now) us m) =
  last_face us (face <$> map_get (unitKey src ent) m).
Proof.
  unfold Live.last_face. revert m. induction us as [|u us IH]; intros m; [done|]. simpl. rewrite IH. f_equal.
  unfold merge_unit. destruct (String.eqb_spec (key_of u) (unitKey src ent)) as [->|Hne].
  - by rewrite map_get_set_eq.
  - by rewrite map_get_set_ne.
Qed.

Lemma shown_snapshot us (m : list (string * LiveUnit)) :
  face <$> map_get (unitKey src ent) (fold_left (fun m u => map_set (key_of u) u m) us m) =
  last_face us (face <$> map_get (unitKey src ent) m).
Proof.
  unfold Live.last_face. revert m. induction us as [|u us IH]; intros m; [done|]. simpl. rewrite IH. f_equal.
  destruct (String.eqb_spec (key_of u) (unitKey src ent)) as [->|Hne].
  - by rewrite map_get_set_eq.
  - by rewrite map_get_set_ne.
Qed.

(** What a message does to what the client shows. *)
Lemma shown_apply now msg k : shown (apply now msg k) = effect (shown k) msg.
Proof.
  destruct msg as [ags us ts|a us ts|ps ts|a ls ts]; try done.
  - apply (shown_snapshot us []).
  - apply shown_merge.
Qed.

Lemma shown_receive now q k : shown (receive now q k) = fold_left effect q (shown k).
Proof.
  unfold receive. revert k. induction q as [|msg q IH]; intros k; [done|]. simpl. by rewrite IH, shown_apply.
Qed.

Lemma messages_effect now p f : fold_left effect (messages now p) f = last_face (pub_units p) f.
Proof.
  unfold messages. rewrite !fold_left_app.
  assert (Hl : forall q f, (forall msg f, msg ∈ q -> effect f msg = f) -> fold_left effect q f = f).
  { induction q as [|msg q IH]; intros f0 Hq; [done|]. simpl. rewrite Hq by set_solver. apply IH. set_solver. }
  rewrite Hl; [rewrite Hl; [by destruct (pub_units p)|]|].
  - intros msg f0 Hin. destruct (pub_metrics p) as [m|]; [|by apply elem_of_nil in Hin].
    destruct (hp_cpuPct m), (hp_memPct m); try by apply list_elem_of_singleton in Hin as ->.
    by apply elem_of_nil in Hin.
  - intros msg f0 Hin. destruct (pub_logs p); [by apply elem_of_nil in Hin|].
    by apply list_elem_of_singleton in Hin as ->.
Qed.

(** *** The table *)

Lemma is_unit_key r : is_unit r = true <-> state_key r = (src, ent).
Proof.
  unfold Live.is_unit, state_key. rewrite andb_true_iff, !String.eqb_eq.
  split; [by intros [-> ->]|by intros [= -> ->]].
Qed.

Definition colon_free (t : T UnitStateRow) : Prop := forall r, r ∈ rows t -> has_char ":" (us_sourceId r) = false.

Lemma last_face_rows l f : NoDup (map state_key l) ->
  (forall r, r ∈ l -> has_char ":" (us_sourceId r) = false) ->
  last_face (map unit_of_row l) f =
  match head (List.filter is_unit l) with Some r => Some (row_face r) | None => f end.
Proof.
  revert f. induction l as [|r l IH]; intros f; [done|]. simpl. intros [Hr Hnd]%NoDup_cons Hc.
  unfold Live.last_face in *. simpl.
  assert (Hk : String.eqb (key_of (unit_of_row r)) (unitKey src ent) = is_unit r).
  { apply eq_true_iff_eq. rewrite String.eqb_eq, is_unit_key. unfold key_of, state_key. simpl. split.
    - intros [-> ->]%unitKey_inj; [done|apply Hc; set_solver|done].
    - by intros [= -> ->]. }
  rewrite Hk. rewrite IH by (done || intros; apply Hc; set_solver).
  destruct (is_unit r) eqn:Hu; [|done]. simpl.
  destruct (List.filter is_unit l) as [|r' l'] eqn:Hf; [done|].
  assert (r' ∈ List.filter is_unit l) as [Hin Hu']%elem_of_filterb by (rewrite Hf; set_solver).
  destruct Hr. apply elem_of_map. exists r'. split; [|done].
  apply is_unit_key in Hu, Hu'. congruence.
Qed.

(** The snapshot says of our unit what the table holds. *)
Lemma snapshot_face (tb : T UnitStateRow) : unique_key state_key tb -> colon_free tb ->
  last_face (map unit_of_row (rows tb)) None = row_face <$> select_first is_unit tb.
Proof.
  intros Hu Hc. rewrite last_face_rows by done. unfold select_first, select.
  by destruct (head (List.filter is_unit (rows tb))).
Qed.

Lemma unique_baseline_step now agentId u (tb : T UnitStateRow) :
  unique_key state_key tb -> unique_key state_key (baseline_step now agentId tb u).
Proof.
  intros Hu. apply unique_key_upsert; [done| |done]. intros r Hr. by apply unitStates_conflict_key.
Qed.

Lemma unique_batch now agentId units (tb : T UnitStateRow) :
  unique_key state_key tb -> unique_key state_key (fold_left (baseline_step now agentId) units tb).
Proof. revert tb. induction units as [|u us IH]; intros tb Hu; [done|]. by apply IH, unique_baseline_step. Qed.

(** A batch of samples stores what its publication says. *)
Lemma stored_batch now agentId lat units (tb : T UnitStateRow) :
  has_char ":" agentId = false -> unique_key state_key tb ->
  row_face <$> select_first is_unit (fold_left (baseline_step now agentId) units tb) =
  last_face (map (unit_of_push agentId lat) units) (row_face <$> select_first is_unit tb).
Proof.
  intros Ha. revert tb. unfold Live.last_face. induction units as [|u units IH]; intros tb Hu; [done|]. simpl.
  rewrite IH by by apply unique_baseline_step. f_equal.
  unfold baseline_step. rewrite (select_first_upsert state_key (src, ent));
    [|done|apply is_unit_key|intros y; apply unitStates_conflict_key|done].
  unfold key_of. simpl lu_sourceId. simpl lu_entity. destruct (String.eqb_spec (unitKey agentId (push_entity u)) (unitKey src ent)) as [He|Hne].
  - apply unitKey_inj in He as [H1 H2]; [|done..].
    rewrite decide_True by (unfold state_key; simpl; congruence). by destruct (select_first is_unit tb).
  - rewrite decide_False; [done|]. unfold state_key. simpl. by intros [= -> ->].
Qed.

Lemma colon_free_batch now agentId units (tb : T UnitStateRow) :
  has_char ":" agentId = false -> colon_free tb -> colon_free (fold_left (baseline_step now agentId) units tb).
Proof.
  intros Ha. revert tb. induction units as [|u units IH]; intros tb Hc; [done|]. simpl. apply IH.
  intros r Hr. unfold baseline_step, upsert in Hr. destruct (existsb _ _).
  - apply elem_of_update in Hr as (r' & Hr' & ->). specialize (Hc r' Hr'). by destruct (unitStates_conflict _ _).
  - by apply elem_of_insert in Hr as [->|]; [|apply Hc].
Qed.
(** A prune keeps a unit whose monitor exists. *)
Lemma stored_prune fleet agentId (tb : T UnitStateRow) :
  unique_key state_key tb -> keeps src ent fleet = true ->
  unique_key state_key (pruneOrphanUnits fleet tb agentId) /\
  select_first is_unit (pruneOrphanUnits fleet tb agentId) = select_first is_unit tb.
Proof.
  intros Hu Hk. unfold pruneOrphanUnits.
  destruct (Nat.eqb (List.length (map mon_name (select (of_agent agentId) (monitors fleet)))) 0) eqn:Hl; [done|].
  split; [by apply unique_key_delete|]. apply option_eq. intros r.
  rewrite !(select_first_iff state_key (src, ent)) by (try apply unique_key_delete; done || apply is_unit_key).
  rewrite elem_of_delete. split; [tauto|]. intros [Hr He]. split; [|done]. split; [done|].
  unfold state_key in He. injection He as Hs He. apply andb_false_iff. rewrite Hs.
  destruct (String.eqb_spec src agentId) as [<-|]; [right|by left].
  unfold keeps in Hk. rewrite Hl, He in *. simpl in Hk. by rewrite Hk.
Qed.

Lemma colon_free_prune fleet agentId (tb : T UnitStateRow) :
  colon_free tb -> colon_free (pruneOrphanUnits fleet tb agentId).
Proof.
  intros Hc r. unfold pruneOrphanUnits. destruct (Nat.eqb _ 0); [apply Hc|].
  intros [Hr _]%elem_of_delete. by apply Hc.
Qed.

(** *** The sockets *)

Lemma send_to_conns c0 msg w :
  lv_conns (send_to c0 msg w) !! c = (if decide (c = c0) then send_open msg <$> lv_conns w !! c else lv_conns w !! c).
Proof.
  unfold send_to, with_conns. simpl. destruct (decide (c = c0)) as [->|Hne];
    [apply lookup_alter_eq|by apply lookup_alter_ne].
Qed.

(** A broadcast reaches our socket once if it is registered, and touches nothing else. *)
Lemma broadcast_spec msg w : NoDup (lv_hub w) ->
  lv_conns (broadcast msg w) !! c =
    (if mem c (lv_hub w) then send_open msg <$> lv_conns w !! c else lv_conns w !! c) /\
  lv_hub (broadcast msg w) = lv_hub w /\ lv_telemetry (broadcast msg w) = lv_telemetry w /\
  lv_fleet (broadcast msg w) = lv_fleet w.
Proof.
  unfold broadcast.
  enough (He : forall l, NoDup l -> let w' := fold_left (fun w c => send_to c msg w) l w in
    lv_conns w' !! c = (if mem c l then send_open msg <$> lv_conns w !! c else lv_conns w !! c) /\
    lv_hub w' = lv_hub w /\ lv_telemetry w' = lv_telemetry w /\ lv_fleet w' = lv_fleet w) by apply He.
  intros l Hnd. revert w. unfold mem. induction l as [|c0 l IH]; intros w.
  { cbn [fold_left]. by rewrite bool_decide_false by set_solver. }
  apply NoDup_cons in Hnd as [Hc0 Hnd]. simpl.
  destruct (IH Hnd (send_to c0 msg w)) as (H1 & H2 & H3 & H4). rewrite H2, H3, H4. split; [|done].
  rewrite H1, send_to_conns. destruct (decide (c = c0)) as [->|Hne].
  - by rewrite bool_decide_false, bool_decide_true by set_solver.
  - by rewrite (bool_decide_ext (c ∈ c0 :: l) (c ∈ l)) by set_solver.
Qed.

(** What our socket shows once it has received what was sent to it. *)
Definition queued (k : Conn) : option Face := fold_left effect (cn_queue k) (shown (cn_client k)).

Lemma broadcasts_spec q w : NoDup (lv_hub w) ->
  let w' := fold_left (fun w msg => broadcast msg w) q w in
  (lv_hub w' = lv_hub w /\ lv_telemetry w' = lv_telemetry w /\ lv_fleet w' = lv_fleet w) /\
  match lv_conns w !! c with
  | None => lv_conns w' !! c = None
  | Some k => exists k', lv_conns w' !! c = Some k' /\ cn_open k' = cn_open k /\
      (cn_open k = true -> queued k' = if mem c (lv_hub w) then fold_left effect q (queued k) else queued k)
  end.
Proof.
  revert w. induction q as [|msg q IH]; intros w Hnd.
  - simpl. split; [done|]. destruct (lv_conns w !! c) as [k|]; [|done]. exists k. by destruct (mem c (lv_hub w)).
  - simpl. destruct (broadcast_spec msg w Hnd) as (Hc & Hh & Ht & Hf).
    destruct (IH (broadcast msg w)) as [Hs Hk]; [by rewrite Hh|]. rewrite Hh, Ht, Hf in *. split; [done|].
    rewrite Hc in Hk. destruct (lv_conns w !! c) as [k|]; [|by destruct (mem c _)].
    destruct (mem c (lv_hub w)); [|done]. simpl in Hk. destruct Hk as (k' & H1 & H2 & H3).
    exists k'. split; [done|]. unfold send_open in *. destruct (cn_open k) eqn:Ho; [|by rewrite Ho in H2].
    simpl in *. split; [done|]. intros _. rewrite (H3 eq_refl). unfold queued. simpl. by rewrite fold_left_app.
Qed.
End lemmas.

Section invariant.
Context {T : Type -> Type} {ST : Store T} {LT : StoreLaws T}.
Variables (src ent : string) (c : nat).
Hypothesis Hsrc : has_char ":" src = false.
Implicit Types (w : Live T) (t : task) (x : Sys T) (ts : list task).

Notation last_face := (last_face src ent).
Notation stored := (stored src ent).
Notation says := (says src ent).
Notation queued := (queued src ent).

(** Something about our unit is still on its way to our socket. *)
Definition under_way ts : Prop :=
  exists t, t ∈ ts /\ (is_Some (says t) \/ snapshot_pending c t = true).

(** Between two steps: publications and snapshots under way agree with the table, and what the
    socket was sent does too unless one of them is to come. *)
Record in_step w ts : Prop := {
  is_unique : unique_key state_key (unitStates (lv_telemetry w));
  is_colon : colon_free (unitStates (lv_telemetry w));
  is_keeps : keeps src ent (lv_fleet w) = true;
  is_hub : NoDup (lv_hub w);
  is_says : forall t f, t ∈ ts -> says t = Some f -> stored w = Some f;
  is_read : forall ags us, ReadingMetrics c ags us ∈ ts -> last_face (map unit_of_row us) None = stored w;
  is_admit : Admitting c false ∉ ts;
  is_conn : match lv_conns w !! c with
    | None => forall t, t ∈ ts -> snapshot_pending c t = false
    | Some k => cn_open k = true /\ (Admitting c true ∈ ts \/ c ∈ lv_hub w) /\
                (under_way ts \/ queued k = stored w) end
}.

Lemma in_step_perm w ts ts' : ts ≡ₚ ts' -> in_step w ts -> in_step w ts'.
Proof.
  intros Hp [H1 H2 H3 H4 H5 H6 H7 H8]. constructor; try done.
  - intros t f. rewrite <- Hp. apply H5.
  - intros ags us. rewrite <- Hp. apply H6.
  - by rewrite <- Hp.
  - unfold under_way in *. destruct (lv_conns w !! c); setoid_rewrite <- Hp; done.
Qed.

Lemma last_face_none us : (forall u, u ∈ us -> key_of u <> unitKey src ent) -> last_face us None = None.
Proof.
  unfold Live.last_face. generalize (@None Face) as f. induction us as [|u us IH]; intros f H; [done|]. simpl.
  destruct (String.eqb_spec (key_of u) (unitKey src ent)) as [He|]; [destruct (H u); set_solver|].
  apply IH. set_solver.
Qed.

(** A publication about our unit comes from a push of our unit. *)
Lemma published_face agentId lat units f : has_char ":" agentId = false ->
  last_face (map (unit_of_push agentId lat) units) None = Some f ->
  agentId = src /\ ent ∈ map push_entity units.
Proof.
  intros Ha Hf. destruct (decide (agentId = src /\ ent ∈ map push_entity units)) as [|Hn]; [done|].
  rewrite last_face_none in Hf; [done|]. intros u (p & -> & Hp)%elem_of_map He. apply Hn.
  apply unitKey_inj in He as [H1 H2]; [|done..]. simpl in H1, H2. split; [done|].
  apply elem_of_map. by exists p.
Qed.

Lemma undisturbed_true ts : undisturbed src ent c ts = true <->
  forall t, t ∈ ts -> says t = None /\ snapshot_read c t = false.
Proof.
  unfold undisturbed. rewrite negb_true_iff, existsb_false. apply forall_proper. intros t.
  by rewrite orb_false_iff, bool_decide_eq_false, <- eq_None_not_Some.
Qed.

(** A commit and the publication it leaves behind. *)
Lemma commit_in_step now agentId lat units tm t w ts :
  in_step w ts -> has_char ":" agentId = false ->
  unitStates tm = fold_left (baseline_step now agentId) units (unitStates (lv_telemetry w)) ->
  says t = last_face (map (unit_of_push agentId lat) units) None -> snapshot_pending c t = false ->
  (is_Some (says t) -> undisturbed src ent c ts = true) ->
  in_step (with_telemetry tm w) (ts ++ [t]).
Proof.
  intros [H1 H2 H3 H4 H5 H6 H7 H8] Ha Htm Hs Hp Hd.
  assert (Hst : stored (with_telemetry tm w) = match says t with Some g => Some g | None => stored w end).
  { unfold Live.stored. simpl. rewrite Htm, (stored_batch src ent Hsrc now agentId lat) by done.
    by rewrite last_face_prior, <- Hs. }
  assert (Ht : forall t', t' ∈ ts ++ [t] <-> t' ∈ ts \/ t' = t) by set_solver.
  constructor; simpl; rewrite ?Htm; try done.
  - by apply unique_batch.
  - by apply colon_free_batch.
  - intros t' f Hin%Ht Hf. rewrite Hst. destruct (says t) as [g|] eqn:Hg.
    + destruct Hin as [Hin| ->]; [|congruence].
      pose proof (proj1 (undisturbed_true ts) (Hd (mk_is_Some _ _ eq_refl)) t' Hin) as [Hn _]. congruence.
    + destruct Hin as [Hin| ->]; [by eapply H5|congruence].
  - intros ags us [Hin|<-]%Ht; [|unfold snapshot_pending in Hp; by rewrite Nat.eqb_refl in Hp].
    rewrite Hst. destruct (says t) as [g|] eqn:Hg; [|by eapply H6].
    pose proof (proj1 (undisturbed_true ts) (Hd (mk_is_Some _ _ eq_refl)) _ Hin) as [_ Hn].
    simpl in Hn. by rewrite Nat.eqb_refl in Hn.
  - intros [Hin|<-]%Ht; [done|]. simpl in Hp. by rewrite Nat.eqb_refl in Hp.
  - destruct (lv_conns w !! c) as [k|]; [|intros t' [Hin| ->]%Ht; [by apply H8|exact Hp]].
    destruct H8 as (Ho & Hh & Hq). split; [done|]. split; [set_solver|].
    destruct (says t) as [g|] eqn:Hg.
    + left. exists t. split; [apply Ht; by right|]. left. by rewrite Hg.
    + rewrite Hst. destruct Hq as [(t' & Hin & Hw)|Hq]; [left; exists t'; set_solver|by right].
Qed.
(** A task that publishes nothing and leaves our socket alone. *)
Lemma frame_in_step w w' t ts' rest :
  in_step w (t :: rest) -> lv_telemetry w' = lv_telemetry w -> lv_fleet w' = lv_fleet w ->
  NoDup (lv_hub w') -> (c ∈ lv_hub w -> c ∈ lv_hub w') -> lv_conns w' !! c = lv_conns w !! c ->
  says t = None -> (forall t', t' ∈ ts' -> says t' = None) ->
  (forall ags us, ReadingMetrics c ags us ∈ ts' -> last_face (map unit_of_row us) None = stored w) ->
  (forall ok, Admitting c ok ∉ ts') -> (t = Admitting c true -> c ∈ lv_hub w') ->
  (snapshot_pending c t = true <-> exists t', t' ∈ ts' /\ snapshot_pending c t' = true) ->
  in_step w' (ts' ++ rest).
Proof.
  intros [H1 H2 H3 H4 H5 H6 H7 H8] Ht Hf Hn Hh Hc Hsays Hs Hr Ha Hadd Hp.
  assert (Hst : stored w' = stored w) by (unfold Live.stored; by rewrite Ht).
  constructor; rewrite ?Ht, ?Hf, ?Hst, ?Hc; try done.
  - intros t' f [Hin|Hin]%elem_of_app; [by rewrite Hs|]. apply H5. by right.
  - intros ags us [Hin|Hin]%elem_of_app; [by eapply Hr|]. eapply H6. by right.
  - intros [Hin|Hin]%elem_of_app; [by eapply Ha|]. apply H7. by right.
  - destruct (lv_conns w !! c) as [k|].
    + destruct H8 as (Ho & Hhub & Hq). split; [done|]. split.
      { destruct Hhub as [[He|Hin]%elem_of_cons|Hin]; [right; by apply Hadd|set_solver|right; by apply Hh]. }
      destruct Hq as [(t' & [->|Hin]%elem_of_cons & Hw)|Hq]; [..|by right]; left.
      * destruct Hw as [[f Hw]|Hw]; [congruence|]. apply Hp in Hw as (t' & Hin & Hw). exists t'. set_solver.
      * exists t'. set_solver.
    + intros t' [Hin|Hin]%elem_of_app; [|apply H8; by right].
      destruct (snapshot_pending c t') eqn:E; [|done].
      rewrite <- (H8 t (list_elem_of_here _ _)). symmetry. apply Hp. by exists t'.
Qed.

(** The task read the units and now sends the snapshot. *)
Lemma snapshot_in_step w ags us rest ags' stamp :
  in_step w (ReadingMetrics c ags us :: rest) ->
  in_step (send_to c (LiveSnapshot ags' (map unit_of_row us) stamp) w) rest.
Proof.
  intros [H1 H2 H3 H4 H5 H6 H7 H8]. constructor; try done.
  - intros t f Hin. apply H5. by right.
  - intros ags0 us0 Hin. eapply H6. by right.
  - intros Hin. apply H7. by right.
  - rewrite send_to_conns, decide_True by done. change (stored (send_to _ _ _)) with (stored w).
    destruct (lv_conns w !! c) as [k|]; simpl.
    + destruct H8 as (Ho & Hh & _). unfold send_open. rewrite Ho. simpl. split; [done|]. split.
      { destruct Hh as [[|]%elem_of_cons|]; [done|by left|by right]. }
      right. unfold Live.queued. simpl. rewrite fold_left_app. simpl. eapply H6. by left.
    + specialize (H8 _ (list_elem_of_here _ _)). simpl in H8. by rewrite Nat.eqb_refl in H8.
Qed.

(** Messages that say of our unit what is stored, or nothing. *)
Lemma broadcast_in_step w t rest q :
  in_step w (t :: rest) -> snapshot_pending c t = false ->
  (forall f, fold_left (effect src ent) q f = match says t with Some g => Some g | None => f end) ->
  in_step (fold_left (fun w msg => broadcast msg w) q w) rest.
Proof.
  intros [H1 H2 H3 H4 H5 H6 H7 H8] Hp Hq.
  destruct (broadcasts_spec src ent c Hsrc q w H4) as [(Hh & Ht & Hf) Hk].
  set (w' := fold_left (fun w msg => broadcast msg w) q w) in *. clearbody w'.
  assert (Hst : stored w' = stored w) by (unfold Live.stored; by rewrite Ht).
  constructor; rewrite ?Hh, ?Ht, ?Hf, ?Hst; try done.
  - intros t' f Hin. apply H5. by right.
  - intros ags us Hin. eapply H6. by right.
  - intros Hin. apply H7. by right.
  - destruct (lv_conns w !! c) as [k|]; [|rewrite Hk; intros t' Hin; apply H8; by right].
    destruct Hk as (k' & -> & Ho' & Hqk), H8 as (Ho & Hhub & Hu). split; [congruence|].
    assert (Hhub' : Admitting c true ∈ rest \/ c ∈ lv_hub w).
    { destruct Hhub as [[<-|]%elem_of_cons|]; [|by left|by right].
      simpl in Hp. by rewrite Nat.eqb_refl in Hp. }
    split; [done|]. rewrite (Hqk Ho), Hq. unfold mem. case_bool_decide as Hc.
    + destruct (says t) as [g|] eqn:Hg; [right; symmetry; by apply (H5 t g (list_elem_of_here _ _))|].
      destruct Hu as [(t' & [->|Hin]%elem_of_cons & Hw)|]; [|left; by exists t'|by right].
      destruct Hw as [[f Hw]|Hw]; congruence.
    + destruct Hhub' as [Hin|]; [|done]. left. exists (Admitting c true). split; [done|]. right.
      simpl. apply Nat.eqb_refl.
Qed.
Lemma elem_of_one (t t' : task) : t ∈ [t'] <-> t = t'.
Proof. apply list_elem_of_singleton. Qed.

Lemma run_task_in_step now f t w rest :
  in_step w (t :: rest) -> in_step (run_task now f t w).1 ((run_task now f t w).2 ++ rest).
Proof.
  intros Hi. pose proof Hi as [H1 H2 H3 H4 H5 H6 H7 H8].
  destruct t as [c0 ok|c0|c0 ags|c0 ags us|p|p|a]; simpl.
  - destruct ok; simpl.
    + eapply (frame_in_step w _ _ [ReadingAgents c0]); try done; simpl.
      * by apply NoDup_set_add.
      * intros. apply elem_of_set_add. by right.
      * by intros t' ->%elem_of_one.
      * by intros ags us ?%elem_of_one.
      * by intros ok ?%elem_of_one.
      * intros [= ->]. apply elem_of_set_add. by left.
      * setoid_rewrite elem_of_one. naive_solver.
    + assert (c0 <> c) by (intros ->; apply H7; by left).
      apply (frame_in_step w _ (Admitting c0 false) []); try done.
      * simpl. by apply lookup_alter_ne.
      * by intros t' ?%elem_of_nil.
      * by intros ags us ?%elem_of_nil.
      * by intros ok ?%elem_of_nil.
      * simpl. rewrite Nat.eqb_eq. split; [congruence|]. by intros (t' & ?%elem_of_nil & _).
  - eapply (frame_in_step w _ _ [ReadingUnits c0 _]); try done; simpl.
    + by intros t' ->%elem_of_one.
    + by intros ags us ?%elem_of_one.
    + by intros ok ?%elem_of_one.
    + setoid_rewrite elem_of_one. naive_solver.
  - eapply (frame_in_step w _ _ [ReadingMetrics c0 ags _]); try done; simpl.
    + by intros t' ->%elem_of_one.
    + intros ags' us [= -> -> ->]%elem_of_one. by apply snapshot_face.
    + by intros ok ?%elem_of_one.
    + setoid_rewrite elem_of_one. naive_solver.
  - destruct (decide (c0 = c)) as [->|Hne].
    + by eapply snapshot_in_step.
    + apply (frame_in_step w _ (ReadingMetrics c0 ags us) []); try done.
      * rewrite send_to_conns. by rewrite decide_False.
      * by intros t' ?%elem_of_nil.
      * by intros ags' us' ?%elem_of_nil.
      * by intros ok ?%elem_of_nil.
      * simpl. rewrite Nat.eqb_eq. split; [congruence|]. by intros (t' & ?%elem_of_nil & _).
  - destruct (stored_prune src ent (lv_fleet w) (pub_agentId p) _ H1 H3) as [Hu Hs].
    assert (Hst : stored (prune_units (pub_agentId p) w) = stored w) by (unfold Live.stored; simpl; by rewrite Hs).
    constructor; rewrite ?Hst; try done.
    + by apply colon_free_prune.
    + intros t f' [->|Hin]%elem_of_cons Hf; [apply (H5 (Pruning p)); [by left|done]|]. apply (H5 t); [by right|done].
    + intros ags us [|Hin]%elem_of_cons; [done|]. eapply H6. by right.
    + intros [|Hin]%elem_of_cons; [done|]. apply H7. by right.
    + simpl. destruct (lv_conns w !! c) as [k|].
      * destruct H8 as (Ho & Hh & Hq). split; [done|]. split; [set_solver|].
        destruct Hq as [(t' & [->|Hin]%elem_of_cons & Hw)|]; [..|by right]; left.
        -- exists (Broadcasting p). split; [by left|exact Hw].
        -- exists t'. set_solver.
      * intros t' [->|Hin]%elem_of_cons; [done|]. apply H8. by right.
  - eapply broadcast_in_step; [exact Hi|done|]. intros g. rewrite messages_effect by done. apply last_face_prior.
  - destruct (getAgent (Some f) now (lv_fleet w) a) as [d|]; simpl.
    + by eapply (broadcast_in_step w _ rest [LiveAgentPatch [connectivity_part d] now]).
    + by eapply (broadcast_in_step w _ rest []).
Qed.
Lemma ingest_units newId now agentId db payload :
  unitStates (ingest newId now agentId db payload) =
  fold_left (baseline_step now agentId) (default [] (ing_units payload)) (unitStates db).
Proof.
  unfold ingest, processUnits. simpl. by destruct (default [] (ing_units payload)).
Qed.

Lemma orderly_batch agentId units ts :
  negb (String.eqb agentId src && mem ent units) || undisturbed src ent c ts = true ->
  agentId = src /\ ent ∈ units -> undisturbed src ent c ts = true.
Proof.
  intros Ho [-> Hin]. rewrite String.eqb_refl, (proj2 (mem_true ent units) Hin) in Ho. exact Ho.
Qed.

Lemma added_in_step w ts t :
  in_step w ts -> says t = None -> snapshot_pending c t = false -> in_step w (ts ++ [t]).
Proof.
  intros [H1 H2 H3 H4 H5 H6 H7 H8] Hs Hp.
  assert (Ht : forall t', t' ∈ ts ++ [t] <-> t' ∈ ts \/ t' = t) by set_solver.
  constructor; try done.
  - intros t' g [Hin| ->]%Ht; [by apply H5|congruence].
  - intros ags us [Hin|<-]%Ht; [by eapply H6|]. simpl in Hp. by rewrite Nat.eqb_refl in Hp.
  - intros [Hin|<-]%Ht; [done|]. simpl in Hp. by rewrite Nat.eqb_refl in Hp.
  - destruct (lv_conns w !! c) as [k|]; [|intros t' [Hin| ->]%Ht; [by apply H8|exact Hp]].
    destruct H8 as (Ho & Hh & Hq). split; [done|]. split; [set_solver|].
    destruct Hq as [(t' & Hin & Hw)|]; [left; exists t'; set_solver|by right].
Qed.

(** The connections change and ours shows the same in the end. *)
Lemma conn_in_step w conns ts :
  in_step w ts ->
  match lv_conns w !! c with
  | None => conns !! c = None
  | Some k => exists k', conns !! c = Some k' /\ cn_open k' = cn_open k /\ queued k' = queued k end ->
  in_step (with_conns conns w) ts.
Proof.
  intros [H1 H2 H3 H4 H5 H6 H7 H8] Hc. constructor; try done. simpl.
  destruct (lv_conns w !! c) as [k|]; [|by rewrite Hc].
  destruct Hc as (k' & -> & -> & ->). exact H8.
Qed.

Lemma hub_remove_in_step c0 w ts : c <> c0 -> in_step w ts -> in_step (hub_remove c0 w) ts.
Proof.
  intros Hne [H1 H2 H3 H4 H5 H6 H7 H8]. constructor; try done; [by apply NoDup_filterb|].
  simpl. destruct (lv_conns w !! c) as [k|]; [|done]. destruct H8 as (Ho & Hh & Hq).
  split; [done|]. split; [|done]. destruct Hh as [|Hh]; [by left|right].
  apply elem_of_filterb. split; [done|]. apply negb_true_iff, Nat.eqb_neq. done.
Qed.

Lemma connect_in_step c0 ok st w ts :
  in_step w ts -> negb (Nat.eqb c c0) || ok = true -> lv_conns w !! c0 = None ->
  in_step (with_conns (<[c0 := {| cn_open := true; cn_queue := []; cn_client := st |}]> (lv_conns w)) w)
    (ts ++ [Admitting c0 ok]).
Proof.
  intros Hi Hok Hc. destruct (Nat.eqb_spec c c0) as [<-|Hne].
  - simpl in Hok. subst ok. pose proof Hi as [H1 H2 H3 H4 H5 H6 H7 H8]. rewrite Hc in H8.
    assert (Ht : forall t, t ∈ ts ++ [Admitting c true] <-> t ∈ ts \/ t = Admitting c true) by set_solver.
    constructor; try done.
    + intros t g [Hin| ->]%Ht; [by apply H5|done].
    + intros ags us [Hin|]%Ht; [by eapply H6|done].
    + by intros [Hin|]%Ht.
    + simpl. rewrite lookup_insert_eq. simpl. split; [done|]. split; [left; apply Ht; by right|].
      left. exists (Admitting c true). split; [apply Ht; by right|]. right. simpl. apply Nat.eqb_refl.
  - apply added_in_step; [|done|simpl; by apply Nat.eqb_neq].
    apply conn_in_step; [done|]. rewrite lookup_insert_ne by done.
    destruct (lv_conns w !! c) as [k|]; [by exists k|done].
Qed.

(** Every orderly step keeps the socket in step. *)
Lemma step_in_step e x y :
  orderly src ent c e x = true -> step e x = Some y -> in_step x.1 x.2 -> in_step y.1 y.2.
Proof.
  destruct x as [w ts]. intros Ho Hs Hi.
  destruct e as [nid now a payload|nid now a n st0 mt lat|fleet|a|a|c0 ok st|now f i|now c0|c0]; simpl in Ho, Hs.
  - apply andb_true_iff in Ho as [Ha%negb_true_iff Ho]. destruct (isApproved _ _); simplify_eq. simpl.
    eapply (commit_in_step now a None (default [] (ing_units payload))); [done..| | | |].
    + apply ingest_units.
    + by destruct (Nat.eqb _ 0).
    + by destruct (Nat.eqb _ 0).
    + intros [g Hg]. apply (orderly_batch a (map push_entity (default [] (ing_units payload)))); [done|].
      apply (published_face a None _ g Ha). by destruct (Nat.eqb _ 0).
  - apply andb_true_iff in Ho as [Ha%negb_true_iff Ho]. simplify_eq. simpl.
    eapply (commit_in_step now a lat [monitor_push n st0 mt]); [done..|]. intros [g Hg].
    destruct (published_face a lat [monitor_push n st0 mt] g Ha Hg) as [-> ->%list_elem_of_singleton].
    by rewrite !String.eqb_refl in Ho.
  - simplify_eq. destruct Hi. by constructor.
  - simplify_eq. pose proof Hi as [H1 H2 H3 H4 H5 H6 H7 H8]. simpl in *.
    destruct (stored_prune src ent (lv_fleet w) a _ H1 H3) as [Hu Hst].
    assert (Hst' : stored (prune_units a w) = stored w) by (unfold Live.stored; simpl; by rewrite Hst).
    constructor; rewrite ?Hst'; try done. by apply colon_free_prune.
  - simplify_eq. simpl. by apply added_in_step.
  - simpl in Ho. destruct (lv_conns w !! c0) eqn:Hc0; [done|]. simplify_eq. simpl.
    by apply connect_in_step.
  - destruct (ts !! i) as [t|] eqn:Ht; [|done]. simplify_eq.
    destruct (run_task now f t w) as [w' ts'] eqn:Hr. simplify_eq. simpl.
    pose proof (run_task_in_step now f t w (delete i ts)) as Hrun. rewrite Hr in Hrun. simpl in Hrun.
    apply (in_step_perm w' (ts' ++ delete i ts)); [by rewrite (comm app)|]. apply Hrun.
    eapply in_step_perm; [|exact Hi]. by apply delete_Permutation.
  - simplify_eq. simpl. apply (conn_in_step _ (alter (deliver_conn now) c0 (lv_conns w))); [done|].
    destruct (decide (c = c0)) as [->|]; [|by rewrite lookup_alter_ne; [destruct (lv_conns w !! c) as [k|]; [exists k|]|]]. rewrite lookup_alter_eq.
    destruct (lv_conns w !! c0) as [k|]; [|done]. exists (deliver_conn now k). split; [done|]. unfold deliver_conn, Live.queued.
    destruct (cn_queue k) as [|msg q] eqn:Hq; [by rewrite Hq|]. simpl. by rewrite shown_apply.
  - apply negb_true_iff, Nat.eqb_neq in Ho. simplify_eq. simpl.
    destruct (existsb _ _); simpl; [|apply hub_remove_in_step; [done|]];
      (apply (conn_in_step _ (alter close_conn c0 (lv_conns w))); [done|rewrite lookup_alter_ne by done];
       destruct (lv_conns w !! c) as [k|]; [by exists k|done]).
Qed.
Lemma orderly_run_in_step es x y :
  orderly_run src ent c es x = Some y -> in_step x.1 x.2 -> in_step y.1 y.2.
Proof.
  revert x. induction es as [|e es IH]; intros x; [by intros [= ->]|]. simpl.
  destruct (orderly src ent c e x) eqn:Ho; [|done]. destruct (step e x) as [z|] eqn:Hs; [|done].
  intros Hr Hi. eapply IH; [exact Hr|]. by eapply step_in_step.
Qed.
End invariant.

Section theorems.
Context {T : Type -> Type} {ST : Store T} {LT : StoreLaws T}.

(** C16: an operator sees what is stored, under these conditions. The ids of agents have no colon. The
    fleet always keeps the unit, its source having either a monitor of the unit's name or no monitor
    at all, so that no prune removes it (else a ghost stays, [ghost_tile]). The unit's writers push
    one at a time and none commits between the read of the socket's snapshot and its send. The
    socket is admitted and stays open. Then, whatever the interleaving of ingests, scheduler results,
    prunes, connections, snapshots, broadcasts and deliveries: once nothing about the unit is under
    way, the status, process id and detail the browser shows, after the messages still in its socket,
    are exactly those of the unit's row, present or absent. *)
Theorem live_mirror src ent c (w0 : Live T) es y k now
  (Hsrc : has_char ":" src = false)
  (Hu : unique_key state_key (unitStates (lv_telemetry w0)))
  (Hc : forall r, r ∈ rows (unitStates (lv_telemetry w0)) -> has_char ":" (us_sourceId r) = false)
  (Hk : keeps src ent (lv_fleet w0) = true) (Hh : NoDup (lv_hub w0)) (Hn : lv_conns w0 !! c = None)
  (Hr : orderly_run src ent c es (w0, []) = Some y) (Hy : lv_conns y.1 !! c = Some k)
  (Hw : forall t, t ∈ y.2 -> says src ent t = None /\ snapshot_pending c t = false) :
  cn_open k = true /\
  face <$> unitFor (receive now (cn_queue k) (cn_client k)) src ent =
  row_face <$> select_first (is_unit src ent) (unitStates (lv_telemetry y.1)).
Proof.
  assert (Hi : in_step src ent c w0 []).
  { constructor; try done; [by intros t f ?%elem_of_nil|by intros ags us ?%elem_of_nil|by intros ?%elem_of_nil|].
    rewrite Hn. by intros t ?%elem_of_nil. }
  pose proof (orderly_run_in_step src ent c Hsrc es _ _ Hr Hi) as [_ _ _ _ _ _ _ Hconn].
  rewrite Hy in Hconn. destruct Hconn as (Ho & _ & [(t & Ht & Hs)|Hq]).
  - destruct (Hw t Ht) as [H1 H2]. destruct Hs as [[g Hs]|Hs]; congruence.
  - split; [done|]. unfold queued in Hq. by rewrite <- (shown_receive src ent now) in Hq.
Qed.
End theorems.

(** *** Live logs *)

Definition lines_of (agentId : string) (msg : LiveMessage) : list LiveLogLine :=
  match msg with LiveLog a ls _ => if String.eqb a agentId then ls else [] | _ => [] end.

Lemma slice_tail_short {A} n (l : list A) : (List.length l <= n)%nat -> slice_tail n l = l.
Proof. intros H. unfold slice_tail. by replace (List.length l - n)%nat with 0%nat by lia. Qed.

Lemma slice_tail_app {A} n (l1 l2 : list A) : slice_tail n (slice_tail n l1 ++ l2) = slice_tail n (l1 ++ l2).
Proof.
  unfold slice_tail. rewrite !length_app, length_drop.
  destruct (Nat.le_gt_cases (List.length l1) n) as [H|H].
  - replace (List.length l1 - n)%nat with 0%nat by lia. rewrite drop_0. f_equal. lia.
  - rewrite <- (drop_app_le l1 l2) by lia. rewrite drop_drop. f_equal. lia.
Qed.

Lemma slice_tail_length {A} n (l : list A) : (List.length (slice_tail n l) <= n)%nat.
Proof. unfold slice_tail. rewrite length_drop. lia. Qed.

Lemma logs_apply now msg k a : (List.length (logsFor k a) <= MAX_LOG_LINES)%nat ->
  logsFor (apply now msg k) a = slice_tail MAX_LOG_LINES (logsFor k a ++ lines_of a msg).
Proof.
  intros Hl. destruct msg as [ags us ts|b us ts|ps ts|b ls ts]; simpl lines_of;
    rewrite ?app_nil_r; try by rewrite slice_tail_short.
  unfold logsFor in *. simpl. destruct (String.eqb_spec b a) as [->|Hne].
  - by rewrite map_get_set_eq.
  - rewrite map_get_set_ne by done. by rewrite app_nil_r, slice_tail_short.
Qed.

(** The console of an agent holds the last [MAX_LOG_LINES] lines of its stream. *)
Theorem logs_ring now q k a (Hl : (List.length (logsFor k a) <= MAX_LOG_LINES)%nat) :
  (List.length (logsFor (receive now q k) a) <= MAX_LOG_LINES)%nat /\
  logsFor (receive now q k) a = slice_tail MAX_LOG_LINES (logsFor k a ++ flat_map (lines_of a) q).
Proof.
  revert k Hl. unfold receive. induction q as [|msg q IH]; intros k Hl; simpl.
  { by rewrite app_nil_r, slice_tail_short. }
  destruct (IH (apply now msg k)) as [H1 H2]; [rewrite logs_apply by done; apply slice_tail_length|].
  split; [done|]. rewrite H2, logs_apply by done. by rewrite slice_tail_app, app_assoc.
Qed.

(** ** Evaluations *)

Definition w_agent : AgentRow := {|
  agent_id := "a1"; agent_name := "web-1"; agent_kind := "agent"; agent_hostname := None;
  agent_platform := None; agent_address := None; agent_status := "approved"; agent_version := None;
  agent_lastSeenAt := Some 0; agent_approvedAt := Some 0; agent_pushIntervalSec := None;
  agent_metadata := None; agent_createdAt := 0; agent_updatedAt := 0 |}.

Definition w_monitor (id name : string) : MonitorRow := {|
  mon_id := id; mon_agentId := "a1"; mon_type := "service"; mon_name := name; mon_enabled := true;
  mon_config := []; mon_createdAt := 0; mon_updatedAt := 0 |}.

Definition w_fleet_of (names : list string) : FleetDb list := {|
  agents := [w_agent]; agentKeys := []; agentCommands := [];
  monitors := map (fun n => w_monitor n n) names; secrets := [] |}.

Definition w_live : Live list := {|
  lv_fleet := w_fleet_of ["nginx"]; lv_hub := []; lv_conns := ∅;
  lv_telemetry := {| statusEvents := []; logs := []; notifications := []; uptimeBuckets := [];
                     unitStates := []; processMetrics := []; hostMetrics := [] |} |}.

Definition w_push (s : HealthStatus) : AgentIngestRequest := {|
  ing_units := Some [{| push_entity := "nginx"; push_status := s; push_pid := Some 7;
                        push_critical := None; push_meta := None |}];
  ing_metrics := None; ing_events := None; ing_logs := None |}.

Definition w_ids : string -> nat -> string := fun t n => t.
Definition w_on : string -> bool := fun _ => true.
Definition w_ingest (now : Z) (s : HealthStatus) : event list := IngestCommits w_ids now "a1" (w_push s).
Definition w_run (now : Z) (i : nat) : event list := Runs now w_on i.

(** A push, an operator who connects while it is under way, and a second push. *)
Definition w_session : list (event list) :=
  [w_ingest 10 UP; Connects 0 true no_state; w_run 11 1; w_run 12 0; w_run 13 0; w_run 14 1; w_run 15 0;
   w_run 16 0; w_ingest 20 DOWN; w_run 21 0; w_run 22 0; Delivers 23 0].

Lemma live_mirror_witness : exists y k,
  orderly_run (ST := list_store) "a1" "nginx" 0 w_session (w_live, []) = Some y /\
  lv_conns y.1 !! 0%nat = Some k /\
  face <$> unitFor (receive 30 (cn_queue k) (cn_client k)) "a1" "nginx" = Some ("DOWN", Some 7, None).
Proof.
  assert (Hr : exists y, orderly_run (ST := list_store) "a1" "nginx" 0 w_session (w_live, []) = Some y)
    by (vm_compute; eauto).
  destruct Hr as [y Hy].
  pose proof Hy as Hy'. vm_compute in Hy'. injection Hy' as <-.
  eexists _, _. split; [exact Hy|]. split; [reflexivity|].
  refine (eq_trans (proj2 (live_mirror (ST := list_store) (LT := list_store_laws) "a1" "nginx" 0 w_live w_session _ _ 30 eq_refl _ _ _ _ _ Hy eq_refl _)) _).
  - constructor.
  - by intros r ?%elem_of_nil.
  - reflexivity.
  - constructor.
  - reflexivity.
  - by intros t ?%elem_of_nil.
  - reflexivity.
Defined.

(** What a browser shows of nginx against what is stored, when nothing is left to run. *)
Definition w_compare (es : list (event list)) : option (list task * option Face * option Face * option (option Z)) :=
  match run (ST := list_store) es (w_live, []) with
  | Some (w, ts) =>
      match lv_conns w !! 0%nat with
      | Some k => let k' := receive 99 (cn_queue k) (cn_client k) in
          Some (ts, face <$> unitFor k' "a1" "nginx", stored "a1" "nginx" w, lu_since <$> unitFor k' "a1" "nginx")
      | None => None end
  | None => None end.

Definition w_open : list (event list) := [Connects 0 true no_state; w_run 1 0; w_run 2 0].

(** A push that commits and is broadcast between the read of a snapshot and its send is
    overwritten in the browser by the older snapshot. *)
Lemma snapshot_race :
  w_compare ([w_ingest 10 UP; w_run 11 0; w_run 12 0] ++ w_open ++ [w_run 13 0] ++
             [w_ingest 20 DOWN; w_run 21 1; w_run 22 1; w_run 23 0]) =
  Some ([], Some ("UP", Some 7, None), Some ("DOWN", Some 7, None), Some (Some 10)).
Proof. vm_compute. reflexivity. Qed.

(** A pruned unit stays on the screens that were connected. *)
Lemma ghost_tile :
  w_compare ([w_ingest 10 UP; w_run 11 0; w_run 12 0] ++ w_open ++ [w_run 13 0; w_run 14 0] ++
             [FleetChanges (w_fleet_of ["apache"]); MonitorMoves "a1"]) =
  Some ([], Some ("UP", Some 7, None), None, Some (Some 10)).
Proof. vm_compute. reflexivity. Qed.

(** A unit down since 10 is shown as down since its last push to whoever connects later. *)
Lemma since_is_last_push :
  w_compare ([w_ingest 10 DOWN; w_run 11 0; w_run 12 0; w_ingest 50 DOWN; w_run 51 0; w_run 52 0] ++
             w_open ++ [w_run 63 0; w_run 64 0]) =
  Some ([], Some ("DOWN", Some 7, None), Some ("DOWN", Some 7, None), Some (Some 50)).
Proof. vm_compute. reflexivity. Qed.

(** A socket that closes while its token is checked stays registered for ever. *)
Lemma early_close_leaks :
  lv_hub <$> (fst <$> run (ST := list_store) [Connects 0 true no_state; Closes 0; w_run 5 0] (w_live, []))
  = Some [0%nat].
Proof. vm_compute. reflexivity. Qed.
