(* ===== verification/Session.v ===== *)
(** * The browser's session

    Models apps/frontend/src/lib/tokens.ts, lib/api.ts and auth/AuthContext.tsx: the tokens kept in
    localStorage, the fetch client with its one refresh in flight, and the state of the provider,
    against the refresh and logout handlers of Auth.v. A browser has one storage and any number of
    tabs. The client is asynchronous: a [task] is what is left of a call at an [await], an [event]
    is an answer that arrives, a continuation that runs or a page that loads, in any order. What a
    request asks for and what it is answered other than by a 401 is a value. A new sign-in ([login])
    is left out of the machine. *)
From S2P Require Import Prelude Text Store Schema RowUpdates Crypto Authz Auth.

(** ** localStorage (tokens.ts) *)

Record AuthUser : Type := {
  au_id : string; au_username : string; au_displayName : option string; au_email : option string
}.

Record LocalStorage : Type := {
  k_access : option string; k_refresh : option string; k_user : option AuthUser
}.

Definition getAccess (l : LocalStorage) : option string := k_access l.
Definition getRefresh (l : LocalStorage) : option string := k_refresh l.
Definition setTokens (access refresh : string) (l : LocalStorage) : LocalStorage := {|
  k_access := Some access; k_refresh := Some refresh; k_user := k_user l |}.
Definition getCachedUser (l : LocalStorage) : option AuthUser := k_user l.
Definition setCachedUser (u : AuthUser) (l : LocalStorage) : LocalStorage := {|
  k_access := k_access l; k_refresh := k_refresh l; k_user := Some u |}.
Definition clear (l : LocalStorage) : LocalStorage := {| k_access := None; k_refresh := None; k_user := None |}.

(** ** The provider's state (AuthContext.tsx) *)

Inductive AuthStatus : Type := Loading | Authed | Anon.

(** What [GET /api/me] answers. *)
Record MeResponse : Type := {
  me_user : AuthUser; me_permissions : list string; me_isOwner : bool;
  me_mustSetup2fa : option bool; me_isDevice : option bool
}.

Record View : Type := {
  v_user : option AuthUser; v_permissions : list string; v_isOwner : bool; v_isDevice : bool;
  v_mustSetup2fa : bool; v_status : AuthStatus
}.

(** The state of a provider that mounts. *)
Definition mounts (l : LocalStorage) : View :=
  let hasToken := match getAccess l with Some t => truthy t | None => false end in {|
  v_user := if hasToken then getCachedUser l else None; v_permissions := []; v_isOwner := false;
  v_isDevice := false; v_mustSetup2fa := false; v_status := if hasToken then Loading else Anon |}.

Definition applyMe (me : MeResponse) (l : LocalStorage) : LocalStorage * View :=
  (setCachedUser (me_user me) l,
   {| v_user := Some (me_user me); v_permissions := me_permissions me; v_isOwner := me_isOwner me;
      v_isDevice := default false (me_isDevice me); v_mustSetup2fa := default false (me_mustSetup2fa me);
      v_status := Authed |}).

Definition becomeAnon : View := {|
  v_user := None; v_permissions := []; v_isOwner := false; v_isDevice := false;
  v_mustSetup2fa := false; v_status := Anon |}.

(** The end of the revalidation on mount, by the answer of [/api/me]; [None] where the call throws. *)
Definition revalidate (answer : option MeResponse) (l : LocalStorage) : LocalStorage * View :=
  match answer with Some me => applyMe me l | None => (clear l, becomeAnon) end.

(** A body read as the contract has it; of [null] the read of a member throws. *)
Definition me_of_json (body : json) : option MeResponse :=
  let member k v := match v with Some (JObj m) => map_get k m | _ => None end in
  let text v := match v with Some (JStr s) => Some s | _ => None end in
  let flag v := match v with Some (JBool b) => Some b | _ => None end in
  match body with
  | JNull => None
  | _ =>
      let user := member "user" (Some body) in
      Some {| me_user := {| au_id := default "" (text (member "id" user)); au_username := default "" (text (member "username" user));
                            au_displayName := text (member "displayName" user); au_email := text (member "email" user) |};
              me_permissions := match member "permissions" (Some body) with
                                | Some (JArr l) => omap (fun v => text (Some v)) l | _ => [] end;
              me_isOwner := default false (flag (member "isOwner" (Some body)));
              me_mustSetup2fa := flag (member "mustSetup2fa" (Some body)); me_isDevice := flag (member "isDevice" (Some body)) |}
  end.

(** [login], once [POST /api/auth/login] has answered; [me] is what [/api/me] answers. *)
Definition login (access refresh : string) (user : AuthUser) (me : option MeResponse)
    (l : LocalStorage) (v : View) : LocalStorage * View :=
  let l := setCachedUser user (setTokens access refresh l) in
  match me with
  | Some me => applyMe me l
  | None => (l, {| v_user := Some user; v_permissions := []; v_isOwner := false; v_isDevice := v_isDevice v;
                   v_mustSetup2fa := v_mustSetup2fa v; v_status := Authed |}) end.

Definition has (v : View) (permission : string) : bool := v_isOwner v || includes (v_permissions v) permission.

(** ** The client (api.ts) *)

Record Response : Type := { res_status : Z; res_body : json }.
Definition res_ok (res : Response) : bool := (200 <=? res_status res) && (res_status res <? 300).

Inductive Outcome : Type :=
| Returned (body : json)
| ApiError (status : Z) (body : json)
| SessionExpired (body : json)     (** [onSessionExpired()], then [ApiError(401)] *)
| NetworkError.

Definition settle (res : Response) : Outcome :=
  if res_ok res then Returned (res_body res) else ApiError (res_status res) (res_body res).

(** A header name compares without its case; the model keeps it in lower case. *)
Definition buildInit (headers : list (string * string)) (body : option string) (access : option string)
  : list (string * string) :=
  let headers :=
    match map_get "content-type" headers, body with
    | None, Some _ => map_set "content-type" "application/json" headers
    | _, _ => headers end in
  match access with
  | Some a => if truthy a then map_set "authorization" ("Bearer " +:+ a) headers else headers
  | None => headers end.

(** A tab runs its own copy of the module: its refresh in flight, its provider, and the request by
    which the provider revalidates the session on mount, until it is answered. *)
Record Tab : Type := { tab_inflight : option nat; tab_mount : option nat; tab_view : View }.

(** What is left of a call at an [await]; [p] names the promise of a refresh. *)
Inductive task : Type :=
| Requesting (tab r : nat)
| Awaiting (tab r p : nat) (res : Response)
| Retrying (tab r : nat)
| Refreshing (tab p : nat) (token : string)                         (** on its way to the server *)
| Answered (tab p : nat) (answer : option (string * string))        (** on its way back *)
| SigningOut (tab : nat) (token : string)
| SignedOut (tab : nat).

Record World (T : Type -> Type) : Type := {
  w_server : AuthState T; w_storage : LocalStorage; w_tabs : gmap nat Tab;
  w_promises : list (option (option string)); (** by creation; [Some v] once resolved with [v] *)
  w_tasks : list task; w_outcomes : list (nat * Outcome)
}.
Arguments w_server {T} _. Arguments w_storage {T} _. Arguments w_tabs {T} _.
Arguments w_promises {T} _. Arguments w_tasks {T} _. Arguments w_outcomes {T} _.

Inductive event (T : Type -> Type) : Type :=
| Mounts (tab r : nat)                                        (** the page is opened or reloaded *)
| Requests (tab r : nat)
| Arrives (i : nat) (res : option Response)                   (** [None]: the fetch rejects *)
| ServerRefreshes (now : Z) (fresh : Fresh) (i : nat)
| RefreshArrives (i : nat)
| RefreshLost (i : nat)
| Resumes (i : nat)
| SignsOut (tab : nat)
| ServerSignsOut (now : Z) (fresh : Fresh) (req : RequestInfo) (i : nat)
| SignOutArrives (i : nat)
| ServerMoves (st : AuthState T).                             (** anything else the server does *)
Arguments Mounts {T} _ _. Arguments Requests {T} _ _. Arguments Arrives {T} _ _. Arguments ServerRefreshes {T} _ _ _.
Arguments RefreshArrives {T} _. Arguments RefreshLost {T} _. Arguments Resumes {T} _.
Arguments SignsOut {T} _. Arguments ServerSignsOut {T} _ _ _ _. Arguments SignOutArrives {T} _.
Arguments ServerMoves {T} _.

Section client.
Context {T : Type -> Type} {ST : Store T} {HS : Sha256} {HJ : Jwt}.
Context (config : AuthConfig).
Implicit Types (w : World T).

Definition no_tab : Tab := {| tab_inflight := None; tab_mount := None; tab_view := becomeAnon |}.
Definition tab_of w (t : nat) : Tab := default no_tab (w_tabs w !! t).

Definition with_server st w : World T := {|
  w_server := st; w_storage := w_storage w; w_tabs := w_tabs w; w_promises := w_promises w;
  w_tasks := w_tasks w; w_outcomes := w_outcomes w |}.
Definition with_storage l w : World T := {|
  w_server := w_server w; w_storage := l; w_tabs := w_tabs w; w_promises := w_promises w;
  w_tasks := w_tasks w; w_outcomes := w_outcomes w |}.
Definition with_promises ps w : World T := {|
  w_server := w_server w; w_storage := w_storage w; w_tabs := w_tabs w; w_promises := ps;
  w_tasks := w_tasks w; w_outcomes := w_outcomes w |}.
Definition with_tasks ts w : World T := {|
  w_server := w_server w; w_storage := w_storage w; w_tabs := w_tabs w; w_promises := w_promises w;
  w_tasks := ts; w_outcomes := w_outcomes w |}.
Definition with_outcome (r : nat) (o : Outcome) w : World T := {|
  w_server := w_server w; w_storage := w_storage w; w_tabs := w_tabs w; w_promises := w_promises w;
  w_tasks := w_tasks w; w_outcomes := w_outcomes w ++ [(r, o)] |}.
Definition set_tab (t : nat) (k : Tab) w : World T := {|
  w_server := w_server w; w_storage := w_storage w; w_tabs := <[t := k]> (w_tabs w);
  w_promises := w_promises w; w_tasks := w_tasks w; w_outcomes := w_outcomes w |}.
Definition set_inflight (t : nat) (p : option nat) w : World T :=
  set_tab t {| tab_inflight := p; tab_mount := tab_mount (tab_of w t); tab_view := tab_view (tab_of w t) |} w.
Definition set_view (t : nat) (v : View) w : World T :=
  set_tab t {| tab_inflight := tab_inflight (tab_of w t); tab_mount := tab_mount (tab_of w t); tab_view := v |} w.
Definition spawn (ts : list task) w : World T := with_tasks (w_tasks w ++ ts) w.

(** [refreshTokens()] up to its first [await]: the promise it returns. *)
Definition refreshTokens (t : nat) w : World T * nat :=
  match tab_inflight (tab_of w t) with
  | Some p => (w, p)
  | None =>
      let p := List.length (w_promises w) in
      match getRefresh (w_storage w) with
      | Some token =>
          if truthy token then
            (spawn [Refreshing t p token]
               (set_inflight t (Some p) (with_promises (w_promises w ++ [None]) w)), p)
          else (with_promises (w_promises w ++ [Some None]) w, p)
      | None => (with_promises (w_promises w ++ [Some None]) w, p)
      end
  end.

(** The end of the refresh: the tokens kept, the promise resolved, no refresh in flight. *)
Definition refresh_done (t p : nat) (answer : option (string * string)) w : World T :=
  let answer := match answer with
                | Some (a, r) => if truthy a && truthy r then Some (a, r) else None
                | None => None end in
  let w := match answer with Some (a, r) => with_storage (setTokens a r (w_storage w)) w | None => w end in
  set_inflight t None (with_promises (<[p := Some (fst <$> answer)]> (w_promises w)) w).

(** [onSessionExpired()], as the provider sets it *)
Definition onSessionExpired (t : nat) w : World T :=
  set_view t becomeAnon (with_storage (clear (w_storage w)) w).

(** The tab a task runs in. *)
Definition task_tab (k : task) : nat :=
  match k with
  | Requesting t _ | Awaiting t _ _ _ | Retrying t _ | Refreshing t _ _ | Answered t _ _ | SigningOut t _
  | SignedOut t => t end.

(** A page that loads: the module starts afresh, and the calls of the page before it are lost with
    their answers. With an access token the provider revalidates it, by the request [r]. *)
Definition mount (t r : nat) w : World T :=
  let w := with_tasks (List.filter (fun k => negb (Nat.eqb (task_tab k) t)) (w_tasks w)) w in
  let v := mounts (w_storage w) in
  match v_status v with
  | Loading => spawn [Requesting t r] (set_tab t {| tab_inflight := None; tab_mount := Some r; tab_view := v |} w)
  | _ => set_tab t {| tab_inflight := None; tab_mount := None; tab_view := v |} w
  end.

(** A call ends; that of the mount ends the revalidation too. *)
Definition is_mount (t r : nat) w : bool := bool_decide (tab_mount (tab_of w t) = Some r).
Definition finish (t r : nat) (o : Outcome) w : World T :=
  let w := with_outcome r o w in
  if is_mount t r w then
    let '(l, v) := revalidate (match o with Returned body => me_of_json body | _ => None end) (w_storage w) in
    set_tab t {| tab_inflight := tab_inflight (tab_of w t); tab_mount := None; tab_view := v |} (with_storage l w)
  else w.

(** One task, without it among the tasks. *)
Definition take_task (i : nat) w : option (task * World T) :=
  match w_tasks w !! i with
  | Some k => Some (k, with_tasks (delete i (w_tasks w)) w)
  | None => None end.

Definition step (e : event T) w : option (World T) :=
  match e with
  | Mounts t r => Some (mount t r w)
  | Requests t r => if is_mount t r w then None else Some (spawn [Requesting t r] w)
  | Arrives i res =>
      match take_task i w, res with
      | Some (Requesting t r, w), Some res =>
          if res_status res =? 401 then
            let '(w, p) := refreshTokens t w in Some (spawn [Awaiting t r p res] w)
          else Some (finish t r (settle res) w)
      | Some (Retrying t r, w), Some res => Some (finish t r (settle res) w)
      | Some (Requesting t r, w), None | Some (Retrying t r, w), None => Some (finish t r NetworkError w)
      | _, _ => None end
  | ServerRefreshes now fresh i =>
      match take_task i w with
      | Some (Refreshing t p token, w) =>
          let '(st, answer) := refresh config now fresh (w_server w) token in
          Some (spawn [Answered t p answer] (with_server st w))
      | _ => None end
  | RefreshArrives i =>
      match take_task i w with
      | Some (Answered t p answer, w) => Some (refresh_done t p answer w)
      | _ => None end
  | RefreshLost i =>
      match take_task i w with
      | Some (Refreshing t p _, w) | Some (Answered t p _, w) => Some (refresh_done t p None w)
      | _ => None end
  | Resumes i =>
      match take_task i w with
      | Some (Awaiting t r p res, w) =>
          match w_promises w !! p with
          | Some (Some (Some newAccess)) =>
              if truthy newAccess then Some (spawn [Retrying t r] w)
              else Some (finish t r (SessionExpired (res_body res)) (onSessionExpired t w))
          | Some (Some None) => Some (finish t r (SessionExpired (res_body res)) (onSessionExpired t w))
          | _ => None end
      | _ => None end
  | SignsOut t =>
      match getRefresh (w_storage w) with
      | Some token => Some (spawn [if truthy token then SigningOut t token else SignedOut t] w)
      | None => Some (spawn [SignedOut t] w) end
  | ServerSignsOut now fresh req i =>
      match take_task i w with
      | Some (SigningOut t token, w) =>
          Some (spawn [SignedOut t] (with_server (logout now fresh req (w_server w) token) w))
      | _ => None end
  | SignOutArrives i =>
      match take_task i w with
      | Some (SigningOut t _, w) | Some (SignedOut t, w) =>
          (* best effort: the local sign-out proceeds whatever the answer *)
          Some (set_view t becomeAnon (with_storage (clear (w_storage w)) w))
      | _ => None end
  | ServerMoves st => Some (with_server st w)
  end.

Fixpoint run (es : list (event T)) w : option (World T) :=
  match es with [] => Some w | e :: es' => match step e w with Some w' => run es' w' | None => None end end.
End client.

(** ** One tab keeps its session *)

Section kept.
Context {T : Type -> Type} {ST : Store T} {HS : Sha256} {HJ : Jwt}.
Context (config : AuthConfig) (t0 : nat).
Implicit Types (w : World T) (k : task) (st : AuthState T).

Definition is_refresh k : bool := match k with Refreshing _ _ _ | Answered _ _ _ => true | _ => false end.
Definition refreshes w : list task := List.filter is_refresh (w_tasks w).

Definition tokens_of st : T RefreshTokenRow := Authz.refreshTokens (master st).

(** The server has a row of the token that is not revoked. *)
Definition honoured st (token : string) : bool :=
  existsb (fun r => String.eqb (rt_tokenHash r) (sha256 token)
                    && negb (bool_decide (is_Some (rt_revokedAt r)))) (rows (tokens_of st)).

(** The token the browser holds, or is about to be given. *)
Definition heir w : option string :=
  match refreshes w with
  | Answered _ _ (Some (_, r)) :: _ => Some r
  | _ => getRefresh (w_storage w) end.

(** The answer of [/api/me] to a page that mounts lets it in. *)
Definition admits (res : Response) : bool :=
  match settle res with Returned body => bool_decide (is_Some (me_of_json body)) | _ => false end.

(** What is asked of the surroundings: one tab, no reload while a refresh is under way, answers of
    refreshes that arrive, a mount that is answered, if not by a 401, then with success, no sign-out,
    a refresh before its token expires, and a server that does not revoke the session. *)
Definition orderly (e : event T) w : bool :=
  match e with
  | Mounts t _ => Nat.eqb t t0 && negb (existsb is_refresh (w_tasks w))
  | Requests t _ => Nat.eqb t t0
  | Arrives i res =>
      match w_tasks w !! i with
      | Some (Requesting t r) =>
          negb (is_mount t r w) || match res with Some res => (res_status res =? 401) || admits res | None => false end
      | Some (Retrying t r) => negb (is_mount t r w) || match res with Some res => admits res | None => false end
      | _ => true end
  | ServerRefreshes now fresh i =>
      match w_tasks w !! i with
      | Some (Refreshing _ _ token) =>
          forallb (fun r => negb (String.eqb (rt_tokenHash r) (sha256 token)) || (now <? rt_expiresAt r))
            (rows (tokens_of (w_server w)))
          && match snd (refresh config now fresh (w_server w) token) with
             | Some (a, r) => truthy a && truthy r | None => true end
      | _ => true end
  | RefreshLost _ | SignsOut _ => false
  | ServerMoves st => match heir w with Some token => honoured st token | None => true end
  | _ => true
  end.

Fixpoint orderly_run (es : list (event T)) w : option (World T) :=
  match es with
  | [] => Some w
  | e :: es' =>
      if orderly e w then match step config e w with Some w' => orderly_run es' w' | None => None end
      else None
  end.

(** A refresh under way for promise [p], or its outcome known. *)
Definition answered w (p : nat) : Prop := exists a, truthy a = true /\ w_promises w !! p = Some (Some (Some a)).

Definition task_ok w k : Prop :=
  match k with
  | Requesting t _ | Retrying t _ => t = t0
  | Awaiting t _ p _ => t = t0 /\ (tab_inflight (tab_of w t0) = Some p \/ answered w p)
  | Refreshing _ _ _ | Answered _ _ _ => True
  | SigningOut _ _ | SignedOut _ => False end.

Definition phase w : Prop := exists token,
  getRefresh (w_storage w) = Some token /\ truthy token = true /\
  match tab_inflight (tab_of w t0) with
  | None => refreshes w = [] /\ honoured (w_server w) token = true
  | Some p => w_promises w !! p = Some None /\
      ((refreshes w = [Refreshing t0 p token] /\ honoured (w_server w) token = true) \/
       exists a r, refreshes w = [Answered t0 p (Some (a, r))] /\ truthy a = true /\ truthy r = true /\
                   honoured (w_server w) r = true) end.

Definition outcome_expired (o : Outcome) : bool := match o with SessionExpired _ => true | _ => false end.

(** The browser shows somebody signed in, and has a token to show for it. *)
Definition signed_in w : Prop :=
  v_status (tab_view (tab_of w t0)) <> Anon /\
  exists access, getAccess (w_storage w) = Some access /\ truthy access = true.

Record kept w : Prop := {
  kp_tasks : forall k, k ∈ w_tasks w -> task_ok w k;
  kp_phase : phase w;
  kp_shown : signed_in w;
  kp_outcomes : forall r o, (r, o) ∈ w_outcomes w -> outcome_expired o = false
}.
End kept.

Section lemmas.
Context {T : Type -> Type} {ST : Store T} {LT : StoreLaws T} {HS : Sha256} {HJ : Jwt}.
Context (config : AuthConfig) (t0 : nat).
Implicit Types (w : World T) (k : task) (st : AuthState T).

Lemma honoured_true st token : honoured st token = true <->
  exists r, r ∈ rows (tokens_of st) /\ rt_tokenHash r = sha256 token /\ rt_revokedAt r = None.
Proof.
  unfold honoured. rewrite existsb_true. f_equiv. intros r.
  rewrite andb_true_iff, String.eqb_eq, negb_true_iff, bool_decide_eq_false, <- eq_None_not_Some. done.
Qed.

(** A token that is honoured and has not expired rotates into one that is honoured. *)
Lemma refresh_honoured now fresh st token :
  honoured st token = true ->
  (forall r, r ∈ rows (tokens_of st) -> rt_tokenHash r = sha256 token -> now < rt_expiresAt r) ->
  exists a, snd (refresh config now fresh st token) = Some (a, fresh_token fresh) /\
            honoured (fst (refresh config now fresh st token)) (fresh_token fresh) = true.
Proof.
  intros (r & Hr & Hh & Hv)%honoured_true He. unfold refresh, rotateRefreshToken.
  destruct (find_live now (Authz.refreshTokens (master st)) token) as [row|] eqn:Hf.
  - simpl. eexists. split; [done|]. apply honoured_true.
    eexists. split.
    { unfold tokens_of, set_tokens, rotate_found, issueRefreshToken. simpl. apply elem_of_insert. by left. }
    by split.
  - exfalso. unfold find_live in Hf. rewrite select_first_None in Hf. specialize (Hf r Hr).
    rewrite Hh, String.eqb_refl in Hf. simpl in Hf. unfold live in Hf. rewrite Hv in Hf. simpl in Hf.
    apply Z.ltb_ge in Hf. specialize (He r Hr Hh). lia.
Qed.

(** Taking a task. *)
Lemma take_task_spec i w k w' : take_task i w = Some (k, w') ->
  w_tasks w !! i = Some k /\ w_tasks w ≡ₚ k :: w_tasks w' /\ w' = with_tasks (w_tasks w') w.
Proof.
  unfold take_task. destruct (w_tasks w !! i) as [k0|] eqn:Hk; [|done]. intros [= <- <-]. simpl.
  split; [done|]. split; [by apply delete_Permutation|done].
Qed.

Lemma refreshes_take w k ts : w_tasks w ≡ₚ k :: ts ->
  refreshes w ≡ₚ (if is_refresh k then k :: List.filter is_refresh ts else List.filter is_refresh ts).
Proof. intros Hp. unfold refreshes. rewrite Hp. simpl. by destruct (is_refresh k). Qed.

(** Taking a task that is no refresh keeps the refreshes as they are. *)
Lemma refreshes_other w k ts : w_tasks w ≡ₚ k :: ts -> is_refresh k = false ->
  (forall l, (List.length l <= 1)%nat -> refreshes w = l -> List.filter is_refresh ts = l).
Proof.
  intros Hp Hk l Hl He. pose proof (refreshes_take w k ts Hp) as Hr. rewrite Hk, He in Hr.
  destruct l as [|x [|y l]]; simpl in Hl; [by apply Permutation_nil in Hr|by apply Permutation_singleton_l in Hr|lia].
Qed.
Notation kept := (kept t0).
Notation task_ok := (task_ok t0).

(** What the tasks and the outcomes do without touching a refresh. *)
Lemma kept_same w w' : kept w ->
  w_storage w' = w_storage w -> w_server w' = w_server w -> w_promises w' = w_promises w ->
  w_tabs w' = w_tabs w -> refreshes w' = refreshes w ->
  (forall k, k ∈ w_tasks w' -> task_ok w k) ->
  (forall r o, (r, o) ∈ w_outcomes w' -> outcome_expired o = false) -> kept w'.
Proof.
  intros [H1 H2 Hs H3] Hst Hsv Hp Ht Hr Hk Ho.
  assert (Htab : tab_of w' t0 = tab_of w t0) by (unfold tab_of; by rewrite Ht).
  constructor; [|unfold phase in *; by rewrite Hst, Hsv, Hp, Htab, Hr|unfold signed_in in *; by rewrite Hst, Htab|done].
  intros k Hin. specialize (Hk k Hin). unfold Session.task_ok, answered in *.
  destruct k; try done. by rewrite Htab, Hp.
Qed.

(** At most one refresh is under way. *)
Lemma phase_length w : phase t0 w -> (List.length (refreshes w) <= 1)%nat.
Proof.
  intros (token & _ & _ & H). destruct (tab_inflight (tab_of w t0)) as [p|].
  - destruct H as [_ [[-> _]|(a & r & -> & _)]]; simpl; lia.
  - destruct H as [-> _]. simpl. lia.
Qed.

(** A task that is no refresh ends or goes on. *)
Lemma kept_task w i k w1 ks os : kept w -> take_task i w = Some (k, w1) -> is_refresh k = false ->
  (forall k', k' ∈ ks -> is_refresh k' = false /\ task_ok w k') ->
  (forall r o, (r, o) ∈ os -> outcome_expired o = false) ->
  kept {| w_server := w_server w; w_storage := w_storage w; w_tabs := w_tabs w;
          w_promises := w_promises w; w_tasks := w_tasks w1 ++ ks; w_outcomes := w_outcomes w ++ os |}.
Proof.
  intros Hk Ht Hr Hks Hos. apply take_task_spec in Ht as (_ & Hp & _).
  eapply (kept_same w); try done; simpl.
  - unfold refreshes at 1. simpl. rewrite List.filter_app.
    assert (List.filter is_refresh ks = []) as -> by (apply filterb_nil; intros k' Hin; by apply Hks).
    rewrite app_nil_r. eapply refreshes_other; [exact Hp|done|apply phase_length, Hk|done].
  - intros k' [Hin|Hin]%elem_of_app; [|by apply Hks]. apply Hk. rewrite Hp. by right.
  - intros r o [Hin|Hin]%elem_of_app; [by eapply Hk|by eapply Hos].
Qed.

Lemma tab_of_set t (v : Tab) w : tab_of (set_tab t v w) t = v.
Proof. unfold tab_of. simpl. by rewrite lookup_insert_eq. Qed.

(** A request answered 401 waits for the refresh under way, or for one it starts. *)
Lemma kept_401 w i r w1 res : kept w -> take_task i w = Some (Requesting t0 r, w1) ->
  kept (let '(w2, p) := refreshTokens t0 w1 in spawn [Awaiting t0 r p res] w2).
Proof.
  intros Hk Ht. pose proof (take_task_spec _ _ _ _ Ht) as (_ & Hp & Hw1). rewrite Hw1.
  pose proof Hk as [H1 (token & Hg & Htr & Hph) [Hv Hacc] H3].
  unfold refreshTokens. change (tab_of (with_tasks (w_tasks w1) w) t0) with (tab_of w t0).
  destruct (tab_inflight (tab_of w t0)) as [p|] eqn:Hin.
  - pose proof (kept_task w i _ w1 [Awaiting t0 r p res] [] Hk Ht eq_refl) as Hkt.
    rewrite app_nil_r in Hkt. apply Hkt.
    + intros k' ->%list_elem_of_singleton. split; [done|]. simpl. rewrite Hin. split; [done|by left].
    + by intros ? ? ?%elem_of_nil.
  - change (getRefresh (w_storage (with_tasks (w_tasks w1) w))) with (getRefresh (w_storage w)).
    rewrite Hg, Htr. destruct Hph as [Hnone Hhon]. set (p := List.length (w_promises w)).
    assert (Hf : List.filter is_refresh (w_tasks w1) = []).
    { eapply refreshes_other; [exact Hp|done| |exact Hnone]. simpl. lia. }
    constructor; simpl.
    + intros k Hkin. rewrite !elem_of_app in Hkin. destruct Hkin as [[Hkin| ->%list_elem_of_singleton]| ->%list_elem_of_singleton]; try done.
      * assert (Hok : task_ok w k) by (apply H1; rewrite Hp; by right).
        destruct k; try done. simpl in *. destruct Hok as [-> [Hc|(a & Ha & Hpr)]]; [congruence|].
        split; [done|]. right. exists a. split; [done|]. simpl. by apply lookup_app_l_Some.
      * simpl. split; [done|]. left. unfold tab_of. simpl. by rewrite lookup_insert_eq.
    + exists token. simpl. split; [done|]. split; [done|]. unfold tab_of. simpl. rewrite lookup_insert_eq. simpl.
      split; [by apply list_lookup_middle|]. left. split; [|done].
      unfold refreshes. simpl. rewrite !List.filter_app, Hf. done.
    + split; [|exact Hacc]. unfold tab_of at 1. simpl. by rewrite lookup_insert_eq.
    + exact H3.
Qed.
(** The refresh under way is the one the phase names. *)
Lemma refresh_taken w i k w1 : phase t0 w -> take_task i w = Some (k, w1) -> is_refresh k = true ->
  refreshes w = [k] /\ List.filter is_refresh (w_tasks w1) = [].
Proof.
  intros Hph Ht Hr. pose proof (phase_length w Hph) as Hl. apply take_task_spec in Ht as (_ & Hp & _).
  apply refreshes_take in Hp. rewrite Hr in Hp. pose proof (Permutation_length Hp) as He. simpl in He.
  destruct (List.filter is_refresh (w_tasks w1)) as [|x l]; simpl in He; [|lia].
  split; [by apply Permutation_singleton_r|done].
Qed.

Lemma phase_refreshing w t p token : phase t0 w -> refreshes w = [Refreshing t p token] ->
  t = t0 /\ tab_inflight (tab_of w t0) = Some p /\ w_promises w !! p = Some None /\
  getRefresh (w_storage w) = Some token /\ truthy token = true /\ honoured (w_server w) token = true.
Proof.
  intros (tok & Hg & Ht & H) Hr. rewrite Hr in H. destruct (tab_inflight (tab_of w t0)) as [p'|]; [|naive_solver].
  destruct H as [Hp [[[= -> -> ->] Hh]|(a & r & [=] & _)]]. done.
Qed.

Lemma phase_answered w t p ans : phase t0 w -> refreshes w = [Answered t p ans] ->
  t = t0 /\ tab_inflight (tab_of w t0) = Some p /\ w_promises w !! p = Some None /\
  exists a r, ans = Some (a, r) /\ truthy a = true /\ truthy r = true /\ honoured (w_server w) r = true.
Proof.
  intros (tok & Hg & Ht & H) Hr. rewrite Hr in H. destruct (tab_inflight (tab_of w t0)) as [p'|]; [|naive_solver].
  destruct H as [Hp [[[=] _]|(a & r & [= -> -> ->] & H)]]. split; [done|]. split; [done|]. split; [done|].
  by exists a, r.
Qed.

Lemma kept_server w i t p token w1 now fresh : kept w ->
  take_task i w = Some (Refreshing t p token, w1) ->
  orderly config t0 (ServerRefreshes now fresh i) w = true ->
  kept (let '(st, answer) := refresh config now fresh (w_server w1) token in
        spawn [Answered t p answer] (with_server st w1)).
Proof.
  intros Hk Ht Ho. pose proof Hk as [H1 H2 Hs H3].
  destruct (refresh_taken w i _ w1 H2 Ht eq_refl) as [Hr Hf].
  destruct (phase_refreshing w t p token H2 Hr) as (-> & Hin & Hp & Hg & Htr & Hh).
  apply take_task_spec in Ht as (Hi & Hperm & ->). simpl in Ho. rewrite Hi in Ho.
  apply andb_true_iff in Ho as [Hexp Htru]. rewrite forallb_true in Hexp.
  destruct (refresh_honoured now fresh (w_server w) token Hh) as (a & Ha & Hnew).
  { intros r Hrow Hhash. specialize (Hexp r Hrow). rewrite Hhash, String.eqb_refl in Hexp. by apply Z.ltb_lt in Hexp. }
  change (w_server (with_tasks _ w)) with (w_server w). rewrite Ha in Htru. apply andb_true_iff in Htru as [Hta Htn].
  destruct (refresh config now fresh (w_server w) token) as [st answer]. simpl in Ha, Hnew. subst answer.
  constructor; simpl.
  - intros k [Hkin| ->%list_elem_of_singleton]%elem_of_app; [|done].
    assert (Hok : task_ok w k) by (apply H1; rewrite Hperm; by right). by destruct k.
  - exists token. split; [done|]. split; [done|]. unfold tab_of. simpl. unfold tab_of in Hin. rewrite Hin.
    split; [done|]. right. exists a, (fresh_token fresh). unfold refreshes. simpl.
    rewrite List.filter_app, Hf. done.
  - exact Hs.
  - exact H3.
Qed.

Lemma kept_arrives w i t p ans w1 : kept w -> take_task i w = Some (Answered t p ans, w1) ->
  kept (refresh_done t p ans w1).
Proof.
  intros Hk Ht. pose proof Hk as [H1 H2 [Hv _] H3]. destruct (refresh_taken w i _ w1 H2 Ht eq_refl) as [Hr Hf].
  destruct (phase_answered w t p ans H2 Hr) as (-> & Hin & Hp & a & r & -> & Ha & Htr & Hh).
  apply take_task_spec in Ht as (Hi & Hperm & ->). unfold refresh_done. rewrite Ha, Htr. simpl.
  constructor; simpl.
  - intros k Hkin. assert (Hok : task_ok w k) by (apply H1; rewrite Hperm; by right).
    destruct k as [t' r'|t' r' p' res| | | | |]; try done. simpl in *. destruct Hok as [-> Hw]. split; [done|]. right.
    destruct Hw as [Hw|(a' & Ha' & Hw)].
    + rewrite Hin in Hw. injection Hw as <-. exists a. split; [done|]. simpl.
      apply list_lookup_insert_eq. by eapply lookup_lt_Some.
    + exists a'. split; [done|]. simpl. rewrite list_lookup_insert_ne; [done|]. intros <-. congruence.
  - exists r. simpl. split; [done|]. split; [done|]. unfold tab_of. simpl. rewrite lookup_insert_eq. simpl. done.
  - split; [unfold tab_of at 1; simpl; by rewrite lookup_insert_eq|by exists a].
  - exact H3.
Qed.

Lemma kept_resumes w i t r p res w1 : kept w -> take_task i w = Some (Awaiting t r p res, w1) ->
  forall v, w_promises w !! p = Some (Some v) ->
  exists a, v = Some a /\ truthy a = true /\ kept (spawn [Retrying t r] w1).
Proof.
  intros Hk Ht v Hv. pose proof (take_task_spec _ _ _ _ Ht) as (Hi & Hperm & Hw1).
  assert (Hok : task_ok w (Awaiting t r p res)) by (apply Hk; rewrite Hperm; by left).
  destruct Hok as [-> [Hin|(a & Ha & Hp)]].
  - destruct Hk as [_ (tok & _ & _ & Hph) _ _]. rewrite Hin in Hph. destruct Hph as [Hp _]. congruence.
  - exists a. split; [congruence|]. split; [done|]. rewrite Hw1.
    pose proof (kept_task w i _ w1 [Retrying t0 r] [] Hk Ht eq_refl) as Hkt. rewrite app_nil_r in Hkt. apply Hkt.
    + by intros k' ->%list_elem_of_singleton.
    + by intros ? ? ?%elem_of_nil.
Qed.
Lemma kept_outcome w i k w1 r o : kept w -> take_task i w = Some (k, w1) -> is_refresh k = false ->
  outcome_expired o = false -> kept (with_outcome r o w1).
Proof.
  intros Hk Ht Hr Ho. pose proof (take_task_spec _ _ _ _ Ht) as (_ & _ & Hw1). rewrite Hw1.
  pose proof (kept_task w i k w1 [] [(r, o)] Hk Ht Hr) as Hkt. rewrite app_nil_r in Hkt. apply Hkt.
  - by intros ? ?%elem_of_nil.
  - by intros r' o' [= -> ->]%list_elem_of_singleton.
Qed.

(** The provider shows something else. *)
Lemma kept_view w l (v : View) m : kept w -> getRefresh l = getRefresh (w_storage w) ->
  getAccess l = getAccess (w_storage w) -> v_status v <> Anon ->
  kept (set_tab t0 {| tab_inflight := tab_inflight (tab_of w t0); tab_mount := m; tab_view := v |} (with_storage l w)).
Proof.
  intros [H1 H2 [_ Ha] H3] Hr Hacc Hv. set (w' := set_tab _ _ _).
  assert (Hin : tab_inflight (tab_of w' t0) = tab_inflight (tab_of w t0)) by (unfold w'; by rewrite tab_of_set).
  constructor; [| |split|done].
  - intros k Hk. specialize (H1 k Hk). destruct k; try done. simpl in *. by rewrite Hin.
  - unfold phase in *. rewrite Hin. change (w_storage w') with l. by rewrite Hr.
  - unfold w'. by rewrite tab_of_set.
  - change (w_storage w') with l. by rewrite Hacc.
Qed.

(** A call ends; that of a mount ends with success. *)
Lemma kept_finish w i k w1 r o : kept w -> take_task i w = Some (k, w1) -> is_refresh k = false ->
  outcome_expired o = false ->
  (is_mount t0 r w = true -> exists b me, o = Returned b /\ me_of_json b = Some me) -> kept (finish t0 r o w1).
Proof.
  intros Hk Ht Hr Ho Hm. pose proof (kept_outcome w i k w1 r o Hk Ht Hr Ho) as Hw.
  assert (Hmount : is_mount t0 r (with_outcome r o w1) = is_mount t0 r w).
  { apply take_task_spec in Ht as (_ & _ & ->). done. }
  unfold finish. rewrite Hmount. destruct (is_mount t0 r w); [|done].
  destruct (Hm eq_refl) as (b & me & -> & Hb). rewrite Hb. by apply (kept_view (with_outcome r (Returned b) w1)).
Qed.

Lemma admits_returned res : admits res = true -> exists b me, settle res = Returned b /\ me_of_json b = Some me.
Proof.
  unfold admits. destruct (settle res) as [b| | |]; try done. intros [me Hme]%bool_decide_eq_true. by exists b, me.
Qed.

(** A page that loads when no refresh is under way. *)
Lemma kept_mount w r : kept w -> existsb is_refresh (w_tasks w) = false -> kept (mount t0 r w).
Proof.
  intros [H1 (tok & Hg & Htr & Hph) [Hv (a & Ha & Hta)] H3] Hn.
  assert (Hnone : List.filter (fun k => negb (Nat.eqb (task_tab k) t0)) (w_tasks w) = []).
  { apply filterb_nil. intros k Hk. specialize (H1 k Hk).
    assert (is_refresh k = false) as Hkr by (apply not_true_iff_false; intros Hc;
      apply not_true_iff_false in Hn; apply Hn, existsb_true; by exists k).
    destruct k; try done; simpl in *; (destruct H1 as [-> _] || subst tab); by rewrite Nat.eqb_refl. }
  assert (Href : refreshes w = []).
  { apply filterb_nil. intros k Hk. apply not_true_iff_false. intros Hc. apply not_true_iff_false in Hn.
    apply Hn, existsb_true. by exists k. }
  assert (Hhon : honoured (w_server w) tok = true).
  { destruct (tab_inflight (tab_of w t0)) as [p|]; [|apply Hph]. rewrite Href in Hph.
    destruct Hph as [_ [[[=] _]|(x & y & [=] & _)]]. }
  assert (Hload : v_status (mounts (w_storage w)) = Loading) by (unfold mounts; by rewrite Ha, Hta).
  unfold mount. rewrite Hnone. change (w_storage (with_tasks [] w)) with (w_storage w). rewrite Hload.
  set (v := mounts (w_storage w)) in *. clearbody v.
  constructor; simpl.
  - by intros k ->%list_elem_of_singleton.
  - exists tok. simpl. split; [done|]. split; [done|]. unfold tab_of. simpl. by rewrite lookup_insert_eq.
  - split; [unfold tab_of; simpl; rewrite lookup_insert_eq; simpl; congruence|by exists a].
  - exact H3.
Qed.

Lemma settle_expired res : outcome_expired (settle res) = false.
Proof. unfold settle. by destruct (res_ok res). Qed.

Lemma task_of w i k w1 : kept w -> take_task i w = Some (k, w1) -> task_ok w k.
Proof. intros Hk (_ & Hp & _)%take_task_spec. apply Hk. rewrite Hp. by left. Qed.

(** The token the server must go on honouring is the one of the phase. *)
Lemma kept_moves w st : kept w -> orderly config t0 (ServerMoves st) w = true -> kept (with_server st w).
Proof.
  intros [H1 (tok & Hg & Ht & Hph) Hs H3] Ho. simpl in Ho. unfold heir in Ho. constructor; [|exists tok|done|done].
  { intros k Hk. specialize (H1 k Hk). by destruct k. }
  split; [done|]. split; [done|]. change (tab_of (with_server st w) t0) with (tab_of w t0).
  change (refreshes (with_server st w)) with (refreshes w). simpl.
  destruct (tab_inflight (tab_of w t0)) as [p|].
  - destruct Hph as [Hp [[Hr _]|(a & r & Hr & Ha & Htr & _)]]; rewrite Hr in *; split; try done.
    + left. by rewrite Hg in Ho.
    + right. by exists a, r.
  - destruct Hph as [Hr _]. rewrite Hr in *. by rewrite Hg in Ho.
Qed.

Lemma step_kept e w w' : orderly config t0 e w = true -> step config e w = Some w' -> kept w -> kept w'.
Proof.
  intros Ho Hs Hk. destruct e as [t r|t r|i res|now fresh i|i|i|i|t|now fresh req i|i|st]; try done; simpl in Hs.
  - simpl in Ho. apply andb_true_iff in Ho as [->%Nat.eqb_eq Ho%negb_true_iff]. simplify_eq. by apply kept_mount.
  - simpl in Ho. apply Nat.eqb_eq in Ho as ->. destruct (is_mount t0 r w); [done|]. simplify_eq.
    eapply (kept_same w); try done; simpl.
    + unfold refreshes. simpl. rewrite List.filter_app. simpl. apply app_nil_r.
    + intros k [Hin| ->%list_elem_of_singleton]%elem_of_app; [by apply Hk|done].
    + apply Hk.
  - destruct (take_task i w) as [[k w1]|] eqn:Ht; [|done]. pose proof (task_of _ _ _ _ Hk Ht) as Hok.
    pose proof (take_task_spec _ _ _ _ Ht) as (Hi & _). simpl in Ho. rewrite Hi in Ho.
    destruct k as [t r|t r p rs|t r|t p tok|t p ans|t tok|t]; try done; simpl in Hok; subst t.
    + destruct res as [res|]; simplify_eq.
      2: { eapply kept_finish; [done..|]. intros Hm. by rewrite Hm in Ho. }
      destruct (res_status res =? 401).
      * pose proof (kept_401 w i r w1 res Hk Ht) as H.
        destruct (refreshTokens t0 w1) as [w2 p]. by simplify_eq.
      * simplify_eq. eapply kept_finish; [done|done|done|apply settle_expired|].
        intros Hm. rewrite Hm in Ho. by apply admits_returned.
    + destruct res as [res|]; simplify_eq; (eapply kept_finish; [done|done|done|try apply settle_expired; done|]);
        intros Hm; rewrite Hm in Ho; [by apply admits_returned|done].
  - destruct (take_task i w) as [[k w1]|] eqn:Ht; [|done].
    destruct k as [| | |t p tok| | |]; try done. pose proof (kept_server w i t p tok w1 now fresh Hk Ht Ho) as H.
    destruct (refresh config now fresh (w_server w1) tok) as [st ans]. by simplify_eq.
  - destruct (take_task i w) as [[k w1]|] eqn:Ht; [|done].
    destruct k as [| | | |t p ans| |]; try done. simplify_eq. by eapply kept_arrives.
  - destruct (take_task i w) as [[k w1]|] eqn:Ht; [|done].
    destruct k as [|t r p rs| | | | |]; try done.
    assert (Hp : w_promises w1 = w_promises w) by (apply take_task_spec in Ht as (_ & _ & ->); done).
    rewrite Hp in Hs. destruct (w_promises w !! p) as [[v|]|] eqn:Hv; try done.
    destruct (kept_resumes w i t r p rs w1 Hk Ht v Hv) as (a & -> & Ha & H). rewrite Ha in Hs. by simplify_eq.
  - destruct (take_task i w) as [[k w1]|] eqn:Ht; [|done]. pose proof (task_of _ _ _ _ Hk Ht) as Hok. by destruct k.
  - destruct (take_task i w) as [[k w1]|] eqn:Ht; [|done]. pose proof (task_of _ _ _ _ Hk Ht) as Hok. by destruct k.
  - simplify_eq. by apply kept_moves.
Qed.

Lemma orderly_run_kept es w w' : orderly_run config t0 es w = Some w' -> kept w -> kept w'.
Proof.
  revert w. induction es as [|e es IH]; intros w; simpl; [by intros [= ->]|].
  destruct (orderly config t0 e w) eqn:Ho; [|done]. destruct (step config e w) as [w2|] eqn:Hs; [|done].
  intros Hr Hk. eapply IH; [exact Hr|]. by eapply step_kept.
Qed.
End lemmas.

Section theorems.
Context {T : Type -> Type} {ST : Store T} {LT : StoreLaws T} {HS : Sha256} {HJ : Jwt}.

(** C15: one tab never loses its session. Whatever requests it makes, whenever its page is loaded
    again, and however their answers, the 401s of an expired access token and the refreshes
    interleave, as long as every refresh is answered and asked for before its token expires, no
    reload interrupts one, the call by which a page that loads asks who is signed in succeeds if
    not answered by a 401, nobody signs in or out and the server does not revoke the session: at
    most one refresh is under way, every request that waits has its access token or waits for that
    one, no request ends as expired, the page never shows that nobody is signed in, and the browser
    keeps a refresh token, which the server honours whenever none is being exchanged. *)
Theorem session_kept (config : AuthConfig) t0 (w0 w : World T) es token access
  (Htasks : w_tasks w0 = []) (Houts : w_outcomes w0 = []) (Hin : tab_inflight (tab_of w0 t0) = None)
  (Hview : v_status (tab_view (tab_of w0 t0)) <> Anon)
  (Hacc : getAccess (w_storage w0) = Some access) (Htra : truthy access = true)
  (Htok : getRefresh (w_storage w0) = Some token) (Htru : truthy token = true)
  (Hhon : honoured (w_server w0) token = true) (Hrun : orderly_run config t0 es w0 = Some w) :
  (List.length (refreshes w) <= 1)%nat /\
  (forall t r p res, Awaiting t r p res ∈ w_tasks w ->
     answered w p \/ exists k, refreshes w = [k] /\ w_promises w !! p = Some None) /\
  (forall r o, (r, o) ∈ w_outcomes w -> outcome_expired o = false) /\
  v_status (tab_view (tab_of w t0)) <> Anon /\
  exists token', getRefresh (w_storage w) = Some token' /\
    (refreshes w = [] -> honoured (w_server w) token' = true).
Proof.
  assert (Hk : kept t0 w).
  { apply (orderly_run_kept config t0 es w0); [done|]. constructor.
    - intros k. rewrite Htasks. by intros ?%elem_of_nil.
    - exists token. split; [done|]. split; [done|]. rewrite Hin. unfold refreshes. by rewrite Htasks.
    - split; [done|]. by exists access.
    - intros r o. rewrite Houts. by intros ?%elem_of_nil. }
  split; [by eapply phase_length, Hk|]. destruct Hk as [H1 (tok & Hg & Ht & Hph) [Hv _] H3].
  split; [|split; [done|split; [done|]]].
  - intros t r p res Ha. destruct (H1 _ Ha) as [_ [Hp|Hp]]; [right|by left].
    rewrite Hp in Hph. destruct Hph as [Hn [[Hr _]|(a & r' & Hr & _)]]; eauto.
  - exists tok. split; [done|]. intros Hr. destruct (tab_inflight (tab_of w t0)) as [p|].
    + rewrite Hr in Hph. destruct Hph as [_ [[[=] _]|(a & r & [=] & _)]].
    + apply Hph.
Qed.
End theorems.

(** ** Evaluations *)

#[local] Instance w_sha256 : Sha256 := fun s => s.
#[local] Instance w_jwt : Jwt := {|
  jwtSign c e := cl_sub c +:+ "/" +:+ default "" (cl_sid c); jwtVerify s now := None |}.

Definition w_storage0 : LocalStorage := {| k_access := Some "stale"; k_refresh := Some "old"; k_user := None |}.
Definition w_tab : Tab := {| tab_inflight := None; tab_mount := None; tab_view := mounts w_storage0 |}.
Definition w_world : World list := {|
  w_server := w_state; w_tabs := {[0%nat := w_tab; 1%nat := w_tab]}; w_promises := []; w_tasks := []; w_outcomes := [];
  w_storage := w_storage0 |}.

Definition w_401 : option Response := Some {| res_status := 401; res_body := JNull |}.
Definition w_200 : option Response := Some {| res_status := 200; res_body := JBool true |}.
Definition w_fresh_n (n : string) : Fresh := {|
  fresh_token := "t" +:+ n; fresh_session := "s" +:+ n; fresh_audit1 := "a" +:+ n; fresh_audit2 := "b" +:+ n |}.

Definition w_me : json := JObj [("user", JObj [("id", JStr "u1"); ("username", JStr "ada")]); ("isOwner", JBool true)].

(** The call of a page that loads and a request find the access token expired; one refresh serves both. *)
Definition w_burst : list (event list) :=
  [Mounts 0 9; Requests 0 1; Arrives 0 w_401; Arrives 0 w_401; ServerRefreshes 10 (w_fresh_n "2") 0;
   RefreshArrives 2; Resumes 0; Resumes 0; Arrives 0 (Some {| res_status := 200; res_body := w_me |}); Arrives 0 w_200].

Lemma session_kept_witness : exists w,
  orderly_run (ST := list_store) w_config 0 w_burst w_world = Some w /\
  w_outcomes w = [(9%nat, Returned w_me); (1%nat, Returned (JBool true))] /\
  v_status (tab_view (tab_of w 0)) = Authed /\
  exists token', getRefresh (w_storage w) = Some token' /\ honoured (ST := list_store) (w_server w) token' = true.
Proof.
  destruct (orderly_run (ST := list_store) w_config 0 w_burst w_world) as [w|] eqn:Hr; [|by vm_compute in Hr].
  pose proof (session_kept (ST := list_store) (LT := list_store_laws) w_config 0 w_world w w_burst "old" "stale"
    eq_refl eq_refl eq_refl ltac:(vm_compute; discriminate) eq_refl eq_refl eq_refl eq_refl eq_refl Hr)
    as (_ & _ & _ & _ & token' & Hg & Hh).
  exists w. split; [done|]. vm_compute in Hr. injection Hr as <-. split; [reflexivity|]. split; [reflexivity|].
  exists token'. split; [exact Hg|]. apply Hh. reflexivity.
Defined.

(** A page that loads while the server or the network fails signs the browser out: the tokens are
    cleared, although the session lives on. *)
Lemma failed_mount_clears :
  (fun w => (v_status (tab_view (tab_of w 0)), w_storage w, honoured (ST := list_store) (w_server w) "old")) <$>
  run (ST := list_store) w_config [Mounts 0 9; Arrives 0 (Some {| res_status := 500; res_body := JNull |})] w_world
  = Some (Anon, clear w_storage0, true).
Proof. vm_compute. reflexivity. Qed.

(** A reload between the rotation at the server and the arrival of its answer loses the session: the
    page that loads has the token already used. *)
Lemma reload_loses_session :
  (fun w => (w_outcomes w, v_status (tab_view (tab_of w 0)), honoured (ST := list_store) (w_server w) "t2")) <$>
  run (ST := list_store) w_config [Requests 0 1; Arrives 0 w_401; ServerRefreshes 10 (w_fresh_n "2") 0; Mounts 0 9;
    Arrives 0 w_401; ServerRefreshes 11 (w_fresh_n "3") 0; RefreshArrives 1; Resumes 0] w_world
  = Some ([(9%nat, SessionExpired JNull)], Anon, true).
Proof. vm_compute. reflexivity. Qed.

(** Two tabs refresh at once: the second finds its token used, and clears the tokens the first
    was given, with which the session would have gone on. *)
Lemma two_tabs_race :
  (fun w => (w_outcomes w, w_storage w, honoured (ST := list_store) (w_server w) "t2")) <$>
  run (ST := list_store) w_config [Requests 0 1; Requests 1 2; Arrives 0 w_401; Arrives 0 w_401;
    ServerRefreshes 10 (w_fresh_n "2") 0; ServerRefreshes 11 (w_fresh_n "3") 1; RefreshArrives 2;
    RefreshArrives 2; Resumes 1] w_world
  = Some ([(2%nat, SessionExpired JNull)], clear (w_storage w_world), true).
Proof. vm_compute. reflexivity. Qed.

(** A sign-out while a refresh is under way revokes the used token only; the answer then puts a
    live session back into the storage of a browser that shows nobody signed in. *)
Lemma sign_out_race :
  (fun w => (v_status (tab_view (tab_of w 0)), getRefresh (w_storage w), honoured (ST := list_store) (w_server w) "t2")) <$>
  run (ST := list_store) w_config [Requests 0 1; Arrives 0 w_401; ServerRefreshes 10 (w_fresh_n "2") 0;
    SignsOut 0; ServerSignsOut 11 (w_fresh_n "3") w_req 2; SignOutArrives 2; RefreshArrives 1] w_world
  = Some (Anon, Some "t2", true).
Proof. vm_compute. reflexivity. Qed.
