(* ===== verification/ReportExport.v ===== *)
(** * Report export

    Models apps/frontend/src/lib/reportExport.ts: the table of a report, its CSV and its HTML. The
    texts the browser makes of an instant, a count and a number are parameters. The document object
    model is the list of the tiles and figures found under the root of the charts; downloads and
    the print window are left out. *)
From S2P Require Import Prelude Text Dates Store Schema Backups Scans Reports.

Class Locale : Type := {
  loc_date : Z -> string;      (** [new Date(t).toLocaleString()] *)
  loc_count : Z -> string;     (** [n.toLocaleString()] *)
  num_text : Q -> string       (** [String(x)] of a number with a fraction *)
}.

Inductive report_cell : Type := Txt (s : string) | Num (n : Z).
Record ReportTable : Type := {
  rt_title : string; rt_subtitle : string; rt_columns : list string; rt_rows : list (list report_cell)
}.

(** [String(v)] *)
Definition cell_text (v : report_cell) : string := match v with Txt s => s | Num n => String_of_int n end.

Definition DASH : string := "—".
Definition DOT : string := " · ".

Fixpoint scale_bytes (units : nat) (v : Q) (i : nat) : Q * nat :=
  match units with
  | O => (v, i)
  | S units => if Qle_bool 1024 v then scale_bytes units (v / 1024)%Q (S i) else (v, i) end.

Definition UNITS : list string := ["B"; "KB"; "MB"; "GB"; "TB"; "PB"].

Definition fmtBytes (b : option Z) : string :=
  match b with
  | None => DASH
  | Some b =>
      let '(v, i) := scale_bytes 5 (inject_Z b) 0 in
      toFixed (if Qle_bool 10 v || Nat.eqb i 0 then 0 else 1) v +:+ " " +:+ nth i UNITS "" end.

Section table.
Context {LO : Locale}.

Definition scope_name (s : ReportScope) : string :=
  match scope_kind s with
  | AllMonitors => "All monitors"
  | AgentScope => trim ("agent " +:+ default "" (scope_refId s))
  | MonitorScope => trim ("monitor " +:+ default "" (scope_refId s)) end.

Definition pct (d : nat) (q : Q) : string := toFixed d q +:+ "%".
Definition opt_text {A} (f : A -> string) (o : option A) : string := match o with Some a => f a | None => DASH end.

(** [num(v, unit)] *)
Definition num_unit (unit : string) (v : option Q) : string := opt_text (fun q => num_text q +:+ unit) v.

Definition summary_rows (s : SummaryData) : list (list report_cell) :=
  [[Txt "Overall uptime"; Txt (pct 2 (su_overallUptimePct s))];
   [Txt "Incidents (window)"; Num (su_incidentCount s)];
   [Txt "Monitored hosts"; Num (su_agentsTotal s)];
   [Txt "Monitors (enabled / total)";
    Txt (String_of_int (su_monitorsEnabled s) +:+ " / " +:+ String_of_int (su_monitorsTotal s))]] ++
  map (fun m => [Txt ("Low availability — " +:+ ur_label m); Txt (pct 2 (ur_uptimePct m))]) (su_worstMonitors s) ++
  map (fun m => [Txt ("Incidents — " +:+ m.1); Num m.2]) (su_topIncidentMonitors s) ++
  map (fun x => [Txt ("Storage — " +:+ x.1); Txt (pct 1 x.2)]) (su_storageAlerts s).

Definition resource_row (r : ResourceRow) : list report_cell :=
  [Txt (rr_name r); Txt (if rr_host r then "host" else "process"); Txt (num_unit "" (rr_avgCpu r));
   Txt (num_unit "" (rr_peakCpu r)); Txt (num_unit (if rr_host r then "%" else " MB") (rr_avgMem r))].

Definition storage_row (name : string) (day : string * Capacity) : list report_cell :=
  [Txt day.1; Txt name; Txt (opt_text (toFixed 1) (cap_usedPct day.2));
   Txt (fmtBytes (cap_usedBytes day.2)); Txt (fmtBytes (cap_totalBytes day.2))].

(** The text of the first cell, by which the rows of days are sorted. *)
Definition first_text (r : list report_cell) : string := match r with c :: _ => cell_text c | [] => "" end.

Definition detail_rows (m : StorageDetailItem) : list (list report_cell) :=
  [Txt (sdi_name m); Txt "— capacity —"; Txt (opt_text (pct 1) (cap_usedPct (sdi_current m)));
   Txt ("used " +:+ fmtBytes (cap_usedBytes (sdi_current m)) +:+ " · free " +:+ fmtBytes (sdi_freeBytes m) +:+
        " · total " +:+ fmtBytes (cap_totalBytes (sdi_current m))); Txt ""] ::
  map (fun f => [Txt (sdi_name m); Txt (tf_folder f); Txt (fmtBytes (tf_sizeBytes f));
                 Txt (opt_text loc_count (tf_fileCount f)); Txt (opt_text loc_count (tf_folderCount f))]) (sdi_topFolders m).

(** [toTable]: the labels are absent from the documents of older versions. *)
Definition toTable (scopeLabel windowLabel : option string) (doc : ReportDoc) : ReportTable :=
  let scope := match scopeLabel with Some l => l | None => scope_name (rp_scope doc) end in
  let window := match windowLabel with Some l => l | None => String_of_int (rp_days doc) +:+ "d" end in
  let subtitle := scope +:+ DOT +:+ window +:+ DOT +:+ "Generated: " +:+ loc_date (rp_generatedAt doc) in
  let table title subtitle columns rows :=
    {| rt_title := title; rt_subtitle := subtitle; rt_columns := columns; rt_rows := rows |} in
  match rp_data doc with
  | SummaryReport s => table "Executive summary" subtitle ["Metric"; "Value"] (summary_rows s)
  | UptimeReport d =>
      table "Uptime report" (subtitle +:+ DOT +:+ "Overall: " +:+ pct 2 (ud_overallPct d)) ["Monitor"; "Uptime %"]
        (map (fun r => [Txt (ur_label r); Txt (toFixed 2 (ur_uptimePct r))]) (ud_rows d))
  | IncidentsReport d =>
      table "Incidents report" (subtitle +:+ DOT +:+ String_of_int (id_count d) +:+ " incident(s)") ["Time"; "Monitor"; "Status"]
        (map (fun i => [Txt (loc_date (ii_ts i)); Txt (ii_entity i); Txt (default "" (ii_newStatus i))]) (id_items d))
  | ResourceReport d =>
      table "Resource usage (CPU / RAM)" subtitle ["Name"; "Kind"; "Avg CPU %"; "Peak CPU %"; "Avg memory"]
        (map resource_row (res_rows d))
  | StorageReport mons =>
      table "Storage report (datewise)" (subtitle +:+ DOT +:+ String_of_int (Z.of_nat (List.length mons)) +:+ " share(s)")
        ["Date"; "Share"; "Used %"; "Used"; "Total"]
        (js_sort (fun a b => String.ltb (first_text b) (first_text a))
           (concat (map (fun m => map (storage_row (si_name m)) (si_days m)) mons)))
  | StorageDetailReport mons =>
      table "Storage report (detailed + folders)" (subtitle +:+ DOT +:+ String_of_int (Z.of_nat (List.length mons)) +:+ " share(s)")
        ["Share"; "Folder"; "Size"; "Files"; "Sub-folders"] (concat (map detail_rows mons))
  | InventoryReport d =>
      table "Inventory report" subtitle ["Kind"; "Name"; "Detail"; "Status"]
        (map (fun a => [Txt "agent"; Txt (ia_name a);
                        Txt (trim (default "" (ia_platform a) +:+ " " +:+ default "" (ia_version a))); Txt (ia_status a)]) (inv_agents d) ++
         map (fun m => [Txt "monitor"; Txt (im_name m); Txt (im_type m +:+ DOT +:+ im_agentName m);
                        Txt (if im_enabled m then "enabled" else "disabled")]) (inv_monitors d))
  end.
End table.

(** ** CSV *)

Definition QUOTE_CHAR : ascii := ascii_of_nat 34.
Definition LF : ascii := ascii_of_nat 10.
Definition CR : ascii := ascii_of_nat 13.
Definition CRLF : string := String CR (String LF "").

(** Every quotation mark twice. *)
Fixpoint double_quotes (s : string) : string :=
  match s with
  | EmptyString => ""
  | String c s' => if Ascii.eqb c QUOTE_CHAR then String c (String c (double_quotes s')) else String c (double_quotes s') end.

Definition csv_special (c : ascii) : bool := Ascii.eqb c QUOTE_CHAR || Ascii.eqb c "," || Ascii.eqb c LF.
Fixpoint some_char (p : ascii -> bool) (s : string) : bool :=
  match s with EmptyString => false | String c s' => p c || some_char p s' end.

Definition csvCell (s : string) : string :=
  if some_char csv_special s then DQUOTE +:+ double_quotes s +:+ DQUOTE else s.

Definition csv_text (rows : list (list string)) : string := join CRLF (map (fun r => join "," (map csvCell r)) rows).

(** The rows of a table's export, with its head. *)
Definition table_texts (t : ReportTable) : list (list string) := rt_columns t :: map (map cell_text) (rt_rows t).
Definition exportCsv (t : ReportTable) : string := csv_text (table_texts t).

(** ** HTML *)

Definition esc_char (c : ascii) : string :=
  if Ascii.eqb c "&" then "&amp;" else if Ascii.eqb c "<" then "&lt;" else if Ascii.eqb c ">" then "&gt;" else String c "".
Fixpoint esc (s : string) : string := match s with EmptyString => "" | String c s' => esc_char c +:+ esc s' end.

Definition concat_text (l : list string) : string := join "" l.
Definition quoted_attr (name value : string) : string := name +:+ "=" +:+ DQUOTE +:+ value +:+ DQUOTE.

Definition html_row (r : list report_cell) : string :=
  "<tr>" +:+ concat_text (map (fun c => "<td>" +:+ esc (cell_text c) +:+ "</td>") r) +:+ "</tr>".
Definition html_body (t : ReportTable) : string := concat_text (map html_row (rt_rows t)).
Definition html_head (t : ReportTable) : string := concat_text (map (fun c => "<th>" +:+ esc c +:+ "</th>") (rt_columns t)).

(** The tiles (value and label) and figures (title and drawing) of the page. *)
Record ChartsDom : Type := { cd_kpis : list (string * string); cd_figures : list (string * option string) }.

Definition kpi_html (k : string * string) : string :=
  "<div " +:+ quoted_attr "class" "kpi" +:+ "><div " +:+ quoted_attr "class" "kv" +:+ ">" +:+ esc k.1 +:+ "</div><div "
  +:+ quoted_attr "class" "kl" +:+ ">" +:+ esc k.2 +:+ "</div></div>".
Definition figure_html (f : string * option string) : string :=
  match f.2 with
  | Some drawing => "<figure " +:+ quoted_attr "class" "chart" +:+ "><figcaption>" +:+ esc f.1 +:+ "</figcaption>" +:+ drawing +:+ "</figure>"
  | None => "" end.
Definition KPIS_OPEN : string := "<div " +:+ quoted_attr "class" "kpis" +:+ ">".

Definition collectChartsHtml (root : option ChartsDom) : string :=
  match root with
  | None => ""
  | Some d => (match cd_kpis d with [] => "" | ks => KPIS_OPEN +:+ concat_text (map kpi_html ks) +:+ "</div>" end)
              +:+ concat_text (map figure_html (cd_figures d)) end.

(** What precedes the first [p], and what follows it: the shortest match of [[\s\S]*?]. *)
Fixpoint break_at (p s : string) : option (string * string) :=
  match after p s with
  | Some rest => Some ("", rest)
  | None => match s with
            | EmptyString => None
            | String c s' => match break_at p s' with Some (a, b) => Some (String c a, b) | None => None end end end.

(** [wrapCharts] *)
Definition wrapCharts (fragments : string) : string :=
  if negb (truthy fragments) then "" else
  let '(kpis, rest) := match after KPIS_OPEN fragments with
    | Some s => match break_at "</div>" s with
                | Some (a, b) => (KPIS_OPEN +:+ a +:+ "</div>", b) | None => ("", fragments) end
    | None => ("", fragments) end in
  kpis +:+ "<div " +:+ quoted_attr "class" "charts" +:+ ">" +:+ rest +:+ "</div>".

(** ** Readers

    What another program reads: CSV as the grammar of RFC 4180 has it, and the cells of an HTML
    table. *)

(** TEXTDATA, with the comma and the quotation mark that the reader looks for first, and the
    characters beyond ASCII, which the charset parameter of the media type admits. A control
    character is no text; line breaks stand in quoted fields only. *)
Definition printable (c : ascii) : bool := (32 <=? code c) && negb (code c =? 127).
Definition quotable (c : ascii) : bool := printable c || Ascii.eqb c CR || Ascii.eqb c LF.

(** At the start of a field, in a bare field, in a quoted one, or after a quotation mark of it. *)
Inductive csv_mode : Type := Start | Plain | Quoted | Closing.

Fixpoint read_csv (m : csv_mode) (field : string) (row : list string) (s : string) : option (list (list string)) :=
  match s with
  | EmptyString => match m with Quoted => None | _ => Some [row ++ [field]] end
  | String c s' =>
      let bare := match m with Closing => None
                  | _ => if printable c then read_csv Plain (field +:+ String c "") row s' else None end in
      if match m with Quoted => true | _ => false end then
        if Ascii.eqb c QUOTE_CHAR then read_csv Closing field row s'
        else if quotable c then read_csv Quoted (field +:+ String c "") row s' else None
      else if Ascii.eqb c QUOTE_CHAR then
        match m with
        | Start => read_csv Quoted field row s'
        | Closing => read_csv Quoted (field +:+ String c "") row s'
        | _ => None end
      else if Ascii.eqb c "," then read_csv Start "" (row ++ [field]) s'
      else match s' with
           | String d s'' =>
               if Ascii.eqb c CR && Ascii.eqb d LF then option_map (cons (row ++ [field])) (read_csv Start "" [] s'')
               else bare
           | EmptyString => bare
           end
  end.

Fixpoint all_char (p : ascii -> bool) (s : string) : bool :=
  match s with EmptyString => true | String c s' => p c && all_char p s' end.

(** The texts the grammar has, written as [csvCell] writes them: no control character but line
    breaks, and a carriage return only along with what makes the field a quoted one. *)
Definition csv_safe (v : string) : bool :=
  all_char quotable v && (negb (has_char CR v) || some_char csv_special v).

Fixpoint unesc (n : nat) (s : string) : string :=
  match n with
  | O => ""
  | S n =>
      match after "&amp;" s, after "&lt;" s, after "&gt;" s, s with
      | Some r, _, _, _ => String "&" (unesc n r)
      | _, Some r, _, _ => String "<" (unesc n r)
      | _, _, Some r, _ => String ">" (unesc n r)
      | None, None, None, String c r => String c (unesc n r)
      | None, None, None, EmptyString => "" end end.

(** The cells from here and what follows the last. *)
Fixpoint read_cells (n : nat) (s : string) : list string * string :=
  match n with
  | O => ([], s)
  | S n => match after "<td>" s with
           | Some r => match break_at "</td>" r with
                       | Some (t, r) => let '(ts, rest) := read_cells n r in (unesc (String.length t) t :: ts, rest)
                       | None => ([], s) end
           | None => ([], s) end end.

Fixpoint read_rows (n : nat) (s : string) : list (list string) :=
  match n with
  | O => []
  | S n => match after "<tr>" s with
           | Some r => let '(ts, rest) := read_cells (String.length r) r in
                       match after "</tr>" rest with Some rest => ts :: read_rows n rest | None => [ts] end
           | None => [] end end.

(** ** The table of a report *)

Section table_theorems.
Context {LO : Locale}.

Lemma rows_of_map {A} (f : A -> list report_cell) n l r : (forall x, List.length (f x) = n) -> r ∈ map f l -> List.length r = n.
Proof. intros Hf Hr. apply list_elem_of_In, in_map_iff in Hr as (x & <- & _). apply Hf. Qed.

(** Whatever the report, its table has as many cells in every row as columns, and columns. *)
Lemma table_rectangular scopeLabel windowLabel doc :
  let t := toTable scopeLabel windowLabel doc in
  rt_columns t <> [] /\ forall r, r ∈ rt_rows t -> List.length r = List.length (rt_columns t).
Proof.
  unfold toTable. destruct (rp_data doc) as [s|d|d|d|d|mons|mons]; cbn [rt_columns rt_rows]; (split; [done|]); intros r Hr.
  - unfold summary_rows in Hr. rewrite !elem_of_app in Hr. destruct Hr as [Hr|[Hr|[Hr|Hr]]]; [|by eapply rows_of_map in Hr..].
    repeat (apply elem_of_cons in Hr as [->|Hr]; [done|]). by apply not_elem_of_nil in Hr.
  - by eapply rows_of_map in Hr.
  - by eapply rows_of_map in Hr.
  - by eapply rows_of_map in Hr.
  - apply elem_of_app in Hr as [Hr|Hr]; by eapply rows_of_map in Hr.
  - apply elem_of_js_sort, list_elem_of_In, in_concat in Hr as (l & Hl & Hr). apply in_map_iff in Hl as (m & <- & _).
    apply list_elem_of_In in Hr. by eapply rows_of_map in Hr.
  - apply list_elem_of_In, in_concat in Hr as (l & Hl & Hr). apply in_map_iff in Hl as (m & <- & _).
    apply list_elem_of_In in Hr. apply elem_of_cons in Hr as [->|Hr]; [done|]. by eapply rows_of_map in Hr.
Qed.
End table_theorems.

(** ** CSV reads back *)

(** What follows a field: nothing, the next field, or the next row. *)
Inductive separated : string -> Prop :=
| sep_end : separated ""
| sep_field s : separated (String "," s)
| sep_row s : separated (CRLF +:+ s).

(** The reading once a field is complete. *)
Definition field_done (row : list string) (v s : string) : option (list (list string)) :=
  match s with
  | EmptyString => Some [row ++ [v]]
  | String c s' => if Ascii.eqb c "," then read_csv Start "" (row ++ [v]) s'
      else match s' with String _ s'' => option_map (cons (row ++ [v])) (read_csv Start "" [] s'') | EmptyString => None end
  end.

Lemma read_done m field row s : separated s -> m <> Quoted -> read_csv m field row s = field_done row field s.
Proof. intros [|s'|s'] Hm; destruct m; done. Qed.

Lemma quotable_special c : printable c = false -> quotable c = true -> Ascii.eqb c CR = false -> csv_special c = true.
Proof.
  unfold quotable, csv_special. intros -> H Hcr. rewrite Hcr in H. simpl in H. by rewrite H, orb_true_r.
Qed.

(** Without what makes a field quoted, a text is safe when it is printable. *)
Lemma safe_plain v : some_char csv_special v = false -> csv_safe v = all_char printable v.
Proof.
  intros Hv. unfold csv_safe. rewrite Hv, orb_false_r. induction v as [|c v IH]; [done|].
  cbn [some_char] in Hv. apply orb_false_iff in Hv as [Hc Hv]. cbn [all_char has_char].
  rewrite <- IH by done. destruct (printable c) eqn:Hp.
  - assert (Ascii.eqb CR c = false) as Hn by (apply Ascii.eqb_neq; intros <-; discriminate).
    assert (quotable c = true) as -> by (unfold quotable; by rewrite Hp). rewrite ?(Ascii.eqb_sym c CR), Hn. done.
  - destruct (quotable c) eqn:Hq; [|done]. destruct (Ascii.eqb c CR) eqn:Hcr.
    + apply Ascii.eqb_eq in Hcr as ->. simpl. by rewrite andb_false_r.
    + by rewrite (quotable_special c) in Hc.
Qed.

Lemma read_plain m field row v s : separated s -> some_char csv_special v = false -> m = Start \/ m = Plain ->
  read_csv m field row (v +:+ s) = if all_char printable v then field_done row (field +:+ v) s else None.
Proof.
  intros Hs. revert m field. induction v as [|c v IH]; intros m field Hv Hm.
  - rewrite app_nil_string, str_app_nil_r. apply read_done; [done|]. by destruct Hm as [->| ->].
  - cbn [some_char] in Hv. apply orb_false_iff in Hv as [Hc Hv]. unfold csv_special in Hc.
    apply orb_false_iff in Hc as [[Hq Hcomma]%orb_false_iff Hlf].
    assert (Hnext : (if printable c then read_csv Plain (field +:+ String c "") row (v +:+ s) else None) =
      if all_char printable (String c v) then field_done row (field +:+ String c v) s else None).
    { cbn [all_char]. destruct (printable c); [|done]. rewrite IH by (done || by right). by rewrite str_app_assoc. }
    rewrite app_cons_string. cbn [read_csv]. rewrite Hq, Hcomma. destruct Hm as [-> | ->]; cbn iota zeta.
    all: destruct (v +:+ s) as [|d s'] eqn:He; [exact Hnext|].
    all: assert (Hd : (Ascii.eqb c CR && Ascii.eqb d LF) = false); [|rewrite Hd; exact Hnext].
    all: destruct v as [|e v]; [|injection He as -> _; cbn [some_char] in Hv; apply orb_false_iff in Hv as [Hv _];
           unfold csv_special in Hv; apply orb_false_iff in Hv as [_ ->]; apply andb_false_r].
    all: rewrite app_nil_string in He; subst s; inversion Hs; subst; by rewrite andb_false_r.
Qed.

Lemma read_quoted field row v s : separated s ->
  read_csv Quoted field row (double_quotes v +:+ DQUOTE +:+ s) =
  if all_char quotable v then field_done row (field +:+ v) s else None.
Proof.
  intros Hs. revert field. induction v as [|c v IH]; intros field.
  - rewrite app_nil_string, str_app_nil_r. change (DQUOTE +:+ s) with (String QUOTE_CHAR s). cbn [read_csv].
    rewrite Ascii.eqb_refl. by apply read_done.
  - cbn [double_quotes all_char]. destruct (Ascii.eqb c QUOTE_CHAR) eqn:Hq.
    + assert (quotable c = true) as -> by (by apply Ascii.eqb_eq in Hq as ->).
      rewrite !app_cons_string. cbn [read_csv]. rewrite Hq. cbn iota. rewrite IH, str_app_assoc. done.
    + rewrite !app_cons_string. cbn [read_csv]. rewrite Hq. destruct (quotable c); [|done].
      rewrite IH, str_app_assoc. done.
Qed.

Lemma read_cell row v s : separated s ->
  read_csv Start "" row (csvCell v +:+ s) = if csv_safe v then field_done row v s else None.
Proof.
  intros Hs. unfold csvCell. destruct (some_char csv_special v) eqn:Hv.
  - rewrite !str_app_assoc. change (DQUOTE +:+ double_quotes v +:+ DQUOTE +:+ s) with (String QUOTE_CHAR (double_quotes v +:+ DQUOTE +:+ s)).
    cbn [read_csv]. rewrite Ascii.eqb_refl. cbn iota. rewrite read_quoted by done.
    unfold csv_safe. by rewrite Hv, orb_true_r, andb_true_r.
  - rewrite read_plain by (done || by left). by rewrite safe_plain.
Qed.

Lemma read_cells_row row vs v s : s = "" \/ (exists s', s = CRLF +:+ s') ->
  read_csv Start "" row (join "," (map csvCell (v :: vs)) +:+ s) =
  if forallb csv_safe (v :: vs) then
    match s with EmptyString => Some [row ++ v :: vs]
    | _ => option_map (cons (row ++ v :: vs)) (read_csv Start "" [] (String.substring 2 (String.length s) s)) end
  else None.
Proof.
  intros Hs. revert row v. induction vs as [|w vs IH]; intros row v; cbn [forallb].
  - cbn [map join]. rewrite read_cell by (destruct Hs as [->|[s' ->]]; constructor). rewrite andb_true_r.
    destruct (csv_safe v); [|done].
    destruct Hs as [->|[s' ->]]; [done|]. change (CRLF +:+ s') with (String CR (String LF s')). cbn [field_done].
    change (Ascii.eqb CR ",") with false. cbn iota. cbn [String.substring String.length]. by rewrite substring_all by lia.
  - change (join "," (map csvCell (v :: w :: vs))) with (csvCell v +:+ "," +:+ join "," (map csvCell (w :: vs))).
    rewrite !str_app_assoc. change ("," +:+ ?t) with (String "," t) at 1. rewrite read_cell by constructor.
    destruct (csv_safe v); [|done]. cbn [field_done andb].
    change (Ascii.eqb "," ",") with true. cbn iota. specialize (IH (row ++ [v]) w). rewrite <- app_assoc in IH. exact IH.
Qed.

Lemma read_rows_text r rs : Forall (fun r => r <> []) (r :: rs) ->
  read_csv Start "" [] (csv_text (r :: rs)) = if forallb (forallb csv_safe) (r :: rs) then Some (r :: rs) else None.
Proof.
  revert r. induction rs as [|r' rs IH]; intros r Hall; apply Forall_cons in Hall as [Hr Hall]; (destruct r as [|v vs]; [done|]).
  - change (csv_text [v :: vs]) with (join "," (map csvCell (v :: vs))).
    rewrite <- (str_app_nil_r (join "," _)). rewrite read_cells_row by (by left).
    change (forallb (forallb csv_safe) [v :: vs]) with (forallb csv_safe (v :: vs) && true). by rewrite andb_true_r.
  - change (csv_text ((v :: vs) :: r' :: rs)) with (join "," (map csvCell (v :: vs)) +:+ CRLF +:+ csv_text (r' :: rs)).
    rewrite read_cells_row by (right; by eexists). change (CRLF +:+ ?t) with (String CR (String LF t)).
    cbn [String.substring String.length]. rewrite substring_all by lia. rewrite IH by done.
    change (forallb (forallb csv_safe) ((v :: vs) :: r' :: rs)) with
      (forallb csv_safe (v :: vs) && forallb (forallb csv_safe) (r' :: rs)).
    destruct (forallb csv_safe (v :: vs)); [|done]. by destruct (forallb (forallb csv_safe) (r' :: rs)).
Qed.

Section exports.
Context {LO : Locale}.

(** C27: An exported report reads back, exactly when its texts are such that RFC 4180 has them as
    [csvCell] writes them: a reader of its grammar finds in the CSV the head and the rows of the
    table, cell for cell, each row as long as the head, whatever commas, quotation marks and line
    breaks the texts have, and nothing at all when a text has another control character, or a
    carriage return with nothing else that makes [csvCell] quote it ([carriage_return_bare]). *)
Theorem csv_round_trip scopeLabel windowLabel doc :
  let t := toTable scopeLabel windowLabel doc in
  let table := rt_columns t :: map (map cell_text) (rt_rows t) in
  read_csv Start "" [] (exportCsv t) = (if forallb (forallb csv_safe) table then Some table else None) /\
  forall r, r ∈ map (map cell_text) (rt_rows t) -> List.length r = List.length (rt_columns t).
Proof.
  intros t table. destruct (table_rectangular scopeLabel windowLabel doc) as [Hc Hr]. fold t in Hc, Hr.
  assert (Hlen : forall r, r ∈ map (map cell_text) (rt_rows t) -> List.length r = List.length (rt_columns t)).
  { intros r Hin. apply list_elem_of_In, in_map_iff in Hin as (x & <- & Hx). rewrite length_map. apply Hr. by apply list_elem_of_In. }
  split; [|done]. apply read_rows_text. constructor; [done|]. apply Forall_forall. intros r Hin ->. specialize (Hlen [] Hin).
  by destruct (rt_columns t).
Qed.
End exports.

(** ** HTML reads back *)

Lemma after_app p s : after p (p +:+ s) = Some s.
Proof. induction p as [|c p IH]; [done|]. rewrite app_cons_string. cbn [after]. by rewrite Ascii.eqb_refl. Qed.

Lemma esc_no_lt s : has_char "<" (esc s) = false.
Proof.
  induction s as [|c s IH]; [done|]. cbn [esc]. rewrite has_char_app, IH, orb_false_r. unfold esc_char.
  destruct (Ascii.eqb c "&"), (Ascii.eqb c "<") eqn:Hlt, (Ascii.eqb c ">"); try done. cbn [has_char]. by rewrite Hlt.
Qed.

Lemma break_at_no_lt v s : has_char "<" v = false -> break_at "</td>" (v +:+ "</td>" +:+ s) = Some (v, s).
Proof.
  induction v as [|c v IH]; [done|]. intros [Hc Hv]%orb_false_iff. rewrite app_cons_string. cbn [break_at].
  assert (after "</td>" (String c (v +:+ "</td>" +:+ s)) = None) as ->; [|by rewrite IH].
  cbn [after]. by rewrite Ascii.eqb_sym, Hc.
Qed.

Lemma unesc_esc s n : (String.length (esc s) <= n)%nat -> unesc n (esc s) = s.
Proof.
  revert n. induction s as [|c s IH]; intros n Hn; [by destruct n|]. cbn [esc] in *. rewrite str_length_app in Hn.
  unfold esc_char in *. destruct (Ascii.eqb_spec c "&") as [->|Hamp]; [|destruct (Ascii.eqb_spec c "<") as [->|Hlt];
    [|destruct (Ascii.eqb_spec c ">") as [->|Hgt]]]; (destruct n as [|n]; [cbn in Hn; lia|]); cbn [String.length] in Hn; cbn [unesc].
  1-3: rewrite ?after_app; cbn [after String.append app]; rewrite IH by lia; done.
  rewrite app_cons_string, app_nil_string. cbn [after]. apply Ascii.eqb_neq in Hamp. rewrite Ascii.eqb_sym in Hamp. rewrite Hamp.
  by rewrite IH by lia.
Qed.

Lemma read_cells_html n l s : (List.length l < n)%nat -> after "<td>" s = None ->
  read_cells n (concat_text (map (fun c => "<td>" +:+ esc (cell_text c) +:+ "</td>") l) +:+ s) = (map cell_text l, s).
Proof.
  unfold concat_text. revert n. induction l as [|c l IH]; intros n Hn Hs; (destruct n as [|n]; [cbn in Hn; lia|]).
  - cbn [map join read_cells]. by rewrite app_nil_string, Hs.
  - assert (join "" (map (fun c => "<td>" +:+ esc (cell_text c) +:+ "</td>") (c :: l)) +:+ s =
      "<td>" +:+ esc (cell_text c) +:+ "</td>" +:+ (join "" (map (fun c => "<td>" +:+ esc (cell_text c) +:+ "</td>") l) +:+ s)) as ->.
    { destruct l as [|d l]; cbn [map join]; by rewrite ?app_nil_string, !str_app_assoc. }
    cbn [read_cells]. rewrite after_app, break_at_no_lt by apply esc_no_lt. cbn [List.length] in Hn.
    rewrite IH by (done || lia). cbn [map]. by rewrite unesc_esc by lia.
Qed.

(** What is printed is the table. A reader of the body's rows and cells finds every cell of
    the table, whatever mark-up characters the names in it hold: no text of a report is read as
    mark-up. *)
Theorem html_round_trip (t : ReportTable) (n : nat) : (List.length (rt_rows t) < n)%nat ->
  read_rows n (html_body t) = map (map cell_text) (rt_rows t).
Proof.
  unfold html_body, concat_text. revert n. induction (rt_rows t) as [|r rs IH]; intros n Hn; (destruct n as [|n]; [cbn in Hn; lia|]); [done|].
  assert (join "" (map html_row (r :: rs)) = "<tr>" +:+ concat_text (map (fun c => "<td>" +:+ esc (cell_text c) +:+ "</td>") r)
    +:+ "</tr>" +:+ join "" (map html_row rs)) as ->.
  { unfold html_row. destruct rs as [|r' rs]; cbn [map join]; by rewrite ?app_nil_string, ?str_app_nil_r, ?str_app_assoc. }
  cbn [read_rows]. rewrite after_app. set (rest := join "" (map html_row rs)).
  rewrite read_cells_html; [|rewrite !str_length_app|done].
  - rewrite after_app. cbn [List.length] in Hn. cbn [map]. unfold rest. by rewrite IH by lia.
  - enough (List.length r <= String.length (concat_text (map (fun c => "<td>" +:+ esc (cell_text c) +:+ "</td>") r)))%nat
      by (change (String.length "</tr>") with 5%nat; lia).
    clear. unfold concat_text. induction r as [|c r IHr]; [done|]. destruct r as [|d r].
    { cbn [map join List.length]. rewrite !str_length_app. cbn [String.length]. lia. }
    change (S (List.length (d :: r)) <= String.length (("<td>" +:+ esc (cell_text c) +:+ "</td>") +:+ "" +:+
      join "" (map (fun c => "<td>" +:+ esc (cell_text c) +:+ "</td>") (d :: r))))%nat.
    rewrite !str_length_app. cbn [String.length] in *. lia.
Qed.

(** ** Evaluations *)

Section evaluations.
#[local] Instance w_locale : Locale := {| loc_date := String_of_int; loc_count := String_of_int; num_text := fun _ => "?" |}.

Example sizes : map fmtBytes [None; Some 0; Some 1023; Some 1024; Some 10240; Some (5 * 1024 ^ 4)] =
  [DASH; "0 B"; "1023 B"; "1.0 KB"; "10 KB"; "5.0 TB"].
Proof. vm_compute. reflexivity. Qed.

(** Just below a unit the size is rounded to 1024 of the unit before. *)
Example rounded_to_1024 : fmtBytes (Some (1024 * 1024 - 1)) = "1024 KB".
Proof. vm_compute. reflexivity. Qed.

(** A text that a spreadsheet takes for a formula is exported as it is. *)
Example formula_not_neutralised : csvCell "=HYPERLINK(A1)" = "=HYPERLINK(A1)".
Proof. vm_compute. reflexivity. Qed.

(** A lone carriage return is not quoted. *)
Example carriage_return_bare :
  csvCell (String CR "x") = String CR "x" /\ read_csv Start "" [] (csv_text [["a"; String CR "x"]]) = None.
Proof. vm_compute. split; reflexivity. Qed.

(** A carriage return in a text with a comma is quoted, and reads back. *)
Example carriage_return_quoted :
  read_csv Start "" [] (csv_text [["a,b" +:+ String CR "x"; "—"]]) = Some [["a,b" +:+ String CR "x"; "—"]].
Proof. vm_compute. reflexivity. Qed.

(** The wrapper ends the tiles at their first closing tag, inside the first tile: the grid of
    charts opens within it and holds the rest of the tiles. *)
Example tiles_split :
  let kpi k l := kpi_html (k, l) in
  wrapCharts (collectChartsHtml (Some {| cd_kpis := [("99%", "Uptime"); ("3", "Hosts")]; cd_figures := [] |})) =
  KPIS_OPEN +:+ "<div " +:+ quoted_attr "class" "kpi" +:+ "><div " +:+ quoted_attr "class" "kv" +:+ ">99%</div>" +:+
  "<div " +:+ quoted_attr "class" "charts" +:+ "><div " +:+ quoted_attr "class" "kl" +:+ ">Uptime</div></div>" +:+
  kpi "3" "Hosts" +:+ "</div></div>".
Proof. vm_compute. reflexivity. Qed.
Lemma html_round_trip_witness :
  read_rows 3 (html_body {| rt_title := ""; rt_subtitle := ""; rt_columns := ["a"; "b"];
    rt_rows := [[Txt "<b>&amp;"; Num 3]; [Txt ""; Txt "x"]] |}) = [["<b>&amp;"; "3"]; [""; "x"]].
Proof.
  rewrite (html_round_trip {| rt_title := ""; rt_subtitle := ""; rt_columns := ["a"; "b"];
    rt_rows := [[Txt "<b>&amp;"; Num 3]; [Txt ""; Txt "x"]] |} 3); [reflexivity|simpl; lia].
Defined.
End evaluations.
