(* ===== verification/MonitorForm.v ===== *)
(** * The monitor form

    Models apps/frontend/src/lib/monitorForm.ts and what the editor of
    apps/frontend/src/components/MonitorEditorModal.tsx sends: the fields shown for a stored
    configuration, and the configuration built from the fields. A configuration is the JSON that is
    sent, so a number that is not finite is null in it. [print] is [String] of a value that is
    neither a text nor an integer. *)
From S2P Require Import Prelude Dates Text BackupPolicy PublicStatus Probes.

Record WatchFolderRow : Type := {
  wf_path : string; wf_depth : Q; wf_refreshMin : Q; wf_hours : bool; wf_scanTimes : list string; wf_scanTZ : string
}.

Record MonitorFieldValues : Type := {
  v_path : string; v_server : bool; v_folders : bool; v_watchFolders : list WatchFolderRow;
  v_user : string; v_password : string;
  v_host : string; v_port : string; v_database : string; v_encrypt : bool; v_collectQueries : bool; v_topN : Q;
  v_community : string; v_snmpVersion : string; v_oids : string; v_profileId : string;
  v_url : string; v_method : string; v_expectedStatus : string; v_keyword : string;
  v_recordType : string; v_resolver : string;
  v_interval : Q; v_retries : Q; v_retryInterval : Q; v_count : Q
}.

Definition emptyValues : MonitorFieldValues := {|
  v_path := ""; v_server := false; v_folders := false; v_watchFolders := []; v_user := ""; v_password := "";
  v_host := ""; v_port := ""; v_database := ""; v_encrypt := false; v_collectQueries := false; v_topN := 10;
  v_community := ""; v_snmpVersion := "2c"; v_oids := ""; v_profileId := "";
  v_url := ""; v_method := "GET"; v_expectedStatus := ""; v_keyword := ""; v_recordType := "A"; v_resolver := "";
  v_interval := 30; v_retries := 0; v_retryInterval := 10; v_count := 3 |}.

Notation config := (list (string * json)).

(** [str(v)] *)
Definition str (v : option json) : string := match v with Some (JStr s) => s | _ => "" end.
Definition is_true (v : option json) : bool := match v with Some (JBool true) => true | _ => false end.
Definition or_text (s d : string) : string := if truthy s then s else d.
Definition number_or (v : option json) (d : Q) : Q := match v with Some (JNum q) => q | _ => d end.

Section form.
Context (print : json -> string).

(** [String(v)] *)
Definition json_string (v : json) : string :=
  match v with
  | JStr s => s
  | JNum q => match isInteger (Fin q) with Some n => String_of_int n | None => print v end
  | _ => print v end.

(** [v != null ? String(v) : ""] *)
Definition text_or_empty (v : option json) : string :=
  match v with None | Some JNull => "" | Some v => json_string v end.

Definition watch_row (w : json) : WatchFolderRow :=
  match w with
  | JStr s => {| wf_path := s; wf_depth := 1; wf_refreshMin := 15; wf_hours := false; wf_scanTimes := []; wf_scanTZ := "" |}
  | _ =>
      let o := match w with JObj o => o | _ => [] end in
      let times := match map_get "scanTimes" o, map_get "dailyAt" o with
        | Some (JArr l), _ => map json_string l
        | _, Some (JStr s) => if truthy s then [s] else []
        | _, _ => [] end in
      let rm := number_or (map_get "refreshMin" o) 15 in
      {| wf_path := text_or_empty (map_get "path" o); wf_depth := number_or (map_get "depth" o) 1; wf_refreshMin := rm;
         wf_hours := Qle_bool 60 rm && bool_decide (is_Some (isInteger (Fin (rm / 60)))); wf_scanTimes := times;
         wf_scanTZ := str (map_get "scanTimezone" o) |}
  end.

Definition oid_line (o : json) : string :=
  let o := match o with JObj o => o | _ => [] end in
  let oid := text_or_empty (map_get "oid" o) in
  (match map_get "label" o with None | Some JNull => oid | Some l => json_string l end) +:+ " = " +:+ oid.

Definition server_type (type : string) : bool := includes ["ping"; "http"; "tcp"; "dns"] type.

Definition with_schedule (type : string) (c : config) (v : MonitorFieldValues) : MonitorFieldValues :=
  if server_type type then
    let s := monitorSchedule type (Some c) in
    {| v_path := v_path v; v_server := v_server v; v_folders := v_folders v; v_watchFolders := v_watchFolders v;
       v_user := v_user v; v_password := v_password v; v_host := v_host v; v_port := v_port v; v_database := v_database v;
       v_encrypt := v_encrypt v; v_collectQueries := v_collectQueries v; v_topN := v_topN v; v_community := v_community v;
       v_snmpVersion := v_snmpVersion v; v_oids := v_oids v; v_profileId := v_profileId v; v_url := v_url v;
       v_method := v_method v; v_expectedStatus := v_expectedStatus v; v_keyword := v_keyword v;
       v_recordType := v_recordType v; v_resolver := v_resolver v;
       v_interval := inject_Z (intervalSec s); v_retries := inject_Z (retries s);
       v_retryInterval := inject_Z (retryIntervalSec s); v_count := inject_Z (count s) |}
  else v.

(** The fields of a type that are read from a configuration; the others stay empty. *)
Definition fields (type : string) (c : config) : MonitorFieldValues :=
  let get k := map_get k c in
  let e := emptyValues in
  let fill path server folders watch user host port database encrypt collect topN version oids profileId url method
           expected keyword record resolver :=
    {| v_path := path; v_server := server; v_folders := folders; v_watchFolders := watch; v_user := user; v_password := "";
       v_host := host; v_port := port; v_database := database; v_encrypt := encrypt; v_collectQueries := collect;
       v_topN := topN; v_community := ""; v_snmpVersion := version; v_oids := oids; v_profileId := profileId; v_url := url;
       v_method := method; v_expectedStatus := expected; v_keyword := keyword; v_recordType := record;
       v_resolver := resolver; v_interval := v_interval e; v_retries := v_retries e; v_retryInterval := v_retryInterval e;
       v_count := v_count e |} in
  if String.eqb type "storage" then
    fill (str (get "path")) (is_true (get "server")) (is_true (get "folders"))
      (match get "watchFolders" with Some (JArr l) => List.filter (fun r => truthy (wf_path r)) (map watch_row l) | _ => [] end)
      (str (get "user")) "" "" "" false false 10%Q "2c" "" "" "" "GET" "" "" "A" ""
  else if String.eqb type "database" then
    fill "" false false [] (str (get "user")) (str (get "host")) (text_or_empty (get "port")) (str (get "database"))
      (is_true (get "encrypt")) (is_true (get "collectQueries")) (number_or (get "topN") 10%Q) "2c" "" "" "" "GET" "" "" "A" ""
  else if String.eqb type "snmp" then
    fill "" false false [] "" (str (get "host")) "" "" false false 10%Q (or_text (str (get "version")) "2c")
      (join (String "010" "") (match get "oids" with Some (JArr l) => map oid_line l | _ => [] end)) (str (get "profileId"))
      "" "GET" "" "" "A" ""
  else if String.eqb type "http" then
    fill "" false false [] "" "" "" "" false false 10%Q "2c" "" "" (str (get "url")) (or_text (str (get "method")) "GET")
      (text_or_empty (get "expectedStatus")) (str (get "keyword")) "A" ""
  else if String.eqb type "tcp" || String.eqb type "ping" then
    fill "" false false [] "" (str (get "host")) (text_or_empty (get "port")) "" false false 10%Q "2c" "" "" "" "GET" "" "" "A" ""
  else if String.eqb type "dns" then
    fill "" false false [] "" (str (get "host")) "" "" false false 10%Q "2c" "" "" "" "GET" "" ""
      (or_text (str (get "recordType")) "A") (str (get "resolver"))
  else e.

Definition valuesFromConfig (type : string) (c : option config) : MonitorFieldValues :=
  with_schedule type (default [] c) (fields type (default [] c)).
End form.

(** ** From the fields *)

(** What [JSON.stringify] makes of a number. *)
Definition json_number (n : number) : json := match n with Fin q => JNum (Qred q) | _ => JNull end.

(** A member that is set under a condition. *)
Definition given (b : bool) (k : string) (v : json) : config := if b then [(k, v)] else [].
Definition filled (s : string) : bool := truthy (trim s).

(** [/^([01]?\d|2[0-3]):[0-5]\d$/] *)
Definition minutes_part (s : string) : bool :=
  match s with
  | String m (String c (String d "")) =>
      Ascii.eqb m ":" && match digit_val c, digit_val d with Some c, Some _ => c <? 6 | _, _ => false end
  | _ => false end.
Definition is_form_time (s : string) : bool :=
  match s with
  | String a (String b t as r) =>
      match digit_val a, digit_val b with
      | Some x, Some y => ((x <? 2) || ((x =? 2) && (y <? 4))) && minutes_part t
      | Some _, None => minutes_part r
      | None, _ => false end
  | _ => false end.

Definition form_depth (q : Q) : Q :=
  if Qeq_bool q 0 then 0%Q else
  let m := if Qle_bool q 50 then q else 50%Q in if Qle_bool 1 m then m else 1%Q.
Definition form_refresh (q : Q) : Q :=
  let m := if Qeq_bool q 0 then 15%Q else q in if Qle_bool 1 m then m else 1%Q.

Definition form_times (l : list string) : list string := List.filter is_form_time (map trim l).

Definition watch_json (r : WatchFolderRow) : json :=
  let times := form_times (wf_scanTimes r) in
  JObj ([("path", JStr (trim (wf_path r))); ("depth", JNum (form_depth (wf_depth r)))] ++
        match times with
        | [] => [("refreshMin", JNum (form_refresh (wf_refreshMin r)))]
        | _ => ("scanTimes", JArr (map JStr times)) :: given (filled (wf_scanTZ r)) "scanTimezone" (JStr (trim (wf_scanTZ r))) end).

Definition schedule_fields (v : MonitorFieldValues) : config :=
  [("interval", JNum (v_interval v)); ("retries", JNum (v_retries v)); ("retryInterval", JNum (v_retryInterval v))].
Definition port_field (v : MonitorFieldValues) : config :=
  given (filled (v_port v)) "port" (json_number (Number_of_string (v_port v))).
Definition text_member (k s : string) : config := given (filled s) k (JStr (trim s)).

Definition buildConfig (type : string) (v : MonitorFieldValues) : config :=
  let host := ("host", JStr (trim (v_host v))) in
  if String.eqb type "storage" then
    let watch := map watch_json (List.filter (fun r => filled (wf_path r)) (v_watchFolders v)) in
    [("path", JStr (trim (v_path v))); ("folders", JBool (v_folders v))] ++ given (v_server v) "server" (JBool true) ++
    text_member "user" (v_user v) ++ given (truthy (v_password v)) "password" (JStr (v_password v)) ++
    match watch with [] => [] | _ => [("watchFolders", JArr watch)] end
  else if String.eqb type "snmp" then
    [host; ("version", JStr (v_snmpVersion v))] ++ given (truthy (v_profileId v)) "profileId" (JStr (v_profileId v)) ++
    given (truthy (v_community v)) "community" (JStr (v_community v))
  else if String.eqb type "http" then
    [("url", JStr (trim (v_url v))); ("method", JStr (or_text (v_method v) "GET"))] ++ schedule_fields v ++
    text_member "expectedStatus" (v_expectedStatus v) ++ given (filled (v_keyword v)) "keyword" (JStr (v_keyword v))
  else if String.eqb type "tcp" then host :: schedule_fields v ++ port_field v
  else if String.eqb type "dns" then
    host :: ("recordType", JStr (or_text (v_recordType v) "A")) :: schedule_fields v ++ text_member "resolver" (v_resolver v)
  else if String.eqb type "ping" then
    schedule_fields v ++ [("count", JNum (v_count v))] ++ text_member "host" (v_host v) ++ port_field v
  else
    [host; ("encrypt", JBool (v_encrypt v)); ("collectQueries", JBool (v_collectQueries v))] ++ port_field v ++
    text_member "database" (v_database v) ++ text_member "user" (v_user v) ++
    given (truthy (v_password v)) "password" (JStr (v_password v)) ++ given (v_collectQueries v) "topN" (JNum (v_topN v)).

(** [/^https?:\/\//i] *)
Definition is_http (url : string) : bool :=
  startsWith "http://" (toLowerCase url) || startsWith "https://" (toLowerCase url).

Definition validate (type : string) (v : MonitorFieldValues) : option string :=
  if String.eqb type "storage" && negb (filled (v_path v)) then Some "Share path is required (e.g. \\nas\share)."
  else if String.eqb type "database" && negb (filled (v_host v)) then Some "Database host is required."
  else if String.eqb type "snmp" && negb (filled (v_host v)) then Some "Device host/IP is required."
  else if String.eqb type "http" && negb (is_http (trim (v_url v))) then Some "A URL starting with http:// or https:// is required."
  else if String.eqb type "tcp" && (negb (filled (v_host v)) || negb (filled (v_port v))) then Some "Host and port are required."
  else if String.eqb type "dns" && negb (filled (v_host v)) then Some "Hostname is required."
  else None.

(** ** What the editor sends *)

Definition isStructured (t : string) : bool := includes ["storage"; "database"; "snmp"; "http"; "tcp"; "dns"; "ping"] t.

(** [{ ...a, ...b }] *)
Definition spread (a b : config) : config := fold_left (fun m kv => map_set kv.1 kv.2 m) b a.

Definition as_server (v : MonitorFieldValues) : MonitorFieldValues :=
  {| v_path := v_path v; v_server := true; v_folders := v_folders v; v_watchFolders := v_watchFolders v;
     v_user := v_user v; v_password := v_password v; v_host := v_host v; v_port := v_port v; v_database := v_database v;
     v_encrypt := v_encrypt v; v_collectQueries := v_collectQueries v; v_topN := v_topN v; v_community := v_community v;
     v_snmpVersion := v_snmpVersion v; v_oids := v_oids v; v_profileId := v_profileId v; v_url := v_url v;
     v_method := v_method v; v_expectedStatus := v_expectedStatus v; v_keyword := v_keyword v;
     v_recordType := v_recordType v; v_resolver := v_resolver v; v_interval := v_interval v; v_retries := v_retries v;
     v_retryInterval := v_retryInterval v; v_count := v_count v |}.

(** The configuration of a structured type, or the error shown; [monitor] is the stored one. *)
Definition submit_config (isDevice : bool) (type : string) (monitor : option config) (values : MonitorFieldValues)
  : result string config :=
  match validate type values with
  | Some err => Err err
  | None =>
      let v := if isDevice && String.eqb type "storage" then as_server values else values in
      let config := buildConfig type v in
      Ok (match monitor with
          | Some stored => if String.eqb type "ping" then spread stored config else config
          | None => config end)
  end.

(** ** Saving without a change changes nothing *)

Lemma json_number_int x n : isInteger x = Some n -> json_number x = JNum (inject_Z n).
Proof.
  unfold isInteger, json_number. destruct x as [| | |q]; try done. destruct (Pos.eqb_spec (Qden (Qred q)) 1) as [He|]; [|done].
  intros [= <-]. destruct (Qred q) as [a b]. simpl in He. by subst.
Qed.

Lemma truthy_trim s : truthy (trim s) = true -> truthy s = true.
Proof. unfold truthy. by destruct s. Qed.

Lemma filled_trim s : filled (trim s) = filled s.
Proof. unfold filled. by rewrite trim_idem. Qed.

Lemma or_text_idem s d : truthy d = true -> or_text (or_text s d) d = or_text s d.
Proof. unfold or_text. destruct (truthy s) eqn:Hs; intros Hd; by rewrite ?Hs, ?Hd. Qed.

(** A text that is set under a condition is read back, or is empty. *)
Lemma text_member_read k s rest : map_get k rest = None ->
  text_member k (str (map_get k (text_member k s ++ rest))) = text_member k s.
Proof.
  intros Hr. unfold text_member, given. destruct (filled s) eqn:Hf; cbn [app map_get].
  - rewrite decide_True by done. cbn [str]. by rewrite filled_trim, Hf, trim_idem.
  - by rewrite Hr.
Qed.

Lemma form_depth_idem q : form_depth (form_depth q) = form_depth q.
Proof.
  unfold form_depth. destruct (Qeq_bool q 0) eqn:H0; [done|].
  set (m := if Qle_bool q 50 then q else 50%Q). destruct (Qle_bool 1 m) eqn:H1; [|done].
  assert (Qeq_bool m 0 = false) as ->.
  { destruct (Qeq_bool m 0) eqn:He; [|done]. apply Qeq_bool_eq in He. apply Qle_bool_iff in H1. exfalso. lra. }
  assert ((if Qle_bool m 50 then m else 50%Q) = m) as ->; [|by rewrite H1].
  unfold m. destruct (Qle_bool q 50) eqn:Hq; [by rewrite Hq|done].
Qed.

Lemma form_refresh_idem q : form_refresh (form_refresh q) = form_refresh q.
Proof.
  unfold form_refresh. set (m := if Qeq_bool q 0 then 15%Q else q). destruct (Qle_bool 1 m) eqn:H1; [|done].
  assert (Qeq_bool m 0 = false) as ->; [|by rewrite H1].
  destruct (Qeq_bool m 0) eqn:He; [|done]. apply Qeq_bool_eq in He. apply Qle_bool_iff in H1. exfalso. lra.
Qed.

(** A time has no space to trim. *)
Lemma digit_no_space c d : digit_val c = Some d -> is_space c = false.
Proof. revert c d. intros [[] [] [] [] [] [] [] []] d; vm_compute; congruence. Qed.

Lemma minutes_no_space s d : minutes_part s = true -> is_space d = true -> has_char d s = false.
Proof.
  intros Hs Hd. unfold minutes_part in Hs. destruct s as [|m [|c [|e [|? ?]]]]; try done.
  apply andb_true_iff in Hs as [->%Ascii.eqb_eq Hs]. destruct (digit_val c) as [x|] eqn:Hc, (digit_val e) as [y|] eqn:He; try done.
  apply digit_no_space in Hc, He. cbn [has_char]. rewrite !orb_false_iff. repeat split; try (apply Ascii.eqb_neq; intros <-; congruence).
  apply Ascii.eqb_neq. by intros <-.
Qed.

Lemma form_time_trim s : is_form_time s = true -> trim s = s.
Proof.
  intros Hs. apply trim_no_space. intros d Hd. unfold is_form_time in Hs. destruct s as [|a [|b t]]; [done..|].
  destruct (digit_val a) as [x|] eqn:Ha; [|done]. apply digit_no_space in Ha.
  assert (Hda : Ascii.eqb a d = false) by (apply Ascii.eqb_neq; intros <-; congruence).
  cbn [has_char]. rewrite Hda. destruct (digit_val b) as [y|] eqn:Hb.
  - apply andb_true_iff in Hs as [_ Hs]. apply digit_no_space in Hb. rewrite (minutes_no_space t d Hs Hd).
    assert (Ascii.eqb b d = false) as ->; [apply Ascii.eqb_neq; intros <-; congruence|done].
  - exact (minutes_no_space _ d Hs Hd).
Qed.

Lemma form_times_idem l : form_times (form_times l) = form_times l.
Proof.
  unfold form_times. induction l as [|s l IH]; [done|]. cbn [map List.filter]. destruct (is_form_time (trim s)) eqn:Hs; [|done].
  cbn [map List.filter]. by rewrite (form_time_trim (trim s) Hs), Hs, IH.
Qed.

(** A configuration without the members that are never shown. *)
Definition without_secrets (c : config) : config :=
  List.filter (fun kv => negb (includes ["password"; "community"] kv.1)) c.

(** The fields are what the form offers: a schedule in its bounds, a port that is a number. *)
Record sendable (v : MonitorFieldValues) : Prop := {
  ok_schedule : exists i r ri n, v_interval v = inject_Z i /\ v_retries v = inject_Z r /\ v_retryInterval v = inject_Z ri /\
    v_count v = inject_Z n /\ 5 <= i <= 86400 /\ 0 <= r <= 10 /\ 1 <= ri <= 3600 /\ 1 <= n <= 10;
  ok_port : filled (v_port v) = true -> exists p, 0 <= p /\ isInteger (Number_of_string (v_port v)) = Some p;
  ok_version : truthy (v_snmpVersion v) = true
}.

Section saving.
Context (print : json -> string).
Notation valuesFromConfig := (valuesFromConfig print).

Ltac look := cbn [map_get app fst snd]; repeat first [rewrite decide_True by done | rewrite decide_False by done]; cbn [str is_true number_or].

Lemma posInt_int z d lo hi : lo <= z <= hi -> posInt (Some (JNum (inject_Z z))) d lo hi = z.
Proof.
  intros Hz. unfold posInt. cbn [Number_of_json Number_of_element].
  assert (Qle_bool (inject_Z lo) (inject_Z z) = true) as -> by (apply Qle_bool_iff; rewrite <- Zle_Qle; lia).
  rewrite Qfloor_Z. lia.
Qed.

Lemma int_filled p : 0 <= p -> filled (String_of_int p) = true.
Proof.
  intros Hp. unfold filled. rewrite trim_no_space.
  - destruct (truthy (String_of_int p)) eqn:He; [done|]. unfold truthy in He. apply negb_false_iff, String.eqb_eq in He.
    pose proof (Number_of_String_of_int p Hp) as Hn. rewrite He in Hn. injection Hn as <-. done.
  - intros c Hc. apply String_of_int_char; [done|]. unfold is_space in Hc. lia.
Qed.

(** The port is read back as the same number. *)
Lemma port_read v rest : (filled (v_port v) = true -> exists p, 0 <= p /\ isInteger (Number_of_string (v_port v)) = Some p) ->
  map_get "port" rest = None ->
  let s := text_or_empty print (map_get "port" (port_field v ++ rest)) in
  given (filled s) "port" (json_number (Number_of_string s)) = port_field v.
Proof.
  intros Hp Hr. unfold port_field at 2. unfold port_field, given. destruct (filled (v_port v)) eqn:Hf; cbn [app].
  - destruct (Hp eq_refl) as (p & Hp0 & Hi). look. rewrite (json_number_int _ _ Hi). cbn [text_or_empty json_string].
    rewrite isInteger_int. assert (filled (String_of_int p) = true) as ->.
    { by apply int_filled. }
    by rewrite (json_number_int _ _ (Number_of_String_of_int p Hp0)).
  - by rewrite Hr.
Qed.

(** The schedule is read back, for a type the server runs. *)
Lemma schedule_read type c f v : server_type type = true -> sendable v ->
  map_get "interval" c = Some (JNum (v_interval v)) -> map_get "retries" c = Some (JNum (v_retries v)) ->
  map_get "retryInterval" c = Some (JNum (v_retryInterval v)) ->
  schedule_fields (with_schedule type c f) = schedule_fields v /\
  (map_get "count" c = Some (JNum (v_count v)) -> v_count (with_schedule type c f) = v_count v).
Proof.
  intros Ht [(i & r & ri & n & Hi & Hr & Hri & Hn & Bi & Br & Bri & Bn) _ _] Gi Gr Gri.
  unfold with_schedule, schedule_fields. rewrite Ht. cbn [v_interval v_retries v_retryInterval v_count].
  unfold monitorSchedule. cbn [from_option id intervalSec retries retryIntervalSec count]. rewrite Gi, Gr, Gri, Hi, Hr, Hri, Hn.
  rewrite !posInt_int by done. split; [done|]. intros Gn. by rewrite Gn, posInt_int.
Qed.

Lemma when_kept b k x : includes ["password"; "community"] k = false -> without_secrets (given b k x) = given b k x.
Proof. intros Hk. unfold without_secrets, given. destruct b; [|done]. cbn [List.filter fst]. by rewrite Hk. Qed.

Lemma without_secrets_app c1 c2 : without_secrets (c1 ++ c2) = without_secrets c1 ++ without_secrets c2.
Proof. apply List.filter_app. Qed.

Lemma port_saved v v' rest : sendable v -> map_get "port" rest = None ->
  v_port v' = text_or_empty print (map_get "port" (port_field v ++ rest)) -> port_field v' = port_field v.
Proof. intros Hok Hr Hv. unfold port_field at 1. rewrite Hv. apply (port_read v rest); [apply Hok|done]. Qed.

(** What saving sends for the fields read back from a configuration. *)
Definition resaved (type : string) (c : config) : config := buildConfig type (valuesFromConfig type (Some c)).
Definition saves (type : string) (v : MonitorFieldValues) : Prop :=
  resaved type (buildConfig type v) = without_secrets (buildConfig type v).

Lemma saved_tcp v : sendable v -> saves "tcp" v.
Proof.
  intros Hok. unfold saves, resaved. set (c := buildConfig "tcp" v). set (v' := valuesFromConfig "tcp" (Some c)).
  destruct (schedule_read "tcp" c (fields print "tcp" c) v eq_refl Hok) as [Hs _]; [reflexivity..|].
  assert (Hp : port_field v' = port_field v) by (apply (port_saved v v' []); [done|done|by rewrite app_nil_r]).
  change (("host", JStr (trim (trim (v_host v)))) :: schedule_fields v' ++ port_field v' =
    without_secrets ([("host", JStr (trim (v_host v)))] ++ schedule_fields v ++ port_field v)).
  rewrite !without_secrets_app, Hp, trim_idem. unfold port_field at 2. rewrite when_kept by done. by rewrite <- Hs.
Qed.

Lemma saved_dns v : sendable v -> saves "dns" v.
Proof.
  intros Hok. unfold saves, resaved. set (c := buildConfig "dns" v). set (v' := valuesFromConfig "dns" (Some c)).
  destruct (schedule_read "dns" c (fields print "dns" c) v eq_refl Hok) as [Hs _]; [reflexivity..|].
  assert (Hr : text_member "resolver" (v_resolver v') = text_member "resolver" (v_resolver v)).
  { etransitivity; [|apply (text_member_read "resolver" (v_resolver v) []); done]. by rewrite app_nil_r. }
  change (("host", JStr (trim (trim (v_host v)))) :: ("recordType", JStr (or_text (or_text (or_text (v_recordType v) "A") "A") "A"))
      :: schedule_fields v' ++ text_member "resolver" (v_resolver v') =
    without_secrets ([("host", JStr (trim (v_host v))); ("recordType", JStr (or_text (v_recordType v) "A"))] ++
      schedule_fields v ++ text_member "resolver" (v_resolver v))).
  rewrite !without_secrets_app, Hr, trim_idem, !or_text_idem by done. unfold text_member at 2. rewrite when_kept by done. by rewrite <- Hs.
Qed.

(** A text that is kept as it is. *)
Lemma when_text_read k s rest : map_get k rest = None ->
  let s' := str (map_get k (given (truthy s) k (JStr s) ++ rest)) in given (truthy s') k (JStr s') = given (truthy s) k (JStr s).
Proof.
  intros Hr. unfold given. destruct (truthy s) eqn:Hs; cbn [app].
  - look. by rewrite Hs.
  - by rewrite Hr.
Qed.

Lemma saved_snmp v : sendable v -> saves "snmp" v.
Proof.
  intros Hok. unfold saves, resaved. set (c := buildConfig "snmp" v). set (v' := valuesFromConfig "snmp" (Some c)).
  assert (Hv : or_text (v_snmpVersion v) "2c" = v_snmpVersion v) by (unfold or_text; by rewrite (ok_version v Hok)).
  assert (Hp : given (truthy (v_profileId v')) "profileId" (JStr (v_profileId v')) = given (truthy (v_profileId v)) "profileId" (JStr (v_profileId v))).
  { apply (when_text_read "profileId" (v_profileId v) (given (truthy (v_community v)) "community" (JStr (v_community v)))).
    unfold given. by destruct (truthy (v_community v)). }
  change ([("host", JStr (trim (trim (v_host v)))); ("version", JStr (or_text (v_snmpVersion v) "2c"))] ++
      given (truthy (v_profileId v')) "profileId" (JStr (v_profileId v')) ++ [] =
    without_secrets ([("host", JStr (trim (v_host v))); ("version", JStr (v_snmpVersion v))] ++
      given (truthy (v_profileId v)) "profileId" (JStr (v_profileId v)) ++ given (truthy (v_community v)) "community" (JStr (v_community v)))).
  rewrite !without_secrets_app, Hp, trim_idem, Hv. rewrite when_kept by done. unfold given at 3. by destruct (truthy (v_community v)).
Qed.

Lemma saved_http v : sendable v -> saves "http" v.
Proof.
  intros Hok. unfold saves, resaved. set (c := buildConfig "http" v). set (v' := valuesFromConfig "http" (Some c)).
  destruct (schedule_read "http" c (fields print "http" c) v eq_refl Hok) as [Hs _]; [reflexivity..|].
  set (kw := given (filled (v_keyword v)) "keyword" (JStr (v_keyword v))).
  assert (He : text_member "expectedStatus" (v_expectedStatus v') = text_member "expectedStatus" (v_expectedStatus v)).
  { etransitivity; [|apply (text_member_read "expectedStatus" (v_expectedStatus v) kw); unfold kw, given; by destruct (filled (v_keyword v))].
    change (v_expectedStatus v') with (text_or_empty print (map_get "expectedStatus" (text_member "expectedStatus" (v_expectedStatus v) ++ kw))).
    unfold text_member at 2 4, given. destruct (filled (v_expectedStatus v)); [done|]. unfold kw, given. by destruct (filled (v_keyword v)). }
  assert (Hk : given (filled (v_keyword v')) "keyword" (JStr (v_keyword v')) = kw).
  { change (v_keyword v') with (str (map_get "keyword" (text_member "expectedStatus" (v_expectedStatus v) ++ kw))).
    assert (map_get "keyword" (text_member "expectedStatus" (v_expectedStatus v) ++ kw) = map_get "keyword" kw) as ->.
    { unfold text_member, given. by destruct (filled (v_expectedStatus v)). }
    unfold kw, given. destruct (filled (v_keyword v)) eqn:Hf; look; [by rewrite Hf|done]. }
  change ([("url", JStr (trim (trim (v_url v)))); ("method", JStr (or_text (or_text (or_text (v_method v) "GET") "GET") "GET"))] ++
      schedule_fields v' ++ text_member "expectedStatus" (v_expectedStatus v') ++ given (filled (v_keyword v')) "keyword" (JStr (v_keyword v')) =
    without_secrets ([("url", JStr (trim (v_url v))); ("method", JStr (or_text (v_method v) "GET"))] ++ schedule_fields v ++
      text_member "expectedStatus" (v_expectedStatus v) ++ kw)).
  rewrite !without_secrets_app, He, Hk, trim_idem, !or_text_idem by done. unfold text_member at 2, kw at 2.
  rewrite !when_kept by done. by rewrite <- Hs.
Qed.

Lemma saved_ping v : sendable v -> saves "ping" v.
Proof.
  intros Hok. unfold saves, resaved. set (c := buildConfig "ping" v). set (v' := valuesFromConfig "ping" (Some c)).
  destruct (schedule_read "ping" c (fields print "ping" c) v eq_refl Hok) as [Hs Hn]; [reflexivity..|]. specialize (Hn eq_refl).
  assert (Hh : text_member "host" (v_host v') = text_member "host" (v_host v)).
  { etransitivity; [|apply (text_member_read "host" (v_host v) (port_field v)); unfold port_field, given; by destruct (filled (v_port v))]. done. }
  assert (Hp : port_field v' = port_field v).
  { apply (port_saved v v' []); [done|done|]. rewrite app_nil_r.
    change (v_port v') with (text_or_empty print (map_get "port" (text_member "host" (v_host v) ++ port_field v))).
    f_equal. unfold text_member, given. by destruct (filled (v_host v)). }
  change (schedule_fields v' ++ [("count", JNum (v_count v'))] ++ text_member "host" (v_host v') ++ port_field v' =
    without_secrets (schedule_fields v ++ [("count", JNum (v_count v))] ++ text_member "host" (v_host v) ++ port_field v)).
  rewrite !without_secrets_app, Hh, Hp. unfold text_member at 2, port_field at 2. rewrite !when_kept by done.
  unfold v'. cbv zeta. rewrite <- Hs. unfold MonitorForm.valuesFromConfig. cbn [from_option id]. by rewrite Hn.
Qed.

(** Looking up past a member of another key. *)
Lemma get_when k b k' x (rest : config) : k <> k' -> map_get k (given b k' x ++ rest) = map_get k rest.
Proof. intros Hne. unfold given. destruct b; [|done]. cbn [app map_get]. by rewrite decide_False. Qed.

Lemma get_cons k k' x (rest : config) : k <> k' -> map_get k ((k', x) :: rest) = map_get k rest.
Proof. intros Hne. cbn [map_get]. by rewrite decide_False. Qed.

Lemma get_last k b k' x : k <> k' -> map_get k (given b k' x) = None.
Proof. intros Hne. rewrite <- (app_nil_r (given b k' x)). by rewrite get_when. Qed.

Lemma saved_database v : sendable v -> saves "database" v.
Proof.
  intros Hok. unfold saves, resaved. set (c := buildConfig "database" v). set (v' := valuesFromConfig "database" (Some c)).
  set (pw := given (truthy (v_password v)) "password" (JStr (v_password v))). set (top := given (v_collectQueries v) "topN" (JNum (v_topN v))).
  set (rest := text_member "database" (v_database v) ++ text_member "user" (v_user v) ++ pw ++ top).
  assert (Hc : c = [("host", JStr (trim (v_host v))); ("encrypt", JBool (v_encrypt v)); ("collectQueries", JBool (v_collectQueries v))] ++
    port_field v ++ rest) by done.
  assert (Hp : port_field v' = port_field v).
  { apply (port_saved v v' rest); [done| |done]. unfold rest, pw, top, text_member. by rewrite !get_when, get_last by done. }
  assert (Hd : text_member "database" (v_database v') = text_member "database" (v_database v)).
  { etransitivity; [|apply (text_member_read "database" (v_database v) (text_member "user" (v_user v) ++ pw ++ top))].
    - change (v_database v') with (str (map_get "database" (port_field v ++ rest))). unfold port_field. by rewrite get_when.
    - unfold pw, top, text_member. by rewrite !get_when, get_last by done. }
  assert (Hu : text_member "user" (v_user v') = text_member "user" (v_user v)).
  { etransitivity; [|apply (text_member_read "user" (v_user v) (pw ++ top))].
    - change (v_user v') with (str (map_get "user" (port_field v ++ rest))). unfold port_field, rest. rewrite get_when by done.
      unfold text_member at 2. by rewrite get_when.
    - unfold pw, top. by rewrite get_when, get_last by done. }
  assert (He : v_encrypt v' = v_encrypt v /\ v_collectQueries v' = v_collectQueries v).
  { change (v_encrypt v') with (is_true (Some (JBool (v_encrypt v)))).
    change (v_collectQueries v') with (is_true (Some (JBool (v_collectQueries v)))). cbn [is_true]. by destruct (v_encrypt v), (v_collectQueries v). }
  destruct He as [He Hq].
  assert (Ht : given (v_collectQueries v') "topN" (JNum (v_topN v')) = top).
  { rewrite Hq. change (v_topN v') with (number_or (map_get "topN" (port_field v ++ rest)) 10%Q). unfold port_field, rest, pw, text_member.
    rewrite !get_when by done. unfold top, given. by destruct (v_collectQueries v). }
  change ([("host", JStr (trim (trim (v_host v)))); ("encrypt", JBool (v_encrypt v')); ("collectQueries", JBool (v_collectQueries v'))] ++
      port_field v' ++ text_member "database" (v_database v') ++ text_member "user" (v_user v') ++ [] ++
      given (v_collectQueries v') "topN" (JNum (v_topN v')) = without_secrets c).
  rewrite Hc, Ht, Hp, Hd, Hu, He, Hq, trim_idem. unfold rest. rewrite !without_secrets_app. unfold text_member, port_field, top.
  rewrite !when_kept by done. unfold pw, given at 6. by destruct (truthy (v_password v)).
Qed.

Lemma watch_row_json r : filled (wf_path r) = true ->
  filled (wf_path (watch_row print (watch_json r))) = true /\ watch_json (watch_row print (watch_json r)) = watch_json r /\
  truthy (wf_path (watch_row print (watch_json r))) = true.
Proof.
  intros Hf. remember (watch_json r) as j eqn:Hj. unfold watch_json in Hj.
  destruct (form_times (wf_scanTimes r)) as [|t ts] eqn:Ht; subst j.
  - set (w := watch_row print _). change (wf_path w) with (trim (wf_path r)). rewrite filled_trim.
    split; [done|]. split; [|done]. unfold watch_json. change (form_times (wf_scanTimes w)) with (@nil string). cbn iota.
    change (wf_path w) with (trim (wf_path r)). rewrite trim_idem.
    change (wf_depth w) with (form_depth (wf_depth r)). change (wf_refreshMin w) with (form_refresh (wf_refreshMin r)).
    by rewrite form_depth_idem, form_refresh_idem.
  - set (w := watch_row print _). change (wf_path w) with (trim (wf_path r)). rewrite filled_trim.
    split; [done|]. split; [|done]. unfold watch_json.
    assert (Hw : wf_scanTimes w = t :: ts).
    { change (wf_scanTimes w) with (map (json_string print) (map JStr (t :: ts))). rewrite map_map. apply map_id. }
    rewrite Hw. assert (form_times (t :: ts) = t :: ts) as -> by (rewrite <- Ht; apply form_times_idem). cbn iota.
    change (wf_path w) with (trim (wf_path r)). rewrite trim_idem. change (wf_depth w) with (form_depth (wf_depth r)). rewrite form_depth_idem.
    assert (Htz : given (filled (wf_scanTZ w)) "scanTimezone" (JStr (trim (wf_scanTZ w))) =
      given (filled (wf_scanTZ r)) "scanTimezone" (JStr (trim (wf_scanTZ r)))).
    { etransitivity; [|apply (text_member_read "scanTimezone" (wf_scanTZ r) []); done]. by rewrite app_nil_r. }
    by rewrite Htz.
Qed.

Lemma watch_read rows : Forall (fun r => filled (wf_path r) = true) rows ->
  map watch_json (List.filter (fun r => filled (wf_path r)) (List.filter (fun r => truthy (wf_path r)) (map (watch_row print) (map watch_json rows)))) =
  map watch_json rows.
Proof.
  induction 1 as [|r rows Hr _ IH]; [done|]. cbn [map List.filter]. destruct (watch_row_json r Hr) as (Hf & Hw & Ht).
  rewrite Ht. cbn [List.filter]. rewrite Hf. cbn [map]. by rewrite Hw, IH.
Qed.

Lemma saved_storage v : sendable v -> saves "storage" v.
Proof.
  intros Hok. unfold saves, resaved. set (c := buildConfig "storage" v). set (v' := valuesFromConfig "storage" (Some c)).
  set (pw := given (truthy (v_password v)) "password" (JStr (v_password v))).
  set (rows := List.filter (fun r => filled (wf_path r)) (v_watchFolders v)).
  set (watch := match map watch_json rows with [] => [] | _ => [("watchFolders", JArr (map watch_json rows))] end : config).
  assert (Hw0 : forall k, k <> "watchFolders" -> map_get k watch = None).
  { intros k Hk. unfold watch. destruct (map watch_json rows); [done|]. cbn [map_get]. by rewrite decide_False. }
  assert (Hc : c = [("path", JStr (trim (v_path v))); ("folders", JBool (v_folders v))] ++ given (v_server v) "server" (JBool true) ++
    text_member "user" (v_user v) ++ pw ++ watch) by done.
  assert (Hu : text_member "user" (v_user v') = text_member "user" (v_user v)).
  { etransitivity; [|apply (text_member_read "user" (v_user v) (pw ++ watch)); unfold pw; rewrite get_when by done; by apply Hw0].
    change (v_user v') with (str (map_get "user" c)). rewrite Hc. cbn [app]. rewrite !get_cons by done. by rewrite get_when. }
  assert (Hf : v_folders v' = v_folders v).
  { change (v_folders v') with (is_true (Some (JBool (v_folders v)))). by destruct (v_folders v). }
  assert (Hs : given (v_server v') "server" (JBool true) = given (v_server v) "server" (JBool true)).
  { change (v_server v') with (is_true (map_get "server" c)). rewrite Hc. cbn [app]. rewrite !get_cons by done.
    unfold given at 2. destruct (v_server v); [done|]. cbn [app]. unfold text_member, pw. by rewrite !get_when, Hw0 by done. }
  assert (Hw : map watch_json (List.filter (fun r => filled (wf_path r)) (v_watchFolders v')) = map watch_json rows).
  { change (v_watchFolders v') with (match map_get "watchFolders" c with
      | Some (JArr l) => List.filter (fun r => truthy (wf_path r)) (map (watch_row print) l) | _ => [] end).
    rewrite Hc. cbn [app]. rewrite !get_cons by done. unfold text_member, pw. rewrite !get_when by done. unfold watch.
    assert (Hrows : Forall (fun r => filled (wf_path r) = true) rows).
    { apply Forall_forall. intros r Hr. by apply elem_of_filterb in Hr as [_ ?]. }
    pose proof (watch_read rows Hrows) as Hread. destruct (map watch_json rows) as [|x l]; [done|]. exact Hread. }
  change ([("path", JStr (trim (trim (v_path v)))); ("folders", JBool (v_folders v'))] ++ given (v_server v') "server" (JBool true) ++
    text_member "user" (v_user v') ++ [] ++
    match map watch_json (List.filter (fun r => filled (wf_path r)) (v_watchFolders v')) with [] => []
    | _ => [("watchFolders", JArr (map watch_json (List.filter (fun r => filled (wf_path r)) (v_watchFolders v'))))] end =
    without_secrets c).
  rewrite Hc, Hw, Hu, Hf, Hs, trim_idem. fold watch. rewrite !without_secrets_app. unfold text_member. rewrite !when_kept by done.
  assert (without_secrets watch = watch) as -> by (unfold watch; by destruct (map watch_json rows)).
  unfold pw, given at 5. by destruct (truthy (v_password v)).
Qed.
End saving.

(** C36: Opening a monitor and saving it unchanged sends what is stored. For every structured type
    and whatever was typed, once the schedule is in its bounds and the port a number, the fields
    read back from a built configuration build that configuration again, member for member and
    in order, without the password and community, which are never shown. *)
Theorem save_unchanged print type v : isStructured type = true -> sendable v ->
  buildConfig type (valuesFromConfig print type (Some (buildConfig type v))) = without_secrets (buildConfig type v).
Proof.
  intros Ht Hok. unfold isStructured, includes in Ht. apply existsb_exists in Ht as (t & Ht & ->%String.eqb_eq). simpl in Ht.
  destruct Ht as [<-|[<-|[<-|[<-|[<-|[<-|[<-|[]]]]]]]].
  - by apply saved_storage.
  - by apply saved_database.
  - by apply saved_snmp.
  - by apply saved_http.
  - by apply saved_tcp.
  - by apply saved_dns.
  - by apply saved_ping.
Qed.

Section evaluations.
Definition w_print (j : json) : string := "?".

Definition w_values : MonitorFieldValues := with_schedule "tcp" [] (fields w_print "tcp" [("host", JStr " db1 "); ("port", JNum 5432)]).

Lemma save_unchanged_witness :
  buildConfig "tcp" (valuesFromConfig w_print "tcp" (Some (buildConfig "tcp" w_values))) = without_secrets (buildConfig "tcp" w_values).
Proof.
  apply (save_unchanged w_print "tcp" w_values); [reflexivity|]. split.
  - exists 30, 0, 10, 1. repeat split; try lia; vm_compute; reflexivity.
  - intros _. exists 5432. split; [lia|vm_compute; reflexivity].
  - reflexivity.
Defined.

(** A monitor from before the profiles keeps its OIDs in the fields, but saving drops them. *)
Example legacy_oids_lost :
  let stored := [("host", JStr "sw1"); ("version", JStr "2c");
                 ("oids", JArr [JObj [("label", JStr "Uptime"); ("oid", JStr "1.3.6.1.2.1.1.3.0")]])] in
  (v_oids (valuesFromConfig w_print "snmp" (Some stored)),
   submit_config false "snmp" (Some stored) (valuesFromConfig w_print "snmp" (Some stored))) =
  ("Uptime = 1.3.6.1.2.1.1.3.0", Ok [("host", JStr "sw1"); ("version", JStr "2c")]).
Proof. vm_compute. reflexivity. Qed.

(** The host of a ping monitor cannot be cleared: what is sent is spread over what is stored. *)
Example ping_host_kept :
  let stored := [("interval", JNum 10); ("host", JStr "10.0.0.9")] in
  let shown := valuesFromConfig w_print "ping" (Some stored) in
  let cleared := valuesFromConfig w_print "ping" (Some [("interval", JNum 10)]) in
  (v_host shown, v_host cleared, match submit_config true "ping" (Some stored) cleared with Ok c => map_get "host" c | Err _ => None end) =
  ("10.0.0.9", "", Some (JStr "10.0.0.9")).
Proof. vm_compute. reflexivity. Qed.

(** A port that is not a number passes the check and is sent as null. *)
Example port_not_checked :
  let v := valuesFromConfig w_print "tcp" (Some [("host", JStr "db1"); ("port", JStr "http")]) in
  (validate "tcp" v, match submit_config false "tcp" None v with Ok c => map_get "port" c | Err _ => None end) =
  (None, Some JNull).
Proof. vm_compute. reflexivity. Qed.
End evaluations.
