(* ===== verification/Telemetry.v ===== *)
(** * Telemetry lists

    Models apps/backend/src/services/telemetry.ts, the query of the handlers of
    routes/telemetry.routes.ts, and the paging hook of apps/frontend/src/hooks/useTelemetry.ts. The
    instant the database reads from a text is a parameter; a text it cannot read is an exception of
    the query. [order by] names the time alone, so the order of rows of one instant is the database's
    choice, a parameter that may differ from page to page. [ilike] folds the case of ASCII letters. *)
From S2P Require Import Prelude Dates Text Store Schema Totp AuditLog Health Reports.

(** ** Queries *)

Record PageQuery : Type := {
  pq_limit : option Z; pq_offset : option Z; pq_from : option string; pq_to : option string;
  pq_q : option string; pq_asc : bool
}.
Record Page (R : Type) : Type := { pg_rows : list R; pg_total : Z; pg_limit : Z; pg_offset : Z }.
Arguments pg_rows {R} _. Arguments pg_total {R} _. Arguments pg_limit {R} _. Arguments pg_offset {R} _.

(** The instant of a text, as the database casts it. *)
Class PgTime : Type := pg_time : string -> option Z.

(** The order in which the database finds rows that [order by] does not tell apart, for a limit and
    an offset: documented as unpredictable, it only loses and invents none. *)
Class Ties : Type := {
  tie : forall R : Type, Z -> Z -> list R -> list R;
  tie_perm : forall R limit offset (l : list R), tie R limit offset l ≡ₚ l
}.
Arguments tie {_ R} limit offset l.

Definition clampLimit (q : PageQuery) : Z := Z.min (Z.max (default 50 (pq_limit q)) 1) 500.
Definition clampOffset (q : PageQuery) : Z := Z.max (default 0 (pq_offset q)) 0.

Definition present_text (s : option string) : option string :=
  match s with Some s => if truthy s then Some s else None | None => None end.
Definition day_text (suffix s : string) : string := if Nat.eqb (String.length s) 10 then s +:+ suffix else s.
Definition startIso (s : option string) : option string := option_map (day_text "T00:00:00.000Z") (present_text s).
Definition endIso (s : option string) : option string := option_map (day_text "T23:59:59.999Z") (present_text s).

(** [ilike]: a percent sign stands for any text, an underscore for any character, a backslash
    takes the next character as it is. *)
Fixpoint ilike (p : string) : string -> bool :=
  match p with
  | EmptyString => fun s => String.eqb s ""
  | String c p' =>
      if Ascii.eqb c "%" then
        fix any s := ilike p' s || match s with EmptyString => false | String _ s' => any s' end
      else if Ascii.eqb c "\" then
        match p' with
        | String d p'' => fun s => match s with String e s' => Ascii.eqb (lower d) (lower e) && ilike p'' s' | EmptyString => false end
        | EmptyString => fun s => false
        end
      else fun s => match s with
                    | String e s' => (Ascii.eqb c "_" || Ascii.eqb (lower c) (lower e)) && ilike p' s'
                    | EmptyString => false end
  end.

Definition pattern (q : string) : string := "%" +:+ q +:+ "%".

Section lists.
Context {T : Type -> Type} {ST : Store T} {PG : PgTime} {TI : Ties}.

(** An optional equality of a column, and an optional search over columns; a null column matches
    neither. *)
Definition filter_eq (v : option string) (column : option string) : bool :=
  match present_text v with Some v => bool_decide (column = Some v) | None => true end.
Definition search (q : option string) (columns : list (option string)) : bool :=
  match present_text q with
  | Some q => existsb (fun c => match c with Some c => ilike (pattern q) c | None => false end) columns
  | None => true end.

(** A bound of the window, read by the database; [None] is its exception. *)
Definition bound (s : option string) : option (option Z) :=
  match s with None => Some None | Some s => option_map Some (pg_time s) end.
Definition within (lo hi : option Z) (ts : Z) : bool :=
  match lo with Some l => l <=? ts | None => true end && match hi with Some h => ts <=? h | None => true end.

Definition by_time {R} (ts : R -> Z) (asc : bool) (limit offset : Z) (l : list R) : list R :=
  js_sort (fun a b => if asc then ts b <? ts a else ts a <? ts b) (tie limit offset l).

(** The rows of a list that a query matches, in the order of its time. *)
Definition matching {R} (ts : R -> Z) (p : R -> bool) (q : PageQuery) (t : T R) : option (list R) :=
  let! lo := bound (startIso (pq_from q)) otherwise None in
  let! hi := bound (endIso (pq_to q)) otherwise None in
  Some (by_time ts (pq_asc q) (clampLimit q) (clampOffset q) (select (fun r => p r && within lo hi (ts r)) t)).

(** One page of them, each row enriched. *)
Definition list_page {R E} (ts : R -> Z) (p : R -> bool) (enrich : R -> E) (q : PageQuery) (t : T R) : option (Page E) :=
  let limit := clampLimit q in
  let offset := clampOffset q in
  let! all := matching ts p q t otherwise None in
  Some {| pg_rows := map enrich (firstn (Z.to_nat limit) (skipn (Z.to_nat offset) all));
          pg_total := Z.of_nat (List.length all); pg_limit := limit; pg_offset := offset |}.

(** *** Names *)

Record NameMaps : Type := { nm_agent : list (string * string); nm_user : list (string * string); nm_monitor : list (string * string) }.

Definition buildNameMaps (agents : T AgentRow) (users : T UserRow) (monitors : T MonitorRow) : NameMaps := {|
  nm_agent := js_map agent_id agent_name (rows agents);
  nm_user := js_map user_id user_username (rows users);
  nm_monitor := js_map mon_id mon_name (rows monitors) |}.

(** The name and the kind of an audit target. *)
Definition resolveTarget (maps : NameMaps) (target : option string) : option string * option string :=
  match present_text target with
  | None => (None, None)
  | Some t =>
      match map_get t (nm_agent maps), map_get t (nm_user maps), map_get t (nm_monitor maps) with
      | Some n, _, _ => (Some n, Some "agent")
      | None, Some n, _ => (Some n, Some "user")
      | None, None, Some n => (Some n, Some "monitor")
      | None, None, None => (Some t, None) end end.

Definition sourceName (maps : NameMaps) (sourceId : option string) : option string :=
  match present_text sourceId with Some s => map_get s (nm_agent maps) | None => None end.

Record AuditView : Type := {
  av_row : AuditRow; av_actorName : option string; av_targetName : option string; av_targetKind : option string
}.

(** *** The lists *)

Record AuditQuery : Type := { aq_page : PageQuery; aq_category : option string; aq_action : option string; aq_actor : option string }.
Record LogQuery : Type := { lq_page : PageQuery; lq_category : option string; lq_level : option string; lq_sourceId : option string }.
Record EventQuery : Type := { eq_page : PageQuery; eq_sourceId : option string; eq_entity : option string }.
Record NotificationQuery : Type := {
  nq_page : PageQuery; nq_severity : option string; nq_acknowledged : option bool; nq_sourceId : option string
}.

Definition listAudit (maps : NameMaps) (t : T AuditRow) (q : AuditQuery) : option (Page AuditView) :=
  list_page audit_ts (fun r => filter_eq (aq_category q) (Some (audit_category r)) && filter_eq (aq_action q) (Some (audit_action r)) &&
      filter_eq (aq_actor q) (audit_actor r) && search (pq_q (aq_page q)) [Some (audit_action r); audit_target r])
    (fun r => let '(name, kind) := resolveTarget maps (audit_target r) in
      {| av_row := r; av_actorName := match present_text (audit_actor r) with Some a => map_get a (nm_user maps) | None => None end;
         av_targetName := name; av_targetKind := kind |})
    (aq_page q) t.

Definition listLogs (maps : NameMaps) (t : T LogRow) (q : LogQuery) : option (Page (LogRow * option string)) :=
  list_page log_ts (fun r => filter_eq (lq_category q) (Some (log_category r)) && filter_eq (lq_level q) (Some (log_level r)) &&
      filter_eq (lq_sourceId q) (log_sourceId r) && search (pq_q (lq_page q)) [Some (log_message r)])
    (fun r => (r, sourceName maps (log_sourceId r))) (lq_page q) t.

Definition listEvents (maps : NameMaps) (t : T StatusEventRow) (q : EventQuery) : option (Page (StatusEventRow * option string)) :=
  list_page ev_ts (fun r => filter_eq (eq_sourceId q) (Some (ev_sourceId r)) && filter_eq (eq_entity q) (Some (ev_entity r)))
    (fun r => (r, sourceName maps (Some (ev_sourceId r)))) (eq_page q) t.

Definition listNotifications (maps : NameMaps) (t : T NotificationRow) (q : NotificationQuery) : option (Page (NotificationRow * option string)) :=
  list_page note_ts (fun r => filter_eq (nq_severity q) (Some (note_severity r)) &&
      match nq_acknowledged q with Some b => Bool.eqb (note_acknowledged r) b | None => true end &&
      filter_eq (nq_sourceId q) (note_sourceId r) && search (pq_q (nq_page q)) [Some (note_title r); Some (note_message r)])
    (fun r => (r, sourceName maps (note_sourceId r))) (nq_page q) t.

Definition acknowledge (r : NotificationRow) : NotificationRow := {|
  note_id := note_id r; note_severity := note_severity r; note_sourceId := note_sourceId r; note_title := note_title r;
  note_message := note_message r; note_plainLanguage := note_plainLanguage r; note_acknowledged := true; note_ts := note_ts r |}.

Definition acknowledgeNotification (t : T NotificationRow) (id : string) : T NotificationRow * bool :=
  let mine r := String.eqb (note_id r) id in
  (update_where mine acknowledge t, bool_decide (is_Some (select_first mine t))).

(** The buckets of a chart; [from] is the instant [hours] before now. *)
Definition listUptime (t : T UptimeBucketRow) (sourceId entity : option string) (from : option Z) : list UptimeBucketRow :=
  firstn 2000 (by_time ub_bucketStart true 2000 0 (select (fun r =>
    filter_eq sourceId (Some (ub_sourceId r)) && filter_eq entity (Some (ub_entity r)) && within from None (ub_bucketStart r)) t)).

Definition get_uptime (now : Z) (t : T UptimeBucketRow) (sourceId entity : option string) (hours : option Z) : list UptimeBucketRow :=
  listUptime t sourceId entity (match hours with Some h => Some (now - h * 3600 * 1000) | None => None end).

(** [z.coerce.boolean()]: [Boolean] of the text of the query. *)
Definition coerce_boolean (s : option string) : option bool := option_map truthy s.

(** [GET /api/notifications] *)
Definition get_notifications (maps : NameMaps) (t : T NotificationRow) (page : PageQuery)
    (severity acknowledged sourceId : option string) : option (Page (NotificationRow * option string)) :=
  listNotifications maps t {| nq_page := page; nq_severity := severity; nq_acknowledged := coerce_boolean acknowledged; nq_sourceId := sourceId |}.
End lists.

(** ** The paging hook *)

Section hook.
Context {E : Type}.
Record PagedList : Type := { pl_rows : list E; pl_total : Z; pl_limit : Z; pl_offset : Z }.
Implicit Types h : PagedList.

Definition pageCount h : Z := Z.max 1 (ceil_div (pl_total h) (pl_limit h)).
Definition page_number h : Z := pl_offset h / pl_limit h + 1.

Definition at_offset (o : Z) h : PagedList :=
  {| pl_rows := pl_rows h; pl_total := pl_total h; pl_limit := pl_limit h; pl_offset := o |}.
Definition next h : PagedList :=
  at_offset (if pl_offset h + pl_limit h <? pl_total h then pl_offset h + pl_limit h else pl_offset h) h.
Definition prev h : PagedList := at_offset (Z.max 0 (pl_offset h - pl_limit h)) h.

(** [load]: what the server answers for the limit and the offset. *)
Definition load (serve : Z -> Z -> Page E) h : PagedList :=
  let res := serve (pl_limit h) (pl_offset h) in
  {| pl_rows := pg_rows res; pl_total := pg_total res; pl_limit := pl_limit h; pl_offset := pl_offset h |}.

Definition opened (limit : Z) : PagedList := {| pl_rows := []; pl_total := 0; pl_limit := limit; pl_offset := 0 |}.

(** The rows seen by pressing next until nothing changes, at most [n] times. *)
Fixpoint walk (serve : Z -> Z -> Page E) (n : nat) h : list E :=
  pl_rows h ++ match n with
               | O => []
               | S n => let h' := next h in
                        if pl_offset h' =? pl_offset h then [] else walk serve n (load serve h') end.
End hook.
Arguments PagedList E : clear implicits.

(** The hook with its requests under way: the filters, the offset, and what is shown. *)
Section requests.
Context {K E : Type} (serve : K -> Z -> list E).
Record ListClient : Type := { c_key : K; c_offset : Z; c_rows : list E; c_flight : list (K * Z) }.
Inductive client_event : Type := FilterChange (k : K) | MoveTo (offset : Z) | Reply (i : nat).

(** A change of filters sends a request for the offset shown, then, once that is reset, for the
    first page; a reply of any request under way is shown. *)
Definition client_step (e : client_event) (c : ListClient) : ListClient :=
  match e with
  | FilterChange k =>
      {| c_key := k; c_offset := 0; c_rows := c_rows c;
         c_flight := c_flight c ++ [(k, c_offset c)] ++ (if c_offset c =? 0 then [] else [(k, 0)]) |}
  | MoveTo o => if o =? c_offset c then c
                else {| c_key := c_key c; c_offset := o; c_rows := c_rows c; c_flight := c_flight c ++ [(c_key c, o)] |}
  | Reply i => match c_flight c !! i with
               | Some (k, o) => {| c_key := c_key c; c_offset := c_offset c; c_rows := serve k o; c_flight := delete i (c_flight c) |}
               | None => c end
  end.
Definition client_run (es : list client_event) (c : ListClient) : ListClient := fold_left (fun c e => client_step e c) es c.
End requests.
Arguments ListClient K E : clear implicits.
Arguments client_event K : clear implicits.

(** ** Every row is on a page, once *)

Section paging.
Context {T : Type -> Type} {ST : Store T} {LT : StoreLaws T} {PG : PgTime} {TI : Ties}.

Lemma by_time_perm {R} (ts : R -> Z) (asc : bool) n o (l : list R) : by_time ts asc n o l ≡ₚ l.
Proof. unfold by_time. rewrite js_sort_perm. apply tie_perm. Qed.

Lemma by_time_sorted {R} (ts : R -> Z) (asc : bool) n o (l : list R) :
  StronglySorted (fun a b => if asc then ts a <= ts b else ts b <= ts a) (by_time ts asc n o l).
Proof.
  unfold by_time. set (gt := fun a b : R => if asc then ts b <? ts a else ts a <? ts b).
  assert (Hs : StronglySorted (fun a b => gt a b = false) (js_sort gt (tie n o l))).
  { apply js_sort_sorted; unfold gt; destruct asc; intros *; lia. }
  induction Hs as [|a l' Hs IH Ha]; constructor; [done|]. eapply Forall_impl; [exact Ha|]. unfold gt. intros b; simpl. destruct asc; lia.
Qed.

(** What a query finds: the rows of its filters and its window, each once, in its order. *)
Lemma matching_spec {R} (ts : R -> Z) p q (t : T R) all : matching ts p q t = Some all ->
  exists lo hi, bound (startIso (pq_from q)) = Some lo /\ bound (endIso (pq_to q)) = Some hi /\
    all ≡ₚ List.filter (fun r => p r && within lo hi (ts r)) (rows t) /\
    StronglySorted (fun a b => if pq_asc q then ts a <= ts b else ts b <= ts a) all.
Proof.
  unfold matching. destruct (bound (startIso _)) as [lo|]; [|done]. destruct (bound (endIso _)) as [hi|]; [|done].
  intros [= <-]. exists lo, hi. do 2 (split; [done|]). split; [apply by_time_perm|apply by_time_sorted].
Qed.

(** The server of a paged list, for a query of which the hook sets the limit and the offset. *)
Definition with_page (q : PageQuery) (limit offset : Z) : PageQuery :=
  {| pq_limit := Some limit; pq_offset := Some offset; pq_from := pq_from q; pq_to := pq_to q; pq_q := pq_q q; pq_asc := pq_asc q |}.

(** With an instant of its own for every row the order is the same on every page. *)
Lemma by_time_unique {R} (ts : R -> Z) asc n o n' o' (l : list R) :
  NoDup (map ts l) -> by_time ts asc n o l = by_time ts asc n' o' l.
Proof.
  intros Hd. eapply StronglySorted_unique_strong; [|apply by_time_sorted|apply by_time_sorted|by rewrite !by_time_perm].
  intros a b Ha Hb Hab Hba. rewrite by_time_perm in Ha, Hb.
  assert (ts a = ts b) as He by (simpl in *; destruct asc; lia).
  apply list_elem_of_lookup in Ha as [i Hi]. apply list_elem_of_lookup in Hb as [j Hj].
  assert (i = j) as ->; [|congruence].
  eapply NoDup_lookup; [exact Hd|..]; rewrite list_lookup_fmap; [by rewrite Hi|by rewrite Hj, He].
Qed.

Lemma matching_page {R} (ts : R -> Z) p q (t : T R) all limit offset :
  matching ts p q t = Some all -> NoDup (map ts all) -> matching ts p (with_page q limit offset) t = Some all.
Proof.
  unfold matching. cbn [with_page pq_from pq_to pq_asc].
  destruct (bound (startIso _)) as [lo|]; [|done]. destruct (bound (endIso _)) as [hi|]; [|done].
  intros [= <-] Hd. f_equal. apply by_time_unique. by rewrite by_time_perm in Hd.
Qed.

Lemma walk_rest {E} (serve : Z -> Z -> Page E) (all : list E) limit n (h : PagedList E) :
  (forall o, 0 <= o -> pg_rows (serve limit o) = firstn (Z.to_nat limit) (skipn (Z.to_nat o) all) /\
                       pg_total (serve limit o) = Z.of_nat (List.length all)) ->
  0 < limit -> pl_limit h = limit -> 0 <= pl_offset h -> pl_total h = Z.of_nat (List.length all) ->
  pl_rows h = firstn (Z.to_nat limit) (skipn (Z.to_nat (pl_offset h)) all) ->
  Z.of_nat (List.length all) <= pl_offset h + limit * (Z.of_nat n + 1) ->
  walk serve n h = skipn (Z.to_nat (pl_offset h)) all.
Proof.
  intros Hserve Hl. revert h. induction n as [|n IH]; intros h Hlim Ho Ht Hr Hn; cbn [walk]; rewrite Hr.
  - rewrite app_nil_r. apply firstn_all2. rewrite length_skipn. lia.
  - unfold next. rewrite Ht, Hlim. destruct (Z.ltb_spec (pl_offset h + limit) (Z.of_nat (List.length all))) as [Hlt|Hge]; cbn [at_offset pl_offset].
    + destruct (Z.eqb_spec (pl_offset h + limit) (pl_offset h)); [lia|]. destruct (Hserve (pl_offset h + limit)) as [Hrows Htot]; [lia|].
      rewrite IH; unfold load; cbn [pl_limit pl_offset pl_rows pl_total at_offset]; rewrite ?Hlim; try done; [|lia|lia].
      replace (Z.to_nat (pl_offset h + limit)) with (Z.to_nat limit + Z.to_nat (pl_offset h))%nat by lia.
      rewrite <- skipn_skipn. apply firstn_skipn.
    + rewrite Z.eqb_refl, app_nil_r. apply firstn_all2. rewrite length_skipn. lia.
Qed.

(** C33: Turning the pages of a list shows everything, when no two rows it finds are of the same
    instant and the table stays as it is: for a limit the server accepts, the hook opened on its
    first page and moved on by next until nothing changes shows, one after another, exactly the rows
    that match the query, each once and in its order, in as many pages as it says there are,
    whatever order the database gives what it need not order ([tied_row_twice] otherwise). *)
Theorem pages_complete {R E} (ts : R -> Z) p (enrich : R -> E) q (t : T R) all limit serve
  (Hm : matching ts p q t = Some all) (Hd : NoDup (map ts all)) (Hl : 1 <= limit <= 500)
  (Hs : forall l o, list_page ts p enrich (with_page q l o) t = Some (serve l o)) :
  let h := load serve (opened limit) in
  walk serve (Z.to_nat (pageCount h - 1)) h = map enrich all /\ pl_total h = Z.of_nat (List.length all) /\
  exists lo hi, bound (startIso (pq_from q)) = Some lo /\ bound (endIso (pq_to q)) = Some hi /\
    all ≡ₚ List.filter (fun r => p r && within lo hi (ts r)) (rows t) /\
    StronglySorted (fun a b => if pq_asc q then ts a <= ts b else ts b <= ts a) all.
Proof.
  assert (Hserve : forall o, 0 <= o -> pg_rows (serve limit o) = firstn (Z.to_nat limit) (skipn (Z.to_nat o) (map enrich all)) /\
    pg_total (serve limit o) = Z.of_nat (List.length (map enrich all))).
  { intros o Ho. specialize (Hs limit o). unfold list_page in Hs. pose proof (matching_page ts p q t all limit o Hm Hd) as Hm'.
    rewrite Hm' in Hs. injection Hs as <-. unfold clampLimit, clampOffset. cbn [with_page pq_limit pq_offset from_option id pg_rows pg_total].
    replace (Z.min (Z.max limit 1) 500) with limit by lia. replace (Z.max o 0) with o by lia.
    by rewrite length_map, skipn_map, firstn_map. }
  intros h. destruct (Hserve 0) as [Hr Ht]; [lia|]. rewrite length_map in Ht.
  split; [|split; [exact Ht|by apply matching_spec]].
  rewrite (walk_rest serve (map enrich all) limit); try done; [lia|by rewrite length_map|].
  cbn [pl_offset opened load h]. rewrite length_map. unfold pageCount, ceil_div.
  change (pl_limit h) with limit. change (pl_total h) with (pg_total (serve limit 0)). rewrite Ht. pose proof (Z.div_mod (- Z.of_nat (List.length all)) limit). pose proof (Z.mod_pos_bound (- Z.of_nat (List.length all)) limit). nia.
Qed.
End paging.

(** ** Searching *)

(** A text without the characters that stand for others. *)
Fixpoint literal (q : string) : bool :=
  match q with
  | EmptyString => true
  | String c q' => negb (Ascii.eqb c "%") && negb (Ascii.eqb c "_") && negb (Ascii.eqb c "\") && literal q' end.

Lemma ilike_any s : ilike "%" s = true.
Proof. induction s as [|c s IH]; [done|]. change (ilike "" (String c s) || ilike "%" s = true). rewrite IH. apply orb_true_r. Qed.

Lemma ilike_prefix q s : literal q = true -> ilike (q +:+ "%") s = startsWith (toLowerCase q) (toLowerCase s).
Proof.
  revert s. induction q as [|c q IH]; intros s Hq; [rewrite app_nil_string, ilike_any; by destruct (toLowerCase s)|].
  cbn [literal] in Hq. apply andb_true_iff in Hq as [[[Hp%negb_true_iff Hu%negb_true_iff]%andb_true_iff Hb%negb_true_iff]%andb_true_iff Hq].
  rewrite app_cons_string. cbn [ilike]. rewrite Hp, Hb. destruct s as [|d s]; [done|]. rewrite Hu. cbn [orb].
  unfold startsWith. unfold toLowerCase. cbn [map_string String.prefix]. rewrite IH by done.
  destruct (ascii_dec (lower c) (lower d)) as [He|Hne].
  - by rewrite He, Ascii.eqb_refl.
  - by apply Ascii.eqb_neq in Hne as ->.
Qed.

(** A search of ordinary characters is what it says: it finds the texts that contain the
    searched one, whatever the case of letters; and a blank search finds everything. *)
Theorem search_contains q columns :
  literal q = true ->
  search (Some q) columns = negb (truthy q) ||
    existsb (fun c => match c with Some c => contains (toLowerCase q) (toLowerCase c) | None => false end) columns.
Proof.
  intros Hq. unfold search, present_text. destruct (truthy q); [|done]. cbn [negb orb].
  assert (Hone : forall s, ilike (pattern q) s = contains (toLowerCase q) (toLowerCase s)).
  { induction s as [|c s IH].
    - change (ilike (q +:+ "%") "" || false = contains (toLowerCase q) ""). rewrite ilike_prefix by done.
      unfold startsWith. destruct (toLowerCase q); done.
    - change (ilike (q +:+ "%") (String c s) || ilike (pattern q) s = contains (toLowerCase q) (toLowerCase (String c s))).
      rewrite IH, ilike_prefix by done. done. }
  induction columns as [|[c|] columns IH]; cbn [existsb]; [done| |done]. by rewrite Hone, IH.
Qed.

(** ** Acknowledging *)

Section acknowledging.
Context {T : Type -> Type} {ST : Store T} {LT : StoreLaws T} {PG : PgTime} {TI : Ties}.

(** Acknowledging marks that notification alone and loses none; it says whether there was one. *)
Lemma acknowledge_one (t : T NotificationRow) id :
  let '(t', found) := acknowledgeNotification t id in
  rows t' ≡ₚ map (fun r => if String.eqb (note_id r) id then acknowledge r else r) (rows t) /\
  (found = true <-> exists r, r ∈ rows t /\ note_id r = id) /\
  forall maps q p, listNotifications maps t'
    {| nq_page := q; nq_severity := None; nq_acknowledged := Some false; nq_sourceId := None |} = Some p ->
    forall v, v ∈ pg_rows p -> note_id v.1 <> id.
Proof.
  unfold acknowledgeNotification. split; [apply rows_update|]. split.
  - rewrite bool_decide_eq_true. split.
    + intros [r Hr]. apply select_first_Some in Hr as [Hr He%String.eqb_eq]. by exists r.
    + intros (r & Hr & He). destruct (select_first _ t) eqn:Hs; [by eexists|].
      rewrite select_first_None in Hs. specialize (Hs r Hr). apply String.eqb_neq in Hs. by destruct Hs.
  - intros maps q p Hp v Hv He. unfold listNotifications, list_page in Hp. destruct (matching _ _ _ _) as [all|] eqn:Hm; [|done].
    injection Hp as <-. cbn [pg_rows] in Hv. apply list_elem_of_In, in_map_iff in Hv as (r & <- & Hr). cbn [fst] in He.
    apply list_elem_of_In in Hr. assert (Hin : r ∈ all).
    { eapply elem_of_sublist; [exact Hr|]. etransitivity; [apply sublist_take|apply sublist_drop]. }
    destruct (matching_spec _ _ _ _ _ Hm) as (lo & hi & _ & _ & Hperm & _). rewrite Hperm in Hin.
    apply elem_of_filterb in Hin as [Hin Hq]. rewrite !andb_true_iff in Hq. destruct Hq as [[[[_ Hack] _] _] _].
    cbn [nq_acknowledged] in Hack. apply elem_of_update in Hin as (x & _ & ->). destruct (String.eqb_spec (note_id x) id) as [|Hne]; [done|].
    by destruct Hne.
Qed.
End acknowledging.

(** ** Replies in order *)

Section replies.
Context {K E : Type} (serve : K -> Z -> list E).
Notation run := (client_run serve).

(** The oldest request is answered first. *)
Definition in_order (e : client_event K) : bool := match e with Reply (S _) => false | _ => true end.

(** What will be shown when every request is answered is what is asked for. *)
Definition settling (c : ListClient K E) : Prop :=
  match last (c_flight c) with
  | Some (k, o) => k = c_key c /\ o = c_offset c
  | None => c_rows c = serve (c_key c) (c_offset c) end.

Lemma settling_step e c : in_order e = true -> settling c -> settling (client_step serve e c).
Proof.
  unfold settling. destruct e as [k|o|i]; intros He Hc; cbn [client_step].
  - cbn [c_flight c_key c_offset]. destruct (Z.eqb_spec (c_offset c) 0) as [Hz|_].
    + rewrite Hz, app_nil_r, last_snoc. done.
    + rewrite app_assoc, last_snoc. done.
  - destruct (Z.eqb_spec o (c_offset c)); [done|]. cbn [c_flight c_key c_offset]. by rewrite last_snoc.
  - destruct i; [|done]. destruct (c_flight c) as [|[k o] l] eqn:Hf; cbn [lookup list_lookup]; [by rewrite Hf|].
    cbn [c_flight c_key c_offset c_rows]. change (delete 0%nat ((k, o) :: l)) with l.
    destruct l as [|x l].
    2: { change (last ((k, o) :: x :: l)) with (last (x :: l)) in Hc. destruct (last (x :: l)) as [[? ?]|] eqn:Hl; [done|].
         by apply last_None in Hl. }
    simpl in Hc. destruct Hc as [-> ->]. done.
Qed.

(** When replies come in the order of their requests, what is shown once none is under way is
    the page asked for under the filters shown, whatever was changed and turned meanwhile. *)
Theorem in_order_shows_current es (c : ListClient K E) :
  forallb in_order es = true -> settling c -> c_flight (run es c) = [] ->
  c_rows (run es c) = serve (c_key (run es c)) (c_offset (run es c)).
Proof.
  intros Hes Hc Hf. enough (Hs : settling (run es c)) by (unfold settling in Hs; by rewrite Hf in Hs).
  clear Hf. revert c Hc. induction es as [|e es IH]; intros c Hc; [done|]. cbn [forallb] in Hes.
  apply andb_true_iff in Hes as [He Hes]. apply IH; [done|]. by apply settling_step.
Qed.
End replies.

(** ** Evaluations *)

Section evaluations.
#[local] Instance w_time : PgTime := Date_parse.
#[local] Instance table_order : Ties :=
  {| tie := fun R limit offset l => l; tie_perm := fun R limit offset l => Permutation_refl l |}.

(** A database that reads its table backwards for a page after the first. *)
Definition later_backwards {R} (offset : Z) (l : list R) : list R := if offset =? 0 then l else List.rev l.
Lemma later_backwards_perm {R} offset (l : list R) : later_backwards offset l ≡ₚ l.
Proof. unfold later_backwards. destruct (offset =? 0); [done|]. symmetry. apply Permutation_rev. Qed.
Definition backwards_later : Ties :=
  {| tie := fun R limit offset l => later_backwards offset l;
     tie_perm := fun R limit offset l => later_backwards_perm offset l |}.

Definition w_note (id : string) (acked : bool) (ts : Z) : NotificationRow := {|
  note_id := id; note_severity := "warn"; note_sourceId := None; note_title := "t"; note_message := "Disk 50% full";
  note_plainLanguage := None; note_acknowledged := acked; note_ts := ts |}.
Definition w_notes : list NotificationRow := [w_note "open" false 1000; w_note "closed" true 2000].
Definition w_query (q : option string) : PageQuery :=
  {| pq_limit := None; pq_offset := None; pq_from := None; pq_to := None; pq_q := q; pq_asc := false |}.
Definition w_maps : NameMaps := {| nm_agent := []; nm_user := []; nm_monitor := [] |}.
Definition ids {E} (p : option (Page (NotificationRow * E))) : list string :=
  match p with Some p => map (fun v => note_id v.1) (pg_rows p) | None => [] end.

(** Asking for the alerts that are not acknowledged gives those that are: the text false is not
    empty. *)
Example acknowledged_false_is_true :
  ids (get_notifications (ST := list_store) w_maps w_notes (w_query None) None (Some "false") None) = ["closed"].
Proof. vm_compute. reflexivity. Qed.

(** A searched underscore or percent sign stands for anything. *)
Example wildcards_not_escaped :
  (search (Some "5_") [Some "50 apples"], search (Some "5%") [Some "5 apples and more"], contains "5_" "50 apples") = (true, true, false).
Proof. vm_compute. reflexivity. Qed.

(** A search that ends in a backslash finds only texts that end in a percent sign. *)
Example trailing_backslash :
  (search (Some "C:\") [Some "on C:\ now"], search (Some "\") [Some "50%"]) = (false, true).
Proof. vm_compute. reflexivity. Qed.

(** Two alerts of one push have the same instant: the pages may show one of them twice and the other
    never, as the order of the two is the database's. *)
Example tied_row_twice :
  let page o := list_page (ST := list_store) (TI := backwards_later) note_ts (fun _ => true) note_id
    (with_page (w_query None) 1 o) [w_note "cpu" false 1000; w_note "disk" false 1000] in
  (option_map pg_rows (page 0), option_map pg_rows (page 1)) = (Some ["cpu"], Some ["cpu"]).
Proof. vm_compute. reflexivity. Qed.

(** A reply that comes late replaces the page of the filters shown. *)
Example late_reply_shown :
  let serve (k : string) (o : Z) := [k +:+ String_of_int o] in
  let c := client_run serve [FilterChange "errors"; Reply 1; Reply 0]
    {| c_key := "all"; c_offset := 50; c_rows := ["all50"]; c_flight := [] |} in
  (c_key c, c_offset c, c_rows c, c_flight c) = ("errors", 0, ["errors50"], []).
Proof. vm_compute. reflexivity. Qed.

Lemma pages_complete_witness :
  let serve l o := default {| pg_rows := []; pg_total := 0; pg_limit := 0; pg_offset := 0 |}
    (list_page (ST := list_store) note_ts (fun _ => true) note_id (with_page (w_query None) l o) w_notes) in
  walk serve 1 (load serve (opened 1)) = ["closed"; "open"].
Proof.
  intros serve. pose proof (pages_complete (T := list) (ST := list_store) note_ts (fun _ => true) note_id (w_query None) w_notes
    [w_note "closed" true 2000; w_note "open" false 1000] 1 serve) as H.
  destruct H as [H _]; [vm_compute; reflexivity|apply (bool_decide_unpack _); vm_compute; exact I|lia| |exact H]. intros l o. reflexivity.
Defined.
Lemma in_order_shows_current_witness :
  let serve (k : string) (o : Z) := [k +:+ String_of_int o] in
  c_rows (client_run serve [FilterChange "errors"; Reply 0; Reply 0]
    {| c_key := "all"; c_offset := 50; c_rows := ["all50"]; c_flight := [] |}) = ["errors0"].
Proof.
  intros serve. rewrite (in_order_shows_current serve [FilterChange "errors"; Reply 0; Reply 0]
    {| c_key := "all"; c_offset := 50; c_rows := ["all50"]; c_flight := [] |}); reflexivity.
Defined.
End evaluations.
