(* ===== verification/Http.v ===== *)
(** * Requests

    What every route of apps/backend/src/routes has around its own work: the guards that Fastify
    runs before it ([preHandler: [app.authenticate, app.requirePermission(...)]], Gate.v and
    Authz.v), the audit row it writes (AuditLog.v) and the forms of its reply. *)
From S2P Require Import Prelude Text Store Schema AuditLog Authz Auth Devices Gate.

Definition with_settings {T : Type -> Type} (t : T SettingRow) (db : AccessDb T) : AccessDb T := {|
  users := users db; groups := groups db; roles := roles db; permissions := permissions db;
  rolePermissions := rolePermissions db; groupRoles := groupRoles db; userGroups := userGroups db;
  userAttributes := userAttributes db; refreshTokens := refreshTokens db; settings := t |}.

(** What is sent. An exception that leaves a handler is answered 500 by Fastify. *)
Inductive reply (B : Type) : Type :=
| Sent (code : Z) (body : B)
| Failed (code : Z) (error : string)
| Thrown.
Arguments Sent {B} code body.
Arguments Failed {B} code error.
Arguments Thrown {B}.

(** The client's address, the time of the request and the id of its audit row. *)
Record RequestEnv : Type := { rq_ip : string; rq_now : Z; rq_auditId : string }.

(** The input of [app.audit(req, { action, category, target, before, after })]. *)
Definition audit_input (action category : string) (target : option string) (before after : option json)
  : AuditEntryInput := {|
  in_actor := None; in_actorRole := None; in_action := action; in_category := category;
  in_target := target; in_before := before; in_after := after; in_ip := None |}.

(** A state with an audit log, and when two states hold the same. *)
Class Audited (T : Type -> Type) (S : Type) : Type := {
  log_of : S -> T AuditRow;
  with_log : T AuditRow -> S -> S;
  same_state : S -> S -> Prop
}.

Section routes.
Context {T : Type -> Type} {ST : Store T}.

(** [app.audit] of a request whose subject is [subject]. *)
Definition app_audit {S} {AS : Audited T S} (rq : RequestEnv) (subject : AuthSubject)
    (input : AuditEntryInput) (st : S) : S :=
  with_log (audit (rq_auditId rq) (rq_now rq) (Some (sub_userId subject)) (Some (rq_ip rq)) input
    (log_of st)) st.

(** [{ preHandler: [app.authenticate, app.requirePermission(action, { allowDevice })] }], where
    [who] is what [authenticate] finds. *)
Definition guarded {S B} (who : auth_outcome) (action : string) (allowDevice : bool) (st : S)
    (handler : AuthSubject -> S * reply B) : S * reply B :=
  match who with
  | Denied error => (st, Failed 401 error)
  | Authenticated subject _ =>
      match requirePermission action allowDevice None (Some subject) with
      | Reply code error _ => (st, Failed code error)
      | Proceed => handler subject
      end
  end.

(** [{ preHandler: [app.authenticate] }] *)
Definition authenticated {S B} (who : auth_outcome) (st : S)
    (handler : AuthSubject -> option string -> S * reply B) : S * reply B :=
  match who with
  | Denied error => (st, Failed 401 error)
  | Authenticated subject deviceId => handler subject deviceId
  end.

(** [if (!parsed.success) return reply.code(400)] *)
Definition with_body {S A B} (body : option A) (st : S) (k : A -> S * reply B) : S * reply B :=
  match body with Some data => k data | None => (st, Failed 400 "invalid_request") end.

Definition not_found {S B} (st : S) : S * reply B := (st, Failed 404 "not_found").

(** [await app.audit(req, ...)], then the reply. *)
Definition record_and {S B} {AS : Audited T S} (rq : RequestEnv) subject (action category : string)
    (target : option string) (before after : option json) (code : Z) (body : B) (st : S) : S * reply B :=
  (app_audit rq subject (audit_input action category target before after) st, Sent code body).

(** ** Lemmas *)

(** Whom a route that asks for [action] lets in. *)
Definition admitted (who : auth_outcome) (action : string) (allowDevice : bool) (subject : AuthSubject) : Prop :=
  (exists dev, who = Authenticated subject dev) /\
  (isDeviceSubject subject = true -> allowDevice = true) /\
  (sub_isOwner subject = true \/ action ∈ sub_permissions subject).

Lemma requirePermission_proceed action allowDevice subject :
  requirePermission action allowDevice None (Some subject) = Proceed <->
  (isDeviceSubject subject = true -> allowDevice = true) /\
  (sub_isOwner subject = true \/ action ∈ sub_permissions subject).
Proof.
  unfold requirePermission, authorize, hasPermission. simpl.
  assert (Hi : includes (sub_permissions subject) action = true <-> action ∈ sub_permissions subject)
    by apply includes_true.
  destruct allowDevice, (isDeviceSubject subject), (sub_isOwner subject) eqn:Eo,
    (includes (sub_permissions subject) action); simpl; naive_solver.
Qed.

(** Either the guard lets the request through to its handler, or nothing happens. *)
Lemma guarded_cases {S B} who action allowDevice (st : S) (handler : AuthSubject -> S * reply B) :
  (exists subject, admitted who action allowDevice subject /\
     guarded who action allowDevice st handler = handler subject) \/
  (exists code error, guarded who action allowDevice st handler = (st, Failed code error) /\
     (code = 401 \/ code = 403) /\ forall subject, ~ admitted who action allowDevice subject).
Proof.
  unfold guarded, admitted. destruct who as [subject dev|error].
  - destruct (requirePermission action allowDevice None (Some subject)) as [|code error why] eqn:E.
    + left. exists subject. apply requirePermission_proceed in E. naive_solver.
    + right. exists code, error. split; [done|]. split.
      * revert E. unfold requirePermission. repeat case_match; try done; intros [= <- <- <-]; by right.
      * intros s ((d & [= <- <-]) & Hd & Hp).
        assert (requirePermission action allowDevice None (Some subject) = Proceed)
          by by apply requirePermission_proceed. congruence.
  - right. exists 401, error. split; [done|]. split; [by left|]. intros s ((d & Hd) & _). done.
Qed.

(** What a request may do to a state [st]: nothing where it is refused; leave the log as it is where
    it throws; where it is answered, nothing if it only reads ([action] is [None]), and otherwise its
    change and the audit row that names its action and its actor. *)
Inductive accounted {S B} {AS : Audited T S} (rq : RequestEnv) (subject : AuthSubject) (st : S)
  : option string -> S * reply B -> Prop :=
| acc_refused action st' code error :
    same_state st st' -> accounted rq subject st action (st', Failed code error)
| acc_read code body : accounted rq subject st None (st, Sent code body)
| acc_thrown action st' : log_of st' = log_of st -> accounted rq subject st (Some action) (st', Thrown)
| acc_written action st1 code body category target before after :
    log_of st1 = log_of st ->
    accounted rq subject st (Some action)
      (app_audit rq subject (audit_input action category target before after) st1, Sent code body).

(** A guarded request is refused by the guard or runs for whom the guard admits. *)
Lemma guarded_accounted {S B} {AS : Audited T S} who permission allowDevice rq action (st : S)
    (handler : AuthSubject -> S * reply B) :
  (forall subject, accounted rq subject st action (handler subject)) ->
  let r := guarded who permission allowDevice st handler in
  (exists subject, admitted who permission allowDevice subject /\ accounted rq subject st action r) \/
  (exists code error, r = (st, Failed code error) /\ (code = 401 \/ code = 403) /\
     forall subject, ~ admitted who permission allowDevice subject).
Proof.
  intros H r. subst r.
  destruct (guarded_cases who permission allowDevice st handler) as [(s & Ha & ->)|Hr]; [left|by right].
  exists s. split; [done|apply H].
Qed.

Lemma guarded_admitted {S B} who permission allowDevice subject (st : S) (handler : AuthSubject -> S * reply B) :
  admitted who permission allowDevice subject -> guarded who permission allowDevice st handler = handler subject.
Proof.
  intros ((dev & ->) & H). unfold guarded.
  by rewrite (proj2 (requirePermission_proceed permission allowDevice subject) H).
Qed.

Lemma record_fine {S B} {AS : Audited T S} rq subject action category target before after code (body : B) (st st1 : S) :
  log_of st1 = log_of st ->
  accounted rq subject st (Some action) (record_and rq subject action category target before after code body st1).
Proof. intros H. by apply acc_written. Qed.

Lemma body_fine {S A B} {AS : Audited T S} rq subject action (st : S) (body : option A) (k : A -> S * reply B) :
  same_state st st -> (forall data, accounted rq subject st action (k data)) ->
  accounted rq subject st action (with_body body st k).
Proof. intros Hs H. destruct body; [apply H|by constructor]. Qed.
End routes.

#[export] Instance auth_audited {T : Type -> Type} : Audited T (AuthState T) := {|
  log_of := auditLog;
  with_log l st := {| master := master st; auditLog := l |};
  same_state := eq |}.
