(* ===== verification/Admin.v ===== *)
(** * The administration of access

    Models routes/users.routes.ts, roles.routes.ts, groups.routes.ts, sessions.routes.ts,
    settings.routes.ts and permissions.routes.ts of apps/backend/src: who may call each route
    (Http.v), what it asks of the services (Directory.v, Auth.v, Settings.v), how it replies and
    which audit row it leaves. A parsed body is [None] where zod rejects it; fresh ids, salts and
    the collation of the database are arguments. *)
From S2P Require Import Prelude Dates Text Store Schema RowUpdates Settings Crypto AuditLog Authz Auth Directory Devices Gate Account Http.

(** What the routes draw: the id of a new row, those of attribute rows, and a salt. *)
Record Draws : Type := { dr_id : string; dr_ids : nat -> string; dr_salt : list Z }.

Record NameBody : Type := { nb_name : option string; nb_description : option string }.
Record CreateBody : Type := { cb_name : string; cb_description : option string; cb_links : option (list string) }.

(** ** The requests *)

Inductive UserCall : Type :=
| get_users
| post_users (body : option CreateUserInput)
| patch_user (id : string) (body : option UpdateUserInput)
| delete_user (id : string)
| put_user_groups (id : string) (body : option (list string))
| put_user_attributes (id : string) (body : option (list Attribute))
| post_2fa_reset (id : string)
| post_unlock (id : string).

Inductive SessionCall : Type :=
| get_user_sessions (id : string)
| post_terminate (id : string)
| delete_one_session (id : string).

Inductive RoleCall : Type :=
| get_roles
| post_roles (body : option CreateBody)
| patch_role (id : string) (body : option NameBody)
| delete_role (id : string)
| put_role_permissions (id : string) (body : option (list string)).

Inductive GroupCall : Type :=
| get_groups
| post_groups (body : option CreateBody)
| patch_group (id : string) (body : option NameBody)
| delete_group (id : string)
| put_group_roles (id : string) (body : option (list string)).

Inductive SettingCall : Type :=
| get_settings
| get_setting (key : string)
| put_setting (key : string) (body : option (option json)).

Inductive AdminBody : Type :=
| Users (rows : list ListedUser) | AUser (user : PublicUser)
| Sessions (rows : list SessionDTO) | Ended (count : nat)
| Roles (rows : list (RoleRow * list string)) | ARole (role : RoleRow)
| Groups (rows : list (GroupRow * list string)) | AGroup (group : GroupRow)
| Permissions (rows : list PermissionRow)
| AllSettings (settings : list (string * json)) | ASetting (key : string) (value : json)
| Done.

(** ** The JSON of audit rows *)

Definition instant (t : Z) : json := JStr (toISOString t).
Definition named_json (id name description : string) (isSystem : bool) (createdAt updatedAt : Z) : json :=
  JObj [("id", JStr id); ("name", JStr name); ("description", JStr description); ("isSystem", JBool isSystem);
    ("createdAt", instant createdAt); ("updatedAt", instant updatedAt)].
Definition role_json (r : RoleRow) : json :=
  named_json (role_id r) (role_name r) (role_description r) (role_isSystem r) (role_createdAt r) (role_updatedAt r).
Definition group_json (g : GroupRow) : json :=
  named_json (group_id g) (group_name g) (group_description g) (group_isSystem g) (group_createdAt g) (group_updatedAt g).
Definition texts (l : list string) : json := JArr (map JStr l).
Definition attribute_json (a : Attribute) : json :=
  JObj [("key", JStr (attribute_key a)); ("value", JStr (attribute_value a))].

Section routes.
Context {T : Type -> Type} {ST : Store T} {HS : Sha256} {HC : Scrypt} {HJ : Jwt}.
Context (after : string -> string -> bool) (rq : RequestEnv) (draws : Draws).
Implicit Types (st : AuthState T) (who : auth_outcome) (subject : AuthSubject).

(** services/permissions.ts; [after] is the order of the database's collation. *)
Definition listPermissions st : list PermissionRow :=
  js_sort (fun a b => after (perm_key a) (perm_key b)) (rows (permissions (master st))).

(** An [await] of a service: its exception leaves the handler. *)
Definition unguarded {A} st (o : outcome A) (k : AuthState T -> A -> AuthState T * reply AdminBody)
  : AuthState T * reply AdminBody :=
  match o with
  | (db, Ok a) => k (set_master st db) a
  | (db, Err _) => (set_master st db, Thrown)
  end.

(** The same inside of [try ... catch (err)]: a protected entity is answered 403. *)
Definition caught {A} st (o : outcome A) (k : AuthState T -> A -> AuthState T * reply AdminBody)
  : AuthState T * reply AdminBody :=
  match o with
  | (db, Err ProtectedEntity) => (set_master st db, Failed 403 "protected_entity")
  | _ => unguarded st o k
  end.

(** users.routes.ts *)
Definition userRoutes who st (call : UserCall) : AuthState T * reply AdminBody :=
  let now := rq_now rq in
  let write := guarded who "users:write" false st in
  match call with
  | get_users => guarded who "users:read" false st (fun _ => (st, Sent 200 (Users (listUsers now (master st)))))
  | post_users body => write (fun subject => with_body body st (fun data =>
      unguarded st (createUser now (dr_id draws) (dr_ids draws) (dr_salt draws) (master st) data) (fun st user =>
        record_and rq subject "user.create" "users" (Some (pu_id user)) None (Some (public_user_json user)) 201 (AUser user) st)))
  | patch_user id body => write (fun subject => with_body body st (fun data =>
      caught st (updateUser now (dr_salt draws) (master st) id data) (fun st user =>
        match user with
        | None => not_found st
        | Some user => record_and rq subject "user.update" "users" (Some id) None (Some (public_user_json user)) 200 (AUser user) st
        end)))
  | delete_user id => guarded who "users:delete" false st (fun subject =>
      caught st (deleteUser (master st) id) (fun st ok =>
        if ok then record_and rq subject "user.delete" "users" (Some id) None None 200 Done st else not_found st))
  | put_user_groups id body => write (fun subject => with_body body st (fun groupIds =>
      unguarded st (setUserGroups (master st) id groupIds) (fun st _ =>
        record_and rq subject "user.set_groups" "users" (Some id) None (Some (JObj [("groupIds", texts groupIds)])) 200 Done st)))
  | put_user_attributes id body => write (fun subject => with_body body st (fun attributes =>
      match getUser (master st) id with
      | None => not_found st
      | Some _ => unguarded st (setUserAttributes now (dr_ids draws) (master st) id attributes) (fun st _ =>
          record_and rq subject "user.set_attributes" "users" (Some id) None
            (Some (JObj [("attributes", JArr (map attribute_json attributes))])) 200 Done st)
      end))
  | post_2fa_reset id => write (fun subject =>
      let '(st', found) := reset_2fa now st id in
      if found then record_and rq subject "2fa.reset" "users" (Some id) None None 200 Done st' else not_found st)
  | post_unlock id => write (fun subject =>
      match getUser (master st) id with
      | None => not_found st
      | Some _ => record_and rq subject "user.unlock" "users" (Some id) None None 200 Done
                    (set_users st (clearLock now (users (master st)) id))
      end)
  end.

(** sessions.routes.ts *)
Definition sessionRoutes who st (call : SessionCall) : AuthState T * reply AdminBody :=
  let now := rq_now rq in
  match call with
  | get_user_sessions id => guarded who "users:read" false st (fun _ =>
      (st, Sent 200 (Sessions (listSessions now (refreshTokens (master st)) id None))))
  | post_terminate id => guarded who "users:write" false st (fun subject =>
      let '(tokens, count) := terminateAllForUser now (refreshTokens (master st)) id None in
      let st := set_tokens st tokens in
      let st := set_users st (bumpTokenVersion (users (master st)) id) in
      record_and rq subject "sessions.terminate_all" "users" (Some id) None
        (Some (JObj [("count", JNum (inject_Z (Z.of_nat count)))])) 200 (Ended count) st)
  | delete_one_session id => guarded who "users:write" false st (fun subject =>
      let '(tokens, ok) := terminateSession now (refreshTokens (master st)) id in
      if ok then record_and rq subject "session.terminate" "users" (Some id) None None 200 Done (set_tokens st tokens)
      else not_found st)
  end.

(** The keys of [a] that are not in [b]. *)
Definition without (a b : list string) : list string := List.filter (fun k => negb (includes b k)) a.

(** roles.routes.ts *)
Definition roleRoutes who st (call : RoleCall) : AuthState T * reply AdminBody :=
  let now := rq_now rq in
  let write := guarded who "roles:write" false st in
  match call with
  | get_roles => guarded who "roles:read" false st (fun _ => (st, Sent 200 (Roles (listRoles (master st)))))
  | post_roles body => write (fun subject => with_body body st (fun data =>
      unguarded st (createRole now (dr_id draws) (cb_name data) (cb_description data) (cb_links data) (master st)) (fun st role =>
        record_and rq subject "role.create" "roles" (Some (role_id role)) None (Some (role_json role)) 201 (ARole role) st)))
  | patch_role id body => write (fun subject => with_body body st (fun data =>
      let before := getRole (master st) id in
      caught st (updateRole now (master st) id (nb_name data) (nb_description data)) (fun st role =>
        match role with
        | None => not_found st
        | Some role => record_and rq subject "role.update" "roles" (Some id) (option_map role_json before) (Some (role_json role)) 200 (ARole role) st
        end)))
  | delete_role id => guarded who "roles:delete" false st (fun subject =>
      let before := getRole (master st) id in
      caught st (deleteRole (master st) id) (fun st ok =>
        if ok then record_and rq subject "role.delete" "roles" (Some id) (option_map role_json before) None 200 Done st
        else not_found st))
  | put_role_permissions id body => write (fun subject => with_body body st (fun keys =>
      let before := getRolePermissionKeys (master st) id in
      unguarded st (setRolePermissions (master st) id keys) (fun st _ =>
        let sorted := js_sort (fun a b => String.ltb b a) keys in
        record_and rq subject "role.set_permissions" "roles" (Some id)
          (Some (JObj [("permissions", texts before)]))
          (Some (JObj [("permissions", texts sorted); ("added", texts (without sorted before));
                       ("removed", texts (without before sorted))])) 200 Done st)))
  end.

(** permissions.routes.ts *)
Definition permissionRoutes who st : AuthState T * reply AdminBody :=
  guarded who "roles:read" false st (fun _ => (st, Sent 200 (Permissions (listPermissions st)))).

(** groups.routes.ts *)
Definition groupRoutes who st (call : GroupCall) : AuthState T * reply AdminBody :=
  let now := rq_now rq in
  let write := guarded who "groups:write" false st in
  match call with
  | get_groups => guarded who "groups:read" false st (fun _ => (st, Sent 200 (Groups (Directory.listGroups (master st)))))
  | post_groups body => write (fun subject => with_body body st (fun data =>
      unguarded st (Directory.createGroup now (dr_id draws) (cb_name data) (cb_description data) (cb_links data) (master st)) (fun st group =>
        record_and rq subject "group.create" "groups" (Some (group_id group)) None (Some (group_json group)) 201 (AGroup group) st)))
  | patch_group id body => write (fun subject => with_body body st (fun data =>
      caught st (Directory.updateGroup now (master st) id (nb_name data) (nb_description data)) (fun st group =>
        match group with
        | None => not_found st
        | Some group => record_and rq subject "group.update" "groups" (Some id) None (Some (group_json group)) 200 (AGroup group) st
        end)))
  | delete_group id => guarded who "groups:delete" false st (fun subject =>
      caught st (Directory.deleteGroup (master st) id) (fun st ok =>
        if ok then record_and rq subject "group.delete" "groups" (Some id) None None 200 Done st else not_found st))
  | put_group_roles id body => write (fun subject => with_body body st (fun roleIds =>
      unguarded st (setGroupRoles (master st) id roleIds) (fun st _ =>
        record_and rq subject "group.set_roles" "groups" (Some id) None (Some (JObj [("roleIds", texts roleIds)])) 200 Done st)))
  end.

(** settings.routes.ts. A body that is no object is refused; its value may be anything, also absent.
    The column of the value takes no null: an absent or null value is an exception of the insert. *)
Definition settingsRoutes who st (call : SettingCall) : AuthState T * reply AdminBody :=
  match call with
  | get_settings => guarded who "settings:read" false st (fun _ =>
      (st, Sent 200 (AllSettings (getAllSettings (settings (master st))))))
  | get_setting key => guarded who "settings:read" false st (fun _ =>
      match getSetting (settings (master st)) key with
      | None => not_found st
      | Some value => (st, Sent 200 (ASetting key value))
      end)
  | put_setting key body => guarded who "settings:write" false st (fun subject => with_body body st (fun value =>
      match value with
      | None | Some JNull => (st, Thrown)
      | Some value =>
          record_and rq subject "settings.update" "settings" (Some key) None
            (Some (JObj [("key", JStr key); ("value", value)])) 200 (ASetting key value)
            (set_master st (with_settings (setSetting (rq_now rq) (settings (master st)) key value) (master st)))
      end))
  end.

(** ** All of them *)

Inductive AdminCall : Type :=
| OfUsers (call : UserCall) | OfSessions (call : SessionCall) | OfRoles (call : RoleCall)
| OfGroups (call : GroupCall) | OfPermissions | OfSettings (call : SettingCall).

Definition admin_routes who st (call : AdminCall) : AuthState T * reply AdminBody :=
  match call with
  | OfUsers c => userRoutes who st c
  | OfSessions c => sessionRoutes who st c
  | OfRoles c => roleRoutes who st c
  | OfGroups c => groupRoutes who st c
  | OfPermissions => permissionRoutes who st
  | OfSettings c => settingsRoutes who st c
  end.
End routes.

(** ** What each request asks for and is recorded as *)

(** The permission of a route. *)
Definition permission_of (call : AdminCall) : string :=
  match call with
  | OfUsers get_users | OfSessions (get_user_sessions _) => "users:read"
  | OfUsers (delete_user _) => "users:delete"
  | OfUsers _ | OfSessions _ => "users:write"
  | OfRoles get_roles | OfPermissions => "roles:read"
  | OfRoles (delete_role _) => "roles:delete"
  | OfRoles _ => "roles:write"
  | OfGroups get_groups => "groups:read"
  | OfGroups (delete_group _) => "groups:delete"
  | OfGroups _ => "groups:write"
  | OfSettings (put_setting _ _) => "settings:write"
  | OfSettings _ => "settings:read"
  end.

(** The action of its audit row; a request that only reads has none. *)
Definition action_of (call : AdminCall) : option string :=
  match call with
  | OfUsers c =>
      match c with
      | get_users => None | post_users _ => Some "user.create" | patch_user _ _ => Some "user.update"
      | delete_user _ => Some "user.delete" | put_user_groups _ _ => Some "user.set_groups"
      | put_user_attributes _ _ => Some "user.set_attributes" | post_2fa_reset _ => Some "2fa.reset"
      | post_unlock _ => Some "user.unlock"
      end
  | OfSessions c =>
      match c with
      | get_user_sessions _ => None | post_terminate _ => Some "sessions.terminate_all"
      | delete_one_session _ => Some "session.terminate"
      end
  | OfRoles c =>
      match c with
      | get_roles => None | post_roles _ => Some "role.create" | patch_role _ _ => Some "role.update"
      | delete_role _ => Some "role.delete" | put_role_permissions _ _ => Some "role.set_permissions"
      end
  | OfGroups c =>
      match c with
      | get_groups => None | post_groups _ => Some "group.create" | patch_group _ _ => Some "group.update"
      | delete_group _ => Some "group.delete" | put_group_roles _ _ => Some "group.set_roles"
      end
  | OfPermissions => None
  | OfSettings (put_setting _ _) => Some "settings.update"
  | OfSettings _ => None
  end.

Section theorems.
Context {T : Type -> Type} {ST : Store T} {HS : Sha256} {HC : Scrypt} {HJ : Jwt}.
Implicit Types (st : AuthState T) (who : auth_outcome).

Lemma set_master_same st : set_master st (master st) = st.
Proof. by destruct st. Qed.

(** What every service does: a call that finds nothing, or a protected entity, changes nothing. *)
Definition harmless {A} (o : @outcome T A) (db : AccessDb T) (nothing : A -> Prop) : Prop :=
  match o with
  | (db', Ok a) => nothing a -> db' = db
  | (db', Err ProtectedEntity) => db' = db
  | _ => True
  end.

Lemma updateUser_harmless now salt db id patch :
  harmless (updateUser now salt db id patch) db (fun u => u = None).
Proof. unfold updateUser, harmless. repeat case_match; simplify_eq/=; naive_solver. Qed.
Lemma deleteUser_harmless db id : harmless (deleteUser db id) db (fun ok => ok = false).
Proof. unfold deleteUser, harmless. repeat case_match; simplify_eq/=; naive_solver. Qed.
Lemma updateRole_harmless now db id name description :
  harmless (updateRole now db id name description) db (fun r => r = None).
Proof. unfold updateRole, harmless. repeat case_match; simplify_eq/=; naive_solver. Qed.
Lemma deleteRole_harmless db id : harmless (deleteRole db id) db (fun ok => ok = false).
Proof. unfold deleteRole, harmless. repeat case_match; simplify_eq/=; naive_solver. Qed.
Lemma updateGroup_harmless now db id name description :
  harmless (Directory.updateGroup now db id name description) db (fun r => r = None).
Proof. unfold Directory.updateGroup, harmless. repeat case_match; simplify_eq/=; naive_solver. Qed.
Lemma deleteGroup_harmless db id : harmless (Directory.deleteGroup db id) db (fun ok => ok = false).
Proof. unfold Directory.deleteGroup, harmless. repeat case_match; simplify_eq/=; naive_solver. Qed.

Section one.
Context (rq : RequestEnv) (subject : AuthSubject) (action : string) (st : AuthState T).
Notation fine := (accounted (T := T) rq subject st (Some action)).

Lemma unguarded_fine {A} (o : @outcome T A) k :
  (forall db a, o = (db, Ok a) -> fine (k (set_master st db) a)) -> fine (unguarded st o k).
Proof. intros H. destruct o as [db [a|e]]; [by apply H|by constructor]. Qed.

Lemma caught_fine {A} (o : @outcome T A) k nothing :
  harmless o (master st) nothing ->
  (forall db a, o = (db, Ok a) -> (nothing a -> db = master st) -> fine (k (set_master st db) a)) ->
  fine (caught st o k).
Proof.
  intros Hh H. destruct o as [db [a|e]]; [by apply H|]. destruct e; try by constructor.
  simpl in Hh. subst db. simpl. rewrite set_master_same. by constructor.
Qed.

End one.

(** A request reaches its handler through the guard of its route. *)
Definition handled (who : auth_outcome) (after : string -> string -> bool) rq draws st call : Prop :=
  exists handler, admin_routes after rq draws who st call = guarded who (permission_of call) false st handler /\
    forall subject, accounted rq subject st (action_of call) (handler subject).

Ltac handler := eexists; split; [reflexivity|]; intros subject; simpl.
Ltac recorded := let db := fresh "db" in intros db ? _; by apply record_fine.
Ltac none_found :=
  let db := fresh "db" in let r := fresh "r" in let Hn := fresh "Hn" in
  intros db r _ Hn; destruct r; [by apply record_fine|]; rewrite Hn by done; rewrite set_master_same; by constructor.

Lemma users_handled who after rq draws st c : handled who after rq draws st (OfUsers c).
Proof.
  destruct c; handler.
  - constructor.
  - apply body_fine; [done|]. intros data. apply unguarded_fine. recorded.
  - apply body_fine; [done|]. intros data. eapply caught_fine; [apply updateUser_harmless|]. none_found.
  - eapply caught_fine; [apply deleteUser_harmless|]. none_found.
  - apply body_fine; [done|]. intros data. apply unguarded_fine. recorded.
  - apply body_fine; [done|]. intros data. destruct (getUser (master st) id); [|by constructor].
    apply unguarded_fine. recorded.
  - unfold reset_2fa. destruct (select_first _ _); [|by constructor]. by apply record_fine.
  - destruct (getUser (master st) id); [|by constructor]. by apply record_fine.
Qed.

Lemma sessions_handled who after rq draws st c : handled who after rq draws st (OfSessions c).
Proof.
  destruct c; handler.
  - constructor.
  - by apply record_fine.
  - unfold terminateSession. destruct (select_first _ _); [by apply record_fine|by constructor].
Qed.

Lemma roles_handled who after rq draws st c : handled who after rq draws st (OfRoles c).
Proof.
  destruct c; handler.
  - constructor.
  - apply body_fine; [done|]. intros data. apply unguarded_fine. recorded.
  - apply body_fine; [done|]. intros data. eapply caught_fine; [apply updateRole_harmless|]. none_found.
  - eapply caught_fine; [apply deleteRole_harmless|]. none_found.
  - apply body_fine; [done|]. intros data. apply unguarded_fine. recorded.
Qed.

Lemma groups_handled who after rq draws st c : handled who after rq draws st (OfGroups c).
Proof.
  destruct c; handler.
  - constructor.
  - apply body_fine; [done|]. intros data. apply unguarded_fine. recorded.
  - apply body_fine; [done|]. intros data. eapply caught_fine; [apply updateGroup_harmless|]. none_found.
  - eapply caught_fine; [apply deleteGroup_harmless|]. none_found.
  - apply body_fine; [done|]. intros data. apply unguarded_fine. recorded.
Qed.

Lemma settings_handled who after rq draws st c : handled who after rq draws st (OfSettings c).
Proof.
  destruct c; handler.
  - constructor.
  - destruct (getSetting _ _); by constructor.
  - apply body_fine; [done|]. intros value. destruct value as [[]|]; try (by apply record_fine); by constructor.
Qed.

(** C8: Every change of access is asked for by somebody who may, and accounted for. A request of the
    administration is refused with nothing changed, or runs for a caller, never a display, who
    owns the installation or holds the permission of the route; then a refusal of the handler
    changes nothing, a request that only reads changes nothing, an answered change leaves exactly
    its own audit row, with the caller as actor, and only an exception may leave a change without one. *)
Theorem admin_accounted after rq draws request_jwt adminToken devices header st call :
  let who := authenticate request_jwt adminToken (rq_now rq) (master st) devices header in
  let r := admin_routes after rq draws who st call in
  (exists subject, admitted who (permission_of call) false subject /\
     accounted rq subject st (action_of call) r) \/
  (exists code error, r = (st, Failed code error) /\ (code = 401 \/ code = 403) /\
     forall subject, ~ admitted who (permission_of call) false subject).
Proof.
  intros who r.
  assert (handled who after rq draws st call) as (handler & E & H).
  { destruct call; auto using users_handled, sessions_handled, roles_handled, groups_handled, settings_handled.
    handler. constructor. }
  subst r. rewrite E. by apply guarded_accounted.
Qed.
End theorems.

(** ** When an edit takes effect *)

Section effects.
Context {T : Type -> Type} {ST : Store T} {LT : StoreLaws T} {HS : Sha256} {HC : Scrypt} {HJ : Jwt}.
Implicit Types (st : AuthState T) (db : AccessDb T) (who : auth_outcome).

(** A request of the user passes the guard of a route that asks for [action]. *)
Definition lets_in db (userId action : string) : Prop :=
  exists subject, resolveSubject db userId = Some subject /\
    requirePermission action false None (Some subject) = Proceed.

(** The accounts of people: ids are unique, and none looks like a display's. *)
Definition people db : Prop :=
  unique_key user_id (users db) /\
  forall u, u ∈ rows (users db) -> startsWith "device:" (user_id u) = false.

Lemma lets_in_spec db user action :
  people db -> user ∈ rows (users db) ->
  lets_in db (user_id user) action <->
  user_disabled user = false /\ (user_isOwner user = true \/ grants db (user_id user) action).
Proof.
  intros [Hk Hd] Hu. unfold lets_in, resolveSubject.
  rewrite (select_first_key user_id _ (users db) user) by (auto using String.eqb_refl; by intros r' ?%String.eqb_eq).
  destruct (user_disabled user); [split; [by intros (? & ? & _)|by intros [? _]]|].
  rewrite <- elem_of_permission_rows. split.
  - intros (s & [= <-] & [_ H]%requirePermission_proceed). simpl in H. by rewrite elem_of_js_set in H.
  - intros [_ H]. eexists. split; [done|]. apply requirePermission_proceed. simpl.
    rewrite elem_of_js_set. split; [|done]. unfold isDeviceSubject. simpl. by rewrite Hd.
Qed.

Context (after : string -> string -> bool) (rq : RequestEnv) (draws : Draws).

(** C7: An edit of access is in force at the next request. Whoever replaces the permissions of a role
    may count on it: right after the reply, a request of any user passes the guard of an action
    exactly when the user is enabled and owns the installation, or has a group with a role that
    gives the action, where the edited role gives the keys asked for that exist and every other role
    what it gave. The same holds for the groups of a user, who holds exactly what the new groups
    give, while nobody else gains or loses anything. *)
Theorem access_edit_effective who st subject (role : RoleRow) (user : UserRow) keys groupIds
    (Hpeople : people (master st)) (Hu : user ∈ rows (users (master st)))
    (Hrole : role ∈ rows (roles (master st))) (Hid : unique_key perm_id (permissions (master st))) :
  let db := master st in
  let catalogued key := exists p, p ∈ rows (permissions db) /\ perm_key p = key in
  (admitted who "roles:write" false subject ->
   let '(st', r) := admin_routes after rq draws who st (OfRoles (put_role_permissions (role_id role) (Some keys))) in
   r = Sent 200 Done /\
   forall action, lets_in (master st') (user_id user) action <->
     user_disabled user = false /\
     (user_isOwner user = true \/
      exists ug gr, ug ∈ rows (userGroups db) /\ ug_userId ug = user_id user /\
        gr ∈ rows (groupRoles db) /\ gr_groupId gr = ug_groupId ug /\
        if String.eqb (gr_roleId gr) (role_id role) then action ∈ keys /\ catalogued action
        else role_grants db (gr_roleId gr) action)) /\
  (admitted who "users:write" false subject ->
   let '(st', r) := admin_routes after rq draws who st (OfUsers (put_user_groups (user_id user) (Some groupIds))) in
   (r = Sent 200 Done -> forall action, lets_in (master st') (user_id user) action <->
      user_disabled user = false /\
      (user_isOwner user = true \/ exists g, g ∈ groupIds /\ group_grants db g action)) /\
   (r <> Sent 200 Done -> forall action, lets_in (master st') (user_id user) action <->
      user_disabled user = false /\ user_isOwner user = true) /\
   forall other action, other ∈ rows (users db) -> user_id other <> user_id user ->
      lets_in (master st') (user_id other) action <-> lets_in db (user_id other) action).
Proof.
  intros db catalogued. split; intros Ha; simpl; rewrite (guarded_admitted _ _ _ _ _ _ Ha); simpl.
  - destruct (setRolePermissions_spec db role keys Hrole Hid) as (db' & E & Hg & Hr).
    assert (Hf : groupRoles db' = groupRoles db /\ userGroups db' = userGroups db /\ users db' = users db).
    { revert E. unfold setRolePermissions. repeat case_match; intros [= <-]; done. }
    destruct Hf as (Hgr & Hug & Hus). fold db. rewrite E. simpl. split; [done|]. intros action.
    rewrite lets_in_spec by (unfold people; by rewrite Hus). rewrite grants_groups. unfold group_grants.
    rewrite Hgr, Hug. split; (intros [Hd H]; split; [done|]); (destruct H as [H|H]; [by left|right]).
    + destruct H as (ug & Hi & Hid' & gr & Hj & Hjd & Hk). exists ug, gr. repeat split; try done.
      destruct (String.eqb_spec (gr_roleId gr) (role_id role)) as [e|n]; [rewrite e in Hk; by apply Hg|by apply Hr].
    + destruct H as (ug & gr & Hi & Hid' & Hj & Hjd & Hk). exists ug. repeat split; try done.
      exists gr. repeat split; try done.
      destruct (String.eqb_spec (gr_roleId gr) (role_id role)) as [e|n]; [rewrite e; by apply Hg|by apply Hr].
  - pose proof (setUserGroups_grants db (user_id user) groupIds) as Hs.
    pose proof (setUserGroups_frame db (user_id user) groupIds) as (_ & _ & _ & Hus).
    fold db. destruct (setUserGroups db (user_id user) groupIds) as [db' r]. simpl in *. destruct Hs as [Ho Hs].
    assert (Hp : people db') by (unfold people; by rewrite Hus).
    assert (Hoth : forall other action, other ∈ rows (users db) -> user_id other <> user_id user ->
      lets_in db' (user_id other) action <-> lets_in db (user_id other) action).
    { intros other action Hin Hne. rewrite !lets_in_spec by (done || by rewrite Hus). by rewrite Ho. }
    assert (Hself : forall action, lets_in db' (user_id user) action <-> user_disabled user = false /\
      (user_isOwner user = true \/ grants db' (user_id user) action)).
    { intros action. apply lets_in_spec; [done|by rewrite Hus]. }
    destruct r as [[]|e]; simpl; (split; [|split; [|done]]); try done.
    + intros _ action. by rewrite Hself, Hs.
    + intros _ action. rewrite Hself. destruct Hs as [_ Hs]. specialize (Hs action). tauto.
Qed.
End effects.

(** The row of an edit of attributes names none of them: the redaction takes the field [key] for a
    secret, and shows the values. The row of a setting loses its key in the same way. *)
Lemma attribute_keys_redacted attributes :
  redact (JObj [("attributes", JArr (map attribute_json attributes))]) =
  JObj [("attributes", JArr (map (fun a => JObj [("key", JStr REDACTED); ("value", JStr (attribute_value a))]) attributes))].
Proof. simpl. rewrite map_map. done. Qed.

(** ** Witnesses *)

Section witnesses.
#[local] Existing Instance toy_sha.
#[local] Existing Instance toy_scrypt.

Definition w_admin : AuthState list :=
  {| master := with_userGroups [{| ug_userId := "u1"; ug_groupId := "id-Viewers" |}]
       (with_users [w_person] w_seeded); auditLog := [] |}.
Definition w_caller : auth_outcome := Authenticated STATIC_ADMIN_SUBJECT None.
Definition w_viewer : RoleRow := {|
  role_id := "id-viewer"; role_name := "viewer"; role_description := "viewer (system role)"; role_isSystem := true;
  role_createdAt := 0; role_updatedAt := 0 |}.
Definition w_env : RequestEnv := {| rq_ip := "10.0.0.1"; rq_now := 5; rq_auditId := "a1" |}.
Definition w_draws : Draws := {| dr_id := "n1"; dr_ids := fun _ => "n2"; dr_salt := [] |}.

Lemma access_edit_effective_witness :
  let '(st', r) := admin_routes (fun a b => String.ltb b a) w_env w_draws w_caller w_admin
    (OfRoles (put_role_permissions "id-viewer" (Some ["backups:restore"; "no:such"]))) in
  r = Sent 200 Done /\ lets_in (master st') "u1" "backups:restore" /\
  ~ lets_in (master st') "u1" "dashboard:read".
Proof.
  destruct (access_edit_effective (fun a b => String.ltb b a) w_env w_draws w_caller w_admin
    STATIC_ADMIN_SUBJECT w_viewer w_person ["backups:restore"; "no:such"] []) as [H _].
  - split; [apply unique_singleton|]. intros u Hu. by apply list_elem_of_singleton in Hu as ->.
  - by apply list_elem_of_singleton.
  - apply list_elem_of_In. vm_compute. tauto.
  - apply (bool_decide_unpack _). vm_compute. exact I.
  - assert (Hw : admitted w_caller "roles:write" false STATIC_ADMIN_SUBJECT).
    { split; [by exists None|]. split; [intros E; vm_compute in E; discriminate|by left]. }
    specialize (H Hw). change (role_id w_viewer) with "id-viewer" in H.
    destruct (admin_routes _ _ _ _ _ _) as [st' r]. destruct H as [Hr H]. split; [done|].
    assert (Hgr : rows (groupRoles (master w_admin)) =
      map (fun '(g, r) => {| gr_groupId := "id-" +:+ g; gr_roleId := "id-" +:+ r |})
        [("Owners", "superadmin"); ("Administrators", "admin"); ("Operators", "operator"); ("Viewers", "viewer")])
      by (vm_compute; reflexivity).
    rewrite Hgr in H. split.
    + apply (proj2 (H "backups:restore")). split; [reflexivity|]. right.
      exists {| ug_userId := "u1"; ug_groupId := "id-Viewers" |}, {| gr_groupId := "id-Viewers"; gr_roleId := "id-viewer" |}.
      split; [by apply list_elem_of_singleton|]. split; [reflexivity|].
      split; [do 3 apply list_elem_of_further; apply list_elem_of_here|]. split; [reflexivity|].
      split; [apply list_elem_of_here|].
      assert (E : existsb (fun p => String.eqb (perm_key p) "backups:restore") (rows (permissions (master w_admin))) = true)
        by (vm_compute; reflexivity).
      apply existsb_true in E as (p & Hp & He%String.eqb_eq). by exists p.
    + intros [_ [E|(ug & gr & Hug & _ & Hg & Hgg & Hk)]]%(H "dashboard:read"); [discriminate|].
      apply list_elem_of_singleton in Hug as ->. simpl in Hgg, Hg.
      rewrite !elem_of_cons in Hg.
      destruct Hg as [->|[->|[->|[->|Hg]]]]; [discriminate|discriminate|discriminate| |inversion Hg].
      destruct Hk as [Hk _]. rewrite !elem_of_cons in Hk. destruct Hk as [Hk|[Hk|Hk]]; [discriminate|discriminate|inversion Hk].
Defined.
End witnesses.
