(* ===== verification/Screens.v ===== *)
(** * Screens

    Models routes/devices.routes.ts, wallboards.routes.ts and ticker.routes.ts of apps/backend/src:
    what a display asks of the server (pairing, reconnecting, its board, its heartbeat, the messages)
    and what operators do to displays, boards and messages; and the page a display shows,
    apps/frontend/src/pages/DeviceDisplay.tsx. A parsed body is [None] where zod rejects it. *)
From S2P Require Import Prelude Dates Text Store Schema RowUpdates Settings AuditLog Authz Auth Directory Devices Wallboards Ticker Gate Http.

(** What the routes work on. *)
Record ScreenState (T : Type -> Type) : Type := {
  sc_auth : AuthState T; sc_walls : WallDb T; sc_ticker : T TickerRow
}.
Arguments sc_auth {T} _. Arguments sc_walls {T} _. Arguments sc_ticker {T} _.

Definition set_auth {T : Type -> Type} (a : AuthState T) (st : ScreenState T) : ScreenState T := {|
  sc_auth := a; sc_walls := sc_walls st; sc_ticker := sc_ticker st |}.
Definition set_walls {T : Type -> Type} (w : WallDb T) (st : ScreenState T) : ScreenState T := {|
  sc_auth := sc_auth st; sc_walls := w; sc_ticker := sc_ticker st |}.
Definition set_layouts {T : Type -> Type} (t : T WallLayoutRow) (st : ScreenState T) : ScreenState T :=
  set_walls (with_layouts t (sc_walls st)) st.
Definition set_ticker {T : Type -> Type} (t : T TickerRow) (st : ScreenState T) : ScreenState T := {|
  sc_auth := sc_auth st; sc_walls := sc_walls st; sc_ticker := t |}.

(** Two databases hold the same rows. *)
Record same_walls {T : Type -> Type} {ST : Store T} (a b : WallDb T) : Prop := {
  same_layouts : same_rows (wallLayouts a) (wallLayouts b);
  same_groups : same_rows (wallDeviceGroups a) (wallDeviceGroups b);
  same_devices : same_rows (wallDevices a) (wallDevices b)
}.

#[export] Instance screen_audited {T : Type -> Type} {ST : Store T} : Audited T (ScreenState T) := {|
  log_of st := auditLog (sc_auth st);
  with_log l st := set_auth {| master := master (sc_auth st); auditLog := l |} st;
  same_state a b := sc_auth a = sc_auth b /\ same_walls (sc_walls a) (sc_walls b) /\
    same_rows (sc_ticker a) (sc_ticker b) |}.

(** What the routes draw: the id of a new row, a device token, and random numbers. *)
Record ScreenDraws : Type := { sd_id : string; sd_token : string; sd_random : nat -> Q }.

(** ** The requests *)

Inductive DeviceCall : Type :=
| post_claim (body : option ClaimInput)
| post_reconnect (fingerprint : option string)
| get_bundle
| post_heartbeat
| get_devices
| post_device (name : option string)
| post_revoke (id : string)
| patch_device_layout (id : string) (layoutId : option (option string))
| patch_device_group (id : string) (groupId : option (option string))
| get_device_groups
| post_device_group (name : option string)
| patch_group_row (id : string) (body : option (option string * option (option string)))
| delete_device_group (id : string)
| delete_device (id : string).

(** A body of a board: its name, description and layout. *)
Record LayoutBody : Type := {
  lb_name : option string; lb_description : option string; lb_layout : option (list (string * json))
}.

Inductive BoardCall : Type :=
| get_boards
| get_board (id : string)
| post_board (body : option (string * LayoutBody))
| patch_board (id : string) (body : option LayoutBody)
| delete_board (id : string)
| post_rotate (id : string) (rotateSec : option Z)
| post_template (id : string) (template : option string)
| post_panel (id : string) (panel : option (list (string * json)))
| post_default (id : string)
| post_clone (id : string) (name : option string).

Inductive TickerCall : Type :=
| get_messages
| get_active_messages
| get_ticker_config
| put_ticker_config (speed : option Z)
| post_message (body : option CreateTickerInput)
| patch_message (id : string) (body : option UpdateTickerInput)
| delete_message (id : string).

Inductive ScreenBody : Type :=
| Paired (deviceId token : string)
| Bundle (name : string) (layout : option WallLayoutDTO)
| DeviceRows (rows : list WallDeviceDTO) | ADevice (device : WallDeviceDTO)
| DeviceGroups (rows : list WallDeviceGroupDTO) | ADeviceGroup (group : WallDeviceGroupDTO)
| Layouts (rows : list WallLayoutDTO) | ALayout (layout : WallLayoutDTO)
| Messages (rows : list TickerMessageDTO) | AMessage (message : TickerMessageDTO)
| Active (rows : list TickerMessageDTO) (speed : Q) | Speed (speed : Q)
| Fine.

(** ** The JSON of audit rows *)

Definition text_or_null (o : option string) : json := match o with Some s => JStr s | None => JNull end.
Definition instant_or_null (o : option Z) : json := text_or_null (option_map toISOString o).
Definition strings (l : list string) : json := JArr (map JStr l).

Definition device_json (d : WallDeviceDTO) : json :=
  JObj [("id", JStr (wd_id d)); ("name", JStr (wd_name d)); ("status", JStr (wd_status d));
    ("pairingCode", text_or_null (wd_pairingCode d)); ("layoutId", text_or_null (wd_layoutId d));
    ("groupId", text_or_null (wd_groupId d)); ("effectiveLayoutId", text_or_null (wd_effectiveLayoutId d));
    ("online", JBool (wd_online d)); ("lastSeenAt", instant_or_null (wd_lastSeenAt d));
    ("approvedAt", instant_or_null (wd_approvedAt d)); ("createdAt", JStr (toISOString (wd_createdAt d)))].
Definition device_group_json (g : WallDeviceGroupDTO) : json :=
  JObj [("id", JStr (wg_id g)); ("name", JStr (wg_name g)); ("layoutId", text_or_null (wg_layoutId g));
    ("createdAt", JStr (toISOString (wg_createdAt g)))].
Definition layout_json (l : WallLayoutDTO) : json :=
  JObj [("id", JStr (wl_id l)); ("name", JStr (wl_name l)); ("description", JStr (wl_description l));
    ("isDefault", JBool (wl_isDefault l)); ("isSystem", JBool (wl_isSystem l)); ("layout", JObj (wl_layout l));
    ("rotateSec", JNum (inject_Z (wl_rotateSec l))); ("template", JStr (wl_template l));
    ("panelConfig", JObj (wl_panelConfig l)); ("createdAt", JStr (toISOString (wl_createdAt l)));
    ("updatedAt", JStr (toISOString (wl_updatedAt l)))].
Definition message_json (m : TickerMessageDTO) : json :=
  JObj [("id", JStr (tm_id m)); ("text", JStr (tm_text m)); ("enabled", JBool (tm_enabled m));
    ("severity", JStr (tm_severity m)); ("priority", JNum (inject_Z (tm_priority m)));
    ("startsAt", text_or_null (tm_startsAt m)); ("endsAt", text_or_null (tm_endsAt m));
    ("deviceGroupIds", strings (tm_deviceGroupIds m)); ("userGroupIds", strings (tm_userGroupIds m));
    ("createdAt", JStr (tm_createdAt m))].

Section routes.
Context {T : Type -> Type} {ST : Store T} {HS : Sha256}.
Context (rq : RequestEnv) (draws : ScreenDraws).
Implicit Types (st : ScreenState T) (who : auth_outcome).

Definition screen_settings st : T SettingRow := settings (master (sc_auth st)).

(** A service that returns the row or nothing: 404, or its audit row and the reply. *)
Definition when_found {A} st (found : option A) (k : A -> ScreenState T * reply ScreenBody)
  : ScreenState T * reply ScreenBody :=
  match found with Some a => k a | None => not_found st end.

(** An [await] of a service: an exception leaves the handler. *)
Definition thrown_or {S A} (set : S -> ScreenState T -> ScreenState T) st (o : S * result ServiceError A)
    (k : ScreenState T -> A -> ScreenState T * reply ScreenBody) : ScreenState T * reply ScreenBody :=
  match o with
  | (s, Ok a) => k (set s st) a
  | (s, Err _) => (set s st, Thrown)
  end.

(** The same where a protected entity is caught. *)
Definition protected_or {S A} (set : S -> ScreenState T -> ScreenState T) st (o : S * result ServiceError A)
    (k : ScreenState T -> A -> ScreenState T * reply ScreenBody) : ScreenState T * reply ScreenBody :=
  match o with
  | (s, Err ProtectedEntity) => (set s st, Failed 403 "protected_entity")
  | _ => thrown_or set st o k
  end.

(** devices.routes.ts *)
Definition deviceRoutes who st (call : DeviceCall) : ScreenState T * reply ScreenBody :=
  let now := rq_now rq in
  let walls := sc_walls st in
  let read := guarded who "devices:read" false st in
  let write := guarded who "devices:write" false st in
  let drop := guarded who "devices:delete" false st in
  match call with
  | post_claim body => with_body body st (fun data =>
      match claimDevice now (sd_token draws) walls data with
      | (w, None) => (set_walls w st, Failed 404 "invalid_code")
      | (w, Some (id, token)) => (set_walls w st, Sent 200 (Paired id token))
      end)
  | post_reconnect fingerprint => with_body fingerprint st (fun f =>
      match reconnectDevice now (sd_token draws) (screen_settings st) walls f with
      | (w, None) => (set_walls w st, Failed 404 "reconnect_failed")
      | (w, Some (id, token)) => (set_walls w st, Sent 200 (Paired id token))
      end)
  | get_bundle => authenticated who st (fun _ deviceId =>
      match nonempty deviceId with
      | None => (st, Failed 403 "device_only")
      | Some id => when_found st (getDeviceBundle walls id) (fun '(name, layoutId) =>
          let layout := match nonempty layoutId with Some l => getLayout (wallLayouts walls) l | None => None end in
          (st, Sent 200 (Bundle name layout)))
      end)
  | post_heartbeat => authenticated who st (fun _ deviceId =>
      match nonempty deviceId with
      | None => (st, Failed 403 "device_only")
      | Some id => (set_walls (touchDevice now walls id) st, Sent 200 Fine)
      end)
  | get_devices => read (fun _ => (st, Sent 200 (DeviceRows (listDevices now walls))))
  | post_device name => write (fun subject => with_body name st (fun name =>
      thrown_or set_walls st (createDevice now (sd_random draws) (sd_id draws) walls name) (fun st device =>
        record_and rq subject "device.create" "devices" (Some (wd_id device)) None (Some (device_json device)) 201 (ADevice device) st)))
  | post_revoke id => write (fun subject =>
      let '(w, device) := revokeDevice now walls id in
      let st := set_walls w st in
      when_found st device (fun device =>
        record_and rq subject "device.revoke" "devices" (Some id) None None 200 (ADevice device) st))
  | patch_device_layout id body => write (fun subject => with_body body st (fun layoutId =>
      thrown_or set_walls st (assignLayout now walls id layoutId) (fun st device => when_found st device (fun device =>
        record_and rq subject "device.assign_layout" "devices" (Some id) None
          (Some (JObj [("layoutId", text_or_null layoutId)])) 200 (ADevice device) st))))
  | patch_device_group id body => write (fun subject => with_body body st (fun groupId =>
      thrown_or set_walls st (assignGroup now walls id groupId) (fun st device => when_found st device (fun device =>
        record_and rq subject "device.assign_group" "devices" (Some id) None
          (Some (JObj [("groupId", text_or_null groupId)])) 200 (ADevice device) st))))
  | get_device_groups => read (fun _ => (st, Sent 200 (DeviceGroups (Devices.listGroups walls))))
  | post_device_group name => write (fun subject => with_body name st (fun name =>
      let '(w, group) := Devices.createGroup now (sd_id draws) walls name in
      record_and rq subject "device_group.create" "devices" (Some (wg_id group)) None
        (Some (device_group_json group)) 201 (ADeviceGroup group) (set_walls w st)))
  | patch_group_row id body => write (fun subject => with_body body st (fun '(name, layoutId) =>
      thrown_or set_walls st (Devices.updateGroup now walls id name layoutId) (fun st group => when_found st group (fun group =>
        record_and rq subject "device_group.update" "devices" (Some id) None
          (Some (device_group_json group)) 200 (ADeviceGroup group) st))))
  | delete_device_group id => drop (fun subject =>
      let '(w, ok) := Devices.deleteGroup walls id in
      let st := set_walls w st in
      if ok then record_and rq subject "device_group.delete" "devices" (Some id) None None 200 Fine st else not_found st)
  | delete_device id => drop (fun subject =>
      let '(w, ok) := deleteDevice walls id in
      let st := set_walls w st in
      if ok then record_and rq subject "device.delete" "devices" (Some id) None None 200 Fine st else not_found st)
  end.

(** wallboards.routes.ts *)
Definition wallboardRoutes who st (call : BoardCall) : ScreenState T * reply ScreenBody :=
  let now := rq_now rq in
  let layouts := wallLayouts (sc_walls st) in
  let read := guarded who "wallboards:read" true st in
  let write := guarded who "wallboards:write" false st in
  match call with
  | get_boards => read (fun _ => (st, Sent 200 (Layouts (listLayouts layouts))))
  | get_board id => read (fun _ => when_found st (getLayout layouts id) (fun layout => (st, Sent 200 (ALayout layout))))
  | post_board body => write (fun subject => with_body body st (fun '(name, data) =>
      let '(t, layout) := createLayout now (sd_id draws) layouts name (lb_description data) (lb_layout data) in
      let st := set_layouts t st in
      match layout with
      | None => (st, Failed 500 "create_failed")
      | Some layout => record_and rq subject "wallboard.create" "wallboards" (Some (wl_id layout)) None
                         (Some (layout_json layout)) 201 (ALayout layout) st
      end))
  | patch_board id body => write (fun subject => with_body body st (fun data =>
      protected_or set_layouts st (updateLayout now layouts id (lb_name data) (lb_description data) (lb_layout data))
        (fun st layout => when_found st layout (fun layout =>
          record_and rq subject "wallboard.update" "wallboards" (Some id) None (Some (layout_json layout)) 200 (ALayout layout) st))))
  | delete_board id => guarded who "wallboards:delete" false st (fun subject =>
      protected_or set_walls st (deleteLayout (sc_walls st) id) (fun st ok =>
        if ok then record_and rq subject "wallboard.delete" "wallboards" (Some id) None None 200 Fine st else not_found st))
  | post_rotate id rotateSec => write (fun subject => with_body rotateSec st (fun sec =>
      let '(t, layout) := setRotateSec now layouts id (inject_Z sec) in
      let st := set_layouts t st in
      when_found st layout (fun layout =>
        record_and rq subject "wallboard.rotate" "wallboards" (Some id) None
          (Some (JObj [("rotateSec", JNum (inject_Z (wl_rotateSec layout)))])) 200 (ALayout layout) st)))
  | post_template id template => write (fun subject => with_body template st (fun template =>
      let '(t, layout) := setTemplate now layouts id template in
      let st := set_layouts t st in
      when_found st layout (fun layout =>
        record_and rq subject "wallboard.template" "wallboards" (Some id) None
          (Some (JObj [("template", JStr (wl_template layout))])) 200 (ALayout layout) st)))
  | post_panel id panel => write (fun subject => with_body panel st (fun panel =>
      let '(t, layout) := setPanelConfig now layouts id panel in
      let st := set_layouts t st in
      when_found st layout (fun layout =>
        record_and rq subject "wallboard.panel" "wallboards" (Some id) None
          (Some (JObj [("panelConfig", JObj (wl_panelConfig layout))])) 200 (ALayout layout) st)))
  | post_default id => write (fun subject =>
      let '(t, layout) := setDefaultLayout now layouts id in
      let st := set_layouts t st in
      when_found st layout (fun layout =>
        record_and rq subject "wallboard.setDefault" "wallboards" (Some id) None None 200 (ALayout layout) st))
  | post_clone id name => write (fun subject => with_body name st (fun name =>
      let '(t, layout) := cloneLayout now (sd_id draws) layouts id name in
      let st := set_layouts t st in
      when_found st layout (fun layout =>
        record_and rq subject "wallboard.clone" "wallboards" (Some (wl_id layout)) None
          (Some (JObj [("from", JStr id)])) 201 (ALayout layout) st)))
  end.

(** ticker.routes.ts *)
Definition tickerRoutes who st (call : TickerCall) : ScreenState T * reply ScreenBody :=
  let now := rq_now rq in
  let t := sc_ticker st in
  let read := guarded who "ticker:read" false st in
  let write := guarded who "ticker:write" false st in
  match call with
  | get_messages => read (fun _ => (st, Sent 200 (Messages (listTicker t))))
  | get_active_messages => guarded who "ticker:read" true st (fun subject =>
      let '(rows, speed) := get_active now (master (sc_auth st)) (wallDevices (sc_walls st)) t subject in
      (st, Sent 200 (Active rows speed)))
  | get_ticker_config => read (fun _ => (st, Sent 200 (Speed (getTickerSpeed (screen_settings st)))))
  | put_ticker_config speed => write (fun subject => with_body speed st (fun px =>
      let '(s, speed) := setTickerSpeed now (screen_settings st) (inject_Z px) in
      let st := set_auth (set_master (sc_auth st) (with_settings s (master (sc_auth st)))) st in
      record_and rq subject "ticker.config" "ticker" (Some "speed") None
        (Some (JObj [("speed", JNum speed)])) 200 (Speed speed) st))
  | post_message body => write (fun subject => with_body body st (fun data =>
      let '(t, message) := createTicker now (sd_id draws) t data in
      record_and rq subject "ticker.create" "ticker" (Some (tm_id message)) None
        (Some (message_json message)) 201 (AMessage message) (set_ticker t st)))
  | patch_message id body => write (fun subject => with_body body st (fun data =>
      let '(t, message) := updateTicker now t id data in
      let st := set_ticker t st in
      when_found st message (fun message =>
        record_and rq subject "ticker.update" "ticker" (Some id) None (Some (message_json message)) 200 (AMessage message) st)))
  | delete_message id => write (fun subject =>
      let '(t, ok) := deleteTicker t id in
      let st := set_ticker t st in
      if ok then record_and rq subject "ticker.delete" "ticker" (Some id) None None 200 Fine st else not_found st)
  end.
End routes.

(** ** What each request asks for and is recorded as *)

Inductive ScreenCall : Type :=
| OfDevices (call : DeviceCall) | OfBoards (call : BoardCall) | OfTicker (call : TickerCall).

Definition screen_routes {T : Type -> Type} {ST : Store T} {HS : Sha256} (rq : RequestEnv) (draws : ScreenDraws)
    (who : auth_outcome) (st : ScreenState T) (call : ScreenCall) : ScreenState T * reply ScreenBody :=
  match call with
  | OfDevices c => deviceRoutes rq draws who st c
  | OfBoards c => wallboardRoutes rq draws who st c
  | OfTicker c => tickerRoutes rq draws who st c
  end.

(** The permission of a route and whether it admits displays; the requests of a display have none. *)
Definition screen_permission (call : ScreenCall) : option (string * bool) :=
  match call with
  | OfDevices (post_claim _ | post_reconnect _ | get_bundle | post_heartbeat) => None
  | OfDevices (get_devices | get_device_groups) => Some ("devices:read", false)
  | OfDevices (delete_device_group _ | delete_device _) => Some ("devices:delete", false)
  | OfDevices _ => Some ("devices:write", false)
  | OfBoards (get_boards | get_board _) => Some ("wallboards:read", true)
  | OfBoards (delete_board _) => Some ("wallboards:delete", false)
  | OfBoards _ => Some ("wallboards:write", false)
  | OfTicker get_active_messages => Some ("ticker:read", true)
  | OfTicker (get_messages | get_ticker_config) => Some ("ticker:read", false)
  | OfTicker _ => Some ("ticker:write", false)
  end.

Definition screen_action (call : ScreenCall) : option string :=
  match call with
  | OfDevices c =>
      match c with
      | post_device _ => Some "device.create" | post_revoke _ => Some "device.revoke"
      | patch_device_layout _ _ => Some "device.assign_layout" | patch_device_group _ _ => Some "device.assign_group"
      | post_device_group _ => Some "device_group.create" | patch_group_row _ _ => Some "device_group.update"
      | delete_device_group _ => Some "device_group.delete" | delete_device _ => Some "device.delete"
      | _ => None
      end
  | OfBoards c =>
      match c with
      | get_boards | get_board _ => None
      | post_board _ => Some "wallboard.create" | patch_board _ _ => Some "wallboard.update"
      | delete_board _ => Some "wallboard.delete" | post_rotate _ _ => Some "wallboard.rotate"
      | post_template _ _ => Some "wallboard.template" | post_panel _ _ => Some "wallboard.panel"
      | post_default _ => Some "wallboard.setDefault" | post_clone _ _ => Some "wallboard.clone"
      end
  | OfTicker c =>
      match c with
      | get_messages | get_active_messages | get_ticker_config => None
      | put_ticker_config _ => Some "ticker.config" | post_message _ => Some "ticker.create"
      | patch_message _ _ => Some "ticker.update" | delete_message _ => Some "ticker.delete"
      end
  end.

(** ** Theorems *)

Section theorems.
Context {T : Type -> Type} {ST : Store T} {LT : StoreLaws T} {HS : Sha256}.
Implicit Types (st : ScreenState T) (who : auth_outcome).

Lemma same_screens st : same_state st st.
Proof. split; [done|]. split; [|done]. split; done. Qed.

(** What is not found leaves every table with its rows. *)
Lemma set_walls_same w st : same_walls (sc_walls st) w -> same_state st (set_walls w st).
Proof. intros H. split; [done|]. by split. Qed.
Lemma set_layouts_same t st : same_rows (wallLayouts (sc_walls st)) t -> same_state st (set_layouts t st).
Proof. intros H. apply set_walls_same. by split. Qed.
Lemma set_devices_same t st :
  same_rows (wallDevices (sc_walls st)) t -> same_state st (set_walls (with_devices t (sc_walls st)) st).
Proof. intros H. apply set_walls_same. by split. Qed.
Lemma set_ticker_same t st : same_rows (sc_ticker st) t -> same_state st (set_ticker t st).
Proof. intros H. split; [done|]. split; [|done]. by split. Qed.

Section one.
Context (rq : RequestEnv) (subject : AuthSubject) (action : string) (st : ScreenState T).
Notation fine := (accounted (T := T) (B := ScreenBody) rq subject st (Some action)).

Lemma found_fine {A} st' (found : option A) k :
  (found = None -> same_state st st') -> (forall a, fine (k a)) -> fine (when_found st' found k).
Proof. intros Hn Hk. destruct found; [apply Hk|]. apply acc_refused. by apply Hn. Qed.

Lemma thrown_fine {S A} set (o : S * result ServiceError A) k :
  (forall s, auditLog (sc_auth (set s st)) = auditLog (sc_auth st)) ->
  (forall s a, o = (s, Ok a) -> fine (k (set s st) a)) -> fine (thrown_or set st o k).
Proof. intros Hs H. destruct o as [s [a|e]]; [by apply H|]. constructor. apply Hs. Qed.

Lemma protected_fine {S A} set (o : S * result ServiceError A) k :
  (forall s, auditLog (sc_auth (set s st)) = auditLog (sc_auth st)) ->
  (forall s, o = (s, Err ProtectedEntity) -> same_state st (set s st)) ->
  (forall s a, o = (s, Ok a) -> fine (k (set s st) a)) -> fine (protected_or set st o k).
Proof.
  intros Hs Hp H. destruct o as [s [a|e]]; [by apply H|].
  destruct e; try (constructor; apply Hs). apply acc_refused. by apply Hp.
Qed.

Lemma ok_fine st' (ok : bool) body category target before after code :
  (ok = false -> same_state st st') -> auditLog (sc_auth st') = auditLog (sc_auth st) ->
  fine (if ok then record_and rq subject action category target before after code body st' else not_found st').
Proof. intros Hn Hl. destruct ok; [by apply record_fine|]. apply acc_refused. by apply Hn. Qed.
End one.

(** A display is in no group that does not exist. *)
Definition groups_exist (w : WallDb T) : Prop :=
  forall d g, d ∈ rows (wallDevices w) -> dev_groupId d = Some g ->
    exists r, r ∈ rows (wallDeviceGroups w) /\ dgroup_id r = g.

(** A request reaches its handler through the guard of its route. *)
Definition screen_handled who rq draws st call : Prop :=
  forall permission allowDevice, screen_permission call = Some (permission, allowDevice) ->
  exists handler, screen_routes rq draws who st call = guarded who permission allowDevice st handler /\
    forall subject, accounted rq subject st (screen_action call) (handler subject).

Ltac handler := intros permission allowDevice [= <- <-]; eexists; split; [reflexivity|]; intros subject; simpl.
Ltac parsed := apply body_fine; [apply same_screens|]; intros data.
Ltac recorded := intros; by apply record_fine.

Lemma devices_handled who rq draws st c :
  groups_exist (sc_walls st) -> screen_handled who rq draws st (OfDevices c).
Proof.
  intros Hfk. destruct c; try done; handler.
  - constructor.
  - parsed. apply thrown_fine; [done|recorded].
  - apply found_fine; [|recorded]. intros Hn. apply set_devices_same, update_nothing. by destruct (select_first _ _).
  - parsed. apply thrown_fine; [done|]. intros w device E. apply found_fine; [|recorded]. intros ->.
    revert E. unfold assignLayout, update_device_fk, update_device. case_match; [done|].
    destruct (update_returning _ _ _) as [t [row|]] eqn:E; [done|]. intros [= <-].
    apply set_devices_same. exact (returning_nothing _ _ _ _ E).
  - parsed. apply thrown_fine; [done|]. intros w device E. apply found_fine; [|recorded]. intros ->.
    revert E. unfold assignGroup, update_device_fk, update_device. case_match; [done|].
    destruct (update_returning _ _ _) as [t [row|]] eqn:E; [done|]. intros [= <-].
    apply set_devices_same. exact (returning_nothing _ _ _ _ E).
  - constructor.
  - parsed. by apply record_fine.
  - parsed. destruct data as [name layoutId]. apply thrown_fine; [done|]. intros w group E.
    apply found_fine; [|recorded]. intros ->. revert E. unfold Devices.updateGroup.
    destruct (update_returning _ _ _) as [t [row|]]; [by case_match|]. intros [= <-]. by apply set_walls_same.
  - apply (ok_fine rq subject _ st); [|done]. intros Hn. apply set_walls_same. unfold Devices.deleteGroup in *. simpl in Hn.
    split; simpl; [done|by apply delete_nothing|]. apply update_nothing. apply select_first_None. intros d Hd.
    apply bool_decide_eq_false. intros Hg. destruct (Hfk d id Hd Hg) as (r & Hr & He).
    pose proof (proj1 (existsb_false _ (rows (wallDeviceGroups (sc_walls st)))) Hn r Hr) as Hb.
    apply String.eqb_neq in Hb. done.
  - apply (ok_fine rq subject _ st); [|done]. intros Hn. apply set_devices_same. by apply delete_nothing.
Qed.

Lemma boards_handled who rq draws st c : screen_handled who rq draws st (OfBoards c).
Proof.
  destruct c; handler.
  - constructor.
  - destruct (getLayout _ _); constructor. apply same_screens.
  - parsed. destruct data as [name data]. by apply record_fine.
  - parsed. apply protected_fine; [done| |].
    + intros t E. apply set_layouts_same. revert E. unfold updateLayout. repeat case_match; intros [=]; by subst.
    + intros t layout E. apply found_fine; [|recorded]. intros ->. apply set_layouts_same.
      revert E. unfold updateLayout. destruct (select_first _ _); [|by intros [= <-]]. case_match; [done|].
      destruct (update_returning _ _ _) as [t' [r|]] eqn:E; [done|]. intros [= <-]. exact (returning_nothing _ _ _ _ E).
  - apply protected_fine; [done| |].
    + intros w E. apply set_walls_same. revert E. unfold deleteLayout. repeat case_match; intros [=]; by subst.
    + intros w ok E. apply ok_fine; [|done]. intros ->. apply set_walls_same.
      revert E. unfold deleteLayout. repeat case_match; intros [=]; by subst.
  - parsed. apply found_fine; [|recorded]. intros Hn. apply set_layouts_same, update_nothing. by destruct (select_first _ _).
  - parsed. apply found_fine; [|recorded]. intros Hn. apply set_layouts_same, update_nothing. by destruct (select_first _ _).
  - parsed. apply found_fine; [|recorded]. intros Hn. apply set_layouts_same, update_nothing. by destruct (select_first _ _).
  - destruct (setDefaultLayout _ _ _) as [t layout] eqn:E. apply found_fine; [|recorded]. intros ->.
    apply set_layouts_same. revert E. unfold setDefaultLayout, update_layout, update_returning.
    destruct (select_first (is_layout id) _) as [x|] eqn:Hx; [|by intros [= <-]]. simpl. intros [= _ Hn].
    exfalso. apply select_first_Some in Hx as [Hx Hid].
    assert (H0 : select_first (is_layout id) (update_where layout_isDefault (set_layout_isDefault false) (wallLayouts (sc_walls st))) = None)
      by by destruct (select_first _ _).
    rewrite select_first_None in H0. specialize (H0 (if layout_isDefault x then set_layout_isDefault false x else x)).
    rewrite elem_of_update in H0. assert (is_layout id x = false) as Hf; [|congruence].
    rewrite <- H0 by eauto. by destruct (layout_isDefault x).
  - parsed. unfold cloneLayout. destruct (select_first _ _); simpl; [by apply record_fine|]. constructor. apply set_layouts_same. done.
Qed.

Lemma ticker_handled who rq draws st c : screen_handled who rq draws st (OfTicker c).
Proof.
  destruct c; handler.
  - constructor.
  - constructor.
  - constructor.
  - parsed. by apply record_fine.
  - parsed. by apply record_fine.
  - parsed. apply found_fine; [|recorded]. intros Hn. apply set_ticker_same, update_nothing. by destruct (select_first _ _).
  - apply (ok_fine rq subject _ st); [|done]. intros Hn. apply set_ticker_same. by apply delete_nothing.
Qed.

(** Every change of a screen, a board or a message is asked for by somebody who may, and accounted
    for; and what displays ask for touches nothing but displays. A guarded request is refused with
    nothing changed or runs for an admitted caller and is accounted for; a request of the pairing
    and display slice writes at most the table of displays. *)
Theorem screens_accounted rq draws who st call (Hfk : groups_exist (sc_walls st)) :
  let r := screen_routes rq draws who st call in
  match screen_permission call with
  | Some (permission, allowDevice) =>
      (exists subject, admitted who permission allowDevice subject /\
         accounted rq subject st (screen_action call) r) \/
      (exists code error, r = (st, Failed code error) /\ (code = 401 \/ code = 403) /\
         forall subject, ~ admitted who permission allowDevice subject)
  | None =>
      r.2 <> Thrown /\ (r.1 = st \/ exists t, r.1 = set_walls (with_devices t (sc_walls st)) st)
  end.
Proof.
  intros r. destruct (screen_permission call) as [[permission allowDevice]|] eqn:E.
  - assert (screen_handled who rq draws st call) as H.
    { destruct call; auto using devices_handled, boards_handled, ticker_handled. }
    destruct (H _ _ E) as (handler & Er & Ha). subst r. rewrite Er. by apply guarded_accounted.
  - destruct call as [c|c|c]; [|by destruct c..]. subst r. clear Hfk.
    assert (Hsame : set_walls (sc_walls st) st = st) by by destruct st.
    destruct c; try done; simpl.
    + destruct body as [data|]; simpl; [|auto]. unfold claimDevice.
      repeat case_match; simplify_eq/=; (split; [done|]); rewrite ?Hsame; eauto.
    + destruct fingerprint as [f|]; simpl; [|auto]. unfold reconnectDevice.
      repeat case_match; simplify_eq/=; (split; [done|]); rewrite ?Hsame; eauto.
    + unfold authenticated, when_found, not_found. repeat case_match; simpl; auto.
    + unfold authenticated. repeat case_match; simpl; eauto.
Qed.
End theorems.

(** ** From the operator to the screen *)

Section delivery.
Context {T : Type -> Type} {ST : Store T} {LT : StoreLaws T} {HS : Sha256} {HJ : Jwt}.
Context (rj : option string -> Z -> option Claims) (adminToken : option string) (raw : string).
Implicit Types (st : ScreenState T) (who : auth_outcome).

(** The token a display keeps, and the header of its requests. *)
Definition token : string := "wd_" +:+ raw.
Definition bearer : option string := Some ("Bearer " +:+ token).

(** The display polls its board. *)
Definition poll rq draws st : ScreenState T * reply ScreenBody :=
  screen_routes rq draws (authenticate rj adminToken (rq_now rq) (master (sc_auth st)) (wallDevices (sc_walls st)) bearer)
    st (OfDevices get_bundle).

(** [d] is the approved display that holds the token. *)
Record holds st (d : WallDeviceRow) : Prop := {
  h_row : d ∈ rows (wallDevices (sc_walls st));
  h_unique : unique_key dev_id (wallDevices (sc_walls st));
  h_token : has_token token d = true;
  h_only : forall d', d' ∈ rows (wallDevices (sc_walls st)) -> has_token token d' = true -> d' = d
}.

Lemma resolve_holder now (settings : T SettingRow) st d :
  holds st d ->
  resolveDeviceToken now settings (wallDevices (sc_walls st)) token =
    if negb (String.eqb (dev_status d) "approved") then None
    else if expired now settings d then None else Some d.
Proof.
  intros [Hr Hu Ht Ho]. unfold resolveDeviceToken.
  destruct (select_first (has_token token) _) as [d'|] eqn:Hs.
  - apply select_first_Some in Hs as [Hr' Ht']. by rewrite (Ho d' Hr' Ht').
  - rewrite select_first_None in Hs. rewrite Hs in Ht by done. done.
Qed.

Context (Hadmin : adminToken <> Some token).

Lemma authenticate_bearer now st :
  authenticate rj adminToken now (master (sc_auth st)) (wallDevices (sc_walls st)) bearer =
    match resolveDeviceToken now (screen_settings st) (wallDevices (sc_walls st)) token with
    | None => Denied "unauthorized"
    | Some d => Authenticated (deviceSubject (dev_id d)) (Some (dev_id d))
    end.
Proof.
  unfold authenticate.
  assert ((match adminToken with
    | Some t => truthy t && bool_decide (bearer = Some ("Bearer " +:+ t)) | None => false end) = false) as ->.
  { destruct adminToken as [t|]; [|done]. apply andb_false_iff. right. apply bool_decide_eq_false.
    unfold bearer. intros [= E]. apply Hadmin. f_equal. symmetry. exact E. }
  assert (Hb : match bearer with Some h => startsWith "Bearer wd_" h | None => false end = true).
  { unfold bearer, token. exact (startsWith_app "Bearer wd_" raw). }
  rewrite Hb. assert (after_bearer (default "" bearer) = token) as ->; [|done].
  unfold after_bearer, bearer, token. simpl. change ("" +:+ raw) with raw. by rewrite substring_all.
Qed.

(** What a poll answers. *)
Lemma poll_spec rq draws st d :
  holds st d -> dev_id d <> "" ->
  poll rq draws st =
    if negb (String.eqb (dev_status d) "approved") || expired (rq_now rq) (screen_settings st) d
    then (st, Failed 401 "unauthorized")
    else (st, Sent 200 (Bundle (dev_name d)
      match nonempty (or_else (dev_layoutId d)
        match nonempty (dev_groupId d) with Some g => group_layout (sc_walls st) g | None => None end) with
      | Some l => getLayout (wallLayouts (sc_walls st)) l | None => None end)).
Proof.
  intros H Hne. unfold poll. simpl. rewrite authenticate_bearer, (resolve_holder _ _ _ _ H).
  destruct (String.eqb (dev_status d) "approved"); simpl; [|done]. destruct (expired _ _ _); [done|]. simpl. unfold truthy. rewrite (proj2 (String.eqb_neq _ _) Hne). simpl.
  unfold getDeviceBundle. rewrite (select_first_key dev_id _ _ d); [done| | | |].
  - apply (h_unique _ _ H).
  - apply (h_row _ _ H).
  - apply String.eqb_refl.
  - by intros r' ?%String.eqb_eq.
Qed.

(** A state whose table of displays is that of [st] after an update of the display's row, of what is
    neither its id nor its token. *)
Lemma holds_update st st' d f :
  holds st d -> (forall r, dev_id (f r) = dev_id r) -> (forall r, has_token token (f r) = has_token token r) ->
  wallDevices (sc_walls st') = update_where (by_id (dev_id d)) f (wallDevices (sc_walls st)) ->
  holds st' (f d).
Proof.
  intros [Hr Hu Ht Ho] Hid Htk E. split; rewrite ?E.
  - apply elem_of_update. exists d. split; [done|]. unfold by_id. by rewrite String.eqb_refl.
  - by apply unique_key_update.
  - by rewrite Htk.
  - intros d'. rewrite elem_of_update. intros (r & Hr' & ->).
    destruct (by_id (dev_id d) r) eqn:Eb; [rewrite Htk|]; intros Hk; rewrite (Ho r Hr' Hk) in *; [done|].
    unfold by_id in Eb. by rewrite String.eqb_refl in Eb.
Qed.

Lemma holds_same st st' d : holds st d -> wallDevices (sc_walls st') = wallDevices (sc_walls st) -> holds st' d.
Proof. intros [Hr Hu Ht Ho] E. split; rewrite ?E; done. Qed.

(** A display that is let in is served the board assigned to it. *)
Lemma poll_shows rq draws st d l :
  holds st d -> dev_id d <> "" -> dev_status d = "approved" -> expired (rq_now rq) (screen_settings st) d = false ->
  layout_id l <> "" -> getLayout (wallLayouts (sc_walls st)) (layout_id l) = Some (layout_toDTO l) ->
  or_else (dev_layoutId d)
    match nonempty (dev_groupId d) with Some g => group_layout (sc_walls st) g | None => None end = Some (layout_id l) ->
  poll rq draws st = (st, Sent 200 (Bundle (dev_name d) (Some (layout_toDTO l)))).
Proof.
  intros H Hne Hok Hlive Hln Hget Hb. rewrite (poll_spec rq draws st d H Hne), Hok, Hlive, Hb. simpl.
  unfold truthy. rewrite (proj2 (String.eqb_neq _ _) Hln). simpl. by rewrite Hget.
Qed.

(** A board assigned to a display, or to its group, is what the display is served at its next poll,
    and a revoked display is served nothing. An operator assigns a stored board to an approved
    display: the request is answered 200, and from then on, as long as its session has not expired,
    the poll of the display with its own token answers that board; the same holds when the board is
    assigned to the group of a display without a board of its own. Once the display is revoked its
    poll is refused, with its token, from the next request on. *)
Theorem board_reaches_screen rq draws rq' draws' who subject st d l
    (Hd : holds st d) (Hne : dev_id d <> "") (Hok : dev_status d = "approved")
    (Hlive : expired (rq_now rq') (screen_settings st) d = false)
    (Hl : l ∈ rows (wallLayouts (sc_walls st))) (Hul : unique_key layout_id (wallLayouts (sc_walls st)))
    (Hln : layout_id l <> "") (Hw : admitted who "devices:write" false subject) :
  let shown st' := poll rq' draws' st' = (st', Sent 200 (Bundle (dev_name d) (Some (layout_toDTO l)))) in
  (let '(st', r) := screen_routes rq draws who st (OfDevices (patch_device_layout (dev_id d) (Some (Some (layout_id l))))) in
   (exists device, r = Sent 200 (ADevice device)) /\ shown st') /\
  (forall g name, dev_layoutId d = None -> dev_groupId d = Some (dgroup_id g) -> dgroup_id g <> "" ->
     g ∈ rows (wallDeviceGroups (sc_walls st)) -> unique_key dgroup_id (wallDeviceGroups (sc_walls st)) ->
     let '(st', r) := screen_routes rq draws who st (OfDevices (patch_group_row (dgroup_id g) (Some (name, Some (Some (layout_id l)))))) in
     (exists group, r = Sent 200 (ADeviceGroup group)) /\ shown st') /\
  (let '(st', r) := screen_routes rq draws who st (OfDevices (post_revoke (dev_id d))) in
   (exists device, r = Sent 200 (ADevice device)) /\ exists error, poll rq' draws' st' = (st', Failed 401 error)).
Proof.
  intros shown. set (board := Some (layout_id l)).
  assert (Hget : getLayout (wallLayouts (sc_walls st)) (layout_id l) = Some (layout_toDTO l)).
  { unfold getLayout. rewrite (select_first_key layout_id _ _ l); try done; [apply String.eqb_refl|].
    by intros r' ?%String.eqb_eq. }
  assert (Hfk : fk_ok layout_id (wallLayouts (sc_walls st)) board = true).
  { simpl. apply existsb_true. exists l. by rewrite String.eqb_refl. }
  assert (Hby : by_id (dev_id d) d = true) by apply String.eqb_refl.
  assert (Hsel : select_first (by_id (dev_id d)) (wallDevices (sc_walls st)) = Some d).
  { apply (select_first_key dev_id); [apply Hd|apply Hd|done|]. by intros r' ?%String.eqb_eq. }
  split; [|split].
  - simpl. rewrite (guarded_admitted _ _ _ _ _ _ Hw). simpl. fold board. unfold assignLayout, update_device_fk.
    rewrite Hfk. simpl. rewrite Hsel. simpl. split; [by eexists|].
    set (f := fun r => set_dev_layoutId board (set_dev_updatedAt (rq_now rq) r)).
    apply (poll_shows rq' draws' _ (f d) l); try done. by apply (holds_update st _ d f).
  - intros g name Hno Hg Hgn Hgr Hgu. simpl. rewrite (guarded_admitted _ _ _ _ _ _ Hw). simpl. fold board.
    unfold Devices.updateGroup, update_returning.
    assert (Hgs : select_first (fun x => String.eqb (dgroup_id x) (dgroup_id g)) (wallDeviceGroups (sc_walls st)) = Some g).
    { apply (select_first_key dgroup_id); try done; [apply String.eqb_refl|]. by intros r' ?%String.eqb_eq. }
    rewrite Hgs. simpl option_map. cbn iota beta. change (default None (Some board)) with board. rewrite Hfk. simpl. split; [by eexists|].
    apply (poll_shows rq' draws' _ d l); try done; [by apply (holds_same st)|].
    rewrite Hno, Hg. simpl. unfold truthy. rewrite (proj2 (String.eqb_neq _ _) Hgn). simpl.
    unfold group_layout. cbn [wallDeviceGroups with_deviceGroups].
    set (f := fun r => set_dgroup_layoutId board (opt_set set_dgroup_name name (set_dgroup_updatedAt (rq_now rq) r))).
    assert (Hfid : forall r, dgroup_id (f r) = dgroup_id r) by (intros r; unfold f; by destruct name).
    rewrite (select_first_key dgroup_id _ _ (f g)); [done| | | |].
    + by apply unique_key_update.
    + apply elem_of_update. exists g. by rewrite String.eqb_refl.
    + by rewrite Hfid, String.eqb_refl.
    + intros r' Hr'%String.eqb_eq. by rewrite Hfid.
  - simpl. rewrite (guarded_admitted _ _ _ _ _ _ Hw). simpl. rewrite Hsel. simpl. split; [by eexists|].
    unfold poll. rewrite (authenticate_bearer _ _). simpl. exists "unauthorized".
    unfold resolveDeviceToken. destruct (select_first (has_token token) _) as [r|] eqn:Hs; [|done].
    exfalso. apply select_first_Some in Hs as [Hr Ht]. apply elem_of_update in Hr as (x & Hx & ->).
    destruct (by_id (dev_id d) x) eqn:E.
    + unfold has_token in Ht. by apply bool_decide_eq_true in Ht.
    + rewrite (h_only _ _ Hd x Hx Ht) in E. congruence.
Qed.
End delivery.

(** ** The page of a display

    apps/frontend/src/pages/DeviceDisplay.tsx: the state of the page and of its local storage. Each
    function is an event of the page, run to its end: the requests it makes are answered, or fail,
    before the next event. *)

(** What becomes of a request: it is answered, it never runs, or it runs and its answer is lost. An
    answer 500 of the server is one of the last two. *)
Inductive fate : Type := IsAnswered | NeverRuns | AnswerLost.
Definition exchange {S R : Type} (n : fate) (served : S * R) (st : S) : S * option R :=
  match n with
  | IsAnswered => (fst served, Some (snd served))
  | NeverRuns => (st, None)
  | AnswerLost => (fst served, None)
  end.

(** The fates of the requests one poll may make. *)
Record Network : Type := { n_ask : fate; n_refresh : fate; n_retry : fate; n_reconnect : fate }.
Definition reliable : Network := {|
  n_ask := IsAnswered; n_refresh := IsAnswered; n_retry := IsAnswered; n_reconnect := IsAnswered |}.

Inductive Phase : Type := CodePhase | ReadyPhase.

Record Screen : Type := {
  s_id : option string; s_token : option string; s_fp : option string;
  s_tokens : option (string * string); s_phase : Phase;
  s_bundle : option (string * option WallLayoutDTO); s_code : string; s_err : option string; s_busy : bool
}.

Section page.
Context {T : Type -> Type} {ST : Store T} {HS : Sha256} {HJ : Jwt}.
Context (rj : option string -> Z -> option Claims) (adminToken : option string) (config : AuthConfig) (uuid : string).
Implicit Types (st : ScreenState T) (scr : Screen).

(** [fingerprint()]: [uuid] is a fresh id, or what replaces it. *)
Definition fingerprint scr : Screen * string :=
  match nonempty (s_fp scr) with
  | Some fp => (scr, fp)
  | None => ({| s_id := s_id scr; s_token := s_token scr; s_fp := Some uuid; s_tokens := s_tokens scr;
                s_phase := s_phase scr; s_bundle := s_bundle scr; s_code := s_code scr; s_err := s_err scr;
                s_busy := s_busy scr |}, uuid)
  end.

Definition unpair scr : Screen := {|
  s_id := None; s_token := None; s_fp := s_fp scr; s_tokens := None; s_phase := CodePhase; s_bundle := None;
  s_code := ""; s_err := s_err scr; s_busy := s_busy scr |}.

(** What a successful reply stores; [tokens] are the credentials of the fetch client. *)
Definition paired (deviceId token : string) (tokens : option (string * string)) scr : Screen := {|
  s_id := Some deviceId; s_token := Some token; s_fp := s_fp scr; s_tokens := tokens; s_phase := ReadyPhase;
  s_bundle := s_bundle scr; s_code := s_code scr; s_err := s_err scr; s_busy := s_busy scr |}.

Definition tryReconnect (n : fate) rq draws st scr : ScreenState T * Screen * bool :=
  let '(scr, fp) := fingerprint scr in
  match exchange n (screen_routes rq draws (Denied "unauthorized") st (OfDevices (post_reconnect (nonempty (Some fp))))) st with
  | (st', Some (Sent _ (Paired deviceId token))) => (st', paired deviceId token (Some (token, token)) scr, true)
  | (st', _) => (st', scr, false)
  end.

(** The page is opened: the stored token decides its phase, and without one it reconnects. *)
Definition open_page (n : fate) rq draws st scr : ScreenState T * Screen :=
  match nonempty (s_token scr) with
  | Some _ => (st, {| s_id := s_id scr; s_token := s_token scr; s_fp := s_fp scr; s_tokens := s_tokens scr;
                      s_phase := ReadyPhase; s_bundle := None; s_code := ""; s_err := None; s_busy := false |})
  | None =>
      let scr := {| s_id := s_id scr; s_token := s_token scr; s_fp := s_fp scr; s_tokens := s_tokens scr;
                    s_phase := CodePhase; s_bundle := None; s_code := ""; s_err := None; s_busy := false |} in
      let '(st, scr, _) := tryReconnect n rq draws st scr in (st, scr)
  end.

Definition is_code (c : string) : bool :=
  Nat.eqb (String.length c) 6 && forallb (fun d => bool_decide (is_Some (digit_val d))) (list_ascii_of_string c).

(** The button Pair, with the code typed. *)
Definition pair (n : fate) rq draws st scr : ScreenState T * Screen :=
  let failed e scr := {| s_id := s_id scr; s_token := s_token scr; s_fp := s_fp scr; s_tokens := s_tokens scr;
    s_phase := s_phase scr; s_bundle := s_bundle scr; s_code := s_code scr; s_err := Some e; s_busy := false |} in
  let c := trim (s_code scr) in
  if negb (is_code c) then
    (st, {| s_id := s_id scr; s_token := s_token scr; s_fp := s_fp scr; s_tokens := s_tokens scr;
       s_phase := s_phase scr; s_bundle := s_bundle scr; s_code := s_code scr;
       s_err := Some "Enter the 6-digit code shown in the web UI."; s_busy := s_busy scr |})
  else
    let '(scr, fp) := fingerprint scr in
    match exchange n (screen_routes rq draws (Denied "unauthorized") st
            (OfDevices (post_claim (Some {| ci_code := c; ci_fingerprint := Some fp; ci_name := None |})))) st with
    | (st', Some (Sent _ (Paired deviceId token))) =>
        let scr := paired deviceId token (s_tokens scr) scr in
        (st', {| s_id := s_id scr; s_token := s_token scr; s_fp := s_fp scr; s_tokens := s_tokens scr;
           s_phase := s_phase scr; s_bundle := s_bundle scr; s_code := s_code scr; s_err := None; s_busy := false |})
    | (st', _) => (st', failed "That code didn't match. Check the code in the web UI and try again." scr)
    end.

(** The effect of the phase [ready]: the stored token becomes the credential. *)
Definition ready_effect scr : Screen :=
  match s_phase scr with
  | CodePhase => scr
  | ReadyPhase =>
      match nonempty (s_token scr) with
      | None => {| s_id := s_id scr; s_token := s_token scr; s_fp := s_fp scr; s_tokens := s_tokens scr;
                   s_phase := CodePhase; s_bundle := s_bundle scr; s_code := s_code scr; s_err := s_err scr;
                   s_busy := s_busy scr |}
      | Some token => {| s_id := s_id scr; s_token := s_token scr; s_fp := s_fp scr; s_tokens := Some (token, token);
                   s_phase := ReadyPhase; s_bundle := s_bundle scr; s_code := s_code scr; s_err := s_err scr;
                   s_busy := s_busy scr |}
      end
  end.

Definition set_bundle (b : string * option WallLayoutDTO) scr : Screen := {|
  s_id := s_id scr; s_token := s_token scr; s_fp := s_fp scr; s_tokens := s_tokens scr; s_phase := s_phase scr;
  s_bundle := Some b; s_code := s_code scr; s_err := s_err scr; s_busy := s_busy scr |}.
Definition set_screen_tokens (access refresh : string) scr : Screen := {|
  s_id := s_id scr; s_token := s_token scr; s_fp := s_fp scr; s_tokens := Some (access, refresh);
  s_phase := s_phase scr; s_bundle := s_bundle scr; s_code := s_code scr; s_err := s_err scr; s_busy := s_busy scr |}.

(** GET /api/wall/bundle with an access token. *)
Definition ask_bundle rq draws st (access : option string) : reply ScreenBody :=
  (screen_routes rq draws
    (authenticate rj adminToken (rq_now rq) (master (sc_auth st)) (wallDevices (sc_walls st))
       (option_map (fun a => "Bearer " +:+ a) (nonempty access))) st (OfDevices get_bundle)).2.

(** A reply of it: an error keeps the last board, and so does a request that fails. *)
Definition shown_by (r : option (reply ScreenBody)) scr : Screen :=
  match r with Some (Sent _ (Bundle name layout)) => set_bundle (name, layout) scr | _ => scr end.

(** [res.status === 401] *)
Definition unauthorized {B} (r : option (reply B)) : bool :=
  match r with Some (Failed code _) => code =? 401 | _ => false end.

(** [load()], through the fetch client of lib/api.ts: a 401 is followed by a refresh with the second
    token, and, where that fails, by a silent reconnect or the pairing page. *)
Definition load (net : Network) rq draws (fresh : Fresh) st scr : ScreenState T * Screen :=
  let '(_, r) := exchange (n_ask net) (st, ask_bundle rq draws st (option_map fst (s_tokens scr))) st in
  if unauthorized r then
    let '(auth, renewed) :=
      match nonempty (option_map snd (s_tokens scr)) with
      | None => (sc_auth st, None)
      | Some refreshToken =>
          let '(auth, answer) := exchange (n_refresh net) (refresh config (rq_now rq) fresh (sc_auth st) refreshToken) (sc_auth st) in
          (auth, match answer with Some renewed => renewed | None => None end)
      end in
    let st := set_auth auth st in
    match renewed with
    | Some (access, refreshToken) =>
        let scr := set_screen_tokens access refreshToken scr in
        let '(_, r) := exchange (n_retry net) (st, ask_bundle rq draws st (Some access)) st in (st, shown_by r scr)
    | None =>
        let '(st, scr, ok) := tryReconnect (n_reconnect net) rq draws st scr in
        (st, if ok then scr else unpair scr)
    end
  else (st, shown_by r scr).
End page.

Section convergence.
Context {T : Type -> Type} {ST : Store T} {LT : StoreLaws T} {HS : Sha256} {HJ : Jwt}.
Context (rj : option string -> Z -> option Claims) (adminToken : option string) (config : AuthConfig) (uuid : string).
Implicit Types (st : ScreenState T) (scr : Screen).

(** What a display with row [d] is to show. *)
Definition board_of st (d : WallDeviceRow) : string * option WallLayoutDTO :=
  (dev_name d,
   match nonempty (or_else (dev_layoutId d)
     match nonempty (dev_groupId d) with Some g => group_layout (sc_walls st) g | None => None end) with
   | Some l => getLayout (wallLayouts (sc_walls st)) l | None => None end).

(** The table of displays: ids identify rows, and so do tokens and fingerprints (Devices.v). *)
Record displays_ok st : Prop := {
  do_ids : unique_key dev_id (wallDevices (sc_walls st));
  do_named : forall d, d ∈ rows (wallDevices (sc_walls st)) -> dev_id d <> "";
  do_tokens : forall t a b, a ∈ rows (wallDevices (sc_walls st)) -> b ∈ rows (wallDevices (sc_walls st)) ->
    has_token t a = true -> has_token t b = true -> a = b;
  do_screens : forall f a b, a ∈ rows (wallDevices (sc_walls st)) -> b ∈ rows (wallDevices (sc_walls st)) ->
    has_fingerprint f a = true -> has_fingerprint f b = true -> a = b
}.

Context (Hadmin : forall raw, adminToken <> Some (token raw)).

Lemma nonempty_token raw : nonempty (Some (token raw)) = Some (token raw).
Proof. done. Qed.

Lemma ask_spec rq draws st raw :
  displays_ok st ->
  ask_bundle rj adminToken rq draws st (Some (token raw)) =
    match resolveDeviceToken (rq_now rq) (screen_settings st) (wallDevices (sc_walls st)) (token raw) with
    | None => Failed 401 "unauthorized"
    | Some d => Sent 200 (Bundle (board_of st d).1 (board_of st d).2)
    end.
Proof.
  intros Hok. unfold ask_bundle. rewrite nonempty_token. cbn [option_map].
  change (Some ("Bearer " +:+ token raw)) with (bearer raw). rewrite (authenticate_bearer rj adminToken raw (Hadmin raw)).
  destruct (resolveDeviceToken _ _ _ _) as [d|] eqn:Hr; [|done].
  assert (Hd : d ∈ rows (wallDevices (sc_walls st))).
  { revert Hr. unfold resolveDeviceToken. destruct (select_first _ _) as [x|] eqn:Hs; [|done].
    apply select_first_Some in Hs as [Hx _]. repeat case_match; intros [=]; by subst. }
  cbn [screen_routes deviceRoutes authenticated]. unfold nonempty at 1, truthy.
  rewrite (proj2 (String.eqb_neq _ _) (do_named _ Hok d Hd)). cbn [negb]. unfold getDeviceBundle.
  rewrite (select_first_key dev_id _ _ d); [done|apply Hok|done|apply String.eqb_refl|by intros r' ?%String.eqb_eq].
Qed.

Lemma resolve_Some now settings st raw d :
  displays_ok st -> d ∈ rows (wallDevices (sc_walls st)) -> has_token (token raw) d = true ->
  dev_status d = "approved" -> expired now settings d = false ->
  resolveDeviceToken now settings (wallDevices (sc_walls st)) (token raw) = Some d.
Proof.
  intros Hok Hd Ht Hs He. unfold resolveDeviceToken.
  destruct (select_first (has_token (token raw)) _) as [x|] eqn:Hx.
  - apply select_first_Some in Hx as [Hx Htx]. rewrite (do_tokens _ Hok _ x d Hx Hd Htx Ht), Hs, He. done.
  - rewrite select_first_None in Hx. rewrite Hx in Ht by done. done.
Qed.

(** The row after a reconnect. *)
Definition reconnected (now : Z) (t : string) (d : WallDeviceRow) : WallDeviceRow :=
  set_dev_tokenHash (Some (sha256 t)) (set_dev_lastSeenAt (Some now) d).

Lemma tryReconnect_spec n rq draws st scr f :
  s_fp scr = Some f -> f <> "" ->
  tryReconnect uuid n rq draws st scr =
    let '(w, res) := reconnectDevice (rq_now rq) (sd_token draws) (screen_settings st) (sc_walls st) f in
    match n, res with
    | IsAnswered, Some (id, t) => (set_walls w st, paired id t (Some (t, t)) scr, true)
    | NeverRuns, _ => (st, scr, false)
    | _, _ => (set_walls w st, scr, false)
    end.
Proof.
  intros Hf Hne. assert (Hn : nonempty (Some f) = Some f).
  { unfold nonempty, truthy. by rewrite (proj2 (String.eqb_neq _ _) Hne). }
  unfold tryReconnect, fingerprint. rewrite Hf, Hn. cbn beta iota. rewrite Hn.
  cbn [screen_routes deviceRoutes with_body].
  destruct (reconnectDevice _ _ _ _ _) as [w [[id t]|]]; by destruct n.
Qed.

(** The display a screen is known as by its fingerprint, where it may reconnect. *)
Definition known_screen (now : Z) st (f : string) : option WallDeviceRow :=
  let! d := select_first (has_fingerprint f) (wallDevices (sc_walls st)) otherwise None in
  if String.eqb (dev_status d) "approved" && negb (expired now (screen_settings st) d) then Some d else None.

Lemma reconnect_known now t st f :
  reconnectDevice now t (screen_settings st) (sc_walls st) f =
    match known_screen now st f with
    | Some d => (with_devices (update_where (by_id (dev_id d)) (reconnected now t) (wallDevices (sc_walls st))) (sc_walls st),
                 Some (dev_id d, t))
    | None => (sc_walls st, None)
    end.
Proof.
  unfold reconnectDevice, known_screen. destruct (select_first (has_fingerprint f) _) as [x|]; [|done].
  by destruct (String.eqb (dev_status x) "approved"), (expired now (screen_settings st) x).
Qed.

Lemma displays_ok_reconnected st d now raw :
  displays_ok st -> (forall x, x ∈ rows (wallDevices (sc_walls st)) -> has_token (token raw) x = false) ->
  displays_ok (set_walls (with_devices (update_where (by_id (dev_id d)) (reconnected now (token raw)) (wallDevices (sc_walls st))) (sc_walls st)) st).
Proof.
  intros [Hi Hn Ht Hs] Hfresh. set (f := reconnected now (token raw)).
  assert (Hrow : forall x, x ∈ rows (update_where (by_id (dev_id d)) f (wallDevices (sc_walls st))) ->
    exists r, r ∈ rows (wallDevices (sc_walls st)) /\ dev_id x = dev_id r /\ dev_fingerprint x = dev_fingerprint r /\
      x = if by_id (dev_id d) r then f r else r).
  { intros x (r & Hr & ->)%elem_of_update. exists r. by destruct (by_id (dev_id d) r). }
  split; simpl.
  - by apply unique_key_update.
  - intros x (r & Hr & -> & _)%Hrow. by apply Hn.
  - intros t a b (ra & Hra & Hia & _ & Ha)%Hrow (rb & Hrb & Hib & _ & Hb)%Hrow. unfold has_token in *.
    intros Hta Htb. apply bool_decide_eq_true in Hta, Htb.
    assert (Hold : forall r, r ∈ rows (wallDevices (sc_walls st)) -> dev_tokenHash r = Some (sha256 (token raw)) -> False).
    { intros r Hr He. specialize (Hfresh r Hr). rewrite bool_decide_eq_false in Hfresh. done. }
    destruct (by_id (dev_id d) ra) eqn:Ea, (by_id (dev_id d) rb) eqn:Eb; subst a b; simpl in *.
    + f_equal. apply String.eqb_eq in Ea, Eb. apply (unique_key_inj dev_id (wallDevices (sc_walls st))); congruence.
    + exfalso. apply (Hold rb Hrb). congruence.
    + exfalso. apply (Hold ra Hra). congruence.
    + apply (Ht t); by try apply bool_decide_eq_true.
  - intros g a b (ra & Hra & _ & Hfa & ->)%Hrow (rb & Hrb & _ & Hfb & ->)%Hrow. unfold has_fingerprint in *.
    rewrite Hfa, Hfb. intros H1 H2. by rewrite (Hs g ra rb Hra Hrb H1 H2).
Qed.

(** C31: A display comes back or gives up: once the server has refused its token it shows no board it
    has no right to. On a page that shows boards and has a fingerprint, one poll has one of these
    ends, whichever of its requests fail. When the request for the board fails, nothing changes and
    the last board stays. When the server knows its token for an approved display whose session has
    not expired, the page shows that display's board, and nothing is written. When it does not, and
    the token is no refresh token either: if the screen is known by its fingerprint as an approved
    display whose session has not expired, and the reconnect is answered, it is given a new token,
    with which a next poll that is answered within the session's lifetime shows its board; if the
    screen is not known, as after a revocation or a deletion, or the reconnect fails, it goes back
    to the pairing page, with no token, no board and its fingerprint kept. *)
Theorem screen_converges net rq draws fresh st scr raw raw' f
    (Hok : displays_ok st) (Hphase : s_phase scr = ReadyPhase)
    (Htok : s_tokens scr = Some (token raw, token raw)) (Hfp : s_fp scr = Some f) (Hf : f <> "")
    (Hnot : find_live (rq_now rq) (refreshTokens (master (sc_auth st))) (token raw) = None)
    (Hnew : sd_token draws = token raw')
    (Hfresh : forall x, x ∈ rows (wallDevices (sc_walls st)) -> has_token (token raw') x = false) :
  let '(st', scr') := load rj adminToken config uuid net rq draws fresh st scr in
  match n_ask net, resolveDeviceToken (rq_now rq) (screen_settings st) (wallDevices (sc_walls st)) (token raw),
        n_reconnect net, known_screen (rq_now rq) st f with
  | NeverRuns, _, _, _ | AnswerLost, _, _, _ => st' = st /\ scr' = scr
  | IsAnswered, Some holder, _, _ => st' = st /\ scr' = set_bundle (board_of st holder) scr
  | IsAnswered, None, IsAnswered, Some d =>
      s_phase scr' = ReadyPhase /\ s_token scr' = Some (token raw') /\
      forall net' rq' draws' fresh', n_ask net' = IsAnswered ->
        (inject_Z (rq_now rq' - rq_now rq) <= sessionTtlSec (screen_settings st) * 1000)%Q ->
        load rj adminToken config uuid net' rq' draws' fresh' st' scr' = (st', set_bundle (board_of st d) scr')
  | IsAnswered, None, IsAnswered, None => st' = st /\ scr' = unpair scr
  | IsAnswered, None, _, _ => scr' = unpair scr
  end.
Proof.
  assert (Hload : forall net rq draws fresh st scr raw h, n_ask net = IsAnswered -> displays_ok st ->
    s_tokens scr = Some (token raw, token raw) ->
    resolveDeviceToken (rq_now rq) (screen_settings st) (wallDevices (sc_walls st)) (token raw) = Some h ->
    load rj adminToken config uuid net rq draws fresh st scr = (st, set_bundle (board_of st h) scr)).
  { intros net0 rq0 draws0 fresh0 st0 scr0 raw0 h0 Hn0 Hok0 Ht0 Hr0. unfold load. rewrite Ht0, Hn0. cbn [option_map fst snd exchange].
    by rewrite (ask_spec rq0 draws0 st0 raw0 Hok0), Hr0. }
  destruct (n_ask net) eqn:Hask; [|unfold load; by rewrite Hask..].
  destruct (resolveDeviceToken _ _ _ _) as [h|] eqn:Hr; [by rewrite (Hload net rq draws fresh st scr raw h)|].
  assert (Hsame : set_auth (set_tokens (sc_auth st) (refreshTokens (master (sc_auth st)))) st = st /\ set_auth (sc_auth st) st = st)
    by (destruct st as [[[] ?] ? ?]; by split).
  destruct Hsame as [Hs1 Hs2].
  assert (Hrefused : load rj adminToken config uuid net rq draws fresh st scr =
    let '(st1, scr1, ok) := tryReconnect uuid (n_reconnect net) rq draws st scr in (st1, if ok then scr1 else unpair scr1)).
  { unfold load. rewrite Htok, Hask. cbn [option_map fst snd exchange]. rewrite (ask_spec rq draws st raw Hok), Hr. cbn [unauthorized].
    rewrite nonempty_token. unfold refresh, rotateRefreshToken. rewrite Hnot. change (401 =? 401) with true. cbn iota beta.
    destruct (n_refresh net); cbn [exchange fst snd]; by rewrite ?Hs1, ?Hs2. }
  rewrite Hrefused, (tryReconnect_spec _ rq draws st scr f Hfp Hf), (reconnect_known _ _ st f), Hnew.
  destruct (known_screen (rq_now rq) st f) as [d|] eqn:Hk; [|destruct (n_reconnect net); by destruct st].
  destruct (n_reconnect net); [|done..]. split; [done|]. split; [done|]. intros net' rq' draws' fresh' Hn' Httl.
  unfold known_screen in Hk. destruct (select_first _ _) as [x|] eqn:Hx; [|done].
  destruct (_ && _) eqn:Ha; [|done]. injection Hk as ->. apply select_first_Some in Hx as [Hd _].
  apply andb_true_iff in Ha as [Hap _]. apply String.eqb_eq in Hap.
  set (st1 := set_walls _ st). set (d1 := reconnected (rq_now rq) (token raw') d).
  change (board_of st d) with (board_of st1 d1).
  apply (Hload net' rq' draws' fresh' st1 _ raw' d1); [done|by apply displays_ok_reconnected|done|].
  apply resolve_Some; [by apply displays_ok_reconnected| | |done|].
  - apply elem_of_update. exists d. split; [done|]. unfold by_id. by rewrite String.eqb_refl.
  - unfold has_token. by apply bool_decide_eq_true.
  - unfold expired. simpl. apply negb_false_iff, Qle_bool_iff. exact Httl.
Qed.
End convergence.

(** The audit row of a new display shows its pairing code: the redaction does not know the field. *)
Lemma pairing_code_audited d code :
  wd_pairingCode d = Some code ->
  field "pairingCode" (redact (device_json d)) = Some (JStr code).
Proof. intros H. unfold device_json. rewrite H. vm_compute. reflexivity. Qed.

(** ** Witnesses *)

Section witnesses.
#[local] Existing Instance toy_sha.
#[local] Instance w_jwt : Jwt := {| jwtSign _ _ := ""; jwtVerify _ _ := None |}.

Definition w_board : WallLayoutRow := new_layout 0 "b1" "Lobby board" "" false false [].
Definition w_display : WallDeviceRow := approve 60 "wd_a" (set_dev_fingerprint (Some "screen-1") (new_device 0 "d1" "Lobby" "550000")).
Definition w_screens (d : WallDeviceRow) : ScreenState list := {|
  sc_auth := {| master := w_access; auditLog := [] |};
  sc_walls := {| wallLayouts := [w_board]; wallDeviceGroups := []; wallDevices := [d] |};
  sc_ticker := [] |}.
Definition w_rq (now : Z) : RequestEnv := {| rq_ip := "10.0.0.1"; rq_now := now; rq_auditId := "a1" |}.
Definition w_sd : ScreenDraws := {| sd_id := "n1"; sd_token := "wd_b"; sd_random := fun _ => 0%Q |}.
Definition w_operator : auth_outcome := Authenticated STATIC_ADMIN_SUBJECT None.

Lemma w_operator_admitted permission allowDevice : admitted w_operator permission allowDevice STATIC_ADMIN_SUBJECT.
Proof. split; [by exists None|]. split; [intros E; vm_compute in E; discriminate|by left]. Qed.

Lemma screens_accounted_witness :
  let r := screen_routes (w_rq 70) w_sd w_operator (w_screens w_display) (OfDevices (post_revoke "d1")) in
  exists subject, admitted w_operator "devices:write" false subject /\
    accounted (w_rq 70) subject (w_screens w_display) (Some "device.revoke") r.
Proof.
  destruct (screens_accounted (w_rq 70) w_sd w_operator (w_screens w_display) (OfDevices (post_revoke "d1"))) as [H|H].
  - intros d g Hd Hg. apply list_elem_of_singleton in Hd as ->. discriminate.
  - exact H.
  - destruct H as (code & error & _ & _ & H). destruct (H STATIC_ADMIN_SUBJECT). apply w_operator_admitted.
Defined.

Lemma w_holds d : has_token "wd_a" d = true -> holds "a" (w_screens d) d.
Proof.
  intros H. split; simpl; [by apply list_elem_of_singleton|apply unique_singleton|done|].
  by intros x ->%list_elem_of_singleton.
Qed.

Lemma board_reaches_screen_witness :
  let '(st', _) := screen_routes (w_rq 70) w_sd w_operator (w_screens w_display)
    (OfDevices (patch_device_layout "d1" (Some (Some "b1")))) in
  poll (fun _ _ => None) None "a" (w_rq 80) w_sd st' = (st', Sent 200 (Bundle "Lobby" (Some (layout_toDTO w_board)))).
Proof.
  pose proof (board_reaches_screen (LT := list_store_laws) (fun _ _ => None) None "a" ltac:(discriminate) (w_rq 70) w_sd (w_rq 80) w_sd
    w_operator STATIC_ADMIN_SUBJECT (w_screens w_display) w_display w_board (w_holds w_display eq_refl)
    ltac:(discriminate) eq_refl eq_refl ltac:(by apply list_elem_of_singleton) (unique_singleton _ _) ltac:(discriminate)
    (w_operator_admitted _ _)) as [H _].
  exact (proj2 H).
Defined.

(** The screen of the display, whose token the server no longer knows. *)
Definition w_screen : Screen := {|
  s_id := Some "d1"; s_token := Some "wd_old"; s_fp := Some "screen-1"; s_tokens := Some ("wd_old", "wd_old");
  s_phase := ReadyPhase; s_bundle := None; s_code := ""; s_err := None; s_busy := false |}.
Definition w_config : AuthConfig := {| cfg_encryptionKey := None; cfg_refreshTtlSec := 60; cfg_accessTtlMs := 1000 |}.
Definition w_fresh : Fresh := {| Auth.fresh_token := "t"; fresh_session := "s"; fresh_audit1 := "x"; fresh_audit2 := "y" |}.

Lemma w_displays_ok d : dev_id d <> "" -> displays_ok (w_screens d).
Proof.
  intros H. split; simpl.
  - apply unique_singleton.
  - by intros x ->%list_elem_of_singleton.
  - by intros t a b ->%list_elem_of_singleton ->%list_elem_of_singleton.
  - by intros t a b ->%list_elem_of_singleton ->%list_elem_of_singleton.
Qed.

Lemma screen_converges_witness :
  let '(st', scr') := load (fun _ _ => None) None w_config "u" reliable (w_rq 70) w_sd w_fresh (w_screens w_display) w_screen in
  s_token scr' = Some "wd_b" /\
  load (fun _ _ => None) None w_config "u" reliable (w_rq 90) w_sd w_fresh st' scr' = (st', set_bundle ("Lobby", None) scr').
Proof.
  pose proof (screen_converges (LT := list_store_laws) (fun _ _ => None) None w_config "u" (fun raw => ltac:(discriminate)) reliable (w_rq 70) w_sd w_fresh
    (w_screens w_display) w_screen "old" "b" "screen-1" (w_displays_ok w_display ltac:(discriminate)) eq_refl eq_refl eq_refl
    ltac:(discriminate) eq_refl eq_refl ltac:(by intros x ->%list_elem_of_singleton)) as H.
  destruct (load _ _ _ _ _ _ _ _ _ _) as [st' scr']. destruct H as (_ & Ht & H). split; [exact Ht|].
  apply (H reliable (w_rq 90) w_sd w_fresh); [reflexivity|]. vm_compute. discriminate.
Defined.

(** A reconnect of which the answer is lost takes the display's new token with it: the page asks for
    a code, and the server has a token nobody holds. *)
Example lost_reconnect_unpairs :
  let net := {| n_ask := IsAnswered; n_refresh := IsAnswered; n_retry := IsAnswered; n_reconnect := AnswerLost |} in
  let '(st', scr') := load (fun _ _ => None) None w_config "u" net (w_rq 70) w_sd w_fresh (w_screens w_display) w_screen in
  (s_phase scr', s_token scr', map dev_tokenHash (wallDevices (sc_walls st'))) = (CodePhase, None, [Some (sha256 "wd_b")]).
Proof. vm_compute. reflexivity. Qed.
End witnesses.
