(* ===== verification/Series.v ===== *)
(** * History and forecast

    Models packages/core/src/storage.ts (the forecast of a share), services/monitor-series.ts (the
    series of wallboard tiles) and the history handlers of routes/monitors.routes.ts of
    apps/backend/src. Numbers are exact: the rounding of floating point is left out. *)
From Stdlib Require Import QArith Qabs Qround.
From S2P Require Import Prelude Dates Text Store Schema Devices Http.

(** ** The forecast *)

(** A history point; the time is the text sent. *)
Record StoragePoint : Type := {
  sp_ts : string; sp_usedPct : option Q; sp_usedBytes : option Z; sp_totalBytes : option Z
}.

(** [sf_projectedFullDate] is the instant of the date. *)
Record StorageForecast : Type := {
  sf_growthBytesPerDay : Q; sf_daysToFull : option Q; sf_projectedFullDate : option Z;
  sf_spanDays : Q; sf_samples : nat
}.

Definition MS_PER_DAY : Z := 86400000.

Fixpoint qsum (xs : list Q) : Q := match xs with [] => 0 | x :: xs => x + qsum xs end.
(** [xs.reduce((a, x, i) => a + x * (ys[i] ?? 0), 0)] *)
Fixpoint dot (xs ys : list Q) : Q :=
  match xs, ys with
  | x :: xs, y :: ys => x * y + dot xs ys
  | _, _ => 0
  end.

(** A point that is used: its instant, and the bytes used and in total. *)
Record Sample : Type := { sa_t : Z; sa_used : Q; sa_total : option Z }.

Definition samples_of (points : list StoragePoint) : list Sample :=
  js_sort (fun a b => sa_t b <? sa_t a)
    (omap (fun p => let! used := sp_usedBytes p otherwise None in
       let! t := Date_parse (sp_ts p) otherwise None in
       Some {| sa_t := t; sa_used := inject_Z used; sa_total := sp_totalBytes p |}) points).

(** Days since the first sample. *)
Definition days_since (t0 : Z) (s : Sample) : Q := inject_Z (sa_t s - t0) / inject_Z MS_PER_DAY.

(** The rate of the least-squares line, in bytes per day. *)
Definition slope_of (xs ys : list Q) : Q :=
  let n := inject_Z (Z.of_nat (List.length xs)) in
  let sx := qsum xs in
  let denom := (n * dot xs xs - sx * sx)%Q in
  if Qeq_bool denom 0 then 0%Q else ((n * dot xs ys - sx * qsum ys) / denom)%Q.

(** The integer part of a number. *)
Definition toward_zero (q : Q) : Z := if Qle_bool 0 q then Qfloor q else - Qfloor (- q).

(** The largest time value of a Date; [toISOString] throws beyond it. *)
Definition MAX_TIME : Z := 8640000000000000.

Definition RangeError : string := "Invalid time value".

(** [None] is no forecast; the error is the exception of [toISOString]. *)
Definition forecastStorage (points : list StoragePoint) : result string (option StorageForecast) :=
  let pts := samples_of points in
  if Nat.ltb (List.length pts) 2 then Ok None else
  match pts, List.last (map Some pts) None with
  | first :: _, Some last =>
      let xs := map (days_since (sa_t first)) pts in
      let slope := slope_of xs (map sa_used pts) in
      let spanDays := days_since (sa_t first) last in
      let forecast days date := Some {|
        sf_growthBytesPerDay := slope; sf_daysToFull := days; sf_projectedFullDate := date;
        sf_spanDays := spanDays; sf_samples := List.length pts |} in
      match sa_total last with
      | Some total =>
          if negb (total =? 0) && negb (Qle_bool slope 0) then
            let remaining := (inject_Z total - sa_used last)%Q in
            let daysToFull := if Qle_bool remaining 0 then 0%Q else (remaining / slope)%Q in
            let time := (inject_Z (sa_t last) + daysToFull * inject_Z MS_PER_DAY)%Q in
            if Qle_bool time (inject_Z MAX_TIME) && Qle_bool (inject_Z (- MAX_TIME)) time
            then Ok (forecast (Some daysToFull) (Some (toward_zero time)))
            else Err RangeError
          else Ok (forecast None None)
      | None => Ok (forecast None None)
      end
  | _, _ => Ok None
  end.

(** ** The series of tiles *)

Definition MAX_POINTS : nat := 30.
Definition DAY_MS : Z := 24 * 60 * 60 * 1000.

Record MonitorSeries : Type := { ms_latency : list Q; ms_uptimePct : option Q }.

(** [xs.slice(-n)] of at least that many. *)
Definition last_points (xs : list Q) : list Q :=
  if Nat.ltb MAX_POINTS (List.length xs) then skipn (List.length xs - MAX_POINTS) xs else xs.

Section series.
Context {T : Type -> Type} {ST : Store T}.

(** The latencies of a monitor since [since], oldest first. *)
Definition latencies (since : Z) (pings : T PingSampleRow) (ids : list string) (id : string) : list Q :=
  omap (fun s => if String.eqb (ps_monitorId s) id then ps_latencyMs s else None)
    (js_sort (fun a b => ps_ts b <? ps_ts a)
       (select (fun s => includes ids (ps_monitorId s) && (since <=? ps_ts s)) pings)).

(** The share of up seconds of a unit's buckets, in percent. *)
Definition uptimePct_of (buckets : list UptimeBucketRow) : option Q :=
  let up := fold_left (fun n b => n + ub_upSec b) buckets 0 in
  let total := fold_left (fun n b => n + ub_totalSec b) buckets 0 in
  if 0 <? total then Some (inject_Z up / inject_Z total * 100)%Q else None.

Definition getMonitorSeries (now : Z) (monitors : T MonitorRow) (pings : T PingSampleRow)
    (uptimeBuckets : T UptimeBucketRow) (monitorIds : list string) : list (string * MonitorSeries) :=
  let out := fold_left (fun m id => map_set id {| ms_latency := []; ms_uptimePct := None |} m) monitorIds [] in
  if Nat.eqb (List.length monitorIds) 0 then out else
  let monRows := select (fun m => includes monitorIds (mon_id m)) monitors in
  let since := now - DAY_MS in
  let out := map (fun '(id, s) =>
    (id, {| ms_latency := last_points (latencies since pings monitorIds id); ms_uptimePct := ms_uptimePct s |})) out in
  fold_left (fun out m =>
    match map_get (mon_id m) out with
    | None => out
    | Some s =>
        let buckets := select (fun b => String.eqb (ub_sourceId b) (mon_agentId m) &&
          String.eqb (ub_entity b) (mon_name m) && (since <=? ub_bucketStart b)) uptimeBuckets in
        map_set (mon_id m) {| ms_latency := ms_latency s; ms_uptimePct := uptimePct_of buckets |} out
    end) monRows out.

(** ** The history handlers *)

Record HistoryQuery : Type := { hq_hours : option string; hq_from : option string }.

Definition historySince (now : Z) (q : HistoryQuery) : Z :=
  match match nonempty (hq_from q) with Some from => Date_parse from | None => None end with
  | Some from => from
  | None =>
      (* [Number(q.hours ?? 168) || 168], between 1 and five years *)
      let asked := match Number_of_string (default "168" (hq_hours q)) with
        | NaN => 168%Q
        | Fin h => if Qeq_bool h 0 then 168%Q else h
        | PosInf => inject_Z (24 * 365 * 5) | NegInf => 1%Q
        end in
      let hours := if Qle_bool asked 1 then 1%Q else asked in
      let hours := if Qle_bool (inject_Z (24 * 365 * 5)) hours then inject_Z (24 * 365 * 5) else hours in
      toward_zero (inject_Z now - hours * 3600 * 1000)%Q
  end.

(** [select ... where id and ts >= since order by ts] *)
Definition history {R} (own : R -> bool) (ts : R -> Z) (since : Z) (t : T R) : list R :=
  js_sort (fun a b => ts b <? ts a) (select (fun r => own r && (since <=? ts r)) t).

Definition storage_point (r : StorageMetricRow) : StoragePoint := {|
  sp_ts := toISOString (sm_ts r); sp_usedPct := sm_usedPct r; sp_usedBytes := sm_usedBytes r;
  sp_totalBytes := sm_totalBytes r |}.

(** The handlers of the history of a monitor, after their guard. *)
Definition get_db_metrics (now : Z) (t : T DbMetricRow) (id : string) (q : HistoryQuery) : list (Z * json) :=
  map (fun r => (dbm_ts r, dbm_metrics r))
    (history (fun r => String.eqb (dbm_monitorId r) id) dbm_ts (historySince now q) t).
Definition get_snmp_metrics (now : Z) (t : T SnmpMetricRow) (id : string) (q : HistoryQuery)
  : list (Z * list (string * Q)) :=
  map (fun r => (snm_ts r, snm_metrics r))
    (history (fun r => String.eqb (snm_monitorId r) id) snm_ts (historySince now q) t).
Definition get_ping_samples (now : Z) (t : T PingSampleRow) (id : string) (q : HistoryQuery)
  : list (Z * bool * option Q) :=
  map (fun r => (ps_ts r, ps_up r, ps_latencyMs r))
    (history (fun r => String.eqb (ps_monitorId r) id) ps_ts (historySince now q) t).
Definition get_storage_metrics (now : Z) (t : T StorageMetricRow) (id : string) (q : HistoryQuery)
  : reply (list StoragePoint * option StorageForecast) :=
  let points := map storage_point
    (history (fun r => String.eqb (sm_storageId r) id) sm_ts (historySince now q) t) in
  match forecastStorage points with
  | Ok forecast => Sent 200 (points, forecast)
  | Err _ => Thrown
  end.
Definition get_folder_metrics (now : Z) (t : T FolderMetricRow) (id : string) (folder : option string) (q : HistoryQuery)
  : list (Z * option Z * option Z * option Z) :=
  match nonempty folder with
  | None => []
  | Some folder =>
      map (fun r => (fm_ts r, fm_sizeBytes r, fm_fileCount r, fm_folderCount r))
        (history (fun r => String.eqb (fm_storageId r) id && String.eqb (fm_folder r) folder) fm_ts
           (historySince now q) t)
  end.

(** GET /api/monitors/series: the ids asked for, at most 200. *)
Definition asked_ids (ids : option string) : list string :=
  firstn 200 (List.filter truthy (map trim (split_on "," (default "" ids)))).
Definition get_series (now : Z) (monitors : T MonitorRow) pings buckets (ids : option string) : list (string * MonitorSeries) :=
  getMonitorSeries now monitors pings buckets (asked_ids ids).
End series.

(** ** The forecast: theorems *)

(** The sum of the squared errors of the line [m * x + c]. *)
Fixpoint sse (m c : Q) (xs ys : list Q) : Q :=
  match xs, ys with
  | x :: xs, y :: ys => (y - (m * x + c)) * (y - (m * x + c)) + sse m c xs ys
  | _, _ => 0
  end.

Definition count (xs : list Q) : Q := inject_Z (Z.of_nat (List.length xs)).

Lemma count_cons x xs : (count (x :: xs) == 1 + count xs)%Q.
Proof. unfold count. simpl List.length. rewrite Nat2Z.inj_succ, <- Z.add_1_l, inject_Z_plus. reflexivity. Qed.

Lemma sse_expand m c xs ys : List.length xs = List.length ys ->
  (sse m c xs ys == dot ys ys - 2 * m * dot xs ys - 2 * c * qsum ys + m * m * dot xs xs
     + 2 * m * c * qsum xs + count xs * (c * c))%Q.
Proof.
  revert ys. induction xs as [|x xs IH]; intros [|y ys] H; try done.
  - unfold count. simpl. ring.
  - simpl in H. injection H as H. simpl. rewrite (IH ys H), count_cons. ring.
Qed.

Lemma squares_expand a b xs :
  (qsum (map (fun x => (a * x + b) * (a * x + b)) xs)
   == a * a * dot xs xs + 2 * a * b * qsum xs + count xs * (b * b))%Q.
Proof.
  induction xs as [|x xs IH]; simpl.
  - unfold count. simpl. ring.
  - rewrite IH, count_cons. ring.
Qed.

Lemma square_nonneg (q : Q) : (0 <= q * q)%Q.
Proof. unfold Qle, Qmult. simpl. nia. Qed.

Lemma squares_nonneg {A} (f : A -> Q) xs : (0 <= qsum (map (fun x => f x * f x) xs))%Q.
Proof.
  induction xs as [|x xs IH]; simpl; [lra|]. pose proof (square_nonneg (f x)). lra.
Qed.

(** A sum of squares that is null is one of nulls. *)
Lemma squares_zero (f : Q -> Q) xs :
  (qsum (map (fun x => f x * f x) xs) == 0)%Q -> forall x, x ∈ xs -> (f x == 0)%Q.
Proof.
  induction xs as [|y xs IH]; simpl; intros H x Hx; [inversion Hx|].
  pose proof (square_nonneg (f y)). pose proof (squares_nonneg f xs).
  assert (Hy : (f y * f y == 0)%Q) by lra. assert (Hs : (qsum (map (fun x => f x * f x) xs) == 0)%Q) by lra.
  apply elem_of_cons in Hx as [->|Hx]; [|by apply IH].
  apply Qmult_integral in Hy as [Hy|Hy]; done.
Qed.

(** The line that solves the normal equations has the smallest error. *)
Lemma normal_best m c m' c' xs ys : List.length xs = List.length ys ->
  (m * dot xs xs + c * qsum xs == dot xs ys)%Q -> (m * qsum xs + count xs * c == qsum ys)%Q ->
  (sse m c xs ys <= sse m' c' xs ys)%Q.
Proof.
  intros Hl H1 H2. rewrite !sse_expand by done.
  pose proof (squares_nonneg (fun x => (m' - m) * x + (c' - c))%Q xs) as Hs.
  rewrite squares_expand in Hs. rewrite <- H1, <- H2. lra.
Qed.

Definition spread (xs : list Q) : Q := count xs * dot xs xs - qsum xs * qsum xs.

Lemma slope_of_spread xs ys :
  slope_of xs ys = if Qeq_bool (spread xs) 0 then 0%Q
    else ((count xs * dot xs ys - qsum xs * qsum ys) / spread xs)%Q.
Proof. done. Qed.

(** Instants that have no spread are all the same. *)
Lemma no_spread xs z : (spread xs == 0)%Q -> z ∈ xs -> (z == 0)%Q -> forall x, x ∈ xs -> (x == 0)%Q.
Proof.
  intros Hs H0 Hz. set (n := count xs).
  assert (Hq : (qsum (map (fun x => (n * x + - qsum xs) * (n * x + - qsum xs)) xs) == 0)%Q).
  { rewrite squares_expand. fold n. unfold spread in Hs. fold n in Hs.
    transitivity (n * (n * dot xs xs - qsum xs * qsum xs))%Q; [ring|]. rewrite Hs. ring. }
  pose proof (squares_zero (fun x => n * x + - qsum xs)%Q xs Hq) as Hall. simpl in Hall.
  assert (Hsum : (qsum xs == 0)%Q). { specialize (Hall z H0). rewrite Hz in Hall. lra. }
  assert (Hn : (0 < n)%Q).
  { unfold n, count. destruct xs; [inversion H0|]. simpl. unfold Qlt. simpl. lia. }
  intros x Hx. specialize (Hall x Hx). rewrite Hsum in Hall.
  assert (Hm : (n * x == 0)%Q) by lra. apply Qmult_integral in Hm as [Hm|Hm]; [lra|done].
Qed.

Lemma null_sums xs : (forall x, x ∈ xs -> (x == 0)%Q) -> forall ys,
  (qsum xs == 0)%Q /\ (dot xs ys == 0)%Q.
Proof.
  induction xs as [|x xs IH]; intros H ys; [by destruct ys|]. simpl.
  assert (Hx : (x == 0)%Q) by (apply H; left).
  assert (Hr : forall z, z ∈ xs -> (z == 0)%Q) by (intros z Hz; apply H; by right).
  destruct (IH Hr (tail ys)) as [H1 H2]. split; [rewrite Hx, H1; reflexivity|].
  destruct ys as [|y ys]; [reflexivity|]. simpl in H2. rewrite Hx, H2. ring.
Qed.

(** The rate is that of a line of least error. *)
Lemma slope_best xs ys z : List.length xs = List.length ys -> z ∈ xs -> (z == 0)%Q ->
  exists c, forall m' c', (sse (slope_of xs ys) c xs ys <= sse m' c' xs ys)%Q.
Proof.
  intros Hl H0 Hz0. assert (Hn : ~ (count xs == 0)%Q).
  { unfold count. destruct xs; [inversion H0|]. simpl. unfold Qeq. simpl. lia. }
  rewrite slope_of_spread. destruct (Qeq_bool (spread xs) 0) eqn:E.
  - apply Qeq_bool_iff in E. pose proof (no_spread xs z E H0 Hz0) as Hz.
    exists (qsum ys / count xs)%Q. intros m' c'. apply normal_best; [done| |].
    + destruct (null_sums xs Hz ys) as [H1 H2]. rewrite H1, H2. ring.
    + field. done.
  - apply Qeq_bool_neq in E. exists ((qsum ys - (count xs * dot xs ys - qsum xs * qsum ys) / spread xs * qsum xs) / count xs)%Q.
    intros m' c'. unfold spread in *. apply normal_best; [done| |]; field; done.
Qed.

Lemma samples_sorted points : StronglySorted (fun a b => sa_t a <= sa_t b) (samples_of points).
Proof. eapply StronglySorted_mono; [|apply js_sort_sorted]; cbn; lia. Qed.

Lemma first_earliest a pts : StronglySorted (fun a b => sa_t a <= sa_t b) (a :: pts) ->
  forall s, s ∈ a :: pts -> sa_t a <= sa_t s.
Proof.
  intros H s Hs. inversion H as [|? ? _ Hf]; subst. apply elem_of_cons in Hs as [->|Hs]; [lia|].
  rewrite List.Forall_forall in Hf. apply Hf. by apply list_elem_of_In.
Qed.

(** [List.last] of a list of samples is the last one. *)
Lemma last_some (pts : list Sample) z : List.last (map Some pts) None = Some z -> exists front, pts = front ++ [z].
Proof.
  induction pts as [|a pts IH] using rev_ind; [done|]. rewrite map_app; cbn [map]; rewrite List.last_last. injection 1 as <-. by eexists.
Qed.

Lemma last_latest front z : StronglySorted (fun a b => sa_t a <= sa_t b) (front ++ [z]) ->
  forall s, s ∈ front ++ [z] -> sa_t s <= sa_t z.
Proof.
  induction front as [|a front IH]; simpl; intros H s Hs.
  - apply list_elem_of_singleton in Hs as ->. lia.
  - apply elem_of_cons in Hs as [->|Hs].
    + apply (first_earliest _ _ H z). right. apply elem_of_app. right. left.
    + inversion H; subst. by apply IH.
Qed.

(** The line fitted to a history. *)
Definition fitted (growth : Q) (pts : list Sample) (t0 : Z) : Prop :=
  exists c, forall m' c',
    (sse growth c (map (days_since t0) pts) (map sa_used pts)
     <= sse m' c' (map (days_since t0) pts) (map sa_used pts))%Q.

Lemma slope_fitted first rest :
  let pts := first :: rest in
  fitted (slope_of (map (days_since (sa_t first)) pts) (map sa_used pts)) pts (sa_t first).
Proof.
  unfold fitted. apply slope_best with (z := days_since (sa_t first) first).
  - by rewrite !length_map.
  - left.
  - unfold days_since. rewrite Z.sub_diag. reflexivity.
Qed.

(** The days until a share is full, at a positive rate. *)
Lemma days_to_full (total used growth : Q) : (0 < growth)%Q ->
  let remaining := (total - used)%Q in
  let days := if Qle_bool remaining 0 then 0%Q else (remaining / growth)%Q in
  (0 <= days)%Q /\ ((used + growth * days == total)%Q \/ (days == 0 /\ total <= used)%Q).
Proof.
  intros Hg remaining days. subst days. destruct (Qle_bool remaining 0) eqn:E; subst remaining.
  - apply Qle_bool_iff in E. split; [lra|]. right. split; [reflexivity|lra].
  - assert (Hr : (0 < total - used)%Q).
    { apply Qnot_le_lt. intros Hle. apply Qle_bool_iff in Hle. congruence. }
    split; [apply Qlt_le_weak, Qlt_shift_div_l; [done|lra]|]. left. field. lra.
Qed.

(** An instant is what is left of a number without its fraction. *)
Lemma toward_zero_near q : (Qabs (q - inject_Z (toward_zero q)) < 1)%Q.
Proof.
  unfold toward_zero. destruct (Qle_bool 0 q).
  - pose proof (Qfloor_le q). pose proof (Qlt_floor q). rewrite inject_Z_plus in *. apply Qabs_case; intros; unfold inject_Z at 2 in H0; lra.
  - pose proof (Qfloor_le (- q)). pose proof (Qlt_floor (- q)). rewrite inject_Z_plus in *. rewrite inject_Z_opp.
    apply Qabs_case; intros; unfold inject_Z at 2 in H0; lra.
Qed.

(** The days after which a line that goes on from a sample at a rate meets the capacity: none
    when it is met already. At a positive rate no other number of days fits ([fills_in_unique]). *)
Definition fills_in (last : Sample) (growth : Q) (total : Z) (days : Q) : Prop :=
  (0 < growth)%Q /\ (0 <= days)%Q /\
  ((sa_used last + growth * days == inject_Z total)%Q \/ (days == 0 /\ inject_Z total <= sa_used last)%Q).

Lemma fills_in_unique last growth total days days' :
  fills_in last growth total days -> fills_in last growth total days' -> (days == days')%Q.
Proof.
  assert (Hz : forall d, (0 < growth)%Q -> (0 <= d)%Q -> (sa_used last + growth * d == inject_Z total)%Q ->
    (inject_Z total <= sa_used last)%Q -> (d == 0)%Q).
  { intros d Hg Hd He Hf. destruct (Qlt_le_dec 0 d) as [Hp|]; [|lra].
    pose proof (Qmult_lt_0_compat growth d Hg Hp). lra. }
  intros (Hg & Hd & He) (_ & Hd' & He'). destruct He as [He|[He Hf]], He' as [He'|[He' Hf']].
  - apply (Qmult_inj_l _ _ growth); lra.
  - rewrite He'. by apply Hz.
  - rewrite He. symmetry. by apply Hz.
  - lra.
Qed.

(** The instant, in milliseconds, of that day, and whether a Date can hold it. *)
Definition full_at (last : Sample) (days : Q) : Q := (inject_Z (sa_t last) + days * inject_Z MS_PER_DAY)%Q.
Definition in_dates (time : Q) : Prop := (Qabs time <= inject_Z MAX_TIME)%Q.

Lemma in_dates_iff time :
  Qle_bool time (inject_Z MAX_TIME) && Qle_bool (inject_Z (- MAX_TIME)) time = true <-> in_dates time.
Proof.
  unfold in_dates. rewrite andb_true_iff, !Qle_bool_iff, Qabs_Qle_condition, inject_Z_opp. tauto.
Qed.

(** The projected date of a share that fills up lies beyond what a Date can hold. *)
Definition beyond_dates (last : Sample) (growth : Q) : Prop :=
  exists total days, sa_total last = Some total /\ total <> 0 /\ fills_in last growth total days /\
    ~ in_dates (full_at last days).

Definition last_sample (pts : list Sample) : option Sample := List.last (map Some pts) None.

(** What a forecast says of the samples it was made from. *)
Record forecast_of (pts : list Sample) (f : StorageForecast) (first last : Sample) : Prop := {
  fo_first : forall s, s ∈ pts -> sa_t first <= sa_t s <= sa_t last;
  fo_samples : sf_samples f = List.length pts;
  fo_span : sf_spanDays f = days_since (sa_t first) last;
  fo_fitted : fitted (sf_growthBytesPerDay f) pts (sa_t first);
  fo_days : match sf_daysToFull f with
    | Some days => exists total date, sa_total last = Some total /\ total <> 0 /\
        fills_in last (sf_growthBytesPerDay f) total days /\ in_dates (full_at last days) /\
        sf_projectedFullDate f = Some date /\ (Qabs (full_at last days - inject_Z date) < 1)%Q
    | None => sf_projectedFullDate f = None /\
        ((sf_growthBytesPerDay f <= 0)%Q \/ sa_total last = None \/ sa_total last = Some 0)
    end
}.

Lemma Qle_bool_neg a b : Qle_bool a b = false -> (b < a)%Q.
Proof. intros H. apply Qnot_le_lt. intros Hle. apply Qle_bool_iff in Hle. congruence. Qed.

(** C32: The forecast of a history: none with fewer than two samples; else a rate of least squared error
    over all of them, whatever order they came in, and, of a share that fills up, the days after which
    the line that goes on from the last sample at that rate meets the capacity, and its date to
    the millisecond. The call throws exactly when the share fills up on a day no Date can hold. *)
Theorem forecast_fits points :
  let pts := samples_of points in
  match forecastStorage points with
  | Ok None => (List.length pts < 2)%nat
  | Ok (Some f) => exists first last, (2 <= List.length pts)%nat /\
      last_sample pts = Some last /\ forecast_of pts f first last
  | Err _ => exists first last growth, (2 <= List.length pts)%nat /\ head pts = Some first /\
      last_sample pts = Some last /\ fitted growth pts (sa_t first) /\ beyond_dates last growth
  end.
Proof.
  intros pts. unfold forecastStorage. fold pts. pose proof (samples_sorted points) as Hs. fold pts in Hs.
  destruct (Nat.ltb_spec (List.length pts) 2) as [Hlt|Hge]; [done|].
  destruct pts as [|first rest] eqn:Ep; [simpl in Hge; lia|].
  destruct (List.last (map Some (first :: rest)) None) as [z|] eqn:El.
  2:{ exfalso. destruct (@exists_last _ (first :: rest)) as (fr & z & E); [done|]. rewrite E, map_app in El; cbn [map] in El; rewrite List.last_last in El. done. }
  pose proof (slope_fitted first rest) as Hf. simpl in Hf.
  set (g := slope_of _ _) in *. destruct (last_some _ _ El) as [front Efr].
  assert (Hb : forall s, s ∈ first :: rest -> sa_t first <= sa_t s <= sa_t z).
  { intros s Hin. split; [by apply (first_earliest _ _ Hs)|]. rewrite Efr in Hs, Hin. by apply (last_latest front). }
  assert (Hnone : (g <= 0)%Q \/ sa_total z = None \/ sa_total z = Some 0 ->
    exists f l, (2 <= List.length (first :: rest))%nat /\ last_sample (first :: rest) = Some l /\
      forecast_of (first :: rest) {| sf_growthBytesPerDay := g; sf_daysToFull := None;
      sf_projectedFullDate := None; sf_spanDays := days_since (sa_t first) z;
      sf_samples := List.length (first :: rest) |} f l).
  { intros Hn. exists first, z. split; [done|]. split; [done|]. by constructor. }
  destruct (sa_total z) as [total|] eqn:Et; [|apply Hnone; tauto].
  destruct (Z.eqb_spec total 0) as [->|Hne]; cbn [negb andb]; [apply Hnone; tauto|].
  destruct (Qle_bool g 0) eqn:Eg; cbn [negb]; [apply Hnone; left; by apply Qle_bool_iff|].
  apply Qle_bool_neg in Eg. pose proof (days_to_full (inject_Z total) (sa_used z) g Eg) as Hd. cbv zeta in Hd.
  set (days := if Qle_bool (inject_Z total - sa_used z) 0 then _ else _) in *. destruct Hd as [Hd0 Hd].
  assert (Hfill : fills_in z g total days) by done.
  destruct (_ && _) eqn:Ew; [apply in_dates_iff in Ew|].
  - exists first, z. split; [done|]. split; [done|]. constructor; try done.
    exists total, (toward_zero (full_at z days)). repeat (split; [done|]). apply toward_zero_near.
  - exists first, z, g. repeat (split; [done|]). exists total, days. repeat (split; [done|]).
    rewrite <- in_dates_iff. unfold full_at. congruence.
Qed.

(** A share that grew by a byte in a day: its date is past the last of a Date, and the
    history of the monitor answers with an error. *)
Example slow_growth_throws : forall at0 at1,
  at0 = {| sp_ts := "2026-01-01T00:00:00.000Z"; sp_usedPct := None; sp_usedBytes := Some 1000000; sp_totalBytes := Some 1000000000 |} ->
  at1 = {| sp_ts := "2026-01-02T00:00:00.000Z"; sp_usedPct := None; sp_usedBytes := Some 1000001; sp_totalBytes := Some 1000000000 |} ->
  forecastStorage [at0; at1] = Err RangeError.
Proof. intros at0 at1 -> ->. vm_compute. reflexivity. Qed.

(** ** The series of tiles: theorems *)

Section series_facts.
Definition bucket_sane (b : UptimeBucketRow) : Prop := 0 <= ub_upSec b <= ub_totalSec b.

Lemma sums_bounded bs : List.Forall bucket_sane bs -> forall u t, 0 <= u <= t ->
  0 <= fold_left (fun n b => n + ub_upSec b) bs u <= fold_left (fun n b => n + ub_totalSec b) bs t.
Proof.
  induction 1 as [|b bs Hb _ IH]; intros u t Ht; simpl; [done|]. apply IH. unfold bucket_sane in Hb. lia.
Qed.

Lemma uptimePct_range bs pct : List.Forall bucket_sane bs -> uptimePct_of bs = Some pct -> (0 <= pct <= 100)%Q.
Proof.
  intros Hb. unfold uptimePct_of. pose proof (sums_bounded bs Hb 0 0 ltac:(lia)) as Hs.
  set (u := fold_left _ bs 0) in *. set (t := fold_left (fun n b => n + ub_totalSec b) bs 0) in *.
  destruct (Z.ltb_spec 0 t) as [Ht|]; [|discriminate]. injection 1 as <-.
  assert (Hq : (0 < inject_Z t)%Q) by (change 0%Q with (inject_Z 0); by rewrite <- Zlt_Qlt).
  assert (Hu : (0 <= inject_Z u)%Q) by (change 0%Q with (inject_Z 0); rewrite <- Zle_Qle; lia).
  assert (Hut : (inject_Z u <= inject_Z t)%Q) by (rewrite <- Zle_Qle; lia).
  assert (0 <= inject_Z u / inject_Z t)%Q by (apply Qle_shift_div_l; [done|lra]).
  assert (inject_Z u / inject_Z t <= 1)%Q by (apply Qle_shift_div_r; [done|lra]). lra.
Qed.

Lemma last_points_short xs : (List.length (last_points xs) <= MAX_POINTS)%nat.
Proof.
  unfold last_points. destruct (Nat.ltb_spec MAX_POINTS (List.length xs)); [|lia]. rewrite length_skipn. lia.
Qed.

(** The points kept are the newest. *)
Lemma last_points_newest xs : exists old, xs = old ++ last_points xs /\
  (old = [] \/ List.length (last_points xs) = MAX_POINTS).
Proof.
  unfold last_points. destruct (Nat.ltb_spec MAX_POINTS (List.length xs)).
  - exists (firstn (List.length xs - MAX_POINTS) xs). split; [by rewrite firstn_skipn|]. right. rewrite length_skipn. lia.
  - exists []. auto.
Qed.
End series_facts.
