(* ===== verification/Checks.v ===== *)
(** * Network checks and DHCP leases

    Models services/checks.ts, services/ping.ts and services/fortinet.ts of apps/backend/src, and
    how a rejected check ends the run of services/server-monitor-scheduler.ts (Probes.v). What the
    network, the name servers and the ping program answer is a parameter, as are the times that
    pass; a socket is the list of its events. Detail texts are kept as their template and values. *)
From S2P Require Import Prelude Text Dates Store Schema Regex Health Pipeline BackupPolicy Devices Monitors Probes.

(** ** Checks *)

Inductive Detail : Type :=
| NoUrl | NoHostPort | NoHostname
| HttpStatus (status : Z) | KeywordMissing (keyword : string)
| TimeoutAfter (ms : Q) | Message (text : string)
| ConnectedTo (host : string) (port : Z)
| NoRecords (recordType : string) | RecordCount (n : nat) (recordType : string).

Record CheckResult : Type := { ck_up : bool; ck_latencyMs : option Q; ck_detail : Detail }.

Definition config : Type := list (string * json).

(** [typeof c[k] === "string" ? c[k] : ""] *)
Definition text_of (key : string) (c : config) : string := default "" (text_at key c).

(** [Number(undefined)] is not a number. *)
Definition clampTimeout (v : option json) (def : Q) : Q :=
  match match v with Some v => Number_of_json v | None => NaN end with
  | Fin n => if Qle_bool n 0 then def else if Qle_bool n 60000 then n else 60000
  | _ => def
  end.

(** [/^(\d{3})\s*-\s*(\d{3})$/] *)
Definition RANGE : re :=
  cats [Start; Group 1 (Rep true 3 (Some 3%nat) digit_char); star is_space; lit "-"; star is_space;
        Group 2 (Rep true 3 (Some 3%nat) digit_char); End].

(** [Number(p) === status], [status >= Number(p)] and [status <= Number(p)] *)
Definition is_number (p : string) (status : Z) : bool :=
  match Number_of_string p with Fin q => Qeq_bool q (inject_Z status) | _ => false end.
Definition at_least (status : Z) (p : option string) : bool :=
  match Number_of_string (default "" p) with Fin q => Qle_bool q (inject_Z status) | _ => false end.
Definition at_most (status : Z) (p : option string) : bool :=
  match Number_of_string (default "" p) with Fin q => Qle_bool (inject_Z status) q | _ => false end.

Definition status_part (status : Z) (part : string) : bool :=
  let p := trim part in
  match exec RANGE p with
  | Some m => at_least status (group 1 m) && at_most status (group 2 m)
  | None => is_number p status
  end.

Definition statusOk (status : Z) (expected : option json) : bool :=
  match expected with
  | Some (JStr expected) =>
      if truthy (trim expected) then existsb (status_part status) (split_on "," expected)
      else (200 <=? status) && (status <? 400)
  | _ => (200 <=? status) && (status <? 400)
  end.

(** Why a request failed: its timer, an error with a message, or something else that was thrown. *)
Inductive FetchError : Type := AbortError | ErrorMessage (m : string) | Other.

Record Response : Type := { rs_status : Z; rs_text : result FetchError string }.

(** The [catch] of [httpCheck]. *)
Definition http_failed (timeoutMs : Q) (e : FetchError) : CheckResult :=
  {| ck_up := false; ck_latencyMs := None;
     ck_detail := match e with
       | AbortError => TimeoutAfter timeoutMs | ErrorMessage m => Message m | Other => Message "request failed"
       end |}.

(** [fetch url method timeout] is the answer to the request, [elapsed] how long it took. *)
Definition httpCheck (fetch : string -> string -> Q -> result FetchError Response) (elapsed : Q) (c : config)
  : CheckResult :=
  let url := text_of "url" c in
  if negb (truthy url) then {| ck_up := false; ck_latencyMs := None; ck_detail := NoUrl |} else
  let method := default "GET" (nonempty (option_map toUpperCase (text_at "method" c))) in
  let keyword := text_of "keyword" c in
  let timeoutMs := clampTimeout (map_get "timeoutMs" c) 10000 in
  match fetch url method timeoutMs with
  | Err e => http_failed timeoutMs e
  | Ok res =>
      let found := {| ck_up := true; ck_latencyMs := Some elapsed; ck_detail := HttpStatus (rs_status res) |} in
      if negb (statusOk (rs_status res) (map_get "expectedStatus" c))
      then {| ck_up := false; ck_latencyMs := Some elapsed; ck_detail := HttpStatus (rs_status res) |}
      else if truthy keyword then
        match rs_text res with
        | Err e => http_failed timeoutMs e
        | Ok body => if contains keyword body then found
            else {| ck_up := false; ck_latencyMs := Some elapsed; ck_detail := KeywordMissing keyword |}
        end
      else found
  end.

(** *** A connection

    What happens to the socket, each with the time since the start. *)
Inductive SocketEvent : Type :=
| Connected (elapsed : Q) | TimedOut | Errored (elapsed : Q) (code message : string).

(** The promise and its socket: [done] settles once. *)
Record Promise (A : Type) : Type := { settled : option A; destroyed : nat }.
Arguments settled {A} _. Arguments destroyed {A} _.
Definition pending_promise {A} : Promise A := {| settled := None; destroyed := 0 |}.

Definition settle {A} (r : A) (p : Promise A) : Promise A :=
  match settled p with
  | Some _ => p
  | None => {| settled := Some r; destroyed := S (destroyed p) |}
  end.

Definition tcp_verdict (host : string) (port : Z) (timeoutMs : Q) (e : SocketEvent) : CheckResult :=
  match e with
  | Connected ms => {| ck_up := true; ck_latencyMs := Some ms; ck_detail := ConnectedTo host port |}
  | TimedOut => {| ck_up := false; ck_latencyMs := None; ck_detail := TimeoutAfter timeoutMs |}
  | Errored _ _ m => {| ck_up := false; ck_latencyMs := None; ck_detail := Message m |}
  end.

(** The exception of [net.connect] for a port that is none. *)
Definition BAD_PORT : string := "ERR_SOCKET_BAD_PORT".
Definition valid_port (port : Q) : bool :=
  match isInteger (Fin port) with Some p => (0 <=? p) && (p <? 65536) | None => false end.

(** The promise after the events so far, or the error it is rejected with. *)
Definition tcpCheck (events : list SocketEvent) (c : config) : result string (Promise CheckResult) :=
  let host := text_of "host" c in
  let port := isInteger (match map_get "port" c with Some v => Number_of_json v | None => NaN end) in
  match port with
  | Some port =>
      if negb (truthy host) || (port <=? 0)
      then Ok {| settled := Some {| ck_up := false; ck_latencyMs := None; ck_detail := NoHostPort |}; destroyed := 0 |}
      else
        let timeoutMs := clampTimeout (map_get "timeoutMs" c) 8000 in
        if negb (valid_port (inject_Z port)) then Err BAD_PORT
        else Ok (fold_left (fun p e => settle (tcp_verdict host port timeoutMs e) p) events pending_promise)
  | None => Ok {| settled := Some {| ck_up := false; ck_latencyMs := None; ck_detail := NoHostPort |}; destroyed := 0 |}
  end.

(** *** Names *)

(** What [resolve] answers: a list of records, or the one record of a zone. *)
Inductive Records : Type := RecordList (n : nat) | ZoneRecord.

(** [setServers] throws on a text that is not an address; that it does for [s] is [negb (address s)]. *)
Definition dnsCheck (address : string -> bool)
    (resolve : option string -> string -> string -> Q -> result FetchError Records) (elapsed : Q) (c : config)
  : result string CheckResult :=
  let host := text_of "host" c in
  if negb (truthy host) then Ok {| ck_up := false; ck_latencyMs := None; ck_detail := NoHostname |} else
  let recordType := default "A" (nonempty (option_map toUpperCase (text_at "recordType" c))) in
  let timeoutMs := clampTimeout (map_get "timeoutMs" c) 8000 in
  let server := nonempty (option_map trim (text_at "resolver" c)) in
  let accepted := match server with Some s => address s | None => true end in
  if negb accepted then Err "ERR_INVALID_IP_ADDRESS" else
  Ok match resolve server host recordType timeoutMs with
     | Err e => {| ck_up := false; ck_latencyMs := None;
         ck_detail := Message (match e with ErrorMessage m => m | _ => "resolve failed" end) |}
     | Ok records =>
         let count := match records with RecordList n => n | ZoneRecord => O end in
         if Nat.eqb count 0 then {| ck_up := false; ck_latencyMs := Some elapsed; ck_detail := NoRecords recordType |}
         else {| ck_up := true; ck_latencyMs := Some elapsed; ck_detail := RecordCount count recordType |}
     end.

(** ** Pings *)

Record PingResult : Type := { pg_up : bool; pg_latencyMs : option number }.
Definition ping_down : PingResult := {| pg_up := false; pg_latencyMs := None |}.

Definition host_char (c : ascii) : bool := alnum c || one_of "._:-" c.
(** [/^[a-zA-Z0-9._:-]{1,253}$/] *)
Definition HOST_RE : re := whole 1 253 host_char.
Definition isValidHost (host : string) : bool := test HOST_RE host && negb (startsWith "-" host).

Definition ping_verdict (e : SocketEvent) : PingResult :=
  match e with
  | Connected ms => {| pg_up := true; pg_latencyMs := Some (Fin ms) |}
  | Errored ms code _ =>
      if String.eqb code "ECONNREFUSED" then {| pg_up := true; pg_latencyMs := Some (Fin ms) |} else ping_down
  | TimedOut => ping_down
  end.

(** [done] of [tcpPing] has no guard: it destroys the socket each time, and a promise keeps its
    first result. *)
Definition settle_again {A} (r : A) (p : Promise A) : Promise A :=
  {| settled := match settled p with Some r => Some r | None => Some r end; destroyed := S (destroyed p) |}.

Definition tcpPing (events : list SocketEvent) (port : Q) : result string (Promise PingResult) :=
  if negb (valid_port port) then Err BAD_PORT
  else Ok (fold_left (fun p e => settle_again (ping_verdict e) p) events pending_promise).

(** [/time[=<]\s*([\d.]+)\s*ms/gi], on a text in lower case *)
Definition TIME : re :=
  cats [lit "time"; Class (one_of "=<"); star is_space; Group 1 (plus (fun c => digit_char c || Ascii.eqb c ".")); star is_space; lit "ms"].

(** The first group of every match; [skip] characters belong to the match before. *)
Fixpoint times_in (skip : nat) (s : string) : list number :=
  match s with
  | EmptyString => []
  | String _ s' =>
      match skip with
      | S skip => times_in skip s'
      | O =>
          match match_at TIME None s with
          | Some m => Number_of_string (default "" (group 1 m)) :: times_in (String.length (fst m) - 1) s'
          | None => times_in 0 s'
          end
      end
  end.

(** [Math.min(...ns)] *)
Definition number_min (a b : number) : number :=
  match a, b with
  | NaN, _ | _, NaN => NaN
  | NegInf, _ | _, NegInf => NegInf
  | PosInf, b => b
  | a, PosInf => a
  | Fin x, Fin y => if Qle_bool x y then a else b
  end.
Definition Math_min (ns : list number) : number := fold_left number_min ns PosInf.

Definition ping_args (host : string) (timeoutMs count : Z) : list string :=
  ["-n"; "-c"; String_of_int count; "-w"; String_of_int (Z.max 1 (Qceiling (inject_Z timeoutMs / 1000))); host].

(** [exec args timeout] is what the program printed, or why it failed. *)
Definition icmpPing (exec : list string -> Z -> result string string) (host : string) (timeoutMs count : Z)
  : result string PingResult :=
  let? stdout := exec (ping_args host timeoutMs count) (timeoutMs + 1000) in
  let times := times_in 0 (toLowerCase stdout) in
  Ok (match times with
      | [] => ping_down
      | _ => {| pg_up := true; pg_latencyMs := Some (Math_min times) |}
      end).

Record PingOptions : Type := { po_port : option Q; po_timeoutMs : option Z; po_count : option Z }.

Definition resolved {A} (r : A) : Promise A := {| settled := Some r; destroyed := 0 |}.

Definition pingHost (exec : list string -> Z -> result string string) (events : list SocketEvent)
    (host : string) (opts : PingOptions) : result string (Promise PingResult) :=
  let timeoutMs := default 3000 (po_timeoutMs opts) in
  if negb (isValidHost host) then Ok (resolved ping_down) else
  match po_port opts with
  | Some port => tcpPing events port
  | None =>
      match icmpPing exec host timeoutMs (Z.max 1 (default 1 (po_count opts))) with
      | Ok r => Ok (resolved r)
      | Err _ => Ok (resolved ping_down)
      end
  end.

(** ** The probe of a scheduler that may be rejected *)

(** What the world answers to the probes of a run. *)
Record World : Type := {
  w_fetch : string -> string -> Q -> result FetchError Response;
  w_address : string -> bool;
  w_resolve : option string -> string -> string -> Q -> result FetchError Records;
  w_ping : list string -> Z -> result string string;
  w_socket : list SocketEvent;
  w_elapsed : Q
}.

Definition of_check (r : CheckResult) : ProbeResult := {| up := ck_up r; latencyMs := ck_latencyMs r |}.
Definition of_ping (r : PingResult) : ProbeResult :=
  {| up := pg_up r; latencyMs := match pg_latencyMs r with Some (Fin q) => Some q | _ => None end |}.

(** The answer to a probe once it settles; a socket without an event has not settled. *)
Definition settles {A} (f : A -> ProbeResult) (r : result string (Promise A)) : option (result string ProbeResult) :=
  match r with
  | Ok p => option_map (fun a => Ok (f a)) (settled p)
  | Err e => Some (Err e)
  end.

Definition answer (w : World) (p : Probe) : option (result string ProbeResult) :=
  match p with
  | PingHost host port packets => settles of_ping (pingHost (w_ping w) (w_socket w) host
      {| po_port := port; po_timeoutMs := None; po_count := Some packets |})
  | HttpCheck c => Some (Ok (of_check (httpCheck (w_fetch w) (w_elapsed w) c)))
  | TcpCheck c => settles of_check (tcpCheck (w_socket w) c)
  | DnsCheck c =>
      Some (match dnsCheck (w_address w) (w_resolve w) (w_elapsed w) c with
            | Ok r => Ok (of_check r) | Err e => Err e end)
  | NoProbe => Some (Ok {| up := false; latencyMs := None |})
  end.

(** The loop of [run]; [None] while a probe has not settled. *)
Fixpoint retry_answers (answers : nat -> option (result string ProbeResult)) (i more : nat) (result : ProbeResult)
  : option (Prelude.result string ProbeResult) :=
  match more with
  | O => Some (Ok result)
  | S more =>
      if up result then Some (Ok result) else
      match answers i with
      | Some (Ok r) => retry_answers answers (S i) more r
      | Some (Err e) => Some (Err e)
      | None => None
      end
  end.

Section run.
Context {T : Type -> Type} {ST : Store T}.

(** [run] and the [catch] of the tick: a rejected probe is logged, and nothing is written. *)
Definition run_checked (newId : string -> nat -> string) (worlds : nat -> World) (now : Z) (m : MonitorRow)
    (fallbackHost : option string) (db : ProbeDb T) : option (ProbeDb T) :=
  let sched := schedule_of m in
  let probe := probeFor m fallbackHost (Probes.count sched) in
  let answers i := answer (worlds i) probe in
  match
    match answers O with
    | Some (Ok r) => retry_answers answers 1 (Z.to_nat (retries sched)) r
    | Some (Err e) => Some (Err e)
    | None => None
    end
  with
  | Some (Ok result) => Some (record_probe newId now m result db)
  | Some (Err _) => Some db
  | None => None
  end.
End run.

(** ** Leases *)

Record DhcpLease : Type := { dl_hostname : option string; dl_mac : option string }.

(** The map of leases, and whether a poll is under way. *)
Record Fortinet : Type := { ft_leases : list (string * DhcpLease); ft_running : bool }.
Definition fortinet_start : Fortinet := {| ft_leases := []; ft_running := false |}.

Definition getDhcpLease (f : Fortinet) (ip : string) : option DhcpLease := map_get ip (ft_leases f).

(** [v || undefined] of a text. *)
Definition or_undefined (v : option json) : option string :=
  match v with Some (JStr s) => nonempty (Some s) | _ => None end.

(** A row of the answer; its members are texts or absent. *)
Definition lease_of (row : list (string * json)) : option (string * DhcpLease) :=
  match or_undefined (map_get "ip" row) with
  | None => None
  | Some ip => Some (ip, {| dl_hostname := or_undefined (map_get "hostname" row);
                            dl_mac := option_map toLowerCase (or_undefined (map_get "mac" row)) |})
  end.

Definition leases_of (rows : list (list (string * json))) : list (string * DhcpLease) :=
  fold_left (fun m row => match lease_of row with Some (ip, l) => map_set ip l m | None => m end) rows [].

(** A tick is skipped while a poll is under way; the answer of one, or its failure. *)
Inductive FortinetEvent : Type := Tick | Answer (rows : result string (list (list (string * json)))).

Definition fortinet_step (f : Fortinet) (e : FortinetEvent) : Fortinet :=
  match e with
  | Tick => if ft_running f then f else {| ft_leases := ft_leases f; ft_running := true |}
  | Answer (Ok rows) => {| ft_leases := leases_of rows; ft_running := false |}
  | Answer (Err _) => {| ft_leases := ft_leases f; ft_running := false |}
  end.

(** A client seen by an agent, as far as it is enriched. *)
Record SeenClient : Type := {
  sc_ip : string; sc_hostname : option string; sc_mac : option string; sc_hostnameSource : option string
}.

(** The loop of the ingest handler, for one client. *)
Definition enrich (f : Fortinet) (c : SeenClient) : SeenClient :=
  match nonempty (sc_hostname c), nonempty (sc_mac c), getDhcpLease f (sc_ip c) with
  | Some _, Some _, _ | _, _, None => c
  | hostname, mac, Some lease =>
      let named := match hostname, nonempty (dl_hostname lease) with None, Some h => Some h | _, _ => None end in
      {| sc_ip := sc_ip c;
         sc_hostname := match named with Some h => Some h | None => sc_hostname c end;
         sc_hostnameSource := match named with Some _ => Some "dhcp" | None => sc_hostnameSource c end;
         sc_mac := match mac with None => match nonempty (dl_mac lease) with Some a => Some a | None => sc_mac c end | Some _ => sc_mac c end |}
  end.

(** ** The accepted statuses: theorems *)

(** A part of the expectation, as an operator writes it. *)
Inductive StatusPart : Type := One (n : Z) | Span (a b : Z).

Definition part_text (p : StatusPart) : string :=
  match p with One n => String_of_int n | Span a b => pad 3 a +:+ "-" +:+ pad 3 b end.
Definition part_ok (p : StatusPart) : Prop :=
  match p with One n => 0 <= n < 1000 | Span a b => 0 <= a < 1000 /\ 0 <= b < 1000 end.
Definition covers (status : Z) (p : StatusPart) : bool :=
  match p with One n => n =? status | Span a b => (a <=? status) && (status <=? b) end.

(** Checked for every number of three digits. *)
Definition three_digits (n : Z) : bool :=
  match pad 3 n with
  | String a (String b (String c "")) =>
      digit_char a && digit_char b && digit_char c &&
      match Number_of_string (pad 3 n) with Fin q => Qeq_bool q (inject_Z n) | _ => false end
  | _ => false
  end.
Definition plain_code (n : Z) : bool :=
  match exec RANGE (String_of_int n), Number_of_string (String_of_int n) with
  | None, Fin q => Qeq_bool q (inject_Z n)
  | _, _ => false
  end.

Lemma below_thousand (p : Z -> bool) : forallb p (map Z.of_nat (List.seq 0 1000)) = true ->
  forall n, 0 <= n < 1000 -> p n = true.
Proof.
  intros H n Hn. rewrite forallb_forall in H. apply H. apply in_map_iff. exists (Z.to_nat n).
  split; [lia|]. apply in_seq. lia.
Qed.

Lemma three_digits_all n : 0 <= n < 1000 -> three_digits n = true.
Proof. apply below_thousand. vm_compute. reflexivity. Qed.

Lemma plain_code_all n : 0 <= n < 1000 -> plain_code n = true.
Proof. apply below_thousand. vm_compute. reflexivity. Qed.

Lemma digit_char_no_space c : digit_char c = true -> is_space c = false.
Proof. revert c. intros [[] [] [] [] [] [] [] []]; vm_compute; congruence. Qed.

Lemma range_exec a b c d e f : forallb digit_char [a; b; c; d; e; f] = true ->
  let x := String a (String b (String c "")) in let y := String d (String e (String f "")) in
  exists m, exec RANGE (String a (String b (String c (String "-" y)))) = Some m /\ group 1 m = Some x /\ group 2 m = Some y.
Proof.
  intros H x y. subst x y. cbn [forallb] in H. rewrite !andb_true_iff in H.
  destruct H as (Ha & Hb & Hc & Hd & He & Hf & _). pose proof (digit_char_no_space d Hd) as Hs.
  eexists. unfold exec, RANGE. cbn -[digit_char is_space].
  rewrite Ha, Hb, Hc. cbn -[digit_char is_space].
  change (is_space "-") with false. cbn -[digit_char is_space].
  rewrite Hs, Hd, He, Hf. cbn -[digit_char is_space]. split; [reflexivity|]. by split.
Qed.

Lemma pad3_text n : 0 <= n < 1000 -> exists a b c, pad 3 n = String a (String b (String c "")) /\
  digit_char a = true /\ digit_char b = true /\ digit_char c = true /\
  exists q, Number_of_string (pad 3 n) = Fin q /\ (q == inject_Z n)%Q.
Proof.
  intros Hn. pose proof (three_digits_all n Hn) as H. unfold three_digits in H.
  destruct (pad 3 n) as [|a [|b [|c [|]]]] eqn:E; try done.
  apply andb_true_iff in H as [[[Ha Hb]%andb_true_iff Hc]%andb_true_iff H]. exists a, b, c.
  split_and!; try done. destruct (Number_of_string _) as [| | |q]; try done. exists q. split; [done|]. by apply Qeq_bool_iff.
Qed.

Lemma digits_trim s : forall_char (fun c => digit_char c || Ascii.eqb c "-") s = true -> trim s = s /\ has_char "," s = false.
Proof.
  intros H.
  assert (Hc : forall d, is_space d = true \/ d = ","%char -> has_char d s = false).
  { intros d Hd. induction s as [|c s IH]; [done|]. cbn in H |- *. apply andb_true_iff in H as [Hc Hs].
    rewrite (IH Hs), orb_false_r. apply Ascii.eqb_neq. intros ->. apply orb_true_iff in Hc as [Hc|Hc%Ascii.eqb_eq].
    - destruct Hd as [Hd| ->]; [|done]. by rewrite (digit_char_no_space d Hc) in Hd.
    - destruct Hd as [Hd| ->]; [by subst|done]. }
  split; [apply trim_no_space; auto|auto].
Qed.

Definition plain_text (n : Z) : bool :=
  forall_char (fun c => digit_char c || Ascii.eqb c "-") (String_of_int n) && truthy (String_of_int n).
Lemma plain_text_all n : 0 <= n < 1000 -> plain_text n = true.
Proof. apply below_thousand. vm_compute. reflexivity. Qed.

(** A part as written is a part as split off. *)
Lemma part_text_ok p : part_ok p ->
  trim (part_text p) = part_text p /\ has_char "," (part_text p) = false /\ truthy (part_text p) = true.
Proof.
  intros Hp. assert (forall_char (fun c => digit_char c || Ascii.eqb c "-") (part_text p) = true /\ truthy (part_text p) = true) as [Hf Ht].
  { destruct p as [n|a b]; cbn in Hp.
    - by apply andb_true_iff, plain_text_all.
    - destruct Hp as [Ha Hb]. destruct (pad3_text a Ha) as (a1 & a2 & a3 & E & H1 & H2 & H3 & _).
      destruct (pad3_text b Hb) as (b1 & b2 & b3 & E' & H4 & H5 & H6 & _).
      cbn [part_text]. rewrite E, E', !app_cons_string, !app_nil_string. cbn -[digit_char]. by rewrite H1, H2, H3, H4, H5, H6. }
  destruct (digits_trim _ Hf). by split_and!.
Qed.

Lemma status_part_covers status p : part_ok p -> status_part status (part_text p) = covers status p.
Proof.
  intros Hp. unfold status_part. rewrite (proj1 (part_text_ok p Hp)). destruct p as [n|a b]; cbn in Hp.
  - cbn [part_text covers]. pose proof (plain_code_all n Hp) as H. unfold plain_code in H.
    destruct (exec _ _); [done|]. unfold is_number. destruct (Number_of_string _) as [| | |q]; try done.
    apply Qeq_bool_iff in H. apply eq_true_iff_eq. rewrite Qeq_bool_iff, Z.eqb_eq, H. unfold Qeq. simpl. lia.
  - destruct Hp as [Ha Hb]. destruct (pad3_text a Ha) as (a1 & a2 & a3 & E & H1 & H2 & H3 & qa & Na & Va).
    destruct (pad3_text b Hb) as (b1 & b2 & b3 & E' & H4 & H5 & H6 & qb & Nb & Vb).
    cbn [part_text]. rewrite E, E' in *. rewrite !app_cons_string, !app_nil_string.
    destruct (range_exec a1 a2 a3 b1 b2 b3) as (m & Hm & G1 & G2); [cbn -[digit_char]; by rewrite H1, H2, H3, H4, H5, H6|].
    rewrite Hm. unfold at_least, at_most. rewrite G1, G2. cbn [default id]. rewrite Na, Nb.
    cbn [covers]. apply eq_true_iff_eq. rewrite !andb_true_iff, !Qle_bool_iff, Va, Vb, <- !Zle_Qle, !Z.leb_le. done.
Qed.

Lemma trimStart_length s : (String.length (trimStart s) <= String.length s)%nat.
Proof. induction s as [|c s IH]; simpl; [lia|]. destruct (is_space c); simpl; lia. Qed.
Lemma trimEnd_length s : (String.length (trimEnd s) <= String.length s)%nat.
Proof.
  induction s as [|c s IH]; simpl; [lia|]. destruct (trimEnd s); simpl in *; [destruct (is_space c); simpl; lia|lia].
Qed.

Lemma trim_filled c s : is_space c = false -> truthy (trim (String c s)) = true.
Proof. intros H. unfold trim. simpl. rewrite H. simpl. destruct (trimEnd s); [by rewrite H|done]. Qed.

Lemma part_starts p : part_ok p -> exists c s, part_text p = String c s /\ is_space c = false.
Proof.
  intros Hp. destruct (part_text_ok p Hp) as (Ht & _ & Hn). destruct (part_text p) as [|c s] eqn:E; [done|].
  exists c, s. split; [done|]. destruct (is_space c) eqn:Hc; [|done]. exfalso.
  pose proof (f_equal String.length Ht) as Hl. unfold trim in Hl. simpl in Hl. rewrite Hc in Hl.
  pose proof (trimEnd_length (trimStart s)). pose proof (trimStart_length s). lia.
Qed.

(** An expectation that lists codes and ranges accepts what one of them covers; without one
    the statuses from 200 to 399 are. *)
Theorem statusOk_spec status parts : List.Forall part_ok parts -> parts <> [] ->
  statusOk status (Some (JStr (join "," (map part_text parts)))) = existsb (covers status) parts.
Proof.
  intros Hp Hne. assert (Hs : split_on "," (join "," (map part_text parts)) = map part_text parts).
  { apply split_join; [by destruct parts|]. apply Forall_map. revert Hp. apply List.Forall_impl. intros p Hp. by apply part_text_ok. }
  unfold statusOk.
  assert (Ht : truthy (trim (join "," (map part_text parts))) = true).
  { destruct Hp as [|p ps Hp _]; [done|]. destruct (part_starts p Hp) as (c & s & E & Hc).
    destruct ps; cbn [map join]; rewrite E; [by apply trim_filled|]. rewrite app_cons_string. by apply trim_filled. }
  rewrite Ht, Hs. clear Hs Ht Hne. induction Hp as [|p ps Hp _ IH]; [done|]. cbn. by rewrite status_part_covers, IH.
Qed.

(** ** The checks: theorems *)

(** A check over HTTP is up exactly when there is a url, its request is answered with an accepted
    status, and the answer holds the keyword when there is one; it says how long it took when it
    was answered in full. *)
Theorem httpCheck_spec fetch elapsed c :
  let method := default "GET" (nonempty (option_map toUpperCase (text_at "method" c))) in
  let timeoutMs := clampTimeout (map_get "timeoutMs" c) 10000 in
  let r := httpCheck fetch elapsed c in
  (ck_up r = true <->
     text_of "url" c <> "" /\
     exists res, fetch (text_of "url" c) method timeoutMs = Ok res /\
       statusOk (rs_status res) (map_get "expectedStatus" c) = true /\
       (text_of "keyword" c = "" \/ exists body, rs_text res = Ok body /\ contains (text_of "keyword" c) body = true)) /\
  (ck_up r = true -> ck_latencyMs r = Some elapsed) /\
  (0 < timeoutMs <= 60000)%Q.
Proof.
  intros method timeoutMs r. split; [|split].
  - subst r. unfold httpCheck. fold method timeoutMs. unfold truthy at 1.
    destruct (String.eqb_spec (text_of "url" c) "") as [Hu|Hu]; simpl negb; cbv iota.
    { split; [done|by intros [? _]]. }
    destruct (fetch _ _ _) as [res|e]; [|split; [done|by intros (_ & ? & ? & _)]].
    destruct (statusOk _ _) eqn:Hs; simpl negb; cbv iota; [|split; [done|intros (_ & x & [= <-] & Hx & _); congruence]].
    unfold truthy. destruct (String.eqb_spec (text_of "keyword" c) "") as [Hk|Hk]; simpl negb; cbv iota.
    { split; [|done]. intros _. split; [done|]. exists res. auto. }
    destruct (rs_text res) as [body|e] eqn:Hb; cycle 1.
    { split; [done|]. intros (_ & x & [= <-] & _ & [?|(b & Hx & _)]); [done|congruence]. }
    destruct (contains _ _) eqn:Hc; simpl.
    + split; [|done]. intros _. split; [done|]. exists res. split; [done|]. split; [done|]. right. by exists body.
    + split; [done|]. intros (_ & x & [= <-] & _ & [?|(b & Hx & Hin)]); [done|]. rewrite Hb in Hx. injection Hx as <-. congruence.
  - subst r. unfold httpCheck. destruct (negb (truthy (text_of "url" c))); [done|].
    destruct (fetch _ _ _) as [res|]; [|done]. destruct (negb _); [done|]. destruct (truthy _); [|done].
    destruct (rs_text res); [|done]. by destruct (contains _ _).
  - subst timeoutMs. unfold clampTimeout. destruct (match map_get _ c with Some v => _ | None => _ end) as [| | |n]; try lra.
    destruct (Qle_bool n 0) eqn:H0; [lra|]. assert (0 < n)%Q.
    { apply Qnot_le_lt. intros Hle. apply Qle_bool_iff in Hle. congruence. }
    destruct (Qle_bool n 60000) eqn:H6; [apply Qle_bool_iff in H6; lra|lra].
Qed.

(** A promise keeps the verdict of the first event, and its socket is destroyed once. *)
Lemma settles_first {A} (verdict : SocketEvent -> A) e events :
  fold_left (fun p e => settle (verdict e) p) (e :: events) pending_promise =
  {| settled := Some (verdict e); destroyed := 1 |}.
Proof. simpl. induction events as [|e' events IH]; [done|]. exact IH. Qed.

Lemma settles_again_first {A} (verdict : SocketEvent -> A) e events :
  settled (fold_left (fun p e => settle_again (verdict e) p) (e :: events) pending_promise) = Some (verdict e).
Proof.
  simpl. set (p := settle_again _ _). assert (Hp : settled p = Some (verdict e)) by done. clearbody p. revert p Hp.
  induction events as [|e' events IH]; intros p Hp; [done|]. simpl. apply IH. simpl. by rewrite Hp.
Qed.

(** Whatever else its socket says, a check of a port ends with the first event, once there is one: up
    for a connection, down for the time-out and for an error; a ping of the same port also counts a
    refusal as up. *)
Theorem first_event_wins c q e events :
  text_of "host" c <> "" -> map_get "port" c = Some (JNum (inject_Z q)) -> 0 < q < 65536 ->
  tcpCheck (e :: events) c =
    Ok {| settled := Some (tcp_verdict (text_of "host" c) q (clampTimeout (map_get "timeoutMs" c) 8000) e);
          destroyed := 1 |} /\
  option_map settled (match tcpPing (e :: events) (inject_Z q) with Ok p => Some p | Err _ => None end)
    = Some (Some (ping_verdict e)).
Proof.
  intros Hh Hp Hq.
  assert (Hv : valid_port (inject_Z q) = true) by (unfold valid_port; rewrite isInteger_int; lia). split.
  - unfold tcpCheck. rewrite Hp. cbn [Number_of_json Number_of_element]. rewrite isInteger_int, Hv.
    unfold truthy. destruct (String.eqb_spec (text_of "host" c) ""); [done|].
    rewrite (proj2 (Z.leb_gt q 0)) by lia. cbn [negb orb]. by rewrite settles_first.
  - unfold tcpPing. rewrite Hv. cbn [negb option_map]. f_equal. apply settles_again_first.
Qed.

(** Only a plain name or address reaches the ping program, as its last argument, and never as an option. *)
Theorem only_plain_hosts host :
  (isValidHost host = true <->
     forall_char host_char host = true /\ (1 <= String.length host <= 253)%nat /\ startsWith "-" host = false) /\
  (forall exec events opts, isValidHost host = false ->
     pingHost exec events host opts = Ok (resolved ping_down)) /\
  (forall exec exec' events opts,
     (forall args ms, List.last args "" = host -> isValidHost host = true -> exec args ms = exec' args ms) ->
     pingHost exec events host opts = pingHost exec' events host opts).
Proof.
  split; [|split].
  - unfold isValidHost, HOST_RE. rewrite test_whole by lia.
    rewrite !andb_true_iff, !Nat.leb_le, negb_true_iff. tauto.
  - intros exec events opts H. unfold pingHost. by rewrite H.
  - intros exec exec' events opts H. unfold pingHost. destruct (isValidHost host) eqn:Hv; [|done]. simpl.
    destruct (po_port opts); [done|]. unfold icmpPing. by rewrite H.
Qed.

(** The latency of a ping is the least of the times printed. *)
Lemma fastest (qs : list Q) (q : Q) : exists m, Math_min (map Fin (q :: qs)) = Fin m /\ m ∈ q :: qs /\
  forall x, x ∈ q :: qs -> (m <= x)%Q.
Proof.
  unfold Math_min. simpl. revert q. induction qs as [|x qs IH]; intros q; simpl.
  - exists q. split; [done|]. split; [left|]. intros x ->%list_elem_of_singleton. lra.
  - destruct (Qle_bool q x) eqn:E.
    + apply Qle_bool_iff in E. destruct (IH q) as (m & Hm & Hin & Hle). exists m. split; [done|].
      assert (m <= q)%Q by (apply Hle; left). split; [set_solver|].
      intros y [->|[->|Hy]%elem_of_cons]%elem_of_cons; [done|lra|apply Hle; by right].
    + assert (x < q)%Q. { apply Qnot_le_lt. intros Hc. apply Qle_bool_iff in Hc. congruence. }
      destruct (IH x) as (m & Hm & Hin & Hle). exists m. split; [done|].
      assert (m <= x)%Q by (apply Hle; left). split; [set_solver|].
      intros y [->|[->|Hy]%elem_of_cons]%elem_of_cons; [lra|done|apply Hle; by right].
Qed.

Example ping_output : times_in 0 (toLowerCase
  "64 bytes from 10.0.0.1: icmp_seq=1 ttl=64 time=12.5 ms 64 bytes from 10.0.0.1: icmp_seq=2 ttl=64 Time<1ms")
  = [Fin (125 # 10); Fin 1].
Proof. vm_compute. reflexivity. Qed.

(** The ping program, as its manual has it: with a count and a deadline it fails when fewer replies than
    the count came by the deadline. So a host that answered some of the packets counts as down. *)
Lemma lost_packet_is_down exec (replies : string -> Z) host count events timeoutMs :
  (forall n wait ms, replies host < n -> is_ok (exec ["-n"; "-c"; String_of_int n; "-w"; wait; host] ms) = false) ->
  replies host < Z.max 1 count ->
  pingHost exec events host {| po_port := None; po_timeoutMs := timeoutMs; po_count := Some count |} = Ok (resolved ping_down).
Proof.
  intros Hman Hr. unfold pingHost. destruct (isValidHost host); [|done]. simpl.
  unfold icmpPing, ping_args. pose proof (Hman _ (String_of_int (Z.max 1 (Qceiling (inject_Z (default 3000 timeoutMs) / 1000))))
    (default 3000 timeoutMs + 1000) Hr) as H. simpl in H |- *. by destruct (exec _ _).
Qed.

(** ** Runs: theorems *)

Section runs.
Context {T : Type -> Type} {ST : Store T}.
Context (newId : string -> nat -> string) (worlds : nat -> World).

(** What a probe answers when nothing rejects it. *)
Definition net_of (p : Probe) (i : nat) : ProbeResult :=
  match answer (worlds i) p with
  | Some (Ok r) => r
  | _ => {| up := false; latencyMs := None |}
  end.

Definition all_answer (p : Probe) (n : nat) : Prop :=
  forall i, (i <= n)%nat -> exists r, answer (worlds i) p = Some (Ok r).

Lemma reply_net p i r : answer (worlds i) p = Some (Ok r) -> reply net_of p i = r.
Proof. intros H. unfold reply, net_of. rewrite H. destruct p; try done. by injection H. Qed.

Lemma retry_answers_ok p i more result :
  (forall j, (i <= j < i + more)%nat -> exists r, answer (worlds j) p = Some (Ok r)) ->
  retry_answers (fun i => answer (worlds i) p) i more result = Some (Ok (fst (retry (reply net_of p) i more result))).
Proof.
  revert i result. induction more as [|more IH]; intros i result H; [done|]. simpl.
  destruct (up result); [done|]. destruct (H i ltac:(lia)) as [r Hr]. rewrite Hr, (reply_net _ _ _ Hr).
  apply IH. intros j Hj. apply H. lia.
Qed.

(** When no probe of a run is rejected or left open, the run is the one of the scheduler
    with these answers. *)
Theorem run_checked_run now m fallbackHost db :
  all_answer (probeFor m fallbackHost (Probes.count (schedule_of m))) (Z.to_nat (retries (schedule_of m))) ->
  run_checked newId worlds now m fallbackHost db = Some (Probes.run newId net_of now m fallbackHost db).
Proof.
  intros H. unfold run_checked, Probes.run, attempts. set (p := probeFor _ _ _) in *.
  destruct (H O ltac:(lia)) as [r Hr]. rewrite Hr, retry_answers_ok by (intros j Hj; apply H; lia).
  rewrite (reply_net _ _ _ Hr). by destruct (retry _ _ _ _).
Qed.


End runs.

(** ** Leases: theorems *)

(** The last row of an address that names it. *)
Lemma leases_last rows ip :
  map_get ip (leases_of rows) = last (omap (fun r => match lease_of r with
    | Some (i, l) => if decide (i = ip) then Some l else None | None => None end) rows).
Proof.
  unfold leases_of. induction rows as [|r rows IH] using rev_ind; [done|].
  rewrite fold_left_app, omap_app. cbn [fold_left omap list_omap].
  destruct (lease_of r) as [[i l]|]; [|by rewrite app_nil_r].
  destruct (decide (i = ip)) as [->|Hne]; [by rewrite map_get_set_eq, last_snoc|].
  by rewrite map_get_set_ne, app_nil_r.
Qed.

(** Between an answer and the next one the leases are those of that answer: a tick and a
    failed poll keep them. *)
Theorem leases_kept rows es ip f :
  List.Forall (fun e => match e with Answer (Ok _) => False | _ => True end) es ->
  getDhcpLease (fold_left fortinet_step (Answer (Ok rows) :: es) f) ip = map_get ip (leases_of rows).
Proof.
  intros H. simpl. set (f0 := {| ft_leases := _; ft_running := _ |}).
  assert (Hf : ft_leases f0 = leases_of rows) by done. clearbody f0. revert f0 Hf.
  induction H as [|e es He _ IH]; intros f0 Hf; simpl; [unfold getDhcpLease; by rewrite Hf|].
  apply IH. destruct e as [|[]]; simpl; [by destruct (ft_running f0)|done|done].
Qed.

Lemma nonempty_idem o v : nonempty o = Some v -> nonempty (Some v) = Some v.
Proof. unfold nonempty. destruct o as [w|]; [|done]. destruct (truthy w) eqn:E; [|done]. intros [= <-]. by rewrite E. Qed.

(** A lease fills what an agent left open and changes nothing it reported; a name it fills is marked. *)
Theorem enrich_fills f c :
  let c' := enrich f c in
  sc_ip c' = sc_ip c /\
  (forall h, nonempty (sc_hostname c) = Some h -> sc_hostname c' = sc_hostname c /\ sc_hostnameSource c' = sc_hostnameSource c) /\
  (forall a, nonempty (sc_mac c) = Some a -> sc_mac c' = sc_mac c) /\
  (forall l, getDhcpLease f (sc_ip c) = Some l ->
     (forall h, nonempty (sc_hostname c) = None -> nonempty (dl_hostname l) = Some h ->
        sc_hostname c' = Some h /\ sc_hostnameSource c' = Some "dhcp") /\
     (forall a, nonempty (sc_mac c) = None -> nonempty (dl_mac l) = Some a -> sc_mac c' = Some a)) /\
  enrich f c' = c'.
Proof.
  intros c'. subst c'. unfold enrich. destruct c as [ip host mac source]. cbn [sc_ip sc_hostname sc_mac sc_hostnameSource].
  destruct (getDhcpLease f ip) as [[lh lm]|] eqn:El.
  - destruct (nonempty host) as [h|] eqn:Eh, (nonempty mac) as [a|] eqn:Ea; cbn [dl_hostname dl_mac];
      destruct (nonempty lh) as [h'|] eqn:Elh, (nonempty lm) as [a'|] eqn:Elm;
      cbn [sc_ip sc_hostname sc_mac sc_hostnameSource];
      rewrite ?El, ?Eh, ?Ea, ?(nonempty_idem _ _ Elh), ?(nonempty_idem _ _ Elm); cbn [dl_hostname dl_mac];
      rewrite ?Elh, ?Elm; split_and!; try done; intros ? [= <-]; split; intros; cbn [dl_hostname dl_mac] in *; try (split; congruence); congruence.
  - destruct (nonempty host) eqn:Eh, (nonempty mac) eqn:Ea; cbn [sc_ip sc_hostname sc_mac sc_hostnameSource];
      rewrite ?El, ?Eh, ?Ea; by split_and!.
Qed.

(** ** Witnesses *)



