(* ===== verification/Walls.v ===== *)
(** * Walls

    Models what a wall shows: apps/frontend/src/hooks/useWallEntities.ts (tiles),
    pages/WallboardBuilder.tsx (their editor), pages/WallboardKiosk.tsx (the screen),
    components/FleetWall.tsx (panels of hosts) and pages/WallboardDisplayPage.tsx (their settings).
    Lists of agents and monitors are what the API answered, the units are those of the live socket
    (Live.v). Colours, sizes and texts of the rendering are left out. *)
From S2P Require Import Prelude Text Dates Store Schema Health RowUpdates Devices Wallboards Monitors Agents Live.

(** ** Tiles *)

Inductive WidgetKind : Set := AgentTile | MonitorTile.
#[export] Instance WidgetKind_eq_dec : EqDecision WidgetKind.
Proof. solve_decision. Defined.

Definition kind_text (k : WidgetKind) : string := match k with AgentTile => "agent" | MonitorTile => "monitor" end.

Record Widget : Type := {
  w_id : string; w_kind : WidgetKind; w_refId : string; w_title : option string;
  w_size : option string; w_group : option string; w_metrics : option (list string)
}.

Definition ALL_METRICS : list string := ["latency"; "since"; "uptime"].

(** [typeof v === "string" ? v : undefined] *)
Definition str_of (v : option json) : option string := match v with Some (JStr s) => Some s | _ => None end.

Definition read_kind (v : option json) : option WidgetKind :=
  match v with
  | Some (JStr s) => if String.eqb s "agent" then Some AgentTile else if String.eqb s "monitor" then Some MonitorTile else None
  | _ => None
  end.

Definition read_size (v : option json) : option string :=
  match v with
  | Some (JStr s) => if String.eqb s "lg" then Some "lg" else if String.eqb s "sm" then Some "sm" else None
  | _ => None
  end.

Definition read_metrics (v : option json) : option (list string) :=
  match v with
  | Some (JArr xs) =>
      Some (omap (fun x => match x with JStr s => if includes ALL_METRICS s then Some s else None | _ => None end) xs)
  | _ => None
  end.

Definition read_widget (w : json) : option Widget :=
  match w with
  | JObj c =>
      match str_of (map_get "id" c), str_of (map_get "refId" c), read_kind (map_get "kind" c) with
      | Some id, Some refId, Some kind => Some {|
          w_id := id; w_kind := kind; w_refId := refId; w_title := str_of (map_get "title" c);
          w_size := read_size (map_get "size" c); w_group := nonempty (str_of (map_get "group" c));
          w_metrics := read_metrics (map_get "metrics" c) |}
      | _, _, _ => None
      end
  | _ => None
  end.

Definition readWidgets (layout : option (list (string * json))) : list Widget :=
  match map_get "widgets" (default [] layout) with
  | Some (JArr raw) => omap read_widget raw
  | _ => []
  end.

(** *** What a tile shows *)

Record ResolvedWidget : Type := {
  rw_title : string; rw_status : string; rw_kind : WidgetKind; rw_latencyMs : option Q;
  rw_since : option Z; rw_missing : bool
}.

(** What the page holds: the lists it loaded and the live client. *)
Record Entities : Type := { en_agents : list AgentDTO; en_monitors : list MonitorRow; en_live : Client }.

(** [monitors.find] by a [Map] of the ids: the last of an id. *)
Definition agentMap (en : Entities) : list (string * AgentDTO) := js_map ag_id (fun a => a) (en_agents en).
Definition monitorMap (en : Entities) : list (string * MonitorRow) := js_map mon_id (fun m => m) (en_monitors en).

Definition missing_tile (w : Widget) : ResolvedWidget := {|
  rw_title := default (w_refId w) (w_title w); rw_status := "UNKNOWN"; rw_kind := w_kind w;
  rw_latencyMs := None; rw_since := None; rw_missing := true |}.

(** The status of a monitor: its live unit's, or by whether it is enabled. *)
Definition status_of (live : Client) (m : MonitorRow) : string :=
  match unitFor live (mon_agentId m) (mon_name m) with
  | Some u => lu_status u
  | None => if mon_enabled m then "UNKNOWN" else "DOWN"
  end.

Definition resolve (en : Entities) (w : Widget) : ResolvedWidget :=
  match w_kind w with
  | AgentTile =>
      match map_get (w_refId w) (agentMap en) with
      | None => missing_tile w
      | Some a =>
          let online := default (ag_online a) (map_get (ag_id a) (js_map la_id la_online (cl_agents (en_live en)))) in
          {| rw_title := default (ag_name a) (w_title w); rw_status := if online then "UP" else "DOWN";
             rw_kind := AgentTile; rw_latencyMs := None; rw_since := ag_lastSeenAt a; rw_missing := false |}
      end
  | MonitorTile =>
      match map_get (w_refId w) (monitorMap en) with
      | None => missing_tile w
      | Some m =>
          let unit_ := unitFor (en_live en) (mon_agentId m) (mon_name m) in
          {| rw_title := default (mon_name m) (w_title w); rw_status := status_of (en_live en) m;
             rw_kind := MonitorTile; rw_latencyMs := match unit_ with Some u => lu_latencyMs u | None => None end;
             rw_since := match unit_ with Some u => lu_since u | None => None end; rw_missing := false |}
      end
  end.

(** The tiles of the default board. *)
Definition plain_widget (id : string) (kind : WidgetKind) (refId : string) (group size : option string) : Widget := {|
  w_id := id; w_kind := kind; w_refId := refId; w_title := None; w_size := size; w_group := group; w_metrics := None |}.

Definition defaultWidgets (en : Entities) : list Widget :=
  let agentName := js_map ag_id ag_name (en_agents en) in
  map (fun a => plain_widget ("def_a_" +:+ ag_id a) AgentTile (ag_id a) (Some (ag_name a)) (Some "lg")) (en_agents en) ++
  map (fun m => plain_widget ("def_m_" +:+ mon_id m) MonitorTile (mon_id m)
         (Some (default "Monitors" (map_get (mon_agentId m) agentName))) None) (en_monitors en).

(** ** The editor of tiles *)

(** [`${kind}:${refId}`] *)
Definition tile_key (kind : WidgetKind) (refId : string) : string := kind_text kind +:+ ":" +:+ refId.
Definition key_of_widget (w : Widget) : string := tile_key (w_kind w) (w_refId w).

Definition options (en : Entities) : list (WidgetKind * string) :=
  map (fun a => (AgentTile, ag_id a)) (en_agents en) ++ map (fun m => (MonitorTile, mon_id m)) (en_monitors en).

(** What the operator may do. Fresh ids are arguments. *)
Inductive BuilderCall : Type :=
| Add (uid value : string)
| AddAllForAgent (uids : nat -> string) (agentId : string)
| SetSize (wid size : string)
| SetGroup (wid group : string)
| ToggleMetric (wid metric : string)
| Remove (wid : string)
| Drag (active over : string).

Definition addWidget (en : Entities) (uid value : string) (ws : list Widget) : list Widget :=
  match List.find (fun o => String.eqb (tile_key (fst o) (snd o)) value) (options en) with
  | None => ws
  | Some (kind, refId) =>
      if existsb (fun w => String.eqb (key_of_widget w) (tile_key kind refId)) ws then ws
      else ws ++ [plain_widget uid kind refId None None]
  end.

Definition addAllForAgent (en : Entities) (uids : nat -> string) (agentId : string) (ws : list Widget) : list Widget :=
  let has2 key := includes (map key_of_widget ws) key in
  let group := option_map ag_name (List.find (fun a => String.eqb (ag_id a) agentId) (en_agents en)) in
  let next := if has2 (tile_key AgentTile agentId) then ws
    else ws ++ [plain_widget (uids O) AgentTile agentId group (Some "lg")] in
  next ++ imap (fun i m => plain_widget (uids (S i)) MonitorTile (mon_id m) group None)
    (List.filter (fun m => negb (has2 (tile_key MonitorTile (mon_id m))))
       (List.filter (fun m => String.eqb (mon_agentId m) agentId) (en_monitors en))).

Definition patchWidget (wid : string) (patch : Widget -> Widget) (ws : list Widget) : list Widget :=
  map (fun w => if String.eqb (w_id w) wid then patch w else w) ws.

Definition with_size (size : string) (w : Widget) : Widget := {|
  w_id := w_id w; w_kind := w_kind w; w_refId := w_refId w; w_title := w_title w; w_size := Some size;
  w_group := w_group w; w_metrics := w_metrics w |}.
Definition with_group (group : string) (w : Widget) : Widget := {|
  w_id := w_id w; w_kind := w_kind w; w_refId := w_refId w; w_title := w_title w; w_size := w_size w;
  w_group := Some group; w_metrics := w_metrics w |}.
Definition toggle (x : string) (l : list string) : list string :=
  if includes l x then List.filter (fun y => negb (String.eqb y x)) l else l ++ [x].
Definition with_toggled (m : string) (w : Widget) : Widget := {|
  w_id := w_id w; w_kind := w_kind w; w_refId := w_refId w; w_title := w_title w; w_size := w_size w;
  w_group := w_group w; w_metrics := Some (toggle m (default ALL_METRICS (w_metrics w))) |}.

Fixpoint findIndex {A} (p : A -> bool) (l : list A) : option nat :=
  match l with [] => None | x :: l => if p x then Some O else option_map S (findIndex p l) end.

(** [arrayMove]: out at one place, in at the other. *)
Definition arrayMove {A} (l : list A) (from to : nat) : list A :=
  match l !! from with
  | None => l
  | Some x => let rest := delete from l in firstn to rest ++ x :: skipn to rest
  end.

Definition onDragEnd (active over : string) (ws : list Widget) : list Widget :=
  if String.eqb active over then ws else
  match findIndex (fun w => String.eqb (w_id w) active) ws, findIndex (fun w => String.eqb (w_id w) over) ws with
  | Some from, Some to => arrayMove ws from to
  | _, _ => ws
  end.

Definition edit (en : Entities) (ws : list Widget) (c : BuilderCall) : list Widget :=
  match c with
  | Add uid value => addWidget en uid value ws
  | AddAllForAgent uids agentId => addAllForAgent en uids agentId ws
  | SetSize wid size => patchWidget wid (with_size size) ws
  | SetGroup wid group => patchWidget wid (with_group group) ws
  | ToggleMetric wid m => patchWidget wid (with_toggled m) ws
  | Remove wid => List.filter (fun w => negb (String.eqb (w_id w) wid)) ws
  | Drag active over => onDragEnd active over ws
  end.

(** What is saved: the tiles as JSON, without their absent members. *)
Definition widget_json (w : Widget) : json :=
  JObj ([("id", JStr (w_id w)); ("kind", JStr (kind_text (w_kind w))); ("refId", JStr (w_refId w))]
    ++ match w_title w with Some t => [("title", JStr t)] | None => [] end
    ++ match w_size w with Some s => [("size", JStr s)] | None => [] end
    ++ match w_group w with Some g => [("group", JStr g)] | None => [] end
    ++ match w_metrics w with Some ms => [("metrics", JArr (map JStr ms))] | None => [] end).
Definition saved_layout (ws : list Widget) : list (string * json) := [("widgets", JArr (map widget_json ws))].

(** ** The screen *)

(** The board of the kiosk: the one asked for, else the default one, else the first. *)
Definition kiosk_board (id : string) (boards : list WallLayoutDTO) : option WallLayoutDTO :=
  if truthy id then List.find (fun b => String.eqb (wl_id b) id) boards
  else match List.find wl_isDefault boards with Some b => Some b | None => head boards end.

Definition kiosk_widgets (en : Entities) (layout : WallLayoutDTO) : list Widget :=
  if wl_isDefault layout then defaultWidgets en else readWidgets (Some (wl_layout layout)).

Definition kiosk_tiles (en : Entities) (ws : list Widget) : list (Widget * ResolvedWidget) :=
  List.filter (fun t => negb (rw_missing (snd t))) (map (fun w => (w, resolve en w)) ws).

(** [Math.max(1, Math.floor(px / unit))] *)
Definition fit (px unit : Z) : Z := Z.max 1 (px / unit).

(** Pages of a size: their number, the part of a page, and the next page of the timer. *)
Definition pages_of (n perPage : nat) : nat := Nat.max 1 ((n + perPage - 1) / perPage).
Definition page_slice {A} (l : list A) (perPage page : nat) : list A := firstn perPage (skipn (page * perPage) l).
Definition next_page (pages page : nat) : nat := ((page + 1) mod pages)%nat.
(** The effect that brings the page back when there are fewer. *)
Definition clamp_page (pages page : nat) : nat := if Nat.leb pages page then O else page.

Definition kiosk_perPage (w h : Z) : nat := Z.to_nat (Z.max 1 (fit w 240 * fit h 150)).

(** ** Panels of hosts *)

(** Members of the sample of a unit; an absent one and [null] read the same. *)
Definition member (k : string) (v : option json) : option json :=
  match v with
  | Some (JObj m) => match map_get k m with Some JNull => None | r => r end
  | _ => None
  end.
Definition number_of (v : option json) : option Q := match v with Some (JNum q) => Some q | _ => None end.
Definition items_of (v : option json) : list json := match v with Some (JArr l) => l | _ => [] end.
Definition Q_sum (l : list Q) : Q := fold_left Qplus l 0%Q.
Definition Q_max (a b : Q) : Q := if Qle_bool a b then b else a.

Record StoreBar : Type := { st_name : string; st_usedPct : option Q; st_freeBytes : option Q; st_status : string }.
Record Disk : Type := { di_name : string; di_status : option string; di_tempC : option Q }.
Record Reading : Type := { rd_label : string; rd_value : string; rd_unit : option string }.

Record Host : Type := {
  ho_id : string; ho_name : string; ho_online : bool; ho_overall : HealthStatus; ho_isDevice : bool;
  ho_reachable : option bool; ho_rtt : option Q; ho_cpu : option Q; ho_ram : option Q;
  ho_clients : nat; ho_sessions : Q; ho_connections : Q; ho_rxBps : option Q; ho_txBps : option Q;
  ho_diskPct : option Q; ho_diskFreeBytes : option Q; ho_lastSeen : option Z;
  ho_services : list (string * string); ho_databases : list (string * string);
  ho_stores : list StoreBar; ho_snmpItems : list Reading; ho_disks : list Disk
}.

Definition HIST : nat := 60.

(** The worst of the statuses of a host; not the rollup of the server. *)
Definition wall_rollup (statuses : list string) : HealthStatus :=
  if Nat.eqb (List.length statuses) 0 then UNKNOWN
  else if includes statuses "DOWN" then DOWN
  else if existsb (fun s => String.eqb s "DEGRADED" || String.eqb s "HANG") statuses then DEGRADED
  else if forallb (fun s => String.eqb s "UP") statuses then UP
  else UNKNOWN.

Definition RANK (o : HealthStatus) : Z :=
  match o with DOWN => 0 | DEGRADED => 1 | HANG => 1 | UNKNOWN => 2 | UP => 3 end.

Definition statusScore (st : string) : option Q :=
  if String.eqb st "UP" then Some 1%Q
  else if String.eqb st "HANG" || String.eqb st "DEGRADED" then Some (1 # 2)%Q
  else if String.eqb st "DOWN" then Some 0%Q else None.

(** What the board asks for: hosts, and per host monitors, volumes, readings and disks. *)
Record SnmpSelection : Type := { ss_volumes : option (list string); ss_items : option (list string); ss_disks : option bool }.
Record Scope : Type := {
  sp_agentIds : option (list string); sp_monitors : list (string * list string);
  sp_snmp : list (string * SnmpSelection); sp_metrics : list (string * list string)
}.

Section wall.
Context (live : Client) (scope : Scope) (monitors : list MonitorRow).

Definition monitors_of (agentId : string) : list MonitorRow :=
  List.filter (fun m => String.eqb (mon_agentId m) agentId) monitors.
Definition pingOf (agentId : string) : option MonitorRow := List.find is_default_ping (monitors_of agentId).

(** The monitors of a host that are shown, without its ping. *)
Definition othersOf (agentId : string) : list MonitorRow :=
  let ping := pingOf agentId in
  List.filter (fun m =>
    negb (match ping with Some p => String.eqb (mon_id p) (mon_id m) | None => false end) &&
    match map_get agentId (sp_monitors scope) with None => true | Some sel => includes sel (mon_name m) end)
    (monitors_of agentId).

Definition metaOf (agentId : string) (m : MonitorRow) : option json :=
  match unitFor live agentId (mon_name m) with Some u => lu_meta u | None => None end.
Definition statusOf (agentId : string) (m : MonitorRow) : string :=
  match unitFor live agentId (mon_name m) with
  | Some u => lu_status u
  | None => if mon_enabled m then "UNKNOWN" else "DOWN"
  end.
Definition named_status (agentId : string) (m : MonitorRow) : string * string := (mon_name m, statusOf agentId m).

(** The samples of the SNMP monitors of a host. *)
Definition snmpsOf (agentId : string) : list json :=
  omap (fun m => member "snmp" (metaOf agentId m))
    (List.filter (fun m => String.eqb (mon_type m) "snmp") (othersOf agentId)).

Definition first_number (k : string) (samples : list json) : option Q :=
  head (omap (fun s => number_of (member k (Some s))) samples).

Definition nic_total (k : string) (nics : list json) : option Q :=
  match nics with
  | [] => None
  | _ => Some (Q_sum (map (fun n => default 0%Q (number_of (member k (Some n)))) nics))
  end.

Definition text_member (k : string) (v : json) : string := default "" (str_of (member k (Some v))).

Definition shareStores (agentId : string) : list StoreBar :=
  omap (fun m => match member "storage" (metaOf agentId m) with
    | Some s => Some {| st_name := mon_name m; st_usedPct := number_of (member "usedPct" (Some s));
        st_freeBytes := number_of (member "freeBytes" (Some s)); st_status := statusOf agentId m |}
    | None => None end) (othersOf agentId).

Definition volStores (agentId : string) : list StoreBar :=
  flat_map (fun s => map (fun v => {| st_name := text_member "name" v;
      st_usedPct := number_of (member "usedPct" (Some v)); st_freeBytes := None; st_status := "UP" |})
    (items_of (member "volumes" (Some s)))) (snmpsOf agentId).

Definition storesOf (agentId : string) : list StoreBar :=
  let stores := shareStores agentId ++ volStores agentId in
  match map_get agentId (sp_snmp scope) with
  | Some {| ss_volumes := Some vs |} => List.filter (fun s => includes vs (st_name s)) stores
  | _ => stores
  end.

Definition snmpItemsOf (agentId : string) : list Reading :=
  match map_get agentId (sp_snmp scope) with
  | Some {| ss_items := Some labels |} =>
      map (fun it => {| rd_label := text_member "label" it; rd_value := text_member "value" it;
                        rd_unit := str_of (member "unit" (Some it)) |})
        (List.filter (fun it => includes labels (text_member "label" it))
           (flat_map (fun s => items_of (member "items" (Some s))) (snmpsOf agentId)))
  | _ => []
  end.

Definition disksOf (agentId : string) : list Disk :=
  match map_get agentId (sp_snmp scope) with
  | Some {| ss_disks := Some false |} => []
  | _ => map (fun d => {| di_name := text_member "name" d; di_status := str_of (member "status" (Some d));
                          di_tempC := number_of (member "tempC" (Some d)) |})
           (flat_map (fun s => items_of (member "disks" (Some s))) (snmpsOf agentId))
  end.

(** The distinct addresses of the clients of a host. *)
Definition clientsOf (agentId : string) : nat :=
  List.length (js_set (flat_map (fun m =>
    omap (fun c => nonempty (str_of (member "ip" (Some c)))) (items_of (member "clients" (metaOf agentId m))))
    (othersOf agentId))).

(** The share that is fullest, the first of several. *)
Definition fullest (stores : list StoreBar) : option StoreBar :=
  match stores with
  | [] => None
  | s :: stores => Some (fold_left (fun a b =>
      if Qle_bool (default 0%Q (st_usedPct b)) (default 0%Q (st_usedPct a)) then a else b) stores s)
  end.

Definition db_number (k agentId : string) (m : MonitorRow) : Q :=
  default 0%Q (number_of (member k (member "db" (metaOf agentId m)))).

Definition host_of (a : AgentDTO) : Host :=
  let id := ag_id a in
  let liveAgent := map_get id (js_map la_id (fun l => l) (cl_agents live)) in
  let online := match liveAgent with Some l => la_online l | None => false end in
  let isDevice := String.eqb (ag_kind a) "device" in
  let pingUnit := match pingOf id with Some p => unitFor live id (mon_name p) | None => None end in
  let others := othersOf id in
  let nics := flat_map (fun s => items_of (member "nics" (Some s))) (snmpsOf id) in
  let own (f : LiveAgent -> option Q) := if online && negb isDevice then match liveAgent with Some l => f l | None => None end else None in
  let or_snmp (v : option Q) k := match v with Some q => Some q | None => first_number k (snmpsOf id) end in
  let databases := List.filter (fun m => String.eqb (mon_type m) "database") others in
  {| ho_id := id; ho_name := ag_name a; ho_online := online;
     ho_overall := if isDevice || online then wall_rollup (map (statusOf id) others) else UNKNOWN;
     ho_isDevice := isDevice;
     ho_reachable := option_map (fun u => String.eqb (lu_status u) "UP") pingUnit;
     ho_rtt := match pingUnit with Some u => lu_latencyMs u | None => None end;
     ho_cpu := or_snmp (own la_cpuPct) "cpuPercent"; ho_ram := or_snmp (own la_memPct) "memUsedPct";
     ho_clients := clientsOf id;
     ho_sessions := Q_sum (map (db_number "activeSessions" id) databases);
     ho_connections := Q_sum (map (db_number "connections" id) others);
     ho_rxBps := nic_total "rxBps" nics; ho_txBps := nic_total "txBps" nics;
     ho_diskPct := match storesOf id with [] => None
       | stores => Some (fold_left (fun m s => Q_max m (default 0%Q (st_usedPct s))) stores 0%Q) end;
     ho_diskFreeBytes := match fullest (shareStores id) with Some s => st_freeBytes s | None => None end;
     ho_lastSeen := ag_lastSeenAt a;
     ho_services := map (named_status id)
       (List.filter (fun m => negb (String.eqb (mon_type m) "database") && negb (String.eqb (mon_type m) "storage")) others);
     ho_databases := map (named_status id) databases;
     ho_stores := storesOf id; ho_snmpItems := snmpItemsOf id; ho_disks := disksOf id |}.

(** [localeCompare], as its sign. *)
Context (localeCompare : string -> string -> Z).

Definition compare_hosts (x y : Host) : Z :=
  let d := RANK (ho_overall x) - RANK (ho_overall y) in
  if d =? 0 then localeCompare (ho_name x) (ho_name y) else d.

Definition in_scope (id : string) : bool :=
  match sp_agentIds scope with None => true | Some ids => includes ids id end.

Definition hosts (agents : list AgentDTO) : list Host :=
  js_sort (fun x y => 0 <? compare_hosts x y)
    (List.filter (fun h => in_scope (ho_id h))
      (map host_of (List.filter (fun a => negb (String.eqb (ag_status a) "revoked")) agents))).
End wall.

(** *** A panel *)

Inductive Severity : Set := SevDown | SevWarn.

Definition component_alert (c : string * string) : list (string * Severity) :=
  if String.eqb (snd c) "DOWN" then [(fst c +:+ " DOWN", SevDown)]
  else if String.eqb (snd c) "HANG" || String.eqb (snd c) "DEGRADED" then [(fst c +:+ " " +:+ snd c, SevWarn)]
  else [].

Definition load_alert (name : string) (limit : Q) (v : option Q) : list (string * Severity) :=
  match v with
  | Some q => if Qle_bool limit q then [(name +:+ " " +:+ String_of_int (js_round q) +:+ "%", SevWarn)] else []
  | None => []
  end.

(** The strip of alerts; an empty one reads "All systems normal". *)
Definition alerts (h : Host) : list (string * Severity) :=
  (if negb (ho_online h) && negb (ho_isDevice h)
   then [(match ho_reachable h with Some false => "HOST UNREACHABLE — network / power" | _ => "AGENT OFFLINE — host reachable" end, SevDown)]
   else []) ++
  flat_map component_alert (ho_services h ++ ho_databases h) ++
  load_alert "CPU" 90 (ho_cpu h) ++ load_alert "RAM" 92 (ho_ram h).

(** [!allow || allow.includes(k)] *)
Definition allowed (allow : option (list string)) (k : string) : bool :=
  match allow with None => true | Some ks => includes ks k end.

Definition components (allow : option (list string)) (h : Host) : list (string * string) :=
  ("Network", match ho_reachable h with Some true => "UP" | Some false => "DOWN" | None => "UNKNOWN" end) ::
  (if allowed allow "services" then ho_services h else []) ++
  (if allowed allow "databases" then ho_databases h else []).

Definition is_some {A} (v : option A) : bool := match v with Some _ => true | None => false end.

(** The keys of the graphs. *)
Definition graphs (allow : option (list string)) (h : Host) : list string :=
  (if is_some (ho_cpu h) && allowed allow "cpu" then ["cpu"] else []) ++
  (if is_some (ho_ram h) && allowed allow "ram" then ["ram"] else []) ++
  (if negb (Nat.eqb (List.length (ho_databases h)) 0) && allowed allow "sessions" then ["sessions"] else []) ++
  (if negb (Nat.eqb (ho_clients h) 0) && allowed allow "clients" then ["clients"] else []) ++
  (if is_some (ho_rxBps h) && allowed allow "net" then ["rx"; "tx"] else []) ++
  (if is_some (ho_diskPct h) && allowed allow "storage" then ["disk"] else []).

(** [/ok|online|normal|good/i] *)
Definition disk_ok (d : Disk) : bool :=
  match nonempty (di_status d) with
  | None => true
  | Some s => existsb (fun w => contains w (toLowerCase s)) ["ok"; "online"; "normal"; "good"]
  end.

(** *** Its history *)

Record Pt : Type := {
  pt_t : Z; pt_cpu : Q; pt_ram : Q; pt_clients : nat; pt_sessions : Q; pt_rx : Q; pt_tx : Q; pt_disk : Q;
  pt_statuses : list (string * option Q)
}.

Definition point (now : Z) (h : Host) : Pt := {|
  pt_t := now; pt_cpu := default 0%Q (ho_cpu h); pt_ram := default 0%Q (ho_ram h); pt_clients := ho_clients h;
  pt_sessions := ho_sessions h; pt_rx := default 0%Q (ho_rxBps h); pt_tx := default 0%Q (ho_txBps h);
  pt_disk := default 0%Q (ho_diskPct h);
  pt_statuses := fold_left (fun m c =>
      map_set (fst c) (if ho_online h || ho_isDevice h then statusScore (snd c) else None) m)
    (ho_services h ++ ho_databases h)
    [("Network", match ho_reachable h with Some true => Some 1%Q | Some false => Some 0%Q | None => None end)] |}.

Definition add_point (now : Z) (hist : list (string * list Pt)) (h : Host) : list (string * list Pt) :=
  let arr := default [] (map_get (ho_id h) hist) ++ [point now h] in
  map_set (ho_id h) (skipn (List.length arr - HIST) arr) hist.

Definition sample (now : Z) (hs : list Host) (hist : list (string * list Pt)) : list (string * list Pt) :=
  List.filter (fun e => includes (map ho_id hs) (fst e)) (fold_left (add_point now) hs hist).

(** *** Its place *)

Definition grid (template : string) (w h : Z) : Z * Z :=
  if String.eqb template "single" then (1, 1)
  else if String.eqb template "cols2" then (2, fit h 300)
  else if String.eqb template "cols3" then (3, fit h 300)
  else if String.eqb template "rows2" then (fit w 460, 2)
  else (fit w 460, fit h 340).

Definition wall_perPage (template : string) (w h : Z) : nat :=
  let '(cols, rows) := grid template w h in Z.to_nat (Z.max 1 (cols * rows)).

(** ** The settings of a board *)

Definition WALL_PANEL_METRICS : list string :=
  ["services"; "databases"; "sessions"; "clients"; "cpu"; "ram"; "net"; "storage"].

(** [WallPanelConfig]; its members are those of its type. *)
Record PanelConfig : Type := {
  pc_mode : option string; pc_hosts : option (list string); pc_metrics : list (string * list string);
  pc_monitors : list (string * list string); pc_snmp : list (string * SnmpSelection);
  pc_title : option string; pc_icon : option string
}.

(** What the wall is given of it. *)
Definition scope_of (pc : PanelConfig) : Scope := {|
  sp_agentIds := pc_hosts pc; sp_monitors := pc_monitors pc; sp_snmp := pc_snmp pc; sp_metrics := pc_metrics pc |}.

Record DisplayForm : Type := {
  df_title : string; df_icon : string; df_mode : string; df_allHosts : bool; df_selected : list string;
  df_metrics : list (string * list string); df_monitors : list (string * list string);
  df_snmp : list (string * SnmpSelection)
}.

Definition open_display (isDefault : bool) (pc : PanelConfig) : DisplayForm := {|
  df_title := default "" (pc_title pc); df_icon := default "" (pc_icon pc);
  df_mode := default (if isDefault then "panels" else "tiles") (pc_mode pc);
  df_allHosts := match pc_hosts pc with Some (_ :: _) => false | _ => true end;
  df_selected := js_set (default [] (pc_hosts pc));
  df_metrics := pc_metrics pc; df_monitors := pc_monitors pc; df_snmp := pc_snmp pc |}.

(** What a host has now. *)
Record HostAvail : Type := { av_volumes : list string; av_items : list string; av_hasDisks : bool; av_monitors : list string }.

(** What each host has, by its monitors without their pings and the samples of these. *)
Definition avail_of (live : Client) (monitors : list MonitorRow) (a : AgentDTO) : HostAvail :=
  let mons := List.filter (fun m => negb (is_default_ping m)) (monitors_of monitors (ag_id a)) in
  let snmps := omap (fun m => member "snmp" (metaOf live (ag_id a) m)) mons in
  {| av_volumes := js_set (flat_map (fun m =>
       (if is_some (member "storage" (metaOf live (ag_id a) m)) then [mon_name m] else []) ++
       flat_map (fun s => map (text_member "name") (items_of (member "volumes" (Some s))))
         (omap id [member "snmp" (metaOf live (ag_id a) m)])) mons);
     av_items := js_set (flat_map (fun s => map (text_member "label") (items_of (member "items" (Some s)))) snmps);
     av_hasDisks := existsb (fun s => negb (Nat.eqb (List.length (items_of (member "disks" (Some s)))) 0)) snmps;
     av_monitors := map mon_name mons |}.

Section display.
Context (availByHost : list (string * HostAvail)).

Definition avail_monitors (hid : string) : list string :=
  match map_get hid availByHost with Some a => av_monitors a | None => [] end.
Definition avail_volumes (hid : string) : list string :=
  match map_get hid availByHost with Some a => av_volumes a | None => [] end.

Definition shownMetrics (f : DisplayForm) (hid : string) : list string :=
  default WALL_PANEL_METRICS (map_get hid (df_metrics f)).
Definition shownMonitors (f : DisplayForm) (hid : string) : list string :=
  default (avail_monitors hid) (map_get hid (df_monitors f)).
Definition shownVolumes (f : DisplayForm) (hid : string) : list string :=
  match map_get hid (df_snmp f) with Some {| ss_volumes := Some vs |} => vs | _ => avail_volumes hid end.

Definition no_selection : SnmpSelection := {| ss_volumes := None; ss_items := None; ss_disks := None |}.
Definition snmp_of (f : DisplayForm) (hid : string) : SnmpSelection := default no_selection (map_get hid (df_snmp f)).
Definition with_volumes (vs : list string) (s : SnmpSelection) : SnmpSelection :=
  {| ss_volumes := Some vs; ss_items := ss_items s; ss_disks := ss_disks s |}.
Definition with_items (xs : list string) (s : SnmpSelection) : SnmpSelection :=
  {| ss_volumes := ss_volumes s; ss_items := Some xs; ss_disks := ss_disks s |}.
Definition with_disks (b : bool) (s : SnmpSelection) : SnmpSelection :=
  {| ss_volumes := ss_volumes s; ss_items := ss_items s; ss_disks := Some b |}.
Definition disksOn (f : DisplayForm) (hid : string) : bool :=
  match ss_disks (snmp_of f hid) with Some false => false | _ => true end.

Inductive DisplayCall : Type :=
| ToggleHostMetric (hid m : string) | ToggleMonitor (hid n : string) | ToggleVolume (hid n : string)
| ToggleItem (hid n : string) | ToggleDisks (hid : string) | ToggleHost (hid : string) | SetAllHosts (b : bool)
| SetMode (m : string) | SetTitle (t : string) | SetIcon (i : string).

Definition set_choice (f : DisplayForm) metrics monitors snmp : DisplayForm := {|
  df_title := df_title f; df_icon := df_icon f; df_mode := df_mode f; df_allHosts := df_allHosts f;
  df_selected := df_selected f; df_metrics := metrics; df_monitors := monitors; df_snmp := snmp |}.
Definition set_board (f : DisplayForm) title icon mode allHosts selected : DisplayForm := {|
  df_title := title; df_icon := icon; df_mode := mode; df_allHosts := allHosts; df_selected := selected;
  df_metrics := df_metrics f; df_monitors := df_monitors f; df_snmp := df_snmp f |}.

Definition display_edit (f : DisplayForm) (c : DisplayCall) : DisplayForm :=
  let snmp hid s := set_choice f (df_metrics f) (df_monitors f) (map_set hid s (df_snmp f)) in
  match c with
  | ToggleHostMetric hid m => set_choice f (map_set hid (toggle m (shownMetrics f hid)) (df_metrics f)) (df_monitors f) (df_snmp f)
  | ToggleMonitor hid n => set_choice f (df_metrics f) (map_set hid (toggle n (shownMonitors f hid)) (df_monitors f)) (df_snmp f)
  | ToggleVolume hid n => snmp hid (with_volumes (toggle n (shownVolumes f hid)) (snmp_of f hid))
  | ToggleItem hid n => snmp hid (with_items (toggle n (default [] (ss_items (snmp_of f hid)))) (snmp_of f hid))
  | ToggleDisks hid => snmp hid (with_disks (negb (disksOn f hid)) (snmp_of f hid))
  | ToggleHost hid => set_board f (df_title f) (df_icon f) (df_mode f) (df_allHosts f) (toggle hid (df_selected f))
  | SetAllHosts b => set_board f (df_title f) (df_icon f) (df_mode f) b (df_selected f)
  | SetMode m => set_board f (df_title f) (df_icon f) m (df_allHosts f) (df_selected f)
  | SetTitle t => set_board f t (df_icon f) (df_mode f) (df_allHosts f) (df_selected f)
  | SetIcon i => set_board f (df_title f) i (df_mode f) (df_allHosts f) (df_selected f)
  end.

(** A selection of as many names as there are is not sent. *)
Definition partial (all : string -> list string) (sel : list (string * list string)) : list (string * list string) :=
  List.filter (fun e => negb (Nat.eqb (List.length (snd e)) (List.length (all (fst e))))) sel.

Definition snmp_sent (hid : string) (sel : SnmpSelection) : option SnmpSelection :=
  let out := {|
    ss_volumes := match ss_volumes sel, map_get hid availByHost with
      | Some vs, Some a => if Nat.eqb (List.length vs) (List.length (av_volumes a)) then None else Some vs
      | _, _ => None
      end;
    ss_items := match ss_items sel with Some (x :: xs) => Some (x :: xs) | _ => None end;
    ss_disks := match ss_disks sel with Some false => Some false | _ => None end |} in
  match out with
  | {| ss_volumes := None; ss_items := None; ss_disks := None |} => None
  | _ => Some out
  end.

Definition saved_panel (f : DisplayForm) : PanelConfig := {|
  pc_mode := Some (df_mode f); pc_hosts := if df_allHosts f then None else Some (df_selected f);
  pc_metrics := partial (fun _ => WALL_PANEL_METRICS) (df_metrics f);
  pc_monitors := partial avail_monitors (df_monitors f);
  pc_snmp := omap (fun e => option_map (pair (fst e)) (snmp_sent (fst e) (snd e))) (df_snmp f);
  pc_title := nonempty (Some (trim (df_title f))); pc_icon := nonempty (Some (df_icon f)) |}.
End display.

(** ** Tiles: theorems *)

Lemma map_get_own {A} (key : A -> string) l x : NoDup (map key l) -> x ∈ l -> map_get (key x) (js_map key (fun a => a) l) = Some x.
Proof. intros. by rewrite (map_get_js_map key (fun a => a)). Qed.

(** What the tile of an agent or a monitor shows. *)
Definition shown (t : Widget * ResolvedWidget) : WidgetKind * string * string * string :=
  (w_kind (fst t), w_refId (fst t), rw_title (snd t), rw_status (snd t)).

Definition agent_online (en : Entities) (a : AgentDTO) : bool :=
  default (ag_online a) (map_get (ag_id a) (js_map la_id la_online (cl_agents (en_live en)))).

Lemma tiles_of {A} en (f : A -> Widget) (g : A -> ResolvedWidget) l :
  (forall x, x ∈ l -> resolve en (f x) = g x /\ rw_missing (g x) = false) ->
  kiosk_tiles en (map f l) = map (fun x => (f x, g x)) l.
Proof.
  unfold kiosk_tiles. induction l as [|x l IH]; intros H; [done|]. cbn [map List.filter].
  destruct (H x) as [Hx Hm]; [left|]. cbn [snd]. rewrite Hx, Hm. cbn [negb]. f_equal. apply IH.
  intros y Hy. apply H. by right.
Qed.

Lemma kiosk_tiles_app en ws ws' : kiosk_tiles en (ws ++ ws') = kiosk_tiles en ws ++ kiosk_tiles en ws'.
Proof. unfold kiosk_tiles. by rewrite map_app, List.filter_app. Qed.

(** The default board shows the whole fleet: each agent and each monitor has one tile, with its name and
    its live status, and nothing else is shown. *)
Theorem default_board_shows_all en layout :
  wl_isDefault layout = true ->
  NoDup (map ag_id (en_agents en)) -> NoDup (map mon_id (en_monitors en)) ->
  map shown (kiosk_tiles en (kiosk_widgets en layout)) =
    map (fun a => (AgentTile, ag_id a, ag_name a, if agent_online en a then "UP" else "DOWN")) (en_agents en) ++
    map (fun m => (MonitorTile, mon_id m, mon_name m, status_of (en_live en) m)) (en_monitors en).
Proof.
  intros Hd Ha Hm. unfold kiosk_widgets. rewrite Hd. unfold defaultWidgets. rewrite kiosk_tiles_app.
  set (fa := fun a => plain_widget _ AgentTile _ _ _). set (fm := fun m => plain_widget _ MonitorTile _ _ _).
  rewrite (tiles_of en fa (fun a => {| rw_title := ag_name a; rw_status := if agent_online en a then "UP" else "DOWN";
     rw_kind := AgentTile; rw_latencyMs := None; rw_since := ag_lastSeenAt a; rw_missing := false |})).
  2:{ intros a Hin. split; [|done]. unfold fa, resolve, agentMap. cbn [w_kind w_refId plain_widget w_title].
      by rewrite (map_get_own ag_id _ _ Ha Hin). }
  rewrite (tiles_of en fm (fun m =>
    let u := unitFor (en_live en) (mon_agentId m) (mon_name m) in
    {| rw_title := mon_name m; rw_status := status_of (en_live en) m; rw_kind := MonitorTile;
       rw_latencyMs := match u with Some u => lu_latencyMs u | None => None end;
       rw_since := match u with Some u => lu_since u | None => None end; rw_missing := false |})).
  2:{ intros m Hin. split; [|done]. unfold fm, resolve, monitorMap. cbn [w_kind w_refId plain_widget w_title].
      by rewrite (map_get_own mon_id _ _ Hm Hin). }
  rewrite map_app, !map_map. done.
Qed.

(** A widget as it is read back. *)
Definition tidy (w : Widget) : Widget := {|
  w_id := w_id w; w_kind := w_kind w; w_refId := w_refId w; w_title := w_title w; w_size := w_size w;
  w_group := nonempty (w_group w); w_metrics := w_metrics w |}.
Definition widget_ok (w : Widget) : Prop :=
  (w_size w = None \/ w_size w = Some "sm" \/ w_size w = Some "lg") /\
  (forall ms, w_metrics w = Some ms -> List.Forall (fun m => m ∈ ALL_METRICS) ms).

Lemma read_metrics_json ms : List.Forall (fun m => m ∈ ALL_METRICS) ms -> read_metrics (Some (JArr (map JStr ms))) = Some ms.
Proof.
  intros H. unfold read_metrics. f_equal. induction H as [|m ms Hm _ IH]; [done|]. cbn [map omap list_omap].
  rewrite (proj2 (includes_true ALL_METRICS m) Hm). f_equal. exact IH.
Qed.

Lemma read_widget_json w : widget_ok w -> read_widget (widget_json w) = Some (tidy w).
Proof.
  destruct w as [id kind refId title size group metrics]. intros [Hs Hm]. cbn in Hs, Hm.
  assert (Hr : forall ms, metrics = Some ms -> read_metrics (Some (JArr (map JStr ms))) = Some ms)
    by (intros ms E; apply read_metrics_json, Hm, E).
  assert (Hn : read_metrics None = None) by done.
  unfold tidy, widget_json, read_widget. cbn [w_id w_kind w_refId w_title w_size w_group w_metrics].
  revert Hr Hn. generalize read_metrics. intros rm Hr Hn.
  destruct metrics as [ms|]; [specialize (Hr ms eq_refl)|clear Hr];
    destruct kind, title, group; destruct Hs as [->|[->| ->]]; vm_compute in Hr || vm_compute in Hn; vm_compute; by rewrite ?Hr, ?Hn.
Qed.

(** Tiles saved by the editor are read back as they were, but for an empty heading. *)
Theorem widgets_round_trip ws : List.Forall widget_ok ws -> readWidgets (Some (saved_layout ws)) = map tidy ws.
Proof.
  intros H. change (omap read_widget (map widget_json ws) = map tidy ws). induction H as [|w ws Hw _ IH]; [done|]. cbn [map omap list_omap].
  rewrite (read_widget_json w Hw). f_equal. exact IH.
Qed.

(** *** The editor *)

Lemma tile_key_inj k1 r1 k2 r2 : tile_key k1 r1 = tile_key k2 r2 -> k1 = k2 /\ r1 = r2.
Proof. unfold tile_key. destruct k1, k2; cbn; intros H; by inversion H. Qed.

Lemma patch_keys wid patch ws : (forall w, key_of_widget (patch w) = key_of_widget w) ->
  map key_of_widget (patchWidget wid patch ws) = map key_of_widget ws.
Proof.
  intros H. unfold patchWidget. rewrite map_map. apply map_ext. intros w. by destruct (String.eqb _ _).
Qed.

Lemma arrayMove_perm {A} (l : list A) from to : arrayMove l from to ≡ₚ l.
Proof.
  unfold arrayMove. destruct (l !! from) as [x|] eqn:E; [|done].
  rewrite (delete_Permutation l from x E) at 3. rewrite <- Permutation_middle. constructor.
  by rewrite List.firstn_skipn.
Qed.

Lemma onDragEnd_perm active over ws : onDragEnd active over ws ≡ₚ ws.
Proof.
  unfold onDragEnd. destruct (String.eqb active over); [done|].
  destruct (findIndex _ ws); [|done]. destruct (findIndex _ ws); [apply arrayMove_perm|done].
Qed.

Lemma filter_sub_map {A B} (f : A -> B) (p : A -> bool) l : NoDup (map f l) -> NoDup (map f (List.filter p l)).
Proof.
  induction l as [|x l IH]; intros H; [done|]. cbn in *. apply NoDup_cons in H as [Hx H].
  destruct (p x); [|by apply IH]. cbn. apply NoDup_cons. split; [|by apply IH].
  intros Hin. apply Hx. apply elem_of_map in Hin as (y & -> & Hy). apply elem_of_map. exists y. split; [done|].
  apply list_elem_of_In. apply list_elem_of_In, filter_In in Hy. tauto.
Qed.

Lemma add_keys_once en uid value ws : NoDup (map key_of_widget ws) -> NoDup (map key_of_widget (addWidget en uid value ws)).
Proof.
  intros H. unfold addWidget. destruct (List.find _ _) as [[kind refId]|]; [|done].
  destruct (existsb _ ws) eqn:E; [done|]. rewrite map_app. apply NoDup_app. split; [done|]. split; [|apply NoDup_singleton].
  intros k Hk ->%list_elem_of_singleton. apply elem_of_map in Hk as (w & Hk & Hw).
  pose proof (proj1 (existsb_false _ ws) E w Hw) as Hne. cbn in Hne. apply String.eqb_neq in Hne. by apply Hne.
Qed.

Lemma imap_keys (g : nat -> MonitorRow -> Widget) ms :
  (forall i m, key_of_widget (g i m) = tile_key MonitorTile (mon_id m)) ->
  map key_of_widget (imap g ms) = map (fun m => tile_key MonitorTile (mon_id m)) ms.
Proof.
  intros H. revert g H. induction ms as [|m ms IH]; intros g H; [done|]. cbn. rewrite H. f_equal. apply IH. intros. apply H.
Qed.

Lemma monitor_keys_once ms : NoDup (map mon_id ms) -> NoDup (map (fun m => tile_key MonitorTile (mon_id m)) ms).
Proof.
  intros H. rewrite <- (map_map mon_id (tile_key MonitorTile)). apply NoDup_fmap_2; [|done].
  intros a b He. by apply tile_key_inj in He as [_ ?].
Qed.

Lemma add_all_keys_once en uids agentId ws : NoDup (map mon_id (en_monitors en)) ->
  NoDup (map key_of_widget ws) -> NoDup (map key_of_widget (addAllForAgent en uids agentId ws)).
Proof.
  intros Hm H. unfold addAllForAgent. set (has2 := fun key => includes (map key_of_widget ws) key).
  rewrite map_app, imap_keys by done. apply NoDup_app. split; [|split].
  - destruct (has2 (tile_key AgentTile agentId)) eqn:E; [done|]. rewrite map_app. apply NoDup_app.
    split; [done|]. split; [|apply NoDup_singleton].
    intros k Hk ->%list_elem_of_singleton. unfold has2 in E. by apply includes_false in E.
  - intros k Hk Hin. apply elem_of_map in Hin as (m & -> & Hin). apply list_elem_of_In, filter_In in Hin as [_ Hn].
    apply negb_true_iff in Hn. unfold has2 in Hn at 1. apply includes_false in Hn.
    destruct (has2 (tile_key AgentTile agentId)); [done|]. rewrite map_app in Hk. apply elem_of_app in Hk as [Hk|Hk]; [done|].
    apply list_elem_of_singleton in Hk. by apply tile_key_inj in Hk as [? _].
  - apply monitor_keys_once. by do 2 apply filter_sub_map.
Qed.

(** However the tiles of a board are edited, no agent and no monitor has two. *)
Theorem tiles_once en ws calls :
  NoDup (map mon_id (en_monitors en)) -> NoDup (map key_of_widget ws) ->
  NoDup (map key_of_widget (fold_left (edit en) calls ws)).
Proof.
  intros Hm. revert ws. induction calls as [|c calls IH]; intros ws H; [done|]. cbn. apply IH.
  destruct c; cbn [edit]; try (by rewrite patch_keys).
  - by apply add_keys_once.
  - by apply add_all_keys_once.
  - by apply filter_sub_map.
  - by rewrite onDragEnd_perm.
Qed.

(** ** Pages: theorems *)

Lemma slices_cover {A} (l : list A) n k : (0 < n)%nat -> (List.length l <= k * n)%nat ->
  flat_map (page_slice l n) (seq 0 k) = l.
Proof.
  intros Hn. revert l. induction k as [|k IH]; intros l Hl; [destruct l; [done|simpl in Hl; lia]|].
  cbn [seq flat_map]. unfold page_slice at 1. cbn [Nat.mul]. rewrite List.skipn_O.
  rewrite <- seq_shift, flat_map_concat_map, map_map, <- flat_map_concat_map.
  transitivity (firstn n l ++ skipn n l); [|apply List.firstn_skipn]. f_equal.
  rewrite <- (IH (skipn n l)) by (rewrite List.length_skipn; lia).
  apply flat_map_ext. intros page. unfold page_slice. rewrite List.skipn_skipn. f_equal. f_equal. lia.
Qed.

Lemma pages_enough l n : (0 < n)%nat -> (l <= pages_of l n * n)%nat.
Proof.
  intros Hn. unfold pages_of. pose proof (Nat.div_mod_eq (l + n - 1) n). pose proof (Nat.mod_upper_bound (l + n - 1) n ltac:(lia)). nia.
Qed.

Lemma rotate_pages pages page k : (page < pages)%nat -> Nat.iter k (next_page pages) page = ((page + k) mod pages)%nat.
Proof.
  intros Hp. induction k as [|k IH]; cbn [Nat.iter nat_rect]; [rewrite Nat.add_0_r; by rewrite Nat.mod_small|].
  unfold Nat.iter in IH. rewrite IH. unfold next_page. rewrite Nat.Div0.add_mod_idemp_l. f_equal. lia.
Qed.

(** The pages of a wall hold all its tiles, each at one place, and from any page on the timer
    shows every page within one round. *)
Theorem rotation_shows_all {A} (l : list A) perPage page :
  (0 < perPage)%nat ->
  let pages := pages_of (List.length l) perPage in
  flat_map (page_slice l perPage) (seq 0 pages) = l /\
  (forall p, (List.length (page_slice l perPage p) <= perPage)%nat) /\
  forall x, x ∈ l -> exists k, (k < pages)%nat /\
    x ∈ page_slice l perPage (Nat.iter k (next_page pages) (clamp_page pages page)).
Proof.
  intros Hn pages. assert (Hc : flat_map (page_slice l perPage) (seq 0 pages) = l) by (apply slices_cover; [done|by apply pages_enough]).
  split; [done|]. split; [intros p; unfold page_slice; rewrite List.length_firstn; lia|].
  intros x Hx. assert (Hin : In x (flat_map (page_slice l perPage) (seq 0 pages))) by (rewrite Hc; by apply list_elem_of_In).
  apply in_flat_map in Hin as (p & Hp%in_seq & Hin).
  assert (Hcl : (clamp_page pages page < pages)%nat) by (unfold clamp_page; destruct (Nat.leb_spec pages page); lia).
  set (q := clamp_page pages page) in *.
  exists (if decide (q <= p)%nat then p - q else p + pages - q)%nat.
  rewrite rotate_pages by done. destruct (decide (q <= p)%nat).
  - split; [lia|]. replace (q + (p - q))%nat with p by lia. rewrite Nat.mod_small by lia. by apply list_elem_of_In.
  - split; [lia|]. replace (q + (p + pages - q))%nat with (p + 1 * pages)%nat by lia.
    rewrite Nat.Div0.mod_add, Nat.mod_small by lia. by apply list_elem_of_In.
Qed.

(** ** Panels: theorems *)

(** The order of names that [localeCompare] gives. *)
Class LocaleOrder (cmp : string -> string -> Z) : Prop := {
  locale_sym : forall a b, 0 < cmp a b <-> cmp b a < 0;
  locale_trans : forall a b c, cmp a b <= 0 -> cmp b c <= 0 -> cmp a c <= 0
}.

Definition host_before (cmp : string -> string -> Z) (x y : Host) : Prop :=
  RANK (ho_overall x) < RANK (ho_overall y) \/
  RANK (ho_overall x) = RANK (ho_overall y) /\ cmp (ho_name x) (ho_name y) <= 0.

Lemma host_before_compare cmp x y : host_before cmp x y <-> compare_hosts cmp x y <= 0.
Proof.
  unfold host_before, compare_hosts. destruct (Z.eqb_spec (RANK (ho_overall x) - RANK (ho_overall y)) 0); lia.
Qed.

(** The wall has one panel for each host that is not revoked and that the board asks for, the worst
    first and equals by name. *)
Theorem hosts_spec live scope monitors cmp {LO : LocaleOrder cmp} agents :
  let hs := hosts live scope monitors cmp agents in
  hs ≡ₚ map (host_of live scope monitors)
    (List.filter (fun a => in_scope scope (ag_id a) && negb (String.eqb (ag_status a) "revoked")) agents) /\
  StronglySorted (host_before cmp) hs.
Proof.
  intros hs. subst hs. unfold hosts. split.
  - rewrite js_sort_perm. induction agents as [|a agents IH]; [done|]. cbn [List.filter map].
    destruct (negb (String.eqb (ag_status a) "revoked")); cbn [map List.filter].
    + change (ho_id (host_of live scope monitors a)) with (ag_id a).
      destruct (in_scope scope (ag_id a)); cbn [andb map]; [by rewrite IH|exact IH].
    + rewrite andb_false_r. exact IH.
  - eapply StronglySorted_mono; [|apply js_sort_sorted].
    + intros x y H. apply host_before_compare. apply Z.ltb_ge in H. exact H.
    + intros x y H%Z.ltb_lt. apply Z.ltb_ge. unfold compare_hosts in *.
      destruct (Z.eqb_spec (RANK (ho_overall x) - RANK (ho_overall y)) 0), (Z.eqb_spec (RANK (ho_overall y) - RANK (ho_overall x)) 0); try lia.
      apply locale_sym in H. lia.
    + intros x y z Hxy Hyz. apply Z.ltb_ge in Hxy, Hyz. apply Z.ltb_ge. apply host_before_compare in Hxy, Hyz.
      apply host_before_compare. destruct Hxy as [Hxy|[Exy Hxy]], Hyz as [Hyz|[Eyz Hyz]]; unfold host_before; try (left; lia).
      right. split; [lia|]. by apply locale_trans with (ho_name y).
Qed.

(** The rank of a host is that of its worst monitor. *)
Lemma wall_rollup_spec statuses :
  (wall_rollup statuses = DOWN <-> "DOWN" ∈ statuses) /\
  (wall_rollup statuses = UP <-> statuses <> [] /\ forall s, s ∈ statuses -> s = "UP") /\
  (wall_rollup statuses = DEGRADED <-> "DOWN" ∉ statuses /\ exists s, s ∈ statuses /\ (s = "DEGRADED" \/ s = "HANG")).
Proof.
  unfold wall_rollup. destruct statuses as [|s0 l] eqn:El; [simpl; set_solver|]. rewrite <- El.
  assert (Hne : statuses <> []) by (by rewrite El). rewrite (proj2 (Nat.eqb_neq _ _)) by (rewrite El; done).
  assert (Hx : existsb (fun s => String.eqb s "DEGRADED" || String.eqb s "HANG") statuses = true <->
    exists s, s ∈ statuses /\ (s = "DEGRADED" \/ s = "HANG")).
  { rewrite existsb_exists. split; intros (s & Hs & H); exists s; (split; [by apply list_elem_of_In|]).
    - apply orb_true_iff in H as [H%String.eqb_eq|H%String.eqb_eq]; auto.
    - destruct H as [-> | ->]; done. }
  assert (Hf : forallb (fun s => String.eqb s "UP") statuses = true <-> forall s, s ∈ statuses -> s = "UP").
  { rewrite forallb_forall. split; intros H s Hs.
    - apply String.eqb_eq, H. by apply list_elem_of_In.
    - apply String.eqb_eq, H. by apply list_elem_of_In. }
  destruct (includes statuses "DOWN") eqn:Ed.
  { apply includes_true in Ed. split; [done|]. split; (split; [done|]); [|tauto].
    intros [_ H]. by specialize (H _ Ed). }
  apply includes_false in Ed. destruct (existsb _ statuses) eqn:E1.
  { pose proof (proj1 Hx eq_refl) as (s & Hs & H). split; [done|]. split; [|split; [|done]; intros _; split; [done|by exists s]].
    split; [done|]. intros [_ Hu]. specialize (Hu _ Hs). destruct H as [-> | ->]; done. }
  assert (Hnx : ~ exists s, s ∈ statuses /\ (s = "DEGRADED" \/ s = "HANG")) by (intros H; apply Hx in H; congruence).
  destruct (forallb _ statuses) eqn:E2.
  - split; [done|]. split; [|split; [done|intros [_ H]; exact (False_ind _ (Hnx H))]].
    split; [|done]. intros _. split; [done|]. by apply Hf.
  - split; [done|]. split; [|split; [done|intros [_ H]; exact (False_ind _ (Hnx H))]].
    split; [done|]. intros [_ H]. apply Hf in H. congruence.
Qed.

Lemma component_alert_none c : component_alert c = [] <-> snd c <> "DOWN" /\ snd c <> "HANG" /\ snd c <> "DEGRADED".
Proof.
  unfold component_alert. destruct (String.eqb_spec (snd c) "DOWN"); [split; [done|tauto]|].
  destruct (String.eqb_spec (snd c) "HANG"); cbn [orb]; [split; [done|tauto]|].
  destruct (String.eqb_spec (snd c) "DEGRADED"); (split; [done|tauto]) || (split; [tauto|done]).
Qed.

Lemma load_alert_none name limit v : load_alert name limit v = [] <-> forall q, v = Some q -> (q < limit)%Q.
Proof.
  unfold load_alert. destruct v as [q|]; [|by split]. destruct (Qle_bool limit q) eqn:E.
  - apply Qle_bool_iff in E. split; [done|]. intros H. specialize (H q eq_refl). lra.
  - split; [|done]. intros _ x [= <-]. apply Qnot_le_lt. intros Hc. apply Qle_bool_iff in Hc. congruence.
Qed.

Lemma flat_map_none {A B} (f : A -> list B) l : flat_map f l = [] <-> forall x, x ∈ l -> f x = [].
Proof.
  induction l as [|x l IH]; cbn; [split; [set_solver|done]|]. split.
  - intros [H1 H2]%app_eq_nil y [->|Hy]%elem_of_cons; [done|]. by apply IH.
  - intros H. rewrite (H x) by left. apply IH. intros y Hy. apply H. by right.
Qed.

(** A panel reads "All systems normal" exactly when the host is online, or a device, none of its
    services and databases is down, hung or degraded, and processor and memory are within their limits. *)
Theorem all_normal h :
  alerts h = [] <->
  (ho_online h = true \/ ho_isDevice h = true) /\
  (forall c, c ∈ ho_services h ++ ho_databases h -> snd c <> "DOWN" /\ snd c <> "HANG" /\ snd c <> "DEGRADED") /\
  (forall q, ho_cpu h = Some q -> (q < 90)%Q) /\ (forall q, ho_ram h = Some q -> (q < 92)%Q).
Proof.
  assert (Hc : (forall c, c ∈ ho_services h ++ ho_databases h -> snd c <> "DOWN" /\ snd c <> "HANG" /\ snd c <> "DEGRADED")
    <-> flat_map component_alert (ho_services h ++ ho_databases h) = []).
  { rewrite flat_map_none. split; intros H c Hin; by apply component_alert_none, H. }
  rewrite Hc. rewrite <- (load_alert_none "CPU"), <- (load_alert_none "RAM"). unfold alerts. split.
  - intros [H1 [H2 [H3 H4]%app_eq_nil]%app_eq_nil]%app_eq_nil.
    split; [|done]. destruct (ho_online h), (ho_isDevice h); auto; done.
  - intros (Ho & H2 & H3 & H4). rewrite H2, H3, H4. by destruct Ho as [-> | ->]; [|destruct (ho_online h)].
Qed.

(** A device whose ping is down reads normal: its own ping is none of its services. *)
Definition w_switch : AgentDTO := {|
  ag_id := "d1"; ag_name := "switch"; ag_kind := "device"; ag_hostname := None; ag_platform := None;
  ag_address := Some "10.0.0.2"; ag_status := "approved"; ag_version := None; ag_lastSeenAt := None;
  ag_approvedAt := None; ag_createdAt := 0; ag_buildTime := None; ag_online := false; ag_pushIntervalSec := None;
  ag_debug := false |}.
Definition w_ping : MonitorRow := {|
  mon_id := "m1"; mon_agentId := "d1"; mon_type := "ping"; mon_name := "Ping"; mon_enabled := true;
  mon_config := [("server", JBool true); ("default", JBool true)]; mon_createdAt := 0; mon_updatedAt := 0 |}.
Definition w_live : Client := {|
  cl_agents := []; cl_logs := [];
  cl_units := [("d1:Ping", {| lu_sourceId := "d1"; lu_entity := "Ping"; lu_status := "DOWN"; lu_pid := None;
    lu_latencyMs := None; lu_since := None; lu_meta := None |})] |}.
Definition everything : Scope := {| sp_agentIds := None; sp_monitors := []; sp_snmp := []; sp_metrics := [] |}.

Example unreachable_device_normal :
  let h := host_of w_live everything [w_ping] w_switch in
  ho_reachable h = Some false /\ ho_overall h = UNKNOWN /\ alerts h = [].
Proof. vm_compute. done. Qed.

Example abnormal_disk_ok : disk_ok {| di_name := "sda"; di_status := Some "Abnormal"; di_tempC := None |} = true.
Proof. reflexivity. Qed.

(** An empty choice of monitors shows none of them, not all; a board saved with no host selected shows none,
    and its settings open with every host. *)
Lemma empty_choice_hides scope monitors id : map_get id (sp_monitors scope) = Some [] -> othersOf scope monitors id = [].
Proof.
  intros H. unfold othersOf. rewrite H. induction (monitors_of monitors id) as [|m ms IH]; [done|]. cbn.
  by rewrite andb_false_r.
Qed.

Definition w_noHosts : DisplayForm := {|
  df_title := ""; df_icon := ""; df_mode := "panels"; df_allHosts := false; df_selected := [];
  df_metrics := []; df_monitors := []; df_snmp := [] |}.

Example no_hosts_reopens :
  (forall id, in_scope (scope_of (saved_panel [] w_noHosts)) id = false) /\
  df_allHosts (open_display false (saved_panel [] w_noHosts)) = true.
Proof. by split. Qed.

(** *** The history *)

Lemma skip_tail {A} (l : list A) n : (List.length (skipn (List.length l - n) l) <= n)%nat.
Proof. rewrite List.length_skipn. lia. Qed.

Definition bounded (hist : list (string * list Pt)) : Prop := forall k pts, (k, pts) ∈ hist -> (List.length pts <= HIST)%nat.

Lemma map_set_bounded k pts hist : bounded hist -> (List.length pts <= HIST)%nat -> bounded (map_set k pts hist).
Proof.
  unfold bounded. induction hist as [|[k0 p0] hist IH]; intros Hb Hp k1 p1; cbn.
  - by intros [= -> ->]%list_elem_of_singleton.
  - destruct (decide (k = k0)); intros [[= -> ->]|Hin]%elem_of_cons; try done.
    + apply (Hb k1). by right.
    + apply (Hb k0). left.
    + apply (IH (fun k2 p2 H => Hb k2 p2 (list_elem_of_further _ _ _ H)) Hp _ _ Hin).
Qed.

Lemma add_points_bounded now hs hist : bounded hist -> bounded (fold_left (add_point now) hs hist).
Proof.
  revert hist. induction hs as [|h hs IH]; intros hist H; [done|]. cbn. apply IH. apply map_set_bounded; [done|apply skip_tail].
Qed.

Lemma add_points_get now hs h hist : NoDup (map ho_id hs) -> h ∈ hs ->
  map_get (ho_id h) (fold_left (add_point now) hs hist) =
  Some (let arr := default [] (map_get (ho_id h) hist) ++ [point now h] in skipn (List.length arr - HIST) arr).
Proof.
  revert hist. induction hs as [|g hs IH]; intros hist Hnd Hin; [set_solver|]. cbn [fold_left map] in *.
  apply NoDup_cons in Hnd as [Hg Hnd]. apply elem_of_cons in Hin as [->|Hin].
  - assert (He : forall hist', map_get (ho_id g) (fold_left (add_point now) hs hist') = map_get (ho_id g) hist').
    { clear IH Hnd. induction hs as [|x hs IHx]; intros hist'; [done|]. cbn. rewrite IHx by set_solver.
      unfold add_point. apply map_get_set_ne. set_solver. }
    rewrite He. unfold add_point. by rewrite map_get_set_eq.
  - rewrite IH by done. f_equal. unfold add_point at 1 2. rewrite map_get_set_ne; [done|].
    intros He. apply Hg. rewrite He. apply elem_of_map. by exists h.
Qed.

(** After a sample each host shown has its newest point last, at most sixty of them, and no
    host that is gone has any. *)
Theorem history_kept now hs hist : NoDup (map ho_id hs) -> bounded hist ->
  let hist' := sample now hs hist in
  bounded hist' /\
  (forall id, id ∈ map fst hist' -> id ∈ map ho_id hs) /\
  (forall h, h ∈ hs -> exists old, map_get (ho_id h) hist' = Some (old ++ [point now h])).
Proof.
  intros Hnd Hb hist'. subst hist'. unfold sample. split; [|split].
  - intros k pts Hin. apply list_elem_of_In, filter_In in Hin as [Hin _].
    apply (add_points_bounded now hs hist Hb k pts). by apply list_elem_of_In.
  - intros id Hin. apply elem_of_map in Hin as ([k pts] & -> & Hin). apply list_elem_of_In, filter_In in Hin as [_ Hin].
    by apply includes_true in Hin.
  - intros h Hh. rewrite map_get_filter_key. rewrite (proj2 (includes_true _ _)) by (apply elem_of_map; by exists h).
    rewrite add_points_get by done. set (arr := default [] (map_get (ho_id h) hist)).
    exists (skipn (List.length (arr ++ [point now h]) - HIST) arr). f_equal. cbn zeta.
    rewrite List.skipn_app. f_equal. rewrite List.length_app. cbn.
    replace (List.length arr + 1 - HIST - List.length arr)%nat with O by (unfold HIST; lia). done.
Qed.

(** ** Settings of a board: theorems *)

(** A choice of names per host, among those there are. *)
Definition choice_ok (all : string -> list string) (sel : list (string * list string)) : Prop :=
  NoDup (map fst sel) /\ forall hid ns, map_get hid sel = Some ns -> NoDup ns /\ forall n, n ∈ ns -> n ∈ all hid.

Lemma full_choice (ns all : list string) : NoDup ns -> (forall n, n ∈ ns -> n ∈ all) ->
  List.length ns = List.length all -> forall n, n ∈ all -> n ∈ ns.
Proof.
  intros Hnd Hsub Hl n Hn. assert (Hs : ns ⊆+ all) by (by apply NoDup_submseteq).
  apply submseteq_length_Permutation in Hs; [by rewrite Hs|lia].
Qed.

Lemma partial_get all sel hid : NoDup (map fst sel) ->
  map_get hid (partial all sel) =
  match map_get hid sel with
  | Some ns => if Nat.eqb (List.length ns) (List.length (all hid)) then None else Some ns
  | None => None
  end.
Proof.
  unfold partial. induction sel as [|[k ns] sel IH]; intros Hnd; [done|]. cbn in *. apply NoDup_cons in Hnd as [Hk Hnd].
  destruct (decide (hid = k)) as [->|Hne].
  - destruct (Nat.eqb _ _); cbn; [|by rewrite decide_True].
    rewrite (IH Hnd). by rewrite (proj2 (map_get_None k sel) Hk).
  - destruct (Nat.eqb _ _); cbn; [by apply IH|]. rewrite decide_False by done. by apply IH.
Qed.

(** What is sent of a choice selects, among the names there are, what was chosen. *)
Lemma partial_selects all sel hid n : choice_ok all sel -> n ∈ all hid ->
  allowed (map_get hid (partial all sel)) n = includes (default (all hid) (map_get hid sel)) n.
Proof.
  intros [Hnd Hok] Hn. rewrite partial_get by done. destruct (map_get hid sel) as [ns|] eqn:E; cbn [default id allowed].
  - destruct (Hok _ _ E) as [H1 H2]. destruct (Nat.eqb_spec (List.length ns) (List.length (all hid))) as [Hl|]; [|done].
    cbn [allowed]. symmetry. apply includes_true. by apply (full_choice ns (all hid)).
  - symmetry. by apply includes_true.
Qed.

(** The wall shows what the settings showed when they were saved: the same hosts, of each the same
    monitors among those it has, and the same metrics. *)
Theorem wall_as_set avail f :
  choice_ok (avail_monitors avail) (df_monitors f) -> choice_ok (fun _ => WALL_PANEL_METRICS) (df_metrics f) ->
  let sc := scope_of (saved_panel avail f) in
  (forall hid, in_scope sc hid = df_allHosts f || includes (df_selected f) hid) /\
  (forall hid n, n ∈ avail_monitors avail hid ->
     allowed (map_get hid (sp_monitors sc)) n = includes (shownMonitors avail f hid) n) /\
  (forall hid k, k ∈ WALL_PANEL_METRICS ->
     allowed (map_get hid (sp_metrics sc)) k = includes (shownMetrics f hid) k).
Proof.
  intros Hm Hk sc. split; [|split].
  - intros hid. unfold in_scope. cbn. by destruct (df_allHosts f).
  - intros hid n Hn. by apply (partial_selects (avail_monitors avail)).
  - intros hid k Hin. by apply (partial_selects (fun _ => WALL_PANEL_METRICS)).
Qed.

Lemma toggle_ok x (l all : list string) : NoDup l -> (forall n, n ∈ l -> n ∈ all) -> x ∈ all ->
  NoDup (toggle x l) /\ forall n, n ∈ toggle x l -> n ∈ all.
Proof.
  intros Hnd Hsub Hx. unfold toggle. destruct (includes l x) eqn:E.
  - split.
    + pose proof (filter_sub_map (fun y : string => y) (fun y => negb (String.eqb y x)) l) as H. rewrite !map_id in H. by apply H.
    + intros n Hn. apply Hsub. apply list_elem_of_In, filter_In in Hn as [Hn _]. by apply list_elem_of_In.
  - apply includes_false in E. split.
    + apply NoDup_app. split; [done|]. split; [|apply NoDup_singleton]. by intros y Hy ->%list_elem_of_singleton.
    + intros n [Hn| ->%list_elem_of_singleton]%elem_of_app; auto.
Qed.

Lemma toggle_choice_ok all sel hid n : (forall h, NoDup (all h)) -> choice_ok all sel -> n ∈ all hid ->
  choice_ok all (map_set hid (toggle n (default (all hid) (map_get hid sel))) sel).
Proof.
  intros Hall [Hnd Hok] Hn. split.
  - rewrite keys_map_set. unfold set_add. destruct (mem hid (map fst sel)) eqn:E; [done|].
    apply NoDup_app. split; [done|]. split; [|apply NoDup_singleton].
    intros y Hy ->%list_elem_of_singleton. apply mem_true in Hy. congruence.
  - intros h ns. destruct (decide (hid = h)) as [<-|Hne].
    + rewrite map_get_set_eq. intros [= <-]. destruct (map_get hid sel) as [cur|] eqn:E; cbn [default id].
      * destruct (Hok _ _ E). by apply toggle_ok.
      * by apply toggle_ok.
    + rewrite map_get_set_ne by done. apply Hok.
Qed.

(** The choices offered are among what there is. *)
Definition offered (avail : list (string * HostAvail)) (c : DisplayCall) : Prop :=
  match c with
  | ToggleHostMetric _ m => m ∈ WALL_PANEL_METRICS
  | ToggleMonitor hid n => n ∈ avail_monitors avail hid
  | _ => True
  end.

(** Every choice the page offers keeps its form among what there is. *)
Lemma display_edits_ok avail f calls : (forall h, NoDup (avail_monitors avail h)) -> List.Forall (offered avail) calls ->
  choice_ok (avail_monitors avail) (df_monitors f) -> choice_ok (fun _ => WALL_PANEL_METRICS) (df_metrics f) ->
  let f' := fold_left (display_edit avail) calls f in
  choice_ok (avail_monitors avail) (df_monitors f') /\ choice_ok (fun _ => WALL_PANEL_METRICS) (df_metrics f').
Proof.
  intros Hall Hc. revert f. induction Hc as [|c calls Hc _ IH]; intros f Hm Hk; [done|]. cbn [fold_left].
  apply IH; destruct c; cbn [display_edit df_monitors df_metrics set_choice set_board]; try done.
  - by apply (toggle_choice_ok (avail_monitors avail)).
  - apply (toggle_choice_ok (fun _ => WALL_PANEL_METRICS)); [|done|done].
    intros _. apply NoDup_ListNoDup. vm_compute. repeat constructor; cbn; intuition discriminate.
Qed.

(** A choice that names a monitor that is gone, and is as long as the list of those that are left, is not
    sent: the wall shows a monitor that was not chosen. *)
Example stale_choice_lost :
  let avail := [("a1", {| av_volumes := []; av_items := []; av_hasDisks := false; av_monitors := ["A"; "B"] |})] in
  let f := {| df_title := ""; df_icon := ""; df_mode := "panels"; df_allHosts := true; df_selected := [];
    df_metrics := []; df_monitors := [("a1", ["A"; "C"])]; df_snmp := [] |} in
  includes (shownMonitors avail f "a1") "B" = false /\
  allowed (map_get "a1" (sp_monitors (scope_of (saved_panel avail f)))) "B" = true.
Proof. vm_compute. done. Qed.

(** ** Witnesses *)

Lemma wall_as_set_witness :
  let avail := [("a1", {| av_volumes := []; av_items := []; av_hasDisks := false; av_monitors := ["A"; "B"] |})] in
  let f := display_edit avail {| df_title := ""; df_icon := ""; df_mode := "panels"; df_allHosts := true; df_selected := [];
    df_metrics := []; df_monitors := []; df_snmp := [] |} (ToggleMonitor "a1" "B") in
  allowed (map_get "a1" (sp_monitors (scope_of (saved_panel avail f)))) "B" = false.
Proof.
  intros avail f.
  assert (Hm : choice_ok (avail_monitors avail) (df_monitors f)).
  { apply (toggle_choice_ok (avail_monitors avail) [] "a1" "B").
    - intros h. unfold avail_monitors, avail. cbn [map_get]. destruct (decide (h = "a1")); [|constructor].
      apply NoDup_ListNoDup. repeat constructor; cbn; intuition discriminate.
    - split; [constructor|done].
    - vm_compute. right. left. }
  assert (Hk : choice_ok (fun _ => WALL_PANEL_METRICS) (df_metrics f)) by (split; [constructor|done]).
  rewrite (proj1 (proj2 (wall_as_set avail f Hm Hk)) "a1" "B"); [reflexivity|]. vm_compute. right. left.
Defined.

Lemma default_board_shows_all_witness :
  map shown (kiosk_tiles {| en_agents := [w_switch]; en_monitors := [w_ping]; en_live := w_live |}
    (kiosk_widgets {| en_agents := [w_switch]; en_monitors := [w_ping]; en_live := w_live |}
       {| wl_id := "w"; wl_name := "All"; wl_description := ""; wl_isDefault := true; wl_isSystem := true;
          wl_layout := []; wl_rotateSec := 10; wl_template := "flex"; wl_panelConfig := []; wl_createdAt := 0;
          wl_updatedAt := 0 |})) =
  [(AgentTile, "d1", "switch", "DOWN"); (MonitorTile, "m1", "Ping", "DOWN")].
Proof.
  rewrite (default_board_shows_all _ _); [reflexivity|reflexivity| |]; apply NoDup_singleton.
Defined.
