(* ===== verification/Console.v ===== *)
(** * The console routes

    Models routes/client-meta.routes.ts (with services/client-meta.ts), snmp-profiles.routes.ts,
    retention.routes.ts, public.routes.ts and telemetry.routes.ts of apps/backend/src: who may call
    each route (Http.v), what it asks of the services (SnmpProfiles.v, Mib.v, Retention.v,
    PublicStatus.v, Telemetry.v), how it replies and which audit row it leaves. A parsed body is
    [None] where zod rejects it. The audit log is a table of the telemetry, which the sweep prunes.
    Fresh ids, the orders of lists, the device of a walk and the names of a list are arguments. *)
From S2P Require Import Prelude Dates Text Store Schema RowUpdates Settings AuditLog Authz Auth Devices Gate Http.
From S2P Require Import SnmpProfiles Snmp Mib Retention PublicStatus Telemetry Monitors.

Record ConsoleState (T : Type -> Type) : Type := {
  co_profiles : T SnmpProfileRow; co_mibs : T MibObjectRow; co_clients : T ClientMetaRow;
  co_retention : T RetentionRow; co_status : StatusDb T; co_telemetry : TelemetryTables T
}.
Arguments co_profiles {T} _. Arguments co_mibs {T} _. Arguments co_clients {T} _.
Arguments co_retention {T} _. Arguments co_status {T} _. Arguments co_telemetry {T} _.

Section setters.
Context {T : Type -> Type}.
Implicit Types st : ConsoleState T.
Definition set_profiles st v : ConsoleState T := {|
  co_profiles := v; co_mibs := co_mibs st; co_clients := co_clients st; co_retention := co_retention st;
  co_status := co_status st; co_telemetry := co_telemetry st |}.
Definition set_mibs st v : ConsoleState T := {|
  co_profiles := co_profiles st; co_mibs := v; co_clients := co_clients st; co_retention := co_retention st;
  co_status := co_status st; co_telemetry := co_telemetry st |}.
Definition set_clients st v : ConsoleState T := {|
  co_profiles := co_profiles st; co_mibs := co_mibs st; co_clients := v; co_retention := co_retention st;
  co_status := co_status st; co_telemetry := co_telemetry st |}.
Definition set_retention st v : ConsoleState T := {|
  co_profiles := co_profiles st; co_mibs := co_mibs st; co_clients := co_clients st; co_retention := v;
  co_status := co_status st; co_telemetry := co_telemetry st |}.
Definition set_public st (v : T PublicConfigRow) : ConsoleState T := {|
  co_profiles := co_profiles st; co_mibs := co_mibs st; co_clients := co_clients st; co_retention := co_retention st;
  co_status := {| sd_publicConfig := v; sd_agents := sd_agents (co_status st); sd_monitors := sd_monitors (co_status st);
    sd_unitStates := sd_unitStates (co_status st); sd_uptimeBuckets := sd_uptimeBuckets (co_status st) |};
  co_telemetry := co_telemetry st |}.
Definition set_telemetry st v : ConsoleState T := {|
  co_profiles := co_profiles st; co_mibs := co_mibs st; co_clients := co_clients st; co_retention := co_retention st;
  co_status := co_status st; co_telemetry := v |}.
End setters.

#[export] Instance console_audited {T : Type -> Type} : Audited T (ConsoleState T) := {|
  log_of st := co_telemetry st Retention.auditLog;
  with_log l st := set_telemetry st (on_table Retention.auditLog (fun _ => l) (co_telemetry st));
  same_state := eq |}.

(** ** Annotations of clients *)

Record ClientMetaDTO : Type := {
  cmd_ip : string; cmd_hostname : option string; cmd_description : option string; cmd_updated : Z
}.
Definition clientMeta_toDTO (r : ClientMetaRow) : ClientMetaDTO := {|
  cmd_ip := cm_ip r; cmd_hostname := cm_hostname r; cmd_description := cm_description r; cmd_updated := cm_updatedAt r |}.

(** [{ hostname?, description? }], each a text or null. *)
Record ClientMetaInput : Type := { ci_hostname : option string; ci_description : option string }.

Section clients.
Context {T : Type -> Type} {ST : Store T}.
Implicit Types t : T ClientMetaRow.

Definition is_client (ip : string) (r : ClientMetaRow) : bool := String.eqb (cm_ip r) ip.

Definition listClientMeta t : list ClientMetaDTO := map clientMeta_toDTO (rows t).

Definition upsertClientMeta (now : Z) t (ip : string) (input : ClientMetaInput) (updatedBy : option string)
  : T ClientMetaRow * option ClientMetaDTO :=
  let row := {| cm_ip := ip; cm_hostname := ci_hostname input; cm_description := ci_description input;
                cm_updatedBy := updatedBy; cm_createdAt := now; cm_updatedAt := now |} in
  let t := upsert clientMeta_conflict row (fun r =>
    set_cm_hostname (ci_hostname input) (set_cm_description (ci_description input)
      (set_cm_updatedBy updatedBy (set_cm_updatedAt now r)))) t in
  (t, clientMeta_toDTO <$> select_first (is_client ip) t).

Definition deleteClientMeta t (ip : string) : T ClientMetaRow * bool :=
  match select_first (is_client ip) t with
  | None => (t, false)
  | Some _ => (delete_where (is_client ip) t, true)
  end.
End clients.

(** ** The JSON of audit rows *)

Definition text_or_null (s : option string) : json := match s with Some s => JStr s | None => JNull end.
Definition optional (k : string) (s : option string) : list (string * json) :=
  match s with Some s => [(k, JStr s)] | None => [] end.
Definition number (n : Z) : json := JNum (inject_Z n).

Definition clientMeta_json (c : ClientMetaDTO) : json :=
  JObj [("ip", JStr (cmd_ip c)); ("hostname", text_or_null (cmd_hostname c));
        ("description", text_or_null (cmd_description c)); ("updatedAt", JStr (toISOString (cmd_updated c)))].

Definition oid_json (o : SnmpProfileOid) : json :=
  JObj ([("label", JStr (po_label o)); ("oid", JStr (po_oid o))] ++ optional "unit" (po_unit o) ++ optional "group" (po_group o)).
Definition column_json (c : SnmpProfileTableCol) : json :=
  JObj ([("label", JStr (pc_label c)); ("col", number (pc_col c))] ++ optional "unit" (pc_unit c) ++
    match pc_enum c with Some m => [("enum", JObj (map (fun '(k, v) => (k, JStr v)) m))] | None => [] end).
Definition table_json (t : SnmpProfileTable) : json :=
  JObj [("name", JStr (pt_name t)); ("oid", JStr (pt_oid t)); ("columns", JArr (map column_json (pt_columns t)))].
Definition profile_json (p : SnmpProfileDTO) : json :=
  JObj [("id", JStr (pd_id p)); ("name", JStr (pd_name p)); ("vendor", JStr (pd_vendor p));
    ("deviceType", JStr (pd_deviceType p)); ("model", JStr (pd_model p)); ("standard", JBool (pd_standard p));
    ("oids", JArr (map oid_json (pd_oids p))); ("tables", JArr (map table_json (pd_tables p)));
    ("isSystem", JBool (pd_isSystem p))].
Definition public_item_json (i : PublicItem) : json :=
  JObj ([("kind", JStr (item_kind i)); ("refId", JStr (item_refId i)); ("label", JStr (item_label i))] ++ optional "group" (item_group i)).
Definition public_json (c : PublicConfigDTO) : json :=
  JObj ([("enabled", JBool (pc_enabled c)); ("title", JStr (pc_title c))] ++ optional "description" (pc_description c) ++
    [("showUptime", JBool (pc_showUptime c)); ("showHistory", JBool (pc_showHistory c));
     ("historyDays", number (pc_historyDays c))] ++
    match pc_notice c with
    | Some n => [("notice", JObj [("level", JStr (notice_level n)); ("message", JStr (notice_message n))])]
    | None => [] end ++
    [("items", JArr (map public_item_json (pc_items c)))]).

(** [decodeURIComponent]: [None] is its exception, for a percent sign without two hexadecimal digits.
    Escaped bytes beyond ASCII are taken to be UTF-8. *)
Fixpoint decodeURIComponent (s : string) : option string :=
  match s with
  | EmptyString => Some ""
  | String c s' =>
      if Ascii.eqb c "%" then
        match s' with
        | String a (String b s'') =>
            match hex_val a, hex_val b with
            | Some x, Some y => option_map (String (chr (16 * x + y))) (decodeURIComponent s'')
            | _, _ => None
            end
        | _ => None
        end
      else option_map (String c) (decodeURIComponent s')
  end.

(** ** The requests *)

Record WalkBody : Type := { wb_host : string; wb_oid : option string; wb_community : option string; wb_version : option string }.

Inductive ConsoleCall : Type :=
| get_client_meta | put_client_meta (ip : string) (body : option ClientMetaInput) | delete_client_meta (ip : string)
| get_profiles | post_walk (body : option WalkBody) | get_mibs | post_mib (body : option (string * string))
| delete_mib (name : string) | post_profile (body : option SnmpProfileInput)
| patch_profile (id : string) (body : option SnmpProfileInput) | delete_profile (id : string)
| get_retention | put_retention_days (dataType : string) (body : json) | run_retention
| get_public_config | put_public_config (body : option PublicConfigDTO)
| get_audit (q : option AuditQuery) | get_logs (q : option LogQuery) | get_events (q : option EventQuery)
| get_notifications (q : option NotificationQuery) | ack_notification (id : string)
| get_uptime_buckets (sourceId entity : option string) (hours : option Z).

Inductive ConsoleBody : Type :=
| ClientMetas (rows : list ClientMetaDTO) | AClientMeta (meta : ClientMetaDTO)
| Profiles (rows : list SnmpProfileDTO) | AProfile (p : SnmpProfileDTO)
| Walked (rows : list WalkRow) (error : option string)
| Mibs (rows : list (string * Z)) | Imported (imported parsed : nat)
| Policies (rows : list RetentionRow) | APolicy (row : option RetentionRow) | PrunedTypes (pruned : list (string * string))
| AConfig (c : PublicConfigDTO) | AStatus (s : PublicStatusDTO)
| AuditPage (p : Page AuditView) | LogPage (p : Page (LogRow * option string)) | EventPage (p : Page (StatusEventRow * option string))
| NotificationPage (p : Page (NotificationRow * option string)) | UptimeRows (rows : list UptimeBucketRow)
| Finished.

Section routes.
Context {T : Type -> Type} {ST : Store T} {PG : PgTime} {TI : Ties}.
Context (rq : RequestEnv) (newId : string) (profile_gt : SnmpProfileDTO -> SnmpProfileDTO -> bool)
  (mib_gt : string * Z -> string * Z -> bool) (device : WalkBody -> Device) (maps : NameMaps)
  (fails : string -> Z -> bool) (sweep_now : string -> Z).
Implicit Types (st : ConsoleState T) (who : auth_outcome) (subject : AuthSubject).

(** client-meta.routes.ts. The claims of a token hold no username, so [updatedBy] is null. *)
Definition clientMetaRoutes who st (call : ConsoleCall) : option (ConsoleState T * reply ConsoleBody) :=
  match call with
  | get_client_meta => Some (guarded who "monitors:read" false st (fun _ => (st, Sent 200 (ClientMetas (listClientMeta (co_clients st))))))
  | put_client_meta ip body => Some (guarded who "monitors:write" false st (fun subject => with_body body st (fun input =>
      match upsertClientMeta (rq_now rq) (co_clients st) ip input None with
      | (t, Some meta) => record_and rq subject "clientmeta.upsert" "monitors" (Some ip) None (Some (clientMeta_json meta)) 200
                            (AClientMeta meta) (set_clients st t)
      | (t, None) => (set_clients st t, Thrown)
      end)))
  | delete_client_meta ip => Some (guarded who "monitors:write" false st (fun subject =>
      let '(t, ok) := deleteClientMeta (co_clients st) ip in
      if ok then record_and rq subject "clientmeta.delete" "monitors" (Some ip) None None 200 Finished (set_clients st t)
      else not_found st))
  | _ => None
  end.

(** The rows of a walk under the names of the imported MIBs. *)
Definition renamed (mibs : T MibObjectRow) (rows : list WalkRow) : list WalkRow :=
  let names := resolveOidNames mibs (map wr_oid rows) in
  map (fun r => {| wr_oid := wr_oid r; wr_value := wr_value r;
                   wr_name := default (wr_name r) (nonempty (map_get (wr_oid r) names)) |}) rows.

(** snmp-profiles.routes.ts *)
Definition snmpProfileRoutes who st (call : ConsoleCall) : option (ConsoleState T * reply ConsoleBody) :=
  let write := guarded who "monitors:write" false st in
  match call with
  | get_profiles => Some (guarded who "monitors:read" false st (fun _ =>
      (st, Sent 200 (Profiles (listSnmpProfiles profile_gt (co_profiles st))))))
  | post_walk body => Some (write (fun _ => with_body body st (fun b =>
      let '(found, error) := snmpWalk (device b) (wb_host b) (default "1.3.6.1.2.1" (nonempty (wb_oid b))) (Some 1500) in
      (st, Sent 200 (Walked (renamed (co_mibs st) found) error)))))
  | get_mibs => Some (guarded who "monitors:read" false st (fun _ => (st, Sent 200 (Mibs (listMibs mib_gt (co_mibs st))))))
  | post_mib body => Some (write (fun subject => with_body body st (fun '(name, content) =>
      match importMib (rq_now rq) (co_mibs st) (trim name) content with
      | None => (st, Thrown)
      | Some (t, (imported, parsed)) =>
          record_and rq subject "mib.import" "monitors" (Some (trim name)) None
            (Some (JObj [("imported", number (Z.of_nat imported)); ("parsed", number (Z.of_nat parsed))])) 200
            (Imported imported parsed) (set_mibs st t)
      end)))
  | delete_mib name => Some (write (fun subject =>
      match decodeURIComponent name with
      | None => (st, Thrown)
      | Some module => record_and rq subject "mib.delete" "monitors" (Some name) None None 200 Finished
                         (set_mibs st (deleteMib (co_mibs st) module))
      end))
  | post_profile body => Some (write (fun subject => with_body body st (fun input =>
      let '(t, profile) := createSnmpProfile (rq_now rq) newId (co_profiles st) input in
      record_and rq subject "snmpprofile.create" "monitors" (Some (pd_id profile)) None (Some (profile_json profile)) 200
        (AProfile profile) (set_profiles st t))))
  | patch_profile id body => Some (write (fun subject => with_body body st (fun input =>
      match updateSnmpProfile (rq_now rq) (co_profiles st) id input with
      | (t, Err _) => (set_profiles st t, Http.Failed 403 "protected")
      | (t, Ok None) => (set_profiles st t, Http.Failed 404 "not_found")
      | (t, Ok (Some profile)) =>
          record_and rq subject "snmpprofile.update" "monitors" (Some (pd_id profile)) None (Some (profile_json profile)) 200
            (AProfile profile) (set_profiles st t)
      end)))
  | delete_profile id => Some (write (fun subject =>
      match getSnmpProfile (co_profiles st) id with
      | None => not_found st
      | Some existing =>
          match deleteSnmpProfile (co_profiles st) id with
          | (t, Err _) => (set_profiles st t, Http.Failed 403 "protected")
          | (t, Ok _) => record_and rq subject "snmpprofile.delete" "monitors" (Some id) (Some (profile_json existing)) None 200
                           Finished (set_profiles st t)
          end
      end))
  | _ => None
  end.

(** retention.routes.ts; the sweep goes over the telemetry, its audit log included. *)
Definition retentionRoutes who st (call : ConsoleCall) : option (ConsoleState T * reply ConsoleBody) :=
  match call with
  | get_retention => Some (guarded who "retention:read" false st (fun _ => (st, Sent 200 (Policies (listRetention (co_retention st))))))
  | put_retention_days dataType body => Some (guarded who "retention:write" false st (fun subject =>
      match put_retention (rq_now rq) (co_retention st) dataType body with
      | (_, InvalidDataType) => (st, Http.Failed 400 "invalid_data_type")
      | (_, InvalidRequest) => (st, Http.Failed 400 "invalid_request")
      | (t, Updated row) =>
          record_and rq subject "retention.update" "retention" (Some dataType) None
            (Some (JObj [("dataType", JStr dataType);
              ("days", match putBody body with Some (Some n) => number n | _ => JNull end)])) 200 (APolicy row) (set_retention st t)
      end))
  | run_retention => Some (guarded who "retention:write" false st (fun subject =>
      let '(tables, pruned) := runRetentionSweep fails sweep_now (co_retention st) (co_telemetry st) in
      record_and rq subject "retention.run" "retention" (Some "all") None
        (Some (JObj [("pruned", JObj (map (fun '(k, v) => (k, JStr v)) pruned))])) 200 (PrunedTypes pruned) (set_telemetry st tables)))
  | _ => None
  end.

(** public.routes.ts; the snapshot is for everybody. *)
Definition get_public_status st : ConsoleState T * reply ConsoleBody :=
  match buildPublicStatus (rq_now rq) (co_status st) with
  | None => (st, Http.Failed 404 "disabled")
  | Some status => (st, Sent 200 (AStatus status))
  end.

Definition publicRoutes who st (call : ConsoleCall) : option (ConsoleState T * reply ConsoleBody) :=
  match call with
  | get_public_config => Some (guarded who "public:read" false st (fun _ =>
      (st, Sent 200 (AConfig (getPublicConfig (sd_publicConfig (co_status st)))))))
  | put_public_config body => Some (guarded who "public:write" false st (fun subject => with_body body st (fun dto =>
      let '(t, saved) := updatePublicConfig (rq_now rq) (sd_publicConfig (co_status st)) dto in
      record_and rq subject "public.config.update" "public" None None (Some (public_json saved)) 200 (AConfig saved) (set_public st t))))
  | _ => None
  end.

(** A list: a query that is refused by its schema, or by the database, is an exception. *)
Definition listed {Q P} (q : option Q) (list_of : Q -> option P) (body : P -> ConsoleBody) st : ConsoleState T * reply ConsoleBody :=
  match q with
  | None => (st, Thrown)
  | Some q => match list_of q with None => (st, Thrown) | Some page => (st, Sent 200 (body page)) end
  end.

(** telemetry.routes.ts *)
Definition telemetryRoutes who st (call : ConsoleCall) : option (ConsoleState T * reply ConsoleBody) :=
  let tables := co_telemetry st in
  match call with
  | get_audit q => Some (guarded who "audit:read" false st (fun _ =>
      listed q (listAudit maps (tables Retention.auditLog)) AuditPage st))
  | get_logs q => Some (guarded who "logs:read" false st (fun _ => listed q (listLogs maps (tables Retention.logs)) LogPage st))
  | get_events q => Some (guarded who "events:read" false st (fun _ => listed q (listEvents maps (tables Retention.statusEvents)) EventPage st))
  | get_notifications q => Some (guarded who "notifications:read" true st (fun _ =>
      listed q (listNotifications maps (tables Retention.notifications)) NotificationPage st))
  | ack_notification id => Some (guarded who "notifications:ack" false st (fun _ =>
      let '(t, ok) := acknowledgeNotification (tables Retention.notifications) id in
      if ok then (set_telemetry st (on_table Retention.notifications (fun _ => t) tables), Sent 200 Finished) else not_found st))
  | get_uptime_buckets sourceId entity hours => Some (guarded who "uptime:read" false st (fun _ =>
      (st, Sent 200 (UptimeRows (get_uptime (rq_now rq) (tables Retention.uptimeBuckets) sourceId entity hours)))))
  | _ => None
  end.

(** The routes, each request by the one that serves it. *)
Definition served {A} (a : option A) (b : option A) : option A := match a with Some x => Some x | None => b end.
Definition console_routes who st (call : ConsoleCall) : option (ConsoleState T * reply ConsoleBody) :=
  served (clientMetaRoutes who st call) (served (snmpProfileRoutes who st call)
    (served (retentionRoutes who st call) (served (publicRoutes who st call) (telemetryRoutes who st call)))).
End routes.

(** ** What each request asks for and is recorded as *)

Definition console_permission (call : ConsoleCall) : string :=
  match call with
  | get_client_meta | get_profiles | get_mibs => "monitors:read"
  | put_client_meta _ _ | delete_client_meta _ | post_walk _ | post_mib _ | delete_mib _ | post_profile _
  | patch_profile _ _ | delete_profile _ => "monitors:write"
  | get_retention => "retention:read" | put_retention_days _ _ | run_retention => "retention:write"
  | get_public_config => "public:read" | put_public_config _ => "public:write"
  | get_audit _ => "audit:read" | get_logs _ => "logs:read" | get_events _ => "events:read"
  | get_notifications _ => "notifications:read" | ack_notification _ => "notifications:ack"
  | get_uptime_buckets _ _ _ => "uptime:read"
  end.

Definition console_device (call : ConsoleCall) : bool := match call with get_notifications _ => true | _ => false end.

Definition console_action (call : ConsoleCall) : option string :=
  match call with
  | put_client_meta _ _ => Some "clientmeta.upsert" | delete_client_meta _ => Some "clientmeta.delete"
  | post_mib _ => Some "mib.import" | delete_mib _ => Some "mib.delete"
  | post_profile _ => Some "snmpprofile.create" | patch_profile _ _ => Some "snmpprofile.update"
  | delete_profile _ => Some "snmpprofile.delete" | put_retention_days _ _ => Some "retention.update"
  | run_retention => Some "retention.run" | put_public_config _ => Some "public.config.update"
  | _ => None
  end.

Section theorems.
Context {T : Type -> Type} {ST : Store T} {PG : PgTime} {TI : Ties} {HS : Sha256} {HJ : Jwt}.
Context (rq : RequestEnv) (newId : string) (profile_gt : SnmpProfileDTO -> SnmpProfileDTO -> bool)
  (mib_gt : string * Z -> string * Z -> bool) (device : WalkBody -> Device) (maps : NameMaps)
  (fails : string -> Z -> bool) (sweep_now : string -> Z).
Implicit Types (st : ConsoleState T) (who : auth_outcome).

Lemma log_set_telemetry st tables : log_of (set_telemetry st tables) = tables Retention.auditLog.
Proof. done. Qed.

(** What a request that was let in may do. A list that cannot be read is an exception; an
    acknowledgement leaves the log as it is; the sweep prunes the log and then adds its row. *)
Definition console_fine st (call : ConsoleCall) (subject : AuthSubject) (r : ConsoleState T * reply ConsoleBody) : Prop :=
  match call with
  | ack_notification _ => log_of (fst r) = log_of st
  | run_retention => exists pruned, snd r = Sent 200 (PrunedTypes pruned) /\
      fst r = app_audit rq subject (audit_input "retention.run" "retention" (Some "all") None
        (Some (JObj [("pruned", JObj (map (fun '(k, v) => (k, JStr v)) pruned))])))
        (set_telemetry st (fst (runRetentionSweep fails sweep_now (co_retention st) (co_telemetry st))))
  | _ => accounted rq subject st (console_action call) r \/ r = (st, Thrown)
  end.

Definition console_handled who st call : Prop :=
  exists handler, console_routes rq newId profile_gt mib_gt device maps fails sweep_now who st call =
      Some (guarded who (console_permission call) (console_device call) st handler) /\
    forall subject, console_fine st call subject (handler subject).

Lemma set_profiles_same st : set_profiles st (co_profiles st) = st.
Proof. by destruct st. Qed.

Lemma updateSnmpProfile_refused now (t t' : T SnmpProfileRow) id input e :
  updateSnmpProfile now t id input = (t', Err e) -> t' = t.
Proof.
  unfold updateSnmpProfile. destruct (getSnmpProfile t id) as [p|]; [|discriminate].
  destruct (pd_isSystem p); [by intros [= <- _]|]. by destruct (update_returning _ _ t).
Qed.

(** An update that answers nothing found nothing. *)
Lemma updateSnmpProfile_nothing now (t t' : T SnmpProfileRow) id input :
  updateSnmpProfile now t id input = (t', Ok None) -> t' = t.
Proof.
  unfold updateSnmpProfile. destruct (getSnmpProfile t id) as [p|] eqn:E; [|congruence].
  destruct (pd_isSystem p); [done|]. unfold getSnmpProfile in E. unfold update_returning.
  destruct (select_first (is_profile id) t) as [r|] eqn:Er; [|discriminate]. intros H. inversion H.
Qed.

Lemma list_fine {Q P} (q : option Q) (list_of : Q -> option P) body st subject :
  accounted rq subject st None (listed q list_of body st) \/ listed q list_of body st = (st, Thrown).
Proof. unfold listed. destruct q as [q|]; [|by right]. destruct (list_of q); [left; constructor|by right]. Qed.

Ltac console := eexists; split; [reflexivity|]; intros subject;
  cbn -[log_of runRetentionSweep updatePublicConfig put_retention acknowledgeNotification updateSnmpProfile].
Ltac console_body body := left; apply body_fine; [done|]; intros body.

Lemma console_all_handled who st call : console_handled who st call.
Proof.
  destruct call; console; try (left; constructor); try apply list_fine.
  - console_body input. unfold upsertClientMeta. destruct (select_first _ _); [by apply record_fine|by apply acc_thrown].
  - left. unfold deleteClientMeta. destruct (select_first _ _); [by apply record_fine|by constructor].
  - console_body b. destruct (snmpWalk _ _ _ _). constructor.
  - console_body m. destruct m as [name content]. destruct (importMib _ _ _ _) as [[t [i p]]|]; [by apply record_fine|by constructor].
  - left. destruct (decodeURIComponent name); [by apply record_fine|by constructor].
  - console_body input. by apply record_fine.
  - console_body input.
    destruct (updateSnmpProfile _ _ _ _) as [t [[p|]|e]] eqn:E.
    + by apply record_fine.
    + apply updateSnmpProfile_nothing in E as ->. rewrite set_profiles_same. by constructor.
    + apply updateSnmpProfile_refused in E as ->. rewrite set_profiles_same. by constructor.
  - left. unfold deleteSnmpProfile. destruct (getSnmpProfile (co_profiles st) id) as [p|] eqn:E; [|by constructor].
    destruct (pd_isSystem p); [rewrite set_profiles_same; by constructor|by apply record_fine].
  - left. destruct (put_retention _ _ _ _) as [t []]; [by constructor|by constructor|by apply record_fine].
  - destruct (runRetentionSweep _ _ _ _) as [tables pruned] eqn:E. exists pruned. split; [done|]. cbn. done.
  - console_body dto. destruct (updatePublicConfig _ _ _). by apply record_fine.
  - destruct (acknowledgeNotification _ _) as [t []]; [|done]. cbn [fst]. rewrite log_set_telemetry.
    by rewrite on_table_other.
Qed.

(** Every request of the console is served by one route. It is refused with nothing changed, or runs for
    somebody with the permission of the route, a display only to read notifications; an answered change
    leaves exactly its own audit row, a refused one nothing. The two exceptions: the sweep prunes the log
    before it adds its row, and acknowledging a notification leaves no row. *)
Theorem console_accounted request_jwt adminToken (db : AccessDb T) (devices : T WallDeviceRow) header st call :
  let who := authenticate request_jwt adminToken (rq_now rq) db devices header in
  exists r, console_routes rq newId profile_gt mib_gt device maps fails sweep_now who st call = Some r /\
  ((exists subject, admitted who (console_permission call) (console_device call) subject /\ console_fine st call subject r) \/
   (exists code error, r = (st, Http.Failed code error) /\ (code = 401 \/ code = 403) /\
      forall subject, ~ admitted who (console_permission call) (console_device call) subject)).
Proof.
  intros who. destruct (console_all_handled who st call) as (handler & E & H). eexists. split; [exact E|].
  destruct (guarded_cases who (console_permission call) (console_device call) st handler) as [(s & Ha & ->)|Hr]; [left|by right].
  exists s. split; [done|apply H].
Qed.
End theorems.

(** ** Annotations of clients *)

(** The name of a MIB in a path is decoded once more: one with a percent sign is not deleted under its own name. *)
Example percent_not_deleted : decodeURIComponent "100%" = None /\ decodeURIComponent "a%20b" = Some "a b".
Proof. by split. Qed.

Section client_facts.
Context {T : Type -> Type} {ST : Store T} {LT : StoreLaws T}.
Implicit Types t : T ClientMetaRow.

(** What is annotated of an address. *)
Definition annotation t (ip : string) : option (option string * option string) :=
  option_map (fun r => (cm_hostname r, cm_description r)) (select_first (is_client ip) t).

Inductive AnnotationCall : Type := Annotate (now : Z) (ip : string) (input : ClientMetaInput) | Forget (ip : string).
Definition annotate t (c : AnnotationCall) : T ClientMetaRow :=
  match c with
  | Annotate now ip input => fst (upsertClientMeta now t ip input None)
  | Forget ip => fst (deleteClientMeta t ip)
  end.

(** The reference: a function from addresses. *)
Definition annotate_spec (view : string -> option (option string * option string)) (c : AnnotationCall) (ip : string) :=
  match c with
  | Annotate _ ip' input => if decide (ip = ip') then Some (ci_hostname input, ci_description input) else view ip
  | Forget ip' => if decide (ip = ip') then None else view ip
  end.

Lemma is_client_iff ip r : is_client ip r = true <-> cm_ip r = ip.
Proof. apply String.eqb_eq. Qed.

Lemma annotate_step t c ip : unique_key cm_ip t ->
  unique_key cm_ip (annotate t c) /\ annotation (annotate t c) ip = annotate_spec (annotation t) c ip.
Proof.
  intros Hu. destruct c as [now ip' input|ip']; cbn [annotate annotate_spec].
  - unfold upsertClientMeta. cbn [fst]. split.
    + apply unique_key_upsert; [done| |done]. intros x Hx. unfold clientMeta_conflict. cbn in *. by rewrite Hx, String.eqb_refl.
    + unfold annotation. rewrite (select_first_upsert cm_ip ip); [|done| | |done].
      2: { intros x. apply is_client_iff. }
      2: { intros x. unfold clientMeta_conflict. rewrite String.eqb_eq. cbn. split; congruence. }
      cbn. destruct (decide (ip = ip')); [|done]. by destruct (select_first _ t).
  - unfold deleteClientMeta. destruct (select_first (is_client ip') t) as [r0|] eqn:E; cbn [fst].
    + split; [by apply unique_key_delete|]. unfold annotation. destruct (decide (ip = ip')) as [->|Hne].
      * destruct (select_first _ (delete_where _ _)) as [r|] eqn:E'; [|done].
        apply select_first_Some in E' as [Hr Hc]. apply elem_of_delete in Hr as [_ Hn]. congruence.
      * assert (Hd : select_first (is_client ip) (delete_where (is_client ip') t) = select_first (is_client ip) t); [|by rewrite Hd].
        apply option_eq. intros r. rewrite !(select_first_iff cm_ip ip); [|done| |by apply unique_key_delete|]; try (intros x; apply is_client_iff).
        rewrite elem_of_delete. split; [tauto|]. intros [Hr Hk]. split; [|done]. split; [done|].
        unfold is_client. rewrite Hk. by apply String.eqb_neq.
    + split; [done|]. destruct (decide (ip = ip')) as [->|]; [|done]. unfold annotation. by rewrite E.
Qed.

(** The annotations are a map from addresses: whatever is annotated and forgotten, an address reads as what was
    annotated last, and nobody else's changes. *)
Theorem annotations_map t calls ip : unique_key cm_ip t ->
  annotation (fold_left annotate calls t) ip = fold_left annotate_spec calls (annotation t) ip.
Proof.
  revert t. assert (Hext : forall cs v v', (forall i, v i = v' i) -> forall i, fold_left annotate_spec cs v i = fold_left annotate_spec cs v' i).
  { induction cs as [|c cs IH]; intros v v' Hv i; [apply Hv|]. cbn. apply IH. intros j. destruct c; cbn; by rewrite Hv. }
  induction calls as [|c calls IH]; intros t Hu; [done|]. cbn [fold_left].
  destruct (annotate_step t c ip Hu) as [Hu' _]. rewrite (IH _ Hu'). apply Hext.
  intros i. by apply annotate_step.
Qed.

(** Nobody is ever recorded as the author of an annotation: a token has no username. *)
Lemma author_never_recorded t calls : (forall r, r ∈ rows t -> cm_updatedBy r = None) ->
  forall r, r ∈ rows (fold_left annotate calls t) -> cm_updatedBy r = None.
Proof.
  revert t. induction calls as [|c calls IH]; intros t H; [done|]. cbn. apply IH. intros r Hr.
  destruct c as [now ip input|ip]; cbn in Hr.
  - unfold upsert in Hr. destruct (existsb _ _).
    + apply elem_of_update in Hr as (r0 & Hr0 & ->). destruct (clientMeta_conflict _ r0); [done|by apply H].
    + apply elem_of_insert in Hr as [->|Hr]; [done|by apply H].
  - unfold deleteClientMeta in Hr. destruct (select_first _ t); [|by apply H]. apply elem_of_delete in Hr as [Hr _]. by apply H.
Qed.
End client_facts.
