(* ===== verification/Operations.v ===== *)
(** * The routes of agents and builds

    Models routes/agents.routes.ts and agent-builds.routes.ts of apps/backend/src: who may call each
    route (Http.v), what it asks of the services (Agents.v, Monitors.v, Control.v, AgentBuilds.v), how
    it replies and which audit row it leaves. A handler runs without another in between (Control.v
    interleaves those of the control channel). A parsed body is [None] where zod rejects it. Fresh
    ids, random keys, initialisation vectors and the times of builds are arguments. *)
From S2P Require Import Prelude Dates Text Store Schema RowUpdates Settings Crypto AuditLog Authz Auth Directory.
From S2P Require Import Devices Gate Http Wallboards Monitors Agents Control AgentBuilds Series.

(** ** State *)

(** The master database with the sockets, the boards, the telemetry, the settings and the audit log. *)
Record FleetState (T : Type -> Type) : Type := {
  fl_world : World T; fl_boards : T WallLayoutRow; fl_history : HistoryDb T; fl_settings : T SettingRow;
  fl_log : T AuditRow
}.
Arguments fl_world {T} _. Arguments fl_boards {T} _. Arguments fl_history {T} _.
Arguments fl_settings {T} _. Arguments fl_log {T} _.

Definition set_world {T : Type -> Type} (w : World T) (st : FleetState T) : FleetState T := {|
  fl_world := w; fl_boards := fl_boards st; fl_history := fl_history st; fl_settings := fl_settings st;
  fl_log := fl_log st |}.
Definition set_fleet {T : Type -> Type} (db : FleetDb T) (st : FleetState T) : FleetState T :=
  set_world (with_db db (fl_world st)) st.

Definition same_fleet {T : Type -> Type} {ST : Store T} (a b : FleetDb T) : Prop :=
  same_rows (agents a) (agents b) /\ same_rows (agentKeys a) (agentKeys b) /\
  same_rows (agentCommands a) (agentCommands b) /\ same_rows (monitors a) (monitors b) /\
  same_rows (secrets a) (secrets b).

#[export] Instance fleet_audited {T : Type -> Type} {ST : Store T} : Audited T (FleetState T) := {|
  log_of := fl_log;
  with_log l st := {| fl_world := fl_world st; fl_boards := fl_boards st; fl_history := fl_history st;
    fl_settings := fl_settings st; fl_log := l |};
  same_state a b := same_fleet (w_db (fl_world a)) (w_db (fl_world b)) /\
    w_sockets (fl_world a) = w_sockets (fl_world b) /\ w_hub (fl_world a) = w_hub (fl_world b) /\
    fl_boards a = fl_boards b /\ fl_history a = fl_history b /\ fl_settings a = fl_settings b /\ fl_log a = fl_log b |}.

(** The files of the builds and the audit log. *)
Record BuildState (T : Type -> Type) : Type := { bs_files : gmap (list string) Node; bs_log : T AuditRow }.
Arguments bs_files {T} _. Arguments bs_log {T} _.
Definition set_files {T : Type -> Type} fs (st : BuildState T) : BuildState T := {| bs_files := fs; bs_log := bs_log st |}.

(** A build that fails may leave folders, or the binary of an image. *)
#[export] Instance build_audited {T : Type -> Type} : Audited T (BuildState T) := {|
  log_of := bs_log;
  with_log l st := {| bs_files := bs_files st; bs_log := l |};
  same_state a b := bs_log a = bs_log b /\ forall p, is_Some (bs_files a !! p) -> is_Some (bs_files b !! p) |}.

(** ** Requests and replies *)

Record DeviceBody : Type := { db_name : string; db_address : option string }.

Inductive FleetCall : Type :=
| get_agent_metrics (id : string) (q : HistoryQuery)
| get_agents
| get_one_agent (id : string)
| post_device (body : option DeviceBody)
| approve (id : string)
| revoke (id : string)
| patch_agent (id : string) (body : option AgentPatch)
| sync_all
| remove_agent (id : string)
| restart (id : string)
| update (id : string) (body : option UpdateBody)
| get_commands (id : string)
| get_host_inventory (id : string)
| get_keys
| post_key (label : option string)
| revoke_key (id : string).

Record MetricPoint : Type := { mp_ts : Z; mp_cpuPct : option Q; mp_memPct : option Q; mp_memUsedMb : option Z }.
Definition metric_point (r : HostMetricRow) : MetricPoint := {|
  mp_ts := hm_ts r; mp_cpuPct := hm_cpuPct r; mp_memPct := hm_memPct r; mp_memUsedMb := hm_memUsedMb r |}.

Inductive FleetBody : Type :=
| Points (points : list MetricPoint) | AgentRows (rows : list AgentDTO) | AnAgent (agent : AgentDTO)
| Pushed (pushed : nat) | Restarted (command : AgentCommandDTO) (delivered : bool) | AnUpdate (r : UpdateReply)
| CommandRows (rows : list AgentCommandDTO) | AnInventory (inventory : list InvItem * list InvItem * option Z)
| KeyRows (rows : list ConnectionKeyDTO) | AKey (keyId key : string) | Done_.

(** ** The JSON of audit rows *)

Definition text_or (s : option string) : json := match s with Some s => JStr s | None => JNull end.
Definition time_or (t : option Z) : json := match t with Some t => JStr (toISOString t) | None => JNull end.
Definition integer (n : Z) : json := JNum (inject_Z n).

Definition agent_json (a : AgentDTO) : json :=
  JObj [("id", JStr (ag_id a)); ("name", JStr (ag_name a)); ("kind", JStr (ag_kind a));
    ("hostname", text_or (ag_hostname a)); ("platform", text_or (ag_platform a)); ("address", text_or (ag_address a));
    ("status", JStr (ag_status a)); ("version", text_or (ag_version a)); ("lastSeenAt", time_or (ag_lastSeenAt a));
    ("approvedAt", time_or (ag_approvedAt a)); ("createdAt", JStr (toISOString (ag_createdAt a)));
    ("buildTime", default JNull (ag_buildTime a)); ("online", JBool (ag_online a));
    ("pushIntervalSec", match ag_pushIntervalSec a with Some n => integer n | None => JNull end);
    ("debug", JBool (ag_debug a))].

Definition build_json (m : BuildMeta) : json :=
  JObj [("version", JStr (bm_version m)); ("os", JStr (bm_os m)); ("arch", JStr (bm_arch m));
    ("size", integer (bm_size m)); ("builtAt", JStr (toISOString (bm_builtAt m)))].
Definition ensured_json (e : Ensured) : json :=
  JObj [("built", JArr (map JStr (en_built e)));
    ("failed", JArr (map (fun '(target, error) => JObj [("target", JStr target); ("error", JStr error)]) (en_failed e)))].

(** ** Agents *)

Section agent_routes.
Context {T : Type -> Type} {ST : Store T} {HG : Gcm} {HS : Sha256} {TL : Tools}.
Context (rq : RequestEnv) (fresh : nat -> string) (AGENT_VERSION : string) (ENCRYPTION_KEY : option string)
  (rawKey : string) (iv : list Z).
Implicit Types (st : FleetState T) (who : auth_outcome) (subject : AuthSubject).
Notation now := (rq_now rq).

(** The registry of control sockets says who is connected. *)
Definition connected st : option (string -> bool) := Some (fun id => isOnline id (fl_world st)).
Definition fleet st : FleetDb T := w_db (fl_world st).

(** A row that a service answers, or none. *)
Definition answered_agent subject (action : string) (after : AgentDTO -> option json) st (id : string)
    (r : FleetDb T * option AgentDTO) : FleetState T * reply FleetBody :=
  match r with
  | (db, None) => not_found (set_fleet db st)
  | (db, Some agent) => record_and rq subject action "agents" (Some id) None (after agent) 200 (AnAgent agent) (set_fleet db st)
  end.

Definition handle_device subject st (body : DeviceBody) : FleetState T * reply FleetBody :=
  match createDevice now (fresh 0) (fresh 1) (fleet st) (trim (db_name body)) (nonempty (option_map trim (db_address body))) with
  | (db, Err _) => (set_fleet db st, Thrown)
  | (db, Ok device) => record_and rq subject "device.create" "agents" (Some (ag_id device)) None (Some (agent_json device)) 200
                         (AnAgent device) (set_fleet db st)
  end.

Definition handle_approve subject st (id : string) : FleetState T * reply FleetBody :=
  match post_approve (connected st) now (fresh 0) (fleet st) id with
  | (db, Err _) => (set_fleet db st, Thrown)
  | (db, Ok agent) => answered_agent subject "agent.approve" (fun _ => None) st id (db, agent)
  end.

(** [await dispatchCommand(..., "config", payload)]: the rest of the handler, unless it throws. *)
Definition push_config (commandId : string) (id : string) (payload : list (string * json))
    (r : FleetState T * reply FleetBody) : FleetState T * reply FleetBody :=
  match r with
  | (st, Sent code body) =>
      match dispatchCommand now commandId (fl_world st) id "config" (Some payload) with
      | (w, Err _) => (set_world w st, Thrown)
      | (w, Ok _) => (set_world w st, Sent code body)
      end
  | r => r
  end.

Definition handle_patch subject st (id : string) (patch : AgentPatch) : FleetState T * reply FleetBody :=
  let r := answered_agent subject "agent.update" (fun a => Some (agent_json a)) st id
             (updateAgent (connected st) now (fleet st) id patch) in
  let r := match ap_pushIntervalSec patch with
    | Some _ => push_config (fresh 0) id
                  [("intervalSec", integer (effectivePushInterval (fl_settings (fst r)) (fleet (fst r)) id))] r
    | None => r end in
  match ap_debug patch with
  | Some debug => push_config (fresh 1) id [("debug", JBool debug)] r
  | None => r end.

Definition handle_sync subject st : FleetState T * reply FleetBody :=
  match sync_config now fresh (effectivePushInterval (fl_settings st) (fleet st)) (fl_world st)
          (listAgents (connected st) now (fleet st)) with
  | (w, Err _) => (set_world w st, Thrown)
  | (w, Ok pushed) => record_and rq subject "agent.config.sync" "agents" None None
      (Some (JObj [("pushed", integer (Z.of_nat pushed))])) 200 (Pushed pushed) (set_world w st)
  end.

Definition handle_remove subject st (id : string) : FleetState T * reply FleetBody :=
  let '(db, boards, history, ok) := delete_agent now (fleet st) (fl_boards st) (fl_history st) id in
  let st := {| fl_world := with_db db (fl_world st); fl_boards := boards; fl_history := history;
               fl_settings := fl_settings st; fl_log := fl_log st |} in
  if ok then record_and rq subject "agent.delete" "agents" (Some id) None None 200 Done_ st else not_found st.

Definition handle_restart subject st (id : string) : FleetState T * reply FleetBody :=
  match post_restart now (fresh 0) (fl_world st) id with
  | (w, Err _) => (set_world w st, Thrown)
  | (w, Ok None) => not_found (set_world w st)
  | (w, Ok (Some (command, delivered))) =>
      record_and rq subject "agent.restart" "agents" (Some id) None None 200 (Restarted command delivered) (set_world w st)
  end.

(** The body is parsed once the agent is found. *)
Definition handle_update subject st (id : string) (body : option UpdateBody) : FleetState T * reply FleetBody :=
  if negb (exists_row (is_agent id) (agents (fleet st))) then not_found st else
  with_body body st (fun b =>
    match post_update AGENT_VERSION now (fresh 0) (fl_world st) id b with
    | (w, Err _) => (set_world w st, Thrown)
    | (w, Ok UpdateNotFound) => not_found (set_world w st)
    | (w, Ok (AlreadyUpToDate v target)) => (set_world w st, Sent 200 (AnUpdate (AlreadyUpToDate v target)))
    | (w, Ok r) => record_and rq subject "agent.update" "agents" (Some id) None
        (Some (JObj (map_set "version" (JStr (default AGENT_VERSION (ub_version b))) (body_fields b)))) 200 (AnUpdate r)
        (set_world w st)
    end).

Definition handle_mint subject st (label : string) : FleetState T * reply FleetBody :=
  match nonempty ENCRYPTION_KEY with
  | None => (st, Http.Failed 500 "encryption_key_missing")
  | Some encryptionKey =>
      match mintConnectionKey now rawKey iv (fresh 0) (fresh 1) (fleet st) label encryptionKey with
      | (db, Err _) => (set_fleet db st, Thrown)
      | (db, Ok (keyId, key)) => record_and rq subject "agentkey.mint" "agents" (Some keyId) None
          (Some (JObj [("label", JStr label)])) 201 (AKey keyId key) (set_fleet db st)
      end
  end.

Definition handle_revoke_key subject st (id : string) : FleetState T * reply FleetBody :=
  let '(db, ok) := revokeConnectionKey (fleet st) id in
  if ok then record_and rq subject "agentkey.revoke" "agents" (Some id) None None 200 Done_ (set_fleet db st)
  else not_found (set_fleet db st).

Definition agentRoutes who st (call : FleetCall) : FleetState T * reply FleetBody :=
  let can action := guarded (B := FleetBody) who action false st in
  let shows body : AuthSubject -> FleetState T * reply FleetBody := fun _ => (st, Sent 200 body) in
  match call with
  | get_agent_metrics id q => can "agents:read" (shows (Points (map metric_point
      (history (fun r => String.eqb (hm_agentId r) id) hm_ts (historySince now q) (h_hostMetrics (fl_history st))))))
  | get_agents => guarded who "agents:read" true st (shows (AgentRows (listAgents (connected st) now (fleet st))))
  | get_one_agent id => can "agents:read" (fun _ =>
      match getAgent (connected st) now (fleet st) id with
      | Some agent => (st, Sent 200 (AnAgent agent)) | None => not_found st end)
  | post_device body => can "agents:write" (fun subject => with_body body st (handle_device subject st))
  | approve id => can "agents:approve" (fun subject => handle_approve subject st id)
  | revoke id => can "agents:write" (fun subject =>
      answered_agent subject "agent.revoke" (fun _ => None) st id (revokeAgent (connected st) now (fleet st) id))
  | patch_agent id body => can "agents:write" (fun subject => with_body body st (handle_patch subject st id))
  | sync_all => can "agents:write" (fun subject => handle_sync subject st)
  | remove_agent id => can "agents:delete" (fun subject => handle_remove subject st id)
  | restart id => can "agents:restart" (fun subject => handle_restart subject st id)
  | update id body => can "agents:update" (fun subject => handle_update subject st id body)
  | get_commands id => can "agents:read" (shows (CommandRows (listCommands (fleet st) id)))
  | get_host_inventory id => can "agents:read" (fun _ =>
      match getAgent (connected st) now (fleet st) id with
      | Some _ => (st, Sent 200 (AnInventory (getInventory (h_hostInventory (fl_history st)) id))) | None => not_found st end)
  | get_keys => can "agents:read" (shows (KeyRows (listConnectionKeys (fleet st))))
  | post_key label => can "agents:write" (fun subject => with_body label st (handle_mint subject st))
  | revoke_key id => can "agents:write" (fun subject => handle_revoke_key subject st id)
  end.
End agent_routes.

(** ** What each request asks for and is recorded as *)

Definition fleet_permission (call : FleetCall) : string :=
  match call with
  | get_agent_metrics _ _ | get_agents | get_one_agent _ | get_commands _ | get_host_inventory _ | get_keys => "agents:read"
  | post_device _ | revoke _ | patch_agent _ _ | sync_all | post_key _ | revoke_key _ => "agents:write"
  | approve _ => "agents:approve" | remove_agent _ => "agents:delete"
  | restart _ => "agents:restart" | update _ _ => "agents:update"
  end.

Definition fleet_device (call : FleetCall) : bool := match call with get_agents => true | _ => false end.

Definition fleet_action (call : FleetCall) : option string :=
  match call with
  | post_device _ => Some "device.create" | approve _ => Some "agent.approve" | revoke _ => Some "agent.revoke"
  | patch_agent _ _ | update _ _ => Some "agent.update" | sync_all => Some "agent.config.sync"
  | remove_agent _ => Some "agent.delete" | restart _ => Some "agent.restart"
  | post_key _ => Some "agentkey.mint" | revoke_key _ => Some "agentkey.revoke"
  | _ => None
  end.

Section theorems.
Context {T : Type -> Type} {ST : Store T} {LT : StoreLaws T} {HG : Gcm} {HS : Sha256} {TL : Tools} {HJ : Jwt}.
Context (rq : RequestEnv) (fresh : nat -> string) (AGENT_VERSION : string) (ENCRYPTION_KEY : option string)
  (rawKey : string) (iv : list Z).
Implicit Types (st : FleetState T) (who : auth_outcome) (subject : AuthSubject) (db : FleetDb T) (w : World T).
Notation now := (rq_now rq).
Notation agentRoutes := (agentRoutes rq fresh AGENT_VERSION ENCRYPTION_KEY rawKey iv).
Notation fine := (Http.accounted (T := T) (B := FleetBody) rq).

Lemma same_fleet_refl db : same_fleet db db.
Proof. by repeat split. Qed.

Lemma same_state_refl st : same_state st st.
Proof. repeat split; done. Qed.

Lemma same_set_fleet st db : same_fleet (fleet st) db -> same_state st (set_fleet db st).
Proof. intros H. split; [exact H|]. by repeat split. Qed.

(** An agent that is not there is not updated. *)
Lemma update_agent_missing isConnected f db db' id :
  update_agent isConnected now f db id = (db', None) -> same_fleet db db'.
Proof.
  unfold update_agent. destruct (update_returning _ _ _) as [t row] eqn:E. intros [= <- H].
  destruct row; [done|]. split; [by apply (returning_nothing _ _ _ _ E)|by repeat split].
Qed.

Lemma answered_fine subject action after st id r :
  (forall db, r = (db, None) -> same_fleet (fleet st) db) ->
  fine subject st (Some action) (answered_agent rq subject action after st id r).
Proof.
  intros H. destruct r as [db [agent|]]; cbn [answered_agent]; [by apply record_fine|].
  apply acc_refused, same_set_fleet. by apply H.
Qed.

Lemma post_approve_missing isConnected db db' id :
  post_approve isConnected now (fresh 0) db id = (db', Ok None) -> same_fleet db db'.
Proof.
  unfold post_approve. destruct (approveAgent _ _ _ _) as [d [agent|]] eqn:E.
  - destruct (ensureDefaultPingMonitor _ _ _ _ _) as [d' [u|e]]; done.
  - intros [= <-]. by apply (update_agent_missing _ _ _ _ _ E).
Qed.

(** ** Dispatched configuration *)

Lemma hub_send_tables id msg w : w_db (hub_send id msg w).1 = w_db w.
Proof.
  unfold hub_send. destruct (map_get _ _); [|done]. destruct (negb _); [done|].
  cbn [fst]. unfold sock_send. by destruct (_ =? _).
Qed.

Lemma dispatch_agents commandId w id type payload :
  agents (w_db (dispatchCommand now commandId w id type payload).1) = agents (w_db w).
Proof.
  unfold dispatchCommand, enqueueCommand. destruct (exists_row _ _); [|done].
  unfold push_command. destruct (hub_send _ _ _) as [w' b] eqn:E. cbn [fst].
  apply (f_equal (fun x => w_db (fst x))) in E. rewrite hub_send_tables in E. cbn [fst] in E.
  destruct b; cbn; by rewrite <- E.
Qed.

Lemma dispatch_passes commandId w id type payload : exists_row (is_agent id) (agents (w_db w)) = true ->
  exists command, (dispatchCommand now commandId w id type payload).2 = Ok command.
Proof.
  intros H. unfold dispatchCommand, enqueueCommand. rewrite H. by eexists.
Qed.

(** Recorded, with the agent there. *)
Definition recorded subject action id st (r : FleetState T * reply FleetBody) : Prop :=
  exists st1 code body target before after,
    log_of st1 = log_of st /\ exists_row (is_agent id) (agents (fleet st1)) = true /\
    r = (app_audit rq subject (audit_input action "agents" target before after) st1, Sent code body).

Lemma recorded_fine subject action id st r : recorded subject action id st r -> fine subject st (Some action) r.
Proof. intros (st1 & code & body & target & before & after & Hl & _ & ->). by apply acc_written. Qed.

(** A change of configuration is pushed after the audit row, to an agent that is there: it cannot throw. *)
Lemma recorded_push subject action commandId id payload st r :
  recorded subject action id st r -> recorded subject action id st (push_config rq commandId id payload r).
Proof.
  intros (st1 & code & body & target & before & after & Hl & Ha & ->). cbn [push_config].
  change (fl_world (app_audit _ _ _ st1)) with (fl_world st1).
  destruct (dispatch_passes commandId (fl_world st1) id "config" (Some payload) Ha) as [c Hc].
  pose proof (dispatch_agents commandId (fl_world st1) id "config" (Some payload)) as Hd.
  destruct (dispatchCommand _ _ _ _ _ _) as [w r]. cbn in Hc, Hd. subst r.
  exists (set_world w st1), code, body, target, before, after. split; [done|]. split; [|done].
  unfold fleet. cbn [set_world fl_world]. by rewrite Hd.
Qed.

Lemma updated_there isConnected f db db' id agent :
  (forall a, agent_id (f a) = agent_id a) ->
  update_agent isConnected now f db id = (db', Some agent) -> exists_row (is_agent id) (agents db') = true.
Proof.
  intros Hf. unfold update_agent, update_returning. destruct (select_first _ _) as [a|] eqn:E; [|done].
  intros [= <- _]. apply select_first_Some in E as [Ha Hp]. unfold exists_row. cbn [with_agents agents].
  apply existsb_true. exists (f a). split.
  - apply elem_of_update. exists a. by rewrite Hp.
  - unfold is_agent in *. by rewrite Hf.
Qed.

Lemma patch_fine subject st id patch :
  fine subject st (Some "agent.update") (handle_patch rq fresh subject st id patch).
Proof.
  unfold handle_patch. destruct (updateAgent _ _ _ _ _) as [db [agent|]] eqn:E.
  - apply (recorded_fine _ _ id). cbn [answered_agent].
    assert (recorded subject "agent.update" id st (record_and rq subject "agent.update" "agents" (Some id) None
      (Some (agent_json agent)) 200 (AnAgent agent) (set_fleet db st))) as H.
    { eexists (set_fleet db st), _, _, _, _, _. split; [done|]. split; [|done].
      unfold updateAgent in E. eapply updated_there; [|exact E]. intros a. by destruct patch as [[] [] []]. }
    destruct (ap_pushIntervalSec patch), (ap_debug patch); auto using recorded_push.
  - assert (H : same_state st (set_fleet db st)).
    { apply same_set_fleet. by apply (update_agent_missing _ _ _ _ _ E). }
    destruct (ap_pushIntervalSec patch), (ap_debug patch); by apply acc_refused.
Qed.

(** ** Every request *)

(** An update that is not needed is answered without a command; it leaves no row. *)
Definition fleet_fine st (call : FleetCall) subject (r : FleetState T * reply FleetBody) : Prop :=
  fine subject st (fleet_action call) r \/
  exists id body v target, call = update id body /\ r = (st, Sent 200 (AnUpdate (AlreadyUpToDate v target))).

Definition fleet_handled who st call : Prop :=
  exists handler, agentRoutes who st call = guarded who (fleet_permission call) (fleet_device call) st handler /\
    forall subject, fleet_fine st call subject (handler subject).

Lemma set_world_same st : set_world (fl_world st) st = st.
Proof. by destruct st. Qed.

Lemma update_fine subject st id body :
  fleet_fine st (update id body) subject (handle_update rq fresh AGENT_VERSION subject st id body).
Proof.
  unfold handle_update. destruct (negb _); [left; by apply acc_refused, same_state_refl|].
  destruct body as [b|]; [|left; by apply acc_refused, same_state_refl]. cbn [with_body].
  unfold post_update. destruct (getAgent _ _ _ _) as [agent|].
  2: { left. rewrite set_world_same. apply acc_refused, same_state_refl. }
  assert (Hs : forall target cur, fleet_fine st (update id (Some b)) subject
    match send_update now (fresh 0) (fl_world st) id b target cur with
    | (w, Err _) => (set_world w st, Thrown)
    | (w, Ok UpdateNotFound) => not_found (set_world w st)
    | (w, Ok (AlreadyUpToDate v target)) => (set_world w st, Sent 200 (AnUpdate (AlreadyUpToDate v target)))
    | (w, Ok r) => record_and rq subject "agent.update" "agents" (Some id) None
        (Some (JObj (map_set "version" (JStr (default AGENT_VERSION (ub_version b))) (body_fields b)))) 200 (AnUpdate r)
        (set_world w st)
    end).
  { intros target cur. left. unfold send_update. destruct (dispatchCommand _ _ _ _ _ _) as [w [c|e]]; cbn;
      [by apply record_fine|by apply acc_thrown]. }
  destruct (nonempty (ag_version agent)) as [v|]; [|apply Hs]. destruct (_ && _); [|apply Hs].
  right. exists id, (Some b), v, (default AGENT_VERSION (ub_version b)). by rewrite set_world_same.
Qed.

(** The foreign keys of the master database to agents. *)
Record fleet_ok db : Prop := {
  fk_keys : forall k a, k ∈ rows (agentKeys db) -> akey_agentId k = Some a -> exists_row (is_agent a) (agents db) = true;
  fk_commands : forall c, c ∈ rows (agentCommands db) -> exists_row (is_agent (cmd_agentId c)) (agents db) = true;
  fk_monitors : forall m, m ∈ rows (monitors db) -> exists_row (is_agent (mon_agentId m)) (agents db) = true
}.

(** Deleting an agent that is not there deletes nothing. *)
Lemma delete_missing db boards h id : fleet_ok db -> id <> "" -> exists_row (is_agent id) (agents db) = false ->
  exists db', delete_agent now db boards h id = (db', boards, h, false) /\ same_fleet db db'.
Proof.
  intros [Hk Hc Hm] Hne Hid. unfold delete_agent.
  assert (Hnone : listMonitors db (Some id) = []).
  { unfold listMonitors. rewrite (proj2 (nonempty_Some (Some id) id)) by done.
    destruct (select (of_agent id) (monitors db)) as [|m l] eqn:E; [done|].
    assert (Hin : m ∈ select (of_agent id) (monitors db)) by (rewrite E; left).
    apply elem_of_select in Hin as [Hin Hp]. apply Hm in Hin. apply String.eqb_eq in Hp. congruence. }
  rewrite Hnone. cbn [map fold_left]. unfold deleteAgent. rewrite Hid. cbn [negb].
  eexists. split; [done|]. split; [by apply delete_nothing|]. cbn [agents agentKeys agentCommands monitors secrets].
  split; [|split; [|split; [|done]]]; apply delete_nothing, existsb_false; intros r Hr.
  - apply bool_decide_eq_false. intros He. rewrite (Hk r id Hr He) in Hid. done.
  - apply String.eqb_neq. intros He. specialize (Hc r Hr). congruence.
  - apply String.eqb_neq. intros He. specialize (Hm r Hr). congruence.
Qed.

Lemma delete_found db boards h id : exists_row (is_agent id) (agents db) = true ->
  snd (delete_agent now db boards h id) = true.
Proof.
  intros Hid. unfold delete_agent, deleteAgent.
  destruct (fold_creds_other (map mon_id (listMonitors db (Some id))) db) as (-> & _). by rewrite Hid.
Qed.

Lemma delete_fine subject st id : fleet_ok (fleet st) -> id <> "" ->
  fine subject st (Some "agent.delete") (handle_remove rq subject st id).
Proof.
  intros Hok Hne. unfold handle_remove. destruct (exists_row (is_agent id) (agents (fleet st))) eqn:Hid.
  - pose proof (delete_found (fleet st) (fl_boards st) (fl_history st) id Hid) as Hf.
    destruct (delete_agent _ _ _ _ _) as [[[db boards] h] ok]. cbn in Hf. subst ok. by apply record_fine.
  - destruct (delete_missing (fleet st) (fl_boards st) (fl_history st) id Hok Hne Hid) as (db & -> & Hs).
    apply acc_refused. split; [exact Hs|by repeat split].
Qed.

Ltac fleet_case := eexists; split; [reflexivity|]; intros subject.

Lemma fleet_all_handled who st call : fleet_ok (fleet st) -> (forall id, call = remove_agent id -> id <> "") ->
  fleet_handled who st call.
Proof.
  intros Hok Hid. destruct call; fleet_case; try apply update_fine; left; try (by constructor);
    try apply body_fine; try apply same_state_refl; try intros data.
  - destruct (getAgent _ _ _ _); constructor. apply same_state_refl.
  - unfold handle_device. destruct (createDevice _ _ _ _ _ _) as [db [d|e]]; [by apply record_fine|by apply acc_thrown].
  - unfold handle_approve. destruct (post_approve _ _ _ _ _) as [db [[agent|]|e]] eqn:E; [by apply record_fine| |by apply acc_thrown].
    apply acc_refused, same_set_fleet. by apply (post_approve_missing _ _ _ _ E).
  - apply answered_fine. intros db E. by apply (update_agent_missing _ _ _ _ _ E).
  - apply patch_fine.
  - unfold handle_sync. destruct (sync_config _ _ _ _ _) as [w [n|e]]; [by apply record_fine|by apply acc_thrown].
  - apply delete_fine; [done|by apply (Hid id)].
  - unfold handle_restart, post_restart. destruct (negb _); [apply acc_refused, same_set_fleet, same_fleet_refl|].
    destruct (dispatchCommand _ _ _ _ _ _) as [w [c|e]]; [by apply record_fine|by apply acc_thrown].
  - destruct (getAgent _ _ _ _); constructor. apply same_state_refl.
  - unfold handle_mint. destruct (nonempty ENCRYPTION_KEY) as [k|]; [|apply acc_refused, same_state_refl].
    destruct (mintConnectionKey _ _ _ _ _ _ _ _) as [db [[i key]|e]]; [by apply record_fine|by apply acc_thrown].
  - unfold handle_revoke_key, revokeConnectionKey. destruct (update_returning _ _ _) as [t row] eqn:E.
    destruct row as [row|]; [by apply record_fine|]. apply acc_refused, same_set_fleet.
    split; [done|]. split; [by apply (returning_nothing _ _ _ _ E)|by repeat split].
Qed.

(** Every request about agents is refused with nothing changed, or runs for somebody with the permission of its
    route, a display only for the list; an answered change leaves exactly its own audit row. *)
Theorem fleet_accounted request_jwt adminToken (access : AccessDb T) (devices : T WallDeviceRow) header st call :
  fleet_ok (fleet st) -> (forall id, call = remove_agent id -> id <> "") ->
  let who := authenticate request_jwt adminToken now access devices header in
  let r := agentRoutes who st call in
  (exists subject, admitted who (fleet_permission call) (fleet_device call) subject /\ fleet_fine st call subject r) \/
  (exists code error, r = (st, Http.Failed code error) /\ (code = 401 \/ code = 403) /\
     forall subject, ~ admitted who (fleet_permission call) (fleet_device call) subject).
Proof.
  intros Hok Hid who r. destruct (fleet_all_handled who st call Hok Hid) as (handler & E & H). subst r. rewrite E.
  destruct (guarded_cases who (fleet_permission call) (fleet_device call) st handler) as [(s & Ha & ->)|Hr]; [left|by right].
  exists s. split; [done|apply H].
Qed.
End theorems.

(** ** What reaches the agents *)

Section delivery.
Context {T : Type -> Type} {ST : Store T} {LT : StoreLaws T} {HG : Gcm} {HS : Sha256} {TL : Tools}.
Context (rq : RequestEnv).
Implicit Types (w : World T) (st : FleetState T).
Notation now := (rq_now rq).

(** The agent's socket is open. *)
Definition listens w (id : string) (s : nat) : Prop :=
  map_get id (w_hub w) = Some s /\ sk_readyState (socket w s) = OPEN.

(** Later frames come after earlier ones, on the same sockets. *)
Definition grows w w' : Prop :=
  w_hub w' = w_hub w /\ agents (w_db w') = agents (w_db w) /\
  forall s, sk_readyState (socket w' s) = sk_readyState (socket w s) /\
    exists more, sk_out (socket w' s) = sk_out (socket w s) ++ more.

Lemma grows_refl w : grows w w.
Proof. split; [done|]. split; [done|]. intros s. split; [done|]. exists []. by rewrite app_nil_r. Qed.

Lemma grows_trans w1 w2 w3 : grows w1 w2 -> grows w2 w3 -> grows w1 w3.
Proof.
  intros (Hh1 & Ha1 & H1) (Hh2 & Ha2 & H2). split; [congruence|]. split; [congruence|]. intros s.
  destruct (H1 s) as [R1 [m1 E1]], (H2 s) as [R2 [m2 E2]]. split; [congruence|].
  exists (m1 ++ m2). by rewrite E2, E1, app_assoc.
Qed.

Lemma hub_send_grows id msg w : grows w (hub_send id msg w).1.
Proof.
  unfold hub_send. destruct (map_get id (w_hub w)) as [s|]; [|apply grows_refl].
  destruct (negb _) eqn:Eo; [apply grows_refl|]. cbn [fst]. unfold sock_send.
  apply negb_false_iff in Eo. rewrite Eo. split; [done|]. split; [done|]. intros s'.
  rewrite socket_set. destruct (decide (s = s')) as [<-|]; cbn; split; try done; [by eexists|].
  exists []. by rewrite app_nil_r.
Qed.

Lemma dispatch_grows commandId w id type payload : grows w (dispatchCommand now commandId w id type payload).1.
Proof.
  split; [|split; [apply (dispatch_agents rq)|]].
  - unfold dispatchCommand, enqueueCommand. destruct (exists_row _ _); [|done]. unfold push_command.
    match goal with |- context [hub_send ?i ?m ?w0] => pose proof (hub_send_grows i m w0) as (Hh & _);
      destruct (hub_send i m w0) as [w' []] end; done.
  - unfold dispatchCommand, enqueueCommand. destruct (exists_row _ _); [|exact (proj2 (proj2 (grows_refl w)))]. unfold push_command.
    match goal with |- context [hub_send ?i ?m ?w0] => pose proof (hub_send_grows i m w0) as (_ & _ & Hs);
      destruct (hub_send i m w0) as [w' []] end; done.
Qed.

(** A command dispatched to an agent whose socket is open is sent on it. *)
Lemma dispatch_delivers commandId w id s type payload :
  exists_row (is_agent id) (agents (w_db w)) = true -> listens w id s ->
  exists command, cd_agentId command = id /\ cd_type command = type /\ cd_payload command = payload /\
    sk_out (socket (dispatchCommand now commandId w id type payload).1 s) = sk_out (socket w s) ++ [Command command].
Proof.
  intros Ha [Hs Ho]. unfold dispatchCommand, enqueueCommand. rewrite Ha. cbn [fst].
  unfold push_command, hub_send. cbn [with_db w_hub]. rewrite Hs.
  change (socket (with_db _ w) s) with (socket w s). rewrite Ho, Z.eqb_refl. cbn [negb].
  eexists. split; [|split; [|split]]; cycle 3.
  - cbn [fst]. unfold socket at 1. cbn [with_db w_sockets]. change (default no_socket (?m !! s)) with (default no_socket (m !! s)).
    unfold sock_send. change (socket (with_db _ w) s) with (socket w s). rewrite Ho, Z.eqb_refl.
    cbn [set_socket w_sockets]. rewrite lookup_insert, decide_True by done. reflexivity.
  - done.
  - done.
  - done.
Qed.

(** An approved agent, not an agentless device. *)
Definition configured (a : AgentDTO) : bool := String.eqb (ag_kind a) "agent" && String.eqb (ag_status a) "approved".

(** A command that gives [id] the cadence [sec] is among the frames of socket [s]. *)
Definition told (sec : Z) (id : string) w (s : nat) : Prop :=
  exists command, Command command ∈ sk_out (socket w s) /\ cd_agentId command = id /\ cd_type command = "config" /\
    cd_payload command = Some [("intervalSec", integer sec)].

Lemma told_grows sec id w w' s : grows w w' -> told sec id w s -> told sec id w' s.
Proof.
  intros (_ & _ & Hg) (c & Hc & H). destruct (Hg s) as [_ [more E]]. exists c. rewrite E. split; [|done].
  apply elem_of_app. by left.
Qed.

Lemma grows_listens w w' id s : grows w w' -> listens w id s -> listens w' id s.
Proof. intros (Hh & _ & Hg) [Hs Ho]. split; [by rewrite Hh|]. by rewrite (proj1 (Hg s)). Qed.

Lemma sync_tells ids interval all : forall w,
  (forall a, a ∈ all -> exists_row (is_agent (ag_id a)) (agents (w_db w)) = true) ->
  exists w', sync_config now ids interval w all = (w', Ok (List.length (List.filter configured all))) /\ grows w w' /\
    forall a s, a ∈ all -> configured a = true -> listens w (ag_id a) s -> told (interval (ag_id a)) (ag_id a) w' s.
Proof.
  induction all as [|a all IH]; intros w Hall.
  { exists w. split; [done|]. split; [apply grows_refl|]. intros a s Ha%not_elem_of_nil. done. }
  cbn [sync_config List.filter]. unfold configured at 1. rewrite <- negb_andb. destruct (_ && _) eqn:Ec; cbn [negb].
  - set (payload := Some _). assert (Ha : exists_row (is_agent (ag_id a)) (agents (w_db w)) = true) by (apply Hall; left).
    destruct (dispatch_passes rq (ids (List.length all)) w (ag_id a) "config" payload Ha) as [c Hc].
    pose proof (dispatch_grows (ids (List.length all)) w (ag_id a) "config" payload) as Hg.
    pose proof (dispatch_delivers (ids (List.length all)) w (ag_id a)) as Hd.
    destruct (dispatchCommand _ _ w _ _ _) as [w1 r] eqn:E. cbn in Hc, Hg. subst r.
    destruct (IH w1) as (w' & -> & Hg' & Ht).
    { intros b Hb. destruct Hg as (_ & -> & _). apply Hall. by right. }
    exists w'. split; [done|]. split; [by eapply grows_trans|]. intros b s [->|Hb]%elem_of_cons Hcb Hl.
    + apply (told_grows _ _ w1); [done|]. destruct (Hd s "config" payload Ha Hl) as (c' & H1 & H2 & H3 & H4).
      rewrite E in H4. cbn [fst] in H4. exists c'. rewrite H4. split; [|done]. apply elem_of_app. right. left.
    + apply Ht; [done|done|]. by apply (grows_listens w).
  - destruct (IH w) as (w' & -> & Hg' & Ht). { intros b Hb. apply Hall. by right. }
    exists w'. split; [done|]. split; [done|]. intros b s [->|Hb]%elem_of_cons Hcb Hl; [|by apply Ht].
    unfold configured in Hcb. congruence.
Qed.

Lemma listed_there isConnected db a : a ∈ listAgents isConnected now db -> exists_row (is_agent (ag_id a)) (agents db) = true.
Proof.
  intros (r & -> & Hr)%elem_of_map. apply existsb_true. exists r. split; [done|]. apply String.eqb_refl.
Qed.

(** After the global cadence changed, one request tells every approved agent whose socket is open its own effective
    cadence; it never fails, and answers how many agents are approved, also those that are not connected. *)
Theorem sync_reaches_all fresh subject st :
  exists w, handle_sync rq fresh subject st =
      (app_audit rq subject (audit_input "agent.config.sync" "agents" None None
         (Some (JObj [("pushed", integer (Z.of_nat (List.length (List.filter configured (listAgents (connected st) now (fleet st))))))])))
         (set_world w st),
       Sent 200 (Pushed (List.length (List.filter configured (listAgents (connected st) now (fleet st)))))) /\
    forall a s, a ∈ listAgents (connected st) now (fleet st) -> configured a = true -> listens (fl_world st) (ag_id a) s ->
      told (effectivePushInterval (fl_settings st) (fleet st) (ag_id a)) (ag_id a) w s.
Proof.
  unfold handle_sync.
  destruct (sync_tells fresh (effectivePushInterval (fl_settings st) (fleet st))
    (listAgents (connected st) now (fleet st)) (fl_world st)) as (w & -> & _ & Ht).
  { intros a. apply listed_there. }
  exists w. by split.
Qed.
End delivery.

(** ** Access withdrawn *)

Section withdrawal.
Context {T : Type -> Type} {ST : Store T} {LT : StoreLaws T} {HG : Gcm} {HS : Sha256} {TL : Tools}.
Context (rq : RequestEnv).
Implicit Types (st : FleetState T) (db : FleetDb T).

Lemma unapproved_refused t db id header : isApproved db id = false -> (requireApproved t db header).2 <> Ok id.
Proof.
  intros Hn. unfold requireApproved, requireKey. destruct (nonempty header) as [raw|]; [|done].
  destruct (resolveAgentKey db raw) as [row|]; [|done]. cbn [snd].
  destruct (nonempty (akey_agentId row)) as [a|]; [|done]. cbn.
  change (isApproved (touchKeyUsage t db (akey_id row)) a) with (isApproved db a).
  destruct (isApproved db a) eqn:E; [|done]. intros [= ->]. congruence.
Qed.

Lemma revoked_unapproved isConnected now db id : isApproved (revokeAgent isConnected now db id).1 id = false.
Proof.
  unfold isApproved, revokeAgent, update_agent, update_returning. cbn [fst with_agents agents].
  destruct (select_first _ (update_where _ _ _)) as [a|] eqn:E; [|done].
  apply select_first_Some in E as [Ha Hp]. apply elem_of_update in Ha as (r & _ & ->).
  destruct (is_agent id r) eqn:Er; [done|congruence].
Qed.

Lemma deleted_unapproved now db boards h id : isApproved (delete_agent now db boards h id).1.1.1 id = false.
Proof.
  unfold isApproved, delete_agent, deleteAgent. destruct (negb _); cbn [fst agents];
    (destruct (select_first _ (delete_where _ _)) as [a|] eqn:E; [|done]);
    apply select_first_Some in E as [[_ Hn]%elem_of_delete Hp]; congruence.
Qed.

(** Once an agent is revoked or deleted no key works for it, whatever was registered before and whenever it is
    presented; once a key is revoked it opens nothing. *)
Theorem access_withdrawn subject st id t header :
  let revoked := fleet (fst (answered_agent rq subject "agent.revoke" (fun _ => None) st id
                   (revokeAgent (connected st) (rq_now rq) (fleet st) id))) in
  let deleted := fleet (fst (handle_remove rq subject st id)) in
  let rekeyed := fleet (fst (handle_revoke_key rq subject st id)) in
  (requireApproved t revoked header).2 <> Ok id /\ (requireApproved t deleted header).2 <> Ok id /\
  forall row, (requireKey t rekeyed header).2 = Ok row -> akey_id row <> id.
Proof.
  intros revoked deleted rekeyed. split; [|split].
  - apply unapproved_refused. subst revoked.
    pose proof (revoked_unapproved (connected st) (rq_now rq) (fleet st) id) as H.
    destruct (revokeAgent _ _ _ _) as [db [agent|]]; exact H.
  - apply unapproved_refused. subst deleted. unfold handle_remove.
    pose proof (deleted_unapproved (rq_now rq) (fleet st) (fl_boards st) (fl_history st) id) as H.
    destruct (delete_agent _ _ _ _ _) as [[[db b] h] []]; exact H.
  - intros row. unfold requireKey. destruct (nonempty header) as [raw|]; [|done].
    destruct (resolveAgentKey rekeyed raw) as [r|] eqn:E; [|done]. cbn [snd]. intros [= <-] Hid.
    assert (Hk : rekeyed = with_agentKeys (update_where (is_key id) (set_akey_disabled true) (agentKeys (fleet st))) (fleet st)).
    { subst rekeyed. unfold handle_revoke_key, revokeConnectionKey, update_returning. by destruct (bool_decide _). }
    unfold resolveAgentKey in E. destruct (select_first _ _) as [k|] eqn:Ek; [|done].
    destruct (akey_disabled k) eqn:Ed; [done|]. injection E as ->.
    apply select_first_Some in Ek as [Hr _]. rewrite Hk in Hr. cbn [with_agentKeys agentKeys] in Hr.
    apply elem_of_update in Hr as (k0 & _ & Hk0). unfold is_key in Hk0.
    destruct (String.eqb_spec (akey_id k0) id) as [He|Hne]; subst r; [done|]. done.
Qed.

Lemma effective_updated settings db f sec id a :
  a ∈ rows (agents db) -> agent_id a = id ->
  (forall a, agent_id (f a) = agent_id a /\ agent_pushIntervalSec (f a) = Some sec) ->
  effectivePushInterval settings (with_agents (update_where (is_agent id) f (agents db)) db) id
  = clampPushInterval (inject_Z sec).
Proof.
  intros Ha Hid Hf. unfold effectivePushInterval. cbn [with_agents agents].
  destruct (select_first _ _) as [r|] eqn:E.
  - apply select_first_Some in E as [Hr Hp]. apply elem_of_update in Hr as (r0 & _ & ->).
    destruct (is_agent id r0) eqn:Er; [|congruence]. by rewrite (proj2 (Hf r0)).
  - exfalso. rewrite select_first_None in E. assert (Hin : f a ∈ rows (update_where (is_agent id) f (agents db))).
    { apply elem_of_update. exists a. split; [done|]. unfold is_agent. by rewrite Hid, String.eqb_refl. }
    specialize (E _ Hin). unfold is_agent in E. by rewrite (proj1 (Hf a)), Hid, String.eqb_refl in E.
Qed.

Lemma clampPushInterval_idem q : clampPushInterval (inject_Z (clampPushInterval q)) = clampPushInterval q.
Proof.
  unfold clampPushInterval, AGENT_PUSH_INTERVAL_MIN, AGENT_PUSH_INTERVAL_MAX. rewrite js_round_inject_Z. lia.
Qed.

Lemma pushed_told commandId id s sec sec' (r : FleetState T * reply FleetBody) code body :
  snd r = Sent code body -> exists_row (is_agent id) (agents (fleet (fst r))) = true -> listens (fl_world (fst r)) id s ->
  sec = sec' -> told sec' id (fl_world (fst (push_config rq commandId id [("intervalSec", integer sec)] r))) s.
Proof.
  destruct r as [st' rep]. cbn [fst snd]. intros -> Ha Hl <-. cbn [push_config].
  destruct (dispatch_delivers rq commandId (fl_world st') id s "config" (Some [("intervalSec", integer sec)]) Ha Hl)
    as (c & H1 & H2 & H3 & H4).
  destruct (dispatchCommand _ _ _ _ _ _) as [w [x|e]]; cbn in H4 |- *; exists c; (split; [|done]);
    rewrite H4; apply elem_of_app; right; left.
Qed.

Lemma push_grows commandId id payload (r : FleetState T * reply FleetBody) :
  grows (fl_world (fst r)) (fl_world (fst (push_config rq commandId id payload r))).
Proof.
  destruct r as [st' [code body|code e|]]; cbn [push_config fst]; try apply grows_refl.
  pose proof (dispatch_grows rq commandId (fl_world st') id "config" (Some payload)) as H.
  destruct (dispatchCommand _ _ _ _ _ _) as [w [x|e]]; exact H.
Qed.

Lemma push_settings commandId id payload (r : FleetState T * reply FleetBody) :
  fl_settings (fst (push_config rq commandId id payload r)) = fl_settings (fst r).
Proof.
  destruct r as [st' [code body|code e|]]; cbn [push_config fst]; try done.
  by destruct (dispatchCommand _ _ _ _ _ _) as [w [x|e]].
Qed.

(** What the update of a cadence leaves for the rest of the handler. *)
Record patched st (id : string) (sec : Q) (s : nat) (r : FleetState T * reply FleetBody) : Prop := {
  pa_sent : exists code body, snd r = Sent code body;
  pa_there : exists_row (is_agent id) (agents (fleet (fst r))) = true;
  pa_listens : listens (fl_world (fst r)) id s;
  pa_cadence : effectivePushInterval (fl_settings (fst r)) (fleet (fst r)) id = clampPushInterval sec
}.

Lemma cadence_patched subject st id patch sec a s :
  ap_pushIntervalSec patch = Some (Some sec) -> a ∈ rows (agents (fleet st)) -> agent_id a = id ->
  listens (fl_world st) id s ->
  patched st id sec s (answered_agent rq subject "agent.update" (fun a => Some (agent_json a)) st id
    (updateAgent (connected st) (rq_now rq) (fleet st) id patch)).
Proof.
  intros Hp Ha Hid Hl. assert (Hm : is_agent id a = true) by (unfold is_agent; rewrite Hid; apply String.eqb_refl).
  unfold updateAgent, update_agent, update_returning. rewrite Hp. cbn [option_map opt_set].
  destruct (select_first (is_agent id) (agents (fleet st))) as [a0|] eqn:E; cycle 1.
  { rewrite select_first_None in E. specialize (E a Ha). congruence. }
  set (f := fun x : AgentRow => opt_set set_agent_metadata _ _).
  assert (Hf : forall x, agent_id (f x) = agent_id x /\ agent_pushIntervalSec (f x) = Some (clampPushInterval sec)).
  { intros x. subst f. by destruct patch as [[] ? []]. }
  cbn [option_map answered_agent]. constructor.
  - by do 2 eexists.
  - apply existsb_true. exists (f a). split; [apply elem_of_update; exists a; by rewrite Hm|].
    unfold is_agent. by rewrite (proj1 (Hf a)).
  - exact Hl.
  - change (effectivePushInterval (fl_settings st) (with_agents (update_where (is_agent id) f (agents (fleet st))) (fleet st)) id
      = clampPushInterval sec).
    rewrite (effective_updated _ _ _ (clampPushInterval sec) id a) by done. apply clampPushInterval_idem.
Qed.

(** A new cadence of an agent whose socket is open is sent on it at once, clamped, and is the one its next pull of the
    configuration is answered with. *)
Theorem cadence_applies fresh subject st id patch sec a s :
  ap_pushIntervalSec patch = Some (Some sec) -> a ∈ rows (agents (fleet st)) -> agent_id a = id ->
  listens (fl_world st) id s ->
  let st' := fst (handle_patch rq fresh subject st id patch) in
  told (clampPushInterval sec) id (fl_world st') s /\
  effectivePushInterval (fl_settings st') (fleet st') id = clampPushInterval sec.
Proof.
  intros Hp Ha Hid Hl st'. subst st'. unfold handle_patch.
  destruct (cadence_patched subject st id patch sec a s Hp Ha Hid Hl) as [(code & body & Hsent) Hex Hl0 Heff].
  rewrite Hp. set (r0 := answered_agent _ _ _ _ _ _ _) in *.
  set (r1 := push_config rq (fresh 0%nat) id _ r0).
  assert (H : forall r2 : FleetState T * reply FleetBody, grows (fl_world (fst r1)) (fl_world (fst r2)) -> fl_settings (fst r2) = fl_settings (fst r1) ->
    told (clampPushInterval sec) id (fl_world (fst r2)) s /\
    effectivePushInterval (fl_settings (fst r2)) (fleet (fst r2)) id = clampPushInterval sec).
  { intros r2 Hg Hs. split.
    - apply (told_grows _ _ _ _ _ Hg). by apply (pushed_told _ _ _ _ _ _ code body).
    - rewrite Hs. unfold r1. rewrite push_settings. unfold effectivePushInterval, fleet in *.
      rewrite (proj1 (proj2 Hg)). unfold r1. by rewrite (proj1 (proj2 (push_grows _ _ _ r0))). }
  destruct (ap_debug patch); apply H; [apply push_grows|apply push_settings|apply grows_refl|done].
Qed.
End withdrawal.

(** A deletion whose id is empty answers 404 and leaves no audit row, but has taken the list of all monitors for that
    of the agent, and forgotten the credentials of every one. *)
Example empty_id_forgets now id t m (s : SecretRow) :
  let db : FleetDb list := {| agents := []; agentKeys := []; agentCommands := []; monitors := [m]; secrets := [s] |} in
  mon_id m = id -> secret_ref s = cred_ref id ->
  let st : FleetState list := {| fl_world := {| w_db := db; w_sockets := ∅; w_hub := [] |}; fl_boards := [];
    fl_history := t; fl_settings := []; fl_log := [] |} in
  let r := handle_remove {| rq_ip := ""; rq_now := now; rq_auditId := "x" |} {| sub_userId := "u"; sub_isOwner := true;
    sub_permissions := []; sub_attributes := [] |} st "" in
  snd r = Http.Failed 404 "not_found" /\ fl_log (fst r) = [] /\ secrets (fleet (fst r)) = [].
Proof.
  intros db <- Hs st r. subst r st. unfold handle_remove, fleet. cbn.
  unfold deleteMonitorCred. cbn. rewrite Hs, String.eqb_refl. done.
Qed.

(** ** Builds *)

Record BuildBody : Type := {
  bb_os : option string; bb_arch : string; bb_all : option bool; bb_nas : option bool; bb_format : option string
}.
Record BuildQuery : Type := { bq_version : string; bq_os : string; bq_arch : string }.

Inductive BuildCall : Type :=
| get_builds | post_build (body : option BuildBody) | download_build (q : option BuildQuery)
| download_image (q : option (string * string)).

(** A download is its bytes and the name of [Content-Disposition]. *)
Inductive BuildReply : Type :=
| BuildRows (rows : list BuildMeta) (goAvailable : bool) (currentVersion : string)
| AnImage (version arch format : string) (size builtAt : Z)
| AllBuilds (version : string) (result : Ensured)
| ABuild (m : BuildMeta)
| Bytes (content filename : string).

Section build_routes.
Context {T : Type -> Type} {ST : Store T} {HS : Sha256} {TL : Tools}.
Context (rq : RequestEnv) (BUILD_DIR : list string) (AGENT_VERSION : string) (done_at : Z) (ensure_at : string -> Z).
Implicit Types (st : BuildState T) (who : auth_outcome) (subject : AuthSubject).
Notation now := (rq_now rq).

Definition no_go st : BuildState T * reply BuildReply := (st, Http.Failed 503 "go_toolchain_unavailable").
Definition build_failed st : BuildState T * reply BuildReply := (st, Http.Failed 500 "build_failed").

Definition image_target (format arch : string) : string := "nas-" +:+ format +:+ "-" +:+ arch +:+ "@" +:+ AGENT_VERSION.

Definition handle_build subject st (b : BuildBody) : BuildState T * reply BuildReply :=
  if negb go_available then no_go st else
  if default false (bb_nas b) then
    let format := default "qnap" (bb_format b) in
    match buildNasImage BUILD_DIR now done_at (bs_files st) (bb_arch b) AGENT_VERSION format with
    | (fs, Err _) => build_failed (set_files fs st)
    | (fs, Ok img) => record_and rq subject "agentbuild.nas" "agents" (Some (image_target format (bb_arch b))) None None 200
        (AnImage AGENT_VERSION (bb_arch b) format (im_size img) done_at) (set_files fs st)
    end
  else match default false (bb_all b), nonempty (bb_os b) with
  | false, Some os =>
      match buildAgent BUILD_DIR now done_at (bs_files st) os (bb_arch b) AGENT_VERSION with
      | (fs, Err _) => build_failed (set_files fs st)
      | (fs, Ok m) => record_and rq subject "agentbuild.create" "agents"
          (Some (bm_os m +:+ "-" +:+ bm_arch m +:+ "@" +:+ bm_version m)) None (Some (build_json m)) 200 (ABuild m) (set_files fs st)
      end
  | _, _ =>
      let '(fs, result) := ensureAllBuilds BUILD_DIR ensure_at (bs_files st) AGENT_VERSION in
      record_and rq subject "agentbuild.create" "agents" (Some ("all@" +:+ AGENT_VERSION)) None (Some (ensured_json result)) 200
        (AllBuilds AGENT_VERSION result) (set_files fs st)
  end.

Definition handle_image subject st (q : string * string) : BuildState T * reply BuildReply :=
  let '(arch, format) := q in
  if negb go_available then no_go st else
  match readNasImage BUILD_DIR now done_at (bs_files st) arch AGENT_VERSION format with
  | (fs, Err _) => build_failed (set_files fs st)
  | (fs, Ok (content, filename)) =>
      record_and rq subject "agentbuild.nas" "agents" (Some (image_target format arch)) None None 200
        (Bytes content filename) (set_files fs st)
  end.

Definition agentBuildRoutes who st (call : BuildCall) : BuildState T * reply BuildReply :=
  match call with
  | get_builds => guarded who "agents:read" false st (fun _ =>
      (st, Sent 200 (BuildRows (listBuilds BUILD_DIR (bs_files st)) go_available AGENT_VERSION)))
  | post_build body => guarded who "agents:write" false st (fun subject => with_body body st (handle_build subject st))
  | download_build q => guarded who "agents:read" false st (fun _ => with_body q st (fun q =>
      match readBuildFile BUILD_DIR (bs_files st) (bq_version q) (bq_os q) (bq_arch q) with
      | Ok (content, filename) => (st, Sent 200 (Bytes content filename))
      | Err _ => not_found st
      end))
  | download_image q => guarded who "agents:read" false st (fun subject => with_body q st (handle_image subject st))
  end.
End build_routes.

Definition build_permission (call : BuildCall) : string := match call with post_build _ => "agents:write" | _ => "agents:read" end.
Definition build_action (call : BuildCall) : option string :=
  match call with
  | post_build (Some b) => Some (if default false (bb_nas b) then "agentbuild.nas" else "agentbuild.create")
  | post_build None => Some "agentbuild.create"
  | download_image _ => Some "agentbuild.nas"
  | _ => None
  end.

Section build_theorems.
Context {T : Type -> Type} {ST : Store T} {LT : StoreLaws T} {HS : Sha256} {TL : Tools} {HJ : Jwt}.
Context (rq : RequestEnv) (BUILD_DIR : list string) (AGENT_VERSION : string) (done_at : Z) (ensure_at : string -> Z).
Implicit Types (st : BuildState T).
Notation now := (rq_now rq).
Notation fine := (Http.accounted (T := T) (B := BuildReply) rq).

Lemma build_same st fs : keeps (bs_files st) fs -> same_state st (set_files fs st).
Proof. by split. Qed.

Lemma image_fine subject st q :
  fine subject st (Some "agentbuild.nas") (handle_image rq BUILD_DIR AGENT_VERSION done_at subject st q).
Proof.
  destruct q as [arch format]. unfold handle_image. destruct (negb go_available).
  { apply acc_refused. split; [done|]. apply keeps_refl. }
  destruct (readNasImage _ _ _ _ _ _ _) as [fs [[content filename]|e]] eqn:E; [by apply record_fine|].
  apply acc_refused, build_same. unfold readNasImage in E.
  destruct (assertTarget "linux" arch) as [u|]; [|injection E as <- _; apply keeps_refl].
  destruct (nasImageDir _ _ _) as [d|]; [|injection E as <- _; apply keeps_refl].
  destruct (bs_files st !! _); [injection E as <- _; apply keeps_refl|].
  pose proof (buildNasImage_adds BUILD_DIR now done_at arch AGENT_VERSION format (bs_files st)) as Ha. cbv beta in Ha.
  destruct (buildNasImage _ _ _ _ _ _ _) as [fs1 [r|]]; injection E as <- _; by destruct Ha.
Qed.

Lemma build_fine subject st b :
  fine subject st (build_action (post_build (Some b))) (handle_build rq BUILD_DIR AGENT_VERSION done_at ensure_at subject st b).
Proof.
  unfold handle_build, build_action. destruct (negb go_available).
  { apply acc_refused. split; [done|]. apply keeps_refl. }
  destruct (default false (bb_nas b)).
  - pose proof (buildNasImage_adds BUILD_DIR now done_at (bb_arch b) AGENT_VERSION (default "qnap" (bb_format b)) (bs_files st)) as Ha.
    cbv beta in Ha. destruct (buildNasImage _ _ _ _ _ _ _) as [fs [r|]]; [by apply record_fine|].
    apply acc_refused, build_same. by destruct Ha.
  - assert (Hall : fine subject st (Some "agentbuild.create")
      (let '(fs, result) := ensureAllBuilds BUILD_DIR ensure_at (bs_files st) AGENT_VERSION in
       record_and rq subject "agentbuild.create" "agents" (Some ("all@" +:+ AGENT_VERSION)) None (Some (ensured_json result)) 200
         (AllBuilds AGENT_VERSION result) (set_files fs st))).
    { destruct (ensureAllBuilds _ _ _ _). by apply record_fine. }
    destruct (default false (bb_all b)); [exact Hall|]. destruct (nonempty (bb_os b)) as [os|]; [|exact Hall].
    pose proof (buildAgent_adds BUILD_DIR now done_at os (bb_arch b) AGENT_VERSION (bs_files st)) as Ha.
    cbv beta in Ha. destruct (buildAgent _ _ _ _ _ _ _) as [fs [r|]]; [by apply record_fine|].
    apply acc_refused, build_same. by destruct Ha.
Qed.

(** The same for the routes of builds. *)
Theorem builds_accounted request_jwt adminToken (access : AccessDb T) (devices : T WallDeviceRow) header st call :
  let who := authenticate request_jwt adminToken now access devices header in
  let r := agentBuildRoutes rq BUILD_DIR AGENT_VERSION done_at ensure_at who st call in
  (exists subject, admitted who (build_permission call) false subject /\ fine subject st (build_action call) r) \/
  (exists code error, r = (st, Http.Failed code error) /\ (code = 401 \/ code = 403) /\
     forall subject, ~ admitted who (build_permission call) false subject).
Proof.
  intros who. assert (Hs : same_state st st) by (split; [done|]; by intros p).
  destruct call as [|[b|]|q|q]; apply guarded_accounted; intros subject.
  - constructor.
  - apply build_fine.
  - by apply acc_refused.
  - apply body_fine; [done|]. intros b. destruct (readBuildFile _ _ _ _ _) as [[content filename]|e]; [constructor|by apply acc_refused].
  - apply body_fine; [done|]. intros b. apply image_fine.
Qed.
End build_theorems.

(** ** Who may compile *)

(** Compiling asks for "agents:write", but fetching an image that is not there compiles too, for whoever may read. *)
Example reader_compiles :
  let tools : Tools := {| go_available := true; go_build os arch flags := Ok (os +:+ arch); tar es := "tar"; gzip s := s |} in
  let sha : Sha256 := fun s => s in
  let reader : AuthSubject := {| sub_userId := "u"; sub_isOwner := false; sub_permissions := ["agents:read"]; sub_attributes := [] |} in
  let routes := agentBuildRoutes (T := list) (HS := sha) (TL := tools) {| rq_ip := ""; rq_now := 0; rq_auditId := "x" |}
    ["data"; "agent-builds"] "1.0" 0 (fun _ => 0) (Authenticated reader None) {| bs_files := ∅; bs_log := [] |} in
  let bin := ["data"; "agent-builds"; "1.0"; "linux-amd64"; "argus-monitor"] in
  let asked := {| bb_os := Some "linux"; bb_arch := "amd64"; bb_all := None; bb_nas := None; bb_format := None |} in
  (match snd (routes (post_build (Some asked))) with Http.Failed code _ => code | _ => 0 end,
   bool_decide (is_Some (bs_files (fst (routes (post_build (Some asked)))) !! bin)),
   bool_decide (is_Some (bs_files (fst (routes (download_image (Some ("amd64", "qnap"))))) !! bin))) = (403, false, true).
Proof. vm_compute. reflexivity. Qed.
