(* ===== verification/Copies.v ===== *)
(** * The routes of copies and reports

    Models routes/backups.routes.ts and reports.routes.ts of apps/backend/src, with what
    services/backup.ts does around the export and the import (Backups.v) and the policy
    (BackupPolicy.v). Here a database is what Backups.v restores: tables of rows of one type; the
    views below say which of them are settings and audit rows. A copy is its file with the bundle its
    text holds, if it holds one. Times, sizes and file times are arguments. *)
From S2P Require Import Prelude Dates Text Store Schema RowUpdates Settings AuditLog Authz Auth Devices Gate Http.
From S2P Require Import BackupPolicy Backups Reports.

(** ** State *)

(** The settings and the audit log among the tables of a database. *)
Class Views (T : Type -> Type) `{!Store T} (R : Type) : Type := {
  settings_view : T R -> T SettingRow;
  of_settings : T SettingRow -> T R;
  audit_view : T R -> T AuditRow;
  of_audit : T AuditRow -> T R;
  audit_row : R -> option AuditRow
}.

Class ViewLaws (T : Type -> Type) `{!Store T} (R : Type) `{!Views T R} : Prop := {
  view_of_settings : forall t, settings_view (of_settings t) = t;
  view_of_audit : forall t, audit_view (of_audit t) = t;
  rows_audit_view : forall t, rows (audit_view t) = omap audit_row (rows t)
}.

Record Copy (R : Type) : Type := { copy_file : BackupFile; copy_bundle : option (BackupBundle R) }.
Arguments copy_file {R} _. Arguments copy_bundle {R} _.

Record CopyState (T : Type -> Type) (R : Type) : Type := {
  cp_master : string -> T R; cp_telemetry : string -> T R; cp_dir : list (Copy R)
}.
Arguments cp_master {T R} _. Arguments cp_telemetry {T R} _. Arguments cp_dir {T R} _.

#[export] Instance copy_audited {T : Type -> Type} {ST : Store T} {R : Type} {V : Views T R} : Audited T (CopyState T R) := {|
  log_of st := audit_view (cp_telemetry st "auditLog");
  with_log l st := {| cp_master := cp_master st;
    cp_telemetry := set_table "auditLog" (of_audit l) (cp_telemetry st); cp_dir := cp_dir st |};
  same_state := eq |}.

(** ** Requests and replies *)

Inductive CopyCall : Type :=
| post_backup (scope : option BackupScope) | get_backups | download_backup (name : string) | delete_backup (name : string)
| prune_backups | restore_backup (name : string) | get_schedules | put_schedules (body : option (list BackupSchedule))
| get_policy | put_policy (body : option BackupRetention).

Inductive CopyBody (R : Type) : Type :=
| ACopy (meta : BackupMeta) | CopyRows (rows : list BackupMeta) | TheFile (c : Copy R) | PrunedNames (deleted : list string)
| Schedules (schedules : list BackupSchedule) | ThePolicy (p : BackupRetention) | Done_.
Arguments ACopy {R} meta. Arguments CopyRows {R} rows. Arguments TheFile {R} c. Arguments PrunedNames {R} deleted.
Arguments Schedules {R} schedules. Arguments ThePolicy {R} p. Arguments Done_ {R}.

(** Reject names that are not a bare file. *)
Definition isSafeName (name : string) : bool :=
  negb (has_char "/" name) && negb (has_char "\" name) && negb (contains ".." name).

(** ** JSON *)

Definition count_json (n : Z) : json := JNum (inject_Z n).
Definition number_json (n : number) : json := match n with Fin q => JNum q | _ => JNull end.

Definition meta_json (m : BackupMeta) : json :=
  JObj [("name", JStr (bk_name m)); ("size", count_json (bk_size m)); ("createdAt", JStr (toISOString (bk_createdAt m)));
        ("scope", JStr (scope_name (bk_scope m)))].

Definition schedule_json (s : BackupSchedule) : json :=
  JObj [("id", JStr (bs_id s)); ("name", JStr (bs_name s)); ("enabled", JBool (bs_enabled s));
    ("scope", JStr (scope_name (bs_scope s))); ("frequency", JStr (bs_frequency s));
    ("intervalHours", number_json (bs_intervalHours s)); ("time", JStr (bs_time s));
    ("weekday", number_json (bs_weekday s)); ("dayOfMonth", number_json (bs_dayOfMonth s))].

Definition retention_json (p : BackupRetention) : json :=
  JObj [("keepAll", count_json (keepAll p)); ("keepConfig", count_json (keepConfig p)); ("keepData", count_json (keepData p));
    ("daily", count_json (daily p)); ("weekly", count_json (weekly p)); ("monthly", count_json (monthly p))].

(** [writeSchedules]: the list as it is cleaned and saved. *)
Definition writeSchedules {T : Type -> Type} {ST : Store T} (now : Z) (settings : T SettingRow) (schedules : list BackupSchedule)
  : option (T SettingRow * list BackupSchedule) :=
  let! clean := map_throwing (normalizeSchedule now) 0 (map schedule_json schedules) otherwise None in
  Some (setSetting now settings BACKUP_SCHEDULES_KEY (JArr (map schedule_json clean)), clean).

(** ** The service and its routes *)

Section routes.
Context {T : Type -> Type} {ST : Store T} {R : Type} {V : Views T R}.
Context (ident : string -> R -> string) (refs : string -> R -> list (string * string)) (conflict : string -> R -> R -> bool).
Context (rq : RequestEnv) (BACKUP_DIR : string) (created mtime : Z) (size_of : BackupBundle R -> Z).
Implicit Types (st : CopyState T R) (who : auth_outcome) (subject : AuthSubject) (dir : list (Copy R)).
Notation now := (rq_now rq).

Definition settings_of st : T SettingRow := settings_view (cp_master st "settings").
Definition set_settings (t : T SettingRow) st : CopyState T R := {|
  cp_master := set_table "settings" (of_settings t) (cp_master st); cp_telemetry := cp_telemetry st; cp_dir := cp_dir st |}.
Definition set_dir dir st : CopyState T R := {| cp_master := cp_master st; cp_telemetry := cp_telemetry st; cp_dir := dir |}.

Definition files dir : list BackupFile := map copy_file dir.
Definition has_name (name : string) (c : Copy R) : bool := String.eqb (file_name (copy_file c)) name.

(** The files that are left and the names that were deleted. *)
Definition prune_copies st : CopyState T R * list string :=
  let toDelete := backupsToPrune (listBackups (Some (files (cp_dir st)))) (readRetention (settings_of st)) in
  (set_dir (List.filter (fun c => negb (includes toDelete (file_name (copy_file c)))) (cp_dir st)) st, toDelete).

(** [runBackup] with the bundle that the export wrote. *)
Definition write_copy (scope : BackupScope) st : CopyState T R * BackupMeta :=
  let bundle := exportDatabases (toISOString created) (cp_master st) (cp_telemetry st) scope in
  let name := backupFileName (toISOString now) scope in
  let dir := List.filter (fun c => negb (has_name name c)) (cp_dir st)
    ++ [{| copy_file := {| file_name := name; file_size := size_of bundle; file_mtime := mtime |}; copy_bundle := Some bundle |}] in
  (fst (prune_copies (set_dir dir st)),
   {| bk_name := name; bk_size := size_of bundle; bk_createdAt := created; bk_scope := scope |}).

Definition find_copy (name : string) dir : option (Copy R) := List.find (has_name name) dir.

(** [readBackupFile]: an invalid name and a missing file are exceptions. *)
Definition read_copy (name : string) dir : result string (Copy R) :=
  let? _ := safeBackupPath BACKUP_DIR name in
  match find_copy name dir with Some c => Ok c | None => Err "ENOENT" end.

Definition restoreBackup (name : string) st : CopyState T R * result string unit :=
  match read_copy name (cp_dir st) with
  | Err e => (st, Err e)
  | Ok c =>
      match copy_bundle c with
      | None => (st, Err "SyntaxError")
      | Some bundle =>
          if negb (bundle_version bundle =? 1) then (st, Err "unsupported backup version") else
          let '(master, telemetry, r) := importDatabases ident refs conflict (cp_master st) (cp_telemetry st) bundle in
          ({| cp_master := master; cp_telemetry := telemetry; cp_dir := cp_dir st |}, r)
      end
  end.

(** A name that is not that of a bare file is answered 400 by the route itself. *)
Definition with_name (name : string) st (k : CopyState T R * reply (CopyBody R)) : CopyState T R * reply (CopyBody R) :=
  if isSafeName name then k else (st, Http.Failed 400 "invalid_request").

Definition handle_restore subject (name : string) st : CopyState T R * reply (CopyBody R) :=
  match restoreBackup name st with
  | (st, Err _) => (st, Http.Failed 400 "restore_failed")
  | (st, Ok _) => record_and rq subject "backup.restore" "backups" (Some name) None None 200 Done_ st
  end.

Definition handle_delete subject (name : string) st : CopyState T R * reply (CopyBody R) :=
  match safeBackupPath BACKUP_DIR name with
  | Err _ => (st, Thrown)
  | Ok _ =>
      if existsb (has_name name) (cp_dir st)
      then record_and rq subject "backup.delete" "backups" (Some name) None None 200 Done_
             (set_dir (List.filter (fun c => negb (has_name name c)) (cp_dir st)) st)
      else not_found st
  end.

Definition backupRoutes who st (call : CopyCall) : CopyState T R * reply (CopyBody R) :=
  let can action := guarded (B := CopyBody R) who action false st in
  match call with
  | post_backup scope => can "backups:run" (fun subject =>
      let '(st, meta) := write_copy (default ScopeAll scope) st in
      record_and rq subject "backup.create" "backups" (Some (bk_name meta)) None (Some (meta_json meta)) 200 (ACopy meta) st)
  | get_backups => can "backups:read" (fun _ => (st, Sent 200 (CopyRows (listBackups (Some (files (cp_dir st)))))))
  | download_backup name => can "backups:read" (fun _ => with_name name st
      match read_copy name (cp_dir st) with Ok c => (st, Sent 200 (TheFile c)) | Err _ => not_found st end)
  | delete_backup name => can "backups:run" (fun subject => with_name name st (handle_delete subject name st))
  | prune_backups => can "backups:run" (fun subject =>
      let '(st, deleted) := prune_copies st in
      match deleted with
      | [] => (st, Sent 200 (PrunedNames []))
      | _ => record_and rq subject "backup.prune" "backups" (Some "retention") None
               (Some (JObj [("deleted", JArr (map JStr deleted))])) 200 (PrunedNames deleted) st
      end)
  | restore_backup name => can "backups:restore" (fun subject => with_name name st (handle_restore subject name st))
  | get_schedules => can "backups:read" (fun _ =>
      match BackupPolicy.readSchedules now (settings_of st) with
      | Some schedules => (st, Sent 200 (Schedules schedules)) | None => (st, Thrown) end)
  | put_schedules body => can "backups:run" (fun subject => with_body body st (fun schedules =>
      match writeSchedules now (settings_of st) schedules with
      | None => (st, Thrown)
      | Some (t, saved) => record_and rq subject "backup.schedules" "backups" (Some "schedules") None
          (Some (JObj [("count", count_json (Z.of_nat (List.length saved)))])) 200 (Schedules saved) (set_settings t st)
      end))
  | get_policy => can "backups:read" (fun _ => (st, Sent 200 (ThePolicy (readRetention (settings_of st)))))
  | put_policy body => can "backups:run" (fun subject => with_body body st (fun policy =>
      record_and rq subject "backup.retention" "backups" (Some "retention") None (Some (retention_json policy)) 200
        (ThePolicy policy) (set_settings (writeRetention now (settings_of st) policy) st)))
  end.
End routes.

(** ** Accounting *)

Definition copy_permission (call : CopyCall) : string :=
  match call with
  | get_backups | download_backup _ | get_schedules | get_policy => "backups:read"
  | restore_backup _ => "backups:restore"
  | _ => "backups:run"
  end.

Definition copy_action (call : CopyCall) : option string :=
  match call with
  | post_backup _ => Some "backup.create" | delete_backup _ => Some "backup.delete" | prune_backups => Some "backup.prune"
  | restore_backup _ => Some "backup.restore" | put_schedules _ => Some "backup.schedules" | put_policy _ => Some "backup.retention"
  | _ => None
  end.

Section theorems.
Context {T : Type -> Type} {ST : Store T} {LT : StoreLaws T} {R : Type} {V : Views T R} {HS : Sha256} {HJ : Jwt}.
Context (ident : string -> R -> string) (refs : string -> R -> list (string * string)) (conflict : string -> R -> R -> bool).
Context (rq : RequestEnv) (BACKUP_DIR : string) (created mtime : Z) (size_of : BackupBundle R -> Z).
Implicit Types (st : CopyState T R) (subject : AuthSubject) (dir : list (Copy R)).
Notation now := (rq_now rq).
Notation fine := (accounted (T := T) (B := CopyBody R) rq).

(** Pruning that deletes nothing leaves everything. *)
Lemma prune_nothing st : snd (prune_copies st) = [] -> fst (prune_copies st) = st.
Proof.
  unfold prune_copies. cbn [fst snd]. intros ->. destruct st as [m t d]. unfold set_dir. cbn. f_equal.
  induction d as [|c d IH]; [done|]. cbn. by rewrite IH.
Qed.

(** What a request that was let in may do. A copy that cannot be read or a schedule is an exception, a prune without
    anything to delete leaves no row; a refused restore keeps the files but maybe not the databases. *)
Definition copy_fine st (call : CopyCall) subject (r : CopyState T R * reply (CopyBody R)) : Prop :=
  match call with
  | restore_backup name =>
      (exists e st', r = (st', Http.Failed 400 e) /\ cp_dir st' = cp_dir st) \/
      exists st', restoreBackup ident refs conflict BACKUP_DIR name st = (st', Ok tt) /\
        r = (app_audit rq subject (audit_input "backup.restore" "backups" (Some name) None None) st', Sent 200 Done_)
  | _ => fine subject st (copy_action call) r \/ r = (st, Thrown) \/
         (call = prune_backups /\ r = (st, Sent 200 (PrunedNames [])))
  end.

Lemma name_fine subject action st name k : fine subject st action k -> fine subject st action (with_name name st k).
Proof. intros H. unfold with_name. destruct (isSafeName name); [done|by apply acc_refused]. Qed.

Lemma delete_copy_fine subject st name :
  fine subject st (Some "backup.delete") (with_name name st (handle_delete rq BACKUP_DIR subject name st)).
Proof.
  apply name_fine. unfold handle_delete. destruct (safeBackupPath _ _); [|by apply acc_thrown].
  destruct (existsb _ _); [by apply record_fine|by apply acc_refused].
Qed.

Lemma restore_copy_fine subject st name :
  copy_fine st (restore_backup name) subject
    (with_name name st (handle_restore ident refs conflict rq BACKUP_DIR subject name st)).
Proof.
  cbn [copy_fine]. unfold with_name. destruct (isSafeName name); [|left; by eexists _, st].
  unfold handle_restore. destruct (restoreBackup _ _ _ _ _ _) as [st' [[]|e]] eqn:E; [right; by exists st'|].
  left. eexists _, st'. split; [done|]. unfold restoreBackup in E.
  destruct (read_copy _ _ _) as [c|]; [|by injection E as <- _]. destruct (copy_bundle c) as [b|]; [|by injection E as <- _].
  destruct (negb _); [by injection E as <- _|]. destruct (importDatabases _ _ _ _ _ _) as [[m t] r]. by injection E as <- _.
Qed.

(** Every request about copies is refused with nothing changed, or runs for somebody with its permission and does what
    [copy_fine] says. *)
Theorem copies_accounted request_jwt adminToken (access : AccessDb T) (devices : T WallDeviceRow) header st call :
  let who := authenticate request_jwt adminToken now access devices header in
  let r := backupRoutes ident refs conflict rq BACKUP_DIR created mtime size_of who st call in
  (exists subject, admitted who (copy_permission call) false subject /\ copy_fine st call subject r) \/
  (exists code error, r = (st, Http.Failed code error) /\ (code = 401 \/ code = 403) /\
     forall subject, ~ admitted who (copy_permission call) false subject).
Proof.
  intros who r.
  assert (exists handler, r = guarded who (copy_permission call) false st handler /\
    forall subject, copy_fine st call subject (handler subject)) as (handler & -> & H).
  { subst r. destruct call; (eexists; split; [reflexivity|]); intros subject; try apply restore_copy_fine; cbn [copy_fine].
    - left. destruct (write_copy _ _ _ _ _ _) as [st' meta] eqn:E. apply record_fine.
      unfold write_copy, prune_copies in E. by injection E as <- _.
    - left. constructor.
    - left. apply name_fine. destruct (read_copy _ _ _); [constructor|by apply acc_refused].
    - left. apply delete_copy_fine.
    - pose proof (prune_nothing st) as Hn. destruct (prune_copies st) as [st' deleted] eqn:E. cbn in Hn.
      destruct deleted as [|n l]; [right; right; by rewrite Hn|].
      left. apply record_fine. unfold prune_copies in E. by injection E as <- _.
    - destruct (BackupPolicy.readSchedules _ _); [left; constructor|right; by left].
    - left. apply body_fine; [done|]. intros l. destruct (writeSchedules _ _ _) as [[t saved]|]; [by apply record_fine|by apply acc_thrown].
    - left. constructor.
    - left. apply body_fine; [done|]. intros p. by apply record_fine. }
  destruct (guarded_cases who (copy_permission call) false st handler) as [(s & Ha & ->)|Hr]; [left|by right].
  exists s. split; [done|apply H].
Qed.

(** The files are those that [runBackup] of BackupPolicy.v leaves. *)
Lemma filter_map {A B} (f : A -> B) (p : B -> bool) l : List.filter p (map f l) = map f (List.filter (fun x => p (f x)) l).
Proof. induction l as [|x l IH]; [done|]. cbn. destruct (p (f x)); cbn; by rewrite IH. Qed.

Lemma write_copy_files scope st :
  let bundle := exportDatabases (toISOString created) (cp_master st) (cp_telemetry st) scope in
  let '(st', meta) := write_copy rq created mtime size_of scope st in
  (files (cp_dir st'), meta) = runBackup now created mtime (size_of bundle) (settings_of st) (files (cp_dir st)) scope /\
  cp_master st' = cp_master st /\ cp_telemetry st' = cp_telemetry st.
Proof.
  unfold write_copy, runBackup, prune_copies, pruneByPolicy. cbn [fst snd]. split; [|done]. f_equal.
  set (name := backupFileName _ scope). set (copy := {| copy_file := _; copy_bundle := _ |}). unfold files. cbn [set_dir cp_dir].
  rewrite (filter_map copy_file (fun f => negb (String.eqb (file_name f) name))).
  change [{| file_name := name; file_size := _; file_mtime := mtime |}] with (map copy_file [copy]).
  by rewrite <- map_app, (filter_map copy_file).
Qed.

(** The name of a copy passes the guards of the route and of the service. *)
Lemma copy_name_ok scope : iso_range now -> let name := backupFileName (toISOString now) scope in
  isSafeName name = true /\ safeBackupPath BACKUP_DIR name = Ok (BACKUP_DIR +:+ "/" +:+ name).
Proof.
  intros Ht name. destruct (stamped_name (FILE_PREFIX +:+ scope_name scope +:+ "-") now Ht) as (H1 & H2 & H3); [by destruct scope|].
  assert (He : (FILE_PREFIX +:+ scope_name scope +:+ "-") +:+ colons_to_dashes (toISOString now) +:+ ".json" = name)
    by (unfold name, backupFileName; by rewrite !str_app_assoc).
  rewrite He in H1, H2, H3. unfold isSafeName, safeBackupPath. rewrite H1, H2, H3. split; [done|]. cbn [orb].
  unfold resolve_in. assert (String.eqb name "" = false) as -> by done. assert (String.eqb name "." = false) as -> by done.
  cbn [orb]. by rewrite <- str_app_assoc, startsWith_app.
Qed.

(** A file with the name of the new copy holds the export. *)
Lemma copy_written scope st c : c ∈ cp_dir (fst (write_copy rq created mtime size_of scope st)) ->
  file_name (copy_file c) = bk_name (snd (write_copy rq created mtime size_of scope st)) ->
  copy_bundle c = Some (exportDatabases (toISOString created) (cp_master st) (cp_telemetry st) scope).
Proof.
  unfold write_copy, prune_copies. cbn [fst snd set_dir cp_dir bk_name]. intros [Hc _]%elem_of_filterb Hn.
  apply elem_of_app in Hc as [Hc|Hc%list_elem_of_singleton]; [|by subst c].
  apply elem_of_filterb in Hc as [_ Hc]. unfold has_name in Hc. rewrite Hn, String.eqb_refl in Hc. done.
Qed.

(** The tables of a scope. *)
Definition includes_side (scope : BackupScope) (master : bool) : bool :=
  match scope with ScopeAll => true | ScopeConfig => master | ScopeData => negb master end.

Lemma import_export at_ scope m t m' t' :
  consistent ident refs conflict MASTER_FKS m -> consistent ident refs conflict [] t ->
  declared refs MASTER_FKS m' -> declared refs [] t' ->
  exists m2 t2, importDatabases ident refs conflict m' t' (exportDatabases at_ m t scope) = (m2, t2, Ok tt) /\
    (if includes_side scope true then forall n, n ∈ MASTER_TABLE_ORDER -> rows (m2 n) ≡ₚ rows (m n) else m2 = m') /\
    (if includes_side scope false then forall n, n ∈ TELEMETRY_TABLE_ORDER -> rows (t2 n) ≡ₚ rows (t n) else t2 = t').
Proof.
  intros Hm Ht Hm' Ht'. destruct (restore_master ident refs conflict m m' Hm Hm') as (m2 & Hrm & Hm1 & _).
  destruct (restore_telemetry ident refs conflict t t' Ht Ht') as (t2 & Hrt & Ht1 & _).
  unfold importDatabases, exportDatabases. cbn [bundle_master bundle_telemetry].
  destruct scope; cbn [includes_side]; repeat first [rewrite decide_False by done | rewrite decide_True by done];
    rewrite ?Hrm; cbn [negb]; rewrite ?Hrt; cbn [negb]; eexists _, _; (split; [reflexivity|]); by split.
Qed.
End theorems.

Section restoring.
Context {T : Type -> Type} {ST : Store T} {LT : StoreLaws T} {R : Type} {V : Views T R} {VL : ViewLaws T R}.
Context (ident : string -> R -> string) (refs : string -> R -> list (string * string)) (conflict : string -> R -> R -> bool).
Context (rq later : RequestEnv) (BACKUP_DIR : string) (created mtime : Z) (size_of : BackupBundle R -> Z).
Implicit Types (st : CopyState T R) (subject : AuthSubject).

(** Whatever happened since, restoring a copy that is still there succeeds and puts every table of its scope back; the
    audit log of a copy with data is again that of the moment of the copy, with the row of the restore and no other:
    what was recorded in between, the copy's own row included, is gone. *)
Theorem restored_as_copied subject scope st0 st2 c :
  iso_range (rq_now rq) ->
  consistent ident refs conflict MASTER_FKS (cp_master st0) -> consistent ident refs conflict [] (cp_telemetry st0) ->
  declared refs MASTER_FKS (cp_master st2) -> declared refs [] (cp_telemetry st2) ->
  let '(st1, meta) := write_copy rq created mtime size_of scope st0 in
  c ∈ cp_dir st1 -> find_copy (bk_name meta) (cp_dir st2) = Some c ->
  exists st3, with_name (bk_name meta) st2 (handle_restore ident refs conflict later BACKUP_DIR subject (bk_name meta) st2)
      = (st3, Sent 200 Done_) /\
    (if includes_side scope true then forall n, n ∈ MASTER_TABLE_ORDER -> rows (cp_master st3 n) ≡ₚ rows (cp_master st0 n)
     else cp_master st3 = cp_master st2) /\
    (if includes_side scope false then
       (forall n, n ∈ TELEMETRY_TABLE_ORDER -> n <> "auditLog" -> rows (cp_telemetry st3 n) ≡ₚ rows (cp_telemetry st0 n)) /\
       exists row, audit_action row = "backup.restore" /\ rows (log_of st3) ≡ₚ row :: rows (log_of st0)
     else forall n, n <> "auditLog" -> cp_telemetry st3 n = cp_telemetry st2 n).
Proof.
  intros Ht Hm0 Ht0 Hm2 Ht2. pose proof (copy_written rq created mtime size_of scope st0 c) as Hw.
  destruct (write_copy _ _ _ _ _ _) as [st1 meta] eqn:E. cbn [fst snd] in Hw. intros Hc Hf.
  assert (Hn : bk_name meta = backupFileName (toISOString (rq_now rq)) scope) by (unfold write_copy in E; by injection E as _ <-).
  assert (Hb : copy_bundle c = Some (exportDatabases (toISOString created) (cp_master st0) (cp_telemetry st0) scope)).
  { apply Hw; [done|]. apply List.find_some in Hf as [_ Hf]. by apply String.eqb_eq in Hf. }
  destruct (copy_name_ok rq BACKUP_DIR scope Ht) as [Hs Hp].
  destruct (import_export ident refs conflict (toISOString created) scope _ _ _ _ Hm0 Ht0 Hm2 Ht2) as (m2 & t2 & Hi & H1 & H2).
  unfold with_name. rewrite Hn, Hs. unfold handle_restore, restoreBackup, read_copy. rewrite Hp. 
  rewrite <- Hn, Hf, Hb. cbn [bundle_version exportDatabases Z.eqb Pos.eqb negb]. rewrite Hi.
  eexists. split; [reflexivity|]. split; [exact H1|]. cbn [fst app_audit with_log copy_audited cp_telemetry log_of].
  destruct (includes_side scope false).
  - split; [intros n Hin Hne; rewrite set_table_ne by done; by apply H2|].
    eexists. split; cycle 1.
    + rewrite set_table_eq, view_of_audit. unfold audit. rewrite rows_insert. f_equiv.
      rewrite !rows_audit_view. apply omap_Permutation, H2. by do 7 right; left.
    + done.
  - intros n Hne. by rewrite set_table_ne, H2.
Qed.
End restoring.

(** ** Schedules *)

(** What the schema of the route lets through; [number().int()] within bounds. *)
Definition int_within (lo : Z) (hi : option Z) (n : number) : Prop :=
  exists z, n = Fin (inject_Z z) /\ lo <= z /\ match hi with Some h => z <= h | None => True end.

Record schedule_valid (s : BackupSchedule) : Prop := {
  sv_id : bs_id s <> ""; sv_name : bs_name s <> ""; sv_frequency : bs_frequency s ∈ BACKUP_FREQUENCIES;
  sv_interval : int_within 1 None (bs_intervalHours s); sv_time : is_time (bs_time s) = true;
  sv_weekday : int_within 0 (Some 6) (bs_weekday s); sv_day : int_within 1 (Some 31) (bs_dayOfMonth s)
}.

Lemma text_field_same key s d m : map_get key m = Some (JStr s) -> s <> "" -> text_field key (JObj m) d = s.
Proof. intros H Hs. unfold text_field. cbn [field]. rewrite H. by destruct s. Qed.

Lemma max_same lo z : lo <= z -> max_with (inject_Z lo) (Fin (inject_Z z)) = Fin (inject_Z z).
Proof. intros H. cbn. rewrite (proj2 (Qle_bool_iff _ _)); [done|]. by rewrite <- Zle_Qle. Qed.
Lemma min_same hi z : z <= hi -> min_with (inject_Z hi) (Fin (inject_Z z)) = Fin (inject_Z z).
Proof. intros H. cbn. rewrite (proj2 (Qle_bool_iff _ _)); [done|]. by rewrite <- Zle_Qle. Qed.

Lemma normalize_valid now i s : schedule_valid s -> normalizeSchedule now i (schedule_json s) = Some s.
Proof.
  destruct s as [id name enabled scope freq hours time weekday day].
  intros [Hid Hname Hf (h & Hh & Hh1 & _) Ht (w & Hw & Hw0 & Hw6) (d & Hd & Hd1 & Hd31)]. cbn in Hid, Hname, Hf, Hh, Ht, Hw, Hd. subst hours weekday day.
  unfold normalizeSchedule, schedule_json. f_equal.
  cbn [bs_id bs_name bs_enabled bs_scope bs_frequency bs_intervalHours bs_time bs_weekday bs_dayOfMonth number_json].
  rewrite (text_field_same "id" id), (text_field_same "name" name) by done.
  set (m := [("id", _); _; _; _; _; _; _; _; _]). unfold number_field.
  assert (field "enabled" (JObj m) = Some (JBool enabled)) as -> by done.
  assert (field "scope" (JObj m) = Some (JStr (scope_name scope))) as -> by done.
  assert (field "frequency" (JObj m) = Some (JStr freq)) as -> by done.
  assert (field "intervalHours" (JObj m) = Some (JNum (inject_Z h))) as -> by done.
  assert (field "time" (JObj m) = Some (JStr time)) as -> by done.
  assert (field "weekday" (JObj m) = Some (JNum (inject_Z w))) as -> by done.
  assert (field "dayOfMonth" (JObj m) = Some (JNum (inject_Z d))) as -> by done.
  apply includes_true in Hf. rewrite Hf, Ht. cbn [number_json Number_of_json Number_of_element].
  change (max_with 1 (Fin (inject_Z h))) with (max_with (inject_Z 1) (Fin (inject_Z h))).
  change (max_with 0 (Fin (inject_Z w))) with (max_with (inject_Z 0) (Fin (inject_Z w))).
  change (max_with 1 (Fin (inject_Z d))) with (max_with (inject_Z 1) (Fin (inject_Z d))). rewrite !max_same by done.
  change (min_with 6 ?n) with (min_with (inject_Z 6) n). change (min_with 31 ?n) with (min_with (inject_Z 31) n).
  rewrite !min_same by done. by destruct scope.
Qed.

Lemma normalize_all now l : Forall schedule_valid l -> forall i, map_throwing (normalizeSchedule now) i (map schedule_json l) = Some l.
Proof.
  induction 1 as [|s l Hs Hl IH]; intros i; [done|]. cbn [map map_throwing]. by rewrite normalize_valid, IH.
Qed.

(** Schedules that the route accepts are saved as they are and read back the same, now and later. *)
Theorem schedules_round_trip {T : Type -> Type} {ST : Store T} {LT : StoreLaws T} now later (settings : T SettingRow) l :
  unique_key setting_key settings -> Forall schedule_valid l ->
  exists settings', writeSchedules now settings l = Some (settings', l) /\
    BackupPolicy.readSchedules later settings' = Some l /\
    readRetention settings' = readRetention settings.
Proof.
  intros Hu Hl. unfold writeSchedules. rewrite (normalize_all now l Hl 0%nat). eexists. split; [reflexivity|].
  unfold BackupPolicy.readSchedules, readRetention. rewrite !getSetting_set by done. cbn [String.eqb Ascii.eqb].
  split; [|done]. apply normalize_all, Hl.
Qed.

(** ** Reports *)

Record ReportState (T : Type -> Type) : Type := { re_db : ReportDb T; re_dir : ReportDir; re_log : T AuditRow }.
Arguments re_db {T} _. Arguments re_dir {T} _. Arguments re_log {T} _.

#[export] Instance report_audited {T : Type -> Type} : Audited T (ReportState T) := {|
  log_of := re_log;
  with_log l st := {| re_db := re_db st; re_dir := re_dir st; re_log := l |};
  same_state := eq |}.

Definition set_reports {T : Type -> Type} (dir : ReportDir) (st : ReportState T) : ReportState T := {|
  re_db := re_db st; re_dir := dir; re_log := re_log st |}.

Inductive ReportCall : Type :=
| post_report (body : option ReportRequest) | post_report_data (body : option ReportRequest) | get_reports
| download_report (name : string) | delete_report (name : string).

Inductive ReportBody : Type :=
| AReport (meta : ReportMeta) | ADocument (doc : ReportDoc) | ReportRows (rows : list ReportMeta) | AReportFile (f : ReportFile)
| Removed.

Definition report_json (m : ReportMeta) : json :=
  JObj ([("name", JStr (rm_name m)); ("type", JStr (type_text (rm_type m))); ("createdAt", JStr (toISOString (rm_createdAt m)));
         ("size", count_json (rm_size m))] ++
    match rm_scopeLabel m with Some l => [("scopeLabel", JStr l)] | None => [] end ++
    match rm_windowLabel m with Some l => [("windowLabel", JStr l)] | None => [] end).

Section report_routes.
Context {T : Type -> Type} {ST : Store T}.
Context (rq : RequestEnv) (REPORT_DIR : string) (byteLength : ReportDoc -> Z).
Implicit Types (st : ReportState T) (who : auth_outcome).
Notation now := (rq_now rq).

Definition bare_name (name : string) st (k : ReportState T * reply ReportBody) : ReportState T * reply ReportBody :=
  if isSafeName name then k else (st, Http.Failed 400 "invalid_request").

(** A window whose text is no date is an exception. *)
Definition reportRoutes who st (call : ReportCall) : ReportState T * reply ReportBody :=
  let reads := guarded (B := ReportBody) who "reports:read" false st in
  let generates := guarded (B := ReportBody) who "reports:generate" false st in
  match call with
  | post_report body => generates (fun subject => with_body body st (fun req =>
      match generateReport byteLength now (re_db st) req (re_dir st) with
      | None => (st, Thrown)
      | Some (dir, meta) => record_and rq subject "report.generate" "reports" (Some (rm_name meta)) None (Some (report_json meta)) 200
                              (AReport meta) (set_reports dir st)
      end))
  | post_report_data body => reads (fun _ => with_body body st (fun req =>
      match buildReport now (re_db st) req with None => (st, Thrown) | Some doc => (st, Sent 200 (ADocument doc)) end))
  | get_reports => reads (fun _ => (st, Sent 200 (ReportRows (listReports (re_dir st)))))
  | download_report name => reads (fun _ => bare_name name st
      match readReportFile REPORT_DIR name (re_dir st) with Ok f => (st, Sent 200 (AReportFile f)) | Err _ => not_found st end)
  | delete_report name => generates (fun subject => bare_name name st
      match deleteReport REPORT_DIR name (re_dir st) with
      | (dir, Ok _) => record_and rq subject "report.delete" "reports" (Some name) None None 200 Removed (set_reports dir st)
      | (dir, Err _) => not_found (set_reports dir st)
      end)
  end.

Definition report_permission (call : ReportCall) : string :=
  match call with post_report _ | delete_report _ => "reports:generate" | _ => "reports:read" end.
Definition report_action (call : ReportCall) : option string :=
  match call with post_report _ => Some "report.generate" | delete_report _ => Some "report.delete" | _ => None end.

Lemma deleteReport_refused name (dir dir' : ReportDir) e : deleteReport REPORT_DIR name dir = (dir', Err e) -> dir' = dir.
Proof. unfold deleteReport. destruct (safeReportPath _ _); [destruct (map_get _ _); [done|]|]; by intros [= <- _]. Qed.

(** The same for the routes of reports; one whose window is no date is an exception. *)
Theorem reports_accounted {LT : StoreLaws T} {HS : Sha256} {HJ : Jwt} request_jwt adminToken (access : AccessDb T)
    (devices : T WallDeviceRow) header st call :
  let who := authenticate request_jwt adminToken now access devices header in
  let r := reportRoutes who st call in
  (exists subject, admitted who (report_permission call) false subject /\
     (accounted rq subject st (report_action call) r \/ r = (st, Thrown))) \/
  (exists code error, r = (st, Http.Failed code error) /\ (code = 401 \/ code = 403) /\
     forall subject, ~ admitted who (report_permission call) false subject).
Proof.
  intros who r.
  assert (exists handler, r = guarded who (report_permission call) false st handler /\
    forall subject, accounted rq subject st (report_action call) (handler subject) \/ handler subject = (st, Thrown)) as (handler & -> & H).
  { subst r. destruct call as [[req|]|[req|]| |name|name]; (eexists; split; [reflexivity|]); intros subject; cbn [with_body];
      unfold bare_name.
    - destruct (generateReport _ _ _ _ _) as [[dir meta]|]; [left; by apply record_fine|by right].
    - left. by apply acc_refused.
    - destruct (buildReport _ _ _); [left; constructor|by right].
    - left. by apply acc_refused.
    - left. constructor.
    - left. destruct (isSafeName name); [|by apply acc_refused]. destruct (readReportFile _ _ _); [constructor|by apply acc_refused].
    - left. destruct (isSafeName name); [|by apply acc_refused].
      destruct (deleteReport _ _ _) as [dir [u|e]] eqn:E; [by apply record_fine|].
      apply deleteReport_refused in E as ->. apply acc_refused. by destruct st. }
  destruct (guarded_cases who (report_permission call) false st handler) as [(s & Ha & ->)|Hr]; [left|by right].
  exists s. split; [done|apply H].
Qed.
End report_routes.

(** ** Where copies are lost *)

Section examples.
#[local] Instance row_views : Views list (SettingRow + AuditRow) := {|
  settings_view := omap (fun r : SettingRow + AuditRow => match r with inl s => Some s | _ => None end);
  of_settings := map inl;
  audit_view := omap (fun r : SettingRow + AuditRow => match r with inr a => Some a | _ => None end);
  of_audit := map inr;
  audit_row r := match r with inr a => Some a | _ => None end |}.

#[local] Instance row_view_laws : ViewLaws list (SettingRow + AuditRow).
Proof.
  split; [| |done]; cbn; intros t; (induction t as [|r t IH]; [done|]); cbn; by f_equal.
Qed.

Definition w_env : RequestEnv := {| rq_ip := ""; rq_now := 0; rq_auditId := "x" |}.
Definition w_owner : AuthSubject := {| sub_userId := "u"; sub_isOwner := true; sub_permissions := []; sub_attributes := [] |}.
Definition w_run := backupRoutes (T := list) (fun n (r : SettingRow + AuditRow) => "") (fun _ _ => []) (fun _ _ _ => true) w_env "/data/backups" 0 0
  (fun _ => 1) (Authenticated w_owner None).
Definition w_empty : CopyState list (SettingRow + AuditRow) := {| cp_master := fun _ => []; cp_telemetry := fun _ => []; cp_dir := [] |}.
Definition w_none : BackupRetention := {| keepAll := 0; keepConfig := 0; keepData := 0; daily := 0; weekly := 0; monthly := 0 |}.

(** A policy of zeros is accepted, and then a copy is deleted by the request that made it, which answers as if it were there. *)
Example zero_policy_loses_copy :
  let st := fst (w_run w_empty (put_policy (Some w_none))) in
  let r := w_run st (post_backup None) in
  (match snd r with Sent code (ACopy m) => (code, bk_name m) | _ => (0, "") end, cp_dir (fst r)) =
  ((200, "argus-backup-all-1970-01-01T00-00-00.000Z.json"), []).
Proof. vm_compute. reflexivity. Qed.

(** A restore that fails on a row has emptied the tables before, the audit log with them, and leaves no audit row. *)
Example failed_restore_unaudited :
  let logged := fst (w_run w_empty (put_policy (Some w_none))) in
  let bad : Copy (SettingRow + AuditRow) := {|
    copy_file := {| file_name := "bad.json"; file_size := 1; file_mtime := 0 |};
    copy_bundle := Some {| bundle_version := 1; bundle_createdAt := ""; bundle_scope := ScopeData; bundle_master := None;
      bundle_telemetry := Some [("logs", rows (cp_telemetry logged "auditLog") ++ rows (cp_telemetry logged "auditLog"))] |} |} in
  let r := w_run {| cp_master := cp_master logged; cp_telemetry := cp_telemetry logged; cp_dir := [bad] |} (restore_backup "bad.json") in
  (List.length (cp_telemetry logged "auditLog"), match snd r with Http.Failed code e => (code, e) | _ => (0, "") end,
   List.length (cp_telemetry (fst r) "auditLog")) = (1%nat, (400, "restore_failed"), 0%nat).
Proof. vm_compute. reflexivity. Qed.
End examples.
