(* ===== verification/Ingest.v ===== *)
(** * The push of an agent

    Models [POST /api/agent/ingest] of routes/agent-ingest.routes.ts, in apps/backend/src: the gate,
    the DHCP names given to the clients an agent saw (Checks.v), the pipeline (Pipeline.v), the prune
    of orphan units (Monitors.v), the histories of databases, shares and folders (Scans.v), and the
    messages to the operators (Live.v). A handler runs without another in between; Live.v interleaves
    its two halves. [Err] around the reply is the [TypeError] of a list of clients that is none. The
    numbers of a storage sample are taken as the contract has them: one that is no number is read as
    absent, where the insert would fail. *)
From S2P Require Import Prelude Dates Text Store Schema RowUpdates Auth Health Pipeline Devices Monitors.
From S2P Require Import Agents Smb Scans Live Checks.

(** ** Reading the detail of a unit *)

(** Is a value of JavaScript truthy? *)
Definition js_truthy (v : option json) : bool :=
  match v with
  | None | Some JNull => false
  | Some (JBool b) => b
  | Some (JNum q) => negb (Qeq_bool q 0)
  | Some (JStr s) => truthy s
  | Some (JArr _) | Some (JObj _) => true
  end.

(** A member of the detail; no value but an object has any. *)
Definition detail_at (key : string) (u : UnitPush) : option json :=
  let! meta := push_meta u otherwise None in map_get key meta.
Definition field (key : string) (v : json) : option json :=
  match v with JObj m => map_get key m | _ => None end.

Definition number_at (key : string) (v : json) : option Q :=
  match field key v with Some (JNum q) => Some q | _ => None end.
Definition int_at (key : string) (v : json) : option Z :=
  let! q := number_at key v otherwise None in isInteger (Fin q).

(** The folders of a sample, as their contract has them ([FolderNode] of packages/shared). *)
Definition folder_of_json (v : json) : option FolderNode :=
  match field "name" v, int_at "sizeBytes" v, int_at "fileCount" v with
  | Some (JStr name), Some sizeBytes, Some fileCount => Some {|
      fn_name := name; fn_sizeBytes := sizeBytes; fn_fileCount := fileCount;
      fn_folderCount := int_at "folderCount" v |}
  | _, _, _ => None
  end.
Definition folders_at (v : json) : option (list FolderNode) :=
  match field "folders" v with Some (JArr fs) => mapM folder_of_json fs | _ => None end.

(** ** The clients *)

(** The loop over the clients, on the object an agent sent. *)
Definition enrich_client (f : Fortinet) (c : json) : result unit json :=
  match c with
  | JNull => Err tt
  | JObj m =>
      let named := js_truthy (map_get "hostname" m) in
      let addressed := js_truthy (map_get "mac" m) in
      if named && addressed then Ok c else
      match text_at "ip" m ≫= getDhcpLease f with
      | None => Ok c
      | Some lease =>
          let m := match nonempty (dl_hostname lease) with
                   | Some h => if named then m
                               else map_set "hostnameSource" (JStr "dhcp") (map_set "hostname" (JStr h) m)
                   | None => m end in
          Ok (JObj match nonempty (dl_mac lease) with
                   | Some a => if addressed then m else map_set "mac" (JStr a) m
                   | None => m end)
      end
  | _ => Ok c
  end.

Fixpoint each {A} (f : A -> result unit A) (l : list A) : result unit (list A) :=
  match l with
  | [] => Ok []
  | x :: l => let? x := f x in let? l := each f l in Ok (x :: l)
  end.

(** A text is walked over by its characters, which have no address. *)
Definition enrich_unit (f : Fortinet) (u : UnitPush) : result unit UnitPush :=
  match push_meta u with
  | None => Ok u
  | Some meta =>
      match map_get "clients" meta with
      | None | Some JNull | Some (JStr _) => Ok u
      | Some (JArr cs) =>
          let? cs := each (enrich_client f) cs in
          Ok {| push_entity := push_entity u; push_status := push_status u; push_pid := push_pid u;
                push_critical := push_critical u; push_meta := Some (map_set "clients" (JArr cs) meta) |}
      | Some _ => Err tt
      end
  end.

Definition enrich_units (f : Fortinet) (units : option (list UnitPush)) : result unit (option (list UnitPush)) :=
  match units with
  | None => Ok None
  | Some us => let? us := each (enrich_unit f) us in Ok (Some us)
  end.

Definition with_units (units : option (list UnitPush)) (p : AgentIngestRequest) : AgentIngestRequest := {|
  ing_units := units; ing_metrics := ing_metrics p; ing_events := ing_events p; ing_logs := ing_logs p |}.

(** ** The histories *)

(** What the handler writes: what scans write, and the history of databases. *)
Record IngestDb (T : Type -> Type) : Type := { ig_scan : ScanDb T; ig_dbMetrics : T DbMetricRow }.
Arguments ig_scan {T} _. Arguments ig_dbMetrics {T} _.

Section ingest.
Context {T : Type -> Type} {ST : Store T} {HS : Sha256}.
Context (newId : string -> nat -> string) (FOLDER_HISTORY_MIN : Z) (now : Z).
Implicit Types (db : FleetDb T) (s : ScanDb T) (st : IngestDb T).

(** The monitors of the agent by name; a later one of the same name wins. *)
Definition idByName db (agentId : string) : list (string * string) :=
  js_map mon_name mon_id (listMonitors db (Some agentId)).

Definition has_db (u : UnitPush) : bool := js_truthy (detail_at "db" u).
Definition has_storage (u : UnitPush) : bool := js_truthy (detail_at "storage" u).

(** The id of the monitor a unit is of, with the part of its detail. *)
Definition located (ids : list (string * string)) (key : string) (u : UnitPush) : option (string * json) :=
  match nonempty (map_get (push_entity u) ids), detail_at key u with
  | Some id, Some v => Some (id, v)
  | _, _ => None
  end.

Definition dbRows (ids : list (string * string)) (units : list UnitPush) : list DbMetricRow :=
  imap (fun i '(id, v) => {|
    dbm_id := newId "dbMetrics" i; dbm_monitorId := id; dbm_metrics := v; dbm_ts := now |})
    (omap (located ids "db") units).

Definition stRows (ids : list (string * string)) (units : list UnitPush) : list StorageMetricRow :=
  imap (fun i '(id, v) => {|
    sm_id := newId "storageMetrics" i; sm_storageId := id; sm_share := None;
    sm_usedPct := number_at "usedPct" v; sm_usedBytes := int_at "usedBytes" v;
    sm_totalBytes := int_at "totalBytes" v; sm_metrics := Some v; sm_ts := now |})
    (omap (located ids "storage") units).

Definition with_storage (t : T StorageMetricRow) s : ScanDb T := {|
  sd_telemetry := sd_telemetry s; sd_storage := t; sd_folders := sd_folders s;
  sd_lastFolderRecord := sd_lastFolderRecord s; sd_logs := sd_logs s; sd_patches := sd_patches s |}.
Definition with_tables (tm : TelemetryDb T) s : ScanDb T := {|
  sd_telemetry := tm; sd_storage := sd_storage s; sd_folders := sd_folders s;
  sd_lastFolderRecord := sd_lastFolderRecord s; sd_logs := sd_logs s; sd_patches := sd_patches s |}.

Definition record_metrics db (agentId : string) (units : list UnitPush) st : IngestDb T :=
  let dbUnits := List.filter has_db units in
  let storageUnits := List.filter has_storage units in
  match dbUnits, storageUnits with
  | [], [] => st
  | _, _ =>
      let ids := idByName db agentId in
      let s := with_storage (insert_all (stRows ids storageUnits) (sd_storage (ig_scan st))) (ig_scan st) in
      {| ig_scan := fold_left (fun s '(id, v) => recordFolderMetrics newId FOLDER_HISTORY_MIN now id (folders_at v) s)
           (omap (located ids "storage") storageUnits) s;
         ig_dbMetrics := insert_all (dbRows ids dbUnits) (ig_dbMetrics st) |}
  end.

(** ** The handler *)

Definition with_unitStates (t : T UnitStateRow) (tm : TelemetryDb T) : TelemetryDb T := {|
  statusEvents := statusEvents tm; logs := logs tm; notifications := notifications tm;
  uptimeBuckets := uptimeBuckets tm; unitStates := t; processMetrics := processMetrics tm;
  hostMetrics := hostMetrics tm |}.

(** [ingest], then [pruneOrphanUnits] of a push that has units. *)
Definition stored_push db (agentId : string) (p : AgentIngestRequest) (tm : TelemetryDb T) : TelemetryDb T :=
  let tm := ingest newId now agentId tm p in
  match default [] (ing_units p) with
  | [] => tm
  | _ => with_unitStates (pruneOrphanUnits db (unitStates tm) agentId) tm
  end.

(** What the operators are told. *)
Definition publication (agentId : string) (p : AgentIngestRequest) : Publication := {|
  pub_agentId := agentId; pub_units := map (unit_of_push agentId None) (default [] (ing_units p));
  pub_metrics := ing_metrics p; pub_logs := default [] (ing_logs p) |}.

Definition post_ingest (f : Fortinet) db st (header : option string) (payload : AgentIngestRequest)
  : FleetDb T * IngestDb T * result refusal (result unit (list LiveMessage)) :=
  let '(db, r) := requireApproved now db header in
  match r with
  | Err e => (db, st, Err e)
  | Ok agentId =>
      let db := touchAgent now db agentId in
      match enrich_units f (ing_units payload) with
      | Err e => (db, st, Ok (Err e))
      | Ok units =>
          let p := with_units units payload in
          let tm := stored_push db agentId p (sd_telemetry (ig_scan st)) in
          let st := {| ig_scan := with_tables tm (ig_scan st); ig_dbMetrics := ig_dbMetrics st |} in
          (db, record_metrics db agentId (default [] units) st,
           Ok (Ok (messages now (publication agentId p))))
      end
  end.
End ingest.

(** ** Theorems *)

Section theorems.
Context {T : Type -> Type} {ST : Store T} {LT : StoreLaws T} {HS : Sha256}.
Context (newId : string -> nat -> string) (FOLDER_HISTORY_MIN : Z) (now : Z).
Implicit Types (db : FleetDb T) (s : ScanDb T) (st : IngestDb T).

Notation post_ingest := (post_ingest newId FOLDER_HISTORY_MIN now).
Notation record_metrics := (record_metrics newId FOLDER_HISTORY_MIN now).
Notation stored_push := (stored_push newId now).
Notation recordFolders := (recordFolderMetrics newId FOLDER_HISTORY_MIN now).

(** *** The steps of the handler *)

Lemma approved_agent db header a :
  (requireApproved now db header).2 = Ok a ->
  truthy a = true /\ isApproved db a = true /\ monitors (requireApproved now db header).1 = monitors db.
Proof.
  unfold requireApproved, requireKey. destruct (nonempty header) as [key|]; [|done].
  destruct (resolveAgentKey db key) as [row|]; [|done]. simpl.
  destruct (nonempty (akey_agentId row)) as [b|] eqn:Hb; [|done].
  destruct (isApproved _ b) eqn:Hi; [|done]. intros [= ->]. split_and!; [|done|done].
  unfold nonempty in Hb. destruct (akey_agentId row) as [c|]; [|done].
  destruct (truthy c) eqn:Hc; [|done]. by injection Hb as ->.
Qed.

(** What a push that is let in does, in one equation. *)
Lemma post_ingest_runs f db st header payload a units :
  (requireApproved now db header).2 = Ok a -> enrich_units f (ing_units payload) = Ok units ->
  let db' := touchAgent now (requireApproved now db header).1 a in
  let p := with_units units payload in
  post_ingest f db st header payload =
  (db', record_metrics db' a (default [] units)
          {| ig_scan := with_tables (stored_push db' a p (sd_telemetry (ig_scan st))) (ig_scan st);
             ig_dbMetrics := ig_dbMetrics st |},
   Ok (Ok (messages now (publication a p)))).
Proof.
  intros Ha Hu. unfold Ingest.post_ingest. destruct (requireApproved now db header) as [d r].
  cbn [snd] in Ha. subst r. by rewrite Hu.
Qed.

Lemma each_names f us us' : each (enrich_unit f) us = Ok us' ->
  map push_entity us' = map push_entity us /\ map core_of_push us' = map core_of_push us.
Proof.
  revert us'. induction us as [|u us IH]; intros us'; simpl; [by intros [= <-]|].
  destruct (enrich_unit f u) as [u'|] eqn:Hu; [|done].
  destruct (each (enrich_unit f) us) as [l|]; [|done]. intros [= <-].
  destruct (IH l eq_refl) as [He Hc].
  assert (core_of_push u' = core_of_push u) as Hk.
  { unfold enrich_unit in Hu. destruct (push_meta u) as [meta|]; [|by injection Hu as <-].
    destruct (map_get "clients" meta) as [[| | | |cs|]|]; try done; try by injection Hu as <-.
    destruct (each (enrich_client f) cs); [|done]. by injection Hu as <-. }
  assert (push_entity u' = push_entity u) as Hn by (by injection Hk).
  by rewrite <- He, <- Hc; simpl; rewrite Hk, Hn.
Qed.

Lemma enrich_names f units units' : enrich_units f units = Ok units' ->
  map push_entity (default [] units') = map push_entity (default [] units) /\
  map core_of_push (default [] units') = map core_of_push (default [] units).
Proof.
  destruct units as [us|]; simpl; [|by intros [= <-]].
  destruct (each (enrich_unit f) us) as [l|] eqn:He; [|done]. intros [= <-]. by apply (each_names f).
Qed.

(** *** Histories *)

Lemma recorded_rest id fs s :
  sd_telemetry (recordFolders id fs s) = sd_telemetry s /\ sd_storage (recordFolders id fs s) = sd_storage s.
Proof. unfold recordFolderMetrics. destruct fs as [[|x fs]|]; [done| |done]. by destruct (_ <? _). Qed.

Lemma recorded_rows id fs s r : r ∈ rows (sd_folders (recordFolders id fs s)) ->
  fm_storageId r = id \/ r ∈ rows (sd_folders s).
Proof.
  unfold recordFolderMetrics. destruct fs as [[|x fs]|]; [by right| |by right].
  destruct (_ <? _); [by right|]. cbn [sd_folders].
  intros [(i & y & -> & _)%elem_of_lookup_imap_1|]%elem_of_insert_all; [by left|by right].
Qed.

Lemma record_loop (l : list (string * json)) s :
  let s' := fold_left (fun s '(id, v) => recordFolders id (folders_at v) s) l s in
  sd_telemetry s' = sd_telemetry s /\ sd_storage s' = sd_storage s /\
  forall r, r ∈ rows (sd_folders s') -> fm_storageId r ∈ map fst l \/ r ∈ rows (sd_folders s).
Proof.
  revert s. induction l as [|[id v] l IH]; intros s; [by split_and!; [..|right]|]. cbn [fold_left map fst].
  destruct (IH (recordFolders id (folders_at v) s)) as (Ht & Hs & Hr).
  destruct (recorded_rest id (folders_at v) s) as [Ht' Hs'].
  split; [by rewrite Ht|]. split; [by rewrite Hs|]. intros r [Hin|[<-|]%recorded_rows]%Hr; [left; by right|left; by left|by right].
Qed.

(** The monitor a unit is located at. *)
Definition measured db (a key : string) (units : list UnitPush) (id : string) (v : json) : Prop :=
  exists m u, m ∈ rows (monitors db) /\ mon_agentId m = a /\ mon_id m = id /\
    u ∈ units /\ push_entity u = mon_name m /\ detail_at key u = Some v.

Lemma located_measured db a key units (p : UnitPush -> bool) id v : truthy a = true ->
  (id, v) ∈ omap (located (idByName db a) key) (List.filter p units) -> measured db a key units id v.
Proof.
  intros Ha (u & [Hu _]%elem_of_filterb & Hl)%list_elem_of_omap. unfold located in Hl.
  destruct (nonempty (map_get (push_entity u) (idByName db a))) as [i|] eqn:Hi; [|done].
  destruct (detail_at key u) as [w|] eqn:Hw; [|done]. injection Hl as -> ->.
  unfold nonempty in Hi. destruct (map_get (push_entity u) (idByName db a)) as [j|] eqn:Hj; [|done].
  destruct (truthy j); [|done]. injection Hi as ->.
  apply map_get_js_map_Some in Hj as (m & Hm & Hn & <-). unfold listMonitors, nonempty in Hm. rewrite Ha in Hm.
  apply elem_of_select in Hm as [Hm Hof%String.eqb_eq]. by exists m, u.
Qed.

(** Every new point is of a monitor of the agent, and no point goes. *)
Definition own_points db (a : string) (units : list UnitPush) st st' : Prop :=
  (forall r, r ∈ rows (ig_dbMetrics st) -> r ∈ rows (ig_dbMetrics st')) /\
  (forall r, r ∈ rows (sd_storage (ig_scan st)) -> r ∈ rows (sd_storage (ig_scan st'))) /\
  (forall r, r ∈ rows (ig_dbMetrics st') -> r ∈ rows (ig_dbMetrics st) \/
     dbm_ts r = now /\ measured db a "db" units (dbm_monitorId r) (dbm_metrics r)) /\
  (forall r, r ∈ rows (sd_storage (ig_scan st')) -> r ∈ rows (sd_storage (ig_scan st)) \/
     sm_ts r = now /\ exists v, sm_metrics r = Some v /\ measured db a "storage" units (sm_storageId r) v) /\
  (forall r, r ∈ rows (sd_folders (ig_scan st')) -> r ∈ rows (sd_folders (ig_scan st)) \/
     exists v, measured db a "storage" units (fm_storageId r) v).

Lemma record_metrics_own db a units st : truthy a = true ->
  own_points db a units st (record_metrics db a units st) /\
  sd_telemetry (ig_scan (record_metrics db a units st)) = sd_telemetry (ig_scan st).
Proof.
  intros Ha. unfold Ingest.record_metrics.
  set (dbs := List.filter has_db units). set (sts := List.filter has_storage units).
  set (all := {| ig_scan := _; ig_dbMetrics := _ |}).
  assert (Hall : own_points db a units st all /\ sd_telemetry (ig_scan all) = sd_telemetry (ig_scan st)).
  { unfold all. set (ids := idByName db a). set (s0 := with_storage _ _).
    destruct (record_loop (omap (located ids "storage") sts) s0) as (Ht & Hs & Hf). split; [|exact Ht].
    unfold own_points. cbn [ig_scan ig_dbMetrics]. rewrite Hs. cbn [with_storage sd_storage s0].
    setoid_rewrite elem_of_insert_all. split_and!; [tauto|tauto|..].
    - intros r [(i & [id v] & -> & Hl%list_elem_of_lookup_2)%elem_of_lookup_imap_1|]; [right|by left].
      split; [done|]. by eapply located_measured.
    - intros r [(i & [id v] & -> & Hl%list_elem_of_lookup_2)%elem_of_lookup_imap_1|]; [right|by left].
      split; [done|]. exists v. split; [done|]. by eapply located_measured.
    - intros r [([id v] & He & Hin)%elem_of_map|]%Hf; [right|by left]. exists v. simpl in He. subst id.
      by eapply located_measured. }
  destruct dbs, sts; [|exact Hall..]. split; [|done]. unfold own_points. split_and!; intros r; tauto.
Qed.

(** *** The states of units *)

Lemma pruned_rows db (t : T UnitStateRow) a r :
  r ∈ rows (pruneOrphanUnits db t a) <->
  r ∈ rows t /\ (us_sourceId r = a -> select (of_agent a) (monitors db) <> [] ->
    exists m, m ∈ rows (monitors db) /\ mon_agentId m = a /\ mon_name m = us_entity r).
Proof.
  unfold pruneOrphanUnits. set (ms := select (of_agent a) (monitors db)).
  assert (Hms : forall m, m ∈ ms <-> m ∈ rows (monitors db) /\ mon_agentId m = a).
  { intros m. unfold ms. rewrite elem_of_select. by unfold of_agent; rewrite String.eqb_eq. }
  destruct (Nat.eqb_spec (List.length (map mon_name ms)) 0) as [Hl|Hl].
  - split; [|tauto]. intros Hr. split; [done|]. intros _ Hne. destruct Hne. destruct ms; [done|discriminate].
  - rewrite elem_of_delete. split; intros [Hr Hc]; (split; [exact Hr|]).
    + intros He _. apply andb_false_iff in Hc as [Hc%String.eqb_neq|Hc%negb_false_iff]; [done|].
      apply includes_true, elem_of_map in Hc as (m & Hn & [Hm Ha]%Hms). by exists m.
    + apply andb_false_iff. destruct (String.eqb_spec (us_sourceId r) a) as [He|]; [right|by left].
      destruct Hc as (m & Hm & Ha & Hn); [done|intros Hnil; by rewrite Hnil in Hl|].
      apply negb_false_iff, includes_true, elem_of_map. exists m. split; [done|]. by apply Hms.
Qed.

Lemma stored_push_units db a p tm :
  unitStates (stored_push db a p tm) =
  let t := fold_left (baseline_step now a) (default [] (ing_units p)) (unitStates tm) in
  match default [] (ing_units p) with [] => t | _ => pruneOrphanUnits db t a end.
Proof.
  unfold Ingest.stored_push. rewrite <- (ingest_units newId). by destruct (default [] (ing_units p)).
Qed.

(** A push that is answered, taken apart. *)
Definition stored_state db (a : string) (p : AgentIngestRequest) st : IngestDb T := {|
  ig_scan := with_tables (stored_push db a p (sd_telemetry (ig_scan st))) (ig_scan st);
  ig_dbMetrics := ig_dbMetrics st |}.

Lemma post_ingest_inv f db st header payload db' st' msgs :
  post_ingest f db st header payload = (db', st', Ok (Ok msgs)) ->
  exists a us, (requireApproved now db header).2 = Ok a /\ enrich_units f (ing_units payload) = Ok us /\
    monitors db' = monitors db /\ own_points db' a (default [] us) (stored_state db' a (with_units us payload) st) st' /\
    sd_telemetry (ig_scan st') = stored_push db' a (with_units us payload) (sd_telemetry (ig_scan st)) /\
    msgs = messages now (publication a (with_units us payload)).
Proof.
  intros H. destruct (requireApproved now db header).2 as [a|e] eqn:Ha; [|unfold Ingest.post_ingest in H;
    destruct (requireApproved now db header); simpl in Ha; subst; simplify_eq].
  destruct (enrich_units f (ing_units payload)) as [us|e] eqn:He; [|unfold Ingest.post_ingest in H;
    destruct (requireApproved now db header); simpl in Ha; subst; rewrite He in H; simplify_eq].
  rewrite (post_ingest_runs f db st header payload a us Ha He) in H. injection H as <- <- <-.
  destruct (approved_agent db header a Ha) as (Hta & _ & Hm). exists a, us. do 3 (split; [done|]).
  match goal with |- context [Ingest.record_metrics _ _ _ ?d a ?us' ?st1] =>
    destruct (record_metrics_own d a us' st1 Hta) as [Hown Htele] end.
  split; [exact Hown|]. split; [exact Htele|done].
Qed.

(** C6: A push stays in its agent's own: every other source keeps its units, every new point of a
    history is of a monitor of the agent the key is bound to, named as a unit of the push, and once
    the agent has monitors no unit of it is left that none of them has the name of. *)
Theorem ingest_own f db st header payload db' st' msgs
  (Hu : unique_key state_key (unitStates (sd_telemetry (ig_scan st))))
  (H : post_ingest f db st header payload = (db', st', Ok (Ok msgs))) :
  exists a us, (requireApproved now db header).2 = Ok a /\
    enrich_units f (ing_units payload) = Ok us /\
    own_points db a (default [] us) st st' /\
    (forall r, us_sourceId r <> a ->
       r ∈ rows (unitStates (sd_telemetry (ig_scan st'))) <-> r ∈ rows (unitStates (sd_telemetry (ig_scan st)))) /\
    (default [] us <> [] -> select (of_agent a) (monitors db) <> [] ->
     forall r, r ∈ rows (unitStates (sd_telemetry (ig_scan st'))) -> us_sourceId r = a ->
       exists m, m ∈ rows (monitors db) /\ mon_agentId m = a /\ mon_name m = us_entity r).
Proof.
  apply post_ingest_inv in H as (a & us & Ha & He & Hm & Hown & -> & _).
  destruct (baseline_loop newId now a (default [] us) _ Hu) as (_ & _ & Hothers & _).
  exists a, us. do 2 (split; [done|]). split.
  { unfold own_points, measured in *. rewrite Hm in Hown. exact Hown. }
  rewrite stored_push_units. cbn [with_units ing_units].
  destruct (default [] us) as [|u l]; [split; [exact Hothers|done]|]. split.
  - intros r Hr. rewrite pruned_rows, Hothers by done. naive_solver.
  - intros _ Hne r [_ Hr]%pruned_rows Hs. rewrite Hm in Hr. by apply Hr.
Qed.

(** The stored state of the agent's units is the previous one with the push over it, whatever leases
    are known, as far as its monitors still have their names. *)
Theorem ingest_baseline f db st header payload db' st' msgs a
  (Hu : unique_key state_key (unitStates (sd_telemetry (ig_scan st))))
  (Ha : (requireApproved now db header).2 = Ok a)
  (H : post_ingest f db st header payload = (db', st', Ok (Ok msgs))) n
  (Hn : select (of_agent a) (monitors db) = [] \/
        exists m, m ∈ rows (monitors db) /\ mon_agentId m = a /\ mon_name m = n) :
  unique_key state_key (unitStates (sd_telemetry (ig_scan st'))) /\
  baseline a (unitStates (sd_telemetry (ig_scan st'))) !! n =
  Health.refresh (baseline a (unitStates (sd_telemetry (ig_scan st))))
    (map core_of_push (default [] (ing_units payload))) !! n.
Proof.
  apply post_ingest_inv in H as (a' & us & Ha' & He & Hm & _ & -> & _). rewrite Ha in Ha'. injection Ha' as <-.
  rewrite <- (proj2 (enrich_names f _ us He)).
  destruct (baseline_loop newId now a (default [] us) _ Hu) as (Hk & Hb & _). rewrite <- Hb.
  rewrite stored_push_units. cbn [with_units ing_units].
  destruct (default [] us) as [|u l]; [done|]. set (t := fold_left _ (u :: l) _) in *.
  assert (Hk' : unique_key state_key (pruneOrphanUnits db' t a)).
  { unfold pruneOrphanUnits. destruct (Nat.eqb _ 0); [done|]. by apply unique_key_delete. }
  split; [done|]. unfold baseline. rewrite !lookup_fmap. f_equal. apply option_eq. intros q.
  rewrite !prev_map_lookup by done. f_equiv. intros r. rewrite pruned_rows, Hm.
  split; [tauto|]. intros (Hr & Hs & ->). split; [|done]. split; [done|]. intros _ Hne.
  destruct Hn as [|Hn]; [done|]. unfold state_key in Hs. injection Hs as _ ->. exact Hn.
Qed.

(** The handler is what the live view runs of it, to its end: the two halves with nothing between
    them store what it stores, and the operators get its messages. *)
Theorem ingest_as_live f db st header payload db' st' msgs a isConnected (w : Live T)
  (Ha : (requireApproved now db header).2 = Ok a)
  (H : post_ingest f db st header payload = (db', st', Ok (Ok msgs)))
  (Hf : lv_fleet w = db') (Ht : lv_telemetry w = sd_telemetry (ig_scan st)) :
  exists us p w1 t w2, enrich_units f (ing_units payload) = Ok us /\ messages now p = msgs /\
    ingest_run newId now a (with_units us payload) w = (w1, [t]) /\
    (t = Broadcasting p /\ w2 = w1 \/ t = Pruning p /\ run_task now isConnected t w1 = (w2, [Broadcasting p])) /\
    lv_telemetry w2 = sd_telemetry (ig_scan st').
Proof.
  apply post_ingest_inv in H as (a' & us & Ha' & He & Hm & _ & Hs & ->). rewrite Ha in Ha'. injection Ha' as <-.
  exists us, (publication a (with_units us payload)). rewrite Hs, <- Ht.
  unfold ingest_run, Ingest.stored_push, publication. cbn [with_units ing_units ing_metrics ing_logs].
  destruct (default [] us) as [|u l]; do 3 eexists;
    (split; [done|]); (split; [reflexivity|]); (split; [reflexivity|]).
  - split; [by left|done].
  - split; [right; split; reflexivity|]. simpl. by rewrite Hf.
Qed.

(** *** Errors *)

(** A list of clients the loop can walk over. *)
Definition readable (u : UnitPush) : bool :=
  match detail_at "clients" u with
  | None | Some JNull | Some (JStr _) => true
  | Some (JArr cs) => forallb (fun c => negb (AuditLog.is_null c)) cs
  | Some _ => false
  end.

Lemma each_ok {A} (g : A -> result unit A) (p : A -> bool) (l : list A) :
  (forall x, is_ok (g x) = p x) -> is_ok (each g l) = forallb p l.
Proof.
  intros Hp. induction l as [|x l IH]; [done|]. simpl. rewrite <- IH, <- Hp. destruct (g x); [|done].
  simpl. by destruct (each g l).
Qed.

Lemma enrich_client_ok f c : is_ok (enrich_client f c) = negb (AuditLog.is_null c).
Proof.
  destruct c as [| | | | |m]; [done..|]. unfold enrich_client.
  destruct (_ && _); [done|]. by destruct (text_at "ip" m ≫= getDhcpLease f).
Qed.

Lemma enrich_unit_ok f u : is_ok (enrich_unit f u) = readable u.
Proof.
  unfold enrich_unit, readable, detail_at. destruct (push_meta u) as [meta|]; [|done].
  destruct (map_get "clients" meta) as [[| | | |cs|]|]; [done|done|done|done| |done|done].
  rewrite <- (each_ok _ _ cs (enrich_client_ok f)).
  by destruct (each (enrich_client f) cs).
Qed.

(** A push that is refused or malformed stores nothing: the gate alone decides the refusal; behind it
    a push fails exactly when a unit's clients are no list of clients, whatever the leases, and then
    only the agent's last contact is kept. *)
Theorem ingest_refused f db st header payload :
  let '(db', st', r) := post_ingest f db st header payload in
  match (requireApproved now db header).2 with
  | Err e => r = Err e /\ st' = st /\ db' = (requireApproved now db header).1
  | Ok a => db' = touchAgent now (requireApproved now db header).1 a /\
      if forallb readable (default [] (ing_units payload)) then exists msgs, r = Ok (Ok msgs)
      else r = Ok (Err tt) /\ st' = st
  end.
Proof.
  unfold Ingest.post_ingest. destruct (requireApproved now db header) as [d [a|e]]; [|done]. cbn [fst snd].
  assert (He : is_ok (enrich_units f (ing_units payload)) = forallb readable (default [] (ing_units payload))).
  { destruct (ing_units payload) as [us|]; [|done].
    change (default [] (Some us)) with us. rewrite <- (each_ok _ _ us (enrich_unit_ok f)).
    simpl. by destruct (each (enrich_unit f) us). }
  rewrite <- He. destruct (enrich_units f (ing_units payload)) as [us|[]]; cbn [is_ok];
    [split; [done|by eexists]|done].
Qed.

(** *** Clients *)

(** A client as its contract has it ([ClientSample] of packages/shared). *)
Definition seen (m : list (string * json)) : SeenClient := {|
  sc_ip := default "" (text_at "ip" m); sc_hostname := text_at "hostname" m; sc_mac := text_at "mac" m;
  sc_hostnameSource := text_at "hostnameSource" m |}.
Definition optional_text (v : option json) : bool :=
  match v with None | Some JNull | Some (JStr _) => true | _ => false end.

Lemma truthy_text m k : optional_text (map_get k m) = true ->
  js_truthy (map_get k m) = match nonempty (text_at k m) with Some _ => true | None => false end.
Proof.
  unfold text_at, nonempty. destruct (map_get k m) as [[| | |s| |]|]; try done. intros _. simpl.
  by destruct (truthy s).
Qed.

Lemma text_at_set k k' v m : text_at k (map_set k' (JStr v) m) = if decide (k = k') then Some v else text_at k m.
Proof.
  unfold text_at. destruct (decide (k = k')) as [->|Hne]; [by rewrite map_get_set_eq|].
  by rewrite map_get_set_ne.
Qed.

(** The loop over the objects is [Checks.enrich] on what the contract says of them, and touches
    nothing else of the client. *)
Theorem enrich_client_typed f m ip (Hip : text_at "ip" m = Some ip)
  (Hh : optional_text (map_get "hostname" m) = true) (Hm : optional_text (map_get "mac" m) = true) :
  exists m', enrich_client f (JObj m) = Ok (JObj m') /\ seen m' = enrich f (seen m) /\
    (forall k, k ∉ ["hostname"; "hostnameSource"; "mac"] -> map_get k m' = map_get k m).
Proof.
  unfold enrich_client, enrich. rewrite (truthy_text m "hostname" Hh), (truthy_text m "mac" Hm), Hip. simpl mbind.
  assert (Hs : sc_ip (seen m) = ip) by (simpl; by rewrite Hip). rewrite Hs.
  change (sc_hostname (seen m)) with (text_at "hostname" m). change (sc_mac (seen m)) with (text_at "mac" m).
  destruct (getDhcpLease f ip) as [lease|], (nonempty (text_at "hostname" m)) as [h|], (nonempty (text_at "mac" m)) as [a|];
    try (by exists m); cbn [andb];
    destruct (nonempty (dl_hostname lease)) as [h'|], (nonempty (dl_mac lease)) as [a'|];
    eexists; (split; [reflexivity|]); (split; [|intros k Hk; by rewrite ?map_get_set_ne by set_solver]);
    unfold seen; rewrite ?text_at_set; simpl; rewrite ?Hip; reflexivity.
Qed.
End theorems.

(** ** Witnesses and examples *)

#[local] Existing Instance toy_sha.

Definition w_monitor (id name type : string) : MonitorRow := {|
  mon_id := id; mon_agentId := "a1"; mon_type := type; mon_name := name; mon_enabled := true;
  mon_config := []; mon_createdAt := 0; mon_updatedAt := 0 |}.
Definition w_fleet : FleetDb list := {|
  agents := agents Agents.w_keyed; agentKeys := agentKeys Agents.w_keyed; agentCommands := [];
  monitors := [w_monitor "m1" "web" "http"; w_monitor "m2" "orders" "database"; w_monitor "m3" "orders" "database"];
  secrets := [] |}.
Definition w_state : IngestDb list := {|
  ig_scan := {| sd_telemetry := Pipeline.w_db; sd_storage := []; sd_folders := []; sd_lastFolderRecord := [];
                sd_logs := []; sd_patches := [] |};
  ig_dbMetrics := [] |}.
Definition w_leases : Fortinet := {|
  ft_leases := [("10.0.0.7", {| dl_hostname := Some "till"; dl_mac := Some "aa:bb" |})]; ft_running := false |}.
Definition w_unit (n : string) (meta : option (list (string * json))) : UnitPush := {|
  push_entity := n; push_status := DOWN; push_pid := None; push_critical := None; push_meta := meta |}.
Definition w_push (units : list UnitPush) : AgentIngestRequest := {|
  ing_units := Some units; ing_metrics := None; ing_events := None; ing_logs := None |}.
Definition w_client : list (string * json) := [("ip", JStr "10.0.0.7"); ("port", JNum 5); ("mac", JNull)].
Definition w_full : AgentIngestRequest :=
  w_push [w_unit "web" (Some [("clients", JArr [JObj w_client])]); w_unit "orders" (Some [("db", JObj [("up", JBool true)])])].
Definition w_run (p : AgentIngestRequest) :=
  post_ingest (T := list) (fun t _ => t) 60 1782280407123 w_leases w_fleet w_state (Some "argus_one") p.
Definition w_messages (p : AgentIngestRequest) : list LiveMessage :=
  match (w_run p).2 with Ok (Ok msgs) => msgs | _ => [] end.

Lemma w_answered : w_run w_full = ((w_run w_full).1.1, (w_run w_full).1.2, Ok (Ok (w_messages w_full))).
Proof. vm_compute. reflexivity. Qed.

Lemma w_units_keyed : unique_key state_key (unitStates (sd_telemetry (ig_scan w_state))).
Proof. apply (proj1 Pipeline.w_keyed). Qed.

Lemma ingest_own_witness :
  exists us, enrich_units w_leases (ing_units w_full) = Ok us /\
    own_points 1782280407123 w_fleet "a1" (default [] us) w_state (w_run w_full).1.2.
Proof.
  destruct (ingest_own (T := list) (HS := toy_sha) (fun t _ => t) 60 1782280407123 w_leases w_fleet w_state (Some "argus_one")
    w_full _ _ _ w_units_keyed w_answered) as (a & us & Ha & He & Ho & _).
  vm_compute in Ha. injection Ha as <-. exists us. split; [exact He|exact Ho].
Defined.

Lemma ingest_baseline_witness :
  baseline "a1" (unitStates (sd_telemetry (ig_scan (w_run w_full).1.2))) !! "orders" =
  Some {| entity := "orders"; status := DOWN; pid := None |}.
Proof.
  rewrite (proj2 (ingest_baseline (T := list) (HS := toy_sha) (fun t _ => t) 60 1782280407123 w_leases w_fleet w_state (Some "argus_one")
    w_full _ _ _ "a1" w_units_keyed eq_refl w_answered "orders"
    (or_intror (ex_intro _ (w_monitor "m2" "orders" "database")
      (conj (list_elem_of_further _ _ _ (list_elem_of_here _ _)) (conj eq_refl eq_refl)))))).
  vm_compute. reflexivity.
Defined.

(** Two monitors of one name: the point goes to the later one only. *)
Example last_name_wins :
  map dbm_monitorId (ig_dbMetrics (w_run w_full).1.2) = ["m3"].
Proof. vm_compute. reflexivity. Qed.

(** The lease is stored and broadcast with the client. *)
Example lease_reaches_operators :
  map lu_meta (match w_messages w_full with LivePatch _ us _ :: _ => us | _ => [] end) =
  [Some (JObj [("clients", JArr [JObj [("ip", JStr "10.0.0.7"); ("port", JNum 5); ("mac", JStr "aa:bb");
     ("hostname", JStr "till"); ("hostnameSource", JStr "dhcp")]])]); Some (JObj [("db", JObj [("up", JBool true)])])].
Proof. vm_compute. reflexivity. Qed.

(** A unit no monitor has the name of is pruned before the answer, and still shown to the operators:
    a live view keeps it until its next snapshot. *)
Example pruned_unit_broadcast :
  let p := w_push [w_unit "renamed" None] in
  map us_entity (select (fun r => String.eqb (us_entity r) "renamed")
    (unitStates (sd_telemetry (ig_scan (w_run p).1.2)))) = [] /\
  map lu_entity (match w_messages p with LivePatch _ us _ :: _ => us | _ => [] end) = ["renamed"].
Proof. vm_compute. split; reflexivity. Qed.

(** One client that is [null] loses the whole push, the states of the other units with it. *)
Example null_client_loses_push :
  w_run (w_push [w_unit "web" None; w_unit "orders" (Some [("clients", JArr [JNull])])]) =
  (touchAgent 1782280407123 (requireApproved 1782280407123 w_fleet (Some "argus_one")).1 "a1", w_state, Ok (Err tt)).
Proof. vm_compute. reflexivity. Qed.
